(* ===== verification/_CoqProject ===== *)
-Q . S2P
Prelude.v
Float64.v
Types.v
Text.v
Queues.v
SpscConc.v
Mpsc.v
Pool.v
Outbox.v
OutboxUse.v
Timing.v
Stats.v
Readiness.v
Wire.v
WsFrame.v
Decoder.v
Windows.v
Realtime.v
Ingest.v
Signing.v
Socket.v
Router.v
NativeSocket.v
Registry.v
Feedback.v
Sql.v
Database.v
Migrations.v
Validation.v
Attempts.v
Strategy.v
Predict.v
FloatSign.v
PeState.v
PeFeatures.v
PeModels.v
PeEngine.v
Ipc.v
Repos.v
Delivery.v
Telegram.v
Dispatch.v
Config.v
Sha256.v
MlModel.v
MlLoader.v
MlPredict.v
PeOffline.v
Access.v
Models.v
Online.v
History.v
Feed.v
Scenarios.v
ScenarioTables.v
FixtureTables.v
Live.v
Orchestration.v
App.v
Pipeline.v
Engine.v
Telemetry.v
Startup.v
