(* ===== verification/Prelude.v ===== *)
(** * Verification library for CrashCore

    CrashCore is a C++20 engine that follows the rounds of a crash game over a WebSocket,
    predicts the round after each finished one, and announces its predictions and their
    outcomes in a Telegram chat.  This library models the code under [include/] (the [.cpp]
    files of [src/] only instantiate it) with the prediction engine it carries in
    [third_party/predictions-engine], and proves what its components promise.

    ** The program and the path of an event

    A binary frame is unwrapped ([WsFrame]), parsed as a Socket.IO packet with protobuf
    fields ([Wire]) and decoded to a [CrashEvent] ([Decoder]).  The realtime pipeline
    normalises, validates and counts events ([Realtime]); duplicate filters, sequence
    tracking, heartbeat and the state of each round live in [Ingest].  [Router] forwards each
    new end event to a validation and a prediction queue ([Queues]).  The application's drain
    loop ([App]) takes an end event of round N, settles the predictions made for N
    ([Validation] over [Registry], outcomes and the feedback worker in [Feedback]), and lets
    the coordinator predict round N+1 through the in-process client ([Predict], with the entry
    strategy of [Strategy], over the prediction engine of [PeEngine]).  The response handler
    registers an actionable prediction, claims its target ([Attempts]), and publishes a signal,
    in a database transaction when there is one ([Delivery]), through [DurableHandoff] and the
    outbox ([Outbox], [OutboxUse]).  The outbox worker asks the temporal guard ([Delivery]) and
    sends through the Telegram client ([Telegram], [Dispatch]).  [Startup] is the life around
    this cycle: configuration ([Config]), construction, boot ([Live], [Orchestration],
    [Readiness], [Migrations]), the turns of the loop, and the stop.  [Pipeline] and [Engine]
    are the two other compositions of the same parts that the source offers.

    ** Files

    Base:
    - [Prelude]: machine integers, results as an error monad, record updates, windows of
      lists, tactics and lemmas shared by all files.
    - [Float64]: C++ [double] as IEEE binary64 ([SpecFloat]); comparison, clamping and the
      facts that additions of finite numbers do not produce NaN.  [FloatSign]: closure of the
      numbers that are not negative under the operations.
    - [Types]: [common/], the data that components exchange, constants and error codes.
      [Text]: finding and quoting in JSON text.  [Windows]: the bounded sets of recent keys
      that several classes keep inline.

    Concurrency:
    - [Queues]: [BoundedQueue] and the sequential [SpscQueue]
      ([concurrency/bounded_queue.hpp], [spsc_queue.hpp]), and the class [BoundedFifo], the
      interface through which [Outbox], [Router] and [Feedback] use a queue; both queues are
      instances.  [SpscConc]: [SpscQueue] instruction by instruction under two threads.
      [Mpsc]: the multi-producer queue likewise.  [Pool]: tasks, workers, the work-stealing
      pool, the object pool.

    Ingestion:
    - [Timing]: [timing/].  [Wire], [WsFrame], [Decoder]: [ingestion/socketio/],
      [ingestion/websocket/ws_frame.hpp], [ingestion/event_decoder.hpp], [decode_helpers.hpp].
      [Realtime]: [realtime/].  [Ingest]: [duplicate_filter.hpp], [sequence_tracker.hpp],
      [heartbeat_monitor.hpp], [reconnect_policy.hpp], [round_state.hpp].  [Router]:
      [event_router.hpp].  [Stats]: [stats.hpp].
    - [Signing]: [ingestion/signing/] and the secret providers.  [Socket], [NativeSocket]: the
      WebSocket session, the Socket.IO client and [native_bc_socket.hpp] over the interface
      [WebSocket] of a transport.  [History], [Feed]: REST pages, poller, recovery, recordings.
      [Scenarios], [ScenarioTables], [FixtureTables]: synthetic rounds and their tables.

    Prediction:
    - [Strategy]: [prediction/acie/], [loss_cooldown.hpp], [exactly_once_feedback.hpp].
      [Predict]: [rolling_history.hpp], [in_process_prediction_client.hpp], with the engine as
      variables of a section.  [PeState], [PeFeatures], [PeModels], [PeEngine]: the engine
      itself, [pe/state], [pe/features], [pe/regimes], [pe/models], [pe/engine]; the Module
      [EngineClient] of [PeEngine] puts it under the client of [Predict].
    - [Sha256], [MlModel], [MlLoader], [MlPredict]: the engine's machine learning, [pe/ml] and
      [ml_predictive_model.hpp], a build option: the hash of a model file, its features,
      models, calibrators and health, the file format, and the predictor with the stage of the
      engine that calls it.  [PeOffline]: [calculators.hpp], feature importance and the
      clustering of regimes, which run outside the event path.
      [Ipc]: the other prediction clients, with the shared-memory ring.
    - [Models], [Online]: the models, calibrators, evaluation and containers of [prediction/],
      which nothing on the event path calls.

    Validation and delivery:
    - [Registry], [Feedback], [Validation]: [validation/].  [Attempts]: [fencing.hpp],
      [prediction_attempt.hpp], [target_coordinator.hpp].
    - [Outbox], [OutboxUse]: [delivery/outbox/]: queue, deduplication, worker loop, leases and
      handoff.  [Delivery]: signals, [temporal_auth.hpp], [durable_prediction_tx.hpp],
      [notification_worker.hpp].  [Telegram], [Dispatch]: [delivery/telegram/],
      [delivery/http/], message texts, the dispatcher over several chats, and the signer over
      HTTP.

    Persistence and operation:
    - [Sql], [Database], [Migrations], [Repos]: [persistence/].
    - [Readiness], [Telemetry]: [observability/], [telemetry/], [logging/].  [Live],
      [Orchestration]: [live/] and the start and stop managers.  [Config]: [config/],
      [security/] and the command line.  [Access]: [auth/], [betting/], [api/] and the evidence
      audit.
    - [App]: [n1_coordinator.hpp] and the handlers and the drain loop of [application.hpp].
      [Startup]: the rest of [application.hpp].  [Pipeline]: [pipeline_loop.hpp].  [Engine]:
      [event_engine.hpp].

    In every file a C++ class is a [Module] of its name, its fields are a record [t] with the
    names of the fields, and each method is a definition of its name; the line above a
    definition names the code it translates.

    ** Conventions

    A method is a function from the state (and its arguments) to its result and the new
    state.  A mutex makes a method atomic; where a method releases its lock in between
    ([Outbox::publish]) its parts are separate steps, and interleavings are step relations.
    Time is an argument: each reading of a clock is a parameter ([now], [t0], ...), or a
    function [clk] from the position of the reading in the handler to its value.  Counters
    of type [std::uint64_t] wrap ([bump]); lengths wrap where the code adds them in 64 bits.
    Hash tables are [gmap] and [gset]; what depends on their enumeration order says so.
    Callbacks are functions on the state of the client that installs them, so a handler that
    calls back into its caller sees and changes the current state.  An exception that the
    code catches is a constructor of the result.

    Parameters (sections' [Variable]s) stand for code outside the repository: PostgreSQL
    (the answer to each statement), libcurl, the HMAC of OpenSSL, sockets, files, the functions
    of the C mathematics library, and the printing and reading of doubles.  Where a component
    is used by others through an interface ([BoundedFifo], [Database], [PgOps], [WebSocket]),
    clients are proved against its laws and the implementations are instances.

    ** What the theorems show

    - The cycle: a round end leads to one response for the next round, one registration and
      one publication ([n1_publishes_once], [predict_next_answers]); the validator settles a
      round once ([game_end_resolves_once]).
    - Life: the run stops every part that it started, in the source's order, or hangs in the
      stop of the statistics server ([run_stops_everything]); [boot_opens_when_complete], [lease_protects_owner],
      [barrier_delivers], [orchestrator_start_stop].
    - Engine: the incremental statistics are those of the recorded rounds
      ([incremental_reference]) and of a scan of all rounds ([full_scan_agrees]), each outcome
      of the engine's predict call ([predict_answers]), and that a client over the engine enters
      only after 79 rounds ([entry_needs_79_rounds]).  Machine learning: what the exporter
      writes the loader reads ([export_load]), the streaming hash is the hash of the whole file
      ([sha256_streaming]), and no failure of the model costs an answer
      ([ml_never_costs_an_answer]).
    - No duplication and no loss: predictions are handed out at most as often as offered
      ([registry_conservation]); outbox keys are unique in the system and delivered once
      ([outbox_exactly_once]); superseded attempts never complete; the first decisive outcome
      of a prediction reaches the adaptive edge, up to the limit of what is remembered
      ([feedback_exactly_once]); the delivery loop terminates ([worker_drains]); under every
      interleaving the pool runs what it queued once and a full pool can lose tasks
      ([pool_runs_each_task_once]), and the readiness barrier has each event in one place
      ([barrier_delivers]); increments of a counter are never lost.
    - Ordering and safety of delivery: publication only after commit, no delivery for a round
      that has started, every chat of the dispatcher is tried.
    - Refinement: the lock-free rings behave as queues under every interleaving with stale
      reads ([spsc_concurrent_fifo], [mpsc_fifo]); the round cache is a least-recently-used
      cache ([cache_refines_lru]); the response ring is a queue that forgets
      ([response_ring_refines]); windows and filters keep exactly the last keys.
    - Codecs: round trips of frames, packets, protobuf, escaped text, SQL literals,
      configuration files and recordings, and totality of the decoders on all bytes.
    - Composition: one frame of a finished round goes through the pipeline once
      ([pipeline_end_once]), and is settled once by the engine that decodes it twice
      ([engine_settles_once]).
    - Connections: what a reconnection attempt of a session does ([session_attempt_spec]) and
      that the native socket does not reconnect by itself ([native_never_reconnects]); signatures that are
      served are recent ([sign_serves_recent]).
    - Numbers: the adaptive edge, the scores of the models and the candidates stay in their
      bounds in binary64, delays are bounded and monotone, histograms and streaks count
      exactly.

    Some theorems record surprising behaviour rather than intent (doc comments say so).
    Those marked "Remark" are further facts in the same style.

    ** Bounds and fuel

    The loops of the varint and protobuf readers run on the buffer's length (each turn
    consumes a byte), [decodeBinary_total] and [parsePacket_total] show that this is enough;
    eviction loops run on the size of the window, which each turn decreases; the drain loops
    run on the length of the queue they empty ([drain_handles_every_end], [worker_drains]).
    Limits such as the 50000 delivered keys or the 10000 seen outcomes are the constants of
    the code.

    ** Not modelled

    - What is outside the process or starts it: the byte streams of sockets
      ([beast_connection.hpp], the accept loop of the statistics server), reading and writing
      files, the creation of threads (a thread is the sequence of its turns), sleeping.
    - Code that is not reached: [native_transport.hpp], [telemetry/lifecycle_metrics.hpp]
      (which does not compile), the table of metric tags, the table of source names of the
      audit.
    - Repetitions: the files of [prediction/online/] and several model wrappers and feature
      files under [prediction/] repeat one class under numbered or different names; the first
      copy of each text is modelled.
    - Tools, benchmarks, tests, and the frontend (another language). *)
From Stdlib Require Export ZArith Lia.
From stdpp Require Export base tactics gmap sets strings numbers option list.

#[global] Set Default Goal Selector "!".

(** * Scope and notation shared by the development *)

Declare Scope cc_scope.
Delimit Scope cc_scope with cc.
Open Scope Z_scope.

(** * Machine integers

    A C++ unsigned integer of width [w] is a [Z] in [0, 2^w); arithmetic on it is taken
    modulo [2^w].  [static_cast<std::int64_t>] of an unsigned value wraps (C++20). *)

Definition wrapu (w z : Z) : Z := z mod 2 ^ w.
Definition u64 (z : Z) : Z := wrapu 64 z.
Definition u8 (z : Z) : Z := wrapu 8 z.

Definition i64 (z : Z) : Z := (z + 2 ^ 63) mod 2 ^ 64 - 2 ^ 63.

(** Narrowing to [int] (32 bits), used by [static_cast<int>]. *)
Definition i32 (z : Z) : Z := (z + 2 ^ 31) mod 2 ^ 32 - 2 ^ 31.

(** [++counter] on a [std::atomic<std::uint64_t>]. *)
Definition bump (c : Z) : Z := u64 (c + 1).

Create HintDb cc.

Lemma wrapu_range w z : 0 < w -> 0 <= wrapu w z < 2 ^ w.
Proof. intros. apply Z.mod_pos_bound. apply Z.pow_pos_nonneg; lia. Qed.

(** Reducing modulo [2^j] first does not change a residue modulo [2^k], [k <= j]. *)
Lemma mod_pow2_tower z j k : 0 <= k <= j -> (z mod 2 ^ j) mod 2 ^ k = z mod 2 ^ k.
Proof.
  intros. apply Z.mod_mod_divide. exists (2 ^ (j - k)).
  rewrite <-Z.pow_add_r by lia. f_equal. lia.
Qed.

Lemma u64_small z : 0 <= z < 2 ^ 64 -> u64 z = z.
Proof. intros. by apply Z.mod_small. Qed.

Lemma u64_range z : 0 <= u64 z < 2 ^ 64.
Proof. by apply wrapu_range. Qed.

Lemma i64_small z : - 2 ^ 63 <= z < 2 ^ 63 -> i64 z = z.
Proof. intros. unfold i64. rewrite Z.mod_small; lia. Qed.

Lemma i32_small z : - 2 ^ 31 <= z < 2 ^ 31 -> i32 z = z.
Proof. intros. unfold i32. rewrite Z.mod_small; lia. Qed.

Lemma u64_add_l x y : u64 (u64 x + y) = u64 (x + y).
Proof. unfold u64, wrapu. by rewrite Zplus_mod_idemp_l. Qed.

Lemma bump_u64 z : bump (u64 z) = u64 (z + 1).
Proof. apply u64_add_l. Qed.

Lemma u64_bump_l x y : u64 (bump x + y) = u64 (x + y + 1).
Proof. unfold bump. rewrite u64_add_l. f_equal. lia. Qed.

Lemma bump_small c : 0 <= c < 2 ^ 64 - 1 -> bump c = c + 1.
Proof. intros. apply u64_small. lia. Qed.

#[export] Hint Resolve u64_range u64_small : cc.

(** * Tactics *)

(** Destruct the scrutinee of the innermost [if] or [match] of the goal or of a hypothesis. *)
Ltac case_match_goal :=
  match goal with
  | |- context [ match ?x with _ => _ end ] =>
      lazymatch x with
      | context [ match _ with _ => _ end ] => fail
      | _ => destruct x eqn:?
      end
  end.

Ltac case_match_hyp H :=
  match type of H with
  | context [ match ?x with _ => _ end ] =>
      lazymatch x with
      | context [ match _ with _ => _ end ] => fail
      | _ => destruct x eqn:?
      end
  end.

Ltac crush_match := repeat (case_match_goal; simplify_eq/=; try done).
Ltac crush_hyp H := repeat (case_match_hyp H; simplify_eq/=; try done).

(** Turn boolean comparisons on [Z] and [nat] in the context into propositions. *)
Ltac bool_to_prop :=
  repeat match goal with
  | H : (_ && _)%bool = true |- _ => apply andb_true_iff in H as [? ?]
  | H : (_ || _)%bool = false |- _ => apply orb_false_iff in H as [? ?]
  | H : negb _ = true |- _ => apply negb_true_iff in H
  | H : negb _ = false |- _ => apply negb_false_iff in H
  | H : (_ <? _) = true |- _ => apply Z.ltb_lt in H
  | H : (_ <? _) = false |- _ => apply Z.ltb_ge in H
  | H : (_ <=? _) = true |- _ => apply Z.leb_le in H
  | H : (_ <=? _) = false |- _ => apply Z.leb_gt in H
  | H : (_ =? _) = true |- _ => apply Z.eqb_eq in H
  | H : (_ =? _) = false |- _ => apply Z.eqb_neq in H
  | H : bool_decide _ = true |- _ => apply bool_decide_eq_true_1 in H
  | H : bool_decide _ = false |- _ => apply bool_decide_eq_false_1 in H
  end.

(** * Record update

    [r <| f := v |>] is [r] with field [f] assigned, [r <| f ::= g |>] with [g] applied to
    it.  A record type declares [Eta], its expansion into its fields, and the update of a
    field is found from it. *)
Class Eta (R : Type) := eta : R -> R.
Class Setter {R T : Type} (p : R -> T) := set_field : (T -> T) -> R -> R.

Ltac find_setter :=
  lazymatch goal with
  | |- @Setter ?R ?T ?p =>
      let e := eval cbv [eta] in (@eta R _) in
      let e := eval hnf in e in
      lazymatch eval pattern p in e with
      | ?g _ =>
          let s := constr:(fun (f : T -> T) => g (fun r : R => f (p r))) in
          let s := eval cbv beta in s in exact s
      end
  end.

#[export] Hint Extern 0 (Setter _) => find_setter : typeclass_instances.

Notation "r <| p := v |>" := (set_field (p := p) (fun _ => v) r)
  (at level 1, left associativity, p at level 0, format "r <| p  :=  v |>").
Notation "r <| p ::= f |>" := (set_field (p := p) f r)
  (at level 1, left associativity, p at level 0, format "r <| p  ::=  f |>").

(** * Lists used as bounded windows

    Most containers of the program are a deque whose front is dropped while it is longer
    than a capacity: [while (d.size() > cap) d.pop_front();]. *)

(** [trim_front cap l] is the deque after that loop. *)
Definition trim_front {A} (cap : nat) (l : list A) : list A :=
  drop (length l - cap) l.

Definition push_window {A} (cap : nat) (l : list A) (x : A) : list A :=
  trim_front cap (l ++ [x]).

Lemma length_trim_front {A} cap (l : list A) :
  length (trim_front cap l) = (length l `min` cap)%nat.
Proof. unfold trim_front. rewrite length_drop. lia. Qed.

Lemma trim_front_fits {A} cap (l : list A) : (length l <= cap)%nat -> trim_front cap l = l.
Proof. intros. unfold trim_front. replace (length l - cap)%nat with 0%nat by lia. done. Qed.

Lemma trim_front_suffix {A} cap (l : list A) : trim_front cap l `suffix_of` l.
Proof. unfold trim_front. exists (take (length l - cap) l). by rewrite take_drop. Qed.

Lemma length_push_window {A} cap (l : list A) x : (length (push_window cap l x) <= cap)%nat.
Proof. unfold push_window. rewrite length_trim_front. lia. Qed.

(** A window that received the history [h] one element at a time is its last [cap] elements. *)
Lemma push_window_trim {A} cap (h : list A) x :
  push_window cap (trim_front cap h) x = trim_front cap (h ++ [x]).
Proof.
  unfold push_window, trim_front. rewrite !length_app, length_drop. simpl.
  rewrite !drop_app, length_drop, drop_drop. f_equal; f_equal; lia.
Qed.

Lemma trim_front_app {A} cap (l1 l2 : list A) : trim_front cap (trim_front cap l1 ++ l2) = trim_front cap (l1 ++ l2).
Proof.
  unfold trim_front. rewrite !length_app, length_drop, !drop_app, length_drop, drop_drop.
  f_equal; f_equal; lia.
Qed.

Lemma trim_front_app_fits {A} cap (l1 l2 : list A) :
  (length l2 <= cap)%nat -> trim_front cap (l1 ++ l2) = trim_front (cap - length l2) l1 ++ l2.
Proof.
  intros H. unfold trim_front. rewrite length_app, drop_app.
  replace (length l1 + length l2 - cap - length l1)%nat with 0%nat by lia. rewrite drop_0. do 2 f_equal. lia.
Qed.

Lemma elem_of_trim_front {A} cap (l : list A) x : x ∈ trim_front cap l -> x ∈ l.
Proof. intros H. apply elem_of_suffix with (trim_front cap l); [done|apply trim_front_suffix]. Qed.

Lemma elem_of_trim_front_last {A} cap (l : list A) x : (0 < cap)%nat -> x ∈ trim_front cap (l ++ [x]).
Proof.
  intros Hc. unfold trim_front. rewrite length_app. simpl. rewrite drop_app_le by lia. apply elem_of_app. right. by apply list_elem_of_singleton.
Qed.

Lemma NoDup_trim_front {A} cap (l : list A) : NoDup l -> NoDup (trim_front cap l).
Proof.
  intros H. destruct (trim_front_suffix cap l) as [k Hk]. rewrite Hk in H.
  by apply list.NoDup_app in H as (_ & _ & ?).
Qed.

(** The variant for a vector: one element is erased at the front when the vector is longer than
    the capacity after a push. *)
Definition push_erase {A} (cap : nat) (l : list A) (x : A) : list A :=
  let l := l ++ [x] in if (cap <? length l)%nat then tail l else l.

(** On a window that fits, it is the same as [push_window]. *)
Lemma push_erase_window {A} cap (l : list A) x : (length l <= cap)%nat -> push_erase cap l x = push_window cap l x.
Proof.
  intros H. unfold push_erase, push_window, trim_front. rewrite length_app. cbn [length].
  destruct (Nat.ltb_spec cap (length l + 1)).
  - replace (length l + 1 - cap)%nat with 1%nat by lia. by destruct (l ++ [x]).
  - by replace (length l + 1 - cap)%nat with 0%nat by lia.
Qed.

Lemma push_erase_trim {A} cap (h : list A) x : push_erase cap (trim_front cap h) x = trim_front cap (h ++ [x]).
Proof. rewrite push_erase_window; [apply push_window_trim|]. rewrite length_trim_front. lia. Qed.

#[export] Hint Resolve length_push_window NoDup_trim_front : cc.

(** Permutations of concatenations, by counting the occurrences of an arbitrary element. *)
Ltac perm_by_count dec :=
  apply (proj2 (Permutation_count_occ dec _ _)); intros ?;
  repeat first [rewrite count_occ_app | progress cbn [count_occ]];
  repeat case_match; lia.

(** * Strings *)

Definition str_empty (s : string) : bool := bool_decide (s = EmptyString).

Lemma str_empty_false s : str_empty s = false <-> s <> EmptyString.
Proof. unfold str_empty. by rewrite bool_decide_eq_false. Qed.

Lemma str_empty_true s : str_empty s = true <-> s = EmptyString.
Proof. unfold str_empty. by rewrite bool_decide_eq_true. Qed.

Lemma app_empty_str (s : string) : EmptyString +:+ s = s.
Proof. reflexivity. Qed.

Lemma app_cons_str c (s t : string) : String c s +:+ t = String c (s +:+ t).
Proof. reflexivity. Qed.

Lemma app_assoc_str (a b c : string) : (a +:+ b) +:+ c = a +:+ (b +:+ c).
Proof. induction a as [|x a IH]; [done|]. by rewrite !app_cons_str, IH. Qed.

Lemma app_nil_str (a : string) : a +:+ EmptyString = a.
Proof. induction a as [|x a IH]; [done|]. by rewrite app_cons_str, IH. Qed.

Lemma length_app_str (a b : string) : String.length (a +:+ b) = (String.length a + String.length b)%nat.
Proof. induction a as [|c a IH]; [by rewrite app_empty_str|]. rewrite app_cons_str. simpl. by rewrite IH. Qed.
