(* ===== verification/Float64.v ===== *)
(** IEEE 754 binary64 numbers: the C++ type [double].

    A [double] is a [spec_float] of the Standard Library with the parameters of binary64
    (precision 53, emax 1024), so that sums, products, quotients, comparisons and
    conversions are the correctly rounded (to nearest, ties to even) operations of the
    hardware and evaluate inside Rocq.  A decimal literal [n/d] of the source is the
    correctly rounded quotient of two exactly representable integers.

    The second half proves that the comparisons are a total preorder on the numbers other
    than NaN, and gives the tactic [forder] that decides goals about it. *)
From S2P Require Import Prelude.
From Stdlib Require Export SpecFloat.

Abbreviation double := spec_float.

Definition prec64 : Z := 53.
Definition emax64 : Z := 1024.

Definition fadd (x y : double) : double := SFadd prec64 emax64 x y.
Definition fsub (x y : double) : double := SFsub prec64 emax64 x y.
Definition fmul (x y : double) : double := SFmul prec64 emax64 x y.
Definition fdiv (x y : double) : double := SFdiv prec64 emax64 x y.
Definition fsqrt (x : double) : double := SFsqrt prec64 emax64 x.

(** [static_cast<double>(z)] for an integer [z]. *)
Definition of_Z (z : Z) : double := binary_normalize prec64 emax64 z 0 false.

(** The literal whose decimal value is [n/d]. *)
Definition flit (n d : Z) : double := fdiv (of_Z n) (of_Z d).

Definition f0 : double := S754_zero false.
Definition f1 : double := of_Z 1.

(** C++ relational operators: all are false when an operand is NaN. *)
Definition flt (x y : double) : bool := SFltb x y.
Definition fle (x y : double) : bool := SFleb x y.
Definition fgt (x y : double) : bool := SFltb y x.
Definition fge (x y : double) : bool := SFleb y x.
Definition feq (x y : double) : bool := SFeqb x y.

Definition is_nan (x : double) : bool := match x with S754_nan => true | _ => false end.

(** [std::isfinite] *)
Definition is_finite (x : double) : bool :=
  match x with S754_zero _ | S754_finite _ _ _ => true | _ => false end.

(** [std::clamp(v, lo, hi)], [std::min], [std::max]. *)
Definition fclamp (v lo hi : double) : double :=
  if flt v lo then lo else if flt hi v then hi else v.
Definition fmin (x y : double) : double := if flt y x then y else x.
Definition fmax (x y : double) : double := if flt x y then y else x.

(** Integer part, rounding toward zero: the value of [static_cast<std::int64_t>(x)] when it
    is representable (the conversion is undefined otherwise). *)
Definition ftrunc (x : double) : Z :=
  match x with
  | S754_finite s m e =>
      let a := if 0 <=? e then Z.pos m * 2 ^ e else Z.pos m / 2 ^ (- e) in
      if s then - a else a
  | _ => 0
  end.

(** [std::floor]: the identity on zeros, infinities and NaN. *)
Definition ffloor (x : double) : double :=
  match x with
  | S754_finite s m e =>
      if 0 <=? e then x
      else if s then of_Z (- ((Z.pos m + 2 ^ (- e) - 1) / 2 ^ (- e)))
      else match Z.pos m / 2 ^ (- e) with
           | 0 => S754_zero false
           | z => of_Z z
           end
  | _ => x
  end.

(** [std::llround]: to nearest, halfway cases away from zero. *)
Definition fllround (x : double) : Z :=
  match x with
  | S754_finite s m e =>
      let a := if 0 <=? e then Z.pos m * 2 ^ e
               else (2 * Z.pos m + 2 ^ (- e)) / (2 * 2 ^ (- e)) in
      if s then - a else a
  | _ => 0
  end.

#[export] Instance double_eq_dec : EqDecision double.
Proof. solve_decision. Defined.

#[global] Arguments fadd : simpl never.
#[global] Arguments fsub : simpl never.
#[global] Arguments fmul : simpl never.
#[global] Arguments fdiv : simpl never.
#[global] Arguments fsqrt : simpl never.
#[global] Arguments of_Z : simpl never.
#[global] Arguments flit : simpl never.
#[global] Arguments flt : simpl never.
#[global] Arguments fle : simpl never.
#[global] Arguments fgt : simpl never.
#[global] Arguments fge : simpl never.
#[global] Arguments feq : simpl never.

(** * Order *)

(** Lexicographic key of a number: sign class, exponent, mantissa. *)
Definition fkey (x : double) : Z * Z * Z :=
  match x with
  | S754_nan => (3, 0, 0)
  | S754_infinity s => (if s then -2 else 2, 0, 0)
  | S754_zero _ => (0, 0, 0)
  | S754_finite s m e => if s then (-1, - e, - Z.pos m) else (1, e, Z.pos m)
  end.

Definition key_lt (a b : Z * Z * Z) : Prop :=
  a.1.1 < b.1.1 \/ (a.1.1 = b.1.1 /\ (a.1.2 < b.1.2 \/ (a.1.2 = b.1.2 /\ a.2 < b.2))).

Lemma SFcompare_key x y :
  is_nan x = false -> is_nan y = false ->
  match SFcompare x y with
  | Some Lt => key_lt (fkey x) (fkey y)
  | Some Eq => fkey x = fkey y
  | Some Gt => key_lt (fkey y) (fkey x)
  | None => False
  end.
Proof.
  intros Hx Hy. unfold key_lt.
  destruct x as [sx|sx| |sx mx ex], y as [sy|sy| |sy my ey]; simplify_eq/=;
    try (repeat case_match; simplify_eq/=; first [done | lia]).
  change (Pos.compare_cont Eq mx my) with (Pos.compare mx my).
  destruct sx, sy; simpl; try lia;
    destruct (Z.compare_spec ex ey); simpl; try lia;
    destruct (Pos.compare_spec mx my); simplify_eq/=; first [done | lia].
Qed.

Lemma SFcompare_nan_l y : SFcompare S754_nan y = None.
Proof. by destruct y. Qed.

Lemma SFcompare_nan_r x : SFcompare x S754_nan = None.
Proof. by destruct x. Qed.

(** The comparisons as statements about keys. *)
Lemma flt_key x y :
  flt x y = true <-> is_nan x = false /\ is_nan y = false /\ key_lt (fkey x) (fkey y).
Proof.
  unfold flt, SFltb.
  destruct (is_nan x) eqn:Hx.
  { destruct x; simplify_eq/=. destruct y; naive_solver. }
  destruct (is_nan y) eqn:Hy.
  { destruct y; simplify_eq/=. destruct x; naive_solver. }
  pose proof (SFcompare_key x y Hx Hy) as Hk. unfold key_lt in *.
  destruct (SFcompare x y) as [[]|]; simplify_eq; try done; split; intros; try done; try lia.
  - destruct H as (_ & _ & H). rewrite Hk in H. lia.
Qed.

Lemma fle_key x y :
  fle x y = true <-> is_nan x = false /\ is_nan y = false /\ ~ key_lt (fkey y) (fkey x).
Proof.
  unfold fle, SFleb.
  destruct (is_nan x) eqn:Hx.
  { destruct x; simplify_eq/=. destruct y; naive_solver. }
  destruct (is_nan y) eqn:Hy.
  { destruct y; simplify_eq/=. destruct x; naive_solver. }
  pose proof (SFcompare_key x y Hx Hy) as Hk. unfold key_lt in *.
  destruct (SFcompare x y) as [[]|]; simplify_eq; try done; split; intros; try done.
  - rewrite Hk. split_and!; [done..|lia].
  - split_and!; [done..|lia].
  - naive_solver.
Qed.

Lemma flt_key_false x y :
  flt x y = false <-> is_nan x = true \/ is_nan y = true \/ ~ key_lt (fkey x) (fkey y).
Proof.
  rewrite <-not_true_iff_false, flt_key.
  destruct (is_nan x), (is_nan y); intuition congruence.
Qed.

Lemma fle_key_false x y :
  fle x y = false <-> is_nan x = true \/ is_nan y = true \/ key_lt (fkey y) (fkey x).
Proof.
  rewrite <-not_true_iff_false, fle_key. unfold key_lt.
  destruct (is_nan x), (is_nan y); intuition (try congruence; lia).
Qed.

(** Decide a goal about [flt], [fle], [fgt], [fge], [is_nan] by reducing it to [lia]. *)
Ltac forder :=
  unfold fgt, fge in *;
  change SFltb with flt in *; change SFleb with fle in *;
  rewrite ?flt_key, ?fle_key, ?flt_key_false, ?fle_key_false in *; unfold key_lt in *;
  intuition (try congruence; try lia).

Lemma flt_fle x y : flt x y = true -> fle x y = true.
Proof. forder. Qed.

Lemma fle_trans x y z : fle x y = true -> fle y z = true -> fle x z = true.
Proof. forder. Qed.

Lemma flt_nle x y : flt x y = true -> fle y x = false.
Proof. forder. Qed.

Lemma fle_refl x : is_nan x = false -> fle x x = true.
Proof. forder. Qed.

Lemma nlt_fle x y : is_nan x = false -> is_nan y = false -> flt x y = false -> fle y x = true.
Proof. intros. forder. Qed.

Lemma fclamp_range v lo hi :
  is_nan v = false -> fle lo hi = true ->
  fle lo (fclamp v lo hi) = true /\ fle (fclamp v lo hi) hi = true.
Proof.
  intros Hv Hlh. unfold fclamp.
  destruct (flt v lo) eqn:H1; [|destruct (flt hi v) eqn:H2]; split; forder.
Qed.

Lemma is_finite_not_nan x : is_finite x = true -> is_nan x = false.
Proof. by destruct x. Qed.

#[export] Hint Resolve flt_fle fle_trans fle_refl is_finite_not_nan : cc.

(** ** Rounding never produces a NaN *)

Lemma shr_1_nonneg r : 0 <= shr_m r -> 0 <= shr_m (shr_1 r).
Proof. destruct r as [m r s]. destruct m as [|[p|p|]|p]; simpl; lia. Qed.

Lemma shr_nonneg r e n : 0 <= shr_m r -> 0 <= shr_m (fst (shr r e n)).
Proof.
  intros Hr. destruct n as [|p|p]; simpl; [done| |done].
  revert r Hr. induction p as [p IH|p IH|]; intros r Hr; simpl; auto using shr_1_nonneg.
Qed.

Lemma round_nearest_even_nonneg m l : 0 <= m -> 0 <= round_nearest_even m l.
Proof. intros. destruct l as [|[]]; simpl; [done| |done|lia]. destruct (Z.even m); lia. Qed.

Lemma shr_fexp_nonneg prec emax m e l : 0 <= m -> 0 <= shr_m (fst (shr_fexp prec emax m e l)).
Proof. intros. apply shr_nonneg. by destruct l as [|[]]. Qed.

Lemma binary_normalize_not_nan m e sz : is_nan (binary_normalize prec64 emax64 m e sz) = false.
Proof.
  assert (forall s p, is_nan (binary_round prec64 emax64 s p e) = false) as H.
  { intros s p. unfold binary_round. destruct (shl_align _ _ _) as [mz ez]. unfold binary_round_aux.
    pose proof (shr_fexp_nonneg prec64 emax64 (Z.pos mz) ez loc_Exact ltac:(lia)) as H1.
    destruct (shr_fexp _ _ (Z.pos mz) ez loc_Exact) as [r e']. simpl in H1.
    pose proof (shr_fexp_nonneg prec64 emax64 _ e' loc_Exact
      (round_nearest_even_nonneg _ (loc_of_shr_record r) H1)) as H2.
    destruct (shr_fexp _ _ (round_nearest_even _ _) e' loc_Exact) as [r' e'']. simpl in H2.
    destruct (shr_m r'); [done|by case_match|lia]. }
  destruct m; simpl; [done|apply H|apply H].
Qed.

Lemma fadd_not_nan x y : is_nan x = false -> is_finite y = true -> is_nan (fadd x y) = false.
Proof.
  intros Hx Hy. unfold fadd, SFadd. destruct x, y; try done.
  - simpl. by repeat case_match.
  - apply binary_normalize_not_nan.
Qed.

Lemma fsub_not_nan x y : is_nan x = false -> is_finite y = true -> is_nan (fsub x y) = false.
Proof.
  intros Hx Hy. unfold fsub, SFsub. destruct x, y; try done.
  - simpl. by repeat case_match.
  - apply binary_normalize_not_nan.
Qed.

(** Concrete values: the literals are the doubles a compiler produces. *)
Example flit_0_02 : flit 2 100 = S754_finite false 5764607523034235 (-58).
Proof. vm_compute. reflexivity. Qed.

Example flit_sum : fadd (flit 1 10) (flit 2 10) = S754_finite false 5404319552844596 (-54).
Proof. vm_compute. reflexivity. Qed.

(** * Canonical numbers

    The numbers that the hardware has: the mantissa has at most 53 bits, and exactly 53 above
    the least exponent. *)
Definition canonical (x : double) : bool := valid_binary prec64 emax64 x.

Lemma digits2_pos_bounds m : 2 ^ (Z.pos (digits2_pos m) - 1) <= Z.pos m < 2 ^ Z.pos (digits2_pos m).
Proof.
  assert (forall d, 0 < d -> 2 ^ (Z.succ d - 1) = 2 * 2 ^ (d - 1) /\ 2 ^ Z.succ d = 2 * 2 ^ d) as Hd.
  { intros d ?. rewrite Z.pow_succ_r by lia. split; [|done]. replace (Z.succ d - 1) with (Z.succ (d - 1)) by lia.
    by rewrite Z.pow_succ_r by lia. }
  induction m as [m IH|m IH|]; cbn [digits2_pos]; [| |cbn; lia];
    rewrite Pos2Z.inj_succ; destruct (Hd (Z.pos (digits2_pos m))) as [-> ->]; lia.
Qed.

Lemma canonical_mantissa_bounds s m e :
  canonical (S754_finite s m e) = true -> Z.pos m < 2 ^ 53 /\ -1074 <= e /\ (-1074 < e -> 2 ^ 52 <= Z.pos m).
Proof.
  unfold canonical, valid_binary, bounded, canonical_mantissa, fexp, emin, prec64, emax64.
  intros [H _]%andb_true_iff. apply Zeq_bool_eq in H. pose proof (digits2_pos_bounds m) as [Hl Hu].
  split_and!; [|lia|].
  - eapply Z.lt_le_trans; [exact Hu|]. apply Z.pow_le_mono_r; lia.
  - intros He. etrans; [|exact Hl]. apply Z.pow_le_mono_r; lia.
Qed.

Lemma ftrunc_scaled m e K :
  0 <= K -> - e <= K -> ftrunc (S754_finite false m e) = (Z.pos m * 2 ^ (e + K)) / 2 ^ K.
Proof.
  intros HK He. cbn [ftrunc]. assert (0 < 2 ^ K) by (apply Z.pow_pos_nonneg; lia). destruct (Z.leb_spec 0 e).
  - rewrite Z.pow_add_r, Z.mul_assoc by lia. by rewrite Z.div_mul by lia.
  - replace K with (- e + (e + K)) at 2 by lia. rewrite (Z.pow_add_r 2 (- e)) by lia.
    by rewrite Z.div_mul_cancel_r by (apply Z.pow_nonzero; lia).
Qed.

(** The integer part is monotone on canonical numbers that are not negative. *)
Lemma ftrunc_mono x y :
  canonical x = true -> canonical y = true -> is_finite y = true -> fle f0 x = true -> fle x y = true ->
  0 <= ftrunc x <= ftrunc y.
Proof.
  intros Hx Hy Hf H0 Hxy.
  assert (forall m e, 0 <= ftrunc (S754_finite false m e)) as Hp.
  { intros m e. rewrite (ftrunc_scaled m e (Z.max 0 (- e))) by lia.
    apply Z.div_pos; [apply Z.mul_nonneg_nonneg; [lia|apply Z.pow_nonneg; lia]|apply Z.pow_pos_nonneg; lia]. }
  destruct x as [sx|[]| |[] m e]; try done; destruct y as [sy|[]| |[] m' e']; try done.
  split; [apply Hp|].
  apply canonical_mantissa_bounds in Hx as (Hx1 & Hx2 & _), Hy as (Hy1 & Hy2 & Hy3).
  pose (K := Z.max 0 (Z.max (- e) (- e'))). rewrite (ftrunc_scaled m e K), (ftrunc_scaled m' e' K) by lia.
  apply Z.div_le_mono; [apply Z.pow_pos_nonneg; lia|].
  unfold fle, SFleb in Hxy. cbn in Hxy. destruct (Z.compare_spec e e') as [->|Hlt|Hgt]; [|clear Hxy|done].
  - apply Z.mul_le_mono_nonneg_r; [apply Z.pow_nonneg; lia|]. change (Pos.compare_cont Eq m m') with (Pos.compare m m') in Hxy.
    destruct (Pos.compare_spec m m'); [lia|lia|done].
  - transitivity (2 ^ 53 * 2 ^ (e + K)); [apply Z.mul_le_mono_nonneg_r; [apply Z.pow_nonneg; lia|lia]|].
    transitivity (2 ^ 52 * 2 ^ (e' + K)); [|apply Z.mul_le_mono_nonneg_r; [apply Z.pow_nonneg; lia|apply Hy3; lia]].
    rewrite <- !Z.pow_add_r by lia. apply Z.pow_le_mono_r; lia.
Qed.
