(* ===== verification/Types.v ===== *)
(** Domain types of CrashCore: [include/common/types.hpp], [errors.hpp], [result.hpp],
    [constants.hpp], and the small helpers on them that several components share.

    Records have the source's fields, prefixed where two records would clash. *)
From stdpp Require Export pretty.
From S2P Require Import Prelude Float64.

Open Scope Z_scope.

(** * Errors and results *)

(* @src include/common/errors.hpp | enum class ErrorCode : | ErrorCode *)
Inductive ErrorCode :=
| EOk | InvalidArgument | NotFound | AlreadyExists | Timeout | Cancelled | ConnectionFailed
| ProtocolError | ParseError | SignatureError | AuthFailed | QueueFull | QueueEmpty
| DatabaseError | NetworkError | RateLimited | InternalError | NotImplemented | EShutdown
| StaleData | EDuplicate | ValidationFailed | ConfigError | ResourceExhausted | IoError.

#[export] Instance ErrorCode_eq_dec : EqDecision ErrorCode.
Proof. solve_decision. Defined.

(* @src include/common/errors.hpp | errorMessage( | errorMessage *)
Definition errorMessage (c : ErrorCode) : string :=
  match c with
  | EOk => "ok"
  | InvalidArgument => "invalid argument"
  | NotFound => "not found"
  | AlreadyExists => "already exists"
  | Timeout => "timeout"
  | Cancelled => "cancelled"
  | ConnectionFailed => "connection failed"
  | ProtocolError => "protocol error"
  | ParseError => "parse error"
  | SignatureError => "signature error"
  | AuthFailed => "auth failed"
  | QueueFull => "queue full"
  | QueueEmpty => "queue empty"
  | DatabaseError => "database error"
  | NetworkError => "network error"
  | RateLimited => "rate limited"
  | InternalError => "internal error"
  | NotImplemented => "not implemented"
  | EShutdown => "shutdown"
  | StaleData => "stale data"
  | EDuplicate => "duplicate"
  | ValidationFailed => "validation failed"
  | ConfigError => "config error"
  | ResourceExhausted => "resource exhausted"
  | IoError => "io error"
  end.

(* @src include/common/errors.hpp | struct Error { | Error *)
Record Error := mkError {
  code : ErrorCode;
  message : string;
  context : string
}.

Definition err (c : ErrorCode) (m : string) : Error := mkError c m "".

(** [Result<T>]: a variant of a value and an error.  [Result<void>] stores only an error
    and is successful exactly when its code is [Ok]; [void_of_error] is its constructor. *)
(* @src include/common/result.hpp:9-41 Result *)
Inductive Result (A : Type) :=
| Ok (a : A)
| Err (e : Error).
Arguments Ok {_} _.
Arguments Err {_} _.

(* @src include/common/result.hpp:17-18 Result::ok *)
Definition is_ok {A} (r : Result A) : bool := match r with Ok _ => true | Err _ => false end.

(* @src include/common/result.hpp:27-30 Result::value_or *)
Definition value_or {A} (r : Result A) (fallback : A) : A :=
  match r with Ok a => a | Err _ => fallback end.

(* @src include/common/result.hpp:32-37 Result::map *)
Definition result_map {A B} (f : A -> B) (r : Result A) : Result B :=
  match r with Ok a => Ok (f a) | Err e => Err e end.

(* @src include/common/result.hpp:43-60 Result_void *)
Definition void_of_error (e : Error) : Result unit :=
  if decide (code e = EOk) then Ok tt else Err e.

(** Sequencing of fallible calls: [if (!r) return r.error();]. *)
Definition result_bind {A B} (r : Result A) (f : A -> Result B) : Result B :=
  match r with Ok a => f a | Err e => Err e end.

Notation "'let!' x := r 'in' k" := (result_bind r (fun x => k))
  (at level 200, x pattern, r at level 100, k at level 200, right associativity) : cc_scope.

(** * Events *)


(* @src include/common/types.hpp | struct CrashRound { | CrashRound *)
Record CrashRound := {
  cr_gameId : string;
  cr_multiplier : double;
  cr_hash : string;
  cr_salt : string;
  cr_beganAtMs : Z;
  cr_crashedAtMs : Z;
  cr_sequence : Z;
  cr_hasHash : bool;
  cr_hasSalt : bool
}.
#[export] Instance eta_CrashRound : Eta CrashRound := fun r =>
  {| cr_gameId := cr_gameId r; cr_multiplier := cr_multiplier r; cr_hash := cr_hash r; cr_salt := cr_salt r;
     cr_beganAtMs := cr_beganAtMs r; cr_crashedAtMs := cr_crashedAtMs r; cr_sequence := cr_sequence r;
     cr_hasHash := cr_hasHash r; cr_hasSalt := cr_hasSalt r |}.

(* @src include/common/types.hpp | enum class EventKind : | EventKind *)
Inductive EventKind :=
| KUnknown | KProgress | KStart | KEnd | KPrepare | KBetsOpen | KBetsClosed | KHeartbeat
| KConnect | KDisconnect | KError.

#[export] Instance EventKind_eq_dec : EqDecision EventKind.
Proof. solve_decision. Defined.

(** [static_cast<int>(kind)] *)
Definition kind_code (k : EventKind) : Z :=
  match k with
  | KUnknown => 0 | KProgress => 1 | KStart => 2 | KEnd => 3 | KPrepare => 4
  | KBetsOpen => 5 | KBetsClosed => 6 | KHeartbeat => 7 | KConnect => 8
  | KDisconnect => 9 | KError => 10
  end.

(* @src include/common/types.hpp | enum class EventSource : | EventSource *)
Inductive EventSource :=
| SrcUnknown | NativeSocket | SocketIo | RestPoll | Replay | Synthetic.

(* @src include/common/types.hpp | struct CrashEvent { | CrashEvent *)
Record CrashEvent := {
  kind : EventKind;
  source : EventSource;
  roundId : string;
  gameId : string;
  crashPoint : double;
  currentMult : double;
  beganAtMs : Z;
  endedAtMs : Z;
  eventTimeMs : Z;
  sequence : Z;
  receivedAtNs : Z;
  decodedAtNs : Z;
  routedAtNs : Z;
  hash : string;
  rawEventName : string;
  elapsedMs : Z;
  valid : bool
}.

(* @src include/common/types.hpp | struct CrashEvent { | CrashEvent *)
Definition default_event : CrashEvent := {|
  kind := KUnknown; source := SrcUnknown; roundId := ""; gameId := "";
  crashPoint := f0; currentMult := f0; beganAtMs := 0; endedAtMs := 0; eventTimeMs := 0;
  sequence := 0; receivedAtNs := 0; decodedAtNs := 0; routedAtNs := 0; hash := "";
  rawEventName := ""; elapsedMs := -1; valid := false |}.

#[export] Instance eta_CrashEvent : Eta CrashEvent := fun r =>
  {| kind := kind r; source := source r; roundId := roundId r; gameId := gameId r;
     crashPoint := crashPoint r; currentMult := currentMult r; beganAtMs := beganAtMs r;
     endedAtMs := endedAtMs r; eventTimeMs := eventTimeMs r; sequence := sequence r;
     receivedAtNs := receivedAtNs r; decodedAtNs := decodedAtNs r; routedAtNs := routedAtNs r;
     hash := hash r; rawEventName := rawEventName r; elapsedMs := elapsedMs r;
     valid := valid r |}.

(* @src include/ingestion/crash_event.hpp | isTerminal( | isTerminal *)
Definition isTerminal (e : CrashEvent) : bool := bool_decide (kind e = KEnd).

(* @src include/ingestion/crash_event.hpp | isLiveProgress( | isLiveProgress *)
Definition isLiveProgress (e : CrashEvent) : bool := bool_decide (kind e = KProgress) && valid e.

(* @src include/ingestion/crash_event.hpp | hasIdentity( | hasIdentity *)
Definition hasIdentity (e : CrashEvent) : bool :=
  negb (str_empty (gameId e)) || negb (str_empty (roundId e)).

(** * Predictions and outcomes *)

(* @src include/common/types.hpp | enum class PredictionDecision : | PredictionDecision *)
Inductive PredictionDecision := Skip | Enter | Hold.

#[export] Instance PredictionDecision_eq_dec : EqDecision PredictionDecision.
Proof. solve_decision. Defined.

(* @src include/common/types.hpp | enum class PredictionOutcome : | PredictionOutcome *)
Inductive PredictionOutcome := Pending | Win | Loss | Void | Stale | Duplicate.

#[export] Instance PredictionOutcome_eq_dec : EqDecision PredictionOutcome.
Proof. solve_decision. Defined.

(* @src include/common/types.hpp | struct PredictionRequest { | PredictionRequest *)
Record PredictionRequest := {
  rq_targetRoundId : string;
  rq_gameId : string;
  rq_requestTimeMs : Z;
  rq_requestNs : Z;
  rq_sequence : Z;
  rq_currentMult : double;
  rq_correlationId : string
}.

#[export] Instance eta_PredictionRequest : Eta PredictionRequest := fun r =>
  {| rq_targetRoundId := rq_targetRoundId r; rq_gameId := rq_gameId r;
     rq_requestTimeMs := rq_requestTimeMs r; rq_requestNs := rq_requestNs r;
     rq_sequence := rq_sequence r; rq_currentMult := rq_currentMult r;
     rq_correlationId := rq_correlationId r |}.

(* @src include/common/types.hpp | struct PredictionResponse { | PredictionResponse *)
Record PredictionResponse := {
  rs_predictionId : string;
  rs_targetRoundId : string;
  rs_decision : PredictionDecision;
  rs_confidence : double;
  rs_probability : double;
  rs_targetMult : double;
  rs_responseTimeMs : Z;
  rs_responseNs : Z;
  rs_correlationId : string;
  rs_modelVersion : string;
  rs_valid : bool
}.

(* @src include/common/types.hpp | struct PredictionResponse { | PredictionResponse *)
Definition default_response : PredictionResponse := {|
  rs_predictionId := ""; rs_targetRoundId := ""; rs_decision := Skip; rs_confidence := f0;
  rs_probability := f0; rs_targetMult := f0; rs_responseTimeMs := 0; rs_responseNs := 0;
  rs_correlationId := ""; rs_modelVersion := ""; rs_valid := false |}.

#[export] Instance eta_PredictionResponse : Eta PredictionResponse := fun r =>
  {| rs_predictionId := rs_predictionId r; rs_targetRoundId := rs_targetRoundId r;
     rs_decision := rs_decision r; rs_confidence := rs_confidence r;
     rs_probability := rs_probability r; rs_targetMult := rs_targetMult r;
     rs_responseTimeMs := rs_responseTimeMs r; rs_responseNs := rs_responseNs r;
     rs_correlationId := rs_correlationId r; rs_modelVersion := rs_modelVersion r;
     rs_valid := rs_valid r |}.

(* @src include/common/types.hpp | struct PredictionEvent { | PredictionEvent *)
Record PredictionEvent := {
  pe_predictionId : string;
  pe_targetRoundId : string;
  pe_gameId : string;
  pe_decision : PredictionDecision;
  pe_confidence : double;
  pe_probability : double;
  pe_entryMult : double;
  pe_targetMult : double;
  pe_createdAtMs : Z;
  pe_createdAtNs : Z;
  pe_correlationId : string;
  pe_modelVersion : string;
  pe_delivered : bool
}.

#[export] Instance eta_PredictionEvent : Eta PredictionEvent := fun r =>
  {| pe_predictionId := pe_predictionId r; pe_targetRoundId := pe_targetRoundId r;
     pe_gameId := pe_gameId r; pe_decision := pe_decision r; pe_confidence := pe_confidence r;
     pe_probability := pe_probability r; pe_entryMult := pe_entryMult r;
     pe_targetMult := pe_targetMult r; pe_createdAtMs := pe_createdAtMs r;
     pe_createdAtNs := pe_createdAtNs r; pe_correlationId := pe_correlationId r;
     pe_modelVersion := pe_modelVersion r; pe_delivered := pe_delivered r |}.

(* @src include/common/types.hpp | struct PredictionEvent { | PredictionEvent *)
Definition default_prediction : PredictionEvent := {|
  pe_predictionId := ""; pe_targetRoundId := ""; pe_gameId := ""; pe_decision := Skip;
  pe_confidence := f0; pe_probability := f0; pe_entryMult := f0; pe_targetMult := f0;
  pe_createdAtMs := 0; pe_createdAtNs := 0; pe_correlationId := ""; pe_modelVersion := "";
  pe_delivered := false |}.

(* @src include/common/types.hpp | struct Outcome { | Outcome *)
Record Outcome := {
  oc_predictionId : string;
  oc_roundId : string;
  oc_result : PredictionOutcome;
  oc_actualMult : double;
  oc_targetMult : double;
  oc_resolvedAtMs : Z;
  oc_isWin : bool
}.

(* @src include/prediction_interface/prediction_response.hpp | isActionable( | isActionable *)
Definition isActionable (r : PredictionResponse) : bool :=
  rs_valid r && bool_decide (rs_decision r = Enter) && fgt (rs_confidence r) f0.

(** [x ? x : nowMs()] on a time stamp. *)
Definition or_now (x now : Z) : Z := if x =? 0 then now else x.

(* @src include/prediction_interface/prediction_event.hpp | fromResponse( | fromResponse *)
Definition fromResponse (resp : PredictionResponse) (gid : string) (entryMult : double)
    (nowMs steadyNs : Z) : PredictionEvent := {|
  pe_predictionId := rs_predictionId resp;
  pe_targetRoundId := rs_targetRoundId resp;
  pe_gameId := gid;
  pe_decision := rs_decision resp;
  pe_confidence := rs_confidence resp;
  pe_probability := rs_probability resp;
  pe_entryMult := entryMult;
  pe_targetMult := rs_targetMult resp;
  pe_createdAtMs := or_now (rs_responseTimeMs resp) nowMs;
  pe_createdAtNs := or_now (rs_responseNs resp) steadyNs;
  pe_correlationId := rs_correlationId resp;
  pe_modelVersion := rs_modelVersion resp;
  pe_delivered := false |}.

(** * Signals and the outbox *)

(* @src include/common/types.hpp | enum class SignalKind : | SignalKind *)
Inductive SignalKind := SPrediction | SOutcome | SHeartbeat | SSystemAlert.

#[export] Instance SignalKind_eq_dec : EqDecision SignalKind.
Proof. solve_decision. Defined.

Definition signal_kind_code (k : SignalKind) : Z :=
  match k with SPrediction => 0 | SOutcome => 1 | SHeartbeat => 2 | SSystemAlert => 3 end.

(* @src include/common/types.hpp | struct Signal { | Signal *)
Record Signal := {
  sg_kind : SignalKind;
  sg_predictionId : string;
  sg_roundId : string;
  sg_text : string;
  sg_createdAtMs : Z;
  sg_correlationId : string;
  sg_urgent : bool
}.
#[export] Instance eta_Signal : Eta Signal := fun r =>
  {| sg_kind := sg_kind r; sg_predictionId := sg_predictionId r; sg_roundId := sg_roundId r;
     sg_text := sg_text r; sg_createdAtMs := sg_createdAtMs r;
     sg_correlationId := sg_correlationId r; sg_urgent := sg_urgent r |}.

(* @src include/common/types.hpp | enum class OutboxState : | OutboxState *)
Inductive OutboxState := OPending | OClaimed | OInFlight | ODelivered | OFailed | ODeadLetter.

#[export] Instance OutboxState_eq_dec : EqDecision OutboxState.
Proof. solve_decision. Defined.

(* @src include/common/types.hpp | struct OutboxItem { | OutboxItem *)
Record OutboxItem := {
  oi_id : Z;
  oi_state : OutboxState;
  oi_signal : Signal;
  oi_createdAtMs : Z;
  oi_claimedAtMs : Z;
  oi_deliveredAtMs : Z;
  oi_attempts : Z;
  oi_lastError : string;
  oi_dedupeKey : string
}.

#[export] Instance eta_OutboxItem : Eta OutboxItem := fun r =>
  {| oi_id := oi_id r; oi_state := oi_state r; oi_signal := oi_signal r;
     oi_createdAtMs := oi_createdAtMs r; oi_claimedAtMs := oi_claimedAtMs r;
     oi_deliveredAtMs := oi_deliveredAtMs r; oi_attempts := oi_attempts r;
     oi_lastError := oi_lastError r; oi_dedupeKey := oi_dedupeKey r |}.

(** * Constants *)

(* @src include/common/types.hpp:205-205 HIGH_THRESHOLD *)
Definition HIGH_THRESHOLD : double := of_Z 2.
(* @src include/common/types.hpp:206-206 MOON_THRESHOLD *)
Definition MOON_THRESHOLD : double := of_Z 10.
(* @src include/common/types.hpp:209-209 isHigh *)
Definition isHigh (m : double) : bool := fge m HIGH_THRESHOLD.
(* @src include/common/types.hpp:210-210 isMoon *)
Definition isMoon (m : double) : bool := fge m MOON_THRESHOLD.

(* @src include/common/constants.hpp:23-23 OUTBOX_MAX_ATTEMPTS *)
Definition OUTBOX_MAX_ATTEMPTS : Z := 5.
(* @src include/common/constants.hpp:20-20 OUTBOX_CLAIM_TIMEOUT_MS *)
Definition OUTBOX_CLAIM_TIMEOUT_MS : Z := 30000.
(* @src include/common/constants.hpp:13-13 SIGN_FRESH_MS *)
Definition SIGN_FRESH_MS : Z := 60000.
(* @src include/common/constants.hpp:14-14 SIGN_STALE_MAX_MS *)
Definition SIGN_STALE_MAX_MS : Z := 600000.
(* @src include/common/constants.hpp:15-15 HEARTBEAT_INTERVAL_MS *)
Definition HEARTBEAT_INTERVAL_MS : Z := 25000.
(* @src include/common/constants.hpp:16-16 HEARTBEAT_TIMEOUT_MS *)
Definition HEARTBEAT_TIMEOUT_MS : Z := 60000.
(* @src include/common/constants.hpp:17-17 RECONNECT_BASE_MS *)
Definition RECONNECT_BASE_MS : Z := 500.
(* @src include/common/constants.hpp:18-18 RECONNECT_MAX_MS *)
Definition RECONNECT_MAX_MS : Z := 30000.

(** [std::to_string] of an integer. *)
Definition to_string (z : Z) : string := pretty z.

Lemma pretty_N_go_nonempty x s : s <> EmptyString -> pretty_N_go x s <> EmptyString.
Proof.
  revert s. induction (N.lt_wf_0 x) as [x _ IH]; intros s Hs.
  destruct (decide (x = 0)%N) as [->|Hx]; [by rewrite pretty_N_go_0|].
  rewrite pretty_N_go_step by lia. apply IH; [apply N.div_lt; lia|done].
Qed.

Lemma to_string_nonempty z : to_string z <> EmptyString.
Proof.
  assert (forall x : N, pretty x <> EmptyString) as HN.
  { intros x. unfold pretty, pretty_N. case_decide; [done|].
    rewrite pretty_N_go_step by lia. by apply pretty_N_go_nonempty. }
  unfold to_string, pretty, pretty_Z. destruct z; [done|apply HN|done].
Qed.
