(* ===== verification/Text.v ===== *)
(** Searching in texts as [std::string] does: positions, quoted keys and the values after them, as
    the hand-written JSON readers of the program use them. *)
From Stdlib Require Import Ascii.
From S2P Require Import Prelude.

Open Scope Z_scope.

(** * Searching as [std::string] does *)

Definition dq : ascii := "034"%char.
Definition quoted (k : string) : string := String dq (k +:+ String dq EmptyString).

(** [s.find(needle, pos)]; [None] is [npos]. *)
Definition find (needle s : string) (pos : nat) : option nat := String.index pos needle s.

(** [p + 1] on a position: [npos + 1] is 0. *)
Definition succ_pos (p : option nat) : nat := match p with Some p => S p | None => 0%nat end.

Definition suffix_from (s : string) (pos : nat) : string := String.substring pos (String.length s - pos) s.

(** A text with its apostrophes read as double quotes. *)
Fixpoint json (s : string) : string :=
  match s with
  | EmptyString => EmptyString
  | String c s => String (if decide (c = "'"%char) then dq else c) (json s)
  end.

(** * Positions *)

Lemma index_range needle s n m :
  String.index n needle s = Some m -> (n <= m)%nat /\ (m + String.length needle <= String.length s)%nat.
Proof.
  revert n m. induction s as [|b s IH]; intros n m; simpl.
  { destruct n; [|done]. destruct needle; [|done]. intros [= <-]. simpl. lia. }
  destruct n as [|n].
  - destruct needle as [|a needle]; [intros [= <-]; simpl; lia|].
    destruct (ascii_dec a b) as [->|Hab].
    + destruct (String.prefix needle s) eqn:Ep.
      * intros [= <-]. simpl. apply String.prefix_correct in Ep.
        assert (String.length (String.substring 0 (String.length needle) s) = String.length needle) as Hl by by rewrite Ep.
        clear -Hl. assert (forall s n, (String.length (String.substring 0 n s) <= String.length s)%nat) as H.
        { clear. induction s as [|c s IH]; intros [|n]; simpl; try lia. specialize (IH n). lia. }
        specialize (H s (String.length needle)). lia.
      * destruct (String.index 0 (String b needle) s) as [k|] eqn:E; [|done]. intros [= <-]. apply IH in E. simpl in *. lia.
    + destruct (String.index 0 (String a needle) s) as [k|] eqn:E; [|done]. intros [= <-]. apply IH in E. simpl in *. lia.
  - destruct (String.index n needle s) as [k|] eqn:E; [|done]. intros [= <-]. apply IH in E. lia.
Qed.

(** An occurrence at [p] is found from anywhere before it. *)
Lemma index_before needle s n p :
  needle <> EmptyString -> (n <= p)%nat -> String.substring p (String.length needle) s = needle ->
  exists m, String.index n needle s = Some m /\ (n <= m <= p)%nat.
Proof.
  intros Hne Hle Hs. destruct (String.index n needle s) as [m|] eqn:E.
  - exists m. split; [done|]. pose proof (index_range _ _ _ _ E) as [Hn _]. split; [done|].
    destruct (Nat.le_gt_cases m p) as [|Hgt]; [done|]. exfalso.
    apply (String.index_correct2 n m needle s E p); [done|done|done].
  - by destruct (String.index_correct3 n p needle s E Hne Hle).
Qed.

Lemma index_mono needle s n n' m :
  needle <> EmptyString -> (n' <= n)%nat -> String.index n needle s = Some m ->
  exists m', String.index n' needle s = Some m' /\ (n' <= m' <= m)%nat.
Proof.
  intros Hne Hle E. pose proof (index_range _ _ _ _ E) as [Hn _].
  apply (index_before needle s n' m); [done|lia|by apply String.index_correct1 in E].
Qed.

Lemma substring_get c s x : String.get c s = Some x -> String.substring c 1 s = String x EmptyString.
Proof. revert c. induction s as [|b s IH]; intros [|c]; simpl; intros H; simplify_eq; [by destruct s|by apply IH]. Qed.

(** ** What a search finds in a concatenation *)

Definition no_dq (s : string) : Prop := ~ (dq ∈ String.list_ascii_of_string s).

#[export] Instance no_dq_dec s : Decision (no_dq s).
Proof. unfold no_dq. apply _. Defined.

Lemma no_dq_cons c s : no_dq (String c s) <-> c <> dq /\ no_dq s.
Proof. unfold no_dq. simpl. rewrite list.elem_of_cons. naive_solver. Qed.

(** A needle that starts with a quote does not start inside a text without quotes. *)
Lemma index_skip p k rest : no_dq p ->
  String.index 0 (String dq k) (p +:+ rest) = (fun n => (String.length p + n)%nat) <$> String.index 0 (String dq k) rest.
Proof.
  induction p as [|c p IH]; intros Hp; [rewrite app_empty_str; by destruct (String.index 0 _ rest)|].
  apply no_dq_cons in Hp as [Hc Hp]. rewrite app_cons_str. cbn [String.index String.prefix String.length].
  destruct (ascii_dec dq c) as [E|_]; [by destruct Hc|]. rewrite IH by done. by destruct (String.index 0 (String dq k) rest).
Qed.

(** A search from a position is a search in the rest. *)
Lemma index_from needle p s : needle <> EmptyString ->
  String.index (String.length p) needle (p +:+ s) = (fun n => (String.length p + n)%nat) <$> String.index 0 needle s.
Proof.
  intros Hn. induction p as [|c p IH]; [rewrite app_empty_str; simpl; by destruct (String.index 0 needle s)|].
  rewrite app_cons_str. cbn [String.index String.length]. rewrite IH. by destruct (String.index 0 needle s).
Qed.

Lemma substring_app p v rest : String.substring (String.length p) (String.length v) (p +:+ v +:+ rest) = v.
Proof.
  induction p as [|c p IH]; [rewrite app_empty_str; simpl|rewrite app_cons_str; exact IH].
  induction v as [|c v IHv]; [rewrite app_empty_str; by destruct rest|rewrite app_cons_str; simpl; by rewrite IHv].
Qed.
