(* ===== verification/Queues.v ===== *)
(** Queues of [include/concurrency]: the mutex-protected ring [BoundedQueue] and the
    single-producer single-consumer ring [SpscQueue], each executed one method at a time
    (the interleaved execution of the lock-free ring is in SpscConc), and the interface
    [BoundedFifo] through which the outbox and the event router use them. *)
From S2P Require Import Prelude.

(** * Interface: a FIFO queue of bounded length

    [bf_repr q l] says that [q] is well formed and holds [l], oldest element first.
    [bf_limit q] is the length at which a push is refused (0 when closed). *)
Class BoundedFifo (Q A : Type) := {
  bf_repr : Q -> list A -> Prop;
  bf_limit : Q -> nat;
  bf_push : Q -> A -> option Q;
  bf_pop : Q -> option (A * Q);
  bf_size : Q -> nat;
  bf_push_spec q l a :
    bf_repr q l ->
    match bf_push q a with
    | Some q' => (length l < bf_limit q)%nat /\ bf_repr q' (l ++ [a]) /\ bf_limit q' = bf_limit q
    | None => (bf_limit q <= length l)%nat
    end;
  bf_pop_spec q l :
    bf_repr q l ->
    match bf_pop q with
    | Some (a, q') => exists l', l = a :: l' /\ bf_repr q' l' /\ bf_limit q' = bf_limit q
    | None => l = []
    end;
  bf_size_spec q l : bf_repr q l -> bf_size q = length l
}.

(** * The ring shared by both queues

    A slot holds [None] when it was never written or its element was moved out. *)
Section Ring.
Context {A : Type}.
Implicit Types (buf : list (option A)) (l : list A).

(** [l] is laid out in [buf] from index [h], wrapping at [n]. *)
Definition ring_holds (n : nat) buf (h : nat) l : Prop :=
  forall i a, l !! i = Some a -> buf !! ((h + i) mod n)%nat = Some (Some a).

Lemma ring_index_inj n h i j :
  (i < n)%nat -> (j < n)%nat -> ((h + i) mod n = (h + j) mod n)%nat -> i = j.
Proof.
  intros Hi Hj E.
  assert (Z.of_nat i = Z.of_nat j); [|lia].
  apply (f_equal Z.of_nat) in E. rewrite !Nat2Z.inj_mod, !Nat2Z.inj_add in E.
  pose proof (Z.div_mod (Z.of_nat h + Z.of_nat i) (Z.of_nat n)).
  pose proof (Z.div_mod (Z.of_nat h + Z.of_nat j) (Z.of_nat n)).
  set (q1 := (Z.of_nat h + Z.of_nat i) / Z.of_nat n) in *.
  set (q2 := (Z.of_nat h + Z.of_nat j) / Z.of_nat n) in *.
  rewrite E in *. assert (q1 = q2) by nia. nia.
Qed.

Lemma ring_push n buf h l a :
  (0 < n)%nat -> length buf = n -> (length l < n)%nat -> ring_holds n buf h l ->
  ring_holds n (<[((h + length l) mod n)%nat := Some a]> buf) h (l ++ [a]).
Proof.
  intros Hn Hb Hl Hr i b Hi.
  assert (i < length (l ++ [a]))%nat as Hlt by eauto using lookup_lt_Some.
  rewrite length_app in Hlt; simpl in Hlt.
  destruct (decide (i = length l)) as [->|Hne].
  - rewrite lookup_app_r, Nat.sub_diag in Hi by lia. simplify_eq/=.
    apply list_lookup_insert_eq. apply Nat.mod_upper_bound. lia.
  - rewrite lookup_app_l in Hi by lia.
    rewrite list_lookup_insert_ne; [by apply Hr|].
    intros E. apply ring_index_inj in E; lia.
Qed.

Lemma ring_pop n buf h a l x :
  (0 < n)%nat -> (length l < n)%nat -> ring_holds n buf h (a :: l) ->
  ring_holds n (<[(h mod n)%nat := x]> buf) (S h mod n) l.
Proof.
  intros Hn Hl Hr i b Hi.
  assert (i < length l)%nat by eauto using lookup_lt_Some.
  rewrite Nat.Div0.add_mod_idemp_l.
  rewrite list_lookup_insert_ne.
  - replace (S h + i)%nat with (h + S i)%nat by lia. by apply (Hr (S i)).
  - intros E. replace (S h + i)%nat with (h + S i)%nat in E by lia.
    replace (h mod n)%nat with ((h + 0) mod n)%nat in E by (f_equal; lia).
    apply ring_index_inj in E; lia.
Qed.

Lemma ring_head n buf h a l : ring_holds n buf h (a :: l) -> buf !! (h mod n)%nat = Some (Some a).
Proof. intros Hr. rewrite <-(Hr 0%nat a); [|done]. do 2 f_equal. lia. Qed.
End Ring.

(** * [BoundedQueue<T>]

    Every method holds the queue's mutex for its whole body, so it is one atomic step. *)
Module BoundedQueue.
Section S.
Context {A : Type}.

(* @src include/concurrency/bounded_queue.hpp:103-109 BoundedQueue *)
Record t := {
  cap : nat;
  buf : list (option A);
  head : nat;
  tail : nat;
  size : nat;
  closed : bool;
  pushes : Z;
  pops : Z
}.

(* @src include/concurrency/bounded_queue.hpp | explicit BoundedQueue( *)
Definition make (capacity : nat) : t :=
  let c := if (capacity <? 1)%nat then 1%nat else capacity in
  {| cap := c; buf := replicate c None; head := 0; tail := 0; size := 0; closed := false;
     pushes := 0; pops := 0 |}.

(** The insertion shared by [try_push] and [push]. *)
(* @src include/concurrency/bounded_queue.hpp:27-31 BoundedQueue::try_push *)
Definition insert_item (q : t) (item : A) : t :=
  {| cap := cap q; buf := <[tail q := Some item]> (buf q); head := head q;
     tail := ((tail q + 1) mod cap q)%nat; size := size q + 1; closed := closed q;
     pushes := bump (pushes q); pops := pops q |}.

(* @src include/concurrency/bounded_queue.hpp | bool try_push( *)
Definition try_push (q : t) (item : A) : option t :=
  if closed q || (cap q <=? size q)%nat then None else Some (insert_item q item).

(** Outcome of a blocking call: it may still be waiting. *)
Inductive wait (B : Type) := Blocked | Done (b : B).
Arguments Blocked {_}.
Arguments Done {_} _.

(** [push(item, timeout)], evaluated at the moment the wait ends.  A non-positive timeout
    waits for the condition; a positive one gives up when the condition is still false. *)
(* @src include/concurrency/bounded_queue.hpp | bool push(T item *)
Definition push (q : t) (item : A) (timeoutMs : Z) : wait (option t) :=
  if negb (closed q || (size q <? cap q)%nat) then
    (if timeoutMs <=? 0 then Blocked else Done None)
  else if closed q then Done None
  else Done (Some (insert_item q item)).

(* @src include/concurrency/bounded_queue.hpp | std::optional<T> try_pop( *)
Definition try_pop (q : t) : option (A * t) :=
  if (size q =? 0)%nat then None
  else match buf q !! head q with
  | Some (Some item) =>
      Some (item, {| cap := cap q; buf := <[head q := None]> (buf q);
                     head := ((head q + 1) mod cap q)%nat; tail := tail q;
                     size := size q - 1; closed := closed q; pushes := pushes q;
                     pops := bump (pops q) |})
  | _ => None
  end.

(** [pop(timeout)] at the end of its wait: nothing to take gives [nullopt], whether the
    wait timed out or the queue was closed. *)
(* @src include/concurrency/bounded_queue.hpp | std::optional<T> pop(std *)
Definition pop (q : t) : option (A * t) :=
  if negb (closed q || (0 <? size q)%nat) then None else try_pop q.

(* @src include/concurrency/bounded_queue.hpp | void close() *)
Definition close (q : t) : t :=
  {| cap := cap q; buf := buf q; head := head q; tail := tail q; size := size q;
     closed := true; pushes := pushes q; pops := pops q |}.

(** Representation predicate: the queue holds [l]. *)
Definition repr (q : t) (l : list A) : Prop :=
  (0 < cap q)%nat /\ length (buf q) = cap q /\ (head q < cap q)%nat /\
  tail q = ((head q + length l) mod cap q)%nat /\ size q = length l /\
  (length l <= cap q)%nat /\ ring_holds (cap q) (buf q) (head q) l.

Definition limit (q : t) : nat := if closed q then 0%nat else cap q.

Lemma bounded_make_repr c : repr (make c) [].
Proof.
  unfold make, repr; simpl. destruct (Nat.ltb_spec c 1).
  - split_and!; try done; lia.
  - rewrite length_replicate, Nat.Div0.mod_0_l. split_and!; try done; lia.
Qed.

Lemma bounded_insert_repr q l a :
  repr q l -> (length l < cap q)%nat -> repr (insert_item q a) (l ++ [a]).
Proof.
  intros (Hc & Hb & Hh & Ht & Hs & Hl & Hr) Hlt. unfold repr; simpl.
  rewrite length_insert, length_app; simpl. rewrite Ht. split_and!; try done; try lia.
  - rewrite Nat.Div0.add_mod_idemp_l. f_equal. lia.
  - by apply ring_push.
Qed.

Lemma bounded_try_push_spec q l a :
  repr q l ->
  match try_push q a with
  | Some q' => (length l < limit q)%nat /\ repr q' (l ++ [a]) /\ limit q' = limit q
  | None => (limit q <= length l)%nat
  end.
Proof.
  intros Hq. pose proof Hq as (Hc & Hb & Hh & Ht & Hs & Hl & Hr).
  unfold try_push, limit. destruct (closed q) eqn:Hcl; simpl; [lia|].
  destruct (Nat.leb_spec (cap q) (size q)); simpl; [lia|]. rewrite Hcl.
  split_and!; [lia| |done]. apply bounded_insert_repr; [done|lia].
Qed.

Lemma bounded_try_pop_spec q l :
  repr q l ->
  match try_pop q with
  | Some (a, q') => exists l', l = a :: l' /\ repr q' l' /\ limit q' = limit q
  | None => l = []
  end.
Proof.
  intros (Hc & Hb & Hh & Ht & Hs & Hl & Hr). unfold try_pop.
  destruct (Nat.eqb_spec (size q) 0) as [E|E]; [by apply nil_length_inv; lia|].
  destruct l as [|a l]; simpl in *; [lia|].
  assert (buf q !! head q = Some (Some a)) as ->.
  { rewrite <-(ring_head _ _ _ _ _ Hr). f_equal. symmetry. by apply Nat.mod_small. }
  exists l. split; [done|]. split; [|done]. unfold repr; simpl.
  rewrite length_insert. split_and!; try done; try lia.
  - apply Nat.mod_upper_bound. lia.
  - rewrite Ht, Nat.Div0.add_mod_idemp_l. f_equal. lia.
  - replace (head q) with (head q mod cap q)%nat at 1 by (by apply Nat.mod_small).
    replace (head q + 1)%nat with (S (head q)) by lia. apply ring_pop with a; [lia|lia|done].
Qed.

Lemma bounded_pop_try q : pop q = try_pop q.
Proof.
  unfold pop, try_pop. destruct (closed q); simpl; [done|].
  destruct (Nat.ltb_spec 0 (size q)); simpl; [done|].
  by replace (size q) with 0%nat by lia.
Qed.

End S.
Arguments t : clear implicits.
End BoundedQueue.

#[export] Instance BoundedQueue_fifo A : BoundedFifo (BoundedQueue.t A) A := {
  bf_repr := BoundedQueue.repr;
  bf_limit := BoundedQueue.limit;
  bf_push := BoundedQueue.try_push;
  bf_pop := BoundedQueue.try_pop;
  bf_size := BoundedQueue.size;
  bf_push_spec := BoundedQueue.bounded_try_push_spec;
  bf_pop_spec := BoundedQueue.bounded_try_pop_spec;
  bf_size_spec := fun q l H => proj1 (proj2 (proj2 (proj2 (proj2 H))))
}.

(** * [SpscQueue<T>]

    The capacity is the least power of two that is at least 2 and at least the requested
    one; one slot stays empty, so [cap - 1] elements fit. *)
Module SpscQueue.

(** [std::size_t c = 2; while (c < want) c <<= 1;].  The doubling is on 64 bits; 62
    iterations reach [2^63], the largest request for which the loop ends. *)
(* @src include/concurrency/spsc_queue.hpp:14-15 SpscQueue::SpscQueue *)
Fixpoint grow_pow2 (fuel : nat) (c want : Z) : option Z :=
  if c <? want then
    match fuel with
    | O => None
    | S fuel => grow_pow2 fuel (u64 (c * 2)) want
    end
  else Some c.

Definition capacity_for (want : Z) : option Z := grow_pow2 62 2 want.

Lemma grow_pow2_spec fuel k want :
  0 <= k -> k + Z.of_nat fuel <= 63 -> want <= 2 ^ (k + Z.of_nat fuel) ->
  exists j, grow_pow2 fuel (2 ^ k) want = Some (2 ^ j) /\ k <= j <= 63 /\ want <= 2 ^ j /\
            (j = k \/ 2 ^ (j - 1) < want).
Proof.
  revert k. induction fuel as [|fuel IH]; intros k Hk Hf Hw; simpl;
    destruct (Z.ltb_spec (2 ^ k) want) as [Hlt|Hge].
  - rewrite Z.add_0_r in Hw. lia.
  - exists k. split_and!; first [done|lia].
  - replace (u64 (2 ^ k * 2)) with (2 ^ (k + 1)).
    + destruct (IH (k + 1)) as (j & -> & Hj & Hwj & Hd); [lia|lia| |].
      { replace (k + 1 + Z.of_nat fuel) with (k + Z.of_nat (S fuel)) by lia. done. }
      exists j. split_and!; [done|lia|lia|done|]. right.
      destruct Hd as [->|?]; [|done]. by replace (k + 1 - 1) with k by lia.
    + assert (0 < 2 ^ k) by (apply Z.pow_pos_nonneg; lia).
      assert (2 ^ k <= 2 ^ 62) by (apply Z.pow_le_mono_r; lia).
      rewrite Z.pow_add_r, u64_small by lia. lia.
  - exists k. split_and!; first [done|lia].
Qed.

Lemma capacity_for_pow2 want :
  want <= 2 ^ 63 ->
  exists j, capacity_for want = Some (2 ^ j) /\ 1 <= j <= 63 /\ want <= 2 ^ j /\
            (j = 1 \/ 2 ^ (j - 1) < want).
Proof. intros Hw. apply (grow_pow2_spec 62 1 want); lia. Qed.

Section S.
Context {A : Type}.

(* @src include/concurrency/spsc_queue.hpp:55-59 SpscQueue *)
Record t := {
  cap : Z;
  mask : Z;
  buf : list (option A);
  head : Z;
  tail : Z
}.

(* @src include/concurrency/spsc_queue.hpp | explicit SpscQueue( *)
Definition make (capacity_pow2 : Z) : option t :=
  c ← capacity_for capacity_pow2;
  Some {| cap := c; mask := c - 1; buf := replicate (Z.to_nat c) None; head := 0; tail := 0 |}.

(* @src include/concurrency/spsc_queue.hpp | bool try_push(const T& *)
Definition try_push (q : t) (item : A) : option t :=
  let next := Z.land (tail q + 1) (mask q) in
  if next =? head q then None
  else Some {| cap := cap q; mask := mask q;
               buf := <[Z.to_nat (tail q) := Some item]> (buf q);
               head := head q; tail := next |}.

(* @src include/concurrency/spsc_queue.hpp | std::optional<T> try_pop *)
Definition try_pop (q : t) : option (A * t) :=
  if head q =? tail q then None
  else match buf q !! Z.to_nat (head q) with
  | Some (Some item) =>
      Some (item, {| cap := cap q; mask := mask q;
                     buf := <[Z.to_nat (head q) := None]> (buf q);
                     head := Z.land (head q + 1) (mask q); tail := tail q |})
  | _ => None
  end.

(** [(t - h) & mask_] on [std::size_t]. *)
(* @src include/concurrency/spsc_queue.hpp | std::size_t size_approx *)
Definition size_approx (q : t) : nat := Z.to_nat (Z.land (u64 (tail q - head q)) (mask q)).

Definition repr (q : t) (l : list A) : Prop :=
  exists k, 1 <= k <= 63 /\ cap q = 2 ^ k /\ mask q = Z.ones k /\
  length (buf q) = Z.to_nat (2 ^ k) /\ 0 <= head q < 2 ^ k /\
  tail q = (head q + Z.of_nat (length l)) mod 2 ^ k /\
  Z.of_nat (length l) < 2 ^ k /\
  ring_holds (Z.to_nat (2 ^ k)) (buf q) (Z.to_nat (head q)) l.

Definition limit (q : t) : nat := Z.to_nat (cap q - 1).

Lemma spsc_make_repr want q : want <= 2 ^ 63 -> make want = Some q -> repr q [].
Proof.
  intros Hw. unfold make. destruct (capacity_for_pow2 want Hw) as (j & -> & Hj & _).
  simpl. intros [= <-]. exists j. simpl.
  assert (0 < 2 ^ j) by (apply Z.pow_pos_nonneg; lia).
  rewrite length_replicate, Z.ones_equiv, Zmod_0_l. split_and!; try done; lia.
Qed.

Lemma mask_mod k z : 0 <= k -> Z.land z (Z.ones k) = z mod 2 ^ k.
Proof. intros. by apply Z.land_ones. Qed.

(** Index arithmetic on [Z] against the natural-number indices of the ring. *)
Lemma ring_index_Z k h i :
  0 <= k -> 0 <= h ->
  Z.to_nat ((h + Z.of_nat i) mod 2 ^ k) = ((Z.to_nat h + i) mod Z.to_nat (2 ^ k))%nat.
Proof.
  intros Hk Hh. assert (0 < 2 ^ k) by (apply Z.pow_pos_nonneg; lia).
  rewrite Z2Nat.inj_mod by lia. f_equal. lia.
Qed.

Lemma next_index k h n :
  0 <= k -> ((h + Z.of_nat n) mod 2 ^ k + 1) mod 2 ^ k = (h + Z.of_nat (S n)) mod 2 ^ k.
Proof.
  intros. assert (0 < 2 ^ k) by (apply Z.pow_pos_nonneg; lia).
  rewrite Zplus_mod_idemp_l. f_equal. lia.
Qed.

Lemma full_iff k h n :
  0 <= k -> 0 <= h < 2 ^ k -> 0 <= n < 2 ^ k -> (h + n) mod 2 ^ k = h <-> n = 0.
Proof.
  intros Hk Hh Hn. split.
  - intros E. destruct (decide (h + n < 2 ^ k)).
    + rewrite Z.mod_small in E; lia.
    + rewrite <-(Z.mod_unique (h + n) (2 ^ k) 1 (h + n - 2 ^ k)) in E; lia.
  - intros ->. rewrite Z.mod_small; lia.
Qed.

Lemma spsc_try_push_spec q l a :
  repr q l ->
  match try_push q a with
  | Some q' => (length l < limit q)%nat /\ repr q' (l ++ [a]) /\ limit q' = limit q
  | None => (limit q <= length l)%nat
  end.
Proof.
  intros (k & Hk & Hc & Hm & Hb & Hh & Ht & Hl & Hr).
  assert (0 < 2 ^ k) by (apply Z.pow_pos_nonneg; lia).
  unfold try_push, limit. rewrite Hm, mask_mod, Ht, next_index by lia.
  destruct (Z.eqb_spec ((head q + Z.of_nat (S (length l))) mod 2 ^ k) (head q)) as [E|E].
  - destruct (decide (Z.of_nat (S (length l)) < 2 ^ k)); [|lia].
    apply full_iff in E; lia.
  - assert (Z.of_nat (S (length l)) < 2 ^ k) as Hlt.
    { destruct (decide (Z.of_nat (S (length l)) = 2 ^ k)) as [E2|]; [|lia].
      destruct E. rewrite E2. rewrite <-Z.add_mod_idemp_r, Z.mod_same by lia.
      rewrite Z.mod_small; lia. }
    simpl. split_and!; [lia| |done].
    exists k; simpl. rewrite length_insert, length_app; simpl. split_and!; try done; try lia.
    rewrite ring_index_Z by lia. apply ring_push; [lia|done|lia|done].
Qed.

Lemma spsc_try_pop_spec q l :
  repr q l ->
  match try_pop q with
  | Some (a, q') => exists l', l = a :: l' /\ repr q' l' /\ limit q' = limit q
  | None => l = []
  end.
Proof.
  intros (k & Hk & Hc & Hm & Hb & Hh & Ht & Hl & Hr).
  assert (0 < 2 ^ k) by (apply Z.pow_pos_nonneg; lia).
  unfold try_pop. destruct (Z.eqb_spec (head q) (tail q)) as [E|E].
  - rewrite Ht in E. symmetry in E. apply full_iff in E; [|lia..].
    apply nil_length_inv. lia.
  - destruct l as [|a l].
    { destruct E. rewrite Ht; simpl. rewrite Z.add_0_r, Z.mod_small; lia. }
    assert (Z.to_nat (head q) < Z.to_nat (2 ^ k))%nat as Hlt by lia.
    assert (buf q !! Z.to_nat (head q) = Some (Some a)) as ->.
    { rewrite <-(ring_head _ _ _ _ _ Hr). f_equal. symmetry. by apply Nat.mod_small. }
    exists l. split; [done|]. split; [|done]. exists k. simpl in *.
    rewrite length_insert, Hm, mask_mod by lia. split_and!; try done; try lia.
    + apply Z.mod_pos_bound. lia.
    + apply Z.mod_pos_bound. lia.
    + rewrite Ht, Zplus_mod_idemp_l. f_equal. lia.
    + assert (0 < Z.to_nat (2 ^ k))%nat as Hn by lia.
      assert (length l < Z.to_nat (2 ^ k))%nat as Hll by lia.
      pose proof (ring_pop _ _ _ a l None Hn Hll Hr) as Hp.
      rewrite (Nat.mod_small (Z.to_nat (head q))) in Hp by lia.
      replace (Z.to_nat ((head q + 1) mod 2 ^ k))
        with (S (Z.to_nat (head q)) mod Z.to_nat (2 ^ k))%nat; [done|].
      change 1 with (Z.of_nat 1). rewrite ring_index_Z by lia. f_equal. lia.
Qed.

Lemma spsc_size_spec q l : repr q l -> size_approx q = length l.
Proof.
  intros (k & Hk & Hc & Hm & Hb & Hh & Ht & Hl & Hr).
  assert (0 < 2 ^ k) by (apply Z.pow_pos_nonneg; lia).
  unfold size_approx, u64, wrapu. rewrite Hm, mask_mod, Ht by lia.
  replace ((((head q + Z.of_nat (length l)) mod 2 ^ k - head q) mod 2 ^ 64) mod 2 ^ k)
    with (((head q + Z.of_nat (length l)) mod 2 ^ k - head q) mod 2 ^ k).
  - rewrite Zminus_mod_idemp_l. replace (head q + _ - head q) with (Z.of_nat (length l)) by lia.
    rewrite Z.mod_small; lia.
  - symmetry. apply mod_pow2_tower. lia.
Qed.

End S.
Arguments t : clear implicits.
End SpscQueue.

#[export] Instance SpscQueue_fifo A : BoundedFifo (SpscQueue.t A) A := {
  bf_repr := SpscQueue.repr;
  bf_limit := SpscQueue.limit;
  bf_push := SpscQueue.try_push;
  bf_pop := SpscQueue.try_pop;
  bf_size := SpscQueue.size_approx;
  bf_push_spec := SpscQueue.spsc_try_push_spec;
  bf_pop_spec := SpscQueue.spsc_try_pop_spec;
  bf_size_spec := SpscQueue.spsc_size_spec
}.
