(* ===== verification/SpscConc.v ===== *)
(** The lock-free ring [SpscQueue] ([include/concurrency/spsc_queue.hpp]) with its producer
    and its consumer interleaved instruction by instruction under release/acquire ordering.

    An atomic index is the history of the values stored to it, oldest first.  A thread reads
    its own index exactly (it is the only writer); an acquire load of the other thread's
    index returns any value not older than the one it read last, so stale reads are part of
    the model.  Slot accesses are separate steps, and the theorem shows that they never
    touch the same slot, which is what makes the non-atomic accesses race free. *)
From S2P Require Import Prelude Queues.

Module SpscConc.
Section S.
Context {A : Type}.

(** Where the producer is inside [try_push(item)]. *)
(* @src include/concurrency/spsc_queue.hpp | bool try_push(T&& *)
Inductive producer_pc :=
| PIdle
| PCheck (item : A) (t next : Z)   (* before [next == head_.load(acquire)] *)
| PWrite (item : A) (t next : Z)   (* before [buf_[t] = std::move(item)] *)
| PStore (item : A) (next : Z).    (* before [tail_.store(next, release)] *)

(** Where the consumer is inside [try_pop()]. *)
(* @src include/concurrency/spsc_queue.hpp | std::optional<T> try_pop *)
Inductive consumer_pc :=
| CIdle
| CCheck (h : Z)                   (* before [h == tail_.load(acquire)] *)
| CRead (h : Z)                    (* before [std::move(buf_[h])] *)
| CStore (h : Z) (item : option A) (* before [head_.store((h + 1) & mask_, release)] *).

(** [pushed]: the items of the calls to [try_push] that returned [true], in order;
    [popped]: what the successful calls to [try_pop] returned. *)
(* @src include/concurrency/spsc_queue.hpp:55-59 SpscQueue *)
Record conc := {
  mask : Z;
  buf : list (option A);
  head_hist : list Z;
  tail_hist : list Z;
  ppc : producer_pc;
  cpc : consumer_pc;
  p_seen : nat;
  c_seen : nat;
  pushed : list A;
  popped : list (option A)
}.
#[export] Instance eta_conc : Eta conc := fun r =>
  {| mask := mask r; buf := buf r; head_hist := head_hist r; tail_hist := tail_hist r;
     ppc := ppc r; cpc := cpc r; p_seen := p_seen r; c_seen := c_seen r; pushed := pushed r;
     popped := popped r |}.

(* @src include/concurrency/spsc_queue.hpp | explicit SpscQueue( *)
Definition conc_init (capacity_pow2 : Z) : option conc :=
  c ← SpscQueue.capacity_for capacity_pow2;
  Some {| mask := c - 1; buf := replicate (Z.to_nat c) None; head_hist := [0];
          tail_hist := [0]; ppc := PIdle; cpc := CIdle; p_seen := 0; c_seen := 0;
          pushed := []; popped := [] |}.

(** One instruction of one thread. *)
(* @src include/concurrency/spsc_queue.hpp:31-46 SpscQueue::try_push/try_pop *)
Inductive step (s : conc) : conc -> Prop :=
| push_begin item t :
    ppc s = PIdle -> last (tail_hist s) = Some t ->
    step s s <| ppc := PCheck item t (Z.land (t + 1) (mask s)) |>
| push_full item t next i :
    ppc s = PCheck item t next -> (p_seen s <= i)%nat -> head_hist s !! i = Some next ->
    step s s <| ppc := PIdle |> <| p_seen := i |>
| push_room item t next i h :
    ppc s = PCheck item t next -> (p_seen s <= i)%nat -> head_hist s !! i = Some h ->
    next <> h ->
    step s s <| ppc := PWrite item t next |> <| p_seen := i |>
| push_write item t next :
    ppc s = PWrite item t next ->
    step s s <| ppc := PStore item next |> <| buf := <[Z.to_nat t := Some item]> (buf s) |>
| push_store item next :
    ppc s = PStore item next ->
    step s s <| ppc := PIdle |> <| tail_hist := tail_hist s ++ [next] |>
             <| pushed := pushed s ++ [item] |>
| pop_begin h :
    cpc s = CIdle -> last (head_hist s) = Some h ->
    step s s <| cpc := CCheck h |>
| pop_empty h i :
    cpc s = CCheck h -> (c_seen s <= i)%nat -> tail_hist s !! i = Some h ->
    step s s <| cpc := CIdle |> <| c_seen := i |>
| pop_some h i t :
    cpc s = CCheck h -> (c_seen s <= i)%nat -> tail_hist s !! i = Some t -> h <> t ->
    step s s <| cpc := CRead h |> <| c_seen := i |>
| pop_read h item :
    cpc s = CRead h -> buf s !! Z.to_nat h = Some item ->
    step s s <| cpc := CStore h item |> <| buf := <[Z.to_nat h := None]> (buf s) |>
| pop_store h item :
    cpc s = CStore h item ->
    step s s <| cpc := CIdle |> <| head_hist := head_hist s ++ [Z.land (h + 1) (mask s)] |>
             <| popped := popped s ++ [item] |>.

Inductive reachable (want : Z) : conc -> Prop :=
| reach_init s : conc_init want = Some s -> reachable want s
| reach_step s s' : reachable want s -> step s s' -> reachable want s'.

(** ** Invariant *)

(** Position [n] of an index history holds [n] modulo the capacity. *)
Definition counts (k : Z) (hist : list Z) : Prop :=
  hist <> [] /\ forall n v, hist !! n = Some v -> v = Z.of_nat n mod 2 ^ k.

Definition popped_count (s : conc) : nat := length (head_hist s) - 1.
Definition pushed_count (s : conc) : nat := length (tail_hist s) - 1.

(** First position whose slot still has to hold its element. *)
Definition live_from (s : conc) : nat :=
  match cpc s with CStore _ _ => S (popped_count s) | _ => popped_count s end.

Definition producer_ok (k : Z) (s : conc) : Prop :=
  let T := pushed_count s in
  let room := Z.of_nat T - Z.of_nat (p_seen s) < 2 ^ k - 1 in
  let nxt := Z.of_nat (S T) mod 2 ^ k in
  match ppc s with
  | PIdle => True
  | PCheck _ t next => t = Z.of_nat T mod 2 ^ k /\ next = nxt
  | PWrite _ t next => t = Z.of_nat T mod 2 ^ k /\ next = nxt /\ room
  | PStore item next =>
      next = nxt /\ room /\ buf s !! Z.to_nat (Z.of_nat T mod 2 ^ k) = Some (Some item)
  end.

Definition consumer_ok (k : Z) (s : conc) : Prop :=
  let H := popped_count s in
  match cpc s with
  | CIdle => True
  | CCheck h => h = Z.of_nat H mod 2 ^ k
  | CRead h => h = Z.of_nat H mod 2 ^ k /\ (S H <= c_seen s)%nat
  | CStore h item =>
      h = Z.of_nat H mod 2 ^ k /\ (S H <= c_seen s)%nat /\ (exists x, pushed s !! H = Some x /\ item = Some x)
  end.

Definition conc_inv (s : conc) : Prop :=
  exists k, 1 <= k <= 63 /\ mask s = Z.ones k /\ length (buf s) = Z.to_nat (2 ^ k) /\
  counts k (head_hist s) /\ counts k (tail_hist s) /\
  (p_seen s <= popped_count s <= c_seen s)%nat /\ (c_seen s <= pushed_count s)%nat /\
  Z.of_nat (pushed_count s) - Z.of_nat (p_seen s) <= 2 ^ k - 1 /\
  length (pushed s) = pushed_count s /\
  popped s = Some <$> take (popped_count s) (pushed s) /\
  (forall n x, (live_from s <= n)%nat -> pushed s !! n = Some x ->
     buf s !! Z.to_nat (Z.of_nat n mod 2 ^ k) = Some (Some x)) /\
  producer_ok k s /\ consumer_ok k s.

Lemma counts_snoc k hist n :
  counts k hist -> n = Z.of_nat (length hist) mod 2 ^ k -> counts k (hist ++ [n]).
Proof.
  intros [Hne Hc] ->. split; [by destruct hist|].
  intros i v Hi. apply lookup_app_Some in Hi as [Hi|[Hle Hi]]; [by apply Hc|].
  apply list_lookup_singleton_Some in Hi as [E <-]. do 2 f_equal. lia.
Qed.

Lemma counts_pos k hist : counts k hist -> (0 < length hist)%nat.
Proof. intros [? _]. destruct hist; [done|simpl; lia]. Qed.

Lemma counts_last k hist v :
  counts k hist -> last hist = Some v -> v = Z.of_nat (length hist - 1) mod 2 ^ k.
Proof. intros [_ Hc] Hl. rewrite last_lookup in Hl. apply Hc. by rewrite <-Nat.sub_1_r in Hl. Qed.

(** Two counts at distance less than the capacity that fall on the same slot are equal. *)
Lemma slot_inj k n m :
  0 <= k -> n mod 2 ^ k = m mod 2 ^ k -> n <= m < n + 2 ^ k -> n = m.
Proof.
  intros Hk E Hd. assert (0 < 2 ^ k) by (apply Z.pow_pos_nonneg; lia).
  assert ((m - n) mod 2 ^ k = 0) as Hz by (rewrite Zminus_mod, E, Z.sub_diag; apply Zmod_0_l).
  rewrite Z.mod_small in Hz; lia.
Qed.

Lemma slot_inj_nat k n m :
  0 <= k -> Z.to_nat (Z.of_nat n mod 2 ^ k) = Z.to_nat (Z.of_nat m mod 2 ^ k) ->
  (n <= m)%nat -> Z.of_nat m < Z.of_nat n + 2 ^ k -> n = m.
Proof.
  intros Hk E Hle Hd. assert (0 < 2 ^ k) by (apply Z.pow_pos_nonneg; lia).
  apply Nat2Z.inj. apply (slot_inj k); [done| |lia].
  apply Z2Nat.inj; [apply Z.mod_pos_bound; lia|apply Z.mod_pos_bound; lia|done].
Qed.

Lemma slot_lt k n : 0 < 2 ^ k -> (Z.to_nat (n mod 2 ^ k) < Z.to_nat (2 ^ k))%nat.
Proof. intros. pose proof (Z.mod_pos_bound n (2 ^ k)). lia. Qed.

Lemma counts_has_last k hist :
  counts k hist -> exists v, last hist = Some v /\ hist !! (length hist - 1)%nat = Some v.
Proof.
  intros Hc. pose proof (counts_pos _ _ Hc).
  destruct (lookup_lt_is_Some_2 hist (length hist - 1)) as [v Hv]; [lia|].
  exists v. by rewrite last_lookup, <-Nat.sub_1_r.
Qed.

Lemma land_next k n : 0 <= k ->
  Z.land (Z.of_nat n mod 2 ^ k + 1) (Z.ones k) = Z.of_nat (S n) mod 2 ^ k.
Proof.
  intros. rewrite Z.land_ones by done. rewrite Zplus_mod_idemp_l. f_equal. lia.
Qed.

Lemma conc_inv_init want s : want <= 2 ^ 63 -> conc_init want = Some s -> conc_inv s.
Proof.
  intros Hw. unfold conc_init. destruct (SpscQueue.capacity_for_pow2 want Hw) as (j & -> & Hj & _).
  simpl. intros [= <-]. exists j. unfold popped_count, pushed_count; simpl.
  assert (2 ^ 1 <= 2 ^ j) by (apply Z.pow_le_mono_r; lia).
  rewrite length_replicate, Z.ones_equiv. split_and!; try done; try lia.
  - split; [done|]. intros [|n] v; simpl; [|by destruct n]. intros [= <-]. by rewrite Zmod_0_l.
  - split; [done|]. intros [|n] v; simpl; [|by destruct n]. intros [= <-]. by rewrite Zmod_0_l.
Qed.

Ltac unpack_inv :=
  match goal with
  | H : conc_inv _ |- _ =>
      destruct H as (k & Hk & Hm & Hb & Hh & Ht & Hseen & Hct & Hroom & Hpl & Hpop & Hbuf & Hp & Hc);
      assert (0 < 2 ^ k) by (apply Z.pow_pos_nonneg; lia)
  end.

Ltac use_pc := repeat match goal with
  | E : ppc _ = _, H : producer_ok _ _ |- _ => unfold producer_ok in H; rewrite E in H; clear E
  | E : cpc _ = _, H : consumer_ok _ _ |- _ =>
      unfold consumer_ok in H; unfold live_from in *; rewrite E in *; clear E
  end.

(** Reading an index history: the value read, and that the position exists. *)
Lemma hist_read k hist i v :
  counts k hist -> hist !! i = Some v -> v = Z.of_nat i mod 2 ^ k /\ (i <= length hist - 1)%nat.
Proof.
  intros [_ Hc] Hi. split; [by apply Hc|]. apply lookup_lt_Some in Hi. lia.
Qed.

Lemma popped_le_live s : (popped_count s <= live_from s)%nat.
Proof. unfold live_from. destruct (cpc s); lia. Qed.

(** Writing a slot leaves the slot of another live position alone. *)
Lemma write_other k (b : list (option A)) n m v :
  0 <= k -> (n <= m)%nat -> n <> m -> Z.of_nat m < Z.of_nat n + 2 ^ k ->
  <[Z.to_nat (Z.of_nat n mod 2 ^ k) := v]> b !! Z.to_nat (Z.of_nat m mod 2 ^ k)
    = b !! Z.to_nat (Z.of_nat m mod 2 ^ k) /\
  <[Z.to_nat (Z.of_nat m mod 2 ^ k) := v]> b !! Z.to_nat (Z.of_nat n mod 2 ^ k)
    = b !! Z.to_nat (Z.of_nat n mod 2 ^ k).
Proof.
  intros Hk Hle Hne Hd.
  split; apply list_lookup_insert_ne; intros E; [|symmetry in E]; apply slot_inj_nat in E; lia.
Qed.

Ltac step_goal k :=
  exists k; unfold producer_ok, consumer_ok, live_from in *; simpl in *;
  unfold popped_count, pushed_count in *; simpl in *;
  rewrite ?length_app in *; simpl in *.

Lemma step_producer_inv s s' :
  conc_inv s -> step s s' -> cpc s' = cpc s -> head_hist s' = head_hist s -> conc_inv s'.
Proof.
  intros Hinv Hs. pose proof (popped_le_live s) as Hlive. destruct Hs; intros Ec Eh; simpl in Ec, Eh; try congruence;
    unpack_inv; use_pc.
  - step_goal k. split_and!; try done; try lia.
    + by apply (counts_last _ (tail_hist s)).
    + rewrite Hm, (counts_last k (tail_hist s) t) by done. by apply land_next; lia.
  - destruct (hist_read k (head_hist s) i next) as [? ?]; [done..|].
    step_goal k. split_and!; try done; lia.
  - destruct (hist_read k (head_hist s) i h) as [-> ?]; [done..|]. destruct Hp as [? ->].
    step_goal k. split_and!; try done; try lia.
    destruct (decide (Z.of_nat (S (length (tail_hist s) - 1)) = Z.of_nat i + 2 ^ k)) as [E|]; [|lia].
    match goal with H : _ mod _ <> _ mod _ |- _ => destruct H end.
    rewrite E. rewrite <-Zplus_mod_idemp_r, Z_mod_same_full. f_equal. lia.
  - destruct Hp as (-> & -> & Hr).
    step_goal k. rewrite length_insert. split_and!; try done; try lia.
    + intros n x Hn Hx. pose proof (lookup_lt_Some _ _ _ Hx).
      destruct (write_other k (buf s) n (length (tail_hist s) - 1) (Some item)) as [_ ->];
        [lia..|by apply Hbuf].
    + apply list_lookup_insert_eq. rewrite Hb. by apply slot_lt.
  - destruct Hp as (-> & Hr & Hs).
    pose proof (counts_pos _ _ Ht). step_goal k. split_and!; try done; try lia.
    + apply counts_snoc; [done|]. do 2 f_equal. lia.
    + rewrite take_app_le by lia. done.
    + intros n x Hn Hx. apply lookup_app_Some in Hx as [Hx|[Hle Hx]]; [by apply Hbuf|].
      apply list_lookup_singleton_Some in Hx as [E <-]. replace n with (length (tail_hist s) - 1)%nat by lia. done.
    + destruct (cpc s); try done. destruct Hc as (? & ? & x & Hx & ?). split_and!; try done.
      exists x. split; [|done]. by apply lookup_app_l_Some.
Qed.

Lemma step_consumer_inv s s' :
  conc_inv s -> step s s' -> ppc s' = ppc s -> tail_hist s' = tail_hist s -> conc_inv s'.
Proof.
  intros Hinv Hs. destruct Hs; intros Ec Eh; simpl in Ec, Eh; try congruence;
    try (apply (f_equal length) in Eh; rewrite length_app in Eh; simpl in Eh; lia);
    unpack_inv; use_pc.
  - step_goal k. split_and!; try done; try lia. by apply (counts_last _ (head_hist s)).
  - destruct (hist_read k (tail_hist s) i h) as [? ?]; [done..|].
    step_goal k. split_and!; try done; lia.
  - destruct (hist_read k (tail_hist s) i t) as [-> ?]; [done..|].
    step_goal k. split_and!; try done; try lia.
    destruct (decide (i = length (head_hist s) - 1)%nat); [congruence|lia].
  - destruct Hc as [-> Hne]. step_goal k.
    destruct (lookup_lt_is_Some_2 (pushed s) (length (head_hist s) - 1)) as [x Hx]; [lia|].
    pose proof (Hbuf _ _ (le_n _) Hx) as Hitem. simplify_eq.
    rewrite length_insert. split_and!; try done; try lia.
    + intros n y Hn Hy. pose proof (lookup_lt_Some _ _ _ Hy).
      destruct (write_other k (buf s) (length (head_hist s) - 1) n None) as [-> _]; [lia..|].
      apply Hbuf; [lia|done].
    + destruct (ppc s); try done. destruct Hp as (? & ? & ?). split_and!; try done.
      destruct (write_other k (buf s) (length (head_hist s) - 1) (length (tail_hist s) - 1) None)
        as [-> _]; [lia..|done].
    + by exists x.
  - destruct Hc as (-> & Hne & x & Hx & ->).
    pose proof (counts_pos _ _ Hh). step_goal k.
    replace (length (head_hist s) + 1 - 1)%nat with (S (length (head_hist s) - 1)) by lia.
    split_and!; try done; try lia.
    + apply counts_snoc; [done|]. rewrite Hm, land_next by lia. do 2 f_equal. lia.
    + rewrite Hpop, (take_S_r _ _ x), fmap_app by done. done.
Qed.

Lemma conc_step_inv s s' : conc_inv s -> step s s' -> conc_inv s'.
Proof.
  intros Hi Hs. pose proof Hs as Hs'.
  destruct Hs'; first [by eapply step_producer_inv | by eapply step_consumer_inv].
Qed.

Lemma reachable_conc_inv want s : want <= 2 ^ 63 -> reachable want s -> conc_inv s.
Proof.
  intros Hw. induction 1; [by eapply conc_inv_init|by eapply conc_step_inv].
Qed.

(** C21: under every interleaving of one producer and one consumer, with stale (acquire) reads
    of the other thread's index, the values returned by successful [try_pop]s are exactly
    the first values accepted by [try_push], in order and without loss or repetition; at most
    [capacity - 1] accepted elements are in the ring; and the producer is never about to
    write the slot the consumer is about to read. *)
Theorem spsc_concurrent_fifo want s :
  want <= 2 ^ 63 -> reachable want s ->
  popped s = Some <$> take (length (popped s)) (pushed s) /\
  (length (popped s) <= length (pushed s))%nat /\
  Z.of_nat (length (pushed s)) - Z.of_nat (length (popped s)) <= mask s /\
  (forall item t next h, ppc s = PWrite item t next -> cpc s = CRead h -> t <> h).
Proof.
  intros Hw Hr. pose proof (reachable_conc_inv want s Hw Hr) as Hinv. unpack_inv.
  assert (length (popped s) = popped_count s) as El.
  { rewrite Hpop, length_fmap, length_take. lia. }
  rewrite El, Hm, Z.ones_equiv. split_and!; [done|lia|lia|].
  intros item t next h Ep Ec. use_pc. destruct Hp as (-> & _ & Hr'), Hc as (-> & Hlt).
  intros E. symmetry in E. apply slot_inj in E; lia.
Qed.

(** C15: neither thread ever waits for the other: wherever it is inside its method, its next
    instruction can be executed, and [try_push] and [try_pop] have at most four of them. *)
Theorem spsc_wait_free want s :
  want <= 2 ^ 63 -> reachable want s ->
  (exists s', step s s' /\ cpc s' <> cpc s) /\
  (forall item : A, exists s', step s s' /\ ppc s' <> ppc s).
Proof.
  intros Hw Hr. pose proof (reachable_conc_inv want s Hw Hr) as Hinv. unpack_inv.
  destruct (counts_has_last _ _ Hh) as (hv & Hhl & Hhv), (counts_has_last _ _ Ht) as (tv & Htl & Htv).
  split.
  - destruct (cpc s) as [|h|h|h item] eqn:E.
    + eexists; split; [by eapply pop_begin|done].
    + destruct (decide (h = tv)) as [->|Hne]; eexists; split;
        [by eapply pop_empty|done|by eapply pop_some|done].
    + pose proof Hc as Hc'. unfold consumer_ok in Hc'. rewrite E in Hc'. destruct Hc' as [Eh _].
      destruct (lookup_lt_is_Some_2 (buf s) (Z.to_nat h)) as [x Hx].
      { rewrite Hb, Eh. by apply slot_lt. }
      eexists; split; [by eapply pop_read|done].
    + eexists; split; [by eapply pop_store|done].
  - intros item. destruct (ppc s) as [|x t next|x t next|x next] eqn:E.
    + eexists; split; [by eapply (push_begin _ item)|done].
    + assert (p_seen s <= length (head_hist s) - 1)%nat by apply Hseen.
      destruct (decide (next = hv)) as [->|Hne]; eexists; split;
        [by eapply push_full|done|by eapply push_room|done].
    + eexists; split; [by eapply push_write|done].
    + eexists; split; [by eapply push_store|done].
Qed.



End S.
Arguments conc : clear implicits.
End SpscConc.

(** * A concrete run: capacity 2, one element pushed and popped *)
Definition demo_run : SpscConc.conc Z := {|
  SpscConc.mask := 1; SpscConc.buf := [None; None]; SpscConc.head_hist := [0; 1];
  SpscConc.tail_hist := [0; 1]; SpscConc.ppc := SpscConc.PIdle; SpscConc.cpc := SpscConc.CIdle;
  SpscConc.p_seen := 0; SpscConc.c_seen := 1; SpscConc.pushed := [7];
  SpscConc.popped := [Some 7] |}.

Ltac conc_step rule :=
  match goal with
  | H : SpscConc.reachable _ ?s |- _ =>
      eapply SpscConc.reach_step in H; [|apply rule; first [reflexivity | simpl; lia]];
      vm_compute in H
  end.

Lemma demo_run_reachable : SpscConc.reachable 2 demo_run.
Proof.
  pose proof (SpscConc.reach_init (A := Z) 2 _ eq_refl) as H. vm_compute in H.
  conc_step (fun s : SpscConc.conc Z => SpscConc.push_begin s 7 0).
  conc_step (fun s : SpscConc.conc Z => SpscConc.push_room s 7 0 1 0 0).
  conc_step (fun s : SpscConc.conc Z => SpscConc.push_write s 7 0 1).
  conc_step (fun s : SpscConc.conc Z => SpscConc.pop_begin s 0).
  conc_step (fun s : SpscConc.conc Z => SpscConc.push_store s 7 1).
  conc_step (fun s : SpscConc.conc Z => SpscConc.pop_some s 0 1 1).
  conc_step (fun s : SpscConc.conc Z => SpscConc.pop_read s 0 (Some 7)).
  conc_step (fun s : SpscConc.conc Z => SpscConc.pop_store s 0 (Some 7)).
  exact H.
Qed.

Lemma spsc_concurrent_fifo_witness :
  SpscConc.reachable 2 demo_run /\ SpscConc.popped demo_run = Some <$> take 1 [7].
Proof.
  split; [exact demo_run_reachable|].
  assert (2 <= 2 ^ 63) as Hw by lia.
  destruct (SpscConc.spsc_concurrent_fifo 2 demo_run Hw demo_run_reachable) as [E _]. exact E.
Defined.

Lemma spsc_wait_free_witness :
  exists s', SpscConc.step demo_run s' /\ SpscConc.cpc s' <> SpscConc.cpc demo_run.
Proof.
  assert (2 <= 2 ^ 63) as Hw by lia.
  exact (proj1 (SpscConc.spsc_wait_free 2 demo_run Hw demo_run_reachable)).
Defined.
