(* ===== verification/Mpsc.v ===== *)
(** The multi-producer queue [MpscQueue] ([include/concurrency/mpsc_queue.hpp]), interleaved
    instruction by instruction: any number of producers and one consumer.

    Each slot's [sequence] is the history of the values stored to it, oldest first; a load
    returns any of them, and a relaxed load of [tail_] any earlier value, so stale reads are
    part of the model (only the compare-and-swap, a read-modify-write, sees the last value).
    The data of a slot is not atomic: its accesses are separate steps, and the theorem shows
    that no two threads are ever at accesses of the same slot.  Positions are counted without
    the wrap at [2^64]; [positions_fit] shows that the 64-bit numbers of the code are these
    positions, and its signed differences theirs, as long as fewer than [2^63] less the
    capacity are claimed. *)
From stdpp Require Import functions.
From S2P Require Import Prelude Queues.

#[local] Open Scope nat_scope.

Module MpscQueue.
Section S.
Context {A : Type}.

(** Where a producer is inside [try_push(item)]. *)
(* @src include/concurrency/mpsc_queue.hpp | bool try_push(T item) *)
Inductive producer_pc :=
| PIdle
| PLoad (item : A)               (* before [pos = tail_.load(relaxed)] *)
| PSeq (item : A) (pos : nat)    (* before [slot.sequence.load(acquire)] *)
| PCas (item : A) (pos : nat)    (* [dif == 0]; before the compare-and-swap *)
| PWrite (item : A) (pos : nat)  (* before [slot.data = std::move(item)] *)
| PStore (item : A) (pos : nat). (* before [slot.sequence.store(pos + 1, release)] *)

(** Where the consumer is inside [try_pop()]. *)
(* @src include/concurrency/mpsc_queue.hpp | std::optional<T> try_pop() *)
Inductive consumer_pc :=
| CIdle
| CSeq                           (* before [slot.sequence.load(acquire)] *)
| CRead                          (* before [std::move(slot.data)] *)
| CStore (item : option A)       (* before [slot.sequence.store(pos + mask_ + 1, release)] *)
| CHead (item : option A).       (* before [head_.store(pos + 1, relaxed)] *)

(** [claimed]: the items of the successful compare-and-swaps, in their order; [accepted]: how
    many calls to [try_push] returned [true]; [popped]: what [try_pop] returned. *)
(* @src include/concurrency/mpsc_queue.hpp:73-83 MpscQueue *)
Record conc := {
  cap : nat;
  seqs : list (list nat);
  data : list (option A);
  head : nat;
  tail : nat;
  ppc : nat -> producer_pc;
  cpc : consumer_pc;
  claimed : list A;
  popped : list (option A);
  accepted : nat
}.
#[export] Instance eta_conc : Eta conc := fun r =>
  {| cap := cap r; seqs := seqs r; data := data r; head := head r; tail := tail r; ppc := ppc r; cpc := cpc r;
     claimed := claimed r; popped := popped r; accepted := accepted r |}.

(* @src include/concurrency/mpsc_queue.hpp | explicit MpscQueue( *)
Definition conc_init (capacity_pow2 : Z) : option conc :=
  c ← SpscQueue.capacity_for capacity_pow2;
  let c := Z.to_nat c in
  Some {| cap := c; seqs := (fun i => [i]) <$> seq 0 c; data := replicate c None; head := 0; tail := 0;
          ppc := fun _ => PIdle; cpc := CIdle; claimed := []; popped := []; accepted := 0 |}.

(** [pos & mask_] *)
Definition slot (s : conc) (pos : nat) : nat := Z.to_nat (Z.land (Z.of_nat pos) (Z.of_nat (cap s) - 1)).

(** The histories after a store to the sequence of a slot. *)
Definition append_seq (s : conc) (pos v : nat) : list (list nat) := alter (fun h => h ++ [v]) (slot s pos) (seqs s).

(** One instruction of producer [i] or of the consumer. *)
(* @src include/concurrency/mpsc_queue.hpp:30-60 MpscQueue::try_push/try_pop *)
Inductive step (s : conc) : conc -> Prop :=
| push_begin i item :
    ppc s i = PIdle -> step s s <| ppc := <[i := PLoad item]> (ppc s) |>
| push_load i item pos :
    ppc s i = PLoad item -> pos <= tail s -> step s s <| ppc := <[i := PSeq item pos]> (ppc s) |>
| push_ready i item pos h :
    ppc s i = PSeq item pos -> seqs s !! slot s pos = Some h -> pos ∈ h ->
    step s s <| ppc := <[i := PCas item pos]> (ppc s) |>
| push_full i item pos h v :
    ppc s i = PSeq item pos -> seqs s !! slot s pos = Some h -> v ∈ h -> v < pos ->
    step s s <| ppc := <[i := PIdle]> (ppc s) |>
| push_reload i item pos h v :
    ppc s i = PSeq item pos -> seqs s !! slot s pos = Some h -> v ∈ h -> pos < v ->
    step s s <| ppc := <[i := PLoad item]> (ppc s) |>
| push_claim i item pos :
    ppc s i = PCas item pos -> tail s = pos ->
    step s s <| tail := S pos |> <| claimed := claimed s ++ [item] |> <| ppc := <[i := PWrite item pos]> (ppc s) |>
| push_lost i item pos pos' :
    ppc s i = PCas item pos -> pos' <= tail s -> step s s <| ppc := <[i := PSeq item pos']> (ppc s) |>
| push_write i item pos :
    ppc s i = PWrite item pos ->
    step s s <| data := <[slot s pos := Some item]> (data s) |> <| ppc := <[i := PStore item pos]> (ppc s) |>
| push_store i item pos :
    ppc s i = PStore item pos ->
    step s s <| seqs := append_seq s pos (S pos) |> <| accepted := S (accepted s) |> <| ppc := <[i := PIdle]> (ppc s) |>
| pop_begin : cpc s = CIdle -> step s s <| cpc := CSeq |>
| pop_empty h v :
    cpc s = CSeq -> seqs s !! slot s (head s) = Some h -> v ∈ h -> v <> S (head s) -> step s s <| cpc := CIdle |>
| pop_ready h :
    cpc s = CSeq -> seqs s !! slot s (head s) = Some h -> S (head s) ∈ h -> step s s <| cpc := CRead |>
| pop_read item :
    cpc s = CRead -> data s !! slot s (head s) = Some item ->
    step s s <| data := <[slot s (head s) := None]> (data s) |> <| cpc := CStore item |>
| pop_store item :
    cpc s = CStore item -> step s s <| seqs := append_seq s (head s) (head s + cap s) |> <| cpc := CHead item |>
| pop_head item :
    cpc s = CHead item -> step s s <| head := S (head s) |> <| popped := popped s ++ [item] |> <| cpc := CIdle |>.

Inductive reachable (want : Z) : conc -> Prop :=
| reach_init s : conc_init want = Some s -> reachable want s
| reach_step s s' : reachable want s -> step s s' -> reachable want s'.

(** ** Invariant *)

(** The first position that the consumer has not released, and the first whose slot must
    still hold its element. *)
Definition rel (s : conc) : nat := match cpc s with CHead _ => S (head s) | _ => head s end.
Definition live (s : conc) : nat := match cpc s with CStore _ | CHead _ => S (head s) | _ => head s end.

(** The position that a producer has claimed and not published. *)
Definition holds (pc : producer_pc) : option (nat * A) :=
  match pc with PWrite x p | PStore x p => Some (p, x) | _ => None end.
Definition writes (pc : producer_pc) : option nat := match pc with PWrite _ p => Some p | _ => None end.

Definition held (s : conc) (p : nat) : Prop := exists i x, holds (ppc s i) = Some (p, x).

Definition consumer_ok (s : conc) : Prop :=
  match cpc s with
  | CIdle | CSeq => True
  | CRead => head s < tail s /\ ~ held s (head s)
  | CStore x => head s < tail s /\ ~ held s (head s) /\ exists a, claimed s !! head s = Some a /\ x = Some a
  | CHead x => head s < tail s /\ exists a, claimed s !! head s = Some a /\ x = Some a
  end.

Record inv (s : conc) : Prop := {
  inv_pow : exists k, (1 <= k)%Z /\ Z.of_nat (cap s) = (2 ^ k)%Z;
  inv_seqs : length (seqs s) = cap s;
  inv_data : length (data s) = cap s;
  inv_tail : rel s <= tail s <= rel s + cap s;
  inv_claimed : length (claimed s) = tail s;
  inv_holds i p x : holds (ppc s i) = Some (p, x) -> rel s <= p < tail s /\ claimed s !! p = Some x;
  inv_unique i j p x y : holds (ppc s i) = Some (p, x) -> holds (ppc s j) = Some (p, y) -> i = j;
  inv_bound p h v : rel s <= p < rel s + cap s -> seqs s !! slot s p = Some h -> v ∈ h ->
    v <= S p /\ (tail s <= p \/ held s p -> v <= p);
  inv_live p : live s <= p < tail s -> (forall i, writes (ppc s i) <> Some p) ->
    exists a, claimed s !! p = Some a /\ data s !! slot s p = Some (Some a);
  inv_cpc : consumer_ok s;
  inv_popped : popped s = Some <$> take (head s) (claimed s)
}.

Lemma slot_mod s p : inv s -> slot s p = p mod cap s /\ 2 <= cap s.
Proof.
  intros [(k & Hk & Hc) _ _ _ _ _ _ _ _ _ _]. unfold slot.
  assert (2 <= 2 ^ k)%Z by (change 2%Z with (2 ^ 1)%Z; apply Z.pow_le_mono_r; lia).
  split; [|lia]. rewrite Hc, <-Z.ones_equiv || rewrite Hc.
  replace (2 ^ k - 1)%Z with (Z.ones k) by (rewrite Z.ones_equiv; lia).
  rewrite Z.land_ones by lia. rewrite <-Hc, <-Nat2Z.inj_mod. apply Nat2Z.id.
Qed.

Lemma mod_window c r p q : 0 < c -> r <= p < r + c -> r <= q < r + c -> p mod c = q mod c -> p = q.
Proof.
  intros Hc Hp Hq E. replace p with (r + (p - r)) in E by lia. replace q with (r + (q - r)) in E by lia.
  assert (p - r = q - r) by (apply (ring_index_inj c r); [lia|lia|exact E]). lia.
Qed.

(** Every slot is the slot of a position of the window. *)
Lemma window_covers r c k : k < c -> exists p, r <= p < r + c /\ k = p mod c.
Proof.
  intros Hk. pose proof (Nat.div_mod r c ltac:(lia)) as E. pose proof (Nat.mod_upper_bound r c ltac:(lia)) as Hm.
  set (q := r / c) in *. set (m := r mod c) in *. destruct (Nat.le_gt_cases m k) as [Hle|Hlt].
  - exists (k + q * c). split; [nia|]. by rewrite Nat.Div0.mod_add, Nat.mod_small.
  - exists (k + (q + 1) * c). split; [nia|]. by rewrite Nat.Div0.mod_add, Nat.mod_small.
Qed.

Lemma mpsc_slot_inj s p q : inv s -> rel s <= p < rel s + cap s -> rel s <= q < rel s + cap s -> slot s p = slot s q -> p = q.
Proof.
  intros Hs Hp Hq E. destruct (slot_mod s p Hs) as [Ep ?]. destruct (slot_mod s q Hs) as [Eq _].
  rewrite Ep, Eq in E. apply (mod_window (cap s) (rel s)); lia.
Qed.

Lemma mpsc_slot_lt s p : inv s -> slot s p < cap s.
Proof. intros Hs. destruct (slot_mod s p Hs) as [-> ?]. apply Nat.mod_upper_bound. lia. Qed.

Lemma slot_wrap s p : inv s -> slot s (p + cap s) = slot s p.
Proof.
  intros Hs. destruct (slot_mod s p Hs) as [-> ?]. destruct (slot_mod s (p + cap s) Hs) as [-> _].
  replace (p + cap s) with (p + 1 * cap s) by lia. apply Nat.Div0.mod_add.
Qed.
(** Steps that neither claim nor publish. *)
Lemma inv_pc s i pc : inv s -> holds pc = None -> holds (ppc s i) = None -> inv (s <| ppc := <[i := pc]> (ppc s) |>).
Proof.
  intros Hs Hpc Hi. destruct Hs as [H1 H2 H3 H4 H5 H6 H7 H8 H9 H10 H11].
  assert (forall j p x, holds (<[i := pc]> (ppc s) j) = Some (p, x) -> holds (ppc s j) = Some (p, x)) as Hh.
  { intros j p x. destruct (decide (i = j)) as [<-|Hne]; [rewrite fn_lookup_insert; congruence|by rewrite fn_lookup_insert_ne]. }
  assert (forall p, held (s <| ppc := <[i := pc]> (ppc s) |>) p -> held s p) as Hheld.
  { intros p (j & x & Hj). exists j, x. by apply Hh. }
  assert (forall pc p, writes pc = Some p -> exists x, holds pc = Some (p, x)) as Hw.
  { intros [] p; simpl; intros; simplify_eq; eauto. }
  split; try done.
  - intros j p x Hj. by apply (H6 j), Hh.
  - intros j k p x y Hj Hk. by apply (H7 j k p x y); apply Hh.
  - intros p h v Hp Hl Hv. destruct (H8 p h v Hp Hl Hv) as [Hb Hc]. split; [done|]. intros [?|?]; apply Hc; [by left|right; by apply Hheld].
  - intros p Hp Hnw. apply H9; [done|]. intros j Hj. apply (Hnw j). simpl.
    destruct (decide (i = j)) as [<-|Hne]; [|by rewrite fn_lookup_insert_ne]. apply Hw in Hj as [x Hx]. congruence.
  - unfold consumer_ok in *. simpl. destruct (cpc s) as [| | |x|x]; naive_solver.
Qed.

Lemma inv_idle s pc : inv s -> cpc s = CIdle \/ cpc s = CSeq -> pc = CIdle \/ pc = CSeq -> inv (s <| cpc := pc |>).
Proof.
  intros [H1 H2 H3 H4 H5 H6 H7 H8 H9 H10 H11] Hc Hpc.
  assert (rel (s <| cpc := pc |>) = rel s) as Hr by (unfold rel; simpl; by destruct Hc as [->| ->], Hpc as [->| ->]).
  assert (live (s <| cpc := pc |>) = live s) as Hl by (unfold live; simpl; by destruct Hc as [->| ->], Hpc as [->| ->]).
  split; rewrite ?Hr, ?Hl; try done. unfold consumer_ok. simpl. by destruct Hpc as [->| ->].
Qed.

Lemma lookup_append_seq s pos v k h :
  append_seq s pos v !! k = Some h ->
  exists h0, seqs s !! k = Some h0 /\ ((k <> slot s pos /\ h = h0) \/ (k = slot s pos /\ h = h0 ++ [v])).
Proof.
  unfold append_seq. destruct (decide (k = slot s pos)) as [->|Hne].
  - rewrite list_lookup_alter, decide_True by done. destruct (seqs s !! slot s pos) as [h0|]; simpl; [|done].
    intros [= <-]. exists h0. split; [done|]. by right.
  - rewrite list_lookup_alter_ne by done. intros Hl. exists h. split; [done|]. by left.
Qed.

Lemma inv_claim s i item : inv s -> ppc s i = PCas item (tail s) -> tail s < rel s + cap s ->
  inv (s <| tail := S (tail s) |> <| claimed := claimed s ++ [item] |> <| ppc := <[i := PWrite item (tail s)]> (ppc s) |>).
Proof.
  intros Hs Hi Hroom. destruct Hs as [H1 H2 H3 H4 H5 H6 H7 H8 H9 H10 H11]. set (s' := s <| tail := _ |> <| claimed := _ |> <| ppc := _ |>).
  assert (forall j p x, holds (ppc s' j) = Some (p, x) ->
    (j = i /\ p = tail s /\ x = item) \/ (j <> i /\ holds (ppc s j) = Some (p, x))) as Hh.
  { intros j p x. unfold s'. simpl. destruct (decide (i = j)) as [<-|Hne]; [rewrite fn_lookup_insert; simpl; intros [= <- <-]; by left|rewrite fn_lookup_insert_ne by done; intros; right; split; congruence]. }
  assert (forall p x, claimed s !! p = Some x -> claimed s' !! p = Some x) as Hcl by (intros; by apply lookup_app_l_Some).
  assert (rel s' = rel s) as Hr by done. assert (live s' = live s) as Hl by done.
  split; rewrite ?Hr, ?Hl; unfold s'; simpl; try done.
  - lia.
  - rewrite length_app. simpl. lia.
  - intros j p x Hj. apply Hh in Hj as [(-> & -> & ->)|[Hne Hj]].
    + split; [lia|]. rewrite <-H5. by apply list_lookup_middle.
    + destruct (H6 j p x Hj) as [? ?]. split; [lia|by apply Hcl].
  - intros j k p x y Hj Hk. apply Hh in Hj as [(-> & -> & ->)|[Hne Hj]]; apply Hh in Hk as [(-> & Ep & ->)|[Hnk Hk]].
    + done.
    + destruct (H6 k _ _ Hk) as [? ?]. lia.
    + destruct (H6 j _ _ Hj) as [? ?]. lia.
    + by apply (H7 j k p x y).
  - intros p h v Hp Hlk Hv. destruct (H8 p h v Hp Hlk Hv) as [Hb Hc]. split; [done|].
    intros [Ht|(j & x & Hj)]; [apply Hc; left; lia|]. apply Hh in Hj as [(-> & -> & ->)|[Hne Hj]]; [apply Hc; left; lia|].
    apply Hc. right. by exists j, x.
  - intros p Hp Hnw. assert (p <> tail s) as Hpt.
    { intros ->. apply (Hnw i). rewrite fn_lookup_insert. done. }
    destruct (H9 p) as (a & Ha & Hd); [lia| |by exists a; split; [apply Hcl|]]. intros j Hj. apply (Hnw j).
    destruct (decide (i = j)) as [<-|Hne]; [rewrite Hi in Hj; done|by rewrite fn_lookup_insert_ne].
  - unfold consumer_ok in *. simpl.
    assert (forall p, p < tail s -> ~ held s p -> ~ held s' p) as Hnh.
    { intros p Hp Hn (j & x & Hj). apply Hh in Hj as [(-> & -> & ->)|[Hne Hj]]; [lia|]. apply Hn. by exists j, x. }
    destruct (cpc s) as [| | |x|x]; [done|done|..].
    + destruct H10 as [? ?]. split; [lia|by apply Hnh].
    + destruct H10 as (? & ? & a & Ha & ->). split_and!; [lia|by apply Hnh|]. exists a. split; [by apply Hcl|done].
    + destruct H10 as (? & a & Ha & ->). split; [lia|]. exists a. split; [by apply Hcl|done].
  - rewrite take_app_le; [done|]. rewrite H5. unfold rel in H4. destruct (cpc s); lia.
Qed.
(** The holders after producer [i] moved from [pc0] to [pc]. *)
Lemma holds_after s i pc j p x :
  holds (<[i := pc]> (ppc s) j) = Some (p, x) ->
  (j = i /\ holds pc = Some (p, x)) \/ (j <> i /\ holds (ppc s j) = Some (p, x)).
Proof.
  destruct (decide (i = j)) as [<-|Hne]; [rewrite fn_lookup_insert; by left|].
  rewrite fn_lookup_insert_ne by done. right. split; [congruence|done].
Qed.

Lemma writes_holds pc p : writes pc = Some p -> exists x, holds pc = Some (p, x).
Proof. destruct pc; simpl; intros [= <-]; eauto. Qed.

(** The data of the claimed slot is written. *)
Lemma inv_push_write s i item pos : inv s -> ppc s i = PWrite item pos ->
  inv (s <| data := <[slot s pos := Some item]> (data s) |> <| ppc := <[i := PStore item pos]> (ppc s) |>).
Proof.
  intros Hs Hi. set (s' := s <| data := _ |> <| ppc := _ |>).
  assert (forall j, holds (ppc s' j) = holds (ppc s j)) as Hh.
  { intros j. unfold s'. simpl. destruct (decide (i = j)) as [<-|Hne]; [by rewrite fn_lookup_insert, Hi|by rewrite fn_lookup_insert_ne]. }
  assert (forall p, held s' p -> held s p) as Hheld by (intros p (j & x & Hj); rewrite Hh in Hj; by exists j, x).
  pose proof (fun p q => mpsc_slot_inj s p q Hs) as Hinj'. pose proof (mpsc_slot_lt s pos Hs) as Hlt.
  destruct (inv_holds s Hs i pos item) as [Hpos Hcl]; [by rewrite Hi|].
  assert (rel s <= live s) as Hrl by (unfold rel, live; destruct (cpc s); lia).
  destruct Hs as [H1 H2 H3 H4 H5 H6 H7 H8 H9 H10 H11].
  split; try done.
  - unfold s'. simpl. by rewrite length_insert.
  - intros j p x. rewrite Hh. apply H6.
  - intros j k p x y. rewrite !Hh. apply H7.
  - intros p h v Hp Hl Hv. destruct (H8 p h v Hp Hl Hv) as [Hb Hc]. split; [done|].
    intros [?|?]; apply Hc; [by left|right; by apply Hheld].
  - intros p Hp Hnw. change (live s') with (live s) in Hp. change (tail s') with (tail s) in Hp.
    change (slot s' p) with (slot s p). unfold s'. simpl. destruct (decide (p = pos)) as [->|Hne].
    + exists item. split; [done|]. rewrite list_lookup_insert_eq; [done|lia].
    + rewrite list_lookup_insert_ne by (intros E; apply Hne; symmetry; apply Hinj'; [lia|lia|done]).
      apply H9; [done|]. intros j Hj. apply (Hnw j). unfold s'. simpl.
      destruct (decide (i = j)) as [<-|?]; [rewrite Hi in Hj; simpl in Hj; congruence|by rewrite fn_lookup_insert_ne].
  - unfold consumer_ok in *. simpl. destruct (cpc s) as [| | |x|x]; [done|done|..|done].
    + split; [apply H10|]. intros ?%Hheld. by apply H10.
    + split; [apply H10|]. split; [|apply H10]. intros ?%Hheld. by apply H10.
Qed.

(** The claimed slot is published. *)
Lemma inv_push_store s i item pos : inv s -> ppc s i = PStore item pos ->
  inv (s <| seqs := append_seq s pos (S pos) |> <| accepted := S (accepted s) |> <| ppc := <[i := PIdle]> (ppc s) |>).
Proof.
  intros Hs Hi. set (s' := s <| seqs := _ |> <| accepted := _ |> <| ppc := _ |>).
  assert (forall j p x, holds (ppc s' j) = Some (p, x) -> j <> i /\ holds (ppc s j) = Some (p, x)) as Hh.
  { intros j p x Hj. by apply holds_after in Hj as [[_ ?]|?]. }
  assert (forall p, held s' p -> held s p) as Hheld by (intros p (j & x & [_ Hj]%Hh); by exists j, x).
  destruct (inv_holds s Hs i pos item) as [Hpos Hcl]; [by rewrite Hi|].
  pose proof (fun p => mpsc_slot_inj s p pos Hs) as Hinj. destruct Hs as [H1 H2 H3 H4 H5 H6 H7 H8 H9 H10 H11].
  split; try done.
  - unfold s', append_seq. simpl. by rewrite length_alter.
  - intros j p x [_ Hj]%Hh. by apply (H6 j).
  - intros j k p x y [_ Hj]%Hh [_ Hk]%Hh. by apply (H7 j k p x y).
  - intros p h v Hp Hl Hv. change (rel s') with (rel s) in Hp. change (cap s') with (cap s) in Hp.
    change (slot s' p) with (slot s p) in Hl.
    apply lookup_append_seq in Hl as (h0 & Hl & [[Hne ->]|[He ->]]).
    + destruct (H8 p h0 v Hp Hl Hv) as [Hb Hc]. split; [done|]. intros [?|?]; apply Hc; [by left|right; by apply Hheld].
    + assert (p = pos) as -> by (apply Hinj; [lia|lia|done]). apply elem_of_app in Hv as [Hv|Hv%list_elem_of_singleton].
      * destruct (H8 pos h0 v Hp Hl Hv) as [Hb Hc]. split; [done|]. intros [?|?]; apply Hc; [by left|right; by apply Hheld].
      * subst v. split; [lia|]. intros [Ht|(j & x & [Hne Hj]%Hh)]; [change (tail s') with (tail s) in Ht; lia|].
        exfalso. apply Hne. apply (H7 j i pos x item); [done|by rewrite Hi].
  - intros p Hp Hnw. apply H9; [done|]. intros j Hj. apply (Hnw j). unfold s'. simpl.
    destruct (decide (i = j)) as [<-|?]; [rewrite Hi in Hj; simpl in Hj; congruence|by rewrite fn_lookup_insert_ne].
  - unfold consumer_ok in *. simpl. destruct (cpc s) as [| | |x|x]; [done|done|..|done].
    + split; [apply H10|]. intros ?%Hheld. by apply H10.
    + split; [apply H10|]. split; [|apply H10]. intros ?%Hheld. by apply H10.
Qed.

(** What the consumer may assume when it saw the slot published. *)
Lemma ready_claimed s h : inv s -> cpc s = CSeq -> seqs s !! slot s (head s) = Some h -> S (head s) ∈ h ->
  head s < tail s /\ ~ held s (head s).
Proof.
  intros Hs Hc Hl Hv. destruct (slot_mod s 0 Hs) as [_ Hcap].
  assert (rel s = head s) as Hr by (unfold rel; by rewrite Hc).
  destruct (inv_bound s Hs (head s) h (S (head s))) as [_ Hb]; [lia|done|done|].
  split; [|intros Hh; specialize (Hb (or_intror Hh)); lia].
  destruct (decide (tail s <= head s)) as [Ht|]; [specialize (Hb (or_introl Ht)); lia|lia].
Qed.

Lemma inv_pop_ready s : inv s -> cpc s = CSeq -> head s < tail s -> ~ held s (head s) -> inv (s <| cpc := CRead |>).
Proof.
  intros [H1 H2 H3 H4 H5 H6 H7 H8 H9 H10 H11] Hc Ht Hh.
  assert (rel (s <| cpc := CRead |>) = rel s) as Hr by (unfold rel; simpl; by rewrite Hc).
  assert (live (s <| cpc := CRead |>) = live s) as Hl by (unfold live; simpl; by rewrite Hc).
  split; rewrite ?Hr, ?Hl; done.
Qed.

Lemma inv_pop_read s item : inv s -> cpc s = CRead -> data s !! slot s (head s) = Some item ->
  inv (s <| data := <[slot s (head s) := None]> (data s) |> <| cpc := CStore item |>).
Proof.
  intros Hs Hc Hd. set (s' := s <| data := _ |> <| cpc := _ |>).
  assert (rel s' = rel s /\ rel s = head s) as [Hr Hrh] by (unfold rel, s'; simpl; by rewrite Hc).
  assert (live s = head s) as Hl by (unfold live; by rewrite Hc).
  pose proof (fun p => mpsc_slot_inj s p (head s) Hs) as Hinj. destruct (slot_mod s 0 Hs) as [_ Hcap].
  destruct Hs as [H1 H2 H3 H4 H5 H6 H7 H8 H9 H10 H11]. unfold consumer_ok in H10. rewrite Hc in H10. destruct H10 as [Ht Hnh].
  split; rewrite ?Hr; try done.
  - unfold s'. simpl. by rewrite length_insert.
  - intros p Hp Hnw. change (live s') with (S (head s)) in Hp. change (tail s') with (tail s) in Hp.
    destruct (H9 p) as (a & Ha & Hda); [lia|done|]. exists a. split; [done|]. change (slot s' p) with (slot s p). unfold s'. simpl.
    rewrite list_lookup_insert_ne; [done|]. intros E. assert (p = head s) by (apply Hinj; [lia|lia|done]). lia.
  - unfold consumer_ok. simpl. split; [done|]. split; [done|]. destruct (H9 (head s)) as (a & Ha & Hda); [lia| |].
    + intros i (x & Hx)%writes_holds. apply Hnh. by exists i, x.
    + exists a. split; [done|]. congruence.
Qed.

Lemma inv_pop_store s item : inv s -> cpc s = CStore item ->
  inv (s <| seqs := append_seq s (head s) (head s + cap s) |> <| cpc := CHead item |>).
Proof.
  intros Hs Hc. set (s' := s <| seqs := _ |> <| cpc := _ |>).
  assert (rel s' = S (head s) /\ rel s = head s) as [Hr Hrh] by (unfold rel, s'; simpl; by rewrite Hc).
  assert (live s' = live s /\ live s = S (head s)) as [Hl Hlh] by (unfold live, s'; simpl; by rewrite Hc).
  pose proof (fun p => mpsc_slot_inj s p (head s) Hs) as Hinj. destruct (slot_mod s 0 Hs) as [_ Hcap].
  pose proof (slot_wrap s (head s) Hs) as Hw.
  destruct Hs as [H1 H2 H3 H4 H5 H6 H7 H8 H9 H10 H11]. unfold consumer_ok in H10. rewrite Hc in H10.
  destruct H10 as (Ht & Hnh & Ha).
  split; rewrite ?Hr, ?Hl; try done.
  - unfold s', append_seq. simpl. by rewrite length_alter.
  - unfold s'. simpl. lia.
  - intros i p x Hi. destruct (H6 i p x Hi) as [Hp ?]. split; [|done]. unfold s'. simpl.
    assert (p <> head s) by (intros ->; apply Hnh; by exists i, x). lia.
  - intros p h v Hp Hlk Hv. change (cap s') with (cap s) in Hp. change (slot s' p) with (slot s p) in Hlk.
    apply lookup_append_seq in Hlk as (h0 & Hlk & [[Hne ->]|[He ->]]).
    + assert (p <> head s + cap s) by congruence. apply (H8 p h0 v); [lia|done|done].
    + assert (p = head s + cap s) as ->.
      { destruct (decide (p = head s + cap s)) as [|Hn]; [done|]. assert (p = head s) by (apply Hinj; [lia|lia|done]). lia. }
      rewrite Hw in Hlk. assert (v <= head s + cap s); [|lia]. apply elem_of_app in Hv as [Hv|Hv%list_elem_of_singleton]; [|lia].
      destruct (H8 (head s) h0 v) as [Hb _]; [lia|done|done|lia].
Qed.

Lemma inv_pop_head s item : inv s -> cpc s = CHead item ->
  inv (s <| head := S (head s) |> <| popped := popped s ++ [item] |> <| cpc := CIdle |>).
Proof.
  intros Hs Hc. set (s' := s <| head := _ |> <| popped := _ |> <| cpc := _ |>).
  assert (rel s' = rel s) as Hr by (unfold rel, s'; simpl; by rewrite Hc).
  assert (live s' = live s) as Hl by (unfold live, s'; simpl; by rewrite Hc).
  destruct Hs as [H1 H2 H3 H4 H5 H6 H7 H8 H9 H10 H11]. unfold consumer_ok in H10. rewrite Hc in H10.
  destruct H10 as (Ht & a & Ha & ->).
  split; rewrite ?Hr, ?Hl; try done.
  unfold s'. cbn [popped claimed head]. rewrite H11. simpl. rewrite (take_S_r _ _ a) by done. by rewrite fmap_app.
Qed.

(** A compare-and-swap that can succeed finds room: the position it claims was seen in its
    slot, and positions in a slot only grow. *)
Definition cas_ok (s : conc) : Prop := forall i item p,
  ppc s i = PCas item p -> exists h, seqs s !! slot s p = Some h /\ p ∈ h.

Lemma cas_room s i item : inv s -> cas_ok s -> ppc s i = PCas item (tail s) -> tail s < rel s + cap s.
Proof.
  intros Hs Hk Hi. destruct (Hk _ _ _ Hi) as (h & Hl & Hv). destruct (slot_mod s 0 Hs) as [_ Hcap].
  pose proof (inv_tail s Hs). destruct (decide (tail s = rel s + cap s)) as [E|]; [|lia].
  rewrite E, slot_wrap in Hl by done. destruct (inv_bound s Hs (rel s) h (tail s)) as [Hb _]; [lia|done|done|lia].
Qed.

Lemma cas_mono s s' i pc : cas_ok s -> cap s' = cap s -> ppc s' = <[i := pc]> (ppc s) ->
  (forall k h, seqs s !! k = Some h -> exists h', seqs s' !! k = Some h' /\ h ⊆ h') ->
  (forall item p, pc = PCas item p -> exists h, seqs s' !! slot s' p = Some h /\ p ∈ h) -> cas_ok s'.
Proof.
  intros Hk Hcap Hpc Hm Hn j item p. rewrite Hpc. destruct (decide (i = j)) as [<-|?];
    [rewrite fn_lookup_insert; apply Hn|rewrite fn_lookup_insert_ne by done].
  intros (h & Hl & Hv)%Hk. destruct (Hm _ _ Hl) as (h' & Hl' & Hs). exists h'. unfold slot in *. rewrite Hcap. split; [done|by apply Hs].
Qed.

Lemma append_grows s pos v k h : seqs s !! k = Some h -> exists h', append_seq s pos v !! k = Some h' /\ h ⊆ h'.
Proof.
  intros Hl. unfold append_seq. destruct (decide (k = slot s pos)) as [->|Hne].
  - exists (h ++ [v]). rewrite list_lookup_alter, decide_True, Hl by done. split; [done|]. set_solver.
  - exists h. by rewrite list_lookup_alter_ne.
Qed.

Lemma cas_frame s s' : cas_ok s -> cap s' = cap s -> ppc s' = ppc s ->
  (forall k h, seqs s !! k = Some h -> exists h', seqs s' !! k = Some h' /\ h ⊆ h') -> cas_ok s'.
Proof.
  intros Hk Hcap Hpc Hm i item p. rewrite Hpc. intros (h & Hl & Hv)%Hk. destruct (Hm _ _ Hl) as (h' & Hl' & Hs).
  exists h'. unfold slot in *. rewrite Hcap. split; [done|by apply Hs].
Qed.

Lemma cas_step s s' : cas_ok s -> step s s' -> cas_ok s'.
Proof.
  intros Hk Hst. destruct Hst;
    try (eapply cas_frame; [done|done|done|]; simpl; eauto using append_grows; fail);
    (eapply cas_mono; [done|done|done| |]; simpl; [eauto using append_grows|intros ? ? [=]; subst; eauto]).
Qed.

Lemma inv_step s s' : inv s -> cas_ok s -> step s s' -> inv s'.
Proof.
  intros Hs Hk Hst.
  destruct Hst as [i item Hi|i item pos Hi Hp|i item pos h Hi Hl Hv|i item pos h v Hi Hl Hv Hlt|i item pos h v Hi Hl Hv Hlt
    |i item pos Hi Ht|i item pos pos' Hi Hp|i item pos Hi|i item pos Hi|Hc|h v Hc Hl Hv Hne|h Hc Hl Hv|item Hc Hd|item Hc|item Hc].
  1-5,7: apply inv_pc; [done|done|by rewrite Hi].
  - subst pos. apply inv_claim; [done|done|by eapply cas_room].
  - by apply inv_push_write.
  - by apply (inv_push_store s i item).
  - apply inv_idle; auto.
  - apply inv_idle; auto.
  - destruct (ready_claimed s h) as [? ?]; [done..|]. by apply inv_pop_ready.
  - by apply inv_pop_read.
  - by apply inv_pop_store.
  - by apply inv_pop_head.
Qed.

Lemma inv_init want s : (want <= 2 ^ 63)%Z -> conc_init want = Some s -> inv s /\ cas_ok s.
Proof.
  intros Hw. unfold conc_init. destruct (SpscQueue.capacity_for_pow2 want Hw) as (k & -> & Hk & _). simpl.
  assert (0 < 2 ^ k)%Z as Hpos by (apply Z.pow_pos_nonneg; lia). intros [= <-].
  set (c := Z.to_nat (2 ^ k)) in *. assert (Z.of_nat c = 2 ^ k)%Z as Hc by (unfold c; lia).
  split; [|intros ? ? ?; done]. split; simpl; try done.
  - exists k. split; [lia|done].
  - by rewrite length_fmap, length_seq.
  - by rewrite length_replicate.
  - unfold rel. simpl. lia.
  - unfold rel, slot. simpl. intros p h v Hp Hl Hv. rewrite Hc in Hl.
    replace (2 ^ k - 1)%Z with (Z.ones k) in Hl by (rewrite Z.ones_equiv; lia).
    rewrite Z.land_ones, Z.mod_small, Nat2Z.id in Hl by lia.
    rewrite list_lookup_fmap, lookup_seq_lt in Hl by lia. simpl in Hl. simplify_eq.
    apply list_elem_of_singleton in Hv. lia.
  - intros p Hp. unfold live in Hp. simpl in Hp. lia.
Qed.

Lemma mpsc_reachable_inv want s : (want <= 2 ^ 63)%Z -> reachable want s -> inv s /\ cas_ok s.
Proof.
  intros Hw. induction 1 as [s Hi|s s' _ [IH1 IH2] Hst]; [by apply (inv_init want)|].
  split; [by apply (inv_step s)|by apply (cas_step s)].
Qed.

(** Two threads are at accesses of the data of one slot. *)
Definition race (s : conc) : Prop :=
  (exists i j p q, i <> j /\ writes (ppc s i) = Some p /\ writes (ppc s j) = Some q /\ slot s p = slot s q) \/
  (exists i p, writes (ppc s i) = Some p /\ cpc s = CRead /\ slot s p = slot s (head s)).

(** The position that a producer works at. *)
Definition at_pos (pc : producer_pc) : option nat :=
  match pc with PSeq _ p | PCas _ p | PWrite _ p | PStore _ p => Some p | _ => None end.

Lemma at_pos_step s s' : (forall i p, at_pos (ppc s i) = Some p -> p <= tail s) -> step s s' ->
  forall i p, at_pos (ppc s' i) = Some p -> p <= tail s'.
Proof.
  intros IH Hst.
  destruct Hst as [i item Hi|i item pos Hi Hp|i item pos h Hi Hl Hv|i item pos h v Hi Hl Hv Hlt|i item pos h v Hi Hl Hv Hlt
    |i item pos Hi Ht|i item pos pos' Hi Hp|i item pos Hi|i item pos Hi|Hc|h v Hc Hl Hv Hne|h Hc Hl Hv|item Hc Hd|item Hc|item Hc];
    intros j p; cbn; try (by apply IH).
  all: pose proof (IH i) as IHi; rewrite Hi in IHi; cbn in IHi.
  all: destruct (decide (i = j)) as [<-|Hne]; [rewrite fn_lookup_insert; cbn|rewrite fn_lookup_insert_ne by done; intros Hj; apply IH in Hj; lia].
  all: intros E; try discriminate E; injection E as <-; try (by apply IHi); lia.
Qed.

(** Remark: the positions stay in 64 bits.  While fewer than [2^63] less the capacity are claimed,
    the signed 64-bit difference of any value of a slot's sequence and the position that a producer
    compares with it is the true difference, and no position that the code computes wraps, so
    that the steps of the model are those of the code's [std::size_t]. *)
Theorem positions_fit want s :
  (want <= 2 ^ 63)%Z -> reachable want s -> (Z.of_nat (tail s) + Z.of_nat (cap s) < 2 ^ 63)%Z ->
  (forall k h v, seqs s !! k = Some h -> v ∈ h -> (Z.of_nat v < 2 ^ 63)%Z /\
    forall i pos, at_pos (ppc s i) = Some pos ->
      i64 (i64 (Z.of_nat v) - i64 (Z.of_nat pos)) = (Z.of_nat v - Z.of_nat pos)%Z /\
      u64 (Z.of_nat pos + 1) = Z.of_nat (S pos)) /\
  u64 (Z.of_nat (head s) + 1) = Z.of_nat (S (head s)) /\
  u64 (Z.of_nat (head s) + Z.of_nat (cap s)) = Z.of_nat (head s + cap s).
Proof.
  intros Hw Hr Hb. destruct (mpsc_reachable_inv want s Hw Hr) as [Hs _].
  assert (forall i p, at_pos (ppc s i) = Some p -> p <= tail s) as Hpos.
  { clear -Hr. induction Hr as [s Hi|s s' _ IH Hst]; [|by apply (at_pos_step s)].
    unfold conc_init in Hi. destruct (SpscQueue.capacity_for want); [|done]. cbn in Hi. by simplify_eq. }
  destruct (slot_mod s 0 Hs) as [_ Hcap]. pose proof (inv_tail s Hs) as Ht.
  assert (head s <= rel s) as Hrel by (unfold rel; destruct (cpc s); lia).
  split; [|split; (rewrite u64_small; lia)].
  intros k h v Hl Hv. pose proof (lookup_lt_Some _ _ _ Hl) as Hk. rewrite (inv_seqs s Hs) in Hk.
  destruct (window_covers (rel s) (cap s) k Hk) as (p & Hp & Ek). subst k. rewrite <-(proj1 (slot_mod s p Hs)) in Hl.
  destruct (inv_bound s Hs p h v Hp Hl Hv) as [Hle _]. split; [lia|]. intros i pos Hi. apply Hpos in Hi.
  rewrite (i64_small (Z.of_nat v)), (i64_small (Z.of_nat pos)) by lia.
  split; [apply i64_small; lia|]. rewrite u64_small; lia.
Qed.

(** C32: Whatever the interleaving of any number of producers with the consumer, and however
    stale their relaxed loads (positions below [2^63], see [positions_fit]): what [try_pop] has returned is the claimed items in the order of
    their compare-and-swaps, each once; no more than the capacity is claimed and not released;
    and no two threads are ever at accesses of the same slot's data. *)
Theorem mpsc_fifo want s :
  (want <= 2 ^ 63)%Z -> reachable want s ->
  popped s = Some <$> take (length (popped s)) (claimed s) /\
  length (claimed s) <= length (popped s) + cap s + 1 /\ ~ race s.
Proof.
  intros Hw Hr. destruct (mpsc_reachable_inv want s Hw Hr) as [Hs _]. destruct (slot_mod s 0 Hs) as [_ Hcap].
  pose proof (inv_tail s Hs) as Ht. pose proof (inv_claimed s Hs) as Hcl. pose proof (inv_popped s Hs) as Hp.
  assert (head s <= rel s <= S (head s)) as Hrel by (unfold rel; destruct (cpc s); lia).
  assert (head s <= tail s) as Hht by lia.
  assert (length (popped s) = head s) as El by (rewrite Hp, length_fmap, length_take; lia).
  split; [by rewrite El|]. split; [lia|].
  intros [(i & j & p & q & Hij & (x & Hi)%writes_holds & (y & Hj)%writes_holds & E)|(i & p & (x & Hi)%writes_holds & Hc & E)].
  - destruct (inv_holds s Hs _ _ _ Hi) as [? _]. destruct (inv_holds s Hs _ _ _ Hj) as [? _].
    assert (p = q) as -> by (apply (mpsc_slot_inj s); [done|lia|lia|done]). apply Hij. by apply (inv_unique s Hs i j q x y).
  - destruct (inv_holds s Hs _ _ _ Hi) as [? _]. pose proof (inv_cpc s Hs) as Hk. unfold consumer_ok in Hk. rewrite Hc in Hk.
    assert (rel s = head s) as Hrh by (unfold rel; by rewrite Hc).
    assert (p = head s) as -> by (apply (mpsc_slot_inj s); [done|lia|lia|done]). apply Hk. by exists i, x.
Qed.
End S.
End MpscQueue.

(** Two producers and a pop on a queue of two slots: producer 1 claims the first position,
    producer 2 the second; producer 1 publishes and the consumer pops its item. *)
Ltac mpsc_step rule :=
  match goal with
  | H : MpscQueue.reachable _ ?s |- _ =>
      eapply MpscQueue.reach_step in H; [|apply rule; first [reflexivity | vm_compute; lia | set_solver | solve [repeat constructor]]];
      cbv -[fn_insert] in H
  end.

Lemma two_producers :
  exists s, MpscQueue.reachable (A := Z) 2 s /\ MpscQueue.popped s = [Some 7%Z] /\ MpscQueue.claimed s = [7%Z; 9%Z] /\
    MpscQueue.writes (MpscQueue.ppc s 2) = Some 1.
Proof.
  pose proof (MpscQueue.reach_init (A := Z) 2 _ eq_refl) as H.
  mpsc_step (fun s : MpscQueue.conc (A := Z) => MpscQueue.push_begin s 1 7%Z).
  mpsc_step (fun s : MpscQueue.conc (A := Z) => MpscQueue.push_begin s 2 9%Z).
  mpsc_step (fun s : MpscQueue.conc (A := Z) => MpscQueue.push_load s 1 7%Z 0).
  mpsc_step (fun s : MpscQueue.conc (A := Z) => MpscQueue.push_ready s 1 7%Z 0 [0]).
  mpsc_step (fun s : MpscQueue.conc (A := Z) => MpscQueue.push_claim s 1 7%Z 0).
  mpsc_step (fun s : MpscQueue.conc (A := Z) => MpscQueue.push_load s 2 9%Z 1).
  mpsc_step (fun s : MpscQueue.conc (A := Z) => MpscQueue.push_ready s 2 9%Z 1 [1]).
  mpsc_step (fun s : MpscQueue.conc (A := Z) => MpscQueue.push_claim s 2 9%Z 1).
  mpsc_step (fun s : MpscQueue.conc (A := Z) => MpscQueue.push_write s 1 7%Z 0).
  mpsc_step (fun s : MpscQueue.conc (A := Z) => MpscQueue.push_store s 1 7%Z 0).
  mpsc_step (fun s : MpscQueue.conc (A := Z) => MpscQueue.pop_begin s).
  mpsc_step (fun s : MpscQueue.conc (A := Z) => MpscQueue.pop_ready s [0; 1]).
  mpsc_step (fun s : MpscQueue.conc (A := Z) => MpscQueue.pop_read s (Some 7%Z)).
  mpsc_step (fun s : MpscQueue.conc (A := Z) => MpscQueue.pop_store s (Some 7%Z)).
  mpsc_step (fun s : MpscQueue.conc (A := Z) => MpscQueue.pop_head s (Some 7%Z)).
  eexists. split; [exact H|]. by vm_compute.
Qed.

Lemma mpsc_fifo_witness :
  exists s : MpscQueue.conc (A := Z), MpscQueue.reachable 2 s /\ MpscQueue.popped s = [Some 7%Z] /\ ~ MpscQueue.race s.
Proof.
  destruct two_producers as (s & Hr & Hp & _). exists s. split; [exact Hr|]. split; [exact Hp|].
  assert (2 <= 2 ^ 63)%Z as Hw by lia. exact (proj2 (proj2 (MpscQueue.mpsc_fifo 2 s Hw Hr))).
Defined.
