(* ===== verification/Pool.v ===== *)
(** Worker threads over bounded queues ([include/concurrency/task.hpp], [worker.hpp],
    [worker_pool.hpp], [object_pool.hpp], [spin_wait.hpp]).  A thread of [Worker] is the sequence of
    its loop turns; a turn that finds nothing only waits, and a task is what running it does.
    The work-stealing pool is a system of calls and workers that interleave at each access to a
    queue, with a record of what became of each function that was submitted. *)
From S2P Require Import Prelude Float64 Types Queues.

Open Scope string_scope.
Open Scope list_scope.
Open Scope Z_scope.

(** A [Task] holds a function or nothing; moving from it leaves nothing behind. *)
(* @src include/concurrency/task.hpp | class Task { >> fn_; | Task *)
Definition Task (A : Type) : Type := option A.

(** * [Worker] *)
Module Worker.
Section S.
Context {A W : Type}.
(** Running a function: what it throws, if anything. *)
Variable run_task : A -> W -> option string * W.
Variable on_error : string -> string -> W -> W.

(* @src include/concurrency/worker.hpp | std::string name_; >> last_error_; *)
Record t := { name : string; queue : BoundedQueue.t (Task A); running : bool; last_tick_ms : Z; tasks : Z; last_error : string }.
#[export] Instance eta_t : Eta t := fun r =>
  {| name := name r; queue := queue r; running := running r; last_tick_ms := last_tick_ms r; tasks := tasks r;
     last_error := last_error r |}.

(* @src include/concurrency/worker.hpp | Worker(std::string name, *)
Definition make (n : string) (q : BoundedQueue.t (Task A)) : t :=
  {| name := n; queue := q; running := false; last_tick_ms := 0; tasks := 0; last_error := EmptyString |}.

(* @src include/concurrency/worker.hpp | void start() *)
Definition start (s : t) (now : Z) : t :=
  if running s then s else s <| running := true |> <| last_tick_ms := now |>.

(* @src include/concurrency/worker.hpp | void stop() *)
Definition stop (s : t) : t := s <| running := false |>.

(** One turn of the loop, after its wait. *)
(* @src include/concurrency/worker.hpp | void run(std::stop_token st) *)
Definition turn (s : t) (now : Z) (w : W) : t * W :=
  if negb (running s) then (s, w)
  else
    match BoundedQueue.pop (queue s) with
    | None => (s, w)
    | Some (task, q) =>
        let s := s <| queue := q |> <| last_tick_ms := now |> in
        match task with
        | None => (s <| tasks ::= bump |>, w)
        | Some f =>
            let '(thrown, w) := run_task f w in
            match thrown with
            | None => (s <| tasks ::= bump |>, w)
            | Some what => (s <| last_error := what |>, on_error (name s) what w)
            end
        end
    end.

(* @src include/concurrency/worker.hpp | WorkerHealth health() const *)
Definition health (s : t) : string * bool * Z * Z * string := (name s, running s, last_tick_ms s, tasks s, last_error s).
End S.
End Worker.

(** * [WorkerPool] *)
Module WorkerPool.
Section S.
Context {A : Type}.
Notation Queue := (BoundedQueue.t (Task A)).

(* @src include/concurrency/worker_pool.hpp | std::size_t n_, capacity_; >> drops_{0} *)
Record t := { queues : list Queue; running : bool; submits : Z; drops : Z; steals : Z }.
#[export] Instance eta_t : Eta t := fun r =>
  {| queues := queues r; running := running r; submits := submits r; drops := drops r; steals := steals r |}.

(* @src include/concurrency/worker_pool.hpp | explicit WorkerPool( *)
Definition make (num_workers queue_capacity : nat) : t :=
  {| queues := replicate (if (num_workers =? 0)%nat then 1 else num_workers)%nat (BoundedQueue.make queue_capacity);
     running := false; submits := 0; drops := 0; steals := 0 |}.

(* @src include/concurrency/worker_pool.hpp | void start() *)
Definition start (s : t) : t := s <| running := true |>.
(* @src include/concurrency/worker_pool.hpp | void stop() *)
Definition stop (s : t) : t := s <| running := false |> <| queues ::= fmap BoundedQueue.close |>.

(** ** Threads

    Every access to a queue is atomic; between two accesses any other thread may run.  A call of
    [try_submit] or [submit] is at one of these places: it compares the sizes, up to the first
    push (which the call makes when it has seen every queue); after a refusal it tries each
    queue; and [submit] then waits for the first queue.

    The parameter of [try_push] takes the task away even when the push is refused, so from the
    second push on the task is empty.  [a] is the function the call was made with. *)
Inductive call :=
| Scan (i best bestSize : nat) (a : A)
| Again (i : nat) (a : A)
| Wait (a : A).

(** How a call ends: its function is queued; an empty task is queued in its place, and the answer
    is true as well; nothing is queued, and the answer is false. *)
Inductive verdict := Handed | Lost | Refused.

Definition payload (c : call) : A := match c with Scan _ _ _ a | Again _ a | Wait a => a end.

(** The next access of a call; [waits] is the timeout of [submit], none for [try_submit]. *)
(* @src include/concurrency/worker_pool.hpp:34-49 WorkerPool::try_submit *)
Definition advance (waits : option Z) (c : call) (s : t) : t * (call + verdict) :=
  match c with
  | Scan i best bestSize a =>
      match queues s !! i with
      | Some q => (s, inl (if (BoundedQueue.size q <? bestSize)%nat then Scan (S i) i (BoundedQueue.size q) a
                           else Scan (S i) best bestSize a))
      | None =>
          match queues s !! best ≫= fun q : Queue => BoundedQueue.try_push (A := Task A) q (Some a) with
          | Some q => (s <| queues ::= <[best := q]> |> <| submits ::= bump |>, inr Handed)
          | None => (s, inl (Again 0 a))
          end
      end
  | Again i a =>
      match queues s !! i with
      | Some q => match BoundedQueue.try_push (A := Task A) q None with
                  | Some q => (s <| queues ::= <[i := q]> |> <| submits ::= bump |>, inr Lost)
                  | None => (s, inl (Again (S i) a))
                  end
      | None => match waits with
                | Some _ => (s <| drops ::= bump |>, inl (Wait a))
                | None => (s <| drops ::= bump |>, inr Refused)
                end
      end
  | Wait a =>
      match (fun q => BoundedQueue.push (A := Task A) q None (default 0 waits)) <$> queues s !! 0%nat with
      | Some (BoundedQueue.Done _ (Some q)) => (s <| queues ::= <[0%nat := q]> |> <| submits ::= bump |>, inr Lost)
      | Some (BoundedQueue.Blocked _) => (s, inl (Wait a))
      | _ => (s <| drops ::= bump |>, inr Refused)
      end
  end.

(** One [try_pop] of worker [id], from the [j]-th queue after its own. *)
(* @src include/concurrency/worker_pool.hpp:69-75 WorkerPool::workerLoop *)
Definition look (s : t) (id j : nat) : option (Task A) * t :=
  let i := ((id + j) mod length (queues s))%nat in
  match queues s !! i ≫= BoundedQueue.try_pop with
  | Some (task, q) => (Some task, s <| queues ::= <[i := q]> |> <| steals ::= if (j =? 0)%nat then (fun n => n) else bump |>)
  | None => (None, s)
  end.

(** The pool with its threads: the calls in progress, where each worker looks next, and the
    functions that were given to a call, queued, lost, refused and run so far. *)
Record sys := { pool : t; calls : gmap nat (option Z * call); at_ : gmap nat nat;
                begun : list A; handed : list A; lost : list A; refused : list A; ran : list A }.
#[export] Instance eta_sys : Eta sys := fun r =>
  {| pool := pool r; calls := calls r; at_ := at_ r; begun := begun r; handed := handed r; lost := lost r;
     refused := refused r; ran := ran r |}.

Definition note (v : verdict) (a : A) (s : sys) : sys :=
  match v with
  | Handed => s <| handed ::= cons a |>
  | Lost => s <| lost ::= cons a |>
  | Refused => s <| refused ::= cons a |>
  end.

(** What happens next: a thread calls, a call or a worker makes its next access; [stop] is
    [Halt] and then [Close] for each queue. *)
Inductive event := Call (tid : nat) (waits : option Z) (a : A) | Advance (tid : nat) | Work (id : nat) | Start | Halt | Close (i : nat).

(** A worker tests [running_] before it looks at its own queue; an empty task throws, which the
    loop catches. *)
(* @src include/concurrency/worker_pool.hpp:66-88 WorkerPool::workerLoop *)
Definition work (s : sys) (id : nat) : sys :=
  let j := default 0%nat (at_ s !! id) in
  if (j =? 0)%nat && negb (running (pool s)) then s
  else
    match look (pool s) id j with
    | (Some task, p) => s <| pool := p |> <| at_ ::= <[id := 0%nat]> |> <| ran ::= fun l => option_list task ++ l |>
    | (None, p) => s <| pool := p |> <| at_ ::= <[id := if (S j <? length (queues p))%nat then S j else 0%nat]> |>
    end.

(* @src include/concurrency/worker_pool.hpp:22-49 WorkerPool *)
Definition step (s : sys) (e : event) : sys :=
  match e with
  | Call tid waits a =>
      match calls s !! tid, queues (pool s) with
      | None, q :: _ => s <| calls ::= <[tid := (waits, Scan 1 0 (BoundedQueue.size q) a)]> |> <| begun ::= cons a |>
      | _, _ => s
      end
  | Advance tid =>
      match calls s !! tid with
      | None => s
      | Some (waits, c) =>
          let '(p, r) := advance waits c (pool s) in
          let s := s <| pool := p |> in
          match r with
          | inl c' => s <| calls ::= <[tid := (waits, c')]> |>
          | inr v => note v (payload c) (s <| calls ::= delete tid |>)
          end
      end
  | Work id => work s id
  | Start => s <| pool ::= start |>
  | Halt => s <| pool ::= fun p => p <| running := false |> |>
  | Close i => s <| pool ::= fun p => p <| queues ::= alter BoundedQueue.close i |> |>
  end.

Definition init (n cap : nat) : sys :=
  {| pool := start (make n cap); calls := ∅; at_ := ∅; begun := []; handed := []; lost := []; refused := []; ran := [] |}.

Definition exec (s : sys) (es : list event) : sys := fold_left step es s.

(** What a queue holds, by taking it out. *)
Fixpoint unload (n : nat) (q : Queue) : list (Task A) :=
  match n with
  | O => []
  | S n => match BoundedQueue.try_pop q with Some (x, q) => x :: unload n q | None => [] end
  end.

(** The functions in the queues, and those of the calls in progress. *)
Definition waiting (s : sys) : list A :=
  omap (fun x => x) (concat ((fun q => unload (BoundedQueue.size q) q) <$> queues (pool s))).
Definition unfinished (s : sys) : list A := (fun x => payload x.2.2) <$> map_to_list (calls s).

(* @src include/concurrency/worker_pool.hpp | std::size_t queue_size() const *)
Definition queue_size (s : t) : nat := sum_list_with BoundedQueue.size (queues s).
(* @src include/concurrency/worker_pool.hpp | QueueHealth queue_health() const *)
Definition queue_health (s : t) : nat * nat * Z * Z :=
  (queue_size s, sum_list_with BoundedQueue.cap (queues s),
   fold_left (fun n q => u64 (n + BoundedQueue.pushes q)) (queues s) 0, fold_left (fun n q => u64 (n + BoundedQueue.pops q)) (queues s) 0).
(** ** Conservation *)

Lemma unload_repr (q : Queue) l : BoundedQueue.repr q l -> unload (BoundedQueue.size q) q = l.
Proof.
  intros Hq. replace (BoundedQueue.size q) with (length l) by (by destruct Hq as (_ & _ & _ & _ & ? & _)).
  revert q Hq. induction l as [|x l IH]; intros q Hq; [done|]. cbn [length unload].
  pose proof (BoundedQueue.bounded_try_pop_spec q _ Hq) as H. destruct (BoundedQueue.try_pop q) as [[y q']|]; [|done].
  destruct H as (l' & [= -> ->] & Hq' & _). f_equal. by apply IH.
Qed.

Lemma concat_put {B} (ls : list (list B)) i l l' x :
  ls !! i = Some l -> l' ≡ₚ x ++ l -> concat (<[i := l']> ls) ≡ₚ x ++ concat ls.
Proof.
  intros Hi Hp. rewrite <-(take_drop_middle ls i l Hi) at 2.
  rewrite insert_take_drop by (by eapply lookup_lt_Some). rewrite !concat_app. simpl. rewrite Hp. solve_Permutation.
Qed.

(** The queues hold [ls]. *)
Definition holds (s : t) (ls : list (list (Task A))) : Prop := Forall2 BoundedQueue.repr (queues s) ls /\ queues s <> [].

Lemma insert_nonempty {B} (l : list B) i x : l <> [] -> <[i := x]> l <> [].
Proof. intros H E. apply (f_equal length) in E. rewrite length_insert in E. by destruct l. Qed.

(** A task joins one of the queues. *)
Lemma holds_put s ls i q q' task :
  holds s ls -> queues s !! i = Some q -> (forall l, BoundedQueue.repr q l -> BoundedQueue.repr q' (l ++ [task])) ->
  exists ls', holds (s <| queues ::= <[i := q']> |> <| submits ::= bump |>) ls' /\ concat ls' ≡ₚ task :: concat ls.
Proof.
  intros [Hr Hne] Hi Hq'. destruct (Forall2_lookup_l _ _ _ _ _ Hr Hi) as (l & Hl & Hq).
  exists (<[i := l ++ [task]]> ls). split; [split|].
  - simpl. apply Forall2_insert; auto.
  - simpl. by apply insert_nonempty.
  - apply (concat_put ls i l (l ++ [task]) [task]); [done|]. by rewrite Permutation_app_comm.
Qed.

Lemma try_push_put (q q' : Queue) task : BoundedQueue.try_push q task = Some q' ->
  forall l, BoundedQueue.repr q l -> BoundedQueue.repr q' (l ++ [task]).
Proof.
  intros E l Hl. pose proof (BoundedQueue.bounded_try_push_spec q l task Hl) as H. rewrite E in H. apply H.
Qed.

Lemma push_put (q q' : Queue) task ms : BoundedQueue.push q task ms = BoundedQueue.Done _ (Some q') ->
  forall l, BoundedQueue.repr q l -> BoundedQueue.repr q' (l ++ [task]).
Proof.
  unfold BoundedQueue.push. intros E l Hl. apply BoundedQueue.bounded_insert_repr with (a := task) in Hl as H.
  - repeat case_match; by simplify_eq.
  - destruct Hl as (_ & _ & _ & _ & Hs & _). destruct (BoundedQueue.closed q); simpl in E; [done|].
    destruct (Nat.ltb_spec (BoundedQueue.size q) (BoundedQueue.cap q)); simpl in E; [lia|by repeat case_match].
Qed.

(** What one access of a call does to the queues, and that it keeps its function. *)
Lemma pool_advance_spec waits c s ls :
  holds s ls ->
  let '(s', r) := advance waits c s in
  exists ls', holds s' ls' /\
  match r with
  | inl c' => payload c' = payload c /\ ls' = ls
  | inr Handed => concat ls' ≡ₚ Some (payload c) :: concat ls
  | inr Lost => concat ls' ≡ₚ None :: concat ls
  | inr Refused => ls' = ls
  end.
Proof.
  intros Hh. destruct c as [i best bs a|i a|a]; cbn [advance payload].
  - destruct (queues s !! i) as [q|]; [exists ls; split; [done|]; by destruct (_ <? _)%nat|].
    destruct (queues s !! best) as [q|] eqn:Eb; cbn [mbind option_bind]; [|by exists ls].
    destruct (BoundedQueue.try_push q (Some a)) as [q'|] eqn:Ep; [|by exists ls].
    exact (holds_put s ls best q q' (Some a) Hh Eb (try_push_put _ _ _ Ep)).
  - destruct (queues s !! i) as [q|] eqn:Ei; [|by destruct waits; exists ls].
    destruct (BoundedQueue.try_push q None) as [q'|] eqn:Ep; [|by exists ls].
    exact (holds_put s ls i q q' None Hh Ei (try_push_put _ _ _ Ep)).
  - destruct (queues s !! 0%nat) as [q|] eqn:Ei; simpl; [|by exists ls].
    destruct (BoundedQueue.push q None (default 0 waits)) as [|[q'|]] eqn:Ep; [by exists ls| |by exists ls].
    exact (holds_put s ls 0 q q' None Hh Ei (push_put _ _ _ _ Ep)).
Qed.

Lemma look_spec s id j ls :
  holds s ls ->
  let '(r, s') := look s id j in
  running s' = running s /\ length (queues s') = length (queues s) /\
  match r with
  | Some task => exists ls', holds s' ls' /\ concat ls ≡ₚ task :: concat ls'
  | None => s' = s /\ ls !! ((id + j) mod length (queues s))%nat = Some []
  end.
Proof.
  intros [Hr Hne]. unfold look. set (i := ((id + j) mod length (queues s))%nat).
  assert (i < length (queues s))%nat as Hi by (apply Nat.mod_upper_bound; by destruct (queues s)).
  destruct (lookup_lt_is_Some_2 _ i Hi) as [q Hq]. rewrite Hq. cbn [mbind option_bind].
  destruct (Forall2_lookup_l _ _ _ _ _ Hr Hq) as (l & Hl & Hql).
  pose proof (BoundedQueue.bounded_try_pop_spec q l Hql) as Hpop.
  destruct (BoundedQueue.try_pop q) as [[task q']|]; [|by subst l].
  destruct Hpop as (l' & -> & Hq' & _). split; [done|]. split; [by simpl; rewrite length_insert|].
  exists (<[i := l']> ls). split; [split; simpl; [by apply Forall2_insert|by apply insert_nonempty]|].
  assert (i < length ls)%nat as Hil by (by rewrite <-(Forall2_length _ _ _ Hr)).
  pose proof (concat_put (<[i := l']> ls) i l' (task :: l') [task] (list_lookup_insert_eq ls i l' Hil) (reflexivity _)) as P.
  by rewrite list_insert_insert_eq, (list_insert_id ls i (task :: l') Hl) in P.
Qed.

(** Every function is in one place. *)
Definition conserved (s : sys) (ls : list (list (Task A))) : Prop :=
  holds (pool s) ls /\ handed s ≡ₚ ran s ++ omap (fun x => x) (concat ls) /\
  begun s ≡ₚ handed s ++ lost s ++ refused s ++ unfinished s.

Lemma unfinished_insert (m : gmap nat (option Z * call)) i waits c : m !! i = None ->
  (fun x => payload x.2.2) <$> map_to_list (<[i := (waits, c)]> m) ≡ₚ payload c :: ((fun x => payload x.2.2) <$> map_to_list m).
Proof. intros H. by rewrite map_to_list_insert. Qed.

Lemma unfinished_delete (m : gmap nat (option Z * call)) i waits c : m !! i = Some (waits, c) ->
  (fun x => payload x.2.2) <$> map_to_list m ≡ₚ payload c :: ((fun x => payload x.2.2) <$> map_to_list (delete i m)).
Proof. intros H. by rewrite <-(map_to_list_delete m i (waits, c) H). Qed.

Lemma omap_perm (l l' : list (Task A)) : l ≡ₚ l' -> omap (fun x => x) l ≡ₚ omap (fun x => x) l'.
Proof. by intros ->. Qed.

Lemma pool_step_conserved s e ls : conserved s ls -> exists ls', conserved (step s e) ls'.
Proof.
  intros (Hh & Hq & Hb). destruct e as [tid waits a|tid|id| | |i]; cbn [step].
  - destruct (calls s !! tid) eqn:Et; [by exists ls|]. destruct (queues (pool s)) as [|q qs] eqn:Eq; [by exists ls|].
    exists ls. split; [done|]. split; [done|]. unfold unfinished in *. simpl.
    rewrite unfinished_insert by done. simpl. rewrite Hb. solve_Permutation.
  - destruct (calls s !! tid) as [[waits c]|] eqn:Et; [|by exists ls].
    pose proof (pool_advance_spec waits c (pool s) ls Hh) as H. destruct (advance waits c (pool s)) as [p r].
    destruct H as (ls' & Hh' & H). exists ls'. unfold unfinished in *. pose proof (unfinished_delete _ _ _ _ Et) as Hd.
    destruct r as [c'|[]]; (split; [exact Hh'|]); unfold unfinished; cbn.
    + destruct H as [Hp ->]. split; [done|]. rewrite <-insert_delete_eq, unfinished_insert by apply lookup_delete_eq.
      by rewrite Hp, <-Hd.
    + apply omap_perm in H. cbn in H. split; [rewrite H, Hq; solve_Permutation|]. rewrite Hb, Hd. solve_Permutation.
    + apply omap_perm in H. cbn in H. split; [by rewrite H|]. rewrite Hb, Hd. solve_Permutation.
    + subst ls'. split; [done|]. rewrite Hb, Hd. solve_Permutation.
  - unfold work. destruct (_ && _); [by exists ls|].
    pose proof (look_spec (pool s) id (default 0%nat (at_ s !! id)) ls Hh) as H.
    destruct (look _ _ _) as [[task|] p]; destruct H as (_ & _ & H).
    + destruct H as (ls' & Hh' & Hc). exists ls'. split; [done|]. split; [|done]. apply omap_perm in Hc. cbn.
      rewrite Hq, Hc. destruct task as [a|]; cbn; [solve_Permutation|done].
    + destruct H as [-> _]. by exists ls.
  - exists ls. split; [|done]. exact Hh.
  - exists ls. split; [|done]. exact Hh.
  - exists ls. split; [|done]. destruct Hh as [Hr Hne]. split.
    + simpl. apply Forall2_same_length_lookup_2; [rewrite length_alter; by eapply Forall2_length|].
      intros k q l Hk Hl. rewrite list_lookup_alter in Hk. destruct (decide (i = k)) as [->|]; simplify_option_eq.
      * destruct (queues (pool s) !! k) as [q0|] eqn:E; simplify_eq/=. exact (Forall2_lookup_lr _ _ _ _ _ _ Hr E Hl).
      * exact (Forall2_lookup_lr _ _ _ _ _ _ Hr Hk Hl).
    + simpl. intros E. apply (f_equal length) in E. rewrite length_alter in E. by destruct (queues (pool s)).
Qed.

Lemma exec_conserved es : forall s ls, conserved s ls -> exists ls', conserved (exec s es) ls'.
Proof.
  induction es as [|e es IH]; intros s ls H; [by exists ls|]. destruct (pool_step_conserved s e ls H) as [ls' H']. by apply (IH _ ls').
Qed.

Lemma init_conserved n cap : exists ls, conserved (init n cap) ls.
Proof.
  set (m := (if (n =? 0)%nat then 1 else n)%nat). exists (replicate m []). split; [split|].
  - simpl. fold m. apply Forall2_replicate, BoundedQueue.bounded_make_repr.
  - simpl. fold m. unfold m. destruct (n =? 0)%nat eqn:E; [done|]. by destruct n.
  - split; [|done]. simpl. clear. induction m as [|m IH]; [done|]. exact IH.
Qed.

Lemma waiting_holds s ls : holds (pool s) ls -> waiting s = omap (fun x => x) (concat ls).
Proof.
  intros [Hr _]. unfold waiting. f_equal. f_equal. induction Hr as [|q l qs ls Hq _ IH]; [done|].
  rewrite fmap_cons, IH. by rewrite (unload_repr q l).
Qed.

Lemma pool_holds_size s ls : holds s ls -> queue_size s = length (concat ls).
Proof.
  intros [Hr _]. unfold queue_size. induction Hr as [|q l qs ls Hq _ IH]; [done|]. simpl. rewrite length_app, IH.
  by destruct Hq as (_ & _ & _ & _ & -> & _).
Qed.

(** ** The workers empty the queues *)

Definition works (k : nat) (id : nat) (s : sys) : sys := exec s (replicate k (Work id)).

Lemma works_S k id s : works (S k) id s = works k id (work s id).
Proof. done. Qed.

Lemma works_keep k id : forall s, handed (works k id s) = handed s /\ running (pool (works k id s)) = running (pool s).
Proof.
  induction k as [|k IH]; intros s; [done|]. rewrite works_S. destruct (IH (work s id)) as [-> ->]. unfold work.
  destruct (_ && _); [done|]. unfold look. by destruct (_ ≫= _) as [[??]|].
Qed.

(** A worker comes to the [d]-th queue from where it is, unless it finds a task before. *)
Lemma worker_finds id d : forall s ls,
  holds (pool s) ls -> running (pool s) = true -> (default 0 (at_ s !! id) < length (queues (pool s)))%nat ->
  ls !! ((id + default 0 (at_ s !! id) + d) mod length (queues (pool s)))%nat <> Some [] ->
  exists d' ls', (d' <= d)%nat /\ holds (pool (works (S d') id s)) ls' /\ length (concat ls) = S (length (concat ls')) /\
  (default 0 (at_ (works (S d') id s) !! id) < length (queues (pool (works (S d') id s))))%nat /\
  length (queues (pool (works (S d') id s))) = length (queues (pool s)).
Proof.
  induction d as [|d IH]; intros s ls Hh Hrun Hj Hne; set (j := default 0%nat (at_ s !! id)) in *;
    pose proof (look_spec (pool s) id j ls Hh) as H;
    assert (work s id = match look (pool s) id j with
      | (Some task, p) => s <| pool := p |> <| at_ ::= <[id := 0%nat]> |> <| ran ::= fun l => option_list task ++ l |>
      | (None, p) => s <| pool := p |> <| at_ ::= <[id := if (S j <? length (queues p))%nat then S j else 0%nat]> |> end) as Ew
      by (unfold work; fold j; by rewrite Hrun, andb_false_r);
    destruct (look (pool s) id j) as [[task|] p]; destruct H as (Hr & Hlen & H).
  1, 3: destruct H as (ls' & Hh' & Hc); exists 0%nat, ls'; rewrite works_S, Ew; cbn; rewrite lookup_insert_eq; cbn;
    apply Permutation_length in Hc; (split_and!; [lia|exact Hh'|exact Hc|lia|exact Hlen]).
  - destruct H as [_ H]. by rewrite Nat.add_0_r in Hne.
  - destruct H as [-> Hemp]. set (n := length (queues (pool s))) in *.
    set (j' := if (S j <? n)%nat then S j else 0%nat). set (s1 := s <| pool := pool s |> <| at_ ::= <[id := j']> |>) in *.
    assert (default 0%nat (at_ s1 !! id) = j') as Ej by (unfold s1; cbn; by rewrite lookup_insert_eq).
    assert (j' < n)%nat as Hj' by (unfold j'; destruct (Nat.ltb_spec (S j) n); lia).
    assert ((id + j' + d) mod n = (id + j + S d) mod n)%nat as Em.
    { unfold j'. destruct (Nat.ltb_spec (S j) n); [f_equal; lia|].
      replace (id + j + S d)%nat with (id + 0 + d + 1 * n)%nat by lia. by rewrite Nat.Div0.mod_add. }
    destruct (IH s1 ls Hh Hrun) as (d' & ls' & Hd & Hrest); [by rewrite Ej|by rewrite Ej; change (length (queues (pool s1))) with n; rewrite Em|].
    exists (S d'), ls'. split; [lia|]. rewrite works_S, Ew. exact Hrest.
Qed.

Lemma nonempty_queue (ls : list (list (Task A))) : concat ls <> [] -> exists i, (i < length ls)%nat /\ ls !! i <> Some [].
Proof.
  induction ls as [|[|x l] ls IH]; [done| |exists 0%nat; simpl; split; [lia|done]].
  intros (i & Hi & H)%IH. exists (S i). simpl. split; [lia|done].
Qed.

Lemma workers_drain id m : forall k s ls,
  holds (pool s) ls -> running (pool s) = true -> (default 0 (at_ s !! id) < length (queues (pool s)))%nat ->
  length (concat ls) = m -> (length (queues (pool s)) * m <= k)%nat ->
  exists ls', holds (pool (works k id s)) ls' /\ concat ls' = [].
Proof.
  induction m as [|m IH]; intros k s ls Hh Hrun Hj Hm Hk.
  - apply nil_length_inv in Hm. clear Hk Hj. revert s Hh Hrun. induction k as [|k IHk]; intros s Hh Hrun; [by exists ls|].
    rewrite works_S. assert (pool (work s id) = pool s) as E.
    { unfold work. rewrite Hrun, andb_false_r. pose proof (look_spec (pool s) id (default 0%nat (at_ s !! id)) ls Hh) as H.
      destruct (look _ _ _) as [[task|] p]; destruct H as (_ & _ & H); [|by destruct H as [-> _]].
      destruct H as (ls' & _ & Hc). rewrite Hm in Hc. by apply Permutation_nil_cons in Hc. }
    apply IHk; by rewrite E.
  - set (n := length (queues (pool s))) in *. destruct (nonempty_queue ls) as (i & Hi & Hne); [by intros E; rewrite E in Hm|].
    assert (n <> 0)%nat as Hn by lia. assert (length ls = n) as Hl by (destruct Hh as [Hr _]; by rewrite <-(Forall2_length _ _ _ Hr)).
    set (j := default 0%nat (at_ s !! id)) in *. set (d := ((i + (n - (id + j) mod n)) mod n)%nat).
    assert ((id + j + d) mod n = i)%nat as E.
    { unfold d. rewrite Nat.Div0.add_mod_idemp_r. pose proof (Nat.mod_upper_bound (id + j) n Hn). pose proof (Nat.div_mod_eq (id + j) n).
      replace (id + j + (i + (n - (id + j) mod n)))%nat with (i + ((id + j) / n + 1) * n)%nat by lia.
      rewrite Nat.Div0.mod_add. apply Nat.mod_small. lia. }
    assert (d < n)%nat by (by apply Nat.mod_upper_bound).
    destruct (worker_finds id d s ls Hh Hrun Hj) as (d' & ls' & Hd & Hh' & Hlen & Hj' & Hq); [by fold n j; rewrite E|].
    destruct (works_keep (S d') id s) as [_ Hrun'].
    replace k with (S d' + (k - S d'))%nat by lia. unfold works, exec. rewrite replicate_add, fold_left_app.
    apply (IH _ _ ls'); [exact Hh'|exact (eq_trans Hrun' Hrun)|exact Hj'|lia|].
    unfold works, exec in Hq. rewrite Hq. lia.
Qed.

Lemma wrap_lt j n : n <> 0%nat -> ((if S j <? n then S j else 0) < n)%nat.
Proof. intros H. destruct (Nat.ltb_spec (S j) n); lia. Qed.

Lemma worker_place es : forall s, queues (pool s) <> [] -> map_Forall (fun _ j => j < length (queues (pool s)))%nat (at_ s) ->
  map_Forall (fun _ j => j < length (queues (pool (exec s es))))%nat (at_ (exec s es)).
Proof.
  induction es as [|e es IH]; intros s Hne H; [done|]. cbn [exec fold_left].
  assert (length (queues (pool (step s e))) = length (queues (pool s)) /\
  map_Forall (fun _ j => j < length (queues (pool s)))%nat (at_ (step s e))) as [Hl Hm].
  { destruct e as [tid waits a|tid|id| | |i]; cbn [step].
    - destruct (calls s !! tid); [done|]. destruct (queues (pool s)) as [|q qs] eqn:E; [done|]. split; [exact (f_equal length E)|exact H].
    - destruct (calls s !! tid) as [[waits c]|]; [|done].
      assert (length (queues (advance waits c (pool s)).1) = length (queues (pool s))) as E.
      { destruct c; cbn [advance]; repeat case_match; cbn; by rewrite ?length_insert. }
      destruct (advance waits c (pool s)) as [p [c'|[]]]; done.
    - unfold work. destruct (_ && _); [done|]. unfold look. destruct (_ ≫= _) as [[task q]|]; cbn.
      + rewrite length_insert. split; [done|]. apply map_Forall_insert_2; [|done]. destruct (queues (pool s)); [done|simpl; lia].
      + split; [done|]. apply map_Forall_insert_2; [|done]. apply wrap_lt. by destruct (queues (pool s)).
    - done.
    - done.
    - cbn. by rewrite length_alter. }
  apply IH; [|by rewrite Hl]. intros E. rewrite E in Hl. by destruct (queues (pool s)).
Qed.

(** ** Pools with enough room *)

Definition closes (e : event) : bool := match e with Close _ => true | _ => false end.

(** Nothing was refused yet: every call in progress has not pushed. *)
Definition roomy (c : nat) (s : sys) : Prop :=
  lost s = [] /\ refused s = [] /\ queues (pool s) <> [] /\
  Forall (fun q => BoundedQueue.cap q = c /\ BoundedQueue.closed q = false) (queues (pool s)) /\
  map_Forall (fun _ x => match x.2 with Scan _ best _ _ => best < length (queues (pool s)) | _ => False end)%nat (calls s) /\
  (queue_size (pool s) + size (calls s) <= length (begun s))%nat.

Lemma size_in_sum (qs : list Queue) i q : qs !! i = Some q -> (BoundedQueue.size q <= sum_list_with BoundedQueue.size qs)%nat.
Proof. revert i. induction qs as [|q' qs IH]; intros [|i] H; simplify_eq/=; [lia|]. apply IH in H. lia. Qed.

Lemma size_insert_sum (qs : list Queue) i q q' : qs !! i = Some q ->
  (sum_list_with BoundedQueue.size (<[i := q']> qs) + BoundedQueue.size q = sum_list_with BoundedQueue.size qs + BoundedQueue.size q')%nat.
Proof. revert i. induction qs as [|q0 qs IH]; intros [|i] H; simplify_eq/=; [lia|]. apply IH in H. lia. Qed.

Lemma begun_grows s e : (length (begun s) <= length (begun (step s e)))%nat.
Proof.
  destruct e as [tid waits a|tid|id| | |i]; cbn [step].
  - destruct (calls s !! tid), (queues (pool s)); simpl; lia.
  - destruct (calls s !! tid) as [[waits c]|]; [|lia]. by destruct (advance waits c (pool s)) as [p [c'|[]]].
  - unfold work. destruct (_ && _); [lia|]. by destruct (look _ _ _) as [[?|] ?].
  - done.
  - done.
  - done.
Qed.

Lemma roomy_put c s i q q' :
  Forall (fun q => BoundedQueue.cap q = c /\ BoundedQueue.closed q = false) (queues s) -> queues s !! i = Some q ->
  BoundedQueue.cap q' = BoundedQueue.cap q -> BoundedQueue.closed q' = BoundedQueue.closed q ->
  Forall (fun q => BoundedQueue.cap q = c /\ BoundedQueue.closed q = false) (<[i := q']> (queues s)).
Proof. intros H Hi Hc Hcl. apply Forall_insert; [done|]. rewrite Hc, Hcl. by apply (Forall_lookup_1 _ _ _ _ H Hi). Qed.

Lemma roomy_advance c s tid : roomy c s -> (length (begun s) <= c)%nat -> roomy c (step s (Advance tid)).
Proof.
  intros (Hl & Hr & Hne & Hq & Hc & Hn) Hb. cbn [step]. destruct (calls s !! tid) as [[waits k]|] eqn:Et; [|done].
  pose proof (Hc _ _ Et) as Hk. simpl in Hk. destruct k as [i best bs a| |]; [|done|done]. cbn [advance].
  assert (size (calls s) = S (size (delete tid (calls s)))) as Hs.
  { rewrite map_size_delete, Et. assert (size (calls s) <> 0%nat); [|lia]. intros E%map_size_empty_inv. by rewrite E in Et. }
  destruct (queues (pool s) !! i) as [q|] eqn:Ei.
  - split_and!; [done|done|done|done| |].
    + apply map_Forall_insert_2; [|done]. apply lookup_lt_Some in Ei. by destruct (_ <? _)%nat.
    + cbn. rewrite map_size_insert, Et. done.
  - destruct (lookup_lt_is_Some_2 _ _ Hk) as [q Eb]. rewrite Eb. cbn [mbind option_bind]. unfold BoundedQueue.try_push.
    destruct (Forall_lookup_1 _ _ _ _ Hq Eb) as [Hcap Hcl]. rewrite Hcl, Hcap.
    pose proof (size_in_sum _ _ _ Eb). unfold queue_size in Hn.
    rewrite (proj2 (Nat.leb_gt _ _)) by lia. cbn [orb].
    split_and!; [done|done|by apply insert_nonempty|by eapply roomy_put| |].
    + cbn. rewrite length_insert. by apply map_Forall_delete.
    + cbn. pose proof (size_insert_sum _ _ _ (BoundedQueue.insert_item q (Some a)) Eb) as H1. cbn in H1. unfold queue_size. cbn. lia.
Qed.

Lemma roomy_step c s e : roomy c s -> closes e = false -> (length (begun (step s e)) <= c)%nat -> roomy c (step s e).
Proof.
  intros Hs He Hb. pose proof (begun_grows s e) as Hg. destruct e as [tid waits a|tid|id| | |i]; [| |cbn [step]..].
  - pose proof Hs as (Hl & Hr & Hne & Hq & Hc & Hn). cbn [step]. destruct (calls s !! tid) eqn:Et; [done|].
    destruct (queues (pool s)) as [|q qs] eqn:Eq; [done|]. split_and!; [done|done|by cbn; rewrite Eq|by cbn; rewrite Eq| |].
    + cbn. rewrite Eq. apply map_Forall_insert_2; [simpl; lia|done].
    + cbn. rewrite map_size_insert_None by done. unfold queue_size in *. cbn in *. rewrite Eq in *. lia.
  - apply roomy_advance; [done|lia].
  - destruct Hs as (Hl & Hr & Hne & Hq & Hc & Hn). unfold work. destruct (_ && _); [done|]. unfold look.
    set (i := (_ mod _)%nat). destruct (queues (pool s) !! i) as [q|] eqn:Ei; cbn [mbind option_bind]; [|done].
    unfold BoundedQueue.try_pop. destruct (_ =? 0)%nat eqn:Ez; [done|]. destruct (_ !! BoundedQueue.head q) as [[x|]|]; try done.
    split_and!; [done|done|by apply insert_nonempty|by eapply roomy_put|by cbn; rewrite length_insert|].
    cbn. unfold queue_size in *. cbn.
    match goal with |- context [<[i := ?q']> _] => pose proof (size_insert_sum _ _ _ q' Ei) as H1 end. cbn in H1. lia.
  - done.
  - done.
  - done.
Qed.

Lemma make_cap cap : BoundedQueue.cap (BoundedQueue.make (A := Task A) cap) = Nat.max 1 cap.
Proof. unfold BoundedQueue.make. cbn [BoundedQueue.cap]. destruct (Nat.ltb_spec cap 1); lia. Qed.

(** C13: a running pool under any interleaving of the accesses of its callers and its workers to
    the queues.  Each function given to a call is at any time in one place: its call is in
    progress, it was queued by the call's first push, it was lost (the first push was refused and
    the call queued an empty task in its place, answering true), or it was refused.  The functions
    run are exactly the queued ones that are not in a queue any more, each once; a lost function
    never runs.  While the pool runs, one worker alone runs everything that is queued in at most
    (number of queues) * (number of tasks) looks, since it takes from the others' queues when its
    own is empty.  And when no more functions are submitted than one queue can hold, to queues
    that are not closed, none is lost or refused. *)
Theorem pool_runs_each_task_once n cap (es : list event) :
  let s := exec (init n cap) es in
  begun s ≡ₚ handed s ++ lost s ++ refused s ++ unfinished s /\
  handed s ≡ₚ ran s ++ waiting s /\
  (running (pool s) = true -> forall id k, (length (queues (pool s)) * queue_size (pool s) <= k)%nat ->
     let s' := exec s (replicate k (Work id)) in handed s' = handed s /\ ran s' ≡ₚ handed s) /\
  (forallb (fun e => negb (closes e)) es = true -> (length (begun s) <= Nat.max 1 cap)%nat -> lost s = [] /\ refused s = []).
Proof.
  intros s. destruct (init_conserved n cap) as [ls0 H0]. destruct (exec_conserved es _ _ H0) as (ls & Hh & Hq & Hb).
  fold s in Hh, Hq, Hb. split_and!; [done|by rewrite (waiting_holds s ls)| |].
  - intros Hrun id k Hk s'. destruct (works_keep k id s) as [Hhd _]. split; [exact Hhd|].
    destruct (exec_conserved (replicate k (Work id)) s ls (conj Hh (conj Hq Hb))) as (ls1 & Hh1 & Hq1 & _). fold s' in Hh1, Hq1.
    destruct (workers_drain id (length (concat ls)) k s ls Hh Hrun) as (ls2 & Hh2 & Hn); [|done|by rewrite <-(pool_holds_size _ _ Hh)|].
    { assert (map_Forall (fun _ j => j < length (queues (pool s)))%nat (at_ s)) as Hp.
      { apply worker_place; [by destruct H0 as [[_ ?] _]|]. apply map_Forall_empty. }
      destruct (at_ s !! id) as [j|] eqn:E; [exact (Hp _ _ E)|]. simpl. destruct Hh as [_ Hne]. destruct (queues (pool s)); [done|simpl; lia]. }
    rewrite <-Hhd. change (works k id s) with s' in *. rewrite Hq1, <-(waiting_holds s' ls1) by done.
    by rewrite (waiting_holds s' ls2 Hh2), Hn, app_nil_r.
  - intros Hcl Hlen. assert (roomy (Nat.max 1 cap) s) as (H1 & H2 & _); [|done].
    subst s. clear Hh Hq Hb. induction es as [|e es IH] using rev_ind.
    + split_and!; [done|done|by destruct H0 as [[_ ?] _]| |apply map_Forall_empty|].
      * apply Forall_replicate. split; [apply make_cap|done].
      * cbn. unfold queue_size. cbn. generalize (if (n =? 0)%nat then 1%nat else n). intros m. induction m as [|m IHm]; [done|exact IHm].
    + rewrite forallb_app in Hcl. apply andb_true_iff in Hcl as [Hcl1 Hcl2]. simpl in Hcl2. rewrite andb_true_r in Hcl2.
      unfold exec in *. rewrite fold_left_app in *. cbn [fold_left] in *. pose proof (begun_grows (fold_left step es (init n cap)) e).
      apply roomy_step; [apply IH; [done|lia]|by apply negb_true_iff|done].
Qed.

(** Remark: once the queues are closed no function is queued any more, whether the pool is
    started again or not: [start] makes no new queues. *)
Theorem restarted_pool_refuses (es : list event) : forall s,
  Forall (fun q => BoundedQueue.closed q = true) (queues (pool s)) -> handed (exec s es) = handed s /\ lost (exec s es) = lost s.
Proof.
  induction es as [|e es IH]; intros s Hcl; [done|]. change (exec s (e :: es)) with (exec (step s e) es).
  assert (forall q task, q ∈ queues (pool s) -> BoundedQueue.try_push q task = None) as Hp.
  { intros q task Hq. rewrite Forall_forall in Hcl. unfold BoundedQueue.try_push. by rewrite (Hcl q Hq). }
  assert (handed (step s e) = handed s /\ lost (step s e) = lost s /\
    Forall (fun q => BoundedQueue.closed q = true) (queues (pool (step s e)))) as (H1 & H2 & H3).
  { destruct e as [tid waits a|tid|id| | |i]; cbn [step].
    - destruct (calls s !! tid); [done|]. destruct (queues (pool s)) eqn:E; [by rewrite E|]. cbn. by rewrite E.
    - destruct (calls s !! tid) as [[waits c]|]; [|done].
      destruct c as [i best bs a|i a|a]; cbn [advance].
      + destruct (queues (pool s) !! i); [done|]. destruct (queues (pool s) !! best) as [q|] eqn:E; [|done]. cbn [mbind option_bind].
        by rewrite Hp by (by eapply list_elem_of_lookup_2).
      + destruct (queues (pool s) !! i) as [q|] eqn:E; [|by destruct waits]. by rewrite Hp by (by eapply list_elem_of_lookup_2).
      + destruct (queues (pool s) !! 0%nat) as [q|] eqn:E; [|done].
        assert (BoundedQueue.push (A := Task A) q None (default 0 waits) = BoundedQueue.Done _ None) as Ep.
        { unfold BoundedQueue.push. by rewrite (Forall_lookup_1 _ _ _ _ Hcl E). }
        cbn. by rewrite Ep.
    - unfold work. destruct (_ && _); [done|]. unfold look. set (i := (_ mod _)%nat).
      destruct (queues (pool s) !! i) as [q|] eqn:E; [|done]. cbn [mbind option_bind].
      destruct (BoundedQueue.try_pop q) as [[task q']|] eqn:Ep; [|done]. cbn. split_and!; [done|done|].
      apply Forall_insert; [done|]. unfold BoundedQueue.try_pop in Ep. repeat case_match; simplify_eq; cbn.
      all: by apply (Forall_lookup_1 _ _ _ _ Hcl E).
    - done.
    - done.
    - split_and!; [done|done|]. cbn. by apply Forall_alter. }
  destruct (IH _ H3) as [-> ->]. done.
Qed.

End S.
Arguments t : clear implicits.
Arguments sys : clear implicits.
End WorkerPool.

(** One queue of one place: "1" fills it, the first push of "2" is refused, the worker takes "1",
    and the second push of "2" puts an empty task there. *)
Definition lossy_events : list (WorkerPool.event (A := string)) :=
  let two := WorkerPool.Advance 0 in
  [WorkerPool.Call 0 None "1"; two; WorkerPool.Call 0 None "2"; two; WorkerPool.Work 0; two; WorkerPool.Work 0].

(** Remark: [try_submit] can answer true for a function that never runs: the first refused push
    has taken it. *)
Example submit_reports_lost_task :
  let s := WorkerPool.exec (WorkerPool.init 1 1) lossy_events in
  WorkerPool.submits (WorkerPool.pool s) = 2 /\ WorkerPool.lost s = ["2"] /\ WorkerPool.ran s = ["1"] /\
  WorkerPool.queue_size (WorkerPool.pool s) = 0%nat.
Proof. vm_compute. done. Qed.

(** Three functions on two queues, of which the first worker runs one before it rests; the second
    worker then runs the others, one of them from the first queue. *)
Definition demo_events : list (WorkerPool.event (A := string)) :=
  let call a := [WorkerPool.Call 0 None a; WorkerPool.Advance 0; WorkerPool.Advance 0] in
  call "a" ++ call "b" ++ [WorkerPool.Work 0] ++ call "c".

Lemma pool_runs_each_task_once_witness :
  let s := WorkerPool.exec (WorkerPool.init 2 4) demo_events in
  WorkerPool.lost s = [] /\ WorkerPool.ran (WorkerPool.exec s (replicate 4 (WorkerPool.Work 1))) ≡ₚ ["c"; "b"; "a"].
Proof.
  destruct (WorkerPool.pool_runs_each_task_once 2 4 demo_events) as (_ & _ & H1 & H2). split.
  - apply H2; [reflexivity|vm_compute; lia].
  - apply H1; [reflexivity|vm_compute; lia].
Defined.

Lemma restarted_pool_refuses_witness :
  let s := WorkerPool.exec (WorkerPool.init 1 4) [WorkerPool.Halt; WorkerPool.Close 0; WorkerPool.Start] in
  WorkerPool.handed (WorkerPool.exec s demo_events) = [].
Proof. intros s. apply (WorkerPool.restarted_pool_refuses demo_events s). repeat constructor. Defined.

(** * [ObjectPool] *)
Module ObjectPool.
Section S.
Context {T : Type}.

(* @src include/concurrency/object_pool.hpp | std::size_t max_; >> released_ = 0; | ObjectPool *)
Record t := { max : nat; pool : list T; acquired : Z; created : Z; released : Z }.
#[export] Instance eta_t : Eta t := fun r =>
  {| max := max r; pool := pool r; acquired := acquired r; created := created r; released := released r |}.

(** [fresh] is a new object. *)
(* @src include/concurrency/object_pool.hpp | explicit ObjectPool( *)
Definition make (fresh : T) (prealloc max : nat) : t :=
  {| max := max; pool := replicate prealloc fresh; acquired := 0; created := 0; released := 0 |}.

(* @src include/concurrency/object_pool.hpp | std::unique_ptr<T> acquire() *)
Definition acquire (s : t) (fresh : T) : T * t :=
  match last (pool s) with
  | Some x => (x, s <| pool := take (length (pool s) - 1) (pool s) |> <| acquired ::= bump |>)
  | None => (fresh, s <| created ::= bump |>)
  end.

(* @src include/concurrency/object_pool.hpp | void release( *)
Definition release (s : t) (obj : option T) : t :=
  match obj with
  | None => s
  | Some x => if (length (pool s) <? max s)%nat then s <| pool ::= fun p => p ++ [x] |> <| released ::= bump |> else s
  end.

(* @src include/concurrency/object_pool.hpp | std::size_t available() const *)
Definition available (s : t) : nat := length (pool s).

(** What was released is what the next [acquire] gives. *)
Lemma acquire_released s x fresh :
  (length (pool s) < max s)%nat -> (acquire (release s (Some x)) fresh).1 = x /\ pool (acquire (release s (Some x)) fresh).2 = pool s.
Proof.
  intros H. unfold release, acquire. rewrite (proj2 (Nat.ltb_lt _ _)) by done. cbn. rewrite last_snoc. cbn.
  rewrite length_app. cbn. by rewrite Nat.add_sub, take_app_length.
Qed.
End S.
Arguments t : clear implicits.
End ObjectPool.

(** * Spinning *)
Module SpinWait.

(** What one turn does: that many pause instructions, a yield or a sleep. *)
Inductive action := Pause (n : Z) | Yield | Sleep50us.

(* @src include/concurrency/spin_wait.hpp | void spin_once() *)
Definition spin_once (count : Z) : action * Z :=
  if count <? 16 then (Pause (Z.shiftl 1 count), count + 1)
  else if count <? 32 then (Yield, count + 1) else (Sleep50us, count).

(** [pred] and [clk] by the number of the poll. *)
(* @src include/concurrency/spin_wait.hpp:41-45 spin_until *)
Fixpoint spin_from (fuel i : nat) (pred : nat -> bool) (clk : nat -> Z) (deadline : Z) : option bool :=
  match fuel with
  | O => None
  | S fuel => if pred i then Some true else if deadline <=? clk i then Some false else spin_from fuel (S i) pred clk deadline
  end.

(* @src include/concurrency/spin_wait.hpp | bool spin_until( *)
Definition spin_until (fuel : nat) (pred : nat -> bool) (clk : nat -> Z) (start budget : Z) : option bool :=
  spin_from fuel 0 pred clk (start + budget).

Lemma spin_from_spec pred clk deadline fuel : forall i n,
  deadline <= clk n -> (i <= n < i + fuel)%nat ->
  exists k b, (i <= k <= n)%nat /\ spin_from fuel i pred clk deadline = Some b /\ pred k = b /\
  (b = true \/ deadline <= clk k) /\ forall j, (i <= j < k)%nat -> pred j = false /\ clk j < deadline.
Proof.
  induction fuel as [|fuel IH]; intros i n Hn Hi; cbn [spin_from]; [lia|].
  destruct (pred i) eqn:Ep; [exists i, true; split_and!; [lia|lia|done|done|by left|lia]|].
  destruct (Z.leb_spec deadline (clk i)); [exists i, false; split_and!; [lia|lia|done|done|by right|lia]|].
  assert (i <> n) by (intros ->; lia). destruct (IH (S i) n Hn ltac:(lia)) as (k & b & Hk & E & Hp & Hb & Hall).
  exists k, b. split_and!; [lia|lia|exact E|exact Hp|exact Hb|]. intros j Hj. destruct (decide (j = i)) as [->|]; [done|]. apply Hall. lia.
Qed.

(** Spinning ends as soon as the clock passes the budget, at the first poll that either holds or
    is past the deadline; a condition that holds then is still seen. *)
Lemma spin_until_spec pred clk start budget n :
  start + budget <= clk n ->
  exists k b, (k <= n)%nat /\ spin_until (S n) pred clk start budget = Some b /\ pred k = b /\
  (b = true \/ start + budget <= clk k) /\ forall j, (j < k)%nat -> pred j = false /\ clk j < start + budget.
Proof.
  intros Hn. destruct (spin_from_spec pred clk (start + budget) (S n) 0 n Hn ltac:(lia)) as (k & b & Hk & E & Hp & Hb & Hall).
  exists k, b. split_and!; [lia|exact E|exact Hp|exact Hb|]. intros j Hj. apply Hall. lia.
Qed.
End SpinWait.
