(* ===== verification/Outbox.v ===== *)
(** The signal outbox of [include/delivery/outbox]: [OutboxQueue], [Outbox],
    [OutboxLifecycle] (leases), [OutboxWorker] and [DurableHandoff].

    The queue below the outbox is used through [BoundedFifo] only.  Counters are 64-bit
    atomics.  A method whose body takes a mutex several times is split at those points, and
    the step relation of [OutboxSystem] interleaves the parts. *)
From S2P Require Import Prelude Float64 Types Queues.

(** * [OutboxQueue] *)
Module OutboxQueue.
Section S.
Context {Q : Type}.

(* @src include/delivery/outbox/outbox_queue.hpp:33-37 OutboxQueue *)
Record t := {
  q : Q;
  next_id : Z;
  enqueued : Z;
  dequeued : Z;
  drops : Z
}.
#[export] Instance eta_t : Eta t := fun r =>
  {| q := q r; next_id := next_id r; enqueued := enqueued r; dequeued := dequeued r;
     drops := drops r |}.

Definition make (queue : Q) : t :=
  {| q := queue; next_id := 1; enqueued := 0; dequeued := 0; drops := 0 |}.

Context `{!BoundedFifo Q OutboxItem}.

(* @src include/delivery/outbox/outbox_queue.hpp | bool enqueue( *)
Definition enqueue (s : t) (item : OutboxItem) : bool * t :=
  let item := item <| oi_id := next_id s |> in
  let s := s <| next_id ::= bump |> in
  match bf_push (q s) item with
  | None => (false, s <| drops ::= bump |>)
  | Some q' => (true, s <| q := q' |> <| enqueued ::= bump |>)
  end.

(* @src include/delivery/outbox/outbox_queue.hpp | std::optional<OutboxItem> dequeue( *)
Definition dequeue (s : t) : option OutboxItem * t :=
  match bf_pop (q s) with
  | None => (None, s)
  | Some (item, q') => (Some item, s <| q := q' |> <| dequeued ::= bump |>)
  end.

Lemma enqueue_spec s l item ok s' :
  bf_repr (q s) l -> enqueue s item = (ok, s') ->
  (bf_repr (q s') (if ok then l ++ [item <| oi_id := next_id s |>] else l)) /\
  bf_limit (q s') = bf_limit (q s) /\ next_id s' = bump (next_id s) /\
  ok = bool_decide (length l < bf_limit (q s))%nat.
Proof.
  intros Hq. unfold enqueue. simpl. pose proof (bf_push_spec (q s) l (item <| oi_id := next_id s |>) Hq) as Hp.
  destruct (bf_push _ _) as [q'|]; intros [= <- <-]; simpl.
  - destruct Hp as (? & ? & ?). split_and!; try done. symmetry. by apply bool_decide_eq_true.
  - split_and!; try done. symmetry. apply bool_decide_eq_false. lia.
Qed.

Lemma dequeue_spec s l r s' :
  bf_repr (q s) l -> dequeue s = (r, s') ->
  r = head l /\ bf_repr (q s') (tail l) /\ bf_limit (q s') = bf_limit (q s) /\
  next_id s' = next_id s.
Proof.
  intros Hq. unfold dequeue. pose proof (bf_pop_spec (q s) l Hq) as Hp.
  destruct (bf_pop _) as [[x q']|]; intros [= <- <-]; simpl.
  - destruct Hp as (l' & -> & ? & ?). done.
  - by subst l.
Qed.

End S.
Arguments t : clear implicits.
End OutboxQueue.

(** * [Outbox] *)
Module Outbox.
Section S.
Context {Q : Type}.

(* @src include/delivery/outbox/outbox.hpp:96-103 Outbox *)
Record t := {
  queue : OutboxQueue.t Q;
  pending_keys : gset string;
  delivered_keys : gset string;
  published : Z;
  claimed : Z;
  delivered : Z;
  failed : Z;
  duplicates : Z;
  dead_letters : Z
}.
#[export] Instance eta_t : Eta t := fun r =>
  {| queue := queue r; pending_keys := pending_keys r; delivered_keys := delivered_keys r;
     published := published r; claimed := claimed r; delivered := delivered r; failed := failed r;
     duplicates := duplicates r; dead_letters := dead_letters r |}.

(* @src include/delivery/outbox/outbox.hpp | explicit Outbox( *)
Definition make (q : Q) : t := {|
  queue := OutboxQueue.make q; pending_keys := ∅; delivered_keys := ∅; published := 0;
  claimed := 0; delivered := 0; failed := 0; duplicates := 0; dead_letters := 0 |}.

(** [delivered_keys_] is emptied when it exceeds this size. *)
Definition DELIVERED_MAX : Z := 50000.

(* @src include/delivery/outbox/outbox.hpp:25-26 Outbox::publish *)
Definition dedupe_key (s : Signal) : string :=
  sg_predictionId s +:+ ":" +:+ to_string (signal_kind_code (sg_kind s)).

(** First critical section of [publish]: reserve the key. *)
(* @src include/delivery/outbox/outbox.hpp:27-35 Outbox::publish *)
Definition reserve (o : t) (key : string) : bool * t :=
  if decide (key ∈ delivered_keys o \/ key ∈ pending_keys o)
  then (false, o <| duplicates ::= bump |>)
  else (true, o <| pending_keys ::= union {[ key ]} |>).

(* @src include/delivery/outbox/outbox.hpp:37-41 Outbox::publish *)
Definition new_item (s : Signal) (now : Z) : OutboxItem := {|
  oi_id := 0; oi_state := OPending; oi_signal := s; oi_createdAtMs := now;
  oi_claimedAtMs := 0; oi_deliveredAtMs := 0; oi_attempts := 0; oi_lastError := "";
  oi_dedupeKey := dedupe_key s |}.

Context `{!BoundedFifo Q OutboxItem}.

(** Rest of [publish]: enqueue, or give the reservation back. *)
(* @src include/delivery/outbox/outbox.hpp:42-49 Outbox::publish *)
Definition enqueue_reserved (o : t) (item : OutboxItem) : Result Z * t :=
  match OutboxQueue.enqueue (queue o) item with
  | (false, q') =>
      (Err (err QueueFull "outbox full"),
       o <| queue := q' |> <| pending_keys ::= fun s => s ∖ {[ oi_dedupeKey item ]} |>)
  | (true, q') => (Ok (OutboxQueue.enqueued q'), o <| queue := q' |> <| published ::= bump |>)
  end.

(* @src include/delivery/outbox/outbox.hpp | Result<std::uint64_t> publish( *)
Definition publish (o : t) (s : Signal) (now : Z) : Result Z * t :=
  match reserve o (dedupe_key s) with
  | (false, o) => (Err (err EDuplicate "already published"), o)
  | (true, o) => enqueue_reserved o (new_item s now)
  end.

(* @src include/delivery/outbox/outbox.hpp | std::optional<OutboxItem> claim( *)
Definition claim (o : t) (now : Z) : option OutboxItem * t :=
  match OutboxQueue.dequeue (queue o) with
  | (None, q') => (None, o <| queue := q' |>)
  | (Some item, q') =>
      (Some (item <| oi_state := OClaimed |> <| oi_claimedAtMs := now |>),
       o <| queue := q' |> <| claimed ::= bump |>)
  end.

(** [markDelivered(item)] and [markFailed(item, error)] also return the item as the caller
    sees it afterwards (after a requeue only its [id] is still used). *)
(* @src include/delivery/outbox/outbox.hpp | void markDelivered( *)
Definition markDelivered (o : t) (item : OutboxItem) (now : Z) : OutboxItem * t :=
  let keys := {[ oi_dedupeKey item ]} ∪ delivered_keys o in
  (item <| oi_state := ODelivered |> <| oi_deliveredAtMs := now |>,
   o <| pending_keys ::= fun s => s ∖ {[ oi_dedupeKey item ]} |>
     <| delivered_keys := if DELIVERED_MAX <? Z.of_nat (size keys) then ∅ else keys |>
     <| delivered ::= bump |>).

(* @src include/delivery/outbox/outbox.hpp | void markFailed( *)
Definition markFailed (o : t) (item : OutboxItem) (error : string) : OutboxItem * t :=
  let item := item <| oi_lastError := error |> <| oi_attempts ::= Z.add 1 |> in
  if OUTBOX_MAX_ATTEMPTS <=? oi_attempts item then
    (item <| oi_state := ODeadLetter |>,
     o <| dead_letters ::= bump |>
       <| pending_keys ::= fun s => s ∖ {[ oi_dedupeKey item ]} |> <| failed ::= bump |>)
  else
    let item := item <| oi_state := OPending |> in
    let '(_, q') := OutboxQueue.enqueue (queue o) item in
    (item, o <| queue := q' |> <| failed ::= bump |>).

End S.
Arguments t : clear implicits.
End Outbox.

(** * Publishers and workers on one outbox

    Any number of threads publish, claim and complete items.  [reserving] are the items of
    publishers between the two critical sections of [publish]; [in_hand] the items workers
    have claimed and not completed; [log] the keys marked delivered, oldest first;
    [stranded] the keys of failed items whose requeue was refused by the full queue. *)
Module OutboxSystem.
Section S.
Context {Q : Type} `{!BoundedFifo Q OutboxItem}.

Record sys := {
  ob : Outbox.t Q;
  reserving : list OutboxItem;
  in_hand : list OutboxItem;
  log : list string;
  stranded : list string
}.
#[export] Instance eta_sys : Eta sys := fun r =>
  {| ob := ob r; reserving := reserving r; in_hand := in_hand r; log := log r;
     stranded := stranded r |}.

Definition init (q : Q) : sys :=
  {| ob := Outbox.make q; reserving := []; in_hand := []; log := []; stranded := [] |}.

(** [markFailed] wants to requeue, and the queue is full. *)
Definition requeue_lost (o : Outbox.t Q) (item : OutboxItem) : bool :=
  (oi_attempts item + 1 <? OUTBOX_MAX_ATTEMPTS) &&
  (bf_limit (OutboxQueue.q (Outbox.queue o)) <=? bf_size (OutboxQueue.q (Outbox.queue o)))%nat.

Inductive step (s : sys) : sys -> Prop :=
| s_reserve sig now o' :
    Outbox.reserve (ob s) (Outbox.dedupe_key sig) = (true, o') ->
    step s s <| ob := o' |> <| reserving := reserving s ++ [Outbox.new_item sig now] |>
| s_duplicate sig o' :
    Outbox.reserve (ob s) (Outbox.dedupe_key sig) = (false, o') ->
    step s s <| ob := o' |>
| s_enqueue l1 item l2 r o' :
    reserving s = l1 ++ item :: l2 -> Outbox.enqueue_reserved (ob s) item = (r, o') ->
    step s s <| ob := o' |> <| reserving := l1 ++ l2 |>
| s_claim now item o' :
    Outbox.claim (ob s) now = (Some item, o') ->
    step s s <| ob := o' |> <| in_hand := in_hand s ++ [item] |>
| s_delivered l1 item l2 now item' o' :
    in_hand s = l1 ++ item :: l2 -> Outbox.markDelivered (ob s) item now = (item', o') ->
    step s s <| ob := o' |> <| in_hand := l1 ++ l2 |> <| log := log s ++ [oi_dedupeKey item] |>
| s_failed l1 item l2 error item' o' :
    in_hand s = l1 ++ item :: l2 -> Outbox.markFailed (ob s) item error = (item', o') ->
    step s s <| ob := o' |> <| in_hand := l1 ++ l2 |>
      <| stranded := if requeue_lost (ob s) item then stranded s ++ [oi_dedupeKey item]
                     else stranded s |>.

Inductive reachable (q : Q) : sys -> Prop :=
| reach_init : reachable q (init q)
| reach_step s s' : reachable q s -> step s s' -> reachable q s'.

(** Keys of the items in the system whose queue holds [l]. *)
Definition live_keys (s : sys) (l : list OutboxItem) : list string :=
  (oi_dedupeKey <$> reserving s) ++ (oi_dedupeKey <$> l) ++ (oi_dedupeKey <$> in_hand s) ++ stranded s.

(** [delivered_keys_] holds the deliveries since it was last emptied. *)
Definition log_ok (s : sys) : Prop :=
  exists old recent, log s = old ++ recent /\ NoDup recent /\
    list_to_set recent = Outbox.delivered_keys (ob s) /\
    (old = [] \/ Outbox.DELIVERED_MAX < Z.of_nat (length old)).

Definition inv (s : sys) : Prop :=
  exists l, bf_repr (OutboxQueue.q (Outbox.queue (ob s))) l /\
    NoDup (live_keys s l) /\
    Outbox.pending_keys (ob s) = list_to_set (live_keys s l) /\
    Outbox.pending_keys (ob s) ## Outbox.delivered_keys (ob s) /\
    log_ok s.

Lemma init_inv q : bf_repr q [] -> inv (init q).
Proof.
  intros Hq. exists []. simpl. split_and!; try done; [apply NoDup_nil_2|].
  exists [], []. split_and!; try done; [apply NoDup_nil_2|by left].
Qed.

(** Moving an item between the places does not change the live keys. *)
Lemma inv_move s s' l l' :
  bf_repr (OutboxQueue.q (Outbox.queue (ob s'))) l' ->
  NoDup (live_keys s l) -> Outbox.pending_keys (ob s) = list_to_set (live_keys s l) ->
  Outbox.pending_keys (ob s) ## Outbox.delivered_keys (ob s) -> log_ok s ->
  live_keys s' l' ≡ₚ live_keys s l ->
  Outbox.pending_keys (ob s') = Outbox.pending_keys (ob s) ->
  Outbox.delivered_keys (ob s') = Outbox.delivered_keys (ob s) -> log s' = log s ->
  inv s'.
Proof.
  intros Hq Hnd Hp Hd Hl Hperm Ep Ed El. exists l'. rewrite Ep, Ed. split_and!; try done.
  - by rewrite Hperm.
  - rewrite Hp. apply set_eq. intros x. rewrite !elem_of_list_to_set. by rewrite Hperm.
  - unfold log_ok in *. by rewrite El, Ed.
Qed.

(** Removing one item with its key, as completing or rolling back does. *)
Lemma remove_key s s' l l' k :
  NoDup (live_keys s l) -> Outbox.pending_keys (ob s) = list_to_set (live_keys s l) ->
  live_keys s l ≡ₚ k :: live_keys s' l' ->
  NoDup (live_keys s' l') /\ Outbox.pending_keys (ob s) ∖ {[ k ]} = list_to_set (live_keys s' l').
Proof.
  intros Hnd Hp Hperm. rewrite Hperm in Hnd. apply NoDup_cons in Hnd as [Hk Hnd].
  split; [done|]. rewrite Hp. apply set_eq. intros x.
  rewrite elem_of_difference, !elem_of_list_to_set, Hperm, elem_of_cons, elem_of_singleton.
  split; [intros [[->|?] ?]; done|]. intros Hx. split; [by right|]. by intros ->.
Qed.

(** What each operation does to the queue's contents and to the two key sets. *)
Lemma reserve_spec (o : Outbox.t Q) key ok o' :
  Outbox.reserve o key = (ok, o') ->
  Outbox.queue o' = Outbox.queue o /\ Outbox.delivered_keys o' = Outbox.delivered_keys o /\
  (if ok then (key ∉ Outbox.delivered_keys o) /\ (key ∉ Outbox.pending_keys o) /\
              Outbox.pending_keys o' = {[ key ]} ∪ Outbox.pending_keys o
   else Outbox.pending_keys o' = Outbox.pending_keys o).
Proof.
  unfold Outbox.reserve. case_decide as E; intros [= <- <-]; simpl; [done|].
  split_and!; try done; tauto.
Qed.

Lemma enqueue_reserved_spec (o : Outbox.t Q) l item r o' :
  bf_repr (OutboxQueue.q (Outbox.queue o)) l -> Outbox.enqueue_reserved o item = (r, o') ->
  Outbox.delivered_keys o' = Outbox.delivered_keys o /\
  ((exists id, bf_repr (OutboxQueue.q (Outbox.queue o')) (l ++ [item <| oi_id := id |>]) /\
     Outbox.pending_keys o' = Outbox.pending_keys o) \/
   (bf_repr (OutboxQueue.q (Outbox.queue o')) l /\
     Outbox.pending_keys o' = Outbox.pending_keys o ∖ {[ oi_dedupeKey item ]})).
Proof.
  intros Hq. unfold Outbox.enqueue_reserved.
  destruct (OutboxQueue.enqueue _ _) as [ok q'] eqn:E.
  apply (OutboxQueue.enqueue_spec _ l) in E as (Hq' & _ & _ & _); [|done].
  destruct ok; intros [= <- <-]; simpl; (split; [done|]); [left; by eexists|by right].
Qed.

Lemma claim_spec (o : Outbox.t Q) l now item o' :
  bf_repr (OutboxQueue.q (Outbox.queue o)) l -> Outbox.claim o now = (Some item, o') ->
  exists x l', l = x :: l' /\ oi_dedupeKey item = oi_dedupeKey x /\
    bf_repr (OutboxQueue.q (Outbox.queue o')) l' /\
    Outbox.pending_keys o' = Outbox.pending_keys o /\
    Outbox.delivered_keys o' = Outbox.delivered_keys o.
Proof.
  intros Hq. unfold Outbox.claim. destruct (OutboxQueue.dequeue _) as [r q'] eqn:E.
  apply (OutboxQueue.dequeue_spec _ l) in E as (-> & Hq' & _ & _); [|done].
  destruct l as [|x l]; intros [= <- <-]. by exists x, l.
Qed.

Lemma markFailed_spec (o : Outbox.t Q) l item error item' o' :
  bf_repr (OutboxQueue.q (Outbox.queue o)) l -> Outbox.markFailed o item error = (item', o') ->
  Outbox.delivered_keys o' = Outbox.delivered_keys o /\
  ((OUTBOX_MAX_ATTEMPTS <= oi_attempts item + 1 /\
    bf_repr (OutboxQueue.q (Outbox.queue o')) l /\
    Outbox.pending_keys o' = Outbox.pending_keys o ∖ {[ oi_dedupeKey item ]}) \/
   (oi_attempts item + 1 < OUTBOX_MAX_ATTEMPTS /\
    Outbox.pending_keys o' = Outbox.pending_keys o /\
    (if requeue_lost o item then bf_repr (OutboxQueue.q (Outbox.queue o')) l
     else exists x, oi_dedupeKey x = oi_dedupeKey item /\
       bf_repr (OutboxQueue.q (Outbox.queue o')) (l ++ [x])))).
Proof.
  intros Hq. unfold Outbox.markFailed, requeue_lost. rewrite (bf_size_spec _ _ Hq). simpl.
  destruct (Z.leb_spec OUTBOX_MAX_ATTEMPTS (1 + oi_attempts item)) as [Hle|Hlt].
  - intros [= <- <-]; simpl. split; [done|]. left. split_and!; try done; lia.
  - destruct (OutboxQueue.enqueue _ _) as [ok q'] eqn:E.
    apply (OutboxQueue.enqueue_spec _ l) in E as (Hq' & _ & _ & ->); [|done].
    intros [= <- <-]; simpl. split; [done|]. right.
    rewrite (proj2 (Z.ltb_lt _ _)) by lia. simpl. split_and!; [lia|done|].
    case_bool_decide; destruct (Nat.leb_spec (bf_limit (OutboxQueue.q (Outbox.queue o))) (length l));
      try lia; [|done]. eexists; split; [|done]; done.
Qed.

Lemma fmap_middle {B C} (f : B -> C) l1 x l2 : f <$> (l1 ++ x :: l2) = (f <$> l1) ++ f x :: (f <$> l2).
Proof. by rewrite fmap_app. Qed.

Lemma log_snoc s s' k :
  log_ok s -> k ∉ Outbox.delivered_keys (ob s) -> log s' = log s ++ [k] ->
  Outbox.delivered_keys (ob s') =
    (if Outbox.DELIVERED_MAX <? Z.of_nat (size ({[ k ]} ∪ Outbox.delivered_keys (ob s))) then ∅
     else {[ k ]} ∪ Outbox.delivered_keys (ob s)) ->
  log_ok s'.
Proof.
  intros (old & rec & El & Hnd & Hs & Hold) Hk El' Ed.
  assert (k ∉ rec) as Hk' by (rewrite <-Hs in Hk; by rewrite elem_of_list_to_set in Hk).
  assert (NoDup (rec ++ [k])) as Hnd'.
  { apply list.NoDup_app. split_and!; [done| |apply NoDup_singleton].
    intros x Hx Hx'. apply list_elem_of_singleton in Hx' as ->. done. }
  assert ({[ k ]} ∪ Outbox.delivered_keys (ob s) = list_to_set (rec ++ [k])) as Eset.
  { rewrite <-Hs, list_to_set_app_L. set_solver. }
  rewrite Eset, (size_list_to_set (rec ++ [k])) in Ed by done.
  destruct (Z.ltb_spec Outbox.DELIVERED_MAX (Z.of_nat (length (rec ++ [k])))) as [Hlt|Hge].
  - exists (old ++ rec ++ [k]), []. rewrite El', El, Ed. split_and!.
    + by rewrite !app_nil_r, <-app_assoc.
    + apply NoDup_nil_2.
    + done.
    + right. rewrite length_app. lia.
  - exists old, (rec ++ [k]). rewrite El', El, Ed. split_and!; try done. by rewrite <-app_assoc.
Qed.

(** An item leaves the system without being delivered. *)
Lemma inv_drop s s' l l' k :
  bf_repr (OutboxQueue.q (Outbox.queue (ob s'))) l' ->
  NoDup (live_keys s l) -> Outbox.pending_keys (ob s) = list_to_set (live_keys s l) ->
  Outbox.pending_keys (ob s) ## Outbox.delivered_keys (ob s) -> log_ok s ->
  live_keys s l ≡ₚ k :: live_keys s' l' ->
  Outbox.pending_keys (ob s') = Outbox.pending_keys (ob s) ∖ {[ k ]} ->
  Outbox.delivered_keys (ob s') = Outbox.delivered_keys (ob s) -> log s' = log s ->
  inv s'.
Proof.
  intros Hq Hnd Hp Hd Hl Hperm Ep Ed El. exists l'. rewrite Ep, Ed.
  destruct (remove_key s s' l l' k) as [? ?]; [done..|].
  split_and!; try done; [set_solver|]. unfold log_ok in *. by rewrite El, Ed.
Qed.

Ltac live_perm :=
  unfold live_keys; simpl;
  repeat match goal with E : _ = _ ++ _ :: _ |- _ => rewrite !E; clear E end;
  repeat first [rewrite fmap_app | rewrite fmap_cons | rewrite fmap_nil]; simpl;
  repeat match goal with
  | |- context [list_fmap ?A ?B ?f ?l] => change (list_fmap A B f l) with (f <$> l)
  end;
  repeat match goal with E : oi_dedupeKey _ = oi_dedupeKey _ |- _ => rewrite E; clear E end;
  perm_by_count String.string_dec.

Lemma outbox_step_inv s s' : inv s -> step s s' -> inv s'.
Proof.
  intros (l & Hq & Hnd & Hp & Hdisj & Hlog) Hs. destruct Hs as
    [sig now o' E|sig o' E|l1 item l2 r o' El E|now item o' E|l1 item l2 now item' o' El E|l1 item l2 er item' o' El E].
  - apply reserve_spec in E as (E1 & E2 & Hk & Hk' & E3).
    exists l. simpl. rewrite E1, E2, E3.
    assert (live_keys s <| ob := o' |> <| reserving := reserving s ++ [Outbox.new_item sig now] |> l
            ≡ₚ Outbox.dedupe_key sig :: live_keys s l) as Hperm by live_perm.
    split_and!; [done| | |set_solver|].
    + rewrite Hperm. apply NoDup_cons. split; [|done]. rewrite Hp, elem_of_list_to_set in Hk'. done.
    + rewrite Hp. apply set_eq. intros x. rewrite elem_of_list_to_set, Hperm. set_solver.
    + unfold log_ok in *. simpl. by rewrite E2.
  - apply reserve_spec in E as (E1 & E2 & E3).
    eapply (inv_move s _ l l); try done; simpl; by rewrite E1.
  - apply (enqueue_reserved_spec _ l) in E as (E1 & [(id & Hq' & E2)|(Hq' & E2)]); [| |done].
    + eapply (inv_move s _ l); try done. live_perm.
    + apply (inv_drop s _ l l (oi_dedupeKey item)); try done; live_perm.
  - apply (claim_spec _ l) in E as (x & l' & -> & Ex & Hq' & E2 & E3); [|done].
    eapply (inv_move s _ (x :: l')); try done. live_perm.
  - assert (live_keys s l ≡ₚ oi_dedupeKey item ::
      live_keys s <| in_hand := l1 ++ l2 |> l) as Hperm by live_perm.
    destruct (remove_key s s <| in_hand := l1 ++ l2 |> l l (oi_dedupeKey item)) as [Hnd' Hp'];
      [done..|].
    assert (oi_dedupeKey item ∉ Outbox.delivered_keys (ob s)) as Hk.
    { assert (oi_dedupeKey item ∈ Outbox.pending_keys (ob s)); [|set_solver].
      rewrite Hp, elem_of_list_to_set, Hperm. by left. }
    injection E as <- <-. exists l. split_and!; [done|done|done| |].
    + simpl. case_match; set_solver.
    + by eapply log_snoc.
  - apply (markFailed_spec _ l) in E as (E1 & [(Ha & Hq' & E2)|(Ha & E2 & Hq')]); [| |done].
    + apply (inv_drop s _ l l (oi_dedupeKey item)); try done.
      replace (requeue_lost (ob s) item) with false; [live_perm|].
      unfold requeue_lost. by rewrite (proj2 (Z.ltb_ge _ _)) by lia.
    + destruct (requeue_lost (ob s) item); [|destruct Hq' as (x & Ex & Hq')];
        eapply (inv_move s _ l); try done; live_perm.
Qed.

(** A schedule of actions, each taking the oldest item of its place. *)
Inductive action :=
| AReserve (sig : Signal) (now : Z) | AEnqueue | AClaim (now : Z)
| ADelivered (now : Z) | AFailed (error : string).

Definition exec (s : sys) (a : action) : option sys :=
  match a with
  | AReserve sig now =>
      let '(ok, o') := Outbox.reserve (ob s) (Outbox.dedupe_key sig) in
      Some (if ok then s <| ob := o' |> <| reserving := reserving s ++ [Outbox.new_item sig now] |>
            else s <| ob := o' |>)
  | AEnqueue =>
      match reserving s with
      | [] => None
      | item :: l => Some (s <| ob := snd (Outbox.enqueue_reserved (ob s) item) |> <| reserving := l |>)
      end
  | AClaim now =>
      match Outbox.claim (ob s) now with
      | (Some item, o') => Some (s <| ob := o' |> <| in_hand := in_hand s ++ [item] |>)
      | (None, _) => None
      end
  | ADelivered now =>
      match in_hand s with
      | [] => None
      | item :: l => Some (s <| ob := snd (Outbox.markDelivered (ob s) item now) |> <| in_hand := l |>
                             <| log := log s ++ [oi_dedupeKey item] |>)
      end
  | AFailed error =>
      match in_hand s with
      | [] => None
      | item :: l => Some (s <| ob := snd (Outbox.markFailed (ob s) item error) |> <| in_hand := l |>
                             <| stranded := if requeue_lost (ob s) item
                                            then stranded s ++ [oi_dedupeKey item] else stranded s |>)
      end
  end.

Fixpoint exec_all (s : sys) (l : list action) : option sys :=
  match l with [] => Some s | a :: l => s' ← exec s a; exec_all s' l end.

Lemma exec_step s a s' : exec s a = Some s' -> step s s'.
Proof.
  destruct a; simpl.
  - destruct (Outbox.reserve _ _) as [[] o'] eqn:E; intros [= <-]; [by constructor|by eapply s_duplicate].
  - destruct (reserving s) as [|item l] eqn:E; intros [= <-].
    destruct (Outbox.enqueue_reserved (ob s) item) as [r o'] eqn:E'.
    by eapply (s_enqueue _ [] item l).
  - destruct (Outbox.claim _ _) as [[item|] o'] eqn:E; intros [= <-]. by eapply s_claim.
  - destruct (in_hand s) as [|item l] eqn:E; intros [= <-]. by eapply (s_delivered _ [] item l now).
  - destruct (in_hand s) as [|item l] eqn:E; intros [= <-].
    destruct (Outbox.markFailed (ob s) item error) as [r o'] eqn:E'.
    by eapply (s_failed _ [] item l).
Qed.

Lemma exec_all_reachable q l s s' : reachable q s -> exec_all s l = Some s' -> reachable q s'.
Proof.
  revert s. induction l as [|a l IH]; simpl; intros s Hr; [by intros [= <-]|].
  destruct (exec s a) as [s1|] eqn:E; simpl; [|done]. apply IH.
  eapply reach_step; [done|by eapply exec_step].
Qed.

Lemma reachable_inv q s : bf_repr q [] -> reachable q s -> inv s.
Proof. intros Hq. induction 1; [by apply init_inv|by eapply outbox_step_inv]. Qed.

(** C20: however many threads publish, claim, complete and fail items of one outbox, at every
    moment the dedupe keys of the items in it (reserved, queued or in a worker's hands) and
    of the stranded ones are pairwise distinct, are exactly the reserved keys
    [pending_keys_], and none of them is in [delivered_keys_]; and until
    [delivered_keys_] is first emptied (50000 deliveries) no key is delivered twice. *)
Theorem outbox_exactly_once q s :
  bf_repr q [] -> reachable q s ->
  exists l, bf_repr (OutboxQueue.q (Outbox.queue (ob s))) l /\
    let keys := (oi_dedupeKey <$> reserving s) ++ (oi_dedupeKey <$> l) ++
                (oi_dedupeKey <$> in_hand s) ++ stranded s in
    NoDup keys /\ Outbox.pending_keys (ob s) = list_to_set keys /\
    (forall k, k ∈ keys -> k ∉ Outbox.delivered_keys (ob s)) /\
    (Z.of_nat (length (log s)) <= Outbox.DELIVERED_MAX -> NoDup (log s)).
Proof.
  intros Hq Hr. destruct (reachable_inv q s Hq Hr) as (l & Hl & Hnd & Hp & Hd & old & rec & El & Hn & _ & Ho).
  exists l. split; [done|]. cbv zeta. fold (live_keys s l). split_and!; [done|done| |].
  - intros k Hk Hk'. apply (Hd k); [|done]. rewrite Hp. by apply elem_of_list_to_set.
  - intros Hle. rewrite El, length_app in Hle. destruct Ho as [->|Ho]; [by rewrite El|lia].
Qed.

End S.
Arguments sys : clear implicits.
End OutboxSystem.

(** The outbox the application builds: a [BoundedQueue] of the given capacity. *)
Definition app_outbox (capacity : nat) : Outbox.t (BoundedQueue.t OutboxItem) :=
  Outbox.make (BoundedQueue.make capacity).

Definition demo_signal (id : string) (k : SignalKind) : Signal := {|
  sg_kind := k; sg_predictionId := id; sg_roundId := "r1"; sg_text := "";
  sg_createdAtMs := 0; sg_correlationId := ""; sg_urgent := false |}.

(** Publish, claim and deliver one signal. *)
Definition demo_delivery : list OutboxSystem.action :=
  [OutboxSystem.AReserve (demo_signal "p" SPrediction) 5; OutboxSystem.AEnqueue;
   OutboxSystem.AClaim 6; OutboxSystem.ADelivered 7].

Lemma outbox_exactly_once_witness :
  exists s, OutboxSystem.exec_all (OutboxSystem.init (BoundedQueue.make 2)) demo_delivery = Some s /\
    OutboxSystem.log s = ["p:0"] /\ NoDup (OutboxSystem.log s).
Proof.
  destruct (OutboxSystem.exec_all (OutboxSystem.init (BoundedQueue.make 2)) demo_delivery)
    as [s|] eqn:E; [|vm_compute in E; discriminate].
  exists s. split; [done|].
  assert (OutboxSystem.log s = ["p:0"]) as El.
  { cut (OutboxSystem.log <$> Some s = Some ["p:0"]); [by intros [=]|].
    rewrite <-E. vm_compute. reflexivity. }
  split; [done|].
  destruct (OutboxSystem.outbox_exactly_once (BoundedQueue.make 2) s) as (l & _ & _ & _ & _ & Hlog).
  - apply BoundedQueue.bounded_make_repr.
  - eapply OutboxSystem.exec_all_reachable; [constructor|exact E].
  - apply Hlog. rewrite El. vm_compute. discriminate.
Defined.

(** Remark: a requeue refused by a full queue loses the item for good: with capacity 1, [a] is
    claimed, [b] is published into the freed slot, and delivering [a] fails.  Afterwards [a]
    is neither queued nor in anyone's hands, and publishing it again answers "duplicate". *)
Theorem outbox_requeue_lost :
  let a := demo_signal "a" SPrediction in
  let b := demo_signal "b" SPrediction in
  let o1 := snd (Outbox.publish (app_outbox 1) a 0) in
  exists item o2, Outbox.claim o1 1 = (Some item, o2) /\ oi_signal item = a /\
  let o3 := snd (Outbox.publish o2 b 2) in
  let o4 := snd (Outbox.markFailed o3 item "delivery failed") in
  let q := OutboxQueue.q (Outbox.queue o4) in
  BoundedQueue.size q = 1%nat /\
  (fun r => oi_signal (fst r)) <$> BoundedQueue.try_pop q = Some b /\
  fst (Outbox.publish o4 a 3) = Err (err EDuplicate "already published").
Proof.
  intros a b o1. eexists _, _. split; [vm_compute; reflexivity|].
  split; [vm_compute; reflexivity|]. intros o3 o4 q.
  split_and!; vm_compute; reflexivity.
Qed.
