(* ===== verification/OutboxUse.v ===== *)
(** The users of the outbox: the delivery loop [OutboxWorker], the leases of
    [OutboxLifecycle] and the publication order of [DurableHandoff]
    ([include/delivery/outbox]). *)
From S2P Require Import Prelude Float64 Types Queues Outbox.

(** * [OutboxWorker]

    [deliver] is the sink: it may answer, or throw ([None]); [W] is the outside world it
    acts on.  The two clock readings are those of [claim] and [markDelivered]. *)
Module OutboxWorker.
Section S.
Context {Q W : Type} `{!BoundedFifo Q OutboxItem}.
Variable deliver : OutboxItem -> W -> option bool * W.

(* @src include/delivery/outbox/outbox_worker.hpp:62-67 OutboxWorker *)
Record t := {
  outbox : Outbox.t Q;
  world : W;
  processed : Z
}.
#[export] Instance eta_t : Eta t := fun r =>
  {| outbox := outbox r; world := world r; processed := processed r |}.

(** One iteration of [run]; the second component is the item as it was left. *)
(* @src include/delivery/outbox/outbox_worker.hpp:43-59 OutboxWorker::run *)
Definition process_one (s : t) (nowClaim nowDone : Z) : option OutboxItem * t :=
  match Outbox.claim (outbox s) nowClaim with
  | (None, o) => (None, s <| outbox := o |>)
  | (Some item, o) =>
      let item := item <| oi_state := OInFlight |> in
      let '(answer, w) := deliver item (world s) in
      let ok := match answer with Some b => b | None => false end in
      let '(item, o) := if ok then Outbox.markDelivered o item nowDone
                        else Outbox.markFailed o item "delivery failed" in
      (Some item, s <| outbox := o |> <| world := w |> <| processed ::= bump |>)
  end.

(** [n] iterations, with the items completed on the way (delivered or given up). *)
(* @src include/delivery/outbox/outbox_worker.hpp | void run( *)
Fixpoint run (n : nat) (clock : nat -> Z * Z) (s : t) : list OutboxItem * t :=
  match n with
  | O => ([], s)
  | S n =>
      let '(r, s1) := process_one s (fst (clock n)) (snd (clock n)) in
      let '(done_, s2) := run n clock s1 in
      (match r with
       | Some item => if decide (oi_state item = OPending) then done_ else item :: done_
       | None => done_
       end, s2)
  end.

(** Deliveries an item may still cost. *)
Definition budget (item : OutboxItem) : nat := Z.to_nat (OUTBOX_MAX_ATTEMPTS - oi_attempts item).
Definition total_budget (l : list OutboxItem) : nat := sum_list_with budget l.

Definition final (item : OutboxItem) : Prop :=
  oi_state item = ODelivered \/ oi_state item = ODeadLetter.

Definition queue_of (s : t) : Q := OutboxQueue.q (Outbox.queue (outbox s)).

(** [markFailed] when the queue has room, as it has right after a claim. *)
Lemma markFailed_room (o : Outbox.t Q) l item er item' o' :
  bf_repr (OutboxQueue.q (Outbox.queue o)) l ->
  (length l < bf_limit (OutboxQueue.q (Outbox.queue o)))%nat ->
  Outbox.markFailed o item er = (item', o') ->
  bf_limit (OutboxQueue.q (Outbox.queue o')) = bf_limit (OutboxQueue.q (Outbox.queue o)) /\
  oi_dedupeKey item' = oi_dedupeKey item /\
  ((final item' /\ bf_repr (OutboxQueue.q (Outbox.queue o')) l) \/
   (oi_state item' = OPending /\ exists y, bf_repr (OutboxQueue.q (Outbox.queue o')) (l ++ [y]) /\
      oi_dedupeKey y = oi_dedupeKey item /\ oi_attempts y = oi_attempts item + 1 /\
      oi_attempts y < OUTBOX_MAX_ATTEMPTS)).
Proof.
  intros Hq Hroom. unfold Outbox.markFailed. simpl.
  destruct (Z.leb_spec OUTBOX_MAX_ATTEMPTS (1 + oi_attempts item)) as [Hle|Hlt].
  - intros [= <- <-]; simpl. split_and!; [done|done|]. left. split; [by right|done].
  - destruct (OutboxQueue.enqueue _ _) as [ok q'] eqn:E.
    apply (OutboxQueue.enqueue_spec _ l) in E as (Hq' & Hlim & _ & ->); [|done].
    rewrite bool_decide_true in Hq' by done.
    intros [= <- <-]; simpl. split_and!; [done|done|]. right. split; [done|].
    eexists. split_and!; [exact Hq'|done|simpl; lia|simpl; lia].
Qed.

Lemma process_one_spec s x l c1 c2 r s' :
  bf_repr (queue_of s) (x :: l) -> (length (x :: l) <= bf_limit (queue_of s))%nat ->
  process_one s c1 c2 = (r, s') ->
  bf_limit (queue_of s') = bf_limit (queue_of s) /\
  exists item, r = Some item /\ oi_dedupeKey item = oi_dedupeKey x /\
  ((final item /\ bf_repr (queue_of s') l) \/
   (oi_state item = OPending /\ exists y, bf_repr (queue_of s') (l ++ [y]) /\
      oi_dedupeKey y = oi_dedupeKey x /\ oi_attempts y = oi_attempts x + 1 /\
      oi_attempts y < OUTBOX_MAX_ATTEMPTS)).
Proof.
  intros Hq Hlen. unfold process_one, Outbox.claim, queue_of in *.
  destruct (OutboxQueue.dequeue (Outbox.queue (outbox s))) as [r0 q0] eqn:E.
  apply (OutboxQueue.dequeue_spec _ (x :: l)) in E as (-> & Hq0 & Hlim & _); [|done]. simpl in *.
  rewrite <-Hlim in *.
  destruct (deliver _ (world s)) as [answer w].
  destruct answer as [[]|]; simpl; [|destruct (Outbox.markFailed _ _ _) as [it o1] eqn:E..].
  - intros [= <- <-]. simpl. split; [done|]. eexists. split_and!; [done|done|].
    left. split; [by left|done].
  - apply (markFailed_room _ l) in E as (El & Ek & Hd); [|done|simpl in *; lia].
    intros [= <- <-]. split; [done|]. by exists it.
  - apply (markFailed_room _ l) in E as (El & Ek & Hd); [|done|simpl in *; lia].
    intros [= <- <-]. split; [done|]. by exists it.
Qed.

Lemma run_empty n clock s : bf_repr (queue_of s) [] -> fst (run n clock s) = [] /\ bf_repr (queue_of (snd (run n clock s))) [].
Proof.
  revert s. induction n as [|n IH]; intros s Hq; simpl; [done|].
  destruct (process_one s _ _) as [r s1] eqn:E. unfold process_one, Outbox.claim, queue_of in E, Hq.
  destruct (OutboxQueue.dequeue (Outbox.queue (outbox s))) as [r0 q0] eqn:E0.
  apply (OutboxQueue.dequeue_spec _ []) in E0 as (-> & Hq0 & _); [|done]. simpl in *.
  injection E as <- <-. match goal with |- context [run n clock ?s1] => specialize (IH s1 Hq0) end.
  by destruct (run n clock _).
Qed.

(** C36: the delivery loop terminates and loses nothing.  Left alone with [l] in the queue it
    empties it within the sum of the items' remaining attempts (five per fresh item),
    whatever the sink answers or throws; each item is completed exactly once, as delivered
    or as a dead letter. *)
Theorem worker_drains n clock s l :
  bf_repr (queue_of s) l -> (length l <= bf_limit (queue_of s))%nat ->
  Forall (fun x => 0 <= oi_attempts x < OUTBOX_MAX_ATTEMPTS) l -> (total_budget l <= n)%nat ->
  let '(completed, s') := run n clock s in
  bf_repr (queue_of s') [] /\ Forall final completed /\
  (oi_dedupeKey <$> completed) ≡ₚ (oi_dedupeKey <$> l).
Proof.
  revert s l. induction n as [|n IH]; intros s l Hq Hlen Ha Hb.
  - destruct l as [|x l]; [done|]. inversion_clear Ha. unfold total_budget, budget in Hb. simpl in Hb. lia.
  - destruct l as [|x l].
    { pose proof (run_empty (S n) clock s Hq) as He. destruct (run (S n) clock s) as [d s']. simpl in He.
      destruct He as [-> He]. done. }
    simpl. destruct (process_one s _ _) as [r s1] eqn:E.
    apply (process_one_spec _ x l) in E as (Hlim & item & -> & Hk & Hcase); [|done|done].
    inversion_clear Ha as [|? ? Hax Hal].
    unfold total_budget in Hb; simpl in Hb. fold (total_budget l) in Hb. unfold budget in Hb at 1.
    destruct Hcase as [[Hf Hq1]|(Hp & y & Hq1 & Hky & Hay & Hlt)].
    + specialize (IH s1 l Hq1). rewrite Hlim in IH. simpl in Hlen.
      destruct (run n clock s1) as [d s2]. destruct IH as (? & ? & Hperm); [lia|done|lia|].
      rewrite decide_False by (destruct Hf as [->| ->]; done).
      split_and!; [done|by constructor|]. rewrite !fmap_cons, Hk. by constructor.
    + specialize (IH s1 (l ++ [y]) Hq1). rewrite Hlim, length_app in IH. simpl in Hlen, IH.
      destruct (run n clock s1) as [d s2]. rewrite decide_True by done.
      destruct IH as (? & ? & Hperm).
      * lia.
      * apply Forall_app. split; [done|]. constructor; [lia|constructor].
      * unfold total_budget. rewrite sum_list_with_app. simpl. unfold budget at 2. fold (total_budget l). lia.
      * split_and!; [done|done|]. rewrite Hperm, fmap_app. simpl. rewrite Hky.
        by rewrite Permutation_app_comm.
Qed.

(** A sink that refuses every signal of a class, leaving [I] of the world intact: items of the
    class go round the queue with one more attempt each time, until they are dead letters. *)
Section Refusal.
Variable P : Signal -> Prop.
Variable I : W -> Prop.
Hypothesis refuses : forall item w, P (oi_signal item) -> I w ->
  exists w', deliver item w = (Some false, w') /\ I w'.

Lemma process_one_refused s x l c1 c2 r s' :
  bf_repr (queue_of s) (x :: l) -> P (oi_signal x) -> I (world s) ->
  process_one s c1 c2 = (r, s') ->
  I (world s') /\ Outbox.delivered (outbox s') = Outbox.delivered (outbox s) /\
  Outbox.delivered_keys (outbox s') = Outbox.delivered_keys (outbox s) /\
  exists item, r = Some item /\
    (oi_state item = OPending \/ oi_state item = ODeadLetter) /\
    exists l', bf_repr (queue_of s') l' /\ forall y, y ∈ l' -> y ∈ l \/ P (oi_signal y).
Proof.
  intros Hq Hx Hi. unfold process_one, Outbox.claim, queue_of in *.
  destruct (OutboxQueue.dequeue (Outbox.queue (outbox s))) as [r0 q0] eqn:E.
  apply (OutboxQueue.dequeue_spec _ (x :: l)) in E as (-> & Hq0 & Hlim & _); [|done]. simpl.
  match goal with |- context [deliver ?it ?w] => destruct (refuses it w Hx Hi) as (w' & Ed & Hi') end.
  rewrite Ed. unfold Outbox.markFailed. simpl.
  destruct (_ <=? _); simpl.
  { intros [= <- <-]; simpl. split_and!; try done. eexists. split_and!; [done|by right|]. exists l. split; [done|by left]. }
  destruct (OutboxQueue.enqueue _ _) as [ok q'] eqn:E.
  apply (OutboxQueue.enqueue_spec _ l) in E as (Hq' & _); [|done].
  intros [= <- <-]; simpl. split_and!; try done. eexists. split_and!; [done|by left|].
  eexists. split; [exact Hq'|]. intros y Hy. destruct ok; [|by left].
  apply elem_of_app in Hy as [Hy| ->%list_elem_of_singleton]; [by left|by right].
Qed.

(** Whatever the queue holds of the class, the worker completes it as dead letters only. *)
Lemma run_refused n clock s l :
  bf_repr (queue_of s) l -> Forall (fun x => P (oi_signal x)) l -> I (world s) ->
  let '(completed, s') := run n clock s in
  I (world s') /\ Forall (fun x => oi_state x = ODeadLetter) completed /\
  Outbox.delivered (outbox s') = Outbox.delivered (outbox s) /\
  Outbox.delivered_keys (outbox s') = Outbox.delivered_keys (outbox s).
Proof.
  revert s l. induction n as [|n IH]; intros s l Hq Hl Hi; simpl; [done|].
  destruct l as [|x l].
  - destruct (process_one s _ _) as [r s1] eqn:E. unfold process_one, Outbox.claim, queue_of in *.
    destruct (OutboxQueue.dequeue (Outbox.queue (outbox s))) as [r0 q0] eqn:E0.
    apply (OutboxQueue.dequeue_spec _ []) in E0 as (-> & Hq0 & _); [|done].
    injection E as <- <-.
    match goal with |- context [run n clock ?s1] => specialize (IH s1 [] Hq0) end.
    simpl in IH. destruct (run n clock _). by apply IH.
  - apply Forall_cons in Hl as [Hx Hl].
    destruct (process_one s _ _) as [r s1] eqn:E.
    apply (process_one_refused _ x l) in E as (Hi1 & Hd & Hk & item & -> & Hst & l' & Hq1 & Hl'); [|done..].
    specialize (IH s1 l' Hq1). destruct (run n clock s1) as [d s2].
    destruct IH as (? & ? & -> & ->); [|done|].
    { apply Forall_forall. intros y [Hy|Hy]%Hl'; [|done]. by eapply Forall_forall in Hl. }
    split_and!; [done| |done|done]. case_decide; [done|]. constructor; [|done]. naive_solver.
Qed.
End Refusal.

End S.
Arguments t : clear implicits.
End OutboxWorker.

(** A sink that always throws: the item becomes a dead letter at the fifth attempt. *)
Lemma worker_drains_witness :
  let s := {| OutboxWorker.outbox := snd (Outbox.publish (app_outbox 2) (demo_signal "p" SPrediction) 0);
              OutboxWorker.world := tt; OutboxWorker.processed := 0 |} in
  let '(completed, s') := OutboxWorker.run (fun _ w => (None, w)) 5 (fun _ => (1, 2)) s in
  BoundedQueue.repr (OutboxWorker.queue_of s') [] /\ length completed = 1%nat.
Proof.
  intros s.
  assert (BoundedQueue.repr (OutboxWorker.queue_of s)
            [(Outbox.new_item (demo_signal "p" SPrediction) 0) <| oi_id := 1 |>]) as Hq.
  { apply (BoundedQueue.bounded_insert_repr (BoundedQueue.make 2) []);
      [apply BoundedQueue.bounded_make_repr|simpl; lia]. }
  pose proof (OutboxWorker.worker_drains (fun _ w => (None, w)) 5 (fun _ => (1, 2)) s _ Hq) as H.
  destruct (OutboxWorker.run _ 5 _ s) as [completed s'].
  destruct H as (Hr & _ & Hp).
  - vm_compute. lia.
  - repeat constructor; vm_compute; discriminate.
  - vm_compute. lia.
  - split; [exact Hr|]. apply Permutation_length in Hp. by rewrite !length_fmap in Hp.
Defined.

(** * [OutboxLifecycle]

    The two maps are keyed by item id.  The clock is the argument [now]; the order in which
    the hash table enumerates expired leases is unspecified, here that of [map_to_list]. *)
Module OutboxLifecycle.
Section S.
Context {Q : Type} `{!BoundedFifo Q OutboxItem}.

(* @src include/delivery/outbox/outbox_lifecycle.hpp | struct OutboxLease { *)
Record OutboxLease := {
  le_id : Z;
  claimedAtMs : Z;
  deadlineMs : Z;
  workerId : string
}.

(* @src include/delivery/outbox/outbox_lifecycle.hpp:148-159 OutboxLifecycle *)
Record t := {
  outbox : Outbox.t Q;
  claim_timeout_ms : Z;
  leases : gmap Z OutboxLease;
  in_flight : gmap Z OutboxItem;
  publishes : Z;
  claims : Z;
  delivered : Z;
  failed : Z;
  recovered : Z;
  wakes : Z;
  last_wake_seen : Z
}.
#[export] Instance eta_t : Eta t := fun r =>
  {| outbox := outbox r; claim_timeout_ms := claim_timeout_ms r; leases := leases r;
     in_flight := in_flight r; publishes := publishes r; claims := claims r;
     delivered := delivered r; failed := failed r; recovered := recovered r; wakes := wakes r;
     last_wake_seen := last_wake_seen r |}.

(* @src include/delivery/outbox/outbox_lifecycle.hpp | explicit OutboxLifecycle( *)
Definition make (o : Outbox.t Q) (claimTimeoutMs : Z) : t := {|
  outbox := o; claim_timeout_ms := claimTimeoutMs; leases := ∅; in_flight := ∅;
  publishes := 0; claims := 0; delivered := 0; failed := 0; recovered := 0; wakes := 0;
  last_wake_seen := 0 |}.

(* @src include/delivery/outbox/outbox_lifecycle.hpp | void wake( *)
Definition wake (s : t) : t := s <| wakes ::= bump |>.

(** [waitForWake] when its wait ends. *)
(* @src include/delivery/outbox/outbox_lifecycle.hpp | bool waitForWake( *)
Definition waitForWake (s : t) : bool * t :=
  if last_wake_seen s <? wakes s then (true, s <| last_wake_seen := wakes s |>) else (false, s).

(* @src include/delivery/outbox/outbox_lifecycle.hpp | Result<std::uint64_t> publishSignal( *)
Definition publishSignal (s : t) (sig : Signal) (now : Z) : Result Z * t :=
  let '(r, o) := Outbox.publish (outbox s) sig now in
  let s := s <| outbox := o |> in
  (r, if is_ok r then (wake s) <| publishes ::= bump |> else s).

(* @src include/delivery/outbox/outbox_lifecycle.hpp | std::optional<OutboxItem> claimWithLease( *)
Definition claimWithLease (s : t) (worker : string) (nowClaim nowLease : Z) : option OutboxItem * t :=
  match Outbox.claim (outbox s) nowClaim with
  | (None, o) => (None, s <| outbox := o |>)
  | (Some item, o) =>
      let lease := {| le_id := oi_id item; claimedAtMs := nowLease;
                      deadlineMs := nowLease + claim_timeout_ms s; workerId := worker |} in
      let item := item <| oi_state := OInFlight |> in
      (Some item, s <| outbox := o |> <| leases ::= insert (oi_id item) lease |>
                    <| in_flight ::= insert (oi_id item) item |> <| claims ::= bump |>)
  end.

(** Dropping the lease, the end of both completions. *)
(* @src include/delivery/outbox/outbox_lifecycle.hpp:70-72 OutboxLifecycle::completeDelivered *)
Definition release (s : t) (id : Z) : t :=
  s <| leases ::= delete id |> <| in_flight ::= delete id |>.

(* @src include/delivery/outbox/outbox_lifecycle.hpp | void completeDelivered( *)
Definition completeDelivered (s : t) (item : OutboxItem) (now : Z) : OutboxItem * t :=
  let '(item', o) := Outbox.markDelivered (outbox s) item now in
  (item', (release (s <| outbox := o |>) (oi_id item)) <| delivered ::= bump |>).

(* @src include/delivery/outbox/outbox_lifecycle.hpp | void completeFailed( *)
Definition completeFailed (s : t) (item : OutboxItem) (error : string) : OutboxItem * t :=
  let '(item', o) := Outbox.markFailed (outbox s) item error in
  (item', (release (s <| outbox := o |>) (oi_id item)) <| failed ::= bump |>).

(** First critical section of [recoverExpiredLeases]: take the expired leases out. *)
(* @src include/delivery/outbox/outbox_lifecycle.hpp:93-95 OutboxLifecycle::recoverExpiredLeases *)
Definition expired_ids (s : t) (now : Z) : list Z :=
  (filter (fun p => deadlineMs p.2 < now) (map_to_list (leases s))).*1.

(* @src include/delivery/outbox/outbox_lifecycle.hpp:97-107 OutboxLifecycle::recoverExpiredLeases *)
Fixpoint take_expired (s : t) (ids : list Z) : list OutboxItem * t :=
  match ids with
  | [] => ([], s)
  | id :: ids =>
      match in_flight s !! id with
      | Some item =>
          let item := item <| oi_state := OPending |> <| oi_attempts ::= Z.add 1 |> in
          let '(items, s') := take_expired (s <| in_flight ::= delete id |> <| leases ::= delete id |>) ids in
          (item :: items, s')
      | None => take_expired (s <| leases ::= delete id |>) ids
      end
  end.

(** The loop over [to_requeue]. *)
(* @src include/delivery/outbox/outbox_lifecycle.hpp:109-121 OutboxLifecycle::recoverExpiredLeases *)
Definition requeue_expired (o : Outbox.t Q) (item : OutboxItem) (now : Z) : Outbox.t Q :=
  if OUTBOX_MAX_ATTEMPTS <=? oi_attempts item then
    let item := item <| oi_state := ODeadLetter |> in
    let '(item, o) := Outbox.markDelivered o item now in
    snd (Outbox.markFailed o item "lease expired max attempts")
  else snd (Outbox.markFailed o item "lease expired — requeued").

(* @src include/delivery/outbox/outbox_lifecycle.hpp | std::size_t recoverExpiredLeases( *)
Definition recoverExpiredLeases (s : t) (now : Z) : nat * t :=
  let '(items, s) := take_expired s (expired_ids s now) in
  let o := fold_left (fun o item => requeue_expired o item now) items (outbox s) in
  let s := s <| outbox := o |> <| recovered ::= fun c => u64 (c + Z.of_nat (length items)) |> in
  (length items, match items with [] => s | _ => wake s end).

(** Every lease has its payload, so that an expired one can be requeued. *)
Definition paired (s : t) : Prop := dom (leases s) = dom (in_flight s).

Lemma release_paired s id : paired s -> paired (release s id).
Proof. unfold paired, release. simpl. rewrite !dom_delete_L. by intros ->. Qed.

Lemma filter_keys_cons {B} (m : gmap Z B) id ids :
  filter (fun p => p.1 ∉ ids) (delete id m) = filter (fun p => p.1 ∉ id :: ids) m.
Proof.
  apply map_eq. intros i. apply option_eq. intros x.
  rewrite !map_lookup_filter_Some, lookup_delete_Some. simpl. rewrite not_elem_of_cons. naive_solver.
Qed.

Lemma take_expired_spec s ids items s' :
  paired s -> take_expired s ids = (items, s') ->
  paired s' /\ outbox s' = outbox s /\ recovered s' = recovered s /\
  leases s' = filter (fun p => p.1 ∉ ids) (leases s) /\
  in_flight s' = filter (fun p => p.1 ∉ ids) (in_flight s).
Proof.
  revert s items s'. induction ids as [|id ids IH]; intros s items s' Hp; simpl.
  - intros [= <- <-]. split_and!; try done; symmetry; apply map_filter_id; set_solver.
  - rewrite <-!filter_keys_cons. destruct (in_flight s !! id) as [item|] eqn:E.
    + destruct (take_expired _ ids) as [its s1] eqn:E1. intros [= <- <-].
      apply IH in E1; [done|by apply (release_paired s)].
    + intros H. rewrite (delete_id (in_flight s)) by done. apply IH in H; [done|].
      unfold paired in *. simpl. rewrite dom_delete_L, <-Hp.
      apply not_elem_of_dom in E. unfold paired in Hp. rewrite <-Hp in E. set_solver.
Qed.

Lemma elem_of_expired_ids s now id :
  id ∈ expired_ids s now <-> exists l, leases s !! id = Some l /\ deadlineMs l < now.
Proof.
  unfold expired_ids. rewrite list_elem_of_fmap. split.
  - intros ([i l] & -> & H). apply list_elem_of_filter in H as [? H].
    apply elem_of_map_to_list in H. by exists l.
  - intros (l & Hl & Hd). exists (id, l). split; [done|].
    apply list_elem_of_filter. split; [done|]. by apply elem_of_map_to_list.
Qed.

(** Remark: a lease sweep removes exactly the leases whose deadline has passed, keeps the others,
    and keeps every remaining lease paired with the item it protects. *)
Theorem recover_expired_exact s now :
  paired s ->
  let s' := snd (recoverExpiredLeases s now) in
  paired s' /\ (forall id, leases s' !! id =
    match leases s !! id with
    | Some l => if deadlineMs l <? now then None else Some l
    | None => None
    end).
Proof.
  intros Hp. unfold recoverExpiredLeases.
  destruct (take_expired s (expired_ids s now)) as [items s1] eqn:E.
  apply take_expired_spec in E as (Hp1 & _ & _ & El & _); [|done].
  assert (forall s2, leases s2 = leases s1 -> in_flight s2 = in_flight s1 -> paired s2 /\
    forall id, leases s2 !! id = match leases s !! id with
      | Some l => if deadlineMs l <? now then None else Some l | None => None end) as Hs2.
  { intros s2 E1 E2. split; [unfold paired in *; by rewrite E1, E2|]. intros id. rewrite E1, El.
    destruct (leases s !! id) as [l|] eqn:Hl; [|by apply map_lookup_filter_None_2; left].
    destruct (Z.ltb_spec (deadlineMs l) now).
    - apply map_lookup_filter_None_2. right. intros x ? Hx. apply Hx, elem_of_expired_ids. by exists l.
    - apply map_lookup_filter_Some_2; [done|]. simpl. rewrite elem_of_expired_ids.
      intros (l' & ? & ?). simplify_eq. lia. }
  destruct items; apply Hs2; done.
Qed.

(** Remark: what a lease expiry does to an item that was claimed [a] times before, a free queue slot
    assumed: the sweep itself and [markFailed] each count an attempt, so [a] grows by two;
    the fourth attempt is already the last, and an item that the sweep brings to five
    attempts is counted both as delivered and as a dead letter and blocks its key as
    delivered. *)
Theorem lease_expiry_outcome (o : Outbox.t Q) l item now :
  bf_repr (OutboxQueue.q (Outbox.queue o)) l ->
  (length l < bf_limit (OutboxQueue.q (Outbox.queue o)))%nat ->
  Z.of_nat (size (Outbox.delivered_keys o)) < Outbox.DELIVERED_MAX ->
  let swept := item <| oi_state := OPending |> <| oi_attempts ::= Z.add 1 |> in
  let o' := requeue_expired o swept now in
  if OUTBOX_MAX_ATTEMPTS <=? oi_attempts item + 1 then
    oi_dedupeKey item ∈ Outbox.delivered_keys o' /\
    Outbox.delivered o' = bump (Outbox.delivered o) /\
    Outbox.dead_letters o' = bump (Outbox.dead_letters o) /\
    Outbox.queue o' = Outbox.queue o
  else if OUTBOX_MAX_ATTEMPTS <=? oi_attempts item + 2 then
    Outbox.delivered_keys o' = Outbox.delivered_keys o /\
    Outbox.dead_letters o' = bump (Outbox.dead_letters o) /\
    Outbox.queue o' = Outbox.queue o
  else exists y, bf_repr (OutboxQueue.q (Outbox.queue o')) (l ++ [y]) /\
    oi_attempts y = oi_attempts item + 2 /\ oi_dedupeKey y = oi_dedupeKey item.
Proof.
  intros Hq Hroom Hsz. cbv zeta. unfold requeue_expired, Outbox.markFailed, Outbox.markDelivered. simpl.
  rewrite (Z.add_comm 1 (oi_attempts item)).
  destruct (Z.leb_spec OUTBOX_MAX_ATTEMPTS (oi_attempts item + 1)) as [H1|H1].
  - destruct (Z.leb_spec OUTBOX_MAX_ATTEMPTS (1 + (oi_attempts item + 1))); [|lia].
    simpl. rewrite (proj2 (Z.ltb_ge _ _)); [split_and!; [set_solver|done..]|].
    rewrite size_union_alt, size_singleton.
    pose proof (subseteq_size (Outbox.delivered_keys o ∖ {[oi_dedupeKey item]}) (Outbox.delivered_keys o)) as Hs.
    specialize (Hs ltac:(set_solver)). lia.
  - replace (1 + (oi_attempts item + 1)) with (oi_attempts item + 2) by lia.
    destruct (Z.leb_spec OUTBOX_MAX_ATTEMPTS (oi_attempts item + 2)) as [H2|H2]; [done|].
    destruct (OutboxQueue.enqueue _ _) as [ok q'] eqn:E.
    apply (OutboxQueue.enqueue_spec _ l) in E as (Hq' & _ & _ & ->); [|done].
    rewrite bool_decide_true in Hq' by done. simpl. eexists. split_and!; [exact Hq'|simpl; lia|done].
Qed.

End S.
Arguments t : clear implicits.
End OutboxLifecycle.

(** Two leases, one past its deadline. *)
Definition demo_lifecycle : OutboxLifecycle.t (BoundedQueue.t OutboxItem) :=
  let o := snd (Outbox.publish (app_outbox 4) (demo_signal "a" SPrediction) 0) in
  let o := snd (Outbox.publish o (demo_signal "b" SPrediction) 0) in
  let s := OutboxLifecycle.make o 10 in
  let s := snd (OutboxLifecycle.claimWithLease s "w1" 0 0) in
  snd (OutboxLifecycle.claimWithLease s "w2" 0 5).

Lemma recover_expired_exact_witness :
  OutboxLifecycle.paired demo_lifecycle /\
  OutboxLifecycle.leases (snd (OutboxLifecycle.recoverExpiredLeases demo_lifecycle 12)) !! 1 = None.
Proof.
  assert (OutboxLifecycle.paired demo_lifecycle) as Hp by (vm_compute; reflexivity).
  split; [exact Hp|].
  destruct (OutboxLifecycle.recover_expired_exact demo_lifecycle 12 Hp) as [_ H].
  rewrite H. vm_compute. reflexivity.
Defined.

Lemma lease_expiry_outcome_witness :
  let item := (Outbox.new_item (demo_signal "a" SPrediction) 0) <| oi_attempts := 4 |> in
  "a:0" ∈ Outbox.delivered_keys (OutboxLifecycle.requeue_expired (app_outbox 1)
    (item <| oi_state := OPending |> <| oi_attempts ::= Z.add 1 |>) 9).
Proof.
  intros item.
  pose proof (OutboxLifecycle.lease_expiry_outcome (app_outbox 1) [] item 9
    (BoundedQueue.bounded_make_repr 1) (le_n 1)) as H.
  apply H. vm_compute. reflexivity.
Defined.

(** * [DurableHandoff] *)
Module DurableHandoff.
Section S.
Context {Q : Type} `{!BoundedFifo Q OutboxItem}.

(* @src include/delivery/outbox/durable_handoff.hpp:46-51 DurableHandoff *)
Record t := {
  outbox : Outbox.t Q;
  pred_published : gset string;
  out_of_order : Z
}.
#[export] Instance eta_t : Eta t := fun r =>
  {| outbox := outbox r; pred_published := pred_published r; out_of_order := out_of_order r |}.

(* @src include/delivery/outbox/durable_handoff.hpp | Result<std::uint64_t> publishPrediction( *)
Definition publishPrediction (s : t) (sig : Signal) (now : Z) : Result Z * t :=
  let sig := sig <| sg_kind := SPrediction |> in
  let '(r, o) := Outbox.publish (outbox s) sig now in
  let s := s <| outbox := o |> in
  (r, if is_ok r then s <| pred_published ::= union {[ sg_predictionId sig ]} |> else s).

(* @src include/delivery/outbox/durable_handoff.hpp | Result<std::uint64_t> publishOutcome( *)
Definition publishOutcome (s : t) (sig : Signal) (now : Z) : Result Z * t :=
  let sig := sig <| sg_kind := SOutcome |> in
  let s := if decide (sg_predictionId sig ∈ pred_published s) then s
           else s <| out_of_order ::= bump |> in
  let '(r, o) := Outbox.publish (outbox s) sig now in
  (r, s <| outbox := o |>).

(* @src include/delivery/outbox/durable_handoff.hpp | bool hasPredictionPublished( *)
Definition hasPredictionPublished (s : t) (id : string) : bool :=
  bool_decide (id ∈ pred_published s).

End S.
Arguments t : clear implicits.
End DurableHandoff.
