(* ===== verification/Timing.v ===== *)
(** Clocks and latency accounting: [include/timing].

    Wall and monotonic clock readings are arguments of the operations that read them.  The
    exponential and the logarithm of the C library are parameters. *)
From S2P Require Import Prelude Float64 Types.

(** * Multiplier curve ([timestamp.hpp]) *)
Section Curve.
Context (exp log : double -> double).

(* @src include/timing/timestamp.hpp | double multiplierFromElapsed( *)
Definition multiplierFromElapsed (elapsedMs : Z) : double :=
  if elapsedMs <=? 0 then f1
  else
    let x := fdiv (ffloor (fmul (of_Z 100) (exp (fmul (flit 6 100000) (of_Z elapsedMs))))) (of_Z 100) in
    if flt x f1 then f1 else x.

(* @src include/timing/timestamp.hpp | elapsedFromMultiplier( *)
Definition elapsedFromMultiplier (multiplier : double) : Z :=
  if fle multiplier f1 then 0 else ftrunc (fdiv (log multiplier) (flit 6 100000)).

(** The multiplier of a running round is never below 1, whatever the library computes. *)
Lemma multiplierFromElapsed_ge_1 ms :
  is_nan (multiplierFromElapsed ms) = false -> fge (multiplierFromElapsed ms) f1 = true.
Proof.
  unfold multiplierFromElapsed. destruct (ms <=? 0); [done|].
  set (x := fdiv _ _). destruct (flt x f1) eqn:E; [done|]. intros Hn.
  unfold fge. by apply nlt_fle.
Qed.
End Curve.

(** * [LatencyTracker] *)
Module LatencyTracker.

(* @src include/timing/latency_tracker.hpp | enum class Stage : *)
Inductive Stage := Parse | State | Ipc | Queue | Prediction | SValidation | SOutbox | Total.

Definition stage_idx (s : Stage) : nat :=
  match s with
  | Parse => 0 | State => 1 | Ipc => 2 | Queue => 3 | Prediction => 4 | SValidation => 5
  | SOutbox => 6 | Total => 7
  end.

#[export] Instance Stage_eq_dec : EqDecision Stage.
Proof. solve_decision. Defined.

(** The four arrays, one cell per stage. *)
(* @src include/timing/latency_tracker.hpp:70-73 LatencyTracker *)
Record cell := { count : Z; sum : Z; max : Z; buckets : list Z }.
#[export] Instance eta_cell : Eta cell := fun r =>
  {| count := count r; sum := sum r; max := max r; buckets := buckets r |}.
Definition t : Type := Stage -> cell.

Definition NUM_BUCKETS : nat := 16.

(* @src include/timing/latency_tracker.hpp | void reset( *)
Definition empty : t := fun _ =>
  {| count := 0; sum := 0; max := 0; buckets := replicate NUM_BUCKETS 0 |}.

(* @src include/timing/latency_tracker.hpp | std::size_t bucketIndex( *)
Definition bucketIndex (us : Z) : nat :=
  if us <? 10 then 0 else if us <? 25 then 1 else if us <? 50 then 2 else if us <? 100 then 3
  else if us <? 200 then 4 else if us <? 500 then 5 else if us <? 1000 then 6
  else if us <? 2000 then 7 else if us <? 5000 then 8 else if us <? 10000 then 9
  else if us <? 25000 then 10 else if us <? 50000 then 11 else if us <? 100000 then 12
  else if us <? 250000 then 13 else if us <? 1000000 then 14 else 15.

(** The compare-exchange loop on the maximum stores [micros] unless a value at least as
    large is there. *)
(* @src include/timing/latency_tracker.hpp | void record( *)
Definition record (tr : t) (s : Stage) (micros : Z) : t := fun s' =>
  if decide (s' = s) then
    (tr s) <| count ::= bump |> <| sum ::= fun x => i64 (x + micros) |>
           <| max ::= fun cur => if cur <? micros then micros else cur |>
           <| buckets ::= alter bump (bucketIndex micros) |>
  else tr s'.

(* @src include/timing/latency_tracker.hpp | struct Stats { *)
Record Stats := { st_count : Z; st_sumUs : Z; st_maxUs : Z; st_avgUs : double }.

(* @src include/timing/latency_tracker.hpp | Stats stats( *)
Definition stats (tr : t) (s : Stage) : Stats := {|
  st_count := count (tr s); st_sumUs := sum (tr s); st_maxUs := max (tr s);
  st_avgUs := if 0 <? count (tr s) then fdiv (of_Z (sum (tr s))) (of_Z (count (tr s))) else f0 |}.

(** Several measurements, oldest first. *)
Definition record_all (tr : t) (h : list (Stage * Z)) : t :=
  fold_left (fun tr p => record tr p.1 p.2) h tr.

Lemma bucketIndex_lt us : (bucketIndex us < NUM_BUCKETS)%nat.
Proof. unfold bucketIndex, NUM_BUCKETS. repeat case_match; lia. Qed.

Definition at_stage (s : Stage) (h : list (Stage * Z)) : list Z :=
  omap (fun p => if decide (p.1 = s) then Some p.2 else None) h.

Lemma at_stage_snoc s h p :
  at_stage s (h ++ [p]) = at_stage s h ++ (if decide (p.1 = s) then [p.2] else []).
Proof. unfold at_stage. rewrite omap_app. simpl. by case_decide. Qed.

Lemma length_at_stage s h : (length (at_stage s h) <= length h)%nat.
Proof.
  induction h as [|p h IH] using rev_ind; [done|].
  rewrite at_stage_snoc, !length_app. case_decide; simpl; lia.
Qed.

(** A running maximum that starts at 0. *)
Lemma foldr_max_snoc l x :
  foldr Z.max 0 (l ++ [x]) = if foldr Z.max 0 l <? x then x else foldr Z.max 0 l.
Proof.
  assert (0 <= foldr Z.max 0 l) as Hl by (induction l; simpl; lia).
  assert (foldr Z.max 0 (l ++ [x]) = Z.max (foldr Z.max 0 l) x) as ->.
  { clear Hl. induction l as [|y l IH]; simpl; [lia|]. rewrite IH. lia. }
  destruct (Z.ltb_spec (foldr Z.max 0 l) x); lia.
Qed.

Lemma record_all_snoc tr h p : record_all tr (h ++ [p]) = record (record_all tr h) p.1 p.2.
Proof. unfold record_all. by rewrite fold_left_app. Qed.

(** Remark: after any history of fewer than 2^64 measurements, each stage's counter is the number
    of measurements of that stage, its maximum the largest of them (and 0), and bucket [i]
    counts exactly those whose duration falls in the [i]th interval. *)
Theorem latency_tracker_counts h s :
  Z.of_nat (length h) < 2 ^ 64 ->
  let c := record_all empty h s in
  count c = Z.of_nat (length (at_stage s h)) /\
  max c = foldr Z.max 0 (at_stage s h) /\
  forall i, (i < NUM_BUCKETS)%nat ->
    buckets c !! i = Some (Z.of_nat (length (filter (fun us => bucketIndex us = i) (at_stage s h)))).
Proof.
  induction h as [|[s' us] h IH] using rev_ind; intros Hlen.
  - split_and!; [done|done|]. intros i Hi. exact (lookup_replicate_2 NUM_BUCKETS 0 i Hi).
  - rewrite length_app in Hlen. simpl in Hlen.
    destruct IH as (Hc & Hm & Hb); [lia|].
    rewrite record_all_snoc, at_stage_snoc. unfold record. simpl.
    pose proof (length_at_stage s h) as Hle.
    destruct (decide (s = s')) as [->|Hne]; simpl.
    + rewrite decide_True by done. split_and!.
      * rewrite Hc, bump_small, length_app by lia. simpl. lia.
      * by rewrite foldr_max_snoc, Hm.
      * intros i Hi. rewrite filter_app, length_app. specialize (Hb i Hi).
        rewrite filter_cons. destruct (decide (bucketIndex us = i)) as [<-|Hni]; simpl.
        -- rewrite list_lookup_alter_eq, Hb. simpl. f_equal.
           assert (length (filter (fun us0 => bucketIndex us0 = bucketIndex us) (at_stage s' h)) <= length (at_stage s' h))%nat
             by apply length_filter.
           rewrite bump_small by lia. lia.
        -- rewrite list_lookup_alter_ne by done. rewrite Hb. f_equal. lia.
    + rewrite decide_False by congruence. rewrite app_nil_r. done.
Qed.

End LatencyTracker.

(** * [LatencyBudgetMonitor] *)
Module LatencyBudgetMonitor.
Import LatencyTracker.

(* @src include/timing/latency_budgets.hpp | struct BudgetCheck { *)
Record BudgetCheck := {
  bc_stage : Stage;
  budgetUs : Z;
  observedAvgUs : Z;
  observedMaxUs : Z;
  bc_ok : bool
}.

(* @src include/timing/latency_budgets.hpp:27-36 LatencyBudgetMonitor::evaluate *)
Definition check (tr : t) (s : Stage) (budget : Z) : BudgetCheck :=
  let st := stats tr s in {|
  bc_stage := s; budgetUs := budget; observedAvgUs := ftrunc (st_avgUs st);
  observedMaxUs := st_maxUs st;
  bc_ok := (st_count st =? 0) || fle (st_avgUs st) (of_Z budget) |}.

(* @src include/common/constants.hpp:36-36 BUDGET_PARSE_US *)
Definition BUDGET_PARSE_US : Z := 500.
(* @src include/common/constants.hpp:37-37 BUDGET_STATE_US *)
Definition BUDGET_STATE_US : Z := 100.
(* @src include/common/constants.hpp:38-38 BUDGET_IPC_US *)
Definition BUDGET_IPC_US : Z := 200.
(* @src include/common/constants.hpp:39-39 BUDGET_QUEUE_US *)
Definition BUDGET_QUEUE_US : Z := 50.
(* @src include/common/constants.hpp:40-40 BUDGET_PREDICTION_US *)
Definition BUDGET_PREDICTION_US : Z := 5000.
(* @src include/common/constants.hpp:41-41 BUDGET_VALIDATION_US *)
Definition BUDGET_VALIDATION_US : Z := 500.
(* @src include/common/constants.hpp:42-42 BUDGET_OUTBOX_US *)
Definition BUDGET_OUTBOX_US : Z := 1000.
(* @src include/common/constants.hpp:43-43 BUDGET_TOTAL_APP_US *)
Definition BUDGET_TOTAL_APP_US : Z := 10000.
(* @src include/common/constants.hpp:44-44 BUDGET_E2E_P95_US *)
Definition BUDGET_E2E_P95_US : Z := 60000.

(* @src include/timing/latency_budgets.hpp | std::vector<BudgetCheck> evaluate( *)
Definition evaluate (tr : t) : list BudgetCheck :=
  [check tr Parse BUDGET_PARSE_US; check tr State BUDGET_STATE_US; check tr Ipc BUDGET_IPC_US;
   check tr Queue BUDGET_QUEUE_US; check tr Prediction BUDGET_PREDICTION_US;
   check tr SValidation BUDGET_VALIDATION_US; check tr SOutbox BUDGET_OUTBOX_US;
   check tr Total BUDGET_TOTAL_APP_US].

(* @src include/timing/latency_budgets.hpp | bool allOk( *)
Definition allOk (tr : t) : bool := forallb bc_ok (evaluate tr).

(* @src include/timing/latency_budgets.hpp | std::string report( *)
Definition report (tr : t) : string :=
  String.concat "" ((fun c =>
    "stage=" +:+ to_string (Z.of_nat (stage_idx (bc_stage c))) +:+
    " budget_us=" +:+ to_string (budgetUs c) +:+
    " avg_us=" +:+ to_string (observedAvgUs c) +:+
    " max_us=" +:+ to_string (observedMaxUs c) +:+
    " ok=" +:+ (if bc_ok c then "1" else "0") +:+ String (Ascii.ascii_of_nat 10) "")
    <$> evaluate tr).

(** The monitor raises no alarm before anything was measured. *)
Example allOk_empty : allOk empty = true.
Proof. vm_compute. reflexivity. Qed.
End LatencyBudgetMonitor.

(** * [ClockOffset] *)
Module ClockOffset.
(* @src include/timing/clock_offset.hpp:52-56 ClockOffset *)
Record t := { offset_ms : Z; observations : Z; samples : list Z }.

Definition make : t := {| offset_ms := 0; observations := 0; samples := [] |}.

(** Insertion sort stands for [std::sort]: sorting integers has one result. *)
Fixpoint insert_sorted (x : Z) (l : list Z) : list Z :=
  match l with
  | [] => [x]
  | y :: l' => if x <=? y then x :: l else y :: insert_sorted x l'
  end.
Definition sort (l : list Z) : list Z := foldr insert_sorted [] l.

(* @src include/timing/clock_offset.hpp | authoritativeNowMs( *)
Definition authoritativeNowMs (c : t) (nowMs : Z) : Z := nowMs + offset_ms c.

(* @src include/timing/clock_offset.hpp | void observeServerTime( *)
Definition observeServerTime (c : t) (serverMs localReceiveMs nowMs : Z) : t :=
  let localReceiveMs := if localReceiveMs <=? 0 then nowMs else localReceiveMs in
  let sample := serverMs - localReceiveMs in
  let samples := push_window 64 (samples c) sample in
  let sorted := sort samples in
  let med := nth (length sorted / 2) sorted 0 in
  let next := ftrunc (fadd (fmul (flit 85 100) (of_Z (offset_ms c))) (fmul (flit 15 100) (of_Z med))) in
  {| offset_ms := next; observations := bump (observations c); samples := samples |}.

(* @src include/timing/clock_offset.hpp | skewAbsMs( *)
Definition skewAbsMs (c : t) : Z := Z.abs (offset_ms c).

(* @src include/timing/clock_offset.hpp | bool skewAlarm( *)
Definition skewAlarm (c : t) (thresholdMs : Z) : bool := thresholdMs <? skewAbsMs c.

Fixpoint observe_n (n : nat) (serverMs localMs : Z) (c : t) : t :=
  match n with O => c | S n => observe_n n serverMs localMs (observeServerTime c serverMs localMs 0) end.

Lemma sort_replicate n x : sort (replicate n x) = replicate n x.
Proof.
  induction n as [|n IH]; simpl; [done|]. rewrite IH. destruct n; simpl; [done|].
  by rewrite Z.leb_refl.
Qed.

Lemma push_window_replicate n (x : Z) : (n <= 64)%nat ->
  exists m, push_window 64 (replicate n x) x = replicate m x /\ (0 < m <= 64)%nat.
Proof.
  intros Hn. unfold push_window. change [x] with (replicate 1 x). rewrite <-replicate_add.
  unfold trim_front. rewrite length_replicate, drop_replicate.
  eexists. split; [done|]. lia.
Qed.

(** Remark: the average truncates toward zero, so a steady server offset of up to 6 ms is never
    learned: however often it is observed, the estimate stays 0. *)
Theorem small_offset_never_learned n serverMs localMs :
  0 < localMs -> -6 <= serverMs - localMs <= 6 ->
  offset_ms (observe_n n serverMs localMs make) = 0.
Proof.
  intros Hl Hd. set (d := serverMs - localMs) in *.
  assert (forall n c k, offset_ms c = 0 -> samples c = replicate k d -> (k <= 64)%nat ->
    offset_ms (observe_n n serverMs localMs c) = 0) as H; [|apply (H n make 0%nat); [done|done|lia]].
  clear n. intros n. induction n as [|n IH]; intros c k Ho Hs Hk; simpl; [done|].
  unfold observeServerTime. rewrite (proj2 (Z.leb_gt _ _)) by lia. fold d. rewrite Ho, Hs.
  destruct (push_window_replicate k d Hk) as (m & -> & Hm).
  apply (IH _ m); [|done|lia]. cbn [offset_ms].
  rewrite sort_replicate, length_replicate.
  assert (nth (m / 2) (replicate m d) 0 = d) as ->.
  { rewrite nth_lookup, lookup_replicate_2; [done|apply Nat.div_lt; lia]. }
  assert (d = -6 \/ d = -5 \/ d = -4 \/ d = -3 \/ d = -2 \/ d = -1 \/ d = 0 \/ d = 1 \/ d = 2 \/
    d = 3 \/ d = 4 \/ d = 5 \/ d = 6) as Hcases by lia.
  repeat destruct Hcases as [->|Hcases]; try rewrite Hcases; vm_compute; reflexivity.
Qed.
End ClockOffset.

(** * [Clock]: the average of every observation, with no median *)
Module Clock.

(** The state is the offset in milliseconds. *)
(* @src include/timing/clock.hpp | TimestampMs wallMs( *)
Definition wallMs (offsetMs localMs : Z) : Z := localMs + offsetMs.

(* @src include/timing/clock.hpp | void observeServerTime( *)
Definition observeServerTime (offsetMs serverMs localMs : Z) : Z :=
  ftrunc (fadd (fmul (flit 9 10) (of_Z offsetMs)) (fmul (flit 1 10) (of_Z (serverMs - localMs)))).

(** Remark: the average truncates toward zero, so a clock that starts without an offset never
    follows a server that is steadily up to 9 ms away. *)
Theorem clock_never_learns_small (l : list (Z * Z)) :
  (forall s t, (s, t) ∈ l -> -9 <= s - t <= 9) ->
  fold_left (fun o '(s, t) => observeServerTime o s t) l 0 = 0.
Proof.
  induction l as [|[s t] l IH]; intros H; [done|]. cbn [fold_left].
  assert (observeServerTime 0 s t = 0) as ->.
  { unfold observeServerTime. pose proof (H s t (list_elem_of_here _ _)) as Hd. remember (s - t) as d eqn:Ed.
    assert (In d (map (fun n => Z.of_nat n - 9) (List.seq 0 19))) as Hin.
    { apply in_map_iff. exists (Z.to_nat (d + 9)). split; [lia|]. apply in_seq. lia. }
    clear -Hin. simpl in Hin. repeat destruct Hin as [<-|Hin]; try done; vm_compute; reflexivity. }
  apply IH. intros s' t' Hin. apply H. by apply list_elem_of_further.
Qed.
End Clock.

Lemma clock_never_learns_small_witness :
  fold_left (fun o '(s, t) => Clock.observeServerTime o s t) [(1009, 1000); (2009, 2000)] 0 = 0.
Proof. apply Clock.clock_never_learns_small. intros s t H. set_unfold. naive_solver lia. Defined.

Lemma latency_tracker_counts_witness :
  LatencyTracker.count (LatencyTracker.record_all LatencyTracker.empty
    [(LatencyTracker.Parse, 12); (LatencyTracker.Ipc, 3)] LatencyTracker.Parse) = 1.
Proof.
  destruct (LatencyTracker.latency_tracker_counts
    [(LatencyTracker.Parse, 12); (LatencyTracker.Ipc, 3)] LatencyTracker.Parse) as [H _];
    [simpl; lia|exact H].
Defined.

Lemma small_offset_never_learned_witness :
  ClockOffset.offset_ms (ClockOffset.observe_n 200 1006 1000 ClockOffset.make) = 0.
Proof. apply ClockOffset.small_offset_never_learned; lia. Defined.
