(* ===== verification/Stats.v ===== *)
(** Statistics of the finished rounds: [CrashStatsAccumulator]
    ([include/ingestion/stats.hpp]) against declarative definitions of its counters. *)
From stdpp Require Import sorting.
From S2P Require Import Prelude Float64 Types.

(** A bucket of multipliers: [max] absent for the last one. *)
(* @src include/ingestion/stats.hpp | struct RangeBucket { *)
Record RangeBucket := {
  rb_key : string;
  rb_min : double;
  rb_max : option double;
  rb_count : Z;
  rb_pct : double
}.
#[export] Instance eta_RangeBucket : Eta RangeBucket := fun r =>
  {| rb_key := rb_key r; rb_min := rb_min r; rb_max := rb_max r; rb_count := rb_count r; rb_pct := rb_pct r |}.

Inductive StreakKind := SNone | SLow | SHigh.

#[export] Instance StreakKind_eq_dec : EqDecision StreakKind.
Proof. solve_decision. Defined.

(* @src include/ingestion/stats.hpp | struct StreakSnapshot { *)
Record StreakSnapshot := {
  currentKind : StreakKind;
  currentCount : Z;
  maxLow : Z;
  maxHigh : Z;
  threshold : double
}.
#[export] Instance eta_StreakSnapshot : Eta StreakSnapshot := fun r =>
  {| currentKind := currentKind r; currentCount := currentCount r; maxLow := maxLow r; maxHigh := maxHigh r;
     threshold := threshold r |}.

(* @src include/ingestion/stats.hpp | struct CrashStatsSnapshot { *)
Record CrashStatsSnapshot := {
  sn_count : Z;
  sn_average : option double;
  sn_median : option double;
  sn_highest : option double;
  sn_lowest : option double
}.

Definition bucket (key : string) (lo : double) (hi : option double) : RangeBucket :=
  {| rb_key := key; rb_min := lo; rb_max := hi; rb_count := 0; rb_pct := f0 |}.

(* @src include/ingestion/stats.hpp | inline std::vector<RangeBucket> defaultRangeDefs() *)
Definition defaultRangeDefs : list RangeBucket :=
  [ bucket "1-1.2" f1 (Some (flit 12 10)); bucket "1.2-1.5" (flit 12 10) (Some (flit 15 10));
    bucket "1.5-2" (flit 15 10) (Some (of_Z 2)); bucket "2-3" (of_Z 2) (Some (of_Z 3));
    bucket "3-5" (of_Z 3) (Some (of_Z 5)); bucket "5-10" (of_Z 5) (Some (of_Z 10));
    bucket "10-50" (of_Z 10) (Some (of_Z 50)); bucket "50+" (of_Z 50) None ].

Module CrashStatsAccumulator.

(* @src include/ingestion/stats.hpp:117-124 CrashStatsAccumulator *)
Record t := {
  values : list double;
  ranges : list RangeBucket;
  streak : StreakSnapshot;
  count : Z;
  sum : double;
  highest : option double;
  lowest : option double
}.
#[export] Instance eta_t : Eta t := fun r =>
  {| values := values r; ranges := ranges r; streak := streak r; count := count r; sum := sum r;
     highest := highest r; lowest := lowest r |}.

(* @src include/ingestion/stats.hpp | CrashStatsAccumulator() : ranges_ *)
Definition make : t := {|
  values := []; ranges := defaultRangeDefs;
  streak := {| currentKind := SNone; currentCount := 0; maxLow := 0; maxHigh := 0; threshold := HIGH_THRESHOLD |};
  count := 0; sum := f0; highest := None; lowest := None |}.

(** [multiplier >= b.min && (!b.max || multiplier < *b.max)] *)
(* @src include/ingestion/stats.hpp:64-64 CrashStatsAccumulator::addRound *)
Definition in_range (m : double) (b : RangeBucket) : bool :=
  fge m (rb_min b) && match rb_max b with None => true | Some hi => flt m hi end.

(** The first bucket that contains the multiplier is incremented. *)
(* @src include/ingestion/stats.hpp:63-68 CrashStatsAccumulator::addRound *)
Fixpoint count_range (m : double) (bs : list RangeBucket) : list RangeBucket :=
  match bs with
  | [] => []
  | b :: bs => if in_range m b then b <| rb_count ::= bump |> :: bs else b :: count_range m bs
  end.

(** [int] counters: they are only compared, and incremented by one per round. *)
(* @src include/ingestion/stats.hpp:70-78 CrashStatsAccumulator::addRound *)
Definition note_streak (m : double) (s : StreakSnapshot) : StreakSnapshot :=
  if flt m HIGH_THRESHOLD then
    let s := if decide (currentKind s = SLow) then s <| currentCount ::= fun n => n + 1 |>
             else s <| currentKind := SLow |> <| currentCount := 1 |> in
    s <| maxLow := Z.max (maxLow s) (currentCount s) |>
  else
    let s := if decide (currentKind s = SHigh) then s <| currentCount ::= fun n => n + 1 |>
             else s <| currentKind := SHigh |> <| currentCount := 1 |> in
    s <| maxHigh := Z.max (maxHigh s) (currentCount s) |>.

(* @src include/ingestion/stats.hpp | void addRound(double multiplier) *)
Definition addRound (a : t) (m : double) : t :=
  {| values := values a ++ [m];
     ranges := count_range m (ranges a);
     streak := note_streak m (streak a);
     count := bump (count a);
     sum := fadd (sum a) m;
     highest := match highest a with Some h => if fgt m h then Some m else Some h | None => Some m end;
     lowest := match lowest a with Some l => if flt m l then Some m else Some l | None => Some m end |}.

(** [std::sort] on doubles, which must not be NaN there. *)
Definition sort_doubles (l : list double) : list double := merge_sort (fun x y => Is_true (fle x y)) l.

(* @src include/ingestion/stats.hpp | CrashStatsSnapshot snapshot() const *)
Definition snapshot (a : t) : CrashStatsSnapshot :=
  if count a =? 0 then {| sn_count := 0; sn_average := None; sn_median := None; sn_highest := None; sn_lowest := None |}
  else {| sn_count := count a; sn_average := Some (fdiv (sum a) (of_Z (count a)));
          sn_median := sort_doubles (values a) !! (length (values a) / 2)%nat;
          sn_highest := highest a; sn_lowest := lowest a |}.

(* @src include/ingestion/stats.hpp | std::vector<RangeBucket> ranges() const *)
Definition percentages (a : t) : list RangeBucket :=
  (fun b => b <| rb_pct := if count a =? 0 then f0
                           else fdiv (fmul (of_Z 100) (of_Z (rb_count b))) (of_Z (count a)) |>) <$> ranges a.

Definition add_all (a : t) (h : list double) : t := fold_left addRound h a.

Lemma add_all_snoc a h m : add_all a (h ++ [m]) = addRound (add_all a h) m.
Proof. apply fold_left_app. Qed.

(** ** Streaks, declaratively *)

Definition class (m : double) : StreakKind := if flt m HIGH_THRESHOLD then SLow else SHigh.

(** The history ends with [n] rounds of kind [k]. *)
Definition ends_with (k : StreakKind) (h : list double) (n : nat) : Prop :=
  exists l1 l2, h = l1 ++ l2 /\ length l2 = n /\ Forall (fun m => class m = k) l2.

(** [n] consecutive rounds of the history are of kind [k]. *)
Definition contains_run (k : StreakKind) (h : list double) (n : nat) : Prop :=
  exists l1 l2 l3, h = l1 ++ l2 ++ l3 /\ length l2 = n /\ Forall (fun m => class m = k) l2.

Lemma ends_with_0 k h : ends_with k h 0.
Proof. exists h, []. by rewrite app_nil_r. Qed.

Lemma contains_run_0 k h : contains_run k h 0.
Proof. by exists [], [], h. Qed.

Lemma ends_with_snoc k h m n : ends_with k (h ++ [m]) (S n) <-> class m = k /\ ends_with k h n.
Proof.
  split.
  - intros (l1 & l2 & Heq & Hn & Hall). destruct l2 as [|x l2 _] using rev_ind; [done|].
    rewrite app_assoc in Heq. apply app_inj_tail in Heq as [-> <-].
    apply Forall_app in Hall as [Hall Hm]. rewrite length_app in Hn. simpl in Hn.
    split; [by inversion_clear Hm|]. exists l1, l2. split_and!; [done|lia|done].
  - intros (Hm & l1 & l2 & -> & Hn & Hall). exists l1, (l2 ++ [m]). rewrite app_assoc, length_app. simpl.
    split_and!; [done|lia|]. apply Forall_app. split; [done|]. by repeat constructor.
Qed.

Lemma contains_run_snoc k h m n :
  contains_run k (h ++ [m]) n <-> contains_run k h n \/ ends_with k (h ++ [m]) n.
Proof.
  split.
  - intros (l1 & l2 & l3 & Heq & Hn & Hall). destruct l3 as [|x l3 _] using rev_ind.
    + right. exists l1, l2. by rewrite Heq, app_nil_r.
    + left. rewrite !app_assoc in Heq. apply app_inj_tail in Heq as [-> _].
      exists l1, l2, l3. by rewrite app_assoc.
  - intros [(l1 & l2 & l3 & -> & Hn & Hall)|(l1 & l2 & Heq & Hn & Hall)].
    + exists l1, l2, (l3 ++ [m]). by rewrite <-!app_assoc.
    + exists l1, l2, []. by rewrite app_nil_r.
Qed.

(** The counters of [s] are those of the history [h]. *)
Definition streak_ok (h : list double) (s : StreakSnapshot) : Prop :=
  0 <= currentCount s /\ 0 <= maxLow s /\ 0 <= maxHigh s /\
  currentKind s = (match last h with Some m => class m | None => SNone end) /\
  (forall k n, k <> SNone ->
     ends_with k h n <-> Z.of_nat n <= if decide (currentKind s = k) then currentCount s else 0) /\
  (forall n, contains_run SLow h n <-> Z.of_nat n <= maxLow s) /\
  (forall n, contains_run SHigh h n <-> Z.of_nat n <= maxHigh s).

Lemma streak_ok_nil : streak_ok [] (streak make).
Proof.
  assert (forall k (n : nat), ends_with k [] n <-> Z.of_nat n <= 0) as He.
  { intros k n. split.
    - intros (l1 & l2 & Heq & <- & _). symmetry in Heq. apply app_nil in Heq as [_ ->]. done.
    - intros. replace n with 0%nat by lia. apply ends_with_0. }
  assert (forall k (n : nat), contains_run k [] n <-> Z.of_nat n <= 0) as Hr.
  { intros k n. split.
    - intros (l1 & l2 & l3 & Heq & <- & _). symmetry in Heq. apply app_nil in Heq as [_ Heq].
      apply app_nil in Heq as [-> _]. done.
    - intros. replace n with 0%nat by lia. apply contains_run_0. }
  split_and!; try done; simpl; intros; try apply Hr. rewrite He. by case_decide.
Qed.

(** One more round of kind [k]: its run grows by one, and the longest run with it. *)
Lemma run_grows h m k (c mx : Z) :
  class m = k -> 0 <= c -> 0 <= mx ->
  (forall n, ends_with k h n <-> Z.of_nat n <= c) -> (forall n, contains_run k h n <-> Z.of_nat n <= mx) ->
  (forall n, ends_with k (h ++ [m]) n <-> Z.of_nat n <= c + 1) /\
  (forall n, contains_run k (h ++ [m]) n <-> Z.of_nat n <= Z.max mx (c + 1)).
Proof.
  intros Hk Hc Hmx He Hr.
  assert (forall n, ends_with k (h ++ [m]) n <-> Z.of_nat n <= c + 1) as He'.
  { intros [|n]; [split; intros; [lia|apply ends_with_0]|]. rewrite ends_with_snoc, He. naive_solver lia. }
  split; [done|]. intros n. rewrite contains_run_snoc, Hr, He'. lia.
Qed.

(** The other kind: no run of it ends here, and its longest run stays. *)
Lemma run_other h m k (mx : Z) :
  class m <> k -> 0 <= mx -> (forall n, contains_run k h n <-> Z.of_nat n <= mx) ->
  (forall n, ends_with k (h ++ [m]) n <-> Z.of_nat n <= 0) /\
  (forall n, contains_run k (h ++ [m]) n <-> Z.of_nat n <= mx).
Proof.
  intros Hk Hmx Hr.
  assert (forall n, ends_with k (h ++ [m]) n <-> Z.of_nat n <= 0) as He.
  { intros [|n]; [split; intros; [lia|apply ends_with_0]|]. rewrite ends_with_snoc. naive_solver lia. }
  split; [done|]. intros n. rewrite contains_run_snoc, Hr, He. lia.
Qed.

Ltac streak_case HeL HeH Hr :=
  case_decide as Hd; split_and!; simpl;
  first [done | lia | rewrite last_snoc; simpl; congruence |
         intros [] n ?; [done|..]; rewrite ?HeL, ?HeH; repeat case_decide; simpl in *; first [done | congruence | lia] |
         intros n; rewrite Hr; simpl; repeat case_decide; first [done | lia] | idtac].

Lemma note_streak_ok h m s : streak_ok h s -> streak_ok (h ++ [m]) (note_streak m s).
Proof.
  intros (Hc & Hl & Hh & Hk & He & Hlow & Hhigh). unfold note_streak.
  destruct (flt m HIGH_THRESHOLD) eqn:Em.
  - assert (class m = SLow) as Hm by (unfold class; by rewrite Em).
    destruct (run_grows h m SLow (if decide (currentKind s = SLow) then currentCount s else 0) _ Hm
      ltac:(by case_decide) Hl (fun n => He SLow n ltac:(done)) Hlow) as [HeL HrL].
    destruct (run_other h m SHigh (maxHigh s) ltac:(by rewrite Hm) Hh Hhigh) as [HeH HrH].
    streak_case HeL HeH HrL.
  - assert (class m = SHigh) as Hm by (unfold class; by rewrite Em).
    destruct (run_grows h m SHigh (if decide (currentKind s = SHigh) then currentCount s else 0) _ Hm
      ltac:(by case_decide) Hh (fun n => He SHigh n ltac:(done)) Hhigh) as [HeH HrH].
    destruct (run_other h m SLow (maxLow s) ltac:(by rewrite Hm) Hl Hlow) as [HeL HrL].
    streak_case HeL HeH HrH.
Qed.

Lemma add_all_streak h : streak_ok h (streak (add_all make h)).
Proof.
  induction h as [|m h IH] using rev_ind; [apply streak_ok_nil|].
  rewrite add_all_snoc. by apply note_streak_ok.
Qed.

(** Remark: the streak counters, updated one round at a time, are those of the whole history: the
    current streak is the longest run of rounds of one kind (below the threshold 2.0 or not)
    that ends the history, and [maxLow] and [maxHigh] are the lengths of the longest runs of
    each kind anywhere in it. *)
Theorem streaks_reference (h : list double) :
  let s := streak (add_all make h) in
  currentKind s = (match last h with Some m => class m | None => SNone end) /\
  (forall n, currentKind s <> SNone -> ends_with (currentKind s) h n <-> Z.of_nat n <= currentCount s) /\
  (forall n, contains_run SLow h n <-> Z.of_nat n <= maxLow s) /\
  (forall n, contains_run SHigh h n <-> Z.of_nat n <= maxHigh s).
Proof.
  destruct (add_all_streak h) as (_ & _ & _ & Hk & He & Hl & Hh). split_and!; try done.
  intros n Hn. rewrite He by done. by rewrite decide_True.
Qed.

(** ** Buckets *)

(** The bucket [d] with the number of rounds of [h] in its range. *)
Definition tally (h : list double) (d : RangeBucket) : RangeBucket :=
  d <| rb_count := Z.of_nat (length (List.filter (fun m => in_range m d) h)) |>.

(** No multiplier is in two of the buckets. *)
Definition disjoint (ds : list RangeBucket) : Prop :=
  StronglySorted (fun d d' => forall m, in_range m d = true -> in_range m d' = false) ds.

Lemma filter_snoc {A} (f : A -> bool) l x :
  List.filter f (l ++ [x]) = List.filter f l ++ (if f x then [x] else []).
Proof. rewrite List.filter_app. simpl. by destruct (f x). Qed.

Lemma tally_out h m d : in_range m d = false -> tally (h ++ [m]) d = tally h d.
Proof. intros H. unfold tally. by rewrite filter_snoc, H, app_nil_r. Qed.

Lemma tally_in h m d :
  Z.of_nat (length h) < 2 ^ 64 - 1 -> in_range m d = true ->
  tally (h ++ [m]) d = (tally h d) <| rb_count ::= bump |>.
Proof.
  intros Hlen H. unfold tally. rewrite filter_snoc, H, length_app.
  unfold set_field; simpl. f_equal. symmetry.
  pose proof (List.filter_length_le (fun m => in_range m d) h). rewrite bump_small by lia. lia.
Qed.

Lemma count_range_tally h m ds :
  Z.of_nat (length h) < 2 ^ 64 - 1 -> disjoint ds ->
  count_range m (tally h <$> ds) = tally (h ++ [m]) <$> ds.
Proof.
  intros Hlen. induction 1 as [|d ds Hs IH Hd]; [done|]. rewrite !fmap_cons. cbn [count_range].
  change (in_range m (tally h d)) with (in_range m d). destruct (in_range m d) eqn:E.
  - rewrite tally_in by done. f_equal. apply list_fmap_ext. intros i d' Hi.
    rewrite tally_out; [done|]. apply list_elem_of_lookup_2 in Hi. rewrite Forall_forall in Hd. by apply (Hd d').
  - by rewrite tally_out, IH.
Qed.

Lemma in_range_next d d' hi m :
  rb_max d = Some hi -> fle hi (rb_min d') = true -> in_range m d = true -> in_range m d' = false.
Proof.
  unfold in_range. intros -> Hle [H1 H2]%andb_true_iff. apply andb_false_iff. left.
  change (fge m (rb_min d') = false). destruct (fge m (rb_min d')) eqn:E; [|done]. exfalso. forder.
Qed.

Lemma default_disjoint : disjoint defaultRangeDefs.
Proof.
  unfold disjoint, defaultRangeDefs.
  repeat (constructor; [|repeat (constructor; [intros m; eapply in_range_next; [reflexivity|vm_compute; reflexivity]|]);
                         constructor]).
  constructor.
Qed.

Lemma add_all_ranges h :
  Z.of_nat (length h) < 2 ^ 64 -> ranges (add_all make h) = tally h <$> defaultRangeDefs.
Proof.
  induction h as [|m h IH] using rev_ind; intros Hlen; [done|].
  rewrite length_app in Hlen; simpl in Hlen. rewrite add_all_snoc. cbn [addRound ranges].
  rewrite IH by lia. apply count_range_tally; [lia|apply default_disjoint].
Qed.

(** Each bucket ends where the next one begins, the last one is open. *)
Fixpoint linked (d : RangeBucket) (ds : list RangeBucket) : Prop :=
  match ds with
  | [] => rb_max d = None
  | d' :: ds => rb_max d = Some (rb_min d') /\ flt (rb_min d) (rb_min d') = true /\ linked d' ds
  end.

(** Every multiplier from the first bound on is in exactly one of linked buckets. *)
Lemma linked_cover m ds : forall d, linked d ds ->
  length (List.filter (in_range m) (d :: ds)) = if fge m (rb_min d) then 1%nat else 0%nat.
Proof.
  induction ds as [|d' ds IH]; intros d Hl.
  - simpl in *. unfold in_range. rewrite Hl, andb_true_r. by destruct (fge _ _).
  - destruct Hl as (Hm & Hlt & Hl). specialize (IH d' Hl). change (List.filter (in_range m) (d :: d' :: ds)) with
      (if in_range m d then d :: List.filter (in_range m) (d' :: ds) else List.filter (in_range m) (d' :: ds)).
    unfold in_range at 1. rewrite Hm.
    destruct (fge m (rb_min d')) eqn:E'.
    + assert (fge m (rb_min d) = true) as -> by forder. assert (flt m (rb_min d') = false) as -> by forder. exact IH.
    + destruct (fge m (rb_min d)) eqn:E; [|exact IH].
      assert (flt m (rb_min d') = true) as ->; [|cbn [andb length]; by rewrite IH].
      destruct (flt m (rb_min d')) eqn:E2; [done|]. exfalso. forder.
Qed.

Lemma default_linked : match defaultRangeDefs with [] => False | d :: ds => linked d ds end.
Proof. cbn. repeat split; vm_compute; reflexivity. Qed.

Lemma tally_total h ds :
  foldr (fun b n => rb_count b + n) 0 (tally h <$> ds) =
  foldr (fun m n => Z.of_nat (length (List.filter (in_range m) ds)) + n) 0 h.
Proof.
  induction h as [|m h IH].
  - induction ds as [|d ds IHd]; [done|]. rewrite fmap_cons. simpl in *. lia.
  - simpl. rewrite <-IH. clear IH. induction ds as [|d ds IHd]; [done|]. rewrite !fmap_cons. simpl in *.
    destruct (in_range m d); simpl length; lia.
Qed.

(** Remark: every round is counted in exactly one bucket: after any history shorter than 2^64, each
    bucket holds the number of rounds whose multiplier lies in its range, and the counts add
    up to the number of rounds with a multiplier of at least 1.0 (a NaN is in no bucket). *)
Theorem range_counts (h : list double) :
  Z.of_nat (length h) < 2 ^ 64 ->
  let bs := ranges (add_all make h) in
  bs = tally h <$> defaultRangeDefs /\
  foldr (fun b n => rb_count b + n) 0 bs = Z.of_nat (length (List.filter (fun m => fge m f1) h)).
Proof.
  intros Hlen bs. unfold bs. rewrite add_all_ranges by done. split; [done|]. rewrite tally_total.
  induction h as [|m h IH]; [done|]. cbn [foldr List.filter length] in Hlen |- *. rewrite IH by lia.
  assert (length (List.filter (in_range m) defaultRangeDefs) = if fge m f1 then 1%nat else 0%nat) as ->
    by apply (linked_cover m _ _ default_linked).
  destruct (fge m f1); simpl; lia.
Qed.
End CrashStatsAccumulator.

Lemma range_counts_witness :
  let bs := CrashStatsAccumulator.ranges (CrashStatsAccumulator.add_all CrashStatsAccumulator.make [of_Z 1; of_Z 2; of_Z 100; f0]) in
  foldr (fun b n => rb_count b + n) 0 bs = 3.
Proof.
  destruct (CrashStatsAccumulator.range_counts [of_Z 1; of_Z 2; of_Z 100; f0]) as [_ H]; [vm_compute; reflexivity|].
  etransitivity; [exact H|]. vm_compute. reflexivity.
Defined.
