(* ===== verification/Readiness.v ===== *)
(** Start-up readiness and the cache of recent rounds: [ReadinessBarrier] and
    [RecentRoundCache] ([include/observability]).  The barrier is modelled twice over the same
    methods: called by one thread, and as a step relation of concurrent callers whose reading of
    the stage, lock and handler are separate steps. *)
From S2P Require Import Prelude Float64 Types.

(** * [ReadinessBarrier] *)
Module ReadinessBarrier.

(* @src include/observability/readiness_barrier.hpp | enum class ReadinessStage : *)
Inductive ReadinessStage :=
| Booting | MinimalStateReady | PredictionStateReady | LiveN1Ready | FullHydrationReady.

#[export] Instance ReadinessStage_eq_dec : EqDecision ReadinessStage.
Proof. solve_decision. Defined.

(** [static_cast<int>(stage)] *)
Definition code (s : ReadinessStage) : Z :=
  match s with
  | Booting => 0 | MinimalStateReady => 1 | PredictionStateReady => 2 | LiveN1Ready => 3
  | FullHydrationReady => 4
  end.

(* @src include/observability/readiness_barrier.hpp | inline const char* toString( *)
Definition stage_name (s : ReadinessStage) : string :=
  match s with
  | Booting => "BOOTING" | MinimalStateReady => "MINIMAL_STATE_READY"
  | PredictionStateReady => "PREDICTION_STATE_READY" | LiveN1Ready => "LIVE_N1_READY"
  | FullHydrationReady => "FULL_HYDRATION_READY"
  end.

Section S.
Context {C : Type}.

(** A handler, with what it throws. *)
(* @src include/observability/readiness_barrier.hpp:40-40 ReadinessBarrier::DrainHandler *)
Definition Handler : Type := CrashEvent -> C -> option string * C.

(* @src include/observability/readiness_barrier.hpp:118-125 ReadinessBarrier *)
Record t := {
  hold_capacity : nat;
  stage : ReadinessStage;
  held : list CrashEvent;
  drain_handler : option Handler;
  dropped : Z
}.
#[export] Instance eta_t : Eta t := fun r =>
  {| hold_capacity := hold_capacity r; stage := stage r; held := held r; drain_handler := drain_handler r;
     dropped := dropped r |}.

(* @src include/observability/readiness_barrier.hpp | explicit ReadinessBarrier( *)
Definition make (holdCapacity : nat) : t :=
  {| hold_capacity := holdCapacity; stage := Booting; held := []; drain_handler := None; dropped := 0 |}.

(* @src include/observability/readiness_barrier.hpp | bool isLiveReady() const *)
Definition isLiveReady (b : t) : bool := code LiveN1Ready <=? code (stage b).

(** The handler may be empty. *)
(* @src include/observability/readiness_barrier.hpp | void setDrainHandler( *)
Definition setDrainHandler (b : t) (h : option Handler) : t := b <| drain_handler := h |>.

(** Handing over events in their order; an exception ends it. *)
(* @src include/observability/readiness_barrier.hpp:113-115 ReadinessBarrier::drainHeld *)
Fixpoint hand_over (h : Handler) (l : list CrashEvent) (c : C) : option string * C :=
  match l with
  | [] => (None, c)
  | ev :: l => match h ev c with (None, c) => hand_over h l c | (Some e, c) => (Some e, c) end
  end.

(** What happens under the lock. *)
(* @src include/observability/readiness_barrier.hpp:107-112 ReadinessBarrier::drainHeld *)
Definition take_held (b : t) : list CrashEvent * option Handler * t := (held b, drain_handler b, b <| held := [] |>).

(** The held events are taken under the lock and handed over after it. *)
(* @src include/observability/readiness_barrier.hpp | void drainHeld() *)
Definition drainHeld (b : t) (c : C) : option string * (t * C) :=
  let '(batch, handler, b) := take_held b in
  let '(e, c) := match handler with Some h => hand_over h batch c | None => (None, c) end in (e, (b, c)).

(** An exception of the handler, or the answer. *)
(* @src include/observability/readiness_barrier.hpp | bool advanceTo( *)
Definition advanceTo (b : t) (target : ReadinessStage) (c : C) : (string + bool) * (t * C) :=
  if code (stage b) <? code target then
    let b := b <| stage := target |> in
    if code LiveN1Ready <=? code target then
      match drainHeld b c with (None, bc) => (inr true, bc) | (Some e, bc) => (inl e, bc) end
    else (inr true, (b, c))
  else (inr false, (b, c)).

(** The critical section of [admit]: the oldest held event makes room.  With a capacity of 0 the
    source pops from an empty queue, which is undefined. *)
(* @src include/observability/readiness_barrier.hpp:75-80 ReadinessBarrier::admit *)
Definition hold (b : t) (ev : CrashEvent) : t :=
  let b := if (hold_capacity b <=? length (held b))%nat
           then b <| held ::= tail |> <| dropped ::= bump |> else b in
  b <| held ::= fun l => l ++ [ev] |>.

(* @src include/observability/readiness_barrier.hpp | bool admit( *)
Definition admit_event (b : t) (ev : CrashEvent) (handler : option Handler) (c : C) : (string + bool) * (t * C) :=
  if isLiveReady b then
    match handler with
    | Some h => match h ev c with (None, c) => (inr true, (b, c)) | (Some e, c) => (inl e, (b, c)) end
    | None => (inr true, (b, c))
    end
  else (inr false, (hold b ev, c)).

(** ** One thread at a time *)

Inductive op := Admit (ev : CrashEvent) | Advance (s : ReadinessStage).

(** A handler that does not throw. *)
Definition quiet (h : CrashEvent -> C -> C) : Handler := fun ev c => (None, h ev c).

Lemma hand_over_quiet h l : forall c, hand_over (quiet h) l c = (None, fold_left (fun c ev => h ev c) l c).
Proof. induction l as [|ev l IH]; intros c; [done|]. apply IH. Qed.

Definition exec (h : CrashEvent -> C -> C) (bc : t * C) (o : op) : t * C :=
  match o with
  | Admit ev => snd (admit_event bc.1 ev (Some (quiet h)) bc.2)
  | Advance s => snd (advanceTo bc.1 s bc.2)
  end.

(** The events admitted before and after the barrier went live. *)
Fixpoint split_live (live : bool) (ops : list op) : list CrashEvent * list CrashEvent :=
  match ops with
  | [] => ([], [])
  | Admit ev :: ops => let '(b, a) := split_live live ops in if live then (b, ev :: a) else (ev :: b, a)
  | Advance s :: ops => split_live (live || (code LiveN1Ready <=? code s)) ops
  end.

Definition goes_live (ops : list op) : bool :=
  existsb (fun o => match o with Advance s => code LiveN1Ready <=? code s | Admit _ => false end) ops.

Lemma hold_window b ev l :
  (0 < hold_capacity b)%nat -> held b = trim_front (hold_capacity b) l ->
  held (hold b ev) = trim_front (hold_capacity b) (l ++ [ev]) /\ hold_capacity (hold b ev) = hold_capacity b /\
  stage (hold b ev) = stage b /\ drain_handler (hold b ev) = drain_handler b.
Proof.
  intros Hpos Hl. unfold hold.
  assert (length (held b) <= hold_capacity b)%nat as Hle by (rewrite Hl, length_trim_front; lia).
  rewrite <-push_window_trim, <-Hl. unfold push_window.
  destruct (Nat.leb_spec (hold_capacity b) (length (held b))) as [H|H]; simpl; split_and!; try done.
  - unfold trim_front. rewrite length_app; simpl.
    replace (length (held b) + 1 - hold_capacity b)%nat with 1%nat by lia. destruct (held b); [simpl in *; lia|done].
  - rewrite trim_front_fits; [done|]. rewrite length_app; simpl. lia.
Qed.

(** The run from a barrier that is not live and has received the events [l]. *)
Lemma run_held (h : CrashEvent -> C -> C) ops : forall b c l,
  (0 < hold_capacity b)%nat -> drain_handler b = Some (quiet h) -> isLiveReady b = false ->
  held b = trim_front (hold_capacity b) l ->
  let '(b', c') := fold_left (exec h) ops (b, c) in
  let '(before, after) := split_live false ops in
  if goes_live ops then
    held b' = [] /\ isLiveReady b' = true /\
    c' = fold_left (fun c ev => h ev c) (trim_front (hold_capacity b) (l ++ before) ++ after) c
  else held b' = trim_front (hold_capacity b) (l ++ before) /\ isLiveReady b' = false /\ c' = c /\ after = [].
Proof.
  assert (forall ops b c, isLiveReady b = true -> held b = [] ->
    let '(b', c') := fold_left (exec h) ops (b, c) in
    held b' = [] /\ isLiveReady b' = true /\
    fst (split_live true ops) = [] /\ c' = fold_left (fun c ev => h ev c) (snd (split_live true ops)) c) as Hlive.
  { intros ops'. induction ops' as [|[ev|s] ops' IH]; intros b c Hr Hh; [done|..]; cbn [fold_left exec].
    - unfold admit_event. simpl. rewrite Hr. simpl. specialize (IH b (h ev c) Hr Hh).
      destruct (fold_left _ _ _) as [b' c']. destruct (split_live true ops') as [x y]. simpl in *. naive_solver.
    - assert (exists b1, snd (advanceTo b s c) = (b1, c) /\ isLiveReady b1 = true /\ held b1 = []) as (b1 & E & Hr1 & Hh1).
      { unfold advanceTo, isLiveReady in *. destruct (Z.ltb_spec (code (stage b)) (code s)); simpl; [|by eauto].
        apply Z.leb_le in Hr. cbn [code] in Hr. rewrite (proj2 (Z.leb_le _ _)) by lia. unfold drainHeld, take_held. simpl. rewrite Hh.
        eexists. split; [by destruct (drain_handler b)|]. simpl. split; [|done]. apply Z.leb_le. lia. }
      cbn [fst snd] in *. rewrite E. exact (IH b1 c Hr1 Hh1). }
  induction ops as [|[ev|s] ops IH]; intros b c l Hpos Hd Hr Hl; cbn [fold_left exec split_live goes_live existsb].
  - by rewrite app_nil_r.
  - unfold admit_event. cbn [fst snd]. rewrite Hr. cbn [snd orb].
    destruct (hold_window b ev l Hpos Hl) as (Hh & Hc & Hs & Hd').
    specialize (IH (hold b ev) c (l ++ [ev]) ltac:(by rewrite Hc) ltac:(by rewrite Hd')
      ltac:(unfold isLiveReady; rewrite Hs; exact Hr) ltac:(by rewrite Hc)).
    fold (goes_live ops). rewrite Hc in IH.
    destruct (fold_left _ _ _) as [b' c']. destruct (split_live false ops) as [x y].
    rewrite <-app_assoc in IH. exact IH.
  - unfold advanceTo. cbn [fst snd]. fold (goes_live ops). unfold isLiveReady in Hr. apply Z.leb_gt in Hr. cbn [code] in Hr.
    cbn [code]. destruct (Z.leb_spec 3 (code s)) as [Hge|Hlt]; cbn [orb].
    + rewrite (proj2 (Z.ltb_lt _ _)) by lia. cbn [snd]. unfold drainHeld, take_held. cbn [drain_handler held].
      specialize (Hlive ops (b <| stage := s |> <| held := [] |>) (fold_left (fun c ev => h ev c) (held b) c)
        (proj2 (Z.leb_le 3 (code s)) Hge) eq_refl).
      simpl. rewrite Hd. rewrite hand_over_quiet. simpl. destruct (fold_left (exec h) ops _) as [b' c']. destruct (split_live true ops) as [x y].
      simpl in Hlive. destruct Hlive as (? & ? & -> & ->). rewrite app_nil_r, fold_left_app, Hl. done.
    + destruct (Z.ltb_spec (code (stage b)) (code s)); cbn [snd].
      * set (b1 := b <| stage := s |>). assert (isLiveReady b1 = false) as Hr' by (apply Z.leb_gt; exact Hlt).
        exact (IH b1 c l Hpos Hd Hr' Hl).
      * apply IH; try done. unfold isLiveReady. apply Z.leb_gt. exact Hr.
Qed.

(** Remark: one call at a time, with a capacity and a handler that does not throw, the barrier loses
    nothing but what its capacity forces out: events admitted before it is live are held, the last
    [hold_capacity] of them, and handed over in order by the transition to LIVE_N1_READY; later
    ones are handed over at once, after them. *)
Theorem barrier_in_order (h : CrashEvent -> C -> C) (cap : nat) (ops : list op) (c : C) :
  (0 < cap)%nat ->
  let '(b', c') := fold_left (exec h) ops (setDrainHandler (make cap) (Some (quiet h)), c) in
  let '(before, after) := split_live false ops in
  if goes_live ops then
    held b' = [] /\ c' = fold_left (fun c ev => h ev c) (trim_front cap before ++ after) c
  else held b' = trim_front cap before /\ c' = c.
Proof.
  intros Hpos. pose proof (run_held h ops (setDrainHandler (make cap) (Some (quiet h))) c [] Hpos eq_refl eq_refl) as H.
  specialize (H ltac:(by rewrite trim_front_fits by (simpl; lia))).
  destruct (fold_left _ _ _) as [b' c']. destruct (split_live false ops) as [x y]. simpl in H.
  destruct (goes_live ops); naive_solver.
Qed.
End S.
Arguments t : clear implicits.

(** ** Concurrent calls

    [admit] reads the stage before it takes the lock: [waiting] are the events of callers that
    read a stage before LIVE_N1_READY and have not yet entered the critical section.
    [exchanging] counts the callers of [advanceTo] between their exchange and the lock of
    [drainHeld], and [batches] has what each of them took under the lock and has still to hand
    over.  The rest is the history: the events that were admitted, those that a handler got, in
    that order, those that a full buffer evicted, and those that no handler got, since there was
    none or since the handler threw at an earlier event of their batch.  [late] are the events
    that entered the buffer of a live barrier when no transition was under way. *)
Record conc := {
  bar : t (list CrashEvent);
  waiting : list CrashEvent;
  exchanging : nat;
  batches : list (list CrashEvent);
  admitted : list CrashEvent;
  log : list CrashEvent;
  evicted : list CrashEvent;
  unheard : list CrashEvent;
  late : list CrashEvent
}.
#[export] Instance eta_conc : Eta conc := fun r =>
  {| bar := bar r; waiting := waiting r; exchanging := exchanging r; batches := batches r; admitted := admitted r;
     log := log r; evicted := evicted r; unheard := unheard r; late := late r |}.

Definition log_event (ev : CrashEvent) (l : list CrashEvent) : list CrashEvent := l ++ [ev].

(** No transition of the live barrier is under way. *)
Definition open (s : conc) : bool := isLiveReady (bar s) && (exchanging s =? 0)%nat.

(* @src include/observability/readiness_barrier.hpp:53-117 ReadinessBarrier *)
Inductive step (s : conc) : conc -> Prop :=
| admit_live ev (handled : bool) :
    isLiveReady (bar s) = true ->
    step s (if handled then s <| admitted ::= log_event ev |> <| log ::= log_event ev |>
            else s <| admitted ::= log_event ev |> <| unheard ::= log_event ev |>)
| admit_check ev :
    isLiveReady (bar s) = false -> step s s <| admitted ::= log_event ev |> <| waiting ::= log_event ev |>
| admit_hold l1 ev l2 :
    waiting s = l1 ++ ev :: l2 ->
    step s s <| waiting := l1 ++ l2 |> <| bar ::= fun b => hold b ev |>
             <| evicted ::= fun l => l ++ if (hold_capacity (bar s) <=? length (held (bar s)))%nat then take 1 (held (bar s)) else [] |>
             <| late ::= if open s then log_event ev else fun l => l |>
| set_handler h :
    step s s <| bar ::= fun b => setDrainHandler b h |>
| advance target :
    code (stage (bar s)) < code target ->
    step s s <| bar ::= fun b => b <| stage := target |> |>
             <| exchanging ::= fun n => if code LiveN1Ready <=? code target then S n else n |>
| drain batch h b :
    (0 < exchanging s)%nat -> take_held (bar s) = (batch, Some h, b) ->
    step s s <| bar := b |> <| exchanging ::= pred |> <| batches ::= cons batch |>
| drain_unheard batch b :
    (0 < exchanging s)%nat -> take_held (bar s) = (batch, None, b) ->
    step s s <| bar := b |> <| exchanging ::= pred |> <| unheard ::= fun l => l ++ batch |>
| hand i ev l :
    batches s !! i = Some (ev :: l) -> step s s <| log ::= log_event ev |> <| batches ::= <[i := l]> |>
| throw i ev l :
    batches s !! i = Some (ev :: l) ->
    step s s <| log ::= log_event ev |> <| batches ::= <[i := []]> |> <| unheard ::= fun u => u ++ l |>.

Definition conc_init (cap : nat) : conc :=
  {| bar := make cap; waiting := []; exchanging := 0; batches := []; admitted := []; log := []; evicted := []; unheard := []; late := [] |}.

Definition accounted (cap : nat) (s : conc) : Prop :=
  hold_capacity (bar s) = cap /\
  admitted s ≡ₚ log s ++ held (bar s) ++ waiting s ++ concat (batches s) ++ evicted s ++ unheard s /\
  (length (held (bar s)) <= cap)%nat /\
  (evicted s <> [] -> cap < length (admitted s))%nat /\
  (open s = true -> held (bar s) ⊆+ late s).

Lemma concat_take {A} (ls : list (list A)) i x l l' : ls !! i = Some (x ++ l) -> l' ≡ₚ l -> x ++ concat (<[i := l']> ls) ≡ₚ concat ls.
Proof.
  intros Hi Hl. rewrite <-(take_drop_middle ls i _ Hi) at 2. rewrite insert_take_drop by (by eapply lookup_lt_Some).
  rewrite !concat_app. simpl. rewrite Hl. solve_Permutation.
Qed.

Lemma hold_spec (b : t (list CrashEvent)) ev : (0 < hold_capacity b)%nat -> (length (held b) <= hold_capacity b)%nat ->
  hold_capacity (hold b ev) = hold_capacity b /\ isLiveReady (hold b ev) = isLiveReady b /\
  (length (held (hold b ev)) <= hold_capacity b)%nat /\
  held (hold b ev) ++ (if (hold_capacity b <=? length (held b))%nat then take 1 (held b) else []) ≡ₚ held b ++ [ev].
Proof.
  intros Hpos Hle. unfold hold. destruct (Nat.leb_spec (hold_capacity b) (length (held b))) as [H|H]; simpl.
  - destruct (held b) as [|e l]; simpl in *; [lia|]. split_and!; [done|done|rewrite length_app; simpl; lia|].
    by rewrite Permutation_app_comm.
  - split_and!; [done|done|rewrite length_app; simpl; lia|]. by rewrite app_nil_r.
Qed.

Lemma step_accounted cap s s' : (0 < cap)%nat -> accounted cap s -> step s s' -> accounted cap s'.
Proof.
  intros Hpos (Hc & Hp & Hl & He & Ho) Hst. unfold open in *.
  destruct Hst as [ev [] Hr|ev Hr|l1 ev l2 Hw|h|target Ht|batch h b Hx Hb|batch b Hx Hb|i ev l Hi|i ev l Hi];
    unfold accounted, open, log_event; cbn -[hold isLiveReady take].
  - split_and!; [done| |done| |done]; [rewrite Hp; solve_Permutation|]. rewrite length_app. intros H. apply He in H. lia.
  - split_and!; [done| |done| |done]; [rewrite Hp; solve_Permutation|]. rewrite length_app. intros H. apply He in H. lia.
  - split_and!; [done| |done| |by rewrite Hr]; [rewrite Hp; solve_Permutation|]. rewrite length_app. intros H. apply He in H. lia.
  - destruct (hold_spec (bar s) ev) as (H1 & H2 & H3 & H5); [lia|lia|]. rewrite H1, H2. split_and!; [done| |lia| |].
    + rewrite Hp, Hw. trans (log s ++ (held (bar s) ++ [ev]) ++ (l1 ++ l2) ++ concat (batches s) ++ evicted s ++ unheard s);
        [solve_Permutation|]. rewrite <-H5. match goal with |- context [if ?b then ?x else ?y] => generalize (if b then x else y) end. intros out. solve_Permutation.
    + intros H. destruct (decide (evicted s = [])) as [E|E]; [|by apply He].
      destruct (Nat.leb_spec (hold_capacity (bar s)) (length (held (bar s)))); [|by rewrite E in H].
      apply Permutation_length in Hp. rewrite Hw, !length_app in Hp. simpl in Hp. lia.
    + intros H. rewrite H. specialize (Ho H). cbv beta iota. trans (held (bar s) ++ [ev]); [rewrite <-H5; by apply submseteq_inserts_r|by apply submseteq_app].
  - by split_and!.
  - split_and!; [done|done|done|done|]. unfold isLiveReady in *. cbn [stage]. change (code LiveN1Ready) with 3 in *.
    destruct (Z.leb_spec 3 (code target)) as [H1|H1]; [intros [_ H]%andb_true_iff; discriminate H|].
    cbn. rewrite (proj2 (Z.leb_gt _ _)) by lia. discriminate.
  - injection Hb as <- _ <-. cbn. split_and!; [done| |lia|done|intros; apply submseteq_nil_l]. rewrite Hp. solve_Permutation.
  - injection Hb as <- _ <-. cbn. split_and!; [done| |lia|done|intros; apply submseteq_nil_l]. rewrite Hp. solve_Permutation.
  - split_and!; [done| |done|done|done]. rewrite Hp, <-(concat_take (batches s) i [ev] l l Hi (reflexivity _)). solve_Permutation.
  - split_and!; [done| |done|done|done]. rewrite Hp.
    rewrite <-(concat_take (batches s) i (ev :: l) [] []); [|by rewrite app_nil_r|done]. solve_Permutation.
Qed.

(** C34: under every interleaving of callers, of a barrier with a capacity, each admitted event is in
    exactly one place: a handler got it once, it is held, its caller waits for the lock, a
    transition is handing it over, it was evicted, or no handler got it (the handler was empty, or
    threw at an earlier event of the same batch).  At most [cap] events are held and none is evicted
    before more than [cap] were admitted.  When the barrier is live and no transition is under way,
    the buffer has only late events: those whose caller had read the stage before the transition and
    took the lock after it.  Late events exist: see [late_admit_stranded]. *)
Theorem barrier_delivers (cap : nat) (s : conc) :
  (0 < cap)%nat -> rtc step (conc_init cap) s ->
  admitted s ≡ₚ log s ++ held (bar s) ++ waiting s ++ concat (batches s) ++ evicted s ++ unheard s /\
  (length (held (bar s)) <= cap)%nat /\
  ((length (admitted s) <= cap)%nat -> evicted s = []) /\
  (isLiveReady (bar s) = true -> exchanging s = 0%nat -> held (bar s) ⊆+ late s).
Proof.
  intros Hpos Hr. assert (accounted cap s) as (_ & Hp & Hl & He & Ho).
  { assert (accounted cap (conc_init cap)) as H0 by (split_and!; simpl; try done; lia). revert H0. generalize (conc_init cap), Hr. clear -Hpos.
    intros s0 Hr. induction Hr as [|s0 s1 s2 Hst _ IH]; [done|]. intros H. apply IH. by eapply step_accounted. }
  split_and!; [done|done| |].
  - intros H. destruct (evicted s); [done|]. exfalso. assert (cap < length (admitted s))%nat by (by apply He). lia.
  - intros H1 H2. apply Ho. unfold open. by rewrite H1, H2.
Qed.

(** No thread is inside a method, and the barrier has reached its last stage. *)
Definition settled (s : conc) : Prop :=
  waiting s = [] /\ exchanging s = 0%nat /\ stage (bar s) = FullHydrationReady.

Lemma settled_step s s' : settled s -> step s s' -> settled s' /\ held (bar s') = held (bar s).
Proof.
  intros (Hw & Hd & Hs) Hst. unfold settled, isLiveReady in *.
  destruct Hst as [ev [] Hr|ev Hr|l1 ev l2 He|h|target Ht|batch h b Hx Hb|batch b Hx Hb|i ev l Hi|i ev l Hi]; try done.
  - unfold isLiveReady in Hr. by rewrite Hs in Hr.
  - rewrite Hw in He. by destruct l1.
  - rewrite Hs in Ht. destruct target; simpl in Ht; lia.
  - lia.
  - lia.
Qed.

(** Remark: an event whose [admit] read the stage just before the barrier went live can enter the
    buffer after the last drain: it is then held forever and never handed over, in every
    continuation. *)
Theorem late_admit_stranded (cap : nat) (ev : CrashEvent) :
  exists s, rtc step (conc_init cap) s /\ late s = [ev] /\ log s = [] /\
    forall s', rtc step s s' -> held (bar s') = [ev].
Proof.
  set (s0 := conc_init cap).
  set (s1 := s0 <| admitted := [ev] |> <| waiting := [ev] |>).
  set (s2 := s1 <| bar ::= fun b => b <| stage := FullHydrationReady |> |> <| exchanging := 1%nat |>).
  set (s3 := s2 <| exchanging := 0%nat |>).
  set (s4 := s3 <| waiting := [] |> <| bar ::= fun b => hold b ev |> <| late := [ev] |>
                <| evicted := [] |>).
  exists s4. split; [|split; [done|split; [done|]]].
  - eapply rtc_l; [exact (admit_check s0 ev eq_refl)|]. match goal with |- rtc _ ?s _ => change s with s1 end.
    eapply rtc_l; [apply (advance s1 FullHydrationReady); simpl; lia|].
    match goal with |- rtc _ ?s _ => change s with s2 end.
    eapply rtc_l; [eapply (drain_unheard s2); [simpl; lia|reflexivity]|].
    match goal with |- rtc _ ?s _ => change s with s3 end.
    eapply rtc_l; [exact (admit_hold s3 [] ev [] eq_refl)|].
    match goal with |- rtc _ ?s _ => replace s with s4 end; [apply rtc_refl|].
    unfold s4, s3, s2, s1, s0; cbn. by destruct cap.
  - assert (settled s4 /\ held (bar s4) = [ev]) as [Hs Hh].
    { split; [|unfold s4, s3, s2, s1, s0; simpl; by destruct cap]. split_and!; [done..|].
      unfold s4; simpl. unfold hold. by case_match. }
    intros s' Hr. revert Hs Hh. generalize s4, Hr. clear. intros s Hr. induction Hr as [|s s1 s2 Hst _ IH]; [done|].
    intros Hs Hh. destruct (settled_step _ _ Hs Hst) as [Hs1 Hh1]. apply IH; [done|by rewrite Hh1].
Qed.
End ReadinessBarrier.

Lemma barrier_in_order_witness :
  let a := default_event <| gameId := "a" |> in
  let b := default_event <| gameId := "b" |> in
  let c := default_event <| gameId := "c" |> in
  let ops := [ReadinessBarrier.Admit a; ReadinessBarrier.Admit b; ReadinessBarrier.Advance ReadinessBarrier.LiveN1Ready;
              ReadinessBarrier.Admit c] in
  let h := fun ev l => l ++ [gameId ev] in
  snd (fold_left (ReadinessBarrier.exec h) ops
    (ReadinessBarrier.setDrainHandler (ReadinessBarrier.make 1) (Some (ReadinessBarrier.quiet h)), [])) = ["b"; "c"].
Proof.
  intros a b c ops h. pose proof (ReadinessBarrier.barrier_in_order h 1 ops [] ltac:(lia)) as H.
  destruct (fold_left _ _ _) as [bar l]. destruct H as [_ H]. exact H.
Defined.

#[local] Existing Instance ReadinessBarrier.eta_conc.

(** An event waits for the lock. *)
Lemma barrier_delivers_witness :
  let s := (ReadinessBarrier.conc_init 1) <| ReadinessBarrier.admitted := [default_event] |>
           <| ReadinessBarrier.waiting := [default_event] |> in
  rtc ReadinessBarrier.step (ReadinessBarrier.conc_init 1) s /\ ReadinessBarrier.evicted s = [].
Proof.
  intros s. assert (rtc ReadinessBarrier.step (ReadinessBarrier.conc_init 1) s) as Hr.
  { eapply rtc_l; [exact (ReadinessBarrier.admit_check (ReadinessBarrier.conc_init 1) default_event eq_refl)|apply rtc_refl]. }
  split; [exact Hr|]. destruct (ReadinessBarrier.barrier_delivers 1 s ltac:(lia) Hr) as (_ & _ & H & _). apply H. reflexivity.
Defined.

(** * [RecentRoundCache] *)
Module RecentRoundCache.

(* @src include/observability/recent_round_cache.hpp | struct CachedRound { *)
Record CachedRound := {
  ca_gameId : string;
  ca_multiplier : double;
  ca_endedAtMs : Z;
  ca_cachedAtMs : Z;
  ca_hash : string
}.
#[export] Instance eta_CachedRound : Eta CachedRound := fun r =>
  {| ca_gameId := ca_gameId r; ca_multiplier := ca_multiplier r; ca_endedAtMs := ca_endedAtMs r;
     ca_cachedAtMs := ca_cachedAtMs r; ca_hash := ca_hash r |}.

(** [map_] takes a game id to the position of its entry in [order_]; the position is used to
    move and to overwrite the entry, so the model keeps the keys. *)
(* @src include/observability/recent_round_cache.hpp:71-75 RecentRoundCache *)
Record t := { capacity : nat; order : list CachedRound; keys : gset string }.
#[export] Instance eta_t : Eta t := fun r => {| capacity := capacity r; order := order r; keys := keys r |}.

(* @src include/observability/recent_round_cache.hpp | explicit RecentRoundCache( *)
Definition make (capacity : nat) : t := {| capacity := capacity; order := []; keys := ∅ |}.

Definition others (k : string) (l : list CachedRound) : list CachedRound := filter (fun r => ca_gameId r <> k) l.
Definition entry (k : string) (l : list CachedRound) : option CachedRound :=
  List.find (fun r => bool_decide (ca_gameId r = k)) l.

(** [while (map_.size() > capacity_)]: the front leaves both containers. *)
(* @src include/observability/recent_round_cache.hpp:40-44 RecentRoundCache::put *)
Fixpoint evict (fuel : nat) (c : t) : t :=
  match fuel with
  | O => c
  | S fuel =>
      if (capacity c <? size (keys c))%nat then
        match order c with
        | oldest :: rest => evict fuel (c <| order := rest |> <| keys ::= fun s => s ∖ {[ ca_gameId oldest ]} |>)
        | [] => c
        end
      else c
  end.

(* @src include/observability/recent_round_cache.hpp | void put(CachedRound r) *)
Definition put (c : t) (r : CachedRound) (now : Z) : t :=
  let r := r <| ca_cachedAtMs ::= fun at_ms => or_now at_ms now |> in
  if decide (ca_gameId r ∈ keys c) then c <| order ::= fun l => others (ca_gameId r) l ++ [r] |>
  else
    let c := c <| order ::= fun l => l ++ [r] |> <| keys ::= union {[ ca_gameId r ]} |> in
    evict (length (order c)) c.

(* @src include/observability/recent_round_cache.hpp | std::optional<CachedRound> get( *)
Definition get (c : t) (k : string) : option CachedRound * t :=
  if decide (k ∈ keys c) then
    match entry k (order c) with
    | Some r => (Some r, c <| order ::= fun l => others k l ++ [r] |>)
    | None => (None, c)
    end
  else (None, c).

(* @src include/observability/recent_round_cache.hpp | bool contains( *)
Definition contains (c : t) (k : string) : bool := bool_decide (k ∈ keys c).

(* @src include/observability/recent_round_cache.hpp | std::size_t size() const *)
Definition size_of (c : t) : nat := size (keys c).

(* @src include/observability/recent_round_cache.hpp | void clear() *)
Definition clear (c : t) : t := c <| order := [] |> <| keys := ∅ |>.

(** ** The abstract cache: the entries by recency of use, the last [cap] of them *)

Inductive op := Put (r : CachedRound) (now : Z) | Get (k : string) | Contains (k : string) | Clear.
Inductive answer := Done | Found (r : option CachedRound) | Known (b : bool).

Definition spec_step (cap : nat) (l : list CachedRound) (o : op) : answer * list CachedRound :=
  match o with
  | Put r now =>
      let r := r <| ca_cachedAtMs ::= fun at_ms => or_now at_ms now |> in
      (Done, trim_front cap (others (ca_gameId r) l ++ [r]))
  | Get k =>
      match entry k l with
      | Some r => (Found (Some r), others k l ++ [r])
      | None => (Found None, l)
      end
  | Contains k => (Known (bool_decide (is_Some (entry k l))), l)
  | Clear => (Done, [])
  end.

Definition exec (c : t) (o : op) : answer * t :=
  match o with
  | Put r now => (Done, put c r now)
  | Get k => let '(r, c) := get c k in (Found r, c)
  | Contains k => (Known (contains c k), c)
  | Clear => (Done, clear c)
  end.

Fixpoint run {S} (f : S -> op -> answer * S) (s : S) (ops : list op) : list answer * S :=
  match ops with
  | [] => ([], s)
  | o :: ops => let '(a, s1) := f s o in let '(l, s2) := run f s1 ops in (a :: l, s2)
  end.

(** The cache [c] implements the abstract cache [l]. *)
Definition implements (c : t) (l : list CachedRound) : Prop :=
  order c = l /\ NoDup (ca_gameId <$> l) /\ keys c = list_to_set (ca_gameId <$> l) /\
  (length l <= capacity c)%nat.

Lemma entry_spec k l :
  match entry k l with
  | Some r => r ∈ l /\ ca_gameId r = k
  | None => k ∉ ca_gameId <$> l
  end.
Proof.
  unfold entry. destruct (List.find _ l) as [r|] eqn:E.
  - apply List.find_some in E as [Hin Hk]. split; [by apply list_elem_of_In|by apply bool_decide_eq_true_1 in Hk].
  - intros (r & -> & Hin)%list_elem_of_fmap.
    apply list_elem_of_In in Hin. pose proof (List.find_none _ _ E r Hin) as Hf. simpl in Hf. by apply bool_decide_eq_false_1 in Hf.
Qed.

Lemma keys_others k l : ca_gameId <$> others k l = filter (fun x => x <> k) (ca_gameId <$> l).
Proof.
  unfold others. induction l as [|r l IH]; [done|]. rewrite fmap_cons, !filter_cons.
  destruct (decide (ca_gameId r <> k)); rewrite ?fmap_cons, ?IH; done.
Qed.

Lemma others_absent k l : k ∉ ca_gameId <$> l -> others k l = l.
Proof.
  intros Hk. unfold others. induction l as [|r l IH]; [done|]. rewrite fmap_cons, not_elem_of_cons in Hk.
  rewrite filter_cons_True by naive_solver. by rewrite IH by apply Hk.
Qed.

Lemma length_others k l : NoDup (ca_gameId <$> l) -> k ∈ ca_gameId <$> l -> length l = S (length (others k l)).
Proof.
  unfold others. induction l as [|r l IH]; intros Hnd Hk; [by apply not_elem_of_nil in Hk|].
  rewrite fmap_cons in *. apply NoDup_cons in Hnd as [Hr Hnd].
  destruct (decide (ca_gameId r = k)) as [<-|Hne].
  - rewrite filter_cons_False by naive_solver. simpl. f_equal. fold (others (ca_gameId r) l). by rewrite others_absent.
  - rewrite filter_cons_True by done. simpl. f_equal. apply IH; [done|].
    apply elem_of_cons in Hk as [->|Hk]; [done|done].
Qed.

Lemma evict_implements fuel : forall c,
  NoDup (ca_gameId <$> order c) -> keys c = list_to_set (ca_gameId <$> order c) -> (length (order c) <= fuel)%nat ->
  implements (evict fuel c) (trim_front (capacity c) (order c)) /\ capacity (evict fuel c) = capacity c.
Proof.
  assert (forall c, NoDup (ca_gameId <$> order c) -> keys c = list_to_set (ca_gameId <$> order c) ->
    (length (order c) <= capacity c)%nat -> implements c (trim_front (capacity c) (order c))) as Hfit.
  { intros c Hnd Hk Hle. rewrite trim_front_fits by done. by split_and!. }
  induction fuel as [|fuel IH]; intros c Hnd Hk Hf; cbn [evict].
  - split; [|done]. apply Hfit; [done..|lia].
  - rewrite Hk, size_list_to_set, length_fmap by done.
    destruct (Nat.ltb_spec (capacity c) (length (order c))) as [Hlt|Hge]; [|split; [by apply Hfit|done]].
    destruct (order c) as [|x l] eqn:Eo; [simpl in *; lia|]. rewrite fmap_cons in *. apply NoDup_cons in Hnd as [Hx Hnd].
    set (c1 := c <| order := l |> <| keys ::= _ |>).
    destruct (IH c1) as [Hi Hc]; [done| |simpl in *; lia|].
    { simpl. rewrite Hk. apply set_eq. intros y. simpl.
      rewrite elem_of_difference, elem_of_union, !elem_of_list_to_set, !elem_of_singleton. naive_solver. }
    split; [|done]. unfold trim_front. simpl length in *.
    replace (S (length l) - capacity c)%nat with (S (length l - capacity c)) by lia. exact Hi.
Qed.

(** One operation: same answer, and the results are related again. *)
Lemma exec_spec c l o :
  implements c l ->
  let '(a, c') := exec c o in
  let '(a', l') := spec_step (capacity c) l o in
  a = a' /\ implements c' l' /\ capacity c' = capacity c.
Proof.
  intros (Ho & Hnd & Hk & Hlen).
  assert (forall k r, ca_gameId r = k -> k ∈ ca_gameId <$> l ->
    implements (c <| order ::= fun l => others k l ++ [r] |>) (others k l ++ [r])) as Hmove.
  { intros k r Hr Hin. split_and!; simpl.
    - by rewrite Ho.
    - rewrite fmap_app, keys_others. simpl. rewrite Hr. apply list.NoDup_app. split_and!; [by apply NoDup_filter| |apply NoDup_singleton].
      intros x Hx ->%list_elem_of_singleton. apply list_elem_of_filter in Hx as [Hx _]. done.
    - rewrite Hk, fmap_app, keys_others. simpl. rewrite Hr. apply set_eq. intros x.
      rewrite list_to_set_app_L, elem_of_union, !elem_of_list_to_set, list_elem_of_filter. simpl.
      rewrite list_elem_of_singleton. destruct (decide (x = k)); naive_solver.
    - rewrite length_app. simpl. pose proof (length_others k l Hnd Hin). lia. }
  destruct o as [r now|k|k|]; cbn [exec spec_step].
  - unfold put. generalize (r <| ca_cachedAtMs ::= fun at_ms => or_now at_ms now |>). intros r'. split; [done|].
    rewrite Hk. destruct (decide (ca_gameId r' ∈ _)) as [Hin|Hni]; rewrite elem_of_list_to_set in *.
    + assert (length (others (ca_gameId r') l ++ [r']) <= capacity c)%nat as Hle.
      { rewrite length_app. simpl. pose proof (length_others (ca_gameId r') l Hnd Hin). lia. }
      rewrite trim_front_fits by done. split; [|done]. by apply Hmove.
    + rewrite others_absent by done.
      set (c1 := c <| order ::= _ |> <| keys ::= _ |>).
      assert (order c1 = l ++ [r']) as Ho1 by (unfold c1; simpl; by rewrite Ho).
      assert (keys c1 = list_to_set (ca_gameId <$> order c1)) as Hk1.
      { rewrite Ho1, fmap_app, list_to_set_app_L. unfold c1. simpl. rewrite Hk. set_solver. }
      rewrite <- Ho1. apply (evict_implements (length (order c1)) c1); [|done|done].
      rewrite Ho1, fmap_app. apply list.NoDup_app. split_and!; [done| |apply NoDup_singleton].
      by intros x Hx ->%list_elem_of_singleton.
  - unfold get. rewrite Hk, Ho. pose proof (entry_spec k l) as He.
    destruct (decide (k ∈ _)) as [Hin|Hni]; rewrite elem_of_list_to_set in *; destruct (entry k l) as [r|]; simpl.
    + split_and!; [done|by apply Hmove; [apply He|]|done].
    + by destruct (He Hin).
    + destruct He as [Hr <-]. destruct Hni. by apply list_elem_of_fmap_2.
    + done.
  - unfold contains. rewrite Hk. split_and!; [|by split_and!|done]. f_equal. apply bool_decide_ext.
    rewrite elem_of_list_to_set. pose proof (entry_spec k l) as He. destruct (entry k l) as [r|]; split; intros H; try done.
    destruct He as [Hr <-]. by apply list_elem_of_fmap_2.
  - split_and!; [done|split_and!; [done|apply NoDup_nil_2|done|simpl; lia]|done].
Qed.

(** C35: the list and the map of the cache implement a least-recently-used cache: along every
    sequence of operations it answers like the abstract cache, whose contents are the
    [capacity] most recently used entries, and holds exactly these. *)
Theorem cache_refines_lru (cap : nat) (ops : list op) :
  let '(answers, c) := run exec (make cap) ops in
  let '(answers', l) := run (spec_step cap) [] ops in
  answers = answers' /\ order c = l /\ (size_of c <= cap)%nat.
Proof.
  assert (forall c l, implements c l -> capacity c = cap ->
    let '(answers, c') := run exec c ops in
    let '(answers', l') := run (spec_step cap) l ops in
    answers = answers' /\ implements c' l' /\ capacity c' = cap) as H.
  { induction ops as [|o ops IH]; intros c l Hi Hc; [done|]. simpl.
    pose proof (exec_spec c l o Hi) as He. rewrite Hc in He. destruct (exec c o) as [a c1].
    destruct (spec_step cap l o) as [a' l1]. destruct He as (-> & Hi1 & Hc1).
    specialize (IH c1 l1 Hi1 Hc1). destruct (run exec c1 ops) as [as1 c2]. destruct (run (spec_step cap) l1 ops) as [as2 l2].
    by destruct IH as (-> & ? & ?). }
  specialize (H (make cap) [] ltac:(split_and!; [done|apply NoDup_nil_2|done|simpl; lia]) eq_refl).
  destruct (run exec _ _) as [answers c]. destruct (run (spec_step cap) _ _) as [answers' l].
  destruct H as (-> & (Ho & Hnd & Hk & Hlen) & Hc). split_and!; [done|done|].
  unfold size_of. rewrite Hk, size_list_to_set, length_fmap by done. lia.
Qed.
End RecentRoundCache.
