(* ===== verification/Wire.v ===== *)
(** Byte-level protocols of [include/ingestion]: varints and protobuf fields, the BC.Game
    packet, Engine.IO control frames and WebSocket frames.

    A byte buffer is a [list Z] with elements in [0, 256).  Every read of the source at an
    index is a read that can fail here, so a decoder returns an option whose [None] would be
    a read outside the buffer; the theorems show that it does not happen. *)
From S2P Require Import Prelude Float64 Types Timing.

(** * Bytes and strings *)
Definition is_byte (b : Z) : Prop := 0 <= b < 256.

Definition byte_of_ascii (a : Ascii.ascii) : Z := Z.of_N (Ascii.N_of_ascii a).
Definition ascii_of_byte (b : Z) : Ascii.ascii := Ascii.ascii_of_N (Z.to_N b).

Definition string_of_bytes (l : list Z) : string := String.string_of_list_ascii (map ascii_of_byte l).
Definition bytes_of_string (s : string) : list Z := map byte_of_ascii (String.list_ascii_of_string s).

Lemma byte_of_ascii_range a : is_byte (byte_of_ascii a).
Proof. unfold is_byte, byte_of_ascii. pose proof (Ascii.N_ascii_bounded a). lia. Qed.

Lemma ascii_of_byte_of_ascii a : ascii_of_byte (byte_of_ascii a) = a.
Proof. unfold ascii_of_byte, byte_of_ascii. by rewrite N2Z.id, Ascii.ascii_N_embedding. Qed.

Lemma byte_of_ascii_of_byte b : is_byte b -> byte_of_ascii (ascii_of_byte b) = b.
Proof.
  unfold is_byte, ascii_of_byte, byte_of_ascii. intros. rewrite Ascii.N_ascii_embedding; lia.
Qed.

Lemma bytes_of_string_range s : Forall is_byte (bytes_of_string s).
Proof.
  unfold bytes_of_string. apply Forall_forall. intros b Hb.
  apply list_elem_of_fmap in Hb as (a & -> & _). apply byte_of_ascii_range.
Qed.

Lemma string_of_bytes_of_string s : string_of_bytes (bytes_of_string s) = s.
Proof.
  unfold string_of_bytes, bytes_of_string. rewrite map_map.
  rewrite (map_ext _ (fun a => a)) by (intros; apply ascii_of_byte_of_ascii).
  rewrite map_id. apply String.string_of_list_ascii_of_string.
Qed.

Lemma bytes_of_string_of_bytes l : Forall is_byte l -> bytes_of_string (string_of_bytes l) = l.
Proof.
  intros Hl. unfold string_of_bytes, bytes_of_string. rewrite String.list_ascii_of_string_of_list_ascii, map_map.
  induction Hl as [|b l Hb _ IH]; simpl; [done|]. by rewrite byte_of_ascii_of_byte, IH.
Qed.

(** [buf + offset, n bytes]; [None] when the range leaves the buffer. *)
Definition slice (buf : list Z) (offset n : nat) : option (list Z) :=
  if (offset + n <=? length buf)%nat then Some (take n (drop offset buf)) else None.

Lemma slice_app pre l post : slice (pre ++ l ++ post) (length pre) (length l) = Some l.
Proof.
  unfold slice. rewrite !length_app. destruct (Nat.leb_spec (length pre + length l) (length pre + (length l + length post))); [|lia].
  by rewrite drop_app_length, take_app_length.
Qed.

Lemma lookup_app_cons {A} (pre : list A) x post : (pre ++ x :: post) !! length pre = Some x.
Proof. by apply list_lookup_middle. Qed.

(** * Varints *)

(** [while (offset < len && shift < 56)]: at most eight iterations, the fuel.  [None] is a read
    outside the buffer. *)
(* @src include/ingestion/socketio/socketio_protocol.hpp:89-99 readVarint *)
Fixpoint readVarint_loop (fuel : nat) (buf : list Z) (offset : nat) (shift value : Z) : option (bool * nat * Z) :=
  match fuel with
  | O => Some (false, offset, value)
  | S fuel =>
      if (offset <? length buf)%nat && (shift <? 56) then
        b ← buf !! offset;
        let value := Z.lor value (u64 (Z.shiftl (Z.land b 127) shift)) in
        if Z.land b 128 =? 0 then Some (true, S offset, value)
        else readVarint_loop fuel buf (S offset) (shift + 7) value
      else Some (false, offset, value)
  end.

(** Success, the offset after the call, the value. *)
(* @src include/ingestion/socketio/socketio_protocol.hpp | inline bool readVarint( *)
Definition readVarint (buf : list Z) (offset : nat) : option (bool * nat * Z) :=
  readVarint_loop 8 buf offset 0 0.

(** A 64-bit number has at most ten groups of seven bits, the fuel. *)
(* @src include/ingestion/socketio/socketio_protocol.hpp:102-106 writeVarint *)
Fixpoint writeVarint_loop (fuel : nat) (n : Z) : list Z :=
  match fuel with
  | O => []
  | S fuel =>
      if 127 <? n then u8 (Z.lor (Z.land n 127) 128) :: writeVarint_loop fuel (Z.shiftr n 7)
      else [u8 n]
  end.

(* @src include/ingestion/socketio/socketio_protocol.hpp | inline void writeVarint( *)
Definition writeVarint (n : Z) : list Z := writeVarint_loop 10 n.

Lemma land_127 n : Z.land n 127 = n mod 128.
Proof. exact (Z.land_ones n 7 ltac:(lia)). Qed.

Lemma land_128_low r : 0 <= r < 128 -> Z.land r 128 = 0.
Proof.
  intros Hr. apply Z.bits_inj_0. intros i. rewrite Z.land_spec. destruct (decide (i = 7)) as [->|Hi].
  - replace (Z.testbit r 7) with false; [done|]. symmetry. rewrite Z.testbit_false by lia.
    change (2 ^ 7) with 128. by rewrite (Z.div_small r 128).
  - change 128 with (2 ^ 7). rewrite Z.pow2_bits_false by lia. by rewrite andb_false_r.
Qed.

Lemma lor_add a b : Z.land a b = 0 -> Z.lor a b = a + b.
Proof. intros H. by rewrite <-Z.lxor_lor, Z.add_nocarry_lxor. Qed.

Lemma lor_128 r : 0 <= r < 128 -> Z.lor r 128 = r + 128.
Proof.
  intros Hr. apply lor_add. by apply land_128_low.
Qed.

(** The continuation byte written for [n]: its low seven bits and the flag. *)
Lemma group_byte n : 0 <= n -> u8 (Z.lor (Z.land n 127) 128) = n mod 128 + 128.
Proof.
  intros. rewrite land_127, lor_128 by (apply Z.mod_pos_bound; lia).
  unfold u8, wrapu. change (2 ^ 8) with 256. apply Z.mod_small.
  pose proof (Z.mod_pos_bound n 128). lia.
Qed.

Lemma group_low r : 0 <= r < 128 -> Z.land (r + 128) 127 = r /\ Z.land (r + 128) 128 <> 0.
Proof.
  intros Hr. split.
  - rewrite land_127. replace (r + 128) with (r + 1 * 128) by lia.
    rewrite Z.mod_add by lia. by apply Z.mod_small.
  - intros E. apply (f_equal (fun z => Z.testbit z 7)) in E.
    rewrite Z.land_spec, Z.bits_0 in E. change (Z.testbit 128 7) with true in E.
    rewrite andb_true_r in E. apply Z.testbit_false in E; [|lia].
    change (2 ^ 7) with 128 in E. replace (r + 128) with (r + 1 * 128) in E by lia.
    rewrite Z.div_add, Z.div_small in E by lia. done.
Qed.

Lemma last_group r : 0 <= r < 128 -> u8 r = r /\ Z.land r 127 = r /\ Z.land r 128 = 0.
Proof.
  intros Hr. split_and!.
  - unfold u8, wrapu. apply Z.mod_small. change (2 ^ 8) with 256. lia.
  - rewrite land_127. by apply Z.mod_small.
  - by apply land_128_low.
Qed.

(** [value |= group << shift] adds when the value is below the shifted group. *)
Lemma lor_shift_add v g s : 0 <= s -> 0 <= v < 2 ^ s -> 0 <= g -> Z.lor v (Z.shiftl g s) = v + g * 2 ^ s.
Proof.
  intros Hs Hv Hg. rewrite lor_add; [by rewrite Z.shiftl_mul_pow2 by lia|].
  apply Z.bits_inj_0. intros i. rewrite Z.land_spec. destruct (decide (i < s)) as [Hi|Hi].
  - destruct (decide (0 <= i)) as [H0|H0].
    + rewrite Z.shiftl_spec_low by done. by rewrite andb_false_r.
    + rewrite !Z.testbit_neg_r by lia. done.
  - destruct (decide (v = 0)) as [->|Hn]; [by rewrite Z.bits_0|].
    assert (Z.log2 v < s) by (apply Z.log2_lt_pow2; lia).
    by rewrite (Z.bits_above_log2 v) by lia.
Qed.

(** Decoding after encoding, from the middle of a number: [v] holds the [shift] low bits. *)
Lemma read_write_loop k n fuel rfuel pre post shift v :
  0 <= n < 2 ^ (7 * Z.of_nat k) -> (0 < k <= fuel)%nat -> (k <= rfuel)%nat ->
  0 <= shift -> shift + 7 * Z.of_nat k <= 56 -> 0 <= v < 2 ^ shift ->
  readVarint_loop rfuel (pre ++ writeVarint_loop fuel n ++ post) (length pre) shift v =
  Some (true, (length pre + length (writeVarint_loop fuel n))%nat, v + n * 2 ^ shift).
Proof.
  revert n fuel rfuel pre shift v.
  induction k as [|k IH]; intros n fuel rfuel pre shift v Hn Hf Hrf Hs Hs56 Hv; [lia|].
  destruct fuel as [|fuel]; [lia|]. destruct rfuel as [|rfuel]; [lia|]. simpl.
  assert (forall g, 0 <= g < 128 -> u64 (Z.shiftl g shift) = Z.shiftl g shift) as Hu.
  { intros g Hg. apply u64_small. rewrite Z.shiftl_mul_pow2 by lia.
    assert (2 ^ shift <= 2 ^ 49) by (apply Z.pow_le_mono_r; lia).
    assert (0 < 2 ^ shift) by (apply Z.pow_pos_nonneg; lia). nia. }
  assert (shift <? 56 = true) as Hsh by (apply Z.ltb_lt; lia).
  destruct (Z.ltb_spec 127 n) as [Hbig|Hsmall]; simpl.
  - rewrite (proj2 (Nat.ltb_lt _ _)) by (rewrite length_app; simpl; lia). rewrite Hsh. simpl.
    rewrite lookup_app_cons, group_byte by lia. cbn [mbind option_bind].
    pose proof (Z.mod_pos_bound n 128). destruct (group_low (n mod 128)) as [-> Hc]; [lia|].
    rewrite (proj2 (Z.eqb_neq _ _)) by done.
    replace (pre ++ (n mod 128 + 128) :: writeVarint_loop fuel (Z.shiftr n 7) ++ post)
      with ((pre ++ [n mod 128 + 128]) ++ writeVarint_loop fuel (Z.shiftr n 7) ++ post)
      by (by rewrite <-app_assoc).
    replace (S (length pre)) with (length (pre ++ [n mod 128 + 128])) by (rewrite length_app; simpl; lia).
    rewrite Hu, lor_shift_add by lia. rewrite Z.shiftr_div_pow2 by lia. change (2 ^ 7) with 128.
    pose proof (Z.div_mod n 128). assert (0 < 2 ^ shift) by (apply Z.pow_pos_nonneg; lia).
    destruct k as [|k]; [change (2 ^ (7 * Z.of_nat 1)) with 128 in Hn; lia|].
    rewrite IH.
    + rewrite length_app. simpl. f_equal. f_equal; [f_equal; lia|]. rewrite Z.pow_add_r by lia. nia.
    + split; [apply Z.div_pos; lia|]. apply Z.div_lt_upper_bound; [lia|].
      replace (7 * Z.of_nat (S (S k))) with (7 + 7 * Z.of_nat (S k)) in Hn by lia.
      rewrite Z.pow_add_r in Hn by lia. change (2 ^ 7) with 128 in Hn. lia.
    + lia.
    + lia.
    + lia.
    + lia.
    + rewrite Z.pow_add_r by lia. change (2 ^ 7) with 128. nia.
  - rewrite (proj2 (Nat.ltb_lt _ _)) by (rewrite length_app; simpl; lia). rewrite Hsh. simpl.
    rewrite lookup_app_cons. cbn [mbind option_bind]. destruct (last_group n) as (-> & -> & ->); [lia|].
    simpl. rewrite Hu, lor_shift_add by lia. f_equal. f_equal. f_equal. lia.
Qed.

(** Remark: a number below 2^56 written as a varint anywhere in a buffer is read back, and the
    reader stops right behind it. *)
Theorem varint_roundtrip n pre post :
  0 <= n < 2 ^ 56 ->
  readVarint (pre ++ writeVarint n ++ post) (length pre) =
    Some (true, (length pre + length (writeVarint n))%nat, n).
Proof.
  intros Hn. unfold readVarint, writeVarint.
  rewrite (read_write_loop 8) by (simpl; lia). by rewrite Z.mul_1_r.
Qed.

Lemma read_write_loop_long k n fuel pre post shift v :
  2 ^ (7 * Z.of_nat k) <= n -> (k < fuel)%nat -> shift + 7 * Z.of_nat k <= 56 ->
  exists off v', readVarint_loop k (pre ++ writeVarint_loop fuel n ++ post) (length pre) shift v = Some (false, off, v').
Proof.
  revert n fuel pre shift v. induction k as [|k IH]; intros n fuel pre shift v Hn Hf Hs; simpl; [by eauto|].
  destruct fuel as [|fuel]; [lia|]. cbn [writeVarint_loop].
  assert (2 ^ (7 * Z.of_nat (S k)) = 128 * 2 ^ (7 * Z.of_nat k)) as Epow.
  { replace (7 * Z.of_nat (S k)) with (7 + 7 * Z.of_nat k) by lia. by rewrite Z.pow_add_r by lia. }
  assert (1 <= 2 ^ (7 * Z.of_nat k)) by (apply (Z.pow_le_mono_r 2 0); lia).
  rewrite (proj2 (Z.ltb_lt 127 n)) by lia. simpl.
  rewrite (proj2 (Nat.ltb_lt _ _)) by (rewrite length_app; simpl; lia).
  rewrite (proj2 (Z.ltb_lt _ _)) by lia. simpl.
  rewrite lookup_app_cons, group_byte by lia. cbn [mbind option_bind].
  pose proof (Z.mod_pos_bound n 128). destruct (group_low (n mod 128)) as [-> Hc]; [lia|].
  rewrite (proj2 (Z.eqb_neq _ _)) by done.
  replace (pre ++ (n mod 128 + 128) :: writeVarint_loop fuel (Z.shiftr n 7) ++ post)
    with ((pre ++ [n mod 128 + 128]) ++ writeVarint_loop fuel (Z.shiftr n 7) ++ post)
    by (by rewrite <-app_assoc).
  replace (S (length pre)) with (length (pre ++ [n mod 128 + 128])) by (rewrite length_app; simpl; lia).
  apply IH; [|lia|lia]. rewrite Z.shiftr_div_pow2 by lia. change (2 ^ 7) with 128.
  apply Z.div_le_lower_bound; lia.
Qed.

(** Remark: a number of 2^56 or more is written in full but never read back: the reader gives up
    after eight groups. *)
Theorem varint_long_rejected n pre post :
  2 ^ 56 <= n < 2 ^ 64 ->
  exists off v, readVarint (pre ++ writeVarint n ++ post) (length pre) = Some (false, off, v).
Proof. intros Hn. apply (read_write_loop_long 8 n 10); simpl; lia. Qed.

(** A successful read moved forward and stayed inside the buffer. *)
Lemma readVarint_loop_offset fuel buf offset shift v off' v' :
  readVarint_loop fuel buf offset shift v = Some (true, off', v') ->
  (offset < off' <= length buf)%nat.
Proof.
  revert offset shift v. induction fuel as [|fuel IH]; intros offset shift v; simpl; [done|].
  destruct (Nat.ltb_spec offset (length buf)); simpl; [|done].
  destruct (shift <? 56); [|done].
  destruct (buf !! offset) as [b|]; simpl; [|done]. destruct (Z.land b 128 =? 0).
  - intros [= <- <-]. lia.
  - intros H1. apply IH in H1. lia.
Qed.

(** The bound is tested before each byte: no varint is read outside the buffer. *)
Lemma readVarint_loop_total fuel buf offset shift v : exists r, readVarint_loop fuel buf offset shift v = Some r.
Proof.
  revert offset shift v. induction fuel as [|fuel IH]; intros offset shift v; simpl; [by eexists|].
  destruct (Nat.ltb_spec offset (length buf)) as [Ho|_]; simpl; [|by eexists].
  destruct (shift <? 56); [|by eexists]. destruct (lookup_lt_is_Some_2 _ _ Ho) as [b ->]. simpl.
  destruct (Z.land b 128 =? 0); [by eexists|apply IH].
Qed.

Lemma readVarint_total buf offset : exists ok off v, readVarint buf offset = Some (ok, off, v).
Proof. destruct (readVarint_loop_total 8 buf offset 0 0) as [[[ok off] v] H]. by exists ok, off, v. Qed.

(** * Protobuf fields *)

(* @src include/ingestion/socketio/socketio_protocol.hpp:110-110 variant *)
Inductive field_value := FNum (n : Z) | FStr (s : string).

(** The loop of [decodeProtobuf].  Every iteration that continues moves the offset, so the
    length of the buffer bounds their number. *)
(* @src include/ingestion/socketio/socketio_protocol.hpp:113-131 decodeProtobuf *)
Fixpoint decodeProtobuf_loop (fuel : nat) (buf : list Z) (offset : nat) (fields : gmap Z field_value)
  : option (gmap Z field_value) :=
  match fuel with
  | O => None
  | S fuel =>
      if (offset <? length buf)%nat then
        match readVarint buf offset with
        | None => None
        | Some (false, _, _) => Some fields
        | Some (true, offset, tag) =>
            let field := i32 (Z.shiftr tag 3) in
            let wire := i32 (Z.land tag 7) in
            if wire =? 0 then
              match readVarint buf offset with
              | None => None
              | Some (false, _, _) => Some fields
              | Some (true, offset, value) =>
                  decodeProtobuf_loop fuel buf offset (<[field := FNum value]> fields)
              end
            else if wire =? 2 then
              match readVarint buf offset with
              | None => None
              | Some (false, _, _) => Some fields
              | Some (true, offset, size) =>
                  if Z.of_nat (length buf) <? u64 (Z.of_nat offset + size) then Some fields
                  else
                    s ← slice buf offset (Z.to_nat size);
                    decodeProtobuf_loop fuel buf (offset + Z.to_nat size)
                      (<[field := FStr (string_of_bytes s)]> fields)
              end
            else Some fields
        end
      else Some fields
  end.

(* @src include/ingestion/socketio/socketio_protocol.hpp | decodeProtobuf(const *)
Definition decodeProtobuf (buf : list Z) : option (gmap Z field_value) :=
  decodeProtobuf_loop (S (length buf)) buf 0 ∅.

(* @src include/ingestion/socketio/socketio_protocol.hpp:153-163 encodeProtobuf *)
Definition encode_field (p : Z * field_value) : list Z :=
  match p.2 with
  | FNum n => writeVarint (u64 (Z.lor (Z.shiftl p.1 3) 0)) ++ writeVarint n
  | FStr s => writeVarint (u64 (Z.lor (Z.shiftl p.1 3) 2)) ++
              writeVarint (Z.of_nat (String.length s)) ++ bytes_of_string s
  end.

(* @src include/ingestion/socketio/socketio_protocol.hpp | encodeProtobuf( *)
Definition encodeProtobuf (fields : list (Z * field_value)) : list Z := mjoin (encode_field <$> fields).

(** Values the encoder and the decoder agree on. *)
Definition field_ok (p : Z * field_value) : Prop :=
  0 <= p.1 < 2 ^ 28 /\
  match p.2 with FNum n => 0 <= n < 2 ^ 56 | FStr s => Z.of_nat (String.length s) < 2 ^ 56 end.

Lemma length_bytes_of_string s : length (bytes_of_string s) = String.length s.
Proof.
  unfold bytes_of_string. rewrite length_map. induction s; simpl; [done|]. by f_equal.
Qed.

Lemma field_tag field w :
  0 <= field < 2 ^ 28 -> (w = 0 \/ w = 2) ->
  let tag := u64 (Z.lor (Z.shiftl field 3) w) in
  0 <= tag < 2 ^ 56 /\ i32 (Z.shiftr tag 3) = field /\ i32 (Z.land tag 7) = w.
Proof.
  intros Hf Hw. assert (Z.lor (Z.shiftl field 3) w = field * 8 + w) as E.
  { rewrite Z.lor_comm, lor_shift_add by lia. lia. }
  cbv zeta. rewrite E, u64_small by lia. split_and!; [lia|lia|..].
  - rewrite Z.shiftr_div_pow2 by lia. change (2 ^ 3) with 8.
    rewrite Z.div_add_l, (Z.div_small w) by lia. rewrite i32_small; lia.
  - change 7 with (Z.ones 3). rewrite Z.land_ones by lia. change (2 ^ 3) with 8.
    rewrite Z.add_comm, Z.mod_add, Z.mod_small, i32_small; lia.
Qed.

Lemma writeVarint_nonempty n : (0 < length (writeVarint n))%nat.
Proof. unfold writeVarint. cbn [writeVarint_loop]. destruct (127 <? n); cbn [length]; lia. Qed.

Lemma decode_one_field fuel pre p post fields :
  field_ok p ->
  decodeProtobuf_loop (S fuel) (pre ++ encode_field p ++ post) (length pre) fields =
  decodeProtobuf_loop fuel (pre ++ encode_field p ++ post) (length pre + length (encode_field p))
    (<[p.1 := p.2]> fields).
Proof.
  destruct p as [f v]. intros [Hf Hv]. simpl in Hf, Hv. cbn [decodeProtobuf_loop].
  unfold encode_field. cbn [fst snd]. destruct v as [n|s].
  - destruct (field_tag f 0 Hf) as (Ht & E1 & E2); [by left|].
    set (tag := u64 (Z.lor (Z.shiftl f 3) 0)) in *.
    pose proof (writeVarint_nonempty tag).
    rewrite <-!app_assoc. rewrite (proj2 (Nat.ltb_lt _ _)) by (rewrite !length_app; lia).
    rewrite varint_roundtrip by done. rewrite E1, E2. simpl (0 =? 0).
    rewrite (app_assoc pre), <-length_app, varint_roundtrip by done. rewrite !length_app, <-!app_assoc.
    f_equal; lia.
  - destruct (field_tag f 2 Hf) as (Ht & E1 & E2); [by right|].
    set (tag := u64 (Z.lor (Z.shiftl f 3) 2)) in *.
    set (sz := Z.of_nat (String.length s)) in *.
    pose proof (writeVarint_nonempty tag).
    rewrite <-!app_assoc. rewrite (proj2 (Nat.ltb_lt _ _)) by (rewrite !length_app; lia).
    rewrite varint_roundtrip by done. rewrite E1, E2. simpl (2 =? 0). simpl (2 =? 2).
    rewrite (app_assoc pre), <-length_app, varint_roundtrip by (unfold sz in *; lia).
    set (pre' := (pre ++ writeVarint tag) ++ writeVarint sz).
    assert ((pre ++ writeVarint tag) ++ writeVarint sz ++ bytes_of_string s ++ post
            = pre' ++ bytes_of_string s ++ post) as -> by (unfold pre'; by rewrite <-!app_assoc).
    replace (length (pre ++ writeVarint tag) + length (writeVarint sz))%nat with (length pre')
      by (unfold pre'; rewrite (length_app (pre ++ _)); lia).
    rewrite (proj2 (Z.ltb_ge _ _)).
    + replace (Z.to_nat sz) with (length (bytes_of_string s)) by (rewrite length_bytes_of_string; unfold sz; lia).
      rewrite slice_app. simpl. rewrite string_of_bytes_of_string.
      unfold pre'. rewrite !length_app, <-!app_assoc. f_equal. lia.
    + rewrite !length_app, length_bytes_of_string. unfold u64, wrapu.
      apply Z.le_trans with (Z.of_nat (length pre') + sz); [apply Z.mod_le|]; unfold sz; lia.
Qed.

Lemma decode_fields fs : forall fuel pre fields,
  Forall field_ok fs -> (length fs < fuel)%nat ->
  decodeProtobuf_loop fuel (pre ++ encodeProtobuf fs) (length pre) fields =
  Some (fold_left (fun m p => <[p.1 := p.2]> m) fs fields).
Proof.
  induction fs as [|p fs IH]; intros fuel pre fields Hok Hf; (destruct fuel as [|fuel]; [simpl in Hf; lia|]).
  - unfold encodeProtobuf. simpl. rewrite app_nil_r.
    by rewrite (proj2 (Nat.ltb_ge _ _)) by lia.
  - inversion_clear Hok. change (encodeProtobuf (p :: fs)) with (encode_field p ++ encodeProtobuf fs).
    rewrite decode_one_field by done. rewrite app_assoc, <-length_app. apply IH; [done|simpl in Hf; lia].
Qed.

Lemma length_encodeProtobuf fs : (length fs <= length (encodeProtobuf fs))%nat.
Proof.
  induction fs as [|p fs IH]; [done|]. change (encodeProtobuf (p :: fs)) with (encode_field p ++ encodeProtobuf fs).
  rewrite length_app. simpl. assert (0 < length (encode_field p))%nat; [|lia].
  unfold encode_field. destruct (p.2); rewrite length_app;
    match goal with |- context [length (writeVarint ?t)] => pose proof (writeVarint_nonempty t) end; lia.
Qed.

(** Remark: decoding the protobuf encoding of a list of fields gives the map of those fields, a
    later field replacing an earlier one of the same number. *)
Theorem protobuf_roundtrip fs :
  Forall field_ok fs ->
  decodeProtobuf (encodeProtobuf fs) = Some (fold_left (fun m p => <[p.1 := p.2]> m) fs ∅).
Proof.
  intros Hok. unfold decodeProtobuf. pose proof (length_encodeProtobuf fs).
  apply (decode_fields fs (S (length (encodeProtobuf fs))) []); [done|lia].
Qed.

Lemma readVarint_loop_value k buf offset shift v off' v' :
  0 <= shift -> shift + 7 * Z.of_nat k <= 56 -> 0 <= v < 2 ^ shift ->
  readVarint_loop k buf offset shift v = Some (true, off', v') -> 0 <= v' < 2 ^ 56.
Proof.
  revert offset shift v. induction k as [|k IH]; intros offset shift v Hs Hs56 Hv; simpl; [done|].
  destruct (_ && _); [|done]. destruct (buf !! offset) as [b|]; simpl; [|done].
  set (g := Z.land b 127). assert (0 <= g < 128) as Hg.
  { unfold g. rewrite land_127. apply Z.mod_pos_bound. lia. }
  assert (2 ^ shift <= 2 ^ 49) by (apply Z.pow_le_mono_r; lia).
  rewrite (u64_small (Z.shiftl g shift)) by (rewrite Z.shiftl_mul_pow2 by lia; nia).
  rewrite lor_shift_add by lia.
  assert (0 <= v + g * 2 ^ shift < 2 ^ (shift + 7)) by (rewrite Z.pow_add_r by lia; change (2 ^ 7) with 128; nia).
  destruct (Z.land b 128 =? 0).
  - intros [= <- <-]. assert (2 ^ (shift + 7) <= 2 ^ 56) by (apply Z.pow_le_mono_r; lia). lia.
  - intros H1. eapply IH in H1; [done|lia|lia|lia].
Qed.

Lemma readVarint_ok buf offset off' v :
  readVarint buf offset = Some (true, off', v) -> (offset < off' <= length buf)%nat /\ 0 <= v < 2 ^ 56.
Proof.
  intros H. split; [by eapply readVarint_loop_offset|].
  eapply (readVarint_loop_value 8); [| | |exact H]; lia.
Qed.

(** Remark: decoding terminates on every buffer and never reads outside it. *)
Theorem decodeProtobuf_total buf :
  Z.of_nat (length buf) < 2 ^ 63 -> exists fields, decodeProtobuf buf = Some fields.
Proof.
  intros Hlen. unfold decodeProtobuf.
  assert (forall fuel offset fields, (length buf - offset < fuel)%nat ->
    exists fields', decodeProtobuf_loop fuel buf offset fields = Some fields') as H; [|apply H; lia].
  induction fuel as [|fuel IH]; intros offset fields Hf; [lia|]. cbn [decodeProtobuf_loop].
  destruct (Nat.ltb_spec offset (length buf)); [|by eexists].
  destruct (readVarint_total buf offset) as ([] & o1 & tag & E1); rewrite E1; [|by eexists].
  apply readVarint_ok in E1 as [Ho1 _].
  destruct (_ =? 0).
  - destruct (readVarint_total buf o1) as ([] & o2 & v & E2); rewrite E2; [|by eexists].
    apply readVarint_ok in E2 as [Ho2 _]. apply IH. lia.
  - destruct (_ =? 2); [|by eexists].
    destruct (readVarint_total buf o1) as ([] & o2 & v & E2); rewrite E2; [|by eexists].
    apply readVarint_ok in E2 as [Ho2 Hv].
    rewrite u64_small by lia. destruct (Z.ltb_spec (Z.of_nat (length buf)) (Z.of_nat o2 + v)); [by eexists|].
    unfold slice. rewrite (proj2 (Nat.leb_le _ _)) by lia. simpl. apply IH. lia.
Qed.

(** * BC.Game packets *)

(* @src include/ingestion/socketio/socketio_packet.hpp | enum class PacketKind : *)
Inductive PacketKind :=
| PkUnknown | PkConnect | PkDisconnect | PkEvent | PkAck | PkError | PkBinaryEvent | PkBinaryAck
| PkPing | PkPong | PkOpen | PkOther.

#[export] Instance PacketKind_eq_dec : EqDecision PacketKind.
Proof. solve_decision. Defined.

(* @src include/ingestion/socketio/socketio_packet.hpp | struct SocketIoPacket { *)
Record SocketIoPacket := {
  pk_kind : PacketKind;
  pk_nsp : string;
  pk_event : string;
  pk_payload : list Z;
  pk_sid : string;
  pk_pingInterval : Z;
  pk_pingTimeout : Z
}.
#[export] Instance eta_SocketIoPacket : Eta SocketIoPacket := fun r =>
  {| pk_kind := pk_kind r; pk_nsp := pk_nsp r; pk_event := pk_event r; pk_payload := pk_payload r;
     pk_sid := pk_sid r; pk_pingInterval := pk_pingInterval r;
     pk_pingTimeout := pk_pingTimeout r |}.

Definition empty_packet : SocketIoPacket := {|
  pk_kind := PkUnknown; pk_nsp := ""; pk_event := ""; pk_payload := []; pk_sid := "";
  pk_pingInterval := 0; pk_pingTimeout := 0 |}.

Definition len_byte (s : string) : Z := u8 (Z.of_nat (String.length s)).

(* @src include/ingestion/socketio/socketio_protocol.hpp | encodeConnect( *)
Definition encodeConnect (nsp : string) : list Z :=
  [4; 0; len_byte nsp] ++ bytes_of_string nsp ++ [0].

(* @src include/ingestion/socketio/socketio_protocol.hpp | encodeJoin( *)
Definition encodeJoin (nsp room : string) : list Z :=
  [4; 130; 0; 0; 0; 0; len_byte nsp] ++ bytes_of_string nsp ++ [len_byte room] ++ bytes_of_string room.

(* @src include/ingestion/socketio/socketio_protocol.hpp | encodeEvent( *)
Definition encodeEvent (nsp event : string) (payload : list Z) : list Z :=
  [4; 2; len_byte nsp] ++ bytes_of_string nsp ++ [len_byte event] ++ bytes_of_string event ++ payload.

(** From the namespace length on, with the packet type's low nibble [base]. *)
(* @src include/ingestion/socketio/socketio_protocol.hpp:69-82 parsePacket *)
Definition parse_body (buf : list Z) (base : Z) (offset : nat) : option SocketIoPacket :=
  let p := empty_packet in
  if (length buf <=? offset)%nat then Some p
  else
    nspLen ← buf !! offset;
    let nspLen := Z.to_nat nspLen in
    let offset := S offset in
    if (length buf <? offset + nspLen)%nat then Some p
    else
      nsp ← slice buf offset nspLen;
      let p := p <| pk_nsp := string_of_bytes nsp |> in
      let offset := (offset + nspLen)%nat in
      if base =? 0 then Some (p <| pk_kind := PkConnect |>)
      else if (length buf <=? offset)%nat then Some (p <| pk_kind := PkConnect |>)
      else
        evLen ← buf !! offset;
        let evLen := Z.to_nat evLen in
        let offset := S offset in
        if (length buf <? offset + evLen)%nat then Some p
        else
          event ← slice buf offset evLen;
          let offset := (offset + evLen)%nat in
          Some (p <| pk_event := string_of_bytes event |> <| pk_kind := PkEvent |>
                  <| pk_payload := if (offset <? length buf)%nat then drop offset buf else [] |>).

(* @src include/ingestion/socketio/socketio_protocol.hpp | parsePacket(const std::uint8_t* *)
Definition parsePacket (buf : list Z) : option SocketIoPacket :=
  match buf with
  | b0 :: type :: _ =>
      if b0 =? 4 then
        parse_body buf (Z.land type 15) (if Z.land type 128 =? 0 then 2 else 6)
      else Some empty_packet
  | _ => Some empty_packet
  end.

Lemma slice_le buf o n : (o + n <= length buf)%nat -> slice buf o n = Some (take n (drop o buf)).
Proof. intros. unfold slice. by rewrite (proj2 (Nat.leb_le _ _)). Qed.

(** Remark: the packet parser answers on every byte sequence without reading outside it. *)
Theorem parsePacket_total buf : exists p, parsePacket buf = Some p.
Proof.
  unfold parsePacket. destruct buf as [|b0 [|ty buf']]; [by eexists..|].
  destruct (b0 =? 4); [|by eexists]. set (buf := b0 :: ty :: buf'). unfold parse_body.
  set (o := if Z.land ty 128 =? 0 then 2%nat else 6%nat). clearbody o buf.
  destruct (Nat.leb_spec (length buf) o) as [|H1]; [by eexists|].
  destruct (lookup_lt_is_Some_2 buf o H1) as [n1 ->]. simpl.
  destruct (Nat.ltb_spec (length buf) (S (o + Z.to_nat n1))) as [|H2]; [by eexists|].
  rewrite slice_le by lia. simpl. destruct (_ =? 0); [by eexists|].
  destruct (Nat.leb_spec (length buf) (S (o + Z.to_nat n1))) as [|H3]; [by eexists|].
  destruct (lookup_lt_is_Some_2 buf _ H3) as [n2 ->]. simpl.
  destruct (Nat.ltb_spec (length buf) (S (S (o + Z.to_nat n1 + Z.to_nat n2)))) as [|H4]; [by eexists|].
  rewrite slice_le by lia. by eexists.
Qed.

Definition short (s : string) : Prop := (String.length s < 256)%nat.

Lemma len_byte_short s : short s -> Z.to_nat (len_byte s) = length (bytes_of_string s).
Proof.
  intros Hs. unfold short in Hs. unfold len_byte, u8, wrapu. rewrite length_bytes_of_string.
  rewrite Z.mod_small; lia.
Qed.

(** A length-prefixed string in the middle of a buffer. *)
Lemma parse_body_event pre nsp event payload base :
  short nsp -> short event -> base <> 0 ->
  parse_body (pre ++ [len_byte nsp] ++ bytes_of_string nsp ++ [len_byte event] ++
              bytes_of_string event ++ payload) base (length pre) =
  Some (empty_packet <| pk_nsp := nsp |> <| pk_event := event |> <| pk_kind := PkEvent |>
                     <| pk_payload := payload |>).
Proof.
  intros Hn He Hb. unfold parse_body. simpl.
  set (buf := pre ++ len_byte nsp :: bytes_of_string nsp ++ len_byte event :: bytes_of_string event ++ payload).
  assert (length buf = length pre + S (length (bytes_of_string nsp) + S (length (bytes_of_string event) + length payload)))%nat
    as Hlen by (unfold buf; rewrite !length_app; simpl; rewrite !length_app; simpl; rewrite !length_app; lia).
  rewrite (proj2 (Nat.leb_gt _ _)) by lia.
  assert (buf !! length pre = Some (len_byte nsp)) as -> by apply lookup_app_cons. simpl.
  rewrite len_byte_short by done. rewrite (proj2 (Nat.ltb_ge _ _)) by lia.
  assert (buf = (pre ++ [len_byte nsp]) ++ bytes_of_string nsp ++ len_byte event :: bytes_of_string event ++ payload)
    as Eb1 by (unfold buf; by rewrite <-app_assoc).
  assert (slice buf (S (length pre)) (length (bytes_of_string nsp)) = Some (bytes_of_string nsp)) as ->.
  { rewrite Eb1. replace (S (length pre)) with (length (pre ++ [len_byte nsp])) by (rewrite length_app; simpl; lia).
    apply slice_app. }
  simpl. rewrite string_of_bytes_of_string, (proj2 (Z.eqb_neq _ _)) by done.
  rewrite (proj2 (Nat.leb_gt _ _)) by lia.
  set (pre2 := (pre ++ [len_byte nsp]) ++ bytes_of_string nsp) in *.
  assert (length pre2 = S (length pre + length (bytes_of_string nsp))) as Hp2.
  { unfold pre2. rewrite !length_app. simpl. lia. }
  rewrite <-Hp2. assert (buf = pre2 ++ len_byte event :: bytes_of_string event ++ payload) as Eb2.
  { rewrite Eb1. unfold pre2. by rewrite <-!app_assoc. }
  rewrite Eb2 at 1. rewrite lookup_app_cons. simpl. rewrite len_byte_short by done.
  rewrite (proj2 (Nat.ltb_ge _ _)) by lia.
  assert (slice buf (S (length pre2)) (length (bytes_of_string event)) = Some (bytes_of_string event)) as ->.
  { rewrite Eb2. replace (S (length pre2)) with (length (pre2 ++ [len_byte event])) by (rewrite length_app; simpl; lia).
    change (len_byte event :: ?x) with ([len_byte event] ++ x). rewrite app_assoc. apply slice_app. }
  simpl. rewrite string_of_bytes_of_string. unfold set_field; simpl. do 2 f_equal.
  set (off := S (length pre2 + length (bytes_of_string event))).
  assert (drop off buf = payload) as Hd.
  { rewrite Eb2. change (len_byte event :: ?x) with ([len_byte event] ++ x). rewrite !app_assoc.
    replace off with (length ((pre2 ++ [len_byte event]) ++ bytes_of_string event)) by (unfold off; rewrite !length_app; simpl; lia).
    by rewrite drop_app_length. }
  replace (S (S (length pre + length (bytes_of_string nsp) + length (bytes_of_string event)))) with off
    by (unfold off; lia).
  rewrite Hd. destruct (Nat.ltb_spec off (length buf)); [done|].
  symmetry. apply nil_length_inv. unfold off in *. lia.
Qed.

Lemma packet_parsed nsp name payload :
  short nsp -> short name ->
  parsePacket (encodeEvent nsp name payload) =
    Some (empty_packet <| pk_nsp := nsp |> <| pk_event := name |> <| pk_kind := PkEvent |>
                       <| pk_payload := payload |>) /\
  parsePacket (encodeJoin nsp name) =
    Some (empty_packet <| pk_nsp := nsp |> <| pk_event := name |> <| pk_kind := PkEvent |>) /\
  parsePacket (encodeConnect nsp) =
    Some (empty_packet <| pk_nsp := nsp |> <| pk_kind := PkConnect |>).
Proof.
  intros Hn He. split_and!.
  - apply (parse_body_event [4; 2]); done.
  - pose proof (parse_body_event [4; 130; 0; 0; 0; 0] nsp name [] 2 Hn He) as H.
    rewrite app_nil_r in H. apply H. done.
  - unfold parsePacket, encodeConnect. simpl. unfold parse_body. simpl.
    rewrite len_byte_short by done. rewrite length_app. simpl.
    destruct (Nat.ltb_spec (S (S (S (length (bytes_of_string nsp) + 1)))) (S (S (S (length (bytes_of_string nsp)))))); [lia|].
    pose proof (slice_app [4; 0; len_byte nsp] (bytes_of_string nsp) [0]) as Hs. simpl in Hs. rewrite Hs.
    simpl. by rewrite string_of_bytes_of_string.
Qed.

(** Remark: what the three encoders produce is parsed back: the event with its namespace, name and
    payload, the join as an event named after the room, the connect with its namespace. *)
Theorem packet_roundtrip nsp name payload :
  short nsp -> short name ->
  parsePacket (encodeEvent nsp name payload) =
    Some (empty_packet <| pk_nsp := nsp |> <| pk_event := name |> <| pk_kind := PkEvent |>
                       <| pk_payload := payload |>) /\
  parsePacket (encodeJoin nsp name) =
    Some (empty_packet <| pk_nsp := nsp |> <| pk_event := name |> <| pk_kind := PkEvent |>) /\
  parsePacket (encodeConnect nsp) =
    Some (empty_packet <| pk_nsp := nsp |> <| pk_kind := PkConnect |>).
Proof. apply packet_parsed. Qed.

Lemma varint_roundtrip_witness :
  0 <= 300 < 2 ^ 56 /\ readVarint ([9] ++ writeVarint 300 ++ [7]) 1 = Some (true, 3%nat, 300).
Proof. split; [lia|]. apply (varint_roundtrip 300 [9] [7]). lia. Defined.

Lemma varint_long_rejected_witness :
  exists off v, readVarint ([] ++ writeVarint (2 ^ 63) ++ []) 0 = Some (false, off, v).
Proof. apply (varint_long_rejected (2 ^ 63) [] []). lia. Defined.

Lemma protobuf_roundtrip_witness :
  decodeProtobuf (encodeProtobuf [(1, FNum 5); (7, FStr "ab"); (1, FNum 6)])
    = Some (<[1 := FNum 6]> (<[7 := FStr "ab"]> (<[1 := FNum 5]> ∅))).
Proof. apply protobuf_roundtrip. repeat constructor; simpl; lia. Defined.

Lemma decodeProtobuf_total_witness : exists fields, decodeProtobuf [18; 255; 1] = Some fields.
Proof. apply decodeProtobuf_total. simpl. lia. Defined.

Lemma packet_roundtrip_witness :
  parsePacket (encodeConnect "/crash") =
    Some (empty_packet <| pk_nsp := "/crash" |> <| pk_kind := PkConnect |>).
Proof. apply (packet_roundtrip "/crash" "join" []); unfold short; simpl; lia. Defined.
