(* ===== verification/WsFrame.v ===== *)
(** WebSocket frames: [include/ingestion/websocket/ws_frame.hpp]. *)
From S2P Require Import Prelude Float64 Types Timing Wire.

(* @src include/ingestion/websocket/ws_frame.hpp | enum class Opcode : *)
Inductive Opcode := OpContinuation | OpText | OpBinary | OpClose | OpPing | OpPong | OpOther (code : Z).

Definition opcode_code (o : Opcode) : Z :=
  match o with
  | OpContinuation => 0 | OpText => 1 | OpBinary => 2 | OpClose => 8 | OpPing => 9 | OpPong => 10
  | OpOther c => c
  end.

(** [static_cast<Opcode>(byte & 0x0f)]: any of the sixteen values. *)
Definition opcode_of (c : Z) : Opcode :=
  if c =? 0 then OpContinuation else if c =? 1 then OpText else if c =? 2 then OpBinary
  else if c =? 8 then OpClose else if c =? 9 then OpPing else if c =? 10 then OpPong
  else OpOther c.

(* @src include/ingestion/websocket/ws_frame.hpp | struct Frame { *)
Record Frame := { fin : bool; opcode : Opcode; payload : list Z; masked : bool }.

(* @src include/ingestion/websocket/ws_frame.hpp:38-38 encodeFrame *)
Definition MASK : list Z := [18; 52; 86; 120].

(** Byte [i] is xored with [mask[i % 4]]. *)
(* @src include/ingestion/websocket/ws_frame.hpp:40-41 encodeFrame *)
Definition apply_mask (mask : list Z) (l : list Z) : list Z :=
  imap (fun i b => Z.lxor b (nth (i mod 4) mask 0)) l.

(** The second byte and the extended length. *)
(* @src include/ingestion/websocket/ws_frame.hpp:25-36 encodeFrame *)
Definition encode_length (len : Z) (masked : bool) : list Z :=
  let m := if masked then 128 else 0 in
  if len <? 126 then [Z.lor (u8 len) m]
  else if len <=? 65535 then [Z.lor 126 m; u8 (Z.land (Z.shiftr len 8) 255); u8 (Z.land len 255)]
  else Z.lor 127 m ::
       map (fun i => u8 (Z.land (Z.shiftr (u64 len) (i * 8)) 255)) [7; 6; 5; 4; 3; 2; 1; 0].

(* @src include/ingestion/websocket/ws_frame.hpp | encodeFrame( *)
Definition encodeFrame (f : Frame) : list Z :=
  Z.lor (if fin f then 128 else 0) (Z.land (opcode_code (opcode f)) 15) ::
  encode_length (Z.of_nat (length (payload f))) (masked f) ++
  if masked f then MASK ++ apply_mask MASK (payload f) else payload f.

(** [nullopt], a frame, or the exception thrown by [payload.resize] for a length no vector
    can have. *)
Inductive decode_result := Incomplete | Decoded (f : Frame) | Throws.

Definition MAX_VECTOR : Z := 2 ^ 63 - 1.

(** Behind the length: mask, then payload.  [off + payloadLen] is 64-bit arithmetic. *)
(* @src include/ingestion/websocket/ws_frame.hpp:66-78 decodeFrame *)
Definition decode_body (data : list Z) (f : Frame) (off : nat) (payloadLen : Z) : decode_result :=
  let after_mask (mask : list Z) (off : nat) :=
    if Z.of_nat (length data) <? u64 (Z.of_nat off + payloadLen) then Incomplete
    else if MAX_VECTOR <? payloadLen then Throws
    else
      let raw := take (Z.to_nat payloadLen) (drop off data) in
      Decoded {| fin := fin f; opcode := opcode f; masked := masked f;
                 payload := if masked f then apply_mask mask raw else raw |} in
  if masked f then
    if (length data <? off + 4)%nat then Incomplete
    else after_mask (take 4 (drop off data)) (off + 4)%nat
  else after_mask [0; 0; 0; 0] off.

(* @src include/ingestion/websocket/ws_frame.hpp | decodeFrame( *)
Definition decodeFrame (data : list Z) : decode_result :=
  match data with
  | d0 :: d1 :: rest =>
      let f := {| fin := negb (Z.land d0 128 =? 0); opcode := opcode_of (Z.land d0 15);
                  payload := []; masked := negb (Z.land d1 128 =? 0) |} in
      let payloadLen := Z.land d1 127 in
      if payloadLen =? 126 then
        match rest with
        | d2 :: d3 :: _ => decode_body data f 4 (Z.lor (Z.shiftl d2 8) d3)
        | _ => Incomplete
        end
      else if payloadLen =? 127 then
        if (length data <? 10)%nat then Incomplete
        else decode_body data f 10
               (fold_left (fun acc b => Z.lor (u64 (Z.shiftl acc 8)) b) (take 8 rest) 0)
      else decode_body data f 2 payloadLen
  | _ => Incomplete
  end.

(* @src include/ingestion/websocket/ws_frame.hpp | encodeBinary( *)
Definition encodeBinary (p : list Z) (mask : bool) : list Z :=
  encodeFrame {| fin := true; opcode := OpBinary; payload := p; masked := mask |}.

(* @src include/ingestion/websocket/ws_frame.hpp | encodeText( *)
Definition encodeText (text : string) (mask : bool) : list Z :=
  encodeFrame {| fin := true; opcode := OpText; payload := bytes_of_string text; masked := mask |}.

(** ** Round trip *)

Lemma apply_mask_involutive mask l : apply_mask mask (apply_mask mask l) = l.
Proof.
  apply list_eq. intros i. unfold apply_mask. rewrite !list_lookup_imap.
  destruct (l !! i); simpl; [|done]. by rewrite Z.lxor_assoc, Z.lxor_nilpotent, Z.lxor_0_r.
Qed.

Lemma length_apply_mask mask l : length (apply_mask mask l) = length l.
Proof. apply length_imap. Qed.

(** One of the sixteen opcodes, in the form the decoder produces. *)
Definition opcode_ok (o : Opcode) : Prop := 0 <= opcode_code o < 16 /\ opcode_of (opcode_code o) = o.

Lemma first_byte (fin : bool) c :
  0 <= c < 16 ->
  let b := Z.lor (if fin then 128 else 0) (Z.land c 15) in
  negb (Z.land b 128 =? 0) = fin /\ Z.land b 15 = c.
Proof.
  intros Hc. assert (In c [0; 1; 2; 3; 4; 5; 6; 7; 8; 9; 10; 11; 12; 13; 14; 15]) as Hin by (simpl; lia).
  destruct fin; simpl in Hin; repeat destruct Hin as [<-|Hin]; done.
Qed.

Lemma second_byte (masked : bool) r :
  0 <= r < 128 ->
  let b := Z.lor r (if masked then 128 else 0) in
  negb (Z.land b 128 =? 0) = masked /\ Z.land b 127 = r.
Proof.
  intros Hr. destruct masked; simpl.
  - rewrite lor_128 by done. destruct (group_low r Hr) as [-> Hn].
    by rewrite (proj2 (Z.eqb_neq _ _)).
  - rewrite Z.lor_0_r. destruct (last_group r Hr) as (_ & -> & ->). done.
Qed.

Lemma land_255 z : Z.land z 255 = z mod 256.
Proof. exact (Z.land_ones z 8 ltac:(lia)). Qed.

Lemma u8_byte z : u8 (Z.land z 255) = Z.land z 255.
Proof. rewrite land_255. apply Z.mod_mod. done. Qed.

(** Appending the next lower byte to the bytes above it. *)
Lemma next_byte len i j :
  0 <= len < 2 ^ 64 -> 0 <= i -> j = i + 1 ->
  Z.lor (u64 (Z.shiftl (Z.shiftr len (j * 8)) 8)) (Z.land (Z.shiftr len (i * 8)) 255)
  = Z.shiftr len (i * 8).
Proof.
  intros Hl Hi ->. assert (0 <= Z.shiftr len (i * 8)) as H0 by (apply Z.shiftr_nonneg; lia).
  replace ((i + 1) * 8) with (i * 8 + 8) by lia. rewrite <-Z.shiftr_shiftr by lia.
  set (y := Z.shiftr len (i * 8)) in *. rewrite Z.shiftr_div_pow2, Z.shiftl_mul_pow2 by lia.
  change (2 ^ 8) with 256. rewrite land_255.
  assert (y <= len). { unfold y. rewrite Z.shiftr_div_pow2 by lia. apply Z.div_le_upper_bound; [apply Z.pow_pos_nonneg; lia|].
    assert (1 <= 2 ^ (i * 8)) by (apply (Z.pow_le_mono_r 2 0); lia). nia. }
  pose proof (Z.div_mod y 256). pose proof (Z.mod_pos_bound y 256).
  rewrite u64_small by lia. rewrite Z.lor_comm.
  replace (y / 256 * 256) with (Z.shiftl (y / 256) 8) by (rewrite Z.shiftl_mul_pow2; lia).
  rewrite lor_shift_add by lia. lia.
Qed.

Lemma length_bytes_roundtrip len :
  0 <= len < 2 ^ 64 ->
  fold_left (fun acc b => Z.lor (u64 (Z.shiftl acc 8)) b)
    (map (fun i => u8 (Z.land (Z.shiftr (u64 len) (i * 8)) 255)) [7; 6; 5; 4; 3; 2; 1; 0]) 0 = len.
Proof.
  intros Hl. rewrite (u64_small len) by lia. cbn [map fold_left]. rewrite !u8_byte.
  assert (0 = Z.shiftr len (8 * 8)) as E0.
  { rewrite Z.shiftr_div_pow2 by lia. symmetry. apply Z.div_small. done. }
  rewrite E0 at 1.
  rewrite (next_byte len 7 8), (next_byte len 6 7), (next_byte len 5 6), (next_byte len 4 5),
    (next_byte len 3 4), (next_byte len 2 3), (next_byte len 1 2), (next_byte len 0 1) by lia.
  apply Z.shiftr_0_r.
Qed.

Lemma length16_roundtrip len :
  0 <= len <= 65535 -> Z.lor (Z.shiftl (Z.shiftr len 8 mod 256) 8) (len mod 256) = len.
Proof.
  intros Hl. pose proof (Z.mod_pos_bound len 256). pose proof (Z.div_mod len 256).
  rewrite Z.shiftr_div_pow2 by lia. change (2 ^ 8) with 256.
  assert (0 <= len / 256 < 256) by (split; [apply Z.div_pos|apply Z.div_lt_upper_bound]; lia).
  rewrite (Z.mod_small (len / 256)) by lia.
  rewrite Z.lor_comm, lor_shift_add by lia. change (2 ^ 8) with 256. lia.
Qed.

(** What follows the length field. *)
Definition encode_tail (f : Frame) : list Z :=
  if masked f then MASK ++ apply_mask MASK (payload f) else payload f.

Lemma decode_body_encode pre f rest :
  Z.of_nat (length (payload f)) < 2 ^ 63 -> (length pre <= 10)%nat ->
  decode_body (pre ++ encode_tail f ++ rest)
    {| fin := fin f; opcode := opcode f; payload := []; masked := masked f |} (length pre)
    (Z.of_nat (length (payload f))) = Decoded f.
Proof.
  intros Hl Hpre. unfold decode_body, encode_tail, MAX_VECTOR.
  destruct f as [fi op pl []]; cbn [masked payload fin opcode] in *; rewrite Nat2Z.id.
  - rewrite <-app_assoc.
    assert (take 4 (drop (length pre) (pre ++ MASK ++ apply_mask MASK pl ++ rest)) = MASK) as ->
      by (by rewrite drop_app_length).
    replace (length pre + 4)%nat with (length (pre ++ MASK)) by (rewrite length_app; done).
    rewrite (app_assoc pre MASK). set (pre' := pre ++ MASK).
    assert (length pre' = length pre + 4)%nat as Hp by (unfold pre'; rewrite length_app; done).
    rewrite !length_app, length_apply_mask.
    rewrite (proj2 (Nat.ltb_ge _ _)), u64_small, (proj2 (Z.ltb_ge _ _)), (proj2 (Z.ltb_ge _ _)) by lia.
    rewrite <-(length_apply_mask MASK pl). rewrite drop_app_length, take_app_length.
    by rewrite apply_mask_involutive.
  - rewrite !length_app. rewrite u64_small, (proj2 (Z.ltb_ge _ _)), (proj2 (Z.ltb_ge _ _)) by lia.
    by rewrite drop_app_length, take_app_length.
Qed.

(** C38: an encoded frame, followed by anything, is decoded to itself, at every payload length
    (7-bit, 16-bit and 64-bit length fields), masked or not. *)
Theorem ws_frame_roundtrip f rest :
  opcode_ok (opcode f) -> Z.of_nat (length (payload f)) < 2 ^ 63 ->
  decodeFrame (encodeFrame f ++ rest) = Decoded f.
Proof.
  intros [Hc Hop] Hl. unfold encodeFrame. fold (encode_tail f).
  set (d0 := Z.lor (if fin f then 128 else 0) (Z.land (opcode_code (opcode f)) 15)).
  destruct (first_byte (fin f) _ Hc) as [Hfin Hcode]. fold d0 in Hfin, Hcode.
  assert (forall d1, negb (Z.land d1 128 =? 0) = masked f ->
    {| fin := negb (Z.land d0 128 =? 0); opcode := opcode_of (Z.land d0 15); payload := [];
       masked := negb (Z.land d1 128 =? 0) |}
    = {| fin := fin f; opcode := opcode f; payload := []; masked := masked f |}) as Hf.
  { intros d1 ->. by rewrite Hfin, Hcode, Hop. }
  set (len := Z.of_nat (length (payload f))) in *. unfold encode_length.
  destruct (Z.ltb_spec len 126) as [H7|H7].
  - assert (u8 len = len) as -> by (unfold u8, wrapu; apply Z.mod_small; change (2 ^ 8) with 256; lia).
    destruct (second_byte (masked f) len) as [Hm Hlen]; [lia|].
    set (d1 := Z.lor len _) in *.
    change (([d0] ++ [d1] ++ encode_tail f) ++ rest) with (d0 :: d1 :: encode_tail f ++ rest).
    cbn [decodeFrame app]. rewrite Hlen, (Hf d1 Hm).
    rewrite (proj2 (Z.eqb_neq len 126)), (proj2 (Z.eqb_neq len 127)) by lia.
    apply (decode_body_encode [d0; d1]); [done|simpl; lia].
  - destruct (Z.leb_spec len 65535) as [H16|H16].
    + destruct (second_byte (masked f) 126) as [Hm Hlen]; [lia|].
      set (d1 := Z.lor 126 _) in *. rewrite !u8_byte, !land_255.
      cbn [decodeFrame app]. rewrite Hlen, (Hf d1 Hm). cbn [Z.eqb Pos.eqb].
      rewrite length16_roundtrip by lia.
      apply (decode_body_encode [d0; d1; _; _]); [done|simpl; lia].
    + destruct (second_byte (masked f) 127) as [Hm Hlen]; [lia|].
      set (d1 := Z.lor 127 _) in *.
      set (bs := map _ _). assert (length bs = 8)%nat as Hbs by done.
      assert (decodeFrame ((d0 :: (d1 :: bs) ++ encode_tail f) ++ rest)
        = decode_body ((d0 :: d1 :: bs) ++ encode_tail f ++ rest)
            {| fin := negb (Z.land d0 128 =? 0); opcode := opcode_of (Z.land d0 15); payload := [];
               masked := negb (Z.land d1 128 =? 0) |} 10
            (fold_left (fun acc b => Z.lor (u64 (Z.shiftl acc 8)) b) bs 0)) as ->.
      { cbn [decodeFrame app]. rewrite Hlen. cbn [Z.eqb Pos.eqb].
        rewrite (proj2 (Nat.ltb_ge _ _)) by (cbn [length]; rewrite !length_app, Hbs; lia).
        rewrite <-app_assoc. by rewrite take_app_length'. }
      assert (fold_left (fun acc b => Z.lor (u64 (Z.shiftl acc 8)) b) bs 0 = len) as ->
        by (apply length_bytes_roundtrip; lia).
      rewrite (Hf d1 Hm).
      apply (decode_body_encode (d0 :: d1 :: bs)); [done|simpl; lia].
Qed.

(** Remark: the payload length is added to the offset in 64 bits: a ten-byte frame that announces
    2^64 - 1 bytes passes the length test by wrap-around and the decoder throws instead of
    answering that the frame is incomplete. *)
Theorem ws_length_overflow :
  decodeFrame [130; 127; 255; 255; 255; 255; 255; 255; 255; 255] = Throws.
Proof. vm_compute. reflexivity. Qed.

Lemma ws_frame_roundtrip_witness :
  decodeFrame (encodeText "hi" true ++ [1; 2]) =
  Decoded {| fin := true; opcode := OpText; payload := bytes_of_string "hi"; masked := true |}.
Proof.
  apply (ws_frame_roundtrip {| fin := true; opcode := OpText; payload := bytes_of_string "hi"; masked := true |});
    [split; [simpl; lia|reflexivity]|simpl; lia].
Defined.
