(* ===== verification/Decoder.v ===== *)
(** From frames to events: Engine.IO control frames, the Socket.IO parser, crash payloads and
    [EventDecoder] ([include/ingestion]). *)
From S2P Require Import Prelude Float64 Types Timing Wire.

(** * Engine.IO ([engineio.hpp]) *)
Module engineio.

(* @src include/ingestion/socketio/engineio.hpp | inline bool isOpenFrame( *)
Definition isOpenFrame (buf : list Z) : bool :=
  match buf with b0 :: b1 :: _ => (b0 =? 48) && (b1 =? 123) | _ => false end.

(* @src include/ingestion/socketio/engineio.hpp | inline bool isPing( *)
Definition isPing (buf : list Z) : bool := match buf with [b] => b =? 50 | _ => false end.

(* @src include/ingestion/socketio/engineio.hpp | inline bool isPong( *)
Definition isPong (buf : list Z) : bool := match buf with [b] => b =? 51 | _ => false end.

(* @src include/ingestion/socketio/engineio.hpp | inline bool isMessage( *)
Definition isMessage (buf : list Z) : bool := match buf with b :: _ => b =? 52 | [] => false end.

(* @src include/ingestion/socketio/engineio.hpp | inline bool isClose( *)
Definition isClose (buf : list Z) : bool := match buf with b :: _ => b =? 49 | [] => false end.

(* @src include/ingestion/socketio/engineio.hpp | encodePing() *)
Definition encodePing : list Z := [50].
(* @src include/ingestion/socketio/engineio.hpp | encodePong() *)
Definition encodePong : list Z := [51].

Definition quote : string := String (Ascii.ascii_of_nat 34) "".
Definition quoted (s : string) : string := quote +:+ s +:+ quote.

(** [string_view::find(pat, from)]. *)
Definition find (pat s : string) (from : nat) : option nat := String.index from pat s.

(* @src include/ingestion/socketio/engineio.hpp:54-62 parseOpen::findStr *)
Definition findStr (json key : string) : string :=
  match find key json 0 with
  | None => ""
  | Some pos =>
      match find quote json (pos + String.length key) with
      | None => ""
      | Some pos =>
          match find quote json (pos + 1) with
          | None => ""
          | Some end_ => String.substring (pos + 1) (end_ - pos - 1) json
          end
      end
  end.

Definition digit_of (a : Ascii.ascii) : option Z :=
  let c := byte_of_ascii a in if (48 <=? c) && (c <=? 57) then Some (c - 48) else None.

Fixpoint skip_colon (s : list Ascii.ascii) : list Ascii.ascii :=
  match s with
  | a :: s' => if bool_decide (byte_of_ascii a = 58) || bool_decide (byte_of_ascii a = 32)
               then skip_colon s' else s
  | [] => []
  end.

Fixpoint read_digits (s : list Ascii.ascii) (v : Z) : Z :=
  match s with
  | a :: s' => match digit_of a with Some d => read_digits s' (v * 10 + d) | None => v end
  | [] => v
  end.

(* @src include/ingestion/socketio/engineio.hpp:63-74 parseOpen::findNum *)
Definition findNum (json key : string) : Z :=
  match find key json 0 with
  | None => 0
  | Some pos =>
      read_digits (skip_colon (drop (pos + String.length key) (String.list_ascii_of_string json))) 0
  end.

(* @src include/ingestion/socketio/engineio.hpp | inline SocketIoPacket parseOpen( *)
Definition parseOpen (buf : list Z) : SocketIoPacket :=
  let p := empty_packet <| pk_kind := PkOpen |> in
  if (length buf <? 2)%nat then p
  else
    let json := string_of_bytes (tail buf) in
    p <| pk_sid := findStr json (quoted "sid") |>
      <| pk_pingInterval := findNum json (quoted "pingInterval") |>
      <| pk_pingTimeout := findNum json (quoted "pingTimeout") |>.
End engineio.

(** * [SocketIoParser] *)

(* @src include/ingestion/socketio/socketio_parser.hpp | feed(const std::uint8_t* *)
Definition feed (data : list Z) : option (Result (list SocketIoPacket)) :=
  if (length data =? 0)%nat then Some (Ok [])
  else if engineio.isPing data || engineio.isPong data || engineio.isClose data then
    let k := if engineio.isPing data then PkPing
             else if engineio.isPong data then PkPong else PkDisconnect in
    Some (Ok [empty_packet <| pk_kind := k |>])
  else if engineio.isOpenFrame data then Some (Ok [engineio.parseOpen data])
  else if engineio.isMessage data && (1 <? length data)%nat then
    Some (Ok [empty_packet <| pk_kind := PkEvent |> <| pk_payload := tail data |>])
  else
    match data with
    | 4 :: _ => p ← parsePacket data; Some (Ok [p])
    | _ => Some (Err (err ParseError "unrecognised Socket.IO frame"))
    end.

(** * Crash payloads ([socketio_protocol.hpp]) *)

Definition num_field (fields : gmap Z field_value) (f : Z) : option Z :=
  match fields !! f with Some (FNum n) => Some n | _ => None end.

Definition str_field (fields : gmap Z field_value) (f : Z) : option string :=
  match fields !! f with Some (FStr s) => Some s | _ => None end.

(** The outer option is the out-of-bounds read, as in [Wire]. *)
(* @src include/ingestion/socketio/socketio_protocol.hpp | decodeProgressElapsed( *)
Definition decodeProgressElapsed (buf : list Z) : option (option Z) :=
  match buf with
  | [] => Some None
  | b0 :: _ =>
      let from_fields :=
        fields ← decodeProtobuf buf; Some (i64 <$> num_field fields 1) in
      if b0 =? 8 then
        match readVarint buf 1 with
        | None => None
        | Some (true, _, v) => Some (Some (i64 v))
        | Some (false, _, _) => from_fields
        end
      else from_fields
  end.

(* @src include/ingestion/socketio/socketio_protocol.hpp | struct CrashPayload { *)
Record CrashPayload := {
  cp_gameId : option string;
  cp_multiplier : option double;
  cp_hash : option string;
  cp_beginTime : option Z;
  cp_endTime : option Z;
  cp_elapsedMs : option Z
}.
#[export] Instance eta_CrashPayload : Eta CrashPayload := fun r =>
  {| cp_gameId := cp_gameId r; cp_multiplier := cp_multiplier r; cp_hash := cp_hash r;
     cp_beginTime := cp_beginTime r; cp_endTime := cp_endTime r;
     cp_elapsedMs := cp_elapsedMs r |}.

Definition empty_payload : CrashPayload := {|
  cp_gameId := None; cp_multiplier := None; cp_hash := None; cp_beginTime := None;
  cp_endTime := None; cp_elapsedMs := None |}.

(* @src include/ingestion/socketio/socketio_protocol.hpp | encodeEndPayload( *)
Definition encodeEndPayload (gameId : Z) (mult : double) (hash : string) : list Z :=
  encodeProtobuf ([(1, FNum gameId); (6, FNum (u64 (fllround (fmul mult (of_Z 100)))))] ++
                  (if str_empty hash then [] else [(7, FStr hash)])).

(* @src include/ingestion/socketio/socketio_protocol.hpp | encodeProgressPayload( *)
Definition encodeProgressPayload (elapsedMs : Z) : list Z := encodeProtobuf [(1, FNum (u64 elapsedMs))].

(* @src include/ingestion/event_decoder.hpp:129-130 EventDecoder::mapEventName *)
Definition lower_char (a : Ascii.ascii) : Ascii.ascii :=
  let c := byte_of_ascii a in
  if (65 <=? c) && (c <=? 90) then ascii_of_byte (c + 32) else a.

Definition lower (s : string) : string :=
  String.string_of_list_ascii (map lower_char (String.list_ascii_of_string s)).

Definition one_of (s : string) (l : list string) : bool := bool_decide (s ∈ l).

(* @src include/ingestion/event_decoder.hpp | static EventKind mapEventName( *)
Definition mapEventName (event : string) : EventKind :=
  let key := lower event in
  if one_of key ["pg"; "pr"] then (if one_of key ["pg"] then KProgress else KPrepare)
  else if one_of key ["prepare"; "ready"] then KPrepare
  else if one_of key ["bg"; "begin"; "start"] then KStart
  else if one_of key ["ed"; "st"; "end"; "crash"; "bust"] then KEnd
  else if one_of key ["ping"; "pong"] then KHeartbeat
  else KUnknown.

Section Curve.
Context (exp : double -> double).

(* @src include/ingestion/socketio/socketio_protocol.hpp | inline CrashPayload fieldsToPayload( *)
Definition fieldsToPayload (event : string) (fields : gmap Z field_value) (nowMs : Z) : CrashPayload :=
  let p := empty_payload in
  if bool_decide (event = "pg") then
    match num_field fields 1 with
    | Some n => p <| cp_elapsedMs := Some (i64 n) |>
                  <| cp_multiplier := Some (multiplierFromElapsed exp (i64 n)) |>
    | None => p
    end
  else
    {| cp_gameId := match num_field fields 1 with
                    | Some g => Some (to_string g)
                    | None => str_field fields 1
                    end;
       cp_multiplier := (fun m => fdiv (of_Z m) (of_Z 100)) <$> num_field fields 6;
       cp_hash := str_field fields 7;
       cp_beginTime := match num_field fields 3 with
                       | Some b => Some (i64 b)
                       | None => i64 <$> num_field fields 4
                       end;
       cp_endTime := if one_of event ["ed"; "st"] then Some nowMs else None;
       cp_elapsedMs := None |}.

End Curve.

(** * [EventDecoder] *)
Module EventDecoder.
Section S.
Context (exp : double -> double).

(* @src include/ingestion/event_decoder.hpp:143-146 EventDecoder *)
Record t := {
  tracker : option LatencyTracker.t;
  decoded : Z;
  invalid : Z
}.
#[export] Instance eta_t : Eta t := fun r =>
  {| tracker := tracker r; decoded := decoded r; invalid := invalid r |}.

Definition make (tr : option LatencyTracker.t) : t := {| tracker := tr; decoded := 0; invalid := 0 |}.

(** Clock readings of one call: [steadyNs] on entry and after decoding, [nowMs] inside
    [fieldsToPayload] and at the end. *)
Record readings := { r_t0 : Z; r_t1 : Z; r_nowPayload : Z; r_now : Z }.

Definition set_opt {A} (o : option A) (f : A -> CrashEvent -> CrashEvent) (e : CrashEvent) : CrashEvent :=
  match o with Some a => f a e | None => e end.

(** The payload's effect on the event. *)
(* @src include/ingestion/event_decoder.hpp:83-114 EventDecoder::decodeEventPacket *)
Definition apply_payload (ev : CrashEvent) (pkt : SocketIoPacket) (r : readings) : option CrashEvent :=
  match pk_payload pkt with
  | [] => Some (ev <| valid := bool_decide (kind ev = KConnect) || bool_decide (kind ev = KHeartbeat) |>)
  | _ =>
      if decide (kind ev = KProgress) then
        elapsed ← decodeProgressElapsed (pk_payload pkt);
        Some (set_opt elapsed (fun ms ev => ev <| elapsedMs := ms |>
                 <| currentMult := multiplierFromElapsed exp ms |> <| valid := true |>) ev)
      else
        fields ← decodeProtobuf (pk_payload pkt);
        let p := fieldsToPayload exp (pk_event pkt) fields (r_nowPayload r) in
        let ev := set_opt (cp_gameId p) (fun g ev => ev <| gameId := g |> <| roundId := g |>) ev in
        let ev := set_opt (cp_multiplier p) (fun m ev =>
          if decide (kind ev = KEnd) then ev <| crashPoint := m |> else ev <| currentMult := m |>) ev in
        let ev := set_opt (cp_hash p) (fun h ev => ev <| hash := h |>) ev in
        let ev := set_opt (cp_beginTime p) (fun b ev => ev <| beganAtMs := b |>) ev in
        let ev := set_opt (cp_endTime p) (fun e ev => ev <| endedAtMs := e |>) ev in
        let ev := set_opt (cp_elapsedMs p) (fun ms ev => ev <| elapsedMs := ms |>
          <| currentMult := multiplierFromElapsed exp ms |>) ev in
        Some (ev <| valid := negb (str_empty (gameId ev)) || bool_decide (kind ev = KProgress) |>)
  end.

(* @src include/ingestion/event_decoder.hpp | Result<CrashEvent> decodeEventPacket( *)
Definition decodeEventPacket (d : t) (pkt : SocketIoPacket) (src : EventSource) (r : readings)
  : option (Result CrashEvent * t) :=
  let ev := default_event <| source := src |> <| receivedAtNs := r_t0 r |>
              <| rawEventName := pk_event pkt |> <| kind := mapEventName (pk_event pkt) |> in
  if decide (kind ev = KUnknown) then
    Some (Err (err ParseError ("unknown event name: " +:+ pk_event pkt)), d)
  else
    ev ← apply_payload ev pkt r;
    let ev := ev <| decodedAtNs := r_t1 r |> <| eventTimeMs := r_now r |> in
    let tr := (fun tr => LatencyTracker.record tr LatencyTracker.Parse (Z.quot (r_t1 r - r_t0 r) 1000))
                <$> tracker d in
    let d := d <| tracker := tr |> <| decoded ::= bump |> in
    Some (Ok ev, if valid ev then d else d <| invalid ::= bump |>).

Definition control_event (k : EventKind) (name : string) (src : EventSource) (r : readings) : CrashEvent :=
  default_event <| kind := k |> <| source := src |> <| receivedAtNs := r_t0 r |>
    <| decodedAtNs := r_t1 r |> <| valid := true |> <| rawEventName := name |>.

(* @src include/ingestion/event_decoder.hpp | Result<CrashEvent> decodeBinary( *)
Definition decodeBinary (d : t) (data : list Z) (src : EventSource) (r : readings)
  : option (Result CrashEvent * t) :=
  match data with
  | [] => Some (Err (err ParseError "empty frame"), d)
  | b0 :: _ =>
      if engineio.isPing data then Some (Ok (control_event KHeartbeat "ping" src r), d)
      else if engineio.isPong data || engineio.isOpenFrame data || engineio.isClose data then
        Some (Err (err ParseError "control frame not an event"), d)
      else if b0 =? 4 then
        pkt ← parsePacket data;
        match pk_kind pkt with
        | PkEvent => decodeEventPacket d pkt src r
        | PkConnect => Some (Ok (control_event KConnect "connect" src r), d)
        | _ => Some (Err (err ParseError "non-event packet"), d)
        end
      else if engineio.isMessage data && (1 <? length data)%nat then
        Some (Err (err ParseError "text message path not used on hot path"), d)
      else Some (Err (err ParseError "unrecognised frame"), d)
  end.

(** No frame makes the decoder read outside its buffer. *)
Lemma decodeProgressElapsed_total buf :
  Z.of_nat (length buf) < 2 ^ 63 -> exists r, decodeProgressElapsed buf = Some r.
Proof.
  intros Hl. unfold decodeProgressElapsed. destruct buf as [|b0 buf]; [by eexists|].
  destruct (decodeProtobuf_total (b0 :: buf) Hl) as [fields ->]. simpl.
  destruct (b0 =? 8); [|by eexists]. destruct (readVarint_total (b0 :: buf) 1) as ([] & ? & ? & ->); by eexists.
Qed.

Lemma apply_payload_total ev pkt r :
  Z.of_nat (length (pk_payload pkt)) < 2 ^ 63 -> exists ev', apply_payload ev pkt r = Some ev'.
Proof.
  intros Hl. unfold apply_payload. destruct (pk_payload pkt) as [|b0 l]; [by eexists|].
  destruct (decide (kind ev = KProgress)).
  - destruct (decodeProgressElapsed_total (b0 :: l) Hl) as [el ->]. by eexists.
  - destruct (decodeProtobuf_total (b0 :: l) Hl) as [fields ->]. by eexists.
Qed.

Lemma parse_body_payload buf base o p :
  parse_body buf base o = Some p -> (length (pk_payload p) <= length buf)%nat.
Proof.
  unfold parse_body. intros H.
  repeat first [apply bind_Some in H as (? & ? & H) | case_match_hyp H; simplify_eq/=];
    simplify_eq/=; rewrite ?length_drop; lia.
Qed.

(** C39: the decoder answers, with an event or an error, on every frame, and never reads
    outside it. *)
Theorem decodeBinary_total d data src r :
  Z.of_nat (length data) < 2 ^ 63 -> exists res d', decodeBinary d data src r = Some (res, d').
Proof.
  intros Hl. unfold decodeBinary. destruct data as [|b0 l]; [by do 2 eexists|].
  set (data := b0 :: l) in *. destruct (engineio.isPing data); [by do 2 eexists|].
  destruct (_ || _); [by do 2 eexists|]. destruct (b0 =? 4).
  - destruct (parsePacket_total data) as [p Hp]. rewrite Hp. simpl.
    assert (length (pk_payload p) <= length data)%nat.
    { unfold parsePacket in Hp. destruct data as [|b [|t l']]; simplify_eq/=; try lia.
      destruct (b =? 4); simplify_eq/=; [|lia]. by apply parse_body_payload in Hp. }
    destruct (pk_kind p); try by do 2 eexists.
    unfold decodeEventPacket. case_decide; [by do 2 eexists|].
    destruct (apply_payload_total (default_event <| source := src |> <| receivedAtNs := r_t0 r |>
       <| rawEventName := pk_event p |> <| kind := mapEventName (pk_event p) |>) p r) as [ev ->]; [lia|].
    by do 2 eexists.
  - destruct (_ && _); by do 2 eexists.
Qed.

(** The map a decoded end payload gives. *)
Definition end_fields (gid m : Z) (hash : string) : gmap Z field_value :=
  let base := <[6 := FNum m]> (<[1 := FNum gid]> ∅) in
  if str_empty hash then base else <[7 := FStr hash]> base.

Lemma decode_end_payload gid mult hash :
  let m := fllround (fmul mult (of_Z 100)) in
  0 <= gid < 2 ^ 56 -> 0 <= m < 2 ^ 56 -> Z.of_nat (String.length hash) < 2 ^ 56 ->
  decodeProtobuf (encodeEndPayload gid mult hash) = Some (end_fields gid m hash).
Proof.
  intros m Hg Hm Hh. unfold encodeEndPayload. fold m. rewrite (u64_small m) by lia.
  rewrite protobuf_roundtrip.
  - unfold end_fields. by destruct (str_empty hash).
  - destruct (str_empty hash); repeat constructor; simpl; lia.
Qed.

Lemma fieldsToPayload_end name gid m hash now :
  name <> "pg" ->
  fieldsToPayload exp name (end_fields gid m hash) now = {|
    cp_gameId := Some (to_string gid); cp_multiplier := Some (fdiv (of_Z m) (of_Z 100));
    cp_hash := if str_empty hash then None else Some hash; cp_beginTime := None;
    cp_endTime := if one_of name ["ed"; "st"] then Some now else None; cp_elapsedMs := None |}.
Proof.
  intros Hn. unfold fieldsToPayload. rewrite bool_decide_false by done.
  unfold end_fields, num_field, str_field. by destruct (str_empty hash).
Qed.

(** The event that an end payload becomes, and the packet that carries it. *)
Definition end_event (name : string) (gid m : Z) (hash : string) (src : EventSource) (r : readings) : CrashEvent :=
  let ev := default_event <| source := src |> <| receivedAtNs := r_t0 r |> <| rawEventName := name |> <| kind := KEnd |>
              <| gameId := to_string gid |> <| roundId := to_string gid |> <| crashPoint := fdiv (of_Z m) (of_Z 100) |>
              <| Types.hash := hash |> <| decodedAtNs := r_t1 r |> <| eventTimeMs := r_now r |> <| valid := true |> in
  if one_of name ["ed"; "st"] then ev <| endedAtMs := r_nowPayload r |> else ev.

Definition count_decoded (d : t) (r : readings) : t :=
  d <| tracker := (fun tr => LatencyTracker.record tr LatencyTracker.Parse (Z.quot (r_t1 r - r_t0 r) 1000)) <$> tracker d |>
    <| decoded ::= bump |>.

Definition event_packet (nsp name : string) (payload : list Z) : SocketIoPacket :=
  empty_packet <| pk_nsp := nsp |> <| pk_event := name |> <| pk_kind := PkEvent |> <| pk_payload := payload |>.

Lemma encodeEndPayload_nonempty gid mult hash : encodeEndPayload gid mult hash <> [].
Proof.
  intros E. apply (f_equal length) in E. unfold encodeEndPayload in E.
  pose proof (length_encodeProtobuf ([(1, FNum gid); (6, FNum (u64 (fllround (fmul mult (of_Z 100)))))] ++
    (if str_empty hash then [] else [(7, FStr hash)]))) as Hlen. rewrite E in Hlen. simpl in Hlen. lia.
Qed.

Lemma decode_end_packet d nsp name gid mult hash src r :
  let m := fllround (fmul mult (of_Z 100)) in
  mapEventName name = KEnd -> 0 <= gid < 2 ^ 56 -> 0 <= m < 2 ^ 56 -> Z.of_nat (String.length hash) < 2 ^ 56 ->
  decodeEventPacket d (event_packet nsp name (encodeEndPayload gid mult hash)) src r =
    Some (Ok (end_event name gid m hash src r), count_decoded d r).
Proof.
  intros m Hk Hg Hm Hh. assert (name <> "pg") as Hpg by (intros ->; done).
  unfold decodeEventPacket. simpl. rewrite Hk. simpl.
  unfold apply_payload. simpl. rewrite decode_end_payload by done. simpl.
  pose proof (encodeEndPayload_nonempty gid mult hash) as He. destruct (encodeEndPayload gid mult hash) as [|b l]; [done|].
  rewrite fieldsToPayload_end by done. simpl.
  assert (str_empty (to_string gid) = false) as Hg0 by apply str_empty_false, to_string_nonempty.
  unfold end_event. destruct (one_of name _); destruct (str_empty hash) eqn:Eh; simpl; rewrite Hg0; simpl;
    try (apply str_empty_true in Eh as ->); done.
Qed.

(** A packet of the event encoder reaches the event decoder. *)
Lemma decode_event_frame d nsp name payload src r :
  short nsp -> short name ->
  decodeBinary d (encodeEvent nsp name payload) src r = decodeEventPacket d (event_packet nsp name payload) src r.
Proof.
  intros Hn Hs. destruct (packet_parsed nsp name payload Hn Hs) as [Hp _].
  unfold decodeBinary. rewrite Hp. cbn [encodeEvent app]. simpl. done.
Qed.

(** Remark: from the encoder to the event.  Any end-of-round frame built by [encodeEvent] and
    [encodeEndPayload] decodes to a valid end event that carries the game id as both ids, the
    multiplier in hundredths, the hash, and counts as decoded. *)
Theorem decode_end_event d nsp name gid mult hash src r :
  let m := fllround (fmul mult (of_Z 100)) in
  short nsp -> short name -> mapEventName name = KEnd ->
  0 <= gid < 2 ^ 56 -> 0 <= m < 2 ^ 56 -> Z.of_nat (String.length hash) < 2 ^ 56 ->
  exists ev d', decodeBinary d (encodeEvent nsp name (encodeEndPayload gid mult hash)) src r = Some (Ok ev, d') /\
    kind ev = KEnd /\ valid ev = true /\ source ev = src /\
    gameId ev = to_string gid /\ roundId ev = to_string gid /\
    crashPoint ev = fdiv (of_Z m) (of_Z 100) /\ Types.hash ev = hash /\
    decoded d' = bump (decoded d) /\ invalid d' = invalid d.
Proof.
  intros m Hn Hs Hk Hg Hm Hh. rewrite decode_event_frame by done. rewrite decode_end_packet by done.
  do 2 eexists. split; [done|]. unfold end_event. destruct (one_of name _); split_and!; done.
Qed.

End S.
End EventDecoder.

Definition zero_readings : EventDecoder.readings := {|
  EventDecoder.r_t0 := 0; EventDecoder.r_t1 := 0; EventDecoder.r_nowPayload := 0;
  EventDecoder.r_now := 0 |}.

Lemma decodeBinary_total_witness :
  exists res d', EventDecoder.decodeBinary (fun x => x) (EventDecoder.make None) [4; 2; 9]
    NativeSocket zero_readings = Some (res, d').
Proof. apply EventDecoder.decodeBinary_total. simpl. lia. Defined.

Lemma decode_end_event_witness :
  exists ev d', EventDecoder.decodeBinary (fun x => x) (EventDecoder.make None)
    (encodeEvent "/crash" "ed" (encodeEndPayload 77 (flit 234 100) "h")) NativeSocket zero_readings
    = Some (Ok ev, d') /\ gameId ev = "77".
Proof.
  destruct (EventDecoder.decode_end_event (fun x => x) (EventDecoder.make None) "/crash" "ed" 77
    (flit 234 100) "h" NativeSocket zero_readings) as (ev & d' & E & _ & _ & _ & Hg & _).
  - unfold short; simpl; lia.
  - unfold short; simpl; lia.
  - vm_compute. reflexivity.
  - lia.
  - vm_compute. split; [discriminate|reflexivity].
  - simpl. lia.
  - exists ev, d'. split; [exact E|]. rewrite Hg. vm_compute. reflexivity.
Defined.
