(* ===== verification/Windows.v ===== *)
(** Bounded memories of keys: the set-plus-deque window of [DuplicateFilter] and
    [EventValidator] and the least-recently-used window of [EventRouter].  The components
    that use them are in Ingest, Realtime and Router. *)
From S2P Require Import Prelude.

(** * First-in first-out window *)
Module SeenWindow.

Record t := { max : nat; seen : gset string; order : list string }.
#[export] Instance eta_t : Eta t := fun r =>
  {| max := max r; seen := seen r; order := order r |}.

Definition make (max : nat) : t := {| max := max; seen := ∅; order := [] |}.

(** [while (order_.size() > max_) { seen_.erase(order_.front()); order_.pop_front(); }] *)
(* @src include/ingestion/duplicate_filter.hpp:31-34 DuplicateFilter::accept *)
Fixpoint evict (max : nat) (seen : gset string) (order : list string) : gset string * list string :=
  if (max <? length order)%nat then
    match order with
    | x :: order' => evict max (seen ∖ {[ x ]}) order'
    | [] => (seen, order)
    end
  else (seen, order).

(* @src include/ingestion/duplicate_filter.hpp:25-36 DuplicateFilter::accept *)
Definition add (w : t) (key : string) : option t :=
  if decide (key ∈ seen w) then None
  else
    let '(s, o) := evict (max w) ({[ key ]} ∪ seen w) (order w ++ [key]) in
    Some (w <| seen := s |> <| order := o |>).

(** The window [w] holds the last [max] keys of the accepted history [h]. *)
Definition holds (w : t) (h : list string) : Prop :=
  order w = trim_front (max w) h /\ NoDup (order w) /\ seen w = list_to_set (order w).

Lemma evict_spec max s o :
  NoDup o -> s = list_to_set o ->
  evict max s o = (list_to_set (trim_front max o), trim_front max o).
Proof.
  revert s. induction o as [|x o IH]; intros s Hnd ->.
  - simpl. by destruct max.
  - apply NoDup_cons in Hnd as [Hx Hnd]. cbn [evict].
    destruct (Nat.ltb_spec max (length (x :: o))) as [Hlt|Hge].
    + rewrite IH; [|done|].
      * assert (trim_front max (x :: o) = trim_front max o) as ->; [|done].
        unfold trim_front. simpl length in *. replace (S (length o) - max)%nat with (S (length o - max)) by lia.
        done.
      * apply set_eq. intros y. rewrite elem_of_difference, !elem_of_list_to_set, elem_of_cons, elem_of_singleton.
        naive_solver.
    + by rewrite trim_front_fits.
Qed.

Lemma make_holds max : holds (make max) [].
Proof. unfold holds, make; simpl. split_and!; [by destruct max|apply NoDup_nil_2|done]. Qed.

(** A key is accepted exactly when it is not among the last [max] accepted ones. *)
Lemma add_spec w h key :
  holds w h ->
  match add w key with
  | None => key ∈ trim_front (max w) h
  | Some w' => key ∉ trim_front (max w) h /\ holds w' (h ++ [key]) /\ max w' = max w
  end.
Proof.
  intros (Ho & Hnd & Hs). unfold add. rewrite Hs.
  case_decide as Hin; rewrite elem_of_list_to_set in Hin; [by rewrite <-Ho|].
  rewrite evict_spec.
  - simpl. rewrite <-Ho. split; [done|]. split; [|done]. unfold holds; simpl. split_and!; [|eauto with cc|done].
    + rewrite Ho. apply push_window_trim.
    + apply NoDup_trim_front. apply list.NoDup_app. split_and!; [done| |apply NoDup_singleton].
      intros y Hy Hy'. apply list_elem_of_singleton in Hy' as ->. done.
  - apply list.NoDup_app. split_and!; [done| |apply NoDup_singleton].
    intros y Hy Hy'. apply list_elem_of_singleton in Hy' as ->. done.
  - rewrite list_to_set_app_L. set_solver.
Qed.

Lemma holds_size w h : holds w h -> (size (seen w) <= max w)%nat.
Proof.
  intros (Ho & Hnd & ->). rewrite size_list_to_set by done. rewrite Ho, length_trim_front. lia.
Qed.
End SeenWindow.

(** * Least-recently-used window

    [seen_map_] maps a key to its position in [seen_order_]; the position is only used to
    move the key to the end, so the model keeps the set of keys. *)
Module LruWindow.
Record t := { order : list string; keys : gset string }.
#[export] Instance eta_t : Eta t := fun r =>
  {| order := order r; keys := keys r |}.

Definition make : t := {| order := []; keys := ∅ |}.

(* @src include/ingestion/event_router.hpp:59-63 EventRouter::route *)
Fixpoint evict (limit : nat) (fuel : nat) (w : t) : t :=
  match fuel with
  | O => w
  | S fuel =>
      if (limit <? size (keys w))%nat then
        match order w with
        | oldest :: rest => evict limit fuel {| order := rest; keys := keys w ∖ {[ oldest ]} |}
        | [] => w
        end
      else w
  end.

(** [true] when the key was seen; it is then the most recent one. *)
(* @src include/ingestion/event_router.hpp:50-63 EventRouter::route *)
Definition touch (limit : nat) (w : t) (key : string) : bool * t :=
  if decide (key ∈ keys w) then
    (true, w <| order := filter (fun k => k <> key) (order w) ++ [key] |>)
  else
    (false, evict limit (S (length (order w)))
              {| order := order w ++ [key]; keys := {[ key ]} ∪ keys w |}).

Definition wf (w : t) : Prop := NoDup (order w) /\ keys w = list_to_set (order w).

Lemma lru_evict_spec limit fuel w :
  wf w -> (length (order w) <= fuel)%nat ->
  let w' := evict limit fuel w in wf w' /\ order w' = trim_front limit (order w).
Proof.
  revert w. induction fuel as [|fuel IH]; intros w [Hnd Hk] Hf; simpl.
  - split; [done|]. destruct (order w); [by destruct limit|simpl in Hf; lia].
  - rewrite Hk, (size_list_to_set (order w)) by done.
    destruct (Nat.ltb_spec limit (length (order w))) as [Hlt|Hge].
    + destruct (order w) as [|x o] eqn:Eo; [simpl in Hlt; lia|].
      apply NoDup_cons in Hnd as [Hx Hnd]. simpl in Hf.
      destruct (IH {| order := o; keys := list_to_set (x :: o) ∖ {[ x ]} |}) as [Hwf Ho].
      * split; simpl; [done|]. apply set_eq. intros y.
        rewrite elem_of_difference, elem_of_union, !elem_of_list_to_set, elem_of_singleton. naive_solver.
      * simpl. lia.
      * split; [done|]. rewrite Ho. unfold trim_front. simpl length in *.
        replace (S (length o) - limit)%nat with (S (length o - limit)) by lia. done.
    + split; [by split|]. by rewrite trim_front_fits.
Qed.

(** The window after a touch: the key moves, or enters, at the recent end; only the least
    recent keys beyond [limit] are forgotten. *)
Lemma touch_spec limit w key :
  wf w ->
  let '(hit, w') := touch limit w key in
  wf w' /\ (hit = true <-> key ∈ order w) /\
  order w' = (if hit then filter (fun k => k <> key) (order w) ++ [key]
              else trim_front limit (order w ++ [key])).
Proof.
  intros Hw. pose proof Hw as [Hnd Hk]. unfold touch. rewrite Hk.
  case_decide as Hin; rewrite elem_of_list_to_set in Hin.
  - split; [|done]. split; simpl.
    + apply list.NoDup_app. split_and!; [by apply NoDup_filter| |apply NoDup_singleton].
      intros y Hy Hy'. apply list_elem_of_singleton in Hy' as ->. apply list_elem_of_filter in Hy. naive_solver.
    + rewrite Hk. apply set_eq. intros y.
      rewrite !elem_of_list_to_set, elem_of_app, list_elem_of_filter, list_elem_of_singleton.
      destruct (decide (y = key)); naive_solver.
  - destruct (lru_evict_spec limit (S (length (order w))) {| order := order w ++ [key]; keys := {[ key ]} ∪ list_to_set (order w) |})
      as [Hwf Ho].
    + split; simpl.
      * apply list.NoDup_app. split_and!; [done| |apply NoDup_singleton].
        intros y Hy Hy'. apply list_elem_of_singleton in Hy' as ->. done.
      * rewrite list_to_set_app_L. set_solver.
    + simpl. rewrite length_app. simpl. lia.
    + split_and!; [done| |done]. split; [done|]. by intros.
Qed.

Lemma touch_length limit w key :
  wf w -> (length (order w) <= limit)%nat -> (length (order (snd (touch limit w key))) <= limit)%nat.
Proof.
  intros Hw Hl. pose proof (touch_spec limit w key Hw) as H. pose proof Hw as [Hnd Hk].
  destruct (touch limit w key) as [hit w']. simpl. destruct H as (_ & Hhit & ->). destruct hit.
  - destruct Hhit as [Hin _]. specialize (Hin eq_refl). rewrite length_app. simpl.
    assert (length (filter (fun k => k <> key) (order w)) < length (order w))%nat; [|lia].
    apply list_elem_of_split in Hin as (l1 & l2 & ->). rewrite filter_app, filter_cons_False by tauto.
    rewrite !length_app. simpl. pose proof (length_filter (fun k => k <> key) l1).
    pose proof (length_filter (fun k => k <> key) l2). lia.
  - rewrite length_trim_front. lia.
Qed.
End LruWindow.
