(* ===== verification/Realtime.v ===== *)
(** The realtime path of [include/realtime]: normalisation of source events, the
    [EventValidator], the metrics and the [RealtimePipeline] that composes them. *)
From S2P Require Import Prelude Float64 Types Timing Wire Windows Decoder.

(** * Types ([realtime_types.hpp]) *)

(* @src include/realtime/realtime_types.hpp | enum class SourceKind : *)
Inductive SourceKind := Socket | Poll.

(* @src include/realtime/realtime_types.hpp | enum class RoundPhase : *)
Inductive RoundPhase := Prepare | Begin | Progress | End_.

#[export] Instance RoundPhase_eq_dec : EqDecision RoundPhase.
Proof. solve_decision. Defined.

(* @src include/realtime/realtime_types.hpp | enum class ConnectionStatus : *)
Inductive ConnectionStatus := Stopped | Connecting | Connected | Degraded | Reconnecting | WafBlocked.

#[export] Instance ConnectionStatus_eq_dec : EqDecision ConnectionStatus.
Proof. solve_decision. Defined.

(* @src include/realtime/realtime_types.hpp | inline const char* toString(ConnectionStatus *)
Definition status_name (s : ConnectionStatus) : string :=
  match s with
  | Stopped => "stopped" | Connecting => "connecting" | Connected => "connected"
  | Degraded => "degraded" | Reconnecting => "reconnecting" | WafBlocked => "waf_blocked"
  end.

(* @src include/realtime/realtime_types.hpp | inline const char* toString(RoundPhase *)
Definition phase_name (p : RoundPhase) : string :=
  match p with Prepare => "prepare" | Begin => "begin" | Progress => "progress" | End_ => "end" end.

(* @src include/realtime/realtime_types.hpp | struct RawSourceEvent { *)
Record RawSourceEvent := {
  rw_sourceId : string;
  rw_sourceKind : SourceKind;
  rw_event : string;
  rw_gameId : option string;
  rw_multiplier : option double;
  rw_hash : option string;
  rw_salt : option string;
  rw_beganAt : option Z;
  rw_crashedAt : option Z;
  rw_elapsedMs : option Z;
  rw_receivedAt : Z;
  rw_backfill : bool
}.
#[export] Instance eta_RawSourceEvent : Eta RawSourceEvent := fun r =>
  {| rw_sourceId := rw_sourceId r; rw_sourceKind := rw_sourceKind r; rw_event := rw_event r;
     rw_gameId := rw_gameId r; rw_multiplier := rw_multiplier r; rw_hash := rw_hash r;
     rw_salt := rw_salt r; rw_beganAt := rw_beganAt r; rw_crashedAt := rw_crashedAt r;
     rw_elapsedMs := rw_elapsedMs r; rw_receivedAt := rw_receivedAt r;
     rw_backfill := rw_backfill r |}.

(* @src include/realtime/realtime_types.hpp | struct NormalizedRoundEvent { *)
Record NormalizedRoundEvent := {
  ne_sourceId : string;
  ne_sourceKind : SourceKind;
  ne_phase : RoundPhase;
  ne_gameId : string;
  ne_multiplier : option double;
  ne_hash : option string;
  ne_salt : option string;
  ne_beganAt : option Z;
  ne_crashedAt : option Z;
  ne_receivedAt : Z;
  ne_rawEvent : string;
  ne_backfill : bool;
  ne_elapsedMs : option Z
}.

(* @src include/realtime/realtime_types.hpp | struct ValidatedRoundEvent : *)
Record ValidatedRoundEvent := { ve_event : NormalizedRoundEvent; ve_acceptedAt : Z }.

(** * Normalizer ([normalizer.hpp]) *)

(* @src include/realtime/normalizer.hpp | mapEventName( *)
Definition mapPhaseName (event : string) : option RoundPhase :=
  let event := lower event in
  if one_of event ["pr"; "prepare"; "ready"] then Some Prepare
  else if one_of event ["pg"] then Some Progress
  else if one_of event ["bg"; "begin"; "start"] then Some Begin
  else if one_of event ["ed"; "st"; "end"; "crash"; "bust"] then Some End_
  else None.

(* @src include/realtime/normalizer.hpp | toEpochMs( *)
Definition toEpochMs (value : Z) : Z :=
  if value <=? 0 then 0
  else if (0 <? value) && (value <? 1000000000000) then value * 1000
  else value.

Section Curve.
Context (exp : double -> double).

(* @src include/realtime/normalizer.hpp | normalizeSourceEvent( *)
Definition normalizeSourceEvent (raw : RawSourceEvent) (nowMs : Z) : option NormalizedRoundEvent :=
  phase ← mapPhaseName (rw_event raw);
  let gid := match rw_gameId raw with Some g => g | None => "" end in
  let mult :=
    match phase, rw_multiplier raw, rw_elapsedMs raw with
    | Progress, None, Some ms => Some (multiplierFromElapsed exp ms)
    | _, m, _ => m
    end in
  if negb (bool_decide (phase = Progress)) && str_empty gid then None
  else Some {|
    ne_sourceId := rw_sourceId raw; ne_sourceKind := rw_sourceKind raw; ne_phase := phase;
    ne_gameId := gid; ne_multiplier := mult; ne_hash := rw_hash raw; ne_salt := rw_salt raw;
    ne_beganAt := toEpochMs <$> rw_beganAt raw; ne_crashedAt := toEpochMs <$> rw_crashedAt raw;
    ne_receivedAt := or_now (rw_receivedAt raw) nowMs; ne_rawEvent := rw_event raw;
    ne_backfill := rw_backfill raw; ne_elapsedMs := rw_elapsedMs raw |}.

Definition opt_of_string (s : string) : option string := if str_empty s then None else Some s.

(* @src include/realtime/normalizer.hpp | fromCrashEvent( *)
Definition fromCrashEvent (ev : CrashEvent) (srcId : string) : RawSourceEvent :=
  let raw := {|
    rw_sourceId := srcId; rw_sourceKind := Socket; rw_event := ""; rw_gameId := opt_of_string (gameId ev);
    rw_multiplier := None; rw_hash := opt_of_string (hash ev); rw_salt := None; rw_beganAt := None;
    rw_crashedAt := None; rw_elapsedMs := if 0 <=? elapsedMs ev then Some (elapsedMs ev) else None;
    rw_receivedAt := if eventTimeMs ev =? 0 then Z.quot (receivedAtNs ev) 1000000 else eventTimeMs ev;
    rw_backfill := false |} in
  match kind ev with
  | KPrepare => raw <| rw_event := "pr" |>
  | KStart => raw <| rw_event := "bg" |> <| rw_beganAt := Some (beganAtMs ev) |>
  | KProgress => raw <| rw_event := "pg" |> <| rw_multiplier := Some (currentMult ev) |>
  | KEnd => raw <| rw_event := "ed" |> <| rw_multiplier := Some (crashPoint ev) |>
                <| rw_crashedAt := Some (endedAtMs ev) |>
  | _ => raw <| rw_event := if str_empty (rawEventName ev) then "unknown" else rawEventName ev |>
  end.

(* @src include/ingestion/decode_helpers.hpp | crashEventFromNormalized( *)
Definition crashEventFromNormalized (n : NormalizedRoundEvent) (steadyNs : Z) : CrashEvent :=
  let or_zero (o : option Z) := match o with Some z => z | None => 0 end in
  let mult := match ne_multiplier n with Some m => m | None => f0 end in
  let e := default_event <| valid := true |> <| gameId := ne_gameId n |> <| roundId := ne_gameId n |>
    <| rawEventName := ne_rawEvent n |> <| eventTimeMs := ne_receivedAt n |>
    <| receivedAtNs := steadyNs |> <| decodedAtNs := steadyNs |> <| source := NativeSocket |>
    <| hash := match ne_hash n with Some h => h | None => "" end |>
    <| beganAtMs := or_zero (ne_beganAt n) |> <| endedAtMs := or_zero (ne_crashedAt n) |>
    <| elapsedMs := match ne_elapsedMs n with Some e => e | None => -1 end |> in
  match ne_phase n with
  | Prepare => e <| kind := KPrepare |>
  | Begin => e <| kind := KStart |>
  | Progress => e <| kind := KProgress |> <| currentMult := mult |>
  | End_ => e <| kind := KEnd |> <| crashPoint := mult |>
  end.

(** Remark: an end event keeps its identity, multiplier and hash through normalisation and back. *)
Theorem normalize_end_roundtrip ev srcId now steady :
  kind ev = KEnd -> gameId ev <> EmptyString ->
  exists n, normalizeSourceEvent (fromCrashEvent ev srcId) now = Some n /\
    ne_phase n = End_ /\
    let ev' := crashEventFromNormalized n steady in
    kind ev' = KEnd /\ gameId ev' = gameId ev /\ roundId ev' = gameId ev /\
    crashPoint ev' = crashPoint ev /\ hash ev' = hash ev /\ endedAtMs ev' = toEpochMs (endedAtMs ev) /\
    valid ev' = true.
Proof.
  intros Hk Hg. apply str_empty_false in Hg. unfold fromCrashEvent, opt_of_string. rewrite Hk, Hg.
  unfold normalizeSourceEvent. simpl. rewrite Hg. simpl. eexists. split; [done|].
  simpl. split; [done|]. destruct (str_empty (hash ev)) eqn:Eh; simpl.
  - apply str_empty_true in Eh. by rewrite Eh.
  - done.
Qed.
End Curve.

(** * [EventValidator] *)
Module EventValidator.

Inductive reason := MissingGameId | NonNumericGameId | Stale | DuplicateEvent.

#[export] Instance reason_eq_dec : EqDecision reason.
Proof. solve_decision. Defined.

(* @src include/realtime/event_validator.hpp:103-112 EventValidator *)
Record t := {
  max_skew_ms : Z;
  window : SeenWindow.t;
  last_phase : gmap string RoundPhase;
  last_mult : gmap string double;
  accepted : Z;
  duplicates : Z;
  stale : Z;
  invalid : Z;
  last_arrival_lag_ms : double
}.
#[export] Instance eta_t : Eta t := fun r =>
  {| max_skew_ms := max_skew_ms r; window := window r; last_phase := last_phase r;
     last_mult := last_mult r; accepted := accepted r; duplicates := duplicates r;
     stale := stale r; invalid := invalid r; last_arrival_lag_ms := last_arrival_lag_ms r |}.

(* @src include/realtime/event_validator.hpp | explicit EventValidator( *)
Definition make (maxSkewMs : Z) (maxSeen : nat) : t := {|
  max_skew_ms := maxSkewMs; window := SeenWindow.make maxSeen; last_phase := ∅; last_mult := ∅;
  accepted := 0; duplicates := 0; stale := 0; invalid := 0; last_arrival_lag_ms := f0 |}.

Definition is_digit (a : Ascii.ascii) : bool :=
  let c := byte_of_ascii a in (48 <=? c) && (c <=? 57).
Definition numeric (s : string) : bool := forallb is_digit (String.list_ascii_of_string s).

Definition event_key (n : NormalizedRoundEvent) : string :=
  ne_gameId n +:+ ":" +:+ phase_name (ne_phase n).

Definition keyed (n : NormalizedRoundEvent) : bool :=
  bool_decide (ne_phase n = End_) || bool_decide (ne_phase n = Begin).

(** The bookkeeping of an accepted event. *)
(* @src include/realtime/event_validator.hpp:80-94 EventValidator::validate *)
Definition note (v : t) (n : NormalizedRoundEvent) : t :=
  match ne_phase n with
  | End_ =>
      v <| last_phase ::= insert (ne_gameId n) End_ |>
        <| last_mult ::= insert (ne_gameId n) (match ne_multiplier n with Some m => m | None => f0 end) |>
  | Prepare => v
  | p =>
      let v := v <| last_phase ::= insert (ne_gameId n) p |> in
      match ne_multiplier n with
      | Some m => v <| last_mult ::= insert (ne_gameId n) m |>
      | None => v
      end
  end.

(** [nowAccept] and [nowLag] are the two readings of the clock. *)
(* @src include/realtime/event_validator.hpp | ValidateResult validate( *)
Definition validate (v : t) (n : NormalizedRoundEvent) (nowAccept nowLag : Z)
  : (reason + ValidatedRoundEvent) * t :=
  if negb (bool_decide (ne_phase n = Progress)) && str_empty (ne_gameId n) then
    (inl MissingGameId, v <| invalid ::= bump |>)
  else if negb (bool_decide (ne_phase n = Progress)) && negb (numeric (ne_gameId n)) then
    (inl NonNumericGameId, v <| invalid ::= bump |>)
  else
    let lag := nowLag - ne_receivedAt n in
    if (0 <? ne_receivedAt n) && (max_skew_ms v <? lag) then (inl Stale, v <| stale ::= bump |>)
    else
      let v := if 0 <? ne_receivedAt n then v <| last_arrival_lag_ms := of_Z lag |> else v in
      let checked :=
        if keyed n then (fun w => v <| window := w |>) <$> SeenWindow.add (window v) (event_key n)
        else Some v in
      match checked with
      | None => (inl DuplicateEvent, v <| duplicates ::= bump |>)
      | Some v =>
          ((inr {| ve_event := n; ve_acceptedAt := nowAccept |}), (note v n) <| accepted ::= bump |>)
      end.

Lemma note_window v n : window (note v n) = window v /\ max_skew_ms (note v n) = max_skew_ms v.
Proof. unfold note. destruct (ne_phase n); try done; by destruct (ne_multiplier n). Qed.

(** Remark: the validator accepts an event exactly when its identity is numeric (or it is a
    progress event), it is not older than the skew limit, and, for a begin or an end, the
    same phase of the same game is not among the last [maxSeen] accepted ones; an accepted
    begin or end joins them. *)
Theorem validate_spec v h n nowAccept nowLag :
  SeenWindow.holds (window v) h ->
  let ok :=
    (ne_phase n = Progress \/ (ne_gameId n <> EmptyString /\ numeric (ne_gameId n) = true)) /\
    (0 < ne_receivedAt n -> nowLag - ne_receivedAt n <= max_skew_ms v) /\
    (keyed n = true -> event_key n ∉ trim_front (SeenWindow.max (window v)) h) in
  let '(r, v') := validate v n nowAccept nowLag in
  match r with
  | inr e => ok /\ ve_event e = n /\
      SeenWindow.holds (window v') (if keyed n then h ++ [event_key n] else h)
  | inl _ => ~ ok /\ window v' = window v
  end.
Proof.
  intros Hw. cbv zeta. unfold validate.
  destruct (bool_decide (ne_phase n = Progress)) eqn:Ep; bool_to_prop; simpl.
  2: destruct (str_empty (ne_gameId n)) eqn:Eg; simpl;
     [apply str_empty_true in Eg; split; [naive_solver|done]|apply str_empty_false in Eg].
  2: destruct (numeric (ne_gameId n)) eqn:Enum; simpl; [|split; [naive_solver|done]].
  all: destruct (Z.ltb_spec 0 (ne_receivedAt n)) as [Hr|Hr]; simpl;
    [destruct (Z.ltb_spec (max_skew_ms v) (nowLag - ne_receivedAt n)) as [Hs|Hs]; simpl;
       [split; [intros (_ & H & _); specialize (H Hr); lia|done]|] |].
  all: destruct (keyed n) eqn:Ek; simpl;
    [pose proof (SeenWindow.add_spec _ _ (event_key n) Hw) as Ha;
       destruct (SeenWindow.add (window v) (event_key n)) as [w|]; simpl;
       [destruct Ha as (Hfresh & Hw' & _)|]|].
  all: try (match goal with |- context [note ?x ?m] => destruct (note_window x m) as [-> _] end).
  all: simpl; split_and!; try done; try tauto; try (intros; lia).
  all: intros (_ & _ & H); by destruct (H eq_refl).
Qed.
End EventValidator.

(** * [RealtimeMetrics] *)
Module RealtimeMetrics.
(* @src include/realtime/realtime_metrics.hpp:84-89 RealtimeMetrics *)
Record t := {
  received : Z; m_accepted : Z; m_duplicates : Z; m_stale : Z; m_invalid : Z; missed : Z;
  reconnects : Z;
  proc_samples : list double; pred_samples : list double; del_samples : list double;
  last_arrival_lag_ms : double; last_processing_ms : double; last_prediction_ms : double;
  last_delivery_ms : double; last_e2e_ms : double
}.
#[export] Instance eta_t : Eta t := fun r =>
  {| received := received r; m_accepted := m_accepted r; m_duplicates := m_duplicates r;
     m_stale := m_stale r; m_invalid := m_invalid r; missed := missed r;
     reconnects := reconnects r; proc_samples := proc_samples r; pred_samples := pred_samples r;
     del_samples := del_samples r; last_arrival_lag_ms := last_arrival_lag_ms r;
     last_processing_ms := last_processing_ms r; last_prediction_ms := last_prediction_ms r;
     last_delivery_ms := last_delivery_ms r; last_e2e_ms := last_e2e_ms r |}.

Definition minus_one : double := of_Z (-1).

Definition make : t := {|
  received := 0; m_accepted := 0; m_duplicates := 0; m_stale := 0; m_invalid := 0; missed := 0;
  reconnects := 0; proc_samples := []; pred_samples := []; del_samples := [];
  last_arrival_lag_ms := minus_one; last_processing_ms := minus_one;
  last_prediction_ms := minus_one; last_delivery_ms := minus_one; last_e2e_ms := minus_one |}.

(* @src include/realtime/realtime_metrics.hpp:16-16 markReceived *)
Definition markReceived (m : t) : t := m <| received ::= bump |>.
(* @src include/realtime/realtime_metrics.hpp:17-17 markAccepted *)
Definition markAccepted (m : t) : t := m <| m_accepted ::= bump |>.
(* @src include/realtime/realtime_metrics.hpp:18-18 markDuplicate *)
Definition markDuplicate (m : t) : t := m <| m_duplicates ::= bump |>.
(* @src include/realtime/realtime_metrics.hpp:19-19 markStale *)
Definition markStale (m : t) : t := m <| m_stale ::= bump |>.
(* @src include/realtime/realtime_metrics.hpp:20-20 markInvalid *)
Definition markInvalid (m : t) : t := m <| m_invalid ::= bump |>.
(* @src include/realtime/realtime_metrics.hpp:21-21 markMissed *)
Definition markMissed (m : t) : t := m <| missed ::= bump |>.
(* @src include/realtime/realtime_metrics.hpp:22-22 markReconnect *)
Definition markReconnect (m : t) : t := m <| reconnects ::= bump |>.

(* @src include/realtime/realtime_metrics.hpp | void markProcessingMs( *)
Definition markProcessingMs (m : t) (ms : double) : t :=
  m <| proc_samples ::= fun l => push_window 256 l ms |> <| last_processing_ms := ms |>.
(* @src include/realtime/realtime_metrics.hpp | void markE2e( *)
Definition markE2e (m : t) (ms : double) : t := m <| last_e2e_ms := ms |>.
(* @src include/realtime/realtime_metrics.hpp | void markArrivalLag( *)
Definition markArrivalLag (m : t) (ms : double) : t := m <| last_arrival_lag_ms := ms |>.
(* @src include/realtime/realtime_metrics.hpp | void markPredictionMs( *)
Definition markPredictionMs (m : t) (ms : double) : t :=
  m <| last_prediction_ms := ms |> <| pred_samples ::= fun l => push_window 256 l ms |>.
(* @src include/realtime/realtime_metrics.hpp | void markDeliveryMs( *)
Definition markDeliveryMs (m : t) (ms : double) : t :=
  m <| last_delivery_ms := ms |> <| del_samples ::= fun l => push_window 256 l ms |>.

(* @src include/realtime/realtime_metrics.hpp | static std::optional<double> avg( *)
Definition avg (v : list double) : option double :=
  match v with
  | [] => None
  | _ => Some (fdiv (fold_left fadd v f0) (of_Z (Z.of_nat (length v))))
  end.

(* @src include/realtime/realtime_types.hpp | struct MetricsSnapshot { *)
Record MetricsSnapshot := {
  eventsReceived : Z; eventsAccepted : Z; ms_duplicates : Z; ms_stale : Z; ms_invalid : Z;
  ms_missed : Z; ms_reconnects : Z;
  lastArrivalLagMs : option double; lastProcessingMs : option double;
  lastPredictionMs : option double; lastDeliveryMs : option double; lastE2eMs : option double;
  avgProcessingMs : option double; avgPredictionMs : option double; avgDeliveryMs : option double
}.

Definition known (x : double) : option double := if fge x f0 then Some x else None.

(* @src include/realtime/realtime_metrics.hpp | MetricsSnapshot snapshot( *)
Definition snapshot (m : t) : MetricsSnapshot := {|
  eventsReceived := received m; eventsAccepted := m_accepted m; ms_duplicates := m_duplicates m;
  ms_stale := m_stale m; ms_invalid := m_invalid m; ms_missed := missed m;
  ms_reconnects := reconnects m;
  lastArrivalLagMs := known (last_arrival_lag_ms m); lastProcessingMs := known (last_processing_ms m);
  lastPredictionMs := known (last_prediction_ms m); lastDeliveryMs := known (last_delivery_ms m);
  lastE2eMs := known (last_e2e_ms m); avgProcessingMs := avg (proc_samples m);
  avgPredictionMs := avg (pred_samples m); avgDeliveryMs := avg (del_samples m) |}.

(* @src include/realtime/realtime_metrics.hpp | void reset( *)
Definition reset (m : t) : t :=
  m <| received := 0 |> <| m_accepted := 0 |> <| m_duplicates := 0 |> <| m_stale := 0 |>
    <| m_invalid := 0 |> <| missed := 0 |> <| reconnects := 0 |>
    <| proc_samples := [] |> <| pred_samples := [] |> <| del_samples := [] |>.
End RealtimeMetrics.

(** * [RealtimePipeline]

    [handler] is the client's accepted-event callback, acting on a state [H]. *)
Module RealtimePipeline.
Section S.
Context (exp : double -> double) {H : Type} (handler : option (ValidatedRoundEvent -> H -> H)).

(* @src include/realtime/realtime_types.hpp | struct AdapterHealth { *)
Record AdapterHealth := {
  ah_sourceId : string; ah_status : ConnectionStatus; ah_transport : string;
  ah_lastError : string; ah_lastEventAt : Z; ah_lastEventKind : string;
  ah_reconnectAttempts : Z; ah_totalReconnects : Z; ah_socketId : string
}.
#[export] Instance eta_AdapterHealth : Eta AdapterHealth := fun r =>
  {| ah_sourceId := ah_sourceId r; ah_status := ah_status r; ah_transport := ah_transport r;
     ah_lastError := ah_lastError r; ah_lastEventAt := ah_lastEventAt r;
     ah_lastEventKind := ah_lastEventKind r; ah_reconnectAttempts := ah_reconnectAttempts r;
     ah_totalReconnects := ah_totalReconnects r; ah_socketId := ah_socketId r |}.

(* @src include/realtime/realtime_pipeline.hpp:88-93 RealtimePipeline *)
Record t := {
  validator : EventValidator.t;
  metrics : RealtimeMetrics.t;
  health : AdapterHealth;
  client : H
}.
#[export] Instance eta_t : Eta t := fun r =>
  {| validator := validator r; metrics := metrics r; health := health r; client := client r |}.

(* @src include/realtime/realtime_pipeline.hpp | RealtimePipeline() *)
Definition make (c : H) : t := {|
  validator := EventValidator.make 120000 8192; metrics := RealtimeMetrics.make;
  health := {| ah_sourceId := "native-bc-socket"; ah_status := Stopped; ah_transport := "";
    ah_lastError := ""; ah_lastEventAt := 0; ah_lastEventKind := ""; ah_reconnectAttempts := 0;
    ah_totalReconnects := 0; ah_socketId := "" |};
  client := c |}.

(* @src include/realtime/realtime_pipeline.hpp | void setStatus( *)
Definition setStatus (p : t) (status : ConnectionStatus) (detail : string) : t :=
  let h := (health p) <| ah_status := status |> in
  let h := if str_empty detail then h else h <| ah_lastError := detail |> in
  if decide (status = Reconnecting) then
    p <| health := h <| ah_reconnectAttempts ::= bump |> <| ah_totalReconnects ::= bump |> |>
      <| metrics ::= RealtimeMetrics.markReconnect |>
  else p <| health := h |>.

(** Clock readings: [nowMs] in the normaliser and twice in the validator, and the duration of
    the call in microseconds. *)
Record readings := { ro_norm : Z; ro_accept : Z; ro_lag : Z; ro_us : Z }.

(* @src include/realtime/realtime_pipeline.hpp | observe(const CrashEvent *)
Definition observe (p : t) (ev : CrashEvent) (c : readings) : option ValidatedRoundEvent * t :=
  match normalizeSourceEvent exp (fromCrashEvent ev "native-bc-socket") (ro_norm c) with
  | None => (None, p <| metrics ::= RealtimeMetrics.markInvalid |>)
  | Some n =>
      let p := p <| metrics ::= RealtimeMetrics.markReceived |>
                 <| health ::= fun h => h <| ah_lastEventAt := ne_receivedAt n |> |> in
      let '(r, v) := EventValidator.validate (validator p) n (ro_accept c) (ro_lag c) in
      let p := p <| validator := v |> in
      match r with
      | inl why =>
          (None, p <| metrics ::= match why with
                                  | EventValidator.DuplicateEvent => RealtimeMetrics.markDuplicate
                                  | EventValidator.Stale => RealtimeMetrics.markStale
                                  | _ => RealtimeMetrics.markInvalid
                                  end |>)
      | inr e =>
          let p := p <| metrics ::= RealtimeMetrics.markAccepted |> in
          let p := if decide (ne_phase n = End_)
                   then p <| health ::= fun h => h <| ah_lastEventKind := "end" |> |> else p in
          let p := p <| metrics ::= fun m =>
            RealtimeMetrics.markProcessingMs m (fdiv (of_Z (ro_us c)) (of_Z 1000)) |> in
          (Some e, match handler with Some f => p <| client ::= f e |> | None => p end)
      end
  end.

(* @src include/realtime/realtime_pipeline.hpp | void markE2e( *)
Definition pipelineMarkE2e (p : t) (receivedAt nowMs : Z) : t :=
  p <| metrics ::= fun m => RealtimeMetrics.markE2e m (of_Z (nowMs - receivedAt)) |>.

(** Events accounted for by the outcome counters. *)
Definition outcomes (m : RealtimeMetrics.t) : Z :=
  RealtimeMetrics.m_accepted m + RealtimeMetrics.m_duplicates m + RealtimeMetrics.m_stale m +
  RealtimeMetrics.m_invalid m.

Definition observe_all (p : t) (l : list (CrashEvent * readings)) : t :=
  fold_left (fun p x => snd (observe p (fst x) (snd x))) l p.

Definition counters_ok (m : RealtimeMetrics.t) (n : Z) : Prop :=
  outcomes m = n /\ 0 <= RealtimeMetrics.m_accepted m /\ 0 <= RealtimeMetrics.m_duplicates m /\
  0 <= RealtimeMetrics.m_stale m /\ 0 <= RealtimeMetrics.m_invalid m.

Lemma observe_counts p ev c n :
  counters_ok (metrics p) n -> n < 2 ^ 64 - 1 -> counters_ok (metrics (snd (observe p ev c))) (n + 1).
Proof.
  unfold counters_ok, outcomes. intros (Hn & H1 & H2 & H3 & H4) Hlt. unfold observe.
  destruct (normalizeSourceEvent _ _ _) as [ne|]; simpl.
  2: { rewrite bump_small by lia. split_and!; lia. }
  destruct (EventValidator.validate _ _ _ _) as [[why|e] v]; simpl.
  - destruct why; simpl; rewrite bump_small by lia; split_and!; lia.
  - case_decide; destruct handler; simpl; rewrite bump_small by lia; split_and!; lia.
Qed.

(** Remark: every observed event is counted exactly once, as accepted, duplicate, stale or
    invalid. *)
Theorem pipeline_counts_every_event c l :
  Z.of_nat (length l) < 2 ^ 64 ->
  outcomes (metrics (observe_all (make c) l)) = Z.of_nat (length l).
Proof.
  intros Hl. assert (counters_ok (metrics (observe_all (make c) l)) (Z.of_nat (length l))) as H0; [|apply H0].
  induction l as [|x l IH] using rev_ind; [by unfold counters_ok|].
  rewrite length_app in *. simpl in *. unfold observe_all. rewrite fold_left_app. simpl.
  fold (observe_all (make c) l). replace (Z.of_nat (length l + 1)) with (Z.of_nat (length l) + 1) by lia.
  apply observe_counts; [apply IH; lia|lia].
Qed.

End S.
Arguments t : clear implicits.
End RealtimePipeline.

Definition demo_end (id : string) : CrashEvent :=
  default_event <| kind := KEnd |> <| gameId := id |> <| roundId := id |> <| valid := true |>
    <| crashPoint := of_Z 2 |> <| eventTimeMs := 1000 |> <| endedAtMs := 1000 |>.

Lemma normalize_end_roundtrip_witness :
  exists n, normalizeSourceEvent (fun x => x) (fromCrashEvent (demo_end "7") "s") 1000 = Some n /\
    crashPoint (crashEventFromNormalized n 0) = of_Z 2.
Proof.
  destruct (normalize_end_roundtrip (fun x => x) (demo_end "7") "s" 1000 0) as (n & E & _ & _ & _ & _ & Hc & _);
    [reflexivity|discriminate|].
  exists n. split; [exact E|exact Hc].
Defined.

Lemma validate_spec_witness :
  let v := EventValidator.make 120000 8192 in
  SeenWindow.holds (EventValidator.window v) [] /\
  match normalizeSourceEvent (fun x => x) (fromCrashEvent (demo_end "7") "s") 1000 with
  | Some n => exists e, fst (EventValidator.validate v n 1001 1001) = inr e
  | None => False
  end.
Proof.
  intros v. split; [apply SeenWindow.make_holds|].
  destruct (normalizeSourceEvent (fun x => x) (fromCrashEvent (demo_end "7") "s") 1000) as [n|] eqn:E;
    [|vm_compute in E; discriminate].
  pose proof (EventValidator.validate_spec v [] n 1001 1001 (SeenWindow.make_holds 8192)) as H.
  cbv zeta in H. vm_compute in E. injection E as <-.
  destruct (EventValidator.validate v _ 1001 1001) as [[why|e] v']; [|by exists e].
  destruct H as [Hn _]. destruct Hn. split_and!; [by right|vm_compute; intros; discriminate|].
  intros _. apply not_elem_of_nil.
Defined.

Lemma pipeline_counts_every_event_witness :
  let c := {| RealtimePipeline.ro_norm := 1000; RealtimePipeline.ro_accept := 1000;
              RealtimePipeline.ro_lag := 1000; RealtimePipeline.ro_us := 5 |} in
  RealtimePipeline.outcomes (RealtimePipeline.metrics (RealtimePipeline.observe_all (fun x => x) None
    (RealtimePipeline.make tt) [(demo_end "7", c); (demo_end "7", c)])) = 2.
Proof. intros c. apply RealtimePipeline.pipeline_counts_every_event. simpl. lia. Defined.
