(* ===== verification/Ingest.v ===== *)
(** Bookkeeping of the ingestion side ([include/ingestion]): duplicate filter, sequence gaps,
    heartbeat, reconnection delays and the round state machine. *)
From S2P Require Import Prelude Float64 Types Windows.

(** * [DuplicateFilter] *)
Module DuplicateFilter.
(* @src include/ingestion/duplicate_filter.hpp:75-81 DuplicateFilter *)
Record t := { window : SeenWindow.t; accepted : Z; duplicates : Z }.
#[export] Instance eta_t : Eta t := fun r =>
  {| window := window r; accepted := accepted r; duplicates := duplicates r |}.

(* @src include/ingestion/duplicate_filter.hpp | explicit DuplicateFilter( *)
Definition make (maxKeys : nat) : t :=
  {| window := SeenWindow.make maxKeys; accepted := 0; duplicates := 0 |}.

(* @src include/ingestion/duplicate_filter.hpp | bool acceptKey( *)
Definition acceptKey (f : t) (key : string) : bool * t :=
  match SeenWindow.add (window f) key with
  | None => (false, f <| duplicates ::= bump |>)
  | Some w => (true, f <| window := w |> <| accepted ::= bump |>)
  end.

(* @src include/ingestion/duplicate_filter.hpp | static std::string makeKey( *)
Definition makeKey (ev : CrashEvent) : string :=
  (if str_empty (gameId ev) then roundId ev else gameId ev) +:+ ":" +:+
  to_string (kind_code (kind ev)) +:+ ":" +:+ to_string (sequence ev) +:+ ":" +:+
  to_string (elapsedMs ev).

(* @src include/ingestion/duplicate_filter.hpp | bool accept(const CrashEvent *)
Definition accept (f : t) (ev : CrashEvent) : bool * t :=
  if valid ev then acceptKey f (makeKey ev) else (false, f).

(* @src include/ingestion/duplicate_filter.hpp | void clear() *)
Definition clear (f : t) : t :=
  f <| window ::= fun w => SeenWindow.make (SeenWindow.max w) |>.

(** The specification: the accepted keys of a sequence, given those accepted before. *)
Fixpoint accepted_keys (max : nat) (h : list string) (ks : list string) : list string :=
  match ks with
  | [] => h
  | k :: ks => accepted_keys max (if decide (k ∈ trim_front max h) then h else h ++ [k]) ks
  end.

Fixpoint accept_all (f : t) (ks : list string) : t :=
  match ks with [] => f | k :: ks => accept_all (snd (acceptKey f k)) ks end.

(** Remark: over any sequence of keys the filter keeps exactly the last [maxKeys] accepted ones,
    accepting a key iff it is not among them: no key occurs twice within a window of
    [maxKeys] accepted keys, and the memory is bounded. *)
Theorem duplicate_filter_window maxKeys ks :
  let f := accept_all (make maxKeys) ks in
  let h := accepted_keys maxKeys [] ks in
  SeenWindow.order (window f) = trim_front maxKeys h /\
  NoDup (trim_front maxKeys h) /\
  (size (SeenWindow.seen (window f)) <= maxKeys)%nat /\
  forall k, fst (acceptKey f k) = negb (bool_decide (k ∈ trim_front maxKeys h)).
Proof.
  cbv zeta.
  assert (forall f h, SeenWindow.holds (window f) h -> SeenWindow.max (window f) = maxKeys ->
    SeenWindow.holds (window (accept_all f ks)) (accepted_keys maxKeys h ks) /\
    SeenWindow.max (window (accept_all f ks)) = maxKeys) as Hgen.
  { induction ks as [|k ks IH]; intros f h Hw Hm; simpl; [done|].
    pose proof (SeenWindow.add_spec _ _ k Hw) as Ha. unfold acceptKey. rewrite Hm in Ha.
    destruct (SeenWindow.add (window f) k) as [w|]; simpl.
    - destruct Ha as (Hn & Hw' & Hm'). rewrite decide_False by done. apply IH; simpl; [done|congruence].
    - rewrite decide_True by done. by apply IH. }
  destruct (Hgen (make maxKeys) [] (SeenWindow.make_holds maxKeys) eq_refl) as [Hw Hm].
  pose proof Hw as (Ho & Hnd & _). pose proof (SeenWindow.holds_size _ _ Hw) as Hsz. rewrite Hm in *.
  split_and!; [done|by rewrite <-Ho|done|].
  intros k. pose proof (SeenWindow.add_spec _ _ k Hw) as Ha. rewrite Hm in Ha. unfold acceptKey.
  destruct (SeenWindow.add _ k); simpl.
  - destruct Ha as [Hn _]. by rewrite bool_decide_false.
  - by rewrite bool_decide_true.
Qed.
End DuplicateFilter.

(** * [SequenceTracker] *)
Module SequenceTracker.
(* @src include/ingestion/sequence_tracker.hpp:59-63 SequenceTracker *)
Record t := { last : gmap string Z; initialized : gmap string bool; missed_total : Z }.
#[export] Instance eta_t : Eta t := fun r =>
  {| last := last r; initialized := initialized r; missed_total := missed_total r |}.

Definition make : t := {| last := ∅; initialized := ∅; missed_total := 0 |}.

(** Sequence numbers are 64-bit unsigned, so [last + 1] wraps. *)
(* @src include/ingestion/sequence_tracker.hpp | std::uint64_t observe( *)
Definition observe (s : t) (source : string) (seq : Z) : Z * t :=
  let last_v := default 0 (last s !! source) in
  if default false (initialized s !! source) then
    let missed := if u64 (last_v + 1) <? seq then u64 (seq - last_v - 1) else 0 in
    (missed, {| last := <[source := if last_v <? seq then seq else last_v]> (last s);
                initialized := <[source := true]> (initialized s);
                missed_total := u64 (missed_total s + missed) |})
  else
    (0, s <| last ::= insert source seq |> <| initialized ::= insert source true |>).

(* @src include/ingestion/sequence_tracker.hpp | SequenceNum last(const *)
Definition last_of (s : t) (source : string) : Z := default 0 (last s !! source).

(* @src include/ingestion/sequence_tracker.hpp | void reset(const *)
Definition reset (s : t) (source : string) : t :=
  s <| last ::= delete source |> <| initialized ::= delete source |>.

(* @src include/ingestion/sequence_tracker.hpp | void resetAll() *)
Definition resetAll (s : t) : t := make.

Fixpoint observe_all (s : t) (source : string) (seqs : list Z) : t :=
  match seqs with [] => s | q :: l => observe_all (snd (observe s source q)) source l end.

(** The numbers missing between the elements of an increasing sequence, and its last one. *)
Fixpoint gaps (prev : Z) (l : list Z) : Z :=
  match l with [] => 0 | q :: l => (q - prev - 1) + gaps q l end.

Fixpoint final (prev : Z) (l : list Z) : Z :=
  match l with [] => prev | q :: l => final q l end.

Fixpoint increasing (prev : Z) (l : list Z) : Prop :=
  match l with [] => True | q :: l => prev < q /\ q < 2 ^ 64 /\ increasing q l end.

Lemma gaps_final prev l : gaps prev l = final prev l - prev - Z.of_nat (length l).
Proof. revert prev. induction l as [|q l IH]; intros prev; simpl; [lia|]. rewrite IH. lia. Qed.

Lemma increasing_final prev l : prev < 2 ^ 64 -> increasing prev l ->
  prev + Z.of_nat (length l) <= final prev l < 2 ^ 64.
Proof.
  revert prev. induction l as [|q l IH]; intros prev Hp; simpl; [lia|].
  intros (Hq & Hq2 & Hl). specialize (IH q Hq2 Hl). lia.
Qed.

Lemma observe_known s source prev q :
  last s !! source = Some prev -> initialized s !! source = Some true ->
  0 <= prev -> prev < q < 2 ^ 64 ->
  observe s source q =
    (q - prev - 1, {| last := <[source := q]> (last s); initialized := <[source := true]> (initialized s);
                      missed_total := u64 (missed_total s + (q - prev - 1)) |}).
Proof.
  intros Hl Hi Hp Hq. unfold observe. rewrite Hl, Hi. simpl.
  rewrite (u64_small (prev + 1)) by lia. rewrite (proj2 (Z.ltb_lt prev q)) by lia.
  destruct (Z.ltb_spec (prev + 1) q); [by rewrite (u64_small (q - prev - 1)) by lia|].
  by replace (q - prev - 1) with 0 by lia.
Qed.

Lemma observe_all_known l s source prev :
  last s !! source = Some prev -> initialized s !! source = Some true ->
  0 <= prev < 2 ^ 64 -> increasing prev l ->
  0 <= missed_total s -> missed_total s + gaps prev l < 2 ^ 64 ->
  missed_total (observe_all s source l) = missed_total s + gaps prev l /\
  last_of (observe_all s source l) source = final prev l.
Proof.
  revert s prev. induction l as [|q l IH]; intros s prev Hl Hi Hp Hinc Hm Htot; simpl.
  - unfold last_of. rewrite Hl. simpl. split; [lia|done].
  - simpl in Hinc, Htot. destruct Hinc as (Hpq & Hq & Hinc).
    assert (0 <= gaps q l) by (rewrite gaps_final; pose proof (increasing_final q l Hq Hinc); lia).
    rewrite (observe_known s source prev q) by (done || lia). simpl.
    rewrite u64_small by lia. specialize (IH {| last := <[source := q]> (last s);
      initialized := <[source := true]> (initialized s); missed_total := missed_total s + (q - prev - 1) |} q).
    simpl in IH. rewrite !lookup_insert_eq in IH.
    destruct IH as [-> ->]; [done|done|lia|done|lia|lia|].
    split; [lia|done].
Qed.

(** Remark: on an increasing sequence of numbers from one source the tracker's total is exactly
    the number of missing ones between the first and the last, which it remembers. *)
Theorem sequence_gap_count source first l :
  0 <= first < 2 ^ 64 -> increasing first l ->
  let s := observe_all make source (first :: l) in
  missed_total s = final first l - first - Z.of_nat (length l) /\ last_of s source = final first l.
Proof.
  intros H0 Hinc. cbv zeta. rewrite <-gaps_final.
  assert (gaps first l < 2 ^ 64).
  { rewrite gaps_final. pose proof (increasing_final first l (proj2 H0) Hinc). lia. }
  cbn [observe_all]. change (snd (observe make source first)) with
    {| last := <[source := first]> ∅; initialized := <[source := true]> ∅; missed_total := 0 |}.
  rewrite <-(Z.add_0_l (gaps first l)).
  apply observe_all_known; simpl; [apply lookup_insert_eq|apply lookup_insert_eq|done|done|lia|lia].
Qed.
End SequenceTracker.

(** * [HeartbeatMonitor]

    [on_timeout] is the client's handler. *)
Module HeartbeatMonitor.
Section S.
Context {C : Type} (on_timeout : option (C -> C)).

(* @src include/ingestion/heartbeat/heartbeat.hpp | struct HeartbeatState { *)
Record HeartbeatState := {
  lastPingMs : Z; lastPongMs : Z; pingsSent : Z; pongsReceived : Z; timedOut : bool
}.
#[export] Instance eta_HeartbeatState : Eta HeartbeatState := fun r =>
  {| lastPingMs := lastPingMs r; lastPongMs := lastPongMs r; pingsSent := pingsSent r;
     pongsReceived := pongsReceived r; timedOut := timedOut r |}.

(* @src include/ingestion/heartbeat/heartbeat_monitor.hpp:47-51 HeartbeatMonitor *)
Record t := { interval_ms : Z; timeout_ms : Z; state : HeartbeatState; client : C }.
#[export] Instance eta_t : Eta t := fun r =>
  {| interval_ms := interval_ms r; timeout_ms := timeout_ms r; state := state r;
     client := client r |}.

(* @src include/ingestion/heartbeat/heartbeat_monitor.hpp | explicit HeartbeatMonitor( *)
Definition make (intervalMs timeoutMs : Z) (c : C) : t := {|
  interval_ms := intervalMs; timeout_ms := timeoutMs; client := c;
  state := {| lastPingMs := 0; lastPongMs := 0; pingsSent := 0; pongsReceived := 0; timedOut := false |} |}.

(* @src include/ingestion/heartbeat/heartbeat_monitor.hpp | void onPingSent() *)
Definition onPingSent (h : t) (now : Z) : t :=
  h <| state ::= fun s => s <| lastPingMs := now |> <| pingsSent ::= bump |> |>.

(* @src include/ingestion/heartbeat/heartbeat_monitor.hpp | void onPongReceived() *)
Definition onPongReceived (h : t) (now : Z) : t :=
  h <| state ::= fun s => s <| lastPongMs := now |> <| pongsReceived ::= bump |> <| timedOut := false |> |>.

(* @src include/ingestion/heartbeat/heartbeat_monitor.hpp | bool check() *)
Definition check (h : t) (now : Z) : bool * t :=
  let s := state h in
  if (0 <? lastPingMs s) && (timeout_ms h <? now - lastPingMs s) && (lastPongMs s <? lastPingMs s) then
    let h := h <| state ::= fun s => s <| timedOut := true |> |> in
    (false, match on_timeout with Some f => h <| client ::= f |> | None => h end)
  else (true, h).

(* @src include/ingestion/heartbeat/heartbeat_monitor.hpp | bool shouldPing() *)
Definition shouldPing (h : t) (now : Z) : bool :=
  (lastPingMs (state h) =? 0) || (interval_ms h <=? now - lastPingMs (state h)).

(** Remark: a ping answered at or after it was sent never times out, and one that stays unanswered
    is reported at the first check after the timeout. *)
Theorem heartbeat_detects_silence h ping now :
  0 < ping ->
  let h1 := onPingSent h ping in
  (timeout_ms h < now - ping -> lastPongMs (state h) < ping -> fst (check h1 now) = false) /\
  (forall pong, ping <= pong -> fst (check (onPongReceived h1 pong) now) = true) /\
  (now - ping <= timeout_ms h -> fst (check h1 now) = true).
Proof.
  intros Hp. cbv zeta. unfold check. simpl. split_and!.
  - intros Ht Hl. by rewrite !(proj2 (Z.ltb_lt _ _)) by done.
  - intros pong Hle. rewrite (proj2 (Z.ltb_ge pong ping)) by done. by rewrite andb_false_r.
  - intros Ht. rewrite (proj2 (Z.ltb_ge (timeout_ms h) _)) by done. by rewrite andb_false_r.
Qed.
End S.
Arguments t : clear implicits.
End HeartbeatMonitor.

(** * [ReconnectPolicy]

    [jitter] is the number drawn by the random generator. *)
Module ReconnectPolicy.
(* @src include/ingestion/reconnect_policy.hpp:14-18 ReconnectPolicy *)
Record t := { baseMs : Z; maxMs : Z; wafBackoffMs : Z; maxAttempts : Z; jitterRatio : double }.

Definition default_policy : t := {|
  baseMs := RECONNECT_BASE_MS; maxMs := RECONNECT_MAX_MS; wafBackoffMs := 12000;
  maxAttempts := 100; jitterRatio := flit 2 10 |}.

(* @src include/ingestion/reconnect_policy.hpp | applyJitter( *)
Definition applyJitter (p : t) (jitter : double) (delay : Z) : Z :=
  if fle (jitterRatio p) f0 then delay
  else Z.max 1 (ftrunc (fmul (of_Z delay) jitter)).

(** The delay before jitter. *)
(* @src include/ingestion/reconnect_policy.hpp:22-25 delayMs *)
Definition base_delay (p : t) (attempt : Z) : Z :=
  let attempt := if attempt <? 0 then 0 else attempt in
  let attempt := if 20 <? attempt then 20 else attempt in
  let d := i64 (baseMs p * Z.shiftl 1 attempt) in
  if maxMs p <? d then maxMs p else d.

(* @src include/ingestion/reconnect_policy.hpp | delayMs( *)
Definition delayMs (p : t) (jitter : double) (attempt : Z) (wafBlocked : bool) : Z :=
  if wafBlocked then wafBackoffMs p else applyJitter p jitter (base_delay p attempt).

(* @src include/ingestion/reconnect_policy.hpp | shouldGiveUp( *)
Definition shouldGiveUp (p : t) (attempt : Z) : bool := maxAttempts p <=? attempt.

Lemma base_delay_eq p a :
  0 < baseMs p < 2 ^ 43 ->
  base_delay p a = Z.min (maxMs p) (baseMs p * 2 ^ Z.min 20 (Z.max 0 a)).
Proof.
  intros Hb. unfold base_delay.
  assert ((if 20 <? (if a <? 0 then 0 else a) then 20 else if a <? 0 then 0 else a) = Z.min 20 (Z.max 0 a)) as ->.
  { destruct (Z.ltb_spec a 0); [destruct (Z.ltb_spec 20 0); lia|]. destruct (Z.ltb_spec 20 a); lia. }
  set (e := Z.min 20 (Z.max 0 a)). assert (0 <= e <= 20) by lia.
  rewrite Z.shiftl_1_l.
  assert (1 <= 2 ^ e) by (apply (Z.pow_le_mono_r 2 0); lia).
  assert (2 ^ e <= 2 ^ 20) by (apply Z.pow_le_mono_r; lia).
  rewrite i64_small by nia.
  destruct (Z.ltb_spec (maxMs p) (baseMs p * 2 ^ e)); lia.
Qed.

(** Remark: the reconnect delay before jitter doubles from the base up to the ceiling, never
    overflows and never decreases with the attempt number; with jitter it stays positive. *)
Theorem reconnect_delay_bounds p jitter a b :
  0 < baseMs p < 2 ^ 43 -> 0 < maxMs p -> 0 < wafBackoffMs p -> 0 <= a <= b ->
  0 < base_delay p a <= maxMs p /\ base_delay p a <= base_delay p b /\
  (a <= 20 -> baseMs p * 2 ^ a <= maxMs p -> base_delay p a = baseMs p * 2 ^ a) /\
  (forall waf, 0 < delayMs p jitter a waf).
Proof.
  intros Hb Hm Hw Hab. rewrite !base_delay_eq by done.
  assert (forall e, 0 <= e -> 1 <= 2 ^ e) as Hpos by (intros e He; apply (Z.pow_le_mono_r 2 0); lia).
  pose proof (Hpos (Z.min 20 (Z.max 0 a)) ltac:(lia)).
  assert (2 ^ Z.min 20 (Z.max 0 a) <= 2 ^ Z.min 20 (Z.max 0 b)) by (apply Z.pow_le_mono_r; lia).
  assert (0 < Z.min (maxMs p) (baseMs p * 2 ^ Z.min 20 (Z.max 0 a))) by nia.
  split_and!; [done|lia|nia| |].
  - intros Ha Hle. replace (Z.min 20 (Z.max 0 a)) with a by lia. lia.
  - intros waf. unfold delayMs, applyJitter. destruct waf; [done|].
    destruct (fle (jitterRatio p) f0); [by rewrite base_delay_eq|lia].
Qed.
End ReconnectPolicy.

(** * Round state machine ([round_state.hpp]) *)
Module RoundState.
(* @src include/ingestion/round_state.hpp | enum class RoundPhase : *)
Inductive RoundPhase := RNone | RPrepare | RBegin | RProgress | REnd.

#[export] Instance RoundPhase_eq_dec : EqDecision RoundPhase.
Proof. solve_decision. Defined.

(* @src include/ingestion/round_state.hpp | inline const char* toString( *)
Definition phase_string (p : RoundPhase) : string :=
  match p with
  | RNone => "none" | RPrepare => "prepare" | RBegin => "begin" | RProgress => "progress" | REnd => "end"
  end.

(* @src include/ingestion/round_state.hpp | phaseFromEventKind( *)
Definition phaseFromEventKind (k : EventKind) : RoundPhase :=
  match k with
  | KPrepare => RPrepare | KStart => RBegin | KProgress => RProgress | KEnd => REnd | _ => RNone
  end.

(* @src include/ingestion/round_state.hpp | struct LiveRoundState { *)
Record LiveRoundState := {
  st_gameId : string;
  phase : RoundPhase;
  multiplier : double;
  finalMult : double;
  st_beganAtMs : Z;
  st_endedAtMs : Z;
  updatedAtMs : Z;
  st_hash : string;
  st_sequence : Z;
  sealed : bool
}.
#[export] Instance eta_LiveRoundState : Eta LiveRoundState := fun r =>
  {| st_gameId := st_gameId r; phase := phase r; multiplier := multiplier r;
     finalMult := finalMult r; st_beganAtMs := st_beganAtMs r; st_endedAtMs := st_endedAtMs r;
     updatedAtMs := updatedAtMs r; st_hash := st_hash r; st_sequence := st_sequence r;
     sealed := sealed r |}.

Definition new_round : LiveRoundState := {|
  st_gameId := ""; phase := RNone; multiplier := f0; finalMult := f0; st_beganAtMs := 0;
  st_endedAtMs := 0; updatedAtMs := 0; st_hash := ""; st_sequence := 0; sealed := false |}.

(* @src include/ingestion/round_state.hpp | bool isLive() *)
Definition isLive (s : LiveRoundState) : bool :=
  bool_decide (phase s = RBegin) || bool_decide (phase s = RProgress).

(* @src include/ingestion/round_state.hpp:163-168 RoundStateRegistry *)
Record t := {
  by_id : gmap string LiveRoundState;
  current_id : string;
  applied : Z;
  ended : Z
}.
#[export] Instance eta_t : Eta t := fun r =>
  {| by_id := by_id r; current_id := current_id r; applied := applied r; ended := ended r |}.

Definition make : t := {| by_id := ∅; current_id := ""; applied := 0; ended := 0 |}.

(** Which round an event is about: progress without an id belongs to the current round. *)
(* @src include/ingestion/round_state.hpp:68-76 RoundStateRegistry::apply *)
Definition event_round (r : t) (ev : CrashEvent) : option string :=
  let id := if str_empty (gameId ev) then roundId ev else gameId ev in
  if negb (valid ev) then None
  else if str_empty id && negb (bool_decide (kind ev = KProgress)) then None
  else
    let key := if str_empty id && negb (str_empty (current_id r)) then current_id r else id in
    if str_empty key then None else Some key.

(** The [switch] on the event kind: the new round state, or [None] where the code returns
    early (the entry was already created and stamped by then). *)
(* @src include/ingestion/round_state.hpp:83-113 RoundStateRegistry::apply *)
Definition transition (st : LiveRoundState) (ev : CrashEvent) (now : Z) : option LiveRoundState :=
  match kind ev with
  | KPrepare => Some (st <| phase := RPrepare |> <| sealed := false |> <| multiplier := f0 |> <| finalMult := f0 |>)
  | KStart => Some (st <| phase := RBegin |> <| st_beganAtMs := or_now (beganAtMs ev) now |> <| sealed := false |>)
  | KProgress =>
      if sealed st then None
      else Some (st <| phase := RProgress |>
                    <| multiplier := if fgt (currentMult ev) f0 then currentMult ev else multiplier st |>)
  | KEnd =>
      let fm := if fgt (crashPoint ev) f0 then crashPoint ev else currentMult ev in
      Some (st <| phase := REnd |> <| finalMult := fm |> <| multiplier := fm |>
               <| st_endedAtMs := or_now (endedAtMs ev) now |>
               <| st_hash := if str_empty (hash ev) then st_hash st else hash ev |> <| sealed := true |>)
  | _ => None
  end.

(* @src include/ingestion/round_state.hpp | std::optional<LiveRoundState> apply( *)
Definition apply (r : t) (ev : CrashEvent) (now : Z) : option LiveRoundState * t :=
  match event_round r ev with
  | None => (None, r)
  | Some key =>
      let st := (default new_round (by_id r !! key)) <| st_gameId := key |> <| updatedAtMs := now |>
                  <| st_sequence := sequence ev |> in
      match transition st ev now with
      | None => (None, r <| by_id ::= insert key st |>)
      | Some st' =>
          let r := r <| by_id ::= insert key st' |> <| applied ::= bump |> in
          let r := if decide (kind ev = KPrepare \/ kind ev = KStart) then r <| current_id := key |> else r in
          (Some st', if decide (kind ev = KEnd) then r <| ended ::= bump |> else r)
      end
  end.

(* @src include/ingestion/round_state.hpp | get(const GameId *)
Definition get (r : t) (id : string) : option LiveRoundState := by_id r !! id.

(* @src include/ingestion/round_state.hpp | std::optional<LiveRoundState> current() *)
Definition current (r : t) : option LiveRoundState :=
  if str_empty (current_id r) then None else by_id r !! current_id r.

Definition prunable (st : LiveRoundState) (maxAgeMs now : Z) : bool :=
  sealed st && (0 <? st_endedAtMs st) && (maxAgeMs <? now - st_endedAtMs st).

(* @src include/ingestion/round_state.hpp | std::size_t prune( *)
Definition prune (r : t) (maxAgeMs now : Z) : nat * t :=
  let gone := filter (fun p => prunable p.2 maxAgeMs now = true) (by_id r) in
  (size gone, r <| by_id ::= fun m => m ∖ gone |>
                <| current_id := if decide (current_id r ∈ dom gone) then EmptyString else current_id r |>).

(** Well-formed registry: every entry is filed under its id, sealed exactly when ended, and
    the current round exists. *)
Definition wf (r : t) : Prop :=
  map_Forall (fun k st => st_gameId st = k /\ k <> EmptyString /\ (sealed st = true <-> phase st = REnd)) (by_id r) /\
  (current_id r <> EmptyString -> current_id r ∈ dom (by_id r)).

Lemma event_round_nonempty r ev key : event_round r ev = Some key -> key <> EmptyString.
Proof.
  unfold event_round. cbv zeta. intros H. destruct (negb (valid ev)); [done|].
  destruct (_ && negb (bool_decide _)); [done|].
  destruct (str_empty (if _ : bool then _ else _)) eqn:E; [done|]. simplify_eq. by apply str_empty_false.
Qed.

Lemma transition_seal st ev now st' :
  (sealed st = true <-> phase st = REnd) -> transition st ev now = Some st' ->
  st_gameId st' = st_gameId st /\ (sealed st' = true <-> phase st' = REnd).
Proof.
  unfold transition. intros Hs H. destruct (kind ev); simplify_eq/=; try done.
  destruct (sealed st) eqn:E; simplify_eq/=. by rewrite E.
Qed.

(** Remark: applying any event and pruning keep the registry well formed. *)
Theorem round_registry_wf r ev now maxAgeMs :
  wf r -> wf (snd (apply r ev now)) /\ wf (snd (prune r maxAgeMs now)).
Proof.
  intros [Hall Hcur]. split.
  - unfold apply. destruct (event_round r ev) as [key|] eqn:Ek; [|done].
    pose proof (event_round_nonempty _ _ _ Ek) as Hne.
    set (st := (default new_round (by_id r !! key)) <| st_gameId := key |> <| updatedAtMs := now |>
                 <| st_sequence := sequence ev |>).
    assert (sealed st = true <-> phase st = REnd) as Hst.
    { unfold st. simpl. destruct (by_id r !! key) as [s0|] eqn:E; [|done]. by apply (Hall key). }
    assert (forall s cid a e, st_gameId s = key -> (sealed s = true <-> phase s = REnd) ->
      cid = key \/ cid = current_id r ->
      wf {| by_id := <[key := s]> (by_id r); current_id := cid; applied := a; ended := e |}) as Hins.
    { intros s cid a e Hg Hs Hcid. split; simpl.
      - apply map_Forall_insert_2; [done|done].
      - intros Hc. rewrite dom_insert_L. destruct Hcid as [->| ->]; [set_solver|]. specialize (Hcur Hc). set_solver. }
    destruct (transition st ev now) as [st'|] eqn:Et; simpl.
    + apply transition_seal in Et as [Hg Hs]; [|done].
      repeat case_decide; apply Hins; auto.
    + apply Hins; auto.
  - unfold prune; simpl. split; simpl.
    + intros k st Hk. apply lookup_difference_Some in Hk as [Hk _]. by apply (Hall k).
    + case_decide as Hd; [done|]. intros Hc. specialize (Hcur Hc).
      apply elem_of_dom in Hcur as [st Hst]. apply elem_of_dom. exists st.
      apply lookup_difference_Some. split; [done|]. by apply not_elem_of_dom.
Qed.

(** Remark: once a round has ended, its phase and multipliers change only through a new prepare,
    start or end event for it; progress events for it are refused. *)
Theorem end_is_final r ev now key st :
  by_id r !! key = Some st -> sealed st = true ->
  ~ (event_round r ev = Some key /\ (kind ev = KPrepare \/ kind ev = KStart \/ kind ev = KEnd)) ->
  exists st', by_id (snd (apply r ev now)) !! key = Some st' /\ phase st' = phase st /\
    finalMult st' = finalMult st /\ multiplier st' = multiplier st /\ sealed st' = true /\
    (event_round r ev = Some key -> fst (apply r ev now) = None).
Proof.
  intros Hst Hs Hno. unfold apply. destruct (event_round r ev) as [key'|] eqn:Ek; [|by exists st].
  destruct (decide (key' = key)) as [->|Hne].
  - rewrite Hst. simpl. unfold transition.
    destruct (kind ev) eqn:Ekd; simpl; rewrite ?Hs; simpl;
      try (eexists; split; [apply lookup_insert_eq|]; simpl; by rewrite Hs);
      exfalso; apply Hno; auto.
  - assert (forall s, (<[key' := s]> (by_id r)) !! key = Some st) as Hother
      by (intros; by rewrite lookup_insert_ne).
    destruct (transition _ ev now) as [st'|]; simpl; repeat case_decide; exists st;
      (split_and!; [apply Hother|done|done|done|done|intros; simplify_eq]).
Qed.
End RoundState.

Lemma sequence_gap_count_witness :
  SequenceTracker.missed_total (SequenceTracker.observe_all SequenceTracker.make "s" [3; 4; 8]) = 3.
Proof.
  destruct (SequenceTracker.sequence_gap_count "s" 3 [4; 8]) as [H _]; [lia|simpl; lia|exact H].
Defined.

Lemma heartbeat_detects_silence_witness :
  let h := HeartbeatMonitor.make 25000 60000 tt in
  fst (HeartbeatMonitor.check None (HeartbeatMonitor.onPingSent h 10) 70000) = false.
Proof.
  intros h. apply (HeartbeatMonitor.heartbeat_detects_silence None h 10 70000); simpl; lia.
Defined.

Lemma reconnect_delay_bounds_witness :
  ReconnectPolicy.base_delay ReconnectPolicy.default_policy 3 = 4000.
Proof.
  pose proof (ReconnectPolicy.reconnect_delay_bounds ReconnectPolicy.default_policy f1 3 4) as H.
  apply H; [split; reflexivity|reflexivity|reflexivity|lia|lia|vm_compute; discriminate].
Defined.

Lemma round_registry_wf_witness :
  RoundState.wf (snd (RoundState.apply RoundState.make (default_event <| kind := KStart |>
    <| gameId := "g" |> <| valid := true |>) 5)).
Proof.
  apply (RoundState.round_registry_wf RoundState.make (default_event <| kind := KStart |>
    <| gameId := "g" |> <| valid := true |>) 5 0).
  split; [apply map_Forall_empty|]. intros H. by destruct H.
Defined.

Lemma end_is_final_witness :
  let ended := snd (RoundState.apply RoundState.make (default_event <| kind := KEnd |>
    <| gameId := "g" |> <| valid := true |> <| crashPoint := of_Z 3 |>) 5) in
  let progress := default_event <| kind := KProgress |> <| gameId := "g" |> <| valid := true |> in
  fst (RoundState.apply ended progress 6) = None.
Proof.
  intros ended progress.
  destruct (RoundState.end_is_final ended progress 6 "g"
    (default RoundState.new_round (RoundState.get ended "g"))) as (st & _ & _ & _ & _ & _ & H);
    [vm_compute; reflexivity|vm_compute; reflexivity| |apply H; vm_compute; reflexivity].
  intros [_ [E|[E|E]]]; vm_compute in E; discriminate.
Defined.
