(* ===== verification/Signing.v ===== *)
(** Signing of the socket handshake ([include/ingestion/signing], [include/security/secret_provider.hpp])
    and the URLs and headers built from a signature ([websocket_config.hpp],
    [transport_handshake.hpp]).

    HMAC-SHA256 ([hmac_raw]) comes from OpenSSL and is a parameter, like the bytes of the random
    generator and what the calls on the Unix socket answer ([Uds]). *)
From Stdlib Require Import Ascii.
From S2P Require Import Prelude Float64 Types Text Wire.

Open Scope Z_scope.

(** * Secrets *)
Module EnvSecretProvider.

(* @src include/security/secret_provider.hpp:40-41 EnvSecretProvider *)
Record t := { overrides : gmap string string }.

(** [getenv] is what the environment answers. *)
(* @src include/security/secret_provider.hpp | std::optional<std::string> get(const std::string& key) const override { *)
Definition get (getenv : string -> option string) (s : t) (key : string) : option string :=
  match overrides s !! key with
  | Some v => Some v
  | None => match getenv key with
            | Some v => if str_empty v then None else Some v
            | None => None
            end
  end.

(* @src include/security/secret_provider.hpp | void set(const std::string& key, std::string value) override { *)
Definition set (s : t) (key value : string) : t := {| overrides := <[key := value]> (overrides s) |}.
End EnvSecretProvider.

Module MapSecretProvider.
(* @src include/security/secret_provider.hpp | std::optional<std::string> get(const std::string& key) const override {#2 *)
Definition get (m : gmap string string) (key : string) : option string := m !! key.
(* @src include/security/secret_provider.hpp | void set(const std::string& key, std::string value) override {#2 *)
Definition set (m : gmap string string) (key value : string) : gmap string string := <[key := value]> m.
End MapSecretProvider.

(** * Hexadecimal text *)

Definition hex_char (n : Z) : ascii := ascii_of_byte (if n <? 10 then 48 + n else 87 + n).

(* @src include/ingestion/signing/hmac.hpp | inline std::string toHex( *)
Definition toHex (bytes : list Z) : string :=
  String.string_of_list_ascii (bytes ≫= fun b => [hex_char (b / 16); hex_char (b mod 16)]).

(** [rng] are the bytes drawn from the generator. *)
(* @src include/ingestion/signing/crypto.hpp | inline std::string randomHex( *)
Definition randomHex (rng : list Z) : string := toHex ((fun x => Z.land x 255) <$> rng).

(* @src include/ingestion/signing/crypto.hpp | inline std::string constantTimeEqual( *)
Definition constantTimeEqual (a b : string) : string :=
  if negb (Nat.eqb (String.length a) (String.length b)) then "0"
  else if fold_left (fun diff '(x, y) => Z.lor diff (Z.lxor x y)) (zip (bytes_of_string a) (bytes_of_string b)) 0 =? 0
  then "1" else "0".

(** * [SocketSignature] *)

(* @src include/ingestion/signing/signature.hpp | struct SocketSignature { *)
Record SocketSignature := { sg_p : string; sg_t : string; sg_ua : string; at_ms : Z; sg_valid : bool }.
#[export] Instance eta_SocketSignature : Eta SocketSignature := fun r =>
  {| sg_p := sg_p r; sg_t := sg_t r; sg_ua := sg_ua r; at_ms := at_ms r; sg_valid := sg_valid r |}.

Definition no_signature : SocketSignature :=
  {| sg_p := EmptyString; sg_t := EmptyString; sg_ua := EmptyString; at_ms := 0; sg_valid := false |}.

(** What one exchange on the Unix socket answers: [socket()] and [connect()] succeed, the number
    that [write] returns, and the bytes of the single [read] (none on error or end). *)
Record Uds := { u_socket : bool; u_connect : bool; u_write : string -> Z; u_read : string }.

(** * [ExternalSignerClient] *)
Module ExternalSignerClient.

(* @src include/ingestion/signing/external_signer_client.hpp | std::string path_; >> failures_{0}; | ExternalSignerClient *)
Record t := { path : string; fd : bool; connected : bool; successes : Z; failures : Z }.
#[export] Instance eta_t : Eta t := fun r =>
  {| path := path r; fd := fd r; connected := connected r; successes := successes r; failures := failures r |}.

(* @src include/ingestion/signing/external_signer_client.hpp | explicit ExternalSignerClient( *)
Definition make (socketPath : string) : t :=
  {| path := socketPath; fd := false; connected := false; successes := 0; failures := 0 |}.

(* @src include/ingestion/signing/external_signer_client.hpp | Result<void> connect() { *)
Definition connect (s : t) (u : Uds) : Result unit * t :=
  if fd s then (Ok tt, s)
  else if negb (u_socket u) then (Err (err NetworkError "socket() failed"), s)
  else if negb (u_connect u) then (Err (err ConnectionFailed ("connect to signer UDS failed: " +:+ path s)), s)
  else (Ok tt, s <| fd := true |> <| connected := true |>).

(* @src include/ingestion/signing/external_signer_client.hpp | void disconnect() { *)
Definition disconnect (s : t) : t := s <| fd := false |> <| connected := false |>.

Fixpoint escape_ua (s : string) : string :=
  match s with
  | EmptyString => EmptyString
  | String c s => if bool_decide (c = dq) || bool_decide (c = "092"%char)
                  then String "092"%char (String c (escape_ua s)) else String c (escape_ua s)
  end.

(* @src include/ingestion/signing/external_signer_client.hpp:79-84 ExternalSignerClient::sign *)
Definition request (ua : string) (ts : Z) : string :=
  json "{'op':'sign','ua':'" +:+ escape_ua ua +:+ json "','ts':" +:+ to_string ts +:+ "}" +:+ String "010"%char EmptyString.

(* @src include/ingestion/signing/external_signer_client.hpp:105-113 ExternalSignerClient::sign *)
Definition extract (resp key : string) : string :=
  let needle := quoted key +:+ json ":'" in
  match find needle resp 0 with
  | None => EmptyString
  | Some pos =>
      let pos := (pos + String.length needle)%nat in
      match find (String dq EmptyString) resp pos with
      | None => EmptyString
      | Some e => String.substring pos (e - pos) resp
      end
  end.

(** What is made of the response. *)
(* @src include/ingestion/signing/external_signer_client.hpp:115-131 ExternalSignerClient::sign *)
Definition accept (s : t) (resp ua : string) (ts : Z) : Result SocketSignature * t :=
  match find (json "'ok':true") resp 0, find (json "'ok': true") resp 0 with
  | None, None => (Err (err AuthFailed ("signer rejected: " +:+ resp)), s <| failures ::= bump |>)
  | _, _ =>
      let p := extract resp "p" in
      let t := extract resp "t" in
      let sig := {| sg_p := p; sg_t := t; sg_ua := ua; at_ms := ts; sg_valid := negb (str_empty p) && negb (str_empty t) |} in
      if sg_valid sig then (Ok sig, s <| successes ::= bump |>)
      else (Err (err AuthFailed "signer response missing p/t"), s <| failures ::= bump |>)
  end.

(* @src include/ingestion/signing/external_signer_client.hpp | Result<SocketSignature> sign( *)
Definition sign (s : t) (u : Uds) (ua : string) (ts : Z) : Result SocketSignature * t :=
  match connect s u with
  | (Err e, s) => (Err (err (code e) (message e)), s)
  | (Ok _, s) =>
      let req := request ua ts in
      if negb (u_write u req =? Z.of_nat (String.length req)) then
        (Err (err NetworkError "signer write failed"), disconnect s <| failures ::= bump |>)
      else if str_empty (u_read u) then
        (Err (err NetworkError "signer read failed"), disconnect s <| failures ::= bump |>)
      else accept s (String.substring 0 2047 (u_read u)) ua ts
  end.
End ExternalSignerClient.
#[export] Existing Instance ExternalSignerClient.eta_t.

(** * [NativeSign] *)
Module NativeSign.
Section S.
Variable secret : string -> option string.
Variable hmac_raw : string -> string -> list Z.

(* @src include/ingestion/signing/hmac.hpp | inline std::string hmacSha256Hex( *)
Definition hmacSha256Hex (key data : string) : string := toHex (hmac_raw key data).

(* @src include/ingestion/signing/native_sign.hpp | SecretProvider& secrets_; >> failures_ = 0; | NativeSign *)
Record t := {
  external : option ExternalSignerClient.t;
  cached : SocketSignature;
  fresh_ms : Z;
  stale_ms : Z;
  cache_hits : Z; refreshes : Z; stale_serves : Z; failures : Z
}.
#[export] Instance eta_t : Eta t := fun r =>
  {| external := external r; cached := cached r; fresh_ms := fresh_ms r; stale_ms := stale_ms r;
     cache_hits := cache_hits r; refreshes := refreshes r; stale_serves := stale_serves r; failures := failures r |}.

(* @src include/ingestion/signing/native_sign.hpp | ExternalSignerClient* external_ = >> failures_ = 0; | NativeSign *)
Definition make : t := {|
  external := None; cached := no_signature; fresh_ms := SIGN_FRESH_MS; stale_ms := SIGN_STALE_MAX_MS;
  cache_hits := 0; refreshes := 0; stale_serves := 0; failures := 0 |}.

(* @src include/ingestion/signing/native_sign.hpp | void setExternalSigner( *)
Definition setExternalSigner (s : t) (e : option ExternalSignerClient.t) : t := s <| external := e |>.
(* @src include/ingestion/signing/native_sign.hpp | void setFreshWindowMs( *)
Definition setFreshWindowMs (s : t) (ms : Z) : t := s <| fresh_ms := ms |>.
(* @src include/ingestion/signing/native_sign.hpp | void setStaleWindowMs( *)
Definition setStaleWindowMs (s : t) (ms : Z) : t := s <| stale_ms := ms |>.

(* @src include/common/constants.hpp:31-33 DEFAULT_UA *)
Definition DEFAULT_UA : string :=
  "Mozilla/5.0 (Windows NT 10.0; Win64; x64) AppleWebKit/537.36 (KHTML, like Gecko) Chrome/122.0.0.0 Safari/537.36".

(** What an exchange with the signer and the generator answer during a refresh; [e_ts] is the
    signer's own reading of the clock. *)
Record env := { e_uds : Uds; e_ts : Z; e_rng : list Z }.

(** The signature of the local key. *)
(* @src include/ingestion/signing/native_sign.hpp | SocketSignature s; >> return s; | NativeSign::refreshUnlocked *)
Definition local_signature (ua : string) (now : Z) (e : env) : SocketSignature :=
  match secret "BC_SIGN_KEY" with
  | Some key =>
      if str_empty key then no_signature
      else {| sg_t := to_string now; sg_ua := ua; at_ms := now; sg_valid := true;
              sg_p := hmacSha256Hex key (to_string now +:+ "|" +:+ ua +:+ "|" +:+ randomHex (e_rng e)) |}
  | None => no_signature
  end.

(* @src include/ingestion/signing/native_sign.hpp | SocketSignature refreshUnlocked( *)
Definition refreshUnlocked (s : t) (now : Z) (e : env) : SocketSignature * t :=
  let ua := default DEFAULT_UA (secret "BC_USER_AGENT") in
  match external s with
  | Some x =>
      let '(r, x) := ExternalSignerClient.sign x (e_uds e) ua (e_ts e) in
      let s := s <| external := Some x |> in
      match r with
      | Ok sig => if sg_valid sig then (sig <| at_ms := now |>, s) else (local_signature ua now e, s)
      | Err _ => (local_signature ua now e, s)
      end
  | None => (local_signature ua now e, s)
  end.

(* @src include/ingestion/signing/native_sign.hpp | SocketSignature signSocketQuery() { *)
Definition signSocketQuery (s : t) (now : Z) (e : env) : SocketSignature * t :=
  if sg_valid (cached s) && (now - at_ms (cached s) <? fresh_ms s) then (cached s, s <| cache_hits ::= bump |>)
  else
    let '(refreshed, s) := refreshUnlocked s now e in
    if sg_valid refreshed then (refreshed, s <| cached := refreshed |> <| refreshes ::= bump |>)
    else if sg_valid (cached s) && (now - at_ms (cached s) <? stale_ms s) then (cached s, s <| stale_serves ::= bump |>)
    else (no_signature, s <| failures ::= bump |>).

(* @src include/ingestion/signing/native_sign.hpp | bool isReady() const { *)
Definition isReady (s : t) : bool := sg_valid (cached s).
End S.
End NativeSign.
#[export] Existing Instance NativeSign.eta_t.

(** * Properties *)

Lemma zip_xor_zero l : forall k d, length l = length k -> Forall (fun x => 0 <= x) l -> Forall (fun x => 0 <= x) k -> 0 <= d ->
  fold_left (fun diff '(x, y) => Z.lor diff (Z.lxor x y)) (zip l k) d = 0 <-> d = 0 /\ l = k.
Proof.
  induction l as [|x l IH]; intros [|y k] d El Hl Hk Hd; simplify_eq/=; [naive_solver|].
  apply list.Forall_cons in Hl as [Hx Hl]. apply list.Forall_cons in Hk as [Hy Hk].
  rewrite IH by (done || (apply Z.lor_nonneg; split; [done|]; by apply Z.lxor_nonneg)).
  rewrite Z.lor_eq_0_iff, Z.lxor_eq_0_iff. naive_solver.
Qed.

(** Remark: the comparison that does not stop at the first difference decides equality. *)
Theorem constant_time_equal_spec (a b : string) : constantTimeEqual a b = (if decide (a = b) then "1" else "0").
Proof.
  assert (forall s, Forall (fun x => 0 <= x) (bytes_of_string s)) as Hb.
  { intros s. eapply list.Forall_impl; [apply bytes_of_string_range|]. unfold is_byte. lia. }
  unfold constantTimeEqual. destruct (Nat.eqb_spec (String.length a) (String.length b)) as [El|El]; simpl.
  - pose proof (zip_xor_zero (bytes_of_string a) (bytes_of_string b) 0) as H.
    rewrite !length_bytes_of_string in H. specialize (H El (Hb a) (Hb b) ltac:(lia)).
    case_decide as E; [subst; by rewrite (proj2 (Z.eqb_eq _ _)) by (apply H; done)|].
    rewrite (proj2 (Z.eqb_neq _ _)); [done|]. intros Hz. apply E. apply H in Hz as [_ Hz].
    by rewrite <-(string_of_bytes_of_string a), Hz, string_of_bytes_of_string.
  - case_decide; [by subst|done].
Qed.

(** ** The answer of the signer *)

Definition signer_answer (p t : string) : string :=
  json "{'ok':true,'p':'" +:+ p +:+ json "','t':'" +:+ t +:+ json "'}" +:+ String "010"%char EmptyString.

Lemma extract_field pre key v post :
  find (quoted key +:+ json ":'") (pre +:+ (quoted key +:+ json ":'") +:+ v +:+ String dq post) 0 = Some (String.length pre) ->
  no_dq v ->
  ExternalSignerClient.extract (pre +:+ (quoted key +:+ json ":'") +:+ v +:+ String dq post) key = v.
Proof.
  intros Hf Hv. unfold ExternalSignerClient.extract. cbv zeta. rewrite Hf. set (needle := quoted key +:+ json ":'").
  assert (String.length pre + String.length needle = String.length (pre +:+ needle))%nat as -> by (by rewrite length_app_str).
  rewrite <-(app_assoc_str pre needle). unfold find. rewrite index_from by done. rewrite index_skip by done.
  replace (String.index 0 (String dq EmptyString) (String dq post)) with (Some 0%nat) by (by destruct post).
  simpl. replace (_ + (_ + 0) - _)%nat with (String.length v) by lia. apply substring_app.
Qed.

Lemma prefix_t_value p rest : no_dq p -> String.prefix ("t" +:+ json "':'") (p +:+ String dq (String "," rest)) = false.
Proof.
  intros Hp. destruct p as [|x [|y p]]; rewrite ?app_cons_str, ?app_empty_str; [reflexivity| |].
  - change ((if ascii_dec "t" x then false else false) = false). by destruct (ascii_dec "t" x).
  - apply no_dq_cons in Hp as [_ [Hy _]%no_dq_cons].
    change ((if ascii_dec "t" x then if ascii_dec dq y then String.prefix (json ":'") (p +:+ String dq (String "," rest)) else false else false) = false).
    destruct (ascii_dec "t" x); [|done]. destruct (ascii_dec dq y) as [E|_]; [by destruct Hy|done].
Qed.

Lemma index_cons_no needle c s : String.prefix needle (String c s) = false ->
  String.index 0 needle (String c s) = S <$> String.index 0 needle s.
Proof. intros Hp. cbn [String.index]. rewrite Hp. by destruct (String.index 0 needle s). Qed.

Lemma find_t p rest : no_dq p ->
  find (quoted "t" +:+ json ":'") (json "{'ok':true,'p':'" +:+ p +:+ json "'," +:+ (quoted "t" +:+ json ":'") +:+ rest) 0 =
    Some (String.length (json "{'ok':true,'p':'" +:+ p +:+ json "',")).
Proof.
  intros Hp. unfold find. set (needle := quoted "t" +:+ json ":'").
  assert (String.index 0 needle (p +:+ json "'," +:+ needle +:+ rest) = Some (String.length p + 2)%nat) as Hi.
  { change needle with (String dq ("t" +:+ json "':'")). rewrite index_skip by done. by destruct rest. }
  let l := eval vm_compute in (json "{'ok':true,'p':'") in change (json "{'ok':true,'p':'") with l.
  rewrite !app_cons_str, !app_empty_str. do 15 rewrite index_cons_no by reflexivity.
  rewrite index_cons_no.
  - rewrite Hi. cbn [String.length]. rewrite length_app_str. reflexivity.
  - unfold needle. cbn [String.prefix]. apply (prefix_t_value p (needle +:+ rest) Hp).
Qed.

(** Remark: the reader takes back exactly the two values of the answer of the signer, whatever they
    are (without quotes in them): the signature carries them and counts as a success. *)
Theorem signer_answer_read (s : ExternalSignerClient.t) (p t ua : string) (ts : Z) :
  no_dq p -> no_dq t -> p <> EmptyString -> t <> EmptyString ->
  ExternalSignerClient.accept s (signer_answer p t) ua ts =
    (Ok {| sg_p := p; sg_t := t; sg_ua := ua; at_ms := ts; sg_valid := true |},
     s <| ExternalSignerClient.successes ::= bump |>).
Proof.
  intros Hp Ht Hp0 Ht0. set (tail := json "}" +:+ String "010"%char EmptyString).
  assert (signer_answer p t = json "{'ok':true," +:+ (quoted "p" +:+ json ":'") +:+ p +:+ String dq ("," +:+ (quoted "t" +:+ json ":'") +:+ t +:+ String dq tail)) as Ep by done.
  assert (signer_answer p t = (json "{'ok':true,'p':'" +:+ p +:+ json "',") +:+ (quoted "t" +:+ json ":'") +:+ t +:+ String dq tail) as Et.
  { unfold signer_answer. rewrite !app_assoc_str. done. }
  assert (ExternalSignerClient.extract (signer_answer p t) "p" = p) as HEp.
  { rewrite Ep. apply extract_field; [by destruct p|done]. }
  assert (ExternalSignerClient.extract (signer_answer p t) "t" = t) as HEt.
  { rewrite Et. apply extract_field; [|done]. rewrite (app_assoc_str (json "{'ok':true,'p':'")), (app_assoc_str p). by apply find_t. }
  unfold ExternalSignerClient.accept. rewrite HEp, HEt.
  replace (find (json "'ok':true") (signer_answer p t) 0) with (Some 1%nat) by reflexivity.
  apply str_empty_false in Hp0, Ht0. cbv zeta. cbn [sg_valid]. by rewrite Hp0, Ht0.
Qed.

Section Query.
Variable secret : string -> option string.
Variable hmac_raw : string -> string -> list Z.

Lemma local_at ua now e : sg_valid (NativeSign.local_signature secret hmac_raw ua now e) = true ->
  at_ms (NativeSign.local_signature secret hmac_raw ua now e) = now.
Proof. unfold NativeSign.local_signature. destruct (secret "BC_SIGN_KEY") as [key|]; [|done]. by destruct (str_empty key). Qed.

(** A refresh makes a signature of now, or an invalid one, and touches only the signer. *)
Lemma refreshed_spec s now e :
  let '(r, s') := NativeSign.refreshUnlocked secret hmac_raw s now e in
  (sg_valid r = true -> at_ms r = now) /\
  (NativeSign.cached s' = NativeSign.cached s /\ NativeSign.stale_ms s' = NativeSign.stale_ms s /\
   NativeSign.fresh_ms s' = NativeSign.fresh_ms s).
Proof.
  unfold NativeSign.refreshUnlocked. destruct (NativeSign.external s) as [x|]; [|split; [apply local_at|done]].
  destruct (ExternalSignerClient.sign x _ _ _) as [[sig|er] x']; [|split; [apply local_at|done]].
  destruct (sg_valid sig); [done|]. split; [apply local_at|done].
Qed.

(** C17: a signature that is handed out was made now or is younger than the window it is served
    from, and it is the one kept for later calls; without one, the kept signature is missing or
    older than the stale window and neither the signer nor a local key answered. *)
Theorem sign_serves_recent (s : NativeSign.t) (now : Z) (e : NativeSign.env) :
  NativeSign.fresh_ms s <= NativeSign.stale_ms s ->
  let '(sig, s') := NativeSign.signSocketQuery secret hmac_raw s now e in
  if sg_valid sig
  then NativeSign.cached s' = sig /\ (at_ms sig = now \/ sig = NativeSign.cached s /\ now - at_ms sig < NativeSign.stale_ms s)
  else NativeSign.cached s' = NativeSign.cached s /\
       sg_valid (NativeSign.refreshUnlocked secret hmac_raw s now e).1 = false /\
       (sg_valid (NativeSign.cached s) = true -> NativeSign.stale_ms s <= now - at_ms (NativeSign.cached s)).
Proof.
  intros Hw. unfold NativeSign.signSocketQuery. pose proof (refreshed_spec s now e) as H.
  destruct (NativeSign.refreshUnlocked secret hmac_raw s now e) as [r s1]. destruct H as (Hr & Hc & Hs & _). cbn [fst].
  destruct (sg_valid (NativeSign.cached s)) eqn:Ev; cbn [andb].
  - destruct (Z.ltb_spec (now - at_ms (NativeSign.cached s)) (NativeSign.fresh_ms s)) as [Hf|Hf].
    { simpl. rewrite Ev. split; [done|]. right. split; [done|lia]. }
    destruct (sg_valid r) eqn:Er; [simpl; rewrite Er; split; [done|]; left; by apply Hr|].
    rewrite Hc, Ev, Hs. cbn [andb].
    destruct (Z.ltb_spec (now - at_ms (NativeSign.cached s)) (NativeSign.stale_ms s)) as [Hl|Hl]; simpl.
    + rewrite Ev. split; [done|]. by right.
    + split_and!; [done|done|lia].
  - destruct (sg_valid r) eqn:Er; [simpl; rewrite Er; split; [done|]; left; by apply Hr|].
    rewrite Hc, Ev. simpl. by split_and!.
Qed.
End Query.

Lemma signer_answer_read_witness :
  (ExternalSignerClient.accept (ExternalSignerClient.make "/tmp/s") (signer_answer "a1" "7") "ua" 5).1 =
  Ok {| sg_p := "a1"; sg_t := "7"; sg_ua := "ua"; at_ms := 5; sg_valid := true |}.
Proof.
  rewrite (signer_answer_read (ExternalSignerClient.make "/tmp/s") "a1" "7" "ua" 5); [reflexivity|..].
  - refine (bool_decide_unpack _ _). vm_compute. exact I.
  - refine (bool_decide_unpack _ _). vm_compute. exact I.
  - discriminate.
  - discriminate.
Defined.

(** A client with a local key whose kept signature is 100 s old, and whose signer does not answer. *)
Definition old_signature : NativeSign.t :=
  NativeSign.make <| NativeSign.cached := {| sg_p := "p"; sg_t := "t"; sg_ua := "u"; at_ms := 1000; sg_valid := true |} |>.
Definition no_signer : NativeSign.env :=
  {| NativeSign.e_uds := {| u_socket := false; u_connect := false; u_write := fun _ => -1; u_read := EmptyString |};
     NativeSign.e_ts := 0; NativeSign.e_rng := [1; 2; 3; 4; 5; 6; 7; 8] |}.

Lemma sign_serves_recent_witness :
  let '(sig, s') := NativeSign.signSocketQuery (fun _ => None) (fun _ _ => []) old_signature 101000 no_signer in
  sg_valid sig = true /\ (at_ms sig = 101000 \/ sig = NativeSign.cached old_signature /\ 101000 - at_ms sig < NativeSign.stale_ms old_signature).
Proof.
  pose proof (sign_serves_recent (fun _ => None) (fun _ _ => []) old_signature 101000 no_signer) as H.
  assert (NativeSign.fresh_ms old_signature <= NativeSign.stale_ms old_signature) as Hw by (vm_compute; discriminate).
  specialize (H Hw). destruct (NativeSign.signSocketQuery _ _ _ _ _) as [sig s'] eqn:E.
  assert (sg_valid sig = true) as Hv by (change sig with (sig, s').1; rewrite <-E; reflexivity).
  rewrite Hv in H. split; [exact Hv|]. exact (proj2 H).
Defined.
