(* ===== verification/Socket.v ===== *)
(** The socket side of [include/ingestion]: the transport as an interface with the injectable
    connection as its instance ([websocket/]), the Socket.IO client ([socketio_client.hpp]), the
    session that joins the namespace and reconnects, and the handshake helpers
    ([transport_handshake.hpp]).

    The TLS connection of Boost.Beast is another instance of the interface and stays outside.
    A method that calls back takes the callbacks as functions on the rest of the state [X]; it
    answers [None] where the program would call through an object that is gone. *)
From Stdlib Require Import Ascii.
From S2P Require Import Prelude Float64 Types Text Wire Decoder Ingest Signing.

Open Scope Z_scope.

(** * Configuration and metrics *)

(* @src include/ingestion/websocket/websocket_config.hpp | struct WebSocketConfig { *)
Record WebSocketConfig := {
  host : string; path : string; port : string; tls : bool;
  reconnect_base_ms : Z; reconnect_max_ms : Z; max_reconnect_attempts : Z;
  user_agent : string; auto_reconnect : bool; extra_query : string }.
#[export] Instance eta_WebSocketConfig : Eta WebSocketConfig := fun r =>
  {| host := host r; path := path r; port := port r; tls := tls r; reconnect_base_ms := reconnect_base_ms r;
     reconnect_max_ms := reconnect_max_ms r; max_reconnect_attempts := max_reconnect_attempts r;
     user_agent := user_agent r; auto_reconnect := auto_reconnect r; extra_query := extra_query r |}.

(* @src include/ingestion/websocket/websocket_config.hpp:8-23 WebSocketConfig *)
Definition default_ws_config : WebSocketConfig := {|
  host := "bc.game"; path := "/socket.io/?EIO=3&transport=websocket"; port := "443"; tls := true;
  reconnect_base_ms := RECONNECT_BASE_MS; reconnect_max_ms := RECONNECT_MAX_MS; max_reconnect_attempts := 50;
  user_agent := NativeSign.DEFAULT_UA; auto_reconnect := true; extra_query := EmptyString |}.

Definition has_question (s : string) : bool := match find "?" s 0 with Some _ => true | None => false end.

(* @src include/ingestion/websocket/websocket_config.hpp | inline std::string buildWebSocketUrl( *)
Definition buildWebSocketUrl (cfg : WebSocketConfig) : string :=
  (if tls cfg then "wss://" else "ws://") +:+ host cfg
  +:+ (if bool_decide (port cfg = "443") || bool_decide (port cfg = "80") then EmptyString else ":" +:+ port cfg)
  +:+ path cfg
  +:+ (if str_empty (extra_query cfg) then EmptyString
       else (if has_question (path cfg) then "&" else "?") +:+ extra_query cfg).

(* @src include/ingestion/transport_handshake.hpp | struct HandshakeParams { *)
Record HandshakeParams := {
  hp_host : string; hp_path : string; hp_eio : string; hp_transport : string; hp_origin : string;
  hp_userAgent : string; hp_secure : bool }.
Definition default_handshake : HandshakeParams := {|
  hp_host := "socketv4.bc.game"; hp_path := "/socket.io/"; hp_eio := "3"; hp_transport := "websocket";
  hp_origin := "https://bc.game"; hp_userAgent := NativeSign.DEFAULT_UA; hp_secure := true |}.

Definition signed_query (sig : SocketSignature) : string := "p=" +:+ sg_p sig +:+ "&t=" +:+ sg_t sig.

(* @src include/ingestion/transport_handshake.hpp | inline std::string buildSocketPath( *)
Definition buildSocketPath (p : HandshakeParams) (sig : SocketSignature) : string :=
  hp_path p +:+ (if has_question (hp_path p) then "&" else "?") +:+ "EIO=" +:+ hp_eio p +:+ "&transport=" +:+ hp_transport p
  +:+ (if sg_valid sig then "&" +:+ signed_query sig else EmptyString).

(* @src include/ingestion/transport_handshake.hpp | inline WebSocketConfig makeWsConfig( *)
Definition makeWsConfig (hp : HandshakeParams) (sig : SocketSignature) (policy : ReconnectPolicy.t) : WebSocketConfig := {|
  host := hp_host hp; path := buildSocketPath hp sig; port := if hp_secure hp then "443" else "80"; tls := hp_secure hp;
  user_agent := hp_userAgent hp; auto_reconnect := true; reconnect_base_ms := ReconnectPolicy.baseMs policy;
  reconnect_max_ms := ReconnectPolicy.maxMs policy; max_reconnect_attempts := ReconnectPolicy.maxAttempts policy;
  extra_query := if sg_valid sig then signed_query sig else EmptyString |}.

(* @src include/ingestion/transport_handshake.hpp:54-64 handshakeHeaders *)
Definition handshakeHeaders (hp : HandshakeParams) : list (string * string) :=
  [("Origin", hp_origin hp); ("User-Agent", hp_userAgent hp); ("Cache-Control", "no-cache"); ("Pragma", "no-cache");
   ("Accept-Encoding", "gzip, deflate, br"); ("Accept-Language", "en-US,en;q=0.9")].

(** Remark: a configuration made from a valid signature carries the signature in its path and
    again in its query, so the URL repeats the parameters [p] and [t]. *)
Lemma signed_url_repeats (hp : HandshakeParams) (sig : SocketSignature) (policy : ReconnectPolicy.t) :
  sg_valid sig = true -> hp_secure hp = true ->
  exists before between,
    buildWebSocketUrl (makeWsConfig hp sig policy) = before +:+ signed_query sig +:+ between +:+ signed_query sig.
Proof.
  intros Hv Hs. unfold buildWebSocketUrl. cbn [tls host port path extra_query makeWsConfig].
  unfold makeWsConfig. cbn [tls host port path extra_query]. rewrite Hs, Hv. cbn [str_empty signed_query]. unfold buildSocketPath. rewrite Hv.
  set (q := signed_query sig). set (sep := if has_question (hp_path hp) then "&" else "?").
  assert (str_empty q = false) as -> by done.
  exists ("wss://" +:+ hp_host hp +:+ hp_path hp +:+ sep +:+ "EIO=" +:+ hp_eio hp +:+ "&transport=" +:+ hp_transport hp +:+ "&").
  exists (if has_question (buildSocketPath hp sig) then "&" else "?"). unfold buildSocketPath. rewrite Hv. fold q sep. clearbody q sep.
  rewrite bool_decide_true by done. cbn [orb]. rewrite app_empty_str.
  generalize "wss://" "EIO=" "&transport=" "&"; intros a b c d. rewrite !app_assoc_str. reflexivity.
Qed.

(* @src include/ingestion/transport_handshake.hpp | enum class HandshakeStage : *)
Inductive HandshakeStage :=
| HsIdle | ResolvingSign | OpeningTcp | TlsHandshake | HttpUpgrade | EngineOpen | NamespaceConnect | NamespaceJoin
| HsLive | HsFailed.

(* @src include/ingestion/transport_handshake.hpp | inline const char* toString(HandshakeStage *)
Definition handshake_stage_name (s : HandshakeStage) : string :=
  match s with
  | HsIdle => "idle" | ResolvingSign => "resolving_sign" | OpeningTcp => "opening_tcp"
  | TlsHandshake => "tls_handshake" | HttpUpgrade => "http_upgrade" | EngineOpen => "engine_open"
  | NamespaceConnect => "namespace_connect" | NamespaceJoin => "namespace_join"
  | HsLive => "live" | HsFailed => "failed"
  end.

Module HandshakeStateMachine.
(* @src include/ingestion/transport_handshake.hpp:129-133 HandshakeStateMachine *)
Record t := { stage : HandshakeStage; last_error : string; transitions : Z; failures : Z }.
#[export] Instance eta_t : Eta t := fun r =>
  {| stage := stage r; last_error := last_error r; transitions := transitions r; failures := failures r |}.
Definition make : t := {| stage := HsIdle; last_error := EmptyString; transitions := 0; failures := 0 |}.
(* @src include/ingestion/transport_handshake.hpp | void advance(HandshakeStage s) *)
Definition advance (m : t) (s : HandshakeStage) : t := m <| stage := s |> <| transitions ::= bump |>.
(* @src include/ingestion/transport_handshake.hpp | void fail(std::string reason) { *)
Definition fail (m : t) (reason : string) : t := m <| stage := HsFailed |> <| last_error := reason |> <| failures ::= bump |>.
(* @src include/ingestion/transport_handshake.hpp | Result<void> simulateSuccess( *)
Definition simulateSuccess (m : t) : t :=
  fold_left advance [ResolvingSign; OpeningTcp; TlsHandshake; HttpUpgrade; EngineOpen; NamespaceConnect; NamespaceJoin; HsLive] m.
End HandshakeStateMachine.

(* @src include/ingestion/websocket/websocket_metrics.hpp | struct WebSocketMetrics { *)
Record WebSocketMetrics := {
  frames_rx : Z; frames_tx : Z; bytes_rx : Z; bytes_tx : Z; m_reconnects : Z; m_errors : Z;
  handshake_ok : Z; handshake_fail : Z; last_rx_ms : Z; last_tx_ms : Z; connected_since_ms : Z }.
#[export] Instance eta_WebSocketMetrics : Eta WebSocketMetrics := fun r =>
  {| frames_rx := frames_rx r; frames_tx := frames_tx r; bytes_rx := bytes_rx r; bytes_tx := bytes_tx r;
     m_reconnects := m_reconnects r; m_errors := m_errors r; handshake_ok := handshake_ok r;
     handshake_fail := handshake_fail r; last_rx_ms := last_rx_ms r; last_tx_ms := last_tx_ms r;
     connected_since_ms := connected_since_ms r |}.
Definition no_metrics : WebSocketMetrics := {|
  frames_rx := 0; frames_tx := 0; bytes_rx := 0; bytes_tx := 0; m_reconnects := 0; m_errors := 0; handshake_ok := 0;
  handshake_fail := 0; last_rx_ms := 0; last_tx_ms := 0; connected_since_ms := 0 |}.

(* @src include/ingestion/websocket/websocket_metrics.hpp | void onRx( *)
Definition onRx (m : WebSocketMetrics) (n now : Z) : WebSocketMetrics :=
  m <| frames_rx ::= bump |> <| bytes_rx ::= fun b => u64 (b + n) |> <| last_rx_ms := now |>.
(* @src include/ingestion/websocket/websocket_metrics.hpp | void onTx( *)
Definition onTx (m : WebSocketMetrics) (n now : Z) : WebSocketMetrics :=
  m <| frames_tx ::= bump |> <| bytes_tx ::= fun b => u64 (b + n) |> <| last_tx_ms := now |>.

(** * The transport

    [ws_close] also says whether the connection was up, which is when its state handler is told.
    [ws_poll] gives the frames that arrived.  The laws are what the session relies on. *)
(* @src include/ingestion/websocket/websocket_connection.hpp:19-111 WebSocketConnection *)
Class WebSocket (D : Type) := {
  ws_config : D -> WebSocketConfig;
  ws_connected : D -> bool;
  ws_update_metrics : (WebSocketMetrics -> WebSocketMetrics) -> D -> D;
  ws_connect : Z -> D -> Result unit * D;
  ws_close : D -> bool * D;
  ws_send : list Z -> Z -> D -> Result unit * D;
  ws_poll : D -> list (list Z) * D;
  ws_config_law d f now x : ws_config (ws_connect now d).2 = ws_config d /\ ws_config (ws_close d).2 = ws_config d /\
    ws_config (ws_send x now d).2 = ws_config d /\ ws_config (ws_poll d).2 = ws_config d /\
    ws_config (ws_update_metrics f d) = ws_config d;
  ws_metrics_law f d : ws_connected (ws_update_metrics f d) = ws_connected d;
  ws_connect_law now d : is_ok (ws_connect now d).1 = true -> ws_connected (ws_connect now d).2 = true;
  ws_close_law d : (ws_close d).1 = ws_connected d /\ ws_connected (ws_close d).2 = false;
  ws_send_law x now d : ws_connected d = false -> is_ok (ws_send x now d).1 = false
}.

(** ** The injectable connection *)
Module WebSocketConnection.

(* @src include/ingestion/websocket/websocket_connection.hpp:103-110 WebSocketConnection *)
Record t := { cfg : WebSocketConfig; metrics : option WebSocketMetrics; connected : bool; tx_log : list (list Z) }.
#[export] Instance eta_t : Eta t := fun r =>
  {| cfg := cfg r; metrics := metrics r; connected := connected r; tx_log := tx_log r |}.

(* @src include/ingestion/websocket/websocket_connection.hpp | explicit WebSocketConnection( *)
Definition make (c : WebSocketConfig) (m : option WebSocketMetrics) : t :=
  {| cfg := c; metrics := m; connected := false; tx_log := [] |}.

(* @src include/ingestion/websocket/websocket_connection.hpp | virtual Result<void> connect() { *)
Definition connect (now : Z) (s : t) : Result unit * t :=
  if connected s then (Ok tt, s)
  else (Ok tt, s <| connected := true |>
                 <| metrics ::= fmap (fun m => m <| handshake_ok ::= bump |> <| connected_since_ms := now |>) |>).

(* @src include/ingestion/websocket/websocket_connection.hpp | virtual void close() { *)
Definition close (s : t) : bool * t := (connected s, s <| connected := false |>).

(* @src include/ingestion/websocket/websocket_connection.hpp | virtual Result<void> send( *)
Definition send (data : list Z) (now : Z) (s : t) : Result unit * t :=
  if negb (connected s) then (Err (err ConnectionFailed "not connected"), s)
  else (Ok tt, s <| metrics ::= fmap (fun m => onTx m (Z.of_nat (length data)) now) |> <| tx_log ::= fun l => push_window 256 l data |>).

(* @src include/ingestion/websocket/websocket_connection.hpp | void inject(const std::uint8_t* d, std::size_t n) { *)
Definition inject {X} (on_data : list Z -> X -> X) (data : list Z) (now : Z) (s : t) (x : X) : t * X :=
  (s <| metrics ::= fmap (fun m => onRx m (Z.of_nat (length data)) now) |>, on_data data x).

(* @src include/ingestion/websocket/websocket_connection.hpp | std::vector<std::uint8_t> lastTx() const { *)
Definition lastTx (s : t) : list Z := default [] (last (tx_log s)).

#[export] Instance WebSocketConnection_ws : WebSocket t.
Proof.
  refine {| ws_config := cfg; ws_connected := connected; ws_update_metrics f s := s <| metrics ::= fmap f |>;
            ws_connect := connect; ws_close := close; ws_send := send; ws_poll s := ([], s) |}.
  - intros s f now x. unfold connect, send. destruct (connected s); split_and!; done.
  - done.
  - intros now s. unfold connect. by destruct (connected s) eqn:E.
  - done.
  - intros x now s Hc. unfold send. by rewrite Hc.
Defined.
End WebSocketConnection.
#[export] Existing Instances WebSocketConnection.eta_t WebSocketConnection.WebSocketConnection_ws.

(** * [SocketIoClient] *)
Module SocketIoClient.

#[local] Existing Instance HeartbeatMonitor.eta_t.

(** [has_send]: whether [setSend] was called; nothing ever takes the function back. *)
(* @src include/ingestion/socketio/socketio_client.hpp | NativeSign* sign_ = nullptr; >> joins_{0}; | SocketIoClient *)
Record t := {
  has_send : bool; heartbeat : HeartbeatMonitor.t unit; sid : string; ping_interval_ms : Z; ping_timeout_ms : Z;
  connected : bool; joined : bool; frames_rx : Z; opens : Z; joins : Z }.
#[export] Instance eta_t : Eta t := fun r =>
  {| has_send := has_send r; heartbeat := heartbeat r; sid := sid r; ping_interval_ms := ping_interval_ms r;
     ping_timeout_ms := ping_timeout_ms r; connected := connected r; joined := joined r; frames_rx := frames_rx r;
     opens := opens r; joins := joins r |}.

(* @src include/ingestion/socketio/socketio_client.hpp | explicit SocketIoClient( *)
Definition make : t := {|
  has_send := false; heartbeat := HeartbeatMonitor.make HEARTBEAT_INTERVAL_MS HEARTBEAT_TIMEOUT_MS tt; sid := EmptyString;
  ping_interval_ms := 25000; ping_timeout_ms := 60000; connected := false; joined := false; frames_rx := 0; opens := 0;
  joins := 0 |}.

Definition nsp : string := "/g/cm".

Section S.
Context {X : Type}.
(** [send] answers [None] when the object it was bound to is gone. *)
Variable send : list Z -> X -> option (bool * X).
Variable on_packet : option (SocketIoPacket -> t * X -> option (t * X)).
Variable on_frame : option (list Z -> X -> X).
Variable on_state : option (bool -> X -> X).

Definition tell (up : bool) (x : X) : X := match on_state with Some h => h up x | None => x end.

(* @src include/ingestion/socketio/socketio_client.hpp | Result<void> joinCrashNamespace() { *)
Definition joinCrashNamespace (sx : t * X) : option (Result unit * (t * X)) :=
  let '(s, x) := sx in
  if negb (has_send s) then Some (Err (err InternalError "send not configured"), (s, x))
  else
    '(ok, x) ← send (encodeConnect nsp) x;
    if negb ok then Some (Err (err NetworkError "connect frame send failed"), (s, x))
    else
      '(ok, x) ← send (encodeJoin nsp "join") x;
      if negb ok then Some (Err (err NetworkError "join frame send failed"), (s, x))
      else Some (Ok tt, (s <| joined := true |> <| connected := true |> <| joins ::= bump |>, tell true x)).

(** [t0], [t1]: the readings of the clock by the heartbeat. *)
(* @src include/ingestion/socketio/socketio_client.hpp | void onBinaryFrame( *)
Definition onBinaryFrame (data : list Z) (t0 t1 : Z) (sx : t * X) : option (t * X) :=
  let '(s, x) := sx in
  let s := s <| frames_rx ::= bump |> in
  match data with
  | [] => Some (s, x)
  | b0 :: _ =>
      if engineio.isPing data then
        let s := s <| heartbeat ::= fun h => HeartbeatMonitor.onPingSent h t0 |> in
        if has_send s then
          '(_, x) ← send engineio.encodePong x;
          Some (s <| heartbeat ::= fun h => HeartbeatMonitor.onPongReceived h t1 |>, x)
        else Some (s, x)
      else if engineio.isPong data then Some (s <| heartbeat ::= fun h => HeartbeatMonitor.onPongReceived h t0 |>, x)
      else if engineio.isOpenFrame data then
        let open := engineio.parseOpen data in
        Some (s <| sid := pk_sid open |>
                <| ping_interval_ms ::= fun i => if 0 <? pk_pingInterval open then pk_pingInterval open else i |>
                <| ping_timeout_ms ::= fun i => if 0 <? pk_pingTimeout open then pk_pingTimeout open else i |>
                <| opens ::= bump |>, x)
      else if engineio.isClose data then Some (s <| connected := false |> <| joined := false |>, tell false x)
      else
        '(s, x) ← (if b0 =? 4 then
                     pkt ← parsePacket data;
                     match on_packet with Some h => h pkt (s, x) | None => Some (s, x) end
                   else Some (s, x));
        Some (s, match on_frame with Some h => h data x | None => x end)
  end.

(** A packet of the event encoder goes to the packet handler and then to the frame handler. *)
Lemma onBinaryFrame_event name space payload t0 t1 s x :
  short space -> short name ->
  onBinaryFrame (encodeEvent space name payload) t0 t1 (s, x) =
    ('(s, x) ← (match on_packet with
                | Some h => h (EventDecoder.event_packet space name payload) (s <| frames_rx ::= bump |>, x)
                | None => Some (s <| frames_rx ::= bump |>, x)
                end);
     Some (s, match on_frame with Some h => h (encodeEvent space name payload) x | None => x end)).
Proof.
  intros Hn Hs. destruct (packet_parsed space name payload Hn Hs) as [Hp _].
  unfold onBinaryFrame. rewrite Hp. unfold encodeEvent. simpl. done.
Qed.

(** [t0], [t1], [t2]: the readings of the clock by the heartbeat. *)
(* @src include/ingestion/socketio/socketio_client.hpp | void tick() { *)
Definition tick (t0 t1 t2 : Z) (sx : t * X) : option (t * X) :=
  let '(s, x) := sx in
  if negb (connected s) then Some (s, x)
  else
    '(s, x) ← (if HeartbeatMonitor.shouldPing (heartbeat s) t0 && has_send s then
                 '(_, x) ← send engineio.encodePing x;
                 Some (s <| heartbeat ::= fun h => HeartbeatMonitor.onPingSent h t1 |>, x)
               else Some (s, x));
    Some (s <| heartbeat ::= fun h => snd (HeartbeatMonitor.check None h t2) |>, x).
End S.

(** [sig]: what [signSocketQuery] answers, when there is a signer. *)
(* @src include/ingestion/socketio/socketio_client.hpp | std::string buildSignedQuery() const { *)
Definition buildSignedQuery (sig : option SocketSignature) : string :=
  match sig with
  | Some sig => if sg_valid sig then "EIO=3&transport=websocket&p=" +:+ sg_p sig +:+ "&t=" +:+ sg_t sig
                else "EIO=3&transport=websocket"
  | None => "EIO=3&transport=websocket"
  end.
End SocketIoClient.
#[export] Existing Instance SocketIoClient.eta_t.

(** * [WebSocketSession]

    The readings of the clock within one call, which only the metrics see, are one [now]. *)
Module WebSocketSession.
Section S.
Context {D : Type} `{!WebSocket D}.

(* @src include/ingestion/websocket/websocket_session.hpp | std::unique_ptr<WebSocketConnection> conn_; >> std::jthread pump_; | WebSocketSession *)
Record t := {
  conn : D; running : bool; connected : bool; reconnects : Z; consecutive_fails : Z; last_error : string; pump : bool }.
#[export] Instance eta_t : Eta t := fun r =>
  {| conn := conn r; running := running r; connected := connected r; reconnects := reconnects r;
     consecutive_fails := consecutive_fails r; last_error := last_error r; pump := pump r |}.

(** The constructor; it also gives the Socket.IO client its send function. *)
(* @src include/ingestion/websocket/websocket_session.hpp | WebSocketSession(std::unique_ptr<WebSocketConnection> conn, *)
Definition make (d : D) (sio : SocketIoClient.t) : t * SocketIoClient.t :=
  ({| conn := d; running := false; connected := false; reconnects := 0; consecutive_fails := 0; last_error := EmptyString;
      pump := false |}, sio <| SocketIoClient.has_send := true |>).

(** The send function given to the client. *)
(* @src include/ingestion/websocket/websocket_session.hpp:35-38 WebSocketSession *)
Definition send (now : Z) (f : list Z) (s : t) : bool * t :=
  let '(r, d) := ws_send f now (conn s) in (is_ok r, s <| conn := d |>).

Definition close (s : t) : t :=
  let '(was, d) := ws_close (conn s) in
  let s := s <| conn := d |> in if was then s <| connected := false |> else s.

Section Callbacks.
Context {Y : Type}.
Variable on_packet : option (SocketIoPacket -> SocketIoClient.t * (t * Y) -> option (SocketIoClient.t * (t * Y))).
Variable on_frame : option (list Z -> t * Y -> t * Y).
Variable on_state : option (bool -> Y -> Y).

Definition send_on (now : Z) (f : list Z) (x : t * Y) : option (bool * (t * Y)) :=
  let '(ok, s) := send now f x.1 in Some (ok, (s, x.2)).
Definition state_on : option (bool -> t * Y -> t * Y) := (fun h up x => (x.1, h up x.2)) <$> on_state.

Notation world := (SocketIoClient.t * (t * Y))%type.

(* @src include/ingestion/websocket/websocket_session.hpp | Result<void> doConnect() { *)
Definition doConnect (now : Z) (w : world) : option (Result unit * world) :=
  let '(sio, (s, y)) := w in
  match ws_connect now (conn s) with
  | (Err e, d) => Some (Err e, (sio, (s <| conn := ws_update_metrics (fun m => m <| handshake_fail ::= bump |>) d |>, y)))
  | (Ok _, d) =>
      '(j, (sio, (s, y))) ← SocketIoClient.joinCrashNamespace (send_on now) state_on (sio, (s <| conn := d |>, y));
      match j with
      | Err e => Some (Err e, (sio, (close s, y)))
      | Ok _ => Some (Ok tt, (sio, (s <| connected := true |> <| consecutive_fails := 0 |>, y)))
      end
  end.

(* @src include/ingestion/websocket/websocket_session.hpp | Result<void> start() { *)
Definition start (now : Z) (w : world) : option (Result unit * world) :=
  let '(sio, (s, y)) := w in
  if running s then Some (Ok tt, w)
  else
    '(r, (sio, (s, y))) ← doConnect now (sio, (s <| running := true |>, y));
    match r with
    | Err e => Some (Err e, (sio, (s <| running := false |>, y)))
    | Ok _ => Some (Ok tt, (sio, (s <| pump := auto_reconnect (ws_config (conn s)) |>, y)))
    end.

(** The wait before the next attempt. *)
(* @src include/ingestion/websocket/websocket_session.hpp:110-112 WebSocketSession::attemptReconnect *)
Definition reconnect_delay (c : WebSocketConfig) (fails : Z) : Z :=
  Z.min (reconnect_max_ms c) (i64 (reconnect_base_ms c * Z.shiftl 1 (Z.min fails 10))).

(** [stopped]: a stop was requested during the wait. *)
(* @src include/ingestion/websocket/websocket_session.hpp | void attemptReconnect( *)
Definition attemptReconnect (stopped : bool) (now : Z) (w : world) : option world :=
  let '(sio, (s, y)) := w in
  if max_reconnect_attempts (ws_config (conn s)) <=? consecutive_fails s then Some w
  else if stopped then Some w
  else
    let s := s <| consecutive_fails ::= fun n => n + 1 |> <| reconnects ::= bump |>
               <| conn ::= ws_update_metrics (fun m => m <| m_reconnects ::= bump |>) |> in
    '(_, w) ← doConnect now (sio, (s, y));
    Some w.

(** The frames that [poll] delivers go to the Socket.IO client. *)
Fixpoint deliver (frames : list (list Z)) (now : Z) (w : world) : option world :=
  match frames with
  | [] => Some w
  | f :: frames =>
      w ← SocketIoClient.onBinaryFrame (send_on now) on_packet on_frame state_on f now now w;
      deliver frames now w
  end.

(** One turn of the pump, up to its sleep. *)
(* @src include/ingestion/websocket/websocket_session.hpp | void pumpLoop( *)
Definition pump_turn (stopped : bool) (now : Z) (w : world) : option world :=
  let '(sio, (s, y)) := w in
  let '(frames, d) := ws_poll (conn s) in
  w ← deliver frames now (sio, (s <| conn := d |>, y));
  '(sio, (s, y)) ← SocketIoClient.tick (send_on now) now now now w;
  if negb (ws_connected (conn s)) && auto_reconnect (ws_config (conn s))
  then attemptReconnect stopped now (sio, (s <| connected := false |>, y))
  else Some (sio, (s, y)).
End Callbacks.

(* @src include/ingestion/websocket/websocket_session.hpp | void stop() { *)
Definition stop (s : t) : t :=
  close (s <| running := false |> <| pump := false |>) <| connected := false |>.
Section Attempts.
Context {Y : Type}.
Variable on_state : option (bool -> Y -> Y).

Lemma tell_state_on up s y :
  SocketIoClient.tell (state_on on_state) up (s, y) = (s, SocketIoClient.tell on_state up y).
Proof. by destruct on_state. Qed.

(** A connection attempt either joins the namespace or changes nothing but the connection. *)
Lemma doConnect_spec (now : Z) (sio : SocketIoClient.t) (s : t) (y : Y) :
  SocketIoClient.has_send sio = true ->
  exists r sio' s' y', doConnect on_state now (sio, (s, y)) = Some (r, (sio', (s', y'))) /\
    reconnects s' = reconnects s /\
    match r with
    | Ok _ => connected s' = true /\ consecutive_fails s' = 0 /\ SocketIoClient.joined sio' = true /\
              SocketIoClient.connected sio' = true /\ y' = SocketIoClient.tell on_state true y
    | Err _ => (connected s = false -> connected s' = false) /\ consecutive_fails s' = consecutive_fails s /\ sio' = sio /\ y' = y
    end.
Proof.
  intros Hsend. unfold doConnect. destruct (ws_connect now (conn s)) as [[[]|e] d]; cbn [mbind option_bind].
  2: { do 4 eexists. split; [done|]. split; [done|]. by split_and!. }
  unfold SocketIoClient.joinCrashNamespace. rewrite Hsend. cbn [negb]. unfold send_on, send.
  cbn [fst snd mbind option_bind]. destruct (ws_send (encodeConnect _) now _) as [r1 d1]. cbn [mbind option_bind].
  destruct (is_ok r1); cbn [negb mbind option_bind fst snd].
  2: { do 4 eexists. split; [done|]. unfold close. destruct (ws_close _) as [[] d3]; split; done. }
  destruct (ws_send (encodeJoin _ _) now _) as [r2 d2]. cbn [mbind option_bind].
  destruct (is_ok r2); cbn [negb mbind option_bind fst snd].
  - rewrite tell_state_on. do 4 eexists. split; [done|]. by split_and!.
  - do 4 eexists. split; [done|]. unfold close. destruct (ws_close _) as [[] d3]; split; done.
Qed.

(** Remark: one attempt of a disconnected session either leaves everything as it is (enough attempts
    have failed, or a stop was requested), or counts one reconnection and ends in one of two
    states: connected, both frames of the join sent, the client joined, the failures forgotten
    and the state handler told; or still disconnected with one failure more, the client and the
    rest untouched. *)
Theorem session_attempt_spec (stopped : bool) (now : Z) (sio : SocketIoClient.t) (s : t) (y : Y) :
  SocketIoClient.has_send sio = true -> connected s = false ->
  exists sio' s' y', attemptReconnect on_state stopped now (sio, (s, y)) = Some (sio', (s', y')) /\
    (if stopped || (max_reconnect_attempts (ws_config (conn s)) <=? consecutive_fails s)
     then sio' = sio /\ s' = s /\ y' = y
     else reconnects s' = bump (reconnects s) /\
       (connected s' = true /\ consecutive_fails s' = 0 /\ SocketIoClient.joined sio' = true /\
          SocketIoClient.connected sio' = true /\ y' = SocketIoClient.tell on_state true y \/
        connected s' = false /\ consecutive_fails s' = consecutive_fails s + 1 /\ sio' = sio /\ y' = y)).
Proof.
  intros Hsend Hc. unfold attemptReconnect. destruct (_ <=? _); [by rewrite orb_true_r; do 3 eexists|]. rewrite orb_false_r.
  destruct stopped; [by do 3 eexists|]. set (s1 := s <| consecutive_fails ::= _ |> <| reconnects ::= _ |> <| conn ::= _ |>).
  destruct (doConnect_spec now sio s1 y Hsend) as (r & sio' & s' & y' & -> & Hr & H). cbn [mbind option_bind].
  exists sio', s', y'. split; [done|]. split; [done|]. destruct r as [u|e]; [by left|right].
  destruct H as (Hcon & Hf & -> & ->). by split_and!; [apply Hcon| | |].
Qed.

Definition attempts (n : nat) (now : Z) (w : SocketIoClient.t * (t * Y)) : option (SocketIoClient.t * (t * Y)) :=
  Nat.iter n (fun w => w ≫= attemptReconnect on_state false now) (Some w).

(** Remark: while the server refuses every connection, a session makes as many attempts as its
    configuration allows in a row, and none after them. *)
Theorem session_gives_up (n : nat) (now : Z) (sio : SocketIoClient.t) (s : t) (y : Y) :
  (forall d, is_ok (ws_connect now d).1 = false) -> connected s = false -> consecutive_fails s = 0 ->
  0 <= max_reconnect_attempts (ws_config (conn s)) < 2 ^ 63 -> reconnects s = 0 ->
  exists s', attempts n now (sio, (s, y)) = Some (sio, (s', y)) /\ connected s' = false /\
    let made := Z.min (Z.of_nat n) (max_reconnect_attempts (ws_config (conn s))) in
    consecutive_fails s' = made /\ reconnects s' = made.
Proof.
  intros Href Hc Hf Hm Hr. set (most := max_reconnect_attempts (ws_config (conn s))) in *.
  enough (exists s', attempts n now (sio, (s, y)) = Some (sio, (s', y)) /\ connected s' = false /\
    ws_config (conn s') = ws_config (conn s) /\ consecutive_fails s' = Z.min (Z.of_nat n) most /\
    reconnects s' = Z.min (Z.of_nat n) most) as (s' & ? & ? & ? & ? & ?) by (exists s'; done).
  induction n as [|n (s1 & IH & IHc & IHg & IHf & IHr)].
  { exists s. simpl. split_and!; try done; lia. }
  change (attempts (S n) now (sio, (s, y))) with (attempts n now (sio, (s, y)) ≫= attemptReconnect on_state false now).
  rewrite IH. cbn [mbind option_bind]. unfold attemptReconnect. rewrite IHg. fold most. rewrite IHf.
  destruct (Z.leb_spec most (Z.min (Z.of_nat n) most)) as [Hle|Hlt].
  { exists s1. split_and!; try done; lia. }
  unfold doConnect. set (d0 := ws_update_metrics (fun m => m <| m_reconnects ::= bump |>) (conn s1)).
  match goal with |- context [ws_connect now ?d] => change d with d0 end.
  pose proof (Href d0) as Hcon. pose proof (ws_config_law d0 (fun m => m <| handshake_fail ::= bump |>) now []) as (H1 & _).
  pose proof (ws_config_law (conn s1) (fun m => m <| m_reconnects ::= bump |>) now []) as (_ & _ & _ & _ & H2). fold d0 in H2.
  destruct (ws_connect now d0) as [[[]|e] d]; [done|]. cbn [mbind option_bind snd] in *.
  eexists. split; [done|]. split; [done|]. simpl.
  pose proof (ws_config_law d (fun m => m <| handshake_fail ::= bump |>) now []) as (_ & _ & _ & _ & H3).
  split; [congruence|]. split; [lia|]. rewrite IHr, bump_small by lia. lia.
Qed.
End Attempts.
End S.
Arguments t : clear implicits.
End WebSocketSession.
#[export] Existing Instance WebSocketSession.eta_t.

(** * [WebSocketClient] *)
Module WebSocketClient.
Section S.
Context {D : Type} `{!WebSocket D}.
(** [makeWebSocketConnection(cfg, metrics, true)]. *)
Variable connection : WebSocketConfig -> D.

(* @src include/ingestion/websocket/websocket_client.hpp | WebSocketConfig cfg_; >> running_{false}; | WebSocketClient *)
Record t := { cfg : WebSocketConfig; session : option (WebSocketSession.t D); running : bool }.
#[export] Instance eta_t : Eta t := fun r => {| cfg := cfg r; session := session r; running := running r |}.

(** [sig]: what the signer answers, when there is one. *)
(* @src include/ingestion/websocket/websocket_client.hpp | WebSocketClient(WebSocketConfig cfg, *)
Definition make (c : WebSocketConfig) (sig : option SocketSignature) : t :=
  let qs := "EIO=3&transport=websocket" in
  let qs := match sig with
            | Some q => if sg_valid q then signed_query q +:+ "&" +:+ qs else qs
            | None => qs
            end in
  {| cfg := c <| extra_query := qs |>; session := None; running := false |}.

(** The session is new at each start; what the callbacks may touch besides it is [Y]. *)
(* @src include/ingestion/websocket/websocket_client.hpp | Result<void> start() { *)
Definition start {Y} (on_state : option (bool -> Y -> Y)) (now : Z) (c : t) (sio : SocketIoClient.t) (y : Y)
    : option (Result unit * (SocketIoClient.t * (t * Y))) :=
  let '(s, sio) := WebSocketSession.make (connection (cfg c)) sio in
  '(r, (sio, (s, y))) ← WebSocketSession.start on_state now (sio, (s, y));
  let c := c <| session := Some s |> in
  Some (r, (sio, ((if is_ok r then c <| running := true |> else c), y))).

(* @src include/ingestion/websocket/websocket_client.hpp | void stop() { *)
Definition stop (c : t) : t := c <| running := false |> <| session ::= fmap WebSocketSession.stop |>.

Lemma start_spec {Y} (on_state : option (bool -> Y -> Y)) now c sio y :
  exists r sio' c' y', start on_state now c sio y = Some (r, (sio', (c', y'))) /\ is_Some (session c') /\
    match r with
    | Ok _ => SocketIoClient.joined sio' = true /\ SocketIoClient.connected sio' = true /\ y' = SocketIoClient.tell on_state true y
    | Err _ => sio' = sio <| SocketIoClient.has_send := true |> /\ y' = y
    end.
Proof.
  unfold start, WebSocketSession.make, WebSocketSession.start. cbn [WebSocketSession.running].
  set (s := {| WebSocketSession.conn := connection (cfg c) |} <| WebSocketSession.running := true |>).
  assert (SocketIoClient.has_send (sio <| SocketIoClient.has_send := true |>) = true) as Hsend by done.
  destruct (WebSocketSession.doConnect_spec on_state now (sio <| SocketIoClient.has_send := true |>) s y Hsend)
    as (r & sio' & s' & y' & -> & _ & H). cbn [mbind option_bind].
  destruct r as [u|e]; cbn [mbind option_bind is_ok]; do 4 eexists; (split; [done|]); (split; [by eexists|]); naive_solver.
Qed.
End S.
Arguments t : clear implicits.
End WebSocketClient.
#[export] Existing Instance WebSocketClient.eta_t.

Lemma session_attempt_spec_witness :
  let '(s, sio) := WebSocketSession.make (WebSocketConnection.make default_ws_config None) SocketIoClient.make in
  exists sio' s' y', WebSocketSession.attemptReconnect (Y := unit) None false 5 (sio, (s, tt)) = Some (sio', (s', y')) /\
    WebSocketSession.connected s' = true /\ WebSocketSession.reconnects s' = 1.
Proof.
  destruct (WebSocketSession.session_attempt_spec (Y := unit) None false 5
    (SocketIoClient.make <| SocketIoClient.has_send := true |>)
    (WebSocketSession.make (WebSocketConnection.make default_ws_config None) SocketIoClient.make).1 tt)
    as (sio' & s' & y' & E & Hr & [(Hc & _)|(Hc & _)]); [reflexivity|reflexivity| |].
  - exists sio', s', y'. split; [exact E|]. split; [exact Hc|]. rewrite Hr. reflexivity.
  - exfalso. injection E as _ <- _. discriminate Hc.
Defined.
