(* ===== verification/Router.v ===== *)
(** [EventRouter] ([include/ingestion/event_router.hpp]).  The three queues are used through
    [BoundedFifo]; the program instantiates it with [SpscQueue]. *)
From S2P Require Import Prelude Float64 Types Queues Timing Wire Windows Decoder.

(** * [EventRouter] *)
Module EventRouter.
Section S.
Context {Q : Type}.

(* @src include/ingestion/event_router.hpp:121-134 EventRouter *)
Record t := {
  to_prediction : Q;
  to_validation : Q;
  to_persistence : Q;
  tracker : option LatencyTracker.t;
  seen : LruWindow.t;
  routed_pred : Z;
  routed_val : Z;
  routed_pers : Z;
  drops_pred : Z;
  drops_val : Z;
  duplicates : Z;
  rejected : Z
}.
#[export] Instance eta_t : Eta t := fun r =>
  {| to_prediction := to_prediction r; to_validation := to_validation r;
     to_persistence := to_persistence r; tracker := tracker r; seen := seen r;
     routed_pred := routed_pred r; routed_val := routed_val r; routed_pers := routed_pers r;
     drops_pred := drops_pred r; drops_val := drops_val r; duplicates := duplicates r;
     rejected := rejected r |}.

(* @src include/ingestion/event_router.hpp | explicit EventRouter( *)
Definition make (mk : nat -> Q) (queue_capacity : nat) (tr : option LatencyTracker.t) : t := {|
  to_prediction := mk queue_capacity; to_validation := mk queue_capacity;
  to_persistence := mk queue_capacity; tracker := tr; seen := LruWindow.make; routed_pred := 0;
  routed_val := 0; routed_pers := 0; drops_pred := 0; drops_val := 0; duplicates := 0; rejected := 0 |}.

Definition LRU_LIMIT : nat := Z.to_nat 10000.

(* @src include/ingestion/event_router.hpp:47-48 EventRouter::route *)
Definition route_key (ev : CrashEvent) : string :=
  gameId ev +:+ ":" +:+ to_string (kind_code (kind ev)) +:+ ":" +:+ to_string (sequence ev).

Context `{!BoundedFifo Q CrashEvent}.

Definition push_or_keep (q : Q) (ev : CrashEvent) : bool * Q :=
  match bf_push q ev with Some q' => (true, q') | None => (false, q) end.

(** The dispatch by event kind; the push to persistence is best effort. *)
(* @src include/ingestion/event_router.hpp:66-92 EventRouter::route *)
Definition dispatch (r : t) (ev : CrashEvent) : bool * t :=
  let persist (r : t) :=
    r <| to_persistence := snd (push_or_keep (to_persistence r) ev) |> <| routed_pers ::= bump |> in
  match kind ev with
  | KEnd =>
      let '(okv, qv) := push_or_keep (to_validation r) ev in
      let r := if okv then r <| to_validation := qv |> <| routed_val ::= bump |>
               else r <| drops_val ::= bump |> in
      let '(okp, qp) := push_or_keep (to_prediction r) ev in
      let r := if okp then r <| to_prediction := qp |> <| routed_pred ::= bump |>
               else r <| drops_pred ::= bump |> in
      (okv && okp, persist r)
  | KStart => (true, persist r)
  | _ => (true, r)
  end.

(* @src include/ingestion/event_router.hpp:66-97 EventRouter::route *)
Definition enqueue (r : t) (ev : CrashEvent) (t0 t1 : Z) : bool * t :=
  let '(ok, r) := dispatch r ev in
  (ok, r <| tracker ::= fmap (fun tr =>
             LatencyTracker.record tr LatencyTracker.Queue (Z.quot (t1 - t0) 1000)) |>).

(** [t0] and [t1] are the readings of the monotonic clock on entry and on exit. *)
(* @src include/ingestion/event_router.hpp | bool route( *)
Definition route (r : t) (ev : CrashEvent) (t0 t1 : Z) : bool * t :=
  let ev := ev <| routedAtNs := t0 |> in
  if negb (valid ev) then (true, r <| rejected ::= bump |>)
  else
    let '(hit, w) := if str_empty (gameId ev) then (false, seen r)
                     else LruWindow.touch LRU_LIMIT (seen r) (route_key ev) in
    let r := r <| seen := w |> in
    if hit then (true, r <| duplicates ::= bump |>)
    else enqueue r ev t0 t1.

(* @src include/ingestion/event_router.hpp:100-100 popPrediction *)
Definition popPrediction (r : t) : option CrashEvent * t :=
  match bf_pop (to_prediction r) with
  | Some (e, q) => (Some e, r <| to_prediction := q |>)
  | None => (None, r)
  end.
(* @src include/ingestion/event_router.hpp:101-101 popValidation *)
Definition popValidation (r : t) : option CrashEvent * t :=
  match bf_pop (to_validation r) with
  | Some (e, q) => (Some e, r <| to_validation := q |>)
  | None => (None, r)
  end.
(* @src include/ingestion/event_router.hpp:102-102 popPersistence *)
Definition popPersistence (r : t) : option CrashEvent * t :=
  match bf_pop (to_persistence r) with
  | Some (e, q) => (Some e, r <| to_persistence := q |>)
  | None => (None, r)
  end.

(** The contents of the prediction and validation queues, and the recent keys. *)
Definition holds (r : t) (lp lv : list CrashEvent) : Prop :=
  bf_repr (to_prediction r) lp /\ bf_repr (to_validation r) lv /\ LruWindow.wf (seen r).

Lemma push_or_keep_spec q l ev :
  bf_repr q l ->
  let '(ok, q') := push_or_keep q ev in
  ok = bool_decide (length l < bf_limit q)%nat /\ bf_repr q' (if ok then l ++ [ev] else l).
Proof.
  intros Hq. unfold push_or_keep. pose proof (bf_push_spec q l ev Hq) as Hp.
  destruct (bf_push q ev); [destruct Hp as (? & ? & _)|].
  - split; [symmetry; by apply bool_decide_eq_true|done].
  - split; [symmetry; apply bool_decide_eq_false; lia|done].
Qed.

(** The two decision queues after a dispatch: only an end event enters them. *)
Lemma dispatch_spec r lp lv ev :
  bf_repr (to_prediction r) lp -> bf_repr (to_validation r) lv ->
  let room q l := bool_decide (length l < bf_limit q)%nat in
  let is_end := bool_decide (kind ev = KEnd) in
  let '(ok, r') := dispatch r ev in
  seen r' = seen r /\
  bf_repr (to_prediction r') (if is_end && room (to_prediction r) lp then lp ++ [ev] else lp) /\
  bf_repr (to_validation r') (if is_end && room (to_validation r) lv then lv ++ [ev] else lv) /\
  ok = (negb is_end || (room (to_validation r) lv && room (to_prediction r) lp)).
Proof.
  intros Hp Hv. cbv zeta. unfold dispatch. destruct (kind ev) eqn:Ek; simpl; try done.
  pose proof (push_or_keep_spec _ _ ev Hv) as H1. pose proof (push_or_keep_spec _ _ ev Hp) as H2.
  destruct (push_or_keep (to_validation r) ev) as [okv qv]. destruct H1 as [-> H1].
  destruct (bool_decide (length lv < bf_limit (to_validation r))%nat); simpl in *;
    destruct (push_or_keep (to_prediction r) ev) as [okp qp]; destruct H2 as [-> H2];
    destruct (bool_decide (length lp < bf_limit (to_prediction r))%nat); simpl in *; done.
Qed.

Lemma route_enqueue_spec r lp lv ev t0 t1 w :
  bf_repr (to_prediction r) lp -> bf_repr (to_validation r) lv -> LruWindow.wf w ->
  let roomp := bool_decide (length lp < bf_limit (to_prediction r))%nat in
  let roomv := bool_decide (length lv < bf_limit (to_validation r))%nat in
  let is_end := bool_decide (kind ev = KEnd) in
  let '(ok, r') := enqueue (r <| seen := w |>) ev t0 t1 in
  holds r' (if is_end && roomp then lp ++ [ev] else lp) (if is_end && roomv then lv ++ [ev] else lv) /\
  ok = (negb is_end || (roomv && roomp)) /\ seen r' = w.
Proof.
  intros Hp Hv Hw. cbv zeta. unfold enqueue.
  set (r1 := r <| seen := w |>). pose proof (dispatch_spec r1 lp lv ev Hp Hv) as H.
  destruct (dispatch r1 ev) as [ok r0]. simpl in *. destruct H as (Es & Hp' & Hv' & ->).
  unfold holds. simpl. by rewrite Es.
Qed.

Lemma enqueue_seen r ev t0 t1 : seen (enqueue r ev t0 t1).2 = seen r.
Proof. unfold enqueue, dispatch. by repeat case_match; simplify_eq. Qed.

(** What a routed event does to the queues and to the memory of keys. *)
Lemma route_outcome r lp lv ev t0 t1 :
  holds r lp lv ->
  let ev' := ev <| routedAtNs := t0 |> in
  let keyed := valid ev && negb (str_empty (gameId ev)) in
  let known := keyed && bool_decide (route_key ev ∈ LruWindow.order (seen r)) in
  let sent := valid ev && negb known && bool_decide (kind ev = KEnd) in
  let roomp := bool_decide (length lp < bf_limit (to_prediction r))%nat in
  let roomv := bool_decide (length lv < bf_limit (to_validation r))%nat in
  let '(ok, r') := route r ev t0 t1 in
  holds r' (if sent && roomp then lp ++ [ev'] else lp) (if sent && roomv then lv ++ [ev'] else lv) /\
  ok = (negb sent || (roomv && roomp)) /\
  LruWindow.order (seen r') =
    (if known then filter (fun k => k <> route_key ev) (LruWindow.order (seen r)) ++ [route_key ev]
     else if keyed then trim_front LRU_LIMIT (LruWindow.order (seen r) ++ [route_key ev])
     else LruWindow.order (seen r)).
Proof.
  intros (Hp & Hv & Hw). cbv zeta. unfold route. simpl.
  destruct (valid ev) eqn:Eval; simpl; [|by split_and!].
  change (route_key (ev <| routedAtNs := t0 |>)) with (route_key ev).
  destruct (str_empty (gameId ev)) eqn:Eg; simpl.
  { set (ev1 := ev <| routedAtNs := t0 |>).
    pose proof (route_enqueue_spec r lp lv ev1 t0 t1 (seen r) Hp Hv Hw) as H.
    destruct (enqueue _ _ t0 t1) as [ok r']. destruct H as (Hh & -> & ->). done. }
  pose proof (LruWindow.touch_spec LRU_LIMIT (seen r) (route_key ev) Hw) as Ht.
  destruct (LruWindow.touch LRU_LIMIT (seen r) (route_key ev)) as [hit w]. destruct Ht as (Hw' & Hhit & Ho).
  destruct hit; simpl.
  - rewrite bool_decide_true by (by apply Hhit). simpl. by split_and!.
  - rewrite bool_decide_false by (intros Hin; by apply Hhit in Hin). simpl.
    set (ev1 := ev <| routedAtNs := t0 |>).
    pose proof (route_enqueue_spec r lp lv ev1 t0 t1 w Hp Hv Hw') as H.
    destruct (enqueue _ _ t0 t1) as [ok r']. destruct H as (Hh & -> & ->). done.
Qed.

(** Remark: routing keeps the queues and the memory of recent keys well formed and bounded; an
    event reaches the prediction and validation queues only if it is a valid end event that
    was not among the recent keys, at most once each, at the tail, stamped; and the call
    reports failure exactly when one of the two queues had no room for it. *)
Theorem route_spec r lp lv ev t0 t1 :
  holds r lp lv ->
  let ev' := ev <| routedAtNs := t0 |> in
  let fresh := valid ev && (str_empty (gameId ev) || negb (bool_decide (route_key ev ∈ LruWindow.order (seen r)))) in
  let sent := fresh && bool_decide (kind ev = KEnd) in
  let roomp := bool_decide (length lp < bf_limit (to_prediction r))%nat in
  let roomv := bool_decide (length lv < bf_limit (to_validation r))%nat in
  let '(ok, r') := route r ev t0 t1 in
  holds r' (if sent && roomp then lp ++ [ev'] else lp) (if sent && roomv then lv ++ [ev'] else lv) /\
  ok = (negb sent || (roomv && roomp)) /\
  ((length (LruWindow.order (seen r)) <= LRU_LIMIT)%nat -> (length (LruWindow.order (seen r')) <= LRU_LIMIT)%nat).
Proof.
  intros Hh. cbv zeta. pose proof (route_outcome r lp lv ev t0 t1 Hh) as H. cbv zeta in H.
  assert (wf_memory : (length (LruWindow.order (seen r)) <= LRU_LIMIT)%nat ->
    (length (LruWindow.order (seen (route r ev t0 t1).2)) <= LRU_LIMIT)%nat).
  { unfold route. destruct (valid _); simpl; [|done]. destruct (str_empty _) eqn:Eg; simpl.
    - rewrite enqueue_seen. done.
    - pose proof (LruWindow.touch_length LRU_LIMIT (seen r) (route_key ev) (proj2 (proj2 Hh))) as Hl.
      change (route_key (ev <| routedAtNs := t0 |>)) with (route_key ev).
      destruct (LruWindow.touch _ _ _) as [[] w]; simpl in *; [done|]. by rewrite enqueue_seen. }
  destruct (route r ev t0 t1) as [ok r']. destruct H as (H1 & H2 & _).
  assert (valid ev && (str_empty (gameId ev) || negb (bool_decide (route_key ev ∈ LruWindow.order (seen r)))) =
    valid ev && negb (valid ev && negb (str_empty (gameId ev)) && bool_decide (route_key ev ∈ LruWindow.order (seen r)))) as ->
    by (destruct (valid ev), (str_empty (gameId ev)), (bool_decide _); done).
  split_and!; [done|done|exact wf_memory].
Qed.

(** Remark: backpressure loses the event for good: when an end event is refused because a queue is
    full, its key has already been remembered, so the retry is answered [true] as a
    duplicate and nothing is ever enqueued. *)
Theorem route_retry_lost r lp lv ev t0 t1 t2 t3 :
  holds r lp lv -> valid ev = true -> gameId ev <> EmptyString ->
  fst (route r ev t0 t1) = false ->
  let r1 := snd (route r ev t0 t1) in
  fst (route r1 ev t2 t3) = true /\
  to_prediction (snd (route r1 ev t2 t3)) = to_prediction r1 /\
  to_validation (snd (route r1 ev t2 t3)) = to_validation r1.
Proof.
  intros (Hp & Hv & Hw) Hval Hg. apply str_empty_false in Hg. cbv zeta. unfold route. simpl. rewrite Hval, Hg. simpl.
  change (route_key (ev <| routedAtNs := t0 |>)) with (route_key ev).
  pose proof (LruWindow.touch_spec LRU_LIMIT (seen r) (route_key ev) Hw) as Ht.
  destruct (LruWindow.touch LRU_LIMIT (seen r) (route_key ev)) as [hit w] eqn:Etouch.
  destruct Ht as (Hw' & Hhit & Ho). destruct hit; [done|].
  set (ev1 := ev <| routedAtNs := t0 |>).
  pose proof (route_enqueue_spec r lp lv ev1 t0 t1 w Hp Hv Hw') as H.
  destruct (enqueue _ _ t0 t1) as [ok r0]. simpl in *. destruct H as (_ & _ & Es). intros _.
  rewrite Es. change (route_key (ev <| routedAtNs := t2 |>)) with (route_key ev).
  pose proof (LruWindow.touch_spec LRU_LIMIT w (route_key ev) Hw') as Ht2.
  assert (route_key ev ∈ LruWindow.order w) as Hin.
  { rewrite Ho. unfold trim_front. rewrite length_app. simpl.
    rewrite drop_app_le by (unfold LRU_LIMIT; lia). apply elem_of_app. right. by left. }
  destruct (LruWindow.touch LRU_LIMIT w (route_key ev)) as [hit2 w2]. destruct Ht2 as (_ & Hhit2 & _).
  assert (hit2 = true) as -> by by apply Hhit2. done.
Qed.

End S.
Arguments t : clear implicits.
End EventRouter.

(** The router of the program, on lock-free rings. *)
Definition demo_ring : option (SpscQueue.t CrashEvent) := SpscQueue.make 2.

Definition demo_router (q : SpscQueue.t CrashEvent) : EventRouter.t (SpscQueue.t CrashEvent) :=
  EventRouter.make (fun _ => q) 2 None.

Definition demo_end_event (id : string) : CrashEvent :=
  default_event <| kind := KEnd |> <| gameId := id |> <| valid := true |>.

Lemma demo_router_holds q : demo_ring = Some q -> EventRouter.holds (demo_router q) [] [].
Proof.
  intros Hq. assert (SpscQueue.repr q []) by (apply (SpscQueue.spsc_make_repr 2); [lia|done]).
  split_and!; [done|done|]. split; [apply NoDup_nil_2|done].
Qed.

Lemma route_spec_witness :
  exists q, demo_ring = Some q /\
    fst (EventRouter.route (demo_router q) (demo_end_event "a") 1 2) = true.
Proof.
  destruct demo_ring as [q|] eqn:Eq; [|vm_compute in Eq; discriminate]. exists q. split; [done|].
  pose proof (EventRouter.route_spec (demo_router q) [] [] (demo_end_event "a") 1 2
    (demo_router_holds q Eq)) as H.
  vm_compute in Eq. injection Eq as <-.
  destruct (EventRouter.route _ (demo_end_event "a") 1 2) as [ok r']. destruct H as (_ & -> & _).
  vm_compute. reflexivity.
Defined.

(** A ring of capacity two holds one element: the second end event is refused, its retry is
    swallowed. *)
Lemma route_retry_lost_witness :
  exists q, demo_ring = Some q /\
    let r := snd (EventRouter.route (demo_router q) (demo_end_event "a") 1 2) in
    let r1 := snd (EventRouter.route r (demo_end_event "b") 3 4) in
    fst (EventRouter.route r (demo_end_event "b") 3 4) = false /\
    fst (EventRouter.route r1 (demo_end_event "b") 5 6) = true.
Proof.
  destruct demo_ring as [q|] eqn:Eq; [|vm_compute in Eq; discriminate]. exists q. split; [done|].
  intros r r1. pose proof (EventRouter.route_spec (demo_router q) [] [] (demo_end_event "a") 1 2
    (demo_router_holds q Eq)) as H.
  assert (fst (EventRouter.route r (demo_end_event "b") 3 4) = false) as Hf.
  { unfold r. vm_compute in Eq. injection Eq as <-. vm_compute. reflexivity. }
  split; [exact Hf|].
  unfold r in *. destruct (EventRouter.route (demo_router q) (demo_end_event "a") 1 2) as [ok r'].
  destruct H as (Hh & _). eapply (EventRouter.route_retry_lost r');
    [exact Hh|reflexivity|discriminate|exact Hf].
Defined.
