(* ===== verification/NativeSocket.v ===== *)
(** [NativeBcGameSocket] ([include/ingestion/native_bc_socket.hpp]): the control plane that the
    application runs: start, join, packets to events, the watchdog and the reconnection.

    The state is the Socket.IO client beside the rest [r], because the client calls back into the
    rest.  What runs on another thread (a turn of the watchdog, the end of the reconnect
    worker's wait) is an operation of its own, and one operation runs at a time.  [None] is a
    call through an object that is gone. *)
From S2P Require Import Prelude Float64 Types Queues Timing Text Wire Decoder Router Ingest Signing Socket.

Open Scope Z_scope.

Module NativeBcGameSocket.

(* @src include/ingestion/native_bc_socket.hpp | enum class NativeSocketStatus : *)
Inductive Status := Stopped | Connecting | SocketOpen | Connected | Degraded | Reconnecting | WafBlocked.
#[export] Instance Status_eq_dec : EqDecision Status.
Proof. solve_decision. Defined.

(* @src include/ingestion/native_bc_socket.hpp | struct NativeSocketConfig { *)
Record Config := {
  host : string; path : string; nsp : string; reconnectBaseMs : Z; reconnectMaxMs : Z; wafBackoffMs : Z;
  degradedMs : Z; staleMs : Z; pingMs : Z; maxReconnectAttempts : Z }.
Definition default_config : Config := {|
  host := "socketv4.bc.game"; path := "/socket.io/"; nsp := "/g/cm"; reconnectBaseMs := 150; reconnectMaxMs := 1500;
  wafBackoffMs := 12000; degradedMs := 15000; staleMs := 90000; pingMs := 5000; maxReconnectAttempts := 100 |}.

(* @src include/common/types.hpp | struct ConnectionHealth { *)
Record ConnectionHealth := {
  ch_connected : bool; ch_lastMessageMs : Z; ch_lastPongMs : Z; ch_reconnects : Z; ch_lastError : string }.

Section S.
Context {D : Type} `{!WebSocket D} {Q : Type} `{!BoundedFifo Q CrashEvent} {A : Type}.
Variable exp : double -> double.
Variable connection : WebSocketConfig -> D.
(** The installed event and status handlers, in the order of their installation. *)
Variable event_handlers : list (CrashEvent -> A -> A).
Variable status_handlers : list (Status -> string -> A -> A).

(** [worker]: the delay of the reconnect worker that waits; [app]: what the handlers change. *)
(* @src include/ingestion/native_bc_socket.hpp | EventDecoder& decoder_; >> std::jthread watchdog_; | NativeBcGameSocket *)
Record rest := {
  cfg : Config; decoder : EventDecoder.t; router : EventRouter.t Q; client : option (WebSocketClient.t D);
  status : Status; last_error : string; current_game_id : string;
  last_event_ms : Z; last_ed_ms : Z; last_frame_ms : Z; joined_at_ms : Z;
  frames_rx : Z; events_emitted : Z; reconnects : Z;
  intentional_stop : bool; watchdog : bool; worker : option Z; app : A }.
#[export] Instance eta_rest : Eta rest := fun r =>
  {| cfg := cfg r; decoder := decoder r; router := router r; client := client r; status := status r;
     last_error := last_error r; current_game_id := current_game_id r; last_event_ms := last_event_ms r;
     last_ed_ms := last_ed_ms r; last_frame_ms := last_frame_ms r; joined_at_ms := joined_at_ms r;
     frames_rx := frames_rx r; events_emitted := events_emitted r; reconnects := reconnects r;
     intentional_stop := intentional_stop r; watchdog := watchdog r; worker := worker r; app := app r |}.
Definition t : Type := SocketIoClient.t * rest.

(* @src include/ingestion/native_bc_socket.hpp | NativeBcGameSocket(EventDecoder& decoder, EventRouter& router, *)
Definition make (c : Config) (d : EventDecoder.t) (r : EventRouter.t Q) (a : A) : t :=
  (SocketIoClient.make,
   {| cfg := c; decoder := d; router := r; client := None; status := Stopped; last_error := EmptyString;
      current_game_id := EmptyString; last_event_ms := 0; last_ed_ms := 0; last_frame_ms := 0; joined_at_ms := 0;
      frames_rx := 0; events_emitted := 0; reconnects := 0; intentional_stop := false; watchdog := false; worker := None;
      app := a |}).

Definition tracked (event : string) : bool := bool_decide (event ∈ ["pr"; "bg"; "pg"; "ed"; "st"]).

(* @src include/ingestion/native_bc_socket.hpp | void setStatus( *)
Definition setStatus (s : Status) (detail : string) (r : rest) : rest :=
  let prev := status r in
  let r := r <| status := s |> in
  if bool_decide (prev = s) && str_empty detail then r
  else r <| last_error := detail |> <| app := fold_left (fun a h => h s detail a) status_handlers (app r) |>.

(** The state handler given to the Socket.IO client. *)
(* @src include/ingestion/native_bc_socket.hpp:88-90 NativeBcGameSocket *)
Definition on_state (up : bool) (r : rest) : rest := if up then r else setStatus Reconnecting "transport down" r.

(** The send function of the Socket.IO client is bound to the session of the last client. *)
Definition send (now : Z) (f : list Z) (r : rest) : option (bool * rest) :=
  c ← client r;
  s ← WebSocketClient.session c;
  let '(ok, s) := WebSocketSession.send now f s in
  Some (ok, r <| client := Some (c <| WebSocketClient.session := Some s |>) |>).

(** The readings of the clocks while one packet is handled. *)
Record times := { t_now : Z; t_decode : EventDecoder.readings; t_route0 : Z; t_route1 : Z }.

(* @src include/ingestion/native_bc_socket.hpp:220-240 NativeBcGameSocket::onPacket *)
Definition on_event (tm : times) (ev : CrashEvent) (x : t) : t :=
  let '(sio, r) := x in
  let r := r <| last_event_ms := t_now tm |> in
  let r :=
    if decide (kind ev = KEnd) then
      let r := r <| last_ed_ms := t_now tm |> in
      if bool_decide (status r ∈ [SocketOpen; Degraded; Connected]) then setStatus Connected "ed" r else r
    else r in
  let r := if str_empty (gameId ev) then r else r <| current_game_id := gameId ev |> in
  let r := r <| router := snd (EventRouter.route (router r) ev (t_route0 tm) (t_route1 tm)) |> <| events_emitted ::= bump |> in
  (sio, r <| app := fold_left (fun a h => h ev a) event_handlers (app r) |>).

(* @src include/ingestion/native_bc_socket.hpp | void onPacket( *)
Definition onPacket (tm : times) (pkt : SocketIoPacket) (x : t) : option t :=
  let '(sio, r) := x in
  if decide (pk_kind pkt = PkConnect) then
    if bool_decide (pk_nsp pkt = nsp (cfg r)) || str_empty (pk_nsp pkt) then
      if negb (SocketIoClient.joined sio) then
        '(j, (sio, r)) ← SocketIoClient.joinCrashNamespace (send (t_now tm)) (Some on_state) (sio, r);
        Some (if is_ok j then (sio, (setStatus Connected "joined" r) <| joined_at_ms := t_now tm |>) else (sio, r))
      else Some x
    else Some x
  else if decide (pk_kind pkt = PkEvent) then
    if negb (tracked (pk_event pkt)) then Some x
    else
      '(res, d) ← EventDecoder.decodeEventPacket exp (decoder r) pkt NativeSocket (t_decode tm);
      let r := r <| decoder := d |> in
      match res with
      | Err _ => Some (sio, r)
      | Ok ev => Some (on_event tm ev (sio, r))
      end
  else Some x.

(* @src include/ingestion/native_bc_socket.hpp | void onRawFrame( *)
Definition onRawFrame (tm : times) (data : list Z) (x : t) : option t :=
  let '(sio, r) := x in
  let r := r <| frames_rx ::= bump |> <| last_frame_ms := t_now tm |> in
  let r := if engineio.isOpenFrame data then setStatus SocketOpen "engine open" r else r in
  SocketIoClient.onBinaryFrame (send (t_now tm)) (Some (onPacket tm)) None (Some on_state) data (t_now tm) (t_now tm) (sio, r).

Definition stop_client (r : rest) : rest := r <| client := None |>.

(* @src include/ingestion/native_bc_socket.hpp | void scheduleReconnect( *)
Definition scheduleReconnect (waf : bool) (r : rest) : rest :=
  if intentional_stop r then r
  else
    let r := if waf then setStatus WafBlocked "waf" r else setStatus Reconnecting "reconnect" r in
    let r := stop_client (r <| reconnects ::= bump |>) in
    let delay := if waf then wafBackoffMs (cfg r)
                 else Z.min (reconnectMaxMs (cfg r)) (i64 (reconnectBaseMs (cfg r) * (1 + reconnects r mod 10))) in
    r <| worker := Some delay |>.

(** [sig1] and [sig2]: what the signer answers here and in the client's constructor, when there is
    one; the second one decides the query. *)
(* @src include/ingestion/native_bc_socket.hpp | Result<void> start() { *)
Definition start (sig1 sig2 : option SocketSignature) (now : Z) (x : t) : option (Result unit * t) :=
  let '(sio, r) := x in
  if bool_decide (status r <> Stopped) && bool_decide (status r <> WafBlocked) then Some (Ok tt, x)
  else
    let r := setStatus Connecting "start" (r <| intentional_stop := false |>) in
    let wcfg := default_ws_config <| Socket.host := host (cfg r) |> <| Socket.path := path (cfg r) |>
      <| auto_reconnect := false |> <| reconnect_base_ms := reconnectBaseMs (cfg r) |>
      <| reconnect_max_ms := reconnectMaxMs (cfg r) |>
      <| extra_query := SocketIoClient.buildSignedQuery sig1 |> in
    '(res, (sio, (c, r))) ← WebSocketClient.start connection (Some on_state) now (WebSocketClient.make wcfg sig2) sio r;
    let r := r <| client := Some c |> in
    match res with
    | Err e => Some (Err e, (sio, scheduleReconnect false (setStatus Reconnecting (message e) r)))
    | Ok _ =>
        let r := setStatus SocketOpen "transport up" r in
        let r := if SocketIoClient.joined sio then (setStatus Connected "namespace joined" r) <| joined_at_ms := now |> else r in
        Some (Ok tt, (sio, r <| watchdog := true |>))
    end.

(* @src include/ingestion/native_bc_socket.hpp | void stop() { *)
Definition stop (x : t) : t :=
  let '(sio, r) := x in
  (sio, setStatus Stopped "stop" (stop_client (r <| intentional_stop := true |> <| watchdog := false |>))).

(* @src include/ingestion/native_bc_socket.hpp | void injectFrame(const std::uint8_t* d, std::size_t n) { *)
Definition injectFrame (tm : times) (data : list Z) (x : t) : option t := onRawFrame tm data x.

(* @src include/ingestion/native_bc_socket.hpp | void checkDegraded() { *)
Definition checkDegraded (now : Z) (r : rest) : rest :=
  if negb (bool_decide (status r ∈ [Connected; Degraded])) then r
  else if last_event_ms r =? 0 then r
  else if degradedMs (cfg r) <? now - last_event_ms r then
    if decide (status r = Degraded) then r else setStatus Degraded "event age" r
  else r.

(* @src include/ingestion/native_bc_socket.hpp | void checkStale() { *)
Definition checkStale (now : Z) (r : rest) : rest :=
  if bool_decide (status r ∈ [Stopped; WafBlocked]) then r
  else if last_frame_ms r =? 0 then r
  else if staleMs (cfg r) <? now - last_frame_ms r then scheduleReconnect false r
  else r.

(** One turn of the watchdog, after its sleep; the readings of one turn are taken equal. *)
(* @src include/ingestion/native_bc_socket.hpp | void startWatchdog() { *)
Definition watchdog_turn (now : Z) (x : t) : option t :=
  let '(sio, r) := x in
  if negb (watchdog r) || intentional_stop r then Some x
  else SocketIoClient.tick (send now) now now now (sio, checkStale now (checkDegraded now r)).

(** The reconnect worker at the end of its wait. *)
(* @src include/ingestion/native_bc_socket.hpp:318-323 NativeBcGameSocket::scheduleReconnect *)
Definition worker_fires (sig1 sig2 : option SocketSignature) (now : Z) (x : t) : option t :=
  let '(sio, r) := x in
  match worker r with
  | None => Some x
  | Some _ =>
      let r := r <| worker := None |> in
      if intentional_stop r then Some (sio, r)
      else '(_, x) ← start sig1 sig2 now (sio, r); Some x
  end.

(* @src include/ingestion/native_bc_socket.hpp:170-171 NativeBcGameSocket::health *)
Definition healthy (x : t) : bool := bool_decide (status x.2 ∈ [Connected; Degraded]).

(** [lastPongMs] is never set. *)
(* @src include/ingestion/native_bc_socket.hpp | ConnectionHealth health() const { *)
Definition health (x : t) : ConnectionHealth := {|
  ch_connected := healthy x; ch_lastMessageMs := last_event_ms x.2; ch_lastPongMs := 0; ch_reconnects := reconnects x.2;
  ch_lastError := last_error x.2 |}.

Lemma onPacket_event tm space name payload ev d sio r :
  tracked name = true ->
  EventDecoder.decodeEventPacket exp (decoder r) (EventDecoder.event_packet space name payload) NativeSocket (t_decode tm) =
    Some (Ok ev, d) ->
  onPacket tm (EventDecoder.event_packet space name payload) (sio, r) = Some (on_event tm ev (sio, r <| decoder := d |>)).
Proof.
  intros Ht Hd. unfold onPacket. rewrite decide_False by done. rewrite decide_True by done.
  change (pk_event (EventDecoder.event_packet space name payload)) with name. by rewrite Ht, Hd.
Qed.

(** ** A finished round *)

(** Remark: the frame of a finished round, received on a live stream, confirms the stream and is
    handed on once: the status is connected, the event with the round's id, crash point and hash
    goes to the router and then to every handler in the order of their installation. *)
Theorem native_end_event (tm : times) (sio : SocketIoClient.t) (r : rest) (gid : Z) (mult : double) (hash : string) :
  let m := fllround (fmul mult (of_Z 100)) in
  let ev := EventDecoder.end_event "ed" gid m hash NativeSocket (t_decode tm) in
  0 <= gid < 2 ^ 56 -> 0 <= m < 2 ^ 56 -> Z.of_nat (String.length hash) < 2 ^ 56 ->
  status r ∈ [SocketOpen; Degraded; Connected] ->
  exists r', onRawFrame tm (encodeEvent (nsp default_config) "ed" (encodeEndPayload gid mult hash)) (sio, r) =
      Some (sio <| SocketIoClient.frames_rx ::= bump |>, r') /\
    status r' = Connected /\ client r' = client r /\ events_emitted r' = bump (events_emitted r) /\
    router r' = (EventRouter.route (router r) ev (t_route0 tm) (t_route1 tm)).2 /\
    current_game_id r' = to_string gid /\ last_event_ms r' = t_now tm /\
    app r' = fold_left (fun a h => h ev a) event_handlers (fold_left (fun a h => h Connected "ed" a) status_handlers (app r)).
Proof.
  intros m ev Hg Hm Hh Hst. set (payload := encodeEndPayload gid mult hash).
  unfold onRawFrame. cbn [nsp default_config]. assert (engineio.isOpenFrame (encodeEvent "/g/cm" "ed" payload) = false) as -> by done.
  rewrite SocketIoClient.onBinaryFrame_event by (unfold short; simpl; lia).
  erewrite onPacket_event; [|done|by apply EventDecoder.decode_end_packet].
  cbn [mbind option_bind]. change (fllround (fmul mult (of_Z 100))) with m. fold ev.
  set (r0 := r <| frames_rx ::= bump |> <| last_frame_ms := t_now tm |>
    <| decoder := EventDecoder.count_decoded _ _ |>).
  assert (kind ev = KEnd /\ gameId ev = to_string gid) as [Hk Hid] by (by unfold ev, EventDecoder.end_event; destruct (one_of _ _)).
  unfold on_event. rewrite decide_True by done. rewrite bool_decide_true by done. rewrite Hid.
  rewrite (proj2 (str_empty_false (to_string gid))) by apply to_string_nonempty.
  unfold setStatus. change (str_empty "ed") with false. rewrite andb_false_r.
  eexists. split; [done|]. split_and!; done.
Qed.
(** ** Reconnection *)

(** What the two threads do by themselves, and the calls of a caller. *)
Inductive action :=
| WatchdogTurn (now : Z)
| WorkerFires (sig1 sig2 : option SocketSignature) (now : Z)
| StartAgain (sig1 sig2 : option SocketSignature) (now : Z)
| Inject (tm : times) (data : list Z)
| Stop.

Definition act (x : t) (a : action) : option t :=
  match a with
  | WatchdogTurn now => watchdog_turn now x
  | WorkerFires sig1 sig2 now => worker_fires sig1 sig2 now x
  | StartAgain sig1 sig2 now => snd <$> start sig1 sig2 now x
  | Inject tm data => injectFrame tm data x
  | Stop => Some (stop x)
  end.
Fixpoint acts (x : t) (l : list action) : option t :=
  match l with [] => Some x | a :: l => x ← act x a; acts x l end.

Definition is_stop (a : action) : bool := match a with Stop => true | _ => false end.
(** No start follows a stop. *)
Fixpoint no_restart (stopped : bool) (l : list action) : bool :=
  match l with
  | [] => true
  | StartAgain _ _ _ :: l => negb stopped && no_restart stopped l
  | a :: l => no_restart (stopped || is_stop a) l
  end.
(** Nothing but the threads, and attempts to start. *)
Definition by_itself (a : action) : bool := match a with Inject _ _ | Stop => false | _ => true end.

(** Without a client; unless it was stopped, [start] and with it the worker do nothing. *)
Definition dead (stopped : bool) (r : rest) : Prop :=
  client r = None /\ intentional_stop r = stopped /\ (stopped = false -> status r ∉ [Stopped; WafBlocked]).

Lemma setStatus_fields s detail r :
  client (setStatus s detail r) = client r /\ intentional_stop (setStatus s detail r) = intentional_stop r /\
  status (setStatus s detail r) = s.
Proof. unfold setStatus. by destruct (_ && _). Qed.

Lemma setStatus_dead s detail b r : s ∉ [Stopped; WafBlocked] -> dead b r -> dead b (setStatus s detail r).
Proof. intros Hs (Hc & Hi & _). destruct (setStatus_fields s detail r) as (E1 & E2 & E3). unfold dead. by rewrite E1, E2, E3. Qed.

Lemma send_dead now f b r : dead b r -> send now f r = None.
Proof. intros (Hc & _). unfold send. by rewrite Hc. Qed.

Lemma on_state_dead up b r : dead b r -> dead b (on_state up r).
Proof. intros H. destruct up; [done|]. apply setStatus_dead; [set_solver|done]. Qed.

Lemma on_event_dead tm ev sio b r : dead b r -> dead b (on_event tm ev (sio, r)).2.
Proof.
  intros H. unfold on_event. cbn [snd]. set (r1 := r <| last_event_ms := t_now tm |>).
  assert (dead b r1) as H1 by exact H. clearbody r1.
  match goal with |- context[if decide _ then ?y else r1] => set (r2 := if decide (kind ev = KEnd) then y else r1) end.
  assert (dead b r2) as H2.
  { unfold r2. destruct (decide _); [|done]. destruct (bool_decide _); [|exact H1].
    apply setStatus_dead; [set_solver|exact H1]. }
  clearbody r2. by destruct (str_empty (gameId ev)).
Qed.

Lemma onPacket_dead tm pkt sio b r x' : dead b r -> onPacket tm pkt (sio, r) = Some x' -> dead b x'.2.
Proof.
  intros H. unfold onPacket. destruct (decide _).
  - destruct (_ || _); [|by intros [= <-]]. destruct (negb _); [|by intros [= <-]].
    unfold SocketIoClient.joinCrashNamespace. destruct (negb (SocketIoClient.has_send sio)); [by intros [= <-]|].
    by rewrite (send_dead _ _ _ _ H).
  - destruct (decide _); [|by intros [= <-]]. destruct (negb _); [by intros [= <-]|].
    destruct (EventDecoder.decodeEventPacket _ _ _ _ _) as [[res d]|]; [|done]. cbn [mbind option_bind].
    destruct res as [ev|err']; [|by intros [= <-]]. intros E. apply (inj Some) in E as <-.
    apply (on_event_dead tm ev sio b (r <| decoder := d |>)). exact H.
Qed.

Lemma onRawFrame_dead tm data sio b r x' : dead b r -> onRawFrame tm data (sio, r) = Some x' -> dead b x'.2.
Proof.
  intros H. unfold onRawFrame. set (r1 := if engineio.isOpenFrame data then _ else _).
  assert (dead b r1) as H1.
  { unfold r1. destruct (engineio.isOpenFrame data); [apply setStatus_dead; [set_solver|]|]; exact H. }
  clearbody r1. unfold SocketIoClient.onBinaryFrame. destruct data as [|b0 data]; [by intros [= <-]|].
  destruct (engineio.isPing _).
  { destruct (SocketIoClient.has_send _); [by rewrite (send_dead _ _ _ _ H1)|by intros [= <-]]. }
  destruct (engineio.isPong _); [by intros [= <-]|]. destruct (engineio.isOpenFrame _); [by intros [= <-]|].
  destruct (engineio.isClose _). { intros E. apply (inj Some) in E as <-. by apply on_state_dead. }
  destruct (b0 =? 4); [|by intros [= <-]]. destruct (parsePacket _) as [pkt|]; [|done]. cbn [mbind option_bind].
  destruct (onPacket tm pkt _) as [[sio' r']|] eqn:E; [|done]. intros [= <-]. exact (onPacket_dead _ _ _ _ _ _ H1 E).
Qed.

Lemma start_dead sig1 sig2 now sio r : dead false r -> start sig1 sig2 now (sio, r) = Some (Ok tt, (sio, r)).
Proof.
  intros (_ & _ & Hs). specialize (Hs eq_refl). unfold start.
  rewrite !bool_decide_eq_true_2 by (intros E; rewrite E in Hs; set_solver). done.
Qed.

Lemma checks_dead now r : dead false r -> dead false (checkStale now (checkDegraded now r)).
Proof.
  intros H. assert (dead false (checkDegraded now r)) as H1.
  { unfold checkDegraded. repeat case_match; try done. apply setStatus_dead; [set_solver|done]. }
  clear H. generalize dependent (checkDegraded now r). intros r' H. unfold checkStale. repeat case_match; try done.
  unfold scheduleReconnect. destruct H as (Hc & Hi & Hs). rewrite Hi. unfold dead.
  unfold setStatus. change (str_empty "reconnect") with false. rewrite andb_false_r. split_and!; [done|done|]. intros _. set_solver.
Qed.

Lemma act_dead x a x' stopped : dead stopped x.2 -> act x a = Some x' -> no_restart stopped [a] = true ->
  dead (stopped || is_stop a) x'.2.
Proof.
  destruct x as [sio r]. cbn [snd]. intros H Ha Hn.
  destruct a as [now|sig1 sig2 now|sig1 sig2 now|tm data|]; cbn [act is_stop] in *; rewrite ?orb_false_r, ?orb_true_r.
  - unfold watchdog_turn in Ha. destruct (negb (watchdog r) || intentional_stop r) eqn:Ew; [by simplify_eq|].
    apply orb_false_iff in Ew as [_ Ei]. destruct H as (Hc & Hi & Hs). assert (stopped = false) as -> by congruence.
    assert (dead false (checkStale now (checkDegraded now r))) as H by (by apply checks_dead).
    unfold SocketIoClient.tick in Ha. rewrite (send_dead _ _ _ _ H) in Ha. repeat (case_match; simplify_eq/=; try done).
  - unfold worker_fires in Ha. destruct (worker r); [|by simplify_eq].
    destruct (intentional_stop (r <| worker := None |>)) eqn:Ei; [by simplify_eq|].
    destruct H as (Hc & Hi & Hs). cbn in Ei. assert (stopped = false) as -> by congruence.
    rewrite start_dead in Ha by done. cbn in Ha. by simplify_eq.
  - cbn in Hn. destruct stopped; [done|]. rewrite start_dead in Ha by done. cbn in Ha. by simplify_eq.
  - by eapply onRawFrame_dead.
  - simplify_eq. unfold stop. cbn [snd]. unfold dead. destruct (setStatus_fields Stopped "stop" (stop_client (r <| intentional_stop := true |> <| watchdog := false |>))) as (-> & -> & _).
    done.
Qed.

Lemma acts_dead l : forall x x' stopped, dead stopped x.2 -> acts x l = Some x' -> no_restart stopped l = true ->
  dead (stopped || existsb is_stop l) x'.2.
Proof.
  induction l as [|a l IH]; intros x x' stopped H Ha Hn.
  - cbn in *. simplify_eq. by rewrite orb_false_r.
  - cbn [acts existsb] in *. destruct (act x a) as [x1|] eqn:E; [|done]. cbn [mbind option_bind] in Ha. rewrite orb_assoc.
    assert (no_restart stopped [a] = true /\ no_restart (stopped || is_stop a) l = true) as [Hn1 Hn2].
    { destruct a; cbn [no_restart is_stop] in *; rewrite ?orb_false_r in *; try done. by apply andb_true_iff in Hn as [-> ->]. }
    eapply IH; [|exact Ha|exact Hn2]. by eapply act_dead.
Qed.

(** Waiting for a reconnection, with the client gone. *)
Definition gone (r : rest) : Prop := status r = Reconnecting /\ client r = None /\ intentional_stop r = false.
Definition told_reconnect (a : A) : A := fold_left (fun a h => h Reconnecting "reconnect" a) status_handlers a.

Lemma setStatus_intentional s detail r : intentional_stop (setStatus s detail r) = intentional_stop r.
Proof. unfold setStatus. by destruct (_ && _). Qed.

Lemma scheduleReconnect_gone r : intentional_stop r = false -> gone (scheduleReconnect false r).
Proof.
  intros Hi. unfold scheduleReconnect. rewrite Hi. unfold setStatus. change (str_empty "reconnect") with false.
  rewrite andb_false_r. done.
Qed.

Lemma start_gone sig1 sig2 now sio r : gone r -> start sig1 sig2 now (sio, r) = Some (Ok tt, (sio, r)).
Proof. intros (Hs & _). unfold start. by rewrite Hs. Qed.

Lemma checkStale_gone now r : gone r ->
  gone (checkStale now (checkDegraded now r)) /\
  exists n, app (checkStale now (checkDegraded now r)) = Nat.iter n told_reconnect (app r).
Proof.
  intros Hg. assert (checkDegraded now r = r) as ->.
  { unfold checkDegraded. destruct Hg as (-> & _). done. }
  unfold checkStale. destruct (bool_decide _); [split; [done|by exists 0%nat]|].
  destruct (_ =? 0); [split; [done|by exists 0%nat]|]. destruct (_ <? _); [|split; [done|by exists 0%nat]].
  split; [apply scheduleReconnect_gone; apply Hg|]. exists 1%nat. unfold scheduleReconnect.
  destruct Hg as (_ & _ & ->). unfold setStatus. change (str_empty "reconnect") with false. by rewrite andb_false_r.
Qed.

(** The Socket.IO client, disconnected, is left alone by the watchdog. *)
Lemma act_gone x a : by_itself a = true -> gone x.2 -> SocketIoClient.connected x.1 = false ->
  exists x', act x a = Some x' /\ x'.1 = x.1 /\ gone x'.2 /\ exists n, app x'.2 = Nat.iter n told_reconnect (app x.2).
Proof.
  destruct x as [sio r]. cbn [fst snd]. intros Hb Hg Hc. destruct a as [now|sig1 sig2 now|sig1 sig2 now|tm data|]; try discriminate Hb; cbn [act].
  - unfold watchdog_turn. destruct (_ || _).
    { exists (sio, r). split_and!; try done. by exists 0%nat. }
    unfold SocketIoClient.tick. rewrite Hc. cbn [negb]. destruct (checkStale_gone now r Hg) as [? ?]. eexists. by split_and!.
  - unfold worker_fires. destruct (worker r) as [delay|].
    + destruct (intentional_stop (r <| worker := None |>)) eqn:Ei; [destruct Hg as (_ & _ & Hi); simpl in Ei; congruence|].
      rewrite start_gone by done. cbn [mbind option_bind]. eexists. split_and!; try done. by exists 0%nat.
    + eexists. split_and!; try done. by exists 0%nat.
  - rewrite start_gone by done. eexists. split_and!; try done. by exists 0%nat.
Qed.

(** A start that reports an error leaves the socket waiting. *)
Lemma start_error sig1 sig2 now sio r e x' :
  start sig1 sig2 now (sio, r) = Some (Err e, x') ->
  gone x'.2 /\ SocketIoClient.connected x'.1 = SocketIoClient.connected sio.
Proof.
  unfold start. destruct (_ && _); [done|].
  set (r0 := setStatus Connecting "start" _). set (c := WebSocketClient.make _ _).
  destruct (WebSocketClient.start_spec connection (Some on_state) now c sio r0) as (res & sio' & c' & r' & -> & _ & H).
  cbn [mbind option_bind]. destruct res as [u|e']; [done|]. destruct H as [-> ->]. intros [= _ <-].
  split; [|done]. apply scheduleReconnect_gone. rewrite setStatus_intentional. apply setStatus_intentional.
Qed.

Lemma acts_gone l : forall x, Forall (fun a => by_itself a = true) l -> gone x.2 -> SocketIoClient.connected x.1 = false ->
  exists x', acts x l = Some x' /\ gone x'.2 /\ exists n, app x'.2 = Nat.iter n told_reconnect (app x.2).
Proof.
  induction l as [|a l IH]; intros x Hl Hg Hc; [exists x; split_and!; try done; by exists 0%nat|].
  apply list.Forall_cons in Hl as [Hb Hl]. destruct (act_gone x a Hb Hg Hc) as (x1 & E1 & Es & Hg1 & n1 & Hn1).
  destruct (IH x1 Hl Hg1) as (x2 & E2 & Hg2 & n2 & Hn2); [by rewrite Es|].
  exists x2. cbn [acts]. rewrite E1. split_and!; try done. exists (n2 + n1)%nat. by rewrite Nat.iter_add, <-Hn1.
Qed.

(** C16: the socket does not come back by itself.  When a start fails (the server refuses the
    connection, or a frame of the join is not sent), the reconnect worker finds the status that was
    just set to [Reconnecting] and returns without doing anything.  Whatever happens later -
    turns of the watchdog, workers that fire, frames injected by a caller, starts and stops - there is
    no client as long as no start follows a stop; and while nobody stops the socket, every
    further start answers success and changes nothing.  (A run ends where an injected
    frame or a ping is answered through the client that is gone; the installed handlers are
    fixed.)  If only the threads and
    starts act, and the Socket.IO client was not connected when the start failed, every
    run goes on, the status stays [Reconnecting] and the handlers hear of nothing but
    reconnections. *)
Theorem native_never_reconnects (sig1 sig2 : option SocketSignature) (now : Z) (x x' : t) (e : Error) (l : list action) :
  start sig1 sig2 now x = Some (Err e, x') ->
  (forall x'', acts x' l = Some x'' -> no_restart false l = true ->
    client x''.2 = None /\
    (existsb is_stop l = false -> forall s1 s2 t, start s1 s2 t x'' = Some (Ok tt, x''))) /\
  (SocketIoClient.connected x.1 = false -> Forall (fun a => by_itself a = true) l ->
    exists x'', acts x' l = Some x'' /\ status x''.2 = Reconnecting /\ client x''.2 = None /\
      exists n, app x''.2 = Nat.iter n told_reconnect (app x'.2)).
Proof.
  destruct x as [sio r]. intros Hs. apply start_error in Hs as [Hg Hc]. split.
  - intros x'' Ha Hn. assert (dead false x'.2) as H.
    { destruct Hg as (Hs & Hcl & Hi). unfold dead. rewrite Hs. split_and!; try done. intros _. set_solver. }
    apply acts_dead with (stopped := false) in Ha as (H1 & H2 & H3); [|done|done]. split; [done|].
    cbn [orb] in *. intros Hno s1 s2 t0. destruct x'' as [sio'' r'']. apply start_dead. unfold dead. cbn [snd] in *. by rewrite H2, Hno in *.
  - intros Hd Hl. destruct (acts_gone l x' Hl Hg) as (x'' & Ha & (Hst & Hcl & _) & Hn); [by rewrite Hc|]. by exists x''.
Qed.

(** Remark: a caller's stop makes the next start a real one: when it answers success there is a
    client again. *)
Theorem stop_start_connects (sig1 sig2 : option SocketSignature) (now : Z) (x x' : t) :
  start sig1 sig2 now (stop x) = Some (Ok tt, x') -> exists c, client x'.2 = Some c.
Proof.
  destruct x as [sio r]. unfold stop. set (r0 := setStatus Stopped "stop" _).
  assert (status r0 = Stopped) as E by apply setStatus_fields. clearbody r0. unfold start. rewrite E.
  rewrite bool_decide_eq_false_2 by (by intros []). cbn [andb].
  destruct (WebSocketClient.start _ _ _ _ _ _) as [[res [sio' [c r']]]|]; [|done]. cbn [mbind option_bind].
  destruct res as [u|e]; [|done]. intros [= <-]. cbn [snd]. set (r1 := setStatus SocketOpen _ _).
  assert (client r1 = Some c) as H1 by apply setStatus_fields. clearbody r1. exists c.
  destruct (SocketIoClient.joined sio'); [|exact H1].
  change (client (setStatus Connected "namespace joined" r1) = Some c). destruct (setStatus_fields Connected "namespace joined" r1) as (-> & _). exact H1.
Qed.

(** Remark: a stream that was live and has been silent for longer than the stale limit is worse:
    its client is destroyed while the Socket.IO client still holds the send function bound to
    it, and the first turn of the watchdog with a ping due calls that function. *)
Theorem native_stale_use_after_free (now : Z) (sio : SocketIoClient.t) (r : rest) :
  watchdog r = true -> intentional_stop r = false -> status r = Connected \/ status r = Degraded ->
  0 < last_frame_ms r -> staleMs (cfg r) < now - last_frame_ms r ->
  SocketIoClient.connected sio = true -> SocketIoClient.has_send sio = true ->
  HeartbeatMonitor.shouldPing (SocketIoClient.heartbeat sio) now = true ->
  watchdog_turn now (sio, r) = None.
Proof.
  intros Hw Hi Hs H0 Hl Hc Hsend Hp. unfold watchdog_turn. rewrite Hw, Hi. cbn [negb orb].
  assert (client (checkStale now (checkDegraded now r)) = None) as Hcl.
  { set (r' := checkDegraded now r). assert (cfg r' = cfg r /\ last_frame_ms r' = last_frame_ms r /\
      intentional_stop r' = false /\ (status r' = Connected \/ status r' = Degraded)) as (E1 & E2 & E3 & E4).
    { unfold r', checkDegraded. repeat case_match; try done; unfold setStatus; repeat case_match; simpl; auto. }
    unfold checkStale. rewrite E1, E2. rewrite bool_decide_false by (destruct E4 as [-> | ->]; set_solver).
    rewrite (proj2 (Z.eqb_neq _ _)) by lia. rewrite (proj2 (Z.ltb_lt _ _)) by lia.
    by apply scheduleReconnect_gone. }
  unfold SocketIoClient.tick. rewrite Hc, Hp, Hsend. cbn [negb andb]. unfold send. by rewrite Hcl.
Qed.
End S.
End NativeBcGameSocket.
#[export] Existing Instance NativeBcGameSocket.eta_rest.

(** A network that refuses every connection. *)
#[local] Instance refusing : WebSocket WebSocketConfig.
Proof.
  refine {| ws_config c := c; ws_connected _ := false; ws_update_metrics _ c := c;
            ws_connect _ c := (Err (err ConnectionFailed "refused"), c); ws_close c := (false, c);
            ws_send _ _ c := (Err (err ConnectionFailed "not connected"), c); ws_poll c := ([], c) |}; done.
Defined.

Definition demo_socket (q : SpscQueue.t CrashEvent) : NativeBcGameSocket.t (D := WebSocketConfig) (Q := SpscQueue.t CrashEvent) (A := nat) :=
  NativeBcGameSocket.make NativeBcGameSocket.default_config (EventDecoder.make None) (demo_router q) 0%nat.
Definition live_socket (q : SpscQueue.t CrashEvent) : NativeBcGameSocket.t (D := WebSocketConnection.t) (Q := SpscQueue.t CrashEvent) (A := nat) :=
  NativeBcGameSocket.make NativeBcGameSocket.default_config (EventDecoder.make None) (demo_router q) 0%nat.
Definition demo_heard : list (NativeBcGameSocket.Status -> string -> nat -> nat) := [fun _ _ n => S n].

(** The threads and a second start; and then an injected Engine.IO open frame and a stop. *)
Definition demo_actions : list NativeBcGameSocket.action :=
  [NativeBcGameSocket.WorkerFires None None 2000; NativeBcGameSocket.WatchdogTurn 9000; NativeBcGameSocket.StartAgain None None 9500].
Definition demo_calls : list NativeBcGameSocket.action :=
  [NativeBcGameSocket.WorkerFires None None 2000;
   NativeBcGameSocket.Inject {| NativeBcGameSocket.t_now := 9600; NativeBcGameSocket.t_decode := zero_readings;
                                NativeBcGameSocket.t_route0 := 0; NativeBcGameSocket.t_route1 := 1 |} [48; 123; 125];
   NativeBcGameSocket.StartAgain None None 9700; NativeBcGameSocket.Stop].

Lemma native_never_reconnects_witness :
  exists q x' x1 x2, demo_ring = Some q /\
    NativeBcGameSocket.start id demo_heard None None 1000 (demo_socket q) = Some (Err (err ConnectionFailed "refused"), x') /\
    NativeBcGameSocket.acts id id [] demo_heard x' demo_calls = Some x1 /\ NativeBcGameSocket.client x1.2 = None /\
    NativeBcGameSocket.acts id id [] demo_heard x' demo_actions = Some x2 /\
    NativeBcGameSocket.status x2.2 = NativeBcGameSocket.Reconnecting.
Proof.
  destruct demo_ring as [q|] eqn:Eq; [|vm_compute in Eq; discriminate]. exists q.
  destruct (NativeBcGameSocket.start id demo_heard None None 1000 (demo_socket q)) as [[r x']|] eqn:Es; [|discriminate Es].
  destruct r as [u|e]; [discriminate Es|]. assert (e = err ConnectionFailed "refused") as -> by (injection Es as <- _; reflexivity).
  pose proof (NativeBcGameSocket.native_never_reconnects id id [] demo_heard None None 1000 (demo_socket q) x' _ demo_calls Es) as [H1 _].
  pose proof (NativeBcGameSocket.native_never_reconnects id id [] demo_heard None None 1000 (demo_socket q) x' _ demo_actions Es) as [_ H2].
  destruct (H2 eq_refl) as (x2 & Ha & Hs & _); [repeat constructor|].
  destruct (NativeBcGameSocket.acts id id [] demo_heard x' demo_calls) as [x1|] eqn:E1; [|injection Es as <-; discriminate E1].
  exists x', x1, x2. split; [reflexivity|]. split; [reflexivity|]. split; [exact E1|].
  split; [apply (proj1 (H1 x1 eq_refl eq_refl))|]. split; [exact Ha|exact Hs].
Defined.

Lemma stop_start_connects_witness :
  exists q x' c, demo_ring = Some q /\
    NativeBcGameSocket.start (D := WebSocketConnection.t) (fun c => WebSocketConnection.make c None) demo_heard None None 1000
      (NativeBcGameSocket.stop demo_heard (live_socket q)) = Some (Ok tt, x') /\
    NativeBcGameSocket.client x'.2 = Some c.
Proof.
  destruct demo_ring as [q|] eqn:Eq; [|vm_compute in Eq; discriminate]. exists q.
  destruct (NativeBcGameSocket.start (fun c => WebSocketConnection.make c None) demo_heard None None 1000
    (NativeBcGameSocket.stop demo_heard (live_socket q))) as [[r x']|] eqn:Es; [|discriminate Es].
  destruct r as [[]|e]; [|discriminate Es].
  destruct (NativeBcGameSocket.stop_start_connects (fun c => WebSocketConnection.make c None) demo_heard None None 1000 (live_socket q) x' Es)
    as [c Hc].
  exists x', c. split; [reflexivity|]. split; [reflexivity|exact Hc].
Defined.

Lemma native_end_event_witness :
  exists q r', demo_ring = Some q /\
    NativeBcGameSocket.onRawFrame (fun x => x) [fun _ n => (n + 10)%nat] demo_heard
      {| NativeBcGameSocket.t_now := 5; NativeBcGameSocket.t_decode := zero_readings; NativeBcGameSocket.t_route0 := 0; NativeBcGameSocket.t_route1 := 1 |}
      (encodeEvent "/g/cm" "ed" (encodeEndPayload 77 (flit 234 100) "h"))
      (SocketIoClient.make, (demo_socket q).2 <| NativeBcGameSocket.status := NativeBcGameSocket.SocketOpen |>) =
      Some (SocketIoClient.make <| SocketIoClient.frames_rx ::= bump |>, r') /\
    NativeBcGameSocket.status r' = NativeBcGameSocket.Connected /\ NativeBcGameSocket.app r' = 11%nat.
Proof.
  destruct demo_ring as [q|] eqn:Eq; [|vm_compute in Eq; discriminate]. exists q.
  destruct (NativeBcGameSocket.native_end_event (fun x => x) [fun _ n => (n + 10)%nat] demo_heard
    {| NativeBcGameSocket.t_now := 5; NativeBcGameSocket.t_decode := zero_readings; NativeBcGameSocket.t_route0 := 0; NativeBcGameSocket.t_route1 := 1 |}
    SocketIoClient.make ((demo_socket q).2 <| NativeBcGameSocket.status := NativeBcGameSocket.SocketOpen |>) 77 (flit 234 100) "h")
    as (r' & H1 & H2 & _ & _ & _ & _ & _ & H3).
  - lia.
  - vm_compute. split; [discriminate|reflexivity].
  - simpl. lia.
  - simpl. set_solver.
  - exists r'. split; [reflexivity|]. split; [exact H1|]. split; [exact H2|]. rewrite H3. reflexivity.
Defined.
