(* ===== verification/Registry.v ===== *)
(** [PredictionRegistry] ([include/validation/prediction_registry.hpp]): outstanding
    predictions by target round, with an index by prediction id. *)
From stdpp Require Import sorting.
From S2P Require Import Prelude Float64 Types.

Module PredictionRegistry.

(* @src include/validation/prediction_registry.hpp:122-128 PredictionRegistry *)
Record t := {
  max : nat;
  by_round : gmap string (list PredictionEvent);
  by_id : gmap string string;
  registered : Z;
  duplicates : Z;
  pruned : Z
}.
#[export] Instance eta_t : Eta t := fun r =>
  {| max := max r; by_round := by_round r; by_id := by_id r; registered := registered r;
     duplicates := duplicates r; pruned := pruned r |}.

(* @src include/validation/prediction_registry.hpp | explicit PredictionRegistry( *)
Definition make (max_entries : nat) : t := {|
  max := max_entries; by_round := ∅; by_id := ∅; registered := 0; duplicates := 0; pruned := 0 |}.

(** All pending predictions, in the order of the hash table. *)
Definition all_events (m : gmap string (list PredictionEvent)) : list PredictionEvent :=
  mjoin (map_to_list m).*2.

(* @src include/validation/prediction_registry.hpp | std::size_t size() *)
Definition size_of (r : t) : nat := length (all_events (by_round r)).

(** The order of [std::pair<TimestampMs, std::string>]. *)
Definition age_le (a b : Z * string) : Prop := a.1 < b.1 \/ (a.1 = b.1 /\ String.le a.2 b.2).
#[export] Instance age_le_dec : RelDecision age_le := fun a b => ltac:(unfold age_le; apply _).

#[export] Instance age_le_trans : Transitive age_le.
Proof.
  intros [a1 a2] [b1 b2] [c1 c2]; unfold age_le; simpl.
  intros [?|[-> ?]] [?|[-> ?]]; [left; lia|by left|by left|right]. split; [done|by etrans].
Qed.

#[export] Instance age_le_total : Total age_le.
Proof.
  intros [a1 a2] [b1 b2]; unfold age_le; simpl.
  destruct (Z.lt_trichotomy a1 b1) as [?|[->|?]]; [by left; left| |by right; left].
  destruct (total String.le a2 b2); [left|right]; by right.
Qed.

Definition age (e : PredictionEvent) : Z * string := (pe_createdAtMs e, pe_predictionId e).

Definition remove_id (pid : string) (l : list PredictionEvent) : list PredictionEvent :=
  filter (fun p => pe_predictionId p <> pid) l.

(** [erase] when empty, else write back. *)
Definition put_round (rid : string) (l : list PredictionEvent) (m : gmap string (list PredictionEvent)) :=
  match l with [] => delete rid m | _ => <[rid := l]> m end.

(** One iteration of the pruning loop. *)
(* @src include/validation/prediction_registry.hpp:105-118 pruneIfNeeded *)
Definition prune_one (r : t) (pid : string) : t :=
  match by_id r !! pid with
  | None => r
  | Some rid =>
      let r := r <| by_id ::= delete pid |> <| pruned ::= bump |> in
      match by_round r !! rid with
      | None => r
      | Some vec => r <| by_round ::= put_round rid (remove_id pid vec) |>
      end
  end.

(* @src include/validation/prediction_registry.hpp | void pruneIfNeeded() *)
Definition pruneIfNeeded (r : t) : t :=
  let total := size_of r in
  if (total <=? max r)%nat then r
  else
    let ages := merge_sort age_le (age <$> all_events (by_round r)) in
    fold_left prune_one (take (total - max r) ages.*2) r.

(* @src include/validation/prediction_registry.hpp | registerPrediction( *)
Definition registerPrediction (r : t) (ev : PredictionEvent) : Result unit * t :=
  if str_empty (pe_targetRoundId ev) then (Err (err InvalidArgument "empty targetRoundId"), r)
  else
    let list_ := default [] (by_round r !! pe_targetRoundId ev) in
    if existsb (fun e => bool_decide (pe_predictionId e = pe_predictionId ev)) list_ then
      (Err (err EDuplicate "prediction already registered"), r <| duplicates ::= bump |>)
    else
      (Ok tt, pruneIfNeeded
        (r <| by_round ::= insert (pe_targetRoundId ev) (list_ ++ [ev]) |>
           <| by_id ::= insert (pe_predictionId ev) (pe_targetRoundId ev) |> <| registered ::= bump |>)).

(* @src include/validation/prediction_registry.hpp | takeForRound( *)
Definition takeForRound (r : t) (rid : string) : list PredictionEvent * t :=
  match by_round r !! rid with
  | None => ([], r)
  | Some out =>
      (out, r <| by_id ::= fun m => foldr (fun e m => delete (pe_predictionId e) m) m out |>
              <| by_round ::= delete rid |>)
  end.

(* @src include/validation/prediction_registry.hpp | find(const PredictionId *)
Definition find (r : t) (id : string) : option PredictionEvent :=
  rid ← by_id r !! id;
  l ← by_round r !! rid;
  List.find (fun e => bool_decide (pe_predictionId e = id)) l.

Definition stale (maxAgeMs now : Z) (e : PredictionEvent) : bool := maxAgeMs <? now - pe_createdAtMs e.

(* @src include/validation/prediction_registry.hpp | std::size_t expireStale( *)
Definition expireStale (r : t) (maxAgeMs now : Z) : nat * t :=
  let gone := filter (fun e => stale maxAgeMs now e = true) (all_events (by_round r)) in
  (length gone,
   r <| by_id ::= fun m => foldr (fun e m => delete (pe_predictionId e) m) m gone |>
     <| by_round ::= fun m => omap (fun l =>
          match filter (fun e => stale maxAgeMs now e = false) l with [] => None | l' => Some l' end) m |>).

(** ** Consistency *)

Definition ids (r : t) : list string := pe_predictionId <$> all_events (by_round r).

(** Events are filed under their target round, no id is pending twice, and the index finds
    exactly the pending ids. *)
Definition consistent (r : t) : Prop :=
  (forall rid l e, by_round r !! rid = Some l -> e ∈ l -> pe_targetRoundId e = rid) /\
  NoDup (ids r) /\
  (forall id rid, by_id r !! id = Some rid <->
     exists l e, by_round r !! rid = Some l /\ e ∈ l /\ pe_predictionId e = id).

Lemma all_events_delete m rid l :
  m !! rid = Some l -> all_events m ≡ₚ l ++ all_events (delete rid m).
Proof.
  intros Hl. unfold all_events.
  assert (map_to_list m ≡ₚ (rid, l) :: map_to_list (delete rid m)) as Hp by by rewrite map_to_list_delete.
  by rewrite Hp.
Qed.

Lemma all_events_insert m rid l :
  all_events (<[rid := l]> m) ≡ₚ l ++ all_events (delete rid m).
Proof.
  rewrite (all_events_delete (<[rid := l]> m) rid l) by apply lookup_insert_eq.
  by rewrite delete_insert_eq.
Qed.

Lemma all_events_put m rid l : all_events (put_round rid l m) ≡ₚ l ++ all_events (delete rid m).
Proof. destruct l; simpl; [done|apply all_events_insert]. Qed.

Lemma elem_of_all_events m e : e ∈ all_events m <-> exists rid l, m !! rid = Some l /\ e ∈ l.
Proof.
  unfold all_events. rewrite list_elem_of_join. split.
  - intros (l & He & Hl). apply list_elem_of_fmap in Hl as ([rid l'] & -> & Hl).
    apply elem_of_map_to_list in Hl. by exists rid, l'.
  - intros (rid & l & Hl & He). exists l. split; [done|]. apply list_elem_of_fmap.
    exists (rid, l). split; [done|]. by apply elem_of_map_to_list.
Qed.

Lemma lookup_put_round m rid l rid' l' :
  put_round rid l m !! rid' = Some l' ->
  (rid' = rid /\ l' = l) \/ (rid' <> rid /\ m !! rid' = Some l').
Proof.
  unfold put_round. destruct l; intros H.
  - apply lookup_delete_Some in H as [? ?]. right. by split.
  - apply lookup_insert_Some in H as [[-> ->]|[? ?]]; [by left|right; by split].
Qed.

Lemma put_round_other m rid l rid' : rid' <> rid -> put_round rid l m !! rid' = m !! rid'.
Proof. intros. unfold put_round. destruct l; [by apply lookup_delete_ne|by apply lookup_insert_ne]. Qed.

Lemma put_round_elem m rid l e :
  e ∈ l -> put_round rid l m !! rid = Some l.
Proof. intros He. destruct l; [by apply not_elem_of_nil in He|]. apply lookup_insert_eq. Qed.

(** Removing the only event with an id. *)
Lemma remove_id_perm pid (l : list PredictionEvent) e :
  NoDup (pe_predictionId <$> l) -> e ∈ l -> pe_predictionId e = pid -> l ≡ₚ e :: remove_id pid l.
Proof.
  intros Hnd He <-. apply list_elem_of_split in He as (l1 & l2 & ->).
  rewrite fmap_app, fmap_cons in Hnd. apply list.NoDup_app in Hnd as (H1 & H12 & H2).
  apply NoDup_cons in H2 as [H2 _].
  assert (forall l', pe_predictionId e ∉ (pe_predictionId <$> l') -> remove_id (pe_predictionId e) l' = l') as Hid.
  { intros l' Hn. unfold remove_id. induction l' as [|x l' IH]; [done|].
    rewrite fmap_cons, not_elem_of_cons in Hn. destruct Hn as [Hx Hn].
    rewrite filter_cons_True by done. by rewrite IH. }
  unfold remove_id. rewrite filter_app, filter_cons_False by tauto.
  fold (remove_id (pe_predictionId e) l1) (remove_id (pe_predictionId e) l2).
  rewrite !Hid; [by rewrite Permutation_middle|done|].
  intros Hin. apply (H12 _ Hin). by left.
Qed.

Lemma prune_one_spec r e :
  consistent r -> e ∈ all_events (by_round r) ->
  let r' := prune_one r (pe_predictionId e) in
  consistent r' /\ all_events (by_round r) ≡ₚ e :: all_events (by_round r') /\ max r' = max r.
Proof.
  intros (Hfile & Hnd & Hidx) He.
  apply elem_of_all_events in He as (rid & l & Hl & He).
  assert (by_id r !! pe_predictionId e = Some rid) as Hid by (apply Hidx; eauto).
  unfold prune_one. rewrite Hid. simpl. rewrite Hl. simpl.
  assert (NoDup (pe_predictionId <$> l)) as Hndl.
  { unfold ids in Hnd. rewrite (all_events_delete _ _ _ Hl), fmap_app in Hnd. by apply list.NoDup_app in Hnd as [? _]. }
  pose proof (remove_id_perm (pe_predictionId e) l e Hndl He eq_refl) as Hrm.
  assert (all_events (by_round r) ≡ₚ e :: all_events (put_round rid (remove_id (pe_predictionId e) l) (by_round r)))
    as Hperm.
  { rewrite (all_events_delete _ _ _ Hl), all_events_put. rewrite Hrm at 1. done. }
  split_and!; [|done|done]. split_and!; simpl.
  - intros rid' l' e' Hl' He'. apply lookup_put_round in Hl' as [[-> ->]|[_ Hl']]; [|by eapply Hfile].
    apply list_elem_of_filter in He' as [_ He']. by eapply Hfile.
  - unfold ids in *; simpl. rewrite Hperm, fmap_cons in Hnd. by apply NoDup_cons in Hnd as [_ ?].
  - intros id rid'. rewrite lookup_delete_Some, Hidx. split.
    + intros (Hne & l' & e' & Hl' & He' & Hid'). destruct (decide (rid' = rid)) as [->|Hr].
      * simplify_eq. assert (e' ∈ remove_id (pe_predictionId e) l) as Hin'.
        { apply list_elem_of_filter. split; [congruence|done]. }
        eexists _, e'. split; [by eapply put_round_elem|done].
      * exists l', e'. by rewrite put_round_other.
    + intros (l' & e' & Hl' & He' & Hid'). apply lookup_put_round in Hl' as [[-> ->]|[Hr Hl']].
      * apply list_elem_of_filter in He' as [Hne He']. split; [congruence|]. by exists l, e'.
      * split; [|by exists l', e']. intros Heq. destruct Hr.
        assert (by_id r !! id = Some rid') as H1 by (apply Hidx; eauto). congruence.
Qed.

(** Pruning the ids of a list of pending events removes exactly these events. *)
Lemma prune_list_spec gone rest r :
  consistent r -> all_events (by_round r) ≡ₚ gone ++ rest ->
  let r' := fold_left prune_one (pe_predictionId <$> gone) r in
  consistent r' /\ all_events (by_round r') ≡ₚ rest /\ max r' = max r.
Proof.
  revert r. induction gone as [|e gone IH]; intros r Hc Hp; simpl; [done|].
  destruct (prune_one_spec r e Hc) as (Hc' & Hp' & Hm); [rewrite Hp; by left|].
  destruct (IH (prune_one r (pe_predictionId e)) Hc') as (? & ? & ?); [|by rewrite <-Hm].
  rewrite Hp in Hp'. by apply Permutation_cons_inv in Hp'.
Qed.

(** Pruning keeps the [max] youngest events. *)
Lemma pruneIfNeeded_spec r :
  consistent r ->
  consistent (pruneIfNeeded r) /\ max (pruneIfNeeded r) = max r /\
  exists gone, all_events (by_round r) ≡ₚ gone ++ all_events (by_round (pruneIfNeeded r)) /\
    length gone = (size_of r - max r)%nat /\
    forall g e, g ∈ gone -> e ∈ all_events (by_round (pruneIfNeeded r)) -> age_le (age g) (age e).
Proof.
  intros Hc. unfold pruneIfNeeded. destruct (Nat.leb_spec (size_of r) (max r)) as [Hle|Hgt].
  - split_and!; [done|done|]. exists []. split_and!; [done|simpl; lia|]. by intros ?? ?%not_elem_of_nil.
  - pose proof (merge_sort_Permutation age_le (age <$> all_events (by_round r))) as Hp.
    pose proof (StronglySorted_merge_sort age_le (age <$> all_events (by_round r))) as Hs.
    apply Permutation_map_inv in Hp as (es & Hes & Hp). rewrite Hes in *.
    set (k := (size_of r - max r)%nat) in *.
    assert (take k (map age es).*2 = pe_predictionId <$> take k es) as ->.
    { rewrite fmap_take. f_equal. rewrite <-list_fmap_compose. done. }
    destruct (prune_list_spec (take k es) (drop k es) r Hc) as (Hc' & Hrest & Hm); [by rewrite take_drop|].
    split_and!; [done|done|]. exists (take k es). split_and!.
    + by rewrite Hrest, take_drop.
    + rewrite length_take, <-Hp. fold (size_of r). lia.
    + intros g e Hg He. rewrite Hrest in He. rewrite <-(take_drop k es), map_app in Hs.
      eapply StronglySorted_app_1_elem_of; [done|by apply list_elem_of_fmap_2|by apply list_elem_of_fmap_2].
Qed.

Lemma make_consistent n : consistent (make n).
Proof.
  split_and!.
  - intros rid l e Hl. simpl in Hl. by rewrite lookup_empty in Hl.
  - unfold ids, all_events, make; cbn. rewrite map_to_list_empty. apply NoDup_nil_2.
  - intros id rid. simpl. rewrite lookup_empty. split; [done|].
    intros (l & e & Hl & _). by rewrite lookup_empty in Hl.
Qed.

(** Filing a new id. *)
Lemma file_consistent r r' ev :
  consistent r -> pe_predictionId ev ∉ ids r ->
  by_round r' = <[pe_targetRoundId ev := default [] (by_round r !! pe_targetRoundId ev) ++ [ev]]> (by_round r) ->
  by_id r' = <[pe_predictionId ev := pe_targetRoundId ev]> (by_id r) ->
  consistent r' /\ all_events (by_round r') ≡ₚ all_events (by_round r) ++ [ev].
Proof.
  intros (Hfile & Hnd & Hidx) Hnew Er Ei.
  set (rid := pe_targetRoundId ev) in *. set (l0 := default [] (by_round r !! rid)) in *.
  assert (all_events (by_round r) ≡ₚ l0 ++ all_events (delete rid (by_round r))) as Hall.
  { unfold l0. destruct (by_round r !! rid) as [l|] eqn:El; simpl.
    - by apply all_events_delete.
    - by rewrite delete_id. }
  assert (all_events (by_round r') ≡ₚ all_events (by_round r) ++ [ev]) as Hperm.
  { rewrite Er, all_events_insert, Hall, <-!(assoc (++)). f_equiv. apply Permutation_app_comm. }
  assert (forall e, e ∈ l0 -> exists l, by_round r !! rid = Some l /\ e ∈ l) as Hl0.
  { intros e He. unfold l0 in He. destruct (by_round r !! rid); [by eexists|by apply not_elem_of_nil in He]. }
  split; [|done]. split_and!.
  - rewrite Er. intros rid' l e Hl He. apply lookup_insert_Some in Hl as [[<- <-]|[? Hl]]; [|by eapply Hfile].
    apply elem_of_app in He as [He|He%list_elem_of_singleton]; [|by subst].
    destruct (Hl0 _ He) as (l & Hl & ?). by eapply Hfile.
  - unfold ids in *. rewrite Hperm, fmap_app. apply list.NoDup_app. split_and!; [done| |apply NoDup_singleton].
    intros x Hx ->%list_elem_of_singleton. done.
  - rewrite Er, Ei. intros id rid'. rewrite lookup_insert_Some, Hidx. split.
    + intros [[<- <-]|(Hne & l & e & Hl & He & Hid)].
      * eexists _, ev. rewrite lookup_insert_eq. split_and!; [done| |done]. apply elem_of_app. right. by left.
      * destruct (decide (rid = rid')) as [<-|?].
        -- eexists _, e. rewrite lookup_insert_eq. split_and!; [done| |done]. apply elem_of_app. left.
           unfold l0. by rewrite Hl.
        -- exists l, e. by rewrite lookup_insert_ne.
    + intros (l & e & Hl & He & <-). destruct (decide (pe_predictionId ev = pe_predictionId e)) as [Heq|Hne].
      * left. split; [done|]. apply lookup_insert_Some in Hl as [[? ?]|[? Hl]]; [done|]. destruct Hnew.
        rewrite Heq. apply list_elem_of_fmap. exists e. split; [done|]. apply elem_of_all_events. eauto.
      * right. split; [done|]. apply lookup_insert_Some in Hl as [[<- <-]|[? Hl]]; [|eauto].
        apply elem_of_app in He as [He|He%list_elem_of_singleton]; [|by subst].
        destruct (Hl0 _ He) as (l & ? & ?). eauto.
Qed.

Lemma fresh_not_listed r ev :
  pe_predictionId ev ∉ ids r ->
  existsb (fun e => bool_decide (pe_predictionId e = pe_predictionId ev))
    (default [] (by_round r !! pe_targetRoundId ev)) = false.
Proof.
  intros Hnew. apply not_true_iff_false. intros (e & He & Hid%bool_decide_eq_true_1)%existsb_exists.
  destruct Hnew. rewrite <-Hid. apply list_elem_of_fmap_2, elem_of_all_events. apply list_elem_of_In in He.
  destruct (by_round r !! pe_targetRoundId ev) as [l|] eqn:El; [by eauto|by apply not_elem_of_nil in He].
Qed.

(** Remark: registering a prediction whose id is not pending succeeds, keeps the index by id
    exact, and never lets the registry exceed its capacity: what leaves are the oldest
    pending predictions, as many as exceed the capacity, and everything else stays. *)
Theorem registry_register_spec (r : t) (ev : PredictionEvent) :
  consistent r -> pe_targetRoundId ev <> EmptyString -> pe_predictionId ev ∉ ids r ->
  let '(res, r') := registerPrediction r ev in
  res = Ok tt /\ consistent r' /\
  exists gone, all_events (by_round r) ++ [ev] ≡ₚ gone ++ all_events (by_round r') /\
    length gone = (size_of r + 1 - max r)%nat /\
    forall g e, g ∈ gone -> e ∈ all_events (by_round r') -> age_le (age g) (age e).
Proof.
  intros Hc Hne Hnew. unfold registerPrediction. apply str_empty_false in Hne as ->.
  rewrite (fresh_not_listed r ev Hnew).
  match goal with |- context [pruneIfNeeded ?x] => set (r1 := x) end.
  destruct (file_consistent r r1 ev Hc Hnew eq_refl eq_refl) as [Hc1 Hp1].
  destruct (pruneIfNeeded_spec r1 Hc1) as (Hc2 & _ & gone & Hp & Hlen & Hage).
  split_and!; [done|done|]. exists gone. split_and!; [by rewrite <-Hp, Hp1| |done].
  rewrite Hlen. unfold size_of. rewrite Hp1, length_app. done.
Qed.

(** With room left nothing is pruned. *)
Lemma register_room (r : t) (ev : PredictionEvent) :
  consistent r -> pe_targetRoundId ev <> EmptyString -> pe_predictionId ev ∉ ids r -> (size_of r < max r)%nat ->
  exists r', registerPrediction r ev = (Ok tt, r') /\
    by_round r' !! pe_targetRoundId ev = Some (default [] (by_round r !! pe_targetRoundId ev) ++ [ev]) /\
    all_events (by_round r') ≡ₚ all_events (by_round r) ++ [ev].
Proof.
  intros Hc Hne Hnew Hroom. unfold registerPrediction. apply str_empty_false in Hne as ->.
  rewrite (fresh_not_listed r ev Hnew).
  match goal with |- context [pruneIfNeeded ?x] => set (r1 := x) end.
  destruct (file_consistent r r1 ev Hc Hnew eq_refl eq_refl) as [_ Hp].
  exists (pruneIfNeeded r1). split; [done|]. unfold pruneIfNeeded.
  rewrite (proj2 (Nat.leb_le (size_of r1) (max r1))).
  - split; [|done]. unfold r1; simpl. by rewrite lookup_insert_eq.
  - unfold size_of. rewrite Hp, length_app. fold (size_of r). unfold r1; simpl. lia.
Qed.

Lemma lookup_delete_ids (m : gmap string string) (l : list PredictionEvent) id rid :
  foldr (fun e m => delete (pe_predictionId e) m) m l !! id = Some rid <->
  id ∉ (pe_predictionId <$> l) /\ m !! id = Some rid.
Proof.
  induction l as [|e l IH]; simpl; [set_solver|].
  rewrite lookup_delete_Some, IH, not_elem_of_cons. naive_solver.
Qed.

(** Remark: taking the predictions of a finished round hands out all of them, in the order they
    were registered, removes them and their index entries and nothing else; a second take of
    the round returns none. *)
Theorem registry_take_spec (r : t) (rid : string) :
  consistent r ->
  let '(out, r') := takeForRound r rid in
  out = default [] (by_round r !! rid) /\ consistent r' /\
  all_events (by_round r) ≡ₚ out ++ all_events (by_round r') /\
  Forall (fun e => find r' (pe_predictionId e) = None) out /\
  fst (takeForRound r' rid) = [].
Proof.
  intros Hc. pose proof Hc as (Hfile & Hnd & Hidx). unfold takeForRound.
  destruct (by_round r !! rid) as [out|] eqn:El; simpl.
  2:{ rewrite El. split_and!; [done|done|done|by constructor|done]. }
  pose proof (all_events_delete _ _ _ El) as Hp. rewrite lookup_delete_eq.
  split_and!; [done| |done| |done].
  - split_and!; simpl.
    + intros rid' l e [_ Hl]%lookup_delete_Some He. by eapply Hfile.
    + unfold ids in *; simpl. rewrite Hp, fmap_app in Hnd. by apply list.NoDup_app in Hnd as (_ & _ & ?).
    + intros id rid'. rewrite lookup_delete_ids, Hidx. split.
      * intros (Hni & l & e & Hl & He & <-). exists l, e. rewrite lookup_delete_ne; [done|].
        intros <-. simplify_eq. destruct Hni. by apply list_elem_of_fmap_2.
      * intros (l & e & [Hne Hl]%lookup_delete_Some & He & <-). split; [|by exists l, e].
        unfold ids in Hnd. rewrite Hp, fmap_app in Hnd. apply list.NoDup_app in Hnd as (_ & Hdisj & _).
        intros Hin. apply (Hdisj _ Hin), list_elem_of_fmap_2, elem_of_all_events.
        exists rid', l. by rewrite lookup_delete_ne.
  - apply Forall_forall. intros e He. unfold find; simpl.
    destruct (foldr _ _ _ !! _) eqn:E; [|done]. apply lookup_delete_ids in E as [Hni _]. destruct Hni.
    by apply list_elem_of_fmap_2.
Qed.

(** ** Conservation over sequences of operations *)

(* @src include/validation/prediction_registry.hpp:21-87 PredictionRegistry *)
Inductive op :=
| Register (ev : PredictionEvent)
| Take (rid : string)
| Expire (maxAgeMs now : Z).

Definition apply_op (r : t) (o : op) : list PredictionEvent * t :=
  match o with
  | Register ev => ([], snd (registerPrediction r ev))
  | Take rid => takeForRound r rid
  | Expire maxAgeMs now => ([], snd (expireStale r maxAgeMs now))
  end.

Fixpoint run (r : t) (ops : list op) : list PredictionEvent * t :=
  match ops with
  | [] => ([], r)
  | o :: ops =>
      let '(out, r) := apply_op r o in
      let '(outs, r) := run r ops in (out ++ outs, r)
  end.

Definition offered (ops : list op) : list PredictionEvent :=
  omap (fun o => match o with Register ev => Some ev | _ => None end) ops.

Lemma prune_one_submseteq r pid : all_events (by_round (prune_one r pid)) ⊆+ all_events (by_round r).
Proof.
  unfold prune_one. destruct (by_id r !! pid) as [rid|]; [|done]. simpl.
  destruct (by_round r !! rid) as [l|] eqn:El; simpl; [|done].
  rewrite all_events_put, (all_events_delete _ _ _ El).
  apply submseteq_skips_r, sublist_submseteq. apply sublist_filter.
Qed.

Lemma pruneIfNeeded_submseteq r : all_events (by_round (pruneIfNeeded r)) ⊆+ all_events (by_round r).
Proof.
  unfold pruneIfNeeded. case_match; [done|].
  generalize (take (size_of r - max r) (merge_sort age_le (age <$> all_events (by_round r))).*2).
  intros l. clear. revert r. induction l as [|pid l IH]; intros r; simpl; [done|].
  etrans; [apply IH|apply prune_one_submseteq].
Qed.

Lemma expire_submseteq r a now : all_events (by_round (snd (expireStale r a now))) ⊆+ all_events (by_round r).
Proof.
  simpl. generalize (by_round r). clear. intros m.
  induction m as [|rid l m Hm IH] using map_ind; [by rewrite omap_empty|].
  rewrite all_events_insert, (delete_id m) by done. rewrite omap_insert.
  assert (omap (fun l => match filter (fun e => stale a now e = false) l with [] => None | l' => Some l' end) m !! rid = None)
    as Hn by (by rewrite lookup_omap, Hm).
  destruct (filter _ l) as [|x l'] eqn:Ef.
  - rewrite delete_id by done. etrans; [exact IH|]. apply submseteq_inserts_l. done.
  - rewrite all_events_insert, delete_id by done. apply submseteq_app; [|exact IH].
    rewrite <-Ef. apply sublist_submseteq, sublist_filter.
Qed.

Lemma nodup_id_eq {A B} (f : A -> B) (l : list A) x y : NoDup (f <$> l) -> x ∈ l -> y ∈ l -> f x = f y -> x = y.
Proof.
  induction l as [|z l IH]; intros Hn Hx Hy E; [by apply not_elem_of_nil in Hx|].
  rewrite fmap_cons in Hn. apply NoDup_cons in Hn as [Hz Hn].
  apply elem_of_cons in Hx as [->|Hx], Hy as [->|Hy]; [done| | |by apply IH].
  - destruct Hz. rewrite E. by apply list_elem_of_fmap_2.
  - destruct Hz. rewrite <-E. by apply list_elem_of_fmap_2.
Qed.

Lemma lookup_expired (m : gmap string (list PredictionEvent)) a now rid l' :
  omap (fun l => match filter (fun e => stale a now e = false) l with [] => None | l' => Some l' end) m !! rid = Some l' <->
  l' <> [] /\ exists l, m !! rid = Some l /\ l' = filter (fun e => stale a now e = false) l.
Proof.
  rewrite lookup_omap. destruct (m !! rid) as [l|]; cbn; [|naive_solver].
  destruct (filter _ l) as [|x f] eqn:E.
  - split; [done|]. by intros (Hne & l0 & [= <-] & ->).
  - rewrite <-E. split; [intros [= <-]; split; [by rewrite E|by exists l]|]. by intros (_ & l0 & [= <-] & ->).
Qed.

(** Expiry keeps the registry consistent: what is too old goes, with its index entries. *)
Lemma expire_consistent r a now : consistent r -> consistent (expireStale r a now).2.
Proof.
  intros (Hfile & Hnd & Hidx). split_and!.
  - intros rid l e (_ & l0 & Hl & ->)%lookup_expired [_ He]%list_elem_of_filter. by eapply Hfile.
  - unfold ids in *. destruct (submseteq_Permutation _ _ (expire_submseteq r a now)) as [gone Hp].
    rewrite Hp, fmap_app in Hnd. by apply list.NoDup_app in Hnd as (? & _).
  - intros id rid. cbn [expireStale snd by_id by_round set_field]. rewrite lookup_delete_ids, Hidx. split.
    + intros (Hni & l & e & Hl & He & <-).
      assert (stale a now e = false) as Hs.
      { destruct (stale a now e) eqn:Hs; [|done]. destruct Hni. apply list_elem_of_fmap_2, list_elem_of_filter.
        split; [done|]. apply elem_of_all_events. by exists rid, l. }
      assert (e ∈ filter (fun e => stale a now e = false) l) as Hin by (by apply list_elem_of_filter).
      exists (filter (fun e => stale a now e = false) l), e. split_and!; [|done|done]. apply lookup_expired.
      split; [|by exists l]. intros E. by rewrite E in Hin; apply not_elem_of_nil in Hin.
    + intros (l' & e & (_ & l & Hl & ->)%lookup_expired & [Hs He]%list_elem_of_filter & <-).
      split; [|by exists l, e]. intros (e2 & Hid & [Hs2 He2]%list_elem_of_filter)%list_elem_of_fmap.
      assert (e2 = e) as ->; [|congruence]. eapply (nodup_id_eq pe_predictionId); [exact Hnd|done| |done].
      apply elem_of_all_events. by exists rid, l.
Qed.

Lemma register_submseteq r ev :
  all_events (by_round (snd (registerPrediction r ev))) ⊆+ all_events (by_round r) ++ [ev].
Proof.
  unfold registerPrediction. case_match; simpl; [by apply submseteq_inserts_r|].
  case_match; simpl; [by apply submseteq_inserts_r|].
  etrans; [apply pruneIfNeeded_submseteq|]. simpl. rewrite all_events_insert.
  destruct (by_round r !! pe_targetRoundId ev) as [l|] eqn:El; simpl.
  - rewrite (all_events_delete _ _ _ El), <-!(assoc (++)). apply submseteq_skips_l.
    by rewrite (Permutation_app_comm [ev]).
  - rewrite delete_id by done. by rewrite <-Permutation_cons_append.
Qed.

Lemma take_events r rid :
  let '(out, r') := takeForRound r rid in out ++ all_events (by_round r') ⊆+ all_events (by_round r).
Proof.
  unfold takeForRound. destruct (by_round r !! rid) as [l|] eqn:El; simpl; [|done].
  by rewrite (all_events_delete _ _ _ El).
Qed.

(** C22: along every sequence of registrations, takes and expirations, however ids and rounds
    repeat and whatever is pruned, the predictions handed out and those still pending were
    pending at the start or offered to the registry, each at most as often as it was offered:
    no prediction is resolved twice. *)
Theorem registry_conservation (ops : list op) : forall (r : t),
  let '(out, r') := run r ops in
  out ++ all_events (by_round r') ⊆+ all_events (by_round r) ++ offered ops.
Proof.
  induction ops as [|o ops IH]; intros r; simpl; [by rewrite app_nil_r|].
  destruct (apply_op r o) as [out r1] eqn:E1. specialize (IH r1).
  destruct (run r1 ops) as [outs r2]. rewrite <-(assoc (++)). etrans; [apply submseteq_skips_l, IH|].
  rewrite (assoc (++)). destruct o as [ev|rid|a now]; simpl in E1; simplify_eq.
  - unfold offered; cbn. etrans; [apply submseteq_skips_r, register_submseteq|]. by rewrite <-(assoc (++)).
  - pose proof (take_events r rid) as H. rewrite E1 in H. unfold offered; cbn. by apply submseteq_skips_r.
  - unfold offered; cbn. by apply submseteq_skips_r, expire_submseteq.
Qed.

(** No prediction is registered for a second round while its id is pending for a first. *)
Fixpoint one_round_per_id (r : t) (ops : list op) : Prop :=
  match ops with
  | [] => True
  | o :: ops =>
      match o with
      | Register ev => forall e, e ∈ all_events (by_round r) -> pe_predictionId e = pe_predictionId ev -> pe_targetRoundId e = pe_targetRoundId ev
      | _ => True
      end /\ one_round_per_id (apply_op r o).2 ops
  end.

Lemma register_wf r ev :
  consistent r -> (size_of r <= max r)%nat ->
  (forall e, e ∈ all_events (by_round r) -> pe_predictionId e = pe_predictionId ev -> pe_targetRoundId e = pe_targetRoundId ev) ->
  let r' := (registerPrediction r ev).2 in consistent r' /\ (size_of r' <= max r')%nat /\ max r' = max r.
Proof.
  intros Hc Hs Hone. destruct (str_empty (pe_targetRoundId ev)) eqn:Ee; [unfold registerPrediction; by rewrite Ee|].
  destruct (decide (pe_predictionId ev ∈ ids r)) as [Hin|Hnew].
  - apply list_elem_of_fmap in Hin as (e & Hid & He). pose proof (Hone e He (eq_sym Hid)) as Ht.
    apply elem_of_all_events in He as (rid & l & Hl & He). destruct Hc as [Hfile Hc']. pose proof (Hfile _ _ _ Hl He) as Hr.
    unfold registerPrediction. rewrite Ee, <-Ht, Hr, Hl. cbn [default].
    rewrite (proj2 (existsb_exists _ l)); [done|]. exists e. split; [by apply list_elem_of_In|]. by apply bool_decide_eq_true_2.
  - unfold registerPrediction. rewrite Ee, (fresh_not_listed r ev Hnew). cbv zeta. cbn [snd].
    match goal with |- context [pruneIfNeeded ?x] => set (r1 := x) end.
    destruct (file_consistent r r1 ev Hc Hnew eq_refl eq_refl) as [Hc1 Hp1].
    destruct (pruneIfNeeded_spec r1 Hc1) as (Hc2 & Hm & gone & Hp & Hlen & _). split_and!; [done| |by rewrite Hm].
    apply Permutation_length in Hp. rewrite length_app, Hlen in Hp. unfold size_of in *. rewrite Hm. lia.
Qed.

(** C12: Well-formedness of the registry is an invariant.  Along every sequence of registrations,
    takes and expirations in which no id is registered for a second round while it is pending
    for a first, every pending prediction is filed under its round, no id is pending twice, the
    index by id finds exactly the pending ids, and the capacity is never exceeded. *)
Theorem registry_well_formed (ops : list op) : forall (r : t),
  consistent r -> (size_of r <= max r)%nat -> one_round_per_id r ops ->
  let r' := (run r ops).2 in consistent r' /\ (size_of r' <= max r')%nat /\ max r' = max r.
Proof.
  induction ops as [|o ops IH]; intros r Hc Hs Hone; [done|]. destruct Hone as [Ho Hone]. cbn [run].
  assert (consistent (apply_op r o).2 /\ (size_of (apply_op r o).2 <= max (apply_op r o).2)%nat /\ max (apply_op r o).2 = max r)
    as (Hc1 & Hs1 & Hm1).
  { destruct o as [ev|rid|a now]; [by apply register_wf| |].
    - pose proof (registry_take_spec r rid Hc) as H. cbn [apply_op].
      assert (max (takeForRound r rid).2 = max r) as Hm by (unfold takeForRound; by destruct (by_round r !! rid)).
      destruct (takeForRound r rid) as [out r1]. destruct H as (_ & Hc1 & Hp & _). cbn [snd] in *.
      split_and!; [done| |done]. apply Permutation_length in Hp. rewrite length_app in Hp. unfold size_of in *. lia.
    - cbn [apply_op snd]. split_and!; [by apply expire_consistent| |done].
      etrans; [|exact Hs]. unfold size_of. apply submseteq_length, expire_submseteq. }
  specialize (IH _ Hc1 Hs1 Hone). destruct (apply_op r o) as [out r1]. cbn [snd] in *.
  destruct (run r1 ops) as [outs r2]. destruct IH as (? & ? & ?). split_and!; [done|done|cbn [snd] in *; congruence].
Qed.

(** Remark: an id that is pending for two rounds defeats the bound: the index remembers only the
    second round, pruning takes the first copy for gone, and a registry of capacity one ends
    with two pending predictions. *)
Lemma registry_bound_needs_fresh_ids :
  exists (e1 e2 e3 : PredictionEvent),
    let r := snd (run (make 1) [Register e1; Register e2; Register e3]) in
    max r = 1%nat /\ (1 < size_of r)%nat /\ pe_predictionId e1 = pe_predictionId e2.
Proof.
  exists (default_prediction <| pe_predictionId := "p" |> <| pe_targetRoundId := "r1" |> <| pe_createdAtMs := 1 |>),
         (default_prediction <| pe_predictionId := "p" |> <| pe_targetRoundId := "r2" |> <| pe_createdAtMs := 2 |>),
         (default_prediction <| pe_predictionId := "q" |> <| pe_targetRoundId := "r3" |> <| pe_createdAtMs := 3 |>).
  vm_compute. split_and!; [done|lia|done].
Qed.
End PredictionRegistry.

Definition sample_prediction (id rid : string) (at_ms : Z) : PredictionEvent :=
  default_prediction <| pe_predictionId := id |> <| pe_targetRoundId := rid |> <| pe_createdAtMs := at_ms |>.

Lemma registry_register_spec_witness :
  let r := PredictionRegistry.make 1 in
  let r1 := snd (PredictionRegistry.registerPrediction r (sample_prediction "a" "r1" 5)) in
  PredictionRegistry.consistent r1 /\
  fst (PredictionRegistry.registerPrediction r1 (sample_prediction "b" "r2" 7)) = Ok tt.
Proof.
  pose proof (PredictionRegistry.registry_register_spec (PredictionRegistry.make 1) (sample_prediction "a" "r1" 5)
    (PredictionRegistry.make_consistent 1) ltac:(done) ltac:(vm_compute; apply not_elem_of_nil)) as (_ & Hc & _).
  split; [exact Hc|].
  exact (proj1 (PredictionRegistry.registry_register_spec _ (sample_prediction "b" "r2" 7) Hc ltac:(done)
    ltac:(vm_compute; intros H; inversion H as [|? ? ? H']; by inversion H'))).
Defined.

Lemma registry_take_spec_witness :
  PredictionRegistry.consistent (snd (PredictionRegistry.takeForRound (PredictionRegistry.make 3) "r1")).
Proof.
  exact (proj1 (proj2 (PredictionRegistry.registry_take_spec (PredictionRegistry.make 3) "r1"
    (PredictionRegistry.make_consistent 3)))).
Defined.

Lemma registry_well_formed_witness :
  let ops := [PredictionRegistry.Register (sample_prediction "p" "r1" 1); PredictionRegistry.Register (sample_prediction "p" "r1" 2);
              PredictionRegistry.Register (sample_prediction "q" "r2" 3); PredictionRegistry.Take "r2"; PredictionRegistry.Expire 10 100;
              PredictionRegistry.Register (sample_prediction "p" "r3" 4)] in
  let r' := (PredictionRegistry.run (PredictionRegistry.make 1) ops).2 in
  PredictionRegistry.consistent r' /\ (PredictionRegistry.size_of r' <= 1)%nat.
Proof.
  intros ops r'.
  destruct (PredictionRegistry.registry_well_formed ops (PredictionRegistry.make 1)) as (Hc & Hs & Hm).
  - apply PredictionRegistry.make_consistent.
  - vm_compute. lia.
  - cbn [PredictionRegistry.one_round_per_id ops].
    split_and!; try exact I; intros e He Hid; vm_compute in He;
      repeat (apply elem_of_cons in He as [->|He]; [vm_compute in Hid |- *; congruence|]); by apply not_elem_of_nil in He.
  - fold r' in Hc, Hs, Hm. split; [exact Hc|]. rewrite Hm in Hs. exact Hs.
Defined.
