(* ===== verification/Feedback.v ===== *)
(** Outcomes and their feedback: [makeOutcome] and [WinLossStats]
    ([include/validation/outcome.hpp], [win_loss.hpp]), the runtime invariants on them
    ([invariants.hpp]), the feedback payload ([feedback_contract.hpp]) and the queue that
    delivers outcomes to the learner, [FeedbackDispatcher] ([feedback_dispatcher.hpp]). *)
From S2P Require Import Prelude Float64 Types Queues.

(** * Outcomes *)

(* @src include/validation/outcome.hpp | inline Outcome makeOutcome( | makeOutcome *)
Definition makeOutcome (pred : PredictionEvent) (actualMult : double) (nowMs : Z) : Outcome :=
  let '(res, win) :=
    if negb (bool_decide (pe_decision pred = Enter)) then (Void, false)
    else if fge actualMult (pe_targetMult pred) && fgt (pe_targetMult pred) f0 then (Win, true)
    else (Loss, false) in
  {| oc_predictionId := pe_predictionId pred; oc_roundId := pe_targetRoundId pred; oc_result := res;
     oc_actualMult := actualMult; oc_targetMult := pe_targetMult pred; oc_resolvedAtMs := nowMs;
     oc_isWin := win |}.

(* @src include/validation/outcome.hpp | outcomeName( | outcomeName *)
Definition outcomeName (o : PredictionOutcome) : string :=
  match o with
  | Pending => "pending" | Win => "win" | Loss => "loss" | Void => "void" | Stale => "stale"
  | Duplicate => "duplicate"
  end.

Module WinLossStats.
(* @src include/validation/win_loss.hpp:6-11 WinLossStats *)
Record t := { wins : Z; losses : Z; voids : Z; stale : Z; sumConfidence : double }.
#[export] Instance eta_t : Eta t := fun r =>
  {| wins := wins r; losses := losses r; voids := voids r; stale := stale r;
     sumConfidence := sumConfidence r |}.
Definition empty : t := {| wins := 0; losses := 0; voids := 0; stale := 0; sumConfidence := f0 |}.

(* @src include/validation/win_loss.hpp | double winRate() *)
Definition winRate (s : t) : double :=
  let n := u64 (wins s + losses s) in
  if n =? 0 then f0 else fdiv (of_Z (wins s)) (of_Z n).

(* @src include/validation/win_loss.hpp | void record( *)
Definition record (s : t) (o : Outcome) (confidence : double) : t :=
  let s := s <| sumConfidence ::= fun x => fadd x confidence |> in
  match oc_result o with
  | Win => s <| wins ::= bump |>
  | Loss => s <| losses ::= bump |>
  | Void => s <| voids ::= bump |>
  | Stale => s <| stale ::= bump |>
  | _ => s
  end.
End WinLossStats.

(** * Runtime invariants *)
Module InvariantChecker.
(* @src include/validation/invariants.hpp | enum class InvariantId : *)
Inductive InvariantId :=
| EndRequiresGameId | PredictionRequiresTarget | OutcomeRequiresPrediction
| WinImpliesActualGteTarget | LossImpliesActualLtTarget | NoDuplicatePredictionId
| SequenceNonDecreasing.

(* @src include/validation/invariants.hpp | struct InvariantViolation { *)
Record InvariantViolation := { id : InvariantId; v_message : string; v_context : string }.

(** A check returns the violations; the counter grows by as many. *)
Definition counted (violations : Z) (v : list InvariantViolation) : list InvariantViolation * Z :=
  (v, fold_left (fun c _ => bump c) v violations).

Definition violation (b : bool) (i : InvariantId) (m ctx : string) : list InvariantViolation :=
  if b then [{| id := i; v_message := m; v_context := ctx |}] else [].

(* @src include/validation/invariants.hpp | checkEndEvent( *)
Definition checkEndEvent (violations : Z) (e : CrashEvent) : list InvariantViolation * Z :=
  counted violations
    (violation (bool_decide (kind e = KEnd) && (str_empty (gameId e) && str_empty (roundId e)))
       EndRequiresGameId "end without gameId" "").

(* @src include/validation/invariants.hpp | checkPrediction( *)
Definition checkPrediction (violations : Z) (e : PredictionEvent) : list InvariantViolation * Z :=
  counted violations
    (violation (str_empty (pe_targetRoundId e)) PredictionRequiresTarget "empty targetRoundId" (pe_predictionId e) ++
     violation (str_empty (pe_predictionId e)) NoDuplicatePredictionId "empty predictionId" "").

(* @src include/validation/invariants.hpp | checkOutcome( *)
Definition checkOutcome (violations : Z) (o : Outcome) : list InvariantViolation * Z :=
  counted violations
    (violation (str_empty (oc_predictionId o)) OutcomeRequiresPrediction "empty predictionId" (oc_roundId o) ++
     violation (bool_decide (oc_result o = Win) && (fgt (oc_targetMult o) f0 && flt (oc_actualMult o) (oc_targetMult o)))
       WinImpliesActualGteTarget "WIN but actual < target" (oc_predictionId o) ++
     violation (bool_decide (oc_result o = Loss) && (fgt (oc_targetMult o) f0 && fge (oc_actualMult o) (oc_targetMult o)))
       LossImpliesActualLtTarget "LOSS but actual >= target" (oc_predictionId o)).
End InvariantChecker.

(** Remark: the outcome of a prediction is a win exactly when the prediction was an entry and
    the round crashed at or above its positive target, is void exactly when it was no entry,
    carries the ids and multipliers it was computed from, and never violates the runtime
    invariants, whatever the doubles are (NaN and infinities included). *)
Theorem makeOutcome_spec (p : PredictionEvent) (m : double) (now c : Z) :
  let o := makeOutcome p m now in
  (oc_result o = Win <->
     pe_decision p = Enter /\ fge m (pe_targetMult p) = true /\ fgt (pe_targetMult p) f0 = true) /\
  (oc_result o = Void <-> pe_decision p <> Enter) /\
  oc_isWin o = bool_decide (oc_result o = Win) /\
  oc_result o ∈ [Win; Loss; Void] /\
  (pe_predictionId p <> EmptyString -> InvariantChecker.checkOutcome c o = ([], c)).
Proof.
  unfold makeOutcome.
  destruct (decide (pe_decision p = Enter)) as [He|He];
    [rewrite (bool_decide_eq_true_2 _ He)|rewrite (bool_decide_eq_false_2 _ He)]; simpl.
  2:{ split_and!; [naive_solver|naive_solver|done|set_solver|].
      intros ?. unfold InvariantChecker.checkOutcome; simpl. by apply str_empty_false in H as ->. }
  destruct (fge m (pe_targetMult p) && fgt (pe_targetMult p) f0) eqn:E; simpl.
  all: split_and!; [|naive_solver|done|set_solver|].
  - apply andb_true_iff in E. naive_solver.
  - intros ?%str_empty_false. unfold InvariantChecker.checkOutcome; simpl. rewrite H.
    apply andb_true_iff in E as [E1 E2]. rewrite E2. simpl. destruct (flt m (pe_targetMult p)) eqn:El; [|done].
    unfold fge, flt in *. apply flt_nle in El. unfold fle in El. congruence.
  - apply andb_false_iff in E. split; [done|]. intros (_ & H1 & H2). destruct E; congruence.
  - intros ?%str_empty_false. unfold InvariantChecker.checkOutcome; simpl. rewrite H.
    by rewrite (andb_comm (fgt _ _)), E.
Qed.

(** * Feedback payload *)

(* @src include/validation/feedback_contract.hpp | enum class FeedbackKind : | FeedbackKind *)
Inductive FeedbackKind := OutcomeResolved | PredictionSkipped | RoundMissed | StaleExpired.

(* @src include/validation/feedback_contract.hpp | struct FeedbackPayload { | FeedbackPayload *)
Record FeedbackPayload := {
  fp_kind : FeedbackKind; fp_predictionId : string; fp_roundId : string; fp_result : PredictionOutcome;
  fp_actualMult : double; fp_targetMult : double; fp_confidence : double; fp_resolvedAtMs : Z;
  fp_correlationId : string; fp_modelVersion : string; fp_isWin : bool
}.

(* @src include/validation/feedback_contract.hpp:37-54 feedbackFromOutcome *)
Definition feedbackFromOutcome (o : Outcome) (confidence : double) (correlationId modelVersion : string)
    (nowMs : Z) : FeedbackPayload := {|
  fp_kind := OutcomeResolved; fp_predictionId := oc_predictionId o; fp_roundId := oc_roundId o;
  fp_result := oc_result o; fp_actualMult := oc_actualMult o; fp_targetMult := oc_targetMult o;
  fp_confidence := confidence; fp_resolvedAtMs := or_now (oc_resolvedAtMs o) nowMs;
  fp_correlationId := correlationId; fp_modelVersion := modelVersion; fp_isWin := oc_isWin o |}.

(* @src include/validation/feedback_contract.hpp | inline const char* toString(FeedbackKind *)
Definition kind_name (k : FeedbackKind) : string :=
  match k with
  | OutcomeResolved => "outcome_resolved" | PredictionSkipped => "prediction_skipped"
  | RoundMissed => "round_missed" | StaleExpired => "stale_expired"
  end.

(** * [FeedbackDispatcher]

    [C] is the state of the handler's owner; [worker_step] is one turn of the worker thread. *)
Module FeedbackDispatcher.
Section S.
Context {Q C : Type}.

(* @src include/validation/feedback_dispatcher.hpp:64-70 FeedbackDispatcher *)
Record t := {
  handler : option (Outcome -> C -> C);
  queue : Q;
  running : bool;
  seen : gset string;
  dispatched : Z;
  drops : Z;
  dupes : Z;
  handled : Z
}.
#[export] Instance eta_t : Eta t := fun r =>
  {| handler := handler r; queue := queue r; running := running r; seen := seen r;
     dispatched := dispatched r; drops := drops r; dupes := dupes r; handled := handled r |}.

(* @src include/validation/feedback_dispatcher.hpp | explicit FeedbackDispatcher( *)
Definition make (queue_ : Q) : t := {|
  handler := None; queue := queue_; running := false; seen := ∅; dispatched := 0;
  drops := 0; dupes := 0; handled := 0 |}.

(* @src include/validation/feedback_dispatcher.hpp | void setHandler( *)
Definition setHandler (f : t) (h : Outcome -> C -> C) : t := f <| handler := Some h |>.

(** [start] returns early when the worker runs already; its thread is [worker_step]. *)
(* @src include/validation/feedback_dispatcher.hpp:24-26 FeedbackDispatcher::start *)
Definition start (f : t) : t := f <| running := true |>.

(* @src include/validation/feedback_dispatcher.hpp | void stop() *)
Definition stop (f : t) : t := f <| running := false |>.

Context `{!BoundedFifo Q Outcome}.

(* @src include/validation/feedback_dispatcher.hpp | std::optional<Outcome> poll() *)
Definition poll (f : t) : option Outcome * t :=
  match bf_pop (queue f) with
  | Some (o, q) => (Some o, f <| queue := q |>)
  | None => (None, f)
  end.

Definition call (f : t) (o : Outcome) (c : C) : C :=
  match handler f with Some h => h o c | None => c end.

(* @src include/validation/feedback_dispatcher.hpp | void dispatch( *)
Definition dispatch (f : t) (o : Outcome) (c : C) : t * C :=
  let f := f <| dispatched ::= bump |> in
  match handler f, running f with
  | Some h, false => (f, h o c)
  | _, _ => match bf_push (queue f) o with
            | Some q => (f <| queue := q |>, c)
            | None => (f <| drops ::= bump |>, c)
            end
  end.

(* @src include/validation/feedback_dispatcher.hpp:31-31 FeedbackDispatcher::start *)
Definition key (o : Outcome) : string :=
  if str_empty (oc_predictionId o) then oc_roundId o else oc_predictionId o.

Definition SEEN_LIMIT : nat := Z.to_nat 10000.

(** The keys after [seen_.insert(key); if (seen_.size() > 10000) seen_.clear();]. *)
Definition remember (s : gset string) (k : string) : gset string :=
  let s := {[ k ]} ∪ s in if (SEEN_LIMIT <? size s)%nat then ∅ else s.

(* @src include/validation/feedback_dispatcher.hpp:28-39 FeedbackDispatcher::start *)
Definition worker_step (f : t) (c : C) : t * C :=
  match bf_pop (queue f) with
  | None => (f, c)
  | Some (o, q) =>
      let f := f <| queue := q |> in
      if str_empty (key o) then (f <| handled ::= bump |>, call f o c)
      else if decide (key o ∈ seen f) then (f <| dupes ::= bump |>, c)
      else (f <| seen ::= fun s => remember s (key o) |> <| handled ::= bump |>, call f o c)
  end.

Fixpoint worker_steps (n : nat) (f : t) (c : C) : t * C :=
  match n with
  | O => (f, c)
  | S n => let '(f, c) := worker_step f c in worker_steps n f c
  end.

(** The outcomes that reach the handler when [l] is drained after the keys [s]. *)
Fixpoint once (s : gset string) (l : list Outcome) : list Outcome :=
  match l with
  | [] => []
  | o :: l =>
      if str_empty (key o) then o :: once s l
      else if decide (key o ∈ s) then once s l else o :: once ({[ key o ]} ∪ s) l
  end.

Lemma once_sublist s l : once s l `sublist_of` l.
Proof.
  revert s. induction l as [|o l IH]; intros s; simpl; [done|].
  repeat case_match; by constructor.
Qed.

Definition keys (l : list Outcome) : list string := filter (fun k => k <> EmptyString) (key <$> l).

Lemma keys_cons o l : keys (o :: l) = if str_empty (key o) then keys l else key o :: keys l.
Proof.
  unfold keys. rewrite fmap_cons. destruct (str_empty (key o)) eqn:E.
  - apply str_empty_true in E. by rewrite filter_cons_False by tauto.
  - apply str_empty_false in E. by rewrite filter_cons_True.
Qed.

Lemma once_keys s l :
  NoDup (keys (once s l)) /\ (forall k, k ∈ keys (once s l) <-> k ∈ keys l /\ k ∉ s).
Proof.
  revert s. induction l as [|o l IH]; intros s; cbn [once].
  - split; [apply NoDup_nil_2|set_solver].
  - destruct (str_empty (key o)) eqn:Ee; [|case_decide as Hs]; rewrite ?keys_cons, ?Ee.
    + apply IH.
    + destruct (IH s) as [? Hk]. split; [done|]. intros k. rewrite Hk, elem_of_cons. naive_solver.
    + destruct (IH ({[ key o ]} ∪ s)) as [? Hk]. split.
      * apply NoDup_cons. split; [|done]. rewrite Hk. set_solver.
      * intros k. rewrite !elem_of_cons, Hk. destruct (decide (k = key o)); set_solver.
Qed.

(** Name the dispatcher on which the remaining turns run. *)
Ltac next_state fn :=
  match goal with |- context [worker_steps _ ?f _] => set (fn := f) end.

Lemma worker_steps_once l : forall f c h,
  bf_repr (queue f) l -> handler f = Some h -> (size (seen f) + length l <= SEEN_LIMIT)%nat ->
  let '(f', c') := worker_steps (length l) f c in
  bf_repr (queue f') [] /\ c' = fold_left (fun c o => h o c) (once (seen f) l) c.
Proof.
  induction l as [|o l IH]; intros f c h Hq Hh Hsz; cbn [length worker_steps]; [done|].
  unfold worker_step. pose proof (bf_pop_spec _ _ Hq) as Hp.
  destruct (bf_pop (queue f)) as [[o' q']|]; [|done]. destruct Hp as (l' & [= <- <-] & Hq' & _).
  cbn [length] in Hsz. cbn [once]. unfold call; simpl.
  destruct (str_empty (key o)); [|case_decide as Hs].
  - rewrite Hh. next_state fn. apply (IH fn (h o c) h); simpl; [done|done|lia].
  - next_state fn. apply (IH fn c h); simpl; [done|done|lia].
  - rewrite Hh. next_state fn. assert (seen fn = {[ key o ]} ∪ seen f) as Es.
    { unfold fn; simpl. unfold remember. rewrite size_union by set_solver. rewrite size_singleton.
      by rewrite (proj2 (Nat.ltb_ge _ _)) by lia. }
    rewrite <-Es. apply (IH fn (h o c) h); [done|done|].
    rewrite Es, size_union by set_solver. rewrite size_singleton. lia.
Qed.

(** Remark: once the worker has drained the queue, the handler has received, in queue order, one
    outcome for every key that was not handled before and none for the others, as long as
    the memory of keys is not cleared (at most 10000 keys). *)
Theorem feedback_at_most_once (f : t) (c : C) (h : Outcome -> C -> C) (l : list Outcome) :
  bf_repr (queue f) l -> handler f = Some h -> (size (seen f) + length l <= SEEN_LIMIT)%nat ->
  let '(f', c') := worker_steps (length l) f c in
  exists delivered,
    c' = fold_left (fun c o => h o c) delivered c /\ delivered `sublist_of` l /\
    NoDup (keys delivered) /\ (forall k, k ∈ keys delivered <-> k ∈ keys l /\ k ∉ seen f) /\
    bf_repr (queue f') [].
Proof.
  intros Hq Hh Hsz. pose proof (worker_steps_once l f c h Hq Hh Hsz) as H.
  destruct (worker_steps _ _ _) as [f' c']. destruct H as [Hq' ->].
  exists (once (seen f) l). destruct (once_keys (seen f) l). eauto using once_sublist.
Qed.
End S.
Arguments t : clear implicits.
End FeedbackDispatcher.

Definition sample_outcome (pid : string) (r : PredictionOutcome) (at_ms : Z) : Outcome := {|
  oc_predictionId := pid; oc_roundId := "r"; oc_result := r; oc_actualMult := f1; oc_targetMult := f1;
  oc_resolvedAtMs := at_ms; oc_isWin := bool_decide (r = Win) |}.

Definition demo_ring : option (SpscQueue.t Outcome) :=
  q ← SpscQueue.make 4;
  q ← bf_push q (sample_outcome "p" Win 1);
  bf_push q (sample_outcome "p" Win 2).

Lemma demo_ring_repr q : demo_ring = Some q -> bf_repr q [sample_outcome "p" Win 1; sample_outcome "p" Win 2].
Proof.
  unfold demo_ring. destruct (SpscQueue.make 4) as [q0|] eqn:E0; [|done]. simpl.
  apply SpscQueue.spsc_make_repr in E0; [|lia].
  pose proof (bf_push_spec q0 [] (sample_outcome "p" Win 1) E0) as H1. cbn in H1.
  destruct (SpscQueue.try_push q0 _) as [q1|]; [|done]. simpl. destruct H1 as (_ & H1 & _).
  pose proof (bf_push_spec q1 _ (sample_outcome "p" Win 2) H1) as H2. cbn in H2.
  intros E. rewrite E in H2. by destruct H2 as (_ & H2 & _).
Qed.

Lemma feedback_at_most_once_witness :
  exists q, demo_ring = Some q /\
    let f := FeedbackDispatcher.setHandler (FeedbackDispatcher.make q) (fun _ => S) in
    snd (FeedbackDispatcher.worker_steps 2 f 0%nat) = 1%nat /\
    exists delivered, 1%nat = fold_left (fun c _ => S c) delivered 0%nat /\
      NoDup (FeedbackDispatcher.keys delivered).
Proof.
  destruct demo_ring as [q|] eqn:Eq; [|vm_compute in Eq; discriminate]. exists q. split; [done|].
  intros f.
  pose proof (FeedbackDispatcher.feedback_at_most_once f 0%nat (fun _ => S) _ (demo_ring_repr q Eq) eq_refl
    ltac:(vm_compute; lia)) as H.
  assert (snd (FeedbackDispatcher.worker_steps 2 f 0%nat) = 1%nat) as Hs.
  { unfold f. vm_compute in Eq. injection Eq as <-. vm_compute. reflexivity. }
  split; [exact Hs|]. cbn [length] in H. destruct (FeedbackDispatcher.worker_steps 2 f 0%nat) as [f' c'].
  simpl in Hs. destruct H as (delivered & Hc & _ & Hnd & _). exists delivered. rewrite <-Hs. auto.
Defined.
