(* ===== verification/Sql.v ===== *)
(** SQL text built by [include/persistence/sql_builder.hpp], and a reader of SQL string
    literals against which the quoting is proved: whatever the strings of an entity are, the
    statement has the same shape and its literals are exactly these strings.

    [fixed4] and [fixed6] print a double like a stream with [std::fixed] and that precision. *)
From S2P Require Import Prelude Float64 Types Feedback.
From Stdlib Require Import Ascii.
From stdpp Require Import pretty.

Open Scope Z_scope.

(** * [SqlBuilder] *)
Module SqlBuilder.

(** The single quote of SQL. *)
Definition apostrophe : ascii := "'"%char.

Fixpoint double_quotes (s : string) : string :=
  match s with
  | EmptyString => EmptyString
  | String c s => if decide (c = apostrophe) then String apostrophe (String apostrophe (double_quotes s))
                  else String c (double_quotes s)
  end.

(* @src include/persistence/sql_builder.hpp | static std::string quote( *)
Definition quote (s : string) : string := "'" +:+ double_quotes s +:+ "'".

Definition decision_code (d : PredictionDecision) : Z := match d with Skip => 0 | Enter => 1 | Hold => 2 end.
Definition state_code (s : OutboxState) : Z :=
  match s with OPending => 0 | OClaimed => 1 | OInFlight => 2 | ODelivered => 3 | OFailed => 4 | ODeadLetter => 5 end.

Section S.
Variable fixed4 fixed6 : double -> string.

(* @src include/persistence/sql_builder.hpp | static std::string upsertCrashRound( *)
Definition upsertCrashRound (r : CrashRound) : string :=
  "INSERT INTO crash_rounds(game_id, multiplier, hash, salt, began_at_ms, crashed_at_ms, sequence) VALUES("
  +:+ quote (cr_gameId r) +:+ ", " +:+ fixed4 (cr_multiplier r) +:+ ", " +:+ quote (cr_hash r) +:+ ", "
  +:+ quote (cr_salt r) +:+ ", " +:+ to_string (cr_beganAtMs r) +:+ ", " +:+ to_string (cr_crashedAtMs r)
  +:+ ", " +:+ to_string (cr_sequence r)
  +:+ ") ON CONFLICT (game_id) DO UPDATE SET multiplier = EXCLUDED.multiplier, hash = COALESCE(EXCLUDED.hash, crash_rounds.hash), crashed_at_ms = EXCLUDED.crashed_at_ms, sequence = EXCLUDED.sequence".

(* @src include/persistence/sql_builder.hpp | static std::string upsertPrediction( *)
Definition upsertPrediction (e : PredictionEvent) : string :=
  "INSERT INTO predictions(id, round_id, game_id, decision, confidence, entry_mult, target_mult, correlation_id, model_version, created_at_ms) VALUES("
  +:+ quote (pe_predictionId e) +:+ ", " +:+ quote (pe_targetRoundId e) +:+ ", " +:+ quote (pe_gameId e) +:+ ", "
  +:+ to_string (decision_code (pe_decision e)) +:+ ", " +:+ fixed6 (pe_confidence e) +:+ ", "
  +:+ fixed6 (pe_entryMult e) +:+ ", " +:+ fixed6 (pe_targetMult e) +:+ ", " +:+ quote (pe_correlationId e) +:+ ", "
  +:+ quote (pe_modelVersion e) +:+ ", " +:+ to_string (pe_createdAtMs e) +:+ ") ON CONFLICT (id) DO NOTHING".

(* @src include/persistence/sql_builder.hpp | static std::string upsertOutcome( *)
Definition upsertOutcome (o : Outcome) : string :=
  "INSERT INTO outcomes(prediction_id, round_id, result, actual_mult, target_mult, is_win, resolved_at_ms) VALUES("
  +:+ quote (oc_predictionId o) +:+ ", " +:+ quote (oc_roundId o) +:+ ", " +:+ quote (outcomeName (oc_result o)) +:+ ", "
  +:+ fixed4 (oc_actualMult o) +:+ ", " +:+ fixed4 (oc_targetMult o) +:+ ", "
  +:+ (if oc_isWin o then "TRUE" else "FALSE") +:+ ", " +:+ to_string (oc_resolvedAtMs o)
  +:+ ") ON CONFLICT (prediction_id) DO NOTHING".

(* @src include/persistence/sql_builder.hpp | static std::string insertOutbox( *)
Definition insertOutbox (item : OutboxItem) : string :=
  "INSERT INTO notification_outbox(state, prediction_id, round_id, signal_kind, text, dedupe_key, attempts, created_at_ms) VALUES("
  +:+ to_string (state_code (oi_state item)) +:+ ", " +:+ quote (sg_predictionId (oi_signal item)) +:+ ", "
  +:+ quote (sg_roundId (oi_signal item)) +:+ ", " +:+ to_string (signal_kind_code (sg_kind (oi_signal item))) +:+ ", "
  +:+ quote (sg_text (oi_signal item)) +:+ ", " +:+ quote (oi_dedupeKey item) +:+ ", "
  +:+ to_string (oi_attempts item) +:+ ", " +:+ to_string (oi_createdAtMs item)
  +:+ ") ON CONFLICT (dedupe_key) DO NOTHING".
End S.

(* @src include/persistence/sql_builder.hpp | static std::string claimOutboxBatch( *)
Definition claimOutboxBatch (limit : Z) : string :=
  "UPDATE notification_outbox SET state = 1, claimed_at_ms = (EXTRACT(EPOCH FROM NOW())*1000)::BIGINT WHERE id IN (  SELECT id FROM notification_outbox WHERE state = 0   ORDER BY created_at_ms ASC LIMIT "
  +:+ to_string limit +:+ "  FOR UPDATE SKIP LOCKED) RETURNING *".

(* @src include/persistence/sql_builder.hpp | static std::string markOutboxDelivered( *)
Definition markOutboxDelivered (id : Z) : string :=
  "UPDATE notification_outbox SET state = 3, delivered_at_ms = (EXTRACT(EPOCH FROM NOW())*1000)::BIGINT WHERE id = "
  +:+ to_string id.

Definition prediction_columns : string :=
  "SELECT id, round_id, game_id, decision, confidence, entry_mult, target_mult, correlation_id, model_version, created_at_ms FROM predictions ".

(* @src include/persistence/sql_builder.hpp | static std::string selectPredictionById( *)
Definition selectPredictionById (id : string) : string :=
  prediction_columns +:+ "WHERE id = " +:+ quote id +:+ " LIMIT 1".

(* @src include/persistence/sql_builder.hpp | static std::string selectRecentPredictions( *)
Definition selectRecentPredictions (limit : nat) : string :=
  prediction_columns +:+ "ORDER BY created_at_ms DESC LIMIT " +:+ to_string (Z.of_nat limit).

(* @src include/persistence/sql_builder.hpp | static std::string selectPredictionsByRound( *)
Definition selectPredictionsByRound (roundId : string) : string :=
  prediction_columns +:+ "WHERE round_id = " +:+ quote roundId.

(* @src include/persistence/sql_builder.hpp | static std::string selectOutcomeById( *)
Definition selectOutcomeById (id : string) : string :=
  "SELECT prediction_id, round_id, result, actual_mult, target_mult, is_win, resolved_at_ms FROM outcomes WHERE prediction_id = "
  +:+ quote id +:+ " LIMIT 1".

Definition round_columns : string :=
  "SELECT game_id, multiplier, hash, salt, began_at_ms, crashed_at_ms, sequence FROM crash_rounds ".

(* @src include/persistence/sql_builder.hpp | static std::string selectCrashRoundById( *)
Definition selectCrashRoundById (id : string) : string :=
  round_columns +:+ "WHERE game_id = " +:+ quote id +:+ " LIMIT 1".

(* @src include/persistence/sql_builder.hpp | static std::string selectRecentCrashRounds( *)
Definition selectRecentCrashRounds (limit : nat) : string :=
  round_columns +:+ "ORDER BY crashed_at_ms DESC LIMIT " +:+ to_string (Z.of_nat limit).
End SqlBuilder.

(** * Reading string literals

    A literal runs from a quote to the next quote that is not doubled; a doubled quote stands
    for one (the reading of PostgreSQL with [standard_conforming_strings], its default). *)

(** Outside a literal; inside, with the text so far; after a quote inside. *)
Inductive lex_mode := Outside | Inside (acc : string) | AfterQuote (acc : string).

Definition snoc (s : string) (c : ascii) : string := s +:+ String c EmptyString.

(** The statement with [?] for each literal, and the literals. *)
Fixpoint lex (m : lex_mode) (s : string) : option (string * list string) :=
  match s with
  | EmptyString =>
      match m with
      | Outside => Some (EmptyString, [])
      | Inside _ => None
      | AfterQuote acc => Some (EmptyString, [acc])
      end
  | String c s =>
      match m with
      | Outside =>
          if decide (c = SqlBuilder.apostrophe) then
            '(sk, ls) ← lex (Inside EmptyString) s; Some (String "?"%char sk, ls)
          else '(sk, ls) ← lex Outside s; Some (String c sk, ls)
      | Inside acc =>
          if decide (c = SqlBuilder.apostrophe) then lex (AfterQuote acc) s else lex (Inside (snoc acc c)) s
      | AfterQuote acc =>
          if decide (c = SqlBuilder.apostrophe) then lex (Inside (snoc acc c)) s
          else '(sk, ls) ← lex Outside s; Some (String c sk, acc :: ls)
      end
  end.

Definition starts_quote (s : string) : bool :=
  match s with String c _ => bool_decide (c = SqlBuilder.apostrophe) | EmptyString => false end.

Fixpoint no_quote (s : string) : bool :=
  match s with
  | EmptyString => true
  | String c s => negb (bool_decide (c = SqlBuilder.apostrophe)) && no_quote s
  end.

Lemma no_quote_app s1 s2 : no_quote (s1 +:+ s2) = no_quote s1 && no_quote s2.
Proof. induction s1 as [|c s1 IH]; [done|]. rewrite app_cons_str. simpl. by rewrite IH, andb_assoc. Qed.

Lemma lex_plain s rest : no_quote s = true ->
  lex Outside (s +:+ rest) = '(sk, ls) ← lex Outside rest; Some (s +:+ sk, ls).
Proof.
  induction s as [|c s IH]; intros H.
  { rewrite app_empty_str. by destruct (lex Outside rest) as [[? ?]|]. }
  simpl in H. apply andb_true_iff in H as [Hc Hs]. apply negb_true_iff, bool_decide_eq_false in Hc.
  rewrite app_cons_str. simpl. rewrite decide_False by done. rewrite IH by done.
  by destruct (lex Outside rest) as [[? ?]|].
Qed.

Lemma lex_inside t acc rest : starts_quote rest = false ->
  lex (Inside acc) (SqlBuilder.double_quotes t +:+ "'" +:+ rest) =
  '(sk, ls) ← lex Outside rest; Some (sk, (acc +:+ t) :: ls).
Proof.
  intros Hr. revert acc. induction t as [|c t IH]; intros acc; simpl.
  - rewrite app_nil_str, app_empty_str.
    destruct rest as [|d rest]; [done|]. simpl in Hr |- *.
    apply bool_decide_eq_false in Hr. rewrite !decide_False by done.
    by destruct (lex Outside rest) as [[? ?]|].
  - destruct (decide (c = SqlBuilder.apostrophe)) as [->|Hc]; rewrite !app_cons_str; simpl.
    + rewrite IH. unfold snoc. by rewrite app_assoc_str.
    + rewrite decide_False by done. rewrite IH. unfold snoc. by rewrite app_assoc_str.
Qed.

Lemma lex_quote t rest : starts_quote rest = false ->
  lex Outside (SqlBuilder.quote t +:+ rest) = '(sk, ls) ← lex Outside rest; Some ("?" +:+ sk, t :: ls).
Proof.
  intros Hr. unfold SqlBuilder.quote. rewrite !app_assoc_str.
  change (lex Outside ("'" +:+ SqlBuilder.double_quotes t +:+ "'" +:+ rest))
    with ('(sk, ls) ← lex (Inside EmptyString) (SqlBuilder.double_quotes t +:+ "'" +:+ rest); Some ("?" +:+ sk, ls)).
  rewrite lex_inside by done. by destruct (lex Outside rest) as [[? ?]|].
Qed.

Lemma lex_quote_end t : lex Outside (SqlBuilder.quote t) = Some ("?", [t]).
Proof. rewrite <-(app_nil_str (SqlBuilder.quote t)), lex_quote by done. done. Qed.

(** Numbers print without quotes. *)
Lemma no_quote_to_string z : no_quote (to_string z) = true.
Proof.
  assert (forall x s, no_quote s = true -> no_quote (pretty_N_go x s) = true) as HN.
  { intros x. induction (N.lt_wf_0 x) as [x _ IH]; intros s Hs.
    destruct (decide (x = 0)%N) as [->|Hx]; [by rewrite pretty_N_go_0|].
    rewrite pretty_N_go_step by lia. apply IH; [apply N.div_lt; lia|]. simpl. rewrite Hs, andb_true_r.
    unfold pretty_N_char. by repeat case_match. }
  assert (forall x : N, no_quote (pretty x) = true) as HP.
  { intros x. unfold pretty, pretty_N. case_decide; [done|by apply HN]. }
  unfold to_string, pretty, pretty_Z. destruct z; [done|apply HP|apply HP].
Qed.

(** * The statements of the builder *)

(** The statements built from an entity or a key. *)
Inductive statement :=
| UpsertRound (r : CrashRound)
| UpsertPrediction (e : PredictionEvent)
| UpsertOutcome (o : Outcome)
| InsertOutbox (i : OutboxItem)
| PredictionById (id : string)
| PredictionsByRound (id : string)
| OutcomeById (id : string)
| RoundById (id : string).

Section Injection.
Variable fixed4 fixed6 : double -> string.
Hypothesis fixed4_plain : forall x, no_quote (fixed4 x) = true.
Hypothesis fixed6_plain : forall x, no_quote (fixed6 x) = true.

Definition sql (s : statement) : string :=
  match s with
  | UpsertRound r => SqlBuilder.upsertCrashRound fixed4 r
  | UpsertPrediction e => SqlBuilder.upsertPrediction fixed6 e
  | UpsertOutcome o => SqlBuilder.upsertOutcome fixed4 o
  | InsertOutbox i => SqlBuilder.insertOutbox i
  | PredictionById id => SqlBuilder.selectPredictionById id
  | PredictionsByRound id => SqlBuilder.selectPredictionsByRound id
  | OutcomeById id => SqlBuilder.selectOutcomeById id
  | RoundById id => SqlBuilder.selectCrashRoundById id
  end.

(** The strings of the statement, in the order of its columns. *)
Definition strings (s : statement) : list string :=
  match s with
  | UpsertRound r => [cr_gameId r; cr_hash r; cr_salt r]
  | UpsertPrediction e => [pe_predictionId e; pe_targetRoundId e; pe_gameId e; pe_correlationId e; pe_modelVersion e]
  | UpsertOutcome o => [oc_predictionId o; oc_roundId o; outcomeName (oc_result o)]
  | InsertOutbox i => [sg_predictionId (oi_signal i); sg_roundId (oi_signal i); sg_text (oi_signal i); oi_dedupeKey i]
  | PredictionById id | PredictionsByRound id | OutcomeById id | RoundById id => [id]
  end.

(** The same statement with empty strings. *)
Definition blank (s : statement) : statement :=
  match s with
  | UpsertRound r =>
      UpsertRound {| cr_gameId := ""; cr_multiplier := cr_multiplier r; cr_hash := ""; cr_salt := "";
        cr_beganAtMs := cr_beganAtMs r; cr_crashedAtMs := cr_crashedAtMs r; cr_sequence := cr_sequence r;
        cr_hasHash := cr_hasHash r; cr_hasSalt := cr_hasSalt r |}
  | UpsertPrediction e =>
      UpsertPrediction (e <| pe_predictionId := "" |> <| pe_targetRoundId := "" |> <| pe_gameId := "" |>
        <| pe_correlationId := "" |> <| pe_modelVersion := "" |>)
  | UpsertOutcome o =>
      UpsertOutcome {| oc_predictionId := ""; oc_roundId := ""; oc_result := oc_result o;
        oc_actualMult := oc_actualMult o; oc_targetMult := oc_targetMult o;
        oc_resolvedAtMs := oc_resolvedAtMs o; oc_isWin := oc_isWin o |}
  | InsertOutbox i =>
      InsertOutbox (i <| oi_dedupeKey := "" |>
        <| oi_signal ::= fun s => s <| sg_predictionId := "" |> <| sg_roundId := "" |> <| sg_text := "" |> |>)
  | PredictionById _ => PredictionById ""
  | PredictionsByRound _ => PredictionsByRound ""
  | OutcomeById _ => OutcomeById ""
  | RoundById _ => RoundById ""
  end.

(** Read a statement piece by piece. *)
Ltac lex_statement :=
  rewrite ?app_assoc_str;
  repeat first
    [ rewrite lex_quote by done
    | rewrite lex_quote_end
    | rewrite lex_plain by first [apply fixed4_plain | apply fixed6_plain | apply no_quote_to_string | by case_match | done] ];
  reflexivity.

(** C27: no string can escape its literal: whatever the ids, hashes and texts are, the reader
    finds in the statement exactly these strings as its literals, and outside of them the
    text that the statement has when they are all empty. *)
Theorem sql_literals_exact (s : statement) :
  exists skeleton literals,
    lex Outside (sql s) = Some (skeleton, strings s) /\ lex Outside (sql (blank s)) = Some (skeleton, literals).
Proof.
  destruct s; cbn [sql blank strings]; eexists _, _; split.
  all: unfold SqlBuilder.upsertCrashRound, SqlBuilder.upsertPrediction, SqlBuilder.upsertOutcome, SqlBuilder.insertOutbox,
    SqlBuilder.selectPredictionById, SqlBuilder.selectPredictionsByRound, SqlBuilder.selectOutcomeById,
    SqlBuilder.selectCrashRoundById.
  all: lex_statement.
Qed.
End Injection.

(** A game id that tries to end its literal. *)
Lemma sql_literals_exact_witness :
  exists skeleton literals,
    lex Outside (sql (fun _ => "2.5000") (fun _ => "0.500000") (RoundById "x' OR '1'='1")) = Some (skeleton, ["x' OR '1'='1"]) /\
    lex Outside (sql (fun _ => "2.5000") (fun _ => "0.500000") (RoundById "")) = Some (skeleton, literals).
Proof.
  exact (sql_literals_exact (fun _ => "2.5000") (fun _ => "0.500000") (fun _ => eq_refl) (fun _ => eq_refl)
    (RoundById "x' OR '1'='1")).
Defined.
