(* ===== verification/Database.v ===== *)
(** The database layer of [include/persistence]: the virtual class [Database] as an interface
    with its stub ([database.hpp]) and its libpq implementation ([pg/pg_database.hpp]), the
    connection pool, the migration runner with the embedded schema, and retention.

    libpq is a parameter: a connection [Conn] lives in the world [W]; the functions answer as
    their namesakes. *)
From S2P Require Import Prelude Types.
From Stdlib Require Import Ascii.

Open Scope Z_scope.

(* @src include/persistence/database.hpp | struct QueryResult { | QueryResult *)
Record QueryResult := { rows : list (list string); columns : list string }.

(** * The interface

    A database object [D] owns its connection.  [db_wf] is its representation invariant;
    the laws say when it counts as connected, and that nothing executes otherwise. *)
(* @src include/persistence/database.hpp:17-57 Database *)
Class Database (D : Type) := {
  db_wf : D -> Prop;
  db_connected : D -> bool;
  db_connect : D -> Result unit * D;
  db_disconnect : D -> D;
  db_execute : string -> D -> Result unit * D;
  db_query : string -> list string -> D -> Result QueryResult * D;
  db_connect_law d : db_wf d ->
    db_wf (db_connect d).2 /\ db_connected (db_connect d).2 = is_ok (db_connect d).1;
  db_disconnect_law d : db_wf d -> db_wf (db_disconnect d) /\ db_connected (db_disconnect d) = false;
  db_execute_law sql d : db_wf d ->
    db_wf (db_execute sql d).2 /\ db_connected (db_execute sql d).2 = db_connected d /\
    (db_connected d = false -> is_ok (db_execute sql d).1 = false);
  db_query_law sql params d : db_wf d ->
    db_wf (db_query sql params d).2 /\ db_connected (db_query sql params d).2 = db_connected d /\
    (db_connected d = false -> is_ok (db_query sql params d).1 = false)
}.

(** [PgDatabase] alone has parameterised statements; [db_pg] is [dynamic_cast<PgDatabase*>]. *)
Class PgOps (D : Type) := {
  db_pg : bool;
  db_executeParams : string -> list string -> D -> Result unit * D
}.

(** * The stub: statements are accepted and counted *)
Module BaseDatabase.

Record t := { creds : string; connected : bool; executions : Z }.
#[export] Instance eta_t : Eta t := fun r =>
  {| creds := creds r; connected := connected r; executions := executions r |}.

(* @src include/persistence/database.hpp | explicit Database( *)
Definition make (connectionString : string) : t :=
  {| creds := connectionString; connected := false; executions := 0 |}.

(* @src include/security/credentials.hpp:20-20 DatabaseCredentials::valid *)
Definition creds_valid (connectionString : string) : bool := negb (str_empty connectionString).

(* @src include/persistence/database.hpp | virtual Result<void> connect() *)
Definition connect (d : t) : Result unit * t :=
  if negb (creds_valid (creds d)) then (Err (err ConfigError "DATABASE_URL missing"), d)
  else (Ok tt, d <| connected := true |>).

(* @src include/persistence/database.hpp | virtual void disconnect() *)
Definition disconnect (d : t) : t := d <| connected := false |>.

(* @src include/persistence/database.hpp | virtual Result<void> execute( *)
Definition execute (_ : string) (d : t) : Result unit * t :=
  if negb (connected d) then (Err (err DatabaseError "not connected"), d)
  else (Ok tt, d <| executions ::= bump |>).

(* @src include/persistence/database.hpp | virtual Result<QueryResult> query( *)
Definition query (_ : string) (_ : list string) (d : t) : Result QueryResult * t :=
  if negb (connected d) then (Err (err DatabaseError "not connected"), d)
  else (Ok {| rows := []; columns := [] |}, d <| executions ::= bump |>).

(** Connected only with valid credentials. *)
Definition wf (d : t) : Prop := connected d = true -> creds_valid (creds d) = true.
End BaseDatabase.

#[export, refine] Instance BaseDatabase_db : Database BaseDatabase.t := {|
  db_wf := BaseDatabase.wf;
  db_connected := BaseDatabase.connected;
  db_connect := BaseDatabase.connect;
  db_disconnect := BaseDatabase.disconnect;
  db_execute := BaseDatabase.execute;
  db_query := BaseDatabase.query |}.
Proof.
  - intros d Hd. unfold BaseDatabase.connect, BaseDatabase.wf in *.
    destruct (BaseDatabase.creds_valid (BaseDatabase.creds d)) eqn:E; simpl; [done|].
    destruct (BaseDatabase.connected d); [by specialize (Hd eq_refl)|done].
  - done.
  - intros sql d Hd. unfold BaseDatabase.execute. destruct (BaseDatabase.connected d) eqn:E; [|done].
    by split_and!; [apply Hd| |].
  - intros sql params d Hd. unfold BaseDatabase.query. destruct (BaseDatabase.connected d) eqn:E; [|done].
    by split_and!; [apply Hd| |].
Defined.

#[export] Instance BaseDatabase_pg : PgOps BaseDatabase.t := {|
  db_pg := false;
  db_executeParams := fun _ _ d => (Err (err NotImplemented ""), d) |}.

(** * [PgDatabase] *)

(** [ExecStatusType], as far as the code distinguishes its values: an empty query string, or
    one holding only comments, is [PGRES_EMPTY_QUERY]. *)
Inductive ExecStatus := COMMAND_OK | TUPLES_OK | EMPTY_QUERY | FATAL_ERROR.

Record PGresult := { res_status : ExecStatus; res_columns : list string; res_rows : list (list (option string)) }.

Class Libpq (Conn W : Type) := {
  PQconnectdb : string -> W -> Conn * W;
  PQfinish : Conn -> W -> W;
  PQstatus_ok : Conn -> W -> bool;
  PQerrorMessage : Conn -> W -> string;
  PQexec : Conn -> string -> W -> PGresult * W;
  PQexecParams : Conn -> string -> list string -> W -> PGresult * W
}.

Module PgDatabase.
Section S.
Context {Conn W : Type} `{!Libpq Conn W}.

(* @src include/persistence/pg/pg_database.hpp:167-170 PgDatabase *)
Record t := { creds : string; conn : option Conn; connected : bool; executions : Z; failures : Z; world : W }.
#[export] Instance eta_t : Eta t := fun r =>
  {| creds := creds r; conn := conn r; connected := connected r; executions := executions r;
     failures := failures r; world := world r |}.

(* @src include/persistence/pg/pg_database.hpp | explicit PgDatabase( *)
Definition make (connectionString : string) (w : W) : t :=
  {| creds := connectionString; conn := None; connected := false; executions := 0; failures := 0; world := w |}.

(* @src include/persistence/pg/pg_database.hpp | Result<void> connect() override *)
Definition connect (d : t) : Result unit * t :=
  match conn d with
  | Some c =>
      if PQstatus_ok c (world d) then (Ok tt, d <| connected := true |>)
      else
        let d := d <| world ::= PQfinish c |> <| conn := None |> in
        if negb (BaseDatabase.creds_valid (creds d)) then
          (Err (err ConfigError "DATABASE_URL / credentials missing"), d)
        else
          let '(c, w) := PQconnectdb (creds d) (world d) in
          if negb (PQstatus_ok c w) then
            (Err (err DatabaseError ("PQconnectdb: " +:+ PQerrorMessage c w)),
             d <| world := PQfinish c w |> <| conn := None |> <| connected := false |>)
          else (Ok tt, d <| world := w |> <| conn := Some c |> <| connected := true |>)
  | None =>
        if negb (BaseDatabase.creds_valid (creds d)) then
          (Err (err ConfigError "DATABASE_URL / credentials missing"), d)
        else
          let '(c, w) := PQconnectdb (creds d) (world d) in
          if negb (PQstatus_ok c w) then
            (Err (err DatabaseError ("PQconnectdb: " +:+ PQerrorMessage c w)),
             d <| world := PQfinish c w |> <| conn := None |> <| connected := false |>)
          else (Ok tt, d <| world := w |> <| conn := Some c |> <| connected := true |>)
  end.

(* @src include/persistence/pg/pg_database.hpp | void disconnect() override *)
Definition disconnect (d : t) : t :=
  (match conn d with Some c => d <| world ::= PQfinish c |> <| conn := None |> | None => d end)
    <| connected := false |>.

(** The connection when it is usable. *)
Definition usable (d : t) : option Conn :=
  match conn d with Some c => if PQstatus_ok c (world d) then Some c else None | None => None end.

Definition failed (d : t) (c : Conn) : Error * t :=
  (err DatabaseError (PQerrorMessage c (world d)), d <| failures ::= bump |>).

(** The common end of [execute] and [executeParams]. *)
(* @src include/persistence/pg/pg_database.hpp:95-104 PgDatabase::executeParams *)
Definition command_result (d : t) (c : Conn) (res : PGresult) : Result unit * t :=
  match res_status res with
  | COMMAND_OK | TUPLES_OK => (Ok tt, d <| executions ::= bump |>)
  | _ => let '(e, d) := failed d c in (Err e, d)
  end.

(* @src include/persistence/pg/pg_database.hpp | Result<void> execute(const *)
Definition execute (sql : string) (d : t) : Result unit * t :=
  match usable d with
  | None => (Err (err DatabaseError "not connected"), d)
  | Some c => let '(res, w) := PQexec c sql (world d) in command_result (d <| world := w |>) c res
  end.

(* @src include/persistence/pg/pg_database.hpp | Result<void> executeParams( *)
Definition executeParams (sql : string) (params : list string) (d : t) : Result unit * t :=
  match usable d with
  | None => (Err (err DatabaseError "not connected"), d)
  | Some c => let '(res, w) := PQexecParams c sql params (world d) in command_result (d <| world := w |>) c res
  end.

(** A null field becomes the empty string. *)
(* @src include/persistence/pg/pg_database.hpp | Result<QueryResult> query( *)
Definition query (sql : string) (params : list string) (d : t) : Result QueryResult * t :=
  match usable d with
  | None => (Err (err DatabaseError "not connected"), d)
  | Some c =>
      let '(res, w) := PQexecParams c sql params (world d) in
      let d := d <| world := w |> in
      match res_status res with
      | TUPLES_OK =>
          (Ok {| rows := map (map (default EmptyString)) (res_rows res); columns := res_columns res |},
           d <| executions ::= bump |>)
      | _ => let '(e, d) := failed d c in (Err e, d)
      end
  end.

(* @src include/persistence/pg/pg_database.hpp | bool healthy() *)
Definition healthy (d : t) : bool * t := let '(r, d) := execute "SELECT 1" d in (is_ok r, d).

(** The flag is set exactly while there is a connection handle, which needs credentials. *)
Definition wf (d : t) : Prop :=
  connected d = bool_decide (is_Some (conn d)) /\ (is_Some (conn d) -> BaseDatabase.creds_valid (creds d) = true).

Lemma usable_connected d c : wf d -> usable d = Some c -> connected d = true /\ conn d = Some c.
Proof. intros [Hc _] Hu. unfold usable in Hu. destruct (conn d) as [c'|] eqn:E; [|done]. case_match; simplify_eq. rewrite Hc. split; [|done]. by apply bool_decide_eq_true. Qed.

Lemma connect_spec d : wf d -> wf (connect d).2 /\ connected (connect d).2 = is_ok (connect d).1.
Proof.
  intros [Hc Hv]. unfold connect, wf. destruct (conn d) as [c|] eqn:Ec.
  - specialize (Hv ltac:(eauto)). destruct (PQstatus_ok c (world d)); simpl; [by rewrite Ec|]. rewrite Hv. simpl.
    destruct (PQconnectdb _ _) as [c' w']. by destruct (PQstatus_ok c' w').
  - destruct (BaseDatabase.creds_valid (creds d)) eqn:Ev; simpl; [|by rewrite Ec].
    destruct (PQconnectdb _ _) as [c' w']. by destruct (PQstatus_ok c' w').
Qed.

Lemma command_result_spec d c res : wf d -> wf (command_result d c res).2 /\ connected (command_result d c res).2 = connected d.
Proof. intros Hd. unfold command_result, failed. by case_match. Qed.

Lemma execute_spec sql d : wf d ->
  wf (execute sql d).2 /\ connected (execute sql d).2 = connected d /\
  (connected d = false -> is_ok (execute sql d).1 = false).
Proof.
  intros Hd. unfold execute. destruct (usable d) as [c|] eqn:Eu; [|done].
  apply usable_connected in Eu as [Hc _]; [|done]. destruct (PQexec _ _ _) as [res w].
  split_and!; [by apply command_result_spec|by etransitivity; [apply command_result_spec|]|congruence].
Qed.

Lemma query_spec sql params d : wf d ->
  wf (query sql params d).2 /\ connected (query sql params d).2 = connected d /\
  (connected d = false -> is_ok (query sql params d).1 = false).
Proof.
  intros Hd. unfold query. destruct (usable d) as [c|] eqn:Eu; [|done].
  apply usable_connected in Eu as [Hc _]; [|done]. destruct (PQexecParams _ _ _ _) as [res w].
  destruct (res_status res); (split_and!; [apply Hd|done|intros Hf; rewrite Hc in Hf; discriminate Hf]).
Qed.

#[export, refine] Instance PgDatabase_db : Database t := {|
  db_wf := wf;
  db_connected := connected;
  db_connect := connect;
  db_disconnect := disconnect;
  db_execute := execute;
  db_query := query |}.
Proof.
  - exact connect_spec.
  - intros d Hd. unfold disconnect. by destruct (conn d) eqn:E; split_and!; unfold wf; simpl; rewrite ?E.
  - exact execute_spec.
  - exact query_spec.
Defined.

#[export] Instance PgDatabase_pg : PgOps t := {| db_pg := true; db_executeParams := executeParams |}.
End S.
Arguments t : clear implicits.
End PgDatabase.
#[export] Existing Instances PgDatabase.PgDatabase_db PgDatabase.PgDatabase_pg.

(** * A database that records its statements

    The [n]-th statement is accepted when [answers n] says so; queries return no rows.  The
    theorems about the statements that a component issues run on it. *)
Module TraceDb.

Record t := { answers : nat -> string -> bool; up : bool; log : list string }.
#[export] Instance eta_t : Eta t := fun r => {| answers := answers r; up := up r; log := log r |}.

Definition execute (sql : string) (d : t) : Result unit * t :=
  if up d then
    (if answers d (length (log d)) sql then Ok tt else Err (err DatabaseError "refused"), d <| log ::= fun l => l ++ [sql] |>)
  else (Err (err DatabaseError "not connected"), d).

Definition query (sql : string) (_ : list string) (d : t) : Result QueryResult * t :=
  (if up d then Ok {| rows := []; columns := [] |} else Err (err DatabaseError "not connected"), d).

#[export, refine] Instance db : Database t := {|
  db_wf := fun _ => True;
  db_connected := up;
  db_connect := fun d => (Ok tt, d <| up := true |>);
  db_disconnect := fun d => d <| up := false |>;
  db_execute := execute;
  db_query := query |}.
Proof.
  - done.
  - done.
  - intros sql d _. unfold execute. by destruct (up d) eqn:E.
  - intros sql params d _. unfold query. by destruct (up d) eqn:E.
Defined.

#[export] Instance pg : PgOps t := {| db_pg := true; db_executeParams := fun sql _ d => execute sql d |}.

Lemma execute_up sql d : up d = true ->
  execute sql d = (if answers d (length (log d)) sql then Ok tt else Err (err DatabaseError "refused"), d <| log ::= fun l => l ++ [sql] |>).
Proof. intros H. unfold execute. by rewrite H. Qed.
End TraceDb.
#[export] Existing Instances TraceDb.db TraceDb.pg.
#[export] Existing Instance TraceDb.eta_t.

(** * [ConnectionPool] *)
Module ConnectionPool.
Section S.
Context {D : Type} `{!Database D}.

(** A slot of [pool_] is empty while its connection is out. *)
(* @src include/persistence/connection_pool.hpp:71-76 ConnectionPool *)
Record t := { fresh : D; size_ : nat; pool : list (option D); available : nat }.
#[export] Instance eta_t : Eta t := fun r =>
  {| fresh := fresh r; size_ := size_ r; pool := pool r; available := available r |}.

(** [fresh] is a new unconnected database with the pool's credentials. *)
(* @src include/persistence/connection_pool.hpp | ConnectionPool(DatabaseCredentials *)
Definition make (fresh : D) (size : nat) : t := {| fresh := fresh; size_ := size; pool := []; available := 0 |}.

(** The loop of [start]: an error leaves the connections made so far in the pool. *)
(* @src include/persistence/connection_pool.hpp:18-23 ConnectionPool::start *)
Fixpoint fill (n : nat) (p : t) : Result unit * t :=
  match n with
  | O => (Ok tt, p)
  | S n =>
      match db_connect (fresh p) with
      | (Err e, _) => (Err e, p)
      | (Ok _, d) => fill n (p <| pool ::= fun l => l ++ [Some d] |>)
      end
  end.

(* @src include/persistence/connection_pool.hpp | Result<void> start() *)
Definition start (p : t) : Result unit * t :=
  match fill (size_ p) p with
  | (Err e, p) => (Err e, p)
  | (Ok _, p) => (Ok tt, p <| available := length (pool p) |>)
  end.

(* @src include/persistence/connection_pool.hpp | void stop() *)
Definition stop (p : t) : t := p <| pool := [] |> <| available := 0%nat |>.

(** The first filled slot. *)
Fixpoint take_first (l : list (option D)) : option (D * list (option D)) :=
  match l with
  | [] => None
  | Some d :: l => Some (d, None :: l)
  | None :: l => '(d, l') ← take_first l; Some (d, None :: l')
  end.

(** [acquire] after its wait: it still waits, returns a null pointer or a connection. *)
Inductive acquired := Waiting | Null | Got (d : D).

(* @src include/persistence/connection_pool.hpp | std::unique_ptr<Database> acquire() *)
Definition acquire (p : t) : acquired * t :=
  if negb ((0 <? available p)%nat || bool_decide (pool p = [])) then (Waiting, p)
  else
    match pool p with
    | [] => (Null, p)
    | l => match take_first l with
           | Some (d, l) => (Got d, p <| pool := l |> <| available ::= fun n => (n - 1)%nat |>)
           | None => (Null, p)
           end
    end.

(** Put back into the first empty slot, or a new one at the end. *)
Fixpoint put_first (d : D) (l : list (option D)) : list (option D) :=
  match l with
  | [] => [Some d]
  | None :: l => Some d :: l
  | Some d' :: l => Some d' :: put_first d l
  end.

(* @src include/persistence/connection_pool.hpp | void release(std::unique_ptr<Database> *)
Definition release (p : t) (d : option D) : t :=
  match d with
  | None => p
  | Some d => p <| pool ::= put_first d |> <| available ::= S |>
  end.

(** ** The connections of the pool *)

Definition idle (p : t) : list D := omap id (pool p).

(** A client holds [held]; it acquires one more, or releases the [i]-th it holds. *)
Inductive op := Acquire | Release (i : nat).

Definition step (s : t * list D) (o : op) : t * list D :=
  let '(p, held) := s in
  match o with
  | Acquire => match acquire p with (Got d, p) => (p, d :: held) | (_, p) => (p, held) end
  | Release i => match held !! i with
                 | Some d => (release p (Some d), delete i held)
                 | None => (p, held)
                 end
  end.

(** [l] are all the connections; each is idle in its slot or held. *)
Definition conserved (l : list D) (s : t * list D) : Prop :=
  idle s.1 ++ s.2 ≡ₚ l /\ available s.1 = length (idle s.1) /\ length (pool s.1) = length l.

Lemma take_first_spec l :
  match take_first l with
  | Some (d, l') => omap id l ≡ₚ d :: omap id l' /\ length l' = length l
  | None => omap id l = []
  end.
Proof.
  induction l as [|[d|] l IH]; simpl; [done|by split|]. destruct (take_first l) as [[d l']|]; simpl; [|done].
  destruct IH as [Hp Hl]. by rewrite Hl.
Qed.

Lemma length_idle (l : list (option D)) : (length (omap id l) <= length l)%nat.
Proof. induction l as [|[d|] l IH]; simpl; unfold omap in *; lia. Qed.

Lemma put_first_spec d (l : list (option D)) :
  omap id (put_first d l) ≡ₚ d :: omap id l /\
  ((length (omap id l) < length l)%nat -> length (put_first d l) = length l).
Proof.
  induction l as [|[d'|] l [IHp IHl]]; simpl; [split; [done|lia]| |done].
  split; [rewrite IHp; apply Permutation_swap|]. intros Hl. rewrite IHl; [done|]. unfold omap in *. lia.
Qed.

Lemma step_conserved l s o : conserved l s -> conserved l (step s o).
Proof.
  destruct s as [p held]. intros (Hp & Ha & Hl). simpl in *. destruct o as [|i]; simpl.
  - unfold acquire. destruct (negb _); [done|].
    destruct (pool p) as [|x q] eqn:Eq; [unfold conserved; simpl; by rewrite Eq|]. rewrite <-Eq in *. pose proof (take_first_spec (pool p)) as Ht. destruct (take_first (pool p)) as [[d l']|]; [|done].
    destruct Ht as [Hpe Hle]. unfold conserved, idle in *. simpl. split_and!.
    + rewrite <-Hp, Hpe. simpl. by rewrite Permutation_middle.
    + rewrite Ha, Hpe. simpl. lia.
    + lia.
  - destruct (held !! i) as [d|] eqn:Ei; [|done]. unfold conserved, idle in *. simpl.
    destruct (put_first_spec d (pool p)) as [Hpe Hle].
    pose proof (delete_Permutation held i d Ei) as Hd. rewrite Hd in Hp.
    split_and!.
    + rewrite Hpe, <-Hp. simpl. by rewrite Permutation_middle.
    + rewrite Hpe, Ha. done.
    + rewrite Hle; [done|]. rewrite Hl, <-Hp, length_app. simpl. lia.
Qed.

Lemma fill_spec n p :
  let '(r, p') := fill n p in
  fresh p' = fresh p /\ available p' = available p /\ pool p `prefix_of` pool p' /\
  (is_ok r = true -> pool p' = pool p ++ replicate n (Some (db_connect (fresh p)).2) /\
     (n = 0%nat \/ is_ok (db_connect (fresh p)).1 = true)).
Proof.
  revert p. induction n as [|n IH]; intros p; simpl.
  { rewrite app_nil_r. split_and!; try done. intros _. split; [done|by left]. }
  destruct (db_connect (fresh p)) as [[u|e] d] eqn:E; simpl; [|done].
  set (p1 := p <| pool ::= _ |>). specialize (IH p1). destruct (fill n p1) as [r p'].
  destruct IH as (Hf & Ha & Hp & Hr). unfold p1 in *; simpl in *. split_and!; [done|done| |].
  - etransitivity; [|exact Hp]. by apply prefix_app_r.
  - intros Ho. rewrite (proj1 (Hr Ho)), <-(assoc (++)), E. split; [done|by right].
Qed.

(** Remark: a pool that started has [size] connected connections, and whatever its clients do
    with it these are at every moment the idle ones and the held ones together, none lost,
    none handed out twice; [available] counts the idle ones, and [acquire] waits exactly when
    all are out, and otherwise returns a connection. *)
Theorem pool_conserves (d : D) (size : nat) (ops : list op) :
  db_wf d -> (0 < size)%nat -> is_ok (start (make d size)).1 = true ->
  let '(p, held) := fold_left step ops ((start (make d size)).2, []) in
  idle p ++ held ≡ₚ replicate size (db_connect d).2 /\
  Forall (fun c => db_connected c = true) (idle p ++ held) /\
  available p = length (idle p) /\
  match (acquire p).1 with Waiting => length held = size | Null => False | Got c => c ∈ idle p end.
Proof.
  intros Hwf Hsize Hok. unfold start in *. pose proof (fill_spec size (make d size)) as Hf. simpl in *.
  destruct (fill size (make d size)) as [[u|e] p0]; [|done]. destruct Hf as (_ & _ & _ & Hp).
  destruct (Hp eq_refl) as [Hpool [->|Hconn]]; [lia|]. simpl in *. clear Hp Hok.
  set (all := replicate size (db_connect d).2).
  assert (omap id (replicate size (Some (db_connect d).2)) = all) as Hall.
  { subst all. clear. induction size as [|n IH]; [done|]. simpl. by f_equal. }
  assert (forall ops s, conserved all s -> conserved all (fold_left step ops s)) as Hrun.
  { clear. induction ops as [|o ops IH]; intros s Hs; [done|]. simpl. by apply IH, step_conserved. }
  specialize (Hrun ops (p0 <| available := length (pool p0) |>, [])).
  destruct (fold_left step ops _) as [p held]. destruct Hrun as (Hperm & Ha & Hl).
  { unfold conserved, idle. simpl. rewrite Hpool, Hall, app_nil_r. subst all. by rewrite !length_replicate. }
  simpl in *. split_and!; [done| |done|].
  - rewrite Hperm. apply Forall_replicate. destruct (db_connect_law d Hwf) as [_ ->]. done.
  - pose proof (Permutation_length Hperm) as Hlen. subst all. rewrite length_app, length_replicate in *.
    unfold acquire. destruct (Nat.ltb_spec 0 (available p)) as [Hpos|Hz]; cbn [negb orb].
    + destruct (pool p) as [|x q] eqn:Eq; [simpl in Hl; lia|]. rewrite <-Eq in *.
      pose proof (take_first_spec (pool p)) as Ht. destruct (take_first (pool p)) as [[c l']|]; simpl.
      * unfold idle. rewrite (proj1 Ht). by left.
      * unfold idle in *. rewrite Ht in *. simpl in *. lia.
    + rewrite bool_decide_eq_false_2 by (intros E; rewrite E in Hl; simpl in Hl; lia). simpl. lia.
Qed.
End S.
Arguments t : clear implicits.
Arguments op : clear implicits.
End ConnectionPool.

Lemma pool_conserves_witness :
  ConnectionPool.available (fold_left ConnectionPool.step [ConnectionPool.Acquire; ConnectionPool.Acquire; ConnectionPool.Release 1]
    ((ConnectionPool.start (ConnectionPool.make (BaseDatabase.make "postgres://x") 2)).2, [])).1 = 1%nat.
Proof.
  pose proof (ConnectionPool.pool_conserves (BaseDatabase.make "postgres://x") 2
    [ConnectionPool.Acquire; ConnectionPool.Acquire; ConnectionPool.Release 1]
    (fun _ => eq_refl) ltac:(lia) ltac:(reflexivity)) as H.
  destruct (fold_left _ _ _) as [p held] eqn:E. destruct H as (_ & _ & Ha & _).
  change ((p, held).1) with p. rewrite Ha. vm_compute in E. injection E as <- <-. reflexivity.
Defined.

(** * [RetentionManager] *)
Module RetentionManager.
Section S.
Context {D : Type} `{!Database D}.

(* @src include/persistence/retention.hpp | struct RetentionPolicy { *)
Record RetentionPolicy := {
  roundsMaxAgeMs : Z; predictionsMaxAgeMs : Z; outcomesMaxAgeMs : Z; outboxDeliveredMaxAgeMs : Z;
  maxInMemoryRounds : nat; maxInMemoryPredictions : nat }.

(* @src include/persistence/retention.hpp | struct RetentionPolicy { *)
Definition default_policy : RetentionPolicy := {|
  roundsMaxAgeMs := 7 * 24 * 3600 * 1000; predictionsMaxAgeMs := 3 * 24 * 3600 * 1000;
  outcomesMaxAgeMs := 7 * 24 * 3600 * 1000; outboxDeliveredMaxAgeMs := 2 * 24 * 3600 * 1000;
  maxInMemoryRounds := 10000; maxInMemoryPredictions := 5000 |}.

(* @src include/persistence/retention.hpp:57-61 RetentionManager *)
Record t := { policy : RetentionPolicy; runs : Z; statements : Z }.
#[export] Instance eta_t : Eta t := fun r => {| policy := policy r; runs := runs r; statements := statements r |}.

(* @src include/persistence/retention.hpp | explicit RetentionManager( *)
Definition make (p : RetentionPolicy) : t := {| policy := p; runs := 0; statements := 0 |}.

(* @src include/persistence/retention.hpp:37-47 RetentionManager::pruneDatabase *)
Definition deletes (p : RetentionPolicy) (now : Z) : list string := [
  "DELETE FROM crash_rounds WHERE crashed_at_ms > 0 AND crashed_at_ms < " +:+ to_string (now - roundsMaxAgeMs p);
  "DELETE FROM predictions WHERE created_at_ms > 0 AND created_at_ms < " +:+ to_string (now - predictionsMaxAgeMs p);
  "DELETE FROM outcomes WHERE resolved_at_ms > 0 AND resolved_at_ms < " +:+ to_string (now - outcomesMaxAgeMs p);
  "DELETE FROM notification_outbox WHERE state = 3 AND delivered_at_ms > 0 AND delivered_at_ms < "
    +:+ to_string (now - outboxDeliveredMaxAgeMs p)].

(** Statements one after the other, up to the first that fails. *)
Fixpoint run_deletes (r : t) (l : list string) (d : D) : Result unit * t * D :=
  match l with
  | [] => (Ok tt, r, d)
  | sql :: l =>
      match db_execute sql d with
      | (Err e, d) => (Err e, r, d)
      | (Ok _, d) => run_deletes (r <| statements ::= bump |>) l d
      end
  end.

(** [db] is absent when the manager was made without a database. *)
(* @src include/persistence/retention.hpp | Result<void> pruneDatabase() *)
Definition pruneDatabase (r : t) (now : Z) (db : option D) : Result unit * t * option D :=
  match db with
  | None => (Ok tt, r, None)
  | Some d =>
      if negb (db_connected d) then (Ok tt, r, Some d)
      else
        match run_deletes r (deletes (policy r) now) d with
        | (Ok _, r, d) => (Ok tt, r <| runs ::= bump |>, Some d)
        | (Err e, r, d) => (Err e, r, Some d)
        end
  end.
End S.
End RetentionManager.
