(* ===== verification/Migrations.v ===== *)
(** The migration runner ([include/persistence/migration_runner.hpp]) and the schema that it
    falls back to ([schema.hpp]): how a migration's text is cut into statements, the
    transaction around them, and what becomes of the migrations shipped in [migrations/]. *)
From S2P Require Import Prelude Types Database.
From Stdlib Require Import Ascii.
From stdpp Require Import sorting.

Open Scope Z_scope.

(** * The embedded schema *)
Module schema.

(* @src include/persistence/schema.hpp:12-24 CREATE_CRASH_ROUNDS *)
Definition CREATE_CRASH_ROUNDS : string :=
"
CREATE TABLE IF NOT EXISTS crash_rounds (
  game_id       TEXT PRIMARY KEY,
  multiplier    DOUBLE PRECISION NOT NULL,
  hash          TEXT,
  salt          TEXT,
  began_at_ms   BIGINT,
  crashed_at_ms BIGINT,
  sequence      BIGINT DEFAULT 0,
  created_at    TIMESTAMPTZ DEFAULT NOW()
);
CREATE INDEX IF NOT EXISTS idx_crash_rounds_crashed ON crash_rounds(crashed_at_ms DESC);
".

(* @src include/persistence/schema.hpp:26-42 CREATE_PREDICTIONS *)
Definition CREATE_PREDICTIONS : string :=
"
CREATE TABLE IF NOT EXISTS predictions (
  id              TEXT PRIMARY KEY,
  round_id        TEXT NOT NULL,
  game_id         TEXT,
  decision        SMALLINT NOT NULL DEFAULT 0,
  confidence      DOUBLE PRECISION DEFAULT 0,
  entry_mult      DOUBLE PRECISION DEFAULT 0,
  target_mult     DOUBLE PRECISION DEFAULT 0,
  correlation_id  TEXT,
  model_version   TEXT,
  created_at_ms   BIGINT,
  created_at      TIMESTAMPTZ DEFAULT NOW()
);
CREATE INDEX IF NOT EXISTS idx_predictions_round ON predictions(round_id);
CREATE INDEX IF NOT EXISTS idx_predictions_created ON predictions(created_at_ms DESC);
".

(* @src include/persistence/schema.hpp:44-57 CREATE_OUTCOMES *)
Definition CREATE_OUTCOMES : string :=
"
CREATE TABLE IF NOT EXISTS outcomes (
  prediction_id   TEXT PRIMARY KEY,
  round_id        TEXT NOT NULL,
  result          TEXT NOT NULL,
  actual_mult     DOUBLE PRECISION,
  target_mult     DOUBLE PRECISION,
  is_win          BOOLEAN DEFAULT FALSE,
  resolved_at_ms  BIGINT,
  created_at      TIMESTAMPTZ DEFAULT NOW()
);
CREATE INDEX IF NOT EXISTS idx_outcomes_round ON outcomes(round_id);
CREATE INDEX IF NOT EXISTS idx_outcomes_result ON outcomes(result);
".

(* @src include/persistence/schema.hpp:59-83 CREATE_OUTBOX *)
Definition CREATE_OUTBOX : string :=
"
CREATE TABLE IF NOT EXISTS notification_outbox (
  id BIGSERIAL PRIMARY KEY,
  state SMALLINT NOT NULL DEFAULT 0,
  status TEXT DEFAULT 'pending',
  prediction_id TEXT,
  round_id TEXT,
  signal_kind SMALLINT,
  text TEXT,
  payload TEXT,
  dedupe_key TEXT UNIQUE,
  attempts INT DEFAULT 0,
  last_error TEXT,
  worker_id TEXT,
  available_at_ms BIGINT DEFAULT 0,
  created_at_ms BIGINT,
  claimed_at_ms BIGINT,
  delivered_at_ms BIGINT,
  created_at TIMESTAMPTZ DEFAULT NOW()
);
CREATE INDEX IF NOT EXISTS idx_outbox_state ON notification_outbox(state);
CREATE INDEX IF NOT EXISTS idx_outbox_status ON notification_outbox(status);
CREATE INDEX IF NOT EXISTS idx_outbox_available ON notification_outbox(available_at_ms);
CREATE INDEX IF NOT EXISTS idx_outbox_dedupe ON notification_outbox(dedupe_key);
".

(* @src include/persistence/schema.hpp | inline std::vector<std::string_view> allMigrations() *)
Definition allMigrations : list string :=
  [CREATE_CRASH_ROUNDS; CREATE_PREDICTIONS; CREATE_OUTCOMES; CREATE_OUTBOX].
End schema.

(** * [MigrationRunner] *)
Module MigrationRunner.

Definition semicolon : ascii := ";"%char.

(** The chunks between semicolons; none for the empty rest after the last semicolon. *)
(* @src include/persistence/migration_runner.hpp:82-85 MigrationRunner::applySql *)
Fixpoint chunks (sql : string) : list string :=
  match sql with
  | EmptyString => []
  | String c rest =>
      if decide (c = semicolon) then EmptyString :: chunks rest
      else match chunks rest with
           | [] => [String c EmptyString]
           | h :: t => String c h :: t
           end
  end.

Definition is_blank (c : ascii) : bool :=
  bool_decide (c ∈ [" "%char; "010"%char; "009"%char; "013"%char]).

(* @src include/persistence/migration_runner.hpp:86-87 MigrationRunner::applySql *)
Fixpoint trim_left (s : string) : string :=
  match s with
  | String c s' => if is_blank c then trim_left s' else s
  | EmptyString => EmptyString
  end.

(** [find_first_not_of] of white space and dashes. *)
(* @src include/persistence/migration_runner.hpp:88-89 MigrationRunner::applySql *)
Fixpoint has_text (s : string) : bool :=
  match s with
  | String c s => negb (is_blank c || bool_decide (c = "-"%char)) || has_text s
  | EmptyString => false
  end.

(** The statements that [applySql] executes for a text. *)
(* @src include/persistence/migration_runner.hpp:81-98 MigrationRunner::applySql *)
Definition statements (sql : string) : list string :=
  base.filter (fun s => Is_true (has_text s)) (trim_left <$> chunks sql).

(** [path.extension() == ".sql"]; a name that is only an extension has none. *)
Definition has_extension (name : string) : bool :=
  (4 <? String.length name)%nat && String.eqb (String.substring (String.length name - 4) 4 name) ".sql".

Section S.
Context {D : Type} `{!Database D} `{!PgOps D}.

(* @src include/persistence/migration_runner.hpp:110-112 MigrationRunner *)
Record t := { db : D; applied : Z }.
#[export] Instance eta_t : Eta t := fun r => {| db := db r; applied := applied r |}.

(** Execute in order up to the first failure. *)
Fixpoint execute_all (l : list string) (d : D) : Result unit * D :=
  match l with
  | [] => (Ok tt, d)
  | sql :: l => match db_execute sql d with
                | (Err e, d) => (Err e, d)
                | (Ok _, d) => execute_all l d
                end
  end.

Definition record_sql : string :=
  "INSERT INTO schema_migrations(id,checksum,applied_at_ms) VALUES($1,$2,$3) ON CONFLICT DO NOTHING".

(* @src include/persistence/migration_runner.hpp | Result<void> applySql( *)
Definition applySql (m : t) (id sql : string) (now : Z) : Result unit * t :=
  let apply d :=
    match execute_all (statements sql) d with
    | (Err e, d) => (Err e, m <| db := if @db_pg D _ then (db_execute "ROLLBACK" d).2 else d |>)
    | (Ok _, d) =>
        if @db_pg D _ then
          match db_executeParams record_sql [id; "sha-pending"; to_string now] d with
          | (Err e, d) => (Err e, m <| db := (db_execute "ROLLBACK" d).2 |>)
          | (Ok _, d) => (Ok tt, m <| db := (db_execute "COMMIT" d).2 |> <| applied ::= bump |>)
          end
        else (Ok tt, m <| db := d |> <| applied ::= bump |>)
    end in
  if @db_pg D _ then
    match db_execute "BEGIN" (db m) with
    | (Err e, d) => (Err e, m <| db := d |>)
    | (Ok _, d) => apply d
    end
  else apply (db m).

(* @src include/persistence/migration_runner.hpp | bool isApplied( *)
Definition isApplied (m : t) (id : string) : bool * t :=
  if @db_pg D _ then
    let '(r, d) := db_query "SELECT 1 FROM schema_migrations WHERE id=$1" [id] (db m) in
    (match r with Ok qr => negb (bool_decide (rows qr = [])) | Err _ => false end, m <| db := d |>)
  else (false, m).

(* @src include/persistence/migration_runner.hpp | Result<void> ensureTable() *)
Definition ensureTable (m : t) : Result unit * t :=
  let '(r, d) := db_execute
    "CREATE TABLE IF NOT EXISTS schema_migrations (id TEXT PRIMARY KEY, checksum TEXT NOT NULL, applied_at_ms BIGINT NOT NULL)"
    (db m) in (r, m <| db := d |>).

Definition name_le (a b : string * option string) : Prop := String.leb a.1 b.1 = true.
#[export] Instance name_le_dec : RelDecision name_le.
Proof. intros a b. unfold name_le. apply _. Defined.

(** The [.sql] files of a directory, sorted; each file comes with its text if it can be read. *)
(* @src include/persistence/migration_runner.hpp:35-38 MigrationRunner::applyAll *)
Definition sql_files (listing : list (string * option string)) : list (string * option string) :=
  merge_sort name_le (base.filter (fun f => has_extension f.1 = true) listing).

(* @src include/persistence/migration_runner.hpp:41-49 MigrationRunner::applyAll *)
Fixpoint apply_files (m : t) (files : list (string * option string)) (now : Z) : Result unit * t :=
  match files with
  | [] => (Ok tt, m)
  | (id, text) :: files =>
      match isApplied m id with
      | (true, m) => apply_files m files now
      | (false, m) =>
          match text with
          | None => (Err (err IoError ("cannot read " +:+ id)), m)
          | Some sql =>
              match applySql m id sql now with
              | (Err e, m) => (Err e, m)
              | (Ok _, m) => apply_files m files now
              end
          end
      end
  end.

(* @src include/persistence/migration_runner.hpp:53-57 MigrationRunner::applyAll *)
Fixpoint apply_embedded (m : t) (l : list string) (now : Z) : Result unit * t :=
  match l with
  | [] => (Ok tt, m)
  | sql :: l =>
      match applySql m ("embedded_" +:+ to_string (applied m)) sql now with
      | (Err e, m) => (Err e, m)
      | (Ok _, m) => apply_embedded m l now
      end
  end.

(* @src include/persistence/migration_runner.hpp | Result<void> applyAll() *)
Definition applyAll (m : t) (listing : list (string * option string)) (now : Z) : Result unit * t :=
  match ensureTable m with
  | (Err e, m) => (Err e, m)
  | (Ok _, m) => match sql_files listing with
                 | [] => apply_embedded m schema.allMigrations now
                 | files => apply_files m files now
                 end
  end.
End S.
Arguments t : clear implicits.
End MigrationRunner.

(** * A migration is one transaction *)
Section Transaction.
Notation M := (MigrationRunner.t TraceDb.t).

Lemma execute_all_trace l (d : TraceDb.t) :
  TraceDb.up d = true ->
  let '(r, d') := MigrationRunner.execute_all l d in
  TraceDb.up d' = true /\ TraceDb.answers d' = TraceDb.answers d /\
  match r with
  | Ok _ => TraceDb.log d' = TraceDb.log d ++ l
  | Err _ => exists k, (k < length l)%nat /\ TraceDb.log d' = TraceDb.log d ++ take (S k) l
  end.
Proof.
  revert d. induction l as [|sql l IH]; intros d Hup; simpl; [by rewrite app_nil_r|].
  rewrite TraceDb.execute_up by done. destruct (TraceDb.answers d _ sql).
  - set (d1 := d <| TraceDb.log ::= _ |>). specialize (IH d1 Hup).
    destruct (MigrationRunner.execute_all l d1) as [[u|e] d']; destruct IH as (? & ? & Hl).
    + split_and!; [done..|]. rewrite Hl. unfold d1. simpl. by rewrite <-(assoc (++)).
    + split_and!; [done..|]. destruct Hl as (k & Hk & ->). exists (S k). split; [lia|]. unfold d1. simpl.
      by rewrite <-(assoc (++)).
  - split_and!; [done..|]. exists 0%nat. split; [lia|]. by rewrite take_0.
Qed.

(** Remark: once its [BEGIN] is accepted, a migration runs as one transaction: either every
    statement and the record of the migration are executed in order, then [COMMIT], and the
    migration counts as applied; or the statements up to the first refused one, then
    [ROLLBACK], and it does not. *)
Theorem migration_transaction (m : M) (id sql : string) (now : Z) :
  TraceDb.up (MigrationRunner.db m) = true ->
  TraceDb.answers (MigrationRunner.db m) (length (TraceDb.log (MigrationRunner.db m))) "BEGIN" = true ->
  let '(r, m') := MigrationRunner.applySql m id sql now in
  let steps := MigrationRunner.statements sql ++ [MigrationRunner.record_sql] in
  match r with
  | Ok _ => TraceDb.log (MigrationRunner.db m') = TraceDb.log (MigrationRunner.db m) ++ "BEGIN" :: steps ++ ["COMMIT"] /\
            MigrationRunner.applied m' = bump (MigrationRunner.applied m)
  | Err _ => exists k, (k < length steps)%nat /\
      TraceDb.log (MigrationRunner.db m') = TraceDb.log (MigrationRunner.db m) ++ "BEGIN" :: take (S k) steps ++ ["ROLLBACK"] /\
      MigrationRunner.applied m' = MigrationRunner.applied m
  end.
Proof.
  intros Hup Hb. unfold MigrationRunner.applySql. cbn [db_pg TraceDb.pg db_execute TraceDb.db db_executeParams].
  rewrite TraceDb.execute_up, Hb by done. cbv beta zeta iota.
  set (d1 := (MigrationRunner.db m) <| TraceDb.log ::= _ |>).
  pose proof (execute_all_trace (MigrationRunner.statements sql) d1 Hup) as He.
  destruct (MigrationRunner.execute_all _ d1) as [[u|e] d2]; destruct He as (Hup2 & Ha2 & Hl2).
  - rewrite TraceDb.execute_up by done. destruct (TraceDb.answers d2 _ _).
    + rewrite TraceDb.execute_up by done. simpl. rewrite Hl2. unfold d1. simpl. by rewrite <-!(assoc (++)).
    + rewrite TraceDb.execute_up by done. exists (length (MigrationRunner.statements sql)). simpl. rewrite Hl2, length_app. unfold d1. simpl.
      split_and!; [lia| |done]. rewrite take_ge by (rewrite length_app; simpl; lia). by rewrite <-!(assoc (++)).
  - rewrite TraceDb.execute_up by done. destruct Hl2 as (k & Hk & Hl2). exists k. simpl. rewrite Hl2, length_app. unfold d1. simpl.
    split_and!; [lia| |done]. rewrite take_app_le by lia. by rewrite <-!(assoc (++)).
Qed.
End Transaction.

Definition demo_db (answers : nat -> string -> bool) : MigrationRunner.t TraceDb.t :=
  {| MigrationRunner.db := {| TraceDb.answers := answers; TraceDb.up := true; TraceDb.log := [] |}; MigrationRunner.applied := 0 |}.

Lemma migration_transaction_witness :
  TraceDb.log (MigrationRunner.db (MigrationRunner.applySql (demo_db (fun _ _ => true)) "m" "A; B;
" 5).2) = ["BEGIN"; "A"; "B"; MigrationRunner.record_sql; "COMMIT"].
Proof.
  pose proof (migration_transaction (demo_db (fun _ _ => true)) "m" "A; B;
" 5 eq_refl eq_refl) as H.
  destruct (MigrationRunner.applySql _ _ _ _) as [[u|e] m'] eqn:E; cbv zeta in H.
  - destruct H as [H _]. simpl. rewrite H. reflexivity.
  - vm_compute in E. discriminate E.
Defined.

(** * A shipped migration that cannot be applied

    The cut at semicolons ignores comments, so a comment that contains one is cut in two. *)

(** Nothing but white space and [--] comments: what PostgreSQL answers with
    [PGRES_EMPTY_QUERY]. *)
Fixpoint comment_only (in_comment : bool) (s : string) : bool :=
  match s with
  | EmptyString => true
  | String c s =>
      if decide (c = "010"%char) then comment_only false s
      else if in_comment then comment_only true s
      else if MigrationRunner.is_blank c then comment_only false s
      else match s with
           | String d s => bool_decide (c = "-"%char) && bool_decide (d = "-"%char) && comment_only true s
           | EmptyString => false
           end
  end.

(* @src migrations/0039_feedback_idempotency.sql:1-20 0039_feedback_idempotency *)
Definition feedback_idempotency : string :=
"-- Phase 3: exactly-once feedback + temporal/outbox hardening indexes
-- Aligns with TestingEngine later-schema intent (idempotent feedback).

CREATE UNIQUE INDEX IF NOT EXISTS idx_feedback_events_prediction_unique
  ON feedback_events (prediction_id);

CREATE INDEX IF NOT EXISTS idx_outbox_round_status
  ON notification_outbox (round_id, status);

CREATE INDEX IF NOT EXISTS idx_outbox_pending_available
  ON notification_outbox (status, available_at_ms)
  WHERE status = 'pending';

CREATE INDEX IF NOT EXISTS idx_target_claims_prediction
  ON target_claims (prediction_id);

-- Optional provenance columns for ACIE (nullable; safe additive)
ALTER TABLE predictions ADD COLUMN IF NOT EXISTS provenance TEXT;
ALTER TABLE predictions ADD COLUMN IF NOT EXISTS strategy_mode TEXT;
ALTER TABLE predictions ADD COLUMN IF NOT EXISTS required_probability DOUBLE PRECISION;
".

Definition feedback_idempotency_id : string := "0039_feedback_idempotency.sql".

Section Shipped.
Context {D : Type} `{!Database D} `{!PgOps D}.

(** Documented behaviour of [PQexec]: no command in the string is not [PGRES_COMMAND_OK]. *)
Hypothesis empty_query_refused : forall sql (d : D), comment_only false sql = true -> is_ok (db_execute sql d).1 = false.
(** The migration is not recorded. *)
Hypothesis not_recorded : forall m : MigrationRunner.t D, (MigrationRunner.isApplied m feedback_idempotency_id).1 = false.

Lemma execute_all_refused l sql (d : D) :
  sql ∈ l -> comment_only false sql = true -> is_ok (MigrationRunner.execute_all l d).1 = false.
Proof.
  intros Hin Hc. revert d. induction l as [|x l IH]; intros d; [by apply not_elem_of_nil in Hin|].
  simpl. destruct (db_execute x d) as [[u|e] d'] eqn:E; [|done]. apply elem_of_cons in Hin as [->|Hin]; [|by apply IH].
  pose proof (empty_query_refused x d Hc) as H. by rewrite E in H.
Qed.

Lemma feedback_idempotency_refused (m : MigrationRunner.t D) id now :
  is_ok (MigrationRunner.applySql m id feedback_idempotency now).1 = false.
Proof.
  assert (exists sql, sql ∈ MigrationRunner.statements feedback_idempotency /\ comment_only false sql = true) as (sql & Hin & Hc).
  { exists "-- Optional provenance columns for ACIE (nullable". split; [|by vm_compute].
    apply list_elem_of_lookup. exists 4%nat. by vm_compute. }
  unfold MigrationRunner.applySql.
  pose proof (execute_all_refused (MigrationRunner.statements feedback_idempotency) sql) as Hr.
  destruct (@db_pg D _).
  - destruct (db_execute _ _) as [[u|e] d]; [|done]. specialize (Hr d Hin Hc). by destruct (MigrationRunner.execute_all _ _) as [[?|?] ?].
  - specialize (Hr (MigrationRunner.db m) Hin Hc). by destruct (MigrationRunner.execute_all _ _) as [[?|?] ?].
Qed.

(** C33: the migrations of the repository never complete: the text of number 0039 has a
    semicolon inside a comment, so one of its statements is a bare comment, which the server
    does not answer with success; whatever else is in the directory, [applyAll] fails, on
    every start, as long as that migration is not recorded as applied. *)
Theorem migrations_never_complete (m : MigrationRunner.t D) (listing : list (string * option string)) (now : Z) :
  (feedback_idempotency_id, Some feedback_idempotency) ∈ listing ->
  is_ok (MigrationRunner.applyAll m listing now).1 = false.
Proof.
  intros Hin. unfold MigrationRunner.applyAll. destruct (MigrationRunner.ensureTable m) as [[u|e] m0]; [|done].
  assert ((feedback_idempotency_id, Some feedback_idempotency) ∈ MigrationRunner.sql_files listing) as Hf.
  { unfold MigrationRunner.sql_files. rewrite merge_sort_Permutation. apply list_elem_of_filter. by split. }
  assert (forall files m, (feedback_idempotency_id, Some feedback_idempotency) ∈ files ->
    is_ok (MigrationRunner.apply_files m files now).1 = false) as Hall.
  { clear -not_recorded empty_query_refused. induction files as [|[id text] files IH]; intros m Hin; [by apply not_elem_of_nil in Hin|].
    cbn [MigrationRunner.apply_files]. apply elem_of_cons in Hin as [Heq|Hin].
    - injection Heq as <- <-. pose proof (not_recorded m) as Hn. destruct (MigrationRunner.isApplied m _) as [b m1]. simpl in Hn. subst b.
      pose proof (feedback_idempotency_refused m1 feedback_idempotency_id now) as Hr.
      by destruct (MigrationRunner.applySql m1 _ _ _) as [[?|?] ?].
    - destruct (MigrationRunner.isApplied m id) as [[] m1]; [by apply IH|]. destruct text as [sql|]; [|done].
      destruct (MigrationRunner.applySql m1 id sql now) as [[?|?] m2]; [by apply IH|done]. }
  destruct (MigrationRunner.sql_files listing) as [|f files] eqn:Ef; [by apply not_elem_of_nil in Hf|]. by apply Hall.
Qed.
End Shipped.

(** A connected server that refuses comments and accepts the rest. *)
Module PgLike.
Definition t : Type := bool * list string.
Definition execute (sql : string) (d : t) : Result unit * t :=
  if d.1 then (if comment_only false sql then Err (err DatabaseError "") else Ok tt, (true, d.2 ++ [sql]))
  else (Err (err DatabaseError "not connected"), d).

#[export, refine] Instance db : Database t := {|
  db_wf := fun _ => True;
  db_connected := fst;
  db_connect := fun d => (Ok tt, (true, d.2));
  db_disconnect := fun d => (false, d.2);
  db_execute := execute;
  db_query := fun _ _ d => (if d.1 then Ok {| rows := []; columns := [] |} else Err (err DatabaseError "not connected"), d) |}.
Proof.
  - done.
  - done.
  - by intros sql [[] l] _.
  - by intros sql params [[] l] _.
Defined.
#[export] Instance pg : PgOps t := {| db_pg := true; db_executeParams := fun sql _ d => execute sql d |}.
End PgLike.
#[export] Existing Instances PgLike.db PgLike.pg.

Lemma migrations_never_complete_witness :
  is_ok (MigrationRunner.applyAll {| MigrationRunner.db := (true, []) : PgLike.t; MigrationRunner.applied := 0 |}
    [("README.md", None); (feedback_idempotency_id, Some feedback_idempotency)] 5).1 = false.
Proof.
  apply (migrations_never_complete (D := PgLike.t)).
  - intros sql [[] l] H; [|reflexivity]. unfold db_execute, PgLike.db, PgLike.execute. cbn [fst]. by rewrite H.
  - intros [[[] l] n]; reflexivity.
  - right. by left.
Defined.
