(* ===== verification/Validation.v ===== *)
(** What happens when a round ends: [OutcomeMatcher], [Validator], [LiveValidator] and
    [StuckRecovery] ([include/validation/outcome_matcher.hpp], [validator.hpp],
    [live_validator.hpp], [stuck_recovery.hpp]), over the prediction registry and the
    feedback dispatcher.  [C] is the state of the program the handlers act on. *)
From S2P Require Import Prelude Float64 Types Queues Timing Windows Registry Feedback.

Notation Registry := PredictionRegistry.t.

(** [endEvent.roundId.empty() ? endEvent.gameId : endEvent.roundId] *)
Definition round_of (e : CrashEvent) : string := if str_empty (roundId e) then gameId e else roundId e.

(** * [OutcomeMatcher] *)
Module OutcomeMatcher.

(* @src include/validation/outcome_matcher.hpp:44-47 OutcomeMatcher *)
Record t := {
  tracker : option LatencyTracker.t;
  stats : WinLossStats.t;
  matched : Z;
  unmatched_ends : Z;
  voids : Z;
  stales : Z
}.
#[export] Instance eta_t : Eta t := fun r =>
  {| tracker := tracker r; stats := stats r; matched := matched r;
     unmatched_ends := unmatched_ends r; voids := voids r; stales := stales r |}.

(* @src include/validation/outcome_matcher.hpp | explicit OutcomeMatcher( *)
Definition make (tr : option LatencyTracker.t) : t := {|
  tracker := tr; stats := WinLossStats.empty; matched := 0; unmatched_ends := 0; voids := 0; stales := 0 |}.

Section S.
Context {C : Type}.
Variable handler : Outcome -> C -> C.

(** One iteration of the loop over the predictions of the round. *)
(* @src include/validation/outcome_matcher.hpp:25-31 OutcomeMatcher::match *)
Definition count_outcome (m : t) (p : PredictionEvent) (o : Outcome) : t :=
  (match oc_result o with
   | Void => m <| voids ::= bump |>
   | Stale => m <| stales ::= bump |>
   | _ => m <| stats ::= fun s => WinLossStats.record s o (pe_confidence p) |>
   end) <| matched ::= bump |>.

(** [now i] is the wall clock when the [i]-th prediction is resolved. *)
(* @src include/validation/outcome_matcher.hpp:24-31 OutcomeMatcher::match *)
Fixpoint match_all (now : nat -> Z) (mult : double) (preds : list PredictionEvent) (m : t) (c : C)
    : list Outcome * t * C :=
  match preds with
  | [] => ([], m, c)
  | p :: preds =>
      let o := makeOutcome p mult (now 0%nat) in
      let '(os, m, c) := match_all (fun i => now (S i)) mult preds (count_outcome m p o) (handler o c) in
      (o :: os, m, c)
  end.

(* @src include/validation/outcome_matcher.hpp | std::vector<Outcome> match( *)
Definition match_end (m : t) (reg : Registry) (e : CrashEvent) (now : nat -> Z) (t0 t1 : Z) (c : C)
    : list Outcome * t * Registry * C :=
  if negb (bool_decide (kind e = KEnd)) || negb (valid e) then ([], m, reg, c)
  else
    let '(preds, reg) := PredictionRegistry.takeForRound reg (round_of e) in
    let '(results, m, c) := match_all now (crashPoint e) preds m c in
    let m := match preds with [] => m <| unmatched_ends ::= bump |> | _ => m end in
    let m := m <| tracker ::= fmap (fun tr =>
               LatencyTracker.record tr LatencyTracker.SValidation (Z.quot (t1 - t0) 1000)) |> in
    (results, m, reg, c).

Lemma match_all_spec mult preds : forall now m c,
  let '(os, m', c') := match_all now mult preds m c in
  os = imap (fun i p => makeOutcome p mult (now i)) preds /\
  c' = fold_left (fun c o => handler o c) os c.
Proof.
  induction preds as [|p preds IH]; intros now m c; simpl; [done|].
  specialize (IH (fun i => now (S i)) (count_outcome m p (makeOutcome p mult (now 0%nat)))
                 (handler (makeOutcome p mult (now 0%nat)) c)).
  destruct (match_all _ _ _ _ _) as [[os m'] c']. destruct IH as [-> ->]. done.
Qed.
End S.
End OutcomeMatcher.

(** * [Validator] *)
Module Validator.
Section S.
Context {Q C : Type} `{!BoundedFifo Q Outcome}.

(* @src include/validation/validator.hpp:43-47 Validator *)
Record t := { registry : Registry; matcher : OutcomeMatcher.t; feedback : FeedbackDispatcher.t Q C }.
#[export] Instance eta_t : Eta t := fun r =>
  {| registry := registry r; matcher := matcher r; feedback := feedback r |}.

(* @src include/validation/validator.hpp | Result<void> onPrediction( *)
Definition onPrediction (v : t) (ev : PredictionEvent) : Result unit * t :=
  let '(res, reg) := PredictionRegistry.registerPrediction (registry v) ev in
  (res, v <| registry := reg |>).

(** The matcher's handler dispatches to the feedback queue. *)
(* @src include/validation/validator.hpp:22-32 Validator::onRoundEnd *)
Definition onRoundEnd (v : t) (e : CrashEvent) (now : nat -> Z) (t0 t1 : Z) (c : C)
    : list Outcome * t * C :=
  let '(os, m, reg, (fb, c)) :=
    OutcomeMatcher.match_end (fun o fc => FeedbackDispatcher.dispatch fc.1 o fc.2)
      (matcher v) (registry v) e now t0 t1 (feedback v, c) in
  (os, {| registry := reg; matcher := m; feedback := fb |}, c).

(* @src include/validation/validator.hpp | std::size_t expireStale( *)
Definition expireStale (v : t) (maxAgeMs now : Z) : nat * t :=
  let '(n, reg) := PredictionRegistry.expireStale (registry v) maxAgeMs now in
  (n, v <| registry := reg |>).
End S.
End Validator.

(** * [StuckRecovery] *)
Module StuckRecovery.
(* @src include/validation/stuck_recovery.hpp:35-38 StuckRecovery *)
Record t := { max_age_ms : Z; recovered : Z }.

(** The handler for expired predictions is stored and never called. *)
(* @src include/validation/stuck_recovery.hpp | std::size_t scan() *)
Definition scan (s : t) (reg : Registry) (now : Z) : nat * t * Registry :=
  let '(n, reg) := PredictionRegistry.expireStale reg (max_age_ms s) now in
  (n, {| max_age_ms := max_age_ms s; recovered := u64 (recovered s + Z.of_nat n) |}, reg).
End StuckRecovery.

(** * [LiveValidator] *)
Module LiveValidator.
Section S.
Context {Q C : Type} `{!BoundedFifo Q Outcome}.

(* @src include/validation/live_validator.hpp | enum class ValidateKind : *)
Inductive ValidateKind := Matched | NoPending | BgArrivedLate | DuplicateEnd | Invalid.

(* @src include/validation/live_validator.hpp | struct ValidateGameEndResult { *)
Record ValidateGameEndResult := {
  vr_kind : ValidateKind; vr_outcomes : list Outcome; vr_gameId : string; vr_detail : string }.

(** [resolved] is [resolved_order_] with the keys of [resolved_map_]. *)
(* @src include/validation/live_validator.hpp:165-180 LiveValidator *)
Record t := {
  registry : Registry;
  matcher : OutcomeMatcher.t;
  feedback : FeedbackDispatcher.t Q C;
  tracker : option LatencyTracker.t;
  stats : WinLossStats.t;
  resolved_ends : gset string;
  resolved : LruWindow.t;
  late_bg : gset string;
  matched_rounds : Z;
  no_pending : Z;
  duplicate_ends : Z;
  late_bg_count : Z
}.
#[export] Instance eta_t : Eta t := fun r =>
  {| registry := registry r; matcher := matcher r; feedback := feedback r; tracker := tracker r;
     stats := stats r; resolved_ends := resolved_ends r; resolved := resolved r;
     late_bg := late_bg r; matched_rounds := matched_rounds r; no_pending := no_pending r;
     duplicate_ends := duplicate_ends r; late_bg_count := late_bg_count r |}.

(** [reg] is the registry built by the initialiser [registry_()], [PredictionRegistry.make 10000]. *)
(* @src include/validation/live_validator.hpp | explicit LiveValidator( *)
Definition make (reg : Registry) (fb : FeedbackDispatcher.t Q C) (tr : option LatencyTracker.t) : t := {|
  registry := reg; matcher := OutcomeMatcher.make tr; feedback := fb; tracker := tr;
  stats := WinLossStats.empty; resolved_ends := ∅; resolved := LruWindow.make; late_bg := ∅;
  matched_rounds := 0; no_pending := 0; duplicate_ends := 0; late_bg_count := 0 |}.

(* @src include/validation/live_validator.hpp | Result<void> registerPrediction( *)
Definition registerPrediction (v : t) (ev : PredictionEvent) : Result unit * t :=
  let '(res, reg) := PredictionRegistry.registerPrediction (registry v) ev in
  (res, v <| registry := reg |>).

Definition RESOLVED_LIMIT : nat := Z.to_nat 5000.

(** [while (resolved_map_.size() > 5000)]: the oldest id leaves the three containers. *)
(* @src include/validation/live_validator.hpp:100-104 LiveValidator::onGameEnd *)
Fixpoint forget (fuel : nat) (w : LruWindow.t) (ends : gset string) : LruWindow.t * gset string :=
  match fuel with
  | O => (w, ends)
  | S fuel =>
      if (RESOLVED_LIMIT <? size (LruWindow.keys w))%nat then
        match LruWindow.order w with
        | oldest :: rest =>
            forget fuel {| LruWindow.order := rest; LruWindow.keys := LruWindow.keys w ∖ {[ oldest ]} |}
              (ends ∖ {[ oldest ]})
        | [] => (w, ends)
        end
      else (w, ends)
  end.

(** The critical section: [None] for a duplicate end. *)
(* @src include/validation/live_validator.hpp:87-107 LiveValidator::onGameEnd *)
Definition note_end (v : t) (gid : string) : option t :=
  if decide (gid ∈ resolved_ends v) then None
  else
    let w := resolved v in
    let '(w, ends) :=
      if decide (gid ∈ LruWindow.keys w) then
        ({| LruWindow.order := filter (fun k => k <> gid) (LruWindow.order w) ++ [gid];
            LruWindow.keys := LruWindow.keys w |}, resolved_ends v)
      else
        forget (S (length (LruWindow.order w)))
          {| LruWindow.order := LruWindow.order w ++ [gid]; LruWindow.keys := {[ gid ]} ∪ LruWindow.keys w |}
          (resolved_ends v) in
    Some (v <| resolved := w |> <| resolved_ends := {[ gid ]} ∪ ends |>).

(** [on_outcome] and [on_next] are the optional hooks; the next-round hook may call back into
    the validator (the N+1 coordinator registers its prediction there), and an exception it
    throws is swallowed after its effects. *)
Variable on_outcome : Outcome -> C -> C.
Variable on_next : string -> double -> t * C -> t * C.

(* @src include/validation/live_validator.hpp:52-54 LiveValidator *)
Definition handle (o : Outcome) (fc : FeedbackDispatcher.t Q C * C) : FeedbackDispatcher.t Q C * C :=
  let '(fb, c) := FeedbackDispatcher.dispatch fc.1 o fc.2 in (fb, on_outcome o c).

(** Matching and counting, after the critical section. *)
(* @src include/validation/live_validator.hpp:110-121 LiveValidator::onGameEnd *)
Definition resolve (v : t) (e : CrashEvent) (gid : string) (now : nat -> Z) (t0 t1 : Z) (c : C)
    : ValidateGameEndResult * t * C :=
  let '(os, m, reg, (fb, c)) :=
    OutcomeMatcher.match_end handle (matcher v) (registry v) e now t0 t1 (feedback v, c) in
  let v := v <| matcher := m |> <| registry := reg |> <| feedback := fb |> in
  match os with
  | [] => ({| vr_kind := NoPending; vr_outcomes := []; vr_gameId := gid; vr_detail := "no pending prediction" |},
           v <| no_pending ::= bump |>, c)
  | _ => ({| vr_kind := Matched; vr_outcomes := os; vr_gameId := gid; vr_detail := "" |},
          v <| stats ::= fun s => fold_left (fun s o => WinLossStats.record s o f0) os s |>
            <| matched_rounds ::= bump |>, c)
  end.

(** [t0], [t3] are read at entry and exit, [t1], [t2] around the matching. *)
(* @src include/validation/live_validator.hpp | ValidateGameEndResult onGameEnd( *)
Definition onGameEnd (v : t) (e : CrashEvent) (now : nat -> Z) (t0 t1 t2 t3 : Z) (c : C)
    : ValidateGameEndResult * t * C :=
  if negb (bool_decide (kind e = KEnd)) || negb (valid e) then
    ({| vr_kind := Invalid; vr_outcomes := []; vr_gameId := ""; vr_detail := "not a valid end event" |}, v, c)
  else
    let gid := round_of e in
    if str_empty gid then
      ({| vr_kind := Invalid; vr_outcomes := []; vr_gameId := gid; vr_detail := "missing gameId" |}, v, c)
    else
      match note_end v gid with
      | None =>
          ({| vr_kind := DuplicateEnd; vr_outcomes := []; vr_gameId := gid; vr_detail := "duplicate end" |},
           v <| duplicate_ends ::= bump |>, c)
      | Some v =>
          let '(res, v, c) := resolve v e gid now t1 t2 c in
          let '(v, c) := on_next gid (crashPoint e) (v, c) in
          (res, v <| tracker ::= fmap (fun tr =>
                  LatencyTracker.record tr LatencyTracker.SValidation (Z.quot (t3 - t0) 1000)) |>, c)
      end.

(* @src include/validation/live_validator.hpp | void noteBgArrivedLate( *)
Definition noteBgArrivedLate (v : t) (gid : string) : t :=
  v <| late_bg ::= union {[ gid ]} |> <| late_bg_count ::= bump |>.

(* @src include/validation/live_validator.hpp | bool wasBgLate( *)
Definition wasBgLate (v : t) (gid : string) : bool := bool_decide (gid ∈ late_bg v).

(* @src include/validation/live_validator.hpp | std::size_t expireStale( *)
Definition expireStale (v : t) (maxAgeMs now : Z) : nat * t :=
  let '(n, reg) := PredictionRegistry.expireStale (registry v) maxAgeMs now in
  (n, v <| registry := reg |>).

(** ** The window of resolved rounds *)

(** The validator remembers the last 5000 of the resolved rounds [h]. *)
Definition remembers (v : t) (h : list string) : Prop :=
  LruWindow.order (resolved v) = trim_front RESOLVED_LIMIT h /\ LruWindow.wf (resolved v) /\
  resolved_ends v = list_to_set (LruWindow.order (resolved v)).

Lemma forget_spec fuel w ends dropped :
  LruWindow.wf w -> (length (LruWindow.order w) <= fuel)%nat ->
  dropped = take (length (LruWindow.order w) - RESOLVED_LIMIT) (LruWindow.order w) ->
  let '(w', ends') := forget fuel w ends in
  LruWindow.wf w' /\ LruWindow.order w' = trim_front RESOLVED_LIMIT (LruWindow.order w) /\
  ends' = ends ∖ list_to_set dropped.
Proof.
  revert w ends dropped. induction fuel as [|fuel IH]; intros w ends dropped [Hnd Hk] Hf ->; cbn [forget].
  - split_and!; [done| |].
    + destruct (LruWindow.order w); [done|simpl in Hf; lia].
    + destruct (LruWindow.order w); [set_solver|simpl in Hf; lia].
  - rewrite Hk, (size_list_to_set (LruWindow.order w)) by done.
    destruct (Nat.ltb_spec RESOLVED_LIMIT (length (LruWindow.order w))) as [Hlt|Hge].
    + destruct (LruWindow.order w) as [|x o] eqn:Eo; [simpl in Hlt; lia|].
      apply NoDup_cons in Hnd as [Hx Hnd]. cbn [length] in *.
      set (w1 := {| LruWindow.order := o; LruWindow.keys := list_to_set (x :: o) ∖ {[ x ]} |}).
      assert (LruWindow.wf w1) as Hw1.
      { split; simpl; [done|]. apply set_eq. intros y.
        rewrite elem_of_difference, elem_of_union, !elem_of_list_to_set, elem_of_singleton. naive_solver. }
      specialize (IH w1 (ends ∖ {[ x ]}) _ Hw1 ltac:(simpl; lia) eq_refl).
      destruct (forget fuel w1 (ends ∖ {[ x ]})) as [w' ends']. destruct IH as (Hw' & Ho & ->).
      split_and!; [done| |].
      * rewrite Ho. unfold trim_front. cbn [length].
        by replace (S (length o) - RESOLVED_LIMIT)%nat with (S (length o - RESOLVED_LIMIT)) by lia.
      * replace (S (length o) - RESOLVED_LIMIT)%nat with (S (length o - RESOLVED_LIMIT)) by lia.
        simpl. set_solver.
    + split_and!; [by split|by rewrite trim_front_fits|].
      replace (length (LruWindow.order w) - RESOLVED_LIMIT)%nat with 0%nat by lia. set_solver.
Qed.

Lemma note_end_spec v h gid :
  remembers v h ->
  match note_end v gid with
  | None => gid ∈ trim_front RESOLVED_LIMIT h
  | Some v' =>
      gid ∉ trim_front RESOLVED_LIMIT h /\ remembers v' (h ++ [gid]) /\
      registry v' = registry v /\ matcher v' = matcher v /\ feedback v' = feedback v
  end.
Proof.
  intros (Ho & [Hnd Hk] & He). unfold note_end. rewrite He, Hk.
  destruct (decide (gid ∈ _)) as [Hin|Hni]; [by rewrite elem_of_list_to_set, Ho in Hin|].
  pose proof Hni as Hni'. rewrite elem_of_list_to_set in Hni.
  set (w1 := {| LruWindow.order := _; LruWindow.keys := {[ gid ]} ∪ _ |}).
  assert (LruWindow.wf w1) as Hw1.
  { split; simpl.
    - apply list.NoDup_app. split_and!; [done| |apply NoDup_singleton]. by intros x Hx ->%list_elem_of_singleton.
    - rewrite list_to_set_app_L. set_solver. }
  pose proof (forget_spec (S (length (LruWindow.order (resolved v)))) w1
    (list_to_set (LruWindow.order (resolved v))) _ Hw1
    ltac:(simpl; rewrite length_app; simpl; lia) eq_refl) as Hf.
  destruct (forget _ w1 _) as [w' ends']. destruct Hf as (Hw' & Ho' & ->). simpl in Ho'.
  split; [by rewrite <-Ho|]. split_and!; try done; simpl.
  - unfold remembers; simpl. split_and!; [|done|].
    + rewrite Ho', Ho. apply push_window_trim.
    + rewrite Ho'. unfold w1; simpl. set (o := LruWindow.order (resolved v)) in *.
      assert (length o <= RESOLVED_LIMIT)%nat as Hlen by (rewrite Ho, length_trim_front; lia).
      unfold trim_front. rewrite length_app. cbn [length].
      set (n := (length o + 1 - RESOLVED_LIMIT)%nat).
      assert (n <= length o)%nat as Hn by (unfold n, RESOLVED_LIMIT in *; lia).
      rewrite take_app_le, drop_app_le by done. rewrite list_to_set_app_L.
      assert (o = take n o ++ drop n o) as Hsplit by by rewrite take_drop.
      rewrite Hsplit in Hnd. apply list.NoDup_app in Hnd as (_ & Hdisj & _).
      apply set_eq. intros x.
      rewrite !elem_of_union, elem_of_difference, elem_of_singleton, !elem_of_list_to_set, list_elem_of_singleton.
      rewrite Hsplit at 1. rewrite elem_of_app. specialize (Hdisj x). tauto.
Qed.

(** The part of a validator that remembers resolved rounds. *)
Definition window (v : t) : LruWindow.t * gset string := (resolved v, resolved_ends v).

Lemma remembers_window v v' h : window v' = window v -> remembers v h -> remembers v' h.
Proof. unfold window, remembers. by intros [= -> ->]. Qed.

Lemma resolve_spec v e gid now t0 t1 c :
  kind e = KEnd -> valid e = true -> gid = round_of e ->
  let preds := default [] (PredictionRegistry.by_round (registry v) !! gid) in
  let '(res, v', c') := resolve v e gid now t0 t1 c in
  vr_outcomes res = imap (fun i p => makeOutcome p (crashPoint e) (now i)) preds /\
  vr_kind res = (match preds with [] => NoPending | _ => Matched end) /\
  (feedback v', c') = fold_left (fun fc o => handle o fc) (vr_outcomes res) (feedback v, c) /\
  registry v' = snd (PredictionRegistry.takeForRound (registry v) gid) /\ window v' = window v.
Proof.
  intros Hk Hv -> preds. unfold resolve, OutcomeMatcher.match_end.
  rewrite Hv, bool_decide_eq_true_2 by done. simpl.
  assert (exists reg', PredictionRegistry.takeForRound (registry v) (round_of e) = (preds, reg')) as [reg' Ht].
  { unfold PredictionRegistry.takeForRound, preds. destruct (_ !! _); eauto. }
  rewrite Ht. simpl. clearbody preds. clear Ht.
  pose proof (OutcomeMatcher.match_all_spec handle (crashPoint e) preds now (matcher v) (feedback v, c)) as H.
  destruct (OutcomeMatcher.match_all _ _ _ _ _ _) as [[os m] [fb c1]]. destruct H as [-> Hc].
  destruct preds as [|p preds]; simpl in *; [by simplify_eq|]. done.
Qed.

(** C19: a valid end event of a round is resolved exactly once while the round is among the
    last 5000 resolved ones: the first end turns every pending prediction of the round into
    its outcome, in registration order, hands each to the feedback queue and the outcome
    handler, removes them from the registry and then triggers the next round; a repeated end
    changes nothing but its counter and triggers nothing. *)
Theorem game_end_resolves_once (v : t) (h : list string) (e : CrashEvent) (now : nat -> Z)
    (t0 t1 t2 t3 : Z) (c : C) :
  (forall gid m s, window (fst (on_next gid m s)) = window (fst s)) ->
  remembers v h -> kind e = KEnd -> valid e = true -> round_of e <> EmptyString ->
  let gid := round_of e in
  let preds := default [] (PredictionRegistry.by_round (registry v) !! gid) in
  let '(res, v', c') := onGameEnd v e now t0 t1 t2 t3 c in
  vr_gameId res = gid /\
  if decide (gid ∈ trim_front RESOLVED_LIMIT h) then
    vr_kind res = DuplicateEnd /\ vr_outcomes res = [] /\ c' = c /\ remembers v' h /\
    v' = v <| duplicate_ends ::= bump |>
  else
    remembers v' (h ++ [gid]) /\
    vr_kind res = (match preds with [] => NoPending | _ => Matched end) /\
    vr_outcomes res = imap (fun i p => makeOutcome p (crashPoint e) (now i)) preds /\
    exists v1 c1,
      (feedback v1, c1) = fold_left (fun fc o => handle o fc) (vr_outcomes res) (feedback v, c) /\
      registry v1 = snd (PredictionRegistry.takeForRound (registry v) gid) /\
      c' = snd (on_next gid (crashPoint e) (v1, c1)) /\
      registry v' = registry (fst (on_next gid (crashPoint e) (v1, c1))).
Proof.
  intros Hnext Hr Hk Hv Hne gid preds. unfold onGameEnd. rewrite Hv, bool_decide_eq_true_2 by done. simpl.
  apply str_empty_false in Hne. fold gid in Hne |- *. rewrite Hne.
  pose proof (note_end_spec v h gid Hr) as Hn. destruct (note_end v gid) as [v0|].
  2:{ rewrite decide_True by done. by split_and!. }
  destruct Hn as (Hni & Hr0 & Hreg & Hm & Hf).
  pose proof (resolve_spec v0 e gid now t1 t2 c Hk Hv eq_refl) as Hres. rewrite Hreg, Hf in Hres.
  assert (forall r v' c', resolve v0 e gid now t1 t2 c = (r, v', c') -> vr_gameId r = gid) as Hid.
  { intros r v' c'. unfold resolve. destruct (OutcomeMatcher.match_end _ _ _ _ _ _ _ _) as [[[[|? ?] ?] ?] [? ?]];
      intros; by simplify_eq/=. }
  destruct (resolve v0 e gid now t1 t2 c) as [[res v1] c1]. specialize (Hid _ _ _ eq_refl).
  destruct Hres as (Ho & Hkind & Hc & Hreg1 & Hw).
  pose proof (Hnext gid (crashPoint e) (v1, c1)) as Hw2.
  destruct (on_next gid (crashPoint e) (v1, c1)) as [v2 c2] eqn:En. simpl in Hw2.
  split; [done|]. rewrite decide_False by done. split_and!; try done.
  - eapply remembers_window; [|exact Hr0]. transitivity (window v2); [done|]. by rewrite Hw2, Hw.
  - exists v1, c1. rewrite En. by split_and!.
Qed.

(** The memory and the registry after an end event, for a hook that does nothing. *)
Lemma game_end_memory (v : t) (h : list string) (e : CrashEvent) (now : nat -> Z) (t0 t1 t2 t3 : Z) (c : C) :
  (forall gid m s, on_next gid m s = s) ->
  remembers v h -> kind e = KEnd -> valid e = true -> round_of e <> EmptyString ->
  let dup := bool_decide (round_of e ∈ trim_front RESOLVED_LIMIT h) in
  let v' := snd (fst (onGameEnd v e now t0 t1 t2 t3 c)) in
  remembers v' (if dup then h else h ++ [round_of e]) /\
  registry v' = (if dup then registry v else snd (PredictionRegistry.takeForRound (registry v) (round_of e))).
Proof.
  intros Hnext Hr Hk Hv Hne dup. unfold onGameEnd. rewrite Hv, bool_decide_eq_true_2 by done. simpl.
  apply str_empty_false in Hne. rewrite Hne.
  pose proof (note_end_spec v h (round_of e) Hr) as Hn. destruct (note_end v (round_of e)) as [v0|].
  2:{ unfold dup. rewrite bool_decide_eq_true_2 by done. by split. }
  destruct Hn as (Hni & Hr0 & Hreg & _). unfold dup. rewrite bool_decide_eq_false_2 by done.
  pose proof (resolve_spec v0 e (round_of e) now t1 t2 c Hk Hv eq_refl) as Hres. rewrite Hreg in Hres.
  destruct (resolve v0 e (round_of e) now t1 t2 c) as [[res v1] c1].
  destruct Hres as (_ & _ & _ & Hreg1 & Hw). rewrite Hnext. simpl.
  split; [|done]. by eapply remembers_window.
Qed.

Lemma remembers_make reg fb tr : remembers (make reg fb tr) [].
Proof. split_and!; [done|split; [apply NoDup_nil_2|done]|done]. Qed.
End S.
Arguments t : clear implicits.
End LiveValidator.

(** A validator with one pending prediction of round ["r"]. *)
Definition demo_validator : LiveValidator.t (BoundedQueue.t Outcome) (list Outcome) :=
  LiveValidator.make
    (snd (PredictionRegistry.registerPrediction (PredictionRegistry.make 10) (sample_prediction "p" "r" 1)))
    (FeedbackDispatcher.make (BoundedQueue.make 8)) None.

Definition demo_end : CrashEvent :=
  default_event <| kind := KEnd |> <| gameId := "r" |> <| valid := true |> <| crashPoint := of_Z 3 |>.

Lemma game_end_resolves_once_witness :
  let '(res, v', c') := LiveValidator.onGameEnd (fun o c => o :: c) (fun _ _ s => s)
    demo_validator demo_end (fun _ => 9) 1 2 3 4 [] in
  LiveValidator.vr_kind res = LiveValidator.Matched /\ length c' = 1%nat /\
  LiveValidator.remembers v' ["r"].
Proof.
  pose proof (LiveValidator.game_end_resolves_once (fun o c => o :: c) (fun _ _ s => s) demo_validator []
    demo_end (fun _ => 9) 1 2 3 4 [] (fun _ _ _ => eq_refl)
    (LiveValidator.remembers_make _ _ _) eq_refl eq_refl ltac:(discriminate)) as H.
  destruct (LiveValidator.onGameEnd _ _ _ _ _ _ _ _ _ _) as [[res v'] c'] eqn:E.
  destruct H as (_ & H). vm_compute in E. injection E as <- <- <-.
  rewrite decide_False in H by apply not_elem_of_nil.
  split; [reflexivity|]. split; [reflexivity|]. exact (proj1 H).
Defined.
