(* ===== verification/Attempts.v ===== *)
(** Which prediction attempt may still complete: [GenerationFence] and [GlobalEpoch]
    ([include/validation/fencing.hpp]), [PredictionAttemptCoordinator]
    ([include/prediction_interface/prediction_attempt.hpp]) and [TargetCoordinator]
    ([target_coordinator.hpp]). *)
From stdpp Require Import sorting.
From S2P Require Import Prelude Float64 Types Timing.

(** * Fences *)
Module GenerationFence.

Notation t := (gmap string Z).

(* @src include/validation/fencing.hpp | std::uint64_t bump(const *)
Definition bump (f : t) (key : string) : Z * t :=
  let g := Prelude.bump (default 0 (f !! key)) in (g, <[key := g]> f).

(* @src include/validation/fencing.hpp | std::uint64_t current( *)
Definition current (f : t) (key : string) : Z := default 0 (f !! key).

(* @src include/validation/fencing.hpp | bool isCurrent(const *)
Definition isCurrent (f : t) (key : string) (generation : Z) : bool := current f key =? generation.

(* @src include/validation/fencing.hpp | void clear( *)
Definition clear (f : t) (key : string) : t := delete key f.

Lemma current_bump f key key' :
  current (snd (bump f key)) key' = if decide (key = key') then Prelude.bump (current f key) else current f key'.
Proof.
  unfold current, bump; simpl. case_decide as H; [subst; by rewrite lookup_insert_eq|by rewrite lookup_insert_ne].
Qed.

(** Remark: clearing a key forgets its generations: the attempt opened first before the clear
    and the one opened first after it both count as current. *)
Theorem clear_revives_generations (f : t) (key : string) :
  let f0 := clear f key in
  let '(g1, f1) := bump f0 key in
  let f2 := clear (snd (bump f1 key)) key in
  let '(g2, f3) := bump f2 key in
  isCurrent f3 key g1 = true /\ isCurrent f3 key g2 = true.
Proof.
  unfold isCurrent, current, bump, clear; simpl. rewrite !lookup_insert_eq, !lookup_delete_eq. done.
Qed.
End GenerationFence.

Module GlobalEpoch.
(* @src include/validation/fencing.hpp:46-52 GlobalEpoch *)
Definition t := Z.
Definition make : t := 1.
(* @src include/validation/fencing.hpp:48-48 GlobalEpoch::bump *)
Definition bump (e : t) : Z * t := (Prelude.bump e, Prelude.bump e).
(* @src include/validation/fencing.hpp:50-50 GlobalEpoch::isCurrent *)
Definition isCurrent (e : t) (x : Z) : bool := e =? x.
End GlobalEpoch.

(** * [PredictionAttemptCoordinator] *)
Module PredictionAttemptCoordinator.

(* @src include/prediction_interface/prediction_attempt.hpp | enum class AttemptState : *)
Inductive AttemptState := Idle | InFlight | Completed | TimedOut | Fenced | Failed.
#[export] Instance AttemptState_eq_dec : EqDecision AttemptState.
Proof. solve_decision. Defined.

(* @src include/prediction_interface/prediction_attempt.hpp | struct PredictionAttemptRecord { *)
Record PredictionAttemptRecord := {
  attemptId : string;
  targetRoundId : string;
  correlationId : string;
  generation : Z;
  state : AttemptState;
  startedAtMs : Z;
  completedAtMs : Z;
  response : PredictionResponse;
  error : string
}.
#[export] Instance eta_record : Eta PredictionAttemptRecord := fun r =>
  {| attemptId := attemptId r; targetRoundId := targetRoundId r; correlationId := correlationId r;
     generation := generation r; state := state r; startedAtMs := startedAtMs r;
     completedAtMs := completedAtMs r; response := response r; error := error r |}.

(* @src include/prediction_interface/prediction_attempt.hpp | struct PredictionAttemptRecord { *)
Definition blank : PredictionAttemptRecord := {|
  attemptId := ""; targetRoundId := ""; correlationId := ""; generation := 0; state := Idle;
  startedAtMs := 0; completedAtMs := 0; response := default_response; error := "" |}.

(** The fence is shared by reference; the coordinator is its only writer. *)
(* @src include/prediction_interface/prediction_attempt.hpp:159-167 PredictionAttemptCoordinator *)
Record t := {
  fence : gmap string Z;
  timeout_ms : Z;
  attempts : gmap string PredictionAttemptRecord;
  started : Z;
  completed : Z;
  timeouts : Z;
  fenced : Z;
  failed : Z
}.
#[export] Instance eta_t : Eta t := fun r =>
  {| fence := fence r; timeout_ms := timeout_ms r; attempts := attempts r; started := started r;
     completed := completed r; timeouts := timeouts r; fenced := fenced r; failed := failed r |}.

(* @src include/prediction_interface/prediction_attempt.hpp | explicit PredictionAttemptCoordinator( *)
Definition make (timeoutMs : Z) : t := {|
  fence := ∅; timeout_ms := timeoutMs; attempts := ∅; started := 0; completed := 0; timeouts := 0;
  fenced := 0; failed := 0 |}.

(* @src include/prediction_interface/prediction_attempt.hpp:58-66 PredictionAttemptCoordinator::begin *)
Definition new_record (aid rid : string) (gen now : Z) : PredictionAttemptRecord :=
  blank <| attemptId := aid |> <| targetRoundId := rid |> <| correlationId := aid |>
        <| generation := gen |> <| state := InFlight |> <| startedAtMs := now |>.

(** The part of [begin] before the client is called; [now1] and [now2] are its two readings of
    the clock. *)
(* @src include/prediction_interface/prediction_attempt.hpp:57-70 PredictionAttemptCoordinator::begin *)
Definition open_attempt (s : t) (req : PredictionRequest) (now1 now2 : Z) : string * t :=
  let '(gen, fe) := GenerationFence.bump (fence s) (rq_targetRoundId req) in
  let aid := if str_empty (rq_correlationId req)
             then rq_targetRoundId req +:+ "-" +:+ to_string now1 else rq_correlationId req in
  (aid, s <| fence := fe |> <| attempts ::= insert aid (new_record aid (rq_targetRoundId req) gen now2) |>).

(** The client refused the request. *)
(* @src include/prediction_interface/prediction_attempt.hpp:79-84 PredictionAttemptCoordinator::begin *)
Definition fail_attempt (s : t) (aid : string) (msg : string) (now : Z) : t :=
  let a := default blank (attempts s !! aid) in
  s <| attempts ::= insert aid (a <| state := Failed |> <| error := msg |> <| completedAtMs := now |>) |>
    <| failed ::= bump |>.

Section Begin.
Context {C : Type}.
(** The client's [submit]; its response handler may complete attempts before it returns. *)
Variable submit : PredictionRequest -> t * C -> Result unit * (t * C).

(* @src include/prediction_interface/prediction_attempt.hpp | Result<std::string> begin( *)
Definition begin (s : t) (req : PredictionRequest) (now1 now2 now3 : Z) (c : C) : Result string * (t * C) :=
  let '(aid, s) := open_attempt s req now1 now2 in
  match submit (req <| rq_correlationId := aid |>) (s, c) with
  | (Err e, (s, c)) => (Err e, (fail_attempt s aid (message e) now3, c))
  | (Ok _, (s, c)) => (Ok aid, (s <| started ::= bump |>, c))
  end.
End Begin.

(** The attempt a response is for: by correlation id, else any attempt in flight for its
    round (the first in the order of the hash table). *)
(* @src include/prediction_interface/prediction_attempt.hpp:94-104 PredictionAttemptCoordinator::complete *)
Definition find_attempt (s : t) (resp : PredictionResponse) : option string :=
  match attempts s !! rs_correlationId resp with
  | Some _ => Some (rs_correlationId resp)
  | None =>
      fst <$> List.find (fun p => bool_decide (targetRoundId p.2 = rs_targetRoundId resp) &&
                                 bool_decide (state p.2 = InFlight)) (map_to_list (attempts s))
  end.

(** The record handed to the completion handler is returned with the verdict. *)
(* @src include/prediction_interface/prediction_attempt.hpp | bool completeLocked( *)
Definition completeLocked (s : t) (id : string) (a : PredictionAttemptRecord) (resp : PredictionResponse) (now : Z)
    : bool * option PredictionAttemptRecord * t :=
  if negb (bool_decide (state a = InFlight)) then (false, None, s)
  else if negb (GenerationFence.isCurrent (fence s) (targetRoundId a) (generation a)) then
    let a := a <| state := Fenced |> <| completedAtMs := now |> in
    (false, Some a, s <| attempts ::= insert id a |> <| fenced ::= bump |>)
  else
    let a := a <| response := resp |> <| state := Completed |> <| completedAtMs := now |> in
    (true, Some a, s <| attempts ::= insert id a |> <| completed ::= bump |>).

(* @src include/prediction_interface/prediction_attempt.hpp | bool complete( *)
Definition complete (s : t) (resp : PredictionResponse) (now : Z) : bool * option PredictionAttemptRecord * t :=
  match find_attempt s resp with
  | None => (false, None, s)
  | Some id => match attempts s !! id with
               | None => (false, None, s)
               | Some a => completeLocked s id a resp now
               end
  end.

(** A response to the attempt just opened completes it, and only the first one does. *)
Lemma open_then_complete s req now1 now2 now3 resp :
  str_empty (rq_correlationId req) = false -> rs_correlationId resp = rq_correlationId req ->
  fst (open_attempt s req now1 now2) = rq_correlationId req /\
  let s2 := snd (complete (snd (open_attempt s req now1 now2)) resp now3) in
  started s2 = started s /\ completed s2 = bump (completed s) /\
  forall s3 now4, attempts s3 = attempts s2 -> snd (complete s3 resp now4) = s3.
Proof.
  intros Hne Hr. unfold open_attempt. rewrite Hne. unfold GenerationFence.bump. cbn [fst snd].
  split; [done|]. unfold complete at 1 2 3, find_attempt. cbn [attempts set_field].
  rewrite Hr, !lookup_insert_eq. unfold completeLocked. cbn [state new_record set_field negb].
  unfold GenerationFence.isCurrent, GenerationFence.current. cbn [fence set_field targetRoundId generation new_record].
  rewrite lookup_insert_eq. cbn [default]. unfold id. rewrite Z.eqb_refl. cbn [negb snd].
  split_and!; [done|done|]. intros s3 now4 E. unfold complete, find_attempt. rewrite E, bool_decide_true by done. simpl.
  by rewrite Hr, !lookup_insert_eq.
Qed.

Definition expired (s : t) (now : Z) (a : PredictionAttemptRecord) : bool :=
  bool_decide (state a = InFlight) && (timeout_ms s <? now - startedAtMs a).

(* @src include/prediction_interface/prediction_attempt.hpp | std::size_t expireTimeouts() *)
Definition expireTimeouts (s : t) (now : Z) : list PredictionAttemptRecord * t :=
  let mark a := if expired s now a then a <| state := TimedOut |> <| completedAtMs := now |> else a in
  let done := mark <$> filter (fun a => expired s now a = true) (map_to_list (attempts s)).*2 in
  (done, s <| attempts ::= fmap mark |> <| timeouts ::= fun c => fold_left (fun c _ => bump c) done c |>).

(** ** Every interleaving of the operations

    [log] lists the completions, newest last, as target round and generation. *)
Definition log := list (string * Z).

Inductive step : t * log -> t * log -> Prop :=
| step_open s l req now1 now2 :
    (** a generation counter has 64 bits *)
    GenerationFence.current (fence s) (rq_targetRoundId req) < 2 ^ 64 - 1 ->
    step (s, l) (snd (open_attempt s req now1 now2), l)
| step_fail s l aid msg now :
    is_Some (attempts s !! aid) -> step (s, l) (fail_attempt s aid msg now, l)
| step_complete s l resp now b a s' :
    complete s resp now = (b, a, s') ->
    step (s, l) (s', match b, a with
                     | true, Some a => l ++ [(targetRoundId a, generation a)]
                     | _, _ => l
                     end)
| step_expire s l now : step (s, l) (snd (expireTimeouts s now), l).

Definition inv (sl : t * log) : Prop :=
  let '(s, l) := sl in
  (forall r, 0 <= GenerationFence.current (fence s) r < 2 ^ 64) /\
  (forall id a, attempts s !! id = Some a -> generation a <= GenerationFence.current (fence s) (targetRoundId a)) /\
  (forall id1 id2 a1 a2, attempts s !! id1 = Some a1 -> attempts s !! id2 = Some a2 ->
     targetRoundId a1 = targetRoundId a2 -> generation a1 = generation a2 -> id1 = id2) /\
  (forall r g, (r, g) ∈ l -> g <= GenerationFence.current (fence s) r) /\
  (forall id a, attempts s !! id = Some a -> state a = InFlight -> (targetRoundId a, generation a) ∉ l).

(** The generations completed for a round, oldest first. *)
Definition completions (r : string) (l : log) : list Z :=
  omap (fun p => if decide (p.1 = r) then Some p.2 else None) l.

Lemma completions_snoc r l p :
  completions r (l ++ [p]) = completions r l ++ (if decide (p.1 = r) then [p.2] else []).
Proof. unfold completions. rewrite omap_app. simpl. by case_decide. Qed.

Lemma elem_of_completions r l g : g ∈ completions r l <-> (r, g) ∈ l.
Proof.
  unfold completions. rewrite list_elem_of_omap. split.
  - intros ([r' g'] & H & E). simpl in E. case_decide; by simplify_eq/=.
  - intros H. exists (r, g). simpl. by rewrite decide_True.
Qed.

Definition ordered (l : log) : Prop := forall r, StronglySorted Z.lt (completions r l).

(** Changing the records of a state without touching rounds and generations, and putting
    none in flight. *)
Lemma inv_update s l f s' :
  inv (s, l) -> fence s' = fence s ->
  (forall id, attempts s' !! id = f id <$> attempts s !! id) ->
  (forall id a, attempts s !! id = Some a ->
     targetRoundId (f id a) = targetRoundId a /\ generation (f id a) = generation a /\
     (state (f id a) = InFlight -> state a = InFlight)) ->
  inv (s', l).
Proof.
  intros (H1 & H2 & H3 & H4 & H5) Ef Ea Hf. unfold inv. rewrite Ef. split_and!; [done| | |done|].
  - intros id a'. rewrite Ea. intros (a & Ha & ->)%fmap_Some. destruct (Hf id a Ha) as (-> & -> & _). eauto.
  - intros id1 id2 a1' a2'. rewrite !Ea. intros (a1 & Ha1 & ->)%fmap_Some (a2 & Ha2 & ->)%fmap_Some.
    destruct (Hf id1 a1 Ha1) as (-> & -> & _), (Hf id2 a2 Ha2) as (-> & -> & _). eauto.
  - intros id a'. rewrite Ea. intros (a & Ha & ->)%fmap_Some. destruct (Hf id a Ha) as (-> & -> & Hi). eauto.
Qed.

(** Replacing the record of one attempt that is no longer in flight. *)
Lemma inv_settle s l s' id a a' :
  inv (s, l) -> attempts s !! id = Some a -> fence s' = fence s -> attempts s' = <[id := a']> (attempts s) ->
  targetRoundId a' = targetRoundId a -> generation a' = generation a -> state a' <> InFlight ->
  inv (s', l).
Proof.
  intros Hinv Ha Ef Ea Ht Hg Hs.
  apply (inv_update s l (fun id0 a0 => if decide (id0 = id) then a' else a0) s' Hinv Ef).
  - intros id0. rewrite Ea. case_decide as H; [subst; by rewrite lookup_insert_eq, Ha|].
    rewrite lookup_insert_ne by done. by destruct (attempts s !! id0).
  - intros id0 a0 Ha0. case_decide; [by simplify_eq|by split_and!].
Qed.

Lemma inv_open s l req now1 now2 :
  inv (s, l) -> GenerationFence.current (fence s) (rq_targetRoundId req) < 2 ^ 64 - 1 ->
  inv (snd (open_attempt s req now1 now2), l).
Proof.
  intros (H1 & H2 & H3 & H4 & H5) Hc. set (r0 := rq_targetRoundId req) in *.
  pose proof (H1 r0) as Hr0. pose proof (bump_small _ (conj (proj1 Hr0) Hc)) as Eb.
  unfold open_attempt. fold r0. cbn [GenerationFence.bump].
  set (fe := <[r0 := _]> (fence s)). set (aid := if str_empty _ then _ else _). set (rec_ := new_record _ _ _ _).
  assert (forall r, GenerationFence.current fe r =
            if decide (r0 = r) then GenerationFence.current (fence s) r0 + 1 else GenerationFence.current (fence s) r)
    as Hfe by (intros r; rewrite <-Eb; apply (GenerationFence.current_bump (fence s) r0 r)).
  assert (forall r, GenerationFence.current (fence s) r <= GenerationFence.current fe r) as Hmono.
  { intros r. rewrite Hfe. case_decide; [subst r|]; lia. }
  assert (targetRoundId rec_ = r0 /\ generation rec_ = GenerationFence.current (fence s) r0 + 1) as [Et Eg].
  { split; [done|]. by rewrite <-Eb. }
  assert (forall id a, <[aid := rec_]> (attempts s) !! id = Some a ->
            (id = aid /\ a = rec_) \/ (id <> aid /\ attempts s !! id = Some a)) as Hins.
  { intros id a. rewrite lookup_insert_Some. naive_solver. }
  clearbody fe rec_ aid r0. unfold inv; simpl. split_and!.
  - intros r. rewrite Hfe. case_decide; [lia|apply H1].
  - intros id a [[-> ->]|[_ Ha]]%Hins; [rewrite Et, Eg, Hfe, decide_True by done; lia|].
    etrans; [by eapply H2|apply Hmono].
  - intros id1 id2 a1 a2 [[-> ->]|[_ Ha1]]%Hins [[-> ->]|[_ Ha2]]%Hins Ht Hg; [done| | |by eapply H3].
    + apply H2 in Ha2. rewrite <-Ht, <-Hg, Et, Eg in Ha2. lia.
    + apply H2 in Ha1. rewrite Ht, Hg, Et, Eg in Ha1. lia.
  - intros r g Hl. etrans; [by eapply H4|apply Hmono].
  - intros id a [[-> ->]|[_ Ha]]%Hins Hs; [|by eapply H5]. rewrite Et, Eg. intros Hl%H4. lia.
Qed.

(** A completion is the newest of its round. *)
Lemma inv_complete s l s' id a resp now :
  inv (s, l) -> ordered l -> attempts s !! id = Some a -> state a = InFlight ->
  GenerationFence.isCurrent (fence s) (targetRoundId a) (generation a) = true ->
  fence s' = fence s ->
  attempts s' = <[id := a <| response := resp |> <| state := Completed |> <| completedAtMs := now |>]> (attempts s) ->
  let l' := l ++ [(targetRoundId a, generation a)] in
  inv (s', l') /\ ordered l'.
Proof.
  intros Hinv Hord Ha Hs Hcur Ef Ea l'. unfold GenerationFence.isCurrent in Hcur. bool_to_prop.
  pose proof Hinv as (_ & H2 & H3 & H4 & H5).
  assert (inv (s', l)) as (K1 & K2 & K3 & K4 & K5) by (by eapply inv_settle).
  split.
  - split_and!; [done|done|done| |].
    + intros r g [Hl|[= -> ->]%list_elem_of_singleton]%elem_of_app; [by eapply K4|]. rewrite Ef. lia.
    + intros id' a' Ha' Hs' [Hl|Hl]%elem_of_app; [by eapply K5|]. apply list_elem_of_singleton in Hl as [= Ht Hg].
      rewrite Ea in Ha'. apply lookup_insert_Some in Ha' as [[<- <-]|[Hne Ha']]; [done|].
      apply Hne. symmetry. by eapply (H3 id' id a' a).
  - intros r. unfold l'. rewrite completions_snoc. simpl. case_decide as Hr; [|by rewrite app_nil_r].
    apply StronglySorted_app_2; [|done|repeat constructor].
    intros g g' Hg%elem_of_completions ->%list_elem_of_singleton. subst r.
    pose proof (H4 _ _ Hg) as Hle. pose proof (H5 _ _ Ha Hs).
    destruct (decide (g = generation a)) as [->|]; [done|lia].
Qed.

Lemma attempt_step_inv sl sl' : step sl sl' -> inv sl /\ ordered sl.2 -> inv sl' /\ ordered sl'.2.
Proof.
  intros Hstep [Hinv Hord]. destruct Hstep as [s l req now1 now2 Hc|s l aid msg now [a Ha]|s l resp now b a s' E|s l now].
  - split; [by apply inv_open|done].
  - split; [|done]. eapply (inv_settle s l _ aid); [done|exact Ha|done|unfold fail_attempt; by rewrite Ha|done|done|done].
  - simpl in Hord. unfold complete in E. destruct (find_attempt s resp) as [id|]; [|by simplify_eq].
    destruct (attempts s !! id) as [a0|] eqn:Ha; [|by simplify_eq]. unfold completeLocked in E.
    destruct (bool_decide (state a0 = InFlight)) eqn:Es; simpl in E; [|by simplify_eq].
    apply bool_decide_eq_true_1 in Es.
    destruct (GenerationFence.isCurrent _ _ _) eqn:Ec; simpl in E; injection E as <- <- <-.
    + by eapply (inv_complete s l _ id a0 resp now).
    + split; [|done]. by eapply (inv_settle s l _ id a0).
  - split; [|done].
    apply (inv_update s l (fun _ a => if expired s now a then a <| state := TimedOut |> <| completedAtMs := now |> else a)); [done|done| |].
    + intros id. simpl. by rewrite lookup_fmap.
    + intros id a Ha. by case_match.
Qed.

(** C23: under every interleaving of openings, refusals, responses and timeouts, the
    completions of a round carry strictly increasing generations: an attempt that was
    superseded by a newer one never completes, and no attempt completes twice. *)
Theorem superseded_attempts_never_complete (timeoutMs : Z) (s : t) (l : log) (r : string) :
  rtc step (make timeoutMs, []) (s, l) -> StronglySorted Z.lt (completions r l).
Proof.
  intros H. assert (inv (s, l) /\ ordered (s, l).2) as [_ Ho]; [|by apply Ho].
  remember (make timeoutMs, []) as sl0 eqn:E0. remember (s, l) as sl eqn:E. clear E.
  assert (inv sl0 /\ ordered sl0.2) as Hinit.
  { subst. split; [|intros ?; constructor]. unfold inv, make, GenerationFence.current; simpl.
    split_and!; intros *; rewrite ?lookup_empty; try done. all: by intros ?%not_elem_of_nil. }
  clear E0. induction H; eauto using attempt_step_inv.
Qed.

(** Two attempts for round ["r"]: only the second completes. *)
Definition demo_request (cid : string) : PredictionRequest := {|
  rq_targetRoundId := "r"; rq_gameId := "g"; rq_requestTimeMs := 1; rq_requestNs := 1; rq_sequence := 1;
  rq_currentMult := f1; rq_correlationId := cid |}.
End PredictionAttemptCoordinator.

(** * [TargetCoordinator] *)
Module TargetCoordinator.

(* @src include/prediction_interface/target_coordinator.hpp | enum class TargetState : *)
Inductive TargetState := Available | Claimed | Predicted | Resolved | Expired.
#[export] Instance TargetState_eq_dec : EqDecision TargetState.
Proof. solve_decision. Defined.

(* @src include/prediction_interface/target_coordinator.hpp | struct TargetRecord { *)
Record TargetRecord := {
  roundId : string;
  state : TargetState;
  availableAtMs : Z;
  claimedAtMs : Z;
  resolvedAtMs : Z;
  predictionId : string
}.
#[export] Instance eta_record : Eta TargetRecord := fun r =>
  {| roundId := roundId r; state := state r; availableAtMs := availableAtMs r;
     claimedAtMs := claimedAtMs r; resolvedAtMs := resolvedAtMs r; predictionId := predictionId r |}.

Definition blank : TargetRecord := {|
  roundId := ""; state := Available; availableAtMs := 0; claimedAtMs := 0; resolvedAtMs := 0; predictionId := "" |}.

(* @src include/prediction_interface/target_coordinator.hpp:131-133 TargetCoordinator *)
Record t := { targets : gmap string TargetRecord; claims : Z; resolved : Z; expired : Z; releases : Z }.
#[export] Instance eta_t : Eta t := fun r =>
  {| targets := targets r; claims := claims r; resolved := resolved r; expired := expired r;
     releases := releases r |}.
Definition make : t := {| targets := ∅; claims := 0; resolved := 0; expired := 0; releases := 0 |}.

(* @src include/prediction_interface/target_coordinator.hpp | void noteRoundStart( *)
Definition noteRoundStart (s : t) (id : string) (now : Z) : t :=
  let r := default blank (targets s !! id) in
  s <| targets ::= insert id (r <| roundId := id |> <| state := Available |> <| availableAtMs := now |>) |>.

(* @src include/prediction_interface/target_coordinator.hpp | bool claim( *)
Definition claim (s : t) (id pid : string) (now : Z) : bool * t :=
  match targets s !! id with
  | None =>
      (true, s <| targets ::= insert id (blank <| roundId := id |> <| state := Claimed |>
                                        <| claimedAtMs := now |> <| predictionId := pid |>) |>
               <| claims ::= bump |>)
  | Some r =>
      if negb (bool_decide (state r = Available)) then (false, s)
      else (true, s <| targets ::= insert id (r <| state := Claimed |> <| claimedAtMs := now |>
                                               <| predictionId := pid |>) |>
                    <| claims ::= bump |>)
  end.

(* @src include/prediction_interface/target_coordinator.hpp | void markPredicted( *)
Definition markPredicted (s : t) (id : string) : t :=
  s <| targets ::= alter (fun r => r <| state := Predicted |>) id |>.

(* @src include/prediction_interface/target_coordinator.hpp | bool release( *)
Definition release (s : t) (id : string) : bool * t :=
  match targets s !! id with
  | None => (false, s)
  | Some r =>
      if bool_decide (state r = Claimed) || bool_decide (state r = Predicted) then
        (true, s <| targets ::= insert id (r <| state := Available |> <| predictionId := "" |>
                                             <| claimedAtMs := 0 |>) |>
                 <| releases ::= bump |>)
      else (false, s)
  end.

(* @src include/prediction_interface/target_coordinator.hpp | void markResolved( *)
Definition markResolved (s : t) (id : string) (now : Z) : t :=
  match targets s !! id with
  | None => s
  | Some r => s <| targets ::= insert id (r <| state := Resolved |> <| resolvedAtMs := now |>) |>
                <| resolved ::= bump |>
  end.

(* @src include/prediction_interface/target_coordinator.hpp | std::vector<RoundId> available() *)
Definition available (s : t) : list string :=
  (filter (fun p => state p.2 = Available) (map_to_list (targets s))).*1.

Definition too_old (ageMs now : Z) (r : TargetRecord) : bool :=
  bool_decide (state r = Available) && (0 <? availableAtMs r) && (ageMs <? now - availableAtMs r).

(* @src include/prediction_interface/target_coordinator.hpp | std::size_t expireOlderThan( *)
Definition expireOlderThan (s : t) (ageMs now : Z) : nat * t :=
  let n := length (filter (fun r => too_old ageMs now r = true) (map_to_list (targets s)).*2) in
  (n, s <| targets ::= fmap (fun r => if too_old ageMs now r then r <| state := Expired |> else r) |>
        <| expired ::= fun c => u64 (c + Z.of_nat n) |>).

(** ** Exclusive claims *)
Inductive op :=
| Start (id : string) (now : Z) | Claim (id pid : string) (now : Z) | MarkPredicted (id : string)
| Release (id : string) | MarkResolved (id : string) (now : Z) | Expire (ageMs now : Z).

(** The step and whether it claimed [id]. *)
Definition apply_op (id : string) (s : t) (o : op) : bool * t :=
  match o with
  | Start id' now => (false, noteRoundStart s id' now)
  | Claim id' pid now => let '(b, s) := claim s id' pid now in (b && bool_decide (id' = id), s)
  | MarkPredicted id' => (false, markPredicted s id')
  | Release id' => (false, snd (release s id'))
  | MarkResolved id' now => (false, markResolved s id' now)
  | Expire ageMs now => (false, snd (expireOlderThan s ageMs now))
  end.

Definition frees (id : string) (o : op) : Prop :=
  match o with Start id' _ | Release id' => id' = id | _ => False end.

(** How often [id] is claimed along the operations. *)
Fixpoint times_claimed (id : string) (s : t) (ops : list op) : nat :=
  match ops with
  | [] => 0
  | o :: ops => let '(b, s) := apply_op id s o in ((if b then 1 else 0) + times_claimed id s ops)%nat
  end.

Definition taken (s : t) (id : string) : Prop := exists r, targets s !! id = Some r /\ state r <> Available.

Lemma taken_insert s s' id id' r' :
  targets s' = <[id' := r']> (targets s) -> (id' = id -> state r' <> Available) -> taken s id -> taken s' id.
Proof.
  intros E Hs (r & Hr & Hst). unfold taken. rewrite E. destruct (decide (id' = id)) as [->|Hne].
  - exists r'. rewrite lookup_insert_eq. auto.
  - exists r. by rewrite lookup_insert_ne.
Qed.

Lemma apply_op_taken id s o :
  taken s id -> ~ frees id o -> fst (apply_op id s o) = false /\ taken (snd (apply_op id s o)) id.
Proof.
  intros Ht Hf. pose proof Ht as (r & Hr & Hst). destruct o as [id' now|id' pid now|id'|id'|id' now|age now]; simpl in *.
  - split; [done|]. by eapply taken_insert.
  - unfold claim. destruct (targets s !! id') as [r'|] eqn:E; simpl.
    + case_bool_decide as Ha; simpl; [|done]. assert (id' <> id) by (intros ->; naive_solver).
      split; [by rewrite bool_decide_eq_false_2|]. by eapply taken_insert.
    + assert (id' <> id) by (intros ->; naive_solver). split; [by rewrite bool_decide_eq_false_2|].
      by eapply taken_insert.
  - split; [done|]. destruct (decide (id' = id)) as [->|?].
    + eexists. simpl. rewrite lookup_alter_eq, Hr. split; [done|]. done.
    + exists r. simpl. by rewrite lookup_alter_ne.
  - split; [done|]. unfold release. destruct (targets s !! id') as [r'|]; [|done].
    case_match; [|done]. by eapply taken_insert.
  - split; [done|]. unfold markResolved. destruct (targets s !! id') as [r'|]; [|done].
    by eapply taken_insert.
  - split; [done|]. eexists. simpl. rewrite lookup_fmap, Hr. split; [done|]. by case_match.
Qed.

(** Remark: a round's target is claimed by at most one prediction until it is released or the
    round starts: along every sequence of other operations only the first claim succeeds. *)
Theorem target_claimed_once (id : string) (ops : list op) : forall (s : t),
  Forall (fun o => ~ frees id o) ops ->
  (times_claimed id s ops <= 1)%nat /\ (taken s id -> times_claimed id s ops = 0%nat).
Proof.
  induction ops as [|o ops IH]; intros s Hall; [simpl; lia|].
  apply Forall_cons in Hall as [Ho Hops]. cbn [times_claimed].
  destruct (apply_op id s o) as [b s'] eqn:E. destruct (IH s' Hops) as [Hle Htk]. split.
  - destruct b; [|lia]. rewrite Htk; [lia|]. destruct o as [|id' pid now| | | |]; try by simplify_eq/=.
    simpl in E. destruct (claim s id' pid now) as [b0 s0] eqn:Ec. simplify_eq/=.
    destruct b0; [|done]. simpl in *. case_bool_decide as Hid; [|done]. subst id'. unfold claim in Ec.
    destruct (targets s !! id); [case_match|]; simplify_eq/=.
    all: eexists; simpl; by rewrite lookup_insert_eq.
  - intros Ht. pose proof (apply_op_taken id s o Ht Ho) as [Hb Hs']. rewrite E in Hb, Hs'. simpl in *. subst b.
    by rewrite Htk.
Qed.

(** Remark: the start of a round forgets that its target was claimed, so a second prediction for
    it is accepted after the start event arrives. *)
Lemma round_start_forgets_claim :
  times_claimed "8" make [Claim "8" "p1" 1; MarkPredicted "8"; Claim "8" "p2" 2; Start "8" 3; Claim "8" "p3" 4]
  = 2%nat.
Proof. vm_compute. reflexivity. Qed.
End TargetCoordinator.

Lemma target_claimed_once_witness :
  (TargetCoordinator.times_claimed "8" TargetCoordinator.make
     [TargetCoordinator.Claim "8" "p1" 1; TargetCoordinator.MarkPredicted "8"; TargetCoordinator.Claim "8" "p2" 2] <= 1)%nat.
Proof.
  apply TargetCoordinator.target_claimed_once. repeat constructor; intros H; exact H.
Defined.

Lemma superseded_attempts_never_complete_witness :
  let s0 := PredictionAttemptCoordinator.make 50 in
  let s1 := snd (PredictionAttemptCoordinator.open_attempt s0 (PredictionAttemptCoordinator.demo_request "a") 1 1) in
  let s2 := snd (PredictionAttemptCoordinator.open_attempt s1 (PredictionAttemptCoordinator.demo_request "b") 2 2) in
  let '(ok_a, _, s3) := PredictionAttemptCoordinator.complete s2 (default_response <| rs_correlationId := "a" |>) 3 in
  let '(ok_b, _, s4) := PredictionAttemptCoordinator.complete s3 (default_response <| rs_correlationId := "b" |>) 4 in
  ok_a = false /\ ok_b = true /\
  StronglySorted Z.lt (PredictionAttemptCoordinator.completions "r" [("r", 2)]).
Proof.
  intros s0 s1 s2.
  destruct (PredictionAttemptCoordinator.complete s2 _ 3) as [[ok_a ra] s3] eqn:Ea.
  destruct (PredictionAttemptCoordinator.complete s3 _ 4) as [[ok_b rb] s4] eqn:Eb.
  pose proof (PredictionAttemptCoordinator.superseded_attempts_never_complete 50 s4 [("r", 2)] "r") as H.
  pose proof Ea as Ea'. vm_compute in Ea'. injection Ea' as <- <- E3. subst s3.
  pose proof Eb as Eb'. vm_compute in Eb'. injection Eb' as <- <- E4. subst s4.
  split; [reflexivity|]. split; [reflexivity|]. apply H.
  eapply rtc_l; [apply (PredictionAttemptCoordinator.step_open s0 [] (PredictionAttemptCoordinator.demo_request "a") 1 1); reflexivity|].
  eapply rtc_l; [apply (PredictionAttemptCoordinator.step_open s1 [] (PredictionAttemptCoordinator.demo_request "b") 2 2); reflexivity|].
  eapply rtc_l; [eapply PredictionAttemptCoordinator.step_complete; exact Ea|].
  eapply rtc_l; [eapply PredictionAttemptCoordinator.step_complete; exact Eb|].
  apply rtc_refl.
Defined.
