(* ===== verification/Strategy.v ===== *)
(** Deciding and learning: the decision surface [acie::evaluateStrategy] and the gate of the
    in-process client ([include/prediction/acie/strategy.hpp],
    [include/prediction_interface/in_process_prediction_client.hpp]), the adaptive edge
    ([adaptive_edge.hpp]), the loss cooldown ([include/validation/loss_cooldown.hpp]) and
    exactly-once feedback ([include/feedback/exactly_once_feedback.hpp]). *)
From S2P Require Import Prelude Float64 Types Feedback.

(** * The decision surface *)
Module acie.

(* @src include/prediction/acie/strategy.hpp | enum class StrategyMode : *)
Inductive StrategyMode := Quality | HighFrequency | Conservative.

(* @src include/prediction/acie/strategy.hpp | enum class StrategyAction : *)
Inductive StrategyAction := ASkip | ReducedEntry | Entry.
#[export] Instance StrategyMode_eq_dec : EqDecision StrategyMode.
Proof. solve_decision. Defined.

(* @src include/prediction/acie/strategy.hpp | struct StrategyConfig { *)
Record StrategyConfig := {
  mode : StrategyMode;
  defaultTarget : double;
  qualityEdge : double;
  reducedEdge : double;
  conservativeExtra : double;
  minConfidence : double;
  reducedMinConfidence : double;
  warmMinSamples : Z
}.

(* @src include/prediction/acie/strategy.hpp | struct StrategyConfig { *)
Definition default_config : StrategyConfig := {|
  mode := Quality; defaultTarget := flit 130 100; qualityEdge := flit 2 100; reducedEdge := flit 5 1000;
  conservativeExtra := flit 3 100; minConfidence := flit 55 100; reducedMinConfidence := flit 45 100;
  warmMinSamples := 20 |}.

(* @src include/prediction/acie/strategy.hpp | struct StrategyInput { *)
Record StrategyInput := {
  probability : double;
  confidence : double;
  targetMult : double;
  samplesSeen : Z;
  modelStale : bool;
  entitlementOk : bool
}.

(* @src include/prediction/acie/strategy.hpp | struct StrategyResult { *)
Record StrategyResult := {
  action : StrategyAction;
  decision : PredictionDecision;
  fairProb : double;
  requiredProbability : double;
  edgeUsed : double;
  reason : string
}.
#[export] Instance eta_StrategyResult : Eta StrategyResult := fun r =>
  {| action := action r; decision := decision r; fairProb := fairProb r;
     requiredProbability := requiredProbability r; edgeUsed := edgeUsed r; reason := reason r |}.

(* @src include/prediction/acie/strategy.hpp | inline double fairProbability( *)
Definition fairProbability (t : double) : double :=
  if negb (fgt t f1) || negb (is_finite t) then fdiv f1 (flit 130 100) else fdiv f1 t.

(** The edge and the confidence floor of a mode. *)
(* @src include/prediction/acie/strategy.hpp:93-107 evaluateStrategy *)
Definition mode_edge (cfg : StrategyConfig) : double * double :=
  match mode cfg with
  | HighFrequency => (reducedEdge cfg, reducedMinConfidence cfg)
  | Conservative => (fadd (qualityEdge cfg) (conservativeExtra cfg), minConfidence cfg)
  | Quality => (qualityEdge cfg, minConfidence cfg)
  end.

(* @src include/prediction/acie/strategy.hpp | inline StrategyResult evaluateStrategy( *)
Definition evaluateStrategy (i : StrategyInput) (cfg : StrategyConfig) : StrategyResult :=
  let fair := fairProbability (if fgt (targetMult i) f1 then targetMult i else defaultTarget cfg) in
  let r := {| action := ASkip; decision := Skip; fairProb := fair; requiredProbability := f0;
              edgeUsed := f0; reason := "" |} in
  if negb (entitlementOk i) then r <| reason := "entitlement_denied" |>
  else if modelStale i then r <| reason := "model_stale" |>
  else if samplesSeen i <? warmMinSamples cfg then r <| reason := "cold_start" |>
  else if fle (probability i) f0 && fle (confidence i) f0 then r <| reason := "zero_signal" |>
  else
    let '(edge, minConf) := mode_edge cfg in
    let r := r <| edgeUsed := edge |> <| requiredProbability := fadd fair edge |> in
    if flt (confidence i) minConf then r <| reason := "low_confidence" |>
    else if fge (probability i) (fadd fair edge) then
      r <| action := Entry |> <| decision := Enter |> <| reason := "entry_quality" |>
    else
      let reducedReq := fadd fair (reducedEdge cfg) in
      if negb (bool_decide (mode cfg = Conservative)) && fge (probability i) reducedReq &&
         fge (confidence i) (reducedMinConfidence cfg) then
        r <| action := ReducedEntry |> <| decision := Enter |> <| edgeUsed := reducedEdge cfg |>
          <| requiredProbability := reducedReq |> <| reason := "reduced_entry" |>
      else r <| reason := "below_edge" |>.

(* @src include/prediction/acie/strategy.hpp | inline PredictionDecision toDecision( *)
Definition toDecision (a : StrategyAction) : PredictionDecision :=
  match a with Entry | ReducedEntry => Enter | ASkip => Skip end.

(** Every entry is an entitled, fresh, warm signal whose probability reaches the requirement
    reported with it. *)
Lemma evaluateStrategy_enter i cfg :
  decision (evaluateStrategy i cfg) = Enter ->
  entitlementOk i = true /\ modelStale i = false /\ warmMinSamples cfg <= samplesSeen i /\
  fle (probability i) f0 && fle (confidence i) f0 = false /\
  fge (probability i) (requiredProbability (evaluateStrategy i cfg)) = true /\
  flt (confidence i) (mode_edge cfg).2 = false.
Proof.
  unfold evaluateStrategy. destruct (mode_edge cfg) as [edge mc]; simpl.
  destruct (entitlementOk i), (modelStale i); simpl; try discriminate.
  destruct (Z.ltb_spec (samplesSeen i) (warmMinSamples cfg)); simpl; [discriminate|].
  destruct (fle (probability i) f0 && fle (confidence i) f0); simpl; [discriminate|].
  destruct (flt (confidence i) mc); simpl; [discriminate|].
  destruct (fge (probability i) (fadd _ edge)) eqn:E; simpl; [by rewrite E|].
  destruct (negb _ && _ && _) eqn:E2; simpl; [|discriminate]. bool_to_prop. by rewrite H2.
Qed.

Lemma action_decision i cfg :
  toDecision (action (evaluateStrategy i cfg)) = decision (evaluateStrategy i cfg).
Proof. unfold evaluateStrategy. destruct (mode_edge cfg). by repeat case_match. Qed.

(** ** The adaptive edge *)

(* @src include/prediction/acie/adaptive_edge.hpp | struct AdaptiveEdgeConfig { *)
Record AdaptiveEdgeConfig := {
  initialEdge : double;
  minEdge : double;
  maxEdge : double;
  winDelta : double;
  lossDelta : double;
  decayTowardInitial : double;
  minOutcomesBeforeAdapt : Z
}.

(* @src include/prediction/acie/adaptive_edge.hpp | struct AdaptiveEdgeConfig { *)
Definition default_edge_config : AdaptiveEdgeConfig := {|
  initialEdge := flit 2 100; minEdge := flit 5 1000; maxEdge := flit 8 100; winDelta := flit (-1) 1000;
  lossDelta := flit 3 1000; decayTowardInitial := flit 1 1000; minOutcomesBeforeAdapt := 5 |}.

(* @src include/prediction/acie/adaptive_edge.hpp:77-80 AdaptiveEdge *)
Record AdaptiveEdge := { cfg : AdaptiveEdgeConfig; edge : double; outcomes : Z; wins : Z; losses : Z }.
#[export] Instance eta_AdaptiveEdge : Eta AdaptiveEdge := fun r =>
  {| cfg := cfg r; edge := edge r; outcomes := outcomes r; wins := wins r; losses := losses r |}.

(* @src include/prediction/acie/adaptive_edge.hpp | explicit AdaptiveEdge( *)
Definition make_edge (c : AdaptiveEdgeConfig) : AdaptiveEdge :=
  {| cfg := c; edge := initialEdge c; outcomes := 0; wins := 0; losses := 0 |}.

(** The mean reversion and the clamp. *)
(* @src include/prediction/acie/adaptive_edge.hpp:59-62 AdaptiveEdge::noteOutcome *)
Definition settle (c : AdaptiveEdgeConfig) (e : double) : double :=
  let e := if fgt e (initialEdge c) then fsub e (decayTowardInitial c)
           else if flt e (initialEdge c) then fadd e (decayTowardInitial c) else e in
  fclamp e (minEdge c) (maxEdge c).

(* @src include/prediction/acie/adaptive_edge.hpp | void noteOutcome( *)
Definition noteOutcome (s : AdaptiveEdge) (o : Outcome) : AdaptiveEdge :=
  if negb (bool_decide (oc_result o = Win)) && negb (bool_decide (oc_result o = Loss)) then s
  else
    let s := s <| outcomes ::= bump |> in
    let s := if oc_isWin o || bool_decide (oc_result o = Win)
             then s <| wins ::= bump |> <| edge ::= fun e => fadd e (winDelta (cfg s)) |>
             else s <| losses ::= bump |> <| edge ::= fun e => fadd e (lossDelta (cfg s)) |> in
    s <| edge ::= settle (cfg s) |>.

(* @src include/prediction/acie/adaptive_edge.hpp | StrategyConfig applyTo( *)
Definition applyTo (s : AdaptiveEdge) (c : StrategyConfig) : StrategyConfig :=
  if minOutcomesBeforeAdapt (cfg s) <=? outcomes s then
    {| mode := mode c; defaultTarget := defaultTarget c; qualityEdge := edge s;
       reducedEdge := reducedEdge c; conservativeExtra := conservativeExtra c;
       minConfidence := minConfidence c; reducedMinConfidence := reducedMinConfidence c;
       warmMinSamples := warmMinSamples c |}
  else c.

(** A configuration of finite numbers with ordered bounds around the initial edge. *)
Definition sane (c : AdaptiveEdgeConfig) : Prop :=
  is_finite (winDelta c) = true /\ is_finite (lossDelta c) = true /\
  is_finite (decayTowardInitial c) = true /\
  fle (minEdge c) (initialEdge c) = true /\ fle (initialEdge c) (maxEdge c) = true.

Definition bounded (s : AdaptiveEdge) : Prop :=
  is_nan (edge s) = false /\ fle (minEdge (cfg s)) (edge s) = true /\ fle (edge s) (maxEdge (cfg s)) = true.

Lemma fle_not_nan_r x y : fle x y = true -> is_nan y = false.
Proof. destruct x, y; done. Qed.

Lemma settle_bounded c e :
  sane c -> is_nan e = false ->
  is_nan (settle c e) = false /\ fle (minEdge c) (settle c e) = true /\ fle (settle c e) (maxEdge c) = true.
Proof.
  intros (_ & _ & Hd & Hlo & Hhi) He. unfold settle.
  match goal with |- context [fclamp ?x _ _] => set (e1 := x) end.
  assert (is_nan e1 = false) as He1.
  { unfold e1. repeat case_match; auto using fadd_not_nan, fsub_not_nan. }
  assert (fle (minEdge c) (maxEdge c) = true) as Hlh by (eapply fle_trans; eassumption).
  destruct (fclamp_range e1 (minEdge c) (maxEdge c) He1 Hlh) as [H1 H2].
  split; [|done]. by eapply fle_not_nan_r.
Qed.

Lemma noteOutcome_cfg s o : cfg (noteOutcome s o) = cfg s.
Proof. unfold noteOutcome. case_match; [done|]. by case_match. Qed.

(** C40: whatever outcomes are fed back, the adaptive edge is a number between its two bounds
    after each of them. *)
Theorem adaptive_edge_bounded (c : AdaptiveEdgeConfig) (os : list Outcome) :
  sane c -> let s := fold_left noteOutcome os (make_edge c) in cfg s = c /\ bounded s.
Proof.
  intros Hc. assert (cfg (make_edge c) = c /\ bounded (make_edge c)) as H.
  { split; [done|]. destruct Hc as (_ & _ & _ & H1 & H2). split_and!; [|done|done]. by eapply fle_not_nan_r. }
  revert H. generalize (make_edge c). induction os as [|o os IH]; intros s [Hs Hb]; simpl; [done|].
  apply IH. split; [by rewrite noteOutcome_cfg|]. unfold bounded. rewrite noteOutcome_cfg, Hs.
  destruct Hb as (Hn & Hlo & Hhi). rewrite Hs in *. pose proof Hc as (Hw & Hl & _). unfold noteOutcome.
  case_match; [done|]. case_match; simpl; rewrite Hs; apply settle_bounded; auto using fadd_not_nan.
Qed.

(** Remark: with the default configuration a run of wins of any length, from the start, leaves
    the required edge exactly where it was: the pull toward the initial edge undoes each
    win's easing, so wins never make the gate more permissive. *)
Theorem wins_never_ease (n : nat) (o : Outcome) :
  oc_result o = Win ->
  edge (fold_left noteOutcome (replicate n o) (make_edge default_edge_config)) = initialEdge default_edge_config.
Proof.
  intros Ho. assert (forall s, cfg s = default_edge_config -> edge s = initialEdge default_edge_config ->
    edge (fold_left noteOutcome (replicate n o) s) = initialEdge default_edge_config) as H; [|by apply H].
  induction n as [|n IH]; intros s Hc He; simpl; [done|]. apply IH; [by rewrite noteOutcome_cfg|].
  unfold noteOutcome. rewrite bool_decide_eq_true_2 by done. rewrite orb_true_r. simpl. rewrite Hc, He.
  vm_compute. reflexivity.
Qed.
End acie.

Lemma adaptive_edge_bounded_witness :
  acie.bounded (fold_left acie.noteOutcome [sample_outcome "p" Loss 1; sample_outcome "q" Win 2]
                  (acie.make_edge acie.default_edge_config)).
Proof.
  apply acie.adaptive_edge_bounded. vm_compute. repeat split; reflexivity.
Defined.

Lemma wins_never_ease_witness :
  acie.edge (fold_left acie.noteOutcome (replicate 100 (sample_outcome "p" Win 1))
               (acie.make_edge acie.default_edge_config)) = flit 2 100.
Proof. apply acie.wins_never_ease. reflexivity. Defined.

(** * Loss cooldown *)
Module LossCooldownTracker.

(* @src include/validation/loss_cooldown.hpp | struct CooldownState { *)
Record CooldownState := {
  consecutiveLosses : Z;
  consecutiveWins : Z;
  lastLossMs : Z;
  lastWinMs : Z;
  cooldownUntilMs : Z;
  active : bool
}.
#[export] Instance eta_state : Eta CooldownState := fun r =>
  {| consecutiveLosses := consecutiveLosses r; consecutiveWins := consecutiveWins r;
     lastLossMs := lastLossMs r; lastWinMs := lastWinMs r; cooldownUntilMs := cooldownUntilMs r;
     active := active r |}.

(* @src include/validation/loss_cooldown.hpp:74-78 LossCooldownTracker *)
Record t := {
  loss_threshold : Z; cooldown_ms : Z; state : CooldownState;
  activations : Z; wins : Z; losses : Z; rounds : Z }.
#[export] Instance eta_t : Eta t := fun r =>
  {| loss_threshold := loss_threshold r; cooldown_ms := cooldown_ms r; state := state r;
     activations := activations r; wins := wins r; losses := losses r; rounds := rounds r |}.

(* @src include/validation/loss_cooldown.hpp | explicit LossCooldownTracker( *)
Definition make (lossThreshold cooldownMs : Z) : t := {|
  loss_threshold := lossThreshold; cooldown_ms := cooldownMs;
  state := {| consecutiveLosses := 0; consecutiveWins := 0; lastLossMs := 0; lastWinMs := 0;
              cooldownUntilMs := 0; active := false |};
  activations := 0; wins := 0; losses := 0; rounds := 0 |}.

(* @src include/validation/loss_cooldown.hpp | void noteOutcome( *)
Definition noteOutcome (s : t) (o : Outcome) (now : Z) : t :=
  let at_ms := or_now (oc_resolvedAtMs o) now in
  match oc_result o with
  | Win =>
      s <| state ::= fun st => st <| consecutiveWins ::= Z.succ |> <| consecutiveLosses := 0 |>
                                  <| lastWinMs := at_ms |> <| active := false |>
                                  <| cooldownUntilMs := 0 |> |>
        <| wins ::= bump |>
  | Loss =>
      let s := s <| state ::= fun st => st <| consecutiveLosses ::= Z.succ |> <| consecutiveWins := 0 |>
                                           <| lastLossMs := at_ms |> |>
                 <| losses ::= bump |> in
      if loss_threshold s <=? consecutiveLosses (state s) then
        s <| state ::= fun st => st <| active := true |> <| cooldownUntilMs := lastLossMs st + cooldown_ms s |> |>
          <| activations ::= bump |>
      else s
  | _ => s
  end.

(* @src include/validation/loss_cooldown.hpp | void noteRoundCompleted() *)
Definition noteRoundCompleted (s : t) : t := s <| rounds ::= bump |>.

(* @src include/validation/loss_cooldown.hpp | bool inCooldown( *)
Definition inCooldown (s : t) (now clock : Z) : bool :=
  let now := if now <=? 0 then clock else now in
  active (state s) && (now <? cooldownUntilMs (state s)).

(** The losses since the last win and the time of the last loss of a history, newest first. *)
Fixpoint losing_streak (h : list (Outcome * Z)) : Z :=
  match h with
  | [] => 0
  | (o, _) :: h => match oc_result o with Win => 0 | Loss => 1 + losing_streak h | _ => losing_streak h end
  end.
Fixpoint last_loss (h : list (Outcome * Z)) : Z :=
  match h with
  | [] => 0
  | (o, now) :: h => if decide (oc_result o = Loss) then or_now (oc_resolvedAtMs o) now else last_loss h
  end.

Definition note_all (s : t) (h : list (Outcome * Z)) : t :=
  foldr (fun p s => noteOutcome s p.1 p.2) s h.

Lemma losing_streak_nonneg h : 0 <= losing_streak h.
Proof. induction h as [|[o ?] h IH]; simpl; [done|]. case_match; lia. Qed.

Lemma note_all_spec thr cd h :
  1 <= thr -> let s := note_all (make thr cd) h in
  loss_threshold s = thr /\ cooldown_ms s = cd /\ consecutiveLosses (state s) = losing_streak h /\
  active (state s) = (thr <=? losing_streak h) /\
  (thr <= losing_streak h -> cooldownUntilMs (state s) = last_loss h + cd).
Proof.
  intros Hthr. induction h as [|[o now] h IH]; simpl.
  - destruct (Z.leb_spec thr 0); [lia|]. split_and!; try done. lia.
  - destruct IH as (H1 & H2 & H3 & H4 & H5). unfold noteOutcome.
    pose proof (losing_streak_nonneg h) as Hnn. destruct (oc_result o) eqn:E; try by rewrite decide_False by done.
    + rewrite decide_False by done. simpl. destruct (Z.leb_spec thr 0); [lia|]. split_and!; try done. lia.
    + rewrite decide_True by done. simpl. rewrite H1, H3.
      destruct (Z.leb_spec thr (Z.succ (losing_streak h))) as [Hle|Hgt]; simpl.
      * rewrite H1, H2, H3. destruct (Z.leb_spec thr (1 + losing_streak h)); [|lia]. split_and!; try done; lia.
      * rewrite H1, H2, H3, H4. destruct (Z.leb_spec thr (1 + losing_streak h)); [lia|].
        destruct (Z.leb_spec thr (losing_streak h)); [lia|]. split_and!; try done; lia.
Qed.

(** Remark: the tracker is in cooldown exactly when the losses since the last win reach the
    threshold and less than the cooldown time has passed since the last loss; void, stale
    and pending outcomes do not count. *)
Theorem cooldown_spec (thr cd now clock : Z) (h : list (Outcome * Z)) :
  1 <= thr -> 0 < now ->
  inCooldown (note_all (make thr cd) h) now clock = true <->
  thr <= losing_streak h /\ now < last_loss h + cd.
Proof.
  intros Hthr Hnow. destruct (note_all_spec thr cd h Hthr) as (_ & _ & _ & Ha & Hu).
  unfold inCooldown. destruct (Z.leb_spec now 0); [lia|]. rewrite Ha, andb_true_iff, Z.leb_le, Z.ltb_lt.
  split; intros [H1 H2]; (split; [done|]); rewrite Hu in *; done.
Qed.
End LossCooldownTracker.

Lemma cooldown_spec_witness :
  LossCooldownTracker.inCooldown
    (LossCooldownTracker.note_all (LossCooldownTracker.make 2 60)
       [(sample_outcome "c" Loss 100, 0); (sample_outcome "b" Void 90, 0); (sample_outcome "a" Loss 80, 0)]) 120 0 = true.
Proof.
  apply (proj2 (LossCooldownTracker.cooldown_spec 2 60 120 0
    [(sample_outcome "c" Loss 100, 0); (sample_outcome "b" Void 90, 0); (sample_outcome "a" Loss 80, 0)]
    ltac:(lia) ltac:(lia))).
  vm_compute. split; [discriminate|reflexivity].
Defined.

(** * Exactly-once feedback *)
Module ExactlyOnceFeedback.
Section S.
(** [PgDatabase::executeParams] of the insert statement, on its parameters. *)
Variable executeParams : list string -> bool.
(** [std::to_string] of a double. *)
Variable double_to_string : double -> string.

(* @src include/feedback/exactly_once_feedback.hpp:79-83 ExactlyOnceFeedback *)
Record t := {
  has_db : bool;
  edge : option acie.AdaptiveEdge;
  seen : gset string;
  applied : Z;
  duplicates : Z;
  durable : Z
}.
#[export] Instance eta_t : Eta t := fun r =>
  {| has_db := has_db r; edge := edge r; seen := seen r; applied := applied r;
     duplicates := duplicates r; durable := durable r |}.

(* @src include/feedback/exactly_once_feedback.hpp | ExactlyOnceFeedback( *)
Definition make (db : bool) (e : option acie.AdaptiveEdge) : t := {|
  has_db := db; edge := e; seen := ∅; applied := 0; duplicates := 0; durable := 0 |}.

Definition SEEN_LIMIT : nat := Z.to_nat 100000.

(** The insertion into the seen-set; a full set restarts from the new id. *)
(* @src include/feedback/exactly_once_feedback.hpp:46-50 ExactlyOnceFeedback::apply *)
Definition remember (s : gset string) (id : string) : gset string :=
  let s := {[ id ]} ∪ s in if (SEEN_LIMIT <? size s)%nat then {[ id ]} else s.

Definition decisive (o : Outcome) : bool :=
  negb (str_empty (oc_predictionId o)) &&
  (bool_decide (oc_result o = Win) || bool_decide (oc_result o = Loss)).

(* @src include/feedback/exactly_once_feedback.hpp | bool apply(const *)
Definition apply (s : t) (o : Outcome) (now : Z) : bool * t :=
  if negb (decisive o) then (false, s)
  else if decide (oc_predictionId o ∈ seen s) then (false, s <| duplicates ::= bump |>)
  else
    let s := s <| seen ::= fun x => remember x (oc_predictionId o) |>
               <| edge ::= fmap (fun e => acie.noteOutcome e o) |> <| applied ::= bump |> in
    let outcome := if oc_isWin o || bool_decide (oc_result o = Win) then "win" else "loss" in
    let row := [oc_predictionId o; oc_roundId o; outcome; double_to_string (oc_actualMult o); to_string now] in
    (true, if has_db s && executeParams row then s <| durable ::= bump |> else s).

(** Applying outcomes one after the other; the accepted ones are collected. *)
Fixpoint apply_all (s : t) (os : list (Outcome * Z)) : list Outcome * t :=
  match os with
  | [] => ([], s)
  | (o, now) :: os =>
      let '(b, s) := apply s o now in
      let '(acc, s) := apply_all s os in ((if b then [o] else []) ++ acc, s)
  end.

Lemma apply_spec s o now :
  let '(b, s') := apply s o now in
  (b = true <-> decisive o = true /\ oc_predictionId o ∉ seen s) /\
  edge s' = (if b then (fun e => acie.noteOutcome e o) <$> edge s else edge s) /\
  seen s' = (if b then remember (seen s) (oc_predictionId o) else seen s).
Proof.
  unfold apply. destruct (decisive o); simpl; [|naive_solver].
  case_decide; simpl; [naive_solver|]. case_match; simpl; naive_solver.
Qed.

(** The predictions that a list of outcomes decides. *)
Definition decided (os : list Outcome) : gset string := list_to_set (oc_predictionId <$> filter decisive os).

(** The outcome at position [i] is the first decisive one of its prediction, which was not known
    before. *)
Definition is_first (known : gset string) (os : list Outcome) (i : nat) (o : Outcome) : bool :=
  decisive o && bool_decide (oc_predictionId o ∉ known) &&
  forallb (fun o' => negb (decisive o' && String.eqb (oc_predictionId o') (oc_predictionId o))) (take i os).

Definition firsts (known : gset string) (os : list Outcome) : list Outcome :=
  omap id (imap (fun i o => if is_first known os i o then Some o else None) os).

Lemma decided_cons o os : decided (o :: os) = if decisive o then {[ oc_predictionId o ]} ∪ decided os else decided os.
Proof. unfold decided. rewrite filter_cons. destruct (decisive o); by case_decide. Qed.

Lemma decided_app os1 os2 : decided (os1 ++ os2) = decided os1 ∪ decided os2.
Proof. unfold decided. by rewrite filter_app, fmap_app, list_to_set_app_L. Qed.

Lemma is_first_known known pre os o : is_first known (pre ++ o :: os) (length pre) o = true <->
  decisive o = true /\ oc_predictionId o ∉ known ∪ decided pre.
Proof.
  unfold is_first. rewrite take_app_length, !andb_true_iff, bool_decide_eq_true, forallb_forall, not_elem_of_union.
  split; intros H; [destruct H as [[Hd Hk] Hall]|destruct H as (Hd & Hk & Hp)]; (split; [|try split]); try done.
  - unfold decided. rewrite elem_of_list_to_set, list_elem_of_fmap. intros (o' & E & Ho'). apply list_elem_of_filter in Ho' as [Ho' Hin].
    specialize (Hall o' (proj1 (list_elem_of_In _ _) Hin)). rewrite Is_true_true in Ho'. rewrite Ho', E, String.eqb_refl in Hall. done.
  - intros o' Hin. apply list_elem_of_In in Hin. destruct (decisive o') eqn:Ed; [|done].
    destruct (String.eqb_spec (oc_predictionId o') (oc_predictionId o)) as [E|]; [|done]. destruct Hp.
    unfold decided. rewrite elem_of_list_to_set, list_elem_of_fmap. exists o'. split; [done|]. apply list_elem_of_filter. by rewrite Ed.
Qed.

Lemma apply_all_firsts known (os : list (Outcome * Z)) : forall (pre : list Outcome) (s : t) (e : acie.AdaptiveEdge),
  edge s = Some e -> seen s = known ∪ decided pre -> (size (seen s ∪ decided os.*1) <= SEEN_LIMIT)%nat ->
  let '(acc, s') := apply_all s os in
  acc = omap id (imap (fun i o => if is_first known (pre ++ os.*1) (length pre + i) o then Some o else None) os.*1) /\
  edge s' = Some (fold_left acie.noteOutcome acc e).
Proof.
  induction os as [|[o now] os IH]; intros pre s e He Hseen Hsz; cbn [apply_all]; [done|].
  pose proof (apply_spec s o now) as Hs. destruct (apply s o now) as [b s1]. destruct Hs as (Hb & He1 & Hseen1).
  rewrite Hseen, <-(is_first_known known pre os.*1 o) in Hb. rewrite He in He1.
  assert (edge s1 = Some (if b then acie.noteOutcome e o else e)) as He2 by (rewrite He1; by destruct b). clear He1.
  cbn [fmap list_fmap fst] in *. rewrite decided_cons in Hsz.
  assert (b = is_first known (pre ++ o :: os.*1) (length pre) o) as Eb.
  { destruct b; [symmetry; by apply Hb|]. by destruct (is_first _ _ _ _); [apply Hb|]. }
  assert (seen s1 = known ∪ decided (pre ++ [o]) /\ (size (seen s1 ∪ decided os.*1) <= SEEN_LIMIT)%nat) as [Hs1 Hsz1].
  { rewrite decided_app, decided_cons. unfold decided at 2 4. cbn [filter list_filter fmap list_fmap list_to_set]. rewrite Hseen1, Hseen in *.
    destruct b.
    - destruct (proj1 (is_first_known known pre os.*1 o) (eq_sym Eb)) as [Hd Hni]. rewrite Hd in *.
      assert (remember (known ∪ decided pre) (oc_predictionId o) = {[ oc_predictionId o ]} ∪ (known ∪ decided pre)) as ->.
      { unfold remember. rewrite (proj2 (Nat.ltb_ge _ _)); [done|]. etrans; [|exact Hsz]. apply subseteq_size. set_solver. }
      split; [set_solver|]. etrans; [|exact Hsz]. apply subseteq_size. set_solver.
    - destruct (decisive o) eqn:Hd; (split; [|etrans; [|exact Hsz]; apply subseteq_size; set_solver]); [|set_solver].
      assert (oc_predictionId o ∈ known ∪ decided pre); [|set_solver].
      destruct (decide (oc_predictionId o ∈ known ∪ decided pre)) as [|Hn]; [done|].
      by rewrite (proj2 (is_first_known known pre os.*1 o) (conj Hd Hn)) in Eb. }
  specialize (IH (pre ++ [o]) s1 _ He2). destruct (apply_all s1 os) as [acc s']. destruct (IH Hs1 Hsz1) as [-> Hedge].
  rewrite Hedge. cbn [imap]. rewrite Nat.add_0_r, <-Eb, <-app_assoc, length_app. cbn [length app].
  assert (forall l, omap id (imap (fun i o0 => if is_first known (pre ++ o :: os.*1) (length pre + 1 + i) o0 then Some o0 else None) l) =
    omap id (imap ((fun i o0 => if is_first known (pre ++ o :: os.*1) (length pre + i) o0 then Some o0 else None) ∘ S) l)) as E.
  { intros l. f_equal. apply imap_ext. intros i x _. unfold compose. by replace (length pre + 1 + i)%nat with (length pre + S i)%nat by lia. }
  rewrite E. by destruct b.
Qed.

Lemma firsts_distinct known os : NoDup (oc_predictionId <$> firsts known os).
Proof.
  assert (forall os pre, let l := omap id (imap (fun i o => if is_first known (pre ++ os) (length pre + i) o then Some o else None) os) in
    NoDup (oc_predictionId <$> l) /\ Forall (fun o => oc_predictionId o ∉ decided pre) l) as H; [|by apply (H os [])].
  clear os. induction os as [|o os IH]; intros pre; cbn [imap]; [split; [apply NoDup_nil_2|constructor]|].
  specialize (IH (pre ++ [o])). rewrite <-app_assoc, length_app in IH. cbn [length app] in IH. cbv zeta in *.
  rewrite Nat.add_0_r. 
  rewrite (imap_ext ((fun i o0 => if is_first known (pre ++ o :: os) (length pre + i) o0 then Some o0 else None) ∘ S)
    (fun i o0 => if is_first known (pre ++ o :: os) (length pre + 1 + i) o0 then Some o0 else None)) by
    (intros i x _; unfold compose; by replace (length pre + 1 + i)%nat with (length pre + S i)%nat by lia).
  destruct IH as [Hnd Hall]. rewrite decided_app in Hall.
  assert (Forall (fun o0 => oc_predictionId o0 ∉ decided pre) (omap id (imap (fun i o0 => if is_first known (pre ++ o :: os) (length pre + 1 + i) o0 then Some o0 else None) os))) as Hpre.
  { eapply list.Forall_impl; [exact Hall|]. simpl. set_solver. }
  destruct (is_first known (pre ++ o :: os) (length pre) o) eqn:Ef; [|done].
  apply is_first_known in Ef as [Hd Hni]. cbn. split; [|constructor; [set_solver|done]].
  apply NoDup_cons. split; [|done]. rewrite list_elem_of_fmap. intros (o' & E & Ho').
  rewrite Forall_forall in Hall. specialize (Hall o' Ho'). rewrite decided_cons, Hd, <-E in Hall. set_solver.
Qed.

(** C37: whatever outcomes arrive, those that reach the adaptive edge are, in their order, the
    outcomes that are the first decisive one (won or lost, with an id) of a prediction that was not
    remembered before; every other outcome leaves the edge as it is.  This holds as long as the
    predictions that are remembered and those that are decided are together at most 100000
    different ones: see [feedback_forgets] for what happens then. *)
Theorem feedback_exactly_once (os : list (Outcome * Z)) (s : t) (e : acie.AdaptiveEdge) :
  edge s = Some e -> (size (seen s ∪ decided os.*1) <= SEEN_LIMIT)%nat ->
  let '(acc, s') := apply_all s os in
  acc = firsts (seen s) os.*1 /\ NoDup (oc_predictionId <$> acc) /\
  edge s' = Some (fold_left acie.noteOutcome acc e).
Proof.
  intros He Hsz. pose proof (apply_all_firsts (seen s) os [] s e He) as H. destruct (apply_all s os) as [acc s'].
  destruct H as [-> Hedge]; [unfold decided; cbn; set_solver|done|]. split; [done|]. split; [|done].
  apply firsts_distinct.
Qed.

(** Remark: one prediction more than 100000, and everything before it is forgotten: an outcome that
    was applied is applied again. *)
Theorem feedback_forgets (s : t) (o old : Outcome) (now : Z) :
  size (seen s) = SEEN_LIMIT -> decisive o = true -> oc_predictionId o ∉ seen s ->
  decisive old = true -> oc_predictionId old ∈ seen s ->
  (apply s old now).1 = false /\ (apply (apply s o now).2 old now).1 = true.
Proof.
  intros Hsz Ho Hni Hold Hin. unfold apply at 1. rewrite Hold. cbn [negb]. rewrite decide_True by done. split; [done|].
  pose proof (apply_spec s o now) as Hs. destruct (apply s o now) as [b s1]. destruct Hs as (Hb & _ & Hseen).
  assert (b = true) as -> by (by apply Hb). cbn [snd].
  assert (seen s1 = {[ oc_predictionId o ]}) as Hs1.
  { rewrite Hseen. unfold remember. rewrite size_union, size_singleton by set_solver.
    by rewrite (proj2 (Nat.ltb_lt _ _)) by lia. }
  pose proof (apply_spec s1 old now) as H2. destruct (apply s1 old now) as [b2 s2]. destruct H2 as (Hb2 & _).
  apply Hb2. split; [done|]. rewrite Hs1, not_elem_of_singleton. intros E. by rewrite E in Hin.
Qed.
End S.
End ExactlyOnceFeedback.

Lemma feedback_exactly_once_witness :
  let os := [(sample_outcome "p" Win 1, 5); (sample_outcome "q" Void 1, 6); (sample_outcome "p" Loss 1, 7)] in
  let '(acc, s') := ExactlyOnceFeedback.apply_all (fun _ => true) (fun _ => "1")
    (ExactlyOnceFeedback.make true (Some (acie.make_edge acie.default_edge_config))) os in
  acc = [sample_outcome "p" Win 1] /\ NoDup (oc_predictionId <$> acc).
Proof.
  intros os.
  pose proof (ExactlyOnceFeedback.feedback_exactly_once (fun _ => true) (fun _ => "1") os
    (ExactlyOnceFeedback.make true (Some (acie.make_edge acie.default_edge_config)))
    (acie.make_edge acie.default_edge_config) eq_refl) as H.
  destruct (ExactlyOnceFeedback.apply_all _ _ _ os) as [acc s'].
  destruct H as (Hacc & Hnd & _); [|split; [exact Hacc|exact Hnd]].
  etrans; [|apply (Z2Nat.inj_le 2 100000); lia]. vm_compute. lia.
Defined.

#[local] Existing Instance ExactlyOnceFeedback.eta_t.

(** The predictions "0" to "99999" are remembered. *)
Lemma feedback_forgets_witness :
  let s := (ExactlyOnceFeedback.make false None)
    <| ExactlyOnceFeedback.seen := list_to_set (to_string <$> seqZ 0 100000) |> in
  let o := sample_outcome (to_string 100000) Win 1 in
  let old := sample_outcome (to_string 7) Win 1 in
  (ExactlyOnceFeedback.apply (fun _ => true) (fun _ => "1")
    (ExactlyOnceFeedback.apply (fun _ => true) (fun _ => "1") s o 5).2 old 6).1 = true.
Proof.
  intros s o old.
  assert (forall z, to_string z ∈ ExactlyOnceFeedback.seen s <-> 0 <= z < 100000) as Hin.
  { intros z. change (ExactlyOnceFeedback.seen s) with (list_to_set (C := gset string) (to_string <$> seqZ 0 100000)).
    rewrite elem_of_list_to_set, list_elem_of_fmap. split.
    - intros (y & E & Hy). apply (inj pretty) in E as ->. apply elem_of_seqZ in Hy. lia.
    - intros Hz. exists z. split; [done|]. apply elem_of_seqZ. lia. }
  apply (ExactlyOnceFeedback.feedback_forgets (fun _ => true) (fun _ => "1") s o old 5).
  - change (size (list_to_set (C := gset string) (to_string <$> seqZ 0 100000)) = ExactlyOnceFeedback.SEEN_LIMIT).
    rewrite size_list_to_set by (apply NoDup_fmap; [apply pretty_Z_inj|apply NoDup_seqZ]).
    by rewrite length_fmap, length_seqZ.
  - vm_compute. reflexivity.
  - intros H. apply (Hin 100000) in H. lia.
  - vm_compute. reflexivity.
  - apply (Hin 7). lia.
Defined.
