(* ===== verification/Predict.v ===== *)
(** Predicting the next round: [RollingHistoryBuffer], [nextRoundId], the decision gate and
    [InProcessPredictionClient] ([include/prediction_interface]).  The prediction engine
    [pe::PredictionEngine] is a section's variables here; PeEngine puts the engine in their
    place. *)
From Stdlib Require Import Ascii.
From stdpp Require Import pretty.
From S2P Require Import Prelude Float64 Types Timing Strategy.

(** * [RollingHistoryBuffer] *)
Module RollingHistoryBuffer.

(* @src include/prediction_interface/rolling_history.hpp | struct HistoryRound { *)
Record HistoryRound := { hr_gameId : string; hr_multiplier : double; hr_crashedAtMs : Z; hr_hash : string }.

(* @src include/prediction_interface/rolling_history.hpp:67-70 RollingHistoryBuffer *)
Record t := { capacity : nat; buf : list HistoryRound; pushes : Z }.
#[export] Instance eta_t : Eta t := fun r => {| capacity := capacity r; buf := buf r; pushes := pushes r |}.

(* @src include/prediction_interface/rolling_history.hpp | explicit RollingHistoryBuffer( *)
Definition make (capacity_ : nat) : t := {| capacity := capacity_; buf := []; pushes := 0 |}.

(* @src include/prediction_interface/rolling_history.hpp | void push(HistoryRound *)
Definition push (b : t) (r : HistoryRound) : t :=
  b <| buf ::= fun l => push_window (capacity b) l r |> <| pushes ::= bump |>.

(* @src include/prediction_interface/rolling_history.hpp | void pushFromEvent( *)
Definition pushFromEvent (b : t) (e : CrashEvent) (now : Z) : t :=
  if negb (bool_decide (kind e = KEnd)) || negb (valid e) then b
  else push b {| hr_gameId := if str_empty (gameId e) then roundId e else gameId e;
                 hr_multiplier := crashPoint e;
                 hr_crashedAtMs := or_now (endedAtMs e) now; hr_hash := hash e |}.

(** [trim_front] is the loop's effect here too: the elements from [size() - n] on. *)
(* @src include/prediction_interface/rolling_history.hpp | std::vector<HistoryRound> last( *)
Definition last_n (b : t) (n : nat) : list HistoryRound := trim_front n (buf b).

(* @src include/prediction_interface/rolling_history.hpp | std::optional<double> lastMultiplier() *)
Definition lastMultiplier (b : t) : option double := hr_multiplier <$> last (buf b).

(* @src include/prediction_interface/rolling_history.hpp | std::optional<double> average( *)
Definition average (b : t) (n : nat) : option double :=
  match last_n b n with
  | [] => None
  | v => Some (fdiv (fold_left (fun s r => fadd s (hr_multiplier r)) v f0) (of_Z (Z.of_nat (length v))))
  end.

(* @src include/prediction_interface/rolling_history.hpp | void clear() *)
Definition clear (b : t) : t := b <| buf := [] |>.
End RollingHistoryBuffer.

(** * Round identifiers *)

Definition is_space (c : ascii) : bool :=
  let n := Z.of_nat (nat_of_ascii c) in (n =? 32) || ((9 <=? n) && (n <=? 13)).

Definition digit (c : ascii) : option Z :=
  let n := Z.of_nat (nat_of_ascii c) in if (48 <=? n) && (n <=? 57) then Some (n - 48) else None.

Fixpoint skip_spaces (s : string) : string :=
  match s with
  | String c s' => if is_space c then skip_spaces s' else s
  | EmptyString => EmptyString
  end.

(** The value of the leading digits after [acc], and what follows them. *)
Fixpoint digits (acc : Z) (s : string) : Z * string :=
  match s with
  | String c s' => match digit c with Some d => digits (10 * acc + d) s' | None => (acc, s) end
  | EmptyString => (acc, EmptyString)
  end.

(** [std::stoull]: white space, an optional sign, digits; [None] when it throws (no digits, or
    a magnitude of more than 64 bits); a minus sign negates modulo [2^64].  With the value
    comes the part of the string it did not consume. *)
Definition stoull (s : string) : option (Z * string) :=
  let s := skip_spaces s in
  let '(neg, s) := match s with
                   | String c s' => if Ascii.eqb c "-" then (true, s')
                                    else if Ascii.eqb c "+" then (false, s') else (false, s)
                   | EmptyString => (false, s)
                   end in
  match s with
  | EmptyString => None
  | String c _ =>
      match digit c with
      | None => None
      | Some _ => let '(v, rest) := digits 0 s in
                  if v <? 2 ^ 64 then Some (if neg : bool then u64 (- v) else v, rest) else None
      end
  end.

(* @src include/prediction_interface/in_process_prediction_client.hpp | inline std::string nextRoundId( | nextRoundId *)
Definition nextRoundId (currentGameId : string) : string :=
  match stoull currentGameId with
  | Some (v, EmptyString) => to_string (u64 (v + 1))
  | _ => currentGameId +:+ ".next"
  end.

Lemma digit_pretty_N_char x : (x < 10)%N -> digit (pretty_N_char x) = Some (Z.of_N x).
Proof.
  intros Hx. assert (x ∈ [0; 1; 2; 3; 4; 5; 6; 7; 8; 9])%N as Hin by (rewrite !elem_of_cons; lia).
  repeat (apply elem_of_cons in Hin as [->|Hin]; [done|]). by apply not_elem_of_nil in Hin.
Qed.

Lemma digits_pretty_N_go x : forall s acc, acc = 0 ->
  digits acc (pretty_N_go x s) = digits (Z.of_N x) s.
Proof.
  induction (N.lt_wf_0 x) as [x _ IH]; intros s acc ->.
  destruct (decide (x = 0)%N) as [->|Hx]; [by rewrite pretty_N_go_0|].
  rewrite pretty_N_go_step by lia. rewrite IH by (first [apply N.div_lt; lia|done]). cbn [digits].
  rewrite digit_pretty_N_char by (by apply N.mod_lt).
  f_equal. pose proof (N.div_mod x 10 ltac:(done)). lia.
Qed.

Lemma pretty_N_go_head x : forall s, (0 < x)%N ->
  exists c s', pretty_N_go x s = String c s' /\ is_Some (digit c).
Proof.
  induction (N.lt_wf_0 x) as [x _ IH]; intros s Hx. rewrite pretty_N_go_step by done.
  destruct (decide (x `div` 10 = 0)%N) as [->|Hd].
  - rewrite pretty_N_go_0. eexists _, _. split; [done|]. rewrite digit_pretty_N_char by (apply N.mod_lt; done). eauto.
  - apply IH; [apply N.div_lt; lia|by apply N.neq_0_lt_0].
Qed.

Lemma to_string_N n : 0 <= n -> to_string n = pretty (Z.to_N n).
Proof. intros. destruct n; [done|done|lia]. Qed.

Lemma digits_to_string n : 0 <= n -> digits 0 (to_string n) = (n, EmptyString).
Proof.
  intros Hn. rewrite to_string_N by done. unfold pretty, pretty_N. case_decide as H.
  - assert (n = 0) as -> by lia. done.
  - rewrite digits_pretty_N_go by done. rewrite Z2N.id by done. done.
Qed.

Lemma to_string_head n : 0 <= n -> exists c s', to_string n = String c s' /\ is_Some (digit c).
Proof.
  intros Hn. rewrite to_string_N by done. unfold pretty, pretty_N. case_decide as H.
  - exists "0"%char, "". split; [done|]. by exists 0.
  - apply pretty_N_go_head. lia.
Qed.

Lemma digit_not_space c : is_Some (digit c) -> is_space c = false /\ Ascii.eqb c "-" = false /\ Ascii.eqb c "+" = false.
Proof.
  intros [d Hd]. split_and!.
  - unfold digit, is_space in *. set (n := Z.of_nat (nat_of_ascii c)) in *.
    destruct ((48 <=? n) && (n <=? 57)) eqn:E; [|done]. bool_to_prop.
    apply orb_false_iff. split; [lia|]. apply andb_false_iff. right. lia.
  - destruct (Ascii.eqb_spec c "-"); [by subst|done].
  - destruct (Ascii.eqb_spec c "+"); [by subst|done].
Qed.

Lemma stoull_to_string n : 0 <= n < 2 ^ 64 -> stoull (to_string n) = Some (n, EmptyString).
Proof.
  intros Hn. destruct (to_string_head n) as (c & s & Es & Hc); [lia|].
  destruct (digit_not_space c Hc) as (Hs & Hm & Hp). unfold stoull.
  pose proof (digits_to_string n ltac:(lia)) as Hd. rewrite Es in *. cbn [skip_spaces]. rewrite Hs, Hm, Hp.
  destruct Hc as [d Hc]. rewrite Hc, Hd. by rewrite (proj2 (Z.ltb_lt _ _)) by lia.
Qed.

(** Remark: the round after a numeric round id is its successor in decimal, for every id below
    the largest 64-bit number; that one is followed by round 0. *)
Theorem nextRoundId_numeric (n : Z) :
  0 <= n < 2 ^ 64 ->
  nextRoundId (to_string n) = if n =? 2 ^ 64 - 1 then "0" else to_string (n + 1).
Proof.
  intros Hn. unfold nextRoundId. rewrite stoull_to_string by done.
  destruct (Z.eqb_spec n (2 ^ 64 - 1)) as [->|]; [done|]. by rewrite u64_small by lia.
Qed.

Lemma nextRoundId_numeric_witness : nextRoundId "7799" = "7800".
Proof. exact (nextRoundId_numeric 7799 ltac:(lia)). Defined.

(** * The in-process client *)

(** What the client reads of a [pe::PredictResult]. *)
Record PeResult := {
  pr_predictionId : string;
  pr_target : double;
  pr_modelName : string;
  pr_probability : double;
  pr_confidence : double;
  pr_modelVersion : string
}.

(* @src include/prediction_interface/in_process_prediction_client.hpp | decisionFromSignal(const | decisionFromSignal *)
Definition decisionFromSignal (prob conf minConf targetMult qualityEdge : double) : PredictionDecision :=
  if fle prob f0 && fle conf f0 then Skip
  else
    let targetMult := if negb (fgt targetMult f1) || negb (is_finite targetMult) then flit 130 100 else targetMult in
    let qualityEdge := if negb (fge qualityEdge f0) || negb (is_finite qualityEdge) then flit 2 100 else qualityEdge in
    let threshold := fadd (fdiv f1 targetMult) qualityEdge in
    if fge prob threshold && fge conf minConf then Enter else Skip.

Module InProcessPredictionClient.

(* @src include/prediction_interface/in_process_prediction_client.hpp:67-74 Options *)
Record Options := {
  minConfidence : double;
  defaultTarget : double;
  qualityEdge : double;
  reducedEdge : double;
  warmMinSamples : Z;
  autoObserveOnSubmit : bool;
  strategyMode : acie.StrategyMode
}.

(* @src include/prediction_interface/in_process_prediction_client.hpp:67-74 Options *)
Definition default_options : Options := {|
  minConfidence := flit 55 100; defaultTarget := flit 130 100; qualityEdge := flit 2 100;
  reducedEdge := flit 5 1000; warmMinSamples := 20; autoObserveOnSubmit := true; strategyMode := acie.Quality |}.

(** The strategy and the legacy gate on the engine's signal; [edge] is the current adaptive
    edge, if one is installed. *)
(* @src include/prediction_interface/in_process_prediction_client.hpp:168-188 InProcessPredictionClient::submit *)
Definition decide_entry (opt : Options) (edge : option double) (observed : Z) (pr : PeResult) : PredictionDecision :=
  let scfg := {|
    acie.mode := strategyMode opt; acie.defaultTarget := defaultTarget opt;
    acie.qualityEdge := match edge with Some e => e | None => qualityEdge opt end;
    acie.reducedEdge := reducedEdge opt; acie.conservativeExtra := flit 3 100;
    acie.minConfidence := minConfidence opt; acie.reducedMinConfidence := flit 45 100;
    acie.warmMinSamples := warmMinSamples opt |} in
  let sin := {|
    acie.probability := pr_probability pr; acie.confidence := pr_confidence pr;
    acie.targetMult := defaultTarget opt; acie.samplesSeen := observed;
    acie.modelStale := false; acie.entitlementOk := true |} in
  let d := acie.decision (acie.evaluateStrategy sin scfg) in
  if decide (d = Enter) then
    match decisionFromSignal (pr_probability pr) (pr_confidence pr) (minConfidence opt) (defaultTarget opt)
            (acie.qualityEdge scfg) with
    | Skip => Skip
    | _ => d
    end
  else d.

(** The probability an entry needs: that of a fair bet at the target, plus the edge. *)
Definition required (opt : Options) (edge : option double) : double :=
  fadd (acie.fairProbability (defaultTarget opt)) (match edge with Some e => e | None => qualityEdge opt end).

Definition sane (opt : Options) (edge : option double) : Prop :=
  let e := match edge with Some e => e | None => qualityEdge opt end in
  fgt (defaultTarget opt) f1 = true /\ fge e f0 = true /\ is_finite e = true.

Lemma decisionFromSignal_spec opt edge pr :
  sane opt edge ->
  decisionFromSignal (pr_probability pr) (pr_confidence pr) (minConfidence opt) (defaultTarget opt)
    (match edge with Some e => e | None => qualityEdge opt end) =
  (if negb (fle (pr_probability pr) f0 && fle (pr_confidence pr) f0) &&
      (fge (pr_probability pr) (required opt edge) && fge (pr_confidence pr) (minConfidence opt))
   then Enter else Skip).
Proof.
  intros (Ht & He & Hf). unfold decisionFromSignal, required, acie.fairProbability.
  rewrite Ht, He, Hf. simpl. destruct (fle _ f0 && fle _ f0); simpl; [done|].
  by destruct (is_finite (defaultTarget opt)).
Qed.

Lemma fge_flt x y : fge x y = true -> flt x y = false.
Proof. unfold fge, flt. intros H. destruct (SFltb x y) eqn:E; [|done]. apply flt_nle in E. unfold fle in E. congruence. Qed.

(** Remark: whatever the strategy mode, an entry needs a warm engine, a signal that reaches the
    fair probability plus the quality (or adaptive) edge, and the full confidence floor; in
    quality mode these conditions also suffice.  The reduced edge and the lower confidence
    floor of the high-frequency mode and of reduced entries never let anything through. *)
Theorem entry_gate (opt : Options) (edge : option double) (observed : Z) (pr : PeResult) :
  sane opt edge ->
  let passes := warmMinSamples opt <= observed /\
                fle (pr_probability pr) f0 && fle (pr_confidence pr) f0 = false /\
                fge (pr_probability pr) (required opt edge) = true /\
                fge (pr_confidence pr) (minConfidence opt) = true in
  (decide_entry opt edge observed pr = Enter -> passes) /\
  (strategyMode opt = acie.Quality -> passes -> decide_entry opt edge observed pr = Enter) /\
  decide_entry opt edge observed pr <> Hold.
Proof.
  intros Hs passes. unfold decide_entry. cbn [acie.qualityEdge]. rewrite decisionFromSignal_spec by done.
  match goal with |- context [acie.evaluateStrategy ?i ?c] => set (sin := i); set (scfg := c) end.
  split_and!.
  - case_decide as Hd; [|done]. destruct (negb _ && _) eqn:E; [|done]. intros _. bool_to_prop.
    apply acie.evaluateStrategy_enter in Hd as (_ & _ & Hw & _). by split_and!.
  - intros Hq (Hw & Hz & Hp & Hc). rewrite Hz, Hp, Hc. simpl.
    assert (acie.decision (acie.evaluateStrategy sin scfg) = Enter) as ->; [|by case_decide].
    destruct Hs as (Ht & _). unfold required in Hp.
    unfold acie.evaluateStrategy, acie.mode_edge; simpl; rewrite Hq; simpl.
    rewrite (proj2 (Z.ltb_ge _ _)) by done. rewrite Hz. simpl. rewrite fge_flt by done.
    rewrite Ht, Hp. done.
  - case_decide as Hd.
    + rewrite Hd. by case_match.
    + intros Hh. rewrite <-acie.action_decision in Hh. by destruct (acie.action _).
Qed.

(** ** The client's state

    [E] is the state of [pe::PredictionEngine]; [observe] feeds it a crash point, [is_cold]
    reads its life-cycle state, and [predict] answers or throws (with the text that
    [pe::toString] or [what] gives). *)
Section Client.
Context {E C : Type}.
Variable observe : E -> double -> option Z -> E.
Variable is_cold : E -> bool.
Variable predict : E -> string -> double -> (PeResult + string) * E.

(* @src include/prediction_interface/in_process_prediction_client.hpp:240-247 InProcessPredictionClient *)
Record t := {
  opt : Options;
  engine : E;
  tracker : option LatencyTracker.t;
  history : RollingHistoryBuffer.t;
  last_observed_round : string;
  last_response : PredictionResponse;
  pending : gmap string PredictionResponse;
  observed : Z;
  predicted : Z;
  actionable : Z;
  errors : Z;
  submitted : Z
}.
#[export] Instance eta_t : Eta t := fun r =>
  {| opt := opt r; engine := engine r; tracker := tracker r; history := history r;
     last_observed_round := last_observed_round r; last_response := last_response r;
     pending := pending r; observed := observed r; predicted := predicted r;
     actionable := actionable r; errors := errors r; submitted := submitted r |}.

(* @src include/prediction_interface/in_process_prediction_client.hpp:84-89 InProcessPredictionClient *)
Definition make (o : Options) (e : E) (tr : option LatencyTracker.t) : t := {|
  opt := o; engine := e; tracker := tr; history := RollingHistoryBuffer.make 256; last_observed_round := "";
  last_response := default_response; pending := ∅; observed := 0; predicted := 0; actionable := 0;
  errors := 0; submitted := 0 |}.

(** [round_of_end] is [endEv.roundId.empty() ? endEv.gameId : endEv.roundId]. *)
Definition round_of_end (e : CrashEvent) : string := if str_empty (roundId e) then gameId e else roundId e.

Definition crash_of (e : CrashEvent) : double := if fgt (crashPoint e) f0 then crashPoint e else currentMult e.

(* @src include/prediction_interface/in_process_prediction_client.hpp | void observeEnd( *)
Definition observeEnd (c : t) (e : CrashEvent) (now : Z) : t :=
  if negb (bool_decide (kind e = KEnd)) || negb (valid e) then c
  else
    let cp := crash_of e in
    if negb (fgt cp f0) || negb (is_finite cp) then c
    else
      let began := if 0 <? beganAtMs e then Some (beganAtMs e) else None in
      c <| engine ::= fun g => observe g cp began |>
        <| history ::= fun h => RollingHistoryBuffer.pushFromEvent h e now |>
        <| last_observed_round := round_of_end e |> <| observed ::= bump |>.

(** A cold engine is fed the rolling history first. *)
(* @src include/prediction_interface/in_process_prediction_client.hpp:149-152 InProcessPredictionClient::submit *)
Definition warm_engine (c : t) : E :=
  if is_cold (engine c) then
    fold_left (fun g r => if fgt (RollingHistoryBuffer.hr_multiplier r) f0
                          then observe g (RollingHistoryBuffer.hr_multiplier r) None else g)
      (RollingHistoryBuffer.last_n (history c) 256) (engine c)
  else engine c.

(** The response before the prediction: [now] and [ns] are its time stamps. *)
(* @src include/prediction_interface/in_process_prediction_client.hpp:131-135 InProcessPredictionClient::submit *)
Definition response_for (req : PredictionRequest) (now ns : Z) : PredictionResponse :=
  default_response <| rs_correlationId := rq_correlationId req |> <| rs_targetRoundId := rq_targetRoundId req |>
                   <| rs_responseTimeMs := now |> <| rs_responseNs := ns |>.

(* @src include/prediction_interface/in_process_prediction_client.hpp:158-191 InProcessPredictionClient::submit *)
Definition fill_response (o : Options) (edge : option double) (observed_ : Z) (req : PredictionRequest)
    (pr : PeResult) (resp : PredictionResponse) : PredictionResponse :=
  resp <| rs_predictionId := if str_empty (pr_predictionId pr) then "pe-" +:+ rq_correlationId req else pr_predictionId pr |>
       <| rs_confidence := pr_confidence pr |> <| rs_probability := pr_probability pr |>
       <| rs_targetMult := pr_target pr |>
       <| rs_modelVersion := if str_empty (pr_modelVersion pr) then pr_modelName pr else pr_modelVersion pr |>
       <| rs_decision := decide_entry o edge observed_ pr |> <| rs_valid := true |>.

(** The answer to a request: an exception of the engine becomes a [Skip]. *)
(* @src include/prediction_interface/in_process_prediction_client.hpp:131-207 InProcessPredictionClient::submit *)
Definition answer (c : t) (edge : option double) (req : PredictionRequest) (now ns : Z) : PredictionResponse * t :=
  let resp := response_for req now ns in
  let '(r, g) := predict (warm_engine c) (rq_targetRoundId req) (defaultTarget (opt c)) in
  let c := c <| engine := g |> in
  match r with
  | inl pr =>
      let resp := fill_response (opt c) edge (observed c) req pr resp in
      let c := c <| predicted ::= bump |> in
      (resp, if decide (rs_decision resp = Enter) then c <| actionable ::= bump |> else c)
  | inr what =>
      (resp <| rs_valid := true |> <| rs_decision := Skip |> <| rs_confidence := f0 |>
            <| rs_modelVersion := "pe-error:" +:+ what |> <| rs_predictionId := "skip-" +:+ rq_correlationId req |>,
       c <| errors ::= bump |>)
  end.

(** The response handler; it may use the client again. *)
Variable handler : PredictionResponse -> t * C -> t * C.

(* @src include/prediction_interface/in_process_prediction_client.hpp:129-220 InProcessPredictionClient::submit *)
Definition submit (c : t) (edge : option double) (req : PredictionRequest) (now ns t0 t1 : Z) (w : C) : Result unit * (t * C) :=
  let '(resp, c) := answer c edge req now ns in
  let c := c <| pending ::= insert (rq_correlationId req) resp |> <| last_response := resp |>
             <| submitted ::= bump |>
             <| tracker ::= fmap (fun tr => LatencyTracker.record tr LatencyTracker.Ipc (Z.quot (t1 - t0) 1000)) |> in
  (Ok tt, handler resp (c, w)).

(* @src include/prediction_interface/prediction_client.hpp | std::optional<PredictionResponse> pollResponse( *)
Definition pollResponse (c : t) (cid : string) : option PredictionResponse * t :=
  match pending c !! cid with
  | None => (None, c)
  | Some r => (Some r, c <| pending ::= delete cid |>)
  end.

(* @src include/prediction_interface/in_process_prediction_client.hpp:111-118 InProcessPredictionClient::predictNextAfterEnd *)
Definition next_request (e : CrashEvent) (now ns : Z) : PredictionRequest :=
  let target := nextRoundId (round_of_end e) in
  {| rq_targetRoundId := target; rq_gameId := gameId e; rq_requestTimeMs := now; rq_requestNs := ns;
     rq_sequence := i64 (sequence e + 1); rq_currentMult := crashPoint e;
     rq_correlationId := target +:+ "-n1-" +:+ to_string now |}.

(** [now1] to [now3] and [ns1], [ns2] are the successive readings of the clocks. *)
(* @src include/prediction_interface/in_process_prediction_client.hpp | Result<PredictionResponse> predictNextAfterEnd( *)
Definition predictNextAfterEnd (c : t) (edge : option double) (e : CrashEvent)
    (now1 now2 ns1 now3 ns2 t0 t1 : Z) (w : C) : Result PredictionResponse * (t * C) :=
  let c := observeEnd c e now1 in
  let req := next_request e now2 ns1 in
  match submit c edge req now3 ns2 t0 t1 w with
  | (Err er, cw) => (Err er, cw)
  | (Ok _, (c, w)) =>
      let '(polled, c) := pollResponse c (rq_correlationId req) in
      (Ok (match polled with Some r => r | None => last_response c end), (c, w))
  end.

Lemma answer_ids c edge req now ns :
  let '(resp, c') := answer c edge req now ns in
  rs_targetRoundId resp = rq_targetRoundId req /\ rs_correlationId resp = rq_correlationId req /\
  rs_valid resp = true /\ rs_responseTimeMs resp = now /\
  (rs_predictionId resp <> EmptyString) /\
  (rs_decision resp = Enter -> exists pr, fst (predict (warm_engine c) (rq_targetRoundId req) (defaultTarget (opt c))) = inl pr /\
     decide_entry (opt c) edge (observed c) pr = Enter /\ rs_confidence resp = pr_confidence pr) /\
  pending c' = pending c /\ history c' = history c /\ observed c' = observed c.
Proof.
  unfold answer. destruct (predict _ _ _) as [[pr|what] g]; simpl.
  - assert ((if str_empty (pr_predictionId pr) then "pe-" +:+ rq_correlationId req else pr_predictionId pr) <> EmptyString).
    { destruct (str_empty _) eqn:Es; [done|by apply str_empty_false]. }
    case_decide; simpl; split_and!; try done; eauto.
  - split_and!; done.
Qed.

(** What the handler is called with, and what is returned, for a handler that keeps the
    pending responses. *)
Lemma predict_next_core (c : t) (edge : option double) (e : CrashEvent)
    (now1 now2 ns1 now3 ns2 t0 t1 : Z) (w : C) resp c2 :
  (forall resp c w, pending (fst (handler resp (c, w))) = pending c) ->
  answer (observeEnd c e now1) edge (next_request e now2 ns1) now3 ns2 = (resp, c2) ->
  exists c3, observed c3 = observed c2 /\
    predictNextAfterEnd c edge e now1 now2 ns1 now3 ns2 t0 t1 w =
    (Ok resp, ((fst (handler resp (c3, w))) <| pending ::= delete (rq_correlationId (next_request e now2 ns1)) |>,
               snd (handler resp (c3, w)))).
Proof.
  intros Hh Ha. unfold predictNextAfterEnd, submit. rewrite Ha.
  match goal with |- context [handler resp (?x, w)] => set (c3 := x) end.
  exists c3. split; [done|]. specialize (Hh resp c3 w). destruct (handler resp (c3, w)) as [c4 w']. simpl in *.
  unfold pollResponse. rewrite Hh. unfold c3; simpl. by rewrite lookup_insert_eq.
Qed.

(** The same for a handler that does not touch the client. *)
Lemma predict_next_spec (c : t) (edge : option double) (e : CrashEvent)
    (now1 now2 ns1 now3 ns2 t0 t1 : Z) (w : C) :
  (forall resp c w, fst (handler resp (c, w)) = c) ->
  let '(r, (c', w')) := predictNextAfterEnd c edge e now1 now2 ns1 now3 ns2 t0 t1 w in
  exists resp c0, r = Ok resp /\ rs_targetRoundId resp = nextRoundId (round_of_end e) /\
    w' = snd (handler resp (c0, w)) /\ observed c' = observed (observeEnd c e now1).
Proof.
  intros Hh. pose proof (answer_ids (observeEnd c e now1) edge (next_request e now2 ns1) now3 ns2) as H.
  destruct (answer _ _ _ _ _) as [resp c2] eqn:Ha. destruct H as (Ht & _ & _ & _ & _ & _ & _ & _ & Hob).
  apply (predict_next_core c edge e now1 now2 ns1 now3 ns2 t0 t1 w) in Ha as (c3 & Ho & ->); [|by intros; rewrite Hh].
  exists resp, c3. split_and!; try done. simpl. by rewrite Hh, Ho.
Qed.

(** C24: after the end of round N the client always answers with one valid response for round
    N+1, under a correlation id of that round, and leaves no response pending for it.  The
    response is an entry only if the engine, warmed up with the observed round, answered
    without an exception and its signal passed the entry gate.  The response handler is
    called with the same response, and may do anything that keeps the pending responses. *)
Theorem predict_next_answers (c : t) (edge : option double) (e : CrashEvent)
    (now1 now2 ns1 now3 ns2 t0 t1 : Z) (w : C) :
  (forall resp c w, pending (fst (handler resp (c, w))) = pending c) ->
  let c1 := observeEnd c e now1 in
  let '(r, (c', w')) := predictNextAfterEnd c edge e now1 now2 ns1 now3 ns2 t0 t1 w in
  exists resp c0, r = Ok resp /\
    rs_targetRoundId resp = nextRoundId (round_of_end e) /\
    rs_correlationId resp = nextRoundId (round_of_end e) +:+ "-n1-" +:+ to_string now2 /\
    rs_valid resp = true /\ rs_predictionId resp <> EmptyString /\
    pending c' !! rs_correlationId resp = None /\
    w' = snd (handler resp (c0, w)) /\
    (rs_decision resp = Enter -> exists pr,
       fst (predict (warm_engine c1) (nextRoundId (round_of_end e)) (defaultTarget (opt c1))) = inl pr /\
       decide_entry (opt c1) edge (observed c1) pr = Enter /\ rs_confidence resp = pr_confidence pr).
Proof.
  intros Hh c1. pose proof (answer_ids c1 edge (next_request e now2 ns1) now3 ns2) as H.
  destruct (answer _ _ _ _ _) as [resp c2] eqn:Ha. destruct H as (Ht & Hcid & Hv & _ & Hid & Hd & _).
  apply (predict_next_core c edge e now1 now2 ns1 now3 ns2 t0 t1 w) in Ha as (c3 & _ & ->); [|done].
  exists resp, c3. split_and!; try done. rewrite Hcid. simpl. apply lookup_delete_eq.
Qed.
End Client.
Arguments t : clear implicits.
End InProcessPredictionClient.

Definition sample_signal (p c : double) : PeResult := {|
  pr_predictionId := "pid"; pr_target := flit 130 100; pr_modelName := "m"; pr_probability := p;
  pr_confidence := c; pr_modelVersion := "v1" |}.

Lemma entry_gate_witness :
  InProcessPredictionClient.decide_entry InProcessPredictionClient.default_options None 20
    (sample_signal (flit 79 100) (flit 60 100)) = Enter.
Proof.
  apply (proj1 (proj2 (InProcessPredictionClient.entry_gate InProcessPredictionClient.default_options None 20
    (sample_signal (flit 79 100) (flit 60 100)) ltac:(vm_compute; repeat split; reflexivity))));
    vm_compute; repeat split; discriminate.
Defined.

(** An engine that counts its observations, is cold until the third one and always proposes
    the same signal. *)
Definition demo_observe (n : nat) (_ : double) (_ : option Z) : nat := S n.
Definition demo_cold (n : nat) : bool := (n <? 3)%nat.
Definition demo_predict (n : nat) (_ : string) (_ : double) : (PeResult + string) * nat :=
  (inl (sample_signal (flit 79 100) (flit 60 100)), n).

Definition demo_end (rid : string) : CrashEvent :=
  default_event <| kind := KEnd |> <| roundId := rid |> <| valid := true |> <| crashPoint := of_Z 2 |>.

Definition demo_client : InProcessPredictionClient.t nat :=
  InProcessPredictionClient.make InProcessPredictionClient.default_options 0%nat None.

Definition demo_next (c : InProcessPredictionClient.t nat) (rid : string) :
    Result PredictionResponse * (InProcessPredictionClient.t nat * nat) :=
  InProcessPredictionClient.predictNextAfterEnd demo_observe demo_cold demo_predict
    (fun _ cw => (fst cw, S (snd cw))) c None (demo_end rid) 1 2 3 4 5 6 7 0%nat.

Lemma predict_next_answers_witness :
  exists resp, fst (demo_next demo_client "7") = Ok resp /\ rs_targetRoundId resp = "8".
Proof.
  pose proof (InProcessPredictionClient.predict_next_answers demo_observe demo_cold demo_predict
    (fun _ cw => (fst cw, S (snd cw))) demo_client None (demo_end "7") 1 2 3 4 5 6 7 0%nat
    (fun _ _ _ => eq_refl)) as H.
  unfold demo_next. destruct (InProcessPredictionClient.predictNextAfterEnd _ _ _ _ _ _ _ _ _ _ _ _ _ _ _) as [r [c' w']].
  destruct H as (resp & c0 & -> & Ht & _).
  exists resp. split; [reflexivity|]. rewrite Ht. vm_compute. reflexivity.
Defined.

(** Remark: a cold engine sees a round more than once: the end of a round is fed to the engine
    and pushed to the history, and the prediction that follows feeds the whole history again:
    after a single end the engine has made two observations. *)
Lemma cold_engine_sees_rounds_twice :
  let c1 := fst (snd (demo_next demo_client "7")) in
  InProcessPredictionClient.observed c1 = 1 /\ InProcessPredictionClient.engine c1 = 2%nat /\
  length (RollingHistoryBuffer.buf (InProcessPredictionClient.history c1)) = 1%nat.
Proof. vm_compute. repeat split. Qed.
