(* ===== verification/FloatSign.v ===== *)
(** Binary64 numbers that are not negative: sums, products and quotients of them are again not
    negative, and in particular not NaN, so a clamp at the end bounds them. *)
From S2P Require Import Prelude Float64.

Open Scope Z_scope.

(** Not NaN and not below zero; minus zero counts as zero. *)
Definition nonneg (x : double) : bool :=
  match x with S754_zero _ => true | S754_infinity s | S754_finite s _ _ => negb s | S754_nan => false end.

(** Above zero and below infinity. *)
Definition fpositive (x : double) : bool := match x with S754_finite false _ _ => true | _ => false end.

Lemma nonneg_spec x : nonneg x = negb (is_nan x) && fle f0 x.
Proof. by destruct x as [[]|[]| |[] m e]. Qed.

Lemma nonneg_not_nan x : nonneg x = true -> is_nan x = false.
Proof. by destruct x. Qed.

Lemma fpositive_nonneg x : fpositive x = true -> nonneg x = true.
Proof. by destruct x as [| | |[]]. Qed.

Lemma round_aux_nonneg m e l : 0 <= m -> nonneg (binary_round_aux prec64 emax64 false m e l) = true.
Proof.
  intros Hm. unfold binary_round_aux. pose proof (shr_fexp_nonneg prec64 emax64 m e l Hm) as H1.
  destruct (shr_fexp _ _ m e l) as [r e']. simpl in H1.
  pose proof (shr_fexp_nonneg prec64 emax64 _ e' loc_Exact (round_nearest_even_nonneg _ (loc_of_shr_record r) H1)) as H2.
  destruct (shr_fexp _ _ (round_nearest_even _ _) e' loc_Exact) as [r' e'']. simpl in H2.
  destruct (shr_m r'); [done|by case_match|lia].
Qed.

Lemma normalize_nonneg m e sz : 0 <= m -> nonneg (binary_normalize prec64 emax64 m e sz) = true.
Proof.
  intros Hm. destruct m as [|p|p]; [done| |lia]. cbn [binary_normalize]. unfold binary_round. destruct (shl_align _ _ _) as [mz ez].
  by apply round_aux_nonneg.
Qed.

Lemma of_Z_nonneg n : 0 <= n -> nonneg (of_Z n) = true.
Proof. apply normalize_nonneg. Qed.

Lemma fadd_nonneg x y : nonneg x = true -> nonneg y = true -> nonneg (fadd x y) = true.
Proof.
  intros Hx Hy. unfold fadd. destruct x as [[]|[]| |[] m e], y as [[]|[]| |[] m' e']; try done.
  cbn [SFadd cond_Zopp]. by apply normalize_nonneg.
Qed.

Lemma fmul_nonneg x y : fpositive x = true -> nonneg y = true -> nonneg (fmul x y) = true.
Proof.
  intros Hx Hy. unfold fmul. destruct x as [| | |[] m e], y as [[]|[]| |[] m' e']; try done. by apply round_aux_nonneg.
Qed.

Lemma fmul_nonneg_r x y : nonneg x = true -> fpositive y = true -> nonneg (fmul x y) = true.
Proof.
  intros Hx Hy. unfold fmul. destruct x as [[]|[]| |[] m e], y as [| | |[] m' e']; try done. by apply round_aux_nonneg.
Qed.

Lemma fdiv_nonneg x y : nonneg x = true -> fpositive y = true -> nonneg (fdiv x y) = true.
Proof.
  intros Hx Hy. unfold fdiv. destruct x as [[]|[]| |[] m e], y as [| | |[] m' e']; try done. cbn [SFdiv xorb].
  unfold SFdiv_core_binary. destruct (Z.div_eucl _ _) as [q r] eqn:Eq. apply round_aux_nonneg.
  match type of Eq with Z.div_eucl ?a ?b = _ => pose proof (Z.div_pos a b) as Hq; unfold Z.div in Hq; rewrite Eq in Hq end.
  apply Hq; [|lia]. case_match; [lia|apply Z.shiftl_nonneg; lia|lia].
Qed.

Lemma fmin_nonneg x y : nonneg x = true -> nonneg y = true -> nonneg (fmin x y) = true.
Proof. intros. unfold fmin. by case_match. Qed.

Lemma fmax_nonneg x y : nonneg x = true -> nonneg y = true -> nonneg (fmax x y) = true.
Proof. intros. unfold fmax. by case_match. Qed.

(** [std::max(lo, std::min(hi, x))] is in its bounds even for NaN. *)
Lemma max_min_range lo hi x : is_nan lo = false -> is_nan hi = false -> fle lo hi = true ->
  fle lo (fmax lo (fmin hi x)) = true /\ fle (fmax lo (fmin hi x)) hi = true.
Proof.
  intros Hl Hh Hle. unfold fmax, fmin. destruct (flt x hi) eqn:H1.
  - destruct (flt lo x) eqn:H2; split; forder.
  - destruct (flt lo hi) eqn:H2; split; forder.
Qed.
