(* ===== verification/PeState.v ===== *)
(** The incremental state of the prediction engine ([third_party/predictions-engine/include/pe/state/incremental_state_engine.hpp]
    and its [.cpp]), which the prediction client observes every round with.

    The counters of the source are 32-bit [int]s that only ever grow by one per round, so they
    are [Z] here and the reference theorem bounds each of them by the number of rounds.  The two
    rings are arrays with a write position; indices, which are never negative, are [nat].  [now]
    is a reading of the clock.  The reference functions at the start recompute every statistic
    from the whole history. *)
From S2P Require Import Prelude Float64.

Open Scope string_scope.
Open Scope list_scope.
Open Scope Z_scope.

(** * Statistics of a whole history *)
Section Reference.
Context {A : Type}.
Implicit Types (p : A -> bool) (h : list A).

Fixpoint run_at_front p h : nat :=
  match h with
  | x :: h => if p x then S (run_at_front p h) else 0%nat
  | [] => 0%nat
  end.

(** The length of the longest suffix of which every element satisfies [p]. *)
Definition trail p h : nat := run_at_front p (rev h).

(** The longest run anywhere: the longest of those that end after some prefix. *)
Definition longest p h : nat := list_max (map (fun i => trail p (take i h)) (seq 0 (S (length h)))).

Definition count p h : nat := length (List.filter p h).

(** How often an element of kind [a] was followed by one of kind [b]. *)
Definition steps p (a b : bool) h : nat :=
  length (List.filter (fun xy => eqb (p xy.1) a && eqb (p xy.2) b) (zip h (tail h))).

Lemma trail_snoc p h x : trail p (h ++ [x]) = if p x then S (trail p h) else 0%nat.
Proof. unfold trail. by rewrite rev_app_distr. Qed.

Lemma longest_snoc p h x : longest p (h ++ [x]) = Nat.max (longest p h) (trail p (h ++ [x])).
Proof.
  unfold longest. rewrite length_app, Nat.add_1_r, (seq_S (S (length h))), map_app, list_max_app.
  cbn [map Nat.add]. rewrite take_ge by (rewrite length_app; cbn; lia). cbn [list_max foldr].
  f_equal; [|cbn; lia]. f_equal. apply map_ext_in. intros i Hi%in_seq. by rewrite take_app_le by lia.
Qed.

Lemma count_snoc p h x : count p (h ++ [x]) = (count p h + if p x then 1 else 0)%nat.
Proof. unfold count. rewrite List.filter_app, length_app. cbn. by destruct (p x). Qed.

Lemma count_rev p h : count p (rev h) = count p h.
Proof.
  induction h as [|x h IH]; [done|]. cbn [rev]. rewrite count_snoc, IH. change (x :: h) with ([x] ++ h). unfold count.
  rewrite List.filter_app, length_app. cbn. destruct (p x); cbn; lia.
Qed.

Lemma count_le p h : (count p h <= length h)%nat.
Proof. apply List.filter_length_le. Qed.

Lemma trail_le p h : (trail p h <= length h)%nat.
Proof. induction h as [|x h IH] using rev_ind; [done|]. rewrite trail_snoc, length_app. cbn. destruct (p x); lia. Qed.

Lemma longest_le p h : (longest p h <= length h)%nat.
Proof.
  induction h as [|x h IH] using rev_ind; [done|]. rewrite longest_snoc. pose proof (trail_le p (h ++ [x])).
  rewrite length_app in *. cbn in *. lia.
Qed.

Lemma zip_tail_snoc h (x : A) : zip (h ++ [x]) (tail (h ++ [x])) = zip h (tail h) ++ (match last h with Some y => [(y, x)] | None => [] end).
Proof.
  induction h as [|y h IH]; [done|]. destruct h as [|z h]; [done|].
  change (zip ((y :: z :: h) ++ [x]) (tail ((y :: z :: h) ++ [x]))) with ((y, z) :: zip ((z :: h) ++ [x]) (tail ((z :: h) ++ [x]))).
  rewrite IH. done.
Qed.

Lemma steps_snoc p a b h x :
  steps p a b (h ++ [x]) =
  (steps p a b h + match last h with Some y => if eqb (p y) a && eqb (p x) b then 1 else 0 | None => 0 end)%nat.
Proof.
  unfold steps. rewrite zip_tail_snoc, List.filter_app, length_app. f_equal. destruct (last h) as [y|]; [|done]. cbn.
  by destruct (eqb (p y) a && eqb (p x) b).
Qed.

(** Every transition is counted once. *)
Lemma steps_total p h :
  (steps p false false h + steps p false true h + steps p true false h + steps p true true h = length h - 1)%nat.
Proof.
  induction h as [|x h IH] using rev_ind; [done|]. rewrite !steps_snoc, length_app. destruct h as [|y h] using rev_ind; [done|].
  rewrite last_snoc, length_app in *. cbn in *. destruct (p x), (p y); cbn; lia.
Qed.
End Reference.

(** * Rings

    [holds cap ring pos len h]: the array keeps the last [cap] elements of [h], the element of
    index [i] in the history at [i mod cap]; [pos] is the next place to write. *)
Section Ring.
Context {A : Type}.
Implicit Types (ring h : list A).

Definition holds (cap : nat) (ring : list A) (pos len : nat) (h : list A) : Prop :=
  (0 < cap)%nat /\ length ring = cap /\ pos = (length h mod cap)%nat /\ len = Nat.min (length h) cap /\
  forall i, (i < length h)%nat -> (length h < i + S cap)%nat -> ring !! (i mod cap)%nat = h !! i.

Lemma holds_make cap (x : A) : (0 < cap)%nat -> holds cap (replicate cap x) 0 0 [].
Proof.
  intros H. unfold holds. rewrite length_replicate. cbn [length]. split_and!; try done.
  - by rewrite Nat.Div0.mod_0_l.
  - cbn. lia.
Qed.

Lemma mod_apart cap i j : (i < j)%nat -> (j < i + cap)%nat -> (i mod cap <> j mod cap)%nat.
Proof.
  intros H1 H2 E. assert ((j - i) mod cap = 0)%nat as H.
  { pose proof (Nat.div_mod_eq i cap). pose proof (Nat.div_mod_eq j cap).
    replace (j - i)%nat with ((j / cap - i / cap) * cap)%nat by nia. apply Nat.Div0.mod_mul. }
  rewrite Nat.mod_small in H by lia. lia.
Qed.

Lemma holds_push cap ring pos len h (x : A) :
  holds cap ring pos len h ->
  holds cap (<[pos := x]> ring) ((pos + 1) mod cap) (if (len <? cap)%nat then len + 1 else len)%nat (h ++ [x]).
Proof.
  intros (Hc & Hl & -> & -> & Hr). unfold holds. rewrite length_insert, length_app. cbn [length]. split_and!; try done.
  - by rewrite Nat.Div0.add_mod_idemp_l.
  - destruct (Nat.ltb_spec (Nat.min (length h) cap) cap); lia.
  - intros i Hi Hw. destruct (decide (i = length h)) as [->|Hne].
    + rewrite list_lookup_insert_eq by (rewrite Hl; apply Nat.mod_upper_bound; lia). by rewrite lookup_app_r, Nat.sub_diag by lia.
    + rewrite list_lookup_insert_ne by (apply not_eq_sym, mod_apart; lia). rewrite lookup_app_l by lia. apply Hr; lia.
Qed.

(** The element that is overwritten when the ring is full: the oldest one kept. *)
Lemma holds_evicted cap ring pos h : holds cap ring pos cap h -> ring !! pos = h !! (length h - cap)%nat.
Proof.
  intros (Hc & Hl & -> & Hn & Hr). rewrite <- Hr by lia. f_equal.
  replace (length h) with ((length h - cap) + 1 * cap)%nat at 1 by lia. by rewrite Nat.Div0.mod_add.
Qed.

(** The [n]-th newest. *)
Lemma holds_newest cap ring pos len h n :
  holds cap ring pos len h -> (0 < n <= len)%nat -> ring !! ((pos + cap - n) mod cap)%nat = h !! (length h - n)%nat.
Proof.
  intros (Hc & Hl & -> & -> & Hr) Hn. rewrite <- Hr by lia. f_equal.
  replace (length h mod cap + cap - n)%nat with (length h mod cap + (cap - n))%nat by lia. rewrite Nat.Div0.add_mod_idemp_l.
  replace (length h + (cap - n))%nat with ((length h - n) + 1 * cap)%nat by lia. by rewrite Nat.Div0.mod_add.
Qed.

(** Counted from the oldest one kept, from either way the source writes the start. *)
Lemma holds_oldest cap ring pos len h i :
  holds cap ring pos len h -> (i < len)%nat ->
  ring !! (((if (len <? cap)%nat then 0 else pos) + i) mod cap)%nat = h !! (length h - len + i)%nat /\
  ring !! ((((pos + cap - len) mod cap) + i) mod cap)%nat = h !! (length h - len + i)%nat.
Proof.
  intros (Hc & Hl & -> & -> & Hr) Hi. rewrite <- Hr by lia. split; f_equal.
  - destruct (Nat.ltb_spec (Nat.min (length h) cap) cap).
    + f_equal. lia.
    + rewrite Nat.Div0.add_mod_idemp_l. replace (length h + i)%nat with ((length h - Nat.min (length h) cap + i) + 1 * cap)%nat by lia.
      by rewrite Nat.Div0.mod_add.
  - rewrite Nat.Div0.add_mod_idemp_l. replace (length h mod cap + cap - Nat.min (length h) cap + i)%nat with
      (length h mod cap + (cap - Nat.min (length h) cap + i))%nat by lia. rewrite Nat.Div0.add_mod_idemp_l.
    replace (length h + (cap - Nat.min (length h) cap + i))%nat with ((length h - Nat.min (length h) cap + i) + 1 * cap)%nat by lia.
    by rewrite Nat.Div0.mod_add.
Qed.
End Ring.

(** * [IncrementalStateEngine] *)
Module IncrementalStateEngine.

(* @src third_party/predictions-engine/include/pe/state/incremental_state_engine.hpp | struct HitCounters { *)
Record HitCounters := { t13 : Z; t20 : Z; t50 : Z; t100 : Z }.
(* @src third_party/predictions-engine/include/pe/state/incremental_state_engine.hpp | struct RunState { *)
Record RunState := {
  below13 : Z; above13 : Z; below15 : Z; below20 : Z; above20 : Z; maxBelow13 : Z; maxAbove13 : Z; maxBelow20 : Z }.
(* @src third_party/predictions-engine/include/pe/state/incremental_state_engine.hpp | struct SinceCounters { *)
Record SinceCounters := { s13 : Z; s20 : Z; s50 : Z; s100 : Z }.
(* @src third_party/predictions-engine/include/pe/state/incremental_state_engine.hpp | enum class EngineLifecycleState { *)
Inductive EngineLifecycleState := COLD | WARMING | WARM | PRODUCTION | DEGRADED.
#[export] Instance EngineLifecycleState_eq_dec : EqDecision EngineLifecycleState.
Proof. solve_decision. Defined.

(* @src third_party/predictions-engine/include/pe/state/incremental_state_engine.hpp | inline const char* toString(EngineLifecycleState *)
Definition lifecycle_name (s : EngineLifecycleState) : string :=
  match s with
  | COLD => "COLD" | WARMING => "WARMING" | WARM => "WARM" | PRODUCTION => "PRODUCTION" | DEGRADED => "DEGRADED"
  end.

(* @src third_party/predictions-engine/include/pe/state/incremental_state_engine.hpp | inline constexpr int64_t DEGRADED_TIMEOUT_MS = 5 *)
Definition DEGRADED_TIMEOUT_MS : Z := 5 * 60 * 1000.

(** [trans[from][to]] with the states below and above 1.3. *)
(* @src third_party/predictions-engine/include/pe/state/incremental_state_engine.hpp | struct MarkovState { *)
Record MarkovState := { t00 : Z; t01 : Z; t10 : Z; t11 : Z; lastAbove13 : option bool }.
(* @src third_party/predictions-engine/include/pe/state/incremental_state_engine.hpp | struct WelfordState { *)
Record WelfordState := { w_n : Z; mean : double; m2 : double }.

(* @src third_party/predictions-engine/include/pe/state/incremental_state_engine.hpp | inline constexpr int LAG_CAP = 512 *)
Definition LAG_CAP : nat := 512.
(* @src third_party/predictions-engine/include/pe/state/incremental_state_engine.hpp | inline constexpr int SHORT_CAP = 30 *)
Definition SHORT_CAP : nat := 30.
(* @src third_party/predictions-engine/include/pe/state/incremental_state_engine.hpp | inline constexpr double EWMA_ALPHA = 0.05 *)
Definition EWMA_ALPHA : double := flit 5 100.

(** An array with its length in use and its write position. *)
Record Ring := { arr : list double; len : nat; pos : nat }.
Definition empty_ring (cap : nat) : Ring := {| arr := replicate cap f0; len := 0; pos := 0 |}.
Definition ring_at (r : Ring) (i : nat) : double := default f0 (arr r !! i).

(* @src third_party/predictions-engine/include/pe/state/incremental_state_engine.hpp:176-202 IncrementalStateEngine *)
Record t := {
  count_ : Z; lastCrash : option double; welford : WelfordState; ewma : double; ewmaHit13 : double; hits : HitCounters;
  runs : RunState; since : SinceCounters; markov : MarkovState; lag : Ring; short : Ring; shortSum : double; shortSumSq : double;
  shortHits13 : Z; lastBeganAtMs : option Z; lastGapS : double; gapCount : Z; updatedAt : Z }.
#[export] Instance eta_t : Eta t := fun r =>
  {| count_ := count_ r; lastCrash := lastCrash r; welford := welford r; ewma := ewma r; ewmaHit13 := ewmaHit13 r; hits := hits r;
     runs := runs r; since := since r; markov := markov r; lag := lag r; short := short r; shortSum := shortSum r;
     shortSumSq := shortSumSq r; shortHits13 := shortHits13 r; lastBeganAtMs := lastBeganAtMs r; lastGapS := lastGapS r;
     gapCount := gapCount r; updatedAt := updatedAt r |}.

(* @src third_party/predictions-engine/src/state/incremental_state_engine.cpp | void IncrementalStateEngine::reset() *)
Definition reset : t := {|
  count_ := 0; lastCrash := None; welford := {| w_n := 0; mean := f0; m2 := f0 |}; ewma := flit 13 10; ewmaHit13 := flit 65 100;
  hits := {| t13 := 0; t20 := 0; t50 := 0; t100 := 0 |};
  runs := {| below13 := 0; above13 := 0; below15 := 0; below20 := 0; above20 := 0; maxBelow13 := 0; maxAbove13 := 0; maxBelow20 := 0 |};
  since := {| s13 := 0; s20 := 0; s50 := 0; s100 := 0 |};
  markov := {| t00 := 0; t01 := 0; t10 := 0; t11 := 0; lastAbove13 := None |};
  lag := empty_ring LAG_CAP; short := empty_ring SHORT_CAP; shortSum := f0; shortSumSq := f0; shortHits13 := 0;
  lastBeganAtMs := None; lastGapS := f0; gapCount := 0; updatedAt := 0 |}.

(* @src third_party/predictions-engine/src/state/incremental_state_engine.cpp | void IncrementalStateEngine::recordBeganAt( *)
Definition recordBeganAt (s : t) (beganAtMs : Z) : t :=
  if beganAtMs <=? 0 then s
  else
    let s := match lastBeganAtMs s with
             | Some last =>
                 if last <? beganAtMs then
                   let gapS := fdiv (of_Z (beganAtMs - last)) (of_Z 1000) in
                   if fgt gapS f0 && fle gapS (of_Z 600) then s <| lastGapS := gapS |> <| gapCount ::= Z.add 1 |> else s
                 else s
             | None => s
             end in
    s <| lastBeganAtMs := Some beganAtMs |>.

Definition above (thr x : double) : bool := fge x thr.
Definition add_if (b : bool) (n : Z) : Z := if b then n + 1 else n.
Definition zero_if (b : bool) (n : Z) : Z := if b then 0 else n + 1.

(* @src third_party/predictions-engine/src/state/incremental_state_engine.cpp:67-73 IncrementalStateEngine::update *)
Definition note_welford (x : double) (w : WelfordState) : WelfordState :=
  let n := w_n w + 1 in
  let delta := fsub x (mean w) in
  let m := fadd (mean w) (fdiv delta (of_Z n)) in
  {| w_n := n; mean := m; m2 := fadd (m2 w) (fmul delta (fsub x m)) |}.

(* @src third_party/predictions-engine/src/state/incremental_state_engine.cpp:75-77 IncrementalStateEngine::update *)
Definition blend (x old : double) : double := fadd (fmul EWMA_ALPHA x) (fmul (fsub f1 EWMA_ALPHA) old).

(* @src third_party/predictions-engine/src/state/incremental_state_engine.cpp:79-83 IncrementalStateEngine::update *)
Definition note_hits (a13 a20 a50 a100 : bool) (h : HitCounters) : HitCounters :=
  {| t13 := add_if a13 (t13 h); t20 := add_if a20 (t20 h); t50 := add_if a50 (t50 h); t100 := add_if a100 (t100 h) |}.

(* @src third_party/predictions-engine/src/state/incremental_state_engine.cpp:85-93 IncrementalStateEngine::update *)
Definition note_since (a13 a20 a50 a100 : bool) (h : SinceCounters) : SinceCounters :=
  {| s13 := zero_if a13 (s13 h); s20 := zero_if a20 (s20 h); s50 := zero_if a50 (s50 h); s100 := zero_if a100 (s100 h) |}.

(* @src third_party/predictions-engine/src/state/incremental_state_engine.cpp:95-115 IncrementalStateEngine::update *)
Definition note_runs (x : double) (a13 a20 : bool) (r : RunState) : RunState :=
  let above13' := if a13 then above13 r + 1 else 0 in
  let below13' := if a13 then 0 else below13 r + 1 in
  let above20' := if a20 then above20 r + 1 else 0 in
  let below20' := if a20 then 0 else below20 r + 1 in
  {| above13 := above13'; below13 := below13';
     maxAbove13 := if a13 && (maxAbove13 r <? above13') then above13' else maxAbove13 r;
     maxBelow13 := if negb a13 && (maxBelow13 r <? below13') then below13' else maxBelow13 r;
     below15 := if flt x (flit 15 10) then below15 r + 1 else 0;
     above20 := above20'; below20 := below20';
     maxBelow20 := if negb a20 && (maxBelow20 r <? below20') then below20' else maxBelow20 r |}.

(* @src third_party/predictions-engine/src/state/incremental_state_engine.cpp:117-123 IncrementalStateEngine::update *)
Definition note_markov (to : bool) (m : MarkovState) : MarkovState :=
  match lastAbove13 m with
  | None => {| t00 := t00 m; t01 := t01 m; t10 := t10 m; t11 := t11 m; lastAbove13 := Some to |}
  | Some from =>
      {| t00 := add_if (negb from && negb to) (t00 m); t01 := add_if (negb from && to) (t01 m);
         t10 := add_if (from && negb to) (t10 m); t11 := add_if (from && to) (t11 m); lastAbove13 := Some to |}
  end.

(* @src third_party/predictions-engine/src/state/incremental_state_engine.cpp:125-128 IncrementalStateEngine::update *)
Definition push_ring (cap : nat) (x : double) (r : Ring) : Ring :=
  {| arr := <[pos r := x]> (arr r); len := if (len r <? cap)%nat then (len r + 1)%nat else len r; pos := ((pos r + 1) mod cap)%nat |}.

(** The sums of the short window; what falls out of a full window is subtracted first. *)
(* @src third_party/predictions-engine/src/state/incremental_state_engine.cpp:130-143 IncrementalStateEngine::update *)
Definition note_short (x : double) (s : t) : t :=
  let s := if (len (short s) =? SHORT_CAP)%nat then
             let evicted := ring_at (short s) (pos (short s)) in
             s <| shortSum ::= fun v => fsub v evicted |> <| shortSumSq ::= fun v => fsub v (fmul evicted evicted) |>
               <| shortHits13 ::= fun n => if above (flit 13 10) evicted then n - 1 else n |>
           else s in
  s <| short ::= push_ring SHORT_CAP x |> <| shortSum ::= fun v => fadd v x |> <| shortSumSq ::= fun v => fadd v (fmul x x) |>
    <| shortHits13 ::= add_if (above (flit 13 10) x) |>.

Definition usable (x : double) : bool := is_finite x && negb (fle x f0).

(** The snapshot that the source returns is the state itself. *)
(* @src third_party/predictions-engine/src/state/incremental_state_engine.cpp | IncrementalStateEngine::update( *)
Definition update (s : t) (x : double) (now : Z) : t :=
  if negb (usable x) then s
  else
    let a13 := above (flit 13 10) x in
    let a20 := above (of_Z 2) x in
    let a50 := above (of_Z 5) x in
    let a100 := above (of_Z 10) x in
    let s := s <| welford ::= note_welford x |> <| ewma ::= blend x |> <| ewmaHit13 ::= blend (if a13 then f1 else f0) |>
               <| hits ::= note_hits a13 a20 a50 a100 |> <| since ::= note_since a13 a20 a50 a100 |> <| runs ::= note_runs x a13 a20 |>
               <| markov ::= note_markov a13 |> <| lag ::= push_ring LAG_CAP x |> in
    (note_short x s) <| count_ ::= Z.add 1 |> <| lastCrash := Some x |> <| updatedAt := now |>.

(* @src third_party/predictions-engine/src/state/incremental_state_engine.cpp | void IncrementalStateEngine::seed( *)
Definition seed (l : list (double * Z)) : t := fold_left (fun s p => update s p.1 p.2) l reset.

(** ** Reading *)

(* @src third_party/predictions-engine/src/state/incremental_state_engine.cpp | IncrementalStateEngine::getLagArray() const *)
Definition getLagArray (s : t) : list double :=
  let start := if (len (lag s) <? LAG_CAP)%nat then 0%nat else pos (lag s) in
  (fun i => ring_at (lag s) ((start + i) mod LAG_CAP)) <$> seq 0 (len (lag s)).

(* @src third_party/predictions-engine/src/state/incremental_state_engine.cpp | IncrementalStateEngine::getRecentPoints( *)
Definition getRecentPoints (s : t) (max : Z) : list double :=
  let n := Z.to_nat (Z.min max (Z.of_nat (len (lag s)))) in
  let start := ((pos (lag s) + LAG_CAP - len (lag s)) mod LAG_CAP)%nat in
  (fun i => ring_at (lag s) ((start + i) mod LAG_CAP)) <$> seq 0 n.

(* @src third_party/predictions-engine/include/pe/state/incremental_state_engine.hpp | double lagN(int n) const *)
Definition lagN (s : t) (n : nat) : double :=
  if (n <? 1)%nat || (len (lag s) <? n)%nat then f0 else ring_at (lag s) ((pos (lag s) + LAG_CAP - n) mod LAG_CAP).

(* @src third_party/predictions-engine/include/pe/state/incremental_state_engine.hpp | double lag1() const *)
Definition lag1 (s : t) : double :=
  if (len (lag s) =? 0)%nat then f0 else ring_at (lag s) ((pos (lag s) + LAG_CAP - 1) mod LAG_CAP).

(* @src third_party/predictions-engine/include/pe/state/incremental_state_engine.hpp | double lagAt(int i) const *)
Definition lagAt (s : t) (i : Z) : double :=
  if (i <? 0) || (Z.of_nat (len (lag s)) <=? i) then f0
  else ring_at (lag s) (((if (len (lag s) <? LAG_CAP)%nat then 0 else pos (lag s)) + Z.to_nat i) mod LAG_CAP).

(* @src third_party/predictions-engine/src/state/incremental_state_engine.cpp | double IncrementalStateEngine::variance() const *)
Definition variance (s : t) : double :=
  if 1 <? w_n (welford s) then fdiv (m2 (welford s)) (of_Z (w_n (welford s) - 1)) else f0.

(* @src third_party/predictions-engine/src/state/incremental_state_engine.cpp | double IncrementalStateEngine::std() const *)
Definition std (s : t) : double := fsqrt (variance s).

(* @src third_party/predictions-engine/src/state/incremental_state_engine.cpp | double IncrementalStateEngine::hitRate( *)
Definition hitRate (s : t) (target : double) : double :=
  if count_ s =? 0 then f0
  else
    let rate n := fdiv (of_Z n) (of_Z (count_ s)) in
    if fle target (flit 13 10) then rate (t13 (hits s))
    else if fle target (of_Z 2) then rate (t20 (hits s))
    else if fle target (of_Z 5) then rate (t50 (hits s))
    else rate (t100 (hits s)).

(* @src third_party/predictions-engine/src/state/incremental_state_engine.cpp | int IncrementalStateEngine::roundsSince( *)
Definition roundsSince (s : t) (target : double) : Z :=
  if fle target (flit 13 10) then s13 (since s)
  else if fle target (of_Z 2) then s20 (since s)
  else if fle target (of_Z 5) then s50 (since s)
  else s100 (since s).

(* @src third_party/predictions-engine/src/state/incremental_state_engine.cpp | double IncrementalStateEngine::windowHitRate( *)
Definition windowHitRate (s : t) (window : Z) (target : double) : double :=
  let n := Z.to_nat (Z.min (Z.max 0 window) (Z.of_nat (len (lag s)))) in
  if (n =? 0)%nat then f0
  else fdiv (of_Z (Z.of_nat (count (above target)
         ((fun i => ring_at (lag s) ((pos (lag s) + LAG_CAP - i) mod LAG_CAP)) <$> seq 1 n)))) (of_Z (Z.of_nat n)).

(* @src third_party/predictions-engine/src/state/incremental_state_engine.cpp | IncrementalStateEngine::hitRateWindows13() const *)
Definition hitRateWindows13 (s : t) : double * double * double * double :=
  (windowHitRate s 20 (flit 13 10), windowHitRate s 50 (flit 13 10), windowHitRate s 100 (flit 13 10), windowHitRate s 200 (flit 13 10)).

Definition short_len (s : t) : Z := Z.of_nat (len (short s)).

(* @src third_party/predictions-engine/src/state/incremental_state_engine.cpp | double IncrementalStateEngine::shortHitRate13() *)
Definition shortHitRate13 (s : t) : double := if 0 <? short_len s then fdiv (of_Z (shortHits13 s)) (of_Z (short_len s)) else f0.

(* @src third_party/predictions-engine/src/state/incremental_state_engine.cpp | double IncrementalStateEngine::shortMean() *)
Definition shortMean (s : t) : double := if 0 <? short_len s then fdiv (shortSum s) (of_Z (short_len s)) else f0.

(* @src third_party/predictions-engine/src/state/incremental_state_engine.cpp | double IncrementalStateEngine::shortVariance() *)
Definition shortVariance (s : t) : double :=
  if short_len s <? 2 then f0
  else
    let mean := fdiv (shortSum s) (of_Z (short_len s)) in
    fmax f0 (fsub (fdiv (shortSumSq s) (of_Z (short_len s))) (fmul mean mean)).

(* @src third_party/predictions-engine/src/state/incremental_state_engine.cpp | double IncrementalStateEngine::markovPNextAbove13() *)
Definition markovPNextAbove13 (s : t) : double :=
  match lastAbove13 (markov s) with
  | None => ewmaHit13 s
  | Some from =>
      let '(r0, r1) := if from then (t10 (markov s), t11 (markov s)) else (t00 (markov s), t01 (markov s)) in
      if r0 + r1 <? 10 then ewmaHit13 s else fdiv (of_Z r1) (of_Z (r0 + r1))
  end.

(* @src third_party/predictions-engine/src/state/incremental_state_engine.cpp | bool IncrementalStateEngine::isWarm( *)
Definition isWarm (s : t) (minCount : Z) : bool := minCount <=? count_ s.

(* @src third_party/predictions-engine/src/state/incremental_state_engine.cpp | IncrementalStateEngine::getLifecycleState() const *)
Definition getLifecycleState (s : t) (now : Z) : EngineLifecycleState :=
  if count_ s =? 0 then COLD
  else if DEGRADED_TIMEOUT_MS <? now - updatedAt s then DEGRADED
  else if count_ s <? 20 then WARMING
  else if count_ s <? 100 then WARM
  else PRODUCTION.

(** ** The statistics are those of the whole history *)

(** What the engine has taken in: the points that are finite and positive. *)
Definition history (l : list (double * Z)) : list double := List.filter usable (map fst l).

Definition tally (p : double -> bool) (h : list double) : Z := Z.of_nat (count p h).
Definition lately (p : double -> bool) (h : list double) : Z := Z.of_nat (trail p h).
Definition record_run (p : double -> bool) (h : list double) : Z := Z.of_nat (longest p h).
Definition follows (a b : bool) (h : list double) : Z := Z.of_nat (steps (above (flit 13 10)) a b h).
Definition not_above (thr x : double) : bool := negb (above thr x).

Definition counters (h : list double) : HitCounters * SinceCounters * RunState * MarkovState :=
  ({| t13 := tally (above (flit 13 10)) h; t20 := tally (above (of_Z 2)) h; t50 := tally (above (of_Z 5)) h;
      t100 := tally (above (of_Z 10)) h |},
   {| s13 := lately (not_above (flit 13 10)) h; s20 := lately (not_above (of_Z 2)) h; s50 := lately (not_above (of_Z 5)) h;
      s100 := lately (not_above (of_Z 10)) h |},
   {| above13 := lately (above (flit 13 10)) h; below13 := lately (not_above (flit 13 10)) h;
      maxAbove13 := record_run (above (flit 13 10)) h; maxBelow13 := record_run (not_above (flit 13 10)) h;
      below15 := lately (fun x => flt x (flit 15 10)) h; above20 := lately (above (of_Z 2)) h;
      below20 := lately (not_above (of_Z 2)) h; maxBelow20 := record_run (not_above (of_Z 2)) h |},
   {| t00 := follows false false h; t01 := follows false true h; t10 := follows true false h; t11 := follows true true h;
      lastAbove13 := above (flit 13 10) <$> last h |}).

Definition in_ring (cap : nat) (r : Ring) (h : list double) : Prop := holds cap (arr r) (pos r) (len r) h.

Definition reflects (h : list double) (s : t) : Prop :=
  count_ s = Z.of_nat (length h) /\ lastCrash s = last h /\ w_n (welford s) = Z.of_nat (length h) /\
  (hits s, since s, runs s, markov s) = counters h /\
  in_ring LAG_CAP (lag s) h /\ in_ring SHORT_CAP (short s) h /\
  shortHits13 s = tally (above (flit 13 10)) (trim_front SHORT_CAP h).

Lemma add_if_tally (p : double -> bool) h x : add_if (p x) (tally p h) = tally p (h ++ [x]).
Proof. unfold tally. rewrite count_snoc. destruct (p x); unfold add_if; lia. Qed.

Lemma zero_if_lately thr h x : zero_if (above thr x) (lately (not_above thr) h) = lately (not_above thr) (h ++ [x]).
Proof. unfold lately. rewrite trail_snoc. unfold zero_if, not_above at 2. destruct (above thr x); cbn; lia. Qed.

(** A run that goes on, one that stops, and the record. *)
Lemma run_on (p : double -> bool) h x : (if p x then lately p h + 1 else 0) = lately p (h ++ [x]).
Proof. unfold lately. rewrite trail_snoc. destruct (p x); lia. Qed.

Lemma record_run_on (p : double -> bool) h x :
  (if p x && (record_run p h <? lately p (h ++ [x])) then lately p (h ++ [x]) else record_run p h) = record_run p (h ++ [x]).
Proof.
  unfold record_run, lately. rewrite longest_snoc, trail_snoc. destruct (p x); cbn [andb]; [|lia].
  destruct (Z.ltb_spec (Z.of_nat (longest p h)) (Z.of_nat (S (trail p h)))); lia.
Qed.

Lemma note_runs_reference h x :
  note_runs x (above (flit 13 10) x) (above (of_Z 2) x) (counters h).1.2 = (counters (h ++ [x])).1.2.
Proof.
  assert (forall thr, (if above thr x then 0 else lately (not_above thr) h + 1) = lately (not_above thr) (h ++ [x])) as Hn.
  { intros thr. rewrite <- run_on. unfold not_above at 2. by destruct (above thr x). }
  unfold note_runs, counters. cbn [fst snd above13 below13 below15 below20 above20 maxBelow13 maxAbove13 maxBelow20].
  rewrite !Hn, !run_on. f_equal; 
    [apply (run_on (fun y => flt y (flit 15 10))) | apply (record_run_on (not_above _)) | apply record_run_on | apply (record_run_on (not_above _))].
Qed.

Lemma note_markov_reference h x : note_markov (above (flit 13 10) x) (counters h).2 = (counters (h ++ [x])).2.
Proof.
  unfold counters. cbn [snd]. unfold note_markov. cbn [lastAbove13 t00 t01 t10 t11]. unfold follows. rewrite !steps_snoc, last_snoc.
  destruct (last h) as [y|]; cbn [fmap option_fmap option_map].
  - destruct (above (flit 13 10) y), (above (flit 13 10) x); cbn [negb andb eqb add_if]; f_equal; lia.
  - f_equal; lia.
Qed.

Lemma push_in_ring cap r h x : in_ring cap r h -> in_ring cap (push_ring cap x r) (h ++ [x]).
Proof. apply holds_push. Qed.

(** The count over a window when the window moves on. *)
Lemma count_window (p : double -> bool) cap h x : (0 < cap)%nat ->
  tally p (trim_front cap (h ++ [x])) =
  add_if (p x) (match h !! (length h - cap)%nat with
                | Some y => if (cap <=? length h)%nat && p y then tally p (trim_front cap h) - 1 else tally p (trim_front cap h)
                | None => tally p (trim_front cap h)
                end).
Proof.
  intros Hc. rewrite <- push_window_trim. unfold push_window. pose proof (length_trim_front cap h) as Hl.
  destruct (Nat.leb_spec cap (length h)) as [Hle|Hlt].
  - assert (trim_front cap h = drop (length h - cap) h) as Ht by done.
    destruct (h !! (length h - cap)%nat) as [y|] eqn:Hy; [|apply lookup_ge_None in Hy; lia].
    rewrite (drop_S _ y) in Ht by done. rewrite Ht in *. unfold trim_front at 1.
    assert (length ((y :: drop (S (length h - cap)) h) ++ [x]) - cap = 1)%nat as ->
      by (rewrite length_app; cbn [length] in *; lia).
    generalize (drop (S (length h - cap)) h). intros d. change (drop 1 ((y :: d) ++ [x])) with (d ++ [x]). unfold tally.
    rewrite count_snoc. change (y :: d) with ([y] ++ d). unfold count. rewrite List.filter_app, length_app. cbn.
    destruct (p y), (p x); cbn; lia.
  - rewrite trim_front_fits by (rewrite length_app; cbn [length]; lia). unfold tally. rewrite count_snoc. cbn [andb].
    destruct (h !! _), (p x); cbn [add_if]; lia.
Qed.

Lemma note_short_reference h x s :
  in_ring SHORT_CAP (short s) h -> shortHits13 s = tally (above (flit 13 10)) (trim_front SHORT_CAP h) ->
  in_ring SHORT_CAP (short (note_short x s)) (h ++ [x]) /\
  shortHits13 (note_short x s) = tally (above (flit 13 10)) (trim_front SHORT_CAP (h ++ [x])).
Proof.
  intros Hr Hh. rewrite count_window by (unfold SHORT_CAP; lia). rewrite <- Hh. pose proof Hr as (_ & _ & _ & Hlen & _).
  unfold note_short. destruct (Nat.eqb_spec (len (short s)) SHORT_CAP) as [E|E].
  - split; [by apply push_in_ring|]. unfold in_ring in Hr. rewrite E in Hr. apply holds_evicted in Hr. unfold ring_at.
    rewrite Hr, (proj2 (Nat.leb_le _ _)) by lia. cbn.
    destruct (h !! (length h - SHORT_CAP)%nat) as [y|] eqn:Hy; [done|]. apply lookup_ge_None in Hy. unfold SHORT_CAP in *. lia.
  - split; [by apply push_in_ring|]. rewrite (proj2 (Nat.leb_gt _ _)) by (unfold SHORT_CAP in *; lia). cbn. by destruct (h !! _).
Qed.

Lemma note_short_rest x s :
  let s' := note_short x s in
  count_ s' = count_ s /\ lastCrash s' = lastCrash s /\ welford s' = welford s /\ hits s' = hits s /\ since s' = since s /\
  runs s' = runs s /\ markov s' = markov s /\ lag s' = lag s /\ ewma s' = ewma s /\ ewmaHit13 s' = ewmaHit13 s.
Proof. unfold note_short. by destruct (_ =? _)%nat. Qed.

Lemma reflects_reset : reflects [] reset.
Proof. unfold reflects. split_and!; try done; apply holds_make; unfold LAG_CAP, SHORT_CAP; lia. Qed.

Lemma update_reflects h s x now : reflects h s ->
  reflects (if usable x then h ++ [x] else h) (update s x now).
Proof.
  intros (Hc & Hl & Hw & Hk & Hlag & Hshort & Hh). unfold update. destruct (usable x); cbn [negb]; [|done].
  unfold counters in Hk. injection Hk as Hhit Hsince Hruns Hmarkov.
  set (s1 := s <| welford ::= note_welford x |> <| ewma ::= blend x |> <| ewmaHit13 ::= _ |> <| hits ::= _ |> <| since ::= _ |>
               <| runs ::= _ |> <| markov ::= _ |> <| lag ::= _ |>).
  destruct (note_short_reference h x s1) as [Hshort' Hh']; [done|done|].
  destruct (note_short_rest x s1) as (R1 & R2 & R3 & R4 & R5 & R6 & R7 & R8 & _).
  unfold reflects. cbn [count_ lastCrash welford hits since runs markov lag short shortHits13 set_field].
  change (hits s1) with (note_hits (above (flit 13 10) x) (above (of_Z 2) x) (above (of_Z 5) x) (above (of_Z 10) x) (hits s)) in R4.
  change (since s1) with (note_since (above (flit 13 10) x) (above (of_Z 2) x) (above (of_Z 5) x) (above (of_Z 10) x) (since s)) in R5.
  change (runs s1) with (note_runs x (above (flit 13 10) x) (above (of_Z 2) x) (runs s)) in R6.
  change (markov s1) with (note_markov (above (flit 13 10) x) (markov s)) in R7.
  change (lag s1) with (push_ring LAG_CAP x (lag s)) in R8. change (count_ s1) with (count_ s) in R1.
  change (welford s1) with (note_welford x (welford s)) in R3.
  generalize dependent (note_short x s1). intros s2 Hshort' Hh' R1 R2 R3 R4 R5 R6 R7 R8. clear R2 s1.
  split_and!.
  - change (1 + count_ s2 = Z.of_nat (length (h ++ [x]))). rewrite R1, Hc, length_app. cbn. lia.
  - by rewrite last_snoc.
  - change (w_n (welford s2) = Z.of_nat (length (h ++ [x]))). rewrite R3, length_app. cbn. lia.
  - change ((hits s2, since s2, runs s2, markov s2) = counters (h ++ [x])). rewrite R4, R5, R6, R7, Hhit, Hsince, Hruns, Hmarkov.
    pose proof (note_runs_reference h x) as H1. pose proof (note_markov_reference h x) as H2. unfold counters in *. cbn [fst snd] in H1, H2.
    rewrite H1, H2. unfold note_hits, note_since. cbn [t13 t20 t50 t100 s13 s20 s50 s100]. by rewrite !add_if_tally, !zero_if_lately.
  - change (in_ring LAG_CAP (lag s2) (h ++ [x])). rewrite R8. by apply push_in_ring.
  - exact Hshort'.
  - exact Hh'.
Qed.

Lemma seed_reflects l : reflects (history l) (seed l).
Proof.
  induction l as [|[x now] l IH] using rev_ind; [apply reflects_reset|].
  unfold seed, history. rewrite fold_left_app, map_app, List.filter_app. cbn [fold_left map fst snd List.filter].
  pose proof (update_reflects _ _ x now IH) as H. unfold seed, history in H. destruct (usable x); [exact H|by rewrite app_nil_r].
Qed.

(** ** What is read is the end of the history *)

Lemma in_ring_len cap r h : in_ring cap r h -> len r = Nat.min (length h) cap.
Proof. by intros (_ & _ & _ & ? & _). Qed.

(** Reading [n] places from the oldest one gives the front of the window. *)
Lemma read_window (f : nat -> double) h k n :
  (k + n <= length h)%nat -> (forall i, (i < n)%nat -> f i = default f0 (h !! (k + i)%nat)) ->
  f <$> seq 0 n = take n (drop k h).
Proof.
  intros Hn Hf. apply list_eq. intros i. rewrite list_lookup_fmap. destruct (decide (i < n)%nat) as [Hi|Hi].
  - rewrite lookup_seq_lt by done. cbn. rewrite Hf by done. rewrite lookup_take_lt, lookup_drop by done.
    destruct (h !! (k + i)%nat) eqn:E; [done|]. apply lookup_ge_None in E. lia.
  - rewrite lookup_seq_ge by lia. by rewrite lookup_take_ge by lia.
Qed.

Lemma lag_array_reference s h : in_ring LAG_CAP (lag s) h -> getLagArray s = trim_front LAG_CAP h.
Proof.
  intros H. pose proof (in_ring_len _ _ _ H) as Hl. unfold getLagArray, trim_front.
  rewrite (read_window _ h (length h - LAG_CAP)); [|lia|].
  - rewrite Hl. apply take_ge. rewrite length_drop. lia.
  - intros i Hi. unfold ring_at. destruct (holds_oldest _ _ _ _ _ i H Hi) as [-> _]. do 2 f_equal. lia.
Qed.

Lemma lagN_reference s h n : in_ring LAG_CAP (lag s) h -> (0 < n <= Nat.min (length h) LAG_CAP)%nat ->
  Some (lagN s n) = h !! (length h - n)%nat.
Proof.
  intros H Hn. pose proof (in_ring_len _ _ _ H) as Hl. unfold lagN.
  rewrite (proj2 (Nat.ltb_ge n 1)), (proj2 (Nat.ltb_ge (len (lag s)) n)) by lia. cbn [orb]. unfold ring_at.
  rewrite (holds_newest _ _ _ _ _ n H) by lia. destruct (h !! (length h - n)%nat) eqn:E; [done|]. apply lookup_ge_None in E. lia.
Qed.

(** The rate of a window is the rate of as many of the last rounds as there are. *)
Lemma window_rate_reference s h w target : in_ring LAG_CAP (lag s) h -> 0 < w -> (0 < length h)%nat ->
  let n := Nat.min (Z.to_nat w) (Nat.min (length h) LAG_CAP) in
  windowHitRate s w target = fdiv (of_Z (tally (above target) (trim_front n h))) (of_Z (Z.of_nat n)).
Proof.
  intros H Hw Hh n. pose proof (in_ring_len _ _ _ H) as Hl. unfold windowHitRate.
  assert (Z.to_nat (Z.min (Z.max 0 w) (Z.of_nat (len (lag s)))) = n) as -> by (unfold n; lia).
  assert (0 < LAG_CAP)%nat by (unfold LAG_CAP; lia). assert (0 < n)%nat by lia.
  rewrite (proj2 (Nat.eqb_neq n 0)) by lia. do 3 f_equal.
  assert ((fun i => ring_at (lag s) ((pos (lag s) + LAG_CAP - i) mod LAG_CAP)) <$> seq 1 n = rev (trim_front n h)) as ->.
  { apply list_eq. intros i. rewrite list_lookup_fmap. destruct (decide (i < n)%nat) as [Hi|Hi].
    - rewrite lookup_seq_lt by done. cbn [fmap option_fmap option_map]. unfold ring_at.
      rewrite (holds_newest _ _ _ _ _ (1 + i) H) by lia. unfold trim_front.
      replace (rev (drop (length h - n) h)) with (reverse (drop (length h - n) h)) by (unfold reverse; symmetry; apply rev_alt).
      rewrite reverse_lookup by (rewrite length_drop; lia). rewrite lookup_drop, length_drop.
      replace (length h - n + (length h - (length h - n) - S i))%nat with (length h - (1 + i))%nat by lia.
      destruct (h !! _) eqn:E; [done|]. apply lookup_ge_None in E. lia.
    - rewrite lookup_seq_ge by lia. symmetry. apply lookup_ge_None. rewrite length_rev, length_trim_front. lia. }
  unfold tally. by rewrite count_rev.
Qed.

(** C6: the statistics that the engine updates in constant time are those of the whole history of
    usable points: the counters of rounds at or above each threshold, the rounds since the last
    such one, the current and the longest runs, the transitions between low and high rounds, the
    lag values (the last 512 rounds in order), the hits among the last 30, and the hit rate over
    any window.  Points that are not finite and positive change nothing. *)
Theorem incremental_reference (l : list (double * Z)) :
  let s := seed l in
  let h := history l in
  count_ s = Z.of_nat (length h) /\ lastCrash s = last h /\
  (hits s, since s, runs s, markov s) = counters h /\
  getLagArray s = trim_front LAG_CAP h /\
  (forall n, (0 < n <= Nat.min (length h) LAG_CAP)%nat -> Some (lagN s n) = h !! (length h - n)%nat) /\
  shortHits13 s = tally (above (flit 13 10)) (trim_front SHORT_CAP h) /\ short_len s = Z.of_nat (length (trim_front SHORT_CAP h)) /\
  (forall w target, 0 < w -> (0 < length h)%nat ->
     let n := Nat.min (Z.to_nat w) (Nat.min (length h) LAG_CAP) in
     windowHitRate s w target = fdiv (of_Z (tally (above target) (trim_front n h))) (of_Z (Z.of_nat n))).
Proof.
  cbv zeta. destruct (seed_reflects l) as (Hc & Hl & _ & Hk & Hlag & Hshort & Hh). split_and!; try done.
  - by apply lag_array_reference.
  - intros n. by apply lagN_reference.
  - unfold short_len. by rewrite length_trim_front, (in_ring_len _ _ _ Hshort).
  - intros w target Hw Hn. by apply window_rate_reference.
Qed.

Lemma tally_range p (h : list double) : 0 <= tally p h <= Z.of_nat (length h).
Proof. unfold tally. pose proof (count_le p h). lia. Qed.

(** Remark: no counter exceeds the number of rounds, so the 32-bit counters of the source do not
    overflow before the 2147483648th round. *)
Theorem counters_bounded (l : list (double * Z)) :
  let s := seed l in
  Z.of_nat (length l) < 2 ^ 31 ->
  Forall (fun n => 0 <= n < 2 ^ 31)
    [count_ s; w_n (welford s); t13 (hits s); t20 (hits s); t50 (hits s); t100 (hits s); s13 (since s); s20 (since s); s50 (since s);
     s100 (since s); below13 (runs s); above13 (runs s); below15 (runs s); below20 (runs s); above20 (runs s); maxBelow13 (runs s);
     maxAbove13 (runs s); maxBelow20 (runs s); t00 (markov s); t01 (markov s); t10 (markov s); t11 (markov s); shortHits13 s].
Proof.
  cbv zeta. intros Hl. destruct (seed_reflects l) as (Hc & _ & Hw & Hk & _ & _ & Hh).
  assert (Z.of_nat (length (history l)) < 2 ^ 31) as Hn.
  { unfold history. pose proof (List.filter_length_le usable (map fst l)) as H. rewrite length_map in H. lia. }
  rewrite Hc, Hw, Hh. unfold counters in Hk. injection Hk as -> -> -> ->. generalize dependent (history l). intros h _ _ _ Hn.
  cbn [t13 t20 t50 t100 s13 s20 s50 s100 below13 above13 below15 below20 above20 maxBelow13 maxAbove13 maxBelow20 t00 t01 t10 t11].
  pose proof (steps_total (above (flit 13 10)) h) as Hs.
  assert (forall p, 0 <= lately p h < 2 ^ 31) as H1 by (intros p; unfold lately; pose proof (trail_le p h); lia).
  assert (forall p, 0 <= record_run p h < 2 ^ 31) as H2 by (intros p; unfold record_run; pose proof (longest_le p h); lia).
  assert (forall p, 0 <= tally p h < 2 ^ 31) as H3 by (intros p; pose proof (tally_range p h); lia).
  assert (forall p, 0 <= tally p (trim_front SHORT_CAP h) < 2 ^ 31) as H4.
  { intros p. pose proof (tally_range p (trim_front SHORT_CAP h)). rewrite length_trim_front in *. lia. }
  repeat first [apply Forall_nil_2 | apply Forall_cons_2; [first [apply H1|apply H2|apply H3|apply H4|unfold follows; lia]|]].
Qed.

(** Remark: asked for fewer points than it keeps, [getRecentPoints] returns the oldest ones of the
    lag ring and not the recent ones. *)
Theorem recent_points_are_oldest (l : list (double * Z)) (max : Z) :
  getRecentPoints (seed l) max = take (Z.to_nat max) (trim_front LAG_CAP (history l)).
Proof.
  destruct (seed_reflects l) as (_ & _ & _ & _ & Hlag & _). revert Hlag. generalize (seed l) (history l). intros s h H.
  pose proof (in_ring_len _ _ _ H) as Hl. unfold getRecentPoints, trim_front.
  rewrite (read_window _ h (length h - LAG_CAP)); [|lia|].
  - destruct (decide (Z.to_nat max <= len (lag s))%nat).
    + f_equal. lia.
    + rewrite !take_ge by (rewrite length_drop; lia). done.
  - intros i Hi. unfold ring_at. destruct (holds_oldest _ _ _ _ _ i H ltac:(lia)) as [_ ->]. do 2 f_equal. lia.
Qed.

(** Remark: the state of life depends on the number of usable points and on the age of the last
    one: an engine without a point is cold, one that was not updated for five minutes is
    degraded whatever it has seen. *)
Theorem lifecycle_reference (l : list (double * Z)) (now : Z) :
  let s := seed l in
  let n := Z.of_nat (length (history l)) in
  (getLifecycleState s now = COLD <-> n = 0) /\
  (getLifecycleState s now = DEGRADED <-> 0 < n /\ 300000 < now - updatedAt s) /\
  (getLifecycleState s now = PRODUCTION -> 100 <= n).
Proof.
  cbv zeta. destruct (seed_reflects l) as (Hc & _). unfold getLifecycleState. rewrite Hc. unfold DEGRADED_TIMEOUT_MS.
  destruct (Z.eqb_spec (Z.of_nat (length (history l))) 0); [naive_solver lia|].
  destruct (Z.ltb_spec (5 * 60 * 1000) (now - updatedAt (seed l))); [naive_solver lia|].
  destruct (Z.ltb_spec (Z.of_nat (length (history l))) 20); [naive_solver lia|].
  destruct (Z.ltb_spec (Z.of_nat (length (history l))) 100); naive_solver lia.
Qed.
End IncrementalStateEngine.

(** Remark: the two sums of the short window are not those of its points: a point of [1e17] is
    subtracted when it leaves, but what was rounded away stays away, and the mean of thirty
    points of 1.5 is 0.05. *)
Lemma short_mean_drifts :
  let s := IncrementalStateEngine.seed ((of_Z (10 ^ 17), 0) :: replicate 30 (flit 15 10, 0)) in
  IncrementalStateEngine.shortMean s = fdiv (flit 15 10) (of_Z 30).
Proof. vm_compute. reflexivity. Qed.
