(* ===== verification/PeFeatures.v ===== *)
(** The features of the prediction engine: the families in
    [third_party/predictions-engine/include/pe/features] and their assembly in [FeatureEngineV2].

    A map from names to numbers is a [gmap].  The functions of the C mathematics library are
    parameters; none of the families throws, so the handlers that count a missing family have
    nothing to catch.  The time of day is computed from the seconds since the epoch. *)
From S2P Require Import Prelude Float64 FloatSign PeState.

Open Scope string_scope.
Open Scope list_scope.
Open Scope Z_scope.

Import IncrementalStateEngine.

Notation Features := (gmap string double).

(* @src third_party/predictions-engine/include/pe/types.hpp | struct FeatureVector { *)
Record FeatureVector := {
  fv_roundId : string; fv_timestamp : string; fv_version : string; fv_values : Features; fv_sampleSize : Z; fv_quality : double;
  fv_missing : Z }.

(* @src third_party/predictions-engine/include/pe/features/feature_meta.hpp | FEATURE_VERSION_V2 = *)
Definition FEATURE_VERSION_V2 : string := "fv-2.1.0".

(* @src third_party/predictions-engine/include/pe/features/feature_meta.hpp | featureSchemaV2() *)
Definition featureSchemaV2 : list string :=
  ["quality_score"; "sample_size";
   "lag_1"; "lag_2"; "lag_3"; "lag_5"; "lag_diff_1"; "lag_ratio_1";
   "run_below_1_30"; "run_above_1_30"; "run_below_1_50"; "run_below_2_00";
   "run_above_2_00"; "max_run_below_1_30"; "max_run_above_1_30"; "max_run_below_2_00";
   "markov_p_up"; "markov_p_stay_up"; "markov_p_stay_down";
   "spectral_acf1"; "spectral_acf2"; "spectral_period_hint";
   "entropy_binary_13"; "entropy_short_13"; "entropy_ratio";
   "hour_sin"; "hour_cos"; "dow_sin"; "dow_cos"; "hour_utc"; "is_weekend";
   "hit_13"; "hit_20"; "hit_50"; "hit_ratio_20_13"; "hit_ratio_50_13"; "hit_spread_20_13";
   "gap_s"; "log_lag_1"; "gap_count";
   "hit_1_30_20"; "hit_1_30_50"; "hit_1_30_100"; "hit_1_30_200";
   "mean_crash"; "std_crash"; "ewma_crash"; "ewma_hit_13";
   "short_mean"; "short_std"; "short_hit_13";
   "since_13"; "since_20"; "since_50"; "since_100"].

Definition sum (l : list double) : double := fold_left fadd l f0.

Section Families.
Variable log log2 sin cos : double -> double.
Implicit Types (s : t).

(* @src third_party/predictions-engine/include/pe/features/lag.hpp | computeLagFeatures( *)
Definition computeLagFeatures s : Features :=
  let l1 := lagN s 1 in
  let l2 := lagN s 2 in
  list_to_map [("lag_1", l1); ("lag_2", l2); ("lag_3", lagN s 3); ("lag_5", lagN s 5); ("lag_diff_1", fsub l1 l2);
               ("lag_ratio_1", if fgt l2 (flit 1 (10 ^ 9)) then fdiv l1 l2 else f0)].

(* @src third_party/predictions-engine/include/pe/features/run.hpp | computeRunFeatures( *)
Definition computeRunFeatures s : Features :=
  let r := runs s in
  list_to_map [("run_below_1_30", of_Z (below13 r)); ("run_above_1_30", of_Z (above13 r)); ("run_below_1_50", of_Z (below15 r));
               ("run_below_2_00", of_Z (below20 r)); ("run_above_2_00", of_Z (above20 r)); ("max_run_below_1_30", of_Z (maxBelow13 r));
               ("max_run_above_1_30", of_Z (maxAbove13 r)); ("max_run_below_2_00", of_Z (maxBelow20 r))].

(* @src third_party/predictions-engine/include/pe/features/markov.hpp | computeMarkovFeatures( *)
Definition computeMarkovFeatures s : Features :=
  let m := markov s in
  let totalUp := t10 m + t11 m in
  let totalDown := t00 m + t01 m in
  list_to_map [("markov_p_up", markovPNextAbove13 s);
               ("markov_p_stay_up", if 5 <=? totalUp then fdiv (of_Z (t11 m)) (of_Z totalUp) else f0);
               ("markov_p_stay_down", if 5 <=? totalDown then fdiv (of_Z (t00 m)) (of_Z totalDown) else f0)].

(* @src third_party/predictions-engine/include/pe/features/spectral.hpp | inline constexpr int SPECTRAL_CAP = 64 *)
Definition SPECTRAL_CAP : nat := 64.

(** Covariance at a lag over the [n] newest points. *)
(* @src third_party/predictions-engine/include/pe/features/spectral.hpp:47-55 computeSpectralFeatures *)
Definition acf s (n : nat) (mean var : double) (l : nat) : double :=
  if (n <=? l)%nat then f0
  else
    let cov := fold_left (fun c i => fadd c (fmul (fsub (lagN s i) mean) (fsub (lagN s (i + l)) mean))) (seq 1 (n - l)) f0 in
    fdiv cov (fmul (of_Z (Z.of_nat (n - l))) var).

(* @src third_party/predictions-engine/include/pe/features/spectral.hpp | computeSpectralFeatures( *)
Definition computeSpectralFeatures s : Features :=
  let n := Nat.min (len (lag s)) SPECTRAL_CAP in
  let features a1 a2 hint : Features := list_to_map [("spectral_acf1", a1); ("spectral_acf2", a2); ("spectral_period_hint", hint)] in
  if (n <? 4)%nat then features f0 f0 f0
  else
    let mean := fdiv (sum (lagN s <$> seq 1 n)) (of_Z (Z.of_nat n)) in
    let var := fold_left (fun v i => let d := fsub (lagN s i) mean in fadd v (fmul d d)) (seq 1 n) f0 in
    let var := fdiv var (of_Z (Z.of_nat (n - 1))) in
    if flt var (flit 1 (10 ^ 12)) then features f0 f0 f0
    else
      let hint := match List.find (fun l => flt (acf s n mean var l) f0) (seq 2 (n - 2)) with
                  | Some l => of_Z (Z.of_nat l)
                  | None => f0
                  end in
      features (acf s n mean var 1) (acf s n mean var 2) hint.

(* @src third_party/predictions-engine/include/pe/features/entropy.hpp | inline double binaryEntropy( *)
Definition binaryEntropy (p : double) : double :=
  let q := fmin (flit 999 1000) (fmax (flit 1 1000) p) in
  let q' := fsub f1 q in
  SFopp (fadd (fmul q (log2 q)) (fmul q' (log2 q'))).

(* @src third_party/predictions-engine/include/pe/features/entropy.hpp | computeEntropyFeatures( *)
Definition computeEntropyFeatures s : Features :=
  let e := binaryEntropy (hitRate s (flit 13 10)) in
  let es := binaryEntropy (shortHitRate13 s) in
  list_to_map [("entropy_binary_13", e); ("entropy_short_13", es); ("entropy_ratio", fdiv es (fadd e (flit 1 (10 ^ 9))))].

(** Hour, minute and day of the week (0 is Sunday; the epoch was a Thursday) of a time in seconds. *)
Definition hour_of (secs : Z) : Z := secs / 3600 mod 24.
Definition minute_of (secs : Z) : Z := secs / 60 mod 60.
Definition weekday_of (secs : Z) : Z := (secs / 86400 + 4) mod 7.

(** The double nearest to the literal. *)
Definition PI : double := S754_finite false 7074237752028440 (-51).

(* @src third_party/predictions-engine/include/pe/features/time.hpp | computeTimeFeatures( *)
Definition computeTimeFeatures (secs : Z) : Features :=
  let hour := fadd (of_Z (hour_of secs)) (fdiv (of_Z (minute_of secs)) (of_Z 60)) in
  let dow := weekday_of secs in
  let turn x n := fdiv (fmul (fmul (of_Z 2) PI) x) (of_Z n) in
  list_to_map [("hour_sin", sin (turn hour 24)); ("hour_cos", cos (turn hour 24)); ("dow_sin", sin (turn (of_Z dow) 7));
               ("dow_cos", cos (turn (of_Z dow) 7)); ("hour_utc", hour); ("is_weekend", if (dow =? 0) || (dow =? 6) then f1 else f0)].

(* @src third_party/predictions-engine/include/pe/features/cross_target.hpp | computeCrossTargetFeatures( *)
Definition computeCrossTargetFeatures s : Features :=
  let h13 := hitRate s (flit 13 10) in
  let h20 := hitRate s (of_Z 2) in
  let h50 := hitRate s (of_Z 5) in
  let ratio h := if fgt h13 (flit 1 (10 ^ 6)) then fdiv h h13 else f0 in
  list_to_map [("hit_13", h13); ("hit_20", h20); ("hit_50", h50); ("hit_ratio_20_13", ratio h20); ("hit_ratio_50_13", ratio h50);
               ("hit_spread_20_13", fsub h13 h20)].

(* @src third_party/predictions-engine/include/pe/features/gap.hpp | computeGapFeatures( *)
Definition computeGapFeatures s : Features :=
  let l1 := lagN s 1 in
  list_to_map [("gap_s", lastGapS s); ("log_lag_1", if fgt l1 f0 then log l1 else f0); ("gap_count", of_Z (gapCount s))].

(* @src third_party/predictions-engine/include/pe/features/feature_engine_v2.hpp | static double qualityScore( *)
Definition qualityScore s (now : Z) : double :=
  match getLifecycleState s now with
  | COLD => f0 | WARMING => flit 2 10 | WARM => flit 6 10 | PRODUCTION => f1 | DEGRADED => flit 3 10
  end.

(* @src third_party/predictions-engine/include/pe/features/feature_engine_v2.hpp:51-69 FeatureEngineV2::compute *)
Definition core_features s (quality : double) : Features :=
  let '(w20, w50, w100, w200) := hitRateWindows13 s in
  list_to_map [("sample_size", of_Z (count_ s)); ("quality_score", quality); ("mean_crash", mean (welford s)); ("std_crash", std s);
               ("ewma_crash", ewma s); ("ewma_hit_13", ewmaHit13 s); ("short_mean", shortMean s);
               ("short_std", fsqrt (shortVariance s)); ("short_hit_13", shortHitRate13 s);
               ("since_13", of_Z (roundsSince s (flit 13 10))); ("since_20", of_Z (roundsSince s (of_Z 2)));
               ("since_50", of_Z (roundsSince s (of_Z 5))); ("since_100", of_Z (roundsSince s (of_Z 10)));
               ("hit_1_30_20", w20); ("hit_1_30_50", w50); ("hit_1_30_100", w100); ("hit_1_30_200", w200)].

(** A family's values replace those of the same names. *)
(* @src third_party/predictions-engine/include/pe/features/feature_engine_v2.hpp:44-48 FeatureEngineV2::compute *)
Definition merge (part values : Features) : Features := part ∪ values.

(** [uuid] is a fresh id, [stamp] the formatted time, [now] in milliseconds. *)
(* @src third_party/predictions-engine/include/pe/features/feature_engine_v2.hpp | FeatureVector compute( *)
Definition compute s (roundId uuid stamp : string) (now : Z) : FeatureVector :=
  let quality := qualityScore s now in
  let values := core_features s quality in
  let values := merge (computeLagFeatures s) values in
  let values := merge (computeRunFeatures s) values in
  let values := merge (computeMarkovFeatures s) values in
  let values := merge (computeSpectralFeatures s) values in
  let values := merge (computeEntropyFeatures s) values in
  let values := merge (computeTimeFeatures (now / 1000)) values in
  let values := merge (computeCrossTargetFeatures s) values in
  let values := merge (computeGapFeatures s) values in
  {| fv_roundId := if String.eqb roundId "" then uuid else roundId; fv_timestamp := stamp; fv_version := FEATURE_VERSION_V2;
     fv_values := values; fv_sampleSize := count_ s; fv_quality := quality; fv_missing := 0 |}.

(** ** The names of the features *)

Definition family_names : list (list string) :=
  [["gap_s"; "log_lag_1"; "gap_count"]; ["hit_13"; "hit_20"; "hit_50"; "hit_ratio_20_13"; "hit_ratio_50_13"; "hit_spread_20_13"];
   ["hour_sin"; "hour_cos"; "dow_sin"; "dow_cos"; "hour_utc"; "is_weekend"]; ["entropy_binary_13"; "entropy_short_13"; "entropy_ratio"];
   ["spectral_acf1"; "spectral_acf2"; "spectral_period_hint"]; ["markov_p_up"; "markov_p_stay_up"; "markov_p_stay_down"];
   ["run_below_1_30"; "run_above_1_30"; "run_below_1_50"; "run_below_2_00"; "run_above_2_00"; "max_run_below_1_30";
    "max_run_above_1_30"; "max_run_below_2_00"];
   ["lag_1"; "lag_2"; "lag_3"; "lag_5"; "lag_diff_1"; "lag_ratio_1"]].

Definition families s (now : Z) : list Features :=
  [computeGapFeatures s; computeCrossTargetFeatures s; computeTimeFeatures (now / 1000); computeEntropyFeatures s;
   computeSpectralFeatures s; computeMarkovFeatures s; computeRunFeatures s; computeLagFeatures s].

Lemma compute_values s roundId uuid stamp now :
  fv_values (compute s roundId uuid stamp now) = foldr merge (core_features s (qualityScore s now)) (families s now).
Proof. done. Qed.

Lemma families_named s now : dom <$> families s now = (list_to_set <$> family_names : list (gset string)).
Proof.
  unfold families, family_names. cbn [fmap list_fmap]. unfold computeSpectralFeatures.
  repeat f_equal; try (unfold computeGapFeatures, computeCrossTargetFeatures, computeTimeFeatures, computeEntropyFeatures,
    computeMarkovFeatures, computeRunFeatures, computeLagFeatures; by rewrite dom_list_to_map_L).
  repeat case_match; by rewrite dom_list_to_map_L.
Qed.

Lemma dom_foldr_merge (base : Features) l : dom (foldr merge base l) = ⋃ (dom <$> l) ∪ dom base.
Proof. induction l as [|m l IH]; [set_solver|]. cbn [foldr fmap list_fmap union_list]. unfold merge at 1. rewrite dom_union_L, IH. set_solver. Qed.

Lemma lookup_foldr_merge (base : Features) l k : Forall (fun m => k ∉ dom m) l -> foldr merge base l !! k = base !! k.
Proof.
  induction 1 as [|m l Hm Hl IH]; [done|]. cbn [foldr]. unfold merge at 1.
  rewrite lookup_union_r; [done|]. by apply not_elem_of_dom in Hm.
Qed.

Definition core_names : list string :=
  ["sample_size"; "quality_score"; "mean_crash"; "std_crash"; "ewma_crash"; "ewma_hit_13"; "short_mean"; "short_std"; "short_hit_13";
   "since_13"; "since_20"; "since_50"; "since_100"; "hit_1_30_20"; "hit_1_30_50"; "hit_1_30_100"; "hit_1_30_200"].

(** A feature of the core is not overwritten by a family. *)
Lemma core_lookup s roundId uuid stamp now k : k ∈ core_names ->
  fv_values (compute s roundId uuid stamp now) !! k = core_features s (qualityScore s now) !! k.
Proof.
  intros Hk. rewrite compute_values. apply lookup_foldr_merge.
  assert (Forall (fun k => Forall (fun d : gset string => k ∉ d) (list_to_set <$> family_names)) core_names) as H.
  { apply (bool_decide_unpack _). vm_compute. exact I. }
  rewrite Forall_forall in H. specialize (H k Hk). rewrite <- (families_named s now) in H. rewrite Forall_fmap in H. exact H.
Qed.

(** A feature of a family is not overwritten by the families after it. *)
Lemma lookup_family (base : Features) l1 m l2 k v :
  Forall (fun m => k ∉ dom m) l1 -> m !! k = Some v -> foldr merge base (l1 ++ m :: l2) !! k = Some v.
Proof.
  intros H Hm. rewrite foldr_app, lookup_foldr_merge by done. cbn [foldr]. unfold merge at 1. by apply lookup_union_Some_l.
Qed.

(** The values that the helper of the incremental engine gives by itself. *)
(* @src third_party/predictions-engine/include/pe/features/incremental_features.hpp | computeIncrementalCoreFeatures( *)
Definition incremental_pairs s : list (string * double) :=
  let '(w20, w50, w100, w200) := hitRateWindows13 s in
  [("sample_size", of_Z (count_ s)); ("mean_crash", mean (welford s)); ("std_crash", std s); ("ewma_crash", ewma s);
   ("ewma_hit_13", ewmaHit13 s); ("hit_1_30_20", w20); ("hit_1_30_50", w50); ("hit_1_30_100", w100); ("hit_1_30_200", w200);
   ("short_mean", shortMean s); ("short_std", fsqrt (shortVariance s)); ("short_hit_13", shortHitRate13 s);
   ("since_13", of_Z (roundsSince s (flit 13 10))); ("since_20", of_Z (roundsSince s (of_Z 2)));
   ("since_50", of_Z (roundsSince s (of_Z 5))); ("since_100", of_Z (roundsSince s (of_Z 10)));
   ("run_below_1_30", of_Z (below13 (runs s))); ("run_above_1_30", of_Z (above13 (runs s))); ("markov_p_up", markovPNextAbove13 s)].

(* @src third_party/predictions-engine/include/pe/features/incremental_features.hpp | computeIncrementalCoreFeatures( *)
Definition computeIncrementalCoreFeatures s : Features := list_to_map (incremental_pairs s).

Lemma markov_runs_lookup s roundId uuid stamp now k v :
  (computeMarkovFeatures s !! k = Some v /\ Forall (k ∉.) (take 5 family_names)) \/
  (computeRunFeatures s !! k = Some v /\ Forall (k ∉.) (take 6 family_names)) ->
  fv_values (compute s roundId uuid stamp now) !! k = Some v.
Proof.
  assert (forall n, Forall (k ∉.) (take n family_names) -> Forall (fun m : Features => k ∉ dom m) (take n (families s now))) as Hd.
  { intros n Hn. apply (proj1 (Forall_fmap dom (fun d : gset string => k ∉ d) (take n (families s now)))).
    eapply eq_ind_r; [|exact (fmap_take dom n (families s now))]. rewrite families_named, <-fmap_take, Forall_fmap.
    eapply list.Forall_impl; [exact Hn|]. intros l Hl. simpl. by rewrite elem_of_list_to_set. }
  rewrite compute_values. intros [[Hv Hn]|[Hv Hn]]; apply Hd in Hn; exact (lookup_family _ _ _ _ _ _ Hn Hv).
Qed.

(** Remark: the helper of the incremental engine gives the same values as the full feature vector,
    for each of its nineteen names. *)
Theorem incremental_features_agree s roundId uuid stamp now :
  computeIncrementalCoreFeatures s ⊆ fv_values (compute s roundId uuid stamp now).
Proof.
  apply map_subseteq_spec. intros k v Hv. apply elem_of_list_to_map_2 in Hv. unfold incremental_pairs in Hv.
  destruct (hitRateWindows13 s) as [[[w20 w50] w100] w200] eqn:Ew.
  assert (forall i, core_names !! i = Some k ->
    (forall q, (let '(w20, w50, w100, w200) := hitRateWindows13 s in
     [of_Z (count_ s); q; mean (welford s); std s; ewma s; ewmaHit13 s; shortMean s; fsqrt (shortVariance s); shortHitRate13 s;
      of_Z (roundsSince s (flit 13 10)); of_Z (roundsSince s (of_Z 2)); of_Z (roundsSince s (of_Z 5));
      of_Z (roundsSince s (of_Z 10)); w20; w50; w100; w200]) !! i = Some v) ->
    fv_values (compute s roundId uuid stamp now) !! k = Some v) as Hcore.
  { intros i Hk Hval. rewrite core_lookup by (by eapply list_elem_of_lookup_2). specialize (Hval (qualityScore s now)).
    rewrite Ew in Hval. unfold core_features. rewrite Ew. apply elem_of_list_to_map_1.
    - apply (bool_decide_unpack _). vm_compute. exact I.
    - apply (list_elem_of_lookup_2 _ i).
      do 17 (destruct i as [|i]; [simpl in *; by simplify_eq|]). done. }
  rewrite Ew in Hcore.
  repeat (apply elem_of_cons in Hv as [[= -> ->]|Hv]); [..|by apply not_elem_of_nil in Hv].
  all: try solve [match goal with |- _ !! ?k = _ =>
    let i := eval vm_compute in (default 0%nat (fst <$> list_find (k =.) core_names)) in apply (Hcore i); reflexivity end].
  - apply markov_runs_lookup. right. split; [done|]. apply (bool_decide_unpack _). vm_compute. exact I.
  - apply markov_runs_lookup. right. split; [done|]. apply (bool_decide_unpack _). vm_compute. exact I.
  - apply markov_runs_lookup. left. split; [done|]. apply (bool_decide_unpack _). vm_compute. exact I.
Qed.

(** Remark: for every state of the engine the names of the computed features are exactly those of
    the schema, and none is counted as missing. *)
Theorem features_match_schema s roundId uuid stamp now :
  let v := compute s roundId uuid stamp now in
  dom (fv_values v) = list_to_set featureSchemaV2 /\ fv_missing v = 0 /\ fv_version v = FEATURE_VERSION_V2.
Proof.
  cbv zeta. split_and!; [|done|done]. rewrite compute_values, dom_foldr_merge, families_named.
  assert (dom (core_features s (qualityScore s now)) = list_to_set core_names) as ->.
  { unfold core_features. destruct (hitRateWindows13 s) as [[[w20 w50] w100] w200]. by rewrite dom_list_to_map_L. }
  apply (bool_decide_unpack _). vm_compute. exact I.
Qed.

(** ** The hit rates are numbers *)

Lemma window_rate_nonneg s w target : 0 <= w <= 512 -> nonneg (windowHitRate s w target) = true.
Proof.
  intros Hw. unfold windowHitRate. set (n := Z.to_nat (Z.min (Z.max 0 w) (Z.of_nat (len (lag s))))).
  destruct (n =? 0)%nat eqn:En; [done|]. apply fdiv_nonneg; [apply of_Z_nonneg; lia|].
  assert (Forall (fun n => fpositive (of_Z (Z.of_nat n)) = true) (seq 1 512)) as H.
  { apply (bool_decide_unpack _). vm_compute. exact I. }
  rewrite Forall_forall in H. apply H, elem_of_seq. apply Nat.eqb_neq in En. unfold n in *. lia.
Qed.

(** What the default model reads. *)
Lemma core_values s q :
  let '(w20, w50, w100, w200) := hitRateWindows13 s in
  core_features s q !! "hit_1_30_20" = Some w20 /\ core_features s q !! "hit_1_30_50" = Some w50 /\
  core_features s q !! "hit_1_30_100" = Some w100 /\ core_features s q !! "hit_1_30_200" = Some w200 /\
  core_features s q !! "sample_size" = Some (of_Z (count_ s)) /\ core_features s q !! "quality_score" = Some q.
Proof.
  unfold core_features. destruct (hitRateWindows13 s) as [[[w20 w50] w100] w200].
  assert (NoDup core_names) as Hn by (apply (bool_decide_unpack _); vm_compute; exact I).
  split_and!; (apply elem_of_list_to_map_1; [exact Hn|]).
  - by apply (list_elem_of_lookup_2 _ 13).
  - by apply (list_elem_of_lookup_2 _ 14).
  - by apply (list_elem_of_lookup_2 _ 15).
  - by apply (list_elem_of_lookup_2 _ 16).
  - by apply (list_elem_of_lookup_2 _ 0).
  - by apply (list_elem_of_lookup_2 _ 1).
Qed.
End Families.
