(* ===== verification/PeModels.v ===== *)
(** The regime detector and the models of the prediction engine
    ([third_party/predictions-engine/include/pe/regimes/regime_detector.hpp] and [pe/models]).

    A model is one of the classes of the source with its state.  [exp] and [log2] are
    parameters; [Stamp] carries the fresh id and the readings of the clock that an output gets,
    [iso] formats a time.  The optional model of machine learning is in [MlPredict]. *)
From S2P Require Import Prelude Float64 FloatSign Types PeState PeFeatures.

Open Scope string_scope.
Open Scope list_scope.
Open Scope Z_scope.

Import IncrementalStateEngine.

(* @src third_party/predictions-engine/include/pe/types.hpp | struct ModelIdentity { *)
Record ModelIdentity := { mi_name : string; mi_version : string; mi_featureVersion : string; mi_targetVersion : string }.

(* @src third_party/predictions-engine/include/pe/types.hpp | enum class StreakState *)
Inductive StreakState := StLow | StHigh | StMixed | StNeutral.
#[export] Instance StreakState_eq_dec : EqDecision StreakState.
Proof. solve_decision. Defined.

(** The name is the id. *)
(* @src third_party/predictions-engine/include/pe/types.hpp | struct Regime { *)
Record Regime := {
  rg_id : string; rg_instanceId : string; rg_lowConcentration : double; rg_highConcentration : double; rg_volatility : double;
  rg_streak : StreakState; rg_thresholdFrequency : gmap string double; rg_anomaly : bool; rg_confidence : double;
  rg_explanation : list string; rg_detectedAt : string }.

(* @src third_party/predictions-engine/include/pe/types.hpp | struct PredictionOutput { *)
Record PredictionOutput := {
  po_predictionId : string; po_model : ModelIdentity; po_target : double; po_score : double; po_probability : double;
  po_confidence : double; po_regime : option Regime; po_dataQuality : double; po_featureSummary : gmap string double;
  po_reasoning : list string; po_timestamp : string; po_expiresAt : string }.

(** * [RegimeDetector] *)
Module RegimeDetector.

(** The sums over the window: low rounds, high rounds, points and squares. *)
(* @src third_party/predictions-engine/include/pe/regimes/regime_detector.hpp:28-35 RegimeDetector::detect *)
Definition tally_point (acc : double * double * double * double) (c : double) : double * double * double * double :=
  let '(low, high, s, sq) := acc in
  (if flt c (flit 15 10) then fadd low f1 else low, if fge c (of_Z 5) then fadd high f1 else high, fadd s c, fadd sq (fmul c c)).

(* @src third_party/predictions-engine/include/pe/regimes/regime_detector.hpp | static int countConsec( *)
Definition countConsec (cps : list double) (pred : double -> bool) : nat := run_at_front pred (rev cps).

(* @src third_party/predictions-engine/include/pe/regimes/regime_detector.hpp:44-49 RegimeDetector::detect *)
Definition streak_of (cps : list double) : StreakState :=
  let consecLow := countConsec cps (fun c => flt c (flit 13 10)) in
  let consecHigh := countConsec cps (fun c => fge c (of_Z 2)) in
  if (5 <=? consecLow)%nat then StLow
  else if (3 <=? consecHigh)%nat then StHigh
  else if (2 <=? consecLow)%nat && (1 <=? consecHigh)%nat then StMixed
  else StNeutral.

(* @src third_party/predictions-engine/include/pe/regimes/regime_detector.hpp:60-73 RegimeDetector::detect *)
Definition explain (low high vol : double) (streak : StreakState) (consecLow : nat) (anomaly : bool) : list string :=
  let e :=
    (if fgt low (flit 7 10) then ["High low-multiplier concentration (" +:+ to_string (ftrunc (fmul low (of_Z 100))) +:+ "%)"] else []) ++
    (if fgt high (flit 15 100) then ["Elevated high-multiplier frequency"] else []) ++
    (if fgt vol (of_Z 5) then ["Elevated volatility"] else []) ++
    (if decide (streak = StLow) then ["Consecutive low streak of " +:+ to_string (Z.of_nat consecLow)] else []) ++
    (if anomaly then ["Anomaly flags active"] else []) in
  if decide (e = []) then ["Neutral regime"] else e.

(* @src third_party/predictions-engine/include/pe/regimes/regime_detector.hpp:75-81 RegimeDetector::detect *)
Definition regime_name (low high vol : double) (streak : StreakState) (anomaly : bool) : string :=
  if anomaly then "anomalous"
  else if fgt low (flit 75 100) && bool_decide (streak = StLow) then "deep-low"
  else if fgt high (flit 2 10) then "high-burst"
  else if decide (streak = StHigh) then "high-streak"
  else if decide (streak = StLow) then "low-streak"
  else if fgt vol (of_Z 8) then "volatile"
  else "neutral".

(* @src third_party/predictions-engine/include/pe/regimes/regime_detector.hpp:51-56 RegimeDetector::detect *)
Definition hit (window : list double) (thr : double) : double :=
  if (length window =? 0)%nat then f0
  else fdiv (of_Z (Z.of_nat (count (fun c => fge c thr) window))) (of_Z (Z.of_nat (length window))).

(* @src third_party/predictions-engine/include/pe/regimes/regime_detector.hpp | Regime detect( *)
Definition detect (cps : list double) (uuid at_ : string) : Regime :=
  let window := trim_front 50 cps in
  let n := of_Z (Z.of_nat (length window)) in
  let '(low, high, s, sq) := fold_left tally_point window (f0, f0, f0, f0) in
  let some := (0 <? length window)%nat in
  let low := if some then fdiv low n else low in
  let high := if some then fdiv high n else high in
  let meanCp := if some then fdiv s n else f0 in
  let var := if (1 <? length window)%nat then fmax f0 (fsub (fdiv sq n) (fmul meanCp meanCp)) else f0 in
  let vol := fsqrt var in
  let streak := streak_of cps in
  let anomaly := (length window <? 10)%nat || fgt vol (of_Z 20) || fgt meanCp (of_Z 50) in
  {| rg_id := regime_name low high vol streak anomaly; rg_instanceId := uuid; rg_lowConcentration := low;
     rg_highConcentration := high; rg_volatility := vol; rg_streak := streak;
     rg_thresholdFrequency := list_to_map [("1.30", hit window (flit 13 10)); ("2.00", hit window (of_Z 2));
                                           ("5.00", hit window (of_Z 5)); ("10.00", hit window (of_Z 10))];
     rg_anomaly := anomaly;
     rg_confidence := if anomaly then flit 4 10 else if (30 <=? length window)%nat then flit 85 100 else flit 6 10;
     rg_explanation := explain low high vol streak (countConsec cps (fun c => flt c (flit 13 10))) anomaly;
     rg_detectedAt := at_ |}.

(** Remark: the mixed streak is never reported: no round is both below 1.3 and at least 2. *)
Theorem streak_never_mixed (cps : list double) : streak_of cps <> StMixed.
Proof.
  unfold streak_of, countConsec. destruct (5 <=? _)%nat; [done|]. destruct (3 <=? _)%nat; [done|].
  destruct (rev cps) as [|x l]; [done|]. cbn [run_at_front]. destruct (flt x (flit 13 10)) eqn:H1; [|done].
  assert (fge x (of_Z 2) = false) as ->; [|by rewrite andb_false_r].
  apply not_true_is_false. intros H2. assert (fle (of_Z 2) (flit 13 10) = true) as H3 by forder. vm_compute in H3. done.
Qed.
End RegimeDetector.

(** * Models *)
Module Models.

Record Stamp := { st_uuid : string; st_now : Z }.

(* @src third_party/predictions-engine/include/pe/models/baseline_model.hpp | inline constexpr double EMPIRICAL_BASE_1_30 *)
Definition EMPIRICAL_BASE_1_30 : double := fdiv f1 (flit 13 10).

(* @src third_party/predictions-engine/include/pe/models/baseline_model.hpp | struct OutcomeSample { *)
Record OutcomeSample := { os_predicted : double; os_actual : Z; os_gapActive : bool; os_streakActive : bool; os_anomalyActive : bool }.

(* @src third_party/predictions-engine/include/pe/models/baseline_model.hpp | struct BaselineAdaptiveState { *)
Record BaselineAdaptiveState := {
  version : Z; gapMultiplier : double; streakMultiplier : double; anomalyMultiplier : double; shortWeight : double; midWeight : double;
  longWeight : double; outcomes : list OutcomeSample; rollingAbsError : double; allowHeuristicBoosts : bool; updatedAt : string }.
#[export] Instance eta_BaselineAdaptiveState : Eta BaselineAdaptiveState := fun r =>
  {| version := version r; gapMultiplier := gapMultiplier r; streakMultiplier := streakMultiplier r;
     anomalyMultiplier := anomalyMultiplier r; shortWeight := shortWeight r; midWeight := midWeight r; longWeight := longWeight r;
     outcomes := outcomes r; rollingAbsError := rollingAbsError r; allowHeuristicBoosts := allowHeuristicBoosts r;
     updatedAt := updatedAt r |}.

(* @src third_party/predictions-engine/include/pe/models/baseline_model.hpp | struct BaselineAdaptiveState { *)
Definition fresh_baseline (at_ : string) : BaselineAdaptiveState := {|
  version := 1; gapMultiplier := f1; streakMultiplier := f1; anomalyMultiplier := f1; shortWeight := flit 4 10;
  midWeight := flit 35 100; longWeight := flit 25 100; outcomes := []; rollingAbsError := flit 15 100;
  allowHeuristicBoosts := false; updatedAt := at_ |}.

Definition get (v : Features) (key : string) (def : double) : double := default def (v !! key).

(* @src third_party/predictions-engine/include/pe/models/baseline_model.hpp:72-75 BaselineStatisticalModel::predict *)
Definition windows (v : Features) : double * double * double * double :=
  let w20 := get v "hit_1_30_20" (get v "hit_13" EMPIRICAL_BASE_1_30) in
  let w50 := get v "hit_1_30_50" w20 in
  let w100 := get v "hit_1_30_100" w50 in
  (w20, w50, w100, get v "hit_1_30_200" w100).

(* @src third_party/predictions-engine/include/pe/models/baseline_model.hpp:83-86 BaselineStatisticalModel::predict *)
Definition shrink_of (a : BaselineAdaptiveState) (sampleSize : double) : double :=
  if flt sampleSize (of_Z 50) then flit 55 100
  else if fgt (rollingAbsError a) (flit 12 100) then flit 35 100 else flit 15 100.

(* @src third_party/predictions-engine/include/pe/models/baseline_model.hpp:78-102 BaselineStatisticalModel::predict *)
Definition baseline_probability (a : BaselineAdaptiveState) (v : Features) (target : double) : double :=
  let '(w20, w50, w100, w200) := windows v in
  let p := fadd (fadd (fmul (shortWeight a) w20) (fmul (midWeight a) w50))
                (fmul (longWeight a) (fmax w100 (fmul w200 (flit 95 100)))) in
  let shrink := shrink_of a (get v "sample_size" f0) in
  let p := fadd (fmul (fsub f1 shrink) p) (fmul shrink EMPIRICAL_BASE_1_30) in
  let p := if allowHeuristicBoosts a then fmul (fmul (fmul p (gapMultiplier a)) (streakMultiplier a)) (anomalyMultiplier a) else p in
  let p := if fge target (of_Z 10) then fmul p (flit 8 100)
           else if fge target (of_Z 5) then fmul p (flit 22 100)
           else if fge target (of_Z 2) then fmul p (flit 55 100) else p in
  fclamp p (flit 1 100) (flit 99 100).

(* @src third_party/predictions-engine/include/pe/models/baseline_model.hpp:104-109 BaselineStatisticalModel::predict *)
Definition baseline_confidence (a : BaselineAdaptiveState) (v : Features) (anomaly : bool) : double :=
  let quality := get v "quality_score" (flit 5 10) in
  let conf := fadd (fadd (fmul (flit 55 100) quality)
                         (fmul (flit 25 100) (fsub f1 (fmin f1 (fdiv (rollingAbsError a) (flit 2 10))))))
                   (fmul (flit 20 100) (fmin f1 (fdiv (get v "sample_size" f0) (of_Z 100)))) in
  fclamp (if anomaly then fmul conf (flit 7 10) else conf) (flit 15 100) (flit 92 100).

(* @src third_party/predictions-engine/include/pe/models/baseline_model.hpp | void observeOutcome( *)
Definition observeOutcome (a : BaselineAdaptiveState) (predicted : double) (actual : Z) (at_ : string) : BaselineAdaptiveState :=
  let l := push_erase 200 (outcomes a) {| os_predicted := predicted; os_actual := actual; os_gapActive := false;
                                          os_streakActive := false; os_anomalyActive := false |} in
  let total := sum ((fun o => SFabs (fsub (os_predicted o) (of_Z (os_actual o)))) <$> l) in
  a <| outcomes := l |> <| rollingAbsError := fdiv total (of_Z (Z.of_nat (length l))) |> <| updatedAt := at_ |>.

(* @src third_party/predictions-engine/include/pe/models/gap_conditional_model.hpp | struct GapZParams { *)
Record GapZParams := { gapMeanS : double; gapStdS : double; logLag1Mean : double; logLag1Std : double }.
(* @src third_party/predictions-engine/include/pe/models/gap_conditional_model.hpp | inline constexpr GapZParams NEUTRAL_Z *)
Definition NEUTRAL_Z : GapZParams := {| gapMeanS := f0; gapStdS := f1; logLag1Mean := f0; logLag1Std := f1 |}.

(** The classes that implement [PredictiveModel], each with its state. *)
(* @src third_party/predictions-engine/include/pe/models/model_registry.hpp | auto baseline = >> registerModel(std::make_unique<AutocorrelationModel>()); | ModelRegistry *)
Inductive Model :=
  | Baseline (a : BaselineAdaptiveState)
  | GapConditional (gapSignalActive : bool) (z : GapZParams)
  | Frequency | StreakAware | RegimeAdjusted (allowBoost : bool) | MetaLogistic | Markov | Spectral | Entropy | Autocorrelation.

(* @src third_party/predictions-engine/include/pe/models/candidate_models.hpp | inline double clamp01( *)
Definition clamp01 (x : double) : double := fmax (flit 1 100) (fmin (flit 99 100) x).

Definition simple_identity (name : string) : ModelIdentity :=
  {| mi_name := name; mi_version := "1.0.0"; mi_featureVersion := FEATURE_VERSION_V2; mi_targetVersion := "targets-v1" |}.

(* @src third_party/predictions-engine/include/pe/models/predictive_model.hpp | virtual const ModelIdentity& identity() *)
Definition identity (m : Model) : ModelIdentity :=
  match m with
  | Baseline _ => {| mi_name := "baseline-statistical"; mi_version := "1.2.0"; mi_featureVersion := FEATURE_VERSION_V2;
                     mi_targetVersion := "targets-v1" |}
  | GapConditional _ _ => {| mi_name := "gap-conditional"; mi_version := "1.0.0"; mi_featureVersion := FEATURE_VERSION_V2;
                             mi_targetVersion := "tv-1.0.0" |}
  | Frequency => simple_identity "frequency" | StreakAware => simple_identity "streak-aware"
  | RegimeAdjusted _ => simple_identity "regime-adjusted" | MetaLogistic => simple_identity "meta-logistic"
  | Markov => simple_identity "markov" | Spectral => simple_identity "spectral" | Entropy => simple_identity "entropy"
  | Autocorrelation => simple_identity "autocorrelation"
  end.

(* @src third_party/predictions-engine/include/pe/models/candidate_models.hpp | inline double frequencyModelProbability( *)
Definition frequencyModelProbability (ewmaHitRate : double) : double := if fgt ewmaHitRate f0 then clamp01 ewmaHitRate else flit 65 100.

(* @src third_party/predictions-engine/include/pe/models/candidate_models.hpp | inline double streakAwareProbability( *)
Definition streakAwareProbability (baseline : double) (streak : option double) : double :=
  match streak with None => clamp01 baseline | Some r => clamp01 r end.

(* @src third_party/predictions-engine/include/pe/models/candidate_models.hpp | inline double conditionalFrequencyProbability( *)
Definition conditionalFrequencyProbability (conditional baseline : double) (matchCount minMatches : Z) : double :=
  clamp01 (if minMatches <=? matchCount then conditional else baseline).

(* @src third_party/predictions-engine/include/pe/models/candidate_models.hpp | inline double regimeAdjustedProbability( *)
Definition regimeAdjustedProbability (baseline : double) (regime : string) (improvement : double) (allowBoost : bool) : double :=
  let named s := bool_decide (regime = s) in
  clamp01 (if allowBoost then
             if named "low-cluster" || named "deep-low" then fadd baseline (fmax (flit 2 100) (fmul improvement (flit 55 100)))
             else if named "volatile" then fmul baseline (flit 97 100)
             else if named "high-activity" || named "high-burst" then fadd baseline (flit 25 1000)
             else baseline
           else baseline).

Section Predict.
Variable exp log2 log : double -> double.
Variable iso : Z -> string.

(* @src third_party/predictions-engine/include/pe/models/gap_conditional_model.hpp | inline double sigmoid( *)
Definition sigmoid (x : double) : double := fdiv f1 (fadd f1 (exp (SFopp x))).

Definition half_above (thr target : double) (factor p : double) : double := if fge target thr then fmul p factor else p.

(** The models that take one feature, scale it for higher targets and clamp it. *)
(* @src third_party/predictions-engine/include/pe/models/candidate_models.hpp:141-263 FrequencyModel::predict *)
Definition simple_probability (m : Model) (v : Features) (target : double) (regime : option Regime) : double :=
  let halved := half_above (of_Z 2) target (flit 55 100) in
  match m with
  | Frequency => clamp01 (half_above (of_Z 5) target (flit 4 10) (halved (frequencyModelProbability (get v "ewma_hit_13" (flit 65 100)))))
  | StreakAware => clamp01 (halved (streakAwareProbability (get v "ewma_hit_13" EMPIRICAL_BASE_1_30) (v !! "short_hit_13")))
  | RegimeAdjusted boost =>
      clamp01 (halved (regimeAdjustedProbability (get v "ewma_hit_13" EMPIRICAL_BASE_1_30)
                         (match regime with Some r => rg_id r | None => "neutral" end) (flit 5 100) boost))
  | Markov => clamp01 (halved (get v "markov_p_up" EMPIRICAL_BASE_1_30))
  | Entropy => clamp01 (halved (get v "short_hit_13" EMPIRICAL_BASE_1_30))
  | _ => clamp01 (halved (get v "ewma_hit_13" EMPIRICAL_BASE_1_30))
  end.

(* @src third_party/predictions-engine/include/pe/models/gap_conditional_model.hpp:86-109 GapConditionalModel::predict *)
Definition gap_probability (active : bool) (z : GapZParams) (v : Features) (target : double) : double * list string :=
  let gapS := get v "gap_s" f0 in
  let logLag1 := get v "log_lag_1" f0 in
  let '(p, why) :=
    if active then
      let gapZ := fdiv (fsub gapS (gapMeanS z)) (gapStdS z) in
      let logZ := fdiv (fsub logLag1 (logLag1Mean z)) (logLag1Std z) in
      (clamp01 (sigmoid (fadd (fadd (flit 1203 1000) (fmul (flit 1491 1000) gapZ)) (fmul (flit (-309) 1000) logZ))),
       "MODEL_B: gap regime active (gap_z + log_lag1_z logistic)")
    else
      (clamp01 (sigmoid (fadd (flit 1145 1000) (fmul (flit (-23) 1000) logLag1))), "MODEL_A: gap regime inactive (log_lag1-only logistic)") in
  if feq target (flit 13 10) then (p, [why])
  else (clamp01 (fdiv f1 target), [why; "coefficient set is 1.30-specific — base-rate fallback"]).

(* @src third_party/predictions-engine/include/pe/models/meta_logistic_model.hpp:36-49 MetaLogisticModel::predict *)
Definition meta_probability (v : Features) (target : double) : double :=
  let weights := [flit (-2) 10; flit 18 10; flit 6 10; flit 9 10; flit (-3) 10] in
  let x := [f1; get v "ewma_hit_13" EMPIRICAL_BASE_1_30; get v "markov_p_up" EMPIRICAL_BASE_1_30;
            get v "short_hit_13" EMPIRICAL_BASE_1_30; get v "entropy_binary_13" f1] in
  let p := sigmoid (sum (zip_with fmul weights x)) in
  fclamp (half_above (of_Z 5) target (flit 4 10) (half_above (of_Z 2) target (flit 55 100) p)) (flit 1 100) (flit 99 100).

Definition flag (b : bool) : double := if b then f1 else f0.

(** Every model fills the output in the same way; [secs] is the time to its expiry. *)
(* @src third_party/predictions-engine/include/pe/models/candidate_models.hpp | inline PredictionOutput makeSimpleOut( *)
Definition output (m : Model) (target p conf : double) (regime : option Regime) (quality : double) (summary : list (string * double))
    (why : list string) (secs : Z) (st : Stamp) : PredictionOutput := {|
  po_predictionId := st_uuid st; po_model := identity m; po_target := target; po_score := p; po_probability := p; po_confidence := conf;
  po_regime := regime; po_dataQuality := quality; po_featureSummary := list_to_map summary; po_reasoning := why;
  po_timestamp := iso (st_now st); po_expiresAt := iso (st_now st + secs * 1000) |}.

(* @src third_party/predictions-engine/include/pe/models/baseline_model.hpp:61-133 BaselineStatisticalModel::predict *)
Definition baseline_predict (a : BaselineAdaptiveState) (fv : FeatureVector) (target : double) (regime : option Regime) (st : Stamp)
    : PredictionOutput :=
  let v := fv_values fv in
  let '(w20, w50, w100, w200) := windows v in
  let p := baseline_probability a v target in
  output (Baseline a) target p (baseline_confidence a v (match regime with Some r => rg_anomaly r | None => false end)) regime
    (get v "quality_score" (flit 5 10))
    [("w20", w20); ("w50", w50); ("w100", w100); ("w200", w200); ("ewma_hit_13", get v "ewma_hit_13" EMPIRICAL_BASE_1_30); ("blend_p", p);
     ("shrink", shrink_of a (get v "sample_size" f0))]
    (["baseline-statistical v1.2.0"; "window blend + soft shrink toward empirical base rate";
      if allowHeuristicBoosts a then "heuristic boosts enabled" else "heuristic boosts gated off"] ++
     match regime with Some r => ["regime=" +:+ rg_id r] | None => [] end) 30 st.

(* @src third_party/predictions-engine/include/pe/models/gap_conditional_model.hpp:80-130 GapConditionalModel::predict *)
Definition gap_predict (active : bool) (z : GapZParams) (fv : FeatureVector) (target : double) (regime : option Regime) (st : Stamp)
    : PredictionOutput :=
  let v := fv_values fv in
  let '(p, why) := gap_probability active z v target in
  output (GapConditional active z) target p (flit 3 10) regime (fv_quality fv)
    [("gap_s", get v "gap_s" f0); ("log_lag_1", get v "log_lag_1" f0); ("gap_regime_active", flag active);
     ("sample_size", of_Z (fv_sampleSize fv))] why 60 st.

(* @src third_party/predictions-engine/include/pe/models/predictive_model.hpp | virtual PredictionOutput predict( *)
Definition predict (m : Model) (fv : FeatureVector) (target : double) (regime : option Regime) (st : Stamp) : PredictionOutput :=
  let simple why := output m target (simple_probability m (fv_values fv) target regime) (flit 5 10) regime (fv_quality fv) [] why 30 st in
  match m with
  | Baseline a => baseline_predict a fv target regime st
  | GapConditional active z => gap_predict active z fv target regime st
  | MetaLogistic => output m target (meta_probability (fv_values fv) target) (flit 6 10) regime (fv_quality fv) [] ["meta-logistic-model"] 30 st
  | Frequency => simple ["frequency-model"] | StreakAware => simple ["streak-aware-model"]
  | RegimeAdjusted boost => simple ["regime-adjusted-model"; if boost then "boost enabled" else "boost gated off (deliberate deviation)"]
  | Markov => simple ["markov-model"] | Spectral => simple ["spectral-model"] | Entropy => simple ["entropy-model"]
  | Autocorrelation => simple ["autocorrelation-model"]
  end.

(** ** Standardisation of the gap model *)

(* @src third_party/predictions-engine/include/pe/models/gap_conditional_model.hpp | void setStandardization( *)
Definition setStandardization (z : GapZParams) : GapZParams :=
  {| gapMeanS := gapMeanS z; gapStdS := if fle (gapStdS z) f0 then f1 else gapStdS z; logLag1Mean := logLag1Mean z;
     logLag1Std := if fle (logLag1Std z) f0 then f1 else logLag1Std z |}.

(* @src third_party/predictions-engine/include/pe/models/gap_conditional_model.hpp:65-74 GapConditionalModel::fit *)
Definition meanStd (xs : list double) : double * double :=
  if (length xs =? 0)%nat then (f0, f1)
  else
    let m := fdiv (sum xs) (of_Z (Z.of_nat (length xs))) in
    let v := fold_left (fun v x => let d := fsub x m in fadd v (fmul d d)) xs f0 in
    let v := if (1 <? length xs)%nat then fdiv v (of_Z (Z.of_nat (length xs - 1))) else f1 in
    (m, if fgt (fsqrt v) f0 then fsqrt v else f1).

(* @src third_party/predictions-engine/include/pe/models/gap_conditional_model.hpp | void fit(const Dataset& trainingData) override *)
Definition fit (rows : list Features) : GapZParams :=
  let column k := omap (fun v : Features => v !! k) rows in
  let '(gm, gs) := meanStd (column "gap_s") in
  let '(lm, ls) := meanStd (column "log_lag_1") in
  {| gapMeanS := gm; gapStdS := gs; logLag1Mean := lm; logLag1Std := ls |}.

(** ** Scores from the state of the engine *)

Definition low_high (x : double) : double := flag (fge x (flit 13 10)).

(* @src third_party/predictions-engine/include/pe/models/candidate_models.hpp | inline CandidateEstimate autocorrelationModel( *)
Definition autocorrelationModel (s : t) : double :=
  let baseline := ewmaHit13 s in
  let bits := low_high <$> getLagArray s in
  let n := length bits in
  if (n <? 16)%nat then clamp01 baseline
  else
    let mean := fdiv (sum bits) (of_Z (Z.of_nat n)) in
    let '(num, den) := fold_left (fun acc ba =>
        let a := fsub ba.2 mean in
        let b := fsub ba.1 mean in
        (fadd acc.1 (fmul a b), fadd acc.2 (fmul b b))) (zip bits (tail bits)) (f0, f0) in
    let acf := if fgt den (flit 1 (10 ^ 9)) then fdiv num den else f0 in
    clamp01 (fadd baseline (fmul (fmul acf (fsub (default f0 (last bits)) baseline)) (flit 15 100))).

(* @src third_party/predictions-engine/include/pe/models/candidate_models.hpp | inline CandidateEstimate markovChainModel( *)
Definition markovChainModel (s : t) : double := clamp01 (markovPNextAbove13 s).

(* @src third_party/predictions-engine/include/pe/models/candidate_models.hpp | inline CandidateEstimate spectralModel( *)
Definition spectralModel (s : t) : double :=
  let baseline := ewmaHit13 s in
  let lags := getLagArray s in
  let n := of_Z (Z.of_nat (length lags)) in
  if (length lags <? 16)%nat then clamp01 baseline
  else
    let mean := fdiv (sum lags) n in
    let energy := fold_left (fun e x => let d := fsub x mean in fadd e (fmul d d)) lags f0 in
    let mix := fmin (flit 2 10) (fdiv energy (fadd (fmul n (of_Z 50)) (flit 1 (10 ^ 9)))) in
    clamp01 (fadd (fmul (fsub f1 mix) baseline) (fmul mix (shortHitRate13 s))).

(* @src third_party/predictions-engine/include/pe/models/candidate_models.hpp | inline CandidateEstimate entropyModel( *)
Definition entropyModel (s : t) : double :=
  let p := shortHitRate13 s in
  let certainty := fsub f1 (binaryEntropy log2 p) in
  clamp01 (fadd (fmul (fsub f1 (fmul certainty (flit 3 10))) (ewmaHit13 s)) (fmul (fmul certainty (flit 3 10)) p)).

(** The shared model of the scorer is never standardised or activated. *)
(* @src third_party/predictions-engine/include/pe/models/gap_conditional_model.hpp | inline CandidateEstimate scoreGapConditional( *)
Definition scoreGapConditional (s : t) : double :=
  let l1 := lagN s 1 in
  let v : Features := list_to_map [("gap_s", lastGapS s); ("log_lag_1", if fge l1 f1 then log l1 else f0)] in
  fst (gap_probability false NEUTRAL_Z v (flit 13 10)).

(* @src third_party/predictions-engine/include/pe/models/gap_conditional_model.hpp | scoreCandidates( *)
Definition scoreCandidates (s : t) : list (string * double) :=
  [("AutocorrelationModel", autocorrelationModel s); ("MarkovChainModel", markovChainModel s); ("SpectralModel", spectralModel s);
   ("EntropyModel", entropyModel s); ("GapConditionalModel", scoreGapConditional s)].

(** ** Bounds *)

Definition in_bounds (p : double) : Prop := fle (flit 1 100) p = true /\ fle p (flit 99 100) = true.

Lemma clamp01_range x : in_bounds (clamp01 x).
Proof. by apply max_min_range. Qed.

#[local] Opaque in_bounds clamp01.

(** Remark: every score of a candidate lies between 0.01 and 0.99, whatever the state of the engine and
    whatever the functions of the mathematics library answer, NaN included. *)
Theorem candidates_bounded (s : t) : Forall (fun c => in_bounds c.2) (scoreCandidates s).
Proof.
  assert (in_bounds (autocorrelationModel s)).
  { unfold autocorrelationModel. cbv zeta. destruct (_ <? 16)%nat; [apply clamp01_range|].
    match goal with |- context [fold_left ?f ?l ?a] => generalize (fold_left f l a) end. intros [num den]. apply clamp01_range. }
  assert (in_bounds (spectralModel s)).
  { unfold spectralModel. cbv zeta. destruct (_ <? 16)%nat; apply clamp01_range. }
  assert (in_bounds (scoreGapConditional s)).
  { unfold scoreGapConditional, gap_probability. cbv zeta. destruct (feq _ _); apply clamp01_range. }
  unfold scoreCandidates. repeat (apply Forall_cons_2; [cbn [snd]; first [assumption|apply clamp01_range]|]). apply Forall_nil_2.
Qed.
End Predict.
#[local] Transparent in_bounds clamp01.

(** The default model as it is constructed, on features that are not negative. *)
Lemma baseline_probability_bounds at_ v target :
  (let '(w20, w50, w100, w200) := windows v in nonneg w20 && nonneg w50 && nonneg w100 && nonneg w200 = true) ->
  in_bounds (baseline_probability (fresh_baseline at_) v target).
Proof.
  unfold baseline_probability. destruct (windows v) as [[[w20 w50] w100] w200]. rewrite !andb_true_iff. intros [[[H20 H50] H100] H200].
  set (p := fadd (fadd _ _) _). assert (nonneg p = true) as Hp.
  { repeat first [apply fadd_nonneg | apply fmul_nonneg; [done|] | apply fmax_nonneg | apply fmul_nonneg_r; [|done]]; done. }
  clearbody p. cbv zeta. change (allowHeuristicBoosts (fresh_baseline at_)) with false. cbv iota.
  set (p1 := fadd (fmul _ p) _). assert (nonneg p1 = true) as Hp1.
  { unfold p1, shrink_of. apply fadd_nonneg; (destruct (flt _ _); [|destruct (fgt _ _)]); first [by apply fmul_nonneg | done]. }
  clearbody p1. apply fclamp_range; [|done]. apply nonneg_not_nan.
  repeat (destruct (fge target _); [by apply fmul_nonneg_r|]). done.
Qed.

Lemma baseline_confidence_bounds at_ v anomaly :
  nonneg (get v "quality_score" (flit 5 10)) = true -> nonneg (get v "sample_size" f0) = true ->
  let c := baseline_confidence (fresh_baseline at_) v anomaly in fle (flit 15 100) c = true /\ fle c (flit 92 100) = true.
Proof.
  intros Hq Hn. unfold baseline_confidence. apply fclamp_range; [|done]. apply nonneg_not_nan.
  set (c := fadd (fadd _ _) _). assert (nonneg c = true) as Hc.
  { apply fadd_nonneg; [apply fadd_nonneg; [by apply fmul_nonneg|done]|]. apply fmul_nonneg; [done|]. apply fmin_nonneg; [done|]. by apply fdiv_nonneg. }
  clearbody c. destruct anomaly; [by apply fmul_nonneg_r|done].
Qed.
End Models.

(** * [ModelRegistry] *)
Module ModelRegistry.
Import Models.

(* @src third_party/predictions-engine/include/pe/models/model_registry.hpp | std::unordered_map<std::string, std::unique_ptr<PredictiveModel>> models_; >> std::string defaultKey_; | ModelRegistry *)
Record t := { models : gmap string Model; defaultKey : string }.
#[export] Instance eta_t : Eta t := fun r => {| models := models r; defaultKey := defaultKey r |}.

(* @src third_party/predictions-engine/include/pe/models/model_registry.hpp | static std::string keyOf( *)
Definition keyOf (i : ModelIdentity) : string := mi_name i +:+ "@" +:+ mi_version i.

(* @src third_party/predictions-engine/include/pe/models/model_registry.hpp | void registerModel( *)
Definition registerModel (r : t) (m : Model) : t := r <| models ::= <[keyOf (identity m) := m]> |>.

(* @src third_party/predictions-engine/include/pe/models/model_registry.hpp | ModelRegistry() { >> registerModel(std::make_unique<AutocorrelationModel>()); | ModelRegistry *)
Definition make (at_ : string) : t :=
  let baseline := Baseline (fresh_baseline at_) in
  fold_left registerModel
    [baseline; GapConditional false NEUTRAL_Z; Frequency; StreakAware; RegimeAdjusted false; MetaLogistic; Markov; Spectral; Entropy;
     Autocorrelation]
    {| models := ∅; defaultKey := keyOf (identity baseline) |}.

Section S.
(** The order in which the hash table is walked. *)
Variable enum : gmap string Model -> list (string * Model).

(** Without a version the last model met under the name. *)
(* @src third_party/predictions-engine/include/pe/models/model_registry.hpp | PredictiveModel* get( *)
Definition get (r : t) (name version : string) : option Model :=
  if String.eqb version "" then
    last (snd <$> List.filter (fun km => String.prefix (name +:+ "@") km.1) (enum (models r)))
  else models r !! (name +:+ "@" +:+ version).

(* @src third_party/predictions-engine/include/pe/models/model_registry.hpp | std::vector<ModelIdentity> list() const *)
Definition list_models (r : t) : list ModelIdentity := (fun km => identity km.2) <$> enum (models r).
End S.

(* @src third_party/predictions-engine/include/pe/models/model_registry.hpp | PredictiveModel& getDefault() *)
Definition getDefault (r : t) : option Model := models r !! defaultKey r.

(** The ten models have different names, and each is found under its own key. *)
Lemma make_models at_ :
  size (models (make at_)) = 10%nat /\ getDefault (make at_) = Some (Baseline (fresh_baseline at_)) /\
  map_Forall (fun k m => k = keyOf (identity m)) (models (make at_)).
Proof.
  split_and!; [reflexivity|reflexivity|]. unfold make. cbn [fold_left].
  repeat (apply map_Forall_insert_2; [done|]). apply map_Forall_empty.
Qed.
End ModelRegistry.
