(* ===== verification/PeEngine.v ===== *)
(** The prediction engine ([third_party/predictions-engine/include/pe/engine/prediction_engine.hpp]):
    state, features, regime, model, output and signal in one call, with the stage of a failure;
    and the prediction client over this engine.

    The functions of the C mathematics library and the formatting of a time are parameters, as
    are the random numbers of an id and the readings of the clock.  Machine learning is not
    compiled in by default; its stage is in [MlPredict].  The exceptions of a stage are the right side of a sum. *)
From S2P Require Import Prelude Float64 FloatSign Types Predict Strategy PeState PeFeatures PeModels.

Open Scope string_scope.
Open Scope list_scope.
Open Scope Z_scope.

(** * Fresh ids *)

Definition hex_digit (n : Z) : Ascii.ascii := Ascii.ascii_of_nat (Z.to_nat (if n <? 10 then 48 + n else 87 + n)).

(** [std::hex] with [std::setw(w)] and [std::setfill('0')], for a number of at most [w] digits. *)
Fixpoint hex_pad (w : nat) (n : Z) : string :=
  match w with O => EmptyString | S w => hex_pad w (n / 16) +:+ String (hex_digit (n mod 16)) EmptyString end.

(** From two random 64-bit numbers. *)
(* @src third_party/predictions-engine/include/pe/util/uuid.hpp | inline std::string randomUUID() *)
Definition randomUUID (a b : Z) : string :=
  let a := Z.lor (Z.land a 0xFFFFFFFFFFFF0FFF) 0x4000 in
  let b := Z.lor (Z.land b 0x3FFFFFFFFFFFFFFF) 0x8000000000000000 in
  hex_pad 8 (Z.land (Z.shiftr a 32) 0xFFFFFFFF) +:+ "-" +:+ hex_pad 4 (Z.land (Z.shiftr a 16) 0xFFFF) +:+ "-" +:+
  hex_pad 4 (Z.land a 0xFFFF) +:+ "-" +:+ hex_pad 4 (Z.land (Z.shiftr b 48) 0xFFFF) +:+ "-" +:+ hex_pad 12 (Z.land b 0xFFFFFFFFFFFF).

Lemma length_hex_pad w n : String.length (hex_pad w n) = w.
Proof. revert n. induction w as [|w IH]; intros n; [done|]. cbn [hex_pad]. rewrite length_app_str, IH. cbn. lia. Qed.

(** * [PredictionEngine] *)
Module PredictionEngine.
Import Models.

(* @src third_party/predictions-engine/include/pe/types.hpp | enum class PipelineStage { *)
Inductive PipelineStage :=
  | FeatureGeneration | RegimeDetection | ModelResolution | ModelPrediction | MlInference | Fusion | PredictionOutputValidation
  | SignalConversion | SignalValidation.

(* @src third_party/predictions-engine/include/pe/types.hpp | inline const char* toString(PipelineStage *)
Definition stage_name (s : PipelineStage) : string :=
  match s with
  | FeatureGeneration => "feature_generation" | RegimeDetection => "regime_detection" | ModelResolution => "model_resolution"
  | ModelPrediction => "model_prediction" | MlInference => "ml_inference" | Fusion => "fusion"
  | PredictionOutputValidation => "prediction_output_validation" | SignalConversion => "signal_conversion"
  | SignalValidation => "signal_validation"
  end.

(* @src third_party/predictions-engine/include/pe/engine/prediction_engine.hpp | struct PredictRequest { *)
Record PredictRequest := {
  pq_targetRoundId : string; pq_target : double; pq_modelName : option string; pq_modelVersion : option string;
  pq_recentCrashPoints : list double }.

(* @src third_party/predictions-engine/include/pe/types.hpp | struct PredictionSignal { *)
Record PredictionSignal := {
  ps_predictionId : string; ps_timestamp : string; ps_modelVersion : string; ps_featureVersion : string; ps_targetRoundId : string;
  ps_target : double; ps_score : double; ps_probability : double; ps_confidence : double; ps_regimeId : option string;
  ps_dataQuality : double; ps_reasoning : list string; ps_expiresAt : string; ps_featureSummary : gmap string double }.

(* @src third_party/predictions-engine/include/pe/engine/prediction_engine.hpp | struct PredictResult { *)
Record PredictResult := {
  px_signal : PredictionSignal; px_output : PredictionOutput; px_features : FeatureVector; px_regime : Regime;
  px_lifecycle : IncrementalStateEngine.EngineLifecycleState; px_latencyUs : Z; px_withinBudget : bool }.

(** The feature path of every signal of this engine is the incremental one. *)
(* @src third_party/predictions-engine/include/pe/signals/signal.hpp | inline PredictionSignal toSignal( *)
Definition toSignal (o : PredictionOutput) (targetRoundId : string) : PredictionSignal := {|
  ps_predictionId := po_predictionId o; ps_timestamp := po_timestamp o; ps_modelVersion := ModelRegistry.keyOf (po_model o);
  ps_featureVersion := mi_featureVersion (po_model o); ps_targetRoundId := targetRoundId; ps_target := po_target o;
  ps_score := po_score o; ps_probability := po_probability o; ps_confidence := po_confidence o; ps_regimeId := rg_id <$> po_regime o;
  ps_dataQuality := po_dataQuality o; ps_reasoning := po_reasoning o; ps_expiresAt := po_expiresAt o;
  ps_featureSummary := po_featureSummary o |}.

Definition is_empty (s : string) : bool := String.eqb s "".
Definition outside (x : double) : bool := negb (is_finite x) || flt x f0 || fgt x f1.

(* @src third_party/predictions-engine/include/pe/signals/validate.hpp | inline void validatePredictionOutput( *)
Definition validatePredictionOutput (o : PredictionOutput) : option string :=
  if is_empty (po_predictionId o) then Some "missing predictionId"
  else if outside (po_probability o) then Some "probability out of [0,1]"
  else if outside (po_confidence o) then Some "confidence out of [0,1]"
  else if is_empty (mi_name (po_model o)) || is_empty (mi_version (po_model o)) then Some "model identity incomplete"
  else None.

(* @src third_party/predictions-engine/include/pe/signals/validate.hpp | inline void validateSignal( *)
Definition validateSignal (s : PredictionSignal) : option string :=
  if is_empty (ps_predictionId s) then Some "missing predictionId"
  else if is_empty (ps_targetRoundId s) then Some "missing targetRoundId"
  else if outside (ps_probability s) then Some "probability out of range"
  else if is_empty (ps_featureVersion s) then Some "missing featureVersion"
  else None.

(* @src third_party/predictions-engine/include/pe/util/latency_budget.hpp | LATENCY_BUDGET_US = *)
Definition LATENCY_BUDGET_US : Z := 5000.

(** The features and the regimes have no state. *)
(* @src third_party/predictions-engine/include/pe/engine/prediction_engine.hpp | std::unique_ptr<IncrementalStateEngine> state_; >> std::unique_ptr<ModelRegistry> models_; | PredictionEngine *)
Record t := { state : IncrementalStateEngine.t; models : ModelRegistry.t }.
#[export] Instance eta_t : Eta t := fun r => {| state := state r; models := models r |}.

(* @src third_party/predictions-engine/include/pe/engine/prediction_engine.hpp | PredictionEngine() >> models_(std::make_unique<ModelRegistry>()) {} | PredictionEngine *)
Definition make (at_ : string) : t := {| state := IncrementalStateEngine.reset; models := ModelRegistry.make at_ |}.

(* @src third_party/predictions-engine/include/pe/engine/prediction_engine.hpp | IncrementalEngineSnapshot observe( *)
Definition observe (e : t) (crashPoint : double) (beganAtMs : option Z) (now : Z) : t :=
  e <| state ::= fun s =>
    IncrementalStateEngine.update (match beganAtMs with Some b => IncrementalStateEngine.recordBeganAt s b | None => s end) crashPoint now |>.

Section S.
Variable exp log log2 sin cos : double -> double.
Variable iso : Z -> string.
Variable enum : gmap string Model -> list (string * Model).

(** The model of the request, or the message of the failure. *)
(* @src third_party/predictions-engine/include/pe/engine/prediction_engine.hpp | // 3. Model resolution >> PipelineStageError(PipelineStage::ModelResolution | PredictionEngine::predict *)
Definition resolve (e : t) (req : PredictRequest) : Model + string :=
  match pq_modelName req with
  | Some name => match ModelRegistry.get enum (models e) name (default "" (pq_modelVersion req)) with
                 | Some m => inl m
                 | None => inr ("model not found: " +:+ name)
                 end
  | None => match ModelRegistry.getDefault (models e) with Some m => inl m | None => inr "No default model registered" end
  end.

(** [uuid] gives the successive fresh ids, [clk] the readings of the clock in milliseconds, [us]
    those of the latency timer. *)
(* @src third_party/predictions-engine/include/pe/engine/prediction_engine.hpp | PredictResult predict( *)
Definition predict (e : t) (req : PredictRequest) (uuid : nat -> string) (clk us : nat -> Z) : PredictResult + (PipelineStage * string) :=
  let fv := compute log log2 sin cos (state e) (pq_targetRoundId req) (uuid 0%nat) (iso (clk 1%nat)) (clk 1%nat) in
  let cps := match pq_recentCrashPoints req with [] => IncrementalStateEngine.getLagArray (state e) | l => l end in
  let regime := RegimeDetector.detect cps (uuid 1%nat) (iso (clk 2%nat)) in
  match resolve e req with
  | inr what => inr (ModelResolution, what)
  | inl m =>
      let out := Models.predict exp iso m fv (pq_target req) (Some regime) {| st_uuid := uuid 2%nat; st_now := clk 3%nat |} in
      match validatePredictionOutput out with
      | Some what => inr (PredictionOutputValidation, what)
      | None =>
          let signal := toSignal out (pq_targetRoundId req) in
          match validateSignal signal with
          | Some what => inr (SignalValidation, what)
          | None => inl {| px_signal := signal; px_output := out; px_features := fv; px_regime := regime;
                           px_lifecycle := IncrementalStateEngine.getLifecycleState (state e) (clk 0%nat);
                           px_latencyUs := us 0%nat; px_withinBudget := us 1%nat <=? LATENCY_BUDGET_US |}
          end
      end
  end.

(** ** A prediction is answered *)

(** What every engine of the program satisfies: the models are those it was constructed with, and
    the count is a number of rounds. *)
Definition sound (e : t) : Prop := (exists at_, models e = ModelRegistry.make at_) /\ 0 <= IncrementalStateEngine.count_ (state e).

Lemma recordBeganAt_count s b : IncrementalStateEngine.count_ (IncrementalStateEngine.recordBeganAt s b) = IncrementalStateEngine.count_ s.
Proof. unfold IncrementalStateEngine.recordBeganAt. by repeat case_match. Qed.

Lemma update_count s x now : IncrementalStateEngine.count_ (IncrementalStateEngine.update s x now) =
  IncrementalStateEngine.count_ s + (if IncrementalStateEngine.usable x then 1 else 0).
Proof.
  unfold IncrementalStateEngine.update. destruct (IncrementalStateEngine.usable x); cbn [negb]; [|lia].
  set (s1 := s <| IncrementalStateEngine.welford ::= _ |> <| IncrementalStateEngine.ewma ::= _ |> <| IncrementalStateEngine.ewmaHit13 ::= _ |>
    <| IncrementalStateEngine.hits ::= _ |> <| IncrementalStateEngine.since ::= _ |> <| IncrementalStateEngine.runs ::= _ |>
    <| IncrementalStateEngine.markov ::= _ |> <| IncrementalStateEngine.lag ::= _ |>).
  destruct (IncrementalStateEngine.note_short_rest x s1) as (R1 & _). change (IncrementalStateEngine.count_ s1) with (IncrementalStateEngine.count_ s) in R1.
  generalize dependent (IncrementalStateEngine.note_short x s1). intros s2 R1.
  change (1 + IncrementalStateEngine.count_ s2 = IncrementalStateEngine.count_ s + 1). lia.
Qed.

Lemma observe_count e x b now : IncrementalStateEngine.count_ (state (observe e x b now)) =
  IncrementalStateEngine.count_ (state e) + (if IncrementalStateEngine.usable x then 1 else 0).
Proof.
  unfold observe. cbn [state set_field]. rewrite update_count. destruct b; [by rewrite recordBeganAt_count|done].
Qed.

Lemma observe_sound e x b now : sound e -> sound (observe e x b now).
Proof. intros [Hm Hc]. split; [exact Hm|]. rewrite observe_count. destruct (IncrementalStateEngine.usable x); lia. Qed.

Lemma sound_default e : sound e -> exists at_, ModelRegistry.getDefault (models e) = Some (Baseline (fresh_baseline at_)).
Proof. intros [[at_ Hm] _]. exists at_. rewrite Hm. apply ModelRegistry.make_models. Qed.

Lemma quality_nonneg s now : nonneg (qualityScore s now) = true.
Proof. unfold qualityScore. by destruct (IncrementalStateEngine.getLifecycleState s now). Qed.

(** What the default model reads from the computed features. *)
Lemma read_features s rid uuid stamp now :
  let v := fv_values (compute log log2 sin cos s rid uuid stamp now) in
  windows v = IncrementalStateEngine.hitRateWindows13 s /\ get v "sample_size" f0 = of_Z (IncrementalStateEngine.count_ s) /\
  get v "quality_score" (flit 5 10) = qualityScore s now.
Proof.
  intros v. assert (forall k, k ∈ core_names -> v !! k = core_features s (qualityScore s now) !! k) as Hv by (intros; by apply core_lookup).
  pose proof (core_values s (qualityScore s now)) as H. unfold windows, get.
  destruct (IncrementalStateEngine.hitRateWindows13 s) as [[[w20 w50] w100] w200]. destruct H as (H1 & H2 & H3 & H4 & H5 & H6).
  rewrite <- Hv in H1, H2, H3, H4, H5, H6 by (apply (bool_decide_unpack _); vm_compute; exact I). by rewrite H1, H2, H3, H4, H5, H6.
Qed.

Definition confident (c : double) : Prop := fle (flit 15 100) c = true /\ fle c (flit 92 100) = true.

Lemma between_inside lo hi x : flt f0 lo = true -> flt hi f1 = true -> is_finite hi = true ->
  fle lo x = true -> fle x hi = true -> outside x = false.
Proof.
  intros Hlo Hhi Hf H1 H2. unfold outside.
  assert (flt x f0 = false) as -> by (apply not_true_is_false; intros H; assert (flt f0 f0 = true) by forder; done).
  assert (fgt x f1 = false) as -> by (apply not_true_is_false; intros H; unfold fgt in H; assert (flt f1 f1 = true) by forder; done).
  destruct x as [|[]| |]; [done| |by destruct hi as [|[]| |[]]| |done]; [by destruct lo as [|[]| |[]]|by destruct hi as [|[]| |[]]].
Qed.

(** The output of the default model on the computed features. *)
Lemma baseline_output at_ s rid uuid stamp now target regime st :
  0 <= IncrementalStateEngine.count_ s ->
  let out := Models.predict exp iso (Baseline (fresh_baseline at_)) (compute log log2 sin cos s rid uuid stamp now) target regime st in
  in_bounds (po_probability out) /\ confident (po_confidence out) /\ po_target out = target /\ po_predictionId out = st_uuid st /\
  po_model out = identity (Baseline (fresh_baseline at_)) /\
  po_confidence out = baseline_confidence (fresh_baseline at_) (fv_values (compute log log2 sin cos s rid uuid stamp now))
                        (match regime with Some r => rg_anomaly r | None => false end).
Proof.
  intros Hc. destruct (read_features s rid uuid stamp now) as (Hw & Hn & Hq).
  cbn [Models.predict]. unfold baseline_predict. set (v := fv_values _) in *.
  assert (in_bounds (baseline_probability (fresh_baseline at_) v target)) as Hp.
  { apply baseline_probability_bounds. rewrite Hw. unfold IncrementalStateEngine.hitRateWindows13. by rewrite !window_rate_nonneg by lia. }
  assert (forall a, confident (baseline_confidence (fresh_baseline at_) v a)) as Hconf.
  { intros a. apply baseline_confidence_bounds; [rewrite Hq; apply quality_nonneg|rewrite Hn; by apply of_Z_nonneg]. }
  clearbody v. destruct (windows v) as [[[w20 w50] w100] w200]. cbn [output po_probability po_confidence po_target po_predictionId po_model].
  by split_and!.
Qed.

(** The course of such a prediction: the output passes its validation, and so does the signal when
    there is a round id. *)
Lemma predict_result (e : t) (req : PredictRequest) (uuid : nat -> string) (clk us : nat -> Z) :
  sound e -> pq_modelName req = None -> (forall i, uuid i <> EmptyString) ->
  exists at_ out anomaly,
    let v := fv_values (compute log log2 sin cos (state e) (pq_targetRoundId req) (uuid 0%nat) (iso (clk 1%nat)) (clk 1%nat)) in
    in_bounds (po_probability out) /\ confident (po_confidence out) /\ po_target out = pq_target req /\
    po_predictionId out = uuid 2%nat /\ po_model out = identity (Baseline (fresh_baseline at_)) /\
    po_confidence out = baseline_confidence (fresh_baseline at_) v anomaly /\
    if is_empty (pq_targetRoundId req) then predict e req uuid clk us = inr (SignalValidation, "missing targetRoundId")
    else exists r, predict e req uuid clk us = inl r /\ px_output r = out /\ px_signal r = toSignal out (pq_targetRoundId req).
Proof.
  intros Hs Hm Hu. unfold predict, resolve. rewrite Hm. destruct (sound_default e Hs) as [at_ ->].
  pose proof (baseline_output at_ (state e) (pq_targetRoundId req) (uuid 0%nat) (iso (clk 1%nat)) (clk 1%nat) (pq_target req)
    (Some (RegimeDetector.detect (match pq_recentCrashPoints req with [] => IncrementalStateEngine.getLagArray (state e) | l => l end)
             (uuid 1%nat) (iso (clk 2%nat)))) {| st_uuid := uuid 2%nat; st_now := clk 3%nat |} (proj2 Hs)) as H.
  cbv zeta in *. exists at_. set (out := Models.predict _ _ _ _ _ _ _) in *. eexists out, _. clearbody out.
  destruct H as (Hp & Hc & Ht & Hid & Hk & Hf). cbn [st_uuid] in Hid.
  assert (outside (po_probability out) = false) as Hop by (by apply (between_inside (flit 1 100) (flit 99 100)); try apply Hp).
  assert (outside (po_confidence out) = false) as Hoc by (by apply (between_inside (flit 15 100) (flit 92 100)); try apply Hc).
  do 6 (split; [eassumption|]). unfold validatePredictionOutput. rewrite Hop, Hoc, Hk, Hid. unfold is_empty. rewrite (proj2 (String.eqb_neq _ _) (Hu 2%nat)). cbn [mi_name mi_version identity orb String.eqb].
  unfold validateSignal. cbn [toSignal ps_predictionId ps_targetRoundId ps_probability ps_featureVersion].
  rewrite Hid, Hop, Hk. unfold is_empty. rewrite (proj2 (String.eqb_neq _ _) (Hu 2%nat)).
  destruct (String.eqb (pq_targetRoundId req) ""); [done|]. eexists. by split_and!.
Qed.

(** C7: an engine with the shipped models answers every request that names no model: for a
    round with an id the result is a signal for that round from the default model, with a
    probability between 0.01 and 0.99 and a confidence between 0.15 and 0.92, whatever points it
    has seen and whatever the mathematics library answers; without a round id it is the failure
    of the last stage and nothing else. *)
Theorem predict_answers (e : t) (req : PredictRequest) (uuid : nat -> string) (clk us : nat -> Z) :
  sound e -> pq_modelName req = None -> (forall i, uuid i <> EmptyString) ->
  match predict e req uuid clk us with
  | inl r =>
      pq_targetRoundId req <> EmptyString /\ ps_targetRoundId (px_signal r) = pq_targetRoundId req /\
      in_bounds (ps_probability (px_signal r)) /\ confident (ps_confidence (px_signal r)) /\
      ps_target (px_signal r) = pq_target req /\ ps_modelVersion (px_signal r) = "baseline-statistical@1.2.0" /\
      ps_predictionId (px_signal r) = uuid 2%nat
  | inr (st, what) => pq_targetRoundId req = EmptyString /\ st = SignalValidation /\ what = "missing targetRoundId"
  end.
Proof.
  intros Hs Hm Hu. destruct (predict_result e req uuid clk us Hs Hm Hu) as (at_ & out & an & Hp & Hc & Ht & Hid & Hk & _ & H).
  unfold is_empty in H. destruct (String.eqb_spec (pq_targetRoundId req) "") as [E|E]; [by rewrite H|].
  destruct H as (r & -> & _ & ->). cbn [toSignal ps_targetRoundId ps_probability ps_confidence ps_target ps_modelVersion ps_predictionId].
  by rewrite Hk.
Qed.
End S.
End PredictionEngine.

(** * The prediction client over this engine *)
Module EngineClient.
Import Models.
#[local] Existing Instance IncrementalStateEngine.EngineLifecycleState_eq_dec.
Section S.
Variable exp log log2 sin cos : double -> double.
Variable iso : Z -> string.
Variable enum : gmap string Model -> list (string * Model).

(** The engine with the ids and the readings of the clock and of the timer that are still to come. *)
Record t := { engine : PredictionEngine.t; uuids : nat -> string; clock : nat -> Z; timer : nat -> Z }.
#[export] Instance eta_t : Eta t := fun r => {| engine := engine r; uuids := uuids r; clock := clock r; timer := timer r |}.

Definition later {A} (n : nat) (f : nat -> A) : nat -> A := fun i => f (n + i)%nat.

Definition observe (g : t) (x : double) (began : option Z) : t :=
  g <| engine ::= fun e => PredictionEngine.observe e x began (clock g 0) |> <| clock ::= later 1 |>.

Definition is_cold (g : t) : bool :=
  bool_decide (IncrementalStateEngine.getLifecycleState (PredictionEngine.state (engine g)) (clock g 0) = IncrementalStateEngine.COLD).

(** A failed prediction is known to the client by its stage. *)
(* @src include/prediction_interface/in_process_prediction_client.hpp:138-156 InProcessPredictionClient::submit *)
Definition predict (g : t) (rid : string) (target : double) : (PeResult + string) * t :=
  let req := {| PredictionEngine.pq_targetRoundId := rid; PredictionEngine.pq_target := target; PredictionEngine.pq_modelName := None;
                PredictionEngine.pq_modelVersion := None; PredictionEngine.pq_recentCrashPoints := [] |} in
  let g' := g <| uuids ::= later 3 |> <| clock ::= later 4 |> <| timer ::= later 2 |> in
  match PredictionEngine.predict exp log log2 sin cos iso enum (engine g) req (uuids g) (clock g) (timer g) with
  | inl r =>
      let o := PredictionEngine.px_output r in
      let s := PredictionEngine.px_signal r in
      (inl {| pr_predictionId := po_predictionId o; pr_target := po_target o; pr_modelName := mi_name (po_model o);
              pr_probability := PredictionEngine.ps_probability s; pr_confidence := PredictionEngine.ps_confidence s;
              pr_modelVersion := PredictionEngine.ps_modelVersion s |}, g')
  | inr (st, _) => (inr (PredictionEngine.stage_name st), g')
  end.

(** Fresh ids are not empty and the engine is sound. *)
Definition ready (g : t) : Prop := PredictionEngine.sound (engine g) /\ forall i, uuids g i <> EmptyString.

Definition rounds (g : t) : Z := IncrementalStateEngine.count_ (PredictionEngine.state (engine g)).

Lemma observe_ready g x b : ready g -> ready (observe g x b) /\ rounds g <= rounds (observe g x b) <= rounds g + 1.
Proof.
  intros [Hs Hu]. split; [split; [by apply PredictionEngine.observe_sound|exact Hu]|].
  unfold rounds, observe. cbn [engine set_field]. rewrite PredictionEngine.observe_count. destruct (IncrementalStateEngine.usable x); lia.
Qed.

Lemma predict_ready g rid target : ready g -> ready (snd (predict g rid target)) /\ rounds (snd (predict g rid target)) = rounds g.
Proof.
  intros [Hs Hu]. unfold predict. destruct (PredictionEngine.predict _ _ _ _ _ _ _ _ _ _ _ _) as [r|[st what]]; cbn [snd];
    (split; [split; [exact Hs|intros i; apply Hu]|done]).
Qed.

(** ** A young engine is never confident *)

(** The confidence after [n] rounds, by the quality and the anomaly of the regime. *)
Definition confidence_at (n : Z) (quality : double) (anomaly : bool) : double :=
  baseline_confidence (fresh_baseline "") {["sample_size" := of_Z n; "quality_score" := quality]} anomaly.

Lemma confidence_read at_ v anomaly n q :
  get v "sample_size" f0 = of_Z n -> get v "quality_score" (flit 5 10) = q ->
  baseline_confidence (fresh_baseline at_) v anomaly = confidence_at n q anomaly.
Proof.
  intros Hn Hq. unfold confidence_at, baseline_confidence. set (m := {[_ := _; _ := _]}).
  assert (get m "sample_size" f0 = of_Z n /\ get m "quality_score" (flit 5 10) = q) as [-> ->] by done. by rewrite Hn, Hq.
Qed.

(** Below 79 rounds, at every quality that an engine with so few rounds can have. *)
Lemma young_confidence n q anomaly :
  0 <= n < 79 -> q ∈ [f0; flit 2 10; flit 6 10; flit 3 10] -> flt (confidence_at n q anomaly) (flit 55 100) = true.
Proof.
  intros Hn Hq.
  assert (Forall (fun n => Forall (fun q => Forall (fun a => flt (confidence_at n q a) (flit 55 100) = true) [false; true])
    [f0; flit 2 10; flit 6 10; flit 3 10]) (seqZ 0 79)) as H by (apply (bool_decide_unpack _); vm_compute; exact I).
  rewrite Forall_forall in H. specialize (H n ltac:(apply elem_of_seqZ; lia)). rewrite Forall_forall in H. specialize (H q Hq).
  rewrite Forall_forall in H. apply H. destruct anomaly; set_solver.
Qed.

Lemma young_quality s now : 0 <= IncrementalStateEngine.count_ s < 79 -> qualityScore s now ∈ [f0; flit 2 10; flit 6 10; flit 3 10].
Proof.
  intros H. unfold qualityScore, IncrementalStateEngine.getLifecycleState.
  destruct (_ =? 0); [|destruct (_ <? _); [|destruct (_ <? _); [|rewrite (proj2 (Z.ltb_lt _ 100)) by lia]]];
    apply (bool_decide_unpack _); vm_compute; exact I.
Qed.

(** What the client gets of a ready engine for a round with an id. *)
Lemma predict_spec g rid target : ready g -> rid <> EmptyString ->
  exists pr, fst (predict g rid target) = inl pr /\ in_bounds (pr_probability pr) /\ PredictionEngine.confident (pr_confidence pr) /\
    pr_predictionId pr <> EmptyString /\ (rounds g < 79 -> flt (pr_confidence pr) (flit 55 100) = true).
Proof.
  intros [Hs Hu] Hr. unfold predict. set (req := {| PredictionEngine.pq_targetRoundId := rid |}).
  destruct (PredictionEngine.predict_result exp log log2 sin cos iso enum (engine g) req (uuids g) (clock g) (timer g) Hs eq_refl Hu)
    as (at_ & out & an & Hp & Hc & _ & Hid & _ & Hf & H).
  unfold PredictionEngine.is_empty in H. cbn [PredictionEngine.pq_targetRoundId req] in H. rewrite (proj2 (String.eqb_neq _ _) Hr) in H.
  destruct H as (r & -> & Ho & Hsig). eexists. split; [done|]. rewrite Ho, Hsig.
  cbn [pr_probability pr_confidence pr_predictionId PredictionEngine.toSignal PredictionEngine.ps_probability PredictionEngine.ps_confidence].
  split_and!; try done.
  - rewrite Hid. apply Hu.
  - intros Hn. destruct (PredictionEngine.read_features log log2 sin cos (PredictionEngine.state (engine g)) rid (uuids g 0%nat) (iso (clock g 1%nat)) (clock g 1%nat))
      as (_ & Hcount & Hq).
    rewrite Hf. erewrite confidence_read by eassumption. apply young_confidence; [|apply young_quality]; pose proof (proj2 Hs); unfold rounds in Hn; lia.
Qed.

(** ** The client *)
Notation Client := (InProcessPredictionClient.t t).
Notation answer := (InProcessPredictionClient.answer observe is_cold predict).

Lemma enter_confident opt edge observed pr : InProcessPredictionClient.decide_entry opt edge observed pr = Enter ->
  fge (pr_confidence pr) (InProcessPredictionClient.minConfidence opt) = true.
Proof.
  unfold InProcessPredictionClient.decide_entry. case_decide as Hd; [|done]. intros H. apply not_false_iff_true. intros Hc.
  revert H. unfold decisionFromSignal. cbv zeta. destruct (fle _ _ && _); [done|]. by rewrite Hc, andb_false_r.
Qed.

Lemma observe_all_ready l : forall g, ready g ->
  ready (fold_left (fun g r => if fgt (RollingHistoryBuffer.hr_multiplier r) f0
                               then observe g (RollingHistoryBuffer.hr_multiplier r) None else g) l g).
Proof.
  induction l as [|r l IH]; intros g Hg; [done|]. cbn [fold_left]. apply IH. destruct (fgt _ _); [by apply observe_ready|done].
Qed.

Lemma warm_ready (c : Client) : ready (InProcessPredictionClient.engine c) -> ready (InProcessPredictionClient.warm_engine observe is_cold c).
Proof. intros H. unfold InProcessPredictionClient.warm_engine. destruct (is_cold _); [by apply observe_all_ready|done]. Qed.

(** Remark: the end of a round leaves the engine ready. *)
Theorem observeEnd_ready (c : Client) (e : CrashEvent) (now : Z) :
  ready (InProcessPredictionClient.engine c) -> ready (InProcessPredictionClient.engine (InProcessPredictionClient.observeEnd observe c e now)).
Proof.
  intros H. unfold InProcessPredictionClient.observeEnd. destruct (_ || _); [done|]. destruct (_ || _); [done|]. by apply observe_ready.
Qed.

(** C5: with the engine of the program every request for a round with an id is answered without
    an error: the response is valid, has an id, a probability between 0.01 and 0.99 and a
    confidence between 0.15 and 0.92.  With the confidence floor of 0.55 or a higher one an entry is
    only decided when the engine has taken in at least 79 rounds, although the client calls the
    engine warm after 20. *)
Theorem entry_needs_79_rounds (c : Client) (edge : option double) (req : PredictionRequest) (now ns : Z) :
  ready (InProcessPredictionClient.engine c) -> rq_targetRoundId req <> EmptyString ->
  fle (flit 55 100) (InProcessPredictionClient.minConfidence (InProcessPredictionClient.opt c)) = true ->
  let '(resp, c') := answer c edge req now ns in
  rs_valid resp = true /\ rs_predictionId resp <> EmptyString /\ in_bounds (rs_probability resp) /\
  PredictionEngine.confident (rs_confidence resp) /\ InProcessPredictionClient.errors c' = InProcessPredictionClient.errors c /\
  ready (InProcessPredictionClient.engine c') /\
  (rs_decision resp = Enter -> 79 <= rounds (InProcessPredictionClient.engine c')).
Proof.
  intros Hg Hr Hf. unfold InProcessPredictionClient.answer. pose proof (warm_ready c Hg) as Hw.
  set (g := InProcessPredictionClient.warm_engine _ _ c) in *. clearbody g.
  destruct (predict_spec g (rq_targetRoundId req) (InProcessPredictionClient.defaultTarget (InProcessPredictionClient.opt c)) Hw Hr)
    as (pr & Hpr & Hp & Hc & Hid & Hy).
  destruct (predict_ready g (rq_targetRoundId req) (InProcessPredictionClient.defaultTarget (InProcessPredictionClient.opt c)) Hw) as [Hg' Hn].
  destruct (predict g _ _) as [r g']. cbn [fst snd] in *. subst r. cbv zeta.
  assert (rs_predictionId (InProcessPredictionClient.fill_response (InProcessPredictionClient.opt c) edge (InProcessPredictionClient.observed c) req pr
    (InProcessPredictionClient.response_for req now ns)) <> EmptyString) as Hne.
  { cbn. unfold str_empty. by rewrite bool_decide_false. }
  assert (rs_decision (InProcessPredictionClient.fill_response (InProcessPredictionClient.opt c) edge (InProcessPredictionClient.observed c) req pr
    (InProcessPredictionClient.response_for req now ns)) = Enter -> 79 <= rounds g') as He.
  { intros H. apply enter_confident in H. rewrite Hn. apply Z.nlt_ge. intros Hlt. specialize (Hy Hlt). unfold fge in H.
    assert (flt (flit 55 100) (flit 55 100) = true) as Hx by forder. vm_compute in Hx. done. }
  destruct (decide _); by split_and!.
Qed.
End S.
End EngineClient.

(** * A concrete engine

    The mathematics library answers 0; no decision depends on it. *)

Definition demo_uuid (i : nat) : string := randomUUID (Z.of_nat i) (Z.of_nat (2 * i + 1)).

Lemma demo_uuid_nonempty i : demo_uuid i <> EmptyString.
Proof. intros H. apply (f_equal String.length) in H. unfold demo_uuid, randomUUID in H. rewrite length_app_str, length_hex_pad in H. done. Qed.

Definition demo_engine : EngineClient.t := {|
  EngineClient.engine := PredictionEngine.make "t"; EngineClient.uuids := demo_uuid; EngineClient.clock := fun _ => 1000;
  EngineClient.timer := fun _ => 40 |}.

Lemma demo_engine_ready : EngineClient.ready demo_engine.
Proof. split; [split; [by exists "t"|done]|apply demo_uuid_nonempty]. Qed.

#[local] Notation zero := (fun _ : double => f0) (only parsing).

(** The client after [n] rounds that ended at 2. *)
Definition demo_rounds (n : nat) : InProcessPredictionClient.t EngineClient.t :=
  Nat.iter n (fun c => InProcessPredictionClient.observeEnd EngineClient.observe c (demo_end "7") 1000)
    (InProcessPredictionClient.make InProcessPredictionClient.default_options demo_engine None).

Lemma demo_rounds_ready n : EngineClient.ready (InProcessPredictionClient.engine (demo_rounds n)).
Proof. induction n as [|n IH]; [apply demo_engine_ready|]. by apply EngineClient.observeEnd_ready. Qed.

Definition demo_request : PredictionRequest := {|
  rq_targetRoundId := "8"; rq_gameId := ""; rq_requestTimeMs := 1; rq_requestNs := 1; rq_sequence := 1; rq_currentMult := f1;
  rq_correlationId := "8-n1-1" |}.

#[local] Notation demo_answer n :=
  (InProcessPredictionClient.answer EngineClient.observe EngineClient.is_cold
     (EngineClient.predict zero zero zero zero zero (fun _ => "t") map_to_list) (demo_rounds n) None demo_request 1 1) (only parsing).

(** Seventy-nine rounds are enough. *)
Lemma entry_needs_79_rounds_witness :
  rs_decision (fst (demo_answer 79%nat)) = Enter /\ 79 <= EngineClient.rounds (InProcessPredictionClient.engine (snd (demo_answer 79%nat))).
Proof.
  assert (rs_decision (fst (demo_answer 79%nat)) = Enter) as He by (vm_compute; reflexivity).
  pose proof (EngineClient.entry_needs_79_rounds zero zero zero zero zero (fun _ => "t") map_to_list (demo_rounds 79) None demo_request 1 1
    (demo_rounds_ready 79) ltac:(done) ltac:(vm_compute; reflexivity)) as H.
  destruct (demo_answer 79%nat) as [resp c']. cbn [fst snd] in *. split; [exact He|]. by apply H.
Defined.

Definition demo_predict_request : PredictionEngine.PredictRequest := {|
  PredictionEngine.pq_targetRoundId := "8"; PredictionEngine.pq_target := flit 13 10; PredictionEngine.pq_modelName := None;
  PredictionEngine.pq_modelVersion := None; PredictionEngine.pq_recentCrashPoints := [] |}.

(** A new engine answers too. *)
Lemma predict_answers_witness :
  exists r, PredictionEngine.predict zero zero zero zero zero (fun _ => "t") map_to_list (PredictionEngine.make "t") demo_predict_request
    demo_uuid (fun _ => 1000) (fun _ => 40) = inl r /\ Models.in_bounds (PredictionEngine.ps_probability (PredictionEngine.px_signal r)).
Proof.
  pose proof (PredictionEngine.predict_answers zero zero zero zero zero (fun _ => "t") map_to_list (PredictionEngine.make "t")
    demo_predict_request demo_uuid (fun _ => 1000) (fun _ => 40) (proj1 demo_engine_ready) eq_refl demo_uuid_nonempty) as H.
  destruct (PredictionEngine.predict _ _ _ _ _ _ _ _ _ _ _ _) as [r|[st what]]; [|by destruct H].
  exists r. by destruct H as (_ & _ & Hp & _).
Defined.
