(* ===== verification/Ipc.v ===== *)
(** The prediction clients beside the in-process one: the stub and the queue client
    ([include/prediction_interface/prediction_client.hpp]), the shared-memory ring
    ([shm_channel.hpp], [shm_prediction_client.hpp]), the socket client
    ([unix_socket_client.hpp]) and their [DecisionAuditLog] ([decision_audit.hpp]).  The other
    end of the ring is a process outside the repository; here it is whoever moves the tails. *)
From Stdlib Require Import Ascii.
From S2P Require Import Prelude Float64 Types Queues Timing.

Open Scope Z_scope.

(* @src include/timing/monotonic_clock.hpp | elapsedUs( *)
Definition elapsedUs (start stop : Z) : Z := Z.quot (stop - start) 1000.

Definition track (t0 t1 : Z) (tr : option LatencyTracker.t) : option LatencyTracker.t :=
  (fun tr => LatencyTracker.record tr LatencyTracker.Ipc (elapsedUs t0 t1)) <$> tr.

(** * [DecisionAuditLog] *)
Module DecisionAuditLog.

(* @src include/prediction_interface/decision_audit.hpp | struct DecisionAuditEntry { *)
Record DecisionAuditEntry := {
  atMs : Z;
  correlationId : string;
  targetRoundId : string;
  decision : PredictionDecision;
  confidence : double;
  targetMult : double;
  currentMult : double;
  latencyUs : Z;
  modelVersion : string;
  timedOut : bool;
  fenced : bool
}.
#[export] Instance eta_DecisionAuditEntry : Eta DecisionAuditEntry := fun r =>
  {| atMs := atMs r; correlationId := correlationId r; targetRoundId := targetRoundId r; decision := decision r;
     confidence := confidence r; targetMult := targetMult r; currentMult := currentMult r; latencyUs := latencyUs r;
     modelVersion := modelVersion r; timedOut := timedOut r; fenced := fenced r |}.

(* @src include/prediction_interface/decision_audit.hpp | std::size_t max_; >> std::uint64_t total_ *)
Record t := { max : nat; entries : list DecisionAuditEntry; total : Z }.
#[export] Instance eta_t : Eta t := fun r => {| max := max r; entries := entries r; total := total r |}.

(* @src include/prediction_interface/decision_audit.hpp | explicit DecisionAuditLog( *)
Definition make (maxEntries : nat) : t := {| max := maxEntries; entries := []; total := 0 |}.

(* @src include/prediction_interface/decision_audit.hpp | void record( *)
Definition record (s : t) (e : DecisionAuditEntry) (now : Z) : t :=
  let e := if atMs e =? 0 then e <| atMs := now |> else e in
  s <| entries ::= fun l => push_window (max s) l e |> <| total ::= bump |>.

(* @src include/prediction_interface/decision_audit.hpp | void recordResponse( *)
Definition recordResponse (s : t) (req : PredictionRequest) (resp : PredictionResponse) (us now : Z) : t :=
  record s {|
    atMs := 0;
    correlationId := if str_empty (rs_correlationId resp) then rq_correlationId req else rs_correlationId resp;
    targetRoundId := if str_empty (rs_targetRoundId resp) then rq_targetRoundId req else rs_targetRoundId resp;
    decision := rs_decision resp; confidence := rs_confidence resp; targetMult := rs_targetMult resp;
    currentMult := rq_currentMult req; latencyUs := us; modelVersion := rs_modelVersion resp;
    timedOut := false; fenced := false |} now.

(* @src include/prediction_interface/decision_audit.hpp | recent(std::size_t *)
Definition recent (s : t) (n : nat) : list DecisionAuditEntry := trim_front n (entries s).

(* @src include/prediction_interface/decision_audit.hpp | std::size_t size() *)
Definition size (s : t) : nat := length (entries s).

(** The log keeps the last entries: after any history of entries it holds the last [max]. *)
Lemma records_window (es : list (DecisionAuditEntry * Z)) m :
  let stamp p := if atMs p.1 =? 0 then p.1 <| atMs := p.2 |> else p.1 in
  entries (fold_left (fun s p => record s p.1 p.2) es (make m)) = trim_front m (stamp <$> es).
Proof.
  intros stamp. induction es as [|p es IH] using rev_ind; [done|].
  assert (max (fold_left (fun s p => record s p.1 p.2) es (make m)) = m) as Hm.
  { clear IH. induction es as [|q es IH] using rev_ind; [done|]. by rewrite fold_left_app. }
  rewrite fold_left_app, fmap_app. simpl. rewrite Hm, IH. apply push_window_trim.
Qed.
End DecisionAuditLog.
#[export] Existing Instances DecisionAuditLog.eta_t DecisionAuditLog.eta_DecisionAuditEntry.

(** * [PredictionClient]: the stub

    It answers every request with a skip.  The one-shot warning on [stderr] is left out. *)
Module PredictionClient.

(* @src include/prediction_interface/prediction_contract.hpp | struct PredictionContract { *)
Record PredictionContract := { interfaceVersion : string; timeoutMs : Z; preferSharedMemory : bool }.
Definition default_contract : PredictionContract :=
  {| interfaceVersion := "1.0"; timeoutMs := 50; preferSharedMemory := true |}.

(* @src include/prediction_interface/prediction_client.hpp | PredictionContract contract_; >> submitted_{0} *)
Record t := { contract : PredictionContract; tracker : option LatencyTracker.t;
              pending : gmap string PredictionResponse; submitted : Z }.
#[export] Instance eta_t : Eta t := fun r =>
  {| contract := contract r; tracker := tracker r; pending := pending r; submitted := submitted r |}.

(* @src include/prediction_interface/prediction_client.hpp | explicit PredictionClient( *)
Definition make (c : PredictionContract) (tr : option LatencyTracker.t) : t :=
  {| contract := c; tracker := tr; pending := ∅; submitted := 0 |}.

(** The skip a client answers by itself: [prefix] and [version] tell which. *)
Definition skip_response (prefix version : string) (req : PredictionRequest) (now ns : Z) : PredictionResponse :=
  default_response <| rs_predictionId := prefix +:+ rq_correlationId req |> <| rs_targetRoundId := rq_targetRoundId req |>
    <| rs_decision := Skip |> <| rs_responseTimeMs := now |> <| rs_responseNs := ns |>
    <| rs_correlationId := rq_correlationId req |> <| rs_modelVersion := version |> <| rs_valid := true |>.

Section S.
Context {C : Type}.
Variable handler : PredictionResponse -> t * C -> t * C.

(* @src include/prediction_interface/prediction_client.hpp | virtual Result<void> submit( *)
Definition submit (s : t) (req : PredictionRequest) (now ns : Z) (w : C) : Result unit * (t * C) :=
  let resp := skip_response "stub-" "stub" req now ns in
  let s := s <| pending ::= insert (rq_correlationId req) resp |> <| submitted ::= bump |> in
  (Ok tt, handler resp (s, w)).

(* @src include/prediction_interface/prediction_client.hpp | std::optional<PredictionResponse> pollResponse( *)
Definition pollResponse (s : t) (cid : string) : option PredictionResponse * t :=
  match pending s !! cid with
  | None => (None, s)
  | Some r => (Some r, s <| pending ::= delete cid |>)
  end.
End S.
End PredictionClient.
#[export] Existing Instance PredictionClient.eta_t.

(** * The queue client ([ShmPredictionClient] of [prediction_client.hpp]) *)
Module QueueClient.
Section S.
Context {QR QA C : Type} `{!BoundedFifo QR PredictionRequest} `{!BoundedFifo QA PredictionResponse}.

(* @src include/prediction_interface/prediction_client.hpp | SpscQueue<PredictionRequest> req_queue_; >> resp_queue_; *)
Record t := { base : PredictionClient.t; req_queue : QR; resp_queue : QA }.
#[export] Instance eta_t : Eta t := fun r => {| base := base r; req_queue := req_queue r; resp_queue := resp_queue r |}.

Variable handler : PredictionResponse -> t * C -> t * C.

(* @src include/prediction_interface/prediction_client.hpp | Result<void> submit(const PredictionRequest& req) override *)
Definition submit (s : t) (req : PredictionRequest) (t0 t1 : Z) : Result unit * t :=
  match bf_push (req_queue s) req with
  | None => (Err (err QueueFull "prediction request queue full"), s)
  | Some q => (Ok tt, s <| req_queue := q |>
                        <| base ::= fun b => b <| PredictionClient.submitted ::= bump |>
                                               <| PredictionClient.tracker ::= track t0 t1 |> |>)
  end.

(** The handler runs before the response is queued. *)
(* @src include/prediction_interface/prediction_client.hpp | bool pushResponse( *)
Definition pushResponse (s : t) (resp : PredictionResponse) (w : C) : bool * (t * C) :=
  let '(s, w) := handler resp (s, w) in
  match bf_push (resp_queue s) resp with
  | None => (false, (s, w))
  | Some q => (true, (s <| resp_queue := q |>, w))
  end.

(* @src include/prediction_interface/prediction_client.hpp | std::optional<PredictionRequest> popRequest() *)
Definition popRequest (s : t) : option PredictionRequest * t :=
  match bf_pop (req_queue s) with
  | None => (None, s)
  | Some (r, q) => (Some r, s <| req_queue := q |>)
  end.

(* @src include/prediction_interface/prediction_client.hpp | std::optional<PredictionResponse> popResponse() *)
Definition popResponse (s : t) : option PredictionResponse * t :=
  match bf_pop (resp_queue s) with
  | None => (None, s)
  | Some (r, q) => (Some r, s <| resp_queue := q |>)
  end.
End S.
End QueueClient.

(** * The shared-memory ring *)
Module ShmChannel.

(** A [char\[n\]] is the list of its characters. *)
Definition NUL : ascii := Ascii.zero.

(** The C string that starts at [l]. *)
Fixpoint until_nul (l : list ascii) : list ascii :=
  match l with
  | [] => []
  | c :: l => if decide (c = NUL) then [] else c :: until_nul l
  end.

(** [memset(field, 0, n); strncpy(field, s.c_str(), n - 1)]. *)
(* @src include/prediction_interface/shm_channel.hpp:62-65 fillRequestSlot *)
Definition fill_field (n : nat) (s : string) : list ascii :=
  let cs := take (n - 1) (until_nul (String.list_ascii_of_string s)) in cs ++ replicate (n - length cs) NUL.

(** [std::string s = field]. *)
Definition read_field (l : list ascii) : string := String.string_of_list_ascii (until_nul l).

(** What is left of [s] after both. *)
Definition cut (n : nat) (s : string) : string :=
  String.string_of_list_ascii (take (n - 1) (until_nul (String.list_ascii_of_string s))).

(* @src include/prediction_interface/shm_channel.hpp | struct ShmRequestSlot { *)
Record ShmRequestSlot := {
  rq_seq : Z; rq_ns : Z; rq_mult : double; rq_round : list ascii; rq_corr : list ascii; rq_game : list ascii; rq_flags : Z }.
#[export] Instance eta_ShmRequestSlot : Eta ShmRequestSlot := fun r =>
  {| rq_seq := rq_seq r; rq_ns := rq_ns r; rq_mult := rq_mult r; rq_round := rq_round r; rq_corr := rq_corr r;
     rq_game := rq_game r; rq_flags := rq_flags r |}.

(* @src include/prediction_interface/shm_channel.hpp | struct ShmResponseSlot { *)
Record ShmResponseSlot := {
  rp_seq : Z; rp_ns : Z; rp_confidence : double; rp_mult : double; rp_decision : Z; rp_id : list ascii;
  rp_round : list ascii; rp_corr : list ascii; rp_version : list ascii; rp_flags : Z }.
#[export] Instance eta_ShmResponseSlot : Eta ShmResponseSlot := fun r =>
  {| rp_seq := rp_seq r; rp_ns := rp_ns r; rp_confidence := rp_confidence r; rp_mult := rp_mult r;
     rp_decision := rp_decision r; rp_id := rp_id r; rp_round := rp_round r; rp_corr := rp_corr r;
     rp_version := rp_version r; rp_flags := rp_flags r |}.

(* @src include/prediction_interface/shm_channel.hpp | inline constexpr std::size_t SHM_QUEUE_SLOTS *)
Definition SHM_QUEUE_SLOTS : Z := 256.

(* @src include/prediction_interface/shm_channel.hpp | struct ShmChannelLayout { *)
Record ShmChannelLayout := {
  magic : Z; version : Z; req_head : Z; req_tail : Z; resp_head : Z; resp_tail : Z;
  requests : list ShmRequestSlot; responses : list ShmResponseSlot }.
#[export] Instance eta_ShmChannelLayout : Eta ShmChannelLayout := fun r =>
  {| magic := magic r; version := version r; req_head := req_head r; req_tail := req_tail r; resp_head := resp_head r;
     resp_tail := resp_tail r; requests := requests r; responses := responses r |}.

Definition zeroes (n : nat) : list ascii := replicate n NUL.
Definition blank_request : ShmRequestSlot :=
  {| rq_seq := 0; rq_ns := 0; rq_mult := f0; rq_round := zeroes 64; rq_corr := zeroes 64; rq_game := zeroes 64; rq_flags := 0 |}.
Definition blank_response : ShmResponseSlot :=
  {| rp_seq := 0; rp_ns := 0; rp_confidence := f0; rp_mult := f0; rp_decision := 0; rp_id := zeroes 64;
     rp_round := zeroes 64; rp_corr := zeroes 64; rp_version := zeroes 32; rp_flags := 0 |}.

(** ["CRASHCOR"]. *)
Definition MAGIC : Z := 0x4352415348434F52.

(* @src include/prediction_interface/shm_channel.hpp | struct ShmChannelLayout { *)
Definition make : ShmChannelLayout := {|
  magic := MAGIC; version := 1; req_head := 0; req_tail := 0; resp_head := 0; resp_tail := 0;
  requests := replicate 256 blank_request; responses := replicate 256 blank_response |}.

(* @src include/prediction_interface/shm_channel.hpp | inline void fillRequestSlot( *)
Definition fillRequestSlot (slot : ShmRequestSlot) (req : PredictionRequest) : ShmRequestSlot :=
  slot <| rq_ns := u64 (rq_requestNs req) |> <| rq_mult := rq_currentMult req |>
       <| rq_round := fill_field 64 (rq_targetRoundId req) |> <| rq_corr := fill_field 64 (rq_correlationId req) |>
       <| rq_game := fill_field 64 (rq_gameId req) |>.

Definition decision_code (d : PredictionDecision) : Z := match d with Skip => 0 | Enter => 1 | Hold => 2 end.

(** [None]: the byte names no enumerator. *)
Definition decision_of (z : Z) : option PredictionDecision :=
  if z =? 0 then Some Skip else if z =? 1 then Some Enter else if z =? 2 then Some Hold else None.

(* @src include/prediction_interface/shm_channel.hpp | inline PredictionResponse readResponseSlot( *)
Definition readResponseSlot (slot : ShmResponseSlot) : option PredictionResponse :=
  d ← decision_of (rp_decision slot);
  Some (default_response <| rs_predictionId := read_field (rp_id slot) |> <| rs_targetRoundId := read_field (rp_round slot) |>
    <| rs_correlationId := read_field (rp_corr slot) |> <| rs_modelVersion := read_field (rp_version slot) |>
    <| rs_confidence := rp_confidence slot |> <| rs_targetMult := rp_mult slot |> <| rs_decision := d |>
    <| rs_responseNs := i64 (rp_ns slot) |> <| rs_valid := true |>).

(** The fields that [writeResponse] stores in its slot. *)
(* @src include/prediction_interface/shm_prediction_client.hpp:72-84 ShmPredictionClient::writeResponse *)
Definition fillResponseSlot (slot : ShmResponseSlot) (resp : PredictionResponse) : ShmResponseSlot :=
  slot <| rp_ns := u64 (rs_responseNs resp) |> <| rp_confidence := rs_confidence resp |> <| rp_mult := rs_targetMult resp |>
       <| rp_decision := decision_code (rs_decision resp) |> <| rp_id := fill_field 64 (rs_predictionId resp) |>
       <| rp_round := fill_field 64 (rs_targetRoundId resp) |> <| rp_corr := fill_field 64 (rs_correlationId resp) |>
       <| rp_version := fill_field 32 (rs_modelVersion resp) |>.

(** What a response is after crossing the ring: ids cut to 63 characters, the model version to
    31, the probability and the time lost, and valid whatever it was. *)
Definition carried (resp : PredictionResponse) : PredictionResponse :=
  default_response <| rs_predictionId := cut 64 (rs_predictionId resp) |> <| rs_targetRoundId := cut 64 (rs_targetRoundId resp) |>
    <| rs_correlationId := cut 64 (rs_correlationId resp) |> <| rs_modelVersion := cut 32 (rs_modelVersion resp) |>
    <| rs_confidence := rs_confidence resp |> <| rs_targetMult := rs_targetMult resp |>
    <| rs_decision := rs_decision resp |> <| rs_responseNs := i64 (u64 (rs_responseNs resp)) |> <| rs_valid := true |>.

Lemma until_nul_stop (a b : list ascii) : Forall (fun c => c <> NUL) a -> until_nul (a ++ NUL :: b) = a.
Proof. induction 1 as [|c a Hc _ IH]; simpl; [done|]. destruct (decide (c = NUL)); [done|]. by rewrite IH. Qed.

Lemma until_nul_clean l : Forall (fun c => c <> NUL) (until_nul l).
Proof. induction l as [|c l IH]; simpl; [constructor|]. case_decide; by constructor. Qed.

Lemma read_fill n s : (0 < n)%nat -> read_field (fill_field n s) = cut n s.
Proof.
  intros Hn. unfold read_field, fill_field, cut. f_equal.
  set (l := until_nul (String.list_ascii_of_string s)). assert (length (take (n - 1) l) < n)%nat as Hl by (rewrite length_take; lia).
  destruct (n - length (take (n - 1) l))%nat as [|k] eqn:E; [lia|]. simpl.
  apply until_nul_stop, Forall_take, until_nul_clean.
Qed.

(** An id of at most 63 characters without a NUL arrives whole. *)
Lemma cut_short n s :
  (String.length s < n)%nat -> Forall (fun c => c <> NUL) (String.list_ascii_of_string s) -> cut n s = s.
Proof.
  intros Hl Hf. unfold cut. replace (until_nul _) with (String.list_ascii_of_string s).
  - rewrite take_ge, String.string_of_list_ascii_of_string; [done|]. rewrite <-(String.string_of_list_ascii_of_string s) in Hl.
    clear -Hl. revert Hl. generalize (String.list_ascii_of_string s) as k. intros k.
    assert (String.length (String.string_of_list_ascii k) = length k) as ->; [|lia]. by induction k as [|c k IH]; simpl; [|rewrite IH].
  - induction Hf as [|c k Hc _ IH]; simpl; [done|]. destruct (decide (c = NUL)); [done|]. by rewrite <-IH.
Qed.

Lemma read_filled slot resp : readResponseSlot (fillResponseSlot slot resp) = Some (carried resp).
Proof.
  unfold readResponseSlot, fillResponseSlot, carried. simpl.
  destruct (rs_decision resp); simpl; by rewrite !read_fill by lia.
Qed.
End ShmChannel.
#[export] Existing Instances ShmChannel.eta_ShmRequestSlot ShmChannel.eta_ShmResponseSlot ShmChannel.eta_ShmChannelLayout.

(** * The ring client ([ShmPredictionClient] of [shm_prediction_client.hpp]) *)
Module ShmPredictionClient.
Import ShmChannel.

(* @src include/prediction_interface/shm_prediction_client.hpp | ShmChannelLayout layout_; >> auto_respond_ *)
Record t := { base : PredictionClient.t; layout : ShmChannelLayout; audit : DecisionAuditLog.t; auto_respond : bool }.
#[export] Instance eta_t : Eta t := fun r =>
  {| base := base r; layout := layout r; audit := audit r; auto_respond := auto_respond r |}.

(* @src include/prediction_interface/shm_prediction_client.hpp | explicit ShmPredictionClient( *)
Definition make (c : PredictionClient.PredictionContract) (tr : option LatencyTracker.t) : t :=
  {| base := PredictionClient.make c tr; layout := ShmChannel.make <| magic := MAGIC |> <| version := 1 |>;
     audit := DecisionAuditLog.make 1000; auto_respond := true |}.

(** ** The ring of responses *)

Definition slot_at (l : ShmChannelLayout) (i : Z) : ShmResponseSlot :=
  default blank_response (responses l !! Z.to_nat (i mod SHM_QUEUE_SLOTS)).

(** There is no test for a full ring. *)
(* @src include/prediction_interface/shm_prediction_client.hpp | void writeResponse( *)
Definition writeResponse (l : ShmChannelLayout) (resp : PredictionResponse) : ShmChannelLayout :=
  let head := resp_head l in
  let slot := (fillResponseSlot (slot_at l head) resp) <| rp_seq := wrapu 32 (head + 1) |> in
  l <| responses ::= <[Z.to_nat (head mod SHM_QUEUE_SLOTS) := slot]> |> <| resp_head := (head + 1) mod SHM_QUEUE_SLOTS |>.

(** [None]: nothing to read; [Some None]: a response whose decision is no enumerator. *)
(* @src include/prediction_interface/shm_prediction_client.hpp | pollResponseSlot() *)
Definition pollResponseSlot (l : ShmChannelLayout) : option (option PredictionResponse) * ShmChannelLayout :=
  if resp_tail l =? resp_head l then (None, l)
  else (Some (readResponseSlot (slot_at l (resp_tail l))), l <| resp_tail := (resp_tail l + 1) mod SHM_QUEUE_SLOTS |>).

(** ** Requests *)

Section S.
Context {C : Type}.
Variable handler : PredictionResponse -> t * C -> t * C.

(** The in-process answer: a skip, to the ring, to the handler and to the audit log. *)
(* @src include/prediction_interface/shm_prediction_client.hpp:44-58 ShmPredictionClient::submit *)
Definition respond (s : t) (req : PredictionRequest) (now ns t0 t1 nowAudit : Z) (w : C) : t * C :=
  let resp := PredictionClient.skip_response "shm-" "shm-auto" req now ns in
  let '(s, w) := handler resp (s <| layout ::= fun l => writeResponse l resp |>, w) in
  (s <| audit ::= fun a => DecisionAuditLog.recordResponse a req resp (elapsedUs t0 t1) nowAudit |>, w).

(* @src include/prediction_interface/shm_prediction_client.hpp | Result<void> submit( *)
Definition submit (s : t) (req : PredictionRequest) (now ns t0 t1 t2 nowAudit : Z) (w : C) : Result unit * (t * C) :=
  let l := layout s in
  let head := req_head l in
  let next := (head + 1) mod SHM_QUEUE_SLOTS in
  if next =? req_tail l then (Err (err QueueFull "shm request ring full"), (s, w))
  else
    let i := Z.to_nat (head mod SHM_QUEUE_SLOTS) in
    let slot := (fillRequestSlot (default blank_request (requests l !! i)) req) <| rq_seq := wrapu 32 (head + 1) |> in
    let s := s <| layout := l <| requests ::= <[i := slot]> |> <| req_head := next |> |>
               <| base ::= fun b => b <| PredictionClient.submitted ::= bump |> |> in
    let '(s, w) := if auto_respond s then respond s req now ns t0 t1 nowAudit w else (s, w) in
    (Ok tt, (s <| base ::= fun b => b <| PredictionClient.tracker ::= track t0 t2 |> |>, w)).

(** Requests in sequence, with the clock at a standstill. *)
Fixpoint submit_all (s : t) (reqs : list PredictionRequest) (now : Z) (w : C) : list (Result unit) * (t * C) :=
  match reqs with
  | [] => ([], (s, w))
  | req :: reqs =>
      let '(r, (s, w)) := submit s req now now now now now now w in
      let '(rs, sw) := submit_all s reqs now w in (r :: rs, sw)
  end.

Definition quiet : Prop := forall resp s w, layout (fst (handler resp (s, w))) = layout s.

Lemma submit_head s req now ns t0 t1 t2 na w :
  quiet ->
  let '(r, (s', _)) := submit s req now ns t0 t1 t2 na w in
  let full := (req_head (layout s) + 1) mod 256 = req_tail (layout s) in
  (full -> is_ok r = false /\ s' = s) /\
  (~ full -> r = Ok tt /\ req_head (layout s') = (req_head (layout s) + 1) mod 256 /\ req_tail (layout s') = req_tail (layout s)).
Proof.
  intros Hq. unfold submit, SHM_QUEUE_SLOTS. destruct (Z.eqb_spec ((req_head (layout s) + 1) mod 256) (req_tail (layout s))) as [E|E].
  - split; [done|]. by intros ?.
  - match goal with |- context [if auto_respond ?x then _ else _] => set (s1 := x) end.
    destruct (auto_respond s1).
    + unfold respond. match goal with |- context [handler ?r (?x, w)] => pose proof (Hq r x w) as Hl; destruct (handler r (x, w)) as [s2 w2] end.
      simpl in *. split; [done|]. intros _. rewrite Hl. by unfold writeResponse.
    + simpl. by split.
Qed.
End S.

(** ** What the reader of the responses sees *)

Definition pending (l : ShmChannelLayout) : list (option PredictionResponse) :=
  (fun i => readResponseSlot (slot_at l (resp_tail l + i))) <$> seqZ 0 ((resp_head l - resp_tail l) mod 256).

Definition wf (l : ShmChannelLayout) : Prop :=
  0 <= resp_head l < 256 /\ 0 <= resp_tail l < 256 /\ length (responses l) = 256%nat.

Lemma length_pending l : Z.of_nat (length (pending l)) = (resp_head l - resp_tail l) mod 256.
Proof. unfold pending. rewrite length_fmap, length_seqZ. pose proof (Z.mod_pos_bound (resp_head l - resp_tail l) 256). lia. Qed.

Lemma read_any_seq slot n : readResponseSlot (slot <| rp_seq := n |>) = readResponseSlot slot.
Proof. reflexivity. Qed.

Lemma slot_at_insert l resp i :
  wf l -> 0 <= i < 256 ->
  readResponseSlot (slot_at (writeResponse l resp) i) =
    if decide (i = resp_head l) then Some (carried resp) else readResponseSlot (slot_at l i).
Proof.
  intros (Hh & Ht & Hl) Hi. unfold slot_at at 1, writeResponse, SHM_QUEUE_SLOTS. cbn [responses set_field].
  rewrite (Z.mod_small i) by lia. rewrite (Z.mod_small (resp_head l)) by lia. cbn. case_decide as Hd.
  - subst i. rewrite list_lookup_insert_eq by lia. cbn [default]. unfold default, id.
    match goal with |- readResponseSlot (set_field _ ?x) = _ => rewrite (read_any_seq x) end. apply read_filled.
  - rewrite list_lookup_insert_ne by lia. unfold slot_at, SHM_QUEUE_SLOTS. by rewrite (Z.mod_small i) by lia.
Qed.

Lemma slot_at_mod l i : slot_at l (i mod 256) = slot_at l i.
Proof. unfold slot_at, SHM_QUEUE_SLOTS. by rewrite Zmod_mod. Qed.

Lemma write_wf l resp : wf l -> wf (writeResponse l resp).
Proof.
  intros (Hh & Ht & Hl). unfold wf, writeResponse, SHM_QUEUE_SLOTS. cbn. rewrite length_insert.
  pose proof (Z.mod_pos_bound (resp_head l + 1) 256). split_and!; first [done|lia].
Qed.

(** A response joins the queue, except the 256th waiting one, which empties it. *)
Lemma write_pending l resp :
  wf l -> pending (writeResponse l resp) =
    if (length (pending l) <? 255)%nat then pending l ++ [Some (carried resp)] else [].
Proof.
  intros Hw. pose proof Hw as (Hh & Ht & Hl). pose proof (length_pending l) as Hn.
  pose proof (Z.mod_pos_bound (resp_head l - resp_tail l) 256) as Hb.
  set (n := (resp_head l - resp_tail l) mod 256) in *.
  assert (resp_head l = (resp_tail l + n) mod 256) as Eh.
  { unfold n. rewrite Zplus_mod_idemp_r. replace (resp_tail l + (resp_head l - resp_tail l)) with (resp_head l) by lia.
    by rewrite Z.mod_small by lia. }
  assert ((resp_head (writeResponse l resp) - resp_tail (writeResponse l resp)) mod 256 = (n + 1) mod 256) as En.
  { unfold writeResponse, SHM_QUEUE_SLOTS, n. cbn. rewrite Zminus_mod_idemp_l, Zplus_mod_idemp_l. f_equal. lia. }
  unfold pending at 1. rewrite En. destruct (Nat.ltb_spec (length (pending l)) 255) as [Hlt|Hge].
  - rewrite (Z.mod_small (n + 1)) by lia. rewrite seqZ_app by lia. rewrite fmap_app. f_equal.
    + unfold pending. fold n. apply list_fmap_ext. intros j i [-> Hi]%lookup_seqZ. change (resp_tail (writeResponse l resp)) with (resp_tail l).
      rewrite <-slot_at_mod, slot_at_insert by (first [done | apply Z.mod_pos_bound; lia]).
      rewrite decide_False, slot_at_mod; [done|]. rewrite Eh. intros E.
      assert ((resp_tail l + (0 + Z.of_nat j) - (resp_tail l + n)) mod 256 = 0) as E0 by (rewrite Zminus_mod, E, Z.sub_diag; done).
      replace (resp_tail l + (0 + Z.of_nat j) - (resp_tail l + n)) with (Z.of_nat j - n) in E0 by lia.
      apply Z_div_exact_full_2 in E0; [|lia]. lia.
    + change (resp_tail (writeResponse l resp)) with (resp_tail l). cbn [seqZ fmap list_fmap].
      replace (seqZ (0 + n) 1) with [n] by (unfold seqZ; cbn; f_equal; lia). cbn. f_equal.
      rewrite <-slot_at_mod, slot_at_insert by (first [done | apply Z.mod_pos_bound; lia]).
      by rewrite decide_True by done.
  - replace n with 255 by lia. done.
Qed.

Lemma poll_pending l :
  wf l ->
  let '(r, l') := pollResponseSlot l in
  wf l' /\ match r with
           | None => pending l = [] /\ l' = l
           | Some a => pending l = a :: pending l'
           end.
Proof.
  intros Hw. pose proof Hw as (Hh & Ht & Hl). unfold pollResponseSlot.
  destruct (Z.eqb_spec (resp_tail l) (resp_head l)) as [E|E].
  - split_and!; [done| |done]. unfold pending. by rewrite E, Z.sub_diag.
  - unfold SHM_QUEUE_SLOTS. pose proof (Z.mod_pos_bound (resp_tail l + 1) 256).
    split; [unfold wf; cbn; split_and!; first [done|lia]|]. unfold pending. cbn [resp_head resp_tail set_field].
    assert (0 < (resp_head l - resp_tail l) mod 256) as Hp.
    { pose proof (Z.mod_pos_bound (resp_head l - resp_tail l) 256).
      destruct (Z.eq_dec ((resp_head l - resp_tail l) mod 256) 0) as [E0|?]; [|lia].
      apply Z_div_exact_full_2 in E0; [|lia]. lia. }
    assert ((resp_head l - (resp_tail l + 1) mod 256) mod 256 = (resp_head l - resp_tail l) mod 256 - 1) as En.
    { rewrite Zminus_mod_idemp_r. pose proof (Z.mod_pos_bound (resp_head l - resp_tail l) 256).
      rewrite <-(Z.mod_small ((resp_head l - resp_tail l) mod 256 - 1) 256) by lia. rewrite Zminus_mod_idemp_l. f_equal. lia. }
    rewrite (seqZ_cons 0) by lia. rewrite fmap_cons, Z.add_0_r. f_equal. cbn [resp_head resp_tail].
    change (resp_head (set_field _ l)) with (resp_head l).
    change (resp_tail (set_field (p := resp_tail) _ l)) with ((resp_tail l + 1) mod 256). rewrite En.
    rewrite <-Z.sub_1_r. apply list_eq. intros i. rewrite !list_lookup_fmap.
    destruct (decide (Z.of_nat i < (resp_head l - resp_tail l) mod 256 - 1)) as [Hi|Hi].
    + rewrite !lookup_seqZ_lt by lia. cbn. f_equal. f_equal.
      unfold slot_at, SHM_QUEUE_SLOTS. cbn. rewrite Zplus_mod_idemp_l. do 4 f_equal. lia.
    + by rewrite !lookup_seqZ_ge by lia.
Qed.

Inductive op := Write (resp : PredictionResponse) | Poll.

(** The ring under a sequence of writes and polls; the answers of the polls. *)
Fixpoint run (l : ShmChannelLayout) (ops : list op) : list (option (option PredictionResponse)) * ShmChannelLayout :=
  match ops with
  | [] => ([], l)
  | Write resp :: ops => run (writeResponse l resp) ops
  | Poll :: ops => let '(r, l) := pollResponseSlot l in let '(rs, l) := run l ops in (r :: rs, l)
  end.

(** The same of an abstract queue of responses that forgets everything when a 256th waits. *)
Fixpoint run_spec (q : list PredictionResponse) (ops : list op) : list (option (option PredictionResponse)) * list PredictionResponse :=
  match ops with
  | [] => ([], q)
  | Write resp :: ops => run_spec (if (length q <? 255)%nat then q ++ [carried resp] else []) ops
  | Poll :: ops =>
      let '(rs, q') := run_spec (tail q) ops in ((Some <$> head q) :: rs, q')
  end.

(** C18: the response ring refines an abstract queue along every sequence of writes and polls: the
    polls answer the responses written, in order, each with its ids cut to the slot's width,
    its probability and time dropped and marked valid whatever it was; but when 255 wait, the
    next write makes the ring look empty, and all 256 are lost without a report. *)
Theorem response_ring_refines (ops : list op) :
  let '(rs, l) := run ShmChannel.make ops in
  let '(rs', q) := run_spec [] ops in
  rs = rs' /\ pending l = Some <$> q /\ (length q <= 255)%nat.
Proof.
  assert (wf ShmChannel.make /\ pending ShmChannel.make = Some <$> [] /\ (length (@nil PredictionResponse) <= 255)%nat) as H.
  { split_and!; [|done|simpl; lia]. unfold wf. by vm_compute. }
  revert H. generalize ShmChannel.make as l. generalize (@nil PredictionResponse) as q.
  induction ops as [|[resp|] ops IH]; intros q l (Hw & Hp & Hl); simpl; [done| |].
  - apply IH. split_and!; [by apply write_wf| |].
    + rewrite write_pending by done. rewrite Hp, length_fmap. case_match; [|done]. by rewrite fmap_app.
    + case_match eqn:E; [|simpl; lia]. apply Nat.ltb_lt in E. rewrite length_app. simpl. lia.
  - pose proof (poll_pending l Hw) as Hpoll. destruct (pollResponseSlot l) as [r l']. destruct Hpoll as [Hw' Hr].
    assert (pending l' = Some <$> tail q /\ r = Some <$> head q) as [Hp' Hr'].
    { destruct r as [a|].
      - rewrite Hp in Hr. destruct q as [|x q]; simpl in *; [done|]. by injection Hr as <- <-.
      - destruct Hr as [Hr ->]. rewrite Hp in Hr. destruct q; [|done]. by rewrite Hp. }
    assert (length (tail q) <= 255)%nat by (destruct q; simpl in *; lia).
    specialize (IH (tail q) l' (conj Hw' (conj Hp' H))). destruct (run l' ops) as [rs l2], (run_spec (tail q) ops) as [rs' q2].
    destruct IH as (-> & ? & ?). by rewrite Hr'.
Qed.

(** Remark: without a reader of the request ring the client serves exactly 255 requests, each
    with a skip, and refuses every later one: nothing in the program moves the reader's index. *)
Theorem shm_requests_served {C} (handler : PredictionResponse -> t * C -> t * C) (c : PredictionClient.PredictionContract)
    (tr : option LatencyTracker.t) (reqs : list PredictionRequest) (now : Z) (w : C) :
  quiet handler ->
  is_ok <$> fst (submit_all handler (make c tr) reqs now w) = (fun i => (i <? 255)%nat) <$> seq 0 (length reqs).
Proof.
  intros Hq.
  assert (forall k s w, req_head (layout s) = Z.of_nat k -> req_tail (layout s) = 0 -> (k <= 255)%nat ->
    is_ok <$> fst (submit_all handler s reqs now w) = (fun i => (i <? 255)%nat) <$> seq k (length reqs)) as H;
    [|apply (H 0%nat); [reflexivity|reflexivity|lia]].
  induction reqs as [|req reqs IH]; intros k s w' Hh Ht Hk; [done|]. cbn [submit_all length seq].
  pose proof (submit_head handler s req now now now now now now w' Hq) as Hs.
  destruct (submit handler s req now now now now now now w') as [r [s' w1]]. destruct Hs as [Hfull Hroom].
  rewrite Ht, Hh in *. destruct (submit_all handler s' reqs now w1) as [rs sw] eqn:E. simpl.
  destruct (decide (k = 255%nat)) as [->|Hne].
  - destruct (Hfull eq_refl) as [-> ->]. f_equal.
    replace rs with (fst (submit_all handler s reqs now w1)) by (by rewrite E).
    rewrite (IH 255%nat) by done. apply list_eq. intros i. rewrite !list_lookup_fmap.
    destruct (decide (i < length reqs)%nat); [rewrite !lookup_seq_lt by done|by rewrite !lookup_seq_ge by lia].
    cbn [fmap option_fmap option_map]. by rewrite !(proj2 (Nat.ltb_ge _ _)) by lia.
  - destruct Hroom as (-> & Hh' & Ht').
    { rewrite Z.mod_small by lia. lia. }
    replace (k <? 255)%nat with true by (symmetry; apply Nat.ltb_lt; lia). cbn. f_equal.
    replace rs with (fst (submit_all handler s' reqs now w1)) by (by rewrite E). apply IH; [|done|lia].
    rewrite Hh', Z.mod_small by lia. lia.
Qed.
End ShmPredictionClient.
#[export] Existing Instance ShmPredictionClient.eta_t.

Definition demo_ipc_request (cid : string) : PredictionRequest := {|
  rq_targetRoundId := "8"; rq_gameId := "7"; rq_requestTimeMs := 1; rq_requestNs := 2; rq_sequence := 3;
  rq_currentMult := f1; rq_correlationId := cid |}.

Lemma shm_requests_served_witness :
  is_ok <$> fst (ShmPredictionClient.submit_all (fun _ sw => sw)
    (ShmPredictionClient.make PredictionClient.default_contract None) [demo_ipc_request "a"; demo_ipc_request "b"] 5 tt) = [true; true].
Proof.
  rewrite (ShmPredictionClient.shm_requests_served (fun _ sw => sw)).
  - reflexivity.
  - by intros ???.
Defined.

(** * The socket client *)
Module UnixSocketPredictionClient.
Section S.
Context {C : Type}.
(** [std::to_string(double)]. *)
Variable fixed6 : double -> string.

(* @src include/prediction_interface/unix_socket_client.hpp | std::string path_; >> DecisionAuditLog audit_ *)
Record t := { base : PredictionClient.t; path : string; connected : bool; auto_skip : bool;
              outbound : list string; audit : DecisionAuditLog.t }.
#[export] Instance eta_t : Eta t := fun r =>
  {| base := base r; path := path r; connected := connected r; auto_skip := auto_skip r; outbound := outbound r; audit := audit r |}.

(* @src include/prediction_interface/unix_socket_client.hpp | explicit UnixSocketPredictionClient( *)
Definition make (p : string) (c : PredictionClient.PredictionContract) (tr : option LatencyTracker.t) : t :=
  {| base := PredictionClient.make c tr; path := p; connected := false; auto_skip := true; outbound := [];
     audit := DecisionAuditLog.make 1000 |}.

(* @src include/prediction_interface/unix_socket_client.hpp | Result<void> connect() *)
Definition connect (s : t) : Result unit * t := (Ok tt, s <| connected := true |>).
(* @src include/prediction_interface/unix_socket_client.hpp | void disconnect() *)
Definition disconnect (s : t) : t := s <| connected := false |>.

Variable handler : PredictionResponse -> t * C -> t * C.

Definition newline : string := String (Ascii.ascii_of_nat 10) EmptyString.

(* @src include/prediction_interface/unix_socket_client.hpp:38-39 UnixSocketPredictionClient::submit *)
Definition request_line (req : PredictionRequest) : string :=
  "REQ|" +:+ rq_correlationId req +:+ "|" +:+ rq_targetRoundId req +:+ "|" +:+ fixed6 (rq_currentMult req) +:+ newline.

(** [if (outbound_.size() > 256) outbound_.pop_front();]. *)
Definition push_line (l : list string) (line : string) : list string :=
  let l := l ++ [line] in if (256 <? length l)%nat then tail l else l.

(* @src include/prediction_interface/unix_socket_client.hpp | Result<void> submit( *)
Definition submit (s : t) (req : PredictionRequest) (now ns t0 t1 t2 nowAudit : Z) (w : C) : Result unit * (t * C) :=
  if negb (connected s) then (Err (err ConnectionFailed "unix socket not connected"), (s, w))
  else
    let s := s <| outbound ::= fun l => push_line l (request_line req) |>
               <| base ::= fun b => b <| PredictionClient.submitted ::= bump |> <| PredictionClient.tracker ::= track t0 t1 |> |> in
    if auto_skip s then
      let resp := PredictionClient.skip_response "unix-" "unix-auto" req now ns in
      (Ok tt, handler resp (s <| audit ::= fun a => DecisionAuditLog.recordResponse a req resp (elapsedUs t0 t2) nowAudit |>, w))
    else (Ok tt, (s, w)).

(* @src include/prediction_interface/unix_socket_client.hpp | void injectResponse( *)
Definition injectResponse (s : t) (resp : PredictionResponse) (w : C) : t * C := handler resp (s, w).

(* @src include/prediction_interface/unix_socket_client.hpp | std::size_t outboundSize() *)
Definition outboundSize (s : t) : nat := length (outbound s).

Lemma push_line_window l line : (length l <= 256)%nat -> push_line l line = push_window 256 l line.
Proof.
  intros Hl. unfold push_line, push_window, trim_front. rewrite length_app. simpl.
  destruct (Nat.ltb_spec 256 (length l + 1)).
  - replace (length l + 1 - 256)%nat with 1%nat by lia. by destruct (l ++ [line]).
  - replace (length l + 1 - 256)%nat with 0%nat by lia. done.
Qed.
End S.
End UnixSocketPredictionClient.
