(* ===== verification/Repos.v ===== *)
(** The repositories ([include/persistence/repositories]: rounds, predictions and outcomes,
    each a table with a cache in memory) and the asynchronous writer
    ([include/persistence/batch_writer.hpp]).

    [atof] is the C function; [enum] lists the entries of an unordered map in its iteration
    order. *)
From Stdlib Require Import Ascii.
From S2P Require Import Prelude Float64 Types Queues Feedback Sql Database Predict.

Open Scope Z_scope.

(** [std::atoll]: white space, an optional sign, digits; 0 without digits (the behaviour on
    values out of range is undefined in C). *)
Definition atoll (s : string) : Z :=
  match skip_spaces s with
  | String c s' as s =>
      if Ascii.eqb c "-" then - (digits 0 s').1
      else if Ascii.eqb c "+" then (digits 0 s').1 else (digits 0 s).1
  | EmptyString => 0
  end.

(** A loop that returns at most [limit] of the cached entries: it tests the limit after it
    has added an entry. *)
Definition first_entries {A} (limit : nat) (l : list A) : list A := take (Nat.max 1 limit) l.

(** * [CrashRoundRepository] *)
Module CrashRoundRepository.
Section S.
Context {D : Type} `{!Database D}.
Variable atof : string -> double.
Variable fixed4 : double -> string.
Variable enum : gmap string CrashRound -> list CrashRound.

(* @src include/persistence/repositories/crash_round_repository.hpp:112-115 CrashRoundRepository *)
Record t := { db : D; cache : gmap string CrashRound; upserts : Z }.
#[export] Instance eta_t : Eta t := fun r => {| db := db r; cache := cache r; upserts := upserts r |}.

(* @src include/persistence/repositories/crash_round_repository.hpp | explicit CrashRoundRepository( *)
Definition make (d : D) : t := {| db := d; cache := ∅; upserts := 0 |}.

(* @src include/persistence/repositories/crash_round_repository.hpp | Result<void> upsert( *)
Definition upsert (s : t) (r : CrashRound) : Result unit * t :=
  let '(res, d) := db_execute (SqlBuilder.upsertCrashRound fixed4 r) (db s) in
  let s := s <| db := d |> in
  (res, if is_ok res then s <| cache ::= insert (cr_gameId r) r |> <| upserts ::= bump |> else s).

(* @src include/persistence/repositories/crash_round_repository.hpp | static std::optional<CrashRound> rowToRound( *)
Definition rowToRound (row : list string) : option CrashRound :=
  match row with
  | gid :: mult :: hash :: salt :: began :: crashed :: seq :: _ =>
      Some {| cr_gameId := gid; cr_multiplier := atof mult; cr_hash := hash; cr_salt := salt;
              cr_beganAtMs := atoll began; cr_crashedAtMs := atoll crashed; cr_sequence := u64 (atoll seq);
              cr_hasHash := negb (str_empty hash); cr_hasSalt := negb (str_empty salt) |}
  | _ => None
  end.

(* @src include/persistence/repositories/crash_round_repository.hpp | Result<std::optional<CrashRound>> findById( *)
Definition findById (s : t) (id : string) : Result (option CrashRound) * t :=
  match cache s !! id with
  | Some r => (Ok (Some r), s)
  | None =>
      if db_connected (db s) then
        let '(qr, d) := db_query (SqlBuilder.selectCrashRoundById id) [] (db s) in
        let s := s <| db := d |> in
        match qr with
        | Ok {| rows := row :: _ |} =>
            match rowToRound row with
            | Some r => (Ok (Some r), s <| cache ::= insert id r |>)
            | None => (Ok None, s)
            end
        | _ => (Ok None, s)
        end
      else (Ok None, s)
  end.

Definition remember (s : t) (l : list CrashRound) : t :=
  fold_left (fun s r => s <| cache ::= insert (cr_gameId r) r |>) l s.

(* @src include/persistence/repositories/crash_round_repository.hpp | Result<std::vector<CrashRound>> findRecent( *)
Definition findRecent (s : t) (limit : nat) : Result (list CrashRound) * t :=
  let cached s := (Ok (first_entries limit (enum (cache s))), s) in
  if db_connected (db s) then
    let '(qr, d) := db_query (SqlBuilder.selectRecentCrashRounds limit) [] (db s) in
    let s := s <| db := d |> in
    match qr with
    | Ok {| rows := rows |} =>
        match omap rowToRound rows with
        | [] => cached s
        | out => (Ok out, remember s out)
        end
    | Err _ => cached s
    end
  else cached s.

(* @src include/persistence/repositories/crash_round_repository.hpp | Result<void> upsertFromEvent( *)
Definition upsertFromEvent (s : t) (ev : CrashEvent) : Result unit * t :=
  if negb (bool_decide (kind ev = KEnd)) || negb (valid ev) then
    (Err (err InvalidArgument "upsertFromEvent requires valid End"), s)
  else
    upsert s {| cr_gameId := if str_empty (gameId ev) then roundId ev else gameId ev;
                cr_multiplier := if fgt (crashPoint ev) f0 then crashPoint ev else currentMult ev;
                cr_hash := hash ev; cr_salt := "";
                cr_beganAtMs := beganAtMs ev;
                cr_crashedAtMs := if endedAtMs ev =? 0 then eventTimeMs ev else endedAtMs ev;
                cr_sequence := sequence ev; cr_hasHash := negb (str_empty (hash ev)); cr_hasSalt := false |}.
End S.
Arguments t : clear implicits.
End CrashRoundRepository.

(** * [OutcomeRepository] *)
Module OutcomeRepository.
Section S.
Context {D : Type} `{!Database D}.
Variable atof : string -> double.
Variable fixed4 : double -> string.
Variable enum : gmap string Outcome -> list Outcome.

(* @src include/persistence/repositories/outcome_repository.hpp:84-87 OutcomeRepository *)
Record t := { db : D; cache : gmap string Outcome; upserts : Z; wins : Z; losses : Z }.
#[export] Instance eta_t : Eta t := fun r =>
  {| db := db r; cache := cache r; upserts := upserts r; wins := wins r; losses := losses r |}.

(* @src include/persistence/repositories/outcome_repository.hpp | explicit OutcomeRepository( *)
Definition make (d : D) : t := {| db := d; cache := ∅; upserts := 0; wins := 0; losses := 0 |}.

(* @src include/persistence/repositories/outcome_repository.hpp | Result<void> upsert( *)
Definition upsert (s : t) (o : Outcome) : Result unit * t :=
  let '(res, d) := db_execute (SqlBuilder.upsertOutcome fixed4 o) (db s) in
  let s := s <| db := d |> in
  (res, if is_ok res then
          let s := s <| cache ::= insert (oc_predictionId o) o |> <| upserts ::= bump |> in
          if oc_isWin o then s <| wins ::= bump |>
          else if bool_decide (oc_result o = Loss) then s <| losses ::= bump |> else s
        else s).

(* @src include/persistence/repositories/outcome_repository.hpp:71-76 OutcomeRepository::rowToOutcome *)
Definition result_of_name (name : string) : PredictionOutcome :=
  if bool_decide (name = "Win") then Win
  else if bool_decide (name = "Loss") then Loss
  else if bool_decide (name = "Void") then Void
  else if bool_decide (name = "Stale") then Stale
  else if bool_decide (name = "Duplicate") then Duplicate
  else Pending.

(* @src include/persistence/repositories/outcome_repository.hpp | static std::optional<Outcome> rowToOutcome( *)
Definition rowToOutcome (row : list string) : option Outcome :=
  match row with
  | pid :: rid :: name :: actual :: target :: win :: resolved :: _ =>
      Some {| oc_predictionId := pid; oc_roundId := rid; oc_result := result_of_name name;
              oc_actualMult := atof actual; oc_targetMult := atof target;
              oc_isWin := bool_decide (win ∈ ["t"; "true"; "TRUE"; "1"]); oc_resolvedAtMs := atoll resolved |}
  | _ => None
  end.

(* @src include/persistence/repositories/outcome_repository.hpp | Result<std::optional<Outcome>> findById( *)
Definition findById (s : t) (id : string) : Result (option Outcome) * t :=
  match cache s !! id with
  | Some o => (Ok (Some o), s)
  | None =>
      if db_connected (db s) then
        let '(qr, d) := db_query (SqlBuilder.selectOutcomeById id) [] (db s) in
        let s := s <| db := d |> in
        match qr with
        | Ok {| rows := row :: _ |} =>
            match rowToOutcome row with
            | Some o => (Ok (Some o), s <| cache ::= insert id o |>)
            | None => (Ok None, s)
            end
        | _ => (Ok None, s)
        end
      else (Ok None, s)
  end.

(* @src include/persistence/repositories/outcome_repository.hpp | Result<std::vector<Outcome>> findRecent( *)
Definition findRecent (s : t) (limit : nat) : list Outcome := first_entries limit (enum (cache s)).
End S.
Arguments t : clear implicits.
End OutcomeRepository.

(** * [PredictionRepository] *)
Module PredictionRepository.
Section S.
Context {D : Type} `{!Database D}.
Variable atof : string -> double.
Variable fixed6 : double -> string.
Variable enum : gmap string PredictionEvent -> list PredictionEvent.

(* @src include/persistence/repositories/prediction_repository.hpp:122-125 PredictionRepository *)
Record t := { db : D; cache : gmap string PredictionEvent; upserts : Z }.
#[export] Instance eta_t : Eta t := fun r => {| db := db r; cache := cache r; upserts := upserts r |}.

(* @src include/persistence/repositories/prediction_repository.hpp | explicit PredictionRepository( *)
Definition make (d : D) : t := {| db := d; cache := ∅; upserts := 0 |}.

(* @src include/persistence/repositories/prediction_repository.hpp | Result<void> upsert( *)
Definition upsert (s : t) (e : PredictionEvent) : Result unit * t :=
  let '(res, d) := db_execute (SqlBuilder.upsertPrediction fixed6 e) (db s) in
  let s := s <| db := d |> in
  (res, if is_ok res then s <| cache ::= insert (pe_predictionId e) e |> <| upserts ::= bump |> else s).

(** The conversion of the stored number; it writes only 0, 1 and 2. *)
(* @src include/persistence/repositories/prediction_repository.hpp:112-112 PredictionRepository::rowToEvent *)
Definition decision_of_code (z : Z) : PredictionDecision := if z =? 1 then Enter else if z =? 2 then Hold else Skip.

(* @src include/persistence/repositories/prediction_repository.hpp | static std::optional<PredictionEvent> rowToEvent( *)
Definition rowToEvent (row : list string) : option PredictionEvent :=
  match row with
  | pid :: rid :: gid :: dec :: conf :: entry :: target :: cid :: model :: created :: _ =>
      Some {| pe_predictionId := pid; pe_targetRoundId := rid; pe_gameId := gid;
              pe_decision := decision_of_code (atoll dec); pe_confidence := atof conf; pe_probability := f0;
              pe_entryMult := atof entry; pe_targetMult := atof target; pe_createdAtMs := atoll created;
              pe_createdAtNs := 0; pe_correlationId := cid; pe_modelVersion := model; pe_delivered := false |}
  | _ => None
  end.

(* @src include/persistence/repositories/prediction_repository.hpp | Result<std::optional<PredictionEvent>> findById( *)
Definition findById (s : t) (id : string) : Result (option PredictionEvent) * t :=
  match cache s !! id with
  | Some e => (Ok (Some e), s)
  | None =>
      if db_connected (db s) then
        let '(qr, d) := db_query (SqlBuilder.selectPredictionById id) [] (db s) in
        let s := s <| db := d |> in
        match qr with
        | Ok {| rows := row :: _ |} =>
            match rowToEvent row with
            | Some e => (Ok (Some e), s <| cache ::= insert id e |>)
            | None => (Ok None, s)
            end
        | _ => (Ok None, s)
        end
      else (Ok None, s)
  end.

Definition remember (s : t) (l : list PredictionEvent) : t :=
  fold_left (fun s e => s <| cache ::= insert (pe_predictionId e) e |>) l s.

(* @src include/persistence/repositories/prediction_repository.hpp | Result<std::vector<PredictionEvent>> findRecent( *)
Definition findRecent (s : t) (limit : nat) : Result (list PredictionEvent) * t :=
  let cached s := (Ok (first_entries limit (enum (cache s))), s) in
  if db_connected (db s) then
    let '(qr, d) := db_query (SqlBuilder.selectRecentPredictions limit) [] (db s) in
    let s := s <| db := d |> in
    match qr with
    | Ok {| rows := rows |} =>
        match omap rowToEvent rows with
        | [] => cached s
        | out => (Ok out, remember s out)
        end
    | Err _ => cached s
    end
  else cached s.

(* @src include/persistence/repositories/prediction_repository.hpp | Result<std::vector<PredictionEvent>> findByRound( *)
Definition findByRound (s : t) (roundId : string) : Result (list PredictionEvent) * t :=
  let cached s := (Ok (base.filter (fun e => pe_targetRoundId e = roundId) (enum (cache s))), s) in
  if db_connected (db s) then
    let '(qr, d) := db_query (SqlBuilder.selectPredictionsByRound roundId) [] (db s) in
    let s := s <| db := d |> in
    match qr with
    | Ok {| rows := rows |} => let out := omap rowToEvent rows in (Ok out, remember s out)
    | Err _ => cached s
    end
  else cached s.
End S.
Arguments t : clear implicits.
End PredictionRepository.

(** * Rows read back

    [show] prints a stored double. *)
Section Rows.
Variable atof : string -> double.
Variable show : double -> string.

Lemma atoll_to_string z : atoll (to_string z) = z.
Proof.
  destruct (Z.le_gt_cases 0 z) as [Hz|Hz].
  - destruct (to_string_head z Hz) as (c & s & Es & Hc). destruct (digit_not_space c Hc) as (Hs & Hm & Hp).
    pose proof (digits_to_string z Hz) as Hd. unfold atoll. rewrite Es in *. cbn [skip_spaces]. by rewrite Hs, Hm, Hp, Hd.
  - destruct z as [|p|p]; [lia|lia|]. unfold to_string, pretty, pretty_Z.
    unfold atoll. rewrite app_cons_str, app_empty_str. cbn [skip_spaces is_space]. simpl.
    pose proof (digits_to_string (Z.pos p) ltac:(lia)) as Hd. rewrite to_string_N in Hd by lia.
    change (pretty p) with (pretty (Z.to_N (Z.pos p))). by rewrite Hd.
Qed.

(** The columns of the three tables as the [SELECT]s of [SqlBuilder] list them. *)
Definition round_row (r : CrashRound) : list string :=
  [cr_gameId r; show (cr_multiplier r); cr_hash r; cr_salt r; to_string (cr_beganAtMs r); to_string (cr_crashedAtMs r);
   to_string (cr_sequence r)].

Definition prediction_row (e : PredictionEvent) : list string :=
  [pe_predictionId e; pe_targetRoundId e; pe_gameId e; to_string (SqlBuilder.decision_code (pe_decision e));
   show (pe_confidence e); show (pe_entryMult e); show (pe_targetMult e); pe_correlationId e; pe_modelVersion e;
   to_string (pe_createdAtMs e)].

Definition outcome_row (o : Outcome) : list string :=
  [oc_predictionId o; oc_roundId o; outcomeName (oc_result o); show (oc_actualMult o); show (oc_targetMult o);
   if oc_isWin o then "t" else "f"; to_string (oc_resolvedAtMs o)].

(** Remark: a stored round or prediction reads back as it was written: its identifiers, texts and
    times exactly, each number as its printed column parses; what has no column
    (the probability, the steady clock, the delivery flag) is reset. *)
Theorem rows_read_back (r : CrashRound) (e : PredictionEvent) :
  0 <= cr_sequence r < 2 ^ 63 ->
  CrashRoundRepository.rowToRound atof (round_row r) =
    Some {| cr_gameId := cr_gameId r; cr_multiplier := atof (show (cr_multiplier r)); cr_hash := cr_hash r;
            cr_salt := cr_salt r; cr_beganAtMs := cr_beganAtMs r; cr_crashedAtMs := cr_crashedAtMs r;
            cr_sequence := cr_sequence r; cr_hasHash := negb (str_empty (cr_hash r));
            cr_hasSalt := negb (str_empty (cr_salt r)) |} /\
  PredictionRepository.rowToEvent atof (prediction_row e) =
    Some (e <| pe_confidence ::= fun x => atof (show x) |> <| pe_entryMult ::= fun x => atof (show x) |>
            <| pe_targetMult ::= fun x => atof (show x) |> <| pe_probability := f0 |> <| pe_createdAtNs := 0 |>
            <| pe_delivered := false |>).
Proof.
  intros Hs. split.
  - unfold round_row, CrashRoundRepository.rowToRound. rewrite !atoll_to_string, u64_small by lia. done.
  - unfold prediction_row, PredictionRepository.rowToEvent. rewrite !atoll_to_string.
    destruct e as [? ? ? [] ? ? ? ? ? ? ? ? ?]; reflexivity.
Qed.

(** Remark: an outcome loses its result on the way: the writer stores the lower-case names of
    [outcomeName] and the reader compares with capitalised ones, so every outcome that is read
    back from the database is pending. *)
Theorem outcome_row_is_pending (o : Outcome) :
  exists o', OutcomeRepository.rowToOutcome atof (outcome_row o) = Some o' /\
    oc_result o' = Pending /\ oc_predictionId o' = oc_predictionId o /\ oc_isWin o' = oc_isWin o.
Proof.
  unfold outcome_row, OutcomeRepository.rowToOutcome. eexists. split; [done|]. simpl.
  split_and!; [by destruct (oc_result o)|done|by destruct (oc_isWin o)].
Qed.
End Rows.

Definition demo_round : CrashRound := {|
  cr_gameId := "77"; cr_multiplier := of_Z 2; cr_hash := "ab"; cr_salt := ""; cr_beganAtMs := -5; cr_crashedAtMs := 1700;
  cr_sequence := 12; cr_hasHash := false; cr_hasSalt := false |}.

Lemma rows_read_back_witness :
  cr_beganAtMs <$> CrashRoundRepository.rowToRound (fun _ => of_Z 2) (round_row (fun _ => "2.0000") demo_round) = Some (-5).
Proof.
  rewrite (proj1 (rows_read_back (fun _ => of_Z 2) (fun _ => "2.0000") demo_round default_prediction ltac:(vm_compute; split; [discriminate|reflexivity]))).
  reflexivity.
Defined.

(** * [BatchWriter] *)
Module BatchWriter.

(* @src include/persistence/batch_writer.hpp | struct PersistItem { *)
Inductive PersistItem :=
| PRound (r : CrashRound)
| PPrediction (e : PredictionEvent)
| POutcome (o : Outcome)
| POutbox (sql : string).

Section S.
Context {D Q : Type} `{!Database D} `{!BoundedFifo Q PersistItem}.
Variable fixed4 fixed6 : double -> string.

(** [database] is absent when the writer was made without one. *)
(* @src include/persistence/batch_writer.hpp:168-177 BatchWriter *)
Record t := {
  database : option D; batch_size : nat; queue : Q; buffer : list PersistItem; offline_log : list string;
  written : Z; enqueued : Z; drops : Z; errors : Z; offline_drops : Z }.
#[export] Instance eta_t : Eta t := fun r =>
  {| database := database r; batch_size := batch_size r; queue := queue r; buffer := buffer r;
     offline_log := offline_log r; written := written r; enqueued := enqueued r; drops := drops r;
     errors := errors r; offline_drops := offline_drops r |}.

(* @src include/persistence/batch_writer.hpp | explicit BatchWriter( *)
Definition make (db : option D) (batchSize : nat) (q : Q) : t := {|
  database := db; batch_size := batchSize; queue := q; buffer := []; offline_log := [];
  written := 0; enqueued := 0; drops := 0; errors := 0; offline_drops := 0 |}.

(* @src include/persistence/batch_writer.hpp | Result<void> enqueue(PersistItem *)
Definition enqueue (s : t) (item : PersistItem) : Result unit * t :=
  match bf_push (queue s) item with
  | None => (Err (err QueueFull "persist queue full"), s <| drops ::= bump |>)
  | Some q => (Ok tt, s <| queue := q |> <| enqueued ::= bump |>)
  end.

(* @src include/persistence/batch_writer.hpp | Result<void> enqueueRound( *)
Definition enqueueRound (s : t) (r : CrashRound) : Result unit * t := enqueue s (PRound r).
(* @src include/persistence/batch_writer.hpp | Result<void> enqueuePrediction( *)
Definition enqueuePrediction (s : t) (e : PredictionEvent) : Result unit * t := enqueue s (PPrediction e).
(* @src include/persistence/batch_writer.hpp | Result<void> enqueueOutcome( *)
Definition enqueueOutcome (s : t) (o : Outcome) : Result unit * t := enqueue s (POutcome o).

(* @src include/persistence/batch_writer.hpp:133-147 BatchWriter::writeBatch *)
Definition item_sql (item : PersistItem) : string :=
  match item with
  | PRound r => SqlBuilder.upsertCrashRound fixed4 r
  | PPrediction e => SqlBuilder.upsertPrediction fixed6 e
  | POutcome o => SqlBuilder.upsertOutcome fixed4 o
  | POutbox sql => sql
  end.

(** One item; without a connection its statement goes to the log of the last 1000. *)
(* @src include/persistence/batch_writer.hpp:148-163 BatchWriter::writeBatch *)
Definition write_item (s : t) (item : PersistItem) : nat * t :=
  let offline := (0%nat, s <| offline_log ::= fun l => push_window 1000 l (item_sql item) |> <| offline_drops ::= bump |>) in
  match database s with
  | Some d =>
      if db_connected d then
        match db_execute (item_sql item) d with
        | (Err _, d) => (0%nat, s <| database := Some d |> <| errors ::= bump |>)
        | (Ok _, d) => (1%nat, s <| database := Some d |> <| written ::= bump |>)
        end
      else offline
  | None => offline
  end.

(* @src include/persistence/batch_writer.hpp | std::size_t writeBatch( *)
Fixpoint writeBatch (s : t) (batch : list PersistItem) : nat * t :=
  match batch with
  | [] => (0%nat, s)
  | item :: batch => let '(n, s) := write_item s item in let '(m, s) := writeBatch s batch in ((n + m)%nat, s)
  end.

(** [while (auto item = queue_.try_pop())]; [fuel] is at least the length of the queue. *)
(* @src include/persistence/batch_writer.hpp:90-93 BatchWriter::flush *)
Fixpoint drain (fuel : nat) (q : Q) : list PersistItem * Q :=
  match fuel with
  | O => ([], q)
  | S fuel => match bf_pop q with
              | Some (item, q) => let '(l, q) := drain fuel q in (item :: l, q)
              | None => ([], q)
              end
  end.

(* @src include/persistence/batch_writer.hpp | std::size_t flush() *)
Definition flush (s : t) : nat * t :=
  let '(rest, q) := drain (bf_size (queue s)) (queue s) in
  writeBatch (s <| buffer := [] |> <| queue := q |>) (buffer s ++ rest).

(** One turn of the loop; [pop] has taken an item or timed out on an empty queue. *)
(* @src include/persistence/batch_writer.hpp | void run(std::stop_token *)
Definition run_once (s : t) : t :=
  match bf_pop (queue s) with
  | None => if (batch_size s <=? length (buffer s))%nat then (flush s).2 else s
  | Some (item, q) =>
      let s := s <| queue := q |> <| buffer ::= fun l => l ++ [item] |> in
      if (batch_size s <=? length (buffer s))%nat then (writeBatch (s <| buffer := [] |>) (buffer s)).2 else s
  end.

(** [stop] on the queue closes it ([closed_queue]) and writes what is left. *)
(* @src include/persistence/batch_writer.hpp | void stop() *)
Definition stop (close : Q -> Q) (s : t) : t := (flush (s <| queue ::= close |>)).2.

(** ** Accounting *)

Inductive op := Enqueue (item : PersistItem) | Turn | Flush.

(** The accepted items of a run, with its final state. *)
Fixpoint run (s : t) (ops : list op) : list PersistItem * t :=
  match ops with
  | [] => ([], s)
  | Enqueue item :: ops =>
      let '(r, s) := enqueue s item in
      let '(l, s) := run s ops in (if is_ok r then item :: l else l, s)
  | Turn :: ops => run (run_once s) ops
  | Flush :: ops => run (flush s).2 ops
  end.
End S.
Arguments t : clear implicits.

(** The statements of a run on a database that records them. *)
Section Trace.
Context {Q : Type} `{!BoundedFifo Q PersistItem}.
Variable fixed4 fixed6 : double -> string.
Notation W := (t TraceDb.t Q).
Notation sql := (item_sql fixed4 fixed6).

(** [done] are the statements executed and the items still waiting, in order of acceptance;
    each accepted item is counted once, as written, failed or waiting. *)
Definition accounts (s : W) (done : list string) : Prop :=
  exists d l, database s = Some d /\ TraceDb.up d = true /\ bf_repr (queue s) l /\
    TraceDb.log d ++ map sql (buffer s ++ l) = done /\
    enqueued s = u64 (written s + errors s + Z.of_nat (length (buffer s ++ l))).

Lemma writeBatch_spec batch (s : W) d :
  database s = Some d -> TraceDb.up d = true ->
  let s' := (writeBatch fixed4 fixed6 s batch).2 in
  exists d', database s' = Some d' /\ TraceDb.up d' = true /\ queue s' = queue s /\ buffer s' = buffer s /\
    enqueued s' = enqueued s /\ batch_size s' = batch_size s /\
    TraceDb.log d' = TraceDb.log d ++ map sql batch /\
    forall n, u64 (written s' + errors s' + n) = u64 (written s + errors s + Z.of_nat (length batch) + n).
Proof.
  revert s d. induction batch as [|item batch IH]; intros s d Hd Hup; cbn [writeBatch].
  { exists d. rewrite app_nil_r. split_and!; try done. intros n. f_equal. simpl. lia. }
  destruct (write_item fixed4 fixed6 s item) as [n s1] eqn:E1.
  assert (exists d1, database s1 = Some d1 /\ TraceDb.up d1 = true /\ queue s1 = queue s /\ buffer s1 = buffer s /\
    enqueued s1 = enqueued s /\ batch_size s1 = batch_size s /\ TraceDb.log d1 = TraceDb.log d ++ [sql item] /\
    forall n, u64 (written s1 + errors s1 + n) = u64 (written s + errors s + n + 1)) as (d1 & Hd1 & Hup1 & Hq1 & Hb1 & He1 & Hs1 & Hl1 & Hc1).
  { unfold write_item in E1. rewrite Hd in E1. cbn [db_connected TraceDb.db db_execute] in E1. rewrite Hup, TraceDb.execute_up in E1 by done.
    destruct (TraceDb.answers d _ _); injection E1 as <- <-; eexists; split_and!; try done; intros k; simpl.
    - by rewrite <-Z.add_assoc, u64_bump_l, Z.add_assoc.
    - replace (written s + bump (errors s) + k) with (bump (errors s) + (written s + k)) by lia. rewrite u64_bump_l. f_equal. lia. }
  specialize (IH s1 d1 Hd1 Hup1). destruct (writeBatch fixed4 fixed6 s1 batch) as [m s2]. simpl in *.
  destruct IH as (d2 & Hd2 & Hup2 & Hq2 & Hb2 & He2 & Hs2 & Hl2 & Hc2). exists d2.
  split_and!; try congruence.
  - rewrite Hl2, Hl1. by rewrite <-(assoc (++)).
  - intros k. rewrite Hc2, <-Z.add_assoc, Hc1. f_equal. lia.
Qed.

Lemma drain_spec fuel : forall q l, bf_repr q l -> (length l <= fuel)%nat ->
  (drain fuel q).1 = l /\ bf_repr (drain fuel q).2 [].
Proof.
  induction fuel as [|fuel IH]; intros q l Hr Hl; cbn [drain].
  { by destruct l; [|simpl in Hl; lia]. }
  pose proof (bf_pop_spec q l Hr) as Hp. destruct (bf_pop q) as [[a q']|]; [|by subst].
  destruct Hp as (l' & -> & Hr' & _). simpl in Hl. destruct (IH q' l' Hr' ltac:(lia)) as [H1 H2].
  destruct (drain fuel q') as [l'' q'']. simpl in *. by subst.
Qed.

Lemma flush_spec (s : W) done : accounts s done ->
  accounts (flush fixed4 fixed6 s).2 done /\
  exists d, database (flush fixed4 fixed6 s).2 = Some d /\ TraceDb.log d = done.
Proof.
  intros (d & l & Hd & Hup & Hr & Hlog & He). unfold flush. rewrite (bf_size_spec _ l Hr).
  destruct (drain_spec (length l) (queue s) l Hr ltac:(lia)) as [Hl Hr'].
  destruct (drain (length l) (queue s)) as [l' q']. simpl in Hl, Hr'. subst l'.
  set (s1 := s <| buffer := [] |> <| queue := q' |>).
  destruct (writeBatch_spec (buffer s ++ l) s1 d Hd Hup) as (d' & Hd' & Hup' & Hq & Hb & Hen & Hbs & Hl' & Hc).
  split.
  - exists d', []. rewrite Hq, Hb, Hen. split_and!; try done.
    + by rewrite Hl', <-Hlog, app_nil_r.
    + change (enqueued s1) with (enqueued s). rewrite He, Hc. f_equal. unfold s1. simpl. lia.
  - exists d'. by rewrite Hl', Hlog.
Qed.

Lemma run_once_spec (s : W) done : accounts s done -> accounts (run_once fixed4 fixed6 s) done.
Proof.
  intros Ha. pose proof Ha as (d & l & Hd & Hup & Hr & Hlog & He). unfold run_once.
  pose proof (bf_pop_spec (queue s) l Hr) as Hp. destruct (bf_pop (queue s)) as [[item q]|].
  - destruct Hp as (l' & -> & Hr' & _). set (s1 := s <| queue := q |> <| buffer ::= _ |>).
    assert (accounts s1 done) as Ha1.
    { exists d, l'. unfold s1. simpl. rewrite <-(assoc (++)). split_and!; [exact Hd|exact Hup|exact Hr'|exact Hlog|exact He]. }
    case_match; [|done]. set (s2 := s1 <| buffer := [] |>). destruct Ha1 as (d1 & l1 & Hd1 & Hup1 & Hr1 & Hlog1 & He1).
    destruct (writeBatch_spec (buffer s1) s2 d1 Hd1 Hup1) as (d' & Hd' & Hup' & Hq & Hb & Hen & Hbs & Hl' & Hc).
    exists d', l1. rewrite Hq, Hb, Hen. split_and!; try done.
    + change (buffer s2) with (@nil PersistItem). by rewrite Hl', <-Hlog1, (map_app _ (buffer s1) l1), <-(assoc (++)).
    + change (enqueued s2) with (enqueued s1). rewrite He1, Hc, length_app. f_equal. unfold s2. simpl. lia.
  - case_match; [|done]. by apply flush_spec.
Qed.

(** Remark: with a connected database, the writer submits the statement of every accepted item
    exactly once and in the order of acceptance, whether the database takes it or not: at any
    moment the statements submitted, those of the buffer and those of the queue are together
    those of the accepted items, a final flush leaves nothing behind, and the counters add up. *)
Theorem batch_writer_in_order (d : TraceDb.t) (batch : nat) (q : Q) (ops : list op) :
  TraceDb.up d = true -> bf_repr q [] ->
  let '(accepted, s) := run fixed4 fixed6 (make (Some d) batch q) ops in
  accounts s (TraceDb.log d ++ map sql accepted) /\
  exists d', database (flush fixed4 fixed6 s).2 = Some d' /\ TraceDb.log d' = TraceDb.log d ++ map sql accepted.
Proof.
  intros Hup Hr.
  assert (forall ops (s : W) done, accounts s done ->
    let '(accepted, s') := run fixed4 fixed6 s ops in accounts s' (done ++ map sql accepted)) as H.
  { clear. induction ops as [|o ops IH]; intros s done Ha; cbn [run]; [by rewrite app_nil_r|].
    destruct o as [item| |].
    - pose proof Ha as (d & l & Hd & Hup & Hr & Hlog & He). unfold enqueue.
      pose proof (bf_push_spec (queue s) l item Hr) as Hp. destruct (bf_push (queue s) item) as [q'|].
      + destruct Hp as (_ & Hr' & _). set (s1 := s <| queue := q' |> <| enqueued ::= bump |>).
        assert (accounts s1 (done ++ [sql item])) as Ha1.
        { exists d, (l ++ [item]). unfold s1. simpl. split_and!; try done.
          - by rewrite <-Hlog, (assoc (++)), !map_app, !(assoc (++)).
          - rewrite He, bump_u64. f_equal. rewrite !length_app. simpl. lia. }
        specialize (IH s1 _ Ha1). destruct (run fixed4 fixed6 s1 ops) as [acc s2]. simpl.
        by rewrite <-(assoc (++)) in IH.
      + set (s1 := s <| drops ::= bump |>). specialize (IH s1 done Ha). by destruct (run fixed4 fixed6 s1 ops) as [acc s2].
    - by apply IH, run_once_spec.
    - by apply IH, flush_spec. }
  specialize (H ops (make (Some d) batch q) (TraceDb.log d)). destruct (run _ _ _ ops) as [acc s].
  assert (accounts s (TraceDb.log d ++ map sql acc)) as Ha.
  { apply H. exists d, []. simpl. rewrite app_nil_r. by split_and!. }
  split; [done|]. by apply flush_spec.
Qed.
End Trace.
End BatchWriter.

(** The database refuses the second statement. *)
Lemma batch_writer_in_order_witness :
  let '(accepted, s) := BatchWriter.run (fun _ => "1.0000") (fun _ => "0.500000")
    (BatchWriter.make (Some {| TraceDb.answers := fun n _ => negb (n =? 1)%nat; TraceDb.up := true; TraceDb.log := [] |}) 2 (BoundedQueue.make 8))
    [BatchWriter.Enqueue (BatchWriter.POutbox "A"); BatchWriter.Enqueue (BatchWriter.POutbox "B"); BatchWriter.Turn;
     BatchWriter.Turn; BatchWriter.Enqueue (BatchWriter.POutbox "C"); BatchWriter.Turn] in
  length accepted = 3%nat /\ BatchWriter.written s = 1 /\ BatchWriter.errors s = 1 /\
  exists d, BatchWriter.database (BatchWriter.flush (fun _ => "1.0000") (fun _ => "0.500000") s).2 = Some d /\ TraceDb.log d = ["A"; "B"; "C"].
Proof.
  pose proof (BatchWriter.batch_writer_in_order (fun _ => "1.0000") (fun _ => "0.500000")
    {| TraceDb.answers := fun n _ => negb (n =? 1)%nat; TraceDb.up := true; TraceDb.log := [] |} 2 (BoundedQueue.make 8)
    [BatchWriter.Enqueue (BatchWriter.POutbox "A"); BatchWriter.Enqueue (BatchWriter.POutbox "B"); BatchWriter.Turn;
     BatchWriter.Turn; BatchWriter.Enqueue (BatchWriter.POutbox "C"); BatchWriter.Turn] eq_refl (BoundedQueue.bounded_make_repr 8)) as H.
  destruct (BatchWriter.run _ _ _ _) as [acc s] eqn:E. destruct H as [_ H].
  vm_compute in E. injection E as <- <-. split; [reflexivity|]. split; [reflexivity|]. split; [reflexivity|]. exact H.
Defined.
