(* ===== verification/Delivery.v ===== *)
(** From a decision to a message: the signals ([include/delivery/signal.hpp],
    [signal_formatter.hpp]), the temporal authorisation ([delivery/outbox/temporal_auth.hpp]),
    the durable publication ([durable_prediction_tx.hpp] over
    [persistence/outbox_repository.hpp] and [transaction.hpp]) and the worker that drains the
    durable outbox ([notification_worker.hpp]).

    The PostgreSQL connection is a parameter: [executeParams] and [execute] run a statement in
    the world [W]; [fixed2] prints a double like a stream with [std::fixed] and two digits and
    [double_to_string] is [std::to_string]. *)
From S2P Require Import Prelude Float64 Types Queues Outbox OutboxUse Feedback.

(** * Signals *)
Section Signals.
Variable fixed2 : double -> string.

(* @src include/delivery/signal.hpp | inline Signal signalFromPrediction( | signalFromPrediction *)
Definition signalFromPrediction (ev : PredictionEvent) (nowMs : Z) : Signal := {|
  sg_kind := SPrediction; sg_predictionId := pe_predictionId ev; sg_roundId := pe_targetRoundId ev;
  sg_text := if decide (pe_decision ev = Enter)
             then "ENTER " +:+ pe_targetRoundId ev +:+ " target@" +:+ fixed2 (pe_targetMult ev)
                  +:+ " conf=" +:+ fixed2 (pe_confidence ev)
             else "SKIP " +:+ pe_targetRoundId ev;
  sg_createdAtMs := nowMs; sg_correlationId := pe_correlationId ev;
  sg_urgent := bool_decide (pe_decision ev = Enter) |}.

(* @src include/delivery/signal.hpp | inline Signal signalFromOutcome( | signalFromOutcome *)
Definition signalFromOutcome (o : Outcome) (nowMs : Z) : Signal := {|
  sg_kind := SOutcome; sg_predictionId := oc_predictionId o; sg_roundId := oc_roundId o;
  sg_text := outcomeName (oc_result o) +:+ " " +:+ oc_roundId o +:+ " actual=" +:+ fixed2 (oc_actualMult o)
             +:+ " target=" +:+ fixed2 (oc_targetMult o);
  sg_createdAtMs := nowMs; sg_correlationId := ""; sg_urgent := false |}.
End Signals.

(** * [TemporalGuard] *)
Module TemporalGuard.

(* @src include/delivery/outbox/temporal_auth.hpp | enum class TemporalDecision : *)
Inductive TemporalDecision := Allow | RejectTargetStarted | RejectExpired | RejectUnknownTarget.

(* @src include/delivery/outbox/temporal_auth.hpp:142-145 TemporalGuard *)
Record t := { deliveryDeadlineMs : Z; postStartGraceMs : Z; started : gmap string Z; starts : Z; kills : Z }.
#[export] Instance eta_t : Eta t := fun r =>
  {| deliveryDeadlineMs := deliveryDeadlineMs r; postStartGraceMs := postStartGraceMs r;
     started := started r; starts := starts r; kills := kills r |}.

(* @src include/delivery/outbox/temporal_auth.hpp | struct TemporalAuthConfig { *)
Definition make : t := {| deliveryDeadlineMs := 5000; postStartGraceMs := 0; started := ∅; starts := 0; kills := 0 |}.

(* @src include/delivery/outbox/temporal_auth.hpp | void noteTargetStarted( *)
Definition noteTargetStarted (g : t) (rid : string) (startedAtMs now : Z) : t :=
  if str_empty rid then g
  else g <| started ::= insert rid (if 0 <? startedAtMs then startedAtMs else now) |> <| starts ::= bump |>.

(* @src include/delivery/outbox/temporal_auth.hpp | std::optional<TimestampMs> startedAt( *)
Definition startedAt (g : t) (rid : string) : option Z := started g !! rid.

(* @src include/delivery/outbox/temporal_auth.hpp | TemporalAuthResult authorizeSend( *)
Definition authorizeSend (g : t) (rid : string) (signalCreatedAtMs now : Z) : TemporalDecision * string :=
  if (0 <? signalCreatedAtMs) && (deliveryDeadlineMs g <? now - signalCreatedAtMs) then
    (RejectExpired, "signal exceeded delivery deadline")
  else
    match started g !! rid with
    | Some at_ms => if at_ms + postStartGraceMs g <=? now then (RejectTargetStarted, "target round already started")
                    else (Allow, "")
    | None => (Allow, "")
    end.

(* @src include/delivery/outbox/temporal_auth.hpp | bool allowed() *)
Definition allowed (r : TemporalDecision * string) : bool := match r.1 with Allow => true | _ => false end.

(** [kill] is the statement that dead-letters the durable rows of the round; it says whether
    the database accepted it. *)
(* @src include/delivery/outbox/temporal_auth.hpp | std::size_t killStaleForTarget( *)
Definition killStaleForTarget {W} (kill : string -> W -> bool * W) (g : t) (rid : string) (now : Z) (w : W)
    : nat * t * W :=
  if str_empty rid then (0%nat, g, w)
  else
    match kill rid w with
    | (false, w) => (0%nat, g, w)
    | (true, w) =>
        (1%nat, g <| kills ::= bump |> <| started ::= fun m => <[rid := default now (m !! rid)]> m |>, w)
    end.

Lemma noteTargetStarted_started g rid at_ms now rid' :
  rid <> EmptyString ->
  started (noteTargetStarted g rid at_ms now) !! rid' =
  if decide (rid = rid') then Some (if 0 <? at_ms then at_ms else now) else started g !! rid'.
Proof.
  intros Hne. unfold noteTargetStarted. apply str_empty_false in Hne as ->. simpl.
  case_decide; [subst; by rewrite lookup_insert_eq|by rewrite lookup_insert_ne].
Qed.

(** Several starts, oldest first: round, reported time, clock. *)
Definition note_all (g : t) (h : list (string * Z * Z)) : t :=
  fold_left (fun g p => noteTargetStarted g p.1.1 p.1.2 p.2) h g.

Lemma note_all_limits g h :
  deliveryDeadlineMs (note_all g h) = deliveryDeadlineMs g /\ postStartGraceMs (note_all g h) = postStartGraceMs g.
Proof.
  revert g. induction h as [|p h IH]; intros g; simpl; [done|]. rewrite !(proj1 (IH _)), !(proj2 (IH _)).
  unfold noteTargetStarted. by case_match.
Qed.

Lemma note_all_started g h rid :
  rid <> EmptyString ->
  (exists p, p ∈ h /\ p.1.1 = rid) ->
  exists p, p ∈ h /\ p.1.1 = rid /\ started (note_all g h) !! rid = Some (if 0 <? p.1.2 then p.1.2 else p.2).
Proof.
  intros Hne. induction h as [|p h IH] using rev_ind; intros (q & Hq & Hr).
  - by apply not_elem_of_nil in Hq.
  - unfold note_all. rewrite fold_left_app. simpl. fold (note_all g h).
    destruct (decide (p.1.1 = rid)) as [Hp|Hp].
    + exists p. split; [set_solver|]. split; [done|]. rewrite noteTargetStarted_started by congruence.
      by rewrite decide_True.
    + apply elem_of_app in Hq as [Hq|Hq]; [|apply list_elem_of_singleton in Hq; congruence].
      destruct IH as (p' & Hp' & Hr' & Hs); [by exists q|]. exists p'. split; [set_solver|]. split; [done|].
      destruct (decide (p.1.1 = EmptyString)) as [He|He].
      * unfold noteTargetStarted. by rewrite (proj2 (str_empty_true _) He).
      * by rewrite noteTargetStarted_started, decide_False.
Qed.

(** Remark: once the start of a round has been noted, no signal of that round is authorised any
    more (with the default of no grace), whatever else starts; before that a signal of the
    round is authorised exactly up to the delivery deadline. *)
Theorem temporal_guard_spec (h : list (string * Z * Z)) (rid : string) (created now : Z) :
  rid <> EmptyString -> 0 < created ->
  (forall p, p ∈ h -> p.1.1 = rid -> (if 0 <? p.1.2 then p.1.2 else p.2) <= now) ->
  (allowed (authorizeSend (note_all make h) rid created now) = true <->
   now - created <= 5000 /\ ~ exists p, p ∈ h /\ p.1.1 = rid).
Proof.
  intros Hne Hc Hpast. unfold authorizeSend. destruct (note_all_limits make h) as [-> ->].
  rewrite (proj2 (Z.ltb_lt 0 created)) by done. simpl.
  destruct (Z.ltb_spec 5000 (now - created)) as [Hl|Hl]; simpl.
  { split; [done|]. intros [? _]. lia. }
  destruct (decide (Exists (fun p => p.1.1 = rid) h)) as [Hex|Hnex].
  - apply Exists_exists in Hex as (p0 & Hin & Hr).
    destruct (note_all_started make h rid Hne) as (p & Hp & Hpr & ->); [by exists p0|].
    specialize (Hpast p Hp Hpr). rewrite Z.add_0_r, (proj2 (Z.leb_le _ _)) by done.
    split; [done|]. intros [_ []]. by exists p0.
  - assert (started (note_all make h) !! rid = None) as ->.
    { apply eq_None_not_Some. intros [x Hx]. apply Hnex. clear Hpast Hnex. induction h as [|p h IH] using rev_ind.
      - simpl in Hx. by rewrite lookup_empty in Hx.
      - unfold note_all in Hx. rewrite fold_left_app in Hx. simpl in Hx. fold (note_all make h) in Hx.
        destruct (decide (p.1.1 = rid)); [apply Exists_app; right; by constructor|].
        apply Exists_app. left. apply IH. unfold noteTargetStarted in Hx. case_match; [done|].
        simpl in Hx. by rewrite lookup_insert_ne in Hx. }
    split; [|done]. intros _. split; [lia|]. intros (p & Hp & Hr). apply Hnex, Exists_exists. eauto.
Qed.
End TemporalGuard.

Lemma temporal_guard_spec_witness :
  TemporalGuard.allowed (TemporalGuard.authorizeSend (TemporalGuard.note_all TemporalGuard.make [("7", 100, 100)]) "8" 90 110) = true /\
  ~ TemporalGuard.allowed (TemporalGuard.authorizeSend (TemporalGuard.note_all TemporalGuard.make [("7", 100, 100)]) "7" 90 110) = true.
Proof.
  assert (forall rid p, p ∈ [("7", 100, 100)] -> p.1.1 = rid -> (if 0 <? p.1.2 then p.1.2 else p.2) <= 110) as H.
  { intros rid p Hp _. apply list_elem_of_singleton in Hp as ->. vm_compute. discriminate. }
  split.
  - apply (TemporalGuard.temporal_guard_spec [("7", 100, 100)] "8" 90 110 ltac:(discriminate) ltac:(lia) (H "8")).
    split; [lia|]. intros (p & Hp & Hr). apply list_elem_of_singleton in Hp as ->. discriminate Hr.
  - intros Ha. apply (TemporalGuard.temporal_guard_spec [("7", 100, 100)] "7" 90 110 ltac:(discriminate) ltac:(lia) (H "7")) in Ha.
    destruct Ha as [_ []]. exists ("7", 100, 100). split; [by left|reflexivity].
Defined.

(** * Durable publication *)

(* @src include/delivery/outbox/durable_prediction_tx.hpp | struct DurablePersistResult { | DurablePersistResult *)
Record DurablePersistResult := { dr_ok : bool; dr_durable : bool; dr_memoryPublished : bool; dr_error : string }.

Module DurablePredictionTx.
Section S.
Context {Q W : Type} `{!BoundedFifo Q OutboxItem}.
Variable executeParams : string -> list string -> W -> Result unit * W.
Variable execute : string -> W -> Result unit * W.
Variable double_to_string : double -> string.

Notation Handoff := (DurableHandoff.t Q).

(** Whether a database is installed and whether it is a [PgDatabase]; the handoff always is
    in the program. *)
Inductive Db := NoDb | OtherDb | Pg.
#[export] Instance Db_eq_dec : EqDecision Db.
Proof. solve_decision. Defined.

(* @src include/delivery/outbox/durable_prediction_tx.hpp:208-212 DurablePredictionTx *)
Record t := { db : Db; durable_ok : Z }.

(** A sequence of statements stops at the first one that fails; [ctx] names it. *)
Definition stmt (ctx : string) (sql : string) (params : list string) (rest : W -> Result unit * W) (w : W)
    : Result unit * W :=
  match executeParams sql params w with
  | (Err e, w) => (Err (err DatabaseError (ctx +:+ ": " +:+ message e)), w)
  | (Ok _, w) => rest w
  end.

(* @src include/persistence/outbox_repository.hpp | Result<void> enqueueWithRound( *)
Definition enqueueWithRound (dedupeKey payload id rid : string) (created available clock : Z) (w : W) : Result unit * W :=
  executeParams
    "INSERT INTO notification_outbox (dedupe_key, payload, status, attempts, created_at_ms, available_at_ms, round_id, prediction_id) VALUES ($1,$2,'pending',0,$3,$4,$5,$6) ON CONFLICT (dedupe_key) DO NOTHING"
    [dedupeKey; payload; to_string (or_now created clock); to_string (or_now available clock); rid; id] w.

(** The outbox row; when the insert fails it is tried again without the round. *)
(* @src include/delivery/outbox/durable_prediction_tx.hpp:120-134 DurablePredictionTx::persistPrediction *)
Definition enqueue_row (pev : PredictionEvent) (sig : Signal) (now clock : Z) (w : W) : Result unit * W :=
  let payload := "round=" +:+ pe_targetRoundId pev +:+ String (Ascii.ascii_of_nat 10) (sg_text sig) in
  let go rid := enqueueWithRound (pe_predictionId pev +:+ ":pred") payload (pe_predictionId pev +:+ "-pred") rid now now clock in
  match go (pe_targetRoundId pev) w with
  | (Ok _, w) => (Ok tt, w)
  | (Err _, w) => match go "" w with
                  | (Ok _, w) => (Ok tt, w)
                  | (Err e, w) => (Err (err DatabaseError ("outbox enqueue: " +:+ message e)), w)
                  end
  end.

Definition decision_code (d : PredictionDecision) : Z := match d with Skip => 0 | Enter => 1 | Hold => 2 end.

(** The three inserts inside the transaction. *)
(* @src include/delivery/outbox/durable_prediction_tx.hpp:84-134 DurablePredictionTx::persistPrediction *)
Definition body (pev : PredictionEvent) (sig : Signal) (now clock : Z) : W -> Result unit * W :=
  stmt "predictions insert"
    "INSERT INTO predictions (id, round_id, game_id, decision, confidence, probability, entry_mult, target_mult, correlation_id, model_version, created_at_ms) VALUES ($1,$2,$3,$4,$5,$6,$7,$8,$9,$10,$11) ON CONFLICT (id) DO UPDATE SET confidence=EXCLUDED.confidence, decision=EXCLUDED.decision, model_version=EXCLUDED.model_version"
    [pe_predictionId pev; pe_targetRoundId pev; pe_gameId pev; to_string (decision_code (pe_decision pev));
     double_to_string (pe_confidence pev); double_to_string (pe_probability pev);
     double_to_string (pe_entryMult pev); double_to_string (pe_targetMult pev);
     pe_correlationId pev; pe_modelVersion pev; to_string now]
    (stmt "target_claims insert"
       "INSERT INTO target_claims (round_id, prediction_id, claimed_at_ms, expires_at_ms) VALUES ($1,$2,$3,$4) ON CONFLICT (round_id) DO NOTHING"
       [pe_targetRoundId pev; pe_predictionId pev; to_string now; to_string (now + 120000)]
       (enqueue_row pev sig now clock)).

(** [Transaction]: [BEGIN] at construction, [ROLLBACK] at destruction unless [commit] ran,
    whatever its answer. *)
(* @src include/persistence/transaction.hpp:7-16 Transaction *)
Definition in_transaction (b : W -> Result unit * W) (w : W) : Result unit * W :=
  let '(_, w) := execute "BEGIN" w in
  match b w with
  | (Err e, w) => (Err e, snd (execute "ROLLBACK" w))
  | (Ok _, w) => match execute "COMMIT" w with
                 | (Ok _, w) => (Ok tt, w)
                 | (Err e, w) => (Err (err DatabaseError ("commit: " +:+ message e)), w)
                 end
  end.

(* @src include/delivery/outbox/durable_prediction_tx.hpp | DurablePersistResult persistPrediction( *)
Definition persistPrediction (s : t) (h : Handoff) (pev : PredictionEvent) (sig : Signal) (now clock : Z) (w : W)
    : DurablePersistResult * t * Handoff * W :=
  match db s with
  | NoDb =>
    let '(pub, h) := DurableHandoff.publishPrediction h sig clock in
    ({| dr_ok := is_ok pub; dr_durable := false; dr_memoryPublished := is_ok pub;
        dr_error := if is_ok pub then "" else "memory outbox publish failed" |}, s, h, w)
  | OtherDb =>
    let '(pub, h) := DurableHandoff.publishPrediction h sig clock in
    ({| dr_ok := is_ok pub; dr_durable := false; dr_memoryPublished := is_ok pub;
        dr_error := "no PgDatabase for durable path" |}, s, h, w)
  | Pg =>
    match in_transaction (body pev sig now clock) w with
    | (Err e, w) => ({| dr_ok := false; dr_durable := false; dr_memoryPublished := false; dr_error := message e |}, s, h, w)
    | (Ok _, w) =>
        let '(pub, h) := DurableHandoff.publishPrediction h sig clock in
        ({| dr_ok := true; dr_durable := true; dr_memoryPublished := is_ok pub; dr_error := "" |},
         {| db := db s; durable_ok := bump (durable_ok s) |}, h, w)
    end
  end.

Definition resultName (o : Outcome) : string :=
  if oc_isWin o || bool_decide (oc_result o = Win) then "win"
  else if bool_decide (oc_result o = Loss) then "loss" else "unknown".

(* @src include/delivery/outbox/durable_prediction_tx.hpp | DurablePersistResult persistOutcome( *)
Definition persistOutcome (s : t) (h : Handoff) (o : Outcome) (sig : Signal) (now : Z) (w : W)
    : DurablePersistResult * Handoff * W :=
  if decide (db s <> Pg) then
    let '(pub, h) := DurableHandoff.publishOutcome h sig now in
    ({| dr_ok := is_ok pub; dr_durable := false; dr_memoryPublished := is_ok pub; dr_error := "" |}, h, w)
  else
    match executeParams
      "INSERT INTO outcomes (prediction_id, round_id, result, is_win, actual_mult, target_mult, resolved_at_ms) VALUES ($1,$2,$3,$4,$5,$6,$7) ON CONFLICT (prediction_id) DO NOTHING"
      [oc_predictionId o; oc_roundId o; resultName o; if oc_isWin o then "true" else "false";
       double_to_string (oc_actualMult o); double_to_string (oc_targetMult o); to_string now] w with
    | (Err e, w) => ({| dr_ok := false; dr_durable := false; dr_memoryPublished := false; dr_error := message e |}, h, w)
    | (Ok _, w) =>
        let '(pub, h) := DurableHandoff.publishOutcome h sig now in
        ({| dr_ok := true; dr_durable := true; dr_memoryPublished := is_ok pub; dr_error := "" |}, h, w)
    end.
End S.

(** ** The statements the database sees

    [trace_db ok] is a database that logs every statement and answers the [n]-th one by
    [ok n]. *)
Definition trace := list string.
Definition answer (ok : nat -> bool) (sql : string) (w : trace) : Result unit * trace :=
  (if ok (length w) then Ok tt else Err (err DatabaseError "refused"), w ++ [sql]).

Definition is_control (sql : string) : bool := bool_decide (sql ∈ ["BEGIN"; "COMMIT"; "ROLLBACK"]).

Section Traced.
Context {Q : Type} `{!BoundedFifo Q OutboxItem}.
Variable ok : nat -> bool.
Variable double_to_string : double -> string.
Notation dbp := (fun sql (_ : list string) w => answer ok sql w).

(** The statements of [b] contain no transaction control. *)
Definition quiet (b : trace -> Result unit * trace) : Prop :=
  forall w, exists inner, snd (b w) = w ++ inner /\ Forall (fun q => is_control q = false) inner.

Lemma quiet_stmt ctx sql params rest : is_control sql = false -> quiet rest -> quiet (stmt dbp ctx sql params rest).
Proof.
  intros Hsql Hrest w. unfold stmt, answer. destruct (ok (length w)); simpl.
  - destruct (Hrest (w ++ [sql])) as (inner & -> & Hin). exists (sql :: inner).
    rewrite <-(assoc (++)). split; [done|]. by constructor.
  - exists [sql]. split; [done|]. by repeat constructor.
Qed.

Lemma quiet_enqueue_row pev sig now clock : quiet (enqueue_row dbp pev sig now clock).
Proof.
  intros w. unfold enqueue_row, enqueueWithRound, answer. cbv zeta.
  destruct (ok (length w)); cbn [fst snd]; [eexists; split; [done|]; by repeat constructor|].
  match goal with |- context [ok ?n] => destruct (ok n) end; cbn [fst snd].
  all: eexists; split; [symmetry; apply (assoc (++))|]; by repeat constructor.
Qed.

Lemma body_quiet pev sig now clock : quiet (body dbp double_to_string pev sig now clock).
Proof. repeat apply quiet_stmt; try done. apply quiet_enqueue_row. Qed.

(** C25: with the database there, every attempt to persist a prediction is one transaction:
    it begins, runs its inserts and ends with exactly one commit or rollback; the signal is
    handed to the delivery queue only after the commit succeeded, and the result says so;
    after any failure the queue is untouched. *)
Theorem durable_publish_after_commit (s : t) (h : DurableHandoff.t Q) (pev : PredictionEvent) (sig : Signal) (now clock : Z) :
  db s = Pg ->
  let '(res, s', h', w') := persistPrediction dbp (answer ok) double_to_string s h pev sig now clock [] in
  exists inner last, w' = "BEGIN" :: inner ++ [last] /\ Forall (fun q => is_control q = false) inner /\
    dr_ok res = dr_durable res /\
    if dr_durable res then last = "COMMIT" /\ ok (S (length inner)) = true /\
      h' = snd (DurableHandoff.publishPrediction h sig clock)
    else h' = h /\ s' = s /\ dr_memoryPublished res = false /\
      (last = "ROLLBACK" \/ (last = "COMMIT" /\ ok (S (length inner)) = false)).
Proof.
  intros Hpg. unfold persistPrediction. rewrite Hpg. unfold in_transaction.
  cbn [answer app fst snd]. destruct (body_quiet pev sig now clock ["BEGIN"]) as (inner & Hb & Hin).
  destruct (body dbp double_to_string pev sig now clock ["BEGIN"]) as [r w1]. simpl in Hb. subst w1.
  destruct r as [u|e].
  - cbn [length app]. destruct (ok (S (length inner))) eqn:Eok.
    + destruct (DurableHandoff.publishPrediction h sig clock) as [pub h'] eqn:Ep. cbn.
      exists inner, "COMMIT". rewrite Eok. by split_and!.
    + cbn. exists inner, "COMMIT". rewrite Eok. split_and!; try done. by right.
  - cbn. exists inner, "ROLLBACK". split_and!; try done. by left.
Qed.
End Traced.
End DurablePredictionTx.

Definition demo_handoff : DurableHandoff.t (BoundedQueue.t OutboxItem) := {|
  DurableHandoff.outbox := Outbox.make (BoundedQueue.make 4);
  DurableHandoff.pred_published := ∅; DurableHandoff.out_of_order := 0 |}.

(** The commit is refused: nothing is published. *)
Lemma durable_publish_after_commit_witness :
  let '(res, s', h', w') := DurablePredictionTx.persistPrediction
    (fun sql _ w => DurablePredictionTx.answer (fun n => negb (n =? 4)%nat) sql w)
    (DurablePredictionTx.answer (fun n => negb (n =? 4)%nat)) (fun _ => "1")
    {| DurablePredictionTx.db := DurablePredictionTx.Pg; DurablePredictionTx.durable_ok := 0 |} demo_handoff default_prediction
    (signalFromPrediction (fun _ => "1") default_prediction 5) 5 6 [] in
  dr_durable res = false /\ length w' = 5%nat /\ h' = demo_handoff.
Proof.
  pose proof (DurablePredictionTx.durable_publish_after_commit (fun n => negb (n =? 4)%nat) (fun _ => "1")
    {| DurablePredictionTx.db := DurablePredictionTx.Pg; DurablePredictionTx.durable_ok := 0 |} demo_handoff default_prediction
    (signalFromPrediction (fun _ => "1") default_prediction 5) 5 6 eq_refl) as H.
  destruct (DurablePredictionTx.persistPrediction _ _ _ _ _ _ _ _ _ _) as [[[res s'] h'] w'] eqn:E.
  destruct H as (inner & last & _ & _ & _ & H).
  assert (dr_durable res = false /\ length w' = 5%nat) as [Hd Hl].
  { vm_compute in E. injection E as <- _ _ <-. split; reflexivity. }
  rewrite Hd in H. split; [exact Hd|]. split; [exact Hl|]. exact (proj1 H).
Defined.

(** * [NotificationWorker] *)

(* @src include/persistence/outbox_repository.hpp | struct OutboxRow { | OutboxRow *)
Record OutboxRow := {
  or_id : string; or_dedupeKey : string; or_payload : string; or_status : string; or_lastError : string;
  or_attempts : Z; or_createdAtMs : Z; or_availableAtMs : Z
}.

Module NotificationWorker.
Section S.
Context {W : Type}.
Variable executeParams : string -> list string -> W -> Result unit * W.
(** A query answers the rows of its result. *)
Variable query : string -> list string -> W -> Result (list (list string)) * W.
(** [std::atoi] and [std::strtoll]. *)
Variable atoi : string -> Z.
(** The delivery function (or the Telegram client) acts on the world. *)
Variable deliver : OutboxRow -> W -> Result unit * W.

(* @src include/delivery/notification_worker.hpp | struct Config { *)
Record Config := {
  workerId : string; batchSize : nat; pollIntervalMs : Z; claimStaleMs : Z; maxAttempts : Z;
  baseRetryMs : Z; maxRetryMs : Z }.

(* @src include/delivery/notification_worker.hpp | struct Config { *)
Definition default_config : Config := {|
  workerId := "nw-1"; batchSize := 16; pollIntervalMs := 200; claimStaleMs := 30000; maxAttempts := 8;
  baseRetryMs := 500; maxRetryMs := 60000 |}.

(* @src include/delivery/notification_worker.hpp:86-92 NotificationWorker *)
Record t := { cfg : Config; delivered : Z; failed : Z; dead : Z }.
#[export] Instance eta_t : Eta t := fun r =>
  {| cfg := cfg r; delivered := delivered r; failed := failed r; dead := dead r |}.

(** A result row becomes an [OutboxRow]; a short row is skipped. *)
(* @src include/persistence/outbox_repository.hpp:59-68 OutboxRepository::claim *)
Definition row_of (r : list string) : option OutboxRow :=
  match r with
  | id :: key :: payload :: status :: attempts :: created :: available :: lastError :: _ =>
      Some {| or_id := id; or_dedupeKey := key; or_payload := payload; or_status := status;
              or_lastError := lastError; or_attempts := atoi attempts; or_createdAtMs := atoi created;
              or_availableAtMs := atoi available |}
  | _ => None
  end.

(* @src include/persistence/outbox_repository.hpp | Result<std::vector<OutboxRow>> claim( *)
Definition claim (limit : nat) (worker : string) (now : Z) (w : W) : Result (list OutboxRow) * W :=
  let '(r, w) := query
    "UPDATE notification_outbox SET status='claimed', attempts=attempts+1, worker_id=$1, claimed_at_ms=$2 WHERE id IN (SELECT id FROM notification_outbox WHERE status='pending' AND available_at_ms <= $2 ORDER BY created_at_ms ASC FOR UPDATE SKIP LOCKED LIMIT $3) RETURNING id, dedupe_key, payload, status, attempts, created_at_ms, available_at_ms, COALESCE(last_error,'')"
    [worker; to_string now; to_string (Z.of_nat limit)] w in
  (result_map (omap row_of) r, w).

(* @src include/persistence/outbox_repository.hpp | Result<void> markDelivered( *)
Definition markDelivered (id : string) (now : Z) (w : W) : Result unit * W :=
  executeParams "UPDATE notification_outbox SET status='delivered', delivered_at_ms=$1 WHERE id=$2"
    [to_string now; id] w.

(* @src include/persistence/outbox_repository.hpp | Result<void> markFailed( *)
Definition markFailed (id e : string) (retryAfterMs : Z) (deadLetter : bool) (now : Z) (w : W) : Result unit * W :=
  executeParams "UPDATE notification_outbox SET status=$1, last_error=$2, available_at_ms=$3 WHERE id=$4"
    [if deadLetter then "dead" else "pending"; e; to_string (now + retryAfterMs); id] w.

(* @src include/persistence/outbox_repository.hpp | Result<void> recoverStaleClaims( *)
Definition recoverStaleClaims (olderThanMs now : Z) (w : W) : Result unit * W :=
  executeParams
    "UPDATE notification_outbox SET status='pending', worker_id=NULL WHERE status='claimed' AND claimed_at_ms < $1"
    [to_string (now - olderThanMs)] w.

(** The delay before the next attempt; the row's count already includes this one. *)
(* @src include/delivery/notification_worker.hpp:68-69 NotificationWorker::drainBatch *)
Definition retry_delay (c : Config) (attempts : Z) : Z :=
  Z.min (maxRetryMs c) (baseRetryMs c * Z.shiftl 1 (Z.min attempts 10)).

(** One claimed row; the answers of the final updates are ignored. *)
(* @src include/delivery/notification_worker.hpp:64-71 NotificationWorker::drainBatch *)
Definition settle_row (s : t) (row : OutboxRow) (now : Z) (w : W) : bool * t * W :=
  match deliver row w with
  | (Ok _, w) => (true, s <| delivered ::= bump |>, snd (markDelivered (or_id row) now w))
  | (Err e, w) =>
      let is_dead := maxAttempts (cfg s) <=? or_attempts row in
      let w := snd (markFailed (or_id row) (message e) (retry_delay (cfg s) (or_attempts row)) is_dead now w) in
      (false, if is_dead then s <| dead ::= bump |> else s <| failed ::= bump |>, w)
  end.

Fixpoint settle_rows (s : t) (rows : list OutboxRow) (now : nat -> Z) (w : W) : nat * t * W :=
  match rows with
  | [] => (0%nat, s, w)
  | row :: rows =>
      let '(b, s, w) := settle_row s row (now 0%nat) w in
      let '(n, s, w) := settle_rows s rows (fun i => now (S i)) w in
      (((if b : bool then 1 else 0) + n)%nat, s, w)
  end.

(* @src include/delivery/notification_worker.hpp | std::size_t drainBatch() *)
Definition drainBatch (s : t) (now : nat -> Z) (w : W) : nat * t * W :=
  match claim (batchSize (cfg s)) (workerId (cfg s)) (now 0%nat) w with
  | (Err _, w) => (0%nat, s, w)
  | (Ok rows, w) => settle_rows s rows (fun i => now (S i)) w
  end.

(** One turn of the thread's loop, which counts its turns, up to the wait. *)
(* @src include/delivery/notification_worker.hpp:48-51 NotificationWorker::loop *)
Definition loop_turn (s : t) (loops : Z) (now : nat -> Z) (w : W) : t * Z * W :=
  let w := if loops mod 50 =? 0 then snd (recoverStaleClaims (claimStaleMs (cfg s)) (now 0%nat) w) else w in
  let '(_, s, w) := drainBatch s (fun i => now (S i)) w in
  (s, bump loops, w).

(** Remark: the delay before a retry is at least the base and at most the maximum, doubles with
    every attempt while it is below the maximum, and never decreases with further attempts. *)
Theorem retry_delay_bounds (c : Config) (a : Z) :
  0 < baseRetryMs c <= maxRetryMs c -> 0 <= a ->
  baseRetryMs c <= retry_delay c a <= maxRetryMs c /\
  retry_delay c a <= retry_delay c (a + 1) /\
  (a < 10 -> retry_delay c (a + 1) = Z.min (maxRetryMs c) (2 * retry_delay c a)).
Proof.
  intros Hc Ha. unfold retry_delay. rewrite !Z.shiftl_1_l.
  assert (forall k, 0 <= k -> 1 <= 2 ^ k) as Hp by (intros; assert (0 < 2 ^ k) by (apply Z.pow_pos_nonneg; lia); lia).
  assert (1 <= 2 ^ Z.min a 10 <= 2 ^ Z.min (a + 1) 10) as Hm.
  { split; [apply Hp; lia|]. apply Z.pow_le_mono_r; lia. }
  split_and!; [nia|nia|nia|].
  intros Hlt. rewrite (Z.min_l a), (Z.min_l (a + 1)) by lia. rewrite Z.pow_add_r by lia.
  specialize (Hp a Ha). change (2 ^ 1) with 2. set (p := 2 ^ a) in *.
  replace (baseRetryMs c * (p * 2)) with (2 * (baseRetryMs c * p)) by ring.
  assert (0 < baseRetryMs c * p) by nia. lia.
Qed.

End S.
End NotificationWorker.

(** The function that the worker calls for each row: the installed one, or the Telegram client, or
    nothing at all. *)
(* @src include/delivery/notification_worker.hpp | Result<void> doDeliver( *)
Definition doDeliver {W} (fn : option (OutboxRow -> W -> Result unit * W)) (telegram : option (string -> W -> Result unit * W))
    (row : OutboxRow) (w : W) : Result unit * W :=
  match fn, telegram with
  | Some d, _ => d row w
  | None, Some send =>
      match send (or_payload row) w with
      | (Err e, w) => (Err (err NetworkError (message e)), w)
      | (Ok _, w) => (Ok tt, w)
      end
  | None, None => (Ok tt, w)
  end.

#[local] Existing Instance NotificationWorker.eta_t.

(** Remark: A worker without a delivery function and without a client marks every row that it claims as
    delivered. *)
Theorem no_sender_delivers {W} (executeParams : string -> list string -> W -> Result unit * W) (s : NotificationWorker.t) (row : OutboxRow)
    (now : Z) (w : W) :
  NotificationWorker.settle_row executeParams (doDeliver None None) s row now w =
  (true, s <| NotificationWorker.delivered ::= bump |>, snd (NotificationWorker.markDelivered executeParams (or_id row) now w)).
Proof. done. Qed.

Lemma retry_delay_bounds_witness :
  NotificationWorker.retry_delay NotificationWorker.default_config 4 <=
  NotificationWorker.retry_delay NotificationWorker.default_config 5.
Proof.
  apply (NotificationWorker.retry_delay_bounds NotificationWorker.default_config 4); [|lia].
  vm_compute. split; [reflexivity|discriminate].
Defined.
