(* ===== verification/Telegram.v ===== *)
(** The Telegram client ([include/delivery/telegram]): the JSON body of a message, the
    reading of the answer and the bounded retries.  The HTTP client behind the interface
    [HttpClient] is a parameter. *)
From Stdlib Require Import Ascii.
From S2P Require Import Prelude Float64 Types Predict.

(** * The message body *)
Module telegram_api.

(** Byte values of the characters the escaping names. *)
Definition dq : ascii := "034".
Definition bs : ascii := "092".
Definition byte (c : ascii) : Z := Z.of_nat (nat_of_ascii c).

Definition hex_digit (z : Z) : ascii :=
  ascii_of_nat (Z.to_nat (if z <? 10 then 48 + z else 87 + z)).

(** The escape of one character; [%04x] of a value below 32. *)
(* @src include/delivery/telegram/telegram_api.hpp:24-36 escapeJson *)
Definition escape_char (c : ascii) : string :=
  if Ascii.eqb c dq then String bs (String dq "")
  else if Ascii.eqb c bs then String bs (String bs "")
  else if byte c =? 10 then String bs "n"
  else if byte c =? 13 then String bs "r"
  else if byte c =? 9 then String bs "t"
  else if byte c <? 32 then
    String bs (String "u" (String "0" (String "0" (String (hex_digit (byte c / 16)) (String (hex_digit (byte c mod 16)) "")))))
  else String c "".

(* @src include/delivery/telegram/telegram_api.hpp | inline std::string escapeJson( *)
Fixpoint escapeJson (text : string) : string :=
  match text with
  | EmptyString => ""
  | String c text => escape_char c +:+ escapeJson text
  end.

Definition quoted (s : string) : string := String dq (escapeJson s +:+ String dq "").

(* @src include/delivery/telegram/telegram_api.hpp | inline std::string buildSendMessageBody( *)
Definition buildSendMessageBody (chatId text parseMode : string) (disableNotification : bool) : string :=
  String "{" (quoted "chat_id" +:+ ":" +:+ quoted chatId +:+ "," +:+ quoted "text" +:+ ":" +:+ quoted text +:+
    (if str_empty parseMode then "" else "," +:+ quoted "parse_mode" +:+ ":" +:+ quoted parseMode) +:+
    (if disableNotification then "," +:+ quoted "disable_notification" +:+ ":true" else "") +:+ "}").

(* @src include/delivery/telegram/telegram_api.hpp | inline std::string sendMessagePath( *)
Definition sendMessagePath (botToken : string) : string := "/bot" +:+ botToken +:+ "/sendMessage".

(** ** A reader of JSON strings

    The reference: the value of the string literal whose opening quote was consumed, with
    what follows its closing quote. *)
Definition hex_value (c : ascii) : option Z :=
  let n := byte c in
  if (48 <=? n) && (n <=? 57) then Some (n - 48)
  else if (97 <=? n) && (n <=? 102) then Some (n - 87) else None.

Fixpoint read_string (s : string) : option (string * string) :=
  match s with
  | EmptyString => None
  | String c s =>
      if Ascii.eqb c dq then Some (EmptyString, s)
      else if Ascii.eqb c bs then
        match s with
        | String e s =>
            if Ascii.eqb e "u" then
              match s with
              | String a (String b (String c1 (String c2 s))) =>
                  '(v, rest) ← read_string s;
                  h1 ← hex_value c1; h2 ← hex_value c2;
                  if Ascii.eqb a "0" && Ascii.eqb b "0"
                  then Some (String (ascii_of_nat (Z.to_nat (16 * h1 + h2))) v, rest) else None
              | _ => None
              end
            else
              '(v, rest) ← read_string s;
              if Ascii.eqb e dq || Ascii.eqb e bs then Some (String e v, rest)
              else if Ascii.eqb e "n" then Some (String "010" v, rest)
              else if Ascii.eqb e "r" then Some (String "013" v, rest)
              else if Ascii.eqb e "t" then Some (String "009" v, rest) else None
        | EmptyString => None
        end
      else if byte c <? 32 then None
      else '(v, rest) ← read_string s; Some (String c v, rest)
  end.

Lemma ascii_of_byte c : ascii_of_nat (Z.to_nat (byte c)) = c.
Proof. unfold byte. rewrite Nat2Z.id. apply ascii_nat_embedding. Qed.

Lemma byte_eq c n : byte c = n -> c = ascii_of_nat (Z.to_nat n).
Proof. intros <-. by rewrite ascii_of_byte. Qed.

Lemma byte_range c : 0 <= byte c < 256.
Proof. unfold byte. pose proof (nat_ascii_bounded c). lia. Qed.

Lemma hex_digit_value z : 0 <= z < 16 -> hex_value (hex_digit z) = Some z.
Proof.
  intros Hz. assert (z ∈ [0; 1; 2; 3; 4; 5; 6; 7; 8; 9; 10; 11; 12; 13; 14; 15]) as Hin by (rewrite !elem_of_cons; lia).
  repeat (apply elem_of_cons in Hin as [->|Hin]; [done|]). by apply not_elem_of_nil in Hin.
Qed.

Ltac read_step H := simpl; match goal with |- context ["" +:+ ?s] => change ("" +:+ s) with s end; rewrite H; simpl.

(** Reading past one escaped character. *)
Lemma read_escape_char c s v rest :
  read_string s = Some (v, rest) -> read_string (escape_char c +:+ s) = Some (String c v, rest).
Proof.
  intros H. unfold escape_char.
  destruct (Ascii.eqb_spec c dq) as [->|Hdq]; [by read_step H|].
  destruct (Ascii.eqb_spec c bs) as [->|Hbs]; [by read_step H|].
  destruct (Z.eqb_spec (byte c) 10) as [->%byte_eq|_]; [by read_step H|].
  destruct (Z.eqb_spec (byte c) 13) as [->%byte_eq|_]; [by read_step H|].
  destruct (Z.eqb_spec (byte c) 9) as [->%byte_eq|_]; [by read_step H|].
  pose proof (byte_range c) as Hr. destruct (Z.ltb_spec (byte c) 32) as [Hlt|Hge].
  - read_step H. rewrite !hex_digit_value by first [apply Z.mod_pos_bound; lia|split; [apply Z.div_pos; lia|apply Z.div_lt_upper_bound; lia]].
    cbn. rewrite <-Z.div_mod by done. by rewrite ascii_of_byte.
  - change (String c "" +:+ s) with (String c s). cbn [read_string].
    apply Ascii.eqb_neq in Hdq as ->. apply Ascii.eqb_neq in Hbs as ->.
    rewrite (proj2 (Z.ltb_ge _ _)) by done. by rewrite H.
Qed.

(** Remark: every text survives the escaping: a JSON reader that starts after the opening quote
    finds exactly the text, and stops exactly at the closing quote the body wrote - quotes,
    backslashes, line breaks and control characters included, so no text can break out of
    its field. *)
Theorem escapeJson_roundtrip (text rest : string) :
  read_string (escapeJson text +:+ String dq rest) = Some (text, rest).
Proof.
  induction text as [|c text IH]; [done|]. cbn [escapeJson]. rewrite app_assoc_str.
  by apply read_escape_char.
Qed.
End telegram_api.

(** * The client *)

(** [std::strtoll(s, nullptr, 10)]: 0 without digits, clamped to 64 bits. *)
Definition strtoll (s : string) : Z :=
  let s := skip_spaces s in
  let '(neg, s) := match s with
                   | String c s' => if Ascii.eqb c "-" then (true, s')
                                    else if Ascii.eqb c "+" then (false, s') else (false, s)
                   | EmptyString => (false, s)
                   end in
  let v := fst (digits 0 s) in
  if neg : bool then Z.max (- v) (- 2 ^ 63) else Z.min v (2 ^ 63 - 1).

(** [s.find(pat)] followed by the text after it; [None] for [npos]. *)
Fixpoint after (pat s : string) : option string :=
  if String.prefix pat s then Some (String.substring (String.length pat) (String.length s) s)
  else match s with
       | EmptyString => None
       | String _ s' => after pat s'
       end.

Module TelegramClient.

(* @src include/delivery/telegram/telegram_response.hpp | struct TelegramResponse { *)
Record TelegramResponse := { tr_ok : bool; tr_messageId : Z; tr_description : string; tr_raw : string; tr_errorCode : Z }.

(* @src include/delivery/telegram/http_client.hpp | struct HttpRequest { *)
Record HttpRequest := {
  hq_method : string; hq_host : string; hq_path : string; hq_port : Z; hq_tls : bool;
  hq_headers : list (string * string); hq_body : string; hq_timeout_ms : Z }.

(* @src include/delivery/telegram/http_client.hpp | struct HttpResponse { *)
Record HttpResponse := { hp_status : Z; hp_body : string; hp_headers : gmap string string }.

(* @src include/delivery/telegram/http_client.hpp | bool ok() *)
Definition http_ok (r : HttpResponse) : bool := (200 <=? hp_status r) && (hp_status r <? 300).

Definition key (k : string) : string := String telegram_api.dq (k +:+ String telegram_api.dq "").

(** The number after the next colon behind a key. *)
Definition number_after (k body : string) (default_ : Z) : Z :=
  match after (key k) body with
  | None => default_
  | Some rest => match after ":" rest with
                 | None => default_
                 | Some rest => strtoll rest
                 end
  end.

(* @src include/delivery/telegram/telegram_client.hpp | static Result<TelegramResponse> parseResponse( *)
Definition parseResponse (http : HttpResponse) : Result TelegramResponse :=
  if negb (http_ok http) then
    if hp_status http =? 429 then
      Err (err RateLimited ("rate limited retry_after=" +:+ to_string (number_after "retry_after" (hp_body http) 1)))
    else
      let description := "HTTP " +:+ to_string (hp_status http) in
      if (hp_status http =? 401) || (hp_status http =? 403) then Err (err AuthFailed description)
      else Err (err NetworkError description)
  else
    match after (key "ok" +:+ ":true") (hp_body http), after (key "ok" +:+ ": true") (hp_body http) with
    | None, None => Err (err NetworkError "telegram ok=false")
    | _, _ => Ok {| tr_ok := true; tr_messageId := number_after "message_id" (hp_body http) 0;
                    tr_description := ""; tr_raw := hp_body http; tr_errorCode := 0 |}
    end.

(* @src include/security/credentials.hpp | struct TelegramCredentials { *)
Record TelegramCredentials := { botToken : string; chatId : string; extraChatIds : list string }.
(* @src include/security/credentials.hpp:13-14 TelegramCredentials::valid *)
Definition creds_valid (c : TelegramCredentials) : bool :=
  negb (str_empty (botToken c)) && (negb (str_empty (chatId c)) || negb (bool_decide (extraChatIds c = []))).

(* @src include/delivery/telegram/telegram_client.hpp:148-151 TelegramClient *)
Record t := { creds : TelegramCredentials; sent : Z; failed : Z; last_sent_ms : Z }.
#[export] Instance eta_t : Eta t := fun r =>
  {| creds := creds r; sent := sent r; failed := failed r; last_sent_ms := last_sent_ms r |}.

(* @src include/delivery/telegram/telegram_client.hpp:41-50 TelegramClient::sendMessage *)
Definition request_for (c : TelegramCredentials) (text : string) (timeoutMs : Z) : HttpRequest := {|
  hq_method := "POST"; hq_host := "api.telegram.org"; hq_port := 443; hq_tls := true;
  hq_path := telegram_api.sendMessagePath (botToken c);
  hq_body := telegram_api.buildSendMessageBody (chatId c) text "" false;
  hq_headers := [("Content-Type", "application/json"); ("User-Agent", "CrashCore/1.0")];
  hq_timeout_ms := if 0 <? timeoutMs then timeoutMs else 10000 |}.

Section S.
Context {W : Type}.
Variable http : HttpRequest -> W -> Result HttpResponse * W.

(* @src include/delivery/telegram/telegram_client.hpp | Result<TelegramResponse> sendMessage( *)
Definition sendMessage (s : t) (text : string) (timeoutMs : Z) (w : W) : Result TelegramResponse * t * W :=
  if negb (creds_valid (creds s)) then (Err (err AuthFailed "telegram credentials missing"), s, w)
  else
    match http (request_for (creds s) text timeoutMs) w with
    | (Err e, w) => (Err e, s <| failed ::= bump |>, w)
    | (Ok r, w) => (parseResponse r, s, w)
    end.

(** How long the client sleeps after the [i]-th failure. *)
(* @src include/delivery/telegram/telegram_client.hpp:72-84 TelegramClient::sendMessageWithRetry *)
Definition retry_wait (i : Z) (e : Error) : Z :=
  if decide (code e = RateLimited) then
    match after "retry_after=" (message e) with
    | Some rest => if 0 <? strtoll rest then strtoll rest * 1000 else 500 * (i + 1)
    | None => 500 * (i + 1)
    end
  else 100 * (i + 1).

(** [n] attempts are left, [i] are done; the waits of the run are collected. *)
(* @src include/delivery/telegram/telegram_client.hpp:64-88 TelegramClient::sendMessageWithRetry *)
Fixpoint attempts (n : nat) (i : Z) (lastErr : Error) (s : t) (text : string) (now : Z) (w : W)
    : Result TelegramResponse * list Z * t * W :=
  match n with
  | O => (Err lastErr, [], s <| failed ::= bump |>, w)
  | S n =>
      match sendMessage s text (-1) w with
      | (Ok r, s, w) => (Ok r, [], s <| sent ::= bump |> <| last_sent_ms := now |>, w)
      | (Err e, s, w) =>
          if decide (code e = AuthFailed) then (Err e, [], s <| failed ::= bump |>, w)
          else
            let '(r, waits, s, w) := attempts n (i + 1) e s text now w in
            (r, retry_wait i e :: waits, s, w)
      end
  end.

(* @src include/delivery/telegram/telegram_client.hpp | Result<TelegramResponse> sendMessageWithRetry( *)
Definition sendMessageWithRetry (s : t) (text : string) (maxRetries : nat) (now : Z) (w : W)
    : Result TelegramResponse * list Z * t * W :=
  attempts maxRetries 0 (err NetworkError "no attempt") s text now w.

(* @src include/delivery/telegram/telegram_request.hpp | struct TelegramRequest { *)
Record TelegramRequest := { tq_method : string; tq_chatId : string; tq_text : string; tq_parseMode : string; tq_disableNotification : bool }.

(* @src include/common/constants.hpp:22-22 TELEGRAM_MAX_RETRIES *)
Definition TELEGRAM_MAX_RETRIES : nat := 3.

(* @src include/delivery/telegram/telegram_client.hpp | Result<TelegramResponse> sendRequest( *)
Definition sendRequest (s : t) (treq : TelegramRequest) (now : Z) (w : W) : Result TelegramResponse * list Z * t * W :=
  sendMessageWithRetry s (tq_text treq) TELEGRAM_MAX_RETRIES now w.

(** Remark: the chat of a request, its parse mode and its silence have no effect: two requests with
    the same text are sent alike, to the chat of the client. *)
Theorem request_fields_ignored (s : t) (r1 r2 : TelegramRequest) (now : Z) (w : W) :
  tq_text r1 = tq_text r2 -> sendRequest s r1 now w = sendRequest s r2 now w.
Proof. unfold sendRequest. by intros ->. Qed.
End S.

(** ** A scripted server

    The world counts the requests; the [n]-th one gets [script n]. *)
Section Scripted.
Variable script : nat -> Result HttpResponse.
Definition serve (_ : HttpRequest) (n : nat) : Result HttpResponse * nat := (script n, S n).

(** The answer of one attempt. *)
Definition reply (n : nat) : Result TelegramResponse := result_bind (script n) parseResponse.

Lemma sendMessage_serve s text timeoutMs n :
  creds_valid (creds s) = true ->
  let '(r, s', n') := sendMessage serve s text timeoutMs n in
  r = reply n /\ n' = S n /\ creds s' = creds s.
Proof. intros Hc. unfold sendMessage, serve, reply. rewrite Hc. by destruct (script n). Qed.

(** Remark: a message is sent with at most the allowed number of requests.  It counts as sent
    exactly when one of them was answered with success, and then that was the last request;
    otherwise either every allowed request failed, or the last one was refused for its
    credentials, which is never retried. *)
Theorem telegram_retry_spec (m : nat) : forall (i : Z) (e0 : Error) (s : t) (text : string) (now : Z) (n : nat),
  creds_valid (creds s) = true ->
  let '(r, waits, s', n') := attempts serve m i e0 s text now n in
  (n <= n' <= n + m)%nat /\
  (forall k, (n <= k)%nat -> (S k < n')%nat -> exists e, reply k = Err e /\ code e <> AuthFailed) /\
  match r with
  | Ok resp => (n < n')%nat /\ reply (pred n') = Ok resp /\ length waits = (n' - n - 1)%nat
  | Err e => m = 0%nat \/ ((n < n')%nat /\ reply (pred n') = Err e /\ (n' = (n + m)%nat \/ code e = AuthFailed))
  end.
Proof.
  induction m as [|m IH]; intros i e0 s text now n Hc; cbn [attempts].
  { split_and!; [lia|lia|lia|by left]. }
  pose proof (sendMessage_serve s text (-1) n Hc) as Hs.
  destruct (sendMessage serve s text (-1) n) as [[r s1] n1]. destruct Hs as (-> & -> & Hc1).
  destruct (reply n) as [resp|e] eqn:Er.
  - split_and!; [lia|lia|lia|lia|done|simpl; lia].
  - case_decide as Ha; [split_and!; [lia|lia|lia|]; right; split_and!; [lia|done|by right]|].
    specialize (IH (i + 1) e s1 text now (S n)). rewrite Hc1 in IH. specialize (IH Hc).
    destruct (attempts serve m (i + 1) e s1 text now (S n)) as [[[r waits] s2] n2] eqn:E.
    destruct IH as (Hn & Hmid & Hr). split_and!; [lia|lia| |].
    + intros k Hk Hk2. destruct (decide (k = n)) as [->|]; [by exists e|]. apply Hmid; lia.
    + destruct r as [resp|e'].
      * destruct Hr as (? & ? & ?). split_and!; [lia|done|simpl; lia].
      * right. destruct Hr as [->|(? & ? & Hlast)].
        -- cbn in E. injection E as <- _ _ <-. split_and!; [lia|done|left; lia].
        -- split_and!; [lia|done|]. destruct Hlast; [left; lia|by right].
Qed.
End Scripted.
End TelegramClient.

(** A server that is unavailable once. *)
Definition demo_script (n : nat) : Result TelegramClient.HttpResponse :=
  match n with
  | O => Err (err NetworkError "down")
  | _ => Ok {| TelegramClient.hp_status := 200;
               TelegramClient.hp_body := TelegramClient.key "ok" +:+ ":true," +:+ TelegramClient.key "message_id" +:+ ":17";
               TelegramClient.hp_headers := ∅ |}
  end.

Definition demo_telegram : TelegramClient.t := {|
  TelegramClient.creds := {| TelegramClient.botToken := "t"; TelegramClient.chatId := "c"; TelegramClient.extraChatIds := [] |};
  TelegramClient.sent := 0; TelegramClient.failed := 0; TelegramClient.last_sent_ms := 0 |}.

Lemma telegram_retry_spec_witness :
  let '(r, waits, s', n') := TelegramClient.attempts (TelegramClient.serve demo_script) 3 0
    (err NetworkError "no attempt") demo_telegram "hi" 5 0%nat in
  is_ok r = true /\ n' = 2%nat /\ length waits = (n' - 0 - 1)%nat.
Proof.
  pose proof (TelegramClient.telegram_retry_spec demo_script 3 0 (err NetworkError "no attempt") demo_telegram
    "hi" 5 0%nat eq_refl) as H.
  destruct (TelegramClient.attempts _ _ _ _ _ _ _ _) as [[[r waits] s'] n'] eqn:E. destruct H as (_ & _ & H).
  assert (is_ok r = true /\ n' = 2%nat) as [Hr Hn].
  { vm_compute in E. injection E as <- _ _ <-. split; reflexivity. }
  split; [exact Hr|]. split; [exact Hn|]. destruct r; [exact (proj2 (proj2 H))|discriminate Hr].
Defined.

Lemma request_fields_ignored_witness :
  let q chat silent := {| TelegramClient.tq_method := "sendMessage"; TelegramClient.tq_chatId := chat; TelegramClient.tq_text := "x";
                          TelegramClient.tq_parseMode := "HTML"; TelegramClient.tq_disableNotification := silent |} in
  let s := {| TelegramClient.creds := {| TelegramClient.botToken := "t"; TelegramClient.chatId := "1"; TelegramClient.extraChatIds := [] |};
              TelegramClient.sent := 0; TelegramClient.failed := 0; TelegramClient.last_sent_ms := 0 |} in
  TelegramClient.sendRequest (TelegramClient.serve (fun _ => Err (err NetworkError "down"))) s (q "7" true) 0 0%nat =
  TelegramClient.sendRequest (TelegramClient.serve (fun _ => Err (err NetworkError "down"))) s (q "8" false) 0 0%nat.
Proof. apply TelegramClient.request_fields_ignored. reflexivity. Defined.
