(* ===== verification/Dispatch.v ===== *)
(** Messages and where they go ([include/delivery/telegram/message_format.hpp],
    [telegram_dispatcher.hpp], [http_client.hpp], [delivery/signal_formatter.hpp],
    [delivery/http/curl_http_client.hpp], [feedback/delivery_forensics.hpp]).  libcurl is a
    parameter that performs a prepared transfer. *)
From Stdlib Require Import Ascii.
From S2P Require Import Prelude Float64 Types Text Ipc Signing Telegram.

Open Scope string_scope.
Open Scope list_scope.
Open Scope Z_scope.

(** * Numbers as a stream prints them with [std::fixed] *)

(** The nearest integer to [m * 2^e], ties to even. *)
Definition nearest (m e : Z) : Z :=
  if 0 <=? e then m * 2 ^ e
  else
    let d := 2 ^ (- e) in
    let q := m / d in
    let r := m mod d in
    if (2 * r <? d) || ((2 * r =? d) && Z.even q) then q else q + 1.

(** The last [k] decimal digits of [n]. *)
Fixpoint padded (k : nat) (n : Z) : string :=
  match k with
  | O => ""
  | S k => padded k (n / 10) +:+ to_string (n mod 10)
  end.

Definition print_scaled (k : nat) (n : Z) : string :=
  to_string (n / 10 ^ Z.of_nat k) +:+ (if (k =? 0)%nat then "" else "." +:+ padded k n).

Definition fixed (k : nat) (x : double) : string :=
  let sign (s : bool) := if s then "-" else "" in
  match x with
  | S754_nan => "nan"
  | S754_infinity s => sign s +:+ "inf"
  | S754_zero s => sign s +:+ print_scaled k 0
  | S754_finite s m e => sign s +:+ print_scaled k (nearest (Z.pos m * 10 ^ Z.of_nat k) e)
  end.

Lemma nearest_spec m e : 0 <= m -> e < 0 -> - 2 ^ (- e) <= 2 * (nearest m e * 2 ^ (- e) - m) <= 2 ^ (- e).
Proof.
  intros Hm He. unfold nearest. rewrite (proj2 (Z.leb_gt _ _)) by done.
  pose proof (Z.pow_pos_nonneg 2 (- e) ltac:(lia) ltac:(lia)) as Hd. set (d := 2 ^ (- e)) in *.
  pose proof (Z.div_mod m d ltac:(lia)). pose proof (Z.mod_pos_bound m d Hd).
  destruct (Z.ltb_spec (2 * (m mod d)) d); cbn [orb]; [nia|].
  destruct (Z.eqb_spec (2 * (m mod d)) d); cbn [andb]; [destruct (Z.even _); nia|nia].
Qed.

(** * Texts *)
Module message_format.

(* @src include/delivery/telegram/message_format.hpp | inline std::string fmtMult( *)
Definition fmtMult (m : double) : string := fixed 2 m +:+ "x".
(* @src include/delivery/telegram/message_format.hpp | inline std::string fmtProb( *)
Definition fmtProb (p : double) : string := fixed 1 (fmul p (of_Z 100)) +:+ "%".
(* @src include/delivery/telegram/message_format.hpp | inline std::string fmtConfidence( *)
Definition fmtConfidence (c : double) : string := fixed 2 c.

(* @src include/delivery/telegram/message_format.hpp | struct PredictionForMessage { *)
Record PredictionForMessage := {
  pm_predictionId : string; pm_targetMultiplier : double; pm_probability : double; pm_confidence : double;
  pm_regimeName : string; pm_lastRoundMultiplier : option double; pm_generatedAt : string }.

(* @src include/delivery/telegram/message_format.hpp | struct ValidationForMessage { *)
Record ValidationForMessage := {
  vm_predictionId : string; vm_gameId : string; vm_targetMultiplier : double; vm_actualMultiplier : double;
  vm_probability : double; vm_result : string; vm_resolvedAt : string }.

(* @src include/delivery/telegram/message_format.hpp | inline PredictionForMessage fromPredictionEvent( *)
Definition fromPredictionEvent (e : PredictionEvent) : PredictionForMessage := {|
  pm_predictionId := pe_predictionId e; pm_targetMultiplier := pe_targetMult e; pm_probability := pe_confidence e;
  pm_confidence := pe_confidence e; pm_regimeName := ""; pm_lastRoundMultiplier := None;
  pm_generatedAt := to_string (pe_createdAtMs e) |}.

(* @src include/delivery/telegram/message_format.hpp | inline ValidationForMessage fromOutcome( *)
Definition fromOutcome (o : Outcome) : ValidationForMessage := {|
  vm_predictionId := oc_predictionId o; vm_gameId := oc_roundId o; vm_targetMultiplier := oc_targetMult o;
  vm_actualMultiplier := oc_actualMult o; vm_probability := f0;
  vm_result := match oc_result o with
               | Stale => "STALE" | Void => "VOID"
               | _ => if oc_isWin o then "WIN" else "LOSS"
               end;
  vm_resolvedAt := to_string (oc_resolvedAtMs o) |}.

Definition nl : string := String "010" EmptyString.

(* @src include/delivery/telegram/message_format.hpp | inline std::string formatPredictionMessage(const PredictionForMessage& *)
Definition formatPredictionMessage (p : PredictionForMessage) : string :=
  "🎯 PREDICTION" +:+ nl
  +:+ "Target: " +:+ fmtMult (pm_targetMultiplier p) +:+ nl
  +:+ "Prob: " +:+ fmtProb (pm_probability p) +:+ nl
  +:+ "Confidence: " +:+ fmtConfidence (pm_confidence p) +:+ nl
  +:+ "Regime: " +:+ (if str_empty (pm_regimeName p) then "n/a" else pm_regimeName p)
  +:+ match pm_lastRoundMultiplier p with Some m => nl +:+ "Last: " +:+ fmtMult m | None => "" end.

(* @src include/delivery/telegram/message_format.hpp | inline std::string formatValidationMessage(const ValidationForMessage& *)
Definition formatValidationMessage (v : ValidationForMessage) : string :=
  (if bool_decide (vm_result v = "WIN") then "✅ WIN"
   else if bool_decide (vm_result v = "LOSS") then "❌ LOSS" else vm_result v)
  +:+ " @ " +:+ fmtMult (vm_actualMultiplier v) +:+ nl
  +:+ "Target: " +:+ fmtMult (vm_targetMultiplier v) +:+ nl
  +:+ "Game: " +:+ vm_gameId v.

Example fmtMult_half : fmtMult (flit 5 2) = "2.50x".
Proof. reflexivity. Qed.
Example fmtProb_round : fmtProb (flit 6666 10000) = "66.7%".
Proof. reflexivity. Qed.
End message_format.

Module SignalFormatter.
Import message_format.

(* @src include/delivery/signal_formatter.hpp | static std::string formatTelegram( *)
Definition formatTelegram (s : Signal) : string :=
  (match sg_kind s with
   | SPrediction => "🎯 " | SOutcome => "📊 " | SHeartbeat => "💓 " | SSystemAlert => "⚠️ "
   end) +:+ sg_text s
  +:+ (if str_empty (sg_correlationId s) then "" else nl +:+ "[" +:+ sg_correlationId s +:+ "]").

(* @src include/delivery/signal_formatter.hpp | static std::string formatPlain( *)
Definition formatPlain (s : Signal) : string := sg_text s.
(* @src include/delivery/signal_formatter.hpp | static std::string formatPrediction( *)
Definition formatPrediction (e : PredictionEvent) : string := formatPredictionMessage (fromPredictionEvent e).
(* @src include/delivery/signal_formatter.hpp | static std::string formatOutcome( *)
Definition formatOutcome (o : Outcome) : string := formatValidationMessage (fromOutcome o).
End SignalFormatter.

(** * HTTP clients *)
Module HttpClient.
Import TelegramClient.

(* @src include/delivery/telegram/http_client.hpp | mutable std::mutex mu_; >> last_ms_{0}; | HttpClient *)
Record t := { history : list HttpRequest; requests : Z; failures : Z; fail_next : bool; last_ms : Z }.
#[export] Instance eta_t : Eta t := fun r =>
  {| history := history r; requests := requests r; failures := failures r; fail_next := fail_next r; last_ms := last_ms r |}.

Definition make : t := {| history := []; requests := 0; failures := 0; fail_next := false; last_ms := 0 |}.

(* @src include/delivery/telegram/http_client.hpp | void failNext() *)
Definition failNext (s : t) : t := s <| fail_next := true |>.

(** What both clients do first. *)
(* @src include/delivery/telegram/http_client.hpp:45-54 HttpClient::request *)
Definition record (s : t) (req : HttpRequest) : bool * t :=
  let s := s <| history ::= fun h => push_window 256 h req |> <| requests ::= bump |> in
  if fail_next s then (true, s <| fail_next := false |> <| failures ::= bump |>) else (false, s).

(* @src include/delivery/telegram/http_client.hpp | virtual Result<HttpResponse> request( *)
Definition request (s : t) (req : HttpRequest) (now : Z) : Result HttpResponse * t :=
  let '(fails, s) := record s req in
  if fails then (Err (err NetworkError "injected failure"), s)
  else (Ok {| hp_status := 200;
              hp_body := "{" +:+ quoted "ok" +:+ ":true," +:+ quoted "result" +:+ ":{" +:+ quoted "message_id" +:+ ":1}}";
              hp_headers := ∅ |},
        s <| last_ms := now |>).
End HttpClient.

Module CurlHttpClient.
Import TelegramClient.
#[local] Existing Instance HttpClient.eta_t.

(** The transfer prepared for libcurl. *)
(* @src include/delivery/http/curl_http_client.hpp:77-110 CurlHttpClient::request *)
Record Transfer := {
  cu_url : string; cu_method : string; cu_postfields : option string; cu_headers : list string; cu_timeout_ms : Z;
  cu_connect_timeout_ms : Z; cu_follow : bool; cu_agent : string; cu_keepalive : bool }.

(** What performing it gives: no handle, a failure with its reason, or a status with the body
    and the header lines received. *)
Inductive Answer :=
  | NoHandle
  | Failed (reason : string)
  | Received (status : Z) (body : string) (lines : list string).

(* @src include/delivery/http/curl_http_client.hpp:64-72 CurlHttpClient::request *)
Definition url (req : HttpRequest) : string :=
  let port (default_ : Z) := if hq_port req =? default_ then "" else ":" +:+ to_string (hq_port req) in
  (if hq_tls req then "https://" +:+ hq_host req +:+ port 443 else "http://" +:+ hq_host req +:+ port 80) +:+ hq_path req.

(* @src include/delivery/http/curl_http_client.hpp:88-95 CurlHttpClient::request *)
Definition header_lines (req : HttpRequest) : list string :=
  ((fun kv => kv.1 +:+ ": " +:+ kv.2) <$> hq_headers req)
  ++ (if negb (str_empty (hq_body req)) && negb (bool_decide ("Content-Type" ∈ (hq_headers req).*1))
      then ["Content-Type: application/json"] else []).

(* @src include/delivery/http/curl_http_client.hpp:77-110 CurlHttpClient::request *)
Definition transfer (req : HttpRequest) : Transfer := {|
  cu_url := url req; cu_method := hq_method req;
  cu_postfields :=
    if bool_decide (hq_method req = "POST") then Some (hq_body req)
    else if bool_decide (hq_method req = "GET") || str_empty (hq_body req) then None else Some (hq_body req);
  cu_headers := header_lines req; cu_timeout_ms := hq_timeout_ms req;
  cu_connect_timeout_ms := 5000; cu_follow := true; cu_agent := "CrashCore/1.0"; cu_keepalive := true |}.

Fixpoint skip_blanks (s : string) : string :=
  match s with
  | String c s' => if (bool_decide (c = " "%char) || bool_decide (c = "009"%char)) then skip_blanks s' else s
  | EmptyString => EmptyString
  end.
(** Without the line ends at the end. *)
Fixpoint drop_line_end (s : string) : string :=
  match s with
  | EmptyString => EmptyString
  | String c s' =>
      match drop_line_end s' with
      | EmptyString => if bool_decide (c = "010"%char) || bool_decide (c = "013"%char) then EmptyString else String c EmptyString
      | s'' => String c s''
      end
  end.

(* @src include/delivery/http/curl_http_client.hpp | inline size_t curlHeaderCb( *)
Definition curlHeaderCb (headers : gmap string string) (line : string) : gmap string string :=
  match find ":" line 0 with
  | None => headers
  | Some colon => <[String.substring 0 colon line := drop_line_end (skip_blanks (suffix_from line (S colon)))]> headers
  end.

Section S.
Context {W : Type}.
Variable perform : Transfer -> W -> Answer * W.

(* @src include/delivery/http/curl_http_client.hpp | Result<HttpResponse> request( *)
Definition request (s : HttpClient.t) (req : HttpRequest) (now : Z) (w : W) : Result HttpResponse * HttpClient.t * W :=
  let '(fails, s) := HttpClient.record s req in
  if fails then (Err (err NetworkError "injected failure"), s, w)
  else
    match perform (transfer req) w with
    | (NoHandle, w) => (Err (err NetworkError "curl_easy_init failed"), s <| HttpClient.failures ::= bump |>, w)
    | (Failed reason, w) => (Err (err NetworkError ("curl: " +:+ reason)), s <| HttpClient.failures ::= bump |>, w)
    | (Received status body lines, w) =>
        let resp := {| hp_status := status; hp_body := body; hp_headers := fold_left curlHeaderCb lines (∅ : gmap string string) |} in
        let s := s <| HttpClient.last_ms := now |> in
        (Ok resp, (if http_ok resp then s else s <| HttpClient.failures ::= bump |>), w)
    end.
End S.
End CurlHttpClient.

(** * [TelegramDispatcher] *)
Module TelegramDispatcher.
Import TelegramClient.
#[local] Existing Instance TelegramClient.eta_t.

(* @src include/delivery/telegram/telegram_dispatcher.hpp | struct SendResult { *)
Record SendResult := { sr_ok : bool; sr_status : Z; sr_error : string; sr_chatId : string; sr_durationMs : Z }.

(* @src include/delivery/telegram/telegram_dispatcher.hpp | struct ChatHealth { *)
Record ChatHealth := { ch_chatId : string; success : Z; failure : Z; lastSuccessMs : Z; lastFailureMs : Z; lastError : string }.
#[export] Instance eta_ChatHealth : Eta ChatHealth := fun r =>
  {| ch_chatId := ch_chatId r; success := success r; failure := failure r; lastSuccessMs := lastSuccessMs r;
     lastFailureMs := lastFailureMs r; lastError := lastError r |}.

Definition fresh : ChatHealth :=
  {| ch_chatId := ""; success := 0; failure := 0; lastSuccessMs := 0; lastFailureMs := 0; lastError := "" |}.

(* @src include/delivery/telegram/telegram_dispatcher.hpp | TelegramCredentials creds_; >> health_; | TelegramDispatcher *)
Record t := { dcreds : TelegramCredentials; client : TelegramClient.t; chat_ids : list string; health : gmap string ChatHealth }.
#[export] Instance eta_t : Eta t := fun r =>
  {| dcreds := dcreds r; client := client r; chat_ids := chat_ids r; health := health r |}.

Definition client_of (c : TelegramCredentials) : TelegramClient.t := {| creds := c; sent := 0; failed := 0; last_sent_ms := 0 |}.

(* @src include/delivery/telegram/telegram_dispatcher.hpp | explicit TelegramDispatcher( *)
Definition make (primary : TelegramCredentials) (extra : list string) : t := {|
  dcreds := primary; client := client_of primary;
  chat_ids := (if creds_valid primary then [chatId primary] else []) ++ filter (fun c => str_empty c = false) extra;
  health := ∅ |}.

(* @src include/delivery/telegram/telegram_dispatcher.hpp | bool ready() const *)
Definition ready (s : t) : bool := creds_valid (dcreds s) && negb (bool_decide (chat_ids s = [])).

(* @src include/delivery/telegram/telegram_dispatcher.hpp | void noteSuccess( *)
Definition noteSuccess (s : t) (chat : string) (now : Z) : t :=
  s <| health ::= fun h =>
    <[chat := (default fresh (h !! chat)) <| ch_chatId := chat |> <| success ::= bump |> <| lastSuccessMs := now |>]> h |>.
(* @src include/delivery/telegram/telegram_dispatcher.hpp | void noteFailure( *)
Definition noteFailure (s : t) (chat error : string) (now : Z) : t :=
  s <| health ::= fun h =>
    <[chat := (default fresh (h !! chat)) <| ch_chatId := chat |> <| failure ::= bump |> <| lastFailureMs := now |>
                <| lastError := error |>]> h |>.

Section S.
Context {W : Type}.
Variable http : HttpRequest -> W -> Result HttpResponse * W.

(** [clk] gives the monotonic readings before and after the request and the time of the note. *)
(* @src include/delivery/telegram/telegram_dispatcher.hpp | SendResult sendToChat( *)
Definition sendToChat (s : t) (chat text : string) (timeoutMs : Z) (clk : nat -> Z) (w : W) : SendResult * t * W :=
  let c := {| botToken := botToken (dcreds s); chatId := chat; extraChatIds := extraChatIds (dcreds s) |} in
  let '(r, _, w) := sendMessage http (client_of c) text timeoutMs w in
  let durationMs := Z.quot (elapsedUs (clk 0%nat) (clk 1%nat)) 1000 in
  match r with
  | Ok _ => ({| sr_ok := true; sr_status := 200; sr_error := ""; sr_chatId := chat; sr_durationMs := durationMs |},
             noteSuccess s chat (clk 2%nat), w)
  | Err e => ({| sr_ok := false;
                 sr_status := if decide (code e = RateLimited) then 429 else if decide (code e = AuthFailed) then 401 else 0;
                 sr_error := message e; sr_chatId := chat; sr_durationMs := durationMs |},
              noteFailure s chat (message e) (clk 2%nat), w)
  end.

Fixpoint send_all (ids : list string) (s : t) (text : string) (clk : nat -> Z) (w : W) : list SendResult * t * W :=
  match ids with
  | [] => ([], s, w)
  | id :: ids =>
      let '(r, s, w) := sendToChat s id text 2000 clk w in
      let '(rs, s, w) := send_all ids s text (fun i => clk (3 + i)%nat) w in (r :: rs, s, w)
  end.

(* @src include/delivery/telegram/telegram_dispatcher.hpp | std::vector<SendResult> broadcast( *)
Definition broadcast (s : t) (text : string) (clk : nat -> Z) (w : W) : list SendResult * t * W :=
  send_all (chat_ids s) s text clk w.

(* @src include/delivery/telegram/telegram_dispatcher.hpp | bool broadcastOk( *)
Definition broadcastOk (s : t) (text : string) (clk : nat -> Z) (w : W) : bool * t * W :=
  let '(rs, s, w) := broadcast s text clk w in (existsb sr_ok rs, s, w).
End S.

(* @src include/delivery/telegram/telegram_dispatcher.hpp | std::vector<ChatHealth> chatHealth() *)
Definition chatHealth (s : t) : list ChatHealth := (map_to_list (health s)).*2.

(** ** A server that keeps the requests

    The [n]-th request is answered by [script n]. *)
Section Scripted.
Variable script : nat -> Result HttpResponse.

Definition serve_log (req : HttpRequest) (w : list HttpRequest) : Result HttpResponse * list HttpRequest :=
  (script (length w), w ++ [req]).

Definition creds_for (s : t) (chat : string) : TelegramCredentials :=
  {| botToken := botToken (dcreds s); chatId := chat; extraChatIds := extraChatIds (dcreds s) |}.

(** How often the results say that [chat] was reached, or not. *)
Definition tally (ok : bool) (chat : string) (rs : list SendResult) : Z :=
  Z.of_nat (length (filter (fun r => sr_ok r = ok /\ sr_chatId r = chat) rs)).

Definition health_of (s : t) (chat : string) : ChatHealth := default fresh (health s !! chat).

Lemma u64_bump_add x n : u64 (bump x + n) = u64 (x + (1 + n)).
Proof. unfold bump, u64, wrapu. by rewrite Zplus_mod_idemp_l, Z.add_assoc. Qed.

Lemma tally_cons ok chat r rs :
  tally ok chat (r :: rs) = (if decide (sr_ok r = ok /\ sr_chatId r = chat) then 1 else 0) + tally ok chat rs.
Proof. unfold tally. rewrite filter_cons. destruct (decide _); cbn [length]; lia. Qed.

(** One send: one request, and one note on the chat. *)
Lemma sendToChat_spec s chat text clk w :
  botToken (dcreds s) <> "" -> chat <> "" ->
  let '(r, s', w') := sendToChat serve_log s chat text 2000 clk w in
  w' = w ++ [request_for (creds_for s chat) text 2000] /\
  sr_chatId r = chat /\ sr_ok r = is_ok (result_bind (script (length w)) parseResponse) /\ dcreds s' = dcreds s /\
  (forall c, c <> chat -> health s' !! c = health s !! c) /\
  success (health_of s' chat) = (if sr_ok r then bump else fun n => n) (success (health_of s chat)) /\
  failure (health_of s' chat) = (if sr_ok r then fun n => n else bump) (failure (health_of s chat)).
Proof.
  intros Ht Hc. unfold sendToChat, sendMessage. cbn [creds client_of].
  assert (creds_valid (creds_for s chat) = true) as Hv.
  { unfold creds_valid. cbn. rewrite (proj2 (str_empty_false _) Ht), (proj2 (str_empty_false _) Hc). done. }
  change ({| botToken := _; chatId := chat; extraChatIds := _ |}) with (creds_for s chat). rewrite Hv. cbn [negb serve_log].
  destruct (script (length w)) as [resp|e]; [destruct (parseResponse resp) as [tr|e] eqn:Ep|]; cbn [result_bind is_ok];
    rewrite ?Ep; cbn; unfold health_of; cbn; rewrite ?lookup_insert_eq; cbn; split_and!; try done;
    intros c Hne; by rewrite lookup_insert_ne.
Qed.

Lemma send_all_spec ids : forall s text clk w,
  botToken (dcreds s) <> "" -> Forall (fun c => c <> "") ids ->
  let '(rs, s', w') := send_all serve_log ids s text clk w in
  w' = w ++ ((fun c => request_for (creds_for s c) text 2000) <$> ids) /\
  sr_chatId <$> rs = ids /\
  (forall i r, rs !! i = Some r -> sr_ok r = is_ok (result_bind (script (length w + i)) parseResponse)) /\
  (forall c, c ∉ ids -> health s' !! c = health s !! c) /\
  (forall c, u64 (success (health_of s' c)) = u64 (success (health_of s c) + tally true c rs) /\
             u64 (failure (health_of s' c)) = u64 (failure (health_of s c) + tally false c rs)).
Proof.
  induction ids as [|id ids IH]; intros s text clk w Ht Hids; cbn [send_all].
  { split_and!; [by rewrite app_nil_r|done|done|done|]. intros c. unfold tally. cbn. by rewrite !Z.add_0_r. }
  apply list.Forall_cons in Hids as [Hid Hids]. pose proof (sendToChat_spec s id text clk w Ht Hid) as H1.
  destruct (sendToChat serve_log s id text 2000 clk w) as [[r s1] w1]. destruct H1 as (-> & Hr & Hok & Hd & Hoth & Hsu & Hfa).
  specialize (IH s1 text (fun i => clk (3 + i)%nat) (w ++ [request_for (creds_for s id) text 2000])).
  rewrite Hd in IH. specialize (IH Ht Hids).
  destruct (send_all serve_log ids s1 text _ _) as [[rs s2] w2]. destruct IH as (-> & Hrs & Hoks & Hout & Hcnt).
  split_and!.
  - rewrite <-app_assoc. cbn. unfold creds_for. by rewrite Hd.
  - cbn. by rewrite Hr, Hrs.
  - intros [|i] r' Hi; cbn in Hi; [injection Hi as <-; by rewrite Nat.add_0_r|].
    rewrite (Hoks i r' Hi), length_app. cbn. by rewrite <-Nat.add_assoc.
  - intros c [Hne Hni]%not_elem_of_cons. rewrite Hout, Hoth by done. done.
  - intros c. destruct (Hcnt c) as [Hs Hf]. rewrite Hs, Hf, !tally_cons, Hr. clear Hcnt Hs Hf.
    destruct (decide (c = id)) as [->|Hne].
    + rewrite Hsu, Hfa. destruct (sr_ok r); split;
        first [rewrite decide_True by done|rewrite decide_False by (by intros [? _])]; by rewrite ?u64_bump_add, ?Z.add_0_l.
    + unfold health_of. rewrite Hoth by done. by rewrite !decide_False by (by intros [_ ->]).
Qed.

(** Remark: A broadcast sends every configured chat its own request, in order and exactly one each,
    and gives one result per chat in that order, successful exactly when the chat's own answer
    was: a failure at one chat never keeps the text from the next.  The health of every chat
    counts exactly its own successes and failures, other chats' health is untouched, and the
    broadcast counts as delivered exactly when some chat was reached. *)
Theorem broadcast_reaches_every_chat s text clk w :
  botToken (dcreds s) <> "" -> Forall (fun c => c <> "") (chat_ids s) ->
  let '(rs, s', w') := broadcast serve_log s text clk w in
  w' = w ++ ((fun c => request_for (creds_for s c) text 2000) <$> chat_ids s) /\
  sr_chatId <$> rs = chat_ids s /\
  (forall i r, rs !! i = Some r -> sr_ok r = is_ok (result_bind (script (length w + i)) parseResponse)) /\
  (forall c, c ∉ chat_ids s -> health s' !! c = health s !! c) /\
  (forall c, u64 (success (health_of s' c)) = u64 (success (health_of s c) + tally true c rs) /\
             u64 (failure (health_of s' c)) = u64 (failure (health_of s c) + tally false c rs)) /\
  ((broadcastOk serve_log s text clk w).1.1 = true <->
   exists i, (i < length (chat_ids s))%nat /\ is_ok (result_bind (script (length w + i)) parseResponse) = true).
Proof.
  intros Ht Hids. pose proof (send_all_spec (chat_ids s) s text clk w Ht Hids) as H. unfold broadcastOk, broadcast.
  destruct (send_all serve_log (chat_ids s) s text clk w) as [[rs s'] w']. destruct H as (H1 & H2 & H3 & H4 & H5).
  split_and!; try done. cbn [fst]. rewrite existsb_exists, <-H2, length_fmap. split.
  - intros (r & Hin & Hr). apply list_elem_of_In, list_elem_of_lookup in Hin as [i Hi]. exists i.
    split; [by eapply lookup_lt_Some|]. by rewrite <-(H3 i r Hi).
  - intros (i & Hi & Hr). destruct (lookup_lt_is_Some_2 rs i Hi) as [r Hri]. exists r. rewrite (H3 i r Hri).
    split; [|done]. apply list_elem_of_In. by eapply list_elem_of_lookup_2.
Qed.
End Scripted.
End TelegramDispatcher.

(** Two chats; the first request meets a server that is down. *)
Definition demo_dispatcher : TelegramDispatcher.t :=
  TelegramDispatcher.make {| TelegramClient.botToken := "t"; TelegramClient.chatId := "a"; TelegramClient.extraChatIds := [] |} ["b"; ""].

Lemma broadcast_reaches_every_chat_witness :
  let '(rs, s', w') := TelegramDispatcher.broadcast (TelegramDispatcher.serve_log demo_script) demo_dispatcher "hi" (fun _ => 0) [] in
  TelegramDispatcher.sr_chatId <$> rs = ["a"; "b"] /\ TelegramDispatcher.sr_ok <$> rs = [false; true] /\ length w' = 2%nat.
Proof.
  pose proof (TelegramDispatcher.broadcast_reaches_every_chat demo_script demo_dispatcher "hi" (fun _ => 0) []
    ltac:(discriminate) ltac:(repeat constructor; discriminate)) as H.
  destruct (TelegramDispatcher.broadcast _ _ _ _ _) as [[rs s'] w'] eqn:E. destruct H as (Hw & Hr & _).
  assert (TelegramDispatcher.sr_ok <$> rs = [false; true]) as Hok by (vm_compute in E; injection E as <- _ _; reflexivity).
  split; [exact Hr|]. split; [exact Hok|]. rewrite Hw. reflexivity.
Defined.

(** Remark: credentials with extra chats but no primary one are valid, so the constructor puts
    the empty chat id in front of the list: every broadcast sends one request to no chat. *)
Example empty_primary_chat :
  TelegramDispatcher.chat_ids (TelegramDispatcher.make
    {| TelegramClient.botToken := "t"; TelegramClient.chatId := ""; TelegramClient.extraChatIds := ["b"] |} ["b"]) = [""; "b"].
Proof. reflexivity. Qed.

(** * [DeliveryForensics] *)
Module DeliveryForensics.

(* @src include/feedback/delivery_forensics.hpp | enum class DeliveryStage *)
Inductive DeliveryStage := Published | Claimed | Attempted | Delivered | SFailed | DeadLettered.
#[export] Instance DeliveryStage_eq_dec : EqDecision DeliveryStage.
Proof. solve_decision. Defined.

(* @src include/feedback/delivery_forensics.hpp | inline const char* toString(DeliveryStage *)
Definition stage_name (s : DeliveryStage) : string :=
  match s with
  | Published => "published" | Claimed => "claimed" | Attempted => "attempted" | Delivered => "delivered"
  | SFailed => "failed" | DeadLettered => "dead_lettered"
  end.

(* @src include/feedback/delivery_forensics.hpp | struct DeliveryTrace { *)
Record DeliveryTrace := { dt_correlationId : string; dt_outboxId : string; dt_lastError : string; stages : list (DeliveryStage * Z) }.
#[export] Instance eta_DeliveryTrace : Eta DeliveryTrace := fun r =>
  {| dt_correlationId := dt_correlationId r; dt_outboxId := dt_outboxId r; dt_lastError := dt_lastError r; stages := stages r |}.

(* @src include/feedback/delivery_forensics.hpp | std::unordered_map<std::string, DeliveryTrace> traces_; >> events_{0}; | DeliveryForensics *)
Record t := { traces : gmap string DeliveryTrace; events : Z }.
#[export] Instance eta_t : Eta t := fun r => {| traces := traces r; events := events r |}.

Definition make : t := {| traces := ∅; events := 0 |}.

Section S.
(** The key [begin()] points at: any of the map's. *)
Variable begin_ : gmap string DeliveryTrace -> string.

Definition evict (m : gmap string DeliveryTrace) : gmap string DeliveryTrace :=
  if (Z.to_nat 5000 <? size m)%nat then delete (begin_ m) m else m.

(* @src include/feedback/delivery_forensics.hpp | void note( *)
Definition note (s : t) (correlationId : string) (stage : DeliveryStage) (outboxId error : string) (now : Z) : t :=
  let tr := default {| dt_correlationId := ""; dt_outboxId := ""; dt_lastError := ""; stages := [] |} (traces s !! correlationId) in
  let tr := tr <| dt_correlationId := correlationId |> in
  let tr := if str_empty outboxId then tr else tr <| dt_outboxId := outboxId |> in
  let tr := tr <| stages ::= fun l => l ++ [(stage, now)] |> in
  let tr := if str_empty error then tr else tr <| dt_lastError := error |> in
  s <| traces ::= fun m => evict (<[correlationId := tr]> m) |> <| events ::= bump |>.
End S.

(* @src include/feedback/delivery_forensics.hpp | std::optional<DeliveryTrace> get( *)
Definition get (s : t) (correlationId : string) : option DeliveryTrace := traces s !! correlationId.

(** What the loop over the stages finds: published, delivered, and when published. *)
(* @src include/feedback/delivery_forensics.hpp:54-58 DeliveryForensics::findLost *)
Definition scan_stage (acc : bool * bool * Z) (st : DeliveryStage * Z) : bool * bool * Z :=
  let '(published, delivered, pubAt) := acc in
  match st.1 with
  | Published => (true, delivered, st.2)
  | Delivered => (published, true, pubAt)
  | _ => acc
  end.

(* @src include/feedback/delivery_forensics.hpp:54-59 DeliveryForensics::findLost *)
Definition lost (cutoff : Z) (tr : DeliveryTrace) : bool :=
  let '(published, delivered, pubAt) := fold_left scan_stage (stages tr) (false, false, 0) in
  published && negb delivered && (0 <? pubAt) && (pubAt <? cutoff).

(* @src include/feedback/delivery_forensics.hpp | std::vector<DeliveryTrace> findLost( *)
Definition findLost (s : t) (olderThanMs now : Z) : list DeliveryTrace :=
  List.filter (lost (i64 (now - olderThanMs))) (map_to_list (traces s)).*2.

(** The last time a stage was noted. *)
Definition last_at (stage : DeliveryStage) (l : list (DeliveryStage * Z)) : option Z :=
  last (snd <$> filter (fun st => st.1 = stage) l).

Lemma last_at_snoc stage l st :
  last_at stage (l ++ [st]) = if decide (st.1 = stage) then Some st.2 else last_at stage l.
Proof.
  unfold last_at. rewrite filter_app, fmap_app, filter_cons. destruct (decide (st.1 = stage)) as [E|E].
  - cbn. by rewrite last_snoc.
  - cbn. by rewrite app_nil_r.
Qed.

Lemma scan_stages l :
  fold_left scan_stage l (false, false, 0) =
  (bool_decide (is_Some (last_at Published l)), bool_decide (is_Some (last_at Delivered l)), default 0 (last_at Published l)).
Proof.
  induction l as [|st l IH] using rev_ind; [done|]. rewrite fold_left_app, IH, !last_at_snoc. cbn [fold_left]. unfold scan_stage.
  destruct (st.1); repeat (rewrite decide_True by done || rewrite decide_False by done); done.
Qed.

(** Remark: The search for lost deliveries reports exactly the traces whose latest publication is
    older than the limit and that were never delivered, whatever other stages they went
    through and in whatever order the notes came. *)
Theorem findLost_spec s olderThanMs now tr :
  tr ∈ findLost s olderThanMs now <->
  (exists k, traces s !! k = Some tr) /\
  (exists at_, last_at Published (stages tr) = Some at_ /\ 0 < at_ < i64 (now - olderThanMs)) /\
  last_at Delivered (stages tr) = None.
Proof.
  unfold findLost. rewrite list_elem_of_In, filter_In, <-list_elem_of_In.
  assert (tr ∈ (map_to_list (traces s)).*2 <-> exists k, traces s !! k = Some tr) as ->.
  { rewrite list_elem_of_fmap. split.
    - intros ([k tr'] & -> & Hin). exists k. by apply elem_of_map_to_list in Hin.
    - intros [k Hk]. exists (k, tr). split; [done|]. by apply elem_of_map_to_list. }
  apply and_iff_compat_l. unfold lost. rewrite scan_stages.
  destruct (last_at Published (stages tr)) as [p|]; cbn; [|naive_solver].
  destruct (last_at Delivered (stages tr)) as [d|]; cbn; [naive_solver|].
  rewrite !andb_true_iff, Z.ltb_lt, Z.ltb_lt. naive_solver lia.
Qed.

(** However the deletions fall, at most 5000 traces are kept. *)
Lemma note_bounded begin_ s c st o e now :
  (forall m, m <> ∅ -> is_Some (m !! begin_ m)) -> (size (traces s) <= Z.to_nat 5000)%nat ->
  (size (traces (note begin_ s c st o e now)) <= Z.to_nat 5000)%nat.
Proof.
  intros Hb Hs.
  assert (forall m, size m <= S (Z.to_nat 5000) -> size (evict begin_ m) <= Z.to_nat 5000)%nat as He.
  { intros m Hm. unfold evict. destruct (Nat.ltb_spec (Z.to_nat 5000) (size m)) as [Hlt|]; [|done].
    assert (m <> ∅) as Hne by (intros E; rewrite E, map_size_empty in Hlt; lia).
    rewrite map_size_delete. destruct (Hb m Hne) as [x ->]. lia. }
  apply He. cbn -[size]. rewrite map_size_insert. destruct (traces s !! c); unfold id; lia.
Qed.
End DeliveryForensics.

(** * [ExternalSigner] (the one over HTTP; [Signing] has the one over a Unix socket) *)
Module ExternalSigner.
Import TelegramClient.
Section S.
Variable secret : string -> option string.
Variable hmac_raw : string -> string -> list Z.
Context {W : Type}.
Variable http : HttpRequest -> W -> Result HttpResponse * W.

(* @src include/ingestion/signing/external_signer.hpp:21-24 ExternalSigner::sign *)
Definition remote_request (endpoint : string) : HttpRequest := {|
  hq_method := "POST"; hq_host := ""; hq_path := endpoint; hq_port := 443; hq_tls := true;
  hq_headers := []; hq_body := "{}"; hq_timeout_ms := 10000 |}.

(** The positions that the code looks for in the response have no use, so the response only
    changes the world. *)
(* @src include/ingestion/signing/external_signer.hpp | Result<SocketSignature> sign( *)
Definition sign (fallback : NativeSign.t) (endpoint : string) (now : Z) (e : NativeSign.env) (w : W)
    : Result SocketSignature * NativeSign.t * W :=
  let w := if str_empty endpoint then w else snd (http (remote_request endpoint) w) in
  let '(local, fallback) := NativeSign.signSocketQuery secret hmac_raw fallback now e in
  (if sg_valid local then Ok local else Err (err AuthFailed "sign failed"), fallback, w).
End S.

(** Remark: whatever a remote signer answers, the signature is the one of the local signer. *)
Theorem remote_answer_is_discarded (secret : string -> option string) hmac_raw {W} (http http' : HttpRequest -> W -> Result HttpResponse * W)
    fallback endpoint now e w :
  fst (sign secret hmac_raw http fallback endpoint now e w) = fst (sign secret hmac_raw http' fallback "" now e w).
Proof. unfold sign. by destruct (NativeSign.signSocketQuery secret hmac_raw fallback now e). Qed.
End ExternalSigner.
