(* ===== verification/Config.v ===== *)
(** Configuration ([include/config/toml_config.hpp], [application/application_config.hpp],
    [security/credentials.hpp], [security/secure_config.hpp]) and the command line
    ([src/main.cpp]).  Reading a file is a function from paths to their text. *)
From Stdlib Require Import Ascii.
From S2P Require Import Prelude Float64 Types Text Predict Signing Telegram.

Open Scope string_scope.
Open Scope list_scope.
Open Scope Z_scope.

(** * Lines and words *)

(** The answers of [std::getline] with a delimiter until it fails. *)
Fixpoint getlines (d : ascii) (s : string) : list string :=
  match s with
  | EmptyString => []
  | String c s =>
      if decide (c = d) then EmptyString :: getlines d s
      else match getlines d s with
           | [] => [String c EmptyString]
           | l :: ls => String c l :: ls
           end
  end.

(** The text before the first [c], and the text after it when there is one. *)
Fixpoint cut (c : ascii) (s : string) : string * option string :=
  match s with
  | EmptyString => (EmptyString, None)
  | String x s => if decide (x = c) then (EmptyString, Some s) else let '(a, b) := cut c s in (String x a, b)
  end.

Fixpoint drop_last_while (p : ascii -> bool) (s : string) : string :=
  match s with
  | EmptyString => EmptyString
  | String c s =>
      match drop_last_while p s with
      | EmptyString => if p c then EmptyString else String c EmptyString
      | s' => String c s'
      end
  end.

Fixpoint last_char (s : string) : option ascii :=
  match s with
  | EmptyString => None
  | String c EmptyString => Some c
  | String _ s => last_char s
  end.
Definition first_char (s : string) : option ascii := match s with EmptyString => None | String c _ => Some c end.

(** [s] without its first and last character, of which it has two. *)
Definition inner (s : string) : string := String.substring 1 (String.length s - 2) s.

Definition lacks (c : ascii) (s : string) : Prop := ~ (c ∈ String.list_ascii_of_string s).

#[local] Hint Rewrite app_cons_str app_empty_str app_assoc_str : str_app.

Lemma lacks_cons c x s : lacks c (String x s) <-> x <> c /\ lacks c s.
Proof. unfold lacks. cbn. rewrite not_elem_of_cons. naive_solver. Qed.

Lemma getlines_line d l rest : lacks d l -> getlines d (l +:+ String d rest) = l :: getlines d rest.
Proof.
  induction l as [|c l IH]; intros H; autorewrite with str_app; cbn [getlines]; [by rewrite decide_True|].
  apply lacks_cons in H as [Hc H]. by rewrite decide_False, IH.
Qed.

Lemma cut_found c s rest : lacks c s -> cut c (s +:+ String c rest) = (s, Some rest).
Proof.
  induction s as [|x s IH]; intros H; autorewrite with str_app; cbn [cut]; [by rewrite decide_True|].
  apply lacks_cons in H as [Hc H]. by rewrite decide_False, IH.
Qed.

Lemma cut_absent c s : lacks c s -> cut c s = (s, None).
Proof.
  induction s as [|x s IH]; intros H; cbn [cut]; [done|]. apply lacks_cons in H as [Hc H]. by rewrite decide_False, IH.
Qed.

Lemma lacks_app c s1 s2 : lacks c (s1 +:+ s2) <-> lacks c s1 /\ lacks c s2.
Proof.
  induction s1 as [|x s1 IH]; autorewrite with str_app; [unfold lacks; set_solver|]. rewrite !lacks_cons, IH. naive_solver.
Qed.

Ltac solve_lacks :=
  repeat match goal with
  | |- lacks _ (_ +:+ _) => apply lacks_app; split
  | |- lacks _ (String _ _) => apply lacks_cons; split
  | |- lacks _ EmptyString => apply not_elem_of_nil
  | |- _ => first [assumption | discriminate]
  end.

Lemma drop_last_snoc p s c : drop_last_while p (s +:+ String c "") = if p c then drop_last_while p s else s +:+ String c "".
Proof.
  induction s as [|x s IH]; autorewrite with str_app; cbn [drop_last_while]; [by destruct (p c)|].
  rewrite IH. destruct (p c); [done|]. by destruct s.
Qed.

Lemma drop_last_app_cons p a c s : p c = false -> drop_last_while p (a +:+ String c s) = a +:+ String c (drop_last_while p s).
Proof.
  intros Hc. induction a as [|x a IH]; autorewrite with str_app; cbn [drop_last_while].
  - rewrite Hc. by destruct (drop_last_while p s).
  - rewrite IH. by destruct a.
Qed.

Lemma drop_last_idem p s : drop_last_while p (drop_last_while p s) = drop_last_while p s.
Proof.
  induction s as [|c s IH]; [done|]. cbn [drop_last_while]. destruct (drop_last_while p s) as [|x s'] eqn:E.
  - destruct (p c) eqn:Hc; [done|]. cbn. by rewrite Hc.
  - cbn [drop_last_while] in *. by rewrite IH.
Qed.

Lemma drop_last_keep p s : Forall (fun c => p c = false) (String.list_ascii_of_string s) -> drop_last_while p s = s.
Proof.
  induction s as [|c s IH]; intros H; [done|]. apply list.Forall_cons in H as [Hc H]. cbn [drop_last_while].
  rewrite IH by done. destruct s; [by rewrite Hc|done].
Qed.

Lemma cut_after c s rest : lacks c s -> (cut c (s +:+ rest)).1 = s +:+ (cut c rest).1.
Proof.
  induction s as [|x s IH]; intros H; autorewrite with str_app; [done|]. cbn [cut]. apply lacks_cons in H as [Hc H].
  rewrite decide_False by done. specialize (IH H). destruct (cut c (s +:+ rest)). cbn in *. by rewrite IH.
Qed.

Lemma last_char_snoc s c : last_char (s +:+ String c "") = Some c.
Proof.
  induction s as [|x s IH]; [done|]. autorewrite with str_app. cbn [last_char]. rewrite IH. by destruct s.
Qed.

Lemma last_char_wrap a b s : last_char (String a (s +:+ String b "")) = Some b.
Proof. rewrite <-app_cons_str. apply last_char_snoc. Qed.

Lemma length_snoc s c : String.length (s +:+ String c "") = S (String.length s).
Proof. induction s as [|x s IH]; [done|]. autorewrite with str_app. cbn [String.length]. by rewrite IH. Qed.

Lemma inner_wrap a b s : inner (String a (s +:+ String b "")) = s.
Proof.
  unfold inner. cbn [String.length String.substring]. rewrite length_snoc.
  replace (S (S (String.length s)) - 2)%nat with (String.length s) by lia.
  induction s as [|x s IH]; [done|]. autorewrite with str_app. cbn [String.length String.substring]. by rewrite IH.
Qed.

(** * [TomlConfig] *)
Module TomlConfig.

(* @src include/config/toml_config.hpp | std::unordered_map<std::string, Section> sections_; >> std::unordered_map<std::string, Section> sections_; | TomlConfig *)
Definition t : Type := gmap string (gmap string string).

(* @src include/config/toml_config.hpp | static std::string trim( *)
Definition trim (s : string) : string := drop_last_while is_space (skip_spaces s).

Definition dquote : ascii := "034".
Definition squote : ascii := "'".

(** A value without its quotes. *)
(* @src include/config/toml_config.hpp:48-51 TomlConfig::loadString *)
Definition unquote (val : string) : string :=
  if (2 <=? String.length val)%nat
     && ((bool_decide (first_char val = Some dquote) && bool_decide (last_char val = Some dquote))
         || (bool_decide (first_char val = Some squote) && bool_decide (last_char val = Some squote)))
  then inner val else val.

(** One line of the file, in the section it stands in. *)
(* @src include/config/toml_config.hpp:35-53 TomlConfig::loadString *)
Definition parse_line (acc : string * t) (line : string) : string * t :=
  let '(current, sections) := acc in
  let l := trim (cut "#" line).1 in
  if str_empty l then acc
  else if bool_decide (first_char l = Some "["%char) && bool_decide (last_char l = Some "]"%char) then (inner l, sections)
  else
    match cut "=" l with
    | (_, None) => acc
    | (k, Some v) =>
        (current, <[current := <[trim k := unquote (trim v)]> (default ∅ (sections !! current))]> sections)
    end.

(* @src include/config/toml_config.hpp | Result<void> loadString( *)
Definition loadString (text : string) : t := (fold_left parse_line (getlines "010" text) ("global", ∅)).2.

(* @src include/config/toml_config.hpp | Result<void> loadFile( *)
Definition loadFile (read : string -> option string) (path : string) : Result t :=
  match read path with
  | None => Err (err ConfigError ("cannot open " +:+ path))
  | Some text => Ok (loadString text)
  end.

(* @src include/config/toml_config.hpp | std::string get( *)
Definition get (s : t) (section key fallback : string) : string :=
  match s !! section with
  | None => fallback
  | Some kv => default fallback (kv !! key)
  end.

(** [std::stoll]; [None] when it throws. *)
Definition stoll (s : string) : option Z :=
  let s := skip_spaces s in
  let '(neg, s) := match s with
                   | String c s' => if Ascii.eqb c "-" then (true, s')
                                    else if Ascii.eqb c "+" then (false, s') else (false, s)
                   | EmptyString => (false, s)
                   end in
  match s with
  | String c _ =>
      if decide (is_Some (digit c)) then
        let v := if neg : bool then - (digits 0 s).1 else (digits 0 s).1 in
        if (- 2 ^ 63 <=? v) && (v <? 2 ^ 63) then Some v else None
      else None
  | EmptyString => None
  end.

(* @src include/config/toml_config.hpp | std::int64_t getInt( *)
Definition getInt (s : t) (section key : string) (fallback : Z) : Z :=
  let v := get s section key "" in if str_empty v then fallback else default fallback (stoll v).

(* @src include/config/toml_config.hpp | bool getBool( *)
Definition getBool (s : t) (section key : string) (fallback : bool) : bool :=
  let v := get s section key "" in
  if str_empty v then fallback
  else if bool_decide (v ∈ ["true"; "1"; "yes"]) then true
  else if bool_decide (v ∈ ["false"; "0"; "no"]) then false else fallback.

(** ** Reading back a written configuration *)

(** The documented values: a text in quotes, a number or [true]/[false]; and any other word. *)
Inductive value := Quoted (single : bool) (s : string) | Number (z : Z) | Flag (b : bool) | Bare (w : string).

Definition print_value (v : value) : string :=
  match v with
  | Quoted single s => let q := if single then squote else dquote in String q (s +:+ String q "")
  | Number z => to_string z
  | Flag b => if b then "true" else "false"
  | Bare w => w
  end.

(** A section with its entries, as they are written. *)
Definition print_entry (kv : string * value) : string := kv.1 +:+ " = " +:+ print_value kv.2 +:+ String "010" "".
Definition print_section (sec : string * list (string * value)) : string :=
  String "[" (sec.1 +:+ String "]" (String "010" (foldr (fun kv s => print_entry kv +:+ s) "" sec.2))).
Definition print (cfg : list (string * list (string * value))) : string :=
  foldr (fun sec s => print_section sec +:+ s) "" cfg.

(** Texts that fit on a line before a comment. *)
Definition plain (s : string) : Prop := lacks "010" s /\ lacks "#" s.
(** Words that trimming keeps. *)
Definition clean (k : string) : Prop :=
  match k with EmptyString => False | String c _ => is_space c = false end /\ drop_last_while is_space k = k.
(** A key does not look like the beginning of a section header; a value stays on its line. *)
Definition good_key (k : string) : Prop := plain k /\ clean k /\ lacks "=" k /\ first_char k <> Some "["%char.
Definition one_line (v : value) : Prop := match v with Quoted _ s | Bare s => lacks "010" s | _ => True end.
Definition printable (cfg : list (string * list (string * value))) : Prop :=
  Forall (fun sec => plain sec.1 /\ Forall (fun kv => good_key kv.1 /\ one_line kv.2) sec.2) cfg.

(** What a written value is read back as; a number sign cuts it, even inside the quotes. *)
Definition read_back (v : value) : string := unquote (trim (cut "#" (print_value v)).1).

(** All settings, in the order they are written, and the last one of a key. *)
Definition settings (cfg : list (string * list (string * value))) : list (string * string * value) :=
  cfg ≫= fun sec => (fun kv => (sec.1, kv.1, kv.2)) <$> sec.2.
Definition last_setting (cfg : list (string * list (string * value))) (section key : string) : option value :=
  fold_left (fun f e => <[(e.1.1, e.1.2) := e.2]> f) (settings cfg) (∅ : gmap (string * string) value) !! (section, key).

Definition insert_setting (m : t) (e : string * string * value) : t :=
  <[e.1.1 := <[e.1.2 := read_back e.2]> (default ∅ (m !! e.1.1))]> m.

Lemma trim_wrapped a b s : is_space a = false -> is_space b = false ->
  trim (String a (s +:+ String b "")) = String a (s +:+ String b "").
Proof.
  intros Ha Hb. unfold trim. cbn [skip_spaces]. rewrite Ha, <-app_cons_str, drop_last_snoc, Hb. done.
Qed.

Lemma parse_section_line cur m n : plain n -> parse_line (cur, m) (String "[" (n +:+ "]")) = (n, m).
Proof.
  intros [_ Hh]. unfold parse_line. rewrite cut_absent.
  - cbn [fst]. rewrite trim_wrapped by done. rewrite last_char_wrap, inner_wrap. done.
  - solve_lacks.
Qed.

Lemma clean_trim k : clean k -> trim (k +:+ " ") = k.
Proof.
  intros [Hc Hd]. destruct k as [|x k]; [done|]. unfold trim. rewrite app_cons_str. cbn [skip_spaces]. rewrite Hc.
  by rewrite <-app_cons_str, drop_last_snoc.
Qed.

Lemma clean_trim_self k : clean k -> trim k = k.
Proof. intros [Hc Hd]. destruct k as [|x k]; [done|]. unfold trim. cbn [skip_spaces]. by rewrite Hc. Qed.

(** The text from an equals sign on survives the trimming of the line. *)
Lemma clean_trim_line k w : clean k -> trim (k +:+ " = " +:+ w) = k +:+ " =" +:+ drop_last_while is_space (" " +:+ w).
Proof.
  intros [Hc _]. destruct k as [|x k]; [done|]. unfold trim. rewrite app_cons_str. cbn [skip_spaces]. rewrite Hc.
  rewrite <-app_cons_str. change (" = " +:+ w) with (String " " (String "=" (" " +:+ w))).
  replace (String x k +:+ String " " (String "=" (" " +:+ w))) with ((String x k +:+ " ") +:+ String "=" (" " +:+ w))
    by (by autorewrite with str_app).
  rewrite drop_last_app_cons by done. by autorewrite with str_app.
Qed.

Lemma trim_drop_last s : trim (drop_last_while is_space s) = trim s.
Proof.
  induction s as [|c s IH]; [done|]. unfold trim in *. cbn [drop_last_while skip_spaces].
  pose proof (drop_last_idem is_space s) as Hi. destruct (is_space c) eqn:Hc.
  - destruct (drop_last_while is_space s) as [|x s']; [exact IH|]. cbn [skip_spaces]. by rewrite Hc.
  - destruct (drop_last_while is_space s) as [|x s'] eqn:E; cbn [skip_spaces]; rewrite Hc.
    + cbn [drop_last_while]. by rewrite E, Hc.
    + cbn [drop_last_while] in *. by rewrite Hi, E.
Qed.

Lemma parse_entry_line cur m k v : good_key k ->
  parse_line (cur, m) (k +:+ " = " +:+ print_value v) = (cur, insert_setting m (cur, k, v)).
Proof.
  intros ([_ Hk] & Hc & He & Hb). unfold parse_line, insert_setting, read_back. cbn [fst snd].
  replace (k +:+ " = " +:+ print_value v) with ((k +:+ " = ") +:+ print_value v) by (by autorewrite with str_app).
  rewrite cut_after by solve_lacks. set (w := (cut "#" (print_value v)).1).
  rewrite app_assoc_str, clean_trim_line by done.
  replace (k +:+ " =" +:+ drop_last_while is_space (" " +:+ w)) with ((k +:+ " ") +:+ String "=" (drop_last_while is_space (" " +:+ w)))
    by (by autorewrite with str_app).
  rewrite cut_found by solve_lacks. rewrite clean_trim by done. rewrite trim_drop_last. change (trim (" " +:+ w)) with (trim w).
  destruct k as [|x k]; [by destruct Hc|]. rewrite !app_cons_str. cbn [str_empty first_char].
  by rewrite (bool_decide_eq_false_2 (Some x = _)) by exact Hb.
Qed.

Lemma unquote_quoted q v : q = dquote \/ q = squote -> unquote (String q (v +:+ String q "")) = v.
Proof.
  intros Hq. unfold unquote. rewrite last_char_wrap. cbn [first_char].
  rewrite (proj2 (Nat.leb_le _ _)) by (cbn [String.length]; rewrite length_snoc; lia).
  destruct Hq as [-> | ->]; apply inner_wrap.
Qed.

(** The characters of a number. *)
Definition numeric (c : ascii) : Prop := is_Some (digit c) \/ c = "-"%char.
Definition in_i64 (z : Z) : Prop := - 2 ^ 63 <= z < 2 ^ 63.

Lemma to_string_chars z : 0 <= z -> Forall numeric (String.list_ascii_of_string (to_string z)).
Proof.
  assert (forall x s, Forall numeric (String.list_ascii_of_string s) -> Forall numeric (String.list_ascii_of_string (pretty_N_go x s))) as HN.
  { intros x. induction (N.lt_wf_0 x) as [x _ IH]; intros s Hs.
    destruct (decide (x = 0)%N) as [->|Hx]; [by rewrite pretty_N_go_0|].
    rewrite pretty_N_go_step by lia. apply IH; [apply N.div_lt; lia|]. constructor; [|exact Hs].
    left. rewrite digit_pretty_N_char by (by apply N.mod_lt). eauto. }
  intros Hz. rewrite to_string_N by done. unfold pretty, pretty_N. case_decide; [|by apply HN].
  constructor; [left; by exists 0|constructor].
Qed.

Lemma to_string_numeric z : Forall numeric (String.list_ascii_of_string (to_string z)).
Proof.
  destruct (Z.le_gt_cases 0 z) as [Hz|Hz]; [by apply to_string_chars|].
  destruct z as [|p|p]; [lia|lia|]. change (to_string (Z.neg p)) with (String "-" (to_string (Z.pos p))). cbn.
  constructor; [by right|]. by apply (to_string_chars (Z.pos p)).
Qed.

Lemma numeric_word s : Forall numeric (String.list_ascii_of_string s) -> s <> "" ->
  plain s /\ clean s /\ unquote s = s.
Proof.
  intros H Hne. assert (forall c, numeric c -> is_space c = false /\ c <> "010"%char /\ c <> "#"%char /\ c <> dquote /\ c <> squote) as Hn.
  { intros c [[d Hd]| ->]; [|done]. destruct (digit_not_space c (ex_intro _ d Hd)) as [Hs _].
    split; [exact Hs|]. split_and!; intros ->; discriminate Hd. }
  split_and!.
  - split; intros Hin; rewrite list.Forall_forall in H; by destruct (Hn _ (H _ Hin)) as (_ & ? & ? & _).
  - split.
    + destruct s as [|c s]; [done|]. apply list.Forall_cons in H as [H _]. by destruct (Hn _ H).
    + apply drop_last_keep. eapply list.Forall_impl; [exact H|]. intros c Hc. by destruct (Hn _ Hc).
  - unfold unquote. destruct s as [|c s]; [done|]. apply list.Forall_cons in H as [H _]. apply Hn in H as (_ & _ & _ & H1 & H2).
    cbn [first_char]. rewrite (bool_decide_eq_false_2 (Some c = Some dquote)), (bool_decide_eq_false_2 (Some c = Some squote)) by congruence.
    by rewrite andb_false_r.
Qed.

(** A word that is no quoted text and holds no number sign is read back as it is. *)
Lemma read_back_word w : clean w -> lacks "#" w -> unquote w = w -> unquote (trim (cut "#" w).1) = w.
Proof. intros Hc Hh Hu. rewrite cut_absent by done. cbn [fst]. by rewrite clean_trim_self. Qed.

Lemma read_back_quoted single s : lacks "#" s -> read_back (Quoted single s) = s.
Proof.
  intros H. unfold read_back. cbn [print_value]. destruct single;
    (rewrite cut_absent by solve_lacks; cbn [fst]; rewrite trim_wrapped by done; apply unquote_quoted; auto).
Qed.

Lemma read_back_number z : read_back (Number z) = to_string z.
Proof.
  destruct (numeric_word (to_string z)) as ([_ Hh] & Hc & Hu); [apply to_string_numeric|apply to_string_nonempty|].
  by apply read_back_word.
Qed.

Lemma read_back_flag b : read_back (Flag b) = if b then "true" else "false".
Proof. by destruct b. Qed.

Lemma stoll_number z : in_i64 z -> stoll (to_string z) = Some z.
Proof.
  intros Hz. unfold in_i64 in Hz. assert (forall n, 0 <= n -> exists c s d, to_string n = String c s /\ digit c = Some d /\
    is_space c = false /\ Ascii.eqb c "-" = false /\ Ascii.eqb c "+" = false) as Hh.
  { intros n Hn. destruct (to_string_head n Hn) as (c & s & E & [d Hd]). exists c, s, d. destruct (digit_not_space c (ex_intro _ d Hd)) as (? & ? & ?). by split_and!. }
  destruct (Z.le_gt_cases 0 z) as [H0|H0].
  - pose proof (digits_to_string z H0) as Hd. destruct (Hh z H0) as (c & s & d & E & Hc & Hs & Hm & Hp). rewrite E in *.
    unfold stoll. cbn [skip_spaces]. rewrite Hs, Hm, Hp, Hc. rewrite decide_True by eauto. rewrite Hd. cbn [fst].
    by rewrite (proj2 (Z.leb_le _ _)), (proj2 (Z.ltb_lt _ _)) by lia.
  - destruct z as [|p|p]; [lia|lia|]. change (to_string (Z.neg p)) with (String "-" (to_string (Z.pos p))).
    pose proof (digits_to_string (Z.pos p) ltac:(lia)) as Hd. destruct (Hh (Z.pos p) ltac:(lia)) as (c & s & d & E & Hc & _). rewrite E in *.
    unfold stoll. cbn [skip_spaces]. change (is_space "-") with false. cbn [Ascii.eqb Bool.eqb]. rewrite decide_True by (rewrite Hc; eauto).
    rewrite Hd. cbn [fst]. by rewrite (proj2 (Z.leb_le _ _)), (proj2 (Z.ltb_lt _ _)) by lia.
Qed.

Lemma one_line_lacks v : one_line v -> lacks "010" (print_value v).
Proof.
  destruct v as [single s|z|b|w]; cbn [one_line print_value]; intros H; [destruct single; solve_lacks| |destruct b; solve_lacks|done].
  by destruct (numeric_word (to_string z)) as ([H1 _] & _ & _); [apply to_string_numeric|apply to_string_nonempty|].
Qed.

Lemma parse_entries cur kvs rest : forall m,
  Forall (fun kv => good_key kv.1 /\ one_line kv.2) kvs ->
  fold_left parse_line (getlines "010" (foldr (fun kv s => print_entry kv +:+ s) "" kvs +:+ rest)) (cur, m) =
  fold_left parse_line (getlines "010" rest) (cur, fold_left insert_setting ((fun kv => (cur, kv.1, kv.2)) <$> kvs) m).
Proof.
  induction kvs as [|[k v] kvs IH]; intros m H; [done|].
  apply list.Forall_cons in H as [(Hk & Hv) H]. cbn [foldr fst snd] in *. unfold print_entry at 1. cbn [fst snd].
  replace ((_ +:+ foldr _ _ kvs) +:+ rest)
    with ((k +:+ " = " +:+ print_value v) +:+ String "010" (foldr (fun kv s => print_entry kv +:+ s) "" kvs +:+ rest))
    by (by autorewrite with str_app).
  rewrite getlines_line.
  - cbn [fold_left]. rewrite parse_entry_line by done. by apply IH.
  - apply one_line_lacks in Hv. destruct Hk as ([Hk _] & _). solve_lacks.
Qed.

Lemma load_print cfg : printable cfg -> loadString (print cfg) = fold_left insert_setting (settings cfg) ∅.
Proof.
  unfold loadString. generalize "global" (∅ : t). induction cfg as [|[n kvs] cfg IH]; intros cur m H; [done|].
  apply list.Forall_cons in H as [[Hn Hkvs] H]. cbn [fst snd] in *. unfold print. cbn [foldr]. fold (print cfg).
  unfold print_section. cbn [fst snd].
  replace (String "[" _ +:+ print cfg)
    with (String "[" (n +:+ "]") +:+ String "010" (foldr (fun kv s => print_entry kv +:+ s) "" kvs +:+ print cfg))
    by (by autorewrite with str_app).
  rewrite getlines_line by (destruct Hn; solve_lacks).
  cbn [fold_left]. rewrite parse_section_line, parse_entries by done.
  unfold settings. cbn [mbind list_bind fst snd]. rewrite fold_left_app. by apply IH.
Qed.

Lemma insert_settings_lookup l : forall (m : t) (f : gmap (string * string) value),
  (forall s k, m !! s ≫= (fun kv => kv !! k) = read_back <$> f !! (s, k)) ->
  forall s k, fold_left insert_setting l m !! s ≫= (fun kv => kv !! k)
  = read_back <$> fold_left (fun f e => <[(e.1.1, e.1.2) := e.2]> f) l f !! (s, k).
Proof.
  induction l as [|[[s0 k0] v0] l IH]; intros m f Hm; [exact Hm|]. cbn [fold_left fst snd]. apply IH.
  intros s k. unfold insert_setting, t in *. cbn [fst snd]. destruct (decide (s = s0)) as [->|Hs].
  - rewrite lookup_insert_eq. cbn [mbind option_bind]. destruct (decide (k = k0)) as [->|Hk].
    + by rewrite !lookup_insert_eq.
    + rewrite !lookup_insert_ne by congruence. rewrite <-Hm. by destruct (m !! s0); [|apply lookup_empty].
  - by rewrite !lookup_insert_ne by congruence.
Qed.

Lemma get_print cfg section key fallback : printable cfg ->
  get (loadString (print cfg)) section key fallback = default fallback (read_back <$> last_setting cfg section key).
Proof.
  intros H. rewrite load_print by done. unfold last_setting.
  rewrite <-(insert_settings_lookup (settings cfg) ∅ ∅) by (intros; by rewrite !lookup_empty).
  unfold get. by destruct (_ !! section).
Qed.

(** C14: A configuration written in the documented form is read back: after loading the printed
    text the value written last for a section and key is what the getters give, and every
    other key has its fallback.  A quoted text without a number sign is read back exactly
    (quotes, blanks, equals signs and brackets included), a 64-bit number is the number that
    [getInt] gives, a flag the boolean of [getBool], and a bare word without quotes is itself.
    In every case the text read is [read_back]: the line up to the first number sign, trimmed and
    without its quotes - so that a number sign inside the quotes cuts the value.  Names and keys
    hold no number sign and no end of line; a key is trimmed, has no equals sign and
    does not begin with a bracket; a value is on one line. *)
Theorem config_roundtrip cfg section key fallback :
  printable cfg ->
  let s := loadString (print cfg) in
  get s section key fallback = default fallback (read_back <$> last_setting cfg section key) /\
  match last_setting cfg section key with
  | Some (Quoted single v) => lacks "#" v -> get s section key fallback = v
  | Some (Number z) => in_i64 z -> forall d, getInt s section key d = z
  | Some (Flag b) => forall d, getBool s section key d = b
  | Some (Bare w) => clean w -> lacks "#" w -> unquote w = w -> get s section key fallback = w
  | None => get s section key fallback = fallback
  end.
Proof.
  intros H s. split; [by apply get_print|]. unfold s, getInt, getBool. rewrite !get_print by done.
  destruct (last_setting cfg section key) as [[single v|z|b|w]|]; cbn [fmap option_fmap option_map default from_option id].
  - apply read_back_quoted.
  - intros Hz d. rewrite read_back_number, (proj2 (str_empty_false _)) by apply to_string_nonempty. by rewrite stoll_number.
  - intros d. rewrite read_back_flag. by destruct b.
  - apply read_back_word.
  - done.
Qed.
End TomlConfig.

(** * [ApplicationConfig] *)

(* @src include/application/application_config.hpp | struct ApplicationConfig { *)
Record ApplicationConfig := {
  host : string; path : string; nsp : string; eventQueueCapacity : Z; workerCount : Z; outboxCapacity : Z;
  predictionTimeoutMs : Z; heartbeatIntervalMs : Z; enableTelegram : bool; enablePersistence : bool; logLevel : string;
  degradedMs : Z; staleMs : Z; signFreshMs : Z; signStaleMs : Z; stuckMaxAgeMs : Z; lossCooldownMs : Z;
  lossCooldownThreshold : Z; enableNativeSocket : bool; enablePollWorker : bool; enableNotificationWorker : bool;
  pollIntervalMs : Z; enableRealtimePipeline : bool; socketHost : string; statsPort : Z; qualityEdge : double;
  reducedEdge : double; minConfidence : double; deliveryDeadlineMs : Z; enableDurableOutbox : bool;
  enableClockSkewMonitor : bool; enableFunnelMetrics : bool; enableDeliveryForensics : bool }.

(* @src include/application/application_config.hpp | struct ApplicationConfig { *)
Definition default_config : ApplicationConfig := {|
  host := "bc.game"; path := "/game/crash"; nsp := "/g/cm"; eventQueueCapacity := 4096; workerCount := 4;
  outboxCapacity := 2048; predictionTimeoutMs := 50; heartbeatIntervalMs := 25000; enableTelegram := true;
  enablePersistence := false; logLevel := "info"; degradedMs := 15000; staleMs := 90000; signFreshMs := 60000;
  signStaleMs := 600000; stuckMaxAgeMs := 180000; lossCooldownMs := 60000; lossCooldownThreshold := 3;
  enableNativeSocket := true; enablePollWorker := true; enableNotificationWorker := true; pollIntervalMs := 5000;
  enableRealtimePipeline := true; socketHost := "socketv4.bc.game"; statsPort := 8080; qualityEdge := flit 2 100;
  reducedEdge := flit 5 1000; minConfidence := flit 55 100; deliveryDeadlineMs := 5000; enableDurableOutbox := true;
  enableClockSkewMonitor := true; enableFunnelMetrics := true; enableDeliveryForensics := true |}.

(** A [size_t] cast of a negative number is huge. *)
(* @src include/config/toml_config.hpp | ApplicationConfig toApplicationConfig() const | toApplicationConfig *)
Definition toApplicationConfig (s : TomlConfig.t) : ApplicationConfig :=
  let cfg := default_config in
  let get := TomlConfig.get s in
  let getInt := TomlConfig.getInt s in
  let getBool := TomlConfig.getBool s in {|
  host := get "ingestion" "host" (host cfg);
  path := get "ingestion" "path" (path cfg);
  nsp := get "ingestion" "nsp" (nsp cfg);
  eventQueueCapacity := u64 (getInt "concurrency" "event_queue_capacity" (i64 (eventQueueCapacity cfg)));
  workerCount := u64 (getInt "concurrency" "worker_count" (i64 (workerCount cfg)));
  outboxCapacity := u64 (getInt "delivery" "outbox_capacity" (i64 (outboxCapacity cfg)));
  predictionTimeoutMs := getInt "prediction" "timeout_ms" (predictionTimeoutMs cfg);
  heartbeatIntervalMs := getInt "ingestion" "heartbeat_ms" (heartbeatIntervalMs cfg);
  enableTelegram := getBool "delivery" "enable_telegram" (enableTelegram cfg);
  enablePersistence := getBool "persistence" "enabled" (enablePersistence cfg);
  logLevel := get "logging" "level" (logLevel cfg);
  degradedMs := getInt "ingestion" "degraded_ms" (degradedMs cfg);
  staleMs := getInt "ingestion" "stale_ms" (staleMs cfg);
  stuckMaxAgeMs := getInt "validation" "stuck_max_age_ms" (stuckMaxAgeMs cfg);
  lossCooldownMs := getInt "validation" "loss_cooldown_ms" (lossCooldownMs cfg);
  lossCooldownThreshold := i32 (getInt "validation" "loss_cooldown_threshold" (lossCooldownThreshold cfg));
  enableNativeSocket := getBool "ingestion" "enable_native_socket" (enableNativeSocket cfg);
  socketHost := get "ingestion" "socket_host" (socketHost cfg);
  signFreshMs := signFreshMs cfg; signStaleMs := signStaleMs cfg; enablePollWorker := enablePollWorker cfg;
  enableNotificationWorker := enableNotificationWorker cfg; pollIntervalMs := pollIntervalMs cfg;
  enableRealtimePipeline := enableRealtimePipeline cfg; statsPort := statsPort cfg; qualityEdge := qualityEdge cfg;
  reducedEdge := reducedEdge cfg; minConfidence := minConfidence cfg; deliveryDeadlineMs := deliveryDeadlineMs cfg;
  enableDurableOutbox := enableDurableOutbox cfg; enableClockSkewMonitor := enableClockSkewMonitor cfg;
  enableFunnelMetrics := enableFunnelMetrics cfg; enableDeliveryForensics := enableDeliveryForensics cfg |}.

(** * Credentials *)
Section Secrets.
(** What the secret provider answers. *)
Variable secret : string -> option string.

Definition is_blank (c : ascii) : bool := bool_decide (c = " "%char).
Fixpoint drop_first_while (p : ascii -> bool) (s : string) : string :=
  match s with
  | String c s' => if p c then drop_first_while p s' else s
  | EmptyString => EmptyString
  end.

(* @src include/security/credentials.hpp | inline std::vector<std::string> splitCommaIds( *)
Definition splitCommaIds (s : string) : list string :=
  filter (fun item => str_empty item = false)
    ((fun item => drop_last_while is_blank (drop_first_while is_blank item)) <$> getlines "," s).

(* @src include/security/credentials.hpp | inline TelegramCredentials loadTelegramCredentials( *)
Definition loadTelegramCredentials : TelegramClient.TelegramCredentials :=
  let group := default "" (secret "TELEGRAM_GROUP_CHAT_ID") in {|
  TelegramClient.botToken := default "" (secret "TELEGRAM_BOT_TOKEN");
  TelegramClient.chatId := default "" (secret "TELEGRAM_CHAT_ID");
  TelegramClient.extraChatIds :=
    (if str_empty group then [] else [group]) ++ splitCommaIds (default "" (secret "TELEGRAM_EXTRA_CHAT_IDS")) |}.

(* @src include/security/credentials.hpp | struct DatabaseCredentials { *)
Record DatabaseCredentials := { connectionString : string }.
(* @src include/security/credentials.hpp | bool valid() const { return !connectionString.empty(); } *)
Definition db_valid (c : DatabaseCredentials) : bool := negb (str_empty (connectionString c)).
(* @src include/security/credentials.hpp | struct BcGameCredentials { *)
Record BcGameCredentials := { signKey : string; userAgent : string }.
(* @src include/security/credentials.hpp | bool valid() const { return !signKey.empty(); } *)
Definition bc_valid (c : BcGameCredentials) : bool := negb (str_empty (signKey c)).

(* @src include/security/credentials.hpp | inline DatabaseCredentials loadDatabaseCredentials( *)
Definition loadDatabaseCredentials : DatabaseCredentials := {| connectionString := default "" (secret "DATABASE_URL") |}.
(* @src include/security/credentials.hpp | inline BcGameCredentials loadBcGameCredentials( *)
Definition loadBcGameCredentials : BcGameCredentials :=
  {| signKey := default "" (secret "BC_SIGN_KEY"); userAgent := default "" (secret "BC_USER_AGENT") |}.

(* @src include/security/secure_config.hpp | struct SecureConfig { *)
Record SecureConfig := {
  sc_telegram : TelegramClient.TelegramCredentials; sc_database : DatabaseCredentials; sc_bcgame : BcGameCredentials;
  sc_logLevel : string; sc_production : bool }.

(* @src include/security/secure_config.hpp | inline Result<SecureConfig> loadSecureConfig( *)
Definition loadSecureConfig : Result SecureConfig := Ok {|
  sc_telegram := loadTelegramCredentials; sc_database := loadDatabaseCredentials; sc_bcgame := loadBcGameCredentials;
  sc_logLevel := default "info" (secret "LOG_LEVEL");
  sc_production := match secret "NODE_ENV" with Some v => bool_decide (v = "production") | None => false end |}.
End Secrets.

(** Chat ids without commas and outer blanks survive being joined with commas. *)
Lemma splitCommaIds_join ids :
  Forall (fun id => lacks "," id /\ id <> "" /\ drop_last_while is_blank (drop_first_while is_blank id) = id) ids ->
  splitCommaIds (foldr (fun id s => id +:+ String "," s) "" ids) = ids.
Proof.
  intros H. unfold splitCommaIds. induction H as [|id ids (Hl & Hne & Ht) _ IH]; [done|]. cbn [foldr].
  rewrite getlines_line by done. rewrite fmap_cons, Ht, filter_cons_True by (by apply str_empty_false). by rewrite IH.
Qed.

(** * The command line *)
Module Main.

(* @src src/main.cpp:21-23 main *)
Record Args := { a_debug : bool; a_no_telegram : bool; a_self_check : bool; a_audit : bool; a_config : string }.
#[export] Instance eta_Args : Eta Args := fun r =>
  {| a_debug := a_debug r; a_no_telegram := a_no_telegram r; a_self_check := a_self_check r; a_audit := a_audit r;
     a_config := a_config r |}.

(* @src src/main.cpp:25-32 main *)
Fixpoint parse_args (argv : list string) (a : Args) : Args :=
  match argv with
  | [] => a
  | w :: argv =>
      if bool_decide (w = "--debug") then parse_args argv (a <| a_debug := true |>)
      else if bool_decide (w = "--no-telegram") then parse_args argv (a <| a_no_telegram := true |>)
      else if bool_decide (w = "--self-check") then parse_args argv (a <| a_self_check := true |>)
      else if bool_decide (w = "--audit") then parse_args argv (a <| a_audit := true |>)
      else if bool_decide (w = "--config") then
        match argv with
        | p :: argv => parse_args argv (a <| a_config := p |>)
        | [] => a
        end
      else parse_args argv a
  end.

Definition no_args : Args := {| a_debug := false; a_no_telegram := false; a_self_check := false; a_audit := false; a_config := "" |}.

(** The configuration the flags make. *)
(* @src src/main.cpp:27-28 main *)
Definition flag_config (a : Args) : ApplicationConfig :=
  let c := default_config in {|
  host := host c; path := path c; nsp := nsp c; eventQueueCapacity := eventQueueCapacity c; workerCount := workerCount c;
  outboxCapacity := outboxCapacity c; predictionTimeoutMs := predictionTimeoutMs c;
  heartbeatIntervalMs := heartbeatIntervalMs c; enableTelegram := negb (a_no_telegram a);
  enablePersistence := enablePersistence c; logLevel := if a_debug a then "debug" else logLevel c;
  degradedMs := degradedMs c; staleMs := staleMs c; signFreshMs := signFreshMs c; signStaleMs := signStaleMs c;
  stuckMaxAgeMs := stuckMaxAgeMs c; lossCooldownMs := lossCooldownMs c; lossCooldownThreshold := lossCooldownThreshold c;
  enableNativeSocket := enableNativeSocket c; enablePollWorker := enablePollWorker c;
  enableNotificationWorker := enableNotificationWorker c; pollIntervalMs := pollIntervalMs c;
  enableRealtimePipeline := enableRealtimePipeline c; socketHost := socketHost c; statsPort := statsPort c;
  qualityEdge := qualityEdge c; reducedEdge := reducedEdge c; minConfidence := minConfidence c;
  deliveryDeadlineMs := deliveryDeadlineMs c; enableDurableOutbox := enableDurableOutbox c;
  enableClockSkewMonitor := enableClockSkewMonitor c; enableFunnelMetrics := enableFunnelMetrics c;
  enableDeliveryForensics := enableDeliveryForensics c |}.

(** What the process does: it exits at once, or runs an application whose components were built
    with one configuration and whose later decisions read another. *)
Inductive Start :=
  | Exit (code : Z) (message : string)
  | Run (built : ApplicationConfig) (config : ApplicationConfig).

(** [selfCheckFailures] is what the protocol self check counts. *)
(* @src src/main.cpp:17-61 main *)
Definition main (read : string -> option string) (selfCheckFailures : Z) (argv : list string) : Start :=
  let a := parse_args argv no_args in
  let cfg := flag_config a in
  if a_self_check a then
    if selfCheckFailures =? 0 then Exit 0 "protocol self-check OK"
    else Exit 1 ("protocol self-check failed: " +:+ to_string selfCheckFailures)
  else if a_audit a then Exit 0 ""
  else if str_empty (a_config a) then Run cfg cfg
  else
    match TomlConfig.loadFile read (a_config a) with
    | Err e => Exit 1 ("config load failed: " +:+ message e)
    | Ok toml => Run cfg (toApplicationConfig toml)
    end.

(** Remark: With a configuration file the flags do not reach the running application: whatever else
    is on the command line, it decides by the file over the defaults alone, so [--no-telegram]
    and [--debug] are lost; and its queues, workers, outbox, prediction timeout and loss
    cooldown are built with the defaults before the file is read, whatever it says. *)
Theorem config_file_discards_flags read n argv built config :
  a_config (parse_args argv no_args) <> "" -> main read n argv = Run built config ->
  (exists text, read (a_config (parse_args argv no_args)) = Some text /\ config = toApplicationConfig (TomlConfig.loadString text)) /\
  eventQueueCapacity built = 4096 /\ workerCount built = 4 /\ outboxCapacity built = 2048 /\
  predictionTimeoutMs built = 50 /\ lossCooldownThreshold built = 3 /\ lossCooldownMs built = 60000.
Proof.
  intros Hc. unfold main, TomlConfig.loadFile. rewrite (proj2 (str_empty_false _) Hc).
  destruct (a_self_check _); [by destruct (n =? 0)|]. destruct (a_audit _); [done|].
  destruct (read _) as [text|]; [|done]. intros E. injection E as <- <-. split; [by exists text|]. done.
Qed.
End Main.

Definition newline : string := String "010" EmptyString.

(** The shipped [config/production.toml]. *)
Definition production_toml : string :=
  json ("[app]" +:+ newline +:+ "environment = 'production'" +:+ newline +:+ "enable_telegram = true" +:+ newline
        +:+ "enable_persistence = true" +:+ newline).

Definition production_files (p : string) : option string :=
  if bool_decide (p = "config/production.toml") then Some production_toml else None.

Definition production_argv : list string := ["--no-telegram"; "--config"; "config/production.toml"].

Lemma config_file_discards_flags_witness :
  Main.main production_files 0 production_argv = Main.Run (Main.flag_config (Main.parse_args production_argv Main.no_args)) default_config /\
  eventQueueCapacity (Main.flag_config (Main.parse_args production_argv Main.no_args)) = 4096.
Proof.
  assert (Main.main production_files 0 production_argv
          = Main.Run (Main.flag_config (Main.parse_args production_argv Main.no_args)) default_config) as E by (vm_compute; reflexivity).
  split; [exact E|].
  refine (proj1 (proj2 (Main.config_file_discards_flags production_files 0 production_argv _ _ _ E))). vm_compute. discriminate.
Defined.

(** Remark: none of the keys of the shipped production file is read: the production server runs
    with the defaults, without persistence and although [--no-telegram] was given with Telegram. *)
Example production_runs_defaults :
  let config := toApplicationConfig (TomlConfig.loadString production_toml) in
  config = default_config /\ enablePersistence config = false /\ enableTelegram config = true.
Proof. vm_compute. done. Qed.

(** Remark: a number sign ends the line even inside a quoted value, whose opening quote then
    stays. *)
Example hash_in_value :
  TomlConfig.get (TomlConfig.loadString (json ("[ingestion]" +:+ newline +:+ "path = '/a#b'"))) "ingestion" "path" "" = json "'/a".
Proof. reflexivity. Qed.

(** Remark: a negative capacity is read as an enormous one. *)
Example negative_capacity :
  eventQueueCapacity (toApplicationConfig (TomlConfig.loadString ("[concurrency]" +:+ newline +:+ "event_queue_capacity = -1"))) = 2 ^ 64 - 1.
Proof. reflexivity. Qed.

(** A value with an equals sign and brackets, overwritten later in the file; a number and a flag. *)
Definition demo_cfg : list (string * list (string * TomlConfig.value)) :=
  [("ingestion", [("host", TomlConfig.Quoted false "a=b"); ("nsp", TomlConfig.Quoted true "[x]"); ("stale_ms", TomlConfig.Number (-250))]);
   ("delivery", [("enable_telegram", TomlConfig.Flag false)]); ("ingestion", [("host", TomlConfig.Quoted false "c d")])].

Lemma config_roundtrip_witness :
  TomlConfig.get (TomlConfig.loadString (TomlConfig.print demo_cfg)) "ingestion" "host" "" = "c d" /\
  TomlConfig.getInt (TomlConfig.loadString (TomlConfig.print demo_cfg)) "ingestion" "stale_ms" 7 = -250 /\
  TomlConfig.getBool (TomlConfig.loadString (TomlConfig.print demo_cfg)) "delivery" "enable_telegram" true = false.
Proof.
  assert (TomlConfig.printable demo_cfg) as H.
  { repeat constructor; cbn; repeat first [apply not_elem_of_nil | apply not_elem_of_cons; split; [discriminate|] | discriminate]. }
  split; [|split].
  - refine (proj1 (TomlConfig.config_roundtrip demo_cfg "ingestion" "host" "" H)).
  - exact (proj2 (TomlConfig.config_roundtrip demo_cfg "ingestion" "stale_ms" "" H) ltac:(vm_compute; split; congruence) 7).
  - exact (proj2 (TomlConfig.config_roundtrip demo_cfg "delivery" "enable_telegram" "" H) true).
Defined.
