(* ===== verification/Sha256.v ===== *)
(** SHA-256 as the model loader of the prediction engine computes it
    ([third_party/predictions-engine/include/pe/ml/ml_sha256.hpp] and its [.cpp]): an object that
    takes bytes in pieces, against the digest of the whole message.

    A byte is a [Z] in [0, 256), a word a [Z] in [0, 2^32).  A file is its bytes. *)
From S2P Require Import Prelude Float64 FloatSign PeEngine.

Open Scope list_scope.
Open Scope Z_scope.

Module Sha256.

(** * The compression function *)

Definition u32 (z : Z) : Z := wrapu 32 z.

(* @src third_party/predictions-engine/src/ml/ml_sha256.cpp | constexpr uint32_t rotr( *)
Definition rotr (x n : Z) : Z := Z.lor (Z.shiftr x n) (u32 (Z.shiftl x (32 - n))).

(* @src third_party/predictions-engine/src/ml/ml_sha256.cpp | constexpr uint32_t K[64] = { *)
Definition K : list Z := [
  0x428a_2f98; 0x7137_4491; 0xb5c0_fbcf; 0xe9b5_dba5; 0x3956_c25b; 0x59f1_11f1; 0x923f_82a4; 0xab1c_5ed5;
  0xd807_aa98; 0x1283_5b01; 0x2431_85be; 0x550c_7dc3; 0x72be_5d74; 0x80de_b1fe; 0x9bdc_06a7; 0xc19b_f174;
  0xe49b_69c1; 0xefbe_4786; 0x0fc1_9dc6; 0x240c_a1cc; 0x2de9_2c6f; 0x4a74_84aa; 0x5cb0_a9dc; 0x76f9_88da;
  0x983e_5152; 0xa831_c66d; 0xb003_27c8; 0xbf59_7fc7; 0xc6e0_0bf3; 0xd5a7_9147; 0x06ca_6351; 0x1429_2967;
  0x27b7_0a85; 0x2e1b_2138; 0x4d2c_6dfc; 0x5338_0d13; 0x650a_7354; 0x766a_0abb; 0x81c2_c92e; 0x9272_2c85;
  0xa2bf_e8a1; 0xa81a_664b; 0xc24b_8b70; 0xc76c_51a3; 0xd192_e819; 0xd699_0624; 0xf40e_3585; 0x106a_a070;
  0x19a4_c116; 0x1e37_6c08; 0x2748_774c; 0x34b0_bcb5; 0x391c_0cb3; 0x4ed8_aa4a; 0x5b9c_ca4f; 0x682e_6ff3;
  0x748f_82ee; 0x78a5_636f; 0x84c8_7814; 0x8cc7_0208; 0x90be_fffa; 0xa450_6ceb; 0xbef9_a3f7; 0xc671_78f2].

Definition at_ (l : list Z) (i : nat) : Z := default 0 (l !! i).

(** The four bytes of a word, highest first. *)
Definition be32 (chunk : list Z) (i : nat) : Z :=
  Z.lor (Z.lor (Z.lor (Z.shiftl (at_ chunk (i * 4)) 24) (Z.shiftl (at_ chunk (i * 4 + 1)) 16)) (Z.shiftl (at_ chunk (i * 4 + 2)) 8))
        (at_ chunk (i * 4 + 3)).

(** The next word of the schedule, from the words before it. *)
(* @src third_party/predictions-engine/src/ml/ml_sha256.cpp | const uint32_t s0 = rotr(w[i-15],7) >> w[i] = w[i-16] + s0 | Sha256::transform *)
Definition extend (w : list Z) (i : nat) : list Z :=
  let w15 := at_ w (i - 15) in
  let w2 := at_ w (i - 2) in
  let s0 := Z.lxor (Z.lxor (rotr w15 7) (rotr w15 18)) (Z.shiftr w15 3) in
  let s1 := Z.lxor (Z.lxor (rotr w2 17) (rotr w2 19)) (Z.shiftr w2 10) in
  w ++ [u32 (at_ w (i - 16) + s0 + at_ w (i - 7) + s1)].

(* @src third_party/predictions-engine/src/ml/ml_sha256.cpp | uint32_t w[64]; >> w[i] = w[i-16] + s0 | Sha256::transform *)
Definition schedule (chunk : list Z) : list Z := fold_left extend (seq 16 48) (be32 chunk <$> seq 0 16).

Record Regs := { ra : Z; rb : Z; rc : Z; rd : Z; re : Z; rf : Z; rg : Z; rh : Z }.

Definition not32 (x : Z) : Z := Z.lxor x 0xffffffff.

(* @src third_party/predictions-engine/src/ml/ml_sha256.cpp | const uint32_t S1 = rotr(e,6) >> h=g; g=f; | Sha256::transform *)
Definition round (w : list Z) (r : Regs) (i : nat) : Regs :=
  let '{| ra := a; rb := b; rc := c; rd := d; re := e; rf := f; rg := g; rh := h |} := r in
  let S1 := Z.lxor (Z.lxor (rotr e 6) (rotr e 11)) (rotr e 25) in
  let ch := Z.lxor (Z.land e f) (Z.land (not32 e) g) in
  let t1 := u32 (h + S1 + ch + at_ K i + at_ w i) in
  let S0 := Z.lxor (Z.lxor (rotr a 2) (rotr a 13)) (rotr a 22) in
  let maj := Z.lxor (Z.lxor (Z.land a b) (Z.land a c)) (Z.land b c) in
  let t2 := u32 (S0 + maj) in
  {| ra := u32 (t1 + t2); rb := a; rc := b; rd := c; re := u32 (d + t1); rf := e; rg := f; rh := g |}.

(* @src third_party/predictions-engine/src/ml/ml_sha256.cpp | void Sha256::transform(const uint8_t* chunk) { *)
Definition transform (st : Regs) (chunk : list Z) : Regs :=
  let w := schedule chunk in
  let r := fold_left (round w) (seq 0 64) st in
  {| ra := u32 (ra st + ra r); rb := u32 (rb st + rb r); rc := u32 (rc st + rc r); rd := u32 (rd st + rd r);
     re := u32 (re st + re r); rf := u32 (rf st + rf r); rg := u32 (rg st + rg r); rh := u32 (rh st + rh r) |}.

(** * The object *)

(* @src third_party/predictions-engine/include/pe/ml/ml_sha256.hpp | uint64_t bitlen_ = 0; >> size_t buflen_ = 0; | Sha256 *)
Record t := { bitlen : Z; state_ : Regs; buffer : list Z; buflen : nat }.
#[export] Instance eta_t : Eta t := fun r => {| bitlen := bitlen r; state_ := state_ r; buffer := buffer r; buflen := buflen r |}.

Definition H0 : Regs := {|
  ra := 0x6a09e667; rb := 0xbb67ae85; rc := 0x3c6ef372; rd := 0xa54ff53a;
  re := 0x510e527f; rf := 0x9b05688c; rg := 0x1f83d9ab; rh := 0x5be0cd19 |}.

(* @src third_party/predictions-engine/src/ml/ml_sha256.cpp | Sha256::Sha256() { *)
Definition make : t := {| bitlen := 0; state_ := H0; buffer := replicate 64 0; buflen := 0 |}.

(** [memcpy] of [data] to position [at] of the buffer. *)
Definition blit (buf : list Z) (at' : nat) (data : list Z) : list Z := take at' buf ++ data ++ drop (at' + length data) buf.

(** Whole blocks are compressed, the rest of the data remains. *)
(* @src third_party/predictions-engine/src/ml/ml_sha256.cpp | while (off + 64 <= len) { | Sha256::update *)
Fixpoint blocks (fuel : nat) (st : Regs) (data : list Z) : Regs * list Z :=
  match fuel with
  | O => (st, data)
  | S fuel => if (64 <=? length data)%nat then blocks fuel (transform st (take 64 data)) (drop 64 data) else (st, data)
  end.

(* @src third_party/predictions-engine/src/ml/ml_sha256.cpp | void Sha256::update(const uint8_t* data, size_t len) { *)
Definition update (s : t) (data : list Z) : t :=
  let s := s <| bitlen := u64 (bitlen s + u64 (Z.of_nat (length data) * 8)) |> in
  let '(s, data) :=
    if (0 <? buflen s)%nat then
      let need := (64 - buflen s)%nat in
      let taken := if (length data <? need)%nat then length data else need in
      let s := s <| buffer := blit (buffer s) (buflen s) (take taken data) |> <| buflen := (buflen s + taken)%nat |> in
      (if (buflen s =? 64)%nat then s <| state_ := transform (state_ s) (buffer s) |> <| buflen := 0%nat |> else s, drop taken data)
    else (s, data) in
  let '(st, rest) := blocks (length data) (state_ s) data in
  let s := s <| state_ := st |> in
  if (0 <? length rest)%nat then s <| buffer := blit (buffer s) 0 rest |> <| buflen := length rest |> else s.

(** The loop of [digest] that appends zeros; [padlen] counts the bytes before them. *)
(* @src third_party/predictions-engine/src/ml/ml_sha256.cpp | while (((buflen_ + padlen) % 64) != 56) pad[padlen++] = 0; | Sha256::digest *)
Fixpoint zeros (fuel len padlen : nat) : list Z :=
  match fuel with
  | O => []
  | S fuel => if ((len + padlen) mod 64 =? 56)%nat then [] else 0 :: zeros fuel len (S padlen)
  end.

(* @src third_party/predictions-engine/src/ml/ml_sha256.cpp | for (int i = 7; i >= 0; --i) >> pad[padlen++] = static_cast<uint8_t>((bitlen_ | Sha256::digest *)
Definition be64 (n : Z) : list Z := (fun i => Z.land (Z.shiftr n (i * 8)) 0xff) <$> [7; 6; 5; 4; 3; 2; 1; 0].

(* @src third_party/predictions-engine/src/ml/ml_sha256.cpp | uint8_t pad[64 + 64]; >> pad[padlen++] = static_cast<uint8_t>((bitlen_ | Sha256::digest *)
Definition pad (s : t) : list Z := 0x80 :: zeros 64 (buflen s) 1 ++ be64 (bitlen s).

(* @src third_party/predictions-engine/src/ml/ml_sha256.cpp | std::array<uint8_t, 32> out{}; >> return out; | Sha256::digest *)
Definition bytes_of (r : Regs) : list Z :=
  List.concat ((fun w => [Z.land (Z.shiftr w 24) 0xff; Z.land (Z.shiftr w 16) 0xff; Z.land (Z.shiftr w 8) 0xff; Z.land w 0xff])
                 <$> [ra r; rb r; rc r; rd r; re r; rf r; rg r; rh r]).

(* @src third_party/predictions-engine/src/ml/ml_sha256.cpp | std::array<uint8_t, 32> Sha256::digest() { *)
Definition digest (s : t) : list Z * t :=
  let s := update s (pad s) in
  (bytes_of (state_ s), s).

(* @src third_party/predictions-engine/include/pe/ml/ml_sha256.hpp | std::string hex() { *)
Definition hex (s : t) : string :=
  foldr (fun d rest => String (hex_digit (Z.shiftr d 4)) (String (hex_digit (Z.land d 0xf)) rest)) EmptyString (digest s).1.

(* @src third_party/predictions-engine/include/pe/ml/ml_sha256.hpp | inline std::string sha256Hex( *)
Definition sha256Hex (data : list Z) : string :=
  hex (if (0 <? length data)%nat then update make data else make).

(** The pieces that [read] puts in a buffer of [n] bytes, the last one shorter. *)
Fixpoint pieces (fuel n : nat) (data : list Z) : list (list Z) :=
  match fuel with
  | O => []
  | S fuel => if (0 <? length data)%nat then take n data :: pieces fuel n (drop n data) else []
  end.

(** [None] is a file that cannot be opened. *)
(* @src third_party/predictions-engine/include/pe/ml/ml_sha256.hpp | inline std::string sha256File( *)
Definition sha256File (file : option (list Z)) : string :=
  match file with
  | Some data => hex (fold_left update (pieces (length data) 4096 data) make)
  | None => EmptyString
  end.

(** * The digest of a message (FIPS 180-4, 5.1.1 and 6.2.2) *)

(** One 1 bit, as few zeros as complete a block, and the length in bits. *)
Definition padding (m : list Z) : list Z :=
  0x80 :: replicate (Z.to_nat ((55 - Z.of_nat (length m)) mod 64)) 0 ++ be64 (8 * Z.of_nat (length m)).

(** The chained compression of the blocks of [m], and what follows the last whole block. *)
Definition chain (m : list Z) : Regs * list Z := blocks (length m) H0 m.

Definition sha256 (m : list Z) : list Z := bytes_of (chain (m ++ padding m)).1.

(** * Pieces and whole *)

Lemma blocks_fuel fuel fuel' st data : (length data <= fuel)%nat -> (length data <= fuel')%nat -> blocks fuel st data = blocks fuel' st data.
Proof.
  revert fuel' st data. induction fuel as [|fuel IH]; intros [|fuel'] st data H H'; cbn [blocks].
  1: done.
  1,2: destruct (Nat.leb_spec 64 (length data)); [lia|done].
  destruct (Nat.leb_spec 64 (length data)); [|done]. apply IH; rewrite length_drop; lia.
Qed.

Lemma blocks_step st data : (64 <= length data)%nat ->
  blocks (length data) st data = blocks (length (drop 64 data)) (transform st (take 64 data)) (drop 64 data).
Proof.
  intros H. destruct (length data) as [|n] eqn:E; [lia|]. cbn [blocks]. rewrite E.
  rewrite (proj2 (Nat.leb_le 64 (S n)) H). apply blocks_fuel; rewrite length_drop; lia.
Qed.

Lemma blocks_short st data : (length data < 64)%nat -> blocks (length data) st data = (st, data).
Proof. intros H. destruct data as [|x data]; [done|]. cbn [blocks length]. destruct (Nat.leb_spec 64 (S (length data))); cbn in H; [lia|done]. Qed.

(** The blocks of a message with an appended part are those of its rest with the part. *)
Lemma blocks_app m : forall st d,
  blocks (length (m ++ d)) st (m ++ d) =
  let '(st', r) := blocks (length m) st m in blocks (length (r ++ d)) st' (r ++ d).
Proof.
  induction m as [m IH] using (induction_ltof1 _ (@length Z)). intros st d.
  destruct (decide (64 <= length m)%nat) as [H|H].
  - rewrite (blocks_step st m H), blocks_step by (rewrite length_app; lia).
    rewrite take_app_le, drop_app_le by lia. apply IH. unfold ltof. rewrite length_drop. lia.
  - rewrite (blocks_short st m) by lia. done.
Qed.

Lemma blocks_rest_short n : forall st data, (length data <= n)%nat -> (length (blocks n st data).2 < 64)%nat.
Proof.
  induction n as [|n IH]; intros st data H; cbn [blocks]; [cbn; lia|].
  destruct (Nat.leb_spec 64 (length data)); [|done]. apply IH. rewrite length_drop. lia.
Qed.

Lemma blocks_rest_length n : forall st data, (length data <= n)%nat -> length (blocks n st data).2 = (length data mod 64)%nat.
Proof.
  induction n as [|n IH]; intros st data H; cbn [blocks].
  - cbn [snd]. rewrite Nat.mod_small; lia.
  - destruct (Nat.leb_spec 64 (length data)) as [L|L]; [|cbn [snd]; rewrite Nat.mod_small; lia].
    rewrite IH by (rewrite length_drop; lia). rewrite length_drop.
    rewrite <- (Nat.Div0.mod_add (length data - 64) 1 64). f_equal. lia.
Qed.

(** The object that has taken the bytes [m]. *)
Definition absorbed (m : list Z) (s : t) : Prop :=
  bitlen s = u64 (8 * Z.of_nat (length m)) /\ length (buffer s) = 64%nat /\ (buflen s < 64)%nat /\
  chain m = (state_ s, take (buflen s) (buffer s)).

Lemma absorbed_make : absorbed [] make.
Proof. repeat split; cbn; lia. Qed.

#[local] Arguments blit : simpl never.
#[local] Arguments transform : simpl never.
#[local] Arguments Nat.modulo : simpl never.

Lemma length_blit buf p d : (p + length d <= length buf)%nat -> length (blit buf p d) = length buf.
Proof. intros H. unfold blit. rewrite !length_app, length_take, length_drop. lia. Qed.

Lemma take_blit buf p d : (p <= length buf)%nat -> take (p + length d) (blit buf p d) = take p buf ++ d.
Proof.
  intros H. unfold blit. rewrite app_assoc. apply take_app_length'. rewrite length_app, length_take. lia.
Qed.

(** What [update] leaves of a state whose buffer is empty. *)
Lemma update_aligned s data :
  buflen s = 0%nat -> length (buffer s) = 64%nat ->
  let s' := (let '(st, rest) := blocks (length data) (state_ s) data in
             let s := s <| state_ := st |> in
             if (0 <? length rest)%nat then s <| buffer := blit (buffer s) 0 rest |> <| buflen := length rest |> else s) in
  bitlen s' = bitlen s /\ length (buffer s') = 64%nat /\ (buflen s' < 64)%nat /\
  blocks (length data) (state_ s) data = (state_ s', take (buflen s') (buffer s')).
Proof.
  intros Hb Hl. pose proof (blocks_rest_short (length data) (state_ s) data (le_n _)) as Hr.
  destruct (blocks (length data) (state_ s) data) as [st rest]. cbn [snd] in Hr. cbv zeta.
  destruct (Nat.ltb_spec 0 (length rest)); cbn.
  - rewrite length_blit by lia. pose proof (take_blit (buffer s) 0 rest ltac:(lia)) as T. cbn in T. rewrite T. done.
  - rewrite Hb. destruct rest; cbn in *; [repeat split; auto; lia|lia].
Qed.

Lemma u64_mul8 (m d : list Z) : u64 (u64 (8 * Z.of_nat (length m)) + u64 (Z.of_nat (length d) * 8)) = u64 (8 * Z.of_nat (length (m ++ d))).
Proof. rewrite u64_add_l. unfold u64, wrapu. rewrite Zplus_mod_idemp_r. f_equal. rewrite length_app. lia. Qed.

Lemma absorbed_continue m data s s' :
  bitlen s = u64 (8 * Z.of_nat (length m)) ->
  bitlen s' = u64 (u64 (8 * Z.of_nat (length m)) + u64 (Z.of_nat (length data) * 8)) ->
  length (buffer s') = 64%nat -> (buflen s' < 64)%nat ->
  (let '(st, r) := chain m in blocks (length (r ++ data)) st (r ++ data)) = (state_ s', take (buflen s') (buffer s')) ->
  absorbed (m ++ data) s'.
Proof.
  intros Hs Hb Hl Hn Hc. repeat split; auto.
  - rewrite Hb, u64_mul8. done.
  - unfold chain in *. rewrite blocks_app. exact Hc.
Qed.

(** Taking more bytes appends them to the message. *)
Lemma update_absorbed m s data : absorbed m s -> absorbed (m ++ data) (update s data).
Proof.
  intros (Hb & Hl & Hn & Hc). unfold update. cbv zeta.
  set (s1 := s <| bitlen := u64 (bitlen s + u64 (Z.of_nat (length data) * 8)) |>).
  assert (E1 : bitlen s1 = u64 (u64 (8 * Z.of_nat (length m)) + u64 (Z.of_nat (length data) * 8))) by (cbn; rewrite Hb; done).
  change (buflen s1) with (buflen s). change (buffer s1) with (buffer s). change (state_ s1) with (state_ s).
  destruct (Nat.ltb_spec 0 (buflen s)) as [P|P].
  2: { (* an empty buffer *)
    pose proof (update_aligned s1 data ltac:(cbn; lia) Hl) as (A & B & C & D).
    destruct (blocks (length data) (state_ s1) data) as [st rest] eqn:E.
    refine (absorbed_continue m data s _ Hb (eq_trans A E1) B C _).
    rewrite Hc. replace (buflen s) with 0%nat by lia. cbn [take app]. exact (eq_trans E D). }
  assert (R : length (take (buflen s) (buffer s)) = buflen s) by (rewrite length_take; lia).
  destruct (Nat.ltb_spec (length data) (64 - buflen s)) as [L|L].
  - (* the buffer does not fill *)
    rewrite firstn_all, skipn_all. cbn.
    destruct (Nat.eqb_spec (buflen s + length data) 64); [lia|]. cbn.
    eapply (absorbed_continue m data s); cbn; [done|done|rewrite length_blit; lia|lia|].
    rewrite Hc, take_blit by lia. rewrite blocks_short; [done|]. rewrite length_app. lia.
  - (* it fills and is compressed *)
    set (need := (64 - buflen s)%nat). replace (buflen s + need)%nat with 64%nat by lia. rewrite Nat.eqb_refl.
    assert (Ln : length (take need data) = need) by (rewrite length_take; unfold need; lia).
    set (buf := blit (buffer s) (buflen s) (take need data)).
    assert (Ebuf : buf = take (buflen s) (buffer s) ++ take need data).
    { unfold buf, blit. rewrite drop_ge by (rewrite Ln; unfold need; lia). rewrite app_nil_r. done. }
    set (s2 := s1 <| buffer := buf |> <| buflen := 64%nat |> <| state_ := transform (state_ s) buf |> <| buflen := 0%nat |>).
    change (s1 <| buffer := buf |> <| buflen := 64%nat |> <| state_ := transform _ _ |> <| buflen := 0%nat |>) with s2.
    assert (L2 : length (buffer s2) = 64%nat) by (cbn; rewrite Ebuf, length_app, R, Ln; unfold need; lia).
    pose proof (update_aligned s2 (drop need data) eq_refl L2) as (A & B & C & D).
    destruct (blocks (length (drop need data)) (state_ s2) (drop need data)) as [st rest] eqn:E.
    refine (absorbed_continue m data s _ Hb (eq_trans A E1) B C _).
    rewrite Hc. rewrite blocks_step by (rewrite length_app, R; unfold need in L; lia).
    rewrite take_app, drop_app, R, (take_ge (take (buflen s) (buffer s))), (drop_ge (take (buflen s) (buffer s))) by (rewrite ?R; lia). cbn [app]. fold need. rewrite <- Ebuf.
    exact (eq_trans E D).
Qed.

Lemma updates_absorbed l : forall m s, absorbed m s -> absorbed (m ++ List.concat l) (fold_left update l s).
Proof.
  induction l as [|d l IH]; intros m s H; cbn; [rewrite app_nil_r; done|].
  rewrite app_assoc. apply IH, update_absorbed, H.
Qed.

(** * Padding *)

Lemma zeros_replicate fuel : forall len p, (Z.to_nat ((56 - Z.of_nat (len + p)) mod 64) <= fuel)%nat -> (0 < fuel)%nat ->
  zeros fuel len p = replicate (Z.to_nat ((56 - Z.of_nat (len + p)) mod 64)) 0.
Proof.
  induction fuel as [|fuel IH]; intros len p H F; [lia|]. cbn [zeros].
  destruct (Nat.eqb_spec ((len + p) mod 64) 56) as [E|E].
  - replace ((56 - Z.of_nat (len + p)) mod 64) with 0; [done|]. apply (f_equal Z.of_nat) in E. rewrite Nat2Z.inj_mod in E. Z.to_euclidean_division_equations; lia.
  - assert (E' : Z.of_nat (len + p) mod 64 <> 56) by (intros X; apply E; apply Nat2Z.inj; rewrite Nat2Z.inj_mod; exact X).
    assert (N : Z.to_nat ((56 - Z.of_nat (len + p)) mod 64) = S (Z.to_nat ((56 - Z.of_nat (len + S p)) mod 64)))
      by (Z.to_euclidean_division_equations; lia).
    rewrite N. cbn [replicate]. f_equal. destruct fuel as [|fuel].
    + destruct (Z.to_nat ((56 - Z.of_nat (len + S p)) mod 64)); [done|lia].
    + apply IH; lia.
Qed.

Lemma be64_u64 n : be64 (u64 n) = be64 n.
Proof.
  unfold be64. apply list_fmap_ext. intros k i Hi. change 0xff with (Z.ones 8).
  assert (0 <= i <= 7) by (do 8 (destruct k; [cbn in Hi; injection Hi as <-; lia|]); destruct k; discriminate).
  rewrite !Z.land_ones by lia. apply Z.bits_inj'. intros j Hj. destruct (Z.ltb_spec j 8).
  - rewrite !Z.mod_pow2_bits_low, !Z.shiftr_spec by lia. unfold u64, wrapu. rewrite Z.mod_pow2_bits_low by lia. done.
  - rewrite !Z.mod_pow2_bits_high by lia. done.
Qed.

Lemma pad_absorbed m s : absorbed m s -> pad s = padding m.
Proof.
  intros (Hb & Hl & Hn & Hc). unfold pad, padding. rewrite Hb, be64_u64.
  assert (E : buflen s = (length m mod 64)%nat).
  { pose proof (blocks_rest_length (length m) H0 m (le_n _)) as R. unfold chain in Hc. rewrite Hc in R. cbn in R.
    rewrite length_take in R. lia. }
  f_equal. f_equal.
  assert (A : (56 - Z.of_nat (buflen s + 1)) mod 64 = (55 - Z.of_nat (length m)) mod 64).
  { rewrite E, Nat2Z.inj_add, Nat2Z.inj_mod. Z.to_euclidean_division_equations; lia. }
  rewrite zeros_replicate; [rewrite A; done| |lia]. pose proof (Z.mod_pos_bound (56 - Z.of_nat (buflen s + 1)) 64). lia.
Qed.

Lemma digest_absorbed m s : absorbed m s -> (digest s).1 = sha256 m.
Proof.
  intros H. unfold digest, sha256. cbn [fst]. rewrite (pad_absorbed m s H).
  destruct (update_absorbed m s (padding m) H) as (_ & _ & _ & C). rewrite C. done.
Qed.

(** * Properties *)

(** C9: However a message is cut into pieces, the empty piece and pieces that end inside a block
    included, the digest of the object that took the pieces one after the other is the SHA-256 of the
    whole message: its padding, in which the length in bits is a 64-bit number, and the chained
    compression of its blocks. *)
Theorem sha256_streaming (l : list (list Z)) : (digest (fold_left update l make)).1 = sha256 (List.concat l).
Proof. apply digest_absorbed, (updates_absorbed l []), absorbed_make. Qed.

(** Remark: Padding needs at most 72 bytes, so the array of 128 suffices, and it completes a block: after
    the digest the buffer is empty. *)
Theorem padding_fits (m : list Z) s : absorbed m s ->
  (9 <= length (pad s) <= 72)%nat /\ buflen (digest s).2 = 0%nat.
Proof.
  intros H. pose proof (update_absorbed m s (padding m) H) as (_ & L & B & C). rewrite (pad_absorbed m s H).
  unfold digest. rewrite (pad_absorbed m s H). cbn [snd].
  assert (P : Z.of_nat (length (padding m)) = 9 + (55 - Z.of_nat (length m)) mod 64).
  { unfold padding. cbn [length]. rewrite length_app, length_replicate. cbn. pose proof (Z.mod_pos_bound (55 - Z.of_nat (length m)) 64). lia. }
  pose proof (Z.mod_pos_bound (55 - Z.of_nat (length m)) 64). split; [lia|].
  pose proof (blocks_rest_length _ H0 (m ++ padding m) (le_n _)) as R. unfold chain in C. rewrite C in R. cbn [snd] in R.
  rewrite length_take, L in R. rewrite Nat.min_l in R by lia. rewrite R. apply Nat2Z.inj.
  rewrite Nat2Z.inj_mod, length_app, Nat2Z.inj_add, P. Z.to_euclidean_division_equations; lia.
Qed.

Lemma padding_fits_witness : absorbed [] make /\ (9 <= length (pad make) <= 72)%nat /\ buflen (digest make).2 = 0%nat.
Proof. split; [apply absorbed_make|]. apply (padding_fits [] make), absorbed_make. Defined.

Lemma concat_pieces fuel n data : (0 < n)%nat -> (length data <= fuel)%nat -> List.concat (pieces fuel n data) = data.
Proof.
  intros Hn. revert data. induction fuel as [|fuel IH]; intros data H; [destruct data; [done|cbn in H; lia]|].
  cbn [pieces]. destruct (Nat.ltb_spec 0 (length data)) as [P|P]; [|destruct data; [done|cbn in P; lia]].
  cbn [List.concat]. rewrite IH by (rewrite length_drop; lia). apply take_drop.
Qed.

Lemma hex_of s s' : (digest s).1 = (digest s').1 -> hex s = hex s'.
Proof. unfold hex. intros ->. done. Qed.

(** Remark: The digest of a file, read 4096 bytes at a time, is the digest of its bytes. *)
Theorem sha256_of_file (data : list Z) : sha256File (Some data) = sha256Hex data.
Proof.
  apply hex_of. destruct (Nat.ltb_spec 0 (length data)) as [P|P].
  - change (update make data) with (fold_left update [data] make).
    rewrite (digest_absorbed data), (digest_absorbed data); auto.
    + apply (update_absorbed [] make), absorbed_make.
    + pose proof (updates_absorbed (pieces (length data) 4096 data) [] make absorbed_make) as A.
      rewrite concat_pieces in A by lia. exact A.
  - destruct data; [reflexivity|cbn in P; lia].
Qed.

(** Remark: The vectors of the standard: the empty message, one block, and a message whose padding
    takes a second block. *)
Theorem sha256_vectors :
  let bytes (s : string) := (fun c => Z.of_nat (Ascii.nat_of_ascii c)) <$> String.list_ascii_of_string s in
  sha256Hex (bytes "") = "e3b0c44298fc1c149afbf4c8996fb92427ae41e4649b934ca495991b7852b855" /\
  sha256Hex (bytes "abc") = "ba7816bf8f01cfea414140de5dae2223b00361a396177a9cb410ff61f20015ad" /\
  sha256Hex (bytes "abcdbcdecdefdefgefghfghighijhijkijkljklmklmnlmnomnopnopq") =
    "248d6a61d20638b8e5c026930c3e6039a33ce45964ff2167f6ecedd419db06c1".
Proof. vm_compute. done. Qed.

End Sha256.
