(* ===== verification/MlModel.v ===== *)
(** The numerical parts of the optional machine learning of the prediction engine
    ([third_party/predictions-engine/include/pe/ml] and its sources): feature vector, normaliser,
    logistic model, calibrator, fusion, health counters and latency rings.

    [exp] and [log] of the C library are parameters.  An array with its length is a list; the
    pointers that the source tests against null are never null here.  The counters are 64-bit
    atomics. *)
From stdpp Require Import sorting.
From S2P Require Import Prelude Float64 FloatSign Types Stats PeState PeFeatures PeModels.

Open Scope string_scope.
Open Scope list_scope.
Open Scope Z_scope.

(* @src third_party/predictions-engine/include/pe/ml/ml_types.hpp | struct MLInferenceResult { *)
Record MLInferenceResult := { mr_probability : double; mr_raw_score : double; mr_inference_us : double; mr_valid : bool }.
#[export] Instance eta_MLInferenceResult : Eta MLInferenceResult := fun r =>
  {| mr_probability := mr_probability r; mr_raw_score := mr_raw_score r; mr_inference_us := mr_inference_us r; mr_valid := mr_valid r |}.

Definition no_result : MLInferenceResult := {| mr_probability := f0; mr_raw_score := f0; mr_inference_us := f0; mr_valid := false |}.

(* @src third_party/predictions-engine/include/pe/ml/ml_types.hpp | struct MLModelMetadata { *)
Record MLModelMetadata := { mm_model_id : string; mm_version : string; mm_feature_count : nat; mm_training_hash : string;
  mm_feature_schema_hash : string }.
#[export] Instance eta_MLModelMetadata : Eta MLModelMetadata := fun r =>
  {| mm_model_id := mm_model_id r; mm_version := mm_version r; mm_feature_count := mm_feature_count r;
     mm_training_hash := mm_training_hash r; mm_feature_schema_hash := mm_feature_schema_hash r |}.

(* @src third_party/predictions-engine/include/pe/ml/ml_types.hpp | MAX_ML_FEATURES = 128 *)
Definition MAX_ML_FEATURES : nat := 128.

(** [std::min(hi, std::max(lo, p))]. *)
Definition clip (lo hi p : double) : double := fmin hi (fmax lo p).

Lemma clip_range lo hi p : is_nan lo = false -> is_nan hi = false -> fle lo hi = true ->
  fle lo (clip lo hi p) = true /\ fle (clip lo hi p) hi = true.
Proof.
  intros Hl Hh H. unfold clip, fmin, fmax. destruct (flt lo p) eqn:E1.
  - destruct (flt p hi) eqn:E2; split; forder.
  - destruct (flt lo hi) eqn:E2; split; forder.
Qed.

Lemma clip_in_bounds p : Models.in_bounds (clip (flit 1 100) (flit 99 100) p).
Proof. by apply clip_range. Qed.

(** A NaN is replaced by the lower bound. *)
Lemma clip_nan lo hi : fle lo hi = true -> flt lo hi = true -> clip lo hi S754_nan = lo.
Proof.
  intros _ H. unfold clip, fmax, fmin. assert (flt lo S754_nan = false) as ->; [|by rewrite H].
  unfold flt, SFltb. by rewrite SFcompare_nan_r.
Qed.

(** * Features *)

(* @src third_party/predictions-engine/include/pe/ml/ml_feature_vector.hpp | mlFeatureOrder() *)
Definition mlFeatureOrder : list string := [
  "sample_size"; "quality_score"; "mean_crash"; "std_crash"; "ewma_crash"; "ewma_hit_13";
  "hit_1_30_20"; "hit_1_30_50"; "hit_1_30_100"; "hit_1_30_200"; "short_mean"; "short_std"; "short_hit_13";
  "since_13"; "since_20"; "since_50"; "since_100"; "lag_1"; "lag_2"; "lag_3"; "lag_5"; "lag_diff_1"; "lag_ratio_1";
  "run_below_1_30"; "run_above_1_30"; "run_below_2_00"; "run_above_2_00"; "markov_p_up"; "markov_p_stay_up"; "markov_p_stay_down";
  "spectral_acf1"; "spectral_acf2"; "entropy_binary_13"; "entropy_short_13"; "entropy_ratio";
  "hour_sin"; "hour_cos"; "dow_sin"; "dow_cos"; "is_weekend"; "hit_13"; "hit_20"; "hit_50"; "hit_ratio_20_13"; "hit_ratio_50_13";
  "gap_s"; "log_lag_1"; "gap_count"].

(** The features in order, absent ones as zero; [None] when one is not finite. *)
(* @src third_party/predictions-engine/src/ml/ml_preprocessor.cpp | bool preprocess(const pe::FeatureVector& features, *)
Definition preprocess (features : Features) (capacity : nat) : option (list double) :=
  if (capacity <? length mlFeatureOrder)%nat then None
  else mapM (fun k => let v := default f0 (features !! k) in if is_finite v then Some v else None) mlFeatureOrder.

(** * [MLNormalizer] *)
Module MLNormalizer.

(* @src third_party/predictions-engine/include/pe/ml/ml_normalizer.hpp | std::vector<double> mean_; >> std::vector<double> scale_; | MLNormalizer *)
Record t := { mean_ : list double; scale_ : list double }.

Definition empty : t := {| mean_ := []; scale_ := [] |}.

(* @src third_party/predictions-engine/src/ml/ml_normalizer.cpp | MLNormalizer::MLNormalizer( *)
Definition make (mean scale : list double) : t :=
  let scale := if (length scale =? length mean)%nat then scale else replicate (length mean) f1 in
  {| mean_ := mean; scale_ := (fun s => if negb (fgt s f0) || negb (is_finite s) then f1 else s) <$> scale |}.

(* @src third_party/predictions-engine/src/ml/ml_normalizer.cpp | void MLNormalizer::transform( *)
Definition transform (n : t) (input : list double) : list double :=
  let k := Nat.min (length input) (length (mean_ n)) in
  zip_with (fun x ms => fdiv (fsub x ms.1) ms.2) (take k input) (zip (mean_ n) (scale_ n)) ++ drop k input.

(** Remark: What the constructor stores: as many scales as means, each positive and finite, so no
    quotient of [transform] divides by zero; and [transform] keeps the number of features. *)
Theorem normalizer_well_formed (mean scale : list double) (input : list double) :
  let n := make mean scale in
  length (scale_ n) = length (mean_ n) /\ Forall (fun s => fpositive s = true) (scale_ n) /\
  length (transform n input) = length input.
Proof.
  assert (length (scale_ (make mean scale)) = length mean) as Hl.
  { cbn [make scale_]. rewrite length_fmap. destruct (Nat.eqb_spec (length scale) (length mean)); [done|by rewrite length_replicate]. }
  cbv zeta. split_and!; [exact Hl| |].
  - apply Forall_fmap, Forall_true. intros s. cbn. by destruct s as [|[]| |[]].
  - unfold transform. rewrite length_app, length_zip_with, length_take, length_drop, length_zip, Hl. cbn [make mean_]. lia.
Qed.
End MLNormalizer.

Section Numbers.
Variable exp log : double -> double.

(** The sigmoid, computed with the exponential of a number that is not positive. *)
(* @src third_party/predictions-engine/include/pe/ml/ml_logistic_model.hpp | // numerically stable sigmoid >> p = e / (1.0 + e); | MLLogisticModel::predict *)
Definition stable_sigmoid (logit : double) : double :=
  if fge logit f0 then let e := exp (SFopp logit) in fdiv f1 (fadd f1 e)
  else let e := exp logit in fdiv e (fadd f1 e).

(** * [MLLogisticModel] *)

(* @src third_party/predictions-engine/include/pe/ml/ml_logistic_model.hpp | MLModelMetadata meta_; >> double bias_ = 0.0; | MLLogisticModel *)
Record MLLogisticModel := { lm_meta : MLModelMetadata; lm_weights : list double; lm_bias : double }.

(* @src third_party/predictions-engine/include/pe/ml/ml_logistic_model.hpp | MLLogisticModel(MLModelMetadata meta, *)
Definition make_logistic (meta : MLModelMetadata) (weights : list double) (bias : double) : MLLogisticModel :=
  {| lm_meta := meta <| mm_feature_count := length weights |>; lm_weights := weights; lm_bias := bias |}.

(* @src third_party/predictions-engine/include/pe/ml/ml_logistic_model.hpp | std::size_t featureCount() const noexcept override *)
Definition featureCount (m : MLLogisticModel) : nat := length (lm_weights m).

Definition logit_of (m : MLLogisticModel) (x : list double) : double :=
  fold_left (fun acc wx => fadd acc (fmul wx.1 wx.2)) (zip (lm_weights m) x) (lm_bias m).

(* @src third_party/predictions-engine/include/pe/ml/ml_logistic_model.hpp | MLInferenceResult predict(const MLFeatureVector& features) const noexcept override { *)
Definition predict (m : MLLogisticModel) (x : list double) : MLInferenceResult :=
  if negb (length x =? length (lm_weights m))%nat then no_result
  else
    let logit := logit_of m x in
    let p := stable_sigmoid logit in
    if negb (is_finite p) then no_result
    else {| mr_probability := clip (flit 1 100) (flit 99 100) p; mr_raw_score := logit; mr_inference_us := f0; mr_valid := true |}.

(** [us] is what the clock measures around the model. *)
(* @src third_party/predictions-engine/src/ml/ml_inference.cpp | MLInferenceResult MLInference::run( *)
Definition run (model : option MLLogisticModel) (x : list double) (us : double) : MLInferenceResult :=
  match model with
  | None => no_result
  | Some m =>
      if (length x =? 0)%nat then no_result
      else if negb (length x =? featureCount m)%nat then no_result
      else (predict m x) <| mr_inference_us := us |>
  end.

(** * [MLCalibrator] *)

(* @src third_party/predictions-engine/include/pe/ml/ml_calibrator.hpp | enum class CalibrationMethod *)
Inductive CalibrationMethod := CalNone | CalPlatt | CalIsotonic.

(* @src third_party/predictions-engine/include/pe/ml/ml_calibrator.hpp | CalibrationMethod method_ = >> std::vector<double> iso_y_; | MLCalibrator *)
Record MLCalibrator := { method_ : CalibrationMethod; platt_a : double; platt_b : double; iso_x : list double; iso_y : list double }.

Definition no_calibrator : MLCalibrator := {| method_ := CalNone; platt_a := f1; platt_b := f0; iso_x := []; iso_y := [] |}.

(* @src third_party/predictions-engine/src/ml/ml_calibrator.cpp | MLCalibrator MLCalibrator::platt( *)
Definition platt (a b : double) : MLCalibrator := {| method_ := CalPlatt; platt_a := a; platt_b := b; iso_x := []; iso_y := [] |}.

(* @src third_party/predictions-engine/src/ml/ml_calibrator.cpp | MLCalibrator MLCalibrator::isotonic( *)
Definition isotonic (x y : list double) : MLCalibrator := {| method_ := CalIsotonic; platt_a := f1; platt_b := f0; iso_x := x; iso_y := y |}.

(** The first segment, between two neighbouring breaks, whose end is not below [p]. *)
(* @src third_party/predictions-engine/src/ml/ml_calibrator.cpp | for (std::size_t i = 1; i < iso_x_.size(); ++i) { >> return iso_y_[i - 1] + t | MLCalibrator::calibrate *)
Fixpoint segment (p : double) (xys : list (double * double)) : option double :=
  match xys with
  | (x0, y0) :: (((x1, y1) :: _) as rest) =>
      if fle p x1 then
        let t := fdiv (fsub p x0) (fadd (fsub x1 x0) (flit 1 (10 ^ 15))) in
        Some (fadd y0 (fmul t (fsub y1 y0)))
      else segment p rest
  | _ => None
  end.

(* @src third_party/predictions-engine/src/ml/ml_calibrator.cpp | double MLCalibrator::calibrate( *)
Definition calibrate (c : MLCalibrator) (raw : double) : double :=
  if negb (is_finite raw) then flit 1 2
  else
    let p := clip (flit 1 1000) (flit 999 1000) raw in
    match method_ c with
    | CalPlatt =>
        let logit := log (fdiv p (fsub f1 p)) in
        let z := fadd (fmul (platt_a c) logit) (platt_b c) in
        clip (flit 1 100) (flit 99 100) (stable_sigmoid z)
    | CalIsotonic =>
        match zip (iso_x c) (iso_y c), last (iso_x c), last (iso_y c) with
        | (x0, y0) :: _, Some xn, Some yn =>
            if negb (length (iso_x c) =? length (iso_y c))%nat then p
            else if fle p x0 then y0
            else if fge p xn then yn
            else default p (segment p (zip (iso_x c) (iso_y c)))
        | _, _, _ => p
        end
    | CalNone => p
    end.

(** * [MLFusion] *)

(* @src third_party/predictions-engine/include/pe/ml/ml_fusion.hpp | struct FusionInput { *)
Record FusionInput := { fi_stat_p : double; fi_ml_p : double; fi_stat_conf : double; fi_ml_conf : double; fi_disagreement : double;
  fi_regime_conf : double }.

(* @src third_party/predictions-engine/include/pe/ml/ml_fusion.hpp | double w0_ = 0.0; >> double w_regime_ = 0.0; | MLFusion *)
Record MLFusion := { w0 : double; w_stat : double; w_ml : double; w_disagree : double; w_regime : double }.

(* @src third_party/predictions-engine/src/ml/ml_fusion.cpp | MLFusion MLFusion::fixedWeight( *)
Definition fixedWeight (ml_weight : double) : MLFusion :=
  let w := clip f0 f1 ml_weight in {| w0 := f0; w_stat := fsub f1 w; w_ml := w; w_disagree := f0; w_regime := f0 |}.

Definition small (x bound : double) : bool := flt (SFabs x) bound.

(** The answer is a probability and a confidence. *)
(* @src third_party/predictions-engine/src/ml/ml_fusion.cpp | FusionResult MLFusion::fuse( *)
Definition fuse (f : MLFusion) (i : FusionInput) : double * double :=
  let disagree := SFabs (fsub (fi_stat_p i) (fi_ml_p i)) in
  let eps := flit 1 (10 ^ 12) in
  let p :=
    if small (w0 f) eps && small (w_disagree f) eps && small (w_regime f) eps && small (fsub (fadd (w_stat f) (w_ml f)) f1) (flit 1 (10 ^ 9))
    then fadd (fmul (w_stat f) (fi_stat_p i)) (fmul (w_ml f) (fi_ml_p i))
    else stable_sigmoid
           (fadd (fadd (fadd (fadd (w0 f) (fmul (w_stat f) (fi_stat_p i))) (fmul (w_ml f) (fi_ml_p i))) (fmul (w_disagree f) disagree))
                 (fmul (w_regime f) (fi_regime_conf i)))
  in
  (clip (flit 1 100) (flit 99 100) p, fmin (flit 95 100) (fadd (fmul (flit 1 2) (fi_stat_conf i)) (fmul (flit 1 2) (fi_ml_conf i)))).

(** Remark: a valid answer of the model is a probability between 0.01 and 0.99; there is none when the
    number of features differs from that of the weights. *)
Theorem logistic_bounded (m : MLLogisticModel) (x : list double) :
  if mr_valid (predict m x) then length x = featureCount m /\ Models.in_bounds (mr_probability (predict m x))
  else predict m x = no_result.
Proof.
  unfold predict. destruct (Nat.eqb_spec (length x) (length (lm_weights m))) as [H|H]; [|done]. cbn [negb].
  destruct (is_finite _); [|done]. split; [exact H|apply clip_in_bounds].
Qed.

(** Remark: calibrating by Platt's method gives a probability between 0.01 and 0.99, and 0.5 for what is
    not finite.  (The isotonic method answers whatever its table holds.) *)
Theorem platt_bounded (a b raw : double) :
  if is_finite raw then Models.in_bounds (calibrate (platt a b) raw) else calibrate (platt a b) raw = flit 1 2.
Proof. unfold calibrate. destruct (is_finite raw); [|done]. apply clip_in_bounds. Qed.

(** Remark: a fused probability is between 0.01 and 0.99 and a fused confidence at most 0.95, whatever
    the weights and the inputs. *)
Theorem fuse_bounded (f : MLFusion) (i : FusionInput) :
  Models.in_bounds (fuse f i).1 /\ (is_nan (fuse f i).2 = false -> fle (fuse f i).2 (flit 95 100) = true).
Proof.
  split; [apply clip_in_bounds|]. cbn [fuse snd]. unfold fmin. intros Hn. destruct (flt _ _) eqn:E; [by apply flt_fle|done].
Qed.
End Numbers.

(** * [MLHealth] *)
Module MLHealth.

(* @src third_party/predictions-engine/include/pe/ml/ml_health.hpp | std::atomic<std::uint64_t> inference_count_{0}; >> us_sum_{0}; | MLHealth *)
Record t := { inference_count : Z; error_count : Z; nan_count : Z; mismatch_count : Z; us_sum : Z }.
#[export] Instance eta_t : Eta t := fun r =>
  {| inference_count := inference_count r; error_count := error_count r; nan_count := nan_count r; mismatch_count := mismatch_count r;
     us_sum := us_sum r |}.

(* @src third_party/predictions-engine/src/ml/ml_health.cpp | void MLHealth::reset() noexcept { *)
Definition reset : t := {| inference_count := 0; error_count := 0; nan_count := 0; mismatch_count := 0; us_sum := 0 |}.

(* @src third_party/predictions-engine/src/ml/ml_health.cpp | void MLHealth::recordSuccess( *)
Definition recordSuccess (h : t) (us : double) : t :=
  let h := h <| inference_count ::= bump |> in
  if fgt us f0 then h <| us_sum ::= fun s => u64 (s + ftrunc us) |> else h.

(* @src third_party/predictions-engine/src/ml/ml_health.cpp | void MLHealth::recordError() noexcept { *)
Definition recordError (h : t) : t := h <| error_count ::= bump |> <| inference_count ::= bump |>.

(* @src third_party/predictions-engine/src/ml/ml_health.cpp | void MLHealth::recordNaN() noexcept { *)
Definition recordNaN (h : t) : t := h <| nan_count ::= bump |> <| error_count ::= bump |> <| inference_count ::= bump |>.

(* @src third_party/predictions-engine/src/ml/ml_health.cpp | void MLHealth::recordFeatureMismatch() noexcept { *)
Definition recordFeatureMismatch (h : t) : t := h <| mismatch_count ::= bump |> <| error_count ::= bump |> <| inference_count ::= bump |>.

(* @src third_party/predictions-engine/src/ml/ml_health.cpp | bool MLHealth::shouldDegrade( *)
Definition shouldDegrade (h : t) (max_error_rate : double) : bool :=
  if inference_count h <? 50 then false else fgt (fdiv (of_Z (error_count h)) (of_Z (inference_count h))) max_error_rate.

(** The default argument of [shouldDegrade]. *)
Definition MAX_ERROR_RATE : double := flit 5 100.

Inductive Event := Success (us : double) | Error | NotANumber | Mismatch.

Definition record (h : t) (e : Event) : t :=
  match e with Success us => recordSuccess h us | Error => recordError h | NotANumber => recordNaN h | Mismatch => recordFeatureMismatch h end.

Definition is_error (e : Event) : bool := match e with Success _ => false | _ => true end.

(** Remark: the counters are those of the recorded events, as long as they fit in 64 bits; in
    particular errors never outnumber inferences. *)
Theorem health_counts (l : list Event) : Z.of_nat (length l) < 2 ^ 64 ->
  let h := fold_left record l reset in
  inference_count h = Z.of_nat (length l) /\ error_count h = Z.of_nat (length (List.filter is_error l)) /\
  error_count h <= inference_count h.
Proof.
  induction l as [|e l IH] using rev_ind; intros Hl; [done|].
  rewrite length_app in *. cbn [length] in *. destruct IH as (H1 & H2 & H3); [lia|].
  cbv zeta. rewrite fold_left_app, List.filter_app, length_app. cbn [fold_left]. set (h := fold_left record l reset) in *.
  assert (bump (inference_count h) = inference_count h + 1) as B1 by (apply bump_small; lia).
  assert (bump (error_count h) = error_count h + 1) as B2 by (apply bump_small; lia).
  destruct e as [us| | |]; cbn [record]; unfold recordSuccess; [destruct (fgt us f0)|..]; cbn; lia.
Qed.

Lemma health_counts_witness : Z.of_nat (length [Success f1; Error; Mismatch]) < 2 ^ 64 /\
  error_count (fold_left record [Success f1; Error; Mismatch] reset) = 2.
Proof. split; [done|]. apply (health_counts [Success f1; Error; Mismatch]). done. Defined.
End MLHealth.

(** * [MLMetrics] *)
Module MLMetrics.

(* @src third_party/predictions-engine/include/pe/ml/ml_metrics.hpp | struct LatencyStats { *)
Record LatencyStats := { p50 : double; p95 : double; p99 : double; max : double; mean : double; count_ : Z }.

(* @src third_party/predictions-engine/include/pe/ml/ml_metrics.hpp | static constexpr int kStages = 4; >> kRing = 512; | MLMetrics *)
Definition kStages : nat := 4.
Definition kRing : nat := 512.

(* @src third_party/predictions-engine/include/pe/ml/ml_metrics.hpp | static constexpr int kPrep = 0; >> static constexpr int kFuse = 3; | MLMetrics *)
Definition kPrep : Z := 0.
Definition kInfer : Z := 1.
Definition kCal : Z := 2.
Definition kFuse : Z := 3.

(* @src third_party/predictions-engine/include/pe/ml/ml_metrics.hpp | struct StageRing { *)
Record StageRing := { buf : list double; idx : Z; count : Z }.

Definition t : Type := list StageRing.

Definition make : t := replicate kStages {| buf := replicate kRing f0; idx := 0; count := 0 |}.

Definition note (us : double) (s : StageRing) : StageRing :=
  {| buf := <[Z.to_nat (idx s mod Z.of_nat kRing) := us]> (buf s); idx := bump (idx s); count := bump (count s) |}.

(* @src third_party/predictions-engine/src/ml/ml_metrics.cpp | void MLMetrics::recordStage( *)
Definition recordStage (m : t) (stage : Z) (us : double) : t :=
  if (stage <? 0) || (Z.of_nat kStages <=? stage) || negb (is_finite us) then m else alter (note us) (Z.to_nat stage) m.

Definition no_stats : LatencyStats := {| p50 := f0; p95 := f0; p99 := f0; max := f0; mean := f0; count_ := 0 |}.

Definition at_ (v : list double) (i : nat) : double := default f0 (v !! i).

(* @src third_party/predictions-engine/src/ml/ml_metrics.cpp | LatencyStats MLMetrics::stats( *)
Definition stats (m : t) (stage : Z) : LatencyStats :=
  if (stage <? 0) || (Z.of_nat kStages <=? stage) then no_stats
  else match m !! Z.to_nat stage with
       | None => no_stats
       | Some s =>
           if count s =? 0 then no_stats
           else
             let taken := Z.to_nat (Z.min (count s) (Z.of_nat kRing)) in
             let v := CrashStatsAccumulator.sort_doubles (take taken (buf s)) in
             let n := length v in
             {| p50 := at_ v (n * 50 / 100); p95 := at_ v (Nat.min (n - 1) (n * 95 / 100)); p99 := at_ v (Nat.min (n - 1) (n * 99 / 100));
                max := default f0 (last v); mean := fdiv (fold_left fadd v f0) (of_Z (Z.of_nat n)); count_ := count s |}
       end.

(** The rings keep their content. *)
(* @src third_party/predictions-engine/src/ml/ml_metrics.cpp | void MLMetrics::reset() noexcept { *)
Definition reset (m : t) : t := (fun s => {| buf := buf s; idx := 0; count := 0 |}) <$> m.

(** What one stage has recorded since the last reset: the positions up to 64 bits are those of a
    ring whose older content is arbitrary. *)
Definition recorded (h : list double) (s : StageRing) : Prop :=
  Z.of_nat (length h) < 2 ^ 64 /\ idx s = Z.of_nat (length h) /\ count s = Z.of_nat (length h) /\ length (buf s) = kRing /\
  forall i, (i < length h)%nat -> (length h < i + S kRing)%nat -> buf s !! (i mod kRing)%nat = h !! i.

Lemma note_recorded h s us : recorded h s -> Z.of_nat (length h) + 1 < 2 ^ 64 -> recorded (h ++ [us]) (note us s).
Proof.
  intros (_ & Hi & Hc & Hl & Hr) Hn. unfold recorded. cbn [note buf idx count]. rewrite length_app, length_insert. cbn [length].
  rewrite Hi, Hc, !bump_small by lia. split_and!; try lia. intros i H1 H2.
  replace (Z.to_nat (Z.of_nat (length h) mod Z.of_nat kRing)) with (length h mod kRing)%nat by (rewrite <- Nat2Z.inj_mod; lia).
  destruct (decide (i = length h)) as [->|Hne].
  - rewrite list_lookup_insert_eq by (rewrite Hl; by apply Nat.mod_upper_bound). by rewrite lookup_app_r, Nat.sub_diag by lia.
  - rewrite list_lookup_insert_ne by (apply not_eq_sym, mod_apart; lia). rewrite lookup_app_l by lia. apply Hr; lia.
Qed.

(** The part of the ring that [stats] reads is, up to its order, the newest recordings. *)
Lemma recorded_window h s : recorded h s -> take (Z.to_nat (Z.min (count s) (Z.of_nat kRing))) (buf s) ≡ₚ trim_front kRing h.
Proof.
  intros (Hn & _ & Hc & Hl & Hr). rewrite Hc. destruct (decide (length h <= kRing)%nat) as [Hs|Hb].
  - (* the ring is not full: the history itself *)
    rewrite trim_front_fits by done. replace (Z.to_nat _) with (length h) by lia.
    enough (take (length h) (buf s) = h) as -> by done.
    apply list_eq. intros i. destruct (decide (i < length h)%nat) as [Hi|Hi].
    + rewrite lookup_take_lt by lia. rewrite <- Hr by lia. rewrite Nat.mod_small by lia. done.
    + rewrite lookup_take_ge by lia. symmetry. apply lookup_ge_None. lia.
  - (* it is full: a rotation of the window *)
    replace (Z.to_nat _) with kRing by lia. rewrite take_ge by lia.
    set (k := (length h mod kRing)%nat). assert (k < kRing)%nat as Hk by (by apply Nat.mod_upper_bound).
    rewrite <- (take_drop k (buf s)), Permutation_app_comm.
    enough (drop k (buf s) ++ take k (buf s) = trim_front kRing h) as -> by done.
    unfold trim_front. apply list_eq. intros i. rewrite lookup_drop.
    destruct (decide (i < kRing)%nat) as [Hi|Hi].
    2: { rewrite !(proj2 (lookup_ge_None _ _)); [done|lia|rewrite length_app, length_drop, length_take; lia]. }
    rewrite <- Hr by lia. replace (length h - kRing + i)%nat with (length h + i - kRing)%nat by lia.
    assert ((length h + i - kRing) mod kRing = (k + i) mod kRing)%nat as ->.
    { unfold k. rewrite Nat.Div0.add_mod_idemp_l. rewrite <- (Nat.Div0.mod_add (length h + i - kRing) 1 kRing). f_equal. lia. }
    destruct (decide (k + i < kRing)%nat) as [Hki|Hki].
    + rewrite lookup_app_l by (rewrite length_drop; lia). rewrite lookup_drop, Nat.mod_small by lia. done.
    + rewrite lookup_app_r by (rewrite length_drop; lia). rewrite length_drop, Hl.
      replace ((k + i) mod kRing)%nat with (k + i - kRing)%nat.
      2: { rewrite <- (Nat.mod_small (k + i - kRing) kRing) by lia. rewrite <- (Nat.Div0.mod_add (k + i - kRing) 1 kRing). f_equal. lia. }
      rewrite lookup_take_lt by lia. f_equal. lia.
Qed.

Lemma sort_perm l : CrashStatsAccumulator.sort_doubles l ≡ₚ l.
Proof. apply merge_sort_Permutation. Qed.

Lemma at_lookup v i : (i < length v)%nat -> v !! i = Some (at_ v i).
Proof. intros H. unfold at_. by destruct (lookup_lt_is_Some_2 v i H) as [x ->]. Qed.

(** Remark: The statistics of a stage are those of its newest recordings, 512 at most, whatever was
    recorded before the last reset: the percentiles are read from the sorted permutation [v] of them,
    at positions that exist, and the count is that of all recordings. *)
Theorem stats_of_newest (m : t) (stage : Z) (s : StageRing) (h : list double) :
  0 <= stage < Z.of_nat kStages -> m !! Z.to_nat stage = Some s -> recorded h s -> h <> [] ->
  exists v, v ≡ₚ trim_front kRing h /\ (exists l, v = CrashStatsAccumulator.sort_doubles l) /\
    let n := Nat.min (length h) kRing in
    count_ (stats m stage) = Z.of_nat (length h) /\
    v !! (n * 50 / 100)%nat = Some (p50 (stats m stage)) /\ v !! Nat.min (n - 1) (n * 95 / 100) = Some (p95 (stats m stage)) /\
    v !! Nat.min (n - 1) (n * 99 / 100) = Some (p99 (stats m stage)) /\ last v = Some (max (stats m stage)).
Proof.
  intros [H0 H1] Hm Hr Hh. pose proof (recorded_window h s Hr) as Hp. destruct Hr as (_ & _ & Hc & _).
  unfold stats. rewrite (proj2 (Z.ltb_ge _ _) H0), (proj2 (Z.leb_gt _ _) H1), Hm. cbn [orb].
  assert (0 < length h)%nat by (destruct h; [done|cbn; lia]).
  rewrite (proj2 (Z.eqb_neq _ _)) by lia. cbv zeta. set (l := take _ (buf s)) in *.
  set (v := CrashStatsAccumulator.sort_doubles l). exists v.
  assert (v ≡ₚ trim_front kRing h) as Hv by (unfold v; by rewrite sort_perm).
  assert (length v = Nat.min (length h) kRing) as Hl by (rewrite Hv; apply length_trim_front).
  assert (0 < Nat.min (length h) kRing)%nat by (unfold kRing; lia). rewrite Hl.
  cbn [p50 p95 p99 max count_]. split_and!; [exact Hv|by exists l|exact Hc|..]; try (apply at_lookup; rewrite Hl; first [lia|apply Nat.Div0.div_lt_upper_bound; lia]).
  rewrite last_lookup, Hl. destruct (lookup_lt_is_Some_2 v (pred (Nat.min (length h) kRing))) as [x E]; [lia|]. by rewrite E.
Qed.

(** Three recordings of a stage that had recorded before a reset. *)
Definition used : t := recordStage (recordStage (recordStage (reset (recordStage make kInfer (of_Z 900))) kInfer (of_Z 5)) kInfer (of_Z 7)) kInfer (of_Z 6).

Lemma stats_of_newest_witness : exists v, v ≡ₚ [of_Z 5; of_Z 7; of_Z 6] /\ last v = Some (max (stats used kInfer)) /\
  count_ (stats used kInfer) = 3.
Proof.
  destruct (stats_of_newest used kInfer (default {| buf := []; idx := 0; count := 0 |} (used !! 1%nat)) [of_Z 5; of_Z 7; of_Z 6])
    as (v & Hv & _ & Hc & _ & _ & _ & Hl); [done|done| |done|].
  - split_and!; [done..|]. intros i Hi _. do 3 (destruct i as [|i]; [done|]). cbn in Hi. lia.
  - exists v. split_and!; [exact Hv|exact Hl|exact Hc].
Defined.
End MLMetrics.
