(* ===== verification/MlLoader.v ===== *)
(** Model files of the optional machine learning: the binary format that
    [third_party/predictions-engine/training/export_model.py] writes and
    [src/ml/ml_model_loader.cpp] reads, with its checksum, schema and metadata files.

    A file is its bytes ([None] when it cannot be opened), [files] gives the file of a path; a
    reader takes a prefix of the bytes that are left, like a stream that fails when it has too few. *)
From Stdlib Require Import Ascii.
From S2P Require Import Prelude Float64 FloatSign Types Config PeState PeFeatures PeModels PeEngine Sha256 MlModel.

Open Scope string_scope.
Open Scope list_scope.
Open Scope Z_scope.

(** * Numbers as bytes *)

Definition le (bs : list Z) : Z := foldr (fun b acc => b + 256 * acc) 0 bs.

Fixpoint to_le (n : nat) (z : Z) : list Z := match n with O => [] | S n => z mod 256 :: to_le n (z / 256) end.

Lemma le_to_le n z : 0 <= z < 256 ^ Z.of_nat n -> le (to_le n z) = z.
Proof.
  revert z. induction n as [|n IH]; intros z Hz; [cbn in *; lia|]. cbn [to_le le foldr]. fold (le (to_le n (z / 256))).
  rewrite IH; [pose proof (Z.div_mod z 256); lia|]. rewrite Nat2Z.inj_succ, Z.pow_succ_r in Hz by lia.
  split; [apply Z.div_pos; lia|apply Z.div_lt_upper_bound; lia].
Qed.

Lemma length_to_le n z : length (to_le n z) = n.
Proof. revert z. induction n as [|n IH]; intros z; cbn; [done|by rewrite IH]. Qed.

(** The double with a given pattern of 64 bits, and the pattern of a double. *)
Definition double_of_bits (z : Z) : double :=
  let s := Z.testbit z 63 in
  let e := z / 2 ^ 52 mod 2048 in
  let m := z mod 2 ^ 52 in
  if e =? 0 then (if m =? 0 then S754_zero s else S754_finite s (Z.to_pos m) (-1074))
  else if e =? 2047 then (if m =? 0 then S754_infinity s else S754_nan)
  else S754_finite s (Z.to_pos (m + 2 ^ 52)) (e - 1075).

Definition sign_bit (s : bool) : Z := if s then 2 ^ 63 else 0.

Definition bits_of_double (x : double) : Z :=
  match x with
  | S754_zero s => sign_bit s
  | S754_infinity s => sign_bit s + 2047 * 2 ^ 52
  | S754_nan => 2047 * 2 ^ 52 + 2 ^ 51
  | S754_finite s m e => sign_bit s + if Z.pos m <? 2 ^ 52 then Z.pos m else (e + 1075) * 2 ^ 52 + (Z.pos m - 2 ^ 52)
  end.

(** The parts of a pattern. *)
Lemma pattern_parts s e m : 0 <= e < 2048 -> 0 <= m < 2 ^ 52 ->
  let z := sign_bit s + (e * 2 ^ 52 + m) in
  Z.testbit z 63 = s /\ z / 2 ^ 52 mod 2048 = e /\ z mod 2 ^ 52 = m /\ 0 <= z < 2 ^ 64.
Proof.
  intros He Hm z. assert (z = (2048 * (if s then 1 else 0) + e) * 2 ^ 52 + m) as Ez by (unfold z, sign_bit; destruct s; lia).
  assert (z / 2 ^ 52 = 2048 * (if s then 1 else 0) + e) as Eq.
  { symmetry. apply (Z.div_unique z (2 ^ 52) _ m); [left; lia|lia]. }
  assert (z / 2 ^ 63 = if s then 1 else 0) as Es.
  { symmetry. apply (Z.div_unique z (2 ^ 63) _ (e * 2 ^ 52 + m)); [left; lia|destruct s; lia]. }
  split_and!; [| | |destruct s; lia|destruct s; lia].
  - rewrite Z.testbit_eqb, Es by lia. by destruct s.
  - rewrite Eq. symmetry. apply (Z.mod_unique _ 2048 (if s then 1 else 0)); [left; lia|lia].
  - symmetry. apply (Z.mod_unique z (2 ^ 52) (2048 * (if s then 1 else 0) + e)); [left; lia|lia].
Qed.

Lemma canonical_exponent s m e : canonical (S754_finite s m e) = true -> e <= 971.
Proof. unfold canonical, valid_binary, bounded. intros [_ H]%andb_true_iff. unfold prec64, emax64 in H. lia. Qed.

(** Every number of the hardware, infinities and NaN included, is read back from its pattern. *)
Lemma double_bits_roundtrip x : canonical x = true \/ is_finite x = false ->
  double_of_bits (bits_of_double x) = x /\ 0 <= bits_of_double x < 2 ^ 64.
Proof.
  intros Hx. destruct x as [s|s| |s m e]; [by destruct s|by destruct s|done|].
  destruct Hx as [Hx|Hx]; [|done]. pose proof (canonical_mantissa_bounds s m e Hx) as (Hm & He & Hn).
  pose proof (canonical_exponent s m e Hx) as Hu. cbn [bits_of_double]. destruct (Z.ltb_spec (Z.pos m) (2 ^ 52)) as [H|H].
  - assert (e = -1074) as -> by lia.
    destruct (pattern_parts s 0 (Z.pos m)) as (Ps & Pe & Pm & Pr); [lia|lia|]. rewrite Z.mul_0_l, Z.add_0_l in *.
    split; [|exact Pr]. unfold double_of_bits. rewrite Ps, Pe, Pm. done.
  - destruct (pattern_parts s (e + 1075) (Z.pos m - 2 ^ 52)) as (Ps & Pe & Pm & Pr); [lia|lia|].
    split; [|exact Pr]. unfold double_of_bits. rewrite Ps, Pe, Pm.
    rewrite (proj2 (Z.eqb_neq _ _)), (proj2 (Z.eqb_neq _ _)) by lia.
    replace (Z.pos m - 2 ^ 52 + 2 ^ 52) with (Z.pos m) by lia. rewrite Pos2Z.id. f_equal. lia.
Qed.

(** * Reading *)

Definition Reader (A : Type) : Type := list Z -> option (A * list Z).

Definition ret {A} (a : A) : Reader A := fun bs => Some (a, bs).
Definition refuse {A} : Reader A := fun _ => None.
Definition bind {A B} (r : Reader A) (k : A -> Reader B) : Reader B := fun bs => match r bs with Some (a, bs) => k a bs | None => None end.

#[local] Notation "x <- r ;; k" := (bind r (fun x => k)) (at level 100, r at next level, right associativity, only parsing).

(* @src third_party/predictions-engine/src/ml/ml_model_loader.cpp | bool readPod(std::ifstream& in, T& v) { *)
Definition readPod (n : nat) : Reader (list Z) := fun bs => if (n <=? length bs)%nat then Some (take n bs, drop n bs) else None.

Definition read_u8 : Reader Z := bs <- readPod 1;; ret (le bs).
Definition read_u32 : Reader Z := bs <- readPod 4;; ret (le bs).
Definition read_double : Reader double := bs <- readPod 8;; ret (double_of_bits (le bs)).

Fixpoint read_doubles (n : nat) : Reader (list double) :=
  match n with
  | O => ret []
  | S n => x <- read_double;; xs <- read_doubles n;; ret (x :: xs)
  end.

Definition put_u8 (z : Z) : list Z := to_le 1 z.
Definition put_u32 (z : Z) : list Z := to_le 4 z.
Definition put_double (x : double) : list Z := to_le 8 (bits_of_double x).
Definition put_doubles (l : list double) : list Z := List.concat (put_double <$> l).

(** Reading what was put. *)
Lemma readPod_app n l rest : length l = n -> readPod n (l ++ rest) = Some (l, rest).
Proof.
  intros <-. unfold readPod. rewrite length_app, (proj2 (Nat.leb_le _ _)) by lia. by rewrite take_app_length, drop_app_length.
Qed.

Lemma read_u8_put z rest : 0 <= z < 256 -> read_u8 (put_u8 z ++ rest) = Some (z, rest).
Proof. intros H. unfold read_u8, bind, put_u8. rewrite readPod_app by apply length_to_le. unfold ret. by rewrite le_to_le. Qed.

Lemma read_u32_put z rest : 0 <= z < 2 ^ 32 -> read_u32 (put_u32 z ++ rest) = Some (z, rest).
Proof. intros H. unfold read_u32, bind, put_u32. rewrite readPod_app by apply length_to_le. unfold ret. by rewrite le_to_le. Qed.

(** What a file can hold: a canonical number, or no number. *)
Definition storable (x : double) : Prop := canonical x = true \/ is_finite x = false.

Lemma read_double_put x rest : storable x -> read_double (put_double x ++ rest) = Some (x, rest).
Proof.
  intros H. destruct (double_bits_roundtrip x H) as [E R]. unfold read_double, bind, put_double.
  rewrite readPod_app by apply length_to_le. unfold ret. by rewrite le_to_le, E.
Qed.

Lemma read_doubles_put l rest : Forall storable l -> read_doubles (length l) (put_doubles l ++ rest) = Some (l, rest).
Proof.
  induction 1 as [|x l Hx _ IH]; [done|]. unfold put_doubles. cbn [fmap list_fmap List.concat length read_doubles]. rewrite <- app_assoc.
  unfold bind at 1. rewrite read_double_put by done. fold (put_doubles l). unfold bind at 1. by rewrite IH.
Qed.

(** * Text files *)

Definition text (bs : list Z) : string := String.string_of_list_ascii ((fun b => ascii_of_nat (Z.to_nat b)) <$> bs).
Definition bytes (s : string) : list Z := (fun c => Z.of_nat (nat_of_ascii c)) <$> String.list_ascii_of_string s.

Lemma text_bytes s : text (bytes s) = s.
Proof.
  unfold text, bytes. rewrite <- list_fmap_compose. rewrite <- (String.string_of_list_ascii_of_string s) at 2. f_equal.
  rewrite <- (list_fmap_id (String.list_ascii_of_string s)) at 2. apply list_fmap_ext. intros i c _. cbn. by rewrite Nat2Z.id, ascii_nat_embedding.
Qed.

Definition newline : ascii := "010".

(** The text before the first character with [p]. *)
Fixpoint before (p : ascii -> bool) (s : string) : string :=
  match s with EmptyString => EmptyString | String c s => if p c then EmptyString else String c (before p s) end.

Definition is_char (cs : list ascii) (c : ascii) : bool := bool_decide (c ∈ cs).
Definition blanks : list ascii := [" "; "009"]%char.
Definition line_ends : list ascii := ["013"; newline]%char.

Section Files.
Variable files : string -> option (list Z).

(* @src third_party/predictions-engine/src/ml/ml_model_loader.cpp | std::string readChecksumFile( *)
Definition readChecksumFile (path : string) : string :=
  match files path with
  | None => ""
  | Some bs => drop_last_while (is_char line_ends) (before (is_char blanks) (default "" (head (getlines newline (text bs)))))
  end.

(** One step of the FNV-1a hash. *)
Definition fnv (h b : Z) : Z := u64 (Z.lxor h b * 1099511628211).

(* @src third_party/predictions-engine/include/pe/ml/ml_sha256.hpp | inline std::string featureSchemaHash() { *)
Definition featureSchemaHash : string :=
  hex_pad 16 (fold_left (fun h k => fnv (fold_left fnv (bytes k) h) (Z.of_nat (nat_of_ascii "|"))) mlFeatureOrder 14695981039346656037).

(* @src third_party/predictions-engine/src/ml/ml_model_loader.cpp | // 1) Checksum (plan §10) >> return std::nullopt; | loadModelFromBinary *)
Definition checksum_ok (modelPath checksumPath : string) : bool :=
  str_empty checksumPath ||
  let expected := readChecksumFile checksumPath in
  let actual := Sha256.sha256File (files modelPath) in
  negb (str_empty expected || str_empty actual || negb (String.eqb expected actual)).

(** The names of a schema file: lines without blanks at the end, empty ones and comments left out. *)
(* @src third_party/predictions-engine/src/ml/ml_model_loader.cpp | while (std::getline(sin, line)) { | loadModelFromBinary *)
Definition schema_names (s : string) : list string :=
  List.filter (fun l => match l with EmptyString => false | String c _ => negb (Ascii.eqb c "#") end)
    (drop_last_while (is_char ["013"; " "; "009"]%char) <$> getlines newline s).

(* @src third_party/predictions-engine/src/ml/ml_model_loader.cpp | // 2) Schema path >> if (names[i] != order[i]) return std::nullopt; | loadModelFromBinary *)
Definition schema_ok (schemaPath : string) : bool :=
  str_empty schemaPath ||
  match files schemaPath with None => false | Some bs => bool_decide (schema_names (text bs) = mlFeatureOrder) end.

(** The value of the last line of the key. *)
(* @src third_party/predictions-engine/src/ml/ml_model_loader.cpp | while (std::getline(min, line)) { | loadModelFromBinary *)
Definition meta_hash (s : string) : string :=
  fold_left (fun acc line =>
      match cut "=" line with
      | (_, None) => acc
      | (key, Some val) => if String.eqb key "feature_schema_hash" then drop_last_while (is_char line_ends) val else acc
      end) (getlines newline s) "".

(* @src third_party/predictions-engine/src/ml/ml_model_loader.cpp | // 3) Metadata path >> if (!meta_schema_hash.empty() && | loadModelFromBinary *)
Definition metadata_ok (metadataPath : string) : bool :=
  str_empty metadataPath ||
  match files metadataPath with
  | None => false
  | Some bs => let h := meta_hash (text bs) in str_empty h || String.eqb h featureSchemaHash
  end.

(* @src third_party/predictions-engine/include/pe/ml/ml_model_loader.hpp | struct LoadedModel { *)
Record LoadedModel := {
  ld_model : MLLogisticModel; ld_metadata : MLModelMetadata; ld_normalizer : MLNormalizer.t; ld_calibrator : MLCalibrator;
  ld_has_normalizer : bool; ld_has_calibrator : bool }.

Variable exp log : double -> double.

Definition MAGIC : Z := 0x50454D4C.

(* @src third_party/predictions-engine/src/ml/ml_model_loader.cpp | std::uint8_t has_norm = 0; >> loaded.has_normalizer = true; | loadModelFromBinary *)
Definition read_normalizer (n : nat) : Reader (option MLNormalizer.t) :=
  has_norm <- read_u8;;
  if has_norm =? 0 then ret None
  else mean <- read_doubles n;; scale <- read_doubles n;; ret (Some (MLNormalizer.make mean scale)).

(* @src third_party/predictions-engine/src/ml/ml_model_loader.cpp | std::uint8_t cal_method = 0; >> loaded.calibrator = MLCalibrator::isotonic( | loadModelFromBinary *)
Definition read_calibrator : Reader (option MLCalibrator) :=
  cal_method <- read_u8;;
  if cal_method =? 1 then a <- read_double;; b <- read_double;; ret (Some (platt a b))
  else if cal_method =? 2 then
    n <- read_u32;;
    if (n =? 0) || (1024 <? n) then refuse
    else x <- read_doubles (Z.to_nat n);; y <- read_doubles (Z.to_nat n);; ret (Some (isotonic x y))
  else ret None.

Definition logistic_metadata (id version : string) (n : nat) : MLModelMetadata :=
  {| mm_model_id := id; mm_version := version; mm_feature_count := n; mm_training_hash := ""; mm_feature_schema_hash := featureSchemaHash |}.

Definition assemble (m : MLLogisticModel) (norm : option MLNormalizer.t) (cal : option MLCalibrator) : LoadedModel := {|
  ld_model := m; ld_metadata := lm_meta m; ld_normalizer := default MLNormalizer.empty norm; ld_calibrator := default no_calibrator cal;
  ld_has_normalizer := bool_decide (is_Some norm); ld_has_calibrator := bool_decide (is_Some cal) |}.

(** The answer to features that are all zero. *)
Definition warm (m : MLLogisticModel) : bool := mr_valid (predict exp m (replicate (featureCount m) f0)).

(* @src third_party/predictions-engine/src/ml/ml_model_loader.cpp | std::uint32_t magic = 0, version = 0, feature_count = 0; >> if (!loaded.model->predict(fv).valid) | loadModelFromBinary *)
Definition parse_model : Reader LoadedModel :=
  magic <- read_u32;;
  if negb (magic =? MAGIC) then refuse
  else
    version <- read_u32;;
    if negb (version =? 1) then refuse
    else
      feature_count <- read_u32;;
      if (feature_count =? 0) || (Z.of_nat MAX_ML_FEATURES <? feature_count) then refuse
      else if negb (feature_count =? Z.of_nat (length mlFeatureOrder)) then refuse
      else
        let n := Z.to_nat feature_count in
        bias <- read_double;;
        weights <- read_doubles n;;
        let m := make_logistic (logistic_metadata "logistic" "1" n) weights bias in
        norm <- read_normalizer n;;
        cal <- read_calibrator;;
        if warm m then ret (assemble m norm cal) else refuse.

(* @src third_party/predictions-engine/src/ml/ml_model_loader.cpp | std::optional<LoadedModel> loadModelFromBinary( *)
Definition loadModelFromBinary (modelPath checksumPath schemaPath metadataPath : string) : option LoadedModel :=
  if negb (checksum_ok modelPath checksumPath) then None
  else if negb (schema_ok schemaPath) then None
  else if negb (metadata_ok metadataPath) then None
  else match files modelPath with None => None | Some bs => fst <$> parse_model bs end.

Definition default_weight (k : string) : double :=
  if String.eqb k "ewma_hit_13" then flit 12 10 else if String.eqb k "markov_p_up" then flit 4 10
  else if String.eqb k "short_hit_13" then flit 5 10 else if String.eqb k "entropy_binary_13" then SFopp (flit 2 10) else f0.

(* @src third_party/predictions-engine/src/ml/ml_model_loader.cpp | LoadedModel makeDefaultLogisticModel(std::size_t feature_count) { *)
Definition makeDefaultLogisticModel (feature_count : nat) : LoadedModel :=
  let n := if (feature_count =? 0)%nat then length mlFeatureOrder else feature_count in
  let p0 := flit 65 100 in
  let bias := log (fdiv p0 (fsub f1 p0)) in
  let known := default_weight <$> mlFeatureOrder in
  let weights := take n known ++ replicate (n - length known) f0 in
  let m := make_logistic (logistic_metadata "logistic-default" "1.0.0" n) weights bias in
  assemble m None (Some (platt f1 f0)).
End Files.

(** * The exporter *)

(** The bytes of a model with [n] weights, its optional normaliser and its Platt coefficients. *)
(* @src third_party/predictions-engine/training/export_model.py:10-27 write_model *)
Definition write_model (bias : double) (weights : list double) (norm : option (list double * list double)) (platt_a platt_b : double) : list Z :=
  put_u32 MAGIC ++ put_u32 1 ++ put_u32 (Z.of_nat (length weights)) ++ put_double bias ++ put_doubles weights ++
  match norm with Some (mean, scale) => put_u8 1 ++ put_doubles mean ++ put_doubles scale | None => put_u8 0 end ++
  put_u8 1 ++ put_double platt_a ++ put_double platt_b.

(** The checksum file beside it. *)
(* @src third_party/predictions-engine/training/export_model.py:28-30 write_model *)
Definition write_checksum (model : list Z) : list Z := bytes (Sha256.sha256Hex model +:+ String newline EmptyString).

(** * Properties *)

Section Properties.
Variable files : string -> option (list Z).
Variable exp : double -> double.

Lemma bind_inv {A B} (r : Reader A) (k : A -> Reader B) bs out : bind r k bs = Some out -> exists a bs', r bs = Some (a, bs') /\ k a bs' = Some out.
Proof. unfold bind. destruct (r bs) as [[a bs']|]; [|done]. eauto. Qed.

Lemma read_doubles_length n bs l rest : read_doubles n bs = Some (l, rest) -> length l = n.
Proof.
  revert bs l rest. induction n as [|n IH]; intros bs l rest H; [by injection H as <- _|]. cbn [read_doubles] in H.
  apply bind_inv in H as (x & bs1 & _ & H). apply bind_inv in H as (xs & bs2 & H1 & H). injection H as <- _. cbn. by rewrite (IH _ _ _ H1).
Qed.

(** What an accepted file holds. *)
Lemma parse_model_inv bs ld rest : parse_model exp bs = Some (ld, rest) ->
  featureCount (ld_model ld) = length mlFeatureOrder /\ warm exp (ld_model ld) = true /\ ld_metadata ld = lm_meta (ld_model ld).
Proof.
  unfold parse_model. intros H.
  apply bind_inv in H as (magic & b1 & _ & H). destruct (negb (magic =? MAGIC)); [done|].
  apply bind_inv in H as (version & b2 & _ & H). destruct (negb (version =? 1)); [done|].
  apply bind_inv in H as (n & b3 & _ & H). destruct (_ || _); [done|]. destruct (Z.eqb_spec n (Z.of_nat (length mlFeatureOrder))) as [->|]; [|done].
  cbn [negb] in H. rewrite Nat2Z.id in H.
  apply bind_inv in H as (bias & b4 & _ & H). apply bind_inv in H as (weights & b5 & Hw & H). apply read_doubles_length in Hw.
  apply bind_inv in H as (norm & b6 & _ & H). apply bind_inv in H as (cal & b7 & _ & H).
  destruct (warm exp _) eqn:Ew; [|done]. injection H as <- _. by split_and!.
Qed.

(** Remark: The loader fails closed: a model that it returns comes from a file whose SHA-256 is the
    one that the checksum file names (when there is a checksum path), after a schema file that
    lists exactly the feature names in their order (when there is a schema path) and a metadata
    file that names no other schema hash (when there is a metadata path); it has one weight for
    each of the features, and it answers the features that are all zero. *)
Theorem load_fails_closed (modelPath checksumPath schemaPath metadataPath : string) (ld : LoadedModel) :
  loadModelFromBinary files exp modelPath checksumPath schemaPath metadataPath = Some ld ->
  exists bs, files modelPath = Some bs /\
    (checksumPath <> "" -> readChecksumFile files checksumPath = Sha256.sha256Hex bs) /\
    (schemaPath <> "" -> exists s, files schemaPath = Some s /\ schema_names (text s) = mlFeatureOrder) /\
    (metadataPath <> "" -> exists s, files metadataPath = Some s /\ (meta_hash (text s) = "" \/ meta_hash (text s) = featureSchemaHash)) /\
    featureCount (ld_model ld) = length mlFeatureOrder /\ warm exp (ld_model ld) = true.
Proof.
  unfold loadModelFromBinary. destruct (checksum_ok _ _ _) eqn:Hc; [|done]. destruct (schema_ok _ _) eqn:Hs; [|done].
  destruct (metadata_ok _ _) eqn:Hm; [|done]. cbn [negb]. destruct (files modelPath) as [bs|] eqn:Hf; [|done]. intros H. exists bs.
  destruct (parse_model exp bs) as [[ld' rest]|] eqn:Hp; [|done]. injection H as ->. destruct (parse_model_inv _ _ _ Hp) as (H1 & H2 & _).
  split_and!; try done.
  - intros Hne. unfold checksum_ok in Hc. rewrite (proj2 (str_empty_false _) Hne) in Hc. cbn [orb] in Hc.
    rewrite Hf, Sha256.sha256_of_file in Hc. apply negb_true_iff in Hc. apply orb_false_iff in Hc as [_ Hc].
    apply negb_false_iff in Hc. by apply String.eqb_eq.
  - intros Hne. unfold schema_ok in Hs. rewrite (proj2 (str_empty_false _) Hne) in Hs. cbn [orb] in Hs.
    destruct (files schemaPath) as [s|]; [|done]. exists s. split; [done|]. by apply bool_decide_eq_true in Hs.
  - intros Hne. unfold metadata_ok in Hm. rewrite (proj2 (str_empty_false _) Hne) in Hm. cbn [orb] in Hm.
    destruct (files metadataPath) as [s|]; [|done]. exists s. split; [done|]. apply orb_true_iff in Hm as [Hm|Hm].
    + left. by apply str_empty_true.
    + right. by apply String.eqb_eq.
Qed.

(** ** The checksum line *)

Definition is_hex (c : ascii) : Prop := exists n, 0 <= n < 16 /\ c = hex_digit n.

Lemma hex_digits_list (d : list Z) : Forall (fun b => 0 <= b < 256) d ->
  Forall is_hex (String.list_ascii_of_string
    (foldr (fun b rest => String (hex_digit (Z.shiftr b 4)) (String (hex_digit (Z.land b 0xf)) rest)) EmptyString d)).
Proof.
  induction 1 as [|b d Hb _ IH]; [constructor|]. cbn [foldr String.list_ascii_of_string]. repeat constructor; [| |exact IH].
  - exists (Z.shiftr b 4). split; [|done]. rewrite Z.shiftr_div_pow2 by lia. split; [apply Z.div_pos; lia|apply Z.div_lt_upper_bound; lia].
  - exists (Z.land b 0xf). split; [|done]. change 0xf with (Z.ones 4). rewrite Z.land_ones by lia. apply Z.mod_pos_bound. lia.
Qed.

Lemma bytes_of_range r : Forall (fun b => 0 <= b < 256) (Sha256.bytes_of r) /\ length (Sha256.bytes_of r) = 32%nat.
Proof.
  assert (forall z, 0 <= Z.land z 0xff < 256) as Hb.
  { intros z. change 0xff with (Z.ones 8). rewrite Z.land_ones by lia. apply Z.mod_pos_bound. lia. }
  split; [|done]. unfold Sha256.bytes_of. apply Forall_concat, Forall_fmap, Forall_true. intros w. cbn. repeat constructor; apply Hb.
Qed.

Lemma sha256Hex_hex m : Forall is_hex (String.list_ascii_of_string (Sha256.sha256Hex m)) /\ Sha256.sha256Hex m <> "".
Proof.
  unfold Sha256.sha256Hex, Sha256.hex. generalize (if (0 <? length m)%nat then Sha256.update Sha256.make m else Sha256.make). intros s.
  unfold Sha256.digest. cbn [fst]. destruct (bytes_of_range (Sha256.state_ (Sha256.update s (Sha256.pad s)))) as [H1 H2].
  split; [by apply hex_digits_list|]. by destruct (Sha256.bytes_of _).
Qed.

Lemma hex_not_special c : is_hex c -> is_char blanks c = false /\ is_char line_ends c = false /\ c <> newline.
Proof.
  intros (n & Hn & ->). assert (n ∈ seqZ 0 16) as Hi by (apply elem_of_seqZ; lia). revert n Hi Hn.
  assert (Forall (fun n => is_char blanks (hex_digit n) = false /\ is_char line_ends (hex_digit n) = false /\ hex_digit n <> newline) (seqZ 0 16)) as H.
  { cbn. repeat constructor; done. }
  intros n Hi _. by apply (proj1 (Forall_forall _ _) H).
Qed.

Lemma plain_line s : Forall is_hex (String.list_ascii_of_string s) ->
  before (is_char blanks) s = s /\ drop_last_while (is_char line_ends) s = s /\ lacks newline s.
Proof.
  induction s as [|c s IH]; intros H; [split_and!; [done|done|apply not_elem_of_nil]|].
  cbn in H. apply Forall_cons in H as [Hc H]. destruct (IH H) as (H1 & H2 & H3). destruct (hex_not_special c Hc) as (C1 & C2 & C3).
  split_and!; cbn.
  - by rewrite C1, H1.
  - rewrite H2, C2. by destruct s.
  - apply not_elem_of_cons. split; [congruence|exact H3].
Qed.

Lemma checksum_read path model : files path = Some (write_checksum model) -> readChecksumFile files path = Sha256.sha256Hex model.
Proof.
  intros H. unfold readChecksumFile. rewrite H. unfold write_checksum. rewrite text_bytes.
  destruct (sha256Hex_hex model) as [Hh _]. destruct (plain_line _ Hh) as (H1 & H2 & H3).
  rewrite getlines_line by exact H3. cbn [head from_option]. unfold id. by rewrite H1, H2.
Qed.

(** ** Export and load *)

Lemma bind_put {A B} (r : Reader A) (k : A -> Reader B) a l rest : r (l ++ rest) = Some (a, rest) -> bind r k (l ++ rest) = k a rest.
Proof. unfold bind. by intros ->. Qed.

Definition exported (bias : double) (weights : list double) (norm : option (list double * list double)) (a b : double) : LoadedModel :=
  assemble (make_logistic (logistic_metadata "logistic" "1" (length mlFeatureOrder)) weights bias)
    ((fun ms => MLNormalizer.make ms.1 ms.2) <$> norm) (Some (platt a b)).

Lemma parse_written bias weights norm a b :
  length weights = length mlFeatureOrder -> Forall storable (bias :: a :: b :: weights) ->
  (forall mean scale, norm = Some (mean, scale) -> length mean = length weights /\ length scale = length weights /\ Forall storable (mean ++ scale)) ->
  warm exp (ld_model (exported bias weights norm a b)) = true ->
  parse_model exp (write_model bias weights norm a b) = Some (exported bias weights norm a b, []).
Proof.
  intros Hl Hs Hn Hw. apply Forall_cons in Hs as [Hbias Hs]. apply Forall_cons in Hs as [Ha Hs]. apply Forall_cons in Hs as [Hb Hs].
  unfold parse_model, write_model.
  rewrite (bind_put _ _ MAGIC) by (by apply read_u32_put). rewrite Z.eqb_refl. cbn [negb].
  rewrite (bind_put _ _ 1) by (by apply read_u32_put). change (negb (1 =? 1)) with false. cbv iota.
  rewrite (bind_put _ _ (Z.of_nat (length weights))) by (rewrite Hl; by apply read_u32_put). rewrite Hl. cbv zeta.
  change ((Z.of_nat (length mlFeatureOrder) =? 0) || (Z.of_nat MAX_ML_FEATURES <? Z.of_nat (length mlFeatureOrder))) with false. cbv iota.
  rewrite Z.eqb_refl, Nat2Z.id. cbn [negb].
  rewrite (bind_put _ _ bias) by (by apply read_double_put).
  rewrite (bind_put _ _ weights) by (rewrite <- Hl; by apply read_doubles_put).
  assert (forall rest, read_normalizer (length mlFeatureOrder)
    (match norm with Some (mean, scale) => put_u8 1 ++ put_doubles mean ++ put_doubles scale | None => put_u8 0 end ++ rest) =
    Some ((fun ms => MLNormalizer.make ms.1 ms.2) <$> norm, rest)) as Hnorm.
  { intros rest. unfold read_normalizer. destruct norm as [[mean scale]|].
    - destruct (Hn mean scale eq_refl) as (L1 & L2 & Hms). apply Forall_app in Hms as [Hm Hsc]. rewrite <- !app_assoc.
      rewrite (bind_put _ _ 1) by (by apply read_u8_put). change (1 =? 0) with false. cbv iota.
      rewrite (bind_put _ _ mean) by (rewrite <- Hl, <- L1; by apply read_doubles_put).
      rewrite (bind_put _ _ scale) by (rewrite <- Hl, <- L2; by apply read_doubles_put). done.
    - by rewrite (bind_put _ _ 0) by (by apply read_u8_put). }
  rewrite (bind_put _ _ _ _ _ (Hnorm _)).
  assert (read_calibrator (put_u8 1 ++ put_double a ++ put_double b) = Some (Some (platt a b), [])) as Hcal.
  { unfold read_calibrator. rewrite (bind_put _ _ 1) by (by apply read_u8_put). change (1 =? 1) with true. cbv iota.
    rewrite (bind_put _ _ a) by (by apply read_double_put). rewrite <- (app_nil_r (put_double b)).
    by rewrite (bind_put _ _ b) by (by apply read_double_put). }
  unfold bind at 1. rewrite Hcal. unfold exported in *. cbn [assemble ld_model] in Hw. rewrite Hw. done.
Qed.

(** C10: What the exporter writes is what the loader loads: the model file and the checksum file
    that [write_model] leaves give back the bias, the weights, the normaliser and the Platt
    coefficients, for every number a double can be, provided the model answers the features that are
    all zero. *)
Theorem export_load (path checksumPath : string) (bias : double) (weights : list double) (norm : option (list double * list double)) (a b : double) :
  length weights = length mlFeatureOrder -> Forall storable (bias :: a :: b :: weights) ->
  (forall mean scale, norm = Some (mean, scale) -> length mean = length weights /\ length scale = length weights /\ Forall storable (mean ++ scale)) ->
  warm exp (ld_model (exported bias weights norm a b)) = true ->
  files path = Some (write_model bias weights norm a b) ->
  files checksumPath = Some (write_checksum (write_model bias weights norm a b)) ->
  loadModelFromBinary files exp path checksumPath "" "" = Some (exported bias weights norm a b).
Proof.
  intros Hl Hs Hn Hw Hf Hc. unfold loadModelFromBinary.
  assert (checksum_ok files path checksumPath = true) as ->.
  { unfold checksum_ok. rewrite Hf, Sha256.sha256_of_file, (checksum_read _ _ Hc).
    destruct (sha256Hex_hex (write_model bias weights norm a b)) as [_ Hne]. rewrite (proj2 (str_empty_false _) Hne), String.eqb_refl.
    apply orb_true_r. }
  change (schema_ok files "") with true. change (metadata_ok files "") with true. cbn [negb]. rewrite Hf. by rewrite parse_written.
Qed.
End Properties.

(** ** The shipped parameters *)

Definition half_exp (_ : double) : double := f1.

Definition shipped_weights : list double := default_weight <$> mlFeatureOrder.

Definition shipped : list Z := write_model (flit 62 100) shipped_weights None f1 f0.

Definition shipped_files (p : string) : option (list Z) :=
  if String.eqb p "model.bin" then Some shipped else if String.eqb p "model.sha256" then Some (write_checksum shipped) else None.

Lemma export_load_witness :
  loadModelFromBinary shipped_files half_exp "model.bin" "model.sha256" "" "" = Some (exported (flit 62 100) shipped_weights None f1 f0).
Proof.
  apply (export_load shipped_files half_exp); [done| |done|vm_compute; reflexivity|done|done].
  unfold storable. cbn. repeat (apply Forall_cons_2; [left; vm_compute; reflexivity|]). apply Forall_nil_2.
Defined.

Lemma load_fails_closed_witness : readChecksumFile shipped_files "model.sha256" = Sha256.sha256Hex shipped.
Proof.
  assert (loadModelFromBinary shipped_files half_exp "model.bin" "model.sha256" "" "" = Some (exported (flit 62 100) shipped_weights None f1 f0)) as H
    by (vm_compute; reflexivity).
  destruct (load_fails_closed shipped_files half_exp _ _ _ _ _ H) as (bs & Hf & Hc & _). injection Hf as <-. by apply Hc.
Defined.
