(* ===== verification/MlPredict.v ===== *)
(** The optional machine learning at run time
    ([third_party/predictions-engine/include/pe/ml/ml_runtime.hpp], [ml_predictor.hpp],
    [pe/models/ml_predictive_model.hpp] and the stage of [pe/engine/prediction_engine.hpp] that is
    compiled in with [PE_ENABLE_ML]): loading, health, prediction, and its effect on the engine.

    [us] gives the stage times in microseconds that the clock measures, [fmt] is
    [std::to_string] of a double.  The scratch buffers of the predictor are not state: each call
    writes them before it reads them. *)
From S2P Require Import Prelude Float64 FloatSign Types PeState PeFeatures PeModels PeEngine Sha256 MlModel MlLoader.

Open Scope string_scope.
Open Scope list_scope.
Open Scope Z_scope.

(** * [MLRuntime] *)
Module MLRuntime.

(* @src third_party/predictions-engine/include/pe/ml/ml_runtime.hpp | enum class MLRuntimeState { *)
Inductive MLRuntimeState := Loading | Validating | Warming | Live | Degraded | Failed.
#[export] Instance MLRuntimeState_eq_dec : EqDecision MLRuntimeState.
Proof. solve_decision. Defined.

(* @src third_party/predictions-engine/include/pe/ml/ml_runtime.hpp | inline const char* toString(MLRuntimeState s) { *)
Definition state_name (s : MLRuntimeState) : string :=
  match s with
  | Loading => "LOADING" | Validating => "VALIDATING" | Warming => "WARMING" | Live => "LIVE" | Degraded => "DEGRADED" | Failed => "FAILED"
  end.

(* @src third_party/predictions-engine/include/pe/ml/ml_model_config.hpp | struct MLModelConfig { *)
Record MLModelConfig := {
  enabled : bool; expected_features : nat; minimum_probability : double; maximum_probability : double; calibration_enabled : bool;
  fusion_enabled : bool; ml_weight : double; model_path : string; schema_path : string; metadata_path : string; checksum_path : string }.
#[export] Instance eta_MLModelConfig : Eta MLModelConfig := fun r => {|
  enabled := enabled r; expected_features := expected_features r; minimum_probability := minimum_probability r;
  maximum_probability := maximum_probability r; calibration_enabled := calibration_enabled r; fusion_enabled := fusion_enabled r;
  ml_weight := ml_weight r; model_path := model_path r; schema_path := schema_path r; metadata_path := metadata_path r;
  checksum_path := checksum_path r |}.

Definition default_config : MLModelConfig := {|
  enabled := false; expected_features := 0; minimum_probability := f0; maximum_probability := f1; calibration_enabled := true;
  fusion_enabled := true; ml_weight := f0; model_path := ""; schema_path := ""; metadata_path := ""; checksum_path := "" |}.

(* @src third_party/predictions-engine/include/pe/ml/ml_runtime.hpp | std::atomic<MLRuntimeState> state_{MLRuntimeState::Failed}; >> MLMetrics metrics_; | MLRuntime *)
Record t := {
  state : MLRuntimeState; cfg : MLModelConfig; model_ : option MLLogisticModel; normalizer_ : MLNormalizer.t; calibrator_ : MLCalibrator;
  has_normalizer : bool; has_calibrator : bool; health : MLHealth.t; metrics : MLMetrics.t }.
#[export] Instance eta_t : Eta t := fun r => {|
  state := state r; cfg := cfg r; model_ := model_ r; normalizer_ := normalizer_ r; calibrator_ := calibrator_ r;
  has_normalizer := has_normalizer r; has_calibrator := has_calibrator r; health := health r; metrics := metrics r |}.

Definition make : t := {|
  state := Failed; cfg := default_config; model_ := None; normalizer_ := MLNormalizer.empty; calibrator_ := no_calibrator;
  has_normalizer := false; has_calibrator := false; health := MLHealth.reset; metrics := MLMetrics.make |}.

(* @src third_party/predictions-engine/include/pe/ml/ml_runtime.hpp | const MLModel* activeModel() const noexcept { *)
Definition activeModel (r : t) : option MLLogisticModel := if decide (state r = Live) then model_ r else None.

(* @src third_party/predictions-engine/include/pe/ml/ml_runtime.hpp | const MLNormalizer* normalizer() const noexcept { *)
Definition normalizer (r : t) : option MLNormalizer.t := if has_normalizer r then Some (normalizer_ r) else None.

(* @src third_party/predictions-engine/include/pe/ml/ml_runtime.hpp | const MLCalibrator* calibrator() const noexcept { *)
Definition calibrator (r : t) : option MLCalibrator := if has_calibrator r then Some (calibrator_ r) else None.

(* @src third_party/predictions-engine/include/pe/ml/ml_runtime.hpp | void markDegraded() noexcept { *)
Definition markDegraded (r : t) : t := if decide (state r = Live) then r <| state := Degraded |> else r.

(* @src third_party/predictions-engine/include/pe/ml/ml_runtime.hpp | void checkHealth() noexcept { *)
Definition checkHealth (r : t) : t := if MLHealth.shouldDegrade (health r) MLHealth.MAX_ERROR_RATE then markDegraded r else r.

Section S.
Variable files : string -> option (list Z).
Variable exp log : double -> double.

(** The model that a configuration names, or the default one when it names none. *)
(* @src third_party/predictions-engine/src/ml/ml_runtime.cpp | std::optional<LoadedModel> loaded; >> cfg.expected_features > 0 ? | MLRuntime::loadFromConfig *)
Definition obtain (c : MLModelConfig) : option LoadedModel :=
  if negb (str_empty (model_path c)) then loadModelFromBinary files exp (model_path c) (checksum_path c) (schema_path c) (metadata_path c)
  else Some (makeDefaultLogisticModel log
               (if (0 <? expected_features c)%nat then expected_features c else length mlFeatureOrder)).

Definition install (r : t) (l : LoadedModel) : t :=
  r <| model_ := Some (ld_model l) |> <| normalizer_ := ld_normalizer l |> <| calibrator_ := ld_calibrator l |>
    <| has_normalizer := ld_has_normalizer l |> <| has_calibrator := ld_has_calibrator l |>.

(** The answer, the runtime, and the states that a concurrent reader can see on the way. *)
(* @src third_party/predictions-engine/src/ml/ml_runtime.cpp | bool MLRuntime::loadFromConfig(const MLModelConfig& cfg) { *)
Definition loadFromConfig (r : t) (c : MLModelConfig) (us : double) : bool * t * list MLRuntimeState :=
  let r := r <| cfg := c |> <| state := Loading |> in
  if negb (enabled c) then (false, r <| state := Failed |>, [Loading; Failed])
  else
    let r := r <| state := Validating |> in
    match obtain c with
    | None => (false, r <| state := Failed |>, [Loading; Validating; Failed])
    | Some l =>
        let r := install (r <| state := Warming |>) l in
        let zeros := replicate (featureCount (ld_model l)) f0 in
        if negb (mr_valid (run exp (Some (ld_model l)) zeros us)) then
          (false, r <| state := Failed |> <| model_ := None |>, [Loading; Validating; Warming; Failed])
        else
          (true, r <| health := MLHealth.reset |> <| metrics ::= MLMetrics.reset |> <| state := Live |>,
           [Loading; Validating; Warming; Live])
    end.

(* @src third_party/predictions-engine/src/ml/ml_runtime.cpp | bool MLRuntime::loadDefault() { *)
Definition loadDefault (r : t) (us : double) : bool * t * list MLRuntimeState :=
  loadFromConfig r (default_config <| enabled := true |> <| expected_features := length mlFeatureOrder |>) us.

(** Remark: A load ends in [Live] exactly when it answers true, and then the model in use has answered
    the features that are all zero; otherwise it ends in [Failed] and there is no active model. *)
Theorem load_outcome (r : t) (c : MLModelConfig) (us : double) :
  let '(ok, r', seen) := loadFromConfig r c us in
  if ok then state r' = Live /\ last seen = Some Live /\ exists m, activeModel r' = Some m /\ warm exp m = true
  else state r' = Failed /\ last seen = Some Failed /\ activeModel r' = None /\ Live ∉ seen.
Proof.
  unfold loadFromConfig. destruct (enabled c); cbn [negb].
  2: { split_and!; [done..|]. rewrite !not_elem_of_cons. split_and!; [done|done|apply not_elem_of_nil]. }
  destruct (obtain c) as [l|].
  2: { split_and!; [done..|]. rewrite !not_elem_of_cons. split_and!; [done..|apply not_elem_of_nil]. }
  destruct (mr_valid (run exp (Some (ld_model l)) _ us)) eqn:E; cbn [negb].
  - split_and!; [done..|]. exists (ld_model l). split; [done|]. unfold run in E. rewrite length_replicate, Nat.eqb_refl in E.
    destruct (featureCount (ld_model l) =? 0)%nat; [done|]. exact E.
  - split_and!; [done..|]. rewrite !not_elem_of_cons. split_and!; [done..|apply not_elem_of_nil].
Qed.
End S.
End MLRuntime.
Import MLRuntime.

(** * [MLPredictor] *)
Module MLPredictor.
Section S.
Variable exp log : double -> double.

Definition mismatch (r : MLRuntime.t) : MLRuntime.t := checkHealth (r <| health ::= MLHealth.recordFeatureMismatch |>).

(** The last steps, from a valid inference. *)
(* @src third_party/predictions-engine/src/ml/ml_predictor.cpp | // --- calibrate --- >> std::max(runtime_->config().minimum_probability | MLPredictor::predict *)
Definition finish (r : MLRuntime.t) (p : double) : double :=
  let p := if calibration_enabled (cfg r) then match calibrator r with Some c => calibrate exp log c p | None => p end else p in
  clip (minimum_probability (cfg r)) (maximum_probability (cfg r)) p.

(* @src third_party/predictions-engine/src/ml/ml_predictor.cpp | std::optional<MLInferenceResult> MLPredictor::predict( *)
Definition predict (r : MLRuntime.t) (features : Features) (us : nat -> double) : option MLInferenceResult * MLRuntime.t :=
  match activeModel r with
  | None => (None, r)
  | Some m =>
      match preprocess features MAX_ML_FEATURES with
      | None => (None, mismatch r)
      | Some x =>
          if negb (length x =? featureCount m)%nat then (None, mismatch r)
          else
            let r := r <| metrics ::= fun s => MLMetrics.recordStage s MLMetrics.kPrep (us 0%nat) |> in
            let x := match normalizer r with Some n => MLNormalizer.transform n x | None => x end in
            let res := run exp (Some m) x (us 1%nat) in
            let r := r <| metrics ::= fun s => MLMetrics.recordStage s MLMetrics.kInfer (mr_inference_us res) |> in
            if negb (mr_valid res) || negb (is_finite (mr_probability res)) then
              (None, checkHealth (r <| health ::= MLHealth.recordNaN |>))
            else
              let res := res <| mr_probability := finish r (mr_probability res) |> in
              let r := r <| metrics ::= fun s => MLMetrics.recordStage s MLMetrics.kCal (us 2%nat) |> in
              (Some res, r <| health ::= fun h => MLHealth.recordSuccess h (mr_inference_us res) |>)
      end
  end.

(** ** What a prediction changes *)

Lemma checkHealth_keeps r : cfg (checkHealth r) = cfg r /\ model_ (checkHealth r) = model_ r /\ health (checkHealth r) = health r /\
  (state (checkHealth r) = state r \/ state r = Live /\ state (checkHealth r) = Degraded).
Proof. unfold checkHealth, markDegraded. destruct (MLHealth.shouldDegrade _ _); [|by split_and!; auto]. destruct (decide _); split_and!; auto. Qed.

Lemma predict_keeps r x us : let r' := snd (predict r x us) in
  cfg r' = cfg r /\ model_ r' = model_ r /\ (state r' = state r \/ state r = Live /\ state r' = Degraded).
Proof.
  unfold predict, mismatch. destruct (activeModel r); [|by split_and!; auto]. destruct (preprocess x _); [destruct (negb _)|].
  - destruct (checkHealth_keeps (r <| health ::= MLHealth.recordFeatureMismatch |>)) as (H1 & H2 & _ & H4). by split_and!.
  - destruct (negb _ || negb _); cbn [snd]; [|by split_and!; auto].
    match goal with |- context [checkHealth ?r'] => destruct (checkHealth_keeps r') as (H1 & H2 & _ & H4) end. by split_and!.
  - destruct (checkHealth_keeps (r <| health ::= MLHealth.recordFeatureMismatch |>)) as (H1 & H2 & _ & H4). by split_and!.
Qed.

(** A sequence of predictions: the answers and the runtime after them. *)
Fixpoint predictions (r : MLRuntime.t) (calls : list (Features * (nat -> double))) : list (option MLInferenceResult) * MLRuntime.t :=
  match calls with
  | [] => ([], r)
  | (x, us) :: calls => let '(a, r) := predict r x us in let '(l, r) := predictions r calls in (a :: l, r)
  end.

Lemma run_us m w t : mr_valid (run exp (Some m) w t) = true -> mr_inference_us (run exp (Some m) w t) = t.
Proof. unfold run. destruct (_ =? 0)%nat; [done|]. by destruct (negb _). Qed.

(** Remark: The probability that is answered lies between the bounds of the configuration, whatever the
    model, the calibration table and the mathematics library answer; it is answered only by a live
    runtime, for finite features, and counted as a success. *)
Theorem ml_answer (r : MLRuntime.t) (x : Features) (us : nat -> double) (res : MLInferenceResult) :
  is_nan (minimum_probability (cfg r)) = false -> is_nan (maximum_probability (cfg r)) = false ->
  fle (minimum_probability (cfg r)) (maximum_probability (cfg r)) = true ->
  fst (predict r x us) = Some res ->
  mr_valid res = true /\ state r = Live /\
  fle (minimum_probability (cfg r)) (mr_probability res) = true /\ fle (mr_probability res) (maximum_probability (cfg r)) = true /\
  Forall (fun k => is_finite (default f0 (x !! k)) = true) mlFeatureOrder /\
  health (snd (predict r x us)) = MLHealth.recordSuccess (health r) (us 1%nat).
Proof.
  intros Hlo Hhi Hle H. unfold predict in *. destruct (activeModel r) as [m|] eqn:Ea; [|done].
  assert (state r = Live) as Hlive by (unfold activeModel in Ea; by destruct (decide _)).
  destruct (preprocess x MAX_ML_FEATURES) as [v|] eqn:Ep; [|done]. destruct (negb (length v =? _)%nat) eqn:El; [done|].
  destruct (negb (mr_valid _) || _) eqn:Ev; [done|]. apply orb_false_iff in Ev as [Ev _]. apply negb_false_iff in Ev.
  injection H as <-. cbn [snd].
  match type of Ev with mr_valid (run _ _ ?y _) = _ => set (w := y) in * end.
  pose proof (run_us m w _ Ev) as Hus.
  split_and!; [exact Ev|exact Hlive|..].
  - apply clip_range; done.
  - apply clip_range; done.
  - unfold preprocess in Ep. destruct (_ <? _)%nat; [done|]. apply mapM_Some in Ep.
    clear -Ep. induction Ep as [|k y l l' Hk _ IH]; [constructor|]. constructor; [|exact IH]. cbv zeta in Hk. by destruct (is_finite _).
  - exact (f_equal (MLHealth.recordSuccess (health r)) Hus).
Qed.

(** Remark: Degradation is final: a runtime that is not live answers no prediction, and no number of
    predictions brings it back; only another load does. *)
Theorem degraded_is_final (r : MLRuntime.t) (calls : list (Features * (nat -> double))) :
  state r <> Live -> predictions r calls = (replicate (length calls) None, r).
Proof.
  intros Hr. induction calls as [|[x us] calls IH]; [done|]. cbn [predictions length replicate].
  assert (predict r x us = (None, r)) as ->; [|by rewrite IH].
  unfold predict, activeModel. by rewrite decide_False.
Qed.

Lemma preprocess_length x v : preprocess x MAX_ML_FEATURES = Some v -> length v = length mlFeatureOrder.
Proof. unfold preprocess. destruct (_ <? _)%nat; [done|]. intros H. by apply length_mapM in H. Qed.

(** A live runtime whose model does not have the number of features that the engine computes. *)
Lemma mismatched_predict r m x us : activeModel r = Some m -> featureCount m <> length mlFeatureOrder -> predict r x us = (None, mismatch r).
Proof.
  intros Ha Hf. unfold predict. rewrite Ha. destruct (preprocess x MAX_ML_FEATURES) as [v|] eqn:E; [|done].
  rewrite (preprocess_length _ _ E). destruct (Nat.eqb_spec (length mlFeatureOrder) (featureCount m)); [congruence|done].
Qed.

Definition only_errors (h : MLHealth.t) (n : nat) : Prop := MLHealth.inference_count h = Z.of_nat n /\ MLHealth.error_count h = Z.of_nat n.

Lemma errors_degrade h n : only_errors h n -> (n <= 50)%nat -> MLHealth.shouldDegrade h MLHealth.MAX_ERROR_RATE = (50 <=? n)%nat.
Proof.
  intros [H1 H2] Hn. unfold MLHealth.shouldDegrade. rewrite H1, H2.
  destruct (Nat.leb_spec 50 n); [assert (n = 50%nat) as -> by lia; by vm_compute|]. by rewrite (proj2 (Z.ltb_lt _ _)) by lia.
Qed.

Lemma mismatch_step r n m : activeModel r = Some m -> only_errors (health r) n -> (n < 50)%nat ->
  only_errors (health (mismatch r)) (S n) /\ state (mismatch r) = (if (S n =? 50)%nat then Degraded else Live) /\ model_ (mismatch r) = Some m.
Proof.
  intros Ha [H1 H2] Hn. unfold mismatch. set (r1 := r <| health ::= MLHealth.recordFeatureMismatch |>).
  assert (only_errors (health r1) (S n)) as Ho by (unfold only_errors; cbn; rewrite H1, H2, bump_small; lia).
  assert (state r = Live /\ model_ r = Some m) as [Hs Hm] by (unfold activeModel in Ha; by destruct (decide _)).
  destruct (checkHealth_keeps r1) as (_ & Em & Eh & _). rewrite Eh, Em. split_and!; [exact Ho| |exact Hm].
  unfold checkHealth, markDegraded. rewrite (errors_degrade _ _ Ho) by lia. change (state r1) with (state r). rewrite decide_True by exact Hs.
  destruct (Nat.leb_spec 50 (S n)), (Nat.eqb_spec (S n) 50); try lia; done.
Qed.

(** Remark: A configuration whose number of features is not that of the engine loads and is live, but
    answers nothing: every prediction is counted as a mismatch, and the fiftieth degrades the
    runtime for good. *)
Theorem mismatched_config_never_answers (files : string -> option (list Z)) (r0 : MLRuntime.t) (c : MLModelConfig) (us0 : double)
    (calls : list (Features * (nat -> double))) :
  model_path c = "" -> (0 < expected_features c)%nat -> expected_features c <> length mlFeatureOrder ->
  let '(ok, r, _) := loadFromConfig files exp log r0 c us0 in
  ok = true ->
  let '(answers, r') := predictions r calls in
  state r = Live /\ answers = replicate (length calls) None /\ state r' = (if (length calls <? 50)%nat then Live else Degraded).
Proof.
  intros Hp Hn Hf. destruct (loadFromConfig files exp log r0 c us0) as [[ok r] seen] eqn:E. intros ->.
  assert (exists m, activeModel r = Some m /\ featureCount m = expected_features c /\ health r = MLHealth.reset /\ state r = Live) as (m & Ha & Hm & Hh & Hl).
  { revert E. unfold loadFromConfig, obtain. rewrite Hp. cbn [str_empty bool_decide negb]. change (str_empty "") with true. cbn [negb].
    rewrite (proj2 (Nat.ltb_lt _ _) Hn). destruct (negb (enabled c)); [done|]. destruct (negb _); [done|]. intros [= <- _].
    eexists. split_and!; [done| |done|done]. unfold featureCount. cbn [assemble ld_model makeDefaultLogisticModel make_logistic lm_weights].
    rewrite (proj2 (Nat.eqb_neq _ _)) by lia. rewrite length_app, length_take, length_replicate, length_fmap. lia. }
  assert (forall calls r n, activeModel r = Some m -> only_errors (health r) n -> (n < 50)%nat ->
    predictions r calls = (replicate (length calls) None, snd (predictions r calls)) /\
    state (snd (predictions r calls)) = (if (n + length calls <? 50)%nat then Live else Degraded)) as Hgen.
  { clear -Hm Hf. induction calls as [|[x us] calls IH]; intros r n Ha Ho Hn; cbn [predictions length].
    - split; [done|]. rewrite (proj2 (Nat.ltb_lt _ _)) by lia. cbn [snd]. unfold activeModel in Ha. by destruct (decide _).
    - rewrite (mismatched_predict r m x us Ha) by congruence. destruct (mismatch_step r n m Ha Ho Hn) as (Ho' & Hs & Hm').
      destruct (Nat.eqb_spec (S n) 50) as [E|E].
      + rewrite (degraded_is_final (mismatch r) calls) by congruence. cbn [snd replicate]. split; [done|]. rewrite Hs.
        by rewrite (proj2 (Nat.ltb_ge _ _)) by lia.
      + destruct (IH (mismatch r) (S n)) as [H1 H2]; [by unfold activeModel; rewrite decide_True|done|lia|].
        rewrite H1 in *. cbn [snd replicate] in *. split; [done|]. rewrite H2. by replace (S n + length calls)%nat with (n + S (length calls))%nat by lia. }
  destruct (Hgen calls r 0%nat Ha) as [H1 H2]; [by rewrite Hh|lia|]. rewrite H1. cbn [snd] in *. by rewrite H2.
Qed.
End S.
End MLPredictor.

#[export] Instance eta_PredictionOutput : Eta PredictionOutput := fun r => {|
  po_predictionId := po_predictionId r; po_model := po_model r; po_target := po_target r; po_score := po_score r;
  po_probability := po_probability r; po_confidence := po_confidence r; po_regime := po_regime r; po_dataQuality := po_dataQuality r;
  po_featureSummary := po_featureSummary r; po_reasoning := po_reasoning r; po_timestamp := po_timestamp r; po_expiresAt := po_expiresAt r |}.

(** * [MLPredictiveModel] *)
Module MLPredictiveModel.

(** The runtime is shared with the registry and passed along. *)
(* @src third_party/predictions-engine/include/pe/models/ml_predictive_model.hpp | ModelIdentity identity_; >> mutable double stat_conf_ = 0.0; | MLPredictiveModel *)
Record t := { fusion_ : MLFusion; ml_weight_ : double; stat_p_ : double; stat_conf_ : double }.
#[export] Instance eta_t : Eta t := fun r =>
  {| fusion_ := fusion_ r; ml_weight_ := ml_weight_ r; stat_p_ := stat_p_ r; stat_conf_ := stat_conf_ r |}.

(* @src third_party/predictions-engine/include/pe/models/ml_predictive_model.hpp | explicit MLPredictiveModel( *)
Definition make (ml_weight : double) : t := {| fusion_ := fixedWeight ml_weight; ml_weight_ := ml_weight; stat_p_ := f0; stat_conf_ := f0 |}.

Definition identity : ModelIdentity :=
  {| mi_name := "ml-predictive"; mi_version := "1.0.0"; mi_featureVersion := FEATURE_VERSION_V2; mi_targetVersion := "targets-v1" |}.

(* @src third_party/predictions-engine/include/pe/models/ml_predictive_model.hpp | void setMlWeight( *)
Definition setMlWeight (m : t) (w : double) : t := m <| ml_weight_ := w |> <| fusion_ := fixedWeight w |>.

(* @src third_party/predictions-engine/include/pe/models/ml_predictive_model.hpp | void setStatisticalBase( *)
Definition setStatisticalBase (m : t) (probability confidence : double) : t := m <| stat_p_ := probability |> <| stat_conf_ := confidence |>.

Section S.
Variable exp log : double -> double.
Variable iso : Z -> string.
Variable fmt : double -> string.

(** The statistical probability for a target. *)
(* @src third_party/predictions-engine/include/pe/models/ml_predictive_model.hpp | double base_p = stat_p_; >> base_p = std::min(0.99 | MLPredictiveModel::predict *)
Definition base_probability (m : t) (v : Features) (target : double) : double :=
  let p := if fle (stat_p_ m) f0 then default Models.EMPIRICAL_BASE_1_30 (v !! "ewma_hit_13") else stat_p_ m in
  let p := if fge target (of_Z 2) then fmul p (flit 55 100) else p in
  let p := if fge target (of_Z 5) then fmul p (flit 4 10) else p in
  clip (flit 1 100) (flit 99 100) p.

Definition fusion_input (stat_p ml_p conf regime_conf : double) : FusionInput :=
  {| fi_stat_p := stat_p; fi_ml_p := ml_p; fi_stat_conf := conf; fi_ml_conf := flit 55 100; fi_disagreement := f0; fi_regime_conf := regime_conf |}.

(* @src third_party/predictions-engine/include/pe/models/ml_predictive_model.hpp | PredictionOutput predict(const FeatureVector& features, *)
Definition predict (m : t) (rt : option MLRuntime.t) (fv : FeatureVector) (target : double) (regime : option Regime) (st : Models.Stamp)
    (us : nat -> double) : PredictionOutput * option MLRuntime.t :=
  let base_p := base_probability m (fv_values fv) target in
  let conf := if fgt (stat_conf_ m) f0 then stat_conf_ m else flit 5 10 in
  let '(ml, rt) := match rt with
                   | Some r => let '(a, r) := MLPredictor.predict exp log r (fv_values fv) us in (a, Some r)
                   | None => (None, None)
                   end in
  let '(final_p, conf, why, rt) :=
    match ml, rt with
    | Some res, Some r =>
        if mr_valid res && fusion_enabled (cfg r) && fgt (ml_weight_ m) f0 then
          let '(p, c) := fuse exp (fusion_ m) (fusion_input base_p (mr_probability res) conf
                                                  (match regime with Some g => rg_confidence g | None => flit 5 10 end)) in
          (p, c, ["fusion ml_weight=" +:+ fmt (ml_weight_ m); "ml_p=" +:+ fmt (mr_probability res)],
           Some (r <| metrics ::= fun s => MLMetrics.recordStage s MLMetrics.kFuse (us 3%nat) |>))
        else if mr_valid res && fle (ml_weight_ m) f0 then (base_p, conf, ["shadow ml_p=" +:+ fmt (mr_probability res)], rt)
        else (base_p, conf, ["ml unavailable — statistical only"], rt)
    | _, _ => (base_p, conf, ["ml unavailable — statistical only"], rt)
    end in
  ({| po_predictionId := Models.st_uuid st; po_model := identity; po_target := target; po_score := final_p; po_probability := final_p;
      po_confidence := conf; po_regime := regime; po_dataQuality := fv_quality fv;
      po_featureSummary := list_to_map [("stat_p", base_p); ("final_p", final_p); ("ml_weight", ml_weight_ m)];
      po_reasoning := "ml-predictive-model" :: why; po_timestamp := iso (Models.st_now st); po_expiresAt := iso (Models.st_now st + 30 * 1000) |},
   rt).

(** Remark: The probability of the model is between 0.01 and 0.99 whatever the runtime answers, and it
    is the statistical one when the runtime is absent or not live. *)
Theorem ml_model_bounded (m : t) (rt : option MLRuntime.t) (fv : FeatureVector) (target : double) (regime : option Regime)
    (st : Models.Stamp) (us : nat -> double) :
  let '(out, _) := predict m rt fv target regime st us in
  Models.in_bounds (po_probability out) /\ po_model out = identity /\
  match rt with Some r => state r = Live \/ po_probability out = base_probability m (fv_values fv) target
  | None => po_probability out = base_probability m (fv_values fv) target end.
Proof.
  unfold predict. destruct rt as [r|].
  2: { split; [apply clip_in_bounds|split; [done|done]]. }
  destruct (decide (state r = Live)) as [E|E].
  - destruct (MLPredictor.predict exp log r (fv_values fv) us) as [[res|] r']; [|split; [apply clip_in_bounds|split; [done|by left]]].
    destruct (mr_valid res && fusion_enabled (cfg r') && fgt (ml_weight_ m) f0).
    + split; [apply clip_in_bounds|split; [done|by left]].
    + destruct (mr_valid res && fle (ml_weight_ m) f0); (split; [apply clip_in_bounds|split; [done|by left]]).
  - assert (MLPredictor.predict exp log r (fv_values fv) us = (None, r)) as ->.
    { unfold MLPredictor.predict, activeModel. by rewrite decide_False. }
    split; [apply clip_in_bounds|split; [done|by right]].
Qed.
End S.
End MLPredictiveModel.

(** * The stage in the engine *)
Module MlEngine.
Import Models PredictionEngine.
Section S.
Variable exp log log2 sin cos : double -> double.
Variable iso : Z -> string.
Variable fmt : double -> string.
Variable enum : gmap string Model -> list (string * Model).

(** The runtime takes part in a prediction of a model of this name. *)
(* @src third_party/predictions-engine/include/pe/engine/prediction_engine.hpp | const bool already_ml = >> && (rt->config().fusion_enabled || | PredictionEngine::predict *)
Definition takes_part (r : MLRuntime.t) (name : string) : bool :=
  bool_decide (MLRuntime.state r = Live) && enabled (cfg r) && negb (String.eqb name "ml-predictive") &&
  (fusion_enabled (cfg r) || fgt (ml_weight (cfg r)) f0).

(* @src third_party/predictions-engine/include/pe/engine/prediction_engine.hpp | auto* rt = models_->mlRuntime(); >> out.featureSummary["ml_p_shadow"] = ml->probability; | PredictionEngine::predict *)
Definition ml_stage (rt : option MLRuntime.t) (out : PredictionOutput) (fv : FeatureVector) (regime : Regime) (us : nat -> double)
    : PredictionOutput * option MLRuntime.t :=
  match rt with
  | None => (out, None)
  | Some r =>
      if negb (takes_part r (mi_name (po_model out))) then (out, rt)
      else
        match MLPredictor.predict exp log r (fv_values fv) us with
        | (Some res, r) =>
            if mr_valid res && fgt (ml_weight (cfg r)) f0 && fusion_enabled (cfg r) then
              let '(p, c) := fuse exp (fixedWeight (ml_weight (cfg r)))
                               (MLPredictiveModel.fusion_input (po_probability out) (mr_probability res) (po_confidence out) (rg_confidence regime)) in
              (out <| po_probability := p |> <| po_score := p |> <| po_confidence := c |>
                   <| po_reasoning ::= fun l => l ++ ["engine_fusion ml_weight=" +:+ fmt (ml_weight (cfg r))] |>
                   <| po_featureSummary ::= insert "ml_p" (mr_probability res) |>, Some r)
            else if mr_valid res then (out <| po_featureSummary ::= insert "ml_p_shadow" (mr_probability res) |>, Some r)
            else (out, Some r)
        | (None, r) => (out, Some r)
        end
  end.

(** The prediction of the engine with the stage between the model and the validation of its output. *)
(* @src third_party/predictions-engine/include/pe/engine/prediction_engine.hpp | PredictResult predict(const PredictRequest& req) { *)
Definition predict (e : PredictionEngine.t) (rt : option MLRuntime.t) (req : PredictRequest) (uuid : nat -> string) (clk us : nat -> Z)
    (mlus : nat -> double) : (PredictResult + (PipelineStage * string)) * option MLRuntime.t :=
  let fv := compute log log2 sin cos (PredictionEngine.state e) (pq_targetRoundId req) (uuid 0%nat) (iso (clk 1%nat)) (clk 1%nat) in
  let cps := match pq_recentCrashPoints req with [] => IncrementalStateEngine.getLagArray (PredictionEngine.state e) | l => l end in
  let regime := RegimeDetector.detect cps (uuid 1%nat) (iso (clk 2%nat)) in
  match resolve enum e req with
  | inr what => (inr (ModelResolution, what), rt)
  | inl m =>
      let out := Models.predict exp iso m fv (pq_target req) (Some regime) {| st_uuid := uuid 2%nat; st_now := clk 3%nat |} in
      let '(out, rt) := ml_stage rt out fv regime mlus in
      match validatePredictionOutput out with
      | Some what => (inr (PredictionOutputValidation, what), rt)
      | None =>
          let signal := toSignal out (pq_targetRoundId req) in
          match validateSignal signal with
          | Some what => (inr (SignalValidation, what), rt)
          | None => (inl {| px_signal := signal; px_output := out; px_features := fv; px_regime := regime;
                            px_lifecycle := IncrementalStateEngine.getLifecycleState (PredictionEngine.state e) (clk 0%nat);
                            px_latencyUs := us 0%nat; px_withinBudget := us 1%nat <=? LATENCY_BUDGET_US |}, rt)
          end
      end
  end.

(** ** The stage keeps an output valid *)

(** A confidence: a number between 0 and 1. *)
Definition fraction (c : double) : Prop := nonneg c = true /\ fle c f1 = true.

Lemma nonneg_inside x hi : nonneg x = true -> fle x hi = true -> fle hi f1 = true -> outside x = false.
Proof.
  intros H1 H2 H3. assert (fle x f1 = true) as H4 by (by apply (fle_trans x hi)). unfold outside.
  rewrite nonneg_spec in H1. apply andb_true_iff in H1 as [Hn H1]. apply negb_true_iff in Hn.
  assert (flt x f0 = false) as -> by (apply not_true_is_false; intros X; assert (fle f0 x = false) by (by apply flt_nle); congruence).
  assert (fgt x f1 = false) as -> by (apply not_true_is_false; intros X; unfold fgt in X; assert (fle x f1 = false) by (by apply flt_nle); congruence).
  by destruct x as [|[]| |].
Qed.

Lemma fused_confidence c r f i : fi_stat_conf i = c -> fi_ml_conf i = flit 55 100 -> fraction c -> fuse exp f i = r ->
  nonneg r.2 = true /\ fle r.2 (flit 95 100) = true.
Proof.
  intros E1 E2 [Hc _] <-. cbn [fuse snd]. rewrite E1, E2.
  assert (nonneg (fmin (flit 95 100) (fadd (fmul (flit 1 2) c) (fmul (flit 1 2) (flit 55 100)))) = true) as Hn.
  { apply fmin_nonneg; [done|]. apply fadd_nonneg; [|done]. by apply fmul_nonneg. }
  split; [exact Hn|]. unfold fmin in *. destruct (flt _ _) eqn:E; [by apply flt_fle|done].
Qed.

(** What the stage may change. *)
Lemma stage_spec rt out fv regime us : fraction (po_confidence out) ->
  let '(out', rt') := ml_stage rt out fv regime us in
  po_predictionId out' = po_predictionId out /\ po_model out' = po_model out /\ po_target out' = po_target out /\
  fraction (po_confidence out') /\
  (in_bounds (po_probability out') /\ (exists r, rt = Some r /\ MLRuntime.state r = Live /\ fgt (ml_weight (cfg r)) f0 = true) \/
   po_probability out' = po_probability out /\ po_score out' = po_score out /\ po_confidence out' = po_confidence out /\
   po_reasoning out' = po_reasoning out).
Proof.
  intros Hc. unfold ml_stage. destruct rt as [r|]; [|by split_and!; auto].
  destruct (takes_part r _) eqn:Et; cbn [negb]; [|by split_and!; auto].
  pose proof (MLPredictor.predict_keeps exp log r (fv_values fv) us) as (Hcfg & _).
  destruct (MLPredictor.predict exp log r (fv_values fv) us) as [[res|] r']; cbn [snd] in Hcfg; [|by split_and!; auto].
  destruct (mr_valid res); cbn [andb]; [|by split_and!; auto].
  destruct (fgt (ml_weight (cfg r')) f0) eqn:Ew; cbn [andb]; [|by split_and!; auto].
  destruct (fusion_enabled (cfg r')); [|by split_and!; auto].
  pose proof (clip_in_bounds) as Hb. set (i := MLPredictiveModel.fusion_input _ _ _ _).
  pose proof (proj1 (fuse_bounded exp (fixedWeight (ml_weight (cfg r'))) i)) as Hp.
  pose proof (fused_confidence (po_confidence out) _ (fixedWeight (ml_weight (cfg r'))) i eq_refl eq_refl Hc eq_refl) as [H1 H2].
  destruct (fuse exp _ i) as [p c]. cbn [fst snd] in *. split_and!; try done.
  - split; [exact H1|]. by apply (fle_trans _ (flit 95 100)).
  - left. split; [exact Hp|]. exists r. split_and!; [done| |by rewrite <- Hcfg].
    unfold takes_part in Et. apply andb_true_iff in Et as [Et _]. apply andb_true_iff in Et as [Et _]. apply andb_true_iff in Et as [Et _].
    by apply bool_decide_eq_true in Et.
Qed.

Lemma range_fraction lo hi c : fle f0 lo = true -> fle hi f1 = true -> fle lo c = true /\ fle c hi = true -> fraction c.
Proof.
  intros H0 H1 [Hl Hh]. split; [|by apply (fle_trans c hi)]. rewrite nonneg_spec. apply andb_true_iff.
  split; [destruct c; try done; by destruct lo as [| | |[]]|by apply (fle_trans f0 lo)].
Qed.

Lemma fraction_inside c : fraction c -> outside c = false.
Proof. intros [H1 H2]. by apply (nonneg_inside c f1). Qed.

(** C8: Machine learning never costs an answer: the engine with the stage answers every request that
    names no model and has a round, with a probability between 0.01 and 0.99 and a confidence
    between 0 and 1, whatever the runtime's state, model and configuration are; and unless the
    runtime is live with a positive weight, probability, score, confidence and reasons are those of
    the engine without the stage. *)
Theorem ml_never_costs_an_answer (e : PredictionEngine.t) (rt : option MLRuntime.t) (req : PredictRequest) (uuid : nat -> string)
    (clk us : nat -> Z) (mlus : nat -> double) :
  sound e -> pq_modelName req = None -> (forall i, uuid i <> EmptyString) -> pq_targetRoundId req <> EmptyString ->
  exists r r0, fst (predict e rt req uuid clk us mlus) = inl r /\
    PredictionEngine.predict exp log log2 sin cos iso enum e req uuid clk us = inl r0 /\
    ps_targetRoundId (px_signal r) = pq_targetRoundId req /\ ps_target (px_signal r) = pq_target req /\
    in_bounds (ps_probability (px_signal r)) /\ fraction (ps_confidence (px_signal r)) /\
    ((exists m, rt = Some m /\ MLRuntime.state m = Live /\ fgt (ml_weight (cfg m)) f0 = true) \/
     ps_probability (px_signal r) = ps_probability (px_signal r0) /\ ps_score (px_signal r) = ps_score (px_signal r0) /\
     ps_confidence (px_signal r) = ps_confidence (px_signal r0) /\ ps_reasoning (px_signal r) = ps_reasoning (px_signal r0)).
Proof.
  intros Hs Hm Hu Hr. destruct (predict_result exp log log2 sin cos iso enum e req uuid clk us Hs Hm Hu)
    as (at_ & out & an & Hp & Hc & Ht & Hid & Hk & _ & H).
  unfold is_empty in H. rewrite (proj2 (String.eqb_neq _ _) Hr) in H. destruct H as (r0 & H0 & Ho & Hsig).
  unfold predict. revert H0. unfold PredictionEngine.predict, resolve. rewrite Hm.
  destruct (sound_default e Hs) as [at1 ->]. cbv zeta. set (fv := compute _ _ _ _ _ _ _ _ _). set (regime := RegimeDetector.detect _ _ _).
  set (o := Models.predict _ _ _ _ _ _ _). destruct (validatePredictionOutput o); [done|]. destruct (validateSignal (toSignal o _)); [done|].
  intros [= <-]. cbn [px_output px_signal] in *. subst out.
  pose proof (stage_spec rt o fv regime mlus (range_fraction (flit 15 100) (flit 92 100) _ eq_refl eq_refl Hc)) as Hst.
  destruct (ml_stage rt o fv regime mlus) as [o' rt']. destruct Hst as (E1 & E2 & E3 & Ef & Hcase).
  assert (in_bounds (po_probability o')) as Hp' by (destruct Hcase as [[H _]|(-> & _)]; done).
  assert (outside (po_probability o') = false) as Op by (by apply fraction_inside, (range_fraction (flit 1 100) (flit 99 100) _ eq_refl eq_refl Hp')).
  assert (outside (po_confidence o') = false) as Oc by (by apply fraction_inside).
  assert (validatePredictionOutput o' = None) as ->.
  { unfold validatePredictionOutput. rewrite Op, Oc, E1, E2, Hid, Hk. unfold is_empty. by rewrite (proj2 (String.eqb_neq _ _) (Hu 2%nat)). }
  assert (validateSignal (toSignal o' (pq_targetRoundId req)) = None) as ->.
  { unfold validateSignal. cbn [toSignal ps_predictionId ps_targetRoundId ps_probability ps_featureVersion]. rewrite Op, E1, E2, Hid, Hk.
    unfold is_empty. by rewrite (proj2 (String.eqb_neq _ _) (Hu 2%nat)), (proj2 (String.eqb_neq _ _) Hr). }
  eexists _, _.
  split; [done|]. split; [done|]. split; [done|]. split; [exact (eq_trans E3 Ht)|]. split; [exact Hp'|]. split; [exact Ef|].
  destruct Hcase as [[_ H]|H]; [left; exact H|right; exact H].
Qed.
End S.
End MlEngine.

(** * Boundary behaviour and concrete runs *)

(** Remark: The two clamps of the predictor turn a NaN of a calibration table into the least
    configured probability, so an answer is made although the table has none. *)
Theorem nan_table_answers_minimum (exp log : double -> double) (r : MLRuntime.t) (c : MLCalibrator) (p : double) :
  calibration_enabled (cfg r) = true -> calibrator r = Some c -> calibrate exp log c p = S754_nan ->
  flt (minimum_probability (cfg r)) (maximum_probability (cfg r)) = true ->
  MLPredictor.finish exp log r p = minimum_probability (cfg r).
Proof.
  intros Hc Hk Hn Hlt. unfold MLPredictor.finish. rewrite Hc, Hk, Hn. apply clip_nan; [by apply flt_fle|exact Hlt].
Qed.

Definition no_files (_ : string) : option (list Z) := None.
Definition log_zero (_ : double) : double := f0.
Definition no_time (_ : nat) : double := f0.

(** A live runtime with the default model. *)
Definition demo_rt : MLRuntime.t := (loadDefault no_files half_exp log_zero MLRuntime.make f0).1.2.

(** The same with a table that the loader accepts. *)
Definition nan_rt : MLRuntime.t := demo_rt <| calibrator_ := isotonic [f0; f1] [S754_nan; S754_nan] |>.

Lemma nan_table_answers_minimum_witness : MLPredictor.finish half_exp log_zero nan_rt (flit 7 10) = f0.
Proof.
  apply (nan_table_answers_minimum half_exp log_zero nan_rt (isotonic [f0; f1] [S754_nan; S754_nan])); vm_compute; reflexivity.
Defined.

(** Remark: A feature vector without any of the features is accepted; each counts as zero. *)
Theorem missing_features_are_zero : preprocess ∅ MAX_ML_FEATURES = Some (replicate (length mlFeatureOrder) f0).
Proof. vm_compute. reflexivity. Qed.

Lemma ml_answer_witness : exists res, fst (MLPredictor.predict half_exp log_zero demo_rt ∅ no_time) = Some res /\
  mr_valid res = true /\ fle (mr_probability res) f1 = true.
Proof.
  destruct (fst (MLPredictor.predict half_exp log_zero demo_rt ∅ no_time)) as [res|] eqn:E; [|vm_compute in E; discriminate E].
  exists res. split; [done|].
  destruct (MLPredictor.ml_answer half_exp log_zero demo_rt ∅ no_time res) as (H1 & _ & _ & H2 & _); [vm_compute; reflexivity..|exact E|].
  split; [exact H1|exact H2].
Defined.

Lemma degraded_is_final_witness : MLRuntime.state MLRuntime.make <> Live /\
  MLPredictor.predictions half_exp log_zero MLRuntime.make [(∅, no_time); (∅, no_time)] = ([None; None], MLRuntime.make).
Proof. split; [done|]. apply (MLPredictor.degraded_is_final half_exp log_zero MLRuntime.make [(∅, no_time); (∅, no_time)]). done. Defined.

(** Ten features instead of 48, and sixty predictions. *)
Definition ten : MLModelConfig := default_config <| enabled := true |> <| expected_features := 10%nat |>.

Lemma mismatched_config_never_answers_witness :
  let '(ok, r, _) := loadFromConfig no_files half_exp log_zero MLRuntime.make ten f0 in
  let '(answers, r') := MLPredictor.predictions half_exp log_zero r (replicate 60 (∅, no_time)) in
  ok = true /\ MLRuntime.state r = Live /\ answers = replicate 60 None /\ MLRuntime.state r' = Degraded.
Proof.
  pose proof (MLPredictor.mismatched_config_never_answers half_exp log_zero no_files MLRuntime.make ten f0 (replicate 60 (∅, no_time))
    eq_refl ltac:(vm_compute; lia) ltac:(discriminate)) as H.
  assert ((loadFromConfig no_files half_exp log_zero MLRuntime.make ten f0).1.1 = true) as E by (vm_compute; reflexivity).
  destruct (loadFromConfig no_files half_exp log_zero MLRuntime.make ten f0) as [[ok r] seen]. cbn [fst] in E. specialize (H E).
  rewrite length_replicate in H. destruct (MLPredictor.predictions half_exp log_zero r (replicate 60 (∅, no_time))) as [answers r'].
  split; [exact E|exact H].
Defined.

(** Weight one quarter: the stage fuses. *)
Definition fusing_rt : MLRuntime.t := demo_rt <| cfg ::= fun c => c <| ml_weight := flit 1 4 |> |>.

Definition demo_request : PredictionEngine.PredictRequest := {|
  PredictionEngine.pq_targetRoundId := "42"; PredictionEngine.pq_target := flit 13 10; PredictionEngine.pq_modelName := None;
  PredictionEngine.pq_modelVersion := None; PredictionEngine.pq_recentCrashPoints := [] |}.

Lemma ml_never_costs_an_answer_witness : exists r,
  fst (MlEngine.predict half_exp log_zero log_zero log_zero log_zero (fun _ => "t") (fun _ => "x") (fun _ => [])
         (PredictionEngine.make "t") (Some fusing_rt) demo_request (fun _ => "id") (fun _ => 0) (fun _ => 0) no_time) = inl r /\
  Models.in_bounds (PredictionEngine.ps_probability (PredictionEngine.px_signal r)).
Proof.
  destruct (MlEngine.ml_never_costs_an_answer half_exp log_zero log_zero log_zero log_zero (fun _ => "t") (fun _ => "x") (fun _ => [])
    (PredictionEngine.make "t") (Some fusing_rt) demo_request (fun _ => "id") (fun _ => 0) (fun _ => 0) no_time)
    as (r & _ & H1 & _ & _ & _ & H2 & _); [split; [by exists "t"|vm_compute; discriminate]|done|done|done|].
  exists r. split; [exact H1|exact H2].
Defined.
