(* ===== verification/PeOffline.v ===== *)
(** Parts of the prediction engine that no request uses: the features computed by a scan of all
    rounds ([pe/features/calculators.hpp], [feature_engine.hpp]), the importance and the
    contribution of features ([feature_importance.hpp], [feature_contribution.hpp]), and the
    clustering of rounds ([pe/regimes/learned_clustering.hpp], [regime_fit_job.hpp]), all under
    [third_party/predictions-engine/include].

    [date] and [datetime] are what [strptime] and [timegm] make of a text in the formats
    [%Y-%m-%d] and [%Y-%m-%dT%H:%M:%S]: seconds since the epoch.  Vectors that are combined have
    the same length, as the source assumes. *)
From stdpp Require Import sorting pretty.
From S2P Require Import Prelude Float64 FloatSign Types Stats PeState PeFeatures Config.

Open Scope string_scope.
Open Scope list_scope.
Open Scope Z_scope.

(** * Statistics of a list ([calculators.hpp]) *)
Module Calculators.

Definition size (l : list double) : double := of_Z (Z.of_nat (length l)).
Definition at_ (l : list double) (i : nat) : double := default f0 (l !! i).
Definition sort := CrashStatsAccumulator.sort_doubles.

(* @src third_party/predictions-engine/include/pe/features/calculators.hpp | inline double mean( *)
Definition mean (l : list double) : double := match l with [] => f0 | _ => fdiv (sum l) (size l) end.

(* @src third_party/predictions-engine/include/pe/features/calculators.hpp | inline double median( *)
Definition median (l : list double) : double :=
  match l with
  | [] => f0
  | _ =>
      let v := sort l in
      let n := length v in
      let mid := (n / 2)%nat in
      if (n mod 2 =? 0)%nat then fdiv (fadd (at_ v (mid - 1)) (at_ v mid)) (of_Z 2) else at_ v mid
  end.

(* @src third_party/predictions-engine/include/pe/features/calculators.hpp | inline double variance( *)
Definition variance (l : list double) : double :=
  if (length l <? 2)%nat then f0
  else
    let m := mean l in
    fdiv (fold_left (fun acc v => let d := fsub v m in fadd acc (fmul d d)) l f0) (of_Z (Z.of_nat (length l - 1))).

(* @src third_party/predictions-engine/include/pe/features/calculators.hpp | inline double stddev( *)
Definition stddev (l : list double) : double := fsqrt (variance l).

(** [std::ceil] of a number that is not negative and has a fractional part or fits in 53 bits. *)
Definition fceil (x : double) : double := let f := ffloor x in if feq f x then f else fadd f f1.

(* @src third_party/predictions-engine/include/pe/features/calculators.hpp | inline double percentile( *)
Definition percentile (l : list double) (p : Z) : double :=
  match l with
  | [] => f0
  | _ =>
      let v := sort l in
      let idx := fmul (fdiv (of_Z p) (of_Z 100)) (of_Z (Z.of_nat (length v - 1))) in
      let lo := Z.to_nat (ftrunc (ffloor idx)) in
      let hi := Z.to_nat (ftrunc (fceil idx)) in
      if (lo =? hi)%nat then at_ v lo
      else fadd (at_ v lo) (fmul (fsub (at_ v hi) (at_ v lo)) (fsub idx (of_Z (Z.of_nat lo))))
  end.

(** The same function over points and over rounds. *)
(* @src third_party/predictions-engine/include/pe/features/calculators.hpp | inline double hitRatePoints( *)
Definition hitRatePoints (cps : list double) (threshold : double) : double :=
  match cps with [] => f0 | _ => fdiv (of_Z (Z.of_nat (count (fun c => fge c threshold) cps))) (size cps) end.

(* @src third_party/predictions-engine/include/pe/types.hpp | enum class DataQuality *)
Inductive DataQuality := QHigh | QMedium | QLow.

(* @src third_party/predictions-engine/include/pe/types.hpp | struct HistoricalRound { *)
Record HistoricalRound := {
  hr_id : string; hr_externalRoundId : string; hr_sessionId : option string; hr_startedAt : option string; hr_crashedAt : option string;
  hr_crashPoint : double; hr_observationSource : option string; hr_dataQuality : option DataQuality; hr_createdAt : string;
  hr_sequenceIndex : option Z }.

Definition points (rounds : list HistoricalRound) : list double := hr_crashPoint <$> rounds.

(* @src third_party/predictions-engine/include/pe/features/calculators.hpp | inline double hitRateRounds( *)
Definition hitRateRounds (rounds : list HistoricalRound) (threshold : double) : double := hitRatePoints (points rounds) threshold.

(** The rounds after the last one at or above the threshold; all when there is none. *)
(* @src third_party/predictions-engine/include/pe/features/calculators.hpp | inline int roundsSinceRounds( *)
Definition roundsSinceRounds (rounds : list HistoricalRound) (threshold : double) : Z :=
  Z.of_nat (run_at_front (fun c => negb (fge c threshold)) (rev (points rounds))).

(* @src third_party/predictions-engine/include/pe/features/calculators.hpp | inline int consecutiveStreak( *)
Definition consecutiveStreak (rounds : list HistoricalRound) (pred : double -> bool) : Z :=
  Z.of_nat (run_at_front pred (rev (points rounds))).

(** [slice] and [sliceRounds]: the last [n] elements. *)
(* @src third_party/predictions-engine/include/pe/features/calculators.hpp | auto sliceRounds = [&](int n) >> return {priorRounds.begin() + start, | computeFeatures *)
Definition slice {A} (n : nat) (l : list A) : list A := trim_front n l.

Section Times.
Variable date datetime : string -> option Z.

(** [std::stoi] of two characters; -1 when there is no number. *)
(* @src third_party/predictions-engine/include/pe/features/calculators.hpp | inline int hourOfDayIso( *)
Definition hourOfDayIso (iso : string) : Z :=
  if (String.length iso <? 13)%nat then -1 else default (-1) (TomlConfig.stoll (String.substring 11 2 iso)).

(** -1 seconds is the error value of [timegm]. *)
(* @src third_party/predictions-engine/include/pe/features/calculators.hpp | inline int dayOfWeekIso( *)
Definition dayOfWeekIso (iso : string) : Z :=
  if (String.length iso <? 10)%nat then -1
  else match date iso with Some t => if t =? -1 then -1 else weekday_of t | None => -1 end.

(* @src third_party/predictions-engine/include/pe/features/calculators.hpp | inline double parseIsoMs( *)
Definition parseIsoMs (iso : string) : double :=
  if str_empty iso then S754_nan
  else match (match datetime iso with Some t => Some t | None => date iso end) with
       | Some t => if t =? -1 then S754_nan else fmul (of_Z t) (of_Z 1000)
       | None => S754_nan
       end.

Definition quality_value (q : option DataQuality) : double :=
  match q with None => flit 3 10 | Some QHigh => f1 | Some QMedium => flit 6 10 | Some QLow => flit 3 10 end.

(* @src third_party/predictions-engine/include/pe/features/calculators.hpp | double quality = 0.0; >> quality = s / static_cast<double>(priorRounds.size()); | computeFeatures *)
Definition quality (rounds : list HistoricalRound) : double := mean (quality_value ∘ hr_dataQuality <$> rounds).

(* @src third_party/predictions-engine/include/pe/features/calculators.hpp | double secondsSincePrev = 0.0; >> secondsSincePrev = std::max(0.0, | computeFeatures *)
Definition secondsSincePrev (rounds : list HistoricalRound) (timestamp : string) : double :=
  match last rounds with
  | None => f0
  | Some r =>
      let tLast := parseIsoMs (default (default (hr_createdAt r) (hr_startedAt r)) (hr_crashedAt r)) in
      let tNow := parseIsoMs timestamp in
      if is_finite tLast && is_finite tNow then fmax f0 (fmin (of_Z 600) (fdiv (fsub tNow tLast) (of_Z 1000))) else f0
  end.

(* @src third_party/predictions-engine/include/pe/features/calculators.hpp | double roundsPerHour = 0.0; >> if (hours > 1e-6) roundsPerHour | computeFeatures *)
Definition roundsPerHour (rounds : list HistoricalRound) : double :=
  if (length rounds <? 5)%nat then f0
  else
    let win := Nat.min (length rounds) 50 in
    match rounds !! (length rounds - win)%nat, last rounds with
    | Some first, Some lst =>
        let t0 := parseIsoMs (default (hr_createdAt first) (hr_startedAt first)) in
        let t1 := parseIsoMs (default (hr_createdAt lst) (hr_startedAt lst)) in
        if is_finite t0 && is_finite t1 && fgt t1 t0 then
          let hours := fdiv (fsub t1 t0) (of_Z 3600000) in
          if fgt hours (flit 1 (10 ^ 6)) then fdiv (of_Z (Z.of_nat win)) hours else f0
        else f0
    | _, _ => f0
    end.

(** The first of the least and of the greatest elements. *)
Definition least (l : list double) : double := match l with [] => f0 | x :: l => fold_left (fun m y => if flt y m then y else m) l x end.
Definition greatest (l : list double) : double := match l with [] => f0 | x :: l => fold_left (fun m y => if flt m y then y else m) l x end.

(* @src third_party/predictions-engine/include/pe/features/calculators.hpp | const auto last10 = slice(10); >> {"rounds_per_hour_est", roundsPerHour}, | computeFeatures *)
Definition feature_list (rounds : list HistoricalRound) (timestamp : string) : list (string * double) :=
  let cps := points rounds in
  let last10 := slice 10 cps in
  let last50 := slice 50 cps in
  let last100 := slice 100 cps in
  let hit n thr := hitRateRounds (slice n rounds) thr in
  let since thr := of_Z (roundsSinceRounds rounds thr) in
  let streak p := of_Z (consecutiveStreak rounds p) in
  let x (n d : Z) := flit n d in
  [ ("roll_mean_50", mean last50); ("roll_median_50", median last50); ("roll_min_50", least last50); ("roll_max_50", greatest last50);
    ("roll_std_50", stddev last50); ("roll_var_50", variance last50); ("roll_p25_50", percentile last50 25);
    ("roll_p75_50", percentile last50 75); ("roll_p90_50", percentile last50 90); ("roll_mean_10", mean last10);
    ("roll_std_10", stddev last10); ("roll_mean_100", mean last100); ("roll_std_100", stddev last100);
    ("hit_1_30_50", hit 50%nat (x 13 10)); ("hit_2_00_50", hit 50%nat (x 2 1)); ("hit_5_00_50", hit 50%nat (x 5 1));
    ("hit_10_00_50", hit 50%nat (x 10 1)); ("hit_1_30_100", hit 100%nat (x 13 10)); ("hit_2_00_100", hit 100%nat (x 2 1));
    ("since_1_30", since (x 13 10)); ("since_2_00", since (x 2 1)); ("since_5_00", since (x 5 1)); ("since_10_00", since (x 10 1));
    ("consec_below_1_30", streak (fun cp => flt cp (x 13 10))); ("consec_below_2_00", streak (fun cp => flt cp (x 2 1)));
    ("consec_above_2_00", streak (fun cp => fge cp (x 2 1))); ("consec_above_5_00", streak (fun cp => fge cp (x 5 1)));
    ("sample_size", size cps); ("quality_score", quality rounds); ("hour_utc", of_Z (hourOfDayIso timestamp));
    ("dow_utc", of_Z (dayOfWeekIso timestamp)); ("seconds_since_prev", secondsSincePrev rounds timestamp);
    ("rounds_per_hour_est", roundsPerHour rounds)].

(* @src third_party/predictions-engine/include/pe/features/calculators.hpp | inline std::unordered_map<std::string, double> computeFeatures( *)
Definition computeFeatures (rounds : list HistoricalRound) (timestamp : string) : Features := list_to_map (feature_list rounds timestamp).

(* @src third_party/predictions-engine/include/pe/features/calculators.hpp | inline std::unordered_map<std::string, double> computeV1Features( *)
Definition computeV1Features (points : list double) : Features :=
  let n := size points in
  match points with
  | [] => list_to_map [("sample_size", n); ("mean_crash", f0); ("std_crash", f0); ("hit_13", f0); ("hit_20", f0); ("hit_50", f0);
                       ("quality_score", f0)]
  | _ => list_to_map [("sample_size", n); ("mean_crash", mean points); ("std_crash", stddev points);
                      ("hit_13", hitRatePoints points (flit 13 10)); ("hit_20", hitRatePoints points (flit 2 1));
                      ("hit_50", hitRatePoints points (flit 5 1)); ("quality_score", fmin f1 (fdiv n (of_Z 100)))]
  end.

(** * [FeatureEngine] *)

(* @src third_party/predictions-engine/include/pe/features/feature_engine.hpp | FeatureVector buildVector( *)
Definition buildVector (version : string) (prior : list HistoricalRound) (targetRoundId timestamp : string) : FeatureVector :=
  let values := computeFeatures prior timestamp in
  let missing := filter (fun kv : string * double => is_finite kv.2 = false) values in
  let values := (fun v => if is_finite v then v else f0) <$> values in
  {| fv_roundId := targetRoundId; fv_timestamp := timestamp; fv_version := version; fv_values := values;
     fv_sampleSize := Z.of_nat (length prior); fv_quality := default f0 (values !! "quality_score");
     fv_missing := Z.of_nat (map_size missing) |}.

(** One vector for each round after the first [minHistory], from the rounds before it. *)
(* @src third_party/predictions-engine/include/pe/features/feature_engine.hpp | std::vector<FeatureVector> buildSequence( *)
Definition buildSequence (version : string) (rounds : list HistoricalRound) (minHistory : nat) : list FeatureVector :=
  omap (fun i => (fun target => buildVector version (take i rounds) (hr_id target)
                                  (default (default (hr_createdAt target) (hr_crashedAt target)) (hr_startedAt target)))
                   <$> rounds !! i)
    (seq minHistory (length rounds - minHistory)).

(** Remark: A training sequence looks at no later round: rounds that come after leave the vectors of
    the earlier ones as they are, and only add vectors behind them. *)
Theorem sequence_has_no_lookahead (version : string) (rounds later : list HistoricalRound) (minHistory : nat) :
  buildSequence version rounds minHistory `prefix_of` buildSequence version (rounds ++ later) minHistory.
Proof.
  unfold buildSequence. rewrite length_app.
  destruct (decide (length rounds <= minHistory)%nat) as [H|H].
  { replace (length rounds - minHistory)%nat with 0%nat by lia. apply prefix_nil. }
  replace (length rounds + length later - minHistory)%nat with ((length rounds - minHistory) + length later)%nat by lia.
  rewrite seq_app, omap_app. apply prefix_app_r.
  assert (Forall (fun i => (i < length rounds)%nat) (seq minHistory (length rounds - minHistory))) as HF
    by (apply Forall_forall; intros i Hi%elem_of_seq; lia).
  match goal with |- ?a `prefix_of` ?b => assert (a = b) as ->; [|done] end.
  apply list_omap_ext, Forall_Forall2_diag. eapply Forall_impl; [exact HF|]. intros i Hi. cbn beta in *.
  rewrite (lookup_app_l rounds later i Hi), (take_app_le rounds later i) by (apply Nat.lt_le_incl; exact Hi). reflexivity.
Qed.

(** ** Agreement with the incremental engine *)

Lemma points_slice n rounds : points (slice n rounds) = trim_front n (points rounds).
Proof. unfold points, slice, trim_front. by rewrite length_fmap, fmap_drop. Qed.

Lemma feature_at (i : nat) k x rounds timestamp : feature_list rounds timestamp !! i = Some (k, x) -> computeFeatures rounds timestamp !! k = Some x.
Proof.
  intros H. apply elem_of_list_to_map_1; [|by apply (list_elem_of_lookup_2 _ i)].
  set (names := fst <$> feature_list [] ""). change (fst <$> feature_list rounds timestamp) with names.
  apply (bool_decide_unpack _). vm_compute. exact I.
Qed.

(** The rate over the last [w] rounds, from the list and from the ring. *)
Lemma hit_window rounds (w : nat) thr s : points rounds <> [] -> (0 < w <= IncrementalStateEngine.LAG_CAP)%nat ->
  IncrementalStateEngine.in_ring IncrementalStateEngine.LAG_CAP (IncrementalStateEngine.lag s) (points rounds) ->
  hitRateRounds (slice w rounds) thr = IncrementalStateEngine.windowHitRate s (Z.of_nat w) thr.
Proof.
  intros Hne Hw Hr. assert (0 < length (points rounds))%nat by (destruct (points rounds); [done|cbn; lia]).
  rewrite (IncrementalStateEngine.window_rate_reference s (points rounds)) by (done || lia). rewrite Nat2Z.id.
  set (h := points rounds) in *. assert (trim_front (Nat.min w (Nat.min (length h) IncrementalStateEngine.LAG_CAP)) h = trim_front w h) as ->.
  { unfold trim_front. f_equal. lia. }
  unfold hitRateRounds, hitRatePoints. rewrite points_slice. fold h.
  assert (length (trim_front w h) = Nat.min w (Nat.min (length h) IncrementalStateEngine.LAG_CAP)) as Hl by (rewrite length_trim_front; lia).
  unfold size, IncrementalStateEngine.tally. rewrite <- Hl. destruct (trim_front w h) eqn:E; [cbn in Hl; lia|done].
Qed.

(** C11: The two feature paths agree: for a history of usable points, the hit rates over the last 50
    and 100 rounds, the number of rounds and the rounds since each threshold that the scan computes are
    those that the incremental engine keeps (its window is the last 512 rounds). *)
Theorem full_scan_agrees (rounds : list HistoricalRound) (now : Z) (timestamp : string) :
  rounds <> [] -> Forall (fun c => IncrementalStateEngine.usable c = true) (points rounds) ->
  let s := IncrementalStateEngine.seed ((fun c => (c, now)) <$> points rounds) in
  let v := computeFeatures rounds timestamp in
  v !! "hit_1_30_50" = Some (IncrementalStateEngine.windowHitRate s 50 (flit 13 10)) /\
  v !! "hit_1_30_100" = Some (IncrementalStateEngine.windowHitRate s 100 (flit 13 10)) /\
  v !! "hit_2_00_100" = Some (IncrementalStateEngine.windowHitRate s 100 (flit 2 1)) /\
  v !! "sample_size" = Some (of_Z (IncrementalStateEngine.count_ s)) /\
  v !! "since_1_30" = Some (of_Z (IncrementalStateEngine.s13 (IncrementalStateEngine.since s))) /\
  v !! "since_2_00" = Some (of_Z (IncrementalStateEngine.s20 (IncrementalStateEngine.since s))) /\
  v !! "since_5_00" = Some (of_Z (IncrementalStateEngine.s50 (IncrementalStateEngine.since s))) /\
  v !! "since_10_00" = Some (of_Z (IncrementalStateEngine.s100 (IncrementalStateEngine.since s))).
Proof.
  intros Hne Hu. cbv zeta.
  assert (IncrementalStateEngine.history ((fun c => (c, now)) <$> points rounds) = points rounds) as Hh.
  { unfold IncrementalStateEngine.history. induction Hu as [|c l Hc _ IH]; [done|]. cbn [fmap list_fmap map fst List.filter].
    rewrite Hc. f_equal. exact IH. }
  pose proof (IncrementalStateEngine.seed_reflects ((fun c => (c, now)) <$> points rounds)) as (Hc & _ & _ & Hk & Hlag & _).
  rewrite Hh in *. set (s := IncrementalStateEngine.seed _) in *.
  assert (points rounds <> []) as Hp by (by destruct rounds).
  assert (IncrementalStateEngine.since s = (IncrementalStateEngine.counters (points rounds)).1.1.2) as Hs by (by rewrite <- Hk).
  change 50 with (Z.of_nat 50). change 100 with (Z.of_nat 100). rewrite Hc, Hs.
  rewrite <- !(hit_window rounds) by (done || (unfold IncrementalStateEngine.LAG_CAP; lia)).
  split_and!.
  - by apply (feature_at 13).
  - by apply (feature_at 17).
  - by apply (feature_at 18).
  - by apply (feature_at 27).
  - by apply (feature_at 19).
  - by apply (feature_at 20).
  - by apply (feature_at 21).
  - by apply (feature_at 22).
Qed.
End Times.

Definition demo_round (c : double) : HistoricalRound := {|
  hr_id := "r"; hr_externalRoundId := "1"; hr_sessionId := None; hr_startedAt := None; hr_crashedAt := None; hr_crashPoint := c;
  hr_observationSource := None; hr_dataQuality := Some QHigh; hr_createdAt := ""; hr_sequenceIndex := None |}.

Definition no_date (_ : string) : option Z := None.

Lemma full_scan_agrees_witness :
  let rounds := demo_round <$> [flit 12 10; flit 25 10; flit 11 10] in
  computeFeatures no_date no_date rounds "" !! "since_2_00" = Some (of_Z 1) /\
  computeFeatures no_date no_date rounds "" !! "hit_1_30_50" = Some (flit 1 3).
Proof.
  destruct (full_scan_agrees no_date no_date (demo_round <$> [flit 12 10; flit 25 10; flit 11 10]) 0 "")
    as (H1 & _ & _ & _ & _ & H2 & _); [discriminate|repeat constructor|].
  cbv zeta. rewrite H1, H2. split; vm_compute; reflexivity.
Defined.
End Calculators.

(** * Importance and contribution of features *)
Module FeatureImportance.

(* @src third_party/predictions-engine/include/pe/features/feature_importance.hpp | struct FeatureImportanceResult { *)
Record FeatureImportanceResult := { fir_group : string; fir_baselineBrier : double; fir_ablatedBrier : double; fir_delta : double }.

(* @src third_party/predictions-engine/include/pe/features/feature_importance.hpp | inline double brierScore( *)
Definition brierScore (probs ys : list double) : double :=
  match zip probs ys with
  | [] => f0
  | l => fdiv (fold_left (fun s py => let d := fsub py.1 py.2 in fadd s (fmul d d)) l f0) (of_Z (Z.of_nat (length l)))
  end.

Definition ablate (keys : list string) (row : Features) : Features := fold_left (fun m k => <[k := f0]> m) keys row.

(** [groups] lists the groups in the order of the hash table. *)
(* @src third_party/predictions-engine/include/pe/features/feature_importance.hpp | inline std::vector<FeatureImportanceResult> computeGroupImportance( *)
Definition computeGroupImportance (rows : list Features) (outcomes : list double) (groups : list (string * list string))
    (scoreFn : Features -> double) : list FeatureImportanceResult :=
  let baseline := brierScore (scoreFn <$> rows) outcomes in
  (fun g => let ab := brierScore (scoreFn <$> (ablate g.2 <$> rows)) outcomes in
            {| fir_group := g.1; fir_baselineBrier := baseline; fir_ablatedBrier := ab; fir_delta := fsub ab baseline |}) <$> groups.

(* @src third_party/predictions-engine/include/pe/models/feature_contribution.hpp | struct FeatureContribution { *)
Record FeatureContribution := { fc_feature : string; fc_value : double; fc_weight : double; fc_contribution : double }.

Definition larger (a b : FeatureContribution) : Prop := Is_true (fge (SFabs (fc_contribution a)) (SFabs (fc_contribution b))).
#[export] Instance larger_dec a b : Decision (larger a b).
Proof. unfold larger. apply _. Defined.

(** [weights] in the order of the hash table; the products must not be NaN. *)
(* @src third_party/predictions-engine/include/pe/models/feature_contribution.hpp | inline std::vector<FeatureContribution> rankContributions( *)
Definition rankContributions (values : Features) (weights : list (string * double)) : list FeatureContribution :=
  merge_sort larger
    ((fun kw => let v := default f0 (values !! kw.1) in
                {| fc_feature := kw.1; fc_value := v; fc_weight := kw.2; fc_contribution := fmul kw.2 v |}) <$> weights).

(** The message of the exception, if there is one. *)
(* @src third_party/predictions-engine/include/pe/features/feature_version_assert.hpp | inline void assertFeatureVersionMatch( *)
Definition assertFeatureVersionMatch (stored : option string) : option string :=
  match stored with
  | None => None
  | Some v => if str_empty v || String.eqb v FEATURE_VERSION_V2 then None
              else Some ("Feature version mismatch: prediction=" +:+ v +:+ " engine=" +:+ FEATURE_VERSION_V2)
  end.

Lemma lookup_ablate keys row k : ablate keys row !! k = if decide (k ∈ keys) then Some f0 else row !! k.
Proof.
  unfold ablate. revert row. induction keys as [|k' keys IH]; intros row; cbn [fold_left]; [by rewrite decide_False by apply not_elem_of_nil|].
  rewrite IH. destruct (decide (k ∈ keys)) as [H|H]; [by rewrite decide_True by (by apply list_elem_of_further)|].
  destruct (decide (k = k')) as [->|Hne]; [rewrite lookup_insert_eq, decide_True; [done|apply list_elem_of_here]|].
  rewrite lookup_insert_ne, decide_False; [done| |done]. by intros [?|?]%elem_of_cons.
Qed.

(** Remark: A group whose features the score does not read has no importance: its ablated score is the
    baseline, so its delta is a number minus itself. *)
Theorem unread_group_has_no_importance (rows : list Features) (outcomes : list double) (groups : list (string * list string))
    (scoreFn : Features -> double) (read : gset string) (r : FeatureImportanceResult) :
  (forall a b, (forall k, k ∈ read -> a !! k = b !! k) -> scoreFn a = scoreFn b) ->
  r ∈ computeGroupImportance rows outcomes groups scoreFn ->
  (forall keys, (fir_group r, keys) ∈ groups -> forall k, k ∈ keys -> k ∉ read) ->
  fir_ablatedBrier r = fir_baselineBrier r /\ fir_delta r = fsub (fir_baselineBrier r) (fir_baselineBrier r).
Proof.
  intros Hread Hr Hkeys. unfold computeGroupImportance in Hr. apply list_elem_of_fmap in Hr as ([g keys] & -> & Hg). cbn in *.
  assert (scoreFn <$> (ablate keys <$> rows) = scoreFn <$> rows) as ->; [|done].
  rewrite <- list_fmap_compose. apply list_fmap_ext. intros i row _. cbn. apply Hread. intros k Hk. rewrite lookup_ablate, decide_False; [done|].
  intros Hin. by apply (Hkeys keys Hg k Hin).
Qed.

Lemma unread_group_has_no_importance_witness :
  let r := {| fir_group := "g"; fir_baselineBrier := f0; fir_ablatedBrier := f0; fir_delta := f0 |} in
  r ∈ computeGroupImportance [] [] [("g", ["a"])] (fun m => default f0 (m !! "b")) /\ fir_ablatedBrier r = fir_baselineBrier r.
Proof.
  cbv zeta. assert (computeGroupImportance [] [] [("g", ["a"])] (fun m => default f0 (m !! "b")) =
    [{| fir_group := "g"; fir_baselineBrier := f0; fir_ablatedBrier := f0; fir_delta := f0 |}]) as E by (vm_compute; reflexivity).
  assert (forall a b : Features, (forall k, k ∈ ({["b"]} : gset string) -> a !! k = b !! k) -> default f0 (a !! "b") = default f0 (b !! "b")) as Hs
    by (intros a b H; by rewrite (H "b") by set_solver).
  split; [rewrite E; apply list_elem_of_here|].
  apply (unread_group_has_no_importance [] [] [("g", ["a"])] (fun m => default f0 (m !! "b")) {["b"]} _ Hs);
    [rewrite E; apply list_elem_of_here|].
  intros keys Hk k Hin. apply list_elem_of_singleton in Hk. injection Hk as ->. apply list_elem_of_singleton in Hin as ->. set_solver.
Defined.
End FeatureImportance.

(** * Clustering ([learned_clustering.hpp]) *)
Module Clustering.

Notation Row := (list double).

(* @src third_party/predictions-engine/include/pe/regimes/learned_clustering.hpp | struct ScalerParams { *)
Record ScalerParams := { sc_version : string; means : Row; stds : Row }.

Definition vadd : Row -> Row -> Row := zip_with fadd.

Definition scaler_std (n : nat) (s : double) : double :=
  let d := fsqrt (fdiv s (fmax f1 (fsub (of_Z (Z.of_nat n)) f1))) in if flt d (flit 1 (10 ^ 12)) then f1 else d.

(** The sums of squares start at one, as [stds] does. *)
(* @src third_party/predictions-engine/include/pe/regimes/learned_clustering.hpp | inline ScalerParams fitStandardScaler( *)
Definition fitStandardScaler (rows : list Row) (version : string) : ScalerParams :=
  match rows with
  | [] => {| sc_version := version; means := []; stds := [] |}
  | r0 :: _ =>
      let n := length rows in
      let means := (fun s => fdiv s (of_Z (Z.of_nat n))) <$> fold_left vadd rows (replicate (length r0) f0) in
      let stds := fold_left (fun acc r => vadd acc ((fun d => fmul d d) <$> zip_with fsub r means)) rows (replicate (length r0) f1) in
      {| sc_version := version; means := means; stds := scaler_std n <$> stds |}
  end.

(* @src third_party/predictions-engine/include/pe/regimes/learned_clustering.hpp | inline std::vector<double> transform( *)
Definition transform (row : Row) (s : ScalerParams) : Row :=
  imap (fun i x => fdiv (fsub x (default f0 (means s !! i))) (default f1 (stds s !! i))) row.

(* @src third_party/predictions-engine/include/pe/regimes/learned_clustering.hpp | inline double euclidean( *)
Definition euclidean (a b : Row) : double :=
  fsqrt (fold_left (fun s xy => let d := fsub xy.1 xy.2 in fadd s (fmul d d)) (zip a b) f0).

(** The first of the nearest centroids and its distance; 0 and the start value when none is nearer
    than that. *)
(* @src third_party/predictions-engine/include/pe/regimes/learned_clustering.hpp | double bestD = 1e300; >> best = c; | kMeans *)
Definition nearest (centroids : list Row) (row : Row) : nat * double :=
  foldl (fun '(best, bestD) ic => let d := euclidean row ic.2 in if flt d bestD then (ic.1, d) else (best, bestD))
    (0%nat, of_Z (10 ^ 300)) (imap pair centroids).

(* @src third_party/predictions-engine/include/pe/regimes/learned_clustering.hpp | for (int i = 0; i < n; ++i) { >> changed = true; | kMeans *)
Definition assign (rows centroids : list Row) : list nat := (fun r => (nearest centroids r).1) <$> rows.

Definition members (rows : list Row) (a : list nat) (c : nat) : list Row := fst <$> List.filter (fun ra => (ra.2 =? c)%nat) (zip rows a).

(** The mean of each cluster; an empty one keeps its centroid. *)
(* @src third_party/predictions-engine/include/pe/regimes/learned_clustering.hpp | std::vector<std::vector<double>> sums(static_cast<size_t>(kk) >> sums[static_cast<size_t>(c)][j] / counts[static_cast<size_t>(c)]; | kMeans *)
Definition recenter (rows : list Row) (dim : nat) (centroids : list Row) (a : list nat) : list Row :=
  imap (fun c centroid =>
          match members rows a c with
          | [] => centroid
          | l => (fun s => fdiv s (of_Z (Z.of_nat (length l)))) <$> fold_left vadd l (replicate dim f0)
          end) centroids.

(* @src third_party/predictions-engine/include/pe/regimes/learned_clustering.hpp | for (int iter = 0; iter < maxIter; ++iter) { >> if (!changed) break; | kMeans *)
Fixpoint iterate (maxIter : nat) (rows : list Row) (dim : nat) (centroids : list Row) (a : list nat) : list Row * list nat :=
  match maxIter with
  | O => (centroids, a)
  | S maxIter =>
      let a' := assign rows centroids in
      let centroids' := recenter rows dim centroids a' in
      if decide (a' = a) then (centroids', a') else iterate maxIter rows dim centroids' a'
  end.

(** The rows that the centroids start from. *)
Definition initial (rows : list Row) (kk : nat) : list Row := (fun i => default [] (rows !! (i * length rows / kk)%nat)) <$> seq 0 kk.

(** [None] for a [k] that is not positive, with which the source indexes an empty array.  The
    products [i * n] must fit in 32 bits. *)
(* @src third_party/predictions-engine/include/pe/regimes/learned_clustering.hpp | inline KMeansResult kMeans( *)
Definition kMeans (rows : list Row) (k : Z) (maxIter : nat) : option (list Row * list nat) :=
  match rows with
  | [] => Some ([], [])
  | r0 :: _ =>
      let kk := Z.min k (Z.of_nat (length rows)) in
      if kk <=? 0 then None
      else Some (iterate maxIter rows (length r0) (initial rows (Z.to_nat kk)) (replicate (length rows) 0%nat))
  end.

(** ** [LearnedRegimeClustering] *)

(* @src third_party/predictions-engine/include/pe/regimes/regime_state.hpp | struct RegimeClusterState { *)
Record RegimeClusterState := {
  clusterId : Z; clusterDistance : double; clusterConfidence : double; regimeDuration : Z; transitionProbability : double;
  sampleCount : Z; historicalHitRate : double; historicalCalibration : double; label : string }.

(* @src third_party/predictions-engine/include/pe/regimes/learned_clustering.hpp | ScalerParams scaler_; >> int duration_ = 0; | LearnedRegimeClustering *)
Record t := { scaler_ : ScalerParams; centroids_ : list Row; fitted_ : bool; lastCluster_ : Z; duration_ : Z }.
#[export] Instance eta_t : Eta t := fun r => {|
  scaler_ := scaler_ r; centroids_ := centroids_ r; fitted_ := fitted_ r; lastCluster_ := lastCluster_ r; duration_ := duration_ r |}.

Definition make : t := {|
  scaler_ := {| sc_version := "scaler-v1"; means := []; stds := [] |}; centroids_ := []; fitted_ := false; lastCluster_ := -1; duration_ := 0 |}.

(* @src third_party/predictions-engine/include/pe/regimes/learned_clustering.hpp | void fit(const std::vector<std::vector<double>>& rows, int k = 8) { *)
Definition fit (s : t) (rows : list Row) (k : Z) : option t :=
  let scaler := fitStandardScaler rows "scaler-v1" in
  (fun km => s <| scaler_ := scaler |> <| centroids_ := fst km |> <| fitted_ := true |>)
    <$> kMeans ((fun r => transform r scaler) <$> rows) k 40.

Definition blank (label : string) : RegimeClusterState := {|
  clusterId := -1; clusterDistance := f0; clusterConfidence := f0; regimeDuration := 0; transitionProbability := f0; sampleCount := 0;
  historicalHitRate := f0; historicalCalibration := f0; label := label |}.

(** The cluster of a row. *)
Definition cluster_of (s : t) (row : Row) : nat * double := nearest (centroids_ s) (transform row (scaler_ s)).

(* @src third_party/predictions-engine/include/pe/regimes/learned_clustering.hpp | RegimeClusterState predict(const std::vector<double>& row) { *)
Definition predict (s : t) (row : Row) : RegimeClusterState * t :=
  if negb (fitted_ s) || (length (centroids_ s) =? 0)%nat then (blank "unfitted", s)
  else
    let '(best, bestD) := cluster_of s row in
    let s := if Z.of_nat best =? lastCluster_ s then s <| duration_ ::= fun d => d + 1 |>
             else s <| lastCluster_ := Z.of_nat best |> <| duration_ := 1 |> in
    ({| clusterId := Z.of_nat best; clusterDistance := bestD; clusterConfidence := fdiv f1 (fadd f1 bestD); regimeDuration := duration_ s;
        transitionProbability := f0; sampleCount := 1; historicalHitRate := f0; historicalCalibration := f0;
        label := "cluster-" +:+ pretty best |}, s).

(* @src third_party/predictions-engine/include/pe/regimes/regime_fit_job.hpp | struct RegimeFitResult { *)
Record RegimeFitResult := { rf_scaler : ScalerParams; rf_centroids : list Row; rf_assignments : list nat; rf_k : Z; rf_version : string }.

(* @src third_party/predictions-engine/include/pe/regimes/regime_fit_job.hpp | inline RegimeFitResult fitRegimeClusters( *)
Definition fitRegimeClusters (rows : list Row) (k : Z) (maxIter : nat) : option RegimeFitResult :=
  let scaler := fitStandardScaler rows "scaler-v1" in
  (fun km => {| rf_scaler := scaler; rf_centroids := fst km; rf_assignments := snd km; rf_k := k; rf_version := "regime-fit-v1" |})
    <$> kMeans ((fun r => transform r scaler) <$> rows) k maxIter.

(** ** The result of k-means *)

Lemma nearest_bound centroids row : centroids <> [] -> ((nearest centroids row).1 < length centroids)%nat.
Proof.
  intros Hne. unfold nearest.
  assert (Forall (fun ic : nat * Row => (ic.1 < length centroids)%nat) (imap pair centroids)) as HF.
  { apply Forall_lookup. intros i [j c] H. apply list_lookup_imap_Some in H as (c' & Hc & [= -> ->]). by apply lookup_lt_Some in Hc. }
  assert (0 < length centroids)%nat as H0 by (destruct centroids; [done|cbn; lia]).
  assert (forall l b d, Forall (fun ic : nat * Row => (ic.1 < length centroids)%nat) l -> (b < length centroids)%nat ->
    ((foldl (fun '(best, bestD) ic => let d := euclidean row ic.2 in if flt d bestD then (ic.1, d) else (best, bestD)) (b, d) l).1
       < length centroids)%nat) as Hg.
  { induction l as [|ic l IH]; intros b d Hl Hb; [exact Hb|]. apply Forall_cons in Hl as [Hi Hl]. cbn [foldl].
    destruct (flt _ d); by apply IH. }
  by apply Hg.
Qed.

Lemma length_recenter rows dim c a : length (recenter rows dim c a) = length c.
Proof. unfold recenter. apply length_imap. Qed.

(** Moving the centroids again for the same clusters changes nothing. *)
Lemma recenter_again rows dim c a : recenter rows dim (recenter rows dim c a) a = recenter rows dim c a.
Proof.
  apply list_eq. intros i. unfold recenter. rewrite !list_lookup_imap.
  destruct (c !! i) as [x|]; [|done]. cbn. by destruct (members rows a i).
Qed.

(** [n] rounds of the loop from a start. *)
Definition rounds_from (rows : list Row) (dim : nat) (ca : list Row * list nat) (n : nat) : list Row * list nat :=
  Nat.iter n (fun ca => let a' := assign rows ca.1 in (recenter rows dim ca.1 a', a')) ca.

Lemma rounds_shift rows dim c a n :
  rounds_from rows dim (recenter rows dim c (assign rows c), assign rows c) n = rounds_from rows dim (c, a) (S n).
Proof. unfold rounds_from. by rewrite Nat.iter_succ_r. Qed.

Lemma rounds_succ rows dim ca n :
  rounds_from rows dim ca (S n) =
  (recenter rows dim (rounds_from rows dim ca n).1 (assign rows (rounds_from rows dim ca n).1), assign rows (rounds_from rows dim ca n).1).
Proof. unfold rounds_from at 1. by rewrite Nat.iter_succ. Qed.

(** The loop stops after the number of rounds it is allowed, or when a round assigns as before. *)
Lemma iterate_rounds maxIter rows dim c a :
  exists n, (n <= maxIter)%nat /\ iterate maxIter rows dim c a = rounds_from rows dim (c, a) n /\
    (n = maxIter \/ exists m, n = S m /\ assign rows (rounds_from rows dim (c, a) m).1 = (rounds_from rows dim (c, a) m).2).
Proof.
  revert c a. induction maxIter as [|maxIter IH]; intros c a; [exists 0%nat; by split_and!; [|done|left]|]. cbn [iterate].
  destruct (decide (assign rows c = a)) as [E|E].
  - exists 1%nat. split_and!; [lia|done|]. right. by exists 0%nat.
  - destruct (IH (recenter rows dim c (assign rows c)) (assign rows c)) as (n & Hn & -> & Hs). exists (S n).
    rewrite (rounds_shift rows dim c a n). split_and!; [lia|done|]. destruct Hs as [->|(m & -> & Hm)]; [by left|]. right. exists (S m).
    split; [done|]. by rewrite (rounds_shift rows dim c a m) in Hm.
Qed.

(** The number of centroids and of assignments, and the range of the latter. *)
Lemma rounds_bounds rows dim c a n : c <> [] -> length a = length rows -> Forall (fun i => (i < length c)%nat) a ->
  let '(c', a') := rounds_from rows dim (c, a) n in
  length c' = length c /\ length a' = length rows /\ Forall (fun i => (i < length c)%nat) a'.
Proof.
  intros Hc Hl Ha. induction n as [|n IH]; [done|]. rewrite rounds_succ.
  destruct (rounds_from rows dim (c, a) n) as [c' a']. destruct IH as (H1 & H2 & H3). cbn [fst]. rewrite length_recenter.
  split_and!; [done|apply length_fmap|]. unfold assign. apply Forall_fmap, Forall_true. intros r. cbn. rewrite <- H1.
  apply nearest_bound. by destruct c', c.
Qed.

(** Remark: K-means answers with as many clusters as asked for or as there are rows, one assignment to one
    of them for each row, after at most [maxIter] rounds from the initial centroids; and when it
    stops earlier than that and not in its first round, the answer is a fixed point: each row is
    assigned to the first of its nearest centroids, and each centroid is the mean of its rows or
    has none. *)
Theorem kmeans_spec (rows : list Row) (k : Z) (maxIter : nat) (centroids : list Row) (a : list nat) :
  0 < k -> rows <> [] -> kMeans rows k maxIter = Some (centroids, a) ->
  let kk := Z.to_nat (Z.min k (Z.of_nat (length rows))) in
  let dim := length (default [] (head rows)) in
  length centroids = kk /\ length a = length rows /\ Forall (fun i => (i < kk)%nat) a /\
  exists n, (n <= maxIter)%nat /\
    (centroids, a) = rounds_from rows dim (initial rows kk, replicate (length rows) 0%nat) n /\
    (n = maxIter \/ n = 1%nat \/ assign rows centroids = a /\ recenter rows dim centroids a = centroids).
Proof.
  intros Hk Hne. unfold kMeans. destruct rows as [|r0 rows'] eqn:Er; [done|]. rewrite <- Er in *. clear Hne.
  assert (0 < length rows)%nat as Hr by (rewrite Er; cbn; lia).
  assert (default [] (head rows) = r0) as -> by (by rewrite Er).
  set (kk := Z.to_nat (Z.min k (Z.of_nat (length rows)))).
  assert (Z.min k (Z.of_nat (length rows)) <=? 0 = false) as -> by (apply Z.leb_gt; lia). intros [= Hit].
  assert (0 < kk)%nat as Hkk by (unfold kk; lia).
  assert (length (initial rows kk) = kk) as Hi by (unfold initial; rewrite length_fmap; apply length_seq).
  set (a0 := replicate (length rows) 0%nat) in *.
  destruct (iterate_rounds maxIter rows (length r0) (initial rows kk) a0) as (n & Hn & E & Hs). rewrite E in Hit.
  pose proof (rounds_bounds rows (length r0) (initial rows kk) a0 n) as Hb. rewrite Hit, Hi in Hb.
  destruct Hb as (H1 & H2 & H3); [by intros X; rewrite X in Hi; cbn in Hi; lia|apply length_replicate| |].
  { apply Forall_replicate. exact Hkk. }
  cbv zeta. split_and!; [done..|]. exists n. split_and!; [done|by rewrite Hit|].
  destruct Hs as [Hs|(m & -> & Hm)]; [by left|]. right. destruct m as [|m]; [by left|]. right.
  (* two rounds with the same assignment: the second moved nothing *)
  rewrite rounds_succ, Hm in Hit. rewrite rounds_succ in Hit, Hm. set (ca := rounds_from _ _ _ m) in *. cbn [fst snd] in *.
  rewrite recenter_again in Hit. injection Hit as <- <-. split; [exact Hm|apply recenter_again].
Qed.

(** Four rows in two clusters; the loop stops in its second round. *)
Definition demo_rows : list Row := [[of_Z 1]; [of_Z 2]; [of_Z 9]; [of_Z 10]].

Lemma kmeans_spec_witness : exists centroids a, kMeans demo_rows 2 40 = Some (centroids, a) /\ length centroids = 2%nat /\ length a = 4%nat.
Proof.
  destruct (kMeans demo_rows 2 40) as [[centroids a]|] eqn:E; [|vm_compute in E; discriminate E]. exists centroids, a.
  destruct (kmeans_spec demo_rows 2 40 centroids a) as (H1 & H2 & _); [lia|discriminate|exact E|]. by split_and!.
Defined.

(** Remark: The four rows: the first two and the last two, around their means. *)
Theorem kmeans_demo : kMeans demo_rows 2 40 = Some ([[flit 15 10]; [flit 95 10]], [0; 0; 1; 1]%nat).
Proof. vm_compute. reflexivity. Qed.

(** Remark: The scaler counts a deviation of one more than the rows have: its sums of squares start
    at one.  Three equal rows are scaled by the root of one half and not, as a column without
    variance, by one. *)
Theorem constant_column_is_scaled :
  stds (fitStandardScaler [[of_Z 3]; [of_Z 3]; [of_Z 3]] "v") = [fsqrt (flit 1 2)].
Proof. vm_compute. reflexivity. Qed.

(** ** The duration of a cluster *)

(** Remark: A fitted object reports for each row how many predictions in a row, this one included, gave
    its cluster. *)
Theorem duration_counts_run (s : t) (row : Row) :
  fitted_ s = true -> centroids_ s <> [] ->
  let '(p, s') := predict s row in
  clusterId p = Z.of_nat (cluster_of s row).1 /\ lastCluster_ s' = clusterId p /\ duration_ s' = regimeDuration p /\
  regimeDuration p = (if clusterId p =? lastCluster_ s then duration_ s + 1 else 1) /\
  centroids_ s' = centroids_ s /\ scaler_ s' = scaler_ s.
Proof.
  intros Hf Hc. unfold predict. rewrite Hf. cbn [negb orb]. destruct (Nat.eqb_spec (length (centroids_ s)) 0) as [H|H].
  { by destruct (centroids_ s). }
  destruct (cluster_of s row) as [best d]. destruct (Z.eqb_spec (Z.of_nat best) (lastCluster_ s)) as [E|E]; cbn.
  - rewrite (proj2 (Z.eqb_eq _ _) E). by split_and!.
  - rewrite (proj2 (Z.eqb_neq _ _) E). by split_and!.
Qed.

Definition demo_fit : t := default make (fit make demo_rows 2).

Lemma duration_counts_run_witness : fitted_ demo_fit = true /\ regimeDuration (predict demo_fit [of_Z 2]).1 = 1.
Proof.
  split; [vm_compute; reflexivity|].
  pose proof (duration_counts_run demo_fit [of_Z 2] ltac:(vm_compute; reflexivity) ltac:(vm_compute; discriminate)) as H.
  destruct (predict demo_fit [of_Z 2]) as [p s'] eqn:E. cbn [fst]. destruct H as (H1 & _ & _ & H2 & _). rewrite H2, H1. vm_compute. reflexivity.
Defined.

(** Remark: Fitting again renumbers the clusters but keeps the last cluster and its duration, so a run
    may go on over the refit. *)
Theorem refit_keeps_duration (s s' : t) (rows : list Row) (k : Z) :
  fit s rows k = Some s' -> lastCluster_ s' = lastCluster_ s /\ duration_ s' = duration_ s /\ fitted_ s' = true.
Proof. unfold fit. destruct (kMeans _ k 40); cbn; [|done]. by intros [= <-]. Qed.

Lemma refit_keeps_duration_witness : exists s', fit demo_fit demo_rows 2 = Some s' /\ duration_ s' = duration_ demo_fit.
Proof.
  destruct (fit demo_fit demo_rows 2) as [s'|] eqn:E; [|vm_compute in E; discriminate E]. exists s'. split; [done|].
  by destruct (refit_keeps_duration demo_fit s' demo_rows 2 E) as (_ & H & _).
Defined.
End Clustering.
