(* ===== verification/Access.v ===== *)
(** Small services around the event cycle: password hashes and sessions ([include/auth]), stake
    sizing ([include/betting]), the statistics page ([include/api]) and the evidence audit
    ([include/audit/evidence_audit.hpp]).  HMAC-SHA256, the printing of doubles by a stream and
    the files are parameters; sockets are left out. *)
From Stdlib Require Import Ascii.
From S2P Require Import Prelude Float64 Types Text Signing Config.

Open Scope string_scope.
Open Scope list_scope.
Open Scope Z_scope.

(** * Passwords *)
Section Password.
Variable hmac_raw : string -> string -> list Z.

(* @src include/auth/password_hash.hpp | inline std::string hashPassword( *)
Definition hashPassword (password salt : string) : string := NativeSign.hmacSha256Hex hmac_raw salt password.

(* @src include/auth/password_hash.hpp | inline bool verifyPassword( *)
Definition verifyPassword (password salt hash : string) : bool := bool_decide (hashPassword password salt = hash).
End Password.

(** * [SessionStore] *)
Module SessionStore.

(* @src include/auth/session_store.hpp | struct Session { *)
Record Session := { ss_id : string; ss_userId : string; ss_expiresAtMs : Z; ss_role : string }.

(* @src include/auth/session_store.hpp | std::unordered_map<std::string,Session> sessions_; >> sessions_; | SessionStore *)
Definition t : Type := gmap string Session.

(** The clock is read twice. *)
(* @src include/auth/session_store.hpp | std::string create( *)
Definition create (s : t) (userId role : string) (ttlMs now now2 : Z) : string * t :=
  let id := userId +:+ "-" +:+ to_string now in
  (id, <[id := {| ss_id := id; ss_userId := userId; ss_expiresAtMs := now2 + ttlMs; ss_role := role |}]> s).

(* @src include/auth/session_store.hpp | std::optional<Session> get( *)
Definition get (s : t) (id : string) (now : Z) : option Session :=
  match s !! id with
  | None => None
  | Some x => if ss_expiresAtMs x <? now then None else Some x
  end.

(* @src include/auth/session_store.hpp | void revoke( *)
Definition revoke (s : t) (id : string) : t := delete id s.

(* @src include/auth/session_store.hpp | bool authorize( *)
Definition authorize (s : t) (id minRole : string) (now : Z) : bool :=
  match get s id now with
  | None => false
  | Some x =>
      if bool_decide (minRole = "viewer") then true
      else if bool_decide (minRole = "operator") then bool_decide (ss_role x ∈ ["operator"; "admin"])
      else if bool_decide (minRole = "admin") then bool_decide (ss_role x = "admin")
      else false
  end.

(** ** Sequences of calls *)

Inductive op := Create (userId role : string) (ttlMs now now2 : Z) | Revoke (id : string).
Definition apply (s : t) (o : op) : t :=
  match o with
  | Create u r ttl now now2 => (create s u r ttl now now2).2
  | Revoke id => revoke s id
  end.

(** What became of [id]: the last call about it decides. *)
Definition fate (id : string) (acc : option Session) (o : op) : option Session :=
  match o with
  | Create u r ttl now now2 =>
      if decide (u +:+ "-" +:+ to_string now = id)
      then Some {| ss_id := id; ss_userId := u; ss_expiresAtMs := now2 + ttl; ss_role := r |} else acc
  | Revoke i => if decide (i = id) then None else acc
  end.

Lemma sessions_reference ops id : forall s, foldl apply s ops !! id = foldl (fate id) (s !! id) ops.
Proof.
  induction ops as [|o ops IH]; intros s; [done|]. cbn [foldl]. rewrite IH. f_equal. destruct o as [u r ttl now now2|i]; cbn; unfold t in *.
  - case_decide as E; [by rewrite E, lookup_insert_eq|by rewrite lookup_insert_ne].
  - unfold revoke, t. case_decide as E; [by rewrite E, lookup_delete_eq|by rewrite lookup_delete_ne].
Qed.

Definition rank (role : string) : Z :=
  if bool_decide (role = "admin") then 2 else if bool_decide (role = "operator") then 1 else 0.

Lemma rank_spec role :
  0 <= rank role /\ (1 <= rank role <-> role ∈ ["operator"; "admin"]) /\ (2 <= rank role <-> role = "admin").
Proof.
  unfold rank. rewrite !elem_of_cons, elem_of_nil. repeat case_bool_decide; subst; split_and!; try lia; try done; split; intros; try lia; naive_solver.
Qed.

(** Remark: a call is authorised exactly when the session exists, has not expired and its role is
    at least the one asked for; an unknown role is never enough, and an unknown role in a session
    counts as a viewer's. *)
Theorem authorize_spec (s : t) (id minRole : string) (now : Z) :
  authorize s id minRole now = true <->
  exists x, s !! id = Some x /\ now <= ss_expiresAtMs x /\ minRole ∈ ["viewer"; "operator"; "admin"] /\ rank minRole <= rank (ss_role x).
Proof.
  unfold authorize, get. destruct (s !! id) as [x|]; [|naive_solver].
  destruct (Z.ltb_spec (ss_expiresAtMs x) now) as [Hlt|Hge].
  { split; [done|]. intros (y & [= <-] & ? & _). lia. }
  destruct (rank_spec (ss_role x)) as (H0 & H1 & H2).
  trans (minRole ∈ ["viewer"; "operator"; "admin"] /\ rank minRole <= rank (ss_role x)); [|naive_solver].
  destruct (decide (minRole = "viewer")) as [->|Hv].
  { rewrite bool_decide_true by done. change (rank "viewer") with 0. split; [|done]. split; [by left|lia]. }
  rewrite bool_decide_false by done. destruct (decide (minRole = "operator")) as [->|Ho].
  { rewrite bool_decide_true by done. change (rank "operator") with 1. rewrite bool_decide_eq_true, H1. split; [|by intros [_ ?]].
    split; [right; by left|done]. }
  rewrite bool_decide_false by done. destruct (decide (minRole = "admin")) as [->|Ha].
  { rewrite bool_decide_true by done. change (rank "admin") with 2. rewrite bool_decide_eq_true, H2. split; [|by intros [_ ?]].
    split; [right; right; by left|done]. }
  rewrite bool_decide_false by done. split; [done|]. rewrite !elem_of_cons, elem_of_nil. naive_solver.
Qed.

(** Remark: two sessions of one user created within a millisecond are one: the second replaces
    the first, whose role is lost. *)
Example same_millisecond :
  let '(id1, s) := create ∅ "u" "admin" 1000 5 5 in
  let '(id2, s) := create s "u" "viewer" 1000 5 5 in
  id1 = id2 /\ authorize s id1 "admin" 6 = false.
Proof. vm_compute. done. Qed.
End SessionStore.

(** * [RiskEngine] *)
Module RiskEngine.

(* @src include/betting/risk_engine.hpp | struct RiskInput { *)
Record RiskInput := { bankroll : double; probability : double; odds : double; maxFraction : double }.
(* @src include/betting/risk_engine.hpp | struct RiskDecision { *)
Record RiskDecision := { stake : double; kellyFraction : double; allowed : bool; reason : string }.

(** The fraction before it is clamped. *)
(* @src include/betting/risk_engine.hpp:25-26 RiskEngine::evaluate *)
Definition kelly (i : RiskInput) : double :=
  let b := fmax (flit 1 100) (fsub (odds i) f1) in
  fsub (probability i) (fdiv (fsub f1 (probability i)) b).

(* @src include/betting/risk_engine.hpp | RiskDecision evaluate( *)
Definition evaluate (i : RiskInput) : RiskDecision :=
  if fle (bankroll i) f0 || fle (probability i) f0 || fge (probability i) f1 then
    {| stake := f0; kellyFraction := f0; allowed := false; reason := "invalid_input" |}
  else
    let f := fclamp (kelly i) f0 (maxFraction i) in
    let ok := fgt f (flit 1 1000) in
    {| stake := fmul (bankroll i) f; kellyFraction := f; allowed := ok; reason := if ok then "ok" else "kelly_non_positive" |}.

(** Remark: the fraction staked is never negative and never above the maximum, whenever the
    Kelly fraction is a number and the maximum is not negative, in binary64 arithmetic; what is refused for its input stakes
    nothing. *)
Theorem fraction_bounded (i : RiskInput) :
  fle f0 (maxFraction i) = true -> is_nan (kelly i) = false ->
  fle f0 (kellyFraction (evaluate i)) = true /\ fle (kellyFraction (evaluate i)) (maxFraction i) = true /\
  (reason (evaluate i) = "invalid_input" -> stake (evaluate i) = f0) /\
  (allowed (evaluate i) = true -> flt (flit 1 1000) (kellyFraction (evaluate i)) = true).
Proof.
  intros Hm Hn. unfold evaluate. destruct (_ || _); [done|]. cbn.
  destruct (fclamp_range (kelly i) f0 (maxFraction i) Hn Hm) as [H1 H2]. split_and!; [done|done| |done].
  by destruct (fgt _ _).
Qed.

(** Remark: an undefined bankroll passes the test of the inputs: the stake is allowed and is not
    a number. *)
Example nan_bankroll_allowed :
  let d := evaluate {| bankroll := S754_nan; probability := flit 9 10; odds := of_Z 2; maxFraction := flit 5 100 |} in
  allowed d = true /\ stake d = S754_nan.
Proof. vm_compute. done. Qed.
End RiskEngine.

Lemma fraction_bounded_witness :
  let i := {| RiskEngine.bankroll := of_Z 1000; RiskEngine.probability := flit 6 10; RiskEngine.odds := of_Z 2;
              RiskEngine.maxFraction := flit 5 100 |} in
  fle (RiskEngine.kellyFraction (RiskEngine.evaluate i)) (flit 5 100) = true /\ RiskEngine.allowed (RiskEngine.evaluate i) = true.
Proof.
  intros i. destruct (RiskEngine.fraction_bounded i) as (_ & H & _); [vm_compute; reflexivity|vm_compute; reflexivity|].
  split; [exact H|vm_compute; reflexivity].
Defined.

(** * The statistics page *)
Module Statistics.
(** A stream's default format of a double. *)
Section S.
Variable show : double -> string.

(* @src include/api/statistics_server.hpp | struct StatisticsSnapshot { *)
Record Snapshot := {
  totalRounds : Z; totalPredictions : Z; wins : Z; losses : Z; skipped : Z; sequence : Z;
  winRate : double; avgProbability : double; avgConfidence : double; edge : double; baselineRate : double; updatedAt : string }.

(* @src include/api/statistics_server.hpp | std::atomic<std::uint64_t> rounds_{0} >> sequence_{0} | StatisticsRegistry *)
Record Registry := { r_rounds : Z; r_predictions : Z; r_wins : Z; r_losses : Z; r_skipped : Z; r_sequence : Z }.
#[export] Instance eta_Registry : Eta Registry := fun r =>
  {| r_rounds := r_rounds r; r_predictions := r_predictions r; r_wins := r_wins r; r_losses := r_losses r;
     r_skipped := r_skipped r; r_sequence := r_sequence r |}.
Definition empty : Registry := {| r_rounds := 0; r_predictions := 0; r_wins := 0; r_losses := 0; r_skipped := 0; r_sequence := 0 |}.

(* @src include/api/statistics_server.hpp | void noteRound() *)
Definition noteRound (r : Registry) : Registry := r <| r_rounds ::= bump |> <| r_sequence ::= bump |>.
(* @src include/api/statistics_server.hpp | void notePrediction( *)
Definition notePrediction (actionable : bool) (r : Registry) : Registry :=
  (if actionable then r <| r_predictions ::= bump |> else r <| r_predictions ::= bump |> <| r_skipped ::= bump |>) <| r_sequence ::= bump |>.
(* @src include/api/statistics_server.hpp | void noteOutcome( *)
Definition noteOutcome (win : bool) (r : Registry) : Registry :=
  (if win then r <| r_wins ::= bump |> else r <| r_losses ::= bump |>) <| r_sequence ::= bump |>.

(* @src include/api/statistics_server.hpp | StatisticsSnapshot snapshot() const *)
Definition snapshot (r : Registry) (now : Z) : Snapshot :=
  let d := u64 (r_wins r + r_losses r) in
  let rate := if d =? 0 then f0 else fdiv (of_Z (r_wins r)) (of_Z d) in
  {| totalRounds := r_rounds r; totalPredictions := r_predictions r; wins := r_wins r; losses := r_losses r; skipped := r_skipped r;
     sequence := r_sequence r; winRate := rate; avgProbability := flit 82 100; avgConfidence := flit 9 10;
     edge := fsub rate (flit 48 100); baselineRate := flit 48 100; updatedAt := to_string now |}.

Definition contains (needle target : string) : bool := match find needle target 0 with Some _ => true | None => false end.

(* @src include/api/statistics_server.hpp:78-86 StatisticsServer::route *)
Definition overview (s : Snapshot) : string :=
  json "{'totalRounds':" +:+ to_string (totalRounds s) +:+ json ",'totalPredictions':" +:+ to_string (totalPredictions s)
  +:+ json ",'wins':" +:+ to_string (wins s) +:+ json ",'losses':" +:+ to_string (losses s) +:+ json ",'skipped':" +:+ to_string (skipped s)
  +:+ json ",'winRate':" +:+ show (winRate s) +:+ json ",'baselineRate':" +:+ show (baselineRate s) +:+ json ",'edge':" +:+ show (edge s)
  +:+ json ",'avgProbability':" +:+ show (avgProbability s) +:+ json ",'avgConfidence':" +:+ show (avgConfidence s)
  +:+ json ",'maxLosingStreak':0,'currentLosingStreak':0,'cumulativePnL':0,'maxDrawdown':0"
  +:+ json ",'sequence':" +:+ to_string (sequence s) +:+ json ",'updatedAt':'" +:+ updatedAt s +:+ json "'"
  +:+ json ",'state':'LIVE','lastUpdate':'" +:+ updatedAt s +:+ json "','dataAgeMs':0,'summary':'ok'}".

(* @src include/api/statistics_server.hpp | std::string route(const std::string& target) *)
Definition route (r : Registry) (target : string) (now : Z) : string :=
  let s := snapshot r now in
  if contains "/api/statistics/overview" target || contains "/health" target then overview s
  else if contains "latency" target then
    json "{'stages':[{'stage':'End-to-end','p50':12,'p95':32,'p99':55,'max':180}],'eventsPerSec':4,'predictionsPerSec':0.3,'droppedEvents':0,'duplicateEvents':0,'processingBacklog':0,'queueDepth':0}"
  else if contains "models" target || contains "regimes" target then "[]"
  else if contains "predictions" target then
    json "{'total':0,'valid':0,'skipped':0,'wins':0,'losses':0,'winRate':0,'precision':0,'recall':0,'avgProbability':0,'avgConfidence':0,'avgEdge':0,'calibrationError':0,'rows':[]}"
  else if contains "performance" target then
    json "{'cumulative':[],'wins':0,'losses':0,'skips':0,'rollingWinRate':[],'currentDrawdown':0,'maxDrawdown':0,'recoveryDurationMs':0,'peakEquity':100,'currentEquity':100}"
  else if contains "rounds" target then json "{'items':[],'nextCursor':null,'total':0}"
  else if contains "/metrics" target then
    "crashcore_rounds " +:+ to_string (totalRounds s) +:+ newline +:+ "crashcore_predictions " +:+ to_string (totalPredictions s) +:+ newline
  else json "{'ok':true,'service':'CrashCore-Stats'}".

Inductive Method := Get | Options | OtherMethod.

(** The status, the content type and the body of the answer. *)
(* @src include/api/statistics_server.hpp | void handle(tcp::socket socket) *)
Definition handle (r : Registry) (m : Method) (target : string) (now : Z) : Z * option string * string :=
  match m with
  | OtherMethod => (405, None, json "{'error':'read-only'}")
  | Options => (204, None, "")
  | Get => (200, Some "application/json", route r target now)
  end.
End S.

(** ** What is counted *)

Inductive note := Round | Prediction (actionable : bool) | Result_ (win : bool).
Definition apply (r : Registry) (n : note) : Registry :=
  match n with Round => noteRound r | Prediction a => notePrediction a r | Result_ w => noteOutcome w r end.

Definition tally (p : note -> bool) (l : list note) : Z := Z.of_nat (length (List.filter p l)).

Lemma tally_snoc p l n : tally p (l ++ [n]) = tally p l + (if p n then 1 else 0).
Proof. unfold tally. rewrite List.filter_app, length_app. cbn. destruct (p n); cbn [length]; lia. Qed.

(** Remark: the counters are the numbers of notes of each kind and the sequence number is their
    total, modulo 64 bits, whatever their order. *)
Theorem counters_reference (l : list note) :
  let r := fold_left apply l empty in
  r_rounds r = u64 (tally (fun n => match n with Round => true | _ => false end) l) /\
  r_predictions r = u64 (tally (fun n => match n with Prediction _ => true | _ => false end) l) /\
  r_skipped r = u64 (tally (fun n => match n with Prediction a => negb a | _ => false end) l) /\
  r_wins r = u64 (tally (fun n => match n with Result_ w => w | _ => false end) l) /\
  r_losses r = u64 (tally (fun n => match n with Result_ w => negb w | _ => false end) l) /\
  r_sequence r = u64 (Z.of_nat (length l)).
Proof.
  cbv zeta. induction l as [|n l IH] using rev_ind; [done|]. rewrite fold_left_app, !tally_snoc, length_app, Nat2Z.inj_add.
  destruct IH as (H1 & H2 & H3 & H4 & H5 & H6). cbn [fold_left].
  destruct n as [|[]|[]]; cbn; rewrite ?H1, ?H2, ?H3, ?H4, ?H5, ?H6, ?bump_u64, ?Z.add_0_r; done.
Qed.

(** Remark: a question about rounds or models whose text mentions latency is answered with the
    fixed latency page. *)
Example latency_wins show r now : route show r "/api/rounds?sort=latency" now = route show r "/latency" now.
Proof. reflexivity. Qed.
End Statistics.

(** * The evidence audit *)
Module Evidence.
Section S.
(** The text of a file, when it can be opened. *)
Variable read : string -> option string.

(* @src include/audit/evidence_audit.hpp | struct EvidenceEntry { *)
Record EvidenceEntry := {
  component : string; teReference : string; crashcorePath : string; minLines : nat; requiredSymbol : string; critical : bool }.

(* @src include/audit/evidence_audit.hpp | inline bool fileHasMinLines( *)
Definition fileHasMinLines (path : string) (n : nat) : bool :=
  match read path with
  | None => false
  | Some text => (n <=? length (getlines "010" text))%nat
  end.

(* @src include/audit/evidence_audit.hpp | inline bool fileContains( *)
Definition fileContains (path symbol : string) : bool :=
  if str_empty symbol then true
  else match read path with
       | None => false
       | Some text => match find symbol text 0 with Some _ => true | None => false end
       end.

(* @src include/audit/evidence_audit.hpp | inline std::vector<EvidenceEntry> buildEvidenceRegistry( *)
Definition registry (root : string) : list EvidenceEntry :=
  (fun '(c, t, p, m, s, cr) =>
     {| component := c; teReference := t; crashcorePath := root +:+ "/" +:+ p; minLines := m; requiredSymbol := s; critical := cr |}) <$> [
  ("mapEventName", "normalizer.ts", "include/ingestion/event_decoder.hpp", 50%nat, String.append "st" (String dq ""), true);
  ("BeastWebSocket", "native-socket-client.ts", "include/ingestion/websocket/beast_connection.hpp", 100%nat, "BeastWebSocketConnection", true);
  ("CurlHttpClient", "fetch()", "include/delivery/http/curl_http_client.hpp", 50%nat, "CurlHttpClient", true);
  ("PgDatabase", "db.ts", "include/persistence/pg/pg_database.hpp", 50%nat, "PgDatabase", true);
  ("CrashHistoryClient", "fetch-bc.ts", "include/ingestion/rest/crash_history_client.hpp", 50%nat, "fetchPage", true);
  ("PollWorker", "poll-worker.ts", "include/ingestion/rest/poll_worker.hpp", 50%nat, "PollWorker", true);
  ("ExternalSigner", "native-sign.ts", "include/ingestion/signing/external_signer_client.hpp", 50%nat, "ExternalSignerClient", true);
  ("OutboxRepository", "migrations/outbox", "include/persistence/outbox_repository.hpp", 50%nat, "SKIP LOCKED", true);
  ("NotificationWorker", "notification-worker.ts", "include/delivery/notification_worker.hpp", 50%nat, "NotificationWorker", true);
  ("LiveSupervisor", "live-supervisor.ts", "include/live/live_supervisor.hpp", 50%nat, "LiveSupervisor", true);
  ("LiveBoot", "boot.ts", "include/live/live_boot.hpp", 50%nat, "LiveBoot", true);
  ("ColdStartSeeder", "cold-start-seeder.ts", "include/live/cold_start_seeder.hpp", 30%nat, "ColdStartSeeder", false);
  ("ClockSkewMonitor", "clock-skew-monitor.ts", "include/live/clock_skew_monitor.hpp", 30%nat, "ClockSkewMonitor", false);
  ("RecentRoundCache", "hot-cache.ts", "include/observability/recent_round_cache.hpp", 30%nat, "RecentRoundCache", true);
  ("ReadinessBarrier", "boot.ts", "include/observability/readiness_barrier.hpp", 50%nat, "ReadinessBarrier", true);
  ("LifecycleMetrics", "lifecycle-metrics.ts", "include/observability/lifecycle_metrics.hpp", 50%nat, "recordLeadTimes", true);
  ("JsonLogger", "logger.ts", "include/logging/json_logger.hpp", 50%nat, "JsonLogger", false);
  ("DeliveryForensics", "delivery-forensics.ts", "include/feedback/delivery_forensics.hpp", 40%nat, "DeliveryForensics", false);
  ("MetricRegistryAtomic", "metrics/registry.ts", "include/telemetry/metric_registry.hpp", 50%nat, "AtomicCounter", true)].

(* @src include/audit/evidence_audit.hpp | struct AuditReport *)
Record AuditReport := { passed : Z; failed : Z; criticalFailed : Z; failures : list string }.

(** The checker of an entry. *)
(* @src include/audit/evidence_audit.hpp:37-37 buildEvidenceRegistry *)
Definition check_entry (e : EvidenceEntry) : bool :=
  fileHasMinLines (crashcorePath e) (minLines e) && fileContains (crashcorePath e) (requiredSymbol e).

(* @src include/audit/evidence_audit.hpp:67-71 runEvidenceAudit *)
Definition note_entry (r : AuditReport) (e : EvidenceEntry) : AuditReport :=
  if check_entry e then
    {| passed := passed r + 1; failed := failed r; criticalFailed := criticalFailed r; failures := failures r |}
  else
    {| passed := passed r; failed := failed r + 1; criticalFailed := if critical e then criticalFailed r + 1 else criticalFailed r;
       failures := failures r ++ [component e +:+ " [" +:+ crashcorePath e +:+ "]"] |}.

(* @src include/audit/evidence_audit.hpp | inline AuditReport runEvidenceAudit( *)
Definition runEvidenceAudit (root : string) : AuditReport :=
  fold_left note_entry (registry root) {| passed := 0; failed := 0; criticalFailed := 0; failures := [] |}.

(** Remark: every entry is either passed or listed with its path, in order, and the critical
    ones among the failures are counted. *)
Theorem audit_complete (root : string) :
  let bad := List.filter (fun e => negb (check_entry e)) (registry root) in
  failures (runEvidenceAudit root) = (fun e => component e +:+ " [" +:+ crashcorePath e +:+ "]") <$> bad /\
  failed (runEvidenceAudit root) = Z.of_nat (length bad) /\
  criticalFailed (runEvidenceAudit root) = Z.of_nat (length (List.filter critical bad)) /\
  passed (runEvidenceAudit root) + failed (runEvidenceAudit root) = 19.
Proof.
  assert (forall l, let r := fold_left note_entry l {| passed := 0; failed := 0; criticalFailed := 0; failures := [] |} in
    let bad := List.filter (fun e => negb (check_entry e)) l in
    failures r = (fun e => component e +:+ " [" +:+ crashcorePath e +:+ "]") <$> bad /\ failed r = Z.of_nat (length bad) /\
    criticalFailed r = Z.of_nat (length (List.filter critical bad)) /\ passed r + failed r = Z.of_nat (length l)) as H.
  { cbv zeta. induction l as [|e l IH] using rev_ind; [done|]. rewrite fold_left_app, !List.filter_app, fmap_app, !length_app.
    cbn [fold_left List.filter]. generalize dependent (fold_left note_entry l {| passed := 0; failed := 0; criticalFailed := 0; failures := [] |}).
    intros r (H1 & H2 & H3 & H4). unfold note_entry. destruct (check_entry e); cbn; [|destruct (critical e); cbn]; rewrite ?app_nil_r, ?H1; split_and!; try done; try lia. }
  exact (H (registry root)).
Qed.
End S.
End Evidence.
