(* ===== verification/Models.v ===== *)
(** Models, calibration and evaluation of predictions ([include/prediction]): the ensemble, the
    two calibrators, the drift detector, walk-forward evaluation, the dataset builder, the
    learning scheduler, the model wrapper and the feature functions.  The six files of
    [prediction/models] are one text with six class names, and so are the fifteen files of
    [prediction/features]: one of each is modelled.  [exp] is a parameter. *)
From stdpp Require Import sorting.
From S2P Require Import Prelude Float64 Types.

Open Scope string_scope.
Open Scope list_scope.
Open Scope Z_scope.

(** [double] of a container's size, and the sum of a container from its front. *)
Definition of_size {A} (l : list A) : double := of_Z (Z.of_nat (length l)).
Definition total (l : list double) : double := fold_left fadd l f0.
#[global] Arguments of_size : simpl never.

(** * [EnsembleOrchestrator] *)
Module Ensemble.

(* @src include/prediction/ensemble_orchestrator.hpp | struct ModelVote { *)
Record ModelVote := { mv_model : string; mv_probability : double; mv_confidence : double; mv_weight : double }.

(* @src include/prediction/ensemble_orchestrator.hpp:47-47 EnsembleOrchestrator *)
Definition t : Type := gmap string double.

(* @src include/prediction/ensemble_orchestrator.hpp | void setWeight( *)
Definition setWeight (s : t) (model : string) (w : double) : t := <[model := fmax f0 w]> s.

(* @src include/prediction/ensemble_orchestrator.hpp | double weight(const *)
Definition weight (s : t) (model : string) : double := default f1 (s !! model).

(** The weight of a vote in the average. *)
(* @src include/prediction/ensemble_orchestrator.hpp:32-32 EnsembleOrchestrator::fuse *)
Definition vote_weight (s : t) (v : ModelVote) : double := fmul (weight s (mv_model v)) (fmax f0 (mv_weight v)).

Record acc := { num : double; den : double; confNum : double }.

(* @src include/prediction/ensemble_orchestrator.hpp:31-34 EnsembleOrchestrator::fuse *)
Definition add_vote (s : t) (a : acc) (v : ModelVote) : acc :=
  let w := vote_weight s v in
  {| num := fadd (num a) (fmul w (mv_probability v)); den := fadd (den a) w;
     confNum := fadd (confNum a) (fmul w (mv_confidence v)) |}.

Definition no_vote : ModelVote := {| mv_model := "ensemble"; mv_probability := f0; mv_confidence := f0; mv_weight := f1 |}.

(* @src include/prediction/ensemble_orchestrator.hpp | ModelVote fuse( *)
Definition fuse (s : t) (votes : list ModelVote) : ModelVote :=
  match votes with
  | [] => no_vote
  | _ =>
      let a := fold_left (add_vote s) votes {| num := f0; den := f0; confNum := f0 |} in
      if fle (den a) f0 then no_vote
      else {| mv_model := "ensemble"; mv_probability := fdiv (num a) (den a); mv_confidence := fdiv (confNum a) (den a);
              mv_weight := den a |}
  end.

(* @src include/prediction/ensemble_orchestrator.hpp | double disagreement( *)
Definition disagreement (votes : list ModelVote) : double :=
  if (length votes <? 2)%nat then f0
  else
    let mean := fdiv (total (mv_probability <$> votes)) (of_size votes) in
    let sq v := let d := fsub (mv_probability v) mean in fmul d d in
    fsqrt (fdiv (total (sq <$> votes)) (of_size votes)).

(** The invariant of the table: no weight is negative or undefined. *)
Definition wf (s : t) : Prop := map_Forall (fun _ w => fle f0 w = true) s.

Lemma fmax_0_nonneg w : fle f0 (fmax f0 w) = true.
Proof. unfold fmax. destruct (flt f0 w) eqn:H; [by apply flt_fle|done]. Qed.

Lemma weight_nonneg s model : wf s -> fle f0 (weight s model) = true.
Proof.
  intros H. unfold weight. destruct (s !! model) as [w|] eqn:E; cbn; [by apply (H model w E)|done].
Qed.

(** Remark: whatever weights are set, negative or undefined ones included, the weight used for
    every model is a number that is not negative; setting one model's weight leaves the others. *)
Theorem weights_reference (sets : list (string * double)) :
  let s := fold_left (fun s x => setWeight s x.1 x.2) sets ∅ in
  (forall model, fle f0 (weight s model) = true) /\
  (forall model w, weight (setWeight s model w) model = fmax f0 w) /\
  (forall model other w, model <> other -> weight (setWeight s model w) other = weight s other).
Proof.
  intros s. assert (wf s) as Hs.
  { subst s. induction sets as [|x l IH] using rev_ind; [apply map_Forall_empty|].
    rewrite fold_left_app. cbn. apply map_Forall_insert_2; [apply fmax_0_nonneg|exact IH]. }
  split_and!; [intros m; by apply weight_nonneg| |]; intros; unfold weight, setWeight, t in *.
  - by rewrite lookup_insert_eq.
  - by rewrite lookup_insert_ne.
Qed.

(** Remark: when every vote weighs nothing the ensemble answers as if nobody had voted, provided
    the weights of the models are finite. *)
Theorem fuse_mute (s : t) (votes : list ModelVote) :
  wf s -> (forall v, v ∈ votes -> fgt (mv_weight v) f0 = false /\ is_finite (weight s (mv_model v)) = true) ->
  fuse s votes = no_vote.
Proof.
  intros Hs Hv.
  assert (forall a, den a = f0 -> den (fold_left (add_vote s) votes a) = f0) as H.
  { induction votes as [|v l IH]; intros a Ha; [done|]. cbn [fold_left].
    destruct (Hv v (list_elem_of_here v l)) as [Hw Hf]. apply IH; [intros u ?; apply Hv; by right|].
    cbn. rewrite Ha. unfold vote_weight. replace (fmax f0 (mv_weight v)) with f0 by (unfold fmax; unfold fgt in Hw; unfold flt; by rewrite Hw).
    pose proof (weight_nonneg s (mv_model v) Hs) as Hp. destruct (weight s (mv_model v)) as [[]| | |[] m e]; done. }
  destruct votes as [|v l]; [done|]. unfold fuse. by rewrite (H {| num := f0; den := f0; confNum := f0 |} eq_refl).
Qed.
End Ensemble.

Lemma fuse_mute_witness :
  let v := {| Ensemble.mv_model := "m"; Ensemble.mv_probability := flit 1 2; Ensemble.mv_confidence := f1; Ensemble.mv_weight := of_Z (-1) |} in
  Ensemble.fuse (Ensemble.setWeight ∅ "m" (of_Z 3)) [v] = Ensemble.no_vote.
Proof.
  intros v. apply Ensemble.fuse_mute.
  - apply map_Forall_insert_2; [done|apply map_Forall_empty].
  - intros u ->%list_elem_of_singleton. split; vm_compute; reflexivity.
Defined.

(** * [IsotonicCalibrator] *)
Module Isotonic.

(* @src include/prediction/isotonic_calibrator.hpp:36-37 IsotonicCalibrator *)
Record t := { bins : list (double * double); fitted : bool }.

Definition empty : t := {| bins := []; fitted := false |}.

(** The order of [std::pair<double, int>]. *)
Definition pair_leb (a b : double * Z) : bool :=
  flt a.1 b.1 || (negb (flt b.1 a.1) && (a.2 <=? b.2)).

Definition pair_le (a b : double * Z) : Prop := pair_leb a b = true.
#[export] Instance pair_le_dec : RelDecision pair_le := fun a b => decide (pair_leb a b = true).

(** The loop over adjacent bins, which looks at each pair once, from the left. *)
(* @src include/prediction/isotonic_calibrator.hpp:17-22 IsotonicCalibrator::fit *)
Fixpoint pool (b : double * double) (l : list (double * double)) : list (double * double) :=
  match l with
  | [] => [b]
  | x :: l =>
      if flt x.2 b.2 then let avg := fdiv (fadd x.2 b.2) (of_Z 2) in (b.1, avg) :: pool (x.1, avg) l
      else b :: pool x l
  end.

(* @src include/prediction/isotonic_calibrator.hpp | void fit( *)
Definition fit (s : t) (scores : list double) (labels : list Z) : t :=
  if negb (length scores =? length labels)%nat || (length scores =? 0)%nat then s
  else
    let pairs := merge_sort pair_le (zip scores labels) in
    match (fun p : double * Z => (p.1, of_Z p.2)) <$> pairs with
    | [] => s
    | b :: l => {| bins := pool b l; fitted := true |}
    end.

(* @src include/prediction/isotonic_calibrator.hpp:29-32 IsotonicCalibrator::calibrate *)
Fixpoint step (l : list (double * double)) (final score : double) : double :=
  match l with
  | [] => final
  | b :: l => if fle score b.1 then b.2 else step l final score
  end.

(* @src include/prediction/isotonic_calibrator.hpp | double calibrate(double *)
Definition calibrate (s : t) (score : double) : double :=
  if negb (fitted s) then score
  else match last (bins s) with None => score | Some b => step (bins s) b.2 score end.

(** Remark: training data whose labels already rise with the scores are kept as they are. *)
Theorem monotone_kept (l : list (double * double)) (b : double * double) :
  Sorted (fun x y => fle x.2 y.2 = true) (b :: l) -> pool b l = b :: l.
Proof.
  revert b. induction l as [|x l IH]; intros b Hs; [done|]. cbn [pool].
  apply Sorted_inv in Hs as [Hs Hd]. inversion Hd as [|? ? Hle]; subst.
  destruct (flt x.2 b.2) eqn:H; [apply flt_nle in H; congruence|]. by rewrite (IH x Hs).
Qed.

(** Remark: a calibrated score is the value of one of the bins. *)
Theorem calibrate_in_bins (s : t) (score : double) :
  fitted s = true -> bins s <> [] -> calibrate s score ∈ (bins s).*2.
Proof.
  intros Hf Hb. unfold calibrate. rewrite Hf. cbn. destruct (last (bins s)) as [b|] eqn:Hl; [|by apply last_None in Hl].
  assert (b.2 ∈ (bins s).*2) as Hin.
  { apply list_elem_of_fmap. exists b. split; [done|]. apply last_Some in Hl as [l' ->]. set_solver. }
  assert (forall l, step l b.2 score = b.2 \/ step l b.2 score ∈ l.*2) as H.
  { induction l as [|x l IH]; [by left|]. cbn. destruct (fle score x.1); [right; by left|].
    destruct IH; [by left|right; by right]. }
  destruct (H (bins s)) as [->|]; done.
Qed.

(** Remark: one pass does not make the values monotone: with labels 1, 1, 0 the lowest score
    is calibrated to 1 and the others to a half. *)
Example one_pass_not_monotone :
  let s := fit empty [flit 1 10; flit 2 10; flit 3 10] [1; 1; 0] in
  calibrate s (flit 1 10) = f1 /\ calibrate s (flit 2 10) = flit 1 2 /\ calibrate s (flit 3 10) = flit 1 2.
Proof. vm_compute. done. Qed.
End Isotonic.

Lemma calibrate_in_bins_witness :
  Isotonic.calibrate (Isotonic.fit Isotonic.empty [flit 1 10] [1]) (flit 1 2) ∈ [f1].
Proof.
  apply (Isotonic.calibrate_in_bins (Isotonic.fit Isotonic.empty [flit 1 10] [1]) (flit 1 2)); [vm_compute; reflexivity|vm_compute; congruence].
Defined.

Lemma monotone_kept_witness :
  Isotonic.pool (f0, f0) [(f1, f1)] = [(f0, f0); (f1, f1)].
Proof. apply Isotonic.monotone_kept. repeat constructor. Defined.

(** * [PlattCalibrator] *)
Module Platt.
Section S.
Variable exp : double -> double.

(* @src include/prediction/platt_calibrator.hpp:31-31 PlattCalibrator *)
Record t := { a : double; b : double; fitted : bool; samples : nat }.

(* @src include/prediction/platt_calibrator.hpp:31-31 PlattCalibrator *)
Definition unfitted : t := {| a := f1; b := f0; fitted := false; samples := 0 |}.

(* @src include/prediction/platt_calibrator.hpp | void fit( *)
Definition fit (s : t) (scores : list double) (labels : list Z) : t :=
  if (length scores =? 0)%nat || negb (length scores =? length labels)%nat then s
  else
    let meanS := fdiv (total scores) (of_size scores) in
    let meanY := fdiv (total (of_Z <$> labels)) (of_size labels) in
    {| a := f1; b := fsub meanY meanS; fitted := true; samples := length scores |}.

(* @src include/prediction/platt_calibrator.hpp | double calibrate(double *)
Definition calibrate (s : t) (score : double) : double :=
  if negb (fitted s) then score
  else
    let z := fadd (fmul (a s) score) (b s) in
    if fgt z (of_Z 30) then f1
    else if flt z (of_Z (-30)) then f0
    else fdiv f1 (fadd f1 (exp (SFopp z))).

(** Remark: a fit on data whose length does not match, or on none, leaves the calibrator as it
    was, and an unfitted calibrator is the identity. *)
Theorem refused_fit (s : t) scores labels score :
  (length scores = 0 \/ length scores <> length labels)%nat ->
  fit s scores labels = s /\ calibrate (fit unfitted scores labels) score = score.
Proof.
  intros H. assert (((length scores =? 0)%nat || negb (length scores =? length labels)%nat) = true) as Hb.
  { destruct H as [->|H]; [done|]. apply Nat.eqb_neq in H. by rewrite H, orb_true_r. }
  unfold fit. by rewrite Hb.
Qed.

(** Remark: the offset is a difference of probabilities and the slope is one, so that scores
    which are already right are moved: after a fit on rounds that never win and scores of zero,
    a score of zero is calibrated to a half. *)
Theorem perfect_scores_moved :
  exp (S754_zero true) = f1 -> calibrate (fit unfitted [f0; f0] [0; 0]) f0 = flit 1 2.
Proof.
  intros He. unfold calibrate. cbn [fit length Nat.eqb negb orb fitted a b].
  replace (fadd _ _) with f0 by (vm_compute; reflexivity).
  change (fgt f0 (of_Z 30)) with false. change (flt f0 (of_Z (-30))) with false. cbv iota.
  change (SFopp f0) with (S754_zero true). rewrite He. vm_compute. done.
Qed.
End S.
End Platt.

Lemma perfect_scores_moved_witness :
  Platt.calibrate (fun _ => f1) (Platt.fit Platt.unfitted [f0; f0] [0; 0]) f0 = flit 1 2.
Proof. apply Platt.perfect_scores_moved. reflexivity. Defined.

Lemma refused_fit_witness : Platt.fit Platt.unfitted [f1] [] = Platt.unfitted.
Proof. apply (Platt.refused_fit (fun x => x) Platt.unfitted [f1] [] f1). right. discriminate. Defined.

(** * [DriftDetector] *)
Module Drift.

(* @src include/prediction/drift_detector.hpp:36-38 DriftDetector *)
Record t := { window : nat; threshold : double; series : gmap string (list double) }.
#[export] Instance eta_t : Eta t := fun r => {| window := window r; threshold := threshold r; series := series r |}.

(* @src include/prediction/drift_detector.hpp | explicit DriftDetector( >> : window_(window) | DriftDetector *)
Definition make (window : nat) (threshold : double) : t := {| window := window; threshold := threshold; series := ∅ |}.

(* @src include/prediction/drift_detector.hpp | void observe( *)
Definition observe (s : t) (feature : string) (value : double) : t :=
  s <| series ::= fun m => <[feature := push_window (window s) (default [] (m !! feature)) value]> m |>.

(* @src include/prediction/drift_detector.hpp | double score(const *)
Definition score (s : t) (feature : string) : double :=
  match series s !! feature with
  | None => f0
  | Some q =>
      if (length q <? 20)%nat then f0
      else
        let mid := (length q / 2)%nat in
        let m1 := fdiv (total (take mid q)) (of_Z (Z.of_nat mid)) in
        let m2 := fdiv (total (drop mid q)) (of_Z (Z.of_nat (length q - mid))) in
        fdiv (SFabs (fsub m2 m1)) (fadd (SFabs m1) (flit 1 1000000000))
  end.

(* @src include/prediction/drift_detector.hpp | bool drifted( *)
Definition drifted (s : t) (feature : string) : bool := fgt (score s feature) (threshold s).

Definition run (s : t) (l : list (string * double)) : t := fold_left (fun s x => observe s x.1 x.2) l s.

Definition values (feature : string) (l : list (string * double)) : list double :=
  (List.filter (fun x => bool_decide (x.1 = feature)) l).*2.

Lemma run_config s l : window (run s l) = window s /\ threshold (run s l) = threshold s.
Proof. revert s. induction l as [|x l IH]; intros s; [done|]. exact (IH (observe s x.1 x.2)). Qed.

(** Remark: the series of a feature is the last values observed of it, whatever was observed of
    the others in between. *)
Theorem series_reference (w : nat) (th : double) (l : list (string * double)) (feature : string) :
  default [] (series (run (make w th) l) !! feature) = trim_front w (values feature l).
Proof.
  induction l as [|x l IH] using rev_ind; [done|]. unfold run in *. rewrite fold_left_app. cbn [fold_left].
  unfold values in *. rewrite List.filter_app, fmap_app. cbn [List.filter].
  destruct (run_config (make w th) l) as [Hw _]. unfold run in Hw.
  unfold observe at 1. cbn. rewrite Hw. cbn. destruct (bool_decide_reflect (x.1 = feature)) as [<-|Hne]; cbn.
  - rewrite lookup_insert_eq. cbn. rewrite IH. apply push_window_trim.
  - rewrite lookup_insert_ne by done. by rewrite app_nil_r.
Qed.

Lemma run_series_length w th l feature : (length (default [] (series (run (make w th) l) !! feature)) <= w)%nat.
Proof. rewrite series_reference, length_trim_front. lia. Qed.

(** Remark: a detector whose window is below twenty never reports a drift. *)
Theorem small_window_blind (w : nat) (th : double) (l : list (string * double)) (feature : string) :
  (w < 20)%nat -> fle f0 th = true -> drifted (run (make w th) l) feature = false.
Proof.
  intros Hw Hth. pose proof (run_series_length w th l feature) as Hl. unfold drifted.
  destruct (run_config (make w th) l) as [_ ->].
  assert (score (run (make w th) l) feature = f0) as ->; [|unfold fgt; destruct (SFltb th f0) eqn:H; [apply flt_nle in H; congruence|done]].
  unfold score. destruct (series _ !! feature) as [q|]; [|done]. cbn in Hl.
  destruct (Nat.ltb_spec (length q) 20); [done|lia].
Qed.
End Drift.

Lemma small_window_blind_witness : Drift.drifted (Drift.run (Drift.make 10 (flit 15 100)) [("x", f1)]) "x" = false.
Proof. apply Drift.small_window_blind; [lia|vm_compute; reflexivity]. Defined.

(** * [WalkForwardEngine] *)
Module WalkForward.

(* @src include/prediction/walk_forward.hpp | struct WalkForwardFold { *)
Record WalkForwardFold := { trainStart : Z; trainEnd : Z; testStart : Z; testEnd : Z; metric : double }.

(** The length of a test window. *)
(* @src include/prediction/walk_forward.hpp:15-15 WalkForwardEngine::split *)
Definition testSize (n nFolds : Z) (testFrac : double) : Z :=
  Z.max 1 (ftrunc (fdiv (fmul (of_Z n) testFrac) (of_Z nFolds))).

(** The window of one fold; [size_t] arithmetic wraps. *)
(* @src include/prediction/walk_forward.hpp:17-21 WalkForwardEngine::split *)
Definition fold (n size f : Z) : WalkForwardFold :=
  let e := u64 (n - u64 (f * size)) in
  let b := if size <? e then e - size else 0 in
  {| trainStart := 0; trainEnd := b; testStart := b; testEnd := e; metric := f0 |}.

(* @src include/prediction/walk_forward.hpp | std::vector<WalkForwardFold> split( *)
Definition split (n nFolds : Z) (testFrac : double) : list WalkForwardFold :=
  if n <? u64 (nFolds * 2) then []
  else
    List.filter (fun x => trainStart x <? trainEnd x)
      ((fun f => fold n (testSize n nFolds testFrac) (Z.of_nat f)) <$> seq 0 (Z.to_nat nFolds)).

(** [train] and [test] are called in turn, and may keep a state. *)
(* @src include/prediction/walk_forward.hpp | double run(std::size_t *)
Definition run {St : Type} (n : Z) (train : Z -> Z -> St -> St) (test : Z -> Z -> St -> double * St) (nFolds : Z) (st : St) :
    double * St :=
  let folds := split n nFolds (flit 2 10) in
  let '(sum, st) := fold_left (fun '(sum, st) f =>
    let st := train (trainStart f) (trainEnd f) st in
    let '(m, st) := test (testStart f) (testEnd f) st in
    (fadd sum m, st)) folds (f0, st) in
  (match folds with [] => f0 | _ => fdiv sum (of_size folds) end, st).

(** What the folds are when the test windows together leave something to train on. *)
Definition expected (n size : Z) (f : nat) : WalkForwardFold :=
  {| trainStart := 0; trainEnd := n - (Z.of_nat f + 1) * size; testStart := n - (Z.of_nat f + 1) * size;
     testEnd := n - Z.of_nat f * size; metric := f0 |}.

Lemma fold_expected n nFolds testFrac f :
  let size := testSize n nFolds testFrac in
  0 <= n < 2 ^ 64 -> Z.of_nat f < nFolds -> nFolds * size < n -> fold n size (Z.of_nat f) = expected n size f.
Proof.
  intros size Hn Hf Hs. unfold fold, expected.
  assert (1 <= size) by (unfold size, testSize; lia).
  assert (Z.of_nat f * size + size <= nFolds * size) by nia.
  rewrite (u64_small (Z.of_nat f * size)), (u64_small (n - _)) by nia.
  destruct (Z.ltb_spec size (n - Z.of_nat f * size)); [|lia]. f_equal; lia.
Qed.

(** Remark: when the test windows together are shorter than the data there is one fold for each
    request; each trains on everything before its test window and on nothing in or after it,
    the test windows have one length, the first ends with the data and each following one ends
    where the previous begins. *)
Theorem folds_never_leak (n nFolds : Z) (testFrac : double) :
  let size := testSize n nFolds testFrac in
  0 <= n < 2 ^ 64 -> 0 < nFolds -> 2 * nFolds <= n -> nFolds * size < n ->
  let folds := split n nFolds testFrac in
  length folds = Z.to_nat nFolds /\
  forall i x, folds !! i = Some x ->
    trainStart x = 0 /\ 0 < trainEnd x /\ trainEnd x = testStart x /\ testEnd x = testStart x + size /\
    testEnd x = match folds !! pred i with Some y => if decide (i = 0%nat) then n else testStart y | None => n end.
Proof.
  intros size Hn Hf H2 Hs folds.
  assert (folds = expected n size <$> seq 0 (Z.to_nat nFolds)) as ->.
  { subst folds. unfold split. rewrite u64_small by lia. destruct (Z.ltb_spec n (nFolds * 2)); [lia|].
    assert (forall l : list nat, (forall f, f ∈ l -> Z.of_nat f < nFolds) ->
      List.filter (fun x => trainStart x <? trainEnd x) ((fun f => fold n size (Z.of_nat f)) <$> l) = expected n size <$> l) as Hl.
    { induction l as [|f l IH]; intros Hin; [done|]. rewrite !fmap_cons. cbn [List.filter].
      specialize (Hin f (list_elem_of_here f l)) as Hfl. pose proof (fold_expected n nFolds testFrac f Hn Hfl Hs) as He. cbv zeta in He. fold size in He. rewrite He.
      assert (1 <= size) by (unfold size, testSize; lia).
      cbn [trainStart trainEnd expected]. destruct (Z.ltb_spec 0 (n - (Z.of_nat f + 1) * size)); [|nia].
      f_equal. apply IH. intros g ?. apply Hin. by right. }
    apply Hl. intros f Hin. apply elem_of_seq in Hin. lia. }
  split; [by rewrite length_fmap, length_seq|]. intros i x Hx.
  apply list_lookup_fmap_Some in Hx as (f & -> & Hi). apply lookup_seq in Hi as [-> Hi].
  assert (1 <= size) by (unfold size, testSize; lia). cbn [expected trainStart trainEnd testStart testEnd].
  split_and!; [done|nia|done|lia|]. rewrite list_lookup_fmap, lookup_seq_lt by lia. cbn.
  destruct i as [|i]; cbn -[Z.of_nat]; case_decide; lia.
Qed.

(** Remark: a test share above one makes the first windows end before the data begin: the
    end wraps around, and the fold trains on rows that do not exist. *)
Example large_share_wraps :
  (fun x => (trainEnd x, testEnd x)) <$> split 10 2 (of_Z 4) = [(2 ^ 64 - 30, 2 ^ 64 - 10)].
Proof. vm_compute. done. Qed.
End WalkForward.

Lemma folds_never_leak_witness : length (WalkForward.split 100 5 (flit 2 10)) = 5%nat.
Proof. apply WalkForward.folds_never_leak; [lia|lia|lia|vm_compute; reflexivity]. Defined.

(** * [DatasetBuilder] *)
Module Dataset.

(* @src include/prediction/dataset_builder.hpp | struct DatasetRowLite { *)
Record DatasetRowLite := { roundId : string; features : gmap string double; label : Z; crashPoint : double }.
(* @src include/prediction/dataset_builder.hpp | struct DatasetLite { *)
Record DatasetLite := { ds_id : string; ds_rows : list DatasetRowLite; leakageCheckPassed : bool }.

(* @src include/prediction/dataset_builder.hpp | std::vector<DatasetRowLite> rows_; | DatasetBuilder *)
Definition t : Type := list DatasetRowLite.

(* @src include/prediction/dataset_builder.hpp | void add( *)
Definition add (s : t) (row : DatasetRowLite) : t := s ++ [row].

(* @src include/prediction/dataset_builder.hpp:25-25 DatasetBuilder::build *)
Definition leaks (r : DatasetRowLite) : bool :=
  bool_decide (is_Some (features r !! "label")) || bool_decide (is_Some (features r !! "future_mult")).

(* @src include/prediction/dataset_builder.hpp | DatasetLite build( *)
Definition build (s : t) (id : string) : DatasetLite :=
  {| ds_id := id; ds_rows := s; leakageCheckPassed := negb (existsb leaks s) |}.

(* @src include/prediction/dataset_builder.hpp | void clear( *)
Definition clear (_ : t) : t := [].
(* @src include/prediction/dataset_builder.hpp | std::size_t size( *)
Definition size (s : t) : nat := length s.

(** Remark: a dataset has the rows added since the last clear in their order, and passes the
    check exactly when no row has one of the two forbidden keys. *)
Theorem build_spec (rows : list DatasetRowLite) (s : t) (id : string) :
  let d := build (fold_left add rows (clear s)) id in
  ds_rows d = rows /\
  (leakageCheckPassed d = true <-> forall r, r ∈ rows -> features r !! "label" = None /\ features r !! "future_mult" = None).
Proof.
  cbv zeta. assert (fold_left add rows (clear s) = rows) as ->.
  { assert (forall acc, fold_left add rows acc = acc ++ rows) as H; [|apply H].
    induction rows as [|r l IH]; intros acc; cbn; [by rewrite app_nil_r|]. rewrite IH. unfold add. by rewrite <- app_assoc. }
  split; [done|]. cbn. rewrite negb_true_iff. split.
  - intros H r Hr. apply list_elem_of_In in Hr. destruct (leaks r) eqn:Hl.
    { assert (existsb leaks rows = true) by (apply existsb_exists; eauto). congruence. }
    unfold leaks in Hl. apply orb_false_iff in Hl as [H1 H2].
    rewrite bool_decide_eq_false, <- eq_None_not_Some in H1, H2. done.
  - intros H. apply not_true_iff_false. rewrite existsb_exists. intros (r & Hr%list_elem_of_In & Hl).
    destruct (H r Hr) as [H1 H2]. unfold leaks in Hl. by rewrite H1, H2 in Hl.
Qed.

(** Remark: a leak under any other name passes the check. *)
Example other_leak_passes :
  leakageCheckPassed (build (add [] {| roundId := "1"; features := {[ "next_crash_point" := f1 ]}; label := 0; crashPoint := f1 |}) "d") = true.
Proof. reflexivity. Qed.
End Dataset.

(** * [LearningScheduler] *)
Module Learning.

(** A job either returns or throws; a null job does nothing. *)
Inductive job := Null | Returns | Throws.

(* @src include/prediction/online/learning_scheduler.hpp | struct Entry { *)
Record Entry := { e_name : string; e_job : job; intervalMs : Z; lastRunMs : Z }.

(* @src include/prediction/online/learning_scheduler.hpp | mutable std::mutex mu_; >> errors_{0}; | LearningScheduler *)
Record t := { jobs : list Entry; runs : Z; errors : Z }.
#[export] Instance eta_t : Eta t := fun r => {| jobs := jobs r; runs := runs r; errors := errors r |}.

Definition empty : t := {| jobs := []; runs := 0; errors := 0 |}.

(* @src include/prediction/online/learning_scheduler.hpp | void schedule( *)
Definition schedule (s : t) (name : string) (j : job) (interval : Z) : t :=
  s <| jobs ::= fun l => l ++ [{| e_name := name; e_job := j; intervalMs := interval; lastRunMs := 0 |}] |>.

(* @src include/prediction/online/learning_scheduler.hpp:22-22 LearningScheduler::tick *)
Definition due (now : Z) (e : Entry) : bool := intervalMs e <=? now - lastRunMs e.

(** One entry of a tick: the entry after it, and the two counters. *)
(* @src include/prediction/online/learning_scheduler.hpp:22-25 LearningScheduler::tick *)
Definition visit (now : Z) (acc : list Entry * Z * Z) (e : Entry) : list Entry * Z * Z :=
  let '(done_, r, x) := acc in
  if due now e then
    let e' := {| e_name := e_name e; e_job := e_job e; intervalMs := intervalMs e; lastRunMs := now |} in
    match e_job e with
    | Throws => (done_ ++ [e'], r, bump x)
    | _ => (done_ ++ [e'], bump r, x)
    end
  else (done_ ++ [e], r, x).

(** The names of the jobs that were started are given with the state. *)
(* @src include/prediction/online/learning_scheduler.hpp | void tick( *)
Definition tick (s : t) (now : Z) : list string * t :=
  let '(l, r, x) := fold_left (visit now) (jobs s) ([], runs s, errors s) in
  (e_name <$> List.filter (due now) (jobs s), {| jobs := l; runs := r; errors := x |}).

Definition after (now : Z) (e : Entry) : Entry :=
  if due now e then {| e_name := e_name e; e_job := e_job e; intervalMs := intervalMs e; lastRunMs := now |} else e.

Lemma after_idle now e : due now e = false -> after now e = e.
Proof. unfold after. by intros ->. Qed.

Lemma visit_after now acc r x e : exists r' x', visit now (acc, r, x) e = (acc ++ [after now e], r', x').
Proof. unfold visit, after. destruct (due now e); [destruct (e_job e)|]; eauto. Qed.

Lemma tick_jobs s now : jobs (tick s now).2 = after now <$> jobs s.
Proof.
  unfold tick. assert (forall l acc r x, (fold_left (visit now) l (acc, r, x)).1.1 = acc ++ (after now <$> l)) as H.
  { induction l as [|e l IH]; intros acc r x; [cbn; by rewrite app_nil_r|]. cbn [fold_left]. rewrite fmap_cons.
    destruct (visit_after now acc r x e) as (r' & x' & ->). rewrite IH, <- app_assoc. done. }
  specialize (H (jobs s) [] (runs s) (errors s)). by destruct (fold_left _ _ _) as [[l r] x].
Qed.

(** Remark: a job runs at a tick exactly when its interval has passed since the tick it last ran
    at, a failed run counting as a run: a later tick before the interval has passed does not run
    it again and leaves its entry as it is. *)
Theorem interval_respected (s : t) (now now' : Z) (e : Entry) :
  e ∈ jobs s -> now <= now' -> now' < now + intervalMs e ->
  let s1 := (tick s now).2 in
  exists e', e' ∈ jobs s1 /\ e_name e' = e_name e /\
    (due now e = true -> lastRunMs e' = now /\ due now' e' = false /\ e' ∈ jobs (tick s1 now').2).
Proof.
  intros He Hn Hi. cbv zeta. exists (after now e). rewrite !tick_jobs.
  assert (after now e ∈ after now <$> jobs s) as Hin by (apply list_elem_of_fmap; eauto).
  split_and!; [done|unfold after; by destruct (due now e)|]. intros Hd.
  assert (due now' (after now e) = false) as Hd'.
  { unfold after. rewrite Hd. unfold due. cbn. apply Z.leb_gt. lia. }
  split_and!; [unfold after; by rewrite Hd|done|]. apply list_elem_of_fmap. exists (after now e).
  split; [by rewrite (after_idle _ _ Hd')|done].
Qed.
End Learning.

Lemma interval_respected_witness :
  let s := Learning.schedule Learning.empty "fit" Learning.Throws 1000 in
  exists e', e' ∈ Learning.jobs (Learning.tick s 5000).2 /\ Learning.due 5500 e' = false.
Proof.
  intros s. destruct (Learning.interval_respected s 5000 5500
    {| Learning.e_name := "fit"; Learning.e_job := Learning.Throws; Learning.intervalMs := 1000; Learning.lastRunMs := 0 |})
    as (e' & H1 & _ & H2); [left|lia|cbn; lia|]. exists e'. split; [exact H1|]. apply H2. reflexivity.
Defined.

(** * The model wrapper *)
Module Model.

(* @src include/prediction/models/BayesianBaselineModel.hpp:47-50 BayesianBaselineModel *)
Record t := { hist : list double; prior : double; n : Z }.
#[export] Instance eta_t : Eta t := fun r => {| hist := hist r; prior := prior r; n := n r |}.

(* @src include/prediction/models/BayesianBaselineModel.hpp | explicit BayesianBaselineModel( *)
Definition make (prior : double) : t := {| hist := []; prior := prior; n := 0 |}.

(* @src include/prediction/models/BayesianBaselineModel.hpp | void observe( *)
Definition observe (s : t) (crashPoint : double) : t :=
  s <| hist ::= fun h => push_erase 512 h crashPoint |> <| n ::= bump |>.

(* @src include/prediction/models/BayesianBaselineModel.hpp:20-20 BayesianBaselineModel::predict *)
Definition hits (s : t) (target : double) : nat := length (List.filter (fun c => fge c target) (hist s)).

(* @src include/prediction/models/BayesianBaselineModel.hpp:21-21 BayesianBaselineModel::predict *)
Definition rate (s : t) (target : double) : double := fdiv (of_Z (Z.of_nat (hits s target))) (of_size (hist s)).

(* @src include/prediction/models/BayesianBaselineModel.hpp:23-23 BayesianBaselineModel::predict *)
Definition trust (size : nat) : double := fmin f1 (fdiv (of_Z (Z.of_nat size)) (of_Z 50)).

(* @src include/prediction/models/BayesianBaselineModel.hpp | double predict( *)
Definition predict (s : t) (target : double) : double :=
  match hist s with
  | [] => prior s
  | _ => let k := trust (length (hist s)) in fadd (fmul k (rate s target)) (fmul (fsub f1 k) (prior s))
  end.

Definition certainty (size : nat) : double := fmin (flit 99 100) (fadd (flit 5 10) (fdiv (of_Z (Z.of_nat size)) (of_Z 200))).

(* @src include/prediction/models/BayesianBaselineModel.hpp | double confidence( *)
Definition confidence (s : t) : double := certainty (length (hist s)).

(* @src include/prediction/models/BayesianBaselineModel.hpp | std::size_t samples( *)
Definition samples (s : t) : nat := length (hist s).

(** [feature_k] for [k] from 0 to 14. *)
(* @src include/prediction/models/BayesianBaselineModel.hpp:31-45 BayesianBaselineModel::feature_0 *)
Definition feature (k : Z) (s : t) : double :=
  match hist s with
  | [] => f0
  | h => fmul (fdiv (total h) (of_size h)) (fadd f1 (fmul (of_Z k) (flit 1 100)))
  end.

Definition run (prior : double) (l : list double) : t := fold_left observe l (make prior).

Lemma run_hist p l : hist (run p l) = trim_front 512 l /\ prior (run p l) = p.
Proof.
  unfold run. induction l as [|x l [IH1 IH2]] using rev_ind; [done|]. rewrite fold_left_app. cbn [fold_left].
  split; [|exact IH2]. change (push_erase 512 (hist (fold_left observe l (make p))) x = trim_front 512 (l ++ [x])).
  rewrite IH1. apply push_erase_trim.
Qed.

Lemma trust_full : forallb (fun size => bool_decide (trust size = f1)) (seq 50 463) = true.
Proof. vm_compute. reflexivity. Qed.

Lemma trust_one size : (50 <= size <= 512)%nat -> trust size = f1.
Proof.
  intros Hs. pose proof trust_full as H. rewrite forallb_forall in H.
  specialize (H size ltac:(apply in_seq; lia)). by apply bool_decide_eq_true in H.
Qed.

(** Remark: from fifty rounds on the prior has no more influence: two models with different
    priors that saw the same rounds predict the same, and the prediction depends on the last 512
    rounds only. *)
Theorem mature_predict (p p' target : double) (l l' : list double) :
  flt f0 p = true -> is_finite p = true -> flt f0 p' = true -> is_finite p' = true ->
  (50 <= length l)%nat -> trim_front 512 l = trim_front 512 l' ->
  predict (run p l) target = predict (run p' l') target.
Proof.
  intros Hp Hfp Hp' Hfp' Hl He.
  destruct (run_hist p l) as [Hh Hpr], (run_hist p' l') as [Hh' Hpr'].
  assert (50 <= length (trim_front 512 l) <= 512)%nat as Hw by (rewrite length_trim_front; lia).
  unfold predict, rate, hits. rewrite Hh, Hpr, Hh', Hpr', <- He, (trust_one _ Hw). change (fsub f1 f1) with f0.
  assert (forall q, flt f0 q = true -> is_finite q = true -> fmul f0 q = f0) as Hz by (by intros [[]|[]| |[] m e]).
  rewrite !Hz by done. destruct (trim_front 512 l); [cbn in Hw; lia|done].
Qed.

(** Remark: the confidence lies between a half and 0.99 at every size the history can have. *)
Theorem confidence_range (p : double) (l : list double) :
  fle (flit 5 10) (confidence (run p l)) = true /\ fle (confidence (run p l)) (flit 99 100) = true.
Proof.
  assert (forallb (fun n => fle (flit 5 10) (certainty n) && fle (certainty n) (flit 99 100)) (seq 0 513) = true) as H
    by (vm_compute; reflexivity).
  rewrite forallb_forall in H. apply andb_true_iff, H, in_seq.
  destruct (run_hist p l) as [-> _]. rewrite length_trim_front. lia.
Qed.
End Model.

Lemma mature_predict_witness :
  Model.predict (Model.run (flit 1 2) (repeat f1 60)) f1 = Model.predict (Model.run (flit 1 4) (repeat f1 60)) f1.
Proof. apply Model.mature_predict; first [reflexivity|vm_compute; reflexivity|cbn; lia]. Defined.

(** * Feature functions *)
Module Features.

(* @src include/prediction/features/lag_features.hpp | static double mean( *)
Definition mean (v : list double) : double := match v with [] => f0 | _ => fdiv (total v) (of_size v) end.

(* @src include/prediction/features/lag_features.hpp | static double stddev( *)
Definition stddev (v : list double) : double :=
  if (length v <? 2)%nat then f0
  else
    let m := mean v in
    let s := total ((fun x => let d := fsub x m in fmul d d) <$> v) in
    fsqrt (fdiv s (of_Z (Z.of_nat (length v - 1)))).

(* @src include/prediction/features/lag_features.hpp | static double last( *)
Definition last (v : list double) : double := default f0 (list.last v).

(* @src include/prediction/features/lag_features.hpp | static double lag( *)
Definition lag (v : list double) (k : nat) : double :=
  if (k <? length v)%nat then default f0 (v !! (length v - 1 - k)%nat) else f0.

(* @src include/prediction/features/lag_features.hpp | static double hit_rate( *)
Definition hit_rate (v : list double) (t : double) : double :=
  match v with
  | [] => f0
  | _ => fdiv (of_Z (Z.of_nat (length (List.filter (fun x => fge x t) v)))) (of_size v)
  end.

(** [transform_k] for [k] from 0 to 19. *)
(* @src include/prediction/features/lag_features.hpp:12-31 transform_0 *)
Definition transform (k : Z) (v : list double) : double :=
  fadd (fmul (mean v) (fadd f1 (fmul (of_Z k) (flit 1 100)))) (fmul (stddev v) (flit 1 10)).

(** Remark: the lags read the series backwards from its last value, and are zero beyond its
    beginning. *)
Theorem lag_spec (v : list double) (x : double) (k : nat) :
  lag (v ++ [x]) 0 = x /\ last (v ++ [x]) = x /\ lag (v ++ [x]) (S k) = lag v k /\
  ((length v <= k)%nat -> lag v k = f0).
Proof.
  unfold lag, last. rewrite !length_app, last_snoc. cbn [length]. split_and!.
  - destruct (Nat.ltb_spec 0 (length v + 1)); [|lia]. rewrite lookup_app_r by lia.
    by replace (length v + 1 - 1 - 0 - length v)%nat with 0%nat by lia.
  - done.
  - destruct (Nat.ltb_spec (S k) (length v + 1)), (Nat.ltb_spec k (length v)); try lia; [|done].
    rewrite lookup_app_l by lia. do 2 f_equal. lia.
  - intros H. destruct (Nat.ltb_spec k (length v)); [lia|done].
Qed.
End Features.
