(* ===== verification/Online.v ===== *)
(** The containers of [include/prediction/online]: running statistics, fixed histograms, event
    journals, feature stores, bounded windows and vectors.

    Each of those files repeats one class under numbered names ([OnlineStat0] to [OnlineStat99],
    [FixedHist0] to [FixedHist79], [EventJournal0] to [EventJournal59], [FeatureStoreShard0] to
    [FeatureStoreShard49], [TensorLite0] to [TensorLite39]; the classes of [sliding_windows.hpp],
    [ring_buffers.hpp] and [histograms.hpp] differ in their names only): the first of each is
    modelled.  Every operation holds the object's lock. *)
From S2P Require Import Prelude Float64 Types Models.

Open Scope string_scope.
Open Scope list_scope.
Open Scope Z_scope.

(** * [OnlineStat] *)
Module OnlineStat.

(* @src include/prediction/online/online_stats.hpp:33-35 OnlineStat0 *)
Record t := { mean : double; m2 : double; n : Z; window : list double }.

(* @src include/prediction/online/online_stats.hpp:34-35 OnlineStat0 *)
Definition empty : t := {| mean := f0; m2 := f0; n := 0; window := [] |}.

(* @src include/prediction/online/online_stats.hpp | void add( *)
Definition add (s : t) (x : double) : t :=
  let n' := bump (n s) in
  let mean' := fadd (mean s) (fdiv (fsub x (mean s)) (of_Z n')) in
  let d := fsub x mean' in
  let m2' := fadd (m2 s) (fmul d (fsub x (fsub mean' (fdiv d (of_Z (if n' =? 0 then 1 else n')))))) in
  {| mean := mean'; m2 := m2'; n := n'; window := push_window 256 (window s) x |}.

(* @src include/prediction/online/online_stats.hpp | double variance( *)
Definition variance (s : t) : double := if 1 <? n s then fdiv (m2 s) (of_Z (n s - 1)) else f0.

(* @src include/prediction/online/online_stats.hpp | double stddev( *)
Definition stddev (s : t) : double := fsqrt (variance s).

(* @src include/prediction/online/online_stats.hpp | double ewma( *)
Definition ewma (s : t) (alpha : double) : double :=
  match window s with
  | [] => f0
  | e :: l => fold_left (fun e x => fadd (fmul alpha x) (fmul (fsub f1 alpha) e)) l e
  end.

(* @src include/prediction/online/online_stats.hpp | std::size_t size( *)
Definition size (s : t) : Z := n s.

(** Remark: the window is the last 256 values and the size is the number of values added, modulo
    64 bits, so that the smoothed mean depends on the last 256 values only. *)
Theorem stat_reference (l : list double) :
  let s := fold_left add l empty in window s = trim_front 256 l /\ size s = u64 (Z.of_nat (length l)).
Proof.
  cbv zeta. induction l as [|x l [IH1 IH2]] using rev_ind; [done|]. rewrite fold_left_app, length_app, Nat2Z.inj_add. cbn [fold_left].
  unfold size in *. cbn [add window n]. rewrite IH1, IH2. split; [apply push_window_trim|].
  apply bump_u64.
Qed.

(** Remark: the accumulated sum of squares is not Welford's: of the values 0 and 2, whose sample
    variance is 2, the variance given is 3/2. *)
Example variance_wrong :
  let s := fold_left add [f0; of_Z 2] empty in mean s = f1 /\ variance s = flit 3 2.
Proof. vm_compute. done. Qed.
End OnlineStat.

(** * [FixedHist] *)
Module FixedHist.

(* @src include/prediction/online/fixed_histograms.hpp:18-18 FixedHist0 *)
Record t := { counts : list Z; n : Z }.

(* @src include/prediction/online/fixed_histograms.hpp:18-18 FixedHist0 *)
Definition empty : t := {| counts := replicate 20 0; n := 0 |}.

(* @src include/prediction/online/fixed_histograms.hpp:10-10 FixedHist0::add *)
Definition bin (x : double) : Z := ftrunc (fclamp x f0 (flit 1999 100)).

(** The conversion of a NaN to [int] is undefined. *)
(* @src include/prediction/online/fixed_histograms.hpp | void add( *)
Definition add (s : t) (x : double) : option t :=
  if is_nan x then None
  else
    let b := bin x in
    Some {| counts := if (0 <=? b) && (b <? 20) then alter bump (Z.to_nat b) (counts s) else counts s; n := bump (n s) |}.

(** The index is not checked: reading outside of the array is undefined. *)
(* @src include/prediction/online/fixed_histograms.hpp | double density( *)
Definition density (s : t) (b : Z) : option double :=
  if n s =? 0 then Some f0
  else if b <? 0 then None
  else c ← counts s !! Z.to_nat b; Some (fdiv (of_Z c) (of_Z (n s))).

(* @src include/prediction/online/fixed_histograms.hpp | std::uint64_t total( *)
Definition total (s : t) : Z := n s.

(** Every number falls into one of the twenty bins. *)
Lemma bin_range x : canonical x = true -> is_nan x = false -> 0 <= bin x < 20.
Proof.
  intros Hc Hn. unfold bin. destruct (fclamp_range x f0 (flit 1999 100) Hn ltac:(vm_compute; reflexivity)) as [H0 H1].
  assert (0 <= ftrunc (fclamp x f0 (flit 1999 100)) <= ftrunc (flit 1999 100)) as H.
  { apply ftrunc_mono; try done. unfold fclamp. destruct (flt x f0); [done|]. by destruct (flt (flit 1999 100) x). }
  change (ftrunc (flit 1999 100)) with 19 in H. lia.
Qed.

Definition run (l : list double) : option t := foldl (fun s x => s ≫= fun s => add s x) (Some empty) l.

Definition tally (b : nat) (l : list double) : Z := Z.of_nat (length (List.filter (fun x => bin x =? Z.of_nat b) l)).

(** Remark: on numbers, the histogram has in each of its twenty bins the number of values that
    fall into it and in its total the number of values (modulo 64 bits), and every value falls
    into exactly one bin. *)
Theorem histogram_reference (l : list double) :
  Forall (fun x => canonical x = true /\ is_nan x = false) l ->
  exists s, run l = Some s /\ counts s = (fun b => u64 (tally b l)) <$> seq 0 20 /\ total s = u64 (Z.of_nat (length l)) /\
    Forall (fun x => 0 <= bin x < 20) l.
Proof.
  induction l as [|x l IH] using rev_ind; intros Hl.
  { exists empty. split_and!; done. }
  apply Forall_app in Hl as [Hl Hx]. apply Forall_singleton in Hx as [Hc Hn].
  destruct (IH Hl) as (s & Hr & Hs & Ht & Hf). pose proof (bin_range x Hc Hn) as Hb.
  unfold run in *. rewrite foldl_snoc, Hr. cbn [option_bind mbind]. unfold add. rewrite Hn.
  eexists. split; [reflexivity|]. cbn [counts total n]. unfold total in Ht.
  rewrite Ht, length_app, Nat2Z.inj_add, bump_u64. split_and!; [|done|apply Forall_app; split; [done|by apply Forall_singleton]].
  destruct (Z.leb_spec 0 (bin x)), (Z.ltb_spec (bin x) 20); try lia. cbn [andb]. rewrite Hs.
  apply list_eq. intros i. destruct (decide (i < 20)%nat) as [Hi|Hi]; cycle 1.
  { rewrite !lookup_ge_None_2; [done|rewrite length_fmap, length_seq; lia|].
    rewrite length_alter, length_fmap, length_seq. lia. }
  rewrite list_lookup_fmap, lookup_seq_lt by lia. cbn [fmap option_fmap option_map].
  assert (tally i (l ++ [x]) = tally i l + (if bin x =? Z.of_nat i then 1 else 0)) as Hsn.
  { unfold tally. rewrite List.filter_app, length_app. cbn. destruct (bin x =? Z.of_nat i); cbn [length]; lia. }
  rewrite Nat.add_0_l, Hsn. destruct (decide (Z.to_nat (bin x) = i)) as [He|He].
  - rewrite <- He at 1. rewrite list_lookup_alter_eq, list_lookup_fmap, lookup_seq_lt by lia. cbn.
    replace (bin x =? Z.of_nat i) with true by (symmetry; apply Z.eqb_eq; lia). by rewrite bump_u64, He.
  - rewrite list_lookup_alter_ne by done. rewrite list_lookup_fmap, lookup_seq_lt by lia. cbn.
    replace (bin x =? Z.of_nat i) with false by (symmetry; apply Z.eqb_neq; lia). by rewrite Z.add_0_r.
Qed.
End FixedHist.

Lemma histogram_reference_witness :
  exists s, FixedHist.run [f1; of_Z 100; of_Z (-3)] = Some s /\ FixedHist.total s = 3.
Proof.
  destruct (FixedHist.histogram_reference [f1; of_Z 100; of_Z (-3)]) as (s & H & _ & Ht & _).
  - repeat constructor; vm_compute; reflexivity.
  - exists s. split; [exact H|]. rewrite Ht. vm_compute. reflexivity.
Defined.

(** * [EventJournal] *)
Module EventJournal.

(* @src include/prediction/online/event_journals.hpp:14-14 EventJournal0 *)
Definition t : Type := list string.

(* @src include/prediction/online/event_journals.hpp | void append( *)
Definition append (s : t) (e : string) : t := push_erase 1000 s e.
(* @src include/prediction/online/event_journals.hpp | std::size_t size( *)
Definition size (s : t) : nat := length s.
(* @src include/prediction/online/event_journals.hpp | std::string at( *)
Definition at_ (s : t) (i : nat) : string := default EmptyString (s !! i).
(* @src include/prediction/online/event_journals.hpp | void clear( *)
Definition clear (_ : t) : t := [].

(** Remark: the journal is the last thousand events, the oldest first; a position outside of it
    reads as the empty string. *)
Theorem journal_reference (l : list string) (i : nat) :
  let s := fold_left append l [] in
  s = trim_front 1000 l /\ (size s <= 1000)%nat /\ at_ s i = default EmptyString (l !! (length l - 1000 + i)%nat).
Proof.
  cbv zeta. assert (fold_left append l [] = trim_front 1000 l) as ->.
  { induction l as [|x l IH] using rev_ind; [done|]. rewrite fold_left_app. cbn [fold_left]. rewrite IH. apply push_erase_trim. }
  split_and!; [done|unfold size; rewrite length_trim_front; lia|]. unfold at_, trim_front. apply (f_equal (default EmptyString)), lookup_drop.
Qed.
End EventJournal.

(** * [FeatureStoreShard] *)
Module FeatureStore.

(* @src include/prediction/online/feature_store.hpp:22-22 FeatureStoreShard0 *)
Definition t : Type := gmap string double.

(* @src include/prediction/online/feature_store.hpp | void put( *)
Definition put (s : t) (key : string) (v : double) : t := <[key := v]> s.
(* @src include/prediction/online/feature_store.hpp | std::optional<double> get( *)
Definition get (s : t) (key : string) : option double := s !! key.
(* @src include/prediction/online/feature_store.hpp | void clear( *)
Definition clear (_ : t) : t := ∅.
(* @src include/prediction/online/feature_store.hpp | std::size_t size( *)
Definition size (s : t) : nat := base.size s.

(** In the order of the map, which the source leaves open. *)
(* @src include/prediction/online/feature_store.hpp | std::vector<std::string> keys( *)
Definition keys (s : t) : list string := (map_to_list s).*1.

(** Remark: a key that was put reads as its last value; the keys are those that can be read,
    each once, and their number is the size. *)
Theorem store_spec (puts : list (string * double)) (key : string) :
  let s := fold_left (fun s x => put s x.1 x.2) puts (clear ∅) in
  get s key = snd <$> list.last (List.filter (fun x => bool_decide (x.1 = key)) puts) /\
  (key ∈ keys s <-> is_Some (get s key)) /\ NoDup (keys s) /\ length (keys s) = size s.
Proof.
  intros s. split_and!.
  - subst s. unfold get, put, clear, t. induction puts as [|x l IH] using rev_ind; [apply lookup_empty|].
    rewrite fold_left_app, List.filter_app. cbn. destruct (bool_decide_reflect (x.1 = key)) as [<-|Hne].
    + by rewrite lookup_insert_eq, last_snoc.
    + by rewrite lookup_insert_ne, app_nil_r.
  - unfold keys. rewrite list_elem_of_fmap. split.
    + intros ((k & v) & -> & Hin%elem_of_map_to_list). eauto.
    + intros [v Hv]. exists (key, v). split; [done|]. by apply elem_of_map_to_list.
  - apply NoDup_fst_map_to_list.
  - unfold keys. rewrite length_fmap. apply length_map_to_list.
Qed.
End FeatureStore.

(** * Bounded windows *)
Module Window.

(* @src include/prediction/online/sliding_windows.hpp:18-18 SlidingWindows0 *)
Record t := { cap : nat; data : list double }.

(* @src include/prediction/online/sliding_windows.hpp | explicit SlidingWindows0( *)
Definition make (cap : nat) : t := {| cap := cap; data := [] |}.
(* @src include/prediction/online/sliding_windows.hpp | void push( *)
Definition push (s : t) (x : double) : t := {| cap := cap s; data := push_window (cap s) (data s) x |}.
(* @src include/prediction/online/sliding_windows.hpp | double sum( *)
Definition sum (s : t) : double := Models.total (data s).
(* @src include/prediction/online/sliding_windows.hpp | std::size_t size( *)
Definition size (s : t) : nat := length (data s).
(* @src include/prediction/online/sliding_windows.hpp | double mean( *)
Definition mean (s : t) : double := if (size s =? 0)%nat then f0 else fdiv (sum s) (of_size (data s)).
(* @src include/prediction/online/sliding_windows.hpp | double at( *)
Definition at_ (s : t) (i : nat) : double := default f0 (data s !! i).

(** [mean] takes the lock twice: a push between its two readings. *)
Definition mean_interleaved (s : t) (x : double) : double :=
  if (size s =? 0)%nat then f0 else fdiv (sum (push s x)) (of_size (data s)).

(** Remark: a window holds the last values pushed, in their order, as many as its capacity; a
    window of no capacity stays empty and its mean is zero. *)
Theorem window_reference (c : nat) (l : list double) :
  let s := fold_left push l (make c) in
  data s = trim_front c l /\ size s = (length l `min` c)%nat /\ (c = 0%nat -> mean s = f0) /\
  ((0 < c)%nat -> forall x, list.last (data (push s x)) = Some x).
Proof.
  cbv zeta. assert (fold_left push l (make c) = {| cap := c; data := trim_front c l |}) as ->.
  { induction l as [|x l IH] using rev_ind; [done|]. rewrite fold_left_app. cbn [fold_left]. rewrite IH. unfold push. cbn [cap data].
    by rewrite push_window_trim. }
  split_and!; [done|apply length_trim_front| |].
  - intros ->. unfold mean, size. cbn [data]. by rewrite length_trim_front, Nat.min_0_r.
  - intros Hc x. cbn [push cap data]. rewrite push_window_trim, trim_front_app_fits by (cbn; lia). apply last_snoc.
Qed.

(** Remark: a value pushed between the two readings of [mean] is added to the sum and not to the
    number: the mean of ones can be two. *)
Example torn_mean : mean_interleaved (push (make 4) f1) f1 = of_Z 2 /\ mean (push (push (make 4) f1) f1) = f1.
Proof. vm_compute. done. Qed.
End Window.

(** * [TensorLite] *)
Module Tensor.

(* @src include/prediction/online/tensor_lite.hpp:5-5 TensorLite0 *)
Definition t : Type := list double.

(** A negative length becomes an enormous one, which [assign] refuses by an exception. *)
(* @src include/prediction/online/tensor_lite.hpp:5-5 TensorLite0::resize *)
Definition resize (_ : t) (n : Z) : option t := if n <? 0 then None else Some (replicate (Z.to_nat n) f0).

Definition inside (s : t) (i : Z) : bool := (0 <=? i) && (i <? Z.of_nat (length s)).

(* @src include/prediction/online/tensor_lite.hpp:5-5 TensorLite0::set *)
Definition set (s : t) (i : Z) (x : double) : t := if inside s i then <[Z.to_nat i := x]> s else s.
(* @src include/prediction/online/tensor_lite.hpp:5-5 TensorLite0::get *)
Definition get (s : t) (i : Z) : double := if inside s i then default f0 (s !! Z.to_nat i) else f0.
(* @src include/prediction/online/tensor_lite.hpp:5-5 TensorLite0::size *)
Definition size (s : t) : Z := Z.of_nat (length s).

Lemma size_set s i x : length (set s i x) = length s.
Proof. unfold set. destruct (inside s i); [apply length_insert|done]. Qed.

(** Remark: a value set inside of the vector is the value read there, one set outside of it is
    dropped, no other position changes, and the size stays. *)
Theorem get_set (s : t) (i j : Z) (x : double) :
  get (set s i x) j = (if bool_decide (i = j) then if inside s i then x else f0 else get s j) /\ size (set s i x) = size s.
Proof.
  split; [|unfold size; by rewrite size_set].
  assert (inside (set s i x) j = inside s j) as Hin by (unfold inside; by rewrite size_set).
  unfold t in *. unfold get. rewrite Hin. destruct (inside s j) eqn:Hj.
  - apply andb_true_iff in Hj as [H1%Z.leb_le H2%Z.ltb_lt]. unfold set, t in *.
    destruct (bool_decide_reflect (i = j)) as [->|Hne].
    + destruct (inside s j) eqn:E; [by rewrite list_lookup_insert_eq by lia|].
      unfold inside in E. apply andb_false_iff in E as [?%Z.leb_gt|?%Z.ltb_ge]; lia.
    + destruct (inside s i) eqn:E; [|done]. apply andb_true_iff in E as [?%Z.leb_le ?%Z.ltb_lt].
      by rewrite list_lookup_insert_ne by lia.
  - destruct (bool_decide_reflect (i = j)) as [->|]; [by rewrite Hj|done].
Qed.
End Tensor.
