(* ===== verification/History.v ===== *)
(** The round history of the site over REST ([include/ingestion/rest]): the reader of a history
    page, the client that fetches it and the worker that polls it.

    [strtod] reads a number at the head of a string ([None] when it consumes nothing); [http]
    sends a request; the handler that the application installs acts on its state [A]. *)
From Stdlib Require Import Ascii.
From S2P Require Import Prelude Float64 Types Text Queues Router Readiness Telegram.

Open Scope Z_scope.

(** * [parseFetchedRound] *)

(* @src include/ingestion/rest/crash_history_client.hpp | struct FetchedRound { | FetchedRound *)
Record FetchedRound := {
  fr_gameId : string; fr_multiplier : double; fr_hash : string; fr_salt : string;
  fr_beganAtMs : Z; fr_crashedAtMs : Z }.

(* @src include/ingestion/rest/crash_history_client.hpp | bool valid() const { | FetchedRound::valid *)
Definition fr_valid (r : FetchedRound) : bool :=
  negb (str_empty (fr_gameId r)) && fge (fr_multiplier r) f1 && fle (fr_multiplier r) (of_Z 1000000)
  && (0 <? fr_crashedAtMs r).

Definition is_digit (c : ascii) : bool := let n := nat_of_ascii c in (48 <=? n)%nat && (n <=? 57)%nat.

Fixpoint all_digits (s : string) : bool :=
  match s with
  | EmptyString => true
  | String c s => is_digit c && all_digits s
  end.

Section Parse.
Variable strtod : string -> option double.

Fixpoint skip_quotes (s : string) : string :=
  match s with
  | String c s' => if bool_decide (c = " "%char) || bool_decide (c = dq) then skip_quotes s' else s
  | EmptyString => EmptyString
  end.

(* @src include/ingestion/rest/crash_history_client.hpp:35-45 parseFetchedRound *)
Definition findNum (json key : string) : option double :=
  let needle := quoted key +:+ ":" in
  match find needle json 0 with
  | None => None
  | Some pos => strtod (skip_quotes (suffix_from json (pos + String.length needle)))
  end.

(* @src include/ingestion/rest/crash_history_client.hpp:46-54 parseFetchedRound *)
Definition findStr (json key : string) : string :=
  let needle := quoted key +:+ ":" +:+ String dq EmptyString in
  match find needle json 0 with
  | None => EmptyString
  | Some pos =>
      let pos := (pos + String.length needle)%nat in
      match find (String dq EmptyString) json pos with
      | None => EmptyString
      | Some e => String.substring pos (e - pos) json
      end
  end.

(* @src include/ingestion/rest/crash_history_client.hpp:57-60 parseFetchedRound *)
Definition toMs (v : option double) : Z :=
  match v with
  | None => 0
  | Some v => if flt v (of_Z 1000000000000) then 0 else ftrunc v
  end.

(* @src include/ingestion/rest/crash_history_client.hpp | inline std::optional<FetchedRound> parseFetchedRound( | parseFetchedRound *)
Definition parseFetchedRound (gameId json : string) : option FetchedRound :=
  if str_empty gameId || negb (all_digits gameId) || str_empty json then None
  else
    match findNum json "rate" with
    | None => None
    | Some rate =>
        if flt rate f1 || fgt rate (of_Z 1000000) then None
        else
          let or_else (z : Z) (k : string) := if z =? 0 then toMs (findNum json k) else z in
          let crashed := or_else (or_else (toMs (findNum json "endTime")) "beginTime") "prepareTime" in
          if crashed =? 0 then None
          else Some {| fr_gameId := gameId; fr_multiplier := rate; fr_hash := findStr json "hash";
                       fr_salt := findStr json "salt"; fr_beganAtMs := toMs (findNum json "beginTime");
                       fr_crashedAtMs := crashed |}
    end.

(** * A page of the history *)

(** The characters of a quoted text up to its closing quote, a backslash protecting the next
    one, and the position of that quote (or of the end); [i] is the position of [s]. *)
(* @src include/ingestion/rest/crash_history_client.hpp:114-119 CrashHistoryClient::parseHistoryBody *)
Fixpoint unescape (s : string) (i : nat) : string * nat :=
  match s with
  | EmptyString => (EmptyString, i)
  | String c s' =>
      if decide (c = "\"%char) then
        match s' with
        | String d s'' => let '(t, j) := unescape s'' (S (S i)) in (String d t, j)
        | EmptyString => (String c EmptyString, S i)
        end
      else if decide (c = dq) then (EmptyString, i)
      else let '(t, j) := unescape s' (S i) in (String c t, j)
  end.

Definition cached_of (r : FetchedRound) (now : Z) : RecentRoundCache.CachedRound := {|
  RecentRoundCache.ca_gameId := fr_gameId r; RecentRoundCache.ca_multiplier := fr_multiplier r;
  RecentRoundCache.ca_endedAtMs := fr_crashedAtMs r; RecentRoundCache.ca_cachedAtMs := 0;
  RecentRoundCache.ca_hash := fr_hash r |}.

(** What one turn of the loop does: the loop ends, or goes on from a position, with the game
    and the detail it found. *)
Inductive turn := Stop | Continue (pos : nat) (found : option (string * string)).

(* @src include/ingestion/rest/crash_history_client.hpp:100-121 CrashHistoryClient::parseHistoryBody *)
Definition scan (body : string) (pos : nat) : turn :=
  let quote := String dq EmptyString in
  match find (quoted "gameId") body pos with
  | None => Stop
  | Some gidPos =>
      let colon := find ":" body gidPos in
      let q1 := find quote body (succ_pos colon) in
      let q2 := find quote body (succ_pos q1) in
      match q1, q2 with
      | Some q1, Some q2 =>
          let gameId := String.substring (q1 + 1) (q2 - q1 - 1) body in
          match find (quoted "gameDetail") body q2 with
          | None => Continue (q2 + 1) None
          | Some detailPos =>
              if (q2 + 500 <? detailPos)%nat then Continue (q2 + 1) None
              else
                let dcolon := find ":" body detailPos in
                match find quote body (succ_pos dcolon) with
                | None => Continue (q2 + 1) None
                | Some dq1 =>
                    let '(detail, i) := unescape (suffix_from body (S dq1)) (S dq1) in
                    Continue (i + 1) (Some (gameId, detail))
                end
          end
      | _, _ => Stop
      end
  end.

Notation Cache := RecentRoundCache.t.

(** A round found on the page: kept when it is valid and was not seen recently. *)
(* @src include/ingestion/rest/crash_history_client.hpp:122-128 CrashHistoryClient::parseHistoryBody *)
Definition accept (found : option (string * string)) (c : Cache) (now : Z) : list FetchedRound * Cache :=
  match found with
  | None => ([], c)
  | Some (gameId, detail) =>
      match parseFetchedRound gameId detail with
      | None => ([], c)
      | Some r =>
          if fr_valid r && negb (RecentRoundCache.contains c (fr_gameId r))
          then ([r], RecentRoundCache.put c (cached_of r now) now) else ([], c)
      end
  end.

(** [None]: the loop has not ended after [fuel] turns. *)
(* @src include/ingestion/rest/crash_history_client.hpp | Result<std::vector<FetchedRound>> parseHistoryBody( *)
Fixpoint parse_loop (fuel : nat) (body : string) (pos : nat) (c : Cache) (now : Z) : option (list FetchedRound * Cache) :=
  if (pos <? String.length body)%nat then
    match fuel with
    | O => None
    | S fuel =>
        match scan body pos with
        | Stop => Some ([], c)
        | Continue pos found =>
            let '(l, c) := accept found c now in
            '(l', c) ← parse_loop fuel body pos c now; Some (l ++ l', c)
        end
    end
  else Some ([], c).

Definition parseHistoryBody (body : string) (c : Cache) (now : Z) : option (list FetchedRound * Cache) :=
  parse_loop (String.length body) body 0 c now.
End Parse.

Lemma unescape_pos s i : (i <= (unescape s i).2)%nat.
Proof.
  revert i. enough (forall n s i, (String.length s <= n)%nat -> (i <= (unescape s i).2)%nat) as H by eauto.
  clear. induction n as [|n IH]; intros [|c s] i Hn; simpl in *; try lia.
  destruct (decide (c = "\"%char)).
  - destruct s as [|d s]; simpl in *; [lia|]. pose proof (IH s (S (S i)) ltac:(lia)). destruct (unescape s _). simpl in *. lia.
  - destruct (decide (c = dq)); simpl; [lia|]. pose proof (IH s (S i) ltac:(lia)). destruct (unescape s _). simpl in *. lia.
Qed.

Section Loop.
Variable strtod : string -> option double.
Implicit Types c : RecentRoundCache.t.

(** Each turn goes forward while a colon follows the keys. *)
Lemma scan_forward body k pos pos' found :
  String.get k body = Some ":"%char ->
  find (quoted "gameId") body k = None -> find (quoted "gameDetail") body k = None ->
  scan body pos = Continue pos' found -> (pos < pos')%nat.
Proof.
  intros Hk Hid Hdet. unfold scan.
  assert (forall needle g from, needle <> EmptyString -> find needle body k = None -> find needle body from = Some g ->
    exists j, find ":" body g = Some j /\ (from <= g <= j)%nat) as Hcolon.
  { intros needle g from Hne Hnone Hg. pose proof (index_range _ _ _ _ Hg) as [? _].
    destruct (Nat.le_gt_cases k g) as [Hkg|Hgk].
    - apply String.index_correct1 in Hg. by destruct (String.index_correct3 k g needle body Hnone Hne Hkg).
    - destruct (index_before ":" body g k) as (j & Hj & ?); [done|lia|by apply substring_get in Hk|]. exists j. split; [done|lia]. }
  destruct (find (quoted "gameId") body pos) as [g|] eqn:Eg; [|done].
  destruct (Hcolon (quoted "gameId") g pos ltac:(done) Hid Eg) as (j & -> & Hj). cbn [succ_pos].
  destruct (find (String dq "") body (S j)) as [q1|] eqn:E1; [|done].
  cbn [succ_pos]. destruct (find (String dq "") body (S q1)) as [q2|] eqn:E2; [|done].
  apply index_range in E1 as [? _]. apply index_range in E2 as [? _].
  destruct (find (quoted "gameDetail") body q2) as [d|] eqn:Ed; [|intros [= <- _]; lia].
  destruct (Nat.ltb_spec (q2 + 500) d); [intros [= <- _]; lia|].
  destruct (Hcolon (quoted "gameDetail") d q2 ltac:(done) Hdet Ed) as (j2 & -> & Hj2). cbn [succ_pos].
  destruct (find (String dq "") body (S j2)) as [q3|] eqn:E3; [|intros [= <- _]; lia].
  apply index_range in E3 as [? _]. pose proof (unescape_pos (suffix_from body (S q3)) (S q3)) as Hu.
  destruct (unescape _ _) as [detail i]. simpl in Hu. intros [= <- _]. lia.
Qed.

(** Remark: the reader of a history page ends on every body in which a colon follows the last
    ["gameId"] and ["gameDetail"] keys, after at most as many turns as the body has
    characters. *)
Theorem history_page_terminates (body : string) (k : nat) c (now : Z) :
  String.get k body = Some ":"%char ->
  find (quoted "gameId") body k = None -> find (quoted "gameDetail") body k = None ->
  is_Some (parseHistoryBody strtod body c now).
Proof.
  intros Hk Hid Hdet. unfold parseHistoryBody.
  enough (forall fuel pos c, (String.length body <= fuel + pos)%nat -> is_Some (parse_loop strtod fuel body pos c now)) as H by (apply H; lia).
  induction fuel as [|fuel IH]; intros pos c' Hf; cbn [parse_loop]; (destruct (Nat.ltb_spec pos (String.length body)); [|by eexists]).
  - lia.
  - destruct (scan body pos) as [|pos' found] eqn:Es; [by eexists|].
    pose proof (scan_forward body k pos pos' found Hk Hid Hdet Es) as Hlt.
    destruct (accept strtod found c' now) as [l c1]. destruct (IH pos' c1 ltac:(lia)) as [[l' c2] ->]. by eexists.
Qed.

(** Remark: it never returns on a body without colons in which a ["gameId"] comes after two other
    quotes: the search for the value starts over at the beginning of the body, and the next
    turn finds the same key again, for ever (the thread of the poller spins). *)
Theorem history_page_hangs (body : string) (q1 q2 g : nat) c (now : Z) (fuel : nat) :
  find ":" body 0 = None -> find (quoted "gameDetail") body 0 = None ->
  find (String dq EmptyString) body 0 = Some q1 -> find (String dq EmptyString) body (S q1) = Some q2 ->
  find (quoted "gameId") body (S q2) = Some g ->
  parse_loop strtod fuel body 0 c now = None.
Proof.
  intros Hcolon Hdet E1 E2 Eg.
  assert (forall needle n, needle <> EmptyString -> find needle body 0 = None -> find needle body n = None) as Hnone.
  { intros needle n Hne H0. destruct (find needle body n) as [m|] eqn:E; [|done].
    destruct (index_mono needle body n 0 m Hne ltac:(lia) E) as (m' & Hm & _). unfold find in *. congruence. }
  pose proof (index_range _ _ _ _ Eg) as [Hg Hlen]. change (String.length (quoted "gameId")) with 8%nat in Hlen.
  assert (forall pos, (pos <= S q2)%nat -> scan body pos = Continue (S q2) None) as Hscan.
  { intros pos Hpos. unfold scan.
    destruct (index_mono (quoted "gameId") body (S q2) pos g ltac:(done) Hpos Eg) as (g' & Hg' & _).
    unfold find at 1. rewrite Hg'. cbv zeta. rewrite (Hnone ":" g') by done. cbn [succ_pos]. rewrite E1. cbn [succ_pos]. rewrite E2.
    rewrite (Hnone (quoted "gameDetail")) by done. f_equal. lia. }
  assert (forall fuel pos c, (pos <= S q2)%nat -> parse_loop strtod fuel body pos c now = None) as H.
  { clear -Hscan Hlen Hg. induction fuel as [|fuel IH]; intros pos c Hpos; cbn [parse_loop];
      rewrite (proj2 (Nat.ltb_lt _ _)) by lia; [done|].
    rewrite Hscan by done. cbn [accept]. by rewrite IH by lia. }
  apply H. lia.
Qed.
End Loop.

Definition demo_page : string := json "{'list':[{'gameId':'77','gameDetail':'{\'rate\':2,\'endTime\':17}'}]}".

Lemma history_page_terminates_witness :
  is_Some (parseHistoryBody (fun _ => Some (of_Z 2000000000000)) demo_page (RecentRoundCache.make 4) 5).
Proof.
  apply (history_page_terminates _ demo_page 61); vm_compute; reflexivity.
Defined.

Lemma history_page_hangs_witness :
  parse_loop (fun _ => None) 1000 (json "'a' 'b' 'gameId'") 0 (RecentRoundCache.make 4) 5 = None.
Proof.
  apply (history_page_hangs _ (json "'a' 'b' 'gameId'") 0 2 8); vm_compute; reflexivity.
Defined.

(** * Freshness of a page *)
Section Fresh.
Variable strtod : string -> option double.

Lemma parsed_valid gid detail r : parseFetchedRound strtod gid detail = Some r -> fr_gameId r = gid /\ gid <> EmptyString.
Proof.
  unfold parseFetchedRound. destruct (str_empty gid) eqn:E; [done|]. apply str_empty_false in E.
  cbn [orb]. repeat case_match; intros; simplify_eq/=; done.
Qed.

(** [c] holds the last rounds of [l], with distinct ids. *)
Notation keys l := (RecentRoundCache.ca_gameId <$> l).

(** The round is new to the cache, or nothing is kept. *)
Lemma accept_spec found c now l :
  RecentRoundCache.implements c l ->
  let '(out, c') := accept strtod found c now in
  (out = [] /\ c' = c) \/
  exists r x, out = [r] /\ fr_valid r = true /\ fr_gameId r ∉ keys l /\ RecentRoundCache.ca_gameId x = fr_gameId r /\
    RecentRoundCache.implements c' (trim_front (RecentRoundCache.capacity c) (l ++ [x])) /\
    RecentRoundCache.capacity c' = RecentRoundCache.capacity c.
Proof.
  intros Hi. unfold accept. destruct found as [[gid detail]|]; [|by left].
  destruct (parseFetchedRound strtod gid detail) as [r|]; [|by left].
  destruct (fr_valid r) eqn:Ev; [|by left]. cbn [andb].
  pose proof Hi as (_ & _ & Hk & _). unfold RecentRoundCache.contains. rewrite Hk.
  destruct (bool_decide (fr_gameId r ∈ _)) eqn:Eb; [by left|]. right. cbn [negb].
  apply bool_decide_eq_false in Eb. rewrite elem_of_list_to_set in Eb.
  pose proof (RecentRoundCache.exec_spec c l (RecentRoundCache.Put (cached_of r now) now) Hi) as He.
  cbn [RecentRoundCache.exec RecentRoundCache.spec_step] in He. destruct He as (_ & He & Hc).
  eexists r, _. split_and!; [done|done|done| |by rewrite RecentRoundCache.others_absent in He by done|done]. done.
Qed.

(** Remark: a page yields only valid rounds, each of them once and none that the cache of recent
    rounds still holds from before (as long as they fit in it), and leaves them in the cache
    as its most recent entries. *)
Theorem history_page_fresh (fuel : nat) (body : string) (pos : nat) (c : RecentRoundCache.t)
    (l : list RecentRoundCache.CachedRound) (now : Z) :
  RecentRoundCache.implements c l ->
  match parse_loop strtod fuel body pos c now with
  | None => True
  | Some (out, c') =>
      Forall (fun r => fr_valid r = true) out /\
      (exists xs, keys xs = fr_gameId <$> out /\
         RecentRoundCache.implements c' (trim_front (RecentRoundCache.capacity c) (l ++ xs))) /\
      ((length out <= RecentRoundCache.capacity c)%nat ->
       NoDup (keys (trim_front (RecentRoundCache.capacity c - length out) l) ++ (fr_gameId <$> out)))
  end.
Proof.
  intros Hi.
  assert (match parse_loop strtod fuel body pos c now with
    | None => True
    | Some (out, c') => Forall (fun r => fr_valid r = true) out /\
        exists xs, keys xs = fr_gameId <$> out /\
          RecentRoundCache.implements c' (trim_front (RecentRoundCache.capacity c) (l ++ xs))
    end) as H.
  { revert pos c l Hi. induction fuel as [|fuel IH]; intros pos c l Hi; cbn [parse_loop].
    - destruct (pos <? String.length body)%nat; [done|]. split; [constructor|]. exists []. rewrite app_nil_r.
      by rewrite trim_front_fits by apply Hi.
    - assert (Forall (fun r => fr_valid r = true) [] /\ exists xs, keys xs = fr_gameId <$> ([] : list FetchedRound) /\
          RecentRoundCache.implements c (trim_front (RecentRoundCache.capacity c) (l ++ xs))) as Hstop.
      { split; [constructor|]. exists []. rewrite app_nil_r. by rewrite trim_front_fits by apply Hi. }
      destruct (pos <? String.length body)%nat; [|exact Hstop].
      destruct (scan body pos) as [|pos' found]; [exact Hstop|].
      pose proof (accept_spec found c now l Hi) as Ha. destruct (accept strtod found c now) as [out c1].
      destruct Ha as [[-> ->]|(r & x & -> & Hv & Hni & Hx & Hi1 & Hc1)].
      + specialize (IH pos' c l Hi). by destruct (parse_loop strtod fuel body pos' c now) as [[out' c2]|].
      + specialize (IH pos' c1 _ Hi1). destruct (parse_loop strtod fuel body pos' c1 now) as [[out' c2]|]; [|done]. simpl.
        destruct IH as (Hf & xs & Hxs & Hi2). split; [by constructor|]. exists (x :: xs). split; [by rewrite fmap_cons, Hx, Hxs|].
        by rewrite Hc1, trim_front_app, <-(assoc (++)) in Hi2. }
  destruct (parse_loop strtod fuel body pos c now) as [[out c']|]; [|done].
  destruct H as (Hf & xs & Hxs & Hi'). split_and!; [done|by exists xs|]. intros Hle.
  assert (length xs = length out) as Hlx.
  { pose proof (f_equal length Hxs) as E. by rewrite !length_fmap in E. }
  destruct Hi' as (_ & Hnd & _). rewrite trim_front_app_fits, fmap_app, Hxs, Hlx in Hnd by lia. done.
Qed.
End Fresh.

(** Reads a number by its first digit. *)
Definition demo_strtod (s : string) : option double :=
  if String.prefix "2" s then Some (of_Z 2) else Some (of_Z 1700000000000).

Lemma history_page_fresh_witness :
  match parse_loop demo_strtod 100 demo_page 0 (RecentRoundCache.make 4) 5 with
  | None => False
  | Some (out, c') => NoDup (fr_gameId <$> out) /\ fr_gameId <$> out = ["77"]
  end.
Proof.
  pose proof (history_page_fresh demo_strtod 100 demo_page 0 (RecentRoundCache.make 4) [] 5) as H.
  destruct (parse_loop _ _ _ _ _ _) as [[out c']|] eqn:E; [|vm_compute in E; discriminate E].
  destruct H as (_ & _ & Hnd); [split_and!; [done|constructor|done|simpl; lia]|].
  vm_compute in E. injection E as <- <-. split; [|reflexivity]. apply Hnd. simpl. lia.
Defined.

(** * [CrashHistoryClient] *)
Module CrashHistoryClient.

(* @src include/ingestion/rest/crash_history_client.hpp:132-133 CrashHistoryClient *)
Record t := { successes : Z; failures : Z }.
#[export] Instance eta_t : Eta t := fun r => {| successes := successes r; failures := failures r |}.
Definition make : t := {| successes := 0; failures := 0 |}.

(* @src include/ingestion/rest/crash_history_client.hpp:77-85 CrashHistoryClient::fetchPage *)
Definition request_for (page pageSize : Z) : TelegramClient.HttpRequest := {|
  TelegramClient.hq_method := "POST"; TelegramClient.hq_host := "bc.game";
  TelegramClient.hq_path := "/api/game/bet/multi/history"; TelegramClient.hq_port := 443; TelegramClient.hq_tls := true;
  TelegramClient.hq_headers := [("Content-Type", "application/json"); ("Origin", "https://bc.game");
                                ("User-Agent", "Mozilla/5.0 (compatible; CrashCore/1.0)")];
  TelegramClient.hq_body := json "{'gameName':'crash','page':" +:+ to_string (if page <? 1 then 1 else page)
                            +:+ json ",'pageSize':" +:+ to_string pageSize +:+ "}";
  TelegramClient.hq_timeout_ms := 2500 |}.

Section S.
Context {W : Type}.
Variable strtod : string -> option double.
Variable http : TelegramClient.HttpRequest -> W -> Result TelegramClient.HttpResponse * W.

(** [None]: the reader of the page does not return. *)
(* @src include/ingestion/rest/crash_history_client.hpp | Result<std::vector<FetchedRound>> fetchPage( *)
Definition fetchPage (s : t) (page pageSize now : Z) (c : RecentRoundCache.t) (w : W)
    : option (Result (list FetchedRound) * t * RecentRoundCache.t * W) :=
  match http (request_for page pageSize) w with
  | (Err e, w) => Some (Err (err (code e) (message e)), s <| failures ::= bump |>, c, w)
  | (Ok resp, w) =>
      if negb (TelegramClient.http_ok resp) then
        Some (Err (err NetworkError "history HTTP error"), s <| failures ::= bump |>, c, w)
      else
        '(rounds, c) ← parseHistoryBody strtod (TelegramClient.hp_body resp) c now;
        Some (Ok rounds, s <| successes ::= bump |>, c, w)
  end.
End S.
End CrashHistoryClient.

(** * [PollWorker] *)
Module PollWorker.

(* @src include/ingestion/rest/poll_worker.hpp | struct Config { *)
Record Config := {
  intervalMs : Z; minBackoffMs : Z; maxBackoffMs : Z; coldMaxPages : nat; warmMaxPages : nat; pageSize : Z }.

(* @src include/ingestion/rest/poll_worker.hpp | struct Config { *)
Definition default_config : Config := {|
  intervalMs := 5000; minBackoffMs := 1000; maxBackoffMs := 30000; coldMaxPages := 20; warmMaxPages := 2; pageSize := 50 |}.

(* @src include/ingestion/rest/poll_worker.hpp:98-105 PollWorker *)
Record t := {
  client : CrashHistoryClient.t; cfg : Config; running : bool; cold : bool;
  pages : Z; rounds : Z; errors : Z; consecutive_fails : Z }.
#[export] Instance eta_t : Eta t := fun r =>
  {| client := client r; cfg := cfg r; running := running r; cold := cold r; pages := pages r; rounds := rounds r;
     errors := errors r; consecutive_fails := consecutive_fails r |}.

(* @src include/ingestion/rest/poll_worker.hpp | PollWorker(std::shared_ptr<CrashHistoryClient> client, EventRouter* router, Config cfg) *)
Definition make (c : Config) : t := {|
  client := CrashHistoryClient.make; cfg := c; running := false; cold := true; pages := 0; rounds := 0; errors := 0;
  consecutive_fails := 0 |}.

(* @src include/ingestion/rest/poll_worker.hpp | void start() *)
Definition start (s : t) : t := if running s then s else s <| running := true |> <| cold := true |>.

(* @src include/ingestion/rest/poll_worker.hpp:40-40 PollWorker::stop *)
Definition stop (s : t) : t := s <| running := false |>.

(** The end event of a fetched round. *)
(* @src include/ingestion/rest/poll_worker.hpp:86-91 PollWorker::fetchAndIngest *)
Definition event_of (fr : FetchedRound) (now : Z) : CrashEvent :=
  default_event <| kind := KEnd |> <| gameId := fr_gameId fr |> <| roundId := fr_gameId fr |>
    <| crashPoint := fr_multiplier fr |> <| hash := fr_hash fr |> <| beganAtMs := fr_beganAtMs fr |>
    <| endedAtMs := fr_crashedAtMs fr |> <| eventTimeMs := or_now (fr_crashedAtMs fr) now |> <| valid := true |>.

(** The wait before the next turn; [j1] and [j2] are draws between 0 and 500. *)
(* @src include/ingestion/rest/poll_worker.hpp:56-62 PollWorker::loop *)
Definition sleep_ms (s : t) (j1 j2 : Z) : Z :=
  if 0 <? errors s then
    Z.min (maxBackoffMs (cfg s)) (minBackoffMs (cfg s) * Z.shiftl 1 (Z.min (consecutive_fails s) 5)) + j2
  else intervalMs (cfg s) + j1.

Section S.
Context {A W : Type}.
Variable strtod : string -> option double.
Variable http : TelegramClient.HttpRequest -> W -> Result TelegramClient.HttpResponse * W.
Variable handler : option (FetchedRound -> A -> A).
Variable router : option (CrashEvent -> A -> A).

(** One page appended to the batch. *)
(* @src include/ingestion/rest/poll_worker.hpp:70-76 PollWorker::fetchAndIngest *)
Definition pull (s : t) (page now : Z) (batch : list FetchedRound) (c : RecentRoundCache.t) (w : W)
    : option (list FetchedRound * t * RecentRoundCache.t * W) :=
  '(r, cl, c, w) ← CrashHistoryClient.fetchPage strtod http (client s) page (pageSize (cfg s)) now c w;
  let s := s <| client := cl |> <| pages ::= bump |> in
  Some (match r with
        | Err _ => (batch, s <| errors ::= bump |> <| consecutive_fails ::= bump |>, c, w)
        | Ok l => (batch ++ l, s <| consecutive_fails := 0 |>, c, w)
        end).

(** Pages [p], [p + 1], ..., [n] of them at most, until one after the first adds nothing. *)
(* @src include/ingestion/rest/poll_worker.hpp:77-82 PollWorker::fetchAndIngest *)
Fixpoint pull_pages (n : nat) (s : t) (p now : Z) (batch : list FetchedRound) (c : RecentRoundCache.t) (w : W)
    : option (list FetchedRound * t * RecentRoundCache.t * W) :=
  match n with
  | O => Some (batch, s, c, w)
  | S n =>
      if negb (running s) then Some (batch, s, c, w)
      else
        '(batch', s, c, w) ← pull s p now batch c w;
        if (length batch' =? length batch)%nat && (1 <? p) then Some (batch', s, c, w)
        else pull_pages n s (p + 1) now batch' c w
  end.

(* @src include/ingestion/rest/poll_worker.hpp:83-95 PollWorker::fetchAndIngest *)
Definition ingest (fr : FetchedRound) (now : Z) (a : A) : A :=
  let a := match handler with Some h => h fr a | None => a end in
  match router with Some route => route (event_of fr now) a | None => a end.

(* @src include/ingestion/rest/poll_worker.hpp | std::size_t fetchAndIngest( *)
Definition fetchAndIngest (s : t) (maxPages : nat) (now : Z) (c : RecentRoundCache.t) (a : A) (w : W)
    : option (nat * t * RecentRoundCache.t * A * W) :=
  '(batch, s, c, w) ← pull_pages maxPages s 1 now [] c w;
  Some (length batch, s <| rounds ::= fun n => u64 (n + Z.of_nat (length batch)) |>, c,
        fold_left (fun a fr => ingest fr now a) batch a, w).

(* @src include/ingestion/rest/poll_worker.hpp | std::size_t tickOnce() *)
Definition tickOnce (s : t) : Z -> RecentRoundCache.t -> A -> W -> option (nat * t * RecentRoundCache.t * A * W) :=
  fetchAndIngest s (if cold s then coldMaxPages (cfg s) else warmMaxPages (cfg s)).

(** One turn of the thread's loop, and the wait after it. *)
(* @src include/ingestion/rest/poll_worker.hpp:53-65 PollWorker::loop *)
Definition loop_turn (s : t) (now j1 j2 : Z) (c : RecentRoundCache.t) (a : A) (w : W)
    : option (Z * t * RecentRoundCache.t * A * W) :=
  '(n, s, c, a, w) ← tickOnce s now c a w;
  let s := if (0 <? n)%nat then s <| cold := false |> else s in
  Some (sleep_ms s j1 j2, s, c, a, w).

(** [tickOnce] of a worker that was not started fetches nothing. *)
Lemma tick_needs_start s now c a w : running s = false -> 0 <= rounds s < 2 ^ 64 -> tickOnce s now c a w = Some (0%nat, s, c, a, w).
Proof.
  intros Hr Hn. unfold tickOnce, fetchAndIngest. 
  assert (forall n, pull_pages n s 1 now [] c w = Some ([], s, c, w)) as Hp by (intros [|n]; cbn [pull_pages]; by rewrite ?Hr).
  rewrite Hp. simpl. destruct s; unfold set_field; simpl in *. by rewrite Z.add_0_r, u64_small by done.
Qed.

End S.

(** Remark: the wait between two polls is between the least back-off (or the interval) and the
    greatest plus the jitter, and doubles with each failure in a row up to five; but once any
    error has happened it is a back-off for ever: after a later success the worker polls every
    [minBackoffMs], more often than the [intervalMs] of a worker without errors. *)
Theorem poll_wait_spec (s : t) (j1 j2 : Z) :
  0 < minBackoffMs (cfg s) <= maxBackoffMs (cfg s) -> 0 <= consecutive_fails s -> 0 <= j1 <= 500 -> 0 <= j2 <= 500 ->
  (errors s = 0 -> sleep_ms s j1 j2 = intervalMs (cfg s) + j1) /\
  (0 < errors s ->
     minBackoffMs (cfg s) <= sleep_ms s j1 j2 <= maxBackoffMs (cfg s) + 500 /\
     (consecutive_fails s = 0 -> sleep_ms s j1 j2 = minBackoffMs (cfg s) + j2) /\
     (consecutive_fails s < 5 -> forall s', cfg s' = cfg s -> errors s' = bump (errors s) -> 0 < errors s' ->
        consecutive_fails s' = consecutive_fails s + 1 ->
        sleep_ms s' j1 0 = Z.min (maxBackoffMs (cfg s)) (2 * sleep_ms s j1 0))).
Proof.
  intros Hm Hf H1 H2. unfold sleep_ms. rewrite !Z.shiftl_1_l. split.
  { intros ->. done. }
  intros He. rewrite (proj2 (Z.ltb_lt _ _)) by done.
  assert (forall k, 0 <= k -> 1 <= 2 ^ k) as Hp by (intros; assert (0 < 2 ^ k) by (apply Z.pow_pos_nonneg; lia); lia).
  pose proof (Hp (Z.min (consecutive_fails s) 5) ltac:(lia)) as H2p.
  split_and!; [nia|nia| |].
  - intros ->. change (2 ^ Z.min 0 5) with 1. rewrite Z.mul_1_r. lia.
  - intros Hlt s' Hc _ He' Hf'. rewrite (proj2 (Z.ltb_lt _ (errors s'))) by done. rewrite Hc, Hf', Z.shiftl_1_l, !Z.add_0_r.
    rewrite !(Z.min_l _ 5) by lia. rewrite Z.pow_add_r by lia. change (2 ^ 1) with 2.
    set (q := 2 ^ consecutive_fails s) in *. assert (1 <= q) by (subst q; apply Hp; lia). nia.
Qed.
End PollWorker.

#[local] Existing Instance PollWorker.eta_t.

(** After one error and a success the default worker polls every second instead of every five. *)
Lemma poll_wait_spec_witness :
  let s := (PollWorker.make PollWorker.default_config) <| PollWorker.errors := 1 |> in
  PollWorker.sleep_ms s 0 0 = 1000 /\ PollWorker.sleep_ms (PollWorker.make PollWorker.default_config) 0 0 = 5000.
Proof.
  intros s. split.
  - refine (proj1 (proj2 (proj2 (PollWorker.poll_wait_spec s 0 0 _ _ _ _) _)) _); vm_compute; (split || idtac); (reflexivity || discriminate).
  - refine (proj1 (PollWorker.poll_wait_spec (PollWorker.make PollWorker.default_config) 0 0 _ _ _ _) _); vm_compute; (split || idtac); (reflexivity || discriminate).
Defined.
