(* ===== verification/Feed.v ===== *)
(** The smaller sources of events of [include/ingestion]: the feed that decodes and routes frames
    ([crash_feed.hpp]), the recovery of missed rounds from the history ([poll_recovery.hpp]),
    recorded frames ([tools/replay_source.hpp]) and the log of the socket
    ([socket_diagnostics.hpp]). *)
From Stdlib Require Import Ascii.
From S2P Require Import Prelude Float64 Types Queues Timing Wire Decoder Windows Router Readiness Telegram History Signing NativeSocket.

Open Scope Z_scope.

(** * [CrashFeed] *)
Module CrashFeed.

(* @src include/ingestion/crash_feed.hpp | enum class FeedState : *)
Inductive FeedState := FStopped | FConnecting | FConnected | FDegraded | FReconnecting.
#[export] Instance FeedState_eq_dec : EqDecision FeedState.
Proof. solve_decision. Defined.

Section S.
Context {Q : Type} `{!BoundedFifo Q CrashEvent} {A : Type}.
Variable exp : double -> double.
Variable on_event : option (CrashEvent -> A -> A).

(** The decoder and the router are shared with the owner of the feed. *)
(* @src include/ingestion/crash_feed.hpp | EventDecoder& decoder_; >> frames_{0} | CrashFeed *)
Record t := {
  decoder : EventDecoder.t; router : EventRouter.t Q; state : FeedState; last_event_ms : Z; frames : Z;
  decode_errors : Z; starts : Z; reconnects : Z; app : A }.
#[export] Instance eta_t : Eta t := fun r =>
  {| decoder := decoder r; router := router r; state := state r; last_event_ms := last_event_ms r; frames := frames r;
     decode_errors := decode_errors r; starts := starts r; reconnects := reconnects r; app := app r |}.

(* @src include/ingestion/crash_feed.hpp | CrashFeed(EventDecoder& decoder, EventRouter& router, *)
Definition make (d : EventDecoder.t) (r : EventRouter.t Q) (a : A) : t := {|
  decoder := d; router := r; state := FStopped; last_event_ms := 0; frames := 0; decode_errors := 0; starts := 0;
  reconnects := 0; app := a |}.

(** [ready] and [sig]: what the signer answers, when there is one. *)
(* @src include/ingestion/crash_feed.hpp | Result<void> start() { *)
Definition start (signer : option (bool * SocketSignature)) (f : t) : Result unit * t :=
  let f := f <| state := FConnecting |> in
  let go := (Ok tt, f <| state := FConnected |> <| starts ::= bump |>) in
  match signer with
  | Some (ready, sig) =>
      if negb ready && negb (sg_valid sig)
      then (Err (err SignatureError "sign not ready"), f <| state := FDegraded |>) else go
  | None => go
  end.

(* @src include/ingestion/crash_feed.hpp | void stop() { *)
Definition stop (f : t) : t := f <| state := FStopped |>.

Record times := { t_decode : EventDecoder.readings; t_now : Z; t_route0 : Z; t_route1 : Z }.

(* @src include/ingestion/crash_feed.hpp | Result<CrashEvent> onFrame( *)
Definition onFrame (data : list Z) (tm : times) (f : t) : option (Result CrashEvent * t) :=
  let f := f <| frames ::= bump |> in
  '(r, d) ← EventDecoder.decodeBinary exp (decoder f) data NativeSocket (t_decode tm);
  let f := f <| decoder := d |> in
  match r with
  | Err e => Some (Err e, f <| decode_errors ::= bump |>)
  | Ok ev =>
      let f := f <| last_event_ms := t_now tm |>
                 <| router := (EventRouter.route (router f) ev (t_route0 tm) (t_route1 tm)).2 |> in
      Some (Ok ev, match on_event with Some h => f <| app ::= h ev |> | None => f end)
  end.
End S.
Arguments t : clear implicits.
End CrashFeed.
#[export] Existing Instance CrashFeed.eta_t.

(** * [PollRecovery] *)
Module PollRecovery.
Section S.
Context {Q : Type} `{!BoundedFifo Q CrashEvent} {W : Type}.
Variable strtod : string -> option double.
Variable http : TelegramClient.HttpRequest -> W -> Result TelegramClient.HttpResponse * W.

(* @src include/ingestion/poll_recovery.hpp | std::shared_ptr<CrashHistoryClient> client_; >> fetched_{0} | PollRecovery *)
Record t := {
  client : CrashHistoryClient.t; router : option (EventRouter.t Q); cache : RecentRoundCache.t; fetched : Z; ticks : Z;
  injected : Z; errors : Z }.
#[export] Instance eta_t : Eta t := fun r =>
  {| client := client r; router := router r; cache := cache r; fetched := fetched r; ticks := ticks r;
     injected := injected r; errors := errors r |}.

Definition route_round (now t0 t1 : Z) (s : t) (fr : FetchedRound) : t :=
  s <| router ::= fmap (fun r => (EventRouter.route r (PollWorker.event_of fr now) t0 t1).2) |> <| injected ::= bump |>.

(** The pages that are left; [n] counts the rounds seen so far. *)
Fixpoint pages (l : list Z) (now t0 t1 : Z) (n : Z) (s : t) (w : W) : option (Result unit * t * W) :=
  match l with
  | [] => Some (Ok tt, s <| fetched ::= fun f => u64 (f + n) |>, w)
  | page :: l =>
      '(r, c, ca, w) ← CrashHistoryClient.fetchPage strtod http (client s) page 50 now (cache s) w;
      let s := s <| client := c |> <| cache := ca |> in
      match r with
      | Err e => Some (Err (err (code e) (message e)), s <| errors ::= bump |>, w)
      | Ok rounds => pages l now t0 t1 (n + Z.of_nat (length rounds)) (fold_left (route_round now t0 t1) rounds s) w
      end
  end.

(* @src include/ingestion/poll_recovery.hpp | Result<void> tick() { *)
Definition tick (now t0 t1 : Z) (s : t) (w : W) : option (Result unit * t * W) :=
  pages [1; 2] now t0 t1 0 (s <| ticks ::= bump |>) w.

(* @src include/ingestion/poll_recovery.hpp | void injectHistory( *)
Definition injectHistory (ev : CrashEvent) (t0 t1 : Z) (s : t) : t :=
  s <| router ::= fmap (fun r => (EventRouter.route r ev t0 t1).2) |> <| injected ::= bump |>.
End S.
End PollRecovery.
#[export] Existing Instance PollRecovery.eta_t.

(** * Recorded frames ([ReplaySource]) *)
Module ReplaySource.

(* @src include/tools/replay_source.hpp | struct RecordedFrame { *)
Record RecordedFrame := { timestampMs : Z; data : list Z }.

(* @src include/tools/replay_source.hpp:76-77 ReplaySource *)
Record t := { frames : list RecordedFrame; cursor : nat }.
#[export] Instance eta_t : Eta t := fun r => {| frames := frames r; cursor := cursor r |}.

(** An integer as [n] bytes, the least first, as the program's machines store it. *)
Fixpoint le_bytes (n : nat) (z : Z) : list Z :=
  match n with O => [] | S n => z mod 256 :: le_bytes n (z / 256) end.
Fixpoint le_value (l : list Z) : Z := match l with [] => 0 | b :: l => b + 256 * le_value l end.

(* @src include/tools/replay_source.hpp | static void writeFrame( *)
Definition writeFrame (f : RecordedFrame) : list Z :=
  le_bytes 8 (u64 (timestampMs f)) ++ le_bytes 4 (wrapu 32 (Z.of_nat (length (data f)))) ++ data f.

(** [in.read(p, n)]: the bytes, or a failed stream. *)
Definition read (n : nat) (s : list Z) : option (list Z * list Z) :=
  if (length s <? n)%nat then None else Some (take n s, drop n s).

(** The loop of [load]: each turn takes at least twelve bytes, so the length of the file is fuel. *)
(* @src include/tools/replay_source.hpp:33-45 ReplaySource::load *)
Fixpoint load_frames (fuel : nat) (s : list Z) : list RecordedFrame :=
  match fuel with
  | O => []
  | S fuel =>
      match read 8 s with
      | None => []
      | Some (ts, s) =>
          match read 4 s with
          | None => []
          | Some (len, s) =>
              let len := le_value len in
              if 16 * 1024 * 1024 <? len then []
              else
                match read (Z.to_nat len) s with
                | None => []
                | Some (d, s) => {| timestampMs := i64 (le_value ts); data := d |} :: load_frames fuel s
                end
          end
      end
  end.

(** [file]: the contents of the file, if it opens. *)
(* @src include/tools/replay_source.hpp | bool load() { *)
Definition load (file : option (list Z)) (s : t) : bool * t :=
  match file with
  | None => (false, s)
  | Some bytes =>
      let fs := load_frames (length bytes) bytes in
      (match fs with [] => false | _ => true end, {| frames := fs; cursor := 0 |})
  end.

(* @src include/tools/replay_source.hpp | void loadSynthetic( *)
Definition loadSynthetic (fs : list RecordedFrame) : t := {| frames := fs; cursor := 0 |}.

(* @src include/tools/replay_source.hpp | std::optional<RecordedFrame> next() { *)
Definition next (s : t) : option RecordedFrame * t :=
  match frames s !! cursor s with
  | Some f => (Some f, s <| cursor ::= S |>)
  | None => (None, s)
  end.

(* @src include/tools/replay_source.hpp | void reset() *)
Definition reset (s : t) : t := s <| cursor := 0%nat |>.
(* @src include/tools/replay_source.hpp | std::size_t remaining() const *)
Definition remaining (s : t) : nat := (length (frames s) - cursor s)%nat.

Definition frame_ok (f : RecordedFrame) : Prop :=
  - 2 ^ 63 <= timestampMs f < 2 ^ 63 /\ Z.of_nat (length (data f)) <= 16 * 1024 * 1024.

Lemma length_le_bytes n z : length (le_bytes n z) = n.
Proof. revert z. induction n; intros z; simpl; [done|]. by f_equal. Qed.

Lemma le_value_bytes n z : 0 <= z < 2 ^ (8 * Z.of_nat n) -> le_value (le_bytes n z) = z.
Proof.
  revert z. induction n as [|n IH]; intros z Hz; [simpl in *; lia|].
  cbn [le_bytes le_value]. rewrite IH; [symmetry; rewrite Z.add_comm; apply Z.div_mod; lia|].
  replace (8 * Z.of_nat (S n)) with (8 + 8 * Z.of_nat n) in Hz by lia. rewrite Z.pow_add_r in Hz by lia.
  change (2 ^ 8) with 256 in Hz. split; [apply Z.div_pos; lia|]. apply Z.div_lt_upper_bound; lia.
Qed.

Lemma read_app n a s : length a = n -> read n (a ++ s) = Some (a, s).
Proof.
  intros <-. unfold read. rewrite length_app. destruct (Nat.ltb_spec (length a + length s) (length a)); [lia|].
  by rewrite take_app_length, drop_app_length.
Qed.

Lemma load_frames_app fuel f s : frame_ok f ->
  load_frames (S fuel) (writeFrame f ++ s) = f :: load_frames fuel s.
Proof.
  intros [Ht Hl]. unfold writeFrame. rewrite <-!app_assoc. cbn [load_frames].
  rewrite read_app by apply length_le_bytes. rewrite read_app by apply length_le_bytes.
  rewrite !le_value_bytes.
  - unfold wrapu. rewrite Z.mod_small by lia. destruct (Z.ltb_spec (16 * 1024 * 1024) (Z.of_nat (length (data f)))); [lia|].
    rewrite Nat2Z.id, read_app by done. f_equal. destruct f as [ts d]. cbn [timestampMs data] in *. f_equal.
    unfold i64, u64, wrapu. rewrite Z.add_mod_idemp_l, Z.mod_small by lia. lia.
  - apply Z.mod_pos_bound. lia.
  - apply Z.mod_pos_bound. lia.
Qed.

Lemma read_short n s : (length s < n)%nat -> read n s = None.
Proof. intros. unfold read. by rewrite (proj2 (Nat.ltb_lt _ _)). Qed.

(** A frame that was cut off is not read. *)
Lemma load_frames_cut fuel f cut : frame_ok f -> (cut < length (writeFrame f))%nat ->
  load_frames (S fuel) (take cut (writeFrame f)) = [].
Proof.
  intros [Ht Hl] Hcut. unfold writeFrame in *. set (ts := le_bytes 8 _) in *. set (len := le_bytes 4 _) in *.
  assert (length ts = 8%nat) as Hts by apply length_le_bytes. assert (length len = 4%nat) as Hlen by apply length_le_bytes.
  rewrite !length_app in Hcut. cbn [load_frames]. destruct (decide (cut < 8)%nat) as [|H8].
  { rewrite read_short by (rewrite length_take, !length_app; lia). done. }
  rewrite take_app_ge by lia. rewrite read_app by done. destruct (decide (cut < 12)%nat) as [|H12].
  { rewrite read_short by (rewrite length_take, !length_app; lia). done. }
  rewrite take_app_ge by lia. rewrite read_app by done.
  assert (le_value len = Z.of_nat (length (data f))) as ->.
  { unfold len. rewrite le_value_bytes by (apply Z.mod_pos_bound; lia). unfold wrapu. rewrite Z.mod_small by lia. done. }
  destruct (_ <? _); [done|]. rewrite Nat2Z.id, read_short by (rewrite length_take; lia). done.
Qed.

(** Remark: a recording reads back as it was written: the frames that [writeFrame] appended one after
    the other, in order, and nothing of a last frame that was cut off. *)
Theorem recording_roundtrip (fs : list RecordedFrame) (f : RecordedFrame) (cut : nat) (s : t) :
  Forall frame_ok fs -> frame_ok f -> (cut < length (writeFrame f))%nat ->
  (load (Some (concat (writeFrame <$> fs) ++ take cut (writeFrame f))) s).2 = {| frames := fs; cursor := 0 |}.
Proof.
  intros Hfs Hf Hcut. unfold load. cbn [snd]. f_equal. rewrite length_app.
  enough (forall fuel, (length fs < S fuel)%nat -> load_frames (S fuel) (concat (writeFrame <$> fs) ++ take cut (writeFrame f)) = fs) as He.
  { assert (12 * length fs <= length (concat (writeFrame <$> fs)))%nat as Hlen.
    { clear. induction fs as [|g fs IH]; [simpl; lia|].
      rewrite fmap_cons. cbn [concat length]. rewrite length_app. unfold writeFrame at 1. rewrite !length_app, !length_le_bytes. lia. }
    destruct (length (concat (writeFrame <$> fs)) + length (take cut (writeFrame f)))%nat as [|n] eqn:En.
    - destruct fs; [done|]. cbn [length] in Hlen. lia.
    - apply He. lia. }
  induction Hfs as [|g fs Hg Hfs IH]; intros fuel Hn.
  - cbn [fmap list_fmap concat app]. by apply load_frames_cut.
  - cbn [fmap list_fmap concat]. rewrite <-app_assoc, load_frames_app by done. f_equal.
    destruct fuel as [|fuel]; [simpl in Hn; lia|]. apply IH. simpl in Hn. lia.
Qed.
End ReplaySource.
#[export] Existing Instance ReplaySource.eta_t.

Lemma recording_roundtrip_witness :
  (ReplaySource.load (Some (concat (ReplaySource.writeFrame <$>
     [{| ReplaySource.timestampMs := 1700000000000; ReplaySource.data := [4; 2; 0] |}; {| ReplaySource.timestampMs := -1; ReplaySource.data := [] |}])
     ++ take 13 (ReplaySource.writeFrame {| ReplaySource.timestampMs := 5; ReplaySource.data := [1; 2] |})))
     (ReplaySource.loadSynthetic [])).2 =
  {| ReplaySource.frames := [{| ReplaySource.timestampMs := 1700000000000; ReplaySource.data := [4; 2; 0] |};
       {| ReplaySource.timestampMs := -1; ReplaySource.data := [] |}]; ReplaySource.cursor := 0 |}.
Proof.
  apply (ReplaySource.recording_roundtrip _ {| ReplaySource.timestampMs := 5; ReplaySource.data := [1; 2] |} 13).
  - repeat constructor; unfold ReplaySource.frame_ok; simpl; lia.
  - unfold ReplaySource.frame_ok. simpl. lia.
  - simpl. lia.
Defined.

(** * [SocketDiagnostics] *)
Module SocketDiagnostics.

(* @src include/ingestion/socket_diagnostics.hpp | struct DiagnosticEvent { *)
Record DiagnosticEvent := { atMs : Z; dg_kind : string; detail : string; dg_framesRx : Z; dg_reconnects : Z }.

(* @src include/ingestion/socket_diagnostics.hpp | std::size_t max_; >> std::string last_error_; | SocketDiagnostics *)
Record t := {
  max : nat; events : list DiagnosticEvent; frames : Z; bytes_rx : Z; errors : Z; notes : Z; last_error : string }.
#[export] Instance eta_t : Eta t := fun r =>
  {| max := max r; events := events r; frames := frames r; bytes_rx := bytes_rx r; errors := errors r; notes := notes r;
     last_error := last_error r |}.

(* @src include/ingestion/socket_diagnostics.hpp | explicit SocketDiagnostics( *)
Definition make (maxEvents : nat) : t :=
  {| max := maxEvents; events := []; frames := 0; bytes_rx := 0; errors := 0; notes := 0; last_error := EmptyString |}.

(* @src include/ingestion/socket_diagnostics.hpp:28-40 SocketDiagnostics::note *)
Definition note (kind detail : string) (framesRx reconnects now : Z) (s : t) : t :=
  s <| events ::= fun l => push_window (max s) l
        {| atMs := now; dg_kind := kind; detail := detail; dg_framesRx := framesRx; dg_reconnects := reconnects |} |>
    <| notes ::= bump |>.

(* @src include/ingestion/native_bc_socket.hpp | inline const char* toString(NativeSocketStatus *)
Definition status_name (s : NativeBcGameSocket.Status) : string :=
  match s with
  | NativeBcGameSocket.Stopped => "stopped" | NativeBcGameSocket.Connecting => "connecting"
  | NativeBcGameSocket.SocketOpen => "socket_open" | NativeBcGameSocket.Connected => "connected"
  | NativeBcGameSocket.Degraded => "degraded" | NativeBcGameSocket.Reconnecting => "reconnecting"
  | NativeBcGameSocket.WafBlocked => "waf_blocked"
  end.

(* @src include/ingestion/socket_diagnostics.hpp | void noteStatus( *)
Definition noteStatus (st : NativeBcGameSocket.Status) (detail : string) (now : Z) (s : t) : t :=
  note (status_name st) detail 0 0 now s.
(* @src include/ingestion/socket_diagnostics.hpp | void noteFrame( *)
Definition noteFrame (bytes : Z) (s : t) : t := s <| bytes_rx ::= fun b => u64 (b + bytes) |> <| frames ::= bump |>.
(* @src include/ingestion/socket_diagnostics.hpp | void noteError( *)
Definition noteError (e : string) (now : Z) (s : t) : t :=
  note "error" e 0 0 now (s <| last_error := e |>) <| errors ::= bump |>.
(* @src include/ingestion/socket_diagnostics.hpp | std::vector<DiagnosticEvent> recent( *)
Definition recent (n : nat) (s : t) : list DiagnosticEvent := trim_front n (events s).
(* @src include/ingestion/socket_diagnostics.hpp | std::string summary() const { *)
Definition summary (s : t) : string :=
  "frames=" +:+ to_string (frames s) +:+ " bytes=" +:+ to_string (bytes_rx s) +:+ " errors=" +:+ to_string (errors s)
  +:+ " notes=" +:+ to_string (notes s) +:+ " last_error=" +:+ last_error s.
End SocketDiagnostics.
#[export] Existing Instance SocketDiagnostics.eta_t.
