(* ===== verification/Scenarios.v ===== *)
(** Synthetic rounds ([include/ingestion/socketio/protocol_edge_cases.hpp], [scenarios.hpp],
    [test_fixtures.hpp]): frame classes, the frames of a round, the protocol's self check, and what
    the decoder and the router make of a scenario.  The tables of the scenarios and fixtures are
    in [ScenarioTables]. *)
From stdpp Require Import numbers.
From S2P Require Import Prelude Float64 Types Queues Timing Wire Decoder Windows Router NativeSocket Feed.

Open Scope Z_scope.

(** * Frame classes *)

(* @src include/ingestion/socketio/protocol_edge_cases.hpp | enum class FrameClass : *)
Inductive FrameClass :=
| FcEmpty | FcEnginePing | FcEnginePong | FcEngineOpen | FcEngineClose | FcEngineMessageText | FcBinaryPacket
| FcMalformed | FcTruncated | FcUnknown.
#[export] Instance FrameClass_eq_dec : EqDecision FrameClass.
Proof. solve_decision. Defined.

(** [None] would be a read outside the frame; it does not happen ([parsePacket_total]). *)
(* @src include/ingestion/socketio/protocol_edge_cases.hpp | inline FrameClass classifyFrame( *)
Definition classifyFrame (data : list Z) : option FrameClass :=
  match data with
  | [] => Some FcEmpty
  | b0 :: rest =>
      if engineio.isPing data then Some FcEnginePing
      else if engineio.isPong data then Some FcEnginePong
      else if engineio.isOpenFrame data then Some FcEngineOpen
      else if engineio.isClose data then Some FcEngineClose
      else if engineio.isMessage data then Some FcEngineMessageText
      else if b0 =? 4 then
        match rest with
        | [] => Some FcTruncated
        | _ =>
            p ← parsePacket data;
            Some (if bool_decide (pk_kind p = PkUnknown) && str_empty (pk_event p) && str_empty (pk_nsp p)
                  then FcMalformed else FcBinaryPacket)
        end
      else Some FcUnknown
  end.

(* @src include/ingestion/socketio/protocol_edge_cases.hpp | inline bool isTrackedCrashEvent( *)
Definition isTrackedCrashEvent (event : string) : bool :=
  bool_decide (event ∈ ["pr"; "pg"; "bg"; "ed"; "st"; "prepare"; "begin"; "end"; "crash"; "bust"; "start"; "ready"]).

(* @src include/ingestion/socketio/protocol_edge_cases.hpp | inline bool validateNsp( *)
Definition validateNsp (nsp : string) : bool :=
  let bs := bytes_of_string nsp in
  match bs with
  | [] => false
  | b :: _ => (length bs <=? 64)%nat && (b =? 47) && forallb (fun c => (32 <=? c) && (c <=? 126)) bs
  end.

(** [buf]: the frame, unless the pointer is null. *)
(* @src include/ingestion/socketio/protocol_edge_cases.hpp | inline std::optional<std::int64_t> safeDecodeProgress( *)
Definition safeDecodeProgress (buf : option (list Z)) : option (option Z) :=
  match buf with
  | None => Some None
  | Some l => if (length l =? 0)%nat || (64 <? length l)%nat then Some None else decodeProgressElapsed l
  end.

(* @src include/ingestion/socketio/protocol_edge_cases.hpp | inline bool varintRoundtripOk( *)
Definition varintRoundtripOk (value : Z) : bool :=
  let buf := writeVarint value in
  match readVarint buf 0 with
  | Some (ok, off, out) => ok && (out =? value) && (off =? length buf)%nat
  | None => false
  end.

(** * The frames of a round *)
Section Log.
Variable log : double -> double.
(** [std::to_string] of a double. *)
Variable fixed6 : double -> string.

(** The elapsed times of the ticks: equal steps up to the time at which the multiplier is
    reached. *)
(* @src include/ingestion/socketio/protocol_edge_cases.hpp:77-81 syntheticRoundFrames *)
Definition tick_times (finalMult : double) (ticks : Z) : list Z :=
  (fun i => Z.quot (i64 (elapsedFromMultiplier log finalMult * i)) ticks) <$> seqZ 1 ticks.

(* @src include/ingestion/socketio/protocol_edge_cases.hpp | syntheticRoundFrames( *)
Definition syntheticRoundFrames (gameId : Z) (finalMult : double) (progressTicks : Z) : list (list Z) :=
  encodeEvent "/g/cm" "st" (encodeEndPayload gameId f1 EmptyString)
  :: ((fun e => encodeEvent "/g/cm" "pg" (encodeProgressPayload e)) <$> tick_times finalMult progressTicks)
  ++ [encodeEvent "/g/cm" "ed" (encodeEndPayload gameId finalMult "synth")].

(* @src include/ingestion/socketio/protocol_edge_cases.hpp | inline int runProtocolSelfCheck( *)
Definition runProtocolSelfCheck : option Z :=
  let fail (b : bool) : Z := if b then 0 else 1 in
  let frames := syntheticRoundFrames 1 (flit 25 10) 5 in
  classes ← mapM classifyFrame frames;
  ping ← classifyFrame [50];
  Some (fail (varintRoundtripOk 0) + fail (varintRoundtripOk 127) + fail (varintRoundtripOk 128) + fail (varintRoundtripOk 300)
        + fail (varintRoundtripOk 1000000) + fail (length frames =? 7)%nat
        + foldr (fun c n => fail (bool_decide (c = FcBinaryPacket)) + n) 0 classes
        + fail (bool_decide (ping = FcEnginePing))).

(** ** Fixtures *)

(* @src include/ingestion/test_fixtures.hpp | struct RoundSpec { *)
Record RoundSpec := { rs_gameId : Z; rs_finalMult : double; rs_progressTicks : Z; rs_hash : string }.

(* @src include/ingestion/test_fixtures.hpp | makeRound(const RoundSpec& s) *)
Definition makeRound (s : RoundSpec) : list (list Z) := syntheticRoundFrames (rs_gameId s) (rs_finalMult s) (rs_progressTicks s).

(* @src include/ingestion/test_fixtures.hpp | makeManyRounds( *)
Definition makeManyRounds (n : Z) (baseMult : double) : list (list Z) :=
  seqZ 0 n ≫= fun i => makeRound {|
    rs_gameId := 1000 + i; rs_finalMult := fadd baseMult (fmul (of_Z (i mod 20)) (flit 15 100));
    rs_progressTicks := 5 + i mod 5; rs_hash := "fixture" |}.

(** ** Scenarios *)

(* @src include/ingestion/scenarios.hpp | struct ScenarioStep { *)
Record ScenarioStep := { st_name : string; st_frame : list Z; st_expectedKind : EventKind }.
(* @src include/ingestion/scenarios.hpp | struct Scenario { *)
Record Scenario := { sc_id : string; sc_description : string; sc_steps : list ScenarioStep; sc_expectedFinalMult : double }.

(* @src include/ingestion/scenarios.hpp | inline ScenarioStep stepProgress( *)
Definition stepProgress (elapsedMs : Z) : ScenarioStep := {|
  st_name := "pg_" +:+ to_string elapsedMs; st_frame := encodeEvent "/g/cm" "pg" (encodeProgressPayload elapsedMs);
  st_expectedKind := KProgress |}.

(* @src include/ingestion/scenarios.hpp | inline ScenarioStep stepStart( *)
Definition stepStart (gameId : Z) : ScenarioStep := {|
  st_name := "st_" +:+ to_string gameId; st_frame := encodeEvent "/g/cm" "st" (encodeEndPayload gameId f1 EmptyString);
  st_expectedKind := KStart |}.

(* @src include/ingestion/scenarios.hpp | inline ScenarioStep stepEnd( *)
Definition stepEnd (gameId : Z) (mult : double) (hash : string) : ScenarioStep := {|
  st_name := "ed_" +:+ to_string gameId; st_frame := encodeEvent "/g/cm" "ed" (encodeEndPayload gameId mult hash);
  st_expectedKind := KEnd |}.

(* @src include/ingestion/scenarios.hpp | inline Scenario makeRoundScenario( *)
Definition makeRoundScenario (gameId : Z) (finalMult : double) (ticks : Z) : Scenario := {|
  sc_id := "round_" +:+ to_string gameId; sc_description := "full round to " +:+ fixed6 finalMult;
  sc_steps := stepStart gameId :: (stepProgress <$> tick_times finalMult ticks) ++ [stepEnd gameId finalMult "s"];
  sc_expectedFinalMult := finalMult |}.
End Log.

(** * Properties *)

(** Remark: the stress test of the varints tells exactly which numbers the codec carries: those below
    2^56 pass, every larger 64-bit number fails. *)
Theorem varint_selfcheck_exact (v : Z) : 0 <= v < 2 ^ 64 -> varintRoundtripOk v = bool_decide (v < 2 ^ 56).
Proof.
  intros Hv. unfold varintRoundtripOk. destruct (decide (v < 2 ^ 56)) as [Hlt|Hge].
  - rewrite (bool_decide_true _ Hlt). pose proof (varint_roundtrip v [] [] ltac:(lia)) as H. rewrite app_nil_r in H. simpl in H. rewrite H.
    rewrite Z.eqb_refl. by rewrite Nat.eqb_refl.
  - rewrite (bool_decide_false _ Hge). pose proof (varint_long_rejected v [] [] ltac:(lia)) as H. rewrite app_nil_r in H. simpl in H.
    by destruct H as (off & out & ->).
Qed.

(** The frames that the event encoder makes are classified as binary packets. *)
Lemma classify_event_frame nsp name payload : short nsp -> short name -> name <> EmptyString ->
  classifyFrame (encodeEvent nsp name payload) = Some FcBinaryPacket.
Proof.
  intros Hn Hs Hne. destruct (packet_parsed nsp name payload Hn Hs) as [Hp _].
  unfold classifyFrame. rewrite Hp. unfold encodeEvent. simpl. done.
Qed.

Lemma read_progress e : 0 <= e < 2 ^ 56 -> decodeProgressElapsed (encodeProgressPayload e) = Some (Some e).
Proof.
  intros He. unfold encodeProgressPayload. rewrite u64_small by lia.
  assert (encodeProtobuf [(1, FNum e)] = [8] ++ writeVarint e) as ->.
  { unfold encodeProtobuf. simpl. by rewrite app_nil_r. }
  pose proof (varint_roundtrip e [8] [] He) as H. rewrite app_nil_r in H. unfold decodeProgressElapsed. cbn [app Z.eqb].
  change (8 :: writeVarint e) with ([8] ++ writeVarint e). change 1%nat with (length [8]). rewrite H.
  rewrite i64_small by lia. done.
Qed.

Section Round.
Variable exp log : double -> double.
Variable fixed6 : double -> string.

(** What a tick decodes to. *)
Definition progress_event (e : Z) (r : EventDecoder.readings) : CrashEvent :=
  default_event <| source := NativeSocket |> <| receivedAtNs := EventDecoder.r_t0 r |> <| rawEventName := "pg" |>
    <| kind := KProgress |> <| elapsedMs := e |> <| currentMult := multiplierFromElapsed exp e |> <| valid := true |>
    <| decodedAtNs := EventDecoder.r_t1 r |> <| eventTimeMs := EventDecoder.r_now r |>.

Lemma decode_progress d e r : 0 <= e < 2 ^ 56 ->
  EventDecoder.decodeBinary exp d (encodeEvent "/g/cm" "pg" (encodeProgressPayload e)) NativeSocket r =
    Some (Ok (progress_event e r), EventDecoder.count_decoded d r).
Proof.
  intros He. rewrite EventDecoder.decode_event_frame by (unfold short; simpl; lia).
  unfold EventDecoder.decodeEventPacket. rewrite decide_False by done.
  unfold EventDecoder.apply_payload. change (pk_payload (EventDecoder.event_packet "/g/cm" "pg" (encodeProgressPayload e)))
    with (encodeProgressPayload e).
  assert (exists b l, encodeProgressPayload e = b :: l) as (b & l & E).
  { unfold encodeProgressPayload, encodeProtobuf. simpl. by do 2 eexists. }
  rewrite decide_True by done. rewrite read_progress by done. rewrite E. done.
Qed.

(** ** A feed on the frames of a scenario *)
Context {Q : Type} `{!BoundedFifo Q CrashEvent}.
Notation feed := (CrashFeed.t Q unit).

Fixpoint feed_all (frames : list (list Z)) (tm : nat -> CrashFeed.times) (f : feed) : option (list (Result CrashEvent) * feed) :=
  match frames with
  | [] => Some ([], f)
  | x :: frames =>
      '(r, f) ← CrashFeed.onFrame exp None x (tm 0%nat) f;
      '(rs, f) ← feed_all frames (fun n => tm (S n)) f;
      Some (r :: rs, f)
  end.

Lemma feed_progress e tm (f : feed) lp lv : 0 <= e < 2 ^ 56 -> EventRouter.holds (CrashFeed.router f) lp lv ->
  exists f', CrashFeed.onFrame exp None (encodeEvent "/g/cm" "pg" (encodeProgressPayload e)) tm f =
      Some (Ok (progress_event e (CrashFeed.t_decode tm)), f') /\
    EventRouter.holds (CrashFeed.router f') lp lv /\
    LruWindow.order (EventRouter.seen (CrashFeed.router f')) = LruWindow.order (EventRouter.seen (CrashFeed.router f)).
Proof.
  intros He Hh. unfold CrashFeed.onFrame. rewrite decode_progress by done. cbn [mbind option_bind].
  eexists. split; [done|]. simpl. set (ev := progress_event e (CrashFeed.t_decode tm)).
  pose proof (EventRouter.route_outcome (CrashFeed.router f) lp lv ev (CrashFeed.t_route0 tm) (CrashFeed.t_route1 tm) Hh) as H.
  destruct (EventRouter.route _ _ _ _) as [ok r']. simpl in H. by destruct H as (? & _ & ?).
Qed.

Lemma feed_end name gid mult hash tm (f : feed) lp lv :
  let m := fllround (fmul mult (of_Z 100)) in
  let ev := EventDecoder.end_event name gid m hash NativeSocket (CrashFeed.t_decode tm) in
  let key := EventRouter.route_key ev in
  let known := bool_decide (key ∈ LruWindow.order (EventRouter.seen (CrashFeed.router f))) in
  short name -> mapEventName name = KEnd -> 0 <= gid < 2 ^ 56 -> 0 <= m < 2 ^ 56 -> Z.of_nat (String.length hash) < 2 ^ 56 ->
  EventRouter.holds (CrashFeed.router f) lp lv ->
  (known = false -> (length lp < bf_limit (EventRouter.to_prediction (CrashFeed.router f)))%nat /\
                    (length lv < bf_limit (EventRouter.to_validation (CrashFeed.router f)))%nat) ->
  exists f', CrashFeed.onFrame exp None (encodeEvent "/g/cm" name (encodeEndPayload gid mult hash)) tm f = Some (Ok ev, f') /\
    let routed := if known then [] else [ev <| routedAtNs := CrashFeed.t_route0 tm |>] in
    EventRouter.holds (CrashFeed.router f') (lp ++ routed) (lv ++ routed) /\
    key ∈ LruWindow.order (EventRouter.seen (CrashFeed.router f')).
Proof.
  intros m ev key known Hs Hk Hg Hm Hh Hr Hroom. unfold CrashFeed.onFrame.
  rewrite EventDecoder.decode_event_frame by (done || (unfold short; simpl; lia)).
  rewrite EventDecoder.decode_end_packet by done. cbn [mbind option_bind]. fold m ev.
  eexists. split; [done|]. cbv zeta. simpl.
  pose proof (EventRouter.route_outcome (CrashFeed.router f) lp lv ev (CrashFeed.t_route0 tm) (CrashFeed.t_route1 tm) Hr) as H.
  assert (valid ev = true /\ kind ev = KEnd /\ gameId ev = to_string gid) as (Hvalid & Hkind & Hid)
    by (unfold ev, EventDecoder.end_event; by destruct (one_of _ _)).
  assert (str_empty (gameId ev) = false) as Hne by (rewrite Hid; apply str_empty_false, to_string_nonempty).
  cbv zeta in H. rewrite Hvalid, Hkind, Hne in H. cbn [andb negb] in H. fold key known in H.
  destruct (EventRouter.route _ _ _ _) as [ok r']. destruct H as (H1 & _ & H2). simpl.
  destruct known; cbn [andb negb] in *.
  - rewrite !app_nil_r. split; [done|]. rewrite H2. set_solver.
  - destruct (Hroom eq_refl) as [Hp Hv]. rewrite !bool_decide_true in H1 by done. split; [done|]. rewrite H2. apply elem_of_trim_front_last. unfold EventRouter.LRU_LIMIT. lia.
Qed.

Lemma feed_ticks es : forall tm (f : feed) lp lv, Forall (fun e => 0 <= e < 2 ^ 56) es -> EventRouter.holds (CrashFeed.router f) lp lv ->
  exists evs f', feed_all ((fun e => encodeEvent "/g/cm" "pg" (encodeProgressPayload e)) <$> es) tm f = Some (Ok <$> evs, f') /\
    kind <$> evs = replicate (length es) KProgress /\ Forall (fun ev => valid ev = true) evs /\ elapsedMs <$> evs = es /\
    EventRouter.holds (CrashFeed.router f') lp lv /\
    LruWindow.order (EventRouter.seen (CrashFeed.router f')) = LruWindow.order (EventRouter.seen (CrashFeed.router f)).
Proof.
  induction es as [|e es IH]; intros tm f lp lv Hes Hh; [by exists [], f|].
  apply list.Forall_cons in Hes as [He Hes]. destruct (feed_progress e (tm 0%nat) f lp lv He Hh) as (f1 & E1 & Hh1 & Ho1).
  destruct (IH (fun n => tm (S n)) f1 lp lv Hes Hh1) as (evs & f2 & E2 & Hk & Hv & Hel & Hh2 & Ho2).
  exists (progress_event e (CrashFeed.t_decode (tm 0%nat)) :: evs), f2.
  rewrite fmap_cons. cbn [feed_all]. rewrite E1. cbn [mbind option_bind]. rewrite E2. cbn [mbind option_bind].
  split; [done|]. rewrite !fmap_cons, Hk, Hel. split_and!; [done| |done|done|congruence]. by constructor.
Qed.

Lemma feed_all_app xs ys : forall tm f rs f1,
  feed_all xs tm f = Some (rs, f1) ->
  feed_all (xs ++ ys) tm f = ('(rs', f2) ← feed_all ys (fun n => tm (length xs + n)%nat) f1; Some (rs ++ rs', f2)).
Proof.
  induction xs as [|x xs IH]; intros tm f rs f1; cbn [feed_all app].
  - intros [= <- <-]. simpl. by destruct (feed_all ys _ f) as [[]|].
  - destruct (CrashFeed.onFrame _ _ _ _ _) as [[r f0]|]; cbn [mbind option_bind]; [|done].
    destruct (feed_all xs _ f0) as [[rs0 f0']|] eqn:E; cbn [mbind option_bind]; [|done]. intros [= <- <-].
    rewrite (IH _ _ _ _ E). simpl. by destruct (feed_all ys _ f0') as [[]|].
Qed.

Lemma tick_times_range finalMult ticks :
  let total := elapsedFromMultiplier log finalMult in
  0 <= total < 2 ^ 56 -> total * ticks < 2 ^ 63 -> Forall (fun e => 0 <= e < 2 ^ 56) (tick_times log finalMult ticks).
Proof.
  intros total Ht Hov. unfold tick_times. fold total. apply Forall_fmap, Forall_forall. intros i Hi%elem_of_seqZ. cbn.
  assert (0 <= total * i <= total * ticks) as Hb by (split; [apply Z.mul_nonneg_nonneg; lia|apply Z.mul_le_mono_nonneg_l; lia]).
  rewrite i64_small by lia. split; [apply Z.quot_pos; lia|]. apply Z.le_lt_trans with total; [|lia].
  apply Z.quot_le_upper_bound; lia.
Qed.

(** Remark: a scenario does not play the round it describes.  Its first frame is meant as a start,
    but the event name "st" decodes to an end, with the crash point 1.0; the router remembers
    the round as ended, so of the whole scenario this event is the only one that reaches the
    queues, and the real end, with the final multiplier, is dropped as a duplicate. *)
Theorem scenario_ends_at_one (gid : Z) (finalMult : double) (ticks : Z) (tm : nat -> CrashFeed.times) (f : feed)
    (lp lv : list CrashEvent) :
  let total := elapsedFromMultiplier log finalMult in
  let m := fllround (fmul finalMult (of_Z 100)) in
  let steps := sc_steps (makeRoundScenario log fixed6 gid finalMult ticks) in
  0 <= gid < 2 ^ 56 -> 0 <= m < 2 ^ 56 -> 0 <= total < 2 ^ 56 -> 0 <= ticks -> total * ticks < 2 ^ 63 ->
  EventRouter.holds (CrashFeed.router f) lp lv ->
  (to_string gid +:+ ":3:0") ∉ LruWindow.order (EventRouter.seen (CrashFeed.router f)) ->
  (length lp < bf_limit (EventRouter.to_prediction (CrashFeed.router f)))%nat ->
  (length lv < bf_limit (EventRouter.to_validation (CrashFeed.router f)))%nat ->
  exists first ticked final f',
    feed_all (st_frame <$> steps) tm f = Some (Ok <$> first :: ticked ++ [final], f') /\
    st_expectedKind <$> steps = KStart :: replicate (Z.to_nat ticks) KProgress ++ [KEnd] /\
    kind <$> first :: ticked ++ [final] = KEnd :: replicate (Z.to_nat ticks) KProgress ++ [KEnd] /\
    crashPoint first = f1 /\ crashPoint final = fdiv (of_Z m) (of_Z 100) /\
    elapsedMs <$> ticked = tick_times log finalMult ticks /\
    exists routed, crashPoint routed = f1 /\ gameId routed = to_string gid /\
      EventRouter.holds (CrashFeed.router f') (lp ++ [routed]) (lv ++ [routed]).
Proof.
  intros total m steps Hg Hm Ht Hti Hov Hh Hkey Hp Hv.
  assert (length (tick_times log finalMult ticks) = Z.to_nat ticks) as Hlen by (unfold tick_times; by rewrite length_fmap, length_seqZ).
  assert (forall name m h r, EventRouter.route_key (EventDecoder.end_event name gid m h NativeSocket r) = to_string gid +:+ ":3:0") as Hkeys
    by (intros; unfold EventDecoder.end_event; by destruct (one_of _ _)).
  destruct (feed_end "st" gid f1 EmptyString (tm 0%nat) f lp lv) as (g1 & E1 & Hh1 & Ho1);
    [unfold short; simpl; lia|done|done|vm_compute; split; [discriminate|done]|done|done|done|].
  cbv zeta in Hh1. rewrite Hkeys in Hh1, Ho1. rewrite bool_decide_false in Hh1 by done.
  set (es := tick_times log finalMult ticks) in *.
  destruct (feed_ticks es (fun n => tm (S n)) g1 _ _ (tick_times_range finalMult ticks Ht Hov) Hh1)
    as (evs & g2 & E2 & Hk2 & _ & Hel & Hh2 & Ho2).
  destruct (feed_end "ed" gid finalMult "s" (tm (S (length es))) g2 _ _ ltac:(unfold short; simpl; lia) eq_refl Hg Hm ltac:(done) Hh2)
    as (g3 & E3 & Hh3 & _).
  { rewrite Hkeys, bool_decide_true; [done|]. by rewrite Ho2. }
  cbv zeta in Hh3. rewrite Hkeys, Ho2, bool_decide_true, !app_nil_r in Hh3 by done.
  eexists _, evs, _, g3. split_and!; [..|eexists; split_and!; [| |exact Hh3]].
  - unfold steps. cbn [sc_steps makeRoundScenario]. rewrite fmap_cons, fmap_app. cbn [feed_all]. unfold stepStart at 1. cbn [st_frame].
    rewrite E1. cbn [mbind option_bind]. rewrite <-list_fmap_compose.
    assert (st_frame ∘ stepProgress <$> es = (fun e => encodeEvent "/g/cm" "pg" (encodeProgressPayload e)) <$> es) as Ees by done.
    fold es. rewrite Ees. erewrite feed_all_app by exact E2. rewrite length_fmap. cbn [fmap list_fmap feed_all st_frame stepEnd].
    replace (length es + 0)%nat with (length es) by lia. rewrite E3. cbn [mbind option_bind]. by rewrite fmap_app.
  - unfold steps. cbn [sc_steps makeRoundScenario]. rewrite fmap_cons, fmap_app, <-list_fmap_compose. fold es.
    replace (st_expectedKind ∘ stepProgress <$> es) with (replicate (length es) KProgress) by (clear; induction es as [|e es IH]; [done|]; rewrite fmap_cons; simpl; by rewrite IH).
    by rewrite Hlen.
  - rewrite fmap_cons, fmap_app, Hk2, Hlen. done.
  - vm_compute. reflexivity.
  - done.
  - exact Hel.
  - vm_compute. reflexivity.
  - done.
Qed.
End Round.

(** Remark: the self check that the program runs on request passes, whatever the logarithm: its
    varints survive, the synthetic round has its seven frames, all of them binary packets. *)
Theorem protocol_self_check_passes (log : double -> double) : runProtocolSelfCheck log = Some 0.
Proof.
  unfold runProtocolSelfCheck, syntheticRoundFrames, tick_times.
  replace (seqZ 1 5) with [1; 2; 3; 4; 5] by reflexivity.
  set (tick := fun i => Z.quot _ 5). cbn [fmap list_fmap app].
  cbn [mapM]. rewrite !classify_event_frame by (done || (unfold short; simpl; lia)). cbn [mbind option_bind mret option_ret].
  vm_compute. reflexivity.
Qed.

Lemma varint_selfcheck_exact_witness : varintRoundtripOk (2 ^ 56 - 1) = true /\ varintRoundtripOk (2 ^ 56) = false.
Proof.
  split; [rewrite (varint_selfcheck_exact (2 ^ 56 - 1)) by lia|rewrite (varint_selfcheck_exact (2 ^ 56)) by lia]; vm_compute; reflexivity.
Defined.

Definition demo_times : CrashFeed.times :=
  {| CrashFeed.t_decode := zero_readings; CrashFeed.t_now := 5; CrashFeed.t_route0 := 0; CrashFeed.t_route1 := 1 |}.

(** The round 77 up to 2.34 in three ticks, with a logarithm that puts 2.34 at 0.85. *)
Lemma scenario_ends_at_one_witness :
  exists q evs f', demo_ring = Some q /\
    feed_all (fun x => x) (st_frame <$> sc_steps (makeRoundScenario (fun _ => flit 85 100) (fun _ => "2.34") 77 (flit 234 100) 3))
      (fun _ => demo_times) (CrashFeed.make (EventDecoder.make None) (demo_router q) tt) = Some (Ok <$> evs, f') /\
    kind <$> evs = [KEnd; KProgress; KProgress; KProgress; KEnd].
Proof.
  destruct demo_ring as [q|] eqn:Eq; [|vm_compute in Eq; discriminate]. exists q.
  pose proof (demo_router_holds q Eq) as Hh.
  destruct (scenario_ends_at_one (fun x => x) (fun _ => flit 85 100) (fun _ => "2.34") 77 (flit 234 100) 3 (fun _ => demo_times)
    (CrashFeed.make (EventDecoder.make None) (demo_router q) tt) [] []) as (first & ticked & final & f' & E & _ & Hk & _).
  - lia.
  - vm_compute. split; [discriminate|reflexivity].
  - vm_compute. split; [discriminate|reflexivity].
  - lia.
  - vm_compute. reflexivity.
  - exact Hh.
  - simpl. set_solver.
  - simpl. injection Eq as <-. vm_compute. lia.
  - simpl. injection Eq as <-. vm_compute. lia.
  - exists (first :: ticked ++ [final]), f'. split; [reflexivity|]. split; [exact E|exact Hk].
Defined.
