(* ===== verification/ScenarioTables.v ===== *)
(** The scenario library ([include/ingestion/scenarios.hpp] and [scenarios_ext*.hpp]): 3550 rounds,
    one row (game id, final multiplier in hundredths, ticks) for each [scenario_NNN] function, in
    the order of the files, and what holds of all of them. *)
From Stdlib Require Import Sorting.Sorted.
From S2P Require Import Prelude Float64 Types Timing Scenarios.

Open Scope Z_scope.

Definition row : Type := Z * Z * Z.

(** The scenario that the function of a row makes: [makeRoundScenario(id, h / 100, ticks)]. *)
Definition scenario_of (log : double -> double) (fixed6 : double -> string) (r : row) : Scenario :=
  let '(g, h, t) := r in makeRoundScenario log fixed6 g (flit h 100) t.

(* @src include/ingestion/scenarios.hpp:66-215 scenario_001 .. scenario_050 *)
Definition scenarios_001 : list row := [
  (30001, 135, 4); (30002, 160, 5); (30003, 185, 6); (30004, 210, 7); (30005, 235, 8); (30006, 260, 9);
  (30007, 285, 3); (30008, 310, 4); (30009, 335, 5); (30010, 360, 6); (30011, 385, 7); (30012, 410, 8);
  (30013, 435, 9); (30014, 460, 3); (30015, 485, 4); (30016, 510, 5); (30017, 535, 6); (30018, 560, 7);
  (30019, 585, 8); (30020, 610, 9); (30021, 635, 3); (30022, 660, 4); (30023, 685, 5); (30024, 710, 6);
  (30025, 735, 7); (30026, 760, 8); (30027, 785, 9); (30028, 810, 3); (30029, 835, 4); (30030, 860, 5);
  (30031, 885, 6); (30032, 910, 7); (30033, 935, 8); (30034, 960, 9); (30035, 985, 3); (30036, 1010, 4);
  (30037, 1035, 5); (30038, 1060, 6); (30039, 1085, 7); (30040, 110, 8); (30041, 135, 9); (30042, 160, 3);
  (30043, 185, 4); (30044, 210, 5); (30045, 235, 6); (30046, 260, 7); (30047, 285, 8); (30048, 310, 9);
  (30049, 335, 3); (30050, 360, 4)].

(* @src include/ingestion/scenarios.hpp:216-365 scenario_051 .. scenario_100 *)
Definition scenarios_051 : list row := [
  (30051, 385, 5); (30052, 410, 6); (30053, 435, 7); (30054, 460, 8); (30055, 485, 9); (30056, 510, 3);
  (30057, 535, 4); (30058, 560, 5); (30059, 585, 6); (30060, 610, 7); (30061, 635, 8); (30062, 660, 9);
  (30063, 685, 3); (30064, 710, 4); (30065, 735, 5); (30066, 760, 6); (30067, 785, 7); (30068, 810, 8);
  (30069, 835, 9); (30070, 860, 3); (30071, 885, 4); (30072, 910, 5); (30073, 935, 6); (30074, 960, 7);
  (30075, 985, 8); (30076, 1010, 9); (30077, 1035, 3); (30078, 1060, 4); (30079, 1085, 5); (30080, 110, 6);
  (30081, 135, 7); (30082, 160, 8); (30083, 185, 9); (30084, 210, 3); (30085, 235, 4); (30086, 260, 5);
  (30087, 285, 6); (30088, 310, 7); (30089, 335, 8); (30090, 360, 9); (30091, 385, 3); (30092, 410, 4);
  (30093, 435, 5); (30094, 460, 6); (30095, 485, 7); (30096, 510, 8); (30097, 535, 9); (30098, 560, 3);
  (30099, 585, 4); (30100, 610, 5)].

(* @src include/ingestion/scenarios.hpp:366-515 scenario_101 .. scenario_150 *)
Definition scenarios_101 : list row := [
  (30101, 635, 6); (30102, 660, 7); (30103, 685, 8); (30104, 710, 9); (30105, 735, 3); (30106, 760, 4);
  (30107, 785, 5); (30108, 810, 6); (30109, 835, 7); (30110, 860, 8); (30111, 885, 9); (30112, 910, 3);
  (30113, 935, 4); (30114, 960, 5); (30115, 985, 6); (30116, 1010, 7); (30117, 1035, 8); (30118, 1060, 9);
  (30119, 1085, 3); (30120, 110, 4); (30121, 135, 5); (30122, 160, 6); (30123, 185, 7); (30124, 210, 8);
  (30125, 235, 9); (30126, 260, 3); (30127, 285, 4); (30128, 310, 5); (30129, 335, 6); (30130, 360, 7);
  (30131, 385, 8); (30132, 410, 9); (30133, 435, 3); (30134, 460, 4); (30135, 485, 5); (30136, 510, 6);
  (30137, 535, 7); (30138, 560, 8); (30139, 585, 9); (30140, 610, 3); (30141, 635, 4); (30142, 660, 5);
  (30143, 685, 6); (30144, 710, 7); (30145, 735, 8); (30146, 760, 9); (30147, 785, 3); (30148, 810, 4);
  (30149, 835, 5); (30150, 860, 6)].

(* @src include/ingestion/scenarios_ext.hpp:4-153 scenario_151 .. scenario_300 *)
Definition scenarios_151 : list row := [
  (40151, 843, 5); (40152, 861, 6); (40153, 879, 7); (40154, 897, 8); (40155, 915, 9); (40156, 933, 4);
  (40157, 951, 5); (40158, 969, 6); (40159, 987, 7); (40160, 1005, 8); (40161, 1023, 9); (40162, 1041, 4);
  (40163, 1059, 5); (40164, 1077, 6); (40165, 105, 7); (40166, 123, 8); (40167, 141, 9); (40168, 159, 4);
  (40169, 177, 5); (40170, 195, 6); (40171, 213, 7); (40172, 231, 8); (40173, 249, 9); (40174, 267, 4);
  (40175, 285, 5); (40176, 303, 6); (40177, 321, 7); (40178, 339, 8); (40179, 357, 9); (40180, 375, 4);
  (40181, 393, 5); (40182, 411, 6); (40183, 429, 7); (40184, 447, 8); (40185, 465, 9); (40186, 483, 4);
  (40187, 501, 5); (40188, 519, 6); (40189, 537, 7); (40190, 555, 8); (40191, 573, 9); (40192, 591, 4);
  (40193, 609, 5); (40194, 627, 6); (40195, 645, 7); (40196, 663, 8); (40197, 681, 9); (40198, 699, 4);
  (40199, 717, 5); (40200, 735, 6); (40201, 753, 7); (40202, 771, 8); (40203, 789, 9); (40204, 807, 4);
  (40205, 825, 5); (40206, 843, 6); (40207, 861, 7); (40208, 879, 8); (40209, 897, 9); (40210, 915, 4);
  (40211, 933, 5); (40212, 951, 6); (40213, 969, 7); (40214, 987, 8); (40215, 1005, 9); (40216, 1023, 4);
  (40217, 1041, 5); (40218, 1059, 6); (40219, 1077, 7); (40220, 105, 8); (40221, 123, 9); (40222, 141, 4);
  (40223, 159, 5); (40224, 177, 6); (40225, 195, 7); (40226, 213, 8); (40227, 231, 9); (40228, 249, 4);
  (40229, 267, 5); (40230, 285, 6); (40231, 303, 7); (40232, 321, 8); (40233, 339, 9); (40234, 357, 4);
  (40235, 375, 5); (40236, 393, 6); (40237, 411, 7); (40238, 429, 8); (40239, 447, 9); (40240, 465, 4);
  (40241, 483, 5); (40242, 501, 6); (40243, 519, 7); (40244, 537, 8); (40245, 555, 9); (40246, 573, 4);
  (40247, 591, 5); (40248, 609, 6); (40249, 627, 7); (40250, 645, 8); (40251, 663, 9); (40252, 681, 4);
  (40253, 699, 5); (40254, 717, 6); (40255, 735, 7); (40256, 753, 8); (40257, 771, 9); (40258, 789, 4);
  (40259, 807, 5); (40260, 825, 6); (40261, 843, 7); (40262, 861, 8); (40263, 879, 9); (40264, 897, 4);
  (40265, 915, 5); (40266, 933, 6); (40267, 951, 7); (40268, 969, 8); (40269, 987, 9); (40270, 1005, 4);
  (40271, 1023, 5); (40272, 1041, 6); (40273, 1059, 7); (40274, 1077, 8); (40275, 105, 9); (40276, 123, 4);
  (40277, 141, 5); (40278, 159, 6); (40279, 177, 7); (40280, 195, 8); (40281, 213, 9); (40282, 231, 4);
  (40283, 249, 5); (40284, 267, 6); (40285, 285, 7); (40286, 303, 8); (40287, 321, 9); (40288, 339, 4);
  (40289, 357, 5); (40290, 375, 6); (40291, 393, 7); (40292, 411, 8); (40293, 429, 9); (40294, 447, 4);
  (40295, 465, 5); (40296, 483, 6); (40297, 501, 7); (40298, 519, 8); (40299, 537, 9); (40300, 555, 4)].

(* @src include/ingestion/scenarios_ext2.hpp:4-153 scenario_301 .. scenario_450 *)
Definition scenarios_301 : list row := [
  (60301, 651, 8); (60302, 660, 9); (60303, 669, 10); (60304, 678, 3); (60305, 687, 4); (60306, 696, 5);
  (60307, 705, 6); (60308, 714, 7); (60309, 723, 8); (60310, 732, 9); (60311, 741, 10); (60312, 750, 3);
  (60313, 759, 4); (60314, 768, 5); (60315, 777, 6); (60316, 786, 7); (60317, 795, 8); (60318, 804, 9);
  (60319, 813, 10); (60320, 102, 3); (60321, 111, 4); (60322, 120, 5); (60323, 129, 6); (60324, 138, 7);
  (60325, 147, 8); (60326, 156, 9); (60327, 165, 10); (60328, 174, 3); (60329, 183, 4); (60330, 192, 5);
  (60331, 201, 6); (60332, 210, 7); (60333, 219, 8); (60334, 228, 9); (60335, 237, 10); (60336, 246, 3);
  (60337, 255, 4); (60338, 264, 5); (60339, 273, 6); (60340, 282, 7); (60341, 291, 8); (60342, 300, 9);
  (60343, 309, 10); (60344, 318, 3); (60345, 327, 4); (60346, 336, 5); (60347, 345, 6); (60348, 354, 7);
  (60349, 363, 8); (60350, 372, 9); (60351, 381, 10); (60352, 390, 3); (60353, 399, 4); (60354, 408, 5);
  (60355, 417, 6); (60356, 426, 7); (60357, 435, 8); (60358, 444, 9); (60359, 453, 10); (60360, 462, 3);
  (60361, 471, 4); (60362, 480, 5); (60363, 489, 6); (60364, 498, 7); (60365, 507, 8); (60366, 516, 9);
  (60367, 525, 10); (60368, 534, 3); (60369, 543, 4); (60370, 552, 5); (60371, 561, 6); (60372, 570, 7);
  (60373, 579, 8); (60374, 588, 9); (60375, 597, 10); (60376, 606, 3); (60377, 615, 4); (60378, 624, 5);
  (60379, 633, 6); (60380, 642, 7); (60381, 651, 8); (60382, 660, 9); (60383, 669, 10); (60384, 678, 3);
  (60385, 687, 4); (60386, 696, 5); (60387, 705, 6); (60388, 714, 7); (60389, 723, 8); (60390, 732, 9);
  (60391, 741, 10); (60392, 750, 3); (60393, 759, 4); (60394, 768, 5); (60395, 777, 6); (60396, 786, 7);
  (60397, 795, 8); (60398, 804, 9); (60399, 813, 10); (60400, 102, 3); (60401, 111, 4); (60402, 120, 5);
  (60403, 129, 6); (60404, 138, 7); (60405, 147, 8); (60406, 156, 9); (60407, 165, 10); (60408, 174, 3);
  (60409, 183, 4); (60410, 192, 5); (60411, 201, 6); (60412, 210, 7); (60413, 219, 8); (60414, 228, 9);
  (60415, 237, 10); (60416, 246, 3); (60417, 255, 4); (60418, 264, 5); (60419, 273, 6); (60420, 282, 7);
  (60421, 291, 8); (60422, 300, 9); (60423, 309, 10); (60424, 318, 3); (60425, 327, 4); (60426, 336, 5);
  (60427, 345, 6); (60428, 354, 7); (60429, 363, 8); (60430, 372, 9); (60431, 381, 10); (60432, 390, 3);
  (60433, 399, 4); (60434, 408, 5); (60435, 417, 6); (60436, 426, 7); (60437, 435, 8); (60438, 444, 9);
  (60439, 453, 10); (60440, 462, 3); (60441, 471, 4); (60442, 480, 5); (60443, 489, 6); (60444, 498, 7);
  (60445, 507, 8); (60446, 516, 9); (60447, 525, 10); (60448, 534, 3); (60449, 543, 4); (60450, 552, 5)].

(* @src include/ingestion/scenarios_ext2.hpp:154-253 scenario_451 .. scenario_550 *)
Definition scenarios_451 : list row := [
  (60451, 561, 6); (60452, 570, 7); (60453, 579, 8); (60454, 588, 9); (60455, 597, 10); (60456, 606, 3);
  (60457, 615, 4); (60458, 624, 5); (60459, 633, 6); (60460, 642, 7); (60461, 651, 8); (60462, 660, 9);
  (60463, 669, 10); (60464, 678, 3); (60465, 687, 4); (60466, 696, 5); (60467, 705, 6); (60468, 714, 7);
  (60469, 723, 8); (60470, 732, 9); (60471, 741, 10); (60472, 750, 3); (60473, 759, 4); (60474, 768, 5);
  (60475, 777, 6); (60476, 786, 7); (60477, 795, 8); (60478, 804, 9); (60479, 813, 10); (60480, 102, 3);
  (60481, 111, 4); (60482, 120, 5); (60483, 129, 6); (60484, 138, 7); (60485, 147, 8); (60486, 156, 9);
  (60487, 165, 10); (60488, 174, 3); (60489, 183, 4); (60490, 192, 5); (60491, 201, 6); (60492, 210, 7);
  (60493, 219, 8); (60494, 228, 9); (60495, 237, 10); (60496, 246, 3); (60497, 255, 4); (60498, 264, 5);
  (60499, 273, 6); (60500, 282, 7); (60501, 291, 8); (60502, 300, 9); (60503, 309, 10); (60504, 318, 3);
  (60505, 327, 4); (60506, 336, 5); (60507, 345, 6); (60508, 354, 7); (60509, 363, 8); (60510, 372, 9);
  (60511, 381, 10); (60512, 390, 3); (60513, 399, 4); (60514, 408, 5); (60515, 417, 6); (60516, 426, 7);
  (60517, 435, 8); (60518, 444, 9); (60519, 453, 10); (60520, 462, 3); (60521, 471, 4); (60522, 480, 5);
  (60523, 489, 6); (60524, 498, 7); (60525, 507, 8); (60526, 516, 9); (60527, 525, 10); (60528, 534, 3);
  (60529, 543, 4); (60530, 552, 5); (60531, 561, 6); (60532, 570, 7); (60533, 579, 8); (60534, 588, 9);
  (60535, 597, 10); (60536, 606, 3); (60537, 615, 4); (60538, 624, 5); (60539, 633, 6); (60540, 642, 7);
  (60541, 651, 8); (60542, 660, 9); (60543, 669, 10); (60544, 678, 3); (60545, 687, 4); (60546, 696, 5);
  (60547, 705, 6); (60548, 714, 7); (60549, 723, 8); (60550, 732, 9)].

(* @src include/ingestion/scenarios_ext3.hpp:4-153 scenario_551 .. scenario_700 *)
Definition scenarios_551 : list row := [
  (80551, 457, 5); (80552, 464, 6); (80553, 471, 7); (80554, 478, 8); (80555, 485, 9); (80556, 492, 10);
  (80557, 499, 11); (80558, 506, 3); (80559, 513, 4); (80560, 520, 5); (80561, 527, 6); (80562, 534, 7);
  (80563, 541, 8); (80564, 548, 9); (80565, 555, 10); (80566, 562, 11); (80567, 569, 3); (80568, 576, 4);
  (80569, 583, 5); (80570, 590, 6); (80571, 597, 7); (80572, 604, 8); (80573, 611, 9); (80574, 618, 10);
  (80575, 625, 11); (80576, 632, 3); (80577, 639, 4); (80578, 646, 5); (80579, 653, 6); (80580, 660, 7);
  (80581, 667, 8); (80582, 674, 9); (80583, 681, 10); (80584, 688, 11); (80585, 695, 3); (80586, 702, 4);
  (80587, 709, 5); (80588, 716, 6); (80589, 723, 7); (80590, 730, 8); (80591, 737, 9); (80592, 744, 10);
  (80593, 751, 11); (80594, 758, 3); (80595, 765, 4); (80596, 772, 5); (80597, 779, 6); (80598, 786, 7);
  (80599, 793, 8); (80600, 100, 9); (80601, 107, 10); (80602, 114, 11); (80603, 121, 3); (80604, 128, 4);
  (80605, 135, 5); (80606, 142, 6); (80607, 149, 7); (80608, 156, 8); (80609, 163, 9); (80610, 170, 10);
  (80611, 177, 11); (80612, 184, 3); (80613, 191, 4); (80614, 198, 5); (80615, 205, 6); (80616, 212, 7);
  (80617, 219, 8); (80618, 226, 9); (80619, 233, 10); (80620, 240, 11); (80621, 247, 3); (80622, 254, 4);
  (80623, 261, 5); (80624, 268, 6); (80625, 275, 7); (80626, 282, 8); (80627, 289, 9); (80628, 296, 10);
  (80629, 303, 11); (80630, 310, 3); (80631, 317, 4); (80632, 324, 5); (80633, 331, 6); (80634, 338, 7);
  (80635, 345, 8); (80636, 352, 9); (80637, 359, 10); (80638, 366, 11); (80639, 373, 3); (80640, 380, 4);
  (80641, 387, 5); (80642, 394, 6); (80643, 401, 7); (80644, 408, 8); (80645, 415, 9); (80646, 422, 10);
  (80647, 429, 11); (80648, 436, 3); (80649, 443, 4); (80650, 450, 5); (80651, 457, 6); (80652, 464, 7);
  (80653, 471, 8); (80654, 478, 9); (80655, 485, 10); (80656, 492, 11); (80657, 499, 3); (80658, 506, 4);
  (80659, 513, 5); (80660, 520, 6); (80661, 527, 7); (80662, 534, 8); (80663, 541, 9); (80664, 548, 10);
  (80665, 555, 11); (80666, 562, 3); (80667, 569, 4); (80668, 576, 5); (80669, 583, 6); (80670, 590, 7);
  (80671, 597, 8); (80672, 604, 9); (80673, 611, 10); (80674, 618, 11); (80675, 625, 3); (80676, 632, 4);
  (80677, 639, 5); (80678, 646, 6); (80679, 653, 7); (80680, 660, 8); (80681, 667, 9); (80682, 674, 10);
  (80683, 681, 11); (80684, 688, 3); (80685, 695, 4); (80686, 702, 5); (80687, 709, 6); (80688, 716, 7);
  (80689, 723, 8); (80690, 730, 9); (80691, 737, 10); (80692, 744, 11); (80693, 751, 3); (80694, 758, 4);
  (80695, 765, 5); (80696, 772, 6); (80697, 779, 7); (80698, 786, 8); (80699, 793, 9); (80700, 100, 10)].

(* @src include/ingestion/scenarios_ext3.hpp:154-303 scenario_701 .. scenario_850 *)
Definition scenarios_701 : list row := [
  (80701, 107, 11); (80702, 114, 3); (80703, 121, 4); (80704, 128, 5); (80705, 135, 6); (80706, 142, 7);
  (80707, 149, 8); (80708, 156, 9); (80709, 163, 10); (80710, 170, 11); (80711, 177, 3); (80712, 184, 4);
  (80713, 191, 5); (80714, 198, 6); (80715, 205, 7); (80716, 212, 8); (80717, 219, 9); (80718, 226, 10);
  (80719, 233, 11); (80720, 240, 3); (80721, 247, 4); (80722, 254, 5); (80723, 261, 6); (80724, 268, 7);
  (80725, 275, 8); (80726, 282, 9); (80727, 289, 10); (80728, 296, 11); (80729, 303, 3); (80730, 310, 4);
  (80731, 317, 5); (80732, 324, 6); (80733, 331, 7); (80734, 338, 8); (80735, 345, 9); (80736, 352, 10);
  (80737, 359, 11); (80738, 366, 3); (80739, 373, 4); (80740, 380, 5); (80741, 387, 6); (80742, 394, 7);
  (80743, 401, 8); (80744, 408, 9); (80745, 415, 10); (80746, 422, 11); (80747, 429, 3); (80748, 436, 4);
  (80749, 443, 5); (80750, 450, 6); (80751, 457, 7); (80752, 464, 8); (80753, 471, 9); (80754, 478, 10);
  (80755, 485, 11); (80756, 492, 3); (80757, 499, 4); (80758, 506, 5); (80759, 513, 6); (80760, 520, 7);
  (80761, 527, 8); (80762, 534, 9); (80763, 541, 10); (80764, 548, 11); (80765, 555, 3); (80766, 562, 4);
  (80767, 569, 5); (80768, 576, 6); (80769, 583, 7); (80770, 590, 8); (80771, 597, 9); (80772, 604, 10);
  (80773, 611, 11); (80774, 618, 3); (80775, 625, 4); (80776, 632, 5); (80777, 639, 6); (80778, 646, 7);
  (80779, 653, 8); (80780, 660, 9); (80781, 667, 10); (80782, 674, 11); (80783, 681, 3); (80784, 688, 4);
  (80785, 695, 5); (80786, 702, 6); (80787, 709, 7); (80788, 716, 8); (80789, 723, 9); (80790, 730, 10);
  (80791, 737, 11); (80792, 744, 3); (80793, 751, 4); (80794, 758, 5); (80795, 765, 6); (80796, 772, 7);
  (80797, 779, 8); (80798, 786, 9); (80799, 793, 10); (80800, 100, 11); (80801, 107, 3); (80802, 114, 4);
  (80803, 121, 5); (80804, 128, 6); (80805, 135, 7); (80806, 142, 8); (80807, 149, 9); (80808, 156, 10);
  (80809, 163, 11); (80810, 170, 3); (80811, 177, 4); (80812, 184, 5); (80813, 191, 6); (80814, 198, 7);
  (80815, 205, 8); (80816, 212, 9); (80817, 219, 10); (80818, 226, 11); (80819, 233, 3); (80820, 240, 4);
  (80821, 247, 5); (80822, 254, 6); (80823, 261, 7); (80824, 268, 8); (80825, 275, 9); (80826, 282, 10);
  (80827, 289, 11); (80828, 296, 3); (80829, 303, 4); (80830, 310, 5); (80831, 317, 6); (80832, 324, 7);
  (80833, 331, 8); (80834, 338, 9); (80835, 345, 10); (80836, 352, 11); (80837, 359, 3); (80838, 366, 4);
  (80839, 373, 5); (80840, 380, 6); (80841, 387, 7); (80842, 394, 8); (80843, 401, 9); (80844, 408, 10);
  (80845, 415, 11); (80846, 422, 3); (80847, 429, 4); (80848, 436, 5); (80849, 443, 6); (80850, 450, 7)].

(* @src include/ingestion/scenarios_ext4.hpp:4-153 scenario_851 .. scenario_1000 *)
Definition scenarios_851 : list row := [
  (100851, 505, 4); (100852, 510, 5); (100853, 515, 6); (100854, 520, 7); (100855, 525, 8); (100856, 530, 9);
  (100857, 535, 10); (100858, 540, 11); (100859, 545, 12); (100860, 550, 3); (100861, 555, 4); (100862, 560, 5);
  (100863, 565, 6); (100864, 570, 7); (100865, 575, 8); (100866, 580, 9); (100867, 585, 10); (100868, 590, 11);
  (100869, 595, 12); (100870, 600, 3); (100871, 605, 4); (100872, 610, 5); (100873, 615, 6); (100874, 620, 7);
  (100875, 625, 8); (100876, 630, 9); (100877, 635, 10); (100878, 640, 11); (100879, 645, 12); (100880, 100, 3);
  (100881, 105, 4); (100882, 110, 5); (100883, 115, 6); (100884, 120, 7); (100885, 125, 8); (100886, 130, 9);
  (100887, 135, 10); (100888, 140, 11); (100889, 145, 12); (100890, 150, 3); (100891, 155, 4); (100892, 160, 5);
  (100893, 165, 6); (100894, 170, 7); (100895, 175, 8); (100896, 180, 9); (100897, 185, 10); (100898, 190, 11);
  (100899, 195, 12); (100900, 200, 3); (100901, 205, 4); (100902, 210, 5); (100903, 215, 6); (100904, 220, 7);
  (100905, 225, 8); (100906, 230, 9); (100907, 235, 10); (100908, 240, 11); (100909, 245, 12); (100910, 250, 3);
  (100911, 255, 4); (100912, 260, 5); (100913, 265, 6); (100914, 270, 7); (100915, 275, 8); (100916, 280, 9);
  (100917, 285, 10); (100918, 290, 11); (100919, 295, 12); (100920, 300, 3); (100921, 305, 4); (100922, 310, 5);
  (100923, 315, 6); (100924, 320, 7); (100925, 325, 8); (100926, 330, 9); (100927, 335, 10); (100928, 340, 11);
  (100929, 345, 12); (100930, 350, 3); (100931, 355, 4); (100932, 360, 5); (100933, 365, 6); (100934, 370, 7);
  (100935, 375, 8); (100936, 380, 9); (100937, 385, 10); (100938, 390, 11); (100939, 395, 12); (100940, 400, 3);
  (100941, 405, 4); (100942, 410, 5); (100943, 415, 6); (100944, 420, 7); (100945, 425, 8); (100946, 430, 9);
  (100947, 435, 10); (100948, 440, 11); (100949, 445, 12); (100950, 450, 3); (100951, 455, 4); (100952, 460, 5);
  (100953, 465, 6); (100954, 470, 7); (100955, 475, 8); (100956, 480, 9); (100957, 485, 10); (100958, 490, 11);
  (100959, 495, 12); (100960, 500, 3); (100961, 505, 4); (100962, 510, 5); (100963, 515, 6); (100964, 520, 7);
  (100965, 525, 8); (100966, 530, 9); (100967, 535, 10); (100968, 540, 11); (100969, 545, 12); (100970, 550, 3);
  (100971, 555, 4); (100972, 560, 5); (100973, 565, 6); (100974, 570, 7); (100975, 575, 8); (100976, 580, 9);
  (100977, 585, 10); (100978, 590, 11); (100979, 595, 12); (100980, 600, 3); (100981, 605, 4); (100982, 610, 5);
  (100983, 615, 6); (100984, 620, 7); (100985, 625, 8); (100986, 630, 9); (100987, 635, 10); (100988, 640, 11);
  (100989, 645, 12); (100990, 100, 3); (100991, 105, 4); (100992, 110, 5); (100993, 115, 6); (100994, 120, 7);
  (100995, 125, 8); (100996, 130, 9); (100997, 135, 10); (100998, 140, 11); (100999, 145, 12); (101000, 150, 3)].

(* @src include/ingestion/scenarios_ext4.hpp:154-253 scenario_1001 .. scenario_1100 *)
Definition scenarios_1001 : list row := [
  (101001, 155, 4); (101002, 160, 5); (101003, 165, 6); (101004, 170, 7); (101005, 175, 8); (101006, 180, 9);
  (101007, 185, 10); (101008, 190, 11); (101009, 195, 12); (101010, 200, 3); (101011, 205, 4); (101012, 210, 5);
  (101013, 215, 6); (101014, 220, 7); (101015, 225, 8); (101016, 230, 9); (101017, 235, 10); (101018, 240, 11);
  (101019, 245, 12); (101020, 250, 3); (101021, 255, 4); (101022, 260, 5); (101023, 265, 6); (101024, 270, 7);
  (101025, 275, 8); (101026, 280, 9); (101027, 285, 10); (101028, 290, 11); (101029, 295, 12); (101030, 300, 3);
  (101031, 305, 4); (101032, 310, 5); (101033, 315, 6); (101034, 320, 7); (101035, 325, 8); (101036, 330, 9);
  (101037, 335, 10); (101038, 340, 11); (101039, 345, 12); (101040, 350, 3); (101041, 355, 4); (101042, 360, 5);
  (101043, 365, 6); (101044, 370, 7); (101045, 375, 8); (101046, 380, 9); (101047, 385, 10); (101048, 390, 11);
  (101049, 395, 12); (101050, 400, 3); (101051, 405, 4); (101052, 410, 5); (101053, 415, 6); (101054, 420, 7);
  (101055, 425, 8); (101056, 430, 9); (101057, 435, 10); (101058, 440, 11); (101059, 445, 12); (101060, 450, 3);
  (101061, 455, 4); (101062, 460, 5); (101063, 465, 6); (101064, 470, 7); (101065, 475, 8); (101066, 480, 9);
  (101067, 485, 10); (101068, 490, 11); (101069, 495, 12); (101070, 500, 3); (101071, 505, 4); (101072, 510, 5);
  (101073, 515, 6); (101074, 520, 7); (101075, 525, 8); (101076, 530, 9); (101077, 535, 10); (101078, 540, 11);
  (101079, 545, 12); (101080, 550, 3); (101081, 555, 4); (101082, 560, 5); (101083, 565, 6); (101084, 570, 7);
  (101085, 575, 8); (101086, 580, 9); (101087, 585, 10); (101088, 590, 11); (101089, 595, 12); (101090, 600, 3);
  (101091, 605, 4); (101092, 610, 5); (101093, 615, 6); (101094, 620, 7); (101095, 625, 8); (101096, 630, 9);
  (101097, 635, 10); (101098, 640, 11); (101099, 645, 12); (101100, 100, 3)].

(* @src include/ingestion/scenarios_ext5.hpp:4-153 scenario_1101 .. scenario_1250 *)
Definition scenarios_1101 : list row := [
  (121101, 530, 5); (121102, 550, 6); (121103, 570, 7); (121104, 590, 8); (121105, 610, 4); (121106, 630, 5);
  (121107, 650, 6); (121108, 670, 7); (121109, 690, 8); (121110, 710, 4); (121111, 730, 5); (121112, 750, 6);
  (121113, 770, 7); (121114, 790, 8); (121115, 810, 4); (121116, 830, 5); (121117, 850, 6); (121118, 870, 7);
  (121119, 890, 8); (121120, 110, 4); (121121, 130, 5); (121122, 150, 6); (121123, 170, 7); (121124, 190, 8);
  (121125, 210, 4); (121126, 230, 5); (121127, 250, 6); (121128, 270, 7); (121129, 290, 8); (121130, 310, 4);
  (121131, 330, 5); (121132, 350, 6); (121133, 370, 7); (121134, 390, 8); (121135, 410, 4); (121136, 430, 5);
  (121137, 450, 6); (121138, 470, 7); (121139, 490, 8); (121140, 510, 4); (121141, 530, 5); (121142, 550, 6);
  (121143, 570, 7); (121144, 590, 8); (121145, 610, 4); (121146, 630, 5); (121147, 650, 6); (121148, 670, 7);
  (121149, 690, 8); (121150, 710, 4); (121151, 730, 5); (121152, 750, 6); (121153, 770, 7); (121154, 790, 8);
  (121155, 810, 4); (121156, 830, 5); (121157, 850, 6); (121158, 870, 7); (121159, 890, 8); (121160, 110, 4);
  (121161, 130, 5); (121162, 150, 6); (121163, 170, 7); (121164, 190, 8); (121165, 210, 4); (121166, 230, 5);
  (121167, 250, 6); (121168, 270, 7); (121169, 290, 8); (121170, 310, 4); (121171, 330, 5); (121172, 350, 6);
  (121173, 370, 7); (121174, 390, 8); (121175, 410, 4); (121176, 430, 5); (121177, 450, 6); (121178, 470, 7);
  (121179, 490, 8); (121180, 510, 4); (121181, 530, 5); (121182, 550, 6); (121183, 570, 7); (121184, 590, 8);
  (121185, 610, 4); (121186, 630, 5); (121187, 650, 6); (121188, 670, 7); (121189, 690, 8); (121190, 710, 4);
  (121191, 730, 5); (121192, 750, 6); (121193, 770, 7); (121194, 790, 8); (121195, 810, 4); (121196, 830, 5);
  (121197, 850, 6); (121198, 870, 7); (121199, 890, 8); (121200, 110, 4); (121201, 130, 5); (121202, 150, 6);
  (121203, 170, 7); (121204, 190, 8); (121205, 210, 4); (121206, 230, 5); (121207, 250, 6); (121208, 270, 7);
  (121209, 290, 8); (121210, 310, 4); (121211, 330, 5); (121212, 350, 6); (121213, 370, 7); (121214, 390, 8);
  (121215, 410, 4); (121216, 430, 5); (121217, 450, 6); (121218, 470, 7); (121219, 490, 8); (121220, 510, 4);
  (121221, 530, 5); (121222, 550, 6); (121223, 570, 7); (121224, 590, 8); (121225, 610, 4); (121226, 630, 5);
  (121227, 650, 6); (121228, 670, 7); (121229, 690, 8); (121230, 710, 4); (121231, 730, 5); (121232, 750, 6);
  (121233, 770, 7); (121234, 790, 8); (121235, 810, 4); (121236, 830, 5); (121237, 850, 6); (121238, 870, 7);
  (121239, 890, 8); (121240, 110, 4); (121241, 130, 5); (121242, 150, 6); (121243, 170, 7); (121244, 190, 8);
  (121245, 210, 4); (121246, 230, 5); (121247, 250, 6); (121248, 270, 7); (121249, 290, 8); (121250, 310, 4)].

(* @src include/ingestion/scenarios_ext5.hpp:154-203 scenario_1251 .. scenario_1300 *)
Definition scenarios_1251 : list row := [
  (121251, 330, 5); (121252, 350, 6); (121253, 370, 7); (121254, 390, 8); (121255, 410, 4); (121256, 430, 5);
  (121257, 450, 6); (121258, 470, 7); (121259, 490, 8); (121260, 510, 4); (121261, 530, 5); (121262, 550, 6);
  (121263, 570, 7); (121264, 590, 8); (121265, 610, 4); (121266, 630, 5); (121267, 650, 6); (121268, 670, 7);
  (121269, 690, 8); (121270, 710, 4); (121271, 730, 5); (121272, 750, 6); (121273, 770, 7); (121274, 790, 8);
  (121275, 810, 4); (121276, 830, 5); (121277, 850, 6); (121278, 870, 7); (121279, 890, 8); (121280, 110, 4);
  (121281, 130, 5); (121282, 150, 6); (121283, 170, 7); (121284, 190, 8); (121285, 210, 4); (121286, 230, 5);
  (121287, 250, 6); (121288, 270, 7); (121289, 290, 8); (121290, 310, 4); (121291, 330, 5); (121292, 350, 6);
  (121293, 370, 7); (121294, 390, 8); (121295, 410, 4); (121296, 430, 5); (121297, 450, 6); (121298, 470, 7);
  (121299, 490, 8); (121300, 510, 4)].

(* @src include/ingestion/scenarios_ext6.hpp:4-153 scenario_1301 .. scenario_1450 *)
Definition scenarios_1301 : list row := [
  (141301, 150, 5); (141302, 180, 5); (141303, 210, 5); (141304, 240, 5); (141305, 270, 5); (141306, 300, 5);
  (141307, 330, 5); (141308, 360, 5); (141309, 390, 5); (141310, 420, 5); (141311, 450, 5); (141312, 480, 5);
  (141313, 510, 5); (141314, 540, 5); (141315, 570, 5); (141316, 600, 5); (141317, 630, 5); (141318, 660, 5);
  (141319, 690, 5); (141320, 720, 5); (141321, 750, 5); (141322, 780, 5); (141323, 810, 5); (141324, 840, 5);
  (141325, 120, 5); (141326, 150, 5); (141327, 180, 5); (141328, 210, 5); (141329, 240, 5); (141330, 270, 5);
  (141331, 300, 5); (141332, 330, 5); (141333, 360, 5); (141334, 390, 5); (141335, 420, 5); (141336, 450, 5);
  (141337, 480, 5); (141338, 510, 5); (141339, 540, 5); (141340, 570, 5); (141341, 600, 5); (141342, 630, 5);
  (141343, 660, 5); (141344, 690, 5); (141345, 720, 5); (141346, 750, 5); (141347, 780, 5); (141348, 810, 5);
  (141349, 840, 5); (141350, 120, 5); (141351, 150, 5); (141352, 180, 5); (141353, 210, 5); (141354, 240, 5);
  (141355, 270, 5); (141356, 300, 5); (141357, 330, 5); (141358, 360, 5); (141359, 390, 5); (141360, 420, 5);
  (141361, 450, 5); (141362, 480, 5); (141363, 510, 5); (141364, 540, 5); (141365, 570, 5); (141366, 600, 5);
  (141367, 630, 5); (141368, 660, 5); (141369, 690, 5); (141370, 720, 5); (141371, 750, 5); (141372, 780, 5);
  (141373, 810, 5); (141374, 840, 5); (141375, 120, 5); (141376, 150, 5); (141377, 180, 5); (141378, 210, 5);
  (141379, 240, 5); (141380, 270, 5); (141381, 300, 5); (141382, 330, 5); (141383, 360, 5); (141384, 390, 5);
  (141385, 420, 5); (141386, 450, 5); (141387, 480, 5); (141388, 510, 5); (141389, 540, 5); (141390, 570, 5);
  (141391, 600, 5); (141392, 630, 5); (141393, 660, 5); (141394, 690, 5); (141395, 720, 5); (141396, 750, 5);
  (141397, 780, 5); (141398, 810, 5); (141399, 840, 5); (141400, 120, 5); (141401, 150, 5); (141402, 180, 5);
  (141403, 210, 5); (141404, 240, 5); (141405, 270, 5); (141406, 300, 5); (141407, 330, 5); (141408, 360, 5);
  (141409, 390, 5); (141410, 420, 5); (141411, 450, 5); (141412, 480, 5); (141413, 510, 5); (141414, 540, 5);
  (141415, 570, 5); (141416, 600, 5); (141417, 630, 5); (141418, 660, 5); (141419, 690, 5); (141420, 720, 5);
  (141421, 750, 5); (141422, 780, 5); (141423, 810, 5); (141424, 840, 5); (141425, 120, 5); (141426, 150, 5);
  (141427, 180, 5); (141428, 210, 5); (141429, 240, 5); (141430, 270, 5); (141431, 300, 5); (141432, 330, 5);
  (141433, 360, 5); (141434, 390, 5); (141435, 420, 5); (141436, 450, 5); (141437, 480, 5); (141438, 510, 5);
  (141439, 540, 5); (141440, 570, 5); (141441, 600, 5); (141442, 630, 5); (141443, 660, 5); (141444, 690, 5);
  (141445, 720, 5); (141446, 750, 5); (141447, 780, 5); (141448, 810, 5); (141449, 840, 5); (141450, 120, 5)].

(* @src include/ingestion/scenarios_ext8.hpp:4-153 scenario_1451 .. scenario_1600 *)
Definition scenarios_1451 : list row := [
  (171451, 350, 5); (171452, 365, 5); (171453, 380, 5); (171454, 395, 5); (171455, 410, 5); (171456, 425, 5);
  (171457, 440, 5); (171458, 455, 5); (171459, 470, 5); (171460, 485, 5); (171461, 500, 5); (171462, 515, 5);
  (171463, 530, 5); (171464, 545, 5); (171465, 560, 5); (171466, 575, 5); (171467, 590, 5); (171468, 605, 5);
  (171469, 620, 5); (171470, 110, 5); (171471, 125, 5); (171472, 140, 5); (171473, 155, 5); (171474, 170, 5);
  (171475, 185, 5); (171476, 200, 5); (171477, 215, 5); (171478, 230, 5); (171479, 245, 5); (171480, 260, 5);
  (171481, 275, 5); (171482, 290, 5); (171483, 305, 5); (171484, 320, 5); (171485, 335, 5); (171486, 350, 5);
  (171487, 365, 5); (171488, 380, 5); (171489, 395, 5); (171490, 410, 5); (171491, 425, 5); (171492, 440, 5);
  (171493, 455, 5); (171494, 470, 5); (171495, 485, 5); (171496, 500, 5); (171497, 515, 5); (171498, 530, 5);
  (171499, 545, 5); (171500, 560, 5); (171501, 575, 5); (171502, 590, 5); (171503, 605, 5); (171504, 620, 5);
  (171505, 110, 5); (171506, 125, 5); (171507, 140, 5); (171508, 155, 5); (171509, 170, 5); (171510, 185, 5);
  (171511, 200, 5); (171512, 215, 5); (171513, 230, 5); (171514, 245, 5); (171515, 260, 5); (171516, 275, 5);
  (171517, 290, 5); (171518, 305, 5); (171519, 320, 5); (171520, 335, 5); (171521, 350, 5); (171522, 365, 5);
  (171523, 380, 5); (171524, 395, 5); (171525, 410, 5); (171526, 425, 5); (171527, 440, 5); (171528, 455, 5);
  (171529, 470, 5); (171530, 485, 5); (171531, 500, 5); (171532, 515, 5); (171533, 530, 5); (171534, 545, 5);
  (171535, 560, 5); (171536, 575, 5); (171537, 590, 5); (171538, 605, 5); (171539, 620, 5); (171540, 110, 5);
  (171541, 125, 5); (171542, 140, 5); (171543, 155, 5); (171544, 170, 5); (171545, 185, 5); (171546, 200, 5);
  (171547, 215, 5); (171548, 230, 5); (171549, 245, 5); (171550, 260, 5); (171551, 275, 5); (171552, 290, 5);
  (171553, 305, 5); (171554, 320, 5); (171555, 335, 5); (171556, 350, 5); (171557, 365, 5); (171558, 380, 5);
  (171559, 395, 5); (171560, 410, 5); (171561, 425, 5); (171562, 440, 5); (171563, 455, 5); (171564, 470, 5);
  (171565, 485, 5); (171566, 500, 5); (171567, 515, 5); (171568, 530, 5); (171569, 545, 5); (171570, 560, 5);
  (171571, 575, 5); (171572, 590, 5); (171573, 605, 5); (171574, 620, 5); (171575, 110, 5); (171576, 125, 5);
  (171577, 140, 5); (171578, 155, 5); (171579, 170, 5); (171580, 185, 5); (171581, 200, 5); (171582, 215, 5);
  (171583, 230, 5); (171584, 245, 5); (171585, 260, 5); (171586, 275, 5); (171587, 290, 5); (171588, 305, 5);
  (171589, 320, 5); (171590, 335, 5); (171591, 350, 5); (171592, 365, 5); (171593, 380, 5); (171594, 395, 5);
  (171595, 410, 5); (171596, 425, 5); (171597, 440, 5); (171598, 455, 5); (171599, 470, 5); (171600, 485, 5)].

(* @src include/ingestion/scenarios_ext8.hpp:154-303 scenario_1601 .. scenario_1750 *)
Definition scenarios_1601 : list row := [
  (171601, 500, 5); (171602, 515, 5); (171603, 530, 5); (171604, 545, 5); (171605, 560, 5); (171606, 575, 5);
  (171607, 590, 5); (171608, 605, 5); (171609, 620, 5); (171610, 110, 5); (171611, 125, 5); (171612, 140, 5);
  (171613, 155, 5); (171614, 170, 5); (171615, 185, 5); (171616, 200, 5); (171617, 215, 5); (171618, 230, 5);
  (171619, 245, 5); (171620, 260, 5); (171621, 275, 5); (171622, 290, 5); (171623, 305, 5); (171624, 320, 5);
  (171625, 335, 5); (171626, 350, 5); (171627, 365, 5); (171628, 380, 5); (171629, 395, 5); (171630, 410, 5);
  (171631, 425, 5); (171632, 440, 5); (171633, 455, 5); (171634, 470, 5); (171635, 485, 5); (171636, 500, 5);
  (171637, 515, 5); (171638, 530, 5); (171639, 545, 5); (171640, 560, 5); (171641, 575, 5); (171642, 590, 5);
  (171643, 605, 5); (171644, 620, 5); (171645, 110, 5); (171646, 125, 5); (171647, 140, 5); (171648, 155, 5);
  (171649, 170, 5); (171650, 185, 5); (171651, 200, 5); (171652, 215, 5); (171653, 230, 5); (171654, 245, 5);
  (171655, 260, 5); (171656, 275, 5); (171657, 290, 5); (171658, 305, 5); (171659, 320, 5); (171660, 335, 5);
  (171661, 350, 5); (171662, 365, 5); (171663, 380, 5); (171664, 395, 5); (171665, 410, 5); (171666, 425, 5);
  (171667, 440, 5); (171668, 455, 5); (171669, 470, 5); (171670, 485, 5); (171671, 500, 5); (171672, 515, 5);
  (171673, 530, 5); (171674, 545, 5); (171675, 560, 5); (171676, 575, 5); (171677, 590, 5); (171678, 605, 5);
  (171679, 620, 5); (171680, 110, 5); (171681, 125, 5); (171682, 140, 5); (171683, 155, 5); (171684, 170, 5);
  (171685, 185, 5); (171686, 200, 5); (171687, 215, 5); (171688, 230, 5); (171689, 245, 5); (171690, 260, 5);
  (171691, 275, 5); (171692, 290, 5); (171693, 305, 5); (171694, 320, 5); (171695, 335, 5); (171696, 350, 5);
  (171697, 365, 5); (171698, 380, 5); (171699, 395, 5); (171700, 410, 5); (171701, 425, 5); (171702, 440, 5);
  (171703, 455, 5); (171704, 470, 5); (171705, 485, 5); (171706, 500, 5); (171707, 515, 5); (171708, 530, 5);
  (171709, 545, 5); (171710, 560, 5); (171711, 575, 5); (171712, 590, 5); (171713, 605, 5); (171714, 620, 5);
  (171715, 110, 5); (171716, 125, 5); (171717, 140, 5); (171718, 155, 5); (171719, 170, 5); (171720, 185, 5);
  (171721, 200, 5); (171722, 215, 5); (171723, 230, 5); (171724, 245, 5); (171725, 260, 5); (171726, 275, 5);
  (171727, 290, 5); (171728, 305, 5); (171729, 320, 5); (171730, 335, 5); (171731, 350, 5); (171732, 365, 5);
  (171733, 380, 5); (171734, 395, 5); (171735, 410, 5); (171736, 425, 5); (171737, 440, 5); (171738, 455, 5);
  (171739, 470, 5); (171740, 485, 5); (171741, 500, 5); (171742, 515, 5); (171743, 530, 5); (171744, 545, 5);
  (171745, 560, 5); (171746, 575, 5); (171747, 590, 5); (171748, 605, 5); (171749, 620, 5); (171750, 110, 5)].

(* @src include/ingestion/scenarios_ext9.hpp:4-153 scenario_1751 .. scenario_1900 *)
Definition scenarios_1751 : list row := [
  (191751, 556, 9); (191752, 567, 4); (191753, 578, 5); (191754, 589, 6); (191755, 105, 7); (191756, 116, 8);
  (191757, 127, 9); (191758, 138, 4); (191759, 149, 5); (191760, 160, 6); (191761, 171, 7); (191762, 182, 8);
  (191763, 193, 9); (191764, 204, 4); (191765, 215, 5); (191766, 226, 6); (191767, 237, 7); (191768, 248, 8);
  (191769, 259, 9); (191770, 270, 4); (191771, 281, 5); (191772, 292, 6); (191773, 303, 7); (191774, 314, 8);
  (191775, 325, 9); (191776, 336, 4); (191777, 347, 5); (191778, 358, 6); (191779, 369, 7); (191780, 380, 8);
  (191781, 391, 9); (191782, 402, 4); (191783, 413, 5); (191784, 424, 6); (191785, 435, 7); (191786, 446, 8);
  (191787, 457, 9); (191788, 468, 4); (191789, 479, 5); (191790, 490, 6); (191791, 501, 7); (191792, 512, 8);
  (191793, 523, 9); (191794, 534, 4); (191795, 545, 5); (191796, 556, 6); (191797, 567, 7); (191798, 578, 8);
  (191799, 589, 9); (191800, 105, 4); (191801, 116, 5); (191802, 127, 6); (191803, 138, 7); (191804, 149, 8);
  (191805, 160, 9); (191806, 171, 4); (191807, 182, 5); (191808, 193, 6); (191809, 204, 7); (191810, 215, 8);
  (191811, 226, 9); (191812, 237, 4); (191813, 248, 5); (191814, 259, 6); (191815, 270, 7); (191816, 281, 8);
  (191817, 292, 9); (191818, 303, 4); (191819, 314, 5); (191820, 325, 6); (191821, 336, 7); (191822, 347, 8);
  (191823, 358, 9); (191824, 369, 4); (191825, 380, 5); (191826, 391, 6); (191827, 402, 7); (191828, 413, 8);
  (191829, 424, 9); (191830, 435, 4); (191831, 446, 5); (191832, 457, 6); (191833, 468, 7); (191834, 479, 8);
  (191835, 490, 9); (191836, 501, 4); (191837, 512, 5); (191838, 523, 6); (191839, 534, 7); (191840, 545, 8);
  (191841, 556, 9); (191842, 567, 4); (191843, 578, 5); (191844, 589, 6); (191845, 105, 7); (191846, 116, 8);
  (191847, 127, 9); (191848, 138, 4); (191849, 149, 5); (191850, 160, 6); (191851, 171, 7); (191852, 182, 8);
  (191853, 193, 9); (191854, 204, 4); (191855, 215, 5); (191856, 226, 6); (191857, 237, 7); (191858, 248, 8);
  (191859, 259, 9); (191860, 270, 4); (191861, 281, 5); (191862, 292, 6); (191863, 303, 7); (191864, 314, 8);
  (191865, 325, 9); (191866, 336, 4); (191867, 347, 5); (191868, 358, 6); (191869, 369, 7); (191870, 380, 8);
  (191871, 391, 9); (191872, 402, 4); (191873, 413, 5); (191874, 424, 6); (191875, 435, 7); (191876, 446, 8);
  (191877, 457, 9); (191878, 468, 4); (191879, 479, 5); (191880, 490, 6); (191881, 501, 7); (191882, 512, 8);
  (191883, 523, 9); (191884, 534, 4); (191885, 545, 5); (191886, 556, 6); (191887, 567, 7); (191888, 578, 8);
  (191889, 589, 9); (191890, 105, 4); (191891, 116, 5); (191892, 127, 6); (191893, 138, 7); (191894, 149, 8);
  (191895, 160, 9); (191896, 171, 4); (191897, 182, 5); (191898, 193, 6); (191899, 204, 7); (191900, 215, 8)].

(* @src include/ingestion/scenarios_ext9.hpp:154-303 scenario_1901 .. scenario_2050 *)
Definition scenarios_1901 : list row := [
  (191901, 226, 9); (191902, 237, 4); (191903, 248, 5); (191904, 259, 6); (191905, 270, 7); (191906, 281, 8);
  (191907, 292, 9); (191908, 303, 4); (191909, 314, 5); (191910, 325, 6); (191911, 336, 7); (191912, 347, 8);
  (191913, 358, 9); (191914, 369, 4); (191915, 380, 5); (191916, 391, 6); (191917, 402, 7); (191918, 413, 8);
  (191919, 424, 9); (191920, 435, 4); (191921, 446, 5); (191922, 457, 6); (191923, 468, 7); (191924, 479, 8);
  (191925, 490, 9); (191926, 501, 4); (191927, 512, 5); (191928, 523, 6); (191929, 534, 7); (191930, 545, 8);
  (191931, 556, 9); (191932, 567, 4); (191933, 578, 5); (191934, 589, 6); (191935, 105, 7); (191936, 116, 8);
  (191937, 127, 9); (191938, 138, 4); (191939, 149, 5); (191940, 160, 6); (191941, 171, 7); (191942, 182, 8);
  (191943, 193, 9); (191944, 204, 4); (191945, 215, 5); (191946, 226, 6); (191947, 237, 7); (191948, 248, 8);
  (191949, 259, 9); (191950, 270, 4); (191951, 281, 5); (191952, 292, 6); (191953, 303, 7); (191954, 314, 8);
  (191955, 325, 9); (191956, 336, 4); (191957, 347, 5); (191958, 358, 6); (191959, 369, 7); (191960, 380, 8);
  (191961, 391, 9); (191962, 402, 4); (191963, 413, 5); (191964, 424, 6); (191965, 435, 7); (191966, 446, 8);
  (191967, 457, 9); (191968, 468, 4); (191969, 479, 5); (191970, 490, 6); (191971, 501, 7); (191972, 512, 8);
  (191973, 523, 9); (191974, 534, 4); (191975, 545, 5); (191976, 556, 6); (191977, 567, 7); (191978, 578, 8);
  (191979, 589, 9); (191980, 105, 4); (191981, 116, 5); (191982, 127, 6); (191983, 138, 7); (191984, 149, 8);
  (191985, 160, 9); (191986, 171, 4); (191987, 182, 5); (191988, 193, 6); (191989, 204, 7); (191990, 215, 8);
  (191991, 226, 9); (191992, 237, 4); (191993, 248, 5); (191994, 259, 6); (191995, 270, 7); (191996, 281, 8);
  (191997, 292, 9); (191998, 303, 4); (191999, 314, 5); (192000, 325, 6); (192001, 336, 7); (192002, 347, 8);
  (192003, 358, 9); (192004, 369, 4); (192005, 380, 5); (192006, 391, 6); (192007, 402, 7); (192008, 413, 8);
  (192009, 424, 9); (192010, 435, 4); (192011, 446, 5); (192012, 457, 6); (192013, 468, 7); (192014, 479, 8);
  (192015, 490, 9); (192016, 501, 4); (192017, 512, 5); (192018, 523, 6); (192019, 534, 7); (192020, 545, 8);
  (192021, 556, 9); (192022, 567, 4); (192023, 578, 5); (192024, 589, 6); (192025, 105, 7); (192026, 116, 8);
  (192027, 127, 9); (192028, 138, 4); (192029, 149, 5); (192030, 160, 6); (192031, 171, 7); (192032, 182, 8);
  (192033, 193, 9); (192034, 204, 4); (192035, 215, 5); (192036, 226, 6); (192037, 237, 7); (192038, 248, 8);
  (192039, 259, 9); (192040, 270, 4); (192041, 281, 5); (192042, 292, 6); (192043, 303, 7); (192044, 314, 8);
  (192045, 325, 9); (192046, 336, 4); (192047, 347, 5); (192048, 358, 6); (192049, 369, 7); (192050, 380, 8)].

(* @src include/ingestion/scenarios_ext9.hpp:304-453 scenario_2051 .. scenario_2200 *)
Definition scenarios_2051 : list row := [
  (192051, 391, 9); (192052, 402, 4); (192053, 413, 5); (192054, 424, 6); (192055, 435, 7); (192056, 446, 8);
  (192057, 457, 9); (192058, 468, 4); (192059, 479, 5); (192060, 490, 6); (192061, 501, 7); (192062, 512, 8);
  (192063, 523, 9); (192064, 534, 4); (192065, 545, 5); (192066, 556, 6); (192067, 567, 7); (192068, 578, 8);
  (192069, 589, 9); (192070, 105, 4); (192071, 116, 5); (192072, 127, 6); (192073, 138, 7); (192074, 149, 8);
  (192075, 160, 9); (192076, 171, 4); (192077, 182, 5); (192078, 193, 6); (192079, 204, 7); (192080, 215, 8);
  (192081, 226, 9); (192082, 237, 4); (192083, 248, 5); (192084, 259, 6); (192085, 270, 7); (192086, 281, 8);
  (192087, 292, 9); (192088, 303, 4); (192089, 314, 5); (192090, 325, 6); (192091, 336, 7); (192092, 347, 8);
  (192093, 358, 9); (192094, 369, 4); (192095, 380, 5); (192096, 391, 6); (192097, 402, 7); (192098, 413, 8);
  (192099, 424, 9); (192100, 435, 4); (192101, 446, 5); (192102, 457, 6); (192103, 468, 7); (192104, 479, 8);
  (192105, 490, 9); (192106, 501, 4); (192107, 512, 5); (192108, 523, 6); (192109, 534, 7); (192110, 545, 8);
  (192111, 556, 9); (192112, 567, 4); (192113, 578, 5); (192114, 589, 6); (192115, 105, 7); (192116, 116, 8);
  (192117, 127, 9); (192118, 138, 4); (192119, 149, 5); (192120, 160, 6); (192121, 171, 7); (192122, 182, 8);
  (192123, 193, 9); (192124, 204, 4); (192125, 215, 5); (192126, 226, 6); (192127, 237, 7); (192128, 248, 8);
  (192129, 259, 9); (192130, 270, 4); (192131, 281, 5); (192132, 292, 6); (192133, 303, 7); (192134, 314, 8);
  (192135, 325, 9); (192136, 336, 4); (192137, 347, 5); (192138, 358, 6); (192139, 369, 7); (192140, 380, 8);
  (192141, 391, 9); (192142, 402, 4); (192143, 413, 5); (192144, 424, 6); (192145, 435, 7); (192146, 446, 8);
  (192147, 457, 9); (192148, 468, 4); (192149, 479, 5); (192150, 490, 6); (192151, 501, 7); (192152, 512, 8);
  (192153, 523, 9); (192154, 534, 4); (192155, 545, 5); (192156, 556, 6); (192157, 567, 7); (192158, 578, 8);
  (192159, 589, 9); (192160, 105, 4); (192161, 116, 5); (192162, 127, 6); (192163, 138, 7); (192164, 149, 8);
  (192165, 160, 9); (192166, 171, 4); (192167, 182, 5); (192168, 193, 6); (192169, 204, 7); (192170, 215, 8);
  (192171, 226, 9); (192172, 237, 4); (192173, 248, 5); (192174, 259, 6); (192175, 270, 7); (192176, 281, 8);
  (192177, 292, 9); (192178, 303, 4); (192179, 314, 5); (192180, 325, 6); (192181, 336, 7); (192182, 347, 8);
  (192183, 358, 9); (192184, 369, 4); (192185, 380, 5); (192186, 391, 6); (192187, 402, 7); (192188, 413, 8);
  (192189, 424, 9); (192190, 435, 4); (192191, 446, 5); (192192, 457, 6); (192193, 468, 7); (192194, 479, 8);
  (192195, 490, 9); (192196, 501, 4); (192197, 512, 5); (192198, 523, 6); (192199, 534, 7); (192200, 545, 8)].

(* @src include/ingestion/scenarios_ext9.hpp:454-503 scenario_2201 .. scenario_2250 *)
Definition scenarios_2201 : list row := [
  (192201, 556, 9); (192202, 567, 4); (192203, 578, 5); (192204, 589, 6); (192205, 105, 7); (192206, 116, 8);
  (192207, 127, 9); (192208, 138, 4); (192209, 149, 5); (192210, 160, 6); (192211, 171, 7); (192212, 182, 8);
  (192213, 193, 9); (192214, 204, 4); (192215, 215, 5); (192216, 226, 6); (192217, 237, 7); (192218, 248, 8);
  (192219, 259, 9); (192220, 270, 4); (192221, 281, 5); (192222, 292, 6); (192223, 303, 7); (192224, 314, 8);
  (192225, 325, 9); (192226, 336, 4); (192227, 347, 5); (192228, 358, 6); (192229, 369, 7); (192230, 380, 8);
  (192231, 391, 9); (192232, 402, 4); (192233, 413, 5); (192234, 424, 6); (192235, 435, 7); (192236, 446, 8);
  (192237, 457, 9); (192238, 468, 4); (192239, 479, 5); (192240, 490, 6); (192241, 501, 7); (192242, 512, 8);
  (192243, 523, 9); (192244, 534, 4); (192245, 545, 5); (192246, 556, 6); (192247, 567, 7); (192248, 578, 8);
  (192249, 589, 9); (192250, 105, 4)].

(* @src include/ingestion/scenarios_ext10.hpp:4-153 scenario_2251 .. scenario_2400 *)
Definition scenarios_2251 : list row := [
  (212251, 119, 5); (212252, 128, 5); (212253, 137, 5); (212254, 146, 5); (212255, 155, 5); (212256, 164, 5);
  (212257, 173, 5); (212258, 182, 5); (212259, 191, 5); (212260, 200, 5); (212261, 209, 5); (212262, 218, 5);
  (212263, 227, 5); (212264, 236, 5); (212265, 245, 5); (212266, 254, 5); (212267, 263, 5); (212268, 272, 5);
  (212269, 281, 5); (212270, 290, 5); (212271, 299, 5); (212272, 308, 5); (212273, 317, 5); (212274, 326, 5);
  (212275, 335, 5); (212276, 344, 5); (212277, 353, 5); (212278, 362, 5); (212279, 371, 5); (212280, 380, 5);
  (212281, 389, 5); (212282, 398, 5); (212283, 407, 5); (212284, 416, 5); (212285, 425, 5); (212286, 434, 5);
  (212287, 443, 5); (212288, 452, 5); (212289, 461, 5); (212290, 470, 5); (212291, 479, 5); (212292, 488, 5);
  (212293, 497, 5); (212294, 506, 5); (212295, 515, 5); (212296, 524, 5); (212297, 533, 5); (212298, 542, 5);
  (212299, 551, 5); (212300, 110, 5); (212301, 119, 5); (212302, 128, 5); (212303, 137, 5); (212304, 146, 5);
  (212305, 155, 5); (212306, 164, 5); (212307, 173, 5); (212308, 182, 5); (212309, 191, 5); (212310, 200, 5);
  (212311, 209, 5); (212312, 218, 5); (212313, 227, 5); (212314, 236, 5); (212315, 245, 5); (212316, 254, 5);
  (212317, 263, 5); (212318, 272, 5); (212319, 281, 5); (212320, 290, 5); (212321, 299, 5); (212322, 308, 5);
  (212323, 317, 5); (212324, 326, 5); (212325, 335, 5); (212326, 344, 5); (212327, 353, 5); (212328, 362, 5);
  (212329, 371, 5); (212330, 380, 5); (212331, 389, 5); (212332, 398, 5); (212333, 407, 5); (212334, 416, 5);
  (212335, 425, 5); (212336, 434, 5); (212337, 443, 5); (212338, 452, 5); (212339, 461, 5); (212340, 470, 5);
  (212341, 479, 5); (212342, 488, 5); (212343, 497, 5); (212344, 506, 5); (212345, 515, 5); (212346, 524, 5);
  (212347, 533, 5); (212348, 542, 5); (212349, 551, 5); (212350, 110, 5); (212351, 119, 5); (212352, 128, 5);
  (212353, 137, 5); (212354, 146, 5); (212355, 155, 5); (212356, 164, 5); (212357, 173, 5); (212358, 182, 5);
  (212359, 191, 5); (212360, 200, 5); (212361, 209, 5); (212362, 218, 5); (212363, 227, 5); (212364, 236, 5);
  (212365, 245, 5); (212366, 254, 5); (212367, 263, 5); (212368, 272, 5); (212369, 281, 5); (212370, 290, 5);
  (212371, 299, 5); (212372, 308, 5); (212373, 317, 5); (212374, 326, 5); (212375, 335, 5); (212376, 344, 5);
  (212377, 353, 5); (212378, 362, 5); (212379, 371, 5); (212380, 380, 5); (212381, 389, 5); (212382, 398, 5);
  (212383, 407, 5); (212384, 416, 5); (212385, 425, 5); (212386, 434, 5); (212387, 443, 5); (212388, 452, 5);
  (212389, 461, 5); (212390, 470, 5); (212391, 479, 5); (212392, 488, 5); (212393, 497, 5); (212394, 506, 5);
  (212395, 515, 5); (212396, 524, 5); (212397, 533, 5); (212398, 542, 5); (212399, 551, 5); (212400, 110, 5)].

(* @src include/ingestion/scenarios_ext10.hpp:154-303 scenario_2401 .. scenario_2550 *)
Definition scenarios_2401 : list row := [
  (212401, 119, 5); (212402, 128, 5); (212403, 137, 5); (212404, 146, 5); (212405, 155, 5); (212406, 164, 5);
  (212407, 173, 5); (212408, 182, 5); (212409, 191, 5); (212410, 200, 5); (212411, 209, 5); (212412, 218, 5);
  (212413, 227, 5); (212414, 236, 5); (212415, 245, 5); (212416, 254, 5); (212417, 263, 5); (212418, 272, 5);
  (212419, 281, 5); (212420, 290, 5); (212421, 299, 5); (212422, 308, 5); (212423, 317, 5); (212424, 326, 5);
  (212425, 335, 5); (212426, 344, 5); (212427, 353, 5); (212428, 362, 5); (212429, 371, 5); (212430, 380, 5);
  (212431, 389, 5); (212432, 398, 5); (212433, 407, 5); (212434, 416, 5); (212435, 425, 5); (212436, 434, 5);
  (212437, 443, 5); (212438, 452, 5); (212439, 461, 5); (212440, 470, 5); (212441, 479, 5); (212442, 488, 5);
  (212443, 497, 5); (212444, 506, 5); (212445, 515, 5); (212446, 524, 5); (212447, 533, 5); (212448, 542, 5);
  (212449, 551, 5); (212450, 110, 5); (212451, 119, 5); (212452, 128, 5); (212453, 137, 5); (212454, 146, 5);
  (212455, 155, 5); (212456, 164, 5); (212457, 173, 5); (212458, 182, 5); (212459, 191, 5); (212460, 200, 5);
  (212461, 209, 5); (212462, 218, 5); (212463, 227, 5); (212464, 236, 5); (212465, 245, 5); (212466, 254, 5);
  (212467, 263, 5); (212468, 272, 5); (212469, 281, 5); (212470, 290, 5); (212471, 299, 5); (212472, 308, 5);
  (212473, 317, 5); (212474, 326, 5); (212475, 335, 5); (212476, 344, 5); (212477, 353, 5); (212478, 362, 5);
  (212479, 371, 5); (212480, 380, 5); (212481, 389, 5); (212482, 398, 5); (212483, 407, 5); (212484, 416, 5);
  (212485, 425, 5); (212486, 434, 5); (212487, 443, 5); (212488, 452, 5); (212489, 461, 5); (212490, 470, 5);
  (212491, 479, 5); (212492, 488, 5); (212493, 497, 5); (212494, 506, 5); (212495, 515, 5); (212496, 524, 5);
  (212497, 533, 5); (212498, 542, 5); (212499, 551, 5); (212500, 110, 5); (212501, 119, 5); (212502, 128, 5);
  (212503, 137, 5); (212504, 146, 5); (212505, 155, 5); (212506, 164, 5); (212507, 173, 5); (212508, 182, 5);
  (212509, 191, 5); (212510, 200, 5); (212511, 209, 5); (212512, 218, 5); (212513, 227, 5); (212514, 236, 5);
  (212515, 245, 5); (212516, 254, 5); (212517, 263, 5); (212518, 272, 5); (212519, 281, 5); (212520, 290, 5);
  (212521, 299, 5); (212522, 308, 5); (212523, 317, 5); (212524, 326, 5); (212525, 335, 5); (212526, 344, 5);
  (212527, 353, 5); (212528, 362, 5); (212529, 371, 5); (212530, 380, 5); (212531, 389, 5); (212532, 398, 5);
  (212533, 407, 5); (212534, 416, 5); (212535, 425, 5); (212536, 434, 5); (212537, 443, 5); (212538, 452, 5);
  (212539, 461, 5); (212540, 470, 5); (212541, 479, 5); (212542, 488, 5); (212543, 497, 5); (212544, 506, 5);
  (212545, 515, 5); (212546, 524, 5); (212547, 533, 5); (212548, 542, 5); (212549, 551, 5); (212550, 110, 5)].

(* @src include/ingestion/scenarios_ext10.hpp:304-453 scenario_2551 .. scenario_2700 *)
Definition scenarios_2551 : list row := [
  (212551, 119, 5); (212552, 128, 5); (212553, 137, 5); (212554, 146, 5); (212555, 155, 5); (212556, 164, 5);
  (212557, 173, 5); (212558, 182, 5); (212559, 191, 5); (212560, 200, 5); (212561, 209, 5); (212562, 218, 5);
  (212563, 227, 5); (212564, 236, 5); (212565, 245, 5); (212566, 254, 5); (212567, 263, 5); (212568, 272, 5);
  (212569, 281, 5); (212570, 290, 5); (212571, 299, 5); (212572, 308, 5); (212573, 317, 5); (212574, 326, 5);
  (212575, 335, 5); (212576, 344, 5); (212577, 353, 5); (212578, 362, 5); (212579, 371, 5); (212580, 380, 5);
  (212581, 389, 5); (212582, 398, 5); (212583, 407, 5); (212584, 416, 5); (212585, 425, 5); (212586, 434, 5);
  (212587, 443, 5); (212588, 452, 5); (212589, 461, 5); (212590, 470, 5); (212591, 479, 5); (212592, 488, 5);
  (212593, 497, 5); (212594, 506, 5); (212595, 515, 5); (212596, 524, 5); (212597, 533, 5); (212598, 542, 5);
  (212599, 551, 5); (212600, 110, 5); (212601, 119, 5); (212602, 128, 5); (212603, 137, 5); (212604, 146, 5);
  (212605, 155, 5); (212606, 164, 5); (212607, 173, 5); (212608, 182, 5); (212609, 191, 5); (212610, 200, 5);
  (212611, 209, 5); (212612, 218, 5); (212613, 227, 5); (212614, 236, 5); (212615, 245, 5); (212616, 254, 5);
  (212617, 263, 5); (212618, 272, 5); (212619, 281, 5); (212620, 290, 5); (212621, 299, 5); (212622, 308, 5);
  (212623, 317, 5); (212624, 326, 5); (212625, 335, 5); (212626, 344, 5); (212627, 353, 5); (212628, 362, 5);
  (212629, 371, 5); (212630, 380, 5); (212631, 389, 5); (212632, 398, 5); (212633, 407, 5); (212634, 416, 5);
  (212635, 425, 5); (212636, 434, 5); (212637, 443, 5); (212638, 452, 5); (212639, 461, 5); (212640, 470, 5);
  (212641, 479, 5); (212642, 488, 5); (212643, 497, 5); (212644, 506, 5); (212645, 515, 5); (212646, 524, 5);
  (212647, 533, 5); (212648, 542, 5); (212649, 551, 5); (212650, 110, 5); (212651, 119, 5); (212652, 128, 5);
  (212653, 137, 5); (212654, 146, 5); (212655, 155, 5); (212656, 164, 5); (212657, 173, 5); (212658, 182, 5);
  (212659, 191, 5); (212660, 200, 5); (212661, 209, 5); (212662, 218, 5); (212663, 227, 5); (212664, 236, 5);
  (212665, 245, 5); (212666, 254, 5); (212667, 263, 5); (212668, 272, 5); (212669, 281, 5); (212670, 290, 5);
  (212671, 299, 5); (212672, 308, 5); (212673, 317, 5); (212674, 326, 5); (212675, 335, 5); (212676, 344, 5);
  (212677, 353, 5); (212678, 362, 5); (212679, 371, 5); (212680, 380, 5); (212681, 389, 5); (212682, 398, 5);
  (212683, 407, 5); (212684, 416, 5); (212685, 425, 5); (212686, 434, 5); (212687, 443, 5); (212688, 452, 5);
  (212689, 461, 5); (212690, 470, 5); (212691, 479, 5); (212692, 488, 5); (212693, 497, 5); (212694, 506, 5);
  (212695, 515, 5); (212696, 524, 5); (212697, 533, 5); (212698, 542, 5); (212699, 551, 5); (212700, 110, 5)].

(* @src include/ingestion/scenarios_ext10.hpp:454-603 scenario_2701 .. scenario_2850 *)
Definition scenarios_2701 : list row := [
  (212701, 119, 5); (212702, 128, 5); (212703, 137, 5); (212704, 146, 5); (212705, 155, 5); (212706, 164, 5);
  (212707, 173, 5); (212708, 182, 5); (212709, 191, 5); (212710, 200, 5); (212711, 209, 5); (212712, 218, 5);
  (212713, 227, 5); (212714, 236, 5); (212715, 245, 5); (212716, 254, 5); (212717, 263, 5); (212718, 272, 5);
  (212719, 281, 5); (212720, 290, 5); (212721, 299, 5); (212722, 308, 5); (212723, 317, 5); (212724, 326, 5);
  (212725, 335, 5); (212726, 344, 5); (212727, 353, 5); (212728, 362, 5); (212729, 371, 5); (212730, 380, 5);
  (212731, 389, 5); (212732, 398, 5); (212733, 407, 5); (212734, 416, 5); (212735, 425, 5); (212736, 434, 5);
  (212737, 443, 5); (212738, 452, 5); (212739, 461, 5); (212740, 470, 5); (212741, 479, 5); (212742, 488, 5);
  (212743, 497, 5); (212744, 506, 5); (212745, 515, 5); (212746, 524, 5); (212747, 533, 5); (212748, 542, 5);
  (212749, 551, 5); (212750, 110, 5); (212751, 119, 5); (212752, 128, 5); (212753, 137, 5); (212754, 146, 5);
  (212755, 155, 5); (212756, 164, 5); (212757, 173, 5); (212758, 182, 5); (212759, 191, 5); (212760, 200, 5);
  (212761, 209, 5); (212762, 218, 5); (212763, 227, 5); (212764, 236, 5); (212765, 245, 5); (212766, 254, 5);
  (212767, 263, 5); (212768, 272, 5); (212769, 281, 5); (212770, 290, 5); (212771, 299, 5); (212772, 308, 5);
  (212773, 317, 5); (212774, 326, 5); (212775, 335, 5); (212776, 344, 5); (212777, 353, 5); (212778, 362, 5);
  (212779, 371, 5); (212780, 380, 5); (212781, 389, 5); (212782, 398, 5); (212783, 407, 5); (212784, 416, 5);
  (212785, 425, 5); (212786, 434, 5); (212787, 443, 5); (212788, 452, 5); (212789, 461, 5); (212790, 470, 5);
  (212791, 479, 5); (212792, 488, 5); (212793, 497, 5); (212794, 506, 5); (212795, 515, 5); (212796, 524, 5);
  (212797, 533, 5); (212798, 542, 5); (212799, 551, 5); (212800, 110, 5); (212801, 119, 5); (212802, 128, 5);
  (212803, 137, 5); (212804, 146, 5); (212805, 155, 5); (212806, 164, 5); (212807, 173, 5); (212808, 182, 5);
  (212809, 191, 5); (212810, 200, 5); (212811, 209, 5); (212812, 218, 5); (212813, 227, 5); (212814, 236, 5);
  (212815, 245, 5); (212816, 254, 5); (212817, 263, 5); (212818, 272, 5); (212819, 281, 5); (212820, 290, 5);
  (212821, 299, 5); (212822, 308, 5); (212823, 317, 5); (212824, 326, 5); (212825, 335, 5); (212826, 344, 5);
  (212827, 353, 5); (212828, 362, 5); (212829, 371, 5); (212830, 380, 5); (212831, 389, 5); (212832, 398, 5);
  (212833, 407, 5); (212834, 416, 5); (212835, 425, 5); (212836, 434, 5); (212837, 443, 5); (212838, 452, 5);
  (212839, 461, 5); (212840, 470, 5); (212841, 479, 5); (212842, 488, 5); (212843, 497, 5); (212844, 506, 5);
  (212845, 515, 5); (212846, 524, 5); (212847, 533, 5); (212848, 542, 5); (212849, 551, 5); (212850, 110, 5)].

(* @src include/ingestion/scenarios_ext11.hpp:4-153 scenario_2851 .. scenario_3000 *)
Definition scenarios_2851 : list row := [
  (232851, 225, 4); (232852, 235, 4); (232853, 245, 4); (232854, 255, 4); (232855, 265, 4); (232856, 275, 4);
  (232857, 285, 4); (232858, 295, 4); (232859, 305, 4); (232860, 315, 4); (232861, 325, 4); (232862, 335, 4);
  (232863, 345, 4); (232864, 355, 4); (232865, 365, 4); (232866, 375, 4); (232867, 385, 4); (232868, 395, 4);
  (232869, 405, 4); (232870, 415, 4); (232871, 425, 4); (232872, 435, 4); (232873, 445, 4); (232874, 455, 4);
  (232875, 465, 4); (232876, 475, 4); (232877, 485, 4); (232878, 495, 4); (232879, 505, 4); (232880, 115, 4);
  (232881, 125, 4); (232882, 135, 4); (232883, 145, 4); (232884, 155, 4); (232885, 165, 4); (232886, 175, 4);
  (232887, 185, 4); (232888, 195, 4); (232889, 205, 4); (232890, 215, 4); (232891, 225, 4); (232892, 235, 4);
  (232893, 245, 4); (232894, 255, 4); (232895, 265, 4); (232896, 275, 4); (232897, 285, 4); (232898, 295, 4);
  (232899, 305, 4); (232900, 315, 4); (232901, 325, 4); (232902, 335, 4); (232903, 345, 4); (232904, 355, 4);
  (232905, 365, 4); (232906, 375, 4); (232907, 385, 4); (232908, 395, 4); (232909, 405, 4); (232910, 415, 4);
  (232911, 425, 4); (232912, 435, 4); (232913, 445, 4); (232914, 455, 4); (232915, 465, 4); (232916, 475, 4);
  (232917, 485, 4); (232918, 495, 4); (232919, 505, 4); (232920, 115, 4); (232921, 125, 4); (232922, 135, 4);
  (232923, 145, 4); (232924, 155, 4); (232925, 165, 4); (232926, 175, 4); (232927, 185, 4); (232928, 195, 4);
  (232929, 205, 4); (232930, 215, 4); (232931, 225, 4); (232932, 235, 4); (232933, 245, 4); (232934, 255, 4);
  (232935, 265, 4); (232936, 275, 4); (232937, 285, 4); (232938, 295, 4); (232939, 305, 4); (232940, 315, 4);
  (232941, 325, 4); (232942, 335, 4); (232943, 345, 4); (232944, 355, 4); (232945, 365, 4); (232946, 375, 4);
  (232947, 385, 4); (232948, 395, 4); (232949, 405, 4); (232950, 415, 4); (232951, 425, 4); (232952, 435, 4);
  (232953, 445, 4); (232954, 455, 4); (232955, 465, 4); (232956, 475, 4); (232957, 485, 4); (232958, 495, 4);
  (232959, 505, 4); (232960, 115, 4); (232961, 125, 4); (232962, 135, 4); (232963, 145, 4); (232964, 155, 4);
  (232965, 165, 4); (232966, 175, 4); (232967, 185, 4); (232968, 195, 4); (232969, 205, 4); (232970, 215, 4);
  (232971, 225, 4); (232972, 235, 4); (232973, 245, 4); (232974, 255, 4); (232975, 265, 4); (232976, 275, 4);
  (232977, 285, 4); (232978, 295, 4); (232979, 305, 4); (232980, 315, 4); (232981, 325, 4); (232982, 335, 4);
  (232983, 345, 4); (232984, 355, 4); (232985, 365, 4); (232986, 375, 4); (232987, 385, 4); (232988, 395, 4);
  (232989, 405, 4); (232990, 415, 4); (232991, 425, 4); (232992, 435, 4); (232993, 445, 4); (232994, 455, 4);
  (232995, 465, 4); (232996, 475, 4); (232997, 485, 4); (232998, 495, 4); (232999, 505, 4); (233000, 115, 4)].

(* @src include/ingestion/scenarios_ext11.hpp:154-303 scenario_3001 .. scenario_3150 *)
Definition scenarios_3001 : list row := [
  (233001, 125, 4); (233002, 135, 4); (233003, 145, 4); (233004, 155, 4); (233005, 165, 4); (233006, 175, 4);
  (233007, 185, 4); (233008, 195, 4); (233009, 205, 4); (233010, 215, 4); (233011, 225, 4); (233012, 235, 4);
  (233013, 245, 4); (233014, 255, 4); (233015, 265, 4); (233016, 275, 4); (233017, 285, 4); (233018, 295, 4);
  (233019, 305, 4); (233020, 315, 4); (233021, 325, 4); (233022, 335, 4); (233023, 345, 4); (233024, 355, 4);
  (233025, 365, 4); (233026, 375, 4); (233027, 385, 4); (233028, 395, 4); (233029, 405, 4); (233030, 415, 4);
  (233031, 425, 4); (233032, 435, 4); (233033, 445, 4); (233034, 455, 4); (233035, 465, 4); (233036, 475, 4);
  (233037, 485, 4); (233038, 495, 4); (233039, 505, 4); (233040, 115, 4); (233041, 125, 4); (233042, 135, 4);
  (233043, 145, 4); (233044, 155, 4); (233045, 165, 4); (233046, 175, 4); (233047, 185, 4); (233048, 195, 4);
  (233049, 205, 4); (233050, 215, 4); (233051, 225, 4); (233052, 235, 4); (233053, 245, 4); (233054, 255, 4);
  (233055, 265, 4); (233056, 275, 4); (233057, 285, 4); (233058, 295, 4); (233059, 305, 4); (233060, 315, 4);
  (233061, 325, 4); (233062, 335, 4); (233063, 345, 4); (233064, 355, 4); (233065, 365, 4); (233066, 375, 4);
  (233067, 385, 4); (233068, 395, 4); (233069, 405, 4); (233070, 415, 4); (233071, 425, 4); (233072, 435, 4);
  (233073, 445, 4); (233074, 455, 4); (233075, 465, 4); (233076, 475, 4); (233077, 485, 4); (233078, 495, 4);
  (233079, 505, 4); (233080, 115, 4); (233081, 125, 4); (233082, 135, 4); (233083, 145, 4); (233084, 155, 4);
  (233085, 165, 4); (233086, 175, 4); (233087, 185, 4); (233088, 195, 4); (233089, 205, 4); (233090, 215, 4);
  (233091, 225, 4); (233092, 235, 4); (233093, 245, 4); (233094, 255, 4); (233095, 265, 4); (233096, 275, 4);
  (233097, 285, 4); (233098, 295, 4); (233099, 305, 4); (233100, 315, 4); (233101, 325, 4); (233102, 335, 4);
  (233103, 345, 4); (233104, 355, 4); (233105, 365, 4); (233106, 375, 4); (233107, 385, 4); (233108, 395, 4);
  (233109, 405, 4); (233110, 415, 4); (233111, 425, 4); (233112, 435, 4); (233113, 445, 4); (233114, 455, 4);
  (233115, 465, 4); (233116, 475, 4); (233117, 485, 4); (233118, 495, 4); (233119, 505, 4); (233120, 115, 4);
  (233121, 125, 4); (233122, 135, 4); (233123, 145, 4); (233124, 155, 4); (233125, 165, 4); (233126, 175, 4);
  (233127, 185, 4); (233128, 195, 4); (233129, 205, 4); (233130, 215, 4); (233131, 225, 4); (233132, 235, 4);
  (233133, 245, 4); (233134, 255, 4); (233135, 265, 4); (233136, 275, 4); (233137, 285, 4); (233138, 295, 4);
  (233139, 305, 4); (233140, 315, 4); (233141, 325, 4); (233142, 335, 4); (233143, 345, 4); (233144, 355, 4);
  (233145, 365, 4); (233146, 375, 4); (233147, 385, 4); (233148, 395, 4); (233149, 405, 4); (233150, 415, 4)].

(* @src include/ingestion/scenarios_ext11.hpp:304-453 scenario_3151 .. scenario_3300 *)
Definition scenarios_3151 : list row := [
  (233151, 425, 4); (233152, 435, 4); (233153, 445, 4); (233154, 455, 4); (233155, 465, 4); (233156, 475, 4);
  (233157, 485, 4); (233158, 495, 4); (233159, 505, 4); (233160, 115, 4); (233161, 125, 4); (233162, 135, 4);
  (233163, 145, 4); (233164, 155, 4); (233165, 165, 4); (233166, 175, 4); (233167, 185, 4); (233168, 195, 4);
  (233169, 205, 4); (233170, 215, 4); (233171, 225, 4); (233172, 235, 4); (233173, 245, 4); (233174, 255, 4);
  (233175, 265, 4); (233176, 275, 4); (233177, 285, 4); (233178, 295, 4); (233179, 305, 4); (233180, 315, 4);
  (233181, 325, 4); (233182, 335, 4); (233183, 345, 4); (233184, 355, 4); (233185, 365, 4); (233186, 375, 4);
  (233187, 385, 4); (233188, 395, 4); (233189, 405, 4); (233190, 415, 4); (233191, 425, 4); (233192, 435, 4);
  (233193, 445, 4); (233194, 455, 4); (233195, 465, 4); (233196, 475, 4); (233197, 485, 4); (233198, 495, 4);
  (233199, 505, 4); (233200, 115, 4); (233201, 125, 4); (233202, 135, 4); (233203, 145, 4); (233204, 155, 4);
  (233205, 165, 4); (233206, 175, 4); (233207, 185, 4); (233208, 195, 4); (233209, 205, 4); (233210, 215, 4);
  (233211, 225, 4); (233212, 235, 4); (233213, 245, 4); (233214, 255, 4); (233215, 265, 4); (233216, 275, 4);
  (233217, 285, 4); (233218, 295, 4); (233219, 305, 4); (233220, 315, 4); (233221, 325, 4); (233222, 335, 4);
  (233223, 345, 4); (233224, 355, 4); (233225, 365, 4); (233226, 375, 4); (233227, 385, 4); (233228, 395, 4);
  (233229, 405, 4); (233230, 415, 4); (233231, 425, 4); (233232, 435, 4); (233233, 445, 4); (233234, 455, 4);
  (233235, 465, 4); (233236, 475, 4); (233237, 485, 4); (233238, 495, 4); (233239, 505, 4); (233240, 115, 4);
  (233241, 125, 4); (233242, 135, 4); (233243, 145, 4); (233244, 155, 4); (233245, 165, 4); (233246, 175, 4);
  (233247, 185, 4); (233248, 195, 4); (233249, 205, 4); (233250, 215, 4); (233251, 225, 4); (233252, 235, 4);
  (233253, 245, 4); (233254, 255, 4); (233255, 265, 4); (233256, 275, 4); (233257, 285, 4); (233258, 295, 4);
  (233259, 305, 4); (233260, 315, 4); (233261, 325, 4); (233262, 335, 4); (233263, 345, 4); (233264, 355, 4);
  (233265, 365, 4); (233266, 375, 4); (233267, 385, 4); (233268, 395, 4); (233269, 405, 4); (233270, 415, 4);
  (233271, 425, 4); (233272, 435, 4); (233273, 445, 4); (233274, 455, 4); (233275, 465, 4); (233276, 475, 4);
  (233277, 485, 4); (233278, 495, 4); (233279, 505, 4); (233280, 115, 4); (233281, 125, 4); (233282, 135, 4);
  (233283, 145, 4); (233284, 155, 4); (233285, 165, 4); (233286, 175, 4); (233287, 185, 4); (233288, 195, 4);
  (233289, 205, 4); (233290, 215, 4); (233291, 225, 4); (233292, 235, 4); (233293, 245, 4); (233294, 255, 4);
  (233295, 265, 4); (233296, 275, 4); (233297, 285, 4); (233298, 295, 4); (233299, 305, 4); (233300, 315, 4)].

(* @src include/ingestion/scenarios_ext11.hpp:454-503 scenario_3301 .. scenario_3350 *)
Definition scenarios_3301 : list row := [
  (233301, 325, 4); (233302, 335, 4); (233303, 345, 4); (233304, 355, 4); (233305, 365, 4); (233306, 375, 4);
  (233307, 385, 4); (233308, 395, 4); (233309, 405, 4); (233310, 415, 4); (233311, 425, 4); (233312, 435, 4);
  (233313, 445, 4); (233314, 455, 4); (233315, 465, 4); (233316, 475, 4); (233317, 485, 4); (233318, 495, 4);
  (233319, 505, 4); (233320, 115, 4); (233321, 125, 4); (233322, 135, 4); (233323, 145, 4); (233324, 155, 4);
  (233325, 165, 4); (233326, 175, 4); (233327, 185, 4); (233328, 195, 4); (233329, 205, 4); (233330, 215, 4);
  (233331, 225, 4); (233332, 235, 4); (233333, 245, 4); (233334, 255, 4); (233335, 265, 4); (233336, 275, 4);
  (233337, 285, 4); (233338, 295, 4); (233339, 305, 4); (233340, 315, 4); (233341, 325, 4); (233342, 335, 4);
  (233343, 345, 4); (233344, 355, 4); (233345, 365, 4); (233346, 375, 4); (233347, 385, 4); (233348, 395, 4);
  (233349, 405, 4); (233350, 415, 4)].

(* @src include/ingestion/scenarios_ext12.hpp:4-153 scenario_3351 .. scenario_3500 *)
Definition scenarios_3351 : list row := [
  (253351, 180, 5); (253352, 210, 5); (253353, 240, 5); (253354, 270, 5); (253355, 300, 5); (253356, 330, 5);
  (253357, 360, 5); (253358, 390, 5); (253359, 420, 5); (253360, 150, 5); (253361, 180, 5); (253362, 210, 5);
  (253363, 240, 5); (253364, 270, 5); (253365, 300, 5); (253366, 330, 5); (253367, 360, 5); (253368, 390, 5);
  (253369, 420, 5); (253370, 150, 5); (253371, 180, 5); (253372, 210, 5); (253373, 240, 5); (253374, 270, 5);
  (253375, 300, 5); (253376, 330, 5); (253377, 360, 5); (253378, 390, 5); (253379, 420, 5); (253380, 150, 5);
  (253381, 180, 5); (253382, 210, 5); (253383, 240, 5); (253384, 270, 5); (253385, 300, 5); (253386, 330, 5);
  (253387, 360, 5); (253388, 390, 5); (253389, 420, 5); (253390, 150, 5); (253391, 180, 5); (253392, 210, 5);
  (253393, 240, 5); (253394, 270, 5); (253395, 300, 5); (253396, 330, 5); (253397, 360, 5); (253398, 390, 5);
  (253399, 420, 5); (253400, 150, 5); (253401, 180, 5); (253402, 210, 5); (253403, 240, 5); (253404, 270, 5);
  (253405, 300, 5); (253406, 330, 5); (253407, 360, 5); (253408, 390, 5); (253409, 420, 5); (253410, 150, 5);
  (253411, 180, 5); (253412, 210, 5); (253413, 240, 5); (253414, 270, 5); (253415, 300, 5); (253416, 330, 5);
  (253417, 360, 5); (253418, 390, 5); (253419, 420, 5); (253420, 150, 5); (253421, 180, 5); (253422, 210, 5);
  (253423, 240, 5); (253424, 270, 5); (253425, 300, 5); (253426, 330, 5); (253427, 360, 5); (253428, 390, 5);
  (253429, 420, 5); (253430, 150, 5); (253431, 180, 5); (253432, 210, 5); (253433, 240, 5); (253434, 270, 5);
  (253435, 300, 5); (253436, 330, 5); (253437, 360, 5); (253438, 390, 5); (253439, 420, 5); (253440, 150, 5);
  (253441, 180, 5); (253442, 210, 5); (253443, 240, 5); (253444, 270, 5); (253445, 300, 5); (253446, 330, 5);
  (253447, 360, 5); (253448, 390, 5); (253449, 420, 5); (253450, 150, 5); (253451, 180, 5); (253452, 210, 5);
  (253453, 240, 5); (253454, 270, 5); (253455, 300, 5); (253456, 330, 5); (253457, 360, 5); (253458, 390, 5);
  (253459, 420, 5); (253460, 150, 5); (253461, 180, 5); (253462, 210, 5); (253463, 240, 5); (253464, 270, 5);
  (253465, 300, 5); (253466, 330, 5); (253467, 360, 5); (253468, 390, 5); (253469, 420, 5); (253470, 150, 5);
  (253471, 180, 5); (253472, 210, 5); (253473, 240, 5); (253474, 270, 5); (253475, 300, 5); (253476, 330, 5);
  (253477, 360, 5); (253478, 390, 5); (253479, 420, 5); (253480, 150, 5); (253481, 180, 5); (253482, 210, 5);
  (253483, 240, 5); (253484, 270, 5); (253485, 300, 5); (253486, 330, 5); (253487, 360, 5); (253488, 390, 5);
  (253489, 420, 5); (253490, 150, 5); (253491, 180, 5); (253492, 210, 5); (253493, 240, 5); (253494, 270, 5);
  (253495, 300, 5); (253496, 330, 5); (253497, 360, 5); (253498, 390, 5); (253499, 420, 5); (253500, 150, 5)].

(* @src include/ingestion/scenarios_ext12.hpp:154-203 scenario_3501 .. scenario_3550 *)
Definition scenarios_3501 : list row := [
  (253501, 180, 5); (253502, 210, 5); (253503, 240, 5); (253504, 270, 5); (253505, 300, 5); (253506, 330, 5);
  (253507, 360, 5); (253508, 390, 5); (253509, 420, 5); (253510, 150, 5); (253511, 180, 5); (253512, 210, 5);
  (253513, 240, 5); (253514, 270, 5); (253515, 300, 5); (253516, 330, 5); (253517, 360, 5); (253518, 390, 5);
  (253519, 420, 5); (253520, 150, 5); (253521, 180, 5); (253522, 210, 5); (253523, 240, 5); (253524, 270, 5);
  (253525, 300, 5); (253526, 330, 5); (253527, 360, 5); (253528, 390, 5); (253529, 420, 5); (253530, 150, 5);
  (253531, 180, 5); (253532, 210, 5); (253533, 240, 5); (253534, 270, 5); (253535, 300, 5); (253536, 330, 5);
  (253537, 360, 5); (253538, 390, 5); (253539, 420, 5); (253540, 150, 5); (253541, 180, 5); (253542, 210, 5);
  (253543, 240, 5); (253544, 270, 5); (253545, 300, 5); (253546, 330, 5); (253547, 360, 5); (253548, 390, 5);
  (253549, 420, 5); (253550, 150, 5)].

Definition base_rows : list row := scenarios_001 ++ scenarios_051 ++ scenarios_101.
Definition ext_rows : list row := scenarios_151.
Definition ext2_rows : list row := scenarios_301 ++ scenarios_451.
Definition ext3_rows : list row := scenarios_551 ++ scenarios_701.
Definition ext4_rows : list row := scenarios_851 ++ scenarios_1001.
Definition ext5_rows : list row := scenarios_1101 ++ scenarios_1251.
Definition ext6_rows : list row := scenarios_1301.
Definition ext8_rows : list row := scenarios_1451 ++ scenarios_1601.
Definition ext9_rows : list row := scenarios_1751 ++ scenarios_1901 ++ scenarios_2051 ++ scenarios_2201.
Definition ext10_rows : list row := scenarios_2251 ++ scenarios_2401 ++ scenarios_2551 ++ scenarios_2701.
Definition ext11_rows : list row := scenarios_2851 ++ scenarios_3001 ++ scenarios_3151 ++ scenarios_3301.
Definition ext12_rows : list row := scenarios_3351 ++ scenarios_3501.

(* @src include/ingestion/scenarios.hpp | inline std::vector<Scenario> allScenarios() *)
Definition allScenarios (log : double -> double) (fixed6 : double -> string) : list Scenario :=
  scenario_of log fixed6 <$> base_rows.

(* @src include/ingestion/scenarios.hpp | inline int scenarioCount() *)
Definition scenarioCount : Z := 150.
(* @src include/ingestion/scenarios_ext.hpp | inline int scenarioCountExt() *)
Definition scenarioCountExt : Z := 150.
(* @src include/ingestion/scenarios_ext2.hpp | inline int scenarioCountExt2() *)
Definition scenarioCountExt2 : Z := 250.
(* @src include/ingestion/scenarios_ext3.hpp | inline int scenarioCountExt3() *)
Definition scenarioCountExt3 : Z := 300.
(* @src include/ingestion/scenarios_ext4.hpp | inline int scenarioCountExt4() *)
Definition scenarioCountExt4 : Z := 250.
(* @src include/ingestion/scenarios_ext5.hpp | inline int scenarioCountExt5() *)
Definition scenarioCountExt5 : Z := 200.
(* @src include/ingestion/scenarios_ext6.hpp | inline int scenarioCountExt6() *)
Definition scenarioCountExt6 : Z := 150.

(** Every scenario of the library. *)
Definition library : list row :=
  base_rows ++ ext_rows ++ ext2_rows ++ ext3_rows ++ ext4_rows ++ ext5_rows
  ++ ext6_rows ++ ext8_rows ++ ext9_rows ++ ext10_rows ++ ext11_rows ++ ext12_rows.

(** * Properties *)

Fixpoint ascending (l : list row) : bool :=
  match l with
  | (g, _, _) :: (((g', _, _) :: _) as l') => (g <? g') && ascending l'
  | _ => true
  end.

Definition row_in_range (r : row) : bool :=
  let '(g, h, t) := r in (0 <=? g) && (g <? 2 ^ 32) && (100 <=? h) && (h <? 1100) && (0 <? t) && (t <=? 13).

Lemma ascending_ids l : ascending l = true -> StronglySorted Z.lt ((fun r => r.1.1) <$> l).
Proof.
  intros H. apply Sorted_StronglySorted; [intros ???; lia|]. induction l as [|[[g h] t] l IH]; [constructor|].
  destruct l as [|[[g' h'] t'] l]; [repeat constructor|]. cbn [ascending] in H. apply andb_prop in H as [Hlt H].
  rewrite fmap_cons. constructor; [by apply IH|]. rewrite fmap_cons. constructor. by apply Z.ltb_lt.
Qed.

Lemma ascending_NoDup l : ascending l = true -> NoDup ((fun r => r.1.1) <$> l).
Proof.
  intros H%ascending_ids. induction H as [|x k Hs IH Hf]; [constructor|]. constructor; [|done].
  intros Hin. rewrite Forall_forall in Hf. specialize (Hf x Hin). lia.
Qed.

(** A multiplier of the tables survives its transport in hundredths. *)
Lemma hundredths_exact : forallb (fun h => fllround (fmul (flit h 100) (of_Z 100)) =? h) (seqZ 100 1000) = true.
Proof. vm_compute. reflexivity. Qed.

Lemma hundredths_survive h : 100 <= h < 1100 -> fllround (fmul (flit h 100) (of_Z 100)) = h.
Proof.
  intros Hh. pose proof hundredths_exact as H. rewrite forallb_forall in H. apply Z.eqb_eq, H.
  apply list_elem_of_In, elem_of_seqZ. lia.
Qed.

Lemma rows_in_range l : forallb row_in_range l = true ->
  Forall (fun '(g, h, t) => 0 <= g < 2 ^ 32 /\ 0 < t <= 13 /\ 100 <= h < 1100 /\ fllround (fmul (flit h 100) (of_Z 100)) = h) l.
Proof.
  intros H. rewrite forallb_forall in H. apply Forall_forall. intros [[g h] t] Hin%list_elem_of_In.
  specialize (H _ Hin). unfold row_in_range in H. rewrite !andb_true_iff in H.
  assert (100 <= h < 1100) as Hh by lia. split_and!; try lia. by apply hundredths_survive.
Qed.

Lemma round_id_inj x y : "round_" +:+ to_string x = "round_" +:+ to_string y -> x = y.
Proof. intros E. apply (inj (String.append "round_")) in E. unfold to_string in E. by apply (inj pretty) in E. Qed.

Lemma library_checked : ascending library = true /\ forallb row_in_range library = true.
Proof. vm_compute. split; reflexivity. Qed.

(** Remark: the scenario library is what its counters announce, and sound: the counts of the files are
    the numbers of their scenarios; all scenarios have different ids; and each multiplier is
    carried exactly by the protocol, which sends it in whole hundredths. *)
Theorem scenario_library_sound (log : double -> double) (fixed6 : double -> string) :
  length (allScenarios log fixed6) = Z.to_nat scenarioCount /\
  length <$> [base_rows; ext_rows; ext2_rows; ext3_rows; ext4_rows; ext5_rows; ext6_rows] =
    Z.to_nat <$> [scenarioCount; scenarioCountExt; scenarioCountExt2; scenarioCountExt3; scenarioCountExt4; scenarioCountExt5; scenarioCountExt6] /\
  NoDup (sc_id <$> (scenario_of log fixed6 <$> library)) /\
  Forall (fun '(g, h, t) => 0 <= g < 2 ^ 56 /\ 0 < t /\ 100 <= h < 1100 /\ fllround (fmul (flit h 100) (of_Z 100)) = h) library.
Proof.
  destruct library_checked as [Ha Hr]. split_and!.
  - unfold allScenarios. by rewrite length_fmap.
  - vm_compute. reflexivity.
  - rewrite <-list_fmap_compose. apply ascending_NoDup in Ha.
    replace (sc_id ∘ scenario_of log fixed6 <$> library) with ((fun g => "round_" +:+ to_string g) <$> ((fun r => r.1.1) <$> library)).
    { apply NoDup_fmap_2; [|done]. intros x y E. by apply round_id_inj in E. }
    rewrite <-list_fmap_compose. apply list_fmap_ext. by intros i [[g h] t] _.
  - eapply list.Forall_impl; [by apply rows_in_range|]. intros [[g h] t] (? & ? & ? & ?). split_and!; try lia.
Qed.
