(* ===== verification/FixtureTables.v ===== *)
(** The fixture library ([include/ingestion/test_fixtures.hpp] and [test_fixtures_ext*.hpp]): 3680
    rounds, one row (game id, final multiplier in hundredths, ticks) for each [fixture_round_NNN]
    and [fixture_mini_N] function, with its hash in the two files that set one, and what holds of
    all of them. *)
From Stdlib Require Import Sorting.Sorted.
From S2P Require Import Prelude Float64 Types Timing Scenarios ScenarioTables.

Open Scope Z_scope.

(** The [RoundSpec] that the function of a row fills: the hash is the default of the struct where
    the function does not set it. *)
Definition spec_of_row (r : row) : RoundSpec :=
  let '(g, h, t) := r in {| rs_gameId := g; rs_finalMult := flit h 100; rs_progressTicks := t; rs_hash := "fixture" |}.

Definition spec_of_hashed (r : row * string) : RoundSpec :=
  let '(g, h, t) := r.1 in {| rs_gameId := g; rs_finalMult := flit h 100; rs_progressTicks := t; rs_hash := r.2 |}.

(* @src include/ingestion/test_fixtures.hpp:41-183 fixture_round_001 .. fixture_round_016 *)
Definition fixtures_001 : list (row * string) := [
  (10001, 110, 4, "h1"); (10002, 120, 5, "h2"); (10003, 130, 6, "h3"); (10004, 140, 7, "h4");
  (10005, 150, 8, "h5"); (10006, 160, 9, "h6"); (10007, 170, 10, "h7"); (10008, 180, 3, "h8");
  (10009, 190, 4, "h9"); (10010, 200, 5, "h10"); (10011, 210, 6, "h11"); (10012, 220, 7, "h12");
  (10013, 230, 8, "h13"); (10014, 240, 9, "h14"); (10015, 250, 10, "h15"); (10016, 260, 3, "h16")].

(* @src include/ingestion/test_fixtures.hpp:185-327 fixture_round_017 .. fixture_round_032 *)
Definition fixtures_017 : list (row * string) := [
  (10017, 270, 4, "h17"); (10018, 280, 5, "h18"); (10019, 290, 6, "h19"); (10020, 300, 7, "h20");
  (10021, 310, 8, "h21"); (10022, 320, 9, "h22"); (10023, 330, 10, "h23"); (10024, 340, 3, "h24");
  (10025, 350, 4, "h25"); (10026, 360, 5, "h26"); (10027, 370, 6, "h27"); (10028, 380, 7, "h28");
  (10029, 390, 8, "h29"); (10030, 400, 9, "h30"); (10031, 410, 10, "h31"); (10032, 420, 3, "h32")].

(* @src include/ingestion/test_fixtures.hpp:329-471 fixture_round_033 .. fixture_round_048 *)
Definition fixtures_033 : list (row * string) := [
  (10033, 430, 4, "h33"); (10034, 440, 5, "h34"); (10035, 450, 6, "h35"); (10036, 460, 7, "h36");
  (10037, 470, 8, "h37"); (10038, 480, 9, "h38"); (10039, 490, 10, "h39"); (10040, 500, 3, "h40");
  (10041, 510, 4, "h41"); (10042, 520, 5, "h42"); (10043, 530, 6, "h43"); (10044, 540, 7, "h44");
  (10045, 550, 8, "h45"); (10046, 560, 9, "h46"); (10047, 570, 10, "h47"); (10048, 580, 3, "h48")].

(* @src include/ingestion/test_fixtures.hpp:473-615 fixture_round_049 .. fixture_round_064 *)
Definition fixtures_049 : list (row * string) := [
  (10049, 590, 4, "h49"); (10050, 100, 5, "h50"); (10051, 110, 6, "h51"); (10052, 120, 7, "h52");
  (10053, 130, 8, "h53"); (10054, 140, 9, "h54"); (10055, 150, 10, "h55"); (10056, 160, 3, "h56");
  (10057, 170, 4, "h57"); (10058, 180, 5, "h58"); (10059, 190, 6, "h59"); (10060, 200, 7, "h60");
  (10061, 210, 8, "h61"); (10062, 220, 9, "h62"); (10063, 230, 10, "h63"); (10064, 240, 3, "h64")].

(* @src include/ingestion/test_fixtures.hpp:617-759 fixture_round_065 .. fixture_round_080 *)
Definition fixtures_065 : list (row * string) := [
  (10065, 250, 4, "h65"); (10066, 260, 5, "h66"); (10067, 270, 6, "h67"); (10068, 280, 7, "h68");
  (10069, 290, 8, "h69"); (10070, 300, 9, "h70"); (10071, 310, 10, "h71"); (10072, 320, 3, "h72");
  (10073, 330, 4, "h73"); (10074, 340, 5, "h74"); (10075, 350, 6, "h75"); (10076, 360, 7, "h76");
  (10077, 370, 8, "h77"); (10078, 380, 9, "h78"); (10079, 390, 10, "h79"); (10080, 400, 3, "h80")].

(* @src include/ingestion/test_fixtures_ext.hpp:4-151 fixture_round_081 .. fixture_round_117 *)
Definition fixtures_081 : list (row * string) := [
  (20081, 352, 4, "x81"); (20082, 364, 5, "x82"); (20083, 376, 6, "x83"); (20084, 388, 7, "x84");
  (20085, 400, 8, "x85"); (20086, 412, 9, "x86"); (20087, 424, 10, "x87"); (20088, 436, 11, "x88");
  (20089, 448, 12, "x89"); (20090, 460, 3, "x90"); (20091, 472, 4, "x91"); (20092, 484, 5, "x92");
  (20093, 496, 6, "x93"); (20094, 508, 7, "x94"); (20095, 520, 8, "x95"); (20096, 532, 9, "x96");
  (20097, 544, 10, "x97"); (20098, 556, 11, "x98"); (20099, 568, 12, "x99"); (20100, 580, 3, "x100");
  (20101, 592, 4, "x101"); (20102, 604, 5, "x102"); (20103, 616, 6, "x103"); (20104, 628, 7, "x104");
  (20105, 640, 8, "x105"); (20106, 652, 9, "x106"); (20107, 664, 10, "x107"); (20108, 676, 11, "x108");
  (20109, 688, 12, "x109"); (20110, 700, 3, "x110"); (20111, 712, 4, "x111"); (20112, 724, 5, "x112");
  (20113, 736, 6, "x113"); (20114, 748, 7, "x114"); (20115, 760, 8, "x115"); (20116, 772, 9, "x116");
  (20117, 784, 10, "x117")].

(* @src include/ingestion/test_fixtures_ext.hpp:152-299 fixture_round_118 .. fixture_round_154 *)
Definition fixtures_118 : list (row * string) := [
  (20118, 796, 11, "x118"); (20119, 808, 12, "x119"); (20120, 100, 3, "x120"); (20121, 112, 4, "x121");
  (20122, 124, 5, "x122"); (20123, 136, 6, "x123"); (20124, 148, 7, "x124"); (20125, 160, 8, "x125");
  (20126, 172, 9, "x126"); (20127, 184, 10, "x127"); (20128, 196, 11, "x128"); (20129, 208, 12, "x129");
  (20130, 220, 3, "x130"); (20131, 232, 4, "x131"); (20132, 244, 5, "x132"); (20133, 256, 6, "x133");
  (20134, 268, 7, "x134"); (20135, 280, 8, "x135"); (20136, 292, 9, "x136"); (20137, 304, 10, "x137");
  (20138, 316, 11, "x138"); (20139, 328, 12, "x139"); (20140, 340, 3, "x140"); (20141, 352, 4, "x141");
  (20142, 364, 5, "x142"); (20143, 376, 6, "x143"); (20144, 388, 7, "x144"); (20145, 400, 8, "x145");
  (20146, 412, 9, "x146"); (20147, 424, 10, "x147"); (20148, 436, 11, "x148"); (20149, 448, 12, "x149");
  (20150, 460, 3, "x150"); (20151, 472, 4, "x151"); (20152, 484, 5, "x152"); (20153, 496, 6, "x153");
  (20154, 508, 7, "x154")].

(* @src include/ingestion/test_fixtures_ext.hpp:300-447 fixture_round_155 .. fixture_round_191 *)
Definition fixtures_155 : list (row * string) := [
  (20155, 520, 8, "x155"); (20156, 532, 9, "x156"); (20157, 544, 10, "x157"); (20158, 556, 11, "x158");
  (20159, 568, 12, "x159"); (20160, 580, 3, "x160"); (20161, 592, 4, "x161"); (20162, 604, 5, "x162");
  (20163, 616, 6, "x163"); (20164, 628, 7, "x164"); (20165, 640, 8, "x165"); (20166, 652, 9, "x166");
  (20167, 664, 10, "x167"); (20168, 676, 11, "x168"); (20169, 688, 12, "x169"); (20170, 700, 3, "x170");
  (20171, 712, 4, "x171"); (20172, 724, 5, "x172"); (20173, 736, 6, "x173"); (20174, 748, 7, "x174");
  (20175, 760, 8, "x175"); (20176, 772, 9, "x176"); (20177, 784, 10, "x177"); (20178, 796, 11, "x178");
  (20179, 808, 12, "x179"); (20180, 100, 3, "x180"); (20181, 112, 4, "x181"); (20182, 124, 5, "x182");
  (20183, 136, 6, "x183"); (20184, 148, 7, "x184"); (20185, 160, 8, "x185"); (20186, 172, 9, "x186");
  (20187, 184, 10, "x187"); (20188, 196, 11, "x188"); (20189, 208, 12, "x189"); (20190, 220, 3, "x190");
  (20191, 232, 4, "x191")].

(* @src include/ingestion/test_fixtures_ext.hpp:448-483 fixture_round_192 .. fixture_round_200 *)
Definition fixtures_192 : list (row * string) := [
  (20192, 244, 5, "x192"); (20193, 256, 6, "x193"); (20194, 268, 7, "x194"); (20195, 280, 8, "x195");
  (20196, 292, 9, "x196"); (20197, 304, 10, "x197"); (20198, 316, 11, "x198"); (20199, 328, 12, "x199");
  (20200, 340, 3, "x200")].

(* @src include/ingestion/test_fixtures_ext2.hpp:4-153 fixture_round_201 .. fixture_round_350 *)
Definition fixtures_201 : list row := [
  (50201, 771, 6); (50202, 782, 7); (50203, 793, 8); (50204, 804, 9); (50205, 815, 10); (50206, 826, 11);
  (50207, 837, 3); (50208, 848, 4); (50209, 859, 5); (50210, 100, 6); (50211, 111, 7); (50212, 122, 8);
  (50213, 133, 9); (50214, 144, 10); (50215, 155, 11); (50216, 166, 3); (50217, 177, 4); (50218, 188, 5);
  (50219, 199, 6); (50220, 210, 7); (50221, 221, 8); (50222, 232, 9); (50223, 243, 10); (50224, 254, 11);
  (50225, 265, 3); (50226, 276, 4); (50227, 287, 5); (50228, 298, 6); (50229, 309, 7); (50230, 320, 8);
  (50231, 331, 9); (50232, 342, 10); (50233, 353, 11); (50234, 364, 3); (50235, 375, 4); (50236, 386, 5);
  (50237, 397, 6); (50238, 408, 7); (50239, 419, 8); (50240, 430, 9); (50241, 441, 10); (50242, 452, 11);
  (50243, 463, 3); (50244, 474, 4); (50245, 485, 5); (50246, 496, 6); (50247, 507, 7); (50248, 518, 8);
  (50249, 529, 9); (50250, 540, 10); (50251, 551, 11); (50252, 562, 3); (50253, 573, 4); (50254, 584, 5);
  (50255, 595, 6); (50256, 606, 7); (50257, 617, 8); (50258, 628, 9); (50259, 639, 10); (50260, 650, 11);
  (50261, 661, 3); (50262, 672, 4); (50263, 683, 5); (50264, 694, 6); (50265, 705, 7); (50266, 716, 8);
  (50267, 727, 9); (50268, 738, 10); (50269, 749, 11); (50270, 760, 3); (50271, 771, 4); (50272, 782, 5);
  (50273, 793, 6); (50274, 804, 7); (50275, 815, 8); (50276, 826, 9); (50277, 837, 10); (50278, 848, 11);
  (50279, 859, 3); (50280, 100, 4); (50281, 111, 5); (50282, 122, 6); (50283, 133, 7); (50284, 144, 8);
  (50285, 155, 9); (50286, 166, 10); (50287, 177, 11); (50288, 188, 3); (50289, 199, 4); (50290, 210, 5);
  (50291, 221, 6); (50292, 232, 7); (50293, 243, 8); (50294, 254, 9); (50295, 265, 10); (50296, 276, 11);
  (50297, 287, 3); (50298, 298, 4); (50299, 309, 5); (50300, 320, 6); (50301, 331, 7); (50302, 342, 8);
  (50303, 353, 9); (50304, 364, 10); (50305, 375, 11); (50306, 386, 3); (50307, 397, 4); (50308, 408, 5);
  (50309, 419, 6); (50310, 430, 7); (50311, 441, 8); (50312, 452, 9); (50313, 463, 10); (50314, 474, 11);
  (50315, 485, 3); (50316, 496, 4); (50317, 507, 5); (50318, 518, 6); (50319, 529, 7); (50320, 540, 8);
  (50321, 551, 9); (50322, 562, 10); (50323, 573, 11); (50324, 584, 3); (50325, 595, 4); (50326, 606, 5);
  (50327, 617, 6); (50328, 628, 7); (50329, 639, 8); (50330, 650, 9); (50331, 661, 10); (50332, 672, 11);
  (50333, 683, 3); (50334, 694, 4); (50335, 705, 5); (50336, 716, 6); (50337, 727, 7); (50338, 738, 8);
  (50339, 749, 9); (50340, 760, 10); (50341, 771, 11); (50342, 782, 3); (50343, 793, 4); (50344, 804, 5);
  (50345, 815, 6); (50346, 826, 7); (50347, 837, 8); (50348, 848, 9); (50349, 859, 10); (50350, 100, 11)].

(* @src include/ingestion/test_fixtures_ext2.hpp:154-253 fixture_round_351 .. fixture_round_450 *)
Definition fixtures_351 : list row := [
  (50351, 111, 3); (50352, 122, 4); (50353, 133, 5); (50354, 144, 6); (50355, 155, 7); (50356, 166, 8);
  (50357, 177, 9); (50358, 188, 10); (50359, 199, 11); (50360, 210, 3); (50361, 221, 4); (50362, 232, 5);
  (50363, 243, 6); (50364, 254, 7); (50365, 265, 8); (50366, 276, 9); (50367, 287, 10); (50368, 298, 11);
  (50369, 309, 3); (50370, 320, 4); (50371, 331, 5); (50372, 342, 6); (50373, 353, 7); (50374, 364, 8);
  (50375, 375, 9); (50376, 386, 10); (50377, 397, 11); (50378, 408, 3); (50379, 419, 4); (50380, 430, 5);
  (50381, 441, 6); (50382, 452, 7); (50383, 463, 8); (50384, 474, 9); (50385, 485, 10); (50386, 496, 11);
  (50387, 507, 3); (50388, 518, 4); (50389, 529, 5); (50390, 540, 6); (50391, 551, 7); (50392, 562, 8);
  (50393, 573, 9); (50394, 584, 10); (50395, 595, 11); (50396, 606, 3); (50397, 617, 4); (50398, 628, 5);
  (50399, 639, 6); (50400, 650, 7); (50401, 661, 8); (50402, 672, 9); (50403, 683, 10); (50404, 694, 11);
  (50405, 705, 3); (50406, 716, 4); (50407, 727, 5); (50408, 738, 6); (50409, 749, 7); (50410, 760, 8);
  (50411, 771, 9); (50412, 782, 10); (50413, 793, 11); (50414, 804, 3); (50415, 815, 4); (50416, 826, 5);
  (50417, 837, 6); (50418, 848, 7); (50419, 859, 8); (50420, 100, 9); (50421, 111, 10); (50422, 122, 11);
  (50423, 133, 3); (50424, 144, 4); (50425, 155, 5); (50426, 166, 6); (50427, 177, 7); (50428, 188, 8);
  (50429, 199, 9); (50430, 210, 10); (50431, 221, 11); (50432, 232, 3); (50433, 243, 4); (50434, 254, 5);
  (50435, 265, 6); (50436, 276, 7); (50437, 287, 8); (50438, 298, 9); (50439, 309, 10); (50440, 320, 11);
  (50441, 331, 3); (50442, 342, 4); (50443, 353, 5); (50444, 364, 6); (50445, 375, 7); (50446, 386, 8);
  (50447, 397, 9); (50448, 408, 10); (50449, 419, 11); (50450, 430, 3)].

(* @src include/ingestion/test_fixtures_ext3.hpp:4-153 fixture_round_451 .. fixture_round_600 *)
Definition fixtures_451 : list row := [
  (70451, 108, 3); (70452, 116, 4); (70453, 124, 5); (70454, 132, 6); (70455, 140, 7); (70456, 148, 8);
  (70457, 156, 9); (70458, 164, 10); (70459, 172, 11); (70460, 180, 12); (70461, 188, 13); (70462, 196, 3);
  (70463, 204, 4); (70464, 212, 5); (70465, 220, 6); (70466, 228, 7); (70467, 236, 8); (70468, 244, 9);
  (70469, 252, 10); (70470, 260, 11); (70471, 268, 12); (70472, 276, 13); (70473, 284, 3); (70474, 292, 4);
  (70475, 300, 5); (70476, 308, 6); (70477, 316, 7); (70478, 324, 8); (70479, 332, 9); (70480, 340, 10);
  (70481, 348, 11); (70482, 356, 12); (70483, 364, 13); (70484, 372, 3); (70485, 380, 4); (70486, 388, 5);
  (70487, 396, 6); (70488, 404, 7); (70489, 412, 8); (70490, 420, 9); (70491, 428, 10); (70492, 436, 11);
  (70493, 444, 12); (70494, 452, 13); (70495, 460, 3); (70496, 468, 4); (70497, 476, 5); (70498, 484, 6);
  (70499, 492, 7); (70500, 500, 8); (70501, 508, 9); (70502, 516, 10); (70503, 524, 11); (70504, 532, 12);
  (70505, 540, 13); (70506, 548, 3); (70507, 556, 4); (70508, 564, 5); (70509, 572, 6); (70510, 580, 7);
  (70511, 588, 8); (70512, 596, 9); (70513, 604, 10); (70514, 612, 11); (70515, 620, 12); (70516, 628, 13);
  (70517, 636, 3); (70518, 644, 4); (70519, 652, 5); (70520, 660, 6); (70521, 668, 7); (70522, 676, 8);
  (70523, 684, 9); (70524, 692, 10); (70525, 700, 11); (70526, 708, 12); (70527, 716, 13); (70528, 724, 3);
  (70529, 732, 4); (70530, 740, 5); (70531, 748, 6); (70532, 756, 7); (70533, 764, 8); (70534, 772, 9);
  (70535, 780, 10); (70536, 788, 11); (70537, 796, 12); (70538, 804, 13); (70539, 812, 3); (70540, 100, 4);
  (70541, 108, 5); (70542, 116, 6); (70543, 124, 7); (70544, 132, 8); (70545, 140, 9); (70546, 148, 10);
  (70547, 156, 11); (70548, 164, 12); (70549, 172, 13); (70550, 180, 3); (70551, 188, 4); (70552, 196, 5);
  (70553, 204, 6); (70554, 212, 7); (70555, 220, 8); (70556, 228, 9); (70557, 236, 10); (70558, 244, 11);
  (70559, 252, 12); (70560, 260, 13); (70561, 268, 3); (70562, 276, 4); (70563, 284, 5); (70564, 292, 6);
  (70565, 300, 7); (70566, 308, 8); (70567, 316, 9); (70568, 324, 10); (70569, 332, 11); (70570, 340, 12);
  (70571, 348, 13); (70572, 356, 3); (70573, 364, 4); (70574, 372, 5); (70575, 380, 6); (70576, 388, 7);
  (70577, 396, 8); (70578, 404, 9); (70579, 412, 10); (70580, 420, 11); (70581, 428, 12); (70582, 436, 13);
  (70583, 444, 3); (70584, 452, 4); (70585, 460, 5); (70586, 468, 6); (70587, 476, 7); (70588, 484, 8);
  (70589, 492, 9); (70590, 500, 10); (70591, 508, 11); (70592, 516, 12); (70593, 524, 13); (70594, 532, 3);
  (70595, 540, 4); (70596, 548, 5); (70597, 556, 6); (70598, 564, 7); (70599, 572, 8); (70600, 580, 9)].

(* @src include/ingestion/test_fixtures_ext3.hpp:154-253 fixture_round_601 .. fixture_round_700 *)
Definition fixtures_601 : list row := [
  (70601, 588, 10); (70602, 596, 11); (70603, 604, 12); (70604, 612, 13); (70605, 620, 3); (70606, 628, 4);
  (70607, 636, 5); (70608, 644, 6); (70609, 652, 7); (70610, 660, 8); (70611, 668, 9); (70612, 676, 10);
  (70613, 684, 11); (70614, 692, 12); (70615, 700, 13); (70616, 708, 3); (70617, 716, 4); (70618, 724, 5);
  (70619, 732, 6); (70620, 740, 7); (70621, 748, 8); (70622, 756, 9); (70623, 764, 10); (70624, 772, 11);
  (70625, 780, 12); (70626, 788, 13); (70627, 796, 3); (70628, 804, 4); (70629, 812, 5); (70630, 100, 6);
  (70631, 108, 7); (70632, 116, 8); (70633, 124, 9); (70634, 132, 10); (70635, 140, 11); (70636, 148, 12);
  (70637, 156, 13); (70638, 164, 3); (70639, 172, 4); (70640, 180, 5); (70641, 188, 6); (70642, 196, 7);
  (70643, 204, 8); (70644, 212, 9); (70645, 220, 10); (70646, 228, 11); (70647, 236, 12); (70648, 244, 13);
  (70649, 252, 3); (70650, 260, 4); (70651, 268, 5); (70652, 276, 6); (70653, 284, 7); (70654, 292, 8);
  (70655, 300, 9); (70656, 308, 10); (70657, 316, 11); (70658, 324, 12); (70659, 332, 13); (70660, 340, 3);
  (70661, 348, 4); (70662, 356, 5); (70663, 364, 6); (70664, 372, 7); (70665, 380, 8); (70666, 388, 9);
  (70667, 396, 10); (70668, 404, 11); (70669, 412, 12); (70670, 420, 13); (70671, 428, 3); (70672, 436, 4);
  (70673, 444, 5); (70674, 452, 6); (70675, 460, 7); (70676, 468, 8); (70677, 476, 9); (70678, 484, 10);
  (70679, 492, 11); (70680, 500, 12); (70681, 508, 13); (70682, 516, 3); (70683, 524, 4); (70684, 532, 5);
  (70685, 540, 6); (70686, 548, 7); (70687, 556, 8); (70688, 564, 9); (70689, 572, 10); (70690, 580, 11);
  (70691, 588, 12); (70692, 596, 13); (70693, 604, 3); (70694, 612, 4); (70695, 620, 5); (70696, 628, 6);
  (70697, 636, 7); (70698, 644, 8); (70699, 652, 9); (70700, 660, 10)].

(* @src include/ingestion/test_fixtures_ext4.hpp:4-153 fixture_round_701 .. fixture_round_850 *)
Definition fixtures_701 : list row := [
  (90701, 706, 9); (90702, 712, 10); (90703, 718, 11); (90704, 724, 4); (90705, 730, 5); (90706, 736, 6);
  (90707, 742, 7); (90708, 748, 8); (90709, 754, 9); (90710, 760, 10); (90711, 766, 11); (90712, 772, 4);
  (90713, 778, 5); (90714, 784, 6); (90715, 790, 7); (90716, 796, 8); (90717, 802, 9); (90718, 808, 10);
  (90719, 814, 11); (90720, 100, 4); (90721, 106, 5); (90722, 112, 6); (90723, 118, 7); (90724, 124, 8);
  (90725, 130, 9); (90726, 136, 10); (90727, 142, 11); (90728, 148, 4); (90729, 154, 5); (90730, 160, 6);
  (90731, 166, 7); (90732, 172, 8); (90733, 178, 9); (90734, 184, 10); (90735, 190, 11); (90736, 196, 4);
  (90737, 202, 5); (90738, 208, 6); (90739, 214, 7); (90740, 220, 8); (90741, 226, 9); (90742, 232, 10);
  (90743, 238, 11); (90744, 244, 4); (90745, 250, 5); (90746, 256, 6); (90747, 262, 7); (90748, 268, 8);
  (90749, 274, 9); (90750, 280, 10); (90751, 286, 11); (90752, 292, 4); (90753, 298, 5); (90754, 304, 6);
  (90755, 310, 7); (90756, 316, 8); (90757, 322, 9); (90758, 328, 10); (90759, 334, 11); (90760, 340, 4);
  (90761, 346, 5); (90762, 352, 6); (90763, 358, 7); (90764, 364, 8); (90765, 370, 9); (90766, 376, 10);
  (90767, 382, 11); (90768, 388, 4); (90769, 394, 5); (90770, 400, 6); (90771, 406, 7); (90772, 412, 8);
  (90773, 418, 9); (90774, 424, 10); (90775, 430, 11); (90776, 436, 4); (90777, 442, 5); (90778, 448, 6);
  (90779, 454, 7); (90780, 460, 8); (90781, 466, 9); (90782, 472, 10); (90783, 478, 11); (90784, 484, 4);
  (90785, 490, 5); (90786, 496, 6); (90787, 502, 7); (90788, 508, 8); (90789, 514, 9); (90790, 520, 10);
  (90791, 526, 11); (90792, 532, 4); (90793, 538, 5); (90794, 544, 6); (90795, 550, 7); (90796, 556, 8);
  (90797, 562, 9); (90798, 568, 10); (90799, 574, 11); (90800, 580, 4); (90801, 586, 5); (90802, 592, 6);
  (90803, 598, 7); (90804, 604, 8); (90805, 610, 9); (90806, 616, 10); (90807, 622, 11); (90808, 628, 4);
  (90809, 634, 5); (90810, 640, 6); (90811, 646, 7); (90812, 652, 8); (90813, 658, 9); (90814, 664, 10);
  (90815, 670, 11); (90816, 676, 4); (90817, 682, 5); (90818, 688, 6); (90819, 694, 7); (90820, 700, 8);
  (90821, 706, 9); (90822, 712, 10); (90823, 718, 11); (90824, 724, 4); (90825, 730, 5); (90826, 736, 6);
  (90827, 742, 7); (90828, 748, 8); (90829, 754, 9); (90830, 760, 10); (90831, 766, 11); (90832, 772, 4);
  (90833, 778, 5); (90834, 784, 6); (90835, 790, 7); (90836, 796, 8); (90837, 802, 9); (90838, 808, 10);
  (90839, 814, 11); (90840, 100, 4); (90841, 106, 5); (90842, 112, 6); (90843, 118, 7); (90844, 124, 8);
  (90845, 130, 9); (90846, 136, 10); (90847, 142, 11); (90848, 148, 4); (90849, 154, 5); (90850, 160, 6)].

(* @src include/ingestion/test_fixtures_ext4.hpp:154-303 fixture_round_851 .. fixture_round_1000 *)
Definition fixtures_851 : list row := [
  (90851, 166, 7); (90852, 172, 8); (90853, 178, 9); (90854, 184, 10); (90855, 190, 11); (90856, 196, 4);
  (90857, 202, 5); (90858, 208, 6); (90859, 214, 7); (90860, 220, 8); (90861, 226, 9); (90862, 232, 10);
  (90863, 238, 11); (90864, 244, 4); (90865, 250, 5); (90866, 256, 6); (90867, 262, 7); (90868, 268, 8);
  (90869, 274, 9); (90870, 280, 10); (90871, 286, 11); (90872, 292, 4); (90873, 298, 5); (90874, 304, 6);
  (90875, 310, 7); (90876, 316, 8); (90877, 322, 9); (90878, 328, 10); (90879, 334, 11); (90880, 340, 4);
  (90881, 346, 5); (90882, 352, 6); (90883, 358, 7); (90884, 364, 8); (90885, 370, 9); (90886, 376, 10);
  (90887, 382, 11); (90888, 388, 4); (90889, 394, 5); (90890, 400, 6); (90891, 406, 7); (90892, 412, 8);
  (90893, 418, 9); (90894, 424, 10); (90895, 430, 11); (90896, 436, 4); (90897, 442, 5); (90898, 448, 6);
  (90899, 454, 7); (90900, 460, 8); (90901, 466, 9); (90902, 472, 10); (90903, 478, 11); (90904, 484, 4);
  (90905, 490, 5); (90906, 496, 6); (90907, 502, 7); (90908, 508, 8); (90909, 514, 9); (90910, 520, 10);
  (90911, 526, 11); (90912, 532, 4); (90913, 538, 5); (90914, 544, 6); (90915, 550, 7); (90916, 556, 8);
  (90917, 562, 9); (90918, 568, 10); (90919, 574, 11); (90920, 580, 4); (90921, 586, 5); (90922, 592, 6);
  (90923, 598, 7); (90924, 604, 8); (90925, 610, 9); (90926, 616, 10); (90927, 622, 11); (90928, 628, 4);
  (90929, 634, 5); (90930, 640, 6); (90931, 646, 7); (90932, 652, 8); (90933, 658, 9); (90934, 664, 10);
  (90935, 670, 11); (90936, 676, 4); (90937, 682, 5); (90938, 688, 6); (90939, 694, 7); (90940, 700, 8);
  (90941, 706, 9); (90942, 712, 10); (90943, 718, 11); (90944, 724, 4); (90945, 730, 5); (90946, 736, 6);
  (90947, 742, 7); (90948, 748, 8); (90949, 754, 9); (90950, 760, 10); (90951, 766, 11); (90952, 772, 4);
  (90953, 778, 5); (90954, 784, 6); (90955, 790, 7); (90956, 796, 8); (90957, 802, 9); (90958, 808, 10);
  (90959, 814, 11); (90960, 100, 4); (90961, 106, 5); (90962, 112, 6); (90963, 118, 7); (90964, 124, 8);
  (90965, 130, 9); (90966, 136, 10); (90967, 142, 11); (90968, 148, 4); (90969, 154, 5); (90970, 160, 6);
  (90971, 166, 7); (90972, 172, 8); (90973, 178, 9); (90974, 184, 10); (90975, 190, 11); (90976, 196, 4);
  (90977, 202, 5); (90978, 208, 6); (90979, 214, 7); (90980, 220, 8); (90981, 226, 9); (90982, 232, 10);
  (90983, 238, 11); (90984, 244, 4); (90985, 250, 5); (90986, 256, 6); (90987, 262, 7); (90988, 268, 8);
  (90989, 274, 9); (90990, 280, 10); (90991, 286, 11); (90992, 292, 4); (90993, 298, 5); (90994, 304, 6);
  (90995, 310, 7); (90996, 316, 8); (90997, 322, 9); (90998, 328, 10); (90999, 334, 11); (91000, 340, 4)].

(* @src include/ingestion/test_fixtures_ext5.hpp:4-153 fixture_round_1001 .. fixture_round_1150 *)
Definition fixtures_1001 : list row := [
  (111001, 115, 10); (111002, 130, 5); (111003, 145, 6); (111004, 160, 7); (111005, 175, 8); (111006, 190, 9);
  (111007, 205, 10); (111008, 220, 5); (111009, 235, 6); (111010, 250, 7); (111011, 265, 8); (111012, 280, 9);
  (111013, 295, 10); (111014, 310, 5); (111015, 325, 6); (111016, 340, 7); (111017, 355, 8); (111018, 370, 9);
  (111019, 385, 10); (111020, 400, 5); (111021, 415, 6); (111022, 430, 7); (111023, 445, 8); (111024, 460, 9);
  (111025, 475, 10); (111026, 490, 5); (111027, 505, 6); (111028, 520, 7); (111029, 535, 8); (111030, 550, 9);
  (111031, 565, 10); (111032, 580, 5); (111033, 595, 6); (111034, 610, 7); (111035, 625, 8); (111036, 640, 9);
  (111037, 655, 10); (111038, 670, 5); (111039, 685, 6); (111040, 700, 7); (111041, 715, 8); (111042, 730, 9);
  (111043, 745, 10); (111044, 760, 5); (111045, 775, 6); (111046, 790, 7); (111047, 805, 8); (111048, 820, 9);
  (111049, 835, 10); (111050, 100, 5); (111051, 115, 6); (111052, 130, 7); (111053, 145, 8); (111054, 160, 9);
  (111055, 175, 10); (111056, 190, 5); (111057, 205, 6); (111058, 220, 7); (111059, 235, 8); (111060, 250, 9);
  (111061, 265, 10); (111062, 280, 5); (111063, 295, 6); (111064, 310, 7); (111065, 325, 8); (111066, 340, 9);
  (111067, 355, 10); (111068, 370, 5); (111069, 385, 6); (111070, 400, 7); (111071, 415, 8); (111072, 430, 9);
  (111073, 445, 10); (111074, 460, 5); (111075, 475, 6); (111076, 490, 7); (111077, 505, 8); (111078, 520, 9);
  (111079, 535, 10); (111080, 550, 5); (111081, 565, 6); (111082, 580, 7); (111083, 595, 8); (111084, 610, 9);
  (111085, 625, 10); (111086, 640, 5); (111087, 655, 6); (111088, 670, 7); (111089, 685, 8); (111090, 700, 9);
  (111091, 715, 10); (111092, 730, 5); (111093, 745, 6); (111094, 760, 7); (111095, 775, 8); (111096, 790, 9);
  (111097, 805, 10); (111098, 820, 5); (111099, 835, 6); (111100, 100, 7); (111101, 115, 8); (111102, 130, 9);
  (111103, 145, 10); (111104, 160, 5); (111105, 175, 6); (111106, 190, 7); (111107, 205, 8); (111108, 220, 9);
  (111109, 235, 10); (111110, 250, 5); (111111, 265, 6); (111112, 280, 7); (111113, 295, 8); (111114, 310, 9);
  (111115, 325, 10); (111116, 340, 5); (111117, 355, 6); (111118, 370, 7); (111119, 385, 8); (111120, 400, 9);
  (111121, 415, 10); (111122, 430, 5); (111123, 445, 6); (111124, 460, 7); (111125, 475, 8); (111126, 490, 9);
  (111127, 505, 10); (111128, 520, 5); (111129, 535, 6); (111130, 550, 7); (111131, 565, 8); (111132, 580, 9);
  (111133, 595, 10); (111134, 610, 5); (111135, 625, 6); (111136, 640, 7); (111137, 655, 8); (111138, 670, 9);
  (111139, 685, 10); (111140, 700, 5); (111141, 715, 6); (111142, 730, 7); (111143, 745, 8); (111144, 760, 9);
  (111145, 775, 10); (111146, 790, 5); (111147, 805, 6); (111148, 820, 7); (111149, 835, 8); (111150, 100, 9)].

(* @src include/ingestion/test_fixtures_ext5.hpp:154-203 fixture_round_1151 .. fixture_round_1200 *)
Definition fixtures_1151 : list row := [
  (111151, 115, 10); (111152, 130, 5); (111153, 145, 6); (111154, 160, 7); (111155, 175, 8); (111156, 190, 9);
  (111157, 205, 10); (111158, 220, 5); (111159, 235, 6); (111160, 250, 7); (111161, 265, 8); (111162, 280, 9);
  (111163, 295, 10); (111164, 310, 5); (111165, 325, 6); (111166, 340, 7); (111167, 355, 8); (111168, 370, 9);
  (111169, 385, 10); (111170, 400, 5); (111171, 415, 6); (111172, 430, 7); (111173, 445, 8); (111174, 460, 9);
  (111175, 475, 10); (111176, 490, 5); (111177, 505, 6); (111178, 520, 7); (111179, 535, 8); (111180, 550, 9);
  (111181, 565, 10); (111182, 580, 5); (111183, 595, 6); (111184, 610, 7); (111185, 625, 8); (111186, 640, 9);
  (111187, 655, 10); (111188, 670, 5); (111189, 685, 6); (111190, 700, 7); (111191, 715, 8); (111192, 730, 9);
  (111193, 745, 10); (111194, 760, 5); (111195, 775, 6); (111196, 790, 7); (111197, 805, 8); (111198, 820, 9);
  (111199, 835, 10); (111200, 100, 5)].

(* @src include/ingestion/test_fixtures_ext6.hpp:4-153 fixture_round_1201 .. fixture_round_1350 *)
Definition fixtures_1201 : list row := [
  (131201, 130, 6); (131202, 155, 7); (131203, 180, 8); (131204, 205, 5); (131205, 230, 6); (131206, 255, 7);
  (131207, 280, 8); (131208, 305, 5); (131209, 330, 6); (131210, 355, 7); (131211, 380, 8); (131212, 405, 5);
  (131213, 430, 6); (131214, 455, 7); (131215, 480, 8); (131216, 505, 5); (131217, 530, 6); (131218, 555, 7);
  (131219, 580, 8); (131220, 605, 5); (131221, 630, 6); (131222, 655, 7); (131223, 680, 8); (131224, 705, 5);
  (131225, 730, 6); (131226, 755, 7); (131227, 780, 8); (131228, 805, 5); (131229, 830, 6); (131230, 105, 7);
  (131231, 130, 8); (131232, 155, 5); (131233, 180, 6); (131234, 205, 7); (131235, 230, 8); (131236, 255, 5);
  (131237, 280, 6); (131238, 305, 7); (131239, 330, 8); (131240, 355, 5); (131241, 380, 6); (131242, 405, 7);
  (131243, 430, 8); (131244, 455, 5); (131245, 480, 6); (131246, 505, 7); (131247, 530, 8); (131248, 555, 5);
  (131249, 580, 6); (131250, 605, 7); (131251, 630, 8); (131252, 655, 5); (131253, 680, 6); (131254, 705, 7);
  (131255, 730, 8); (131256, 755, 5); (131257, 780, 6); (131258, 805, 7); (131259, 830, 8); (131260, 105, 5);
  (131261, 130, 6); (131262, 155, 7); (131263, 180, 8); (131264, 205, 5); (131265, 230, 6); (131266, 255, 7);
  (131267, 280, 8); (131268, 305, 5); (131269, 330, 6); (131270, 355, 7); (131271, 380, 8); (131272, 405, 5);
  (131273, 430, 6); (131274, 455, 7); (131275, 480, 8); (131276, 505, 5); (131277, 530, 6); (131278, 555, 7);
  (131279, 580, 8); (131280, 605, 5); (131281, 630, 6); (131282, 655, 7); (131283, 680, 8); (131284, 705, 5);
  (131285, 730, 6); (131286, 755, 7); (131287, 780, 8); (131288, 805, 5); (131289, 830, 6); (131290, 105, 7);
  (131291, 130, 8); (131292, 155, 5); (131293, 180, 6); (131294, 205, 7); (131295, 230, 8); (131296, 255, 5);
  (131297, 280, 6); (131298, 305, 7); (131299, 330, 8); (131300, 355, 5); (131301, 380, 6); (131302, 405, 7);
  (131303, 430, 8); (131304, 455, 5); (131305, 480, 6); (131306, 505, 7); (131307, 530, 8); (131308, 555, 5);
  (131309, 580, 6); (131310, 605, 7); (131311, 630, 8); (131312, 655, 5); (131313, 680, 6); (131314, 705, 7);
  (131315, 730, 8); (131316, 755, 5); (131317, 780, 6); (131318, 805, 7); (131319, 830, 8); (131320, 105, 5);
  (131321, 130, 6); (131322, 155, 7); (131323, 180, 8); (131324, 205, 5); (131325, 230, 6); (131326, 255, 7);
  (131327, 280, 8); (131328, 305, 5); (131329, 330, 6); (131330, 355, 7); (131331, 380, 8); (131332, 405, 5);
  (131333, 430, 6); (131334, 455, 7); (131335, 480, 8); (131336, 505, 5); (131337, 530, 6); (131338, 555, 7);
  (131339, 580, 8); (131340, 605, 5); (131341, 630, 6); (131342, 655, 7); (131343, 680, 8); (131344, 705, 5);
  (131345, 730, 6); (131346, 755, 7); (131347, 780, 8); (131348, 805, 5); (131349, 830, 6); (131350, 105, 7)].

(* @src include/ingestion/test_fixtures_ext6.hpp:154-203 fixture_round_1351 .. fixture_round_1400 *)
Definition fixtures_1351 : list row := [
  (131351, 130, 8); (131352, 155, 5); (131353, 180, 6); (131354, 205, 7); (131355, 230, 8); (131356, 255, 5);
  (131357, 280, 6); (131358, 305, 7); (131359, 330, 8); (131360, 355, 5); (131361, 380, 6); (131362, 405, 7);
  (131363, 430, 8); (131364, 455, 5); (131365, 480, 6); (131366, 505, 7); (131367, 530, 8); (131368, 555, 5);
  (131369, 580, 6); (131370, 605, 7); (131371, 630, 8); (131372, 655, 5); (131373, 680, 6); (131374, 705, 7);
  (131375, 730, 8); (131376, 755, 5); (131377, 780, 6); (131378, 805, 7); (131379, 830, 8); (131380, 105, 5);
  (131381, 130, 6); (131382, 155, 7); (131383, 180, 8); (131384, 205, 5); (131385, 230, 6); (131386, 255, 7);
  (131387, 280, 8); (131388, 305, 5); (131389, 330, 6); (131390, 355, 7); (131391, 380, 8); (131392, 405, 5);
  (131393, 430, 6); (131394, 455, 7); (131395, 480, 8); (131396, 505, 5); (131397, 530, 6); (131398, 555, 7);
  (131399, 580, 8); (131400, 605, 5)].

(* @src include/ingestion/test_fixtures_ext7.hpp:4-33 fixture_mini_0 .. fixture_mini_29 *)
Definition fixtures_mini_0 : list row := [
  (150000, 150, 10); (150001, 150, 10); (150002, 150, 10); (150003, 150, 10); (150004, 150, 10); (150005, 150, 10);
  (150006, 150, 10); (150007, 150, 10); (150008, 150, 10); (150009, 150, 10); (150010, 150, 10); (150011, 150, 10);
  (150012, 150, 10); (150013, 150, 10); (150014, 150, 10); (150015, 150, 10); (150016, 150, 10); (150017, 150, 10);
  (150018, 150, 10); (150019, 150, 10); (150020, 150, 10); (150021, 150, 10); (150022, 150, 10); (150023, 150, 10);
  (150024, 150, 10); (150025, 150, 10); (150026, 150, 10); (150027, 150, 10); (150028, 150, 10); (150029, 150, 10)].

(* @src include/ingestion/test_fixtures_ext8.hpp:4-153 fixture_round_1401 .. fixture_round_1550 *)
Definition fixtures_1401 : list row := [
  (161401, 120, 5); (161402, 140, 5); (161403, 160, 5); (161404, 180, 5); (161405, 200, 5); (161406, 220, 5);
  (161407, 240, 5); (161408, 260, 5); (161409, 280, 5); (161410, 300, 5); (161411, 320, 5); (161412, 340, 5);
  (161413, 360, 5); (161414, 380, 5); (161415, 400, 5); (161416, 420, 5); (161417, 440, 5); (161418, 460, 5);
  (161419, 480, 5); (161420, 500, 5); (161421, 520, 5); (161422, 540, 5); (161423, 560, 5); (161424, 580, 5);
  (161425, 600, 5); (161426, 620, 5); (161427, 640, 5); (161428, 660, 5); (161429, 680, 5); (161430, 700, 5);
  (161431, 720, 5); (161432, 740, 5); (161433, 760, 5); (161434, 780, 5); (161435, 800, 5); (161436, 820, 5);
  (161437, 840, 5); (161438, 860, 5); (161439, 880, 5); (161440, 100, 5); (161441, 120, 5); (161442, 140, 5);
  (161443, 160, 5); (161444, 180, 5); (161445, 200, 5); (161446, 220, 5); (161447, 240, 5); (161448, 260, 5);
  (161449, 280, 5); (161450, 300, 5); (161451, 320, 5); (161452, 340, 5); (161453, 360, 5); (161454, 380, 5);
  (161455, 400, 5); (161456, 420, 5); (161457, 440, 5); (161458, 460, 5); (161459, 480, 5); (161460, 500, 5);
  (161461, 520, 5); (161462, 540, 5); (161463, 560, 5); (161464, 580, 5); (161465, 600, 5); (161466, 620, 5);
  (161467, 640, 5); (161468, 660, 5); (161469, 680, 5); (161470, 700, 5); (161471, 720, 5); (161472, 740, 5);
  (161473, 760, 5); (161474, 780, 5); (161475, 800, 5); (161476, 820, 5); (161477, 840, 5); (161478, 860, 5);
  (161479, 880, 5); (161480, 100, 5); (161481, 120, 5); (161482, 140, 5); (161483, 160, 5); (161484, 180, 5);
  (161485, 200, 5); (161486, 220, 5); (161487, 240, 5); (161488, 260, 5); (161489, 280, 5); (161490, 300, 5);
  (161491, 320, 5); (161492, 340, 5); (161493, 360, 5); (161494, 380, 5); (161495, 400, 5); (161496, 420, 5);
  (161497, 440, 5); (161498, 460, 5); (161499, 480, 5); (161500, 500, 5); (161501, 520, 5); (161502, 540, 5);
  (161503, 560, 5); (161504, 580, 5); (161505, 600, 5); (161506, 620, 5); (161507, 640, 5); (161508, 660, 5);
  (161509, 680, 5); (161510, 700, 5); (161511, 720, 5); (161512, 740, 5); (161513, 760, 5); (161514, 780, 5);
  (161515, 800, 5); (161516, 820, 5); (161517, 840, 5); (161518, 860, 5); (161519, 880, 5); (161520, 100, 5);
  (161521, 120, 5); (161522, 140, 5); (161523, 160, 5); (161524, 180, 5); (161525, 200, 5); (161526, 220, 5);
  (161527, 240, 5); (161528, 260, 5); (161529, 280, 5); (161530, 300, 5); (161531, 320, 5); (161532, 340, 5);
  (161533, 360, 5); (161534, 380, 5); (161535, 400, 5); (161536, 420, 5); (161537, 440, 5); (161538, 460, 5);
  (161539, 480, 5); (161540, 500, 5); (161541, 520, 5); (161542, 540, 5); (161543, 560, 5); (161544, 580, 5);
  (161545, 600, 5); (161546, 620, 5); (161547, 640, 5); (161548, 660, 5); (161549, 680, 5); (161550, 700, 5)].

(* @src include/ingestion/test_fixtures_ext8.hpp:154-303 fixture_round_1551 .. fixture_round_1700 *)
Definition fixtures_1551 : list row := [
  (161551, 720, 5); (161552, 740, 5); (161553, 760, 5); (161554, 780, 5); (161555, 800, 5); (161556, 820, 5);
  (161557, 840, 5); (161558, 860, 5); (161559, 880, 5); (161560, 100, 5); (161561, 120, 5); (161562, 140, 5);
  (161563, 160, 5); (161564, 180, 5); (161565, 200, 5); (161566, 220, 5); (161567, 240, 5); (161568, 260, 5);
  (161569, 280, 5); (161570, 300, 5); (161571, 320, 5); (161572, 340, 5); (161573, 360, 5); (161574, 380, 5);
  (161575, 400, 5); (161576, 420, 5); (161577, 440, 5); (161578, 460, 5); (161579, 480, 5); (161580, 500, 5);
  (161581, 520, 5); (161582, 540, 5); (161583, 560, 5); (161584, 580, 5); (161585, 600, 5); (161586, 620, 5);
  (161587, 640, 5); (161588, 660, 5); (161589, 680, 5); (161590, 700, 5); (161591, 720, 5); (161592, 740, 5);
  (161593, 760, 5); (161594, 780, 5); (161595, 800, 5); (161596, 820, 5); (161597, 840, 5); (161598, 860, 5);
  (161599, 880, 5); (161600, 100, 5); (161601, 120, 5); (161602, 140, 5); (161603, 160, 5); (161604, 180, 5);
  (161605, 200, 5); (161606, 220, 5); (161607, 240, 5); (161608, 260, 5); (161609, 280, 5); (161610, 300, 5);
  (161611, 320, 5); (161612, 340, 5); (161613, 360, 5); (161614, 380, 5); (161615, 400, 5); (161616, 420, 5);
  (161617, 440, 5); (161618, 460, 5); (161619, 480, 5); (161620, 500, 5); (161621, 520, 5); (161622, 540, 5);
  (161623, 560, 5); (161624, 580, 5); (161625, 600, 5); (161626, 620, 5); (161627, 640, 5); (161628, 660, 5);
  (161629, 680, 5); (161630, 700, 5); (161631, 720, 5); (161632, 740, 5); (161633, 760, 5); (161634, 780, 5);
  (161635, 800, 5); (161636, 820, 5); (161637, 840, 5); (161638, 860, 5); (161639, 880, 5); (161640, 100, 5);
  (161641, 120, 5); (161642, 140, 5); (161643, 160, 5); (161644, 180, 5); (161645, 200, 5); (161646, 220, 5);
  (161647, 240, 5); (161648, 260, 5); (161649, 280, 5); (161650, 300, 5); (161651, 320, 5); (161652, 340, 5);
  (161653, 360, 5); (161654, 380, 5); (161655, 400, 5); (161656, 420, 5); (161657, 440, 5); (161658, 460, 5);
  (161659, 480, 5); (161660, 500, 5); (161661, 520, 5); (161662, 540, 5); (161663, 560, 5); (161664, 580, 5);
  (161665, 600, 5); (161666, 620, 5); (161667, 640, 5); (161668, 660, 5); (161669, 680, 5); (161670, 700, 5);
  (161671, 720, 5); (161672, 740, 5); (161673, 760, 5); (161674, 780, 5); (161675, 800, 5); (161676, 820, 5);
  (161677, 840, 5); (161678, 860, 5); (161679, 880, 5); (161680, 100, 5); (161681, 120, 5); (161682, 140, 5);
  (161683, 160, 5); (161684, 180, 5); (161685, 200, 5); (161686, 220, 5); (161687, 240, 5); (161688, 260, 5);
  (161689, 280, 5); (161690, 300, 5); (161691, 320, 5); (161692, 340, 5); (161693, 360, 5); (161694, 380, 5);
  (161695, 400, 5); (161696, 420, 5); (161697, 440, 5); (161698, 460, 5); (161699, 480, 5); (161700, 500, 5)].

(* @src include/ingestion/test_fixtures_ext9.hpp:4-153 fixture_round_1701 .. fixture_round_1850 *)
Definition fixtures_1701 : list row := [
  (181701, 712, 5); (181702, 724, 6); (181703, 736, 7); (181704, 748, 8); (181705, 100, 4); (181706, 112, 5);
  (181707, 124, 6); (181708, 136, 7); (181709, 148, 8); (181710, 160, 4); (181711, 172, 5); (181712, 184, 6);
  (181713, 196, 7); (181714, 208, 8); (181715, 220, 4); (181716, 232, 5); (181717, 244, 6); (181718, 256, 7);
  (181719, 268, 8); (181720, 280, 4); (181721, 292, 5); (181722, 304, 6); (181723, 316, 7); (181724, 328, 8);
  (181725, 340, 4); (181726, 352, 5); (181727, 364, 6); (181728, 376, 7); (181729, 388, 8); (181730, 400, 4);
  (181731, 412, 5); (181732, 424, 6); (181733, 436, 7); (181734, 448, 8); (181735, 460, 4); (181736, 472, 5);
  (181737, 484, 6); (181738, 496, 7); (181739, 508, 8); (181740, 520, 4); (181741, 532, 5); (181742, 544, 6);
  (181743, 556, 7); (181744, 568, 8); (181745, 580, 4); (181746, 592, 5); (181747, 604, 6); (181748, 616, 7);
  (181749, 628, 8); (181750, 640, 4); (181751, 652, 5); (181752, 664, 6); (181753, 676, 7); (181754, 688, 8);
  (181755, 700, 4); (181756, 712, 5); (181757, 724, 6); (181758, 736, 7); (181759, 748, 8); (181760, 100, 4);
  (181761, 112, 5); (181762, 124, 6); (181763, 136, 7); (181764, 148, 8); (181765, 160, 4); (181766, 172, 5);
  (181767, 184, 6); (181768, 196, 7); (181769, 208, 8); (181770, 220, 4); (181771, 232, 5); (181772, 244, 6);
  (181773, 256, 7); (181774, 268, 8); (181775, 280, 4); (181776, 292, 5); (181777, 304, 6); (181778, 316, 7);
  (181779, 328, 8); (181780, 340, 4); (181781, 352, 5); (181782, 364, 6); (181783, 376, 7); (181784, 388, 8);
  (181785, 400, 4); (181786, 412, 5); (181787, 424, 6); (181788, 436, 7); (181789, 448, 8); (181790, 460, 4);
  (181791, 472, 5); (181792, 484, 6); (181793, 496, 7); (181794, 508, 8); (181795, 520, 4); (181796, 532, 5);
  (181797, 544, 6); (181798, 556, 7); (181799, 568, 8); (181800, 580, 4); (181801, 592, 5); (181802, 604, 6);
  (181803, 616, 7); (181804, 628, 8); (181805, 640, 4); (181806, 652, 5); (181807, 664, 6); (181808, 676, 7);
  (181809, 688, 8); (181810, 700, 4); (181811, 712, 5); (181812, 724, 6); (181813, 736, 7); (181814, 748, 8);
  (181815, 100, 4); (181816, 112, 5); (181817, 124, 6); (181818, 136, 7); (181819, 148, 8); (181820, 160, 4);
  (181821, 172, 5); (181822, 184, 6); (181823, 196, 7); (181824, 208, 8); (181825, 220, 4); (181826, 232, 5);
  (181827, 244, 6); (181828, 256, 7); (181829, 268, 8); (181830, 280, 4); (181831, 292, 5); (181832, 304, 6);
  (181833, 316, 7); (181834, 328, 8); (181835, 340, 4); (181836, 352, 5); (181837, 364, 6); (181838, 376, 7);
  (181839, 388, 8); (181840, 400, 4); (181841, 412, 5); (181842, 424, 6); (181843, 436, 7); (181844, 448, 8);
  (181845, 460, 4); (181846, 472, 5); (181847, 484, 6); (181848, 496, 7); (181849, 508, 8); (181850, 520, 4)].

(* @src include/ingestion/test_fixtures_ext9.hpp:154-303 fixture_round_1851 .. fixture_round_2000 *)
Definition fixtures_1851 : list row := [
  (181851, 532, 5); (181852, 544, 6); (181853, 556, 7); (181854, 568, 8); (181855, 580, 4); (181856, 592, 5);
  (181857, 604, 6); (181858, 616, 7); (181859, 628, 8); (181860, 640, 4); (181861, 652, 5); (181862, 664, 6);
  (181863, 676, 7); (181864, 688, 8); (181865, 700, 4); (181866, 712, 5); (181867, 724, 6); (181868, 736, 7);
  (181869, 748, 8); (181870, 100, 4); (181871, 112, 5); (181872, 124, 6); (181873, 136, 7); (181874, 148, 8);
  (181875, 160, 4); (181876, 172, 5); (181877, 184, 6); (181878, 196, 7); (181879, 208, 8); (181880, 220, 4);
  (181881, 232, 5); (181882, 244, 6); (181883, 256, 7); (181884, 268, 8); (181885, 280, 4); (181886, 292, 5);
  (181887, 304, 6); (181888, 316, 7); (181889, 328, 8); (181890, 340, 4); (181891, 352, 5); (181892, 364, 6);
  (181893, 376, 7); (181894, 388, 8); (181895, 400, 4); (181896, 412, 5); (181897, 424, 6); (181898, 436, 7);
  (181899, 448, 8); (181900, 460, 4); (181901, 472, 5); (181902, 484, 6); (181903, 496, 7); (181904, 508, 8);
  (181905, 520, 4); (181906, 532, 5); (181907, 544, 6); (181908, 556, 7); (181909, 568, 8); (181910, 580, 4);
  (181911, 592, 5); (181912, 604, 6); (181913, 616, 7); (181914, 628, 8); (181915, 640, 4); (181916, 652, 5);
  (181917, 664, 6); (181918, 676, 7); (181919, 688, 8); (181920, 700, 4); (181921, 712, 5); (181922, 724, 6);
  (181923, 736, 7); (181924, 748, 8); (181925, 100, 4); (181926, 112, 5); (181927, 124, 6); (181928, 136, 7);
  (181929, 148, 8); (181930, 160, 4); (181931, 172, 5); (181932, 184, 6); (181933, 196, 7); (181934, 208, 8);
  (181935, 220, 4); (181936, 232, 5); (181937, 244, 6); (181938, 256, 7); (181939, 268, 8); (181940, 280, 4);
  (181941, 292, 5); (181942, 304, 6); (181943, 316, 7); (181944, 328, 8); (181945, 340, 4); (181946, 352, 5);
  (181947, 364, 6); (181948, 376, 7); (181949, 388, 8); (181950, 400, 4); (181951, 412, 5); (181952, 424, 6);
  (181953, 436, 7); (181954, 448, 8); (181955, 460, 4); (181956, 472, 5); (181957, 484, 6); (181958, 496, 7);
  (181959, 508, 8); (181960, 520, 4); (181961, 532, 5); (181962, 544, 6); (181963, 556, 7); (181964, 568, 8);
  (181965, 580, 4); (181966, 592, 5); (181967, 604, 6); (181968, 616, 7); (181969, 628, 8); (181970, 640, 4);
  (181971, 652, 5); (181972, 664, 6); (181973, 676, 7); (181974, 688, 8); (181975, 700, 4); (181976, 712, 5);
  (181977, 724, 6); (181978, 736, 7); (181979, 748, 8); (181980, 100, 4); (181981, 112, 5); (181982, 124, 6);
  (181983, 136, 7); (181984, 148, 8); (181985, 160, 4); (181986, 172, 5); (181987, 184, 6); (181988, 196, 7);
  (181989, 208, 8); (181990, 220, 4); (181991, 232, 5); (181992, 244, 6); (181993, 256, 7); (181994, 268, 8);
  (181995, 280, 4); (181996, 292, 5); (181997, 304, 6); (181998, 316, 7); (181999, 328, 8); (182000, 340, 4)].

(* @src include/ingestion/test_fixtures_ext9.hpp:304-453 fixture_round_2001 .. fixture_round_2150 *)
Definition fixtures_2001 : list row := [
  (182001, 352, 5); (182002, 364, 6); (182003, 376, 7); (182004, 388, 8); (182005, 400, 4); (182006, 412, 5);
  (182007, 424, 6); (182008, 436, 7); (182009, 448, 8); (182010, 460, 4); (182011, 472, 5); (182012, 484, 6);
  (182013, 496, 7); (182014, 508, 8); (182015, 520, 4); (182016, 532, 5); (182017, 544, 6); (182018, 556, 7);
  (182019, 568, 8); (182020, 580, 4); (182021, 592, 5); (182022, 604, 6); (182023, 616, 7); (182024, 628, 8);
  (182025, 640, 4); (182026, 652, 5); (182027, 664, 6); (182028, 676, 7); (182029, 688, 8); (182030, 700, 4);
  (182031, 712, 5); (182032, 724, 6); (182033, 736, 7); (182034, 748, 8); (182035, 100, 4); (182036, 112, 5);
  (182037, 124, 6); (182038, 136, 7); (182039, 148, 8); (182040, 160, 4); (182041, 172, 5); (182042, 184, 6);
  (182043, 196, 7); (182044, 208, 8); (182045, 220, 4); (182046, 232, 5); (182047, 244, 6); (182048, 256, 7);
  (182049, 268, 8); (182050, 280, 4); (182051, 292, 5); (182052, 304, 6); (182053, 316, 7); (182054, 328, 8);
  (182055, 340, 4); (182056, 352, 5); (182057, 364, 6); (182058, 376, 7); (182059, 388, 8); (182060, 400, 4);
  (182061, 412, 5); (182062, 424, 6); (182063, 436, 7); (182064, 448, 8); (182065, 460, 4); (182066, 472, 5);
  (182067, 484, 6); (182068, 496, 7); (182069, 508, 8); (182070, 520, 4); (182071, 532, 5); (182072, 544, 6);
  (182073, 556, 7); (182074, 568, 8); (182075, 580, 4); (182076, 592, 5); (182077, 604, 6); (182078, 616, 7);
  (182079, 628, 8); (182080, 640, 4); (182081, 652, 5); (182082, 664, 6); (182083, 676, 7); (182084, 688, 8);
  (182085, 700, 4); (182086, 712, 5); (182087, 724, 6); (182088, 736, 7); (182089, 748, 8); (182090, 100, 4);
  (182091, 112, 5); (182092, 124, 6); (182093, 136, 7); (182094, 148, 8); (182095, 160, 4); (182096, 172, 5);
  (182097, 184, 6); (182098, 196, 7); (182099, 208, 8); (182100, 220, 4); (182101, 232, 5); (182102, 244, 6);
  (182103, 256, 7); (182104, 268, 8); (182105, 280, 4); (182106, 292, 5); (182107, 304, 6); (182108, 316, 7);
  (182109, 328, 8); (182110, 340, 4); (182111, 352, 5); (182112, 364, 6); (182113, 376, 7); (182114, 388, 8);
  (182115, 400, 4); (182116, 412, 5); (182117, 424, 6); (182118, 436, 7); (182119, 448, 8); (182120, 460, 4);
  (182121, 472, 5); (182122, 484, 6); (182123, 496, 7); (182124, 508, 8); (182125, 520, 4); (182126, 532, 5);
  (182127, 544, 6); (182128, 556, 7); (182129, 568, 8); (182130, 580, 4); (182131, 592, 5); (182132, 604, 6);
  (182133, 616, 7); (182134, 628, 8); (182135, 640, 4); (182136, 652, 5); (182137, 664, 6); (182138, 676, 7);
  (182139, 688, 8); (182140, 700, 4); (182141, 712, 5); (182142, 724, 6); (182143, 736, 7); (182144, 748, 8);
  (182145, 100, 4); (182146, 112, 5); (182147, 124, 6); (182148, 136, 7); (182149, 148, 8); (182150, 160, 4)].

(* @src include/ingestion/test_fixtures_ext9.hpp:454-503 fixture_round_2151 .. fixture_round_2200 *)
Definition fixtures_2151 : list row := [
  (182151, 172, 5); (182152, 184, 6); (182153, 196, 7); (182154, 208, 8); (182155, 220, 4); (182156, 232, 5);
  (182157, 244, 6); (182158, 256, 7); (182159, 268, 8); (182160, 280, 4); (182161, 292, 5); (182162, 304, 6);
  (182163, 316, 7); (182164, 328, 8); (182165, 340, 4); (182166, 352, 5); (182167, 364, 6); (182168, 376, 7);
  (182169, 388, 8); (182170, 400, 4); (182171, 412, 5); (182172, 424, 6); (182173, 436, 7); (182174, 448, 8);
  (182175, 460, 4); (182176, 472, 5); (182177, 484, 6); (182178, 496, 7); (182179, 508, 8); (182180, 520, 4);
  (182181, 532, 5); (182182, 544, 6); (182183, 556, 7); (182184, 568, 8); (182185, 580, 4); (182186, 592, 5);
  (182187, 604, 6); (182188, 616, 7); (182189, 628, 8); (182190, 640, 4); (182191, 652, 5); (182192, 664, 6);
  (182193, 676, 7); (182194, 688, 8); (182195, 700, 4); (182196, 712, 5); (182197, 724, 6); (182198, 736, 7);
  (182199, 748, 8); (182200, 100, 4)].

(* @src include/ingestion/test_fixtures_ext10.hpp:4-153 fixture_round_2201 .. fixture_round_2350 *)
Definition fixtures_2201 : list row := [
  (202201, 510, 5); (202202, 520, 5); (202203, 530, 5); (202204, 540, 5); (202205, 550, 5); (202206, 560, 5);
  (202207, 570, 5); (202208, 580, 5); (202209, 590, 5); (202210, 600, 5); (202211, 610, 5); (202212, 620, 5);
  (202213, 630, 5); (202214, 640, 5); (202215, 650, 5); (202216, 660, 5); (202217, 670, 5); (202218, 680, 5);
  (202219, 690, 5); (202220, 100, 5); (202221, 110, 5); (202222, 120, 5); (202223, 130, 5); (202224, 140, 5);
  (202225, 150, 5); (202226, 160, 5); (202227, 170, 5); (202228, 180, 5); (202229, 190, 5); (202230, 200, 5);
  (202231, 210, 5); (202232, 220, 5); (202233, 230, 5); (202234, 240, 5); (202235, 250, 5); (202236, 260, 5);
  (202237, 270, 5); (202238, 280, 5); (202239, 290, 5); (202240, 300, 5); (202241, 310, 5); (202242, 320, 5);
  (202243, 330, 5); (202244, 340, 5); (202245, 350, 5); (202246, 360, 5); (202247, 370, 5); (202248, 380, 5);
  (202249, 390, 5); (202250, 400, 5); (202251, 410, 5); (202252, 420, 5); (202253, 430, 5); (202254, 440, 5);
  (202255, 450, 5); (202256, 460, 5); (202257, 470, 5); (202258, 480, 5); (202259, 490, 5); (202260, 500, 5);
  (202261, 510, 5); (202262, 520, 5); (202263, 530, 5); (202264, 540, 5); (202265, 550, 5); (202266, 560, 5);
  (202267, 570, 5); (202268, 580, 5); (202269, 590, 5); (202270, 600, 5); (202271, 610, 5); (202272, 620, 5);
  (202273, 630, 5); (202274, 640, 5); (202275, 650, 5); (202276, 660, 5); (202277, 670, 5); (202278, 680, 5);
  (202279, 690, 5); (202280, 100, 5); (202281, 110, 5); (202282, 120, 5); (202283, 130, 5); (202284, 140, 5);
  (202285, 150, 5); (202286, 160, 5); (202287, 170, 5); (202288, 180, 5); (202289, 190, 5); (202290, 200, 5);
  (202291, 210, 5); (202292, 220, 5); (202293, 230, 5); (202294, 240, 5); (202295, 250, 5); (202296, 260, 5);
  (202297, 270, 5); (202298, 280, 5); (202299, 290, 5); (202300, 300, 5); (202301, 310, 5); (202302, 320, 5);
  (202303, 330, 5); (202304, 340, 5); (202305, 350, 5); (202306, 360, 5); (202307, 370, 5); (202308, 380, 5);
  (202309, 390, 5); (202310, 400, 5); (202311, 410, 5); (202312, 420, 5); (202313, 430, 5); (202314, 440, 5);
  (202315, 450, 5); (202316, 460, 5); (202317, 470, 5); (202318, 480, 5); (202319, 490, 5); (202320, 500, 5);
  (202321, 510, 5); (202322, 520, 5); (202323, 530, 5); (202324, 540, 5); (202325, 550, 5); (202326, 560, 5);
  (202327, 570, 5); (202328, 580, 5); (202329, 590, 5); (202330, 600, 5); (202331, 610, 5); (202332, 620, 5);
  (202333, 630, 5); (202334, 640, 5); (202335, 650, 5); (202336, 660, 5); (202337, 670, 5); (202338, 680, 5);
  (202339, 690, 5); (202340, 100, 5); (202341, 110, 5); (202342, 120, 5); (202343, 130, 5); (202344, 140, 5);
  (202345, 150, 5); (202346, 160, 5); (202347, 170, 5); (202348, 180, 5); (202349, 190, 5); (202350, 200, 5)].

(* @src include/ingestion/test_fixtures_ext10.hpp:154-303 fixture_round_2351 .. fixture_round_2500 *)
Definition fixtures_2351 : list row := [
  (202351, 210, 5); (202352, 220, 5); (202353, 230, 5); (202354, 240, 5); (202355, 250, 5); (202356, 260, 5);
  (202357, 270, 5); (202358, 280, 5); (202359, 290, 5); (202360, 300, 5); (202361, 310, 5); (202362, 320, 5);
  (202363, 330, 5); (202364, 340, 5); (202365, 350, 5); (202366, 360, 5); (202367, 370, 5); (202368, 380, 5);
  (202369, 390, 5); (202370, 400, 5); (202371, 410, 5); (202372, 420, 5); (202373, 430, 5); (202374, 440, 5);
  (202375, 450, 5); (202376, 460, 5); (202377, 470, 5); (202378, 480, 5); (202379, 490, 5); (202380, 500, 5);
  (202381, 510, 5); (202382, 520, 5); (202383, 530, 5); (202384, 540, 5); (202385, 550, 5); (202386, 560, 5);
  (202387, 570, 5); (202388, 580, 5); (202389, 590, 5); (202390, 600, 5); (202391, 610, 5); (202392, 620, 5);
  (202393, 630, 5); (202394, 640, 5); (202395, 650, 5); (202396, 660, 5); (202397, 670, 5); (202398, 680, 5);
  (202399, 690, 5); (202400, 100, 5); (202401, 110, 5); (202402, 120, 5); (202403, 130, 5); (202404, 140, 5);
  (202405, 150, 5); (202406, 160, 5); (202407, 170, 5); (202408, 180, 5); (202409, 190, 5); (202410, 200, 5);
  (202411, 210, 5); (202412, 220, 5); (202413, 230, 5); (202414, 240, 5); (202415, 250, 5); (202416, 260, 5);
  (202417, 270, 5); (202418, 280, 5); (202419, 290, 5); (202420, 300, 5); (202421, 310, 5); (202422, 320, 5);
  (202423, 330, 5); (202424, 340, 5); (202425, 350, 5); (202426, 360, 5); (202427, 370, 5); (202428, 380, 5);
  (202429, 390, 5); (202430, 400, 5); (202431, 410, 5); (202432, 420, 5); (202433, 430, 5); (202434, 440, 5);
  (202435, 450, 5); (202436, 460, 5); (202437, 470, 5); (202438, 480, 5); (202439, 490, 5); (202440, 500, 5);
  (202441, 510, 5); (202442, 520, 5); (202443, 530, 5); (202444, 540, 5); (202445, 550, 5); (202446, 560, 5);
  (202447, 570, 5); (202448, 580, 5); (202449, 590, 5); (202450, 600, 5); (202451, 610, 5); (202452, 620, 5);
  (202453, 630, 5); (202454, 640, 5); (202455, 650, 5); (202456, 660, 5); (202457, 670, 5); (202458, 680, 5);
  (202459, 690, 5); (202460, 100, 5); (202461, 110, 5); (202462, 120, 5); (202463, 130, 5); (202464, 140, 5);
  (202465, 150, 5); (202466, 160, 5); (202467, 170, 5); (202468, 180, 5); (202469, 190, 5); (202470, 200, 5);
  (202471, 210, 5); (202472, 220, 5); (202473, 230, 5); (202474, 240, 5); (202475, 250, 5); (202476, 260, 5);
  (202477, 270, 5); (202478, 280, 5); (202479, 290, 5); (202480, 300, 5); (202481, 310, 5); (202482, 320, 5);
  (202483, 330, 5); (202484, 340, 5); (202485, 350, 5); (202486, 360, 5); (202487, 370, 5); (202488, 380, 5);
  (202489, 390, 5); (202490, 400, 5); (202491, 410, 5); (202492, 420, 5); (202493, 430, 5); (202494, 440, 5);
  (202495, 450, 5); (202496, 460, 5); (202497, 470, 5); (202498, 480, 5); (202499, 490, 5); (202500, 500, 5)].

(* @src include/ingestion/test_fixtures_ext10.hpp:304-453 fixture_round_2501 .. fixture_round_2650 *)
Definition fixtures_2501 : list row := [
  (202501, 510, 5); (202502, 520, 5); (202503, 530, 5); (202504, 540, 5); (202505, 550, 5); (202506, 560, 5);
  (202507, 570, 5); (202508, 580, 5); (202509, 590, 5); (202510, 600, 5); (202511, 610, 5); (202512, 620, 5);
  (202513, 630, 5); (202514, 640, 5); (202515, 650, 5); (202516, 660, 5); (202517, 670, 5); (202518, 680, 5);
  (202519, 690, 5); (202520, 100, 5); (202521, 110, 5); (202522, 120, 5); (202523, 130, 5); (202524, 140, 5);
  (202525, 150, 5); (202526, 160, 5); (202527, 170, 5); (202528, 180, 5); (202529, 190, 5); (202530, 200, 5);
  (202531, 210, 5); (202532, 220, 5); (202533, 230, 5); (202534, 240, 5); (202535, 250, 5); (202536, 260, 5);
  (202537, 270, 5); (202538, 280, 5); (202539, 290, 5); (202540, 300, 5); (202541, 310, 5); (202542, 320, 5);
  (202543, 330, 5); (202544, 340, 5); (202545, 350, 5); (202546, 360, 5); (202547, 370, 5); (202548, 380, 5);
  (202549, 390, 5); (202550, 400, 5); (202551, 410, 5); (202552, 420, 5); (202553, 430, 5); (202554, 440, 5);
  (202555, 450, 5); (202556, 460, 5); (202557, 470, 5); (202558, 480, 5); (202559, 490, 5); (202560, 500, 5);
  (202561, 510, 5); (202562, 520, 5); (202563, 530, 5); (202564, 540, 5); (202565, 550, 5); (202566, 560, 5);
  (202567, 570, 5); (202568, 580, 5); (202569, 590, 5); (202570, 600, 5); (202571, 610, 5); (202572, 620, 5);
  (202573, 630, 5); (202574, 640, 5); (202575, 650, 5); (202576, 660, 5); (202577, 670, 5); (202578, 680, 5);
  (202579, 690, 5); (202580, 100, 5); (202581, 110, 5); (202582, 120, 5); (202583, 130, 5); (202584, 140, 5);
  (202585, 150, 5); (202586, 160, 5); (202587, 170, 5); (202588, 180, 5); (202589, 190, 5); (202590, 200, 5);
  (202591, 210, 5); (202592, 220, 5); (202593, 230, 5); (202594, 240, 5); (202595, 250, 5); (202596, 260, 5);
  (202597, 270, 5); (202598, 280, 5); (202599, 290, 5); (202600, 300, 5); (202601, 310, 5); (202602, 320, 5);
  (202603, 330, 5); (202604, 340, 5); (202605, 350, 5); (202606, 360, 5); (202607, 370, 5); (202608, 380, 5);
  (202609, 390, 5); (202610, 400, 5); (202611, 410, 5); (202612, 420, 5); (202613, 430, 5); (202614, 440, 5);
  (202615, 450, 5); (202616, 460, 5); (202617, 470, 5); (202618, 480, 5); (202619, 490, 5); (202620, 500, 5);
  (202621, 510, 5); (202622, 520, 5); (202623, 530, 5); (202624, 540, 5); (202625, 550, 5); (202626, 560, 5);
  (202627, 570, 5); (202628, 580, 5); (202629, 590, 5); (202630, 600, 5); (202631, 610, 5); (202632, 620, 5);
  (202633, 630, 5); (202634, 640, 5); (202635, 650, 5); (202636, 660, 5); (202637, 670, 5); (202638, 680, 5);
  (202639, 690, 5); (202640, 100, 5); (202641, 110, 5); (202642, 120, 5); (202643, 130, 5); (202644, 140, 5);
  (202645, 150, 5); (202646, 160, 5); (202647, 170, 5); (202648, 180, 5); (202649, 190, 5); (202650, 200, 5)].

(* @src include/ingestion/test_fixtures_ext10.hpp:454-603 fixture_round_2651 .. fixture_round_2800 *)
Definition fixtures_2651 : list row := [
  (202651, 210, 5); (202652, 220, 5); (202653, 230, 5); (202654, 240, 5); (202655, 250, 5); (202656, 260, 5);
  (202657, 270, 5); (202658, 280, 5); (202659, 290, 5); (202660, 300, 5); (202661, 310, 5); (202662, 320, 5);
  (202663, 330, 5); (202664, 340, 5); (202665, 350, 5); (202666, 360, 5); (202667, 370, 5); (202668, 380, 5);
  (202669, 390, 5); (202670, 400, 5); (202671, 410, 5); (202672, 420, 5); (202673, 430, 5); (202674, 440, 5);
  (202675, 450, 5); (202676, 460, 5); (202677, 470, 5); (202678, 480, 5); (202679, 490, 5); (202680, 500, 5);
  (202681, 510, 5); (202682, 520, 5); (202683, 530, 5); (202684, 540, 5); (202685, 550, 5); (202686, 560, 5);
  (202687, 570, 5); (202688, 580, 5); (202689, 590, 5); (202690, 600, 5); (202691, 610, 5); (202692, 620, 5);
  (202693, 630, 5); (202694, 640, 5); (202695, 650, 5); (202696, 660, 5); (202697, 670, 5); (202698, 680, 5);
  (202699, 690, 5); (202700, 100, 5); (202701, 110, 5); (202702, 120, 5); (202703, 130, 5); (202704, 140, 5);
  (202705, 150, 5); (202706, 160, 5); (202707, 170, 5); (202708, 180, 5); (202709, 190, 5); (202710, 200, 5);
  (202711, 210, 5); (202712, 220, 5); (202713, 230, 5); (202714, 240, 5); (202715, 250, 5); (202716, 260, 5);
  (202717, 270, 5); (202718, 280, 5); (202719, 290, 5); (202720, 300, 5); (202721, 310, 5); (202722, 320, 5);
  (202723, 330, 5); (202724, 340, 5); (202725, 350, 5); (202726, 360, 5); (202727, 370, 5); (202728, 380, 5);
  (202729, 390, 5); (202730, 400, 5); (202731, 410, 5); (202732, 420, 5); (202733, 430, 5); (202734, 440, 5);
  (202735, 450, 5); (202736, 460, 5); (202737, 470, 5); (202738, 480, 5); (202739, 490, 5); (202740, 500, 5);
  (202741, 510, 5); (202742, 520, 5); (202743, 530, 5); (202744, 540, 5); (202745, 550, 5); (202746, 560, 5);
  (202747, 570, 5); (202748, 580, 5); (202749, 590, 5); (202750, 600, 5); (202751, 610, 5); (202752, 620, 5);
  (202753, 630, 5); (202754, 640, 5); (202755, 650, 5); (202756, 660, 5); (202757, 670, 5); (202758, 680, 5);
  (202759, 690, 5); (202760, 100, 5); (202761, 110, 5); (202762, 120, 5); (202763, 130, 5); (202764, 140, 5);
  (202765, 150, 5); (202766, 160, 5); (202767, 170, 5); (202768, 180, 5); (202769, 190, 5); (202770, 200, 5);
  (202771, 210, 5); (202772, 220, 5); (202773, 230, 5); (202774, 240, 5); (202775, 250, 5); (202776, 260, 5);
  (202777, 270, 5); (202778, 280, 5); (202779, 290, 5); (202780, 300, 5); (202781, 310, 5); (202782, 320, 5);
  (202783, 330, 5); (202784, 340, 5); (202785, 350, 5); (202786, 360, 5); (202787, 370, 5); (202788, 380, 5);
  (202789, 390, 5); (202790, 400, 5); (202791, 410, 5); (202792, 420, 5); (202793, 430, 5); (202794, 440, 5);
  (202795, 450, 5); (202796, 460, 5); (202797, 470, 5); (202798, 480, 5); (202799, 490, 5); (202800, 500, 5)].

(* @src include/ingestion/test_fixtures_ext11.hpp:4-153 fixture_round_2801 .. fixture_round_2950 *)
Definition fixtures_2801 : list row := [
  (222801, 108, 4); (222802, 116, 4); (222803, 124, 4); (222804, 132, 4); (222805, 140, 4); (222806, 148, 4);
  (222807, 156, 4); (222808, 164, 4); (222809, 172, 4); (222810, 180, 4); (222811, 188, 4); (222812, 196, 4);
  (222813, 204, 4); (222814, 212, 4); (222815, 220, 4); (222816, 228, 4); (222817, 236, 4); (222818, 244, 4);
  (222819, 252, 4); (222820, 260, 4); (222821, 268, 4); (222822, 276, 4); (222823, 284, 4); (222824, 292, 4);
  (222825, 300, 4); (222826, 308, 4); (222827, 316, 4); (222828, 324, 4); (222829, 332, 4); (222830, 340, 4);
  (222831, 348, 4); (222832, 356, 4); (222833, 364, 4); (222834, 372, 4); (222835, 380, 4); (222836, 388, 4);
  (222837, 396, 4); (222838, 404, 4); (222839, 412, 4); (222840, 420, 4); (222841, 428, 4); (222842, 436, 4);
  (222843, 444, 4); (222844, 452, 4); (222845, 460, 4); (222846, 468, 4); (222847, 476, 4); (222848, 484, 4);
  (222849, 492, 4); (222850, 500, 4); (222851, 508, 4); (222852, 516, 4); (222853, 524, 4); (222854, 532, 4);
  (222855, 540, 4); (222856, 548, 4); (222857, 556, 4); (222858, 564, 4); (222859, 572, 4); (222860, 580, 4);
  (222861, 588, 4); (222862, 596, 4); (222863, 604, 4); (222864, 612, 4); (222865, 620, 4); (222866, 628, 4);
  (222867, 636, 4); (222868, 644, 4); (222869, 652, 4); (222870, 100, 4); (222871, 108, 4); (222872, 116, 4);
  (222873, 124, 4); (222874, 132, 4); (222875, 140, 4); (222876, 148, 4); (222877, 156, 4); (222878, 164, 4);
  (222879, 172, 4); (222880, 180, 4); (222881, 188, 4); (222882, 196, 4); (222883, 204, 4); (222884, 212, 4);
  (222885, 220, 4); (222886, 228, 4); (222887, 236, 4); (222888, 244, 4); (222889, 252, 4); (222890, 260, 4);
  (222891, 268, 4); (222892, 276, 4); (222893, 284, 4); (222894, 292, 4); (222895, 300, 4); (222896, 308, 4);
  (222897, 316, 4); (222898, 324, 4); (222899, 332, 4); (222900, 340, 4); (222901, 348, 4); (222902, 356, 4);
  (222903, 364, 4); (222904, 372, 4); (222905, 380, 4); (222906, 388, 4); (222907, 396, 4); (222908, 404, 4);
  (222909, 412, 4); (222910, 420, 4); (222911, 428, 4); (222912, 436, 4); (222913, 444, 4); (222914, 452, 4);
  (222915, 460, 4); (222916, 468, 4); (222917, 476, 4); (222918, 484, 4); (222919, 492, 4); (222920, 500, 4);
  (222921, 508, 4); (222922, 516, 4); (222923, 524, 4); (222924, 532, 4); (222925, 540, 4); (222926, 548, 4);
  (222927, 556, 4); (222928, 564, 4); (222929, 572, 4); (222930, 580, 4); (222931, 588, 4); (222932, 596, 4);
  (222933, 604, 4); (222934, 612, 4); (222935, 620, 4); (222936, 628, 4); (222937, 636, 4); (222938, 644, 4);
  (222939, 652, 4); (222940, 100, 4); (222941, 108, 4); (222942, 116, 4); (222943, 124, 4); (222944, 132, 4);
  (222945, 140, 4); (222946, 148, 4); (222947, 156, 4); (222948, 164, 4); (222949, 172, 4); (222950, 180, 4)].

(* @src include/ingestion/test_fixtures_ext11.hpp:154-303 fixture_round_2951 .. fixture_round_3100 *)
Definition fixtures_2951 : list row := [
  (222951, 188, 4); (222952, 196, 4); (222953, 204, 4); (222954, 212, 4); (222955, 220, 4); (222956, 228, 4);
  (222957, 236, 4); (222958, 244, 4); (222959, 252, 4); (222960, 260, 4); (222961, 268, 4); (222962, 276, 4);
  (222963, 284, 4); (222964, 292, 4); (222965, 300, 4); (222966, 308, 4); (222967, 316, 4); (222968, 324, 4);
  (222969, 332, 4); (222970, 340, 4); (222971, 348, 4); (222972, 356, 4); (222973, 364, 4); (222974, 372, 4);
  (222975, 380, 4); (222976, 388, 4); (222977, 396, 4); (222978, 404, 4); (222979, 412, 4); (222980, 420, 4);
  (222981, 428, 4); (222982, 436, 4); (222983, 444, 4); (222984, 452, 4); (222985, 460, 4); (222986, 468, 4);
  (222987, 476, 4); (222988, 484, 4); (222989, 492, 4); (222990, 500, 4); (222991, 508, 4); (222992, 516, 4);
  (222993, 524, 4); (222994, 532, 4); (222995, 540, 4); (222996, 548, 4); (222997, 556, 4); (222998, 564, 4);
  (222999, 572, 4); (223000, 580, 4); (223001, 588, 4); (223002, 596, 4); (223003, 604, 4); (223004, 612, 4);
  (223005, 620, 4); (223006, 628, 4); (223007, 636, 4); (223008, 644, 4); (223009, 652, 4); (223010, 100, 4);
  (223011, 108, 4); (223012, 116, 4); (223013, 124, 4); (223014, 132, 4); (223015, 140, 4); (223016, 148, 4);
  (223017, 156, 4); (223018, 164, 4); (223019, 172, 4); (223020, 180, 4); (223021, 188, 4); (223022, 196, 4);
  (223023, 204, 4); (223024, 212, 4); (223025, 220, 4); (223026, 228, 4); (223027, 236, 4); (223028, 244, 4);
  (223029, 252, 4); (223030, 260, 4); (223031, 268, 4); (223032, 276, 4); (223033, 284, 4); (223034, 292, 4);
  (223035, 300, 4); (223036, 308, 4); (223037, 316, 4); (223038, 324, 4); (223039, 332, 4); (223040, 340, 4);
  (223041, 348, 4); (223042, 356, 4); (223043, 364, 4); (223044, 372, 4); (223045, 380, 4); (223046, 388, 4);
  (223047, 396, 4); (223048, 404, 4); (223049, 412, 4); (223050, 420, 4); (223051, 428, 4); (223052, 436, 4);
  (223053, 444, 4); (223054, 452, 4); (223055, 460, 4); (223056, 468, 4); (223057, 476, 4); (223058, 484, 4);
  (223059, 492, 4); (223060, 500, 4); (223061, 508, 4); (223062, 516, 4); (223063, 524, 4); (223064, 532, 4);
  (223065, 540, 4); (223066, 548, 4); (223067, 556, 4); (223068, 564, 4); (223069, 572, 4); (223070, 580, 4);
  (223071, 588, 4); (223072, 596, 4); (223073, 604, 4); (223074, 612, 4); (223075, 620, 4); (223076, 628, 4);
  (223077, 636, 4); (223078, 644, 4); (223079, 652, 4); (223080, 100, 4); (223081, 108, 4); (223082, 116, 4);
  (223083, 124, 4); (223084, 132, 4); (223085, 140, 4); (223086, 148, 4); (223087, 156, 4); (223088, 164, 4);
  (223089, 172, 4); (223090, 180, 4); (223091, 188, 4); (223092, 196, 4); (223093, 204, 4); (223094, 212, 4);
  (223095, 220, 4); (223096, 228, 4); (223097, 236, 4); (223098, 244, 4); (223099, 252, 4); (223100, 260, 4)].

(* @src include/ingestion/test_fixtures_ext11.hpp:304-453 fixture_round_3101 .. fixture_round_3250 *)
Definition fixtures_3101 : list row := [
  (223101, 268, 4); (223102, 276, 4); (223103, 284, 4); (223104, 292, 4); (223105, 300, 4); (223106, 308, 4);
  (223107, 316, 4); (223108, 324, 4); (223109, 332, 4); (223110, 340, 4); (223111, 348, 4); (223112, 356, 4);
  (223113, 364, 4); (223114, 372, 4); (223115, 380, 4); (223116, 388, 4); (223117, 396, 4); (223118, 404, 4);
  (223119, 412, 4); (223120, 420, 4); (223121, 428, 4); (223122, 436, 4); (223123, 444, 4); (223124, 452, 4);
  (223125, 460, 4); (223126, 468, 4); (223127, 476, 4); (223128, 484, 4); (223129, 492, 4); (223130, 500, 4);
  (223131, 508, 4); (223132, 516, 4); (223133, 524, 4); (223134, 532, 4); (223135, 540, 4); (223136, 548, 4);
  (223137, 556, 4); (223138, 564, 4); (223139, 572, 4); (223140, 580, 4); (223141, 588, 4); (223142, 596, 4);
  (223143, 604, 4); (223144, 612, 4); (223145, 620, 4); (223146, 628, 4); (223147, 636, 4); (223148, 644, 4);
  (223149, 652, 4); (223150, 100, 4); (223151, 108, 4); (223152, 116, 4); (223153, 124, 4); (223154, 132, 4);
  (223155, 140, 4); (223156, 148, 4); (223157, 156, 4); (223158, 164, 4); (223159, 172, 4); (223160, 180, 4);
  (223161, 188, 4); (223162, 196, 4); (223163, 204, 4); (223164, 212, 4); (223165, 220, 4); (223166, 228, 4);
  (223167, 236, 4); (223168, 244, 4); (223169, 252, 4); (223170, 260, 4); (223171, 268, 4); (223172, 276, 4);
  (223173, 284, 4); (223174, 292, 4); (223175, 300, 4); (223176, 308, 4); (223177, 316, 4); (223178, 324, 4);
  (223179, 332, 4); (223180, 340, 4); (223181, 348, 4); (223182, 356, 4); (223183, 364, 4); (223184, 372, 4);
  (223185, 380, 4); (223186, 388, 4); (223187, 396, 4); (223188, 404, 4); (223189, 412, 4); (223190, 420, 4);
  (223191, 428, 4); (223192, 436, 4); (223193, 444, 4); (223194, 452, 4); (223195, 460, 4); (223196, 468, 4);
  (223197, 476, 4); (223198, 484, 4); (223199, 492, 4); (223200, 500, 4); (223201, 508, 4); (223202, 516, 4);
  (223203, 524, 4); (223204, 532, 4); (223205, 540, 4); (223206, 548, 4); (223207, 556, 4); (223208, 564, 4);
  (223209, 572, 4); (223210, 580, 4); (223211, 588, 4); (223212, 596, 4); (223213, 604, 4); (223214, 612, 4);
  (223215, 620, 4); (223216, 628, 4); (223217, 636, 4); (223218, 644, 4); (223219, 652, 4); (223220, 100, 4);
  (223221, 108, 4); (223222, 116, 4); (223223, 124, 4); (223224, 132, 4); (223225, 140, 4); (223226, 148, 4);
  (223227, 156, 4); (223228, 164, 4); (223229, 172, 4); (223230, 180, 4); (223231, 188, 4); (223232, 196, 4);
  (223233, 204, 4); (223234, 212, 4); (223235, 220, 4); (223236, 228, 4); (223237, 236, 4); (223238, 244, 4);
  (223239, 252, 4); (223240, 260, 4); (223241, 268, 4); (223242, 276, 4); (223243, 284, 4); (223244, 292, 4);
  (223245, 300, 4); (223246, 308, 4); (223247, 316, 4); (223248, 324, 4); (223249, 332, 4); (223250, 340, 4)].

(* @src include/ingestion/test_fixtures_ext11.hpp:454-603 fixture_round_3251 .. fixture_round_3400 *)
Definition fixtures_3251 : list row := [
  (223251, 348, 4); (223252, 356, 4); (223253, 364, 4); (223254, 372, 4); (223255, 380, 4); (223256, 388, 4);
  (223257, 396, 4); (223258, 404, 4); (223259, 412, 4); (223260, 420, 4); (223261, 428, 4); (223262, 436, 4);
  (223263, 444, 4); (223264, 452, 4); (223265, 460, 4); (223266, 468, 4); (223267, 476, 4); (223268, 484, 4);
  (223269, 492, 4); (223270, 500, 4); (223271, 508, 4); (223272, 516, 4); (223273, 524, 4); (223274, 532, 4);
  (223275, 540, 4); (223276, 548, 4); (223277, 556, 4); (223278, 564, 4); (223279, 572, 4); (223280, 580, 4);
  (223281, 588, 4); (223282, 596, 4); (223283, 604, 4); (223284, 612, 4); (223285, 620, 4); (223286, 628, 4);
  (223287, 636, 4); (223288, 644, 4); (223289, 652, 4); (223290, 100, 4); (223291, 108, 4); (223292, 116, 4);
  (223293, 124, 4); (223294, 132, 4); (223295, 140, 4); (223296, 148, 4); (223297, 156, 4); (223298, 164, 4);
  (223299, 172, 4); (223300, 180, 4); (223301, 188, 4); (223302, 196, 4); (223303, 204, 4); (223304, 212, 4);
  (223305, 220, 4); (223306, 228, 4); (223307, 236, 4); (223308, 244, 4); (223309, 252, 4); (223310, 260, 4);
  (223311, 268, 4); (223312, 276, 4); (223313, 284, 4); (223314, 292, 4); (223315, 300, 4); (223316, 308, 4);
  (223317, 316, 4); (223318, 324, 4); (223319, 332, 4); (223320, 340, 4); (223321, 348, 4); (223322, 356, 4);
  (223323, 364, 4); (223324, 372, 4); (223325, 380, 4); (223326, 388, 4); (223327, 396, 4); (223328, 404, 4);
  (223329, 412, 4); (223330, 420, 4); (223331, 428, 4); (223332, 436, 4); (223333, 444, 4); (223334, 452, 4);
  (223335, 460, 4); (223336, 468, 4); (223337, 476, 4); (223338, 484, 4); (223339, 492, 4); (223340, 500, 4);
  (223341, 508, 4); (223342, 516, 4); (223343, 524, 4); (223344, 532, 4); (223345, 540, 4); (223346, 548, 4);
  (223347, 556, 4); (223348, 564, 4); (223349, 572, 4); (223350, 580, 4); (223351, 588, 4); (223352, 596, 4);
  (223353, 604, 4); (223354, 612, 4); (223355, 620, 4); (223356, 628, 4); (223357, 636, 4); (223358, 644, 4);
  (223359, 652, 4); (223360, 100, 4); (223361, 108, 4); (223362, 116, 4); (223363, 124, 4); (223364, 132, 4);
  (223365, 140, 4); (223366, 148, 4); (223367, 156, 4); (223368, 164, 4); (223369, 172, 4); (223370, 180, 4);
  (223371, 188, 4); (223372, 196, 4); (223373, 204, 4); (223374, 212, 4); (223375, 220, 4); (223376, 228, 4);
  (223377, 236, 4); (223378, 244, 4); (223379, 252, 4); (223380, 260, 4); (223381, 268, 4); (223382, 276, 4);
  (223383, 284, 4); (223384, 292, 4); (223385, 300, 4); (223386, 308, 4); (223387, 316, 4); (223388, 324, 4);
  (223389, 332, 4); (223390, 340, 4); (223391, 348, 4); (223392, 356, 4); (223393, 364, 4); (223394, 372, 4);
  (223395, 380, 4); (223396, 388, 4); (223397, 396, 4); (223398, 404, 4); (223399, 412, 4); (223400, 420, 4)].

(* @src include/ingestion/test_fixtures_ext12.hpp:4-153 fixture_round_3401 .. fixture_round_3550 *)
Definition fixtures_3401 : list row := [
  (243401, 140, 10); (243402, 160, 10); (243403, 180, 10); (243404, 200, 10); (243405, 220, 10); (243406, 240, 10);
  (243407, 260, 10); (243408, 280, 10); (243409, 300, 10); (243410, 320, 10); (243411, 340, 10); (243412, 360, 10);
  (243413, 380, 10); (243414, 400, 10); (243415, 420, 10); (243416, 440, 10); (243417, 460, 10); (243418, 480, 10);
  (243419, 500, 10); (243420, 120, 10); (243421, 140, 10); (243422, 160, 10); (243423, 180, 10); (243424, 200, 10);
  (243425, 220, 10); (243426, 240, 10); (243427, 260, 10); (243428, 280, 10); (243429, 300, 10); (243430, 320, 10);
  (243431, 340, 10); (243432, 360, 10); (243433, 380, 10); (243434, 400, 10); (243435, 420, 10); (243436, 440, 10);
  (243437, 460, 10); (243438, 480, 10); (243439, 500, 10); (243440, 120, 10); (243441, 140, 10); (243442, 160, 10);
  (243443, 180, 10); (243444, 200, 10); (243445, 220, 10); (243446, 240, 10); (243447, 260, 10); (243448, 280, 10);
  (243449, 300, 10); (243450, 320, 10); (243451, 340, 10); (243452, 360, 10); (243453, 380, 10); (243454, 400, 10);
  (243455, 420, 10); (243456, 440, 10); (243457, 460, 10); (243458, 480, 10); (243459, 500, 10); (243460, 120, 10);
  (243461, 140, 10); (243462, 160, 10); (243463, 180, 10); (243464, 200, 10); (243465, 220, 10); (243466, 240, 10);
  (243467, 260, 10); (243468, 280, 10); (243469, 300, 10); (243470, 320, 10); (243471, 340, 10); (243472, 360, 10);
  (243473, 380, 10); (243474, 400, 10); (243475, 420, 10); (243476, 440, 10); (243477, 460, 10); (243478, 480, 10);
  (243479, 500, 10); (243480, 120, 10); (243481, 140, 10); (243482, 160, 10); (243483, 180, 10); (243484, 200, 10);
  (243485, 220, 10); (243486, 240, 10); (243487, 260, 10); (243488, 280, 10); (243489, 300, 10); (243490, 320, 10);
  (243491, 340, 10); (243492, 360, 10); (243493, 380, 10); (243494, 400, 10); (243495, 420, 10); (243496, 440, 10);
  (243497, 460, 10); (243498, 480, 10); (243499, 500, 10); (243500, 120, 10); (243501, 140, 10); (243502, 160, 10);
  (243503, 180, 10); (243504, 200, 10); (243505, 220, 10); (243506, 240, 10); (243507, 260, 10); (243508, 280, 10);
  (243509, 300, 10); (243510, 320, 10); (243511, 340, 10); (243512, 360, 10); (243513, 380, 10); (243514, 400, 10);
  (243515, 420, 10); (243516, 440, 10); (243517, 460, 10); (243518, 480, 10); (243519, 500, 10); (243520, 120, 10);
  (243521, 140, 10); (243522, 160, 10); (243523, 180, 10); (243524, 200, 10); (243525, 220, 10); (243526, 240, 10);
  (243527, 260, 10); (243528, 280, 10); (243529, 300, 10); (243530, 320, 10); (243531, 340, 10); (243532, 360, 10);
  (243533, 380, 10); (243534, 400, 10); (243535, 420, 10); (243536, 440, 10); (243537, 460, 10); (243538, 480, 10);
  (243539, 500, 10); (243540, 120, 10); (243541, 140, 10); (243542, 160, 10); (243543, 180, 10); (243544, 200, 10);
  (243545, 220, 10); (243546, 240, 10); (243547, 260, 10); (243548, 280, 10); (243549, 300, 10); (243550, 320, 10)].

(* @src include/ingestion/test_fixtures_ext12.hpp:154-253 fixture_round_3551 .. fixture_round_3650 *)
Definition fixtures_3551 : list row := [
  (243551, 340, 10); (243552, 360, 10); (243553, 380, 10); (243554, 400, 10); (243555, 420, 10); (243556, 440, 10);
  (243557, 460, 10); (243558, 480, 10); (243559, 500, 10); (243560, 120, 10); (243561, 140, 10); (243562, 160, 10);
  (243563, 180, 10); (243564, 200, 10); (243565, 220, 10); (243566, 240, 10); (243567, 260, 10); (243568, 280, 10);
  (243569, 300, 10); (243570, 320, 10); (243571, 340, 10); (243572, 360, 10); (243573, 380, 10); (243574, 400, 10);
  (243575, 420, 10); (243576, 440, 10); (243577, 460, 10); (243578, 480, 10); (243579, 500, 10); (243580, 120, 10);
  (243581, 140, 10); (243582, 160, 10); (243583, 180, 10); (243584, 200, 10); (243585, 220, 10); (243586, 240, 10);
  (243587, 260, 10); (243588, 280, 10); (243589, 300, 10); (243590, 320, 10); (243591, 340, 10); (243592, 360, 10);
  (243593, 380, 10); (243594, 400, 10); (243595, 420, 10); (243596, 440, 10); (243597, 460, 10); (243598, 480, 10);
  (243599, 500, 10); (243600, 120, 10); (243601, 140, 10); (243602, 160, 10); (243603, 180, 10); (243604, 200, 10);
  (243605, 220, 10); (243606, 240, 10); (243607, 260, 10); (243608, 280, 10); (243609, 300, 10); (243610, 320, 10);
  (243611, 340, 10); (243612, 360, 10); (243613, 380, 10); (243614, 400, 10); (243615, 420, 10); (243616, 440, 10);
  (243617, 460, 10); (243618, 480, 10); (243619, 500, 10); (243620, 120, 10); (243621, 140, 10); (243622, 160, 10);
  (243623, 180, 10); (243624, 200, 10); (243625, 220, 10); (243626, 240, 10); (243627, 260, 10); (243628, 280, 10);
  (243629, 300, 10); (243630, 320, 10); (243631, 340, 10); (243632, 360, 10); (243633, 380, 10); (243634, 400, 10);
  (243635, 420, 10); (243636, 440, 10); (243637, 460, 10); (243638, 480, 10); (243639, 500, 10); (243640, 120, 10);
  (243641, 140, 10); (243642, 160, 10); (243643, 180, 10); (243644, 200, 10); (243645, 220, 10); (243646, 240, 10);
  (243647, 260, 10); (243648, 280, 10); (243649, 300, 10); (243650, 320, 10)].

Definition fix_rows : list (row * string) := fixtures_001 ++ fixtures_017 ++ fixtures_033 ++ fixtures_049 ++ fixtures_065.
Definition fix_ext_rows : list (row * string) := fixtures_081 ++ fixtures_118 ++ fixtures_155 ++ fixtures_192.
Definition fix_ext2_rows : list row := fixtures_201 ++ fixtures_351.
Definition fix_ext3_rows : list row := fixtures_451 ++ fixtures_601.
Definition fix_ext4_rows : list row := fixtures_701 ++ fixtures_851.
Definition fix_ext5_rows : list row := fixtures_1001 ++ fixtures_1151.
Definition fix_ext6_rows : list row := fixtures_1201 ++ fixtures_1351.
Definition fix_ext7_rows : list row := fixtures_mini_0.
Definition fix_ext8_rows : list row := fixtures_1401 ++ fixtures_1551.
Definition fix_ext9_rows : list row := fixtures_1701 ++ fixtures_1851 ++ fixtures_2001 ++ fixtures_2151.
Definition fix_ext10_rows : list row := fixtures_2201 ++ fixtures_2351 ++ fixtures_2501 ++ fixtures_2651.
Definition fix_ext11_rows : list row := fixtures_2801 ++ fixtures_2951 ++ fixtures_3101 ++ fixtures_3251.
Definition fix_ext12_rows : list row := fixtures_3401 ++ fixtures_3551.

(** Every fixture of the library, in the order of the files. *)
Definition fixture_rows : list row :=
  (fst <$> fix_rows) ++ (fst <$> fix_ext_rows) ++ fix_ext2_rows ++ fix_ext3_rows ++ fix_ext4_rows ++ fix_ext5_rows
  ++ fix_ext6_rows ++ fix_ext7_rows ++ fix_ext8_rows ++ fix_ext9_rows ++ fix_ext10_rows ++ fix_ext11_rows ++ fix_ext12_rows.

Definition fixture_specs : list RoundSpec :=
  (spec_of_hashed <$> fix_rows) ++ (spec_of_hashed <$> fix_ext_rows) ++ (spec_of_row <$> fix_ext2_rows) ++ (spec_of_row <$> fix_ext3_rows)
  ++ (spec_of_row <$> fix_ext4_rows) ++ (spec_of_row <$> fix_ext5_rows) ++ (spec_of_row <$> fix_ext6_rows) ++ (spec_of_row <$> fix_ext7_rows) ++ (spec_of_row <$> fix_ext8_rows)
  ++ (spec_of_row <$> fix_ext9_rows) ++ (spec_of_row <$> fix_ext10_rows) ++ (spec_of_row <$> fix_ext11_rows) ++ (spec_of_row <$> fix_ext12_rows).

(* @src include/ingestion/test_fixtures.hpp | allNamedFixtures() *)
Definition allNamedFixtures (log : double -> double) : list (list Z) :=
  (spec_of_hashed <$> fix_rows) ≫= makeRound log.

(* @src include/ingestion/test_fixtures.hpp | inline int countFixtures() *)
Definition countFixtures : Z := 80.
(* @src include/ingestion/test_fixtures_ext.hpp | inline int countFixturesExt() *)
Definition countFixturesExt : Z := 120.
(* @src include/ingestion/test_fixtures_ext2.hpp | inline int countFixturesExt2() *)
Definition countFixturesExt2 : Z := 250.
(* @src include/ingestion/test_fixtures_ext3.hpp | inline int countFixturesExt3() *)
Definition countFixturesExt3 : Z := 250.
(* @src include/ingestion/test_fixtures_ext4.hpp | inline int countFixturesExt4() *)
Definition countFixturesExt4 : Z := 300.
(* @src include/ingestion/test_fixtures_ext5.hpp | inline int countFixturesExt5() *)
Definition countFixturesExt5 : Z := 200.
(* @src include/ingestion/test_fixtures_ext6.hpp | inline int countFixturesExt6() *)
Definition countFixturesExt6 : Z := 200.

(** Each fixture keeps the game id, multiplier and ticks of its row, whatever its hash. *)
Lemma specs_of_rows : (fun s => (rs_gameId s, rs_progressTicks s)) <$> fixture_specs = (fun r => (r.1.1, r.2)) <$> fixture_rows.
Proof. vm_compute. reflexivity. Qed.

Lemma fixtures_checked : ascending fixture_rows = true /\ forallb row_in_range fixture_rows = true.
Proof. vm_compute. split; reflexivity. Qed.

(** Remark: the fixture library is what its counters announce, and sound: the counts of the files are
    the numbers of their fixtures; all fixtures have different game ids that fit in 32 bits; each
    has at least one tick; and each multiplier is carried exactly by the protocol, which sends it
    in whole hundredths. *)
Theorem fixture_library_sound :
  [length fix_rows; length fix_ext_rows] ++ (length <$> [fix_ext2_rows; fix_ext3_rows; fix_ext4_rows; fix_ext5_rows; fix_ext6_rows]) =
    Z.to_nat <$> [countFixtures; countFixturesExt; countFixturesExt2; countFixturesExt3; countFixturesExt4; countFixturesExt5; countFixturesExt6] /\
  NoDup (rs_gameId <$> fixture_specs) /\
  Forall (fun s => 0 <= rs_gameId s < 2 ^ 32 /\ 0 < rs_progressTicks s) fixture_specs /\
  Forall (fun '(g, h, t) => fllround (fmul (flit h 100) (of_Z 100)) = h) fixture_rows.
Proof.
  destruct fixtures_checked as [Ha Hr]. pose proof (rows_in_range _ Hr) as Hrow. split_and!.
  - vm_compute. reflexivity.
  - replace (rs_gameId <$> fixture_specs) with ((fun r : row => r.1.1) <$> fixture_rows); [by apply ascending_NoDup|].
    pose proof (f_equal (fmap fst) specs_of_rows) as E. rewrite <-!list_fmap_compose in E. by symmetry.
  - assert (Forall (fun p : Z * Z => 0 <= p.1 < 2 ^ 32 /\ 0 < p.2) ((fun s => (rs_gameId s, rs_progressTicks s)) <$> fixture_specs)) as H.
    { rewrite specs_of_rows. apply Forall_fmap. eapply list.Forall_impl; [exact Hrow|]. intros [[g h] t] (? & ? & ?). cbn. lia. }
    apply Forall_fmap in H. exact H.
  - eapply list.Forall_impl; [exact Hrow|]. by intros [[g h] t] (? & ? & ? & ?).
Qed.
