(* ===== verification/Live.v ===== *)
(** Starting up and holding authority ([include/live]): the worker lease in the database
    ([live_supervisor.hpp]), the cached gate ([gate_cache.hpp]), the clock-skew monitor
    ([clock_skew_monitor.hpp]), the seeding of the history at a cold start
    ([cold_start_seeder.hpp]) and the boot sequence ([live_boot.hpp]). *)
From S2P Require Import Prelude Float64 Types Database Sql Predict Repos Readiness Telegram History.

Open Scope Z_scope.

(** * [LiveSupervisor] *)
Module LiveSupervisor.

(* @src include/live/live_supervisor.hpp | struct Config { *)
Record Config := { workerId : string; lockKey : string; leaseTtlSeconds : Z; renewIntervalMs : Z }.
#[export] Instance eta_Config : Eta Config := fun r =>
  {| workerId := workerId r; lockKey := lockKey r; leaseTtlSeconds := leaseTtlSeconds r; renewIntervalMs := renewIntervalMs r |}.

(* @src include/live/live_supervisor.hpp | struct Config { *)
Definition default_config : Config := {|
  workerId := ""; lockKey := "prediction_worker"; leaseTtlSeconds := 8; renewIntervalMs := 3000 |}.

(** [notices] are the calls of the authority handler, oldest first. *)
(* @src include/live/live_supervisor.hpp:141-148 LiveSupervisor *)
Record t := {
  cfg : Config; has_authority : bool; epoch : Z; renewals : Z; renew_running : bool; notices : list bool }.
#[export] Instance eta_t : Eta t := fun r =>
  {| cfg := cfg r; has_authority := has_authority r; epoch := epoch r; renewals := renewals r;
     renew_running := renew_running r; notices := notices r |}.

(* @src include/live/live_supervisor.hpp | void ensureWorkerId() *)
Definition ensureWorkerId (c : Config) (pid now : Z) : Config :=
  if negb (str_empty (workerId c)) then c
  else c <| workerId := "worker-" +:+ to_string pid +:+ "-" +:+ to_string now |>.

(* @src include/live/live_supervisor.hpp | LiveSupervisor(Database* db, Config cfg) *)
Definition make (c : Config) (pid now : Z) : t := {|
  cfg := ensureWorkerId c pid now; has_authority := false; epoch := 0; renewals := 0; renew_running := false; notices := [] |}.

Definition notify (v : bool) (s : t) : t := s <| notices ::= fun l => l ++ [v] |>.

(* @src include/live/live_supervisor.hpp | void loseAuthority() *)
Definition loseAuthority (s : t) : t :=
  if has_authority s then notify false (s <| has_authority := false |>) else s.

(* @src include/live/live_supervisor.hpp:50-52 LiveSupervisor::acquire *)
Definition acquire_sql : string :=
  "INSERT INTO worker_leases (lock_key, owner_id, epoch, expires_at_ms) VALUES ($1,$2,1,$3) ON CONFLICT (lock_key) DO UPDATE SET owner_id=EXCLUDED.owner_id, epoch=worker_leases.epoch+1, expires_at_ms=EXCLUDED.expires_at_ms WHERE worker_leases.expires_at_ms < $4 OR worker_leases.owner_id=$2".
(* @src include/live/live_supervisor.hpp:57-57 LiveSupervisor::acquire *)
Definition epoch_sql : string := "SELECT epoch FROM worker_leases WHERE lock_key=$1 AND owner_id=$2".
(* @src include/live/live_supervisor.hpp:79-79 LiveSupervisor::renew *)
Definition renew_sql : string :=
  "UPDATE worker_leases SET expires_at_ms=$1 WHERE lock_key=$2 AND owner_id=$3 AND epoch=$4".
(* @src include/live/live_supervisor.hpp:85-85 LiveSupervisor::renew *)
Definition owner_sql : string := "SELECT owner_id, epoch FROM worker_leases WHERE lock_key=$1".
(* @src include/live/live_supervisor.hpp:101-101 LiveSupervisor::release *)
Definition release_sql : string := "DELETE FROM worker_leases WHERE lock_key=$1 AND owner_id=$2 AND epoch=$3".

Section S.
Context {D : Type} `{!Database D} `{!PgOps D}.

Definition granted (s : t) : t := notify true (s <| has_authority := true |>).

(** The value of the first column of the first row. *)
Definition first_cell (qr : Result QueryResult) : option string :=
  match qr with Ok {| rows := (x :: _) :: _ |} => Some x | _ => None end.

(** [db] is absent when the supervisor was made without a database. *)
(* @src include/live/live_supervisor.hpp | Result<void> acquire() *)
Definition acquire (s : t) (now : Z) (db : option D) : Result unit * t * option D :=
  match db with
  | None => (Ok tt, granted (s <| epoch ::= bump |>), None)
  | Some d =>
      if @db_pg D _ then
        match db_executeParams acquire_sql
          [lockKey (cfg s); workerId (cfg s); to_string (now + leaseTtlSeconds (cfg s) * 1000); to_string now] d with
        | (Err e, d) => (Err (err (code e) (message e)), s <| has_authority := false |>, Some d)
        | (Ok _, d) =>
            let '(qr, d) := db_query epoch_sql [lockKey (cfg s); workerId (cfg s)] d in
            let s := match first_cell qr with
                     | Some x => s <| epoch := u64 (atoll x) |>
                     | None => s <| epoch ::= bump |>
                     end in
            (Ok tt, granted s, Some d)
        end
      else (Ok tt, granted (s <| epoch ::= bump |>), Some d)
  end.

(* @src include/live/live_supervisor.hpp | Result<void> renew() *)
Definition renew (s : t) (now : Z) (db : option D) : Result unit * t * option D :=
  if negb (has_authority s) then (Err (err AuthFailed "no authority"), s, db)
  else
    match db with
    | None => (Ok tt, s, None)
    | Some d =>
        if @db_pg D _ then
          match db_executeParams renew_sql
            [to_string (now + leaseTtlSeconds (cfg s) * 1000); lockKey (cfg s); workerId (cfg s); to_string (epoch s)] d with
          | (Err e, d) => (Err (err (code e) (message e)), loseAuthority s, Some d)
          | (Ok _, d) =>
              let '(qr, d) := db_query owner_sql [lockKey (cfg s)] d in
              if bool_decide (first_cell qr = Some (workerId (cfg s)))
              then (Ok tt, s <| renewals ::= bump |>, Some d)
              else (Err (err AuthFailed "lease ownership lost"), loseAuthority s, Some d)
          end
        else (Ok tt, s <| renewals ::= bump |>, Some d)
    end.

(* @src include/live/live_supervisor.hpp | void release() *)
Definition release (s : t) (db : option D) : t * option D :=
  let db := match db with
            | Some d => if @db_pg D _ then
                          Some (db_executeParams release_sql [lockKey (cfg s); workerId (cfg s); to_string (epoch s)] d).2
                        else Some d
            | None => None
            end in
  (loseAuthority s, db).

(** One turn of the thread's loop. *)
(* @src include/live/live_supervisor.hpp | void startRenewLoop() *)
Definition renew_turn (s : t) (now : Z) (db : option D) : t * option D :=
  if renew_running s && has_authority s then let '(_, s, db) := renew s now db in (s, db) else (s, db).

Definition startRenewLoop (s : t) : t := s <| renew_running := true |>.

(* @src include/live/live_supervisor.hpp | void stopRenewLoop() *)
Definition stopRenewLoop (s : t) : t := s <| renew_running := false |>.
End S.

(* @src include/live/live_supervisor.hpp | bool checkEpoch( *)
Definition checkEpoch (s : t) (expected : Z) : bool := has_authority s && (epoch s =? expected).
End LiveSupervisor.

(** * The lease table

    A PostgreSQL connection as far as the statements of the supervisor see it: the rows of
    [worker_leases] by lock key. *)
Module LeaseDb.

Record lease := { owner : string; le_epoch : Z; expires : Z }.

Record t := { up : bool; leases : gmap string lease }.
#[export] Instance eta_t : Eta t := fun r => {| up := up r; leases := leases r |}.

Definition run (sql : string) (params : list string) (m : gmap string lease) : option (gmap string lease) :=
  match params with
  | [k; w; e; n] =>
      if decide (sql = LiveSupervisor.acquire_sql) then
        Some (match m !! k with
              | None => <[k := {| owner := w; le_epoch := 1; expires := atoll e |}]> m
              | Some l => if decide (expires l < atoll n \/ owner l = w)
                          then <[k := {| owner := w; le_epoch := le_epoch l + 1; expires := atoll e |}]> m else m
              end)
      else if decide (sql = LiveSupervisor.renew_sql) then
        let '(e, k, w, ep) := (k, w, e, n) in
        Some (match m !! k with
              | Some l => if decide (owner l = w /\ le_epoch l = atoll ep)
                          then <[k := {| owner := w; le_epoch := le_epoch l; expires := atoll e |}]> m else m
              | None => m
              end)
      else None
  | [k; w; ep] =>
      if decide (sql = LiveSupervisor.release_sql) then
        Some (match m !! k with
              | Some l => if decide (owner l = w /\ le_epoch l = atoll ep) then delete k m else m
              | None => m
              end)
      else None
  | _ => None
  end.

Definition executeParams (sql : string) (params : list string) (d : t) : Result unit * t :=
  if up d then
    match run sql params (leases d) with
    | Some m => (Ok tt, d <| leases := m |>)
    | None => (Err (err DatabaseError "syntax error"), d)
    end
  else (Err (err DatabaseError "not connected"), d).

Definition select (sql : string) (params : list string) (m : gmap string lease) : list (list string) :=
  match params with
  | [k; w] => if decide (sql = LiveSupervisor.epoch_sql) then
                match m !! k with Some l => if decide (owner l = w) then [[to_string (le_epoch l)]] else [] | None => [] end
              else []
  | [k] => if decide (sql = LiveSupervisor.owner_sql) then
             match m !! k with Some l => [[owner l; to_string (le_epoch l)]] | None => [] end
           else []
  | _ => []
  end.

Definition query (sql : string) (params : list string) (d : t) : Result QueryResult * t :=
  (if up d then Ok {| rows := select sql params (leases d); columns := [] |} else Err (err DatabaseError "not connected"), d).

#[export, refine] Instance db : Database t := {|
  db_wf := fun _ => True;
  db_connected := up;
  db_connect := fun d => (Ok tt, d <| up := true |>);
  db_disconnect := fun d => d <| up := false |>;
  db_execute := fun _ d => (if up d then Ok tt else Err (err DatabaseError "not connected"), d);
  db_query := query |}.
Proof.
  - done.
  - done.
  - intros sql d _. by destruct (up d) eqn:E.
  - intros sql params d _. unfold query. by destruct (up d) eqn:E.
Defined.

#[export] Instance pg : PgOps t := {| db_pg := true; db_executeParams := executeParams |}.
End LeaseDb.
#[export] Existing Instances LeaseDb.db LeaseDb.pg.
#[export] Existing Instance LeaseDb.eta_t.

Module Lease.
Import LiveSupervisor.

Inductive action := AAcquire | ARenew | ARelease.

Definition act (a : action) (now : Z) (s : t) (d : LeaseDb.t) : t * option LeaseDb.t :=
  match a with
  | AAcquire => let '(_, s, d) := acquire s now (Some d) in (s, d)
  | ARenew => let '(_, s, d) := renew s now (Some d) in (s, d)
  | ARelease => release s (Some d)
  end.

(** The [i]-th of several supervisors acts at a time. *)
Definition step (st : list t * LeaseDb.t) (x : nat * action * Z) : list t * LeaseDb.t :=
  let '(l, d) := st in
  let '(i, a, now) := x in
  match l !! i with
  | Some s => let '(s, d') := act a now s d in (<[i := s]> l, default d d')
  | None => (l, d)
  end.

(** The row of [k] is held by [a] until [until]. *)
Definition held (d : LeaseDb.t) (k a : string) (until : Z) : Prop :=
  LeaseDb.up d = true /\ exists r, LeaseDb.leases d !! k = Some r /\ LeaseDb.owner r = a /\ LeaseDb.expires r = until.

Lemma first_cell_owner k (m : gmap string LeaseDb.lease) :
  first_cell (Ok {| rows := LeaseDb.select owner_sql [k] m; columns := [] |}) = LeaseDb.owner <$> m !! k.
Proof. unfold LeaseDb.select. rewrite decide_True by done. by destruct (m !! k). Qed.

Lemma loseAuthority_cfg s : cfg (loseAuthority s) = cfg s.
Proof. unfold loseAuthority, notify. by case_match. Qed.

Lemma loseAuthority_has s : has_authority (loseAuthority s) = false.
Proof. unfold loseAuthority, notify. by destruct (has_authority s) eqn:E. Qed.

(** The statements on a row that another worker holds change nothing. *)
Lemma run_acquire_other k w e n m r :
  m !! k = Some r -> LeaseDb.owner r <> w -> n <= LeaseDb.expires r ->
  LeaseDb.run acquire_sql [k; w; to_string e; to_string n] m = Some m.
Proof.
  intros Hm Hw Hn. unfold LeaseDb.run. rewrite decide_True, Hm, atoll_to_string by done.
  rewrite decide_False; [done|]. intros [?|?]; [lia|done].
Qed.

Lemma run_renew_other k w e ep m r :
  m !! k = Some r -> LeaseDb.owner r <> w -> LeaseDb.run renew_sql [e; k; w; ep] m = Some m.
Proof.
  intros Hm Hw. unfold LeaseDb.run. rewrite decide_False by done. rewrite decide_True, Hm by done.
  rewrite decide_False; [done|]. by intros [? _].
Qed.

Lemma run_release_other k w ep m r :
  m !! k = Some r -> LeaseDb.owner r <> w -> LeaseDb.run release_sql [k; w; ep] m = Some m.
Proof.
  intros Hm Hw. unfold LeaseDb.run. rewrite decide_True, Hm by done.
  rewrite decide_False; [done|]. by intros [? _].
Qed.

Lemma run_renew_self k w e ep m r :
  m !! k = Some r -> LeaseDb.owner r = w ->
  exists m', LeaseDb.run renew_sql [e; k; w; ep] m = Some m' /\ exists r', m' !! k = Some r' /\ LeaseDb.owner r' = w.
Proof.
  intros Hm Hw. unfold LeaseDb.run. rewrite decide_False by done. rewrite decide_True, Hm by done.
  eexists. split; [done|]. case_decide; [eexists; by rewrite lookup_insert_eq|by exists r].
Qed.

Lemma same_leases (d : LeaseDb.t) : d <| LeaseDb.leases := LeaseDb.leases d |> = d.
Proof. by destruct d. Qed.

Lemma acquire_other s d now a until :
  held d (lockKey (cfg s)) a until -> workerId (cfg s) <> a -> now <= until ->
  exists s', acquire s now (Some d) = (Ok tt, s', Some d) /\ cfg s' = cfg s /\ has_authority s' = true /\
    epoch s' = bump (epoch s) /\ notices s' = notices s ++ [true].
Proof.
  intros (Hup & r & Hm & Ho & He) Hw Hn. unfold acquire.
  cbn [db_pg LeaseDb.pg db_executeParams db_query LeaseDb.db]. unfold LeaseDb.executeParams, LeaseDb.query.
  rewrite Hup, (run_acquire_other _ _ _ _ _ r), same_leases, Hup by (congruence || lia || done).
  unfold LeaseDb.select. rewrite decide_True, Hm, decide_False by congruence. cbn [first_cell].
  eexists. by split_and!.
Qed.

Lemma renew_other s d now a until :
  held d (lockKey (cfg s)) a until -> workerId (cfg s) <> a ->
  exists e s', renew s now (Some d) = (Err e, s', Some d) /\ cfg s' = cfg s /\ has_authority s' = false.
Proof.
  intros (Hup & r & Hm & Ho & He) Hw. unfold renew. destruct (has_authority s) eqn:Ha; cbn [negb]; [|by eexists _, _].
  cbn [db_pg LeaseDb.pg db_executeParams db_query LeaseDb.db]. unfold LeaseDb.executeParams, LeaseDb.query.
  rewrite Hup, (run_renew_other _ _ _ _ _ r), same_leases, Hup by (congruence || done).
  rewrite first_cell_owner, Hm. simpl. rewrite bool_decide_eq_false_2 by congruence.
  eexists _, _. split_and!; [done|apply loseAuthority_cfg|apply loseAuthority_has].
Qed.

Lemma act_other act_ now s d a until :
  held d (lockKey (cfg s)) a until -> workerId (cfg s) <> a -> now <= until ->
  exists s', act act_ now s d = (s', Some d) /\ cfg s' = cfg s.
Proof.
  intros Hh Hw Hn. destruct act_; cbn [act].
  - destruct (acquire_other s d now a until Hh Hw Hn) as (s' & -> & Hc & _). by exists s'.
  - destruct (renew_other s d now a until Hh Hw) as (e & s' & -> & Hc & _). by exists s'.
  - destruct Hh as (Hup & r & Hm & Ho & He). unfold release.
    cbn [db_pg LeaseDb.pg db_executeParams]. unfold LeaseDb.executeParams.
    rewrite Hup, (run_release_other _ _ _ _ r), same_leases by (congruence || done).
    eexists. split; [done|apply loseAuthority_cfg].
Qed.

(** C28: a lease protects its owner until it expires: whatever other workers do before that
    moment (acquire, renew, release, in any order), the row does not change, the owner can
    still renew, and any of them that asks to renew is refused and has no authority after it. *)
Theorem lease_protects_owner (d : LeaseDb.t) (k a : string) (until : Z) (others : list t) (steps : list (nat * action * Z)) :
  held d k a until ->
  Forall (fun s => lockKey (cfg s) = k /\ workerId (cfg s) <> a) others ->
  Forall (fun x => x.2 <= until) steps ->
  let '(others', d') := fold_left step steps (others, d) in
  d' = d /\
  (forall s now, s ∈ others' -> exists e s', renew s now (Some d') = (Err e, s', Some d') /\ has_authority s' = false) /\
  (forall s now, lockKey (cfg s) = k -> workerId (cfg s) = a -> has_authority s = true ->
     is_ok (renew s now (Some d')).1.1 = true).
Proof.
  intros Hh Ho Hs.
  assert (let '(others', d') := fold_left step steps (others, d) in
    d' = d /\ Forall (fun s => lockKey (cfg s) = k /\ workerId (cfg s) <> a) others') as H.
  { revert others Ho. induction Hs as [|[[i ac] now] steps Hnow Hs IH]; intros others Ho; [done|]. simpl.
    destruct (others !! i) as [s|] eqn:Ei; [|by apply IH].
    destruct (proj1 (Forall_lookup _ _) Ho i s Ei) as [Hk Hw]. subst k.
    destruct (act_other ac now s d a until Hh Hw Hnow) as (s' & -> & Hc). simpl. apply IH.
    apply Forall_insert; [done|]. by rewrite Hc. }
  destruct (fold_left step steps (others, d)) as [others' d']. destruct H as [-> Ho']. split_and!; [done| |].
  - intros s now Hin. destruct (proj1 (Forall_forall _ _) Ho' s Hin) as [<- Hw].
    destruct (renew_other s d now a until Hh Hw) as (e & s' & -> & _ & Ha). by exists e, s'.
  - intros s now <- Hw Ha. destruct Hh as (Hup & r & Hm & Hr & He). unfold renew. rewrite Ha. cbn [negb].
    cbn [db_pg LeaseDb.pg db_executeParams db_query LeaseDb.db]. unfold LeaseDb.executeParams, LeaseDb.query.
    rewrite Hup. destruct (run_renew_self (lockKey (cfg s)) a (to_string (now + leaseTtlSeconds (cfg s) * 1000))
      (to_string (epoch s)) (LeaseDb.leases d) r Hm Hr) as (m & Hrun & r' & Hm' & Hr').
    rewrite Hw, Hrun. cbv beta iota zeta.
    replace (LeaseDb.up _) with true by (symmetry; exact Hup).
    change (LeaseDb.leases (d <| LeaseDb.leases := m |>)) with m.
    rewrite first_cell_owner, Hm'. cbn [fmap option_fmap option_map]. by rewrite bool_decide_eq_true_2 by congruence.
Qed.

(** Remark: [acquire] does not look whether it got the lease: while another worker holds it, the
    conditional statement touches no row, and yet [acquire] succeeds, claims authority and
    tells the handler so, until the next renewal takes it back. *)
Theorem acquire_without_lease (s : t) (d : LeaseDb.t) (now later : Z) (a : string) (until : Z) :
  held d (lockKey (cfg s)) a until -> workerId (cfg s) <> a -> now <= until ->
  exists s' s'' e, acquire s now (Some d) = (Ok tt, s', Some d) /\ has_authority s' = true /\
    checkEpoch s' (bump (epoch s)) = true /\
    renew s' later (Some d) = (Err e, s'', Some d) /\ has_authority s'' = false /\
    notices s'' = notices s ++ [true; false].
Proof.
  intros Hh Hw Hn. destruct (acquire_other s d now a until Hh Hw Hn) as (s' & Ha & Hc & Hau & He & Hno).
  rewrite <-Hc in Hh. rewrite <-Hc in Hw.
  destruct (renew_other s' d later a until Hh Hw) as (e & s'' & Hr & Hc2 & Hau2).
  exists s', s'', e. split_and!; [done|done| |done|done|].
  - unfold checkEpoch. by rewrite Hau, He, Z.eqb_refl.
  - unfold renew in Hr. rewrite Hau in Hr. cbn [negb] in Hr. revert Hr.
    cbn [db_pg LeaseDb.pg db_executeParams db_query LeaseDb.db]. unfold LeaseDb.executeParams, LeaseDb.query.
    destruct Hh as (Hup & r & Hm & Ho & Hex). rewrite Hup, (run_renew_other _ _ _ _ _ r), same_leases, Hup by (congruence || done).
    rewrite first_cell_owner, Hm. simpl. rewrite bool_decide_eq_false_2 by congruence.
    intros [= _ <-]. unfold loseAuthority, notify. rewrite Hau. simpl. by rewrite Hno, <-(assoc (++)).
Qed.
End Lease.

#[local] Existing Instance LiveSupervisor.eta_Config.

Definition demo_supervisor (w : string) : LiveSupervisor.t :=
  LiveSupervisor.make (LiveSupervisor.default_config <| LiveSupervisor.workerId := w |>) 1 0.
Definition demo_leases : LeaseDb.t :=
  {| LeaseDb.up := true; LeaseDb.leases := {[ "prediction_worker" := {| LeaseDb.owner := "a"; LeaseDb.le_epoch := 3; LeaseDb.expires := 9000 |} ]} |}.

Lemma demo_held : Lease.held demo_leases "prediction_worker" "a" 9000.
Proof. split; [done|]. by exists {| LeaseDb.owner := "a"; LeaseDb.le_epoch := 3; LeaseDb.expires := 9000 |}. Qed.

Lemma lease_protects_owner_witness :
  (fold_left Lease.step [(0%nat, Lease.AAcquire, 100); (0%nat, Lease.ARelease, 200)] ([demo_supervisor "b"], demo_leases)).2 = demo_leases.
Proof.
  pose proof (Lease.lease_protects_owner demo_leases "prediction_worker" "a" 9000 [demo_supervisor "b"]
    [(0%nat, Lease.AAcquire, 100); (0%nat, Lease.ARelease, 200)] demo_held
    ltac:(repeat constructor; discriminate) ltac:(repeat constructor; discriminate)) as H.
  destruct (fold_left Lease.step _ _) as [l d']. exact (proj1 H).
Defined.

Lemma acquire_without_lease_witness :
  LiveSupervisor.has_authority (LiveSupervisor.acquire (demo_supervisor "b") 100 (Some demo_leases)).1.2 = true.
Proof.
  destruct (Lease.acquire_without_lease (demo_supervisor "b") demo_leases 100 3100 "a" 9000 demo_held ltac:(discriminate) ltac:(lia))
    as (s' & s'' & e & -> & H & _). exact H.
Defined.

(** * [GateCache] *)
Module GateCache.

(* @src include/live/gate_cache.hpp:23-28 GateCache *)
Record t := { worker_id : string; epoch : Z; authority : bool; last_hb_ms : Z }.
#[export] Instance eta_t : Eta t := fun r =>
  {| worker_id := worker_id r; epoch := epoch r; authority := authority r; last_hb_ms := last_hb_ms r |}.
Definition make : t := {| worker_id := ""; epoch := 0; authority := false; last_hb_ms := 0 |}.

(* @src include/live/gate_cache.hpp | void setWorkerId( *)
Definition setWorkerId (g : t) (id : string) : t := g <| worker_id := id |>.
(* @src include/live/gate_cache.hpp | void setEpoch( *)
Definition setEpoch (g : t) (e : Z) : t := g <| epoch := e |>.
(* @src include/live/gate_cache.hpp | void setHasAuthority( *)
Definition setHasAuthority (g : t) (v : bool) : t := g <| authority := v |>.
(* @src include/live/gate_cache.hpp | bool allow( *)
Definition allow (g : t) (expectedEpoch : Z) : bool := authority g && (epoch g =? expectedEpoch).
(* @src include/live/gate_cache.hpp | void noteHeartbeat() *)
Definition noteHeartbeat (g : t) (now : Z) : t := g <| last_hb_ms := now |>.
(* @src include/live/gate_cache.hpp | bool isStale( *)
Definition isStale (g : t) (maxAgeMs now : Z) : bool := (last_hb_ms g =? 0) || (maxAgeMs <? now - last_hb_ms g).
End GateCache.

(** * [ClockSkewMonitor] *)
Module ClockSkewMonitor.

(* @src include/live/clock_skew_monitor.hpp:32-36 ClockSkewMonitor *)
Record t := { window : nat; samples : list double; mean : double; meanAbs : double; observations : Z }.
#[export] Instance eta_t : Eta t := fun r =>
  {| window := window r; samples := samples r; mean := mean r; meanAbs := meanAbs r; observations := observations r |}.

(* @src include/live/clock_skew_monitor.hpp | explicit ClockSkewMonitor( *)
Definition make (window : nat) : t := {| window := window; samples := []; mean := f0; meanAbs := f0; observations := 0 |}.

Definition sum (l : list double) : double := fold_left fadd l f0.

(* @src include/live/clock_skew_monitor.hpp | void observe( *)
Definition observe (m : t) (serverMs now : Z) : t :=
  if serverMs <=? 0 then m
  else
    let m := m <| samples ::= fun l => push_window (window m) l (fsub (of_Z now) (of_Z serverMs)) |> in
    let n := of_Z (Z.of_nat (length (samples m))) in
    m <| mean := fdiv (sum (samples m)) n |> <| meanAbs := fdiv (sum (SFabs <$> samples m)) n |> <| observations ::= bump |>.

(* @src include/live/clock_skew_monitor.hpp | bool isSkewed( *)
Definition isSkewed (m : t) (thresholdMs : double) : bool := fgt (SFabs (mean m)) thresholdMs.

(** [serverMs + skew]: away from this clock when the skew is [now - serverMs] and the
    correction is meant to give the server's time. *)
(* @src include/live/clock_skew_monitor.hpp | TimestampMs correct( *)
Definition correct (m : t) (serverMs : Z) : Z := serverMs + ftrunc (mean m).
End ClockSkewMonitor.

(** * [ColdStartSeeder] *)
Module ColdStartSeeder.

(* @src include/live/cold_start_seeder.hpp | struct Config { *)
Record Config := { minHistory : nat; targetHistory : nat; restPages : nat }.
(* @src include/live/cold_start_seeder.hpp | struct Config { *)
Definition default_config : Config := {| minHistory := 50; targetHistory := 200; restPages := 5 |}.

Section S.
Context {D W : Type} `{!Database D}.
Variable atof : string -> double.
Variable strtod : string -> option double.
Variable fixed4 : double -> string.
Variable enum : gmap string CrashRound -> list CrashRound.
Variable http : TelegramClient.HttpRequest -> W -> Result TelegramClient.HttpResponse * W.

Notation Rounds := (CrashRoundRepository.t D).
Notation Rolling := RollingHistoryBuffer.t.

(** The components it was given (each may be missing), the global cache and the HTTP world. *)
Record env := {
  rounds : option Rounds; history : option CrashHistoryClient.t; rolling : option Rolling;
  recent : RecentRoundCache.t; world : W }.
#[export] Instance eta_env : Eta env := fun r =>
  {| rounds := rounds r; history := history r; rolling := rolling r; recent := recent r; world := world r |}.

(* @src include/live/cold_start_seeder.hpp:34-34 ColdStartSeeder::seed *)
Definition event_of (r : CrashRound) : CrashEvent :=
  default_event <| gameId := cr_gameId r |> <| crashPoint := cr_multiplier r |> <| endedAtMs := cr_crashedAtMs r |>
    <| kind := KEnd |> <| valid := true |>.

Definition cached (gid : string) (mult : double) (ended : Z) (h : string) : RecentRoundCache.CachedRound := {|
  RecentRoundCache.ca_gameId := gid; RecentRoundCache.ca_multiplier := mult; RecentRoundCache.ca_endedAtMs := ended;
  RecentRoundCache.ca_cachedAtMs := 0; RecentRoundCache.ca_hash := h |}.

(* @src include/live/cold_start_seeder.hpp:32-36 ColdStartSeeder::seed *)
Definition load_stored (now : Z) (e : env) (r : CrashRound) : env :=
  e <| recent ::= fun c => RecentRoundCache.put c (cached (cr_gameId r) (cr_multiplier r) (cr_crashedAtMs r) (cr_hash r)) now |>
    <| rolling ::= fmap (fun b => RollingHistoryBuffer.pushFromEvent b (event_of r) now) |>.

(** A fetched round goes to the cache and the repository, but not to the rolling history. *)
(* @src include/live/cold_start_seeder.hpp:43-51 ColdStartSeeder::seed *)
Definition load_fetched (now : Z) (e : env) (fr : FetchedRound) : env :=
  e <| recent ::= fun c => RecentRoundCache.put c (cached (fr_gameId fr) (fr_multiplier fr) (fr_crashedAtMs fr) (fr_hash fr)) now |>
    <| rounds ::= fmap (fun s => (CrashRoundRepository.upsert fixed4 s
         {| cr_gameId := fr_gameId fr; cr_multiplier := fr_multiplier fr; cr_hash := fr_hash fr; cr_salt := "";
            cr_beganAtMs := fr_beganAtMs fr; cr_crashedAtMs := fr_crashedAtMs fr; cr_sequence := 0;
            cr_hasHash := false; cr_hasSalt := false |}).2) |>.

(** [n] more pages from [page] on; [None] when a page does not parse to an end. *)
(* @src include/live/cold_start_seeder.hpp:40-53 ColdStartSeeder::seed *)
Fixpoint fetch_pages (target n : nat) (page now : Z) (cl : CrashHistoryClient.t) (loaded : nat) (e : env)
    : option (nat * CrashHistoryClient.t * env) :=
  match n with
  | O => Some (loaded, cl, e)
  | S n =>
      '(r, cl, c, w) ← CrashHistoryClient.fetchPage strtod http cl page 50 now (recent e) (world e);
      let e := e <| recent := c |> <| world := w |> in
      match r with
      | Err _ => fetch_pages target n (page + 1) now cl loaded e
      | Ok l =>
          let e := fold_left (load_fetched now) l e in
          let loaded := (loaded + length l)%nat in
          if (target <=? loaded)%nat then Some (loaded, cl, e) else fetch_pages target n (page + 1) now cl loaded e
      end
  end.

(** The number of rounds loaded becomes [seeded_]; the result is always success. *)
(* @src include/live/cold_start_seeder.hpp | Result<void> seed() *)
Definition seed (c : Config) (now : Z) (e : env) : option (nat * env) :=
  let '(loaded, e) :=
    match rounds e with
    | None => (0%nat, e)
    | Some s =>
        let '(r, s) := CrashRoundRepository.findRecent atof enum s (targetHistory c) in
        let e := e <| rounds := Some s |> in
        match r with
        | Ok l => (length l, fold_left (load_stored now) l e)
        | Err _ => (0%nat, e)
        end
    end in
  match history e with
  | Some cl =>
      if (loaded <? minHistory c)%nat then
        '(loaded, cl, e) ← fetch_pages (targetHistory c) (restPages c) 1 now cl loaded e;
        Some (loaded, e <| history := Some cl |>)
      else Some (loaded, e)
  | None => Some (loaded, e)
  end.

(** What [pushFromEvent] keeps of a stored round. *)
Definition history_of (now : Z) (r : CrashRound) : RollingHistoryBuffer.HistoryRound := {|
  RollingHistoryBuffer.hr_gameId := cr_gameId r; RollingHistoryBuffer.hr_multiplier := cr_multiplier r;
  RollingHistoryBuffer.hr_crashedAtMs := or_now (cr_crashedAtMs r) now; RollingHistoryBuffer.hr_hash := "" |}.

Lemma push_stored b now r :
  RollingHistoryBuffer.buf (RollingHistoryBuffer.pushFromEvent b (event_of r) now) =
    push_window (RollingHistoryBuffer.capacity b) (RollingHistoryBuffer.buf b) (history_of now r) /\
  RollingHistoryBuffer.capacity (RollingHistoryBuffer.pushFromEvent b (event_of r) now) = RollingHistoryBuffer.capacity b.
Proof.
  unfold RollingHistoryBuffer.pushFromEvent, RollingHistoryBuffer.push. simpl. split; [|done].
  unfold history_of. do 2 f_equal. unfold str_empty. case_bool_decide as E; [by rewrite E|done].
Qed.

Lemma load_stored_rolling now cap l : forall e b h,
  rolling e = Some b -> RollingHistoryBuffer.capacity b = cap -> RollingHistoryBuffer.buf b = trim_front cap h ->
  exists b', rolling (fold_left (load_stored now) l e) = Some b' /\
    RollingHistoryBuffer.buf b' = trim_front cap (h ++ (history_of now <$> l)).
Proof.
  induction l as [|r l IH]; intros e b h Hb Hc Hbuf; simpl; [exists b; by rewrite app_nil_r|].
  destruct (push_stored b now r) as [Hp Hc'].
  destruct (IH (load_stored now e r) (RollingHistoryBuffer.pushFromEvent b (event_of r) now) (h ++ [history_of now r]))
    as (b' & Hb' & Hbuf').
  - unfold load_stored. simpl. by rewrite Hb.
  - congruence.
  - by rewrite Hp, Hc, Hbuf, push_window_trim.
  - exists b'. split; [done|]. by rewrite Hbuf', <-(assoc (++)).
Qed.

Lemma load_stored_history now l e : history (fold_left (load_stored now) l e) = history e.
Proof. revert e. induction l as [|r l IH]; intros e; simpl; [done|]. by rewrite IH. Qed.

(** Remark: the rounds of the database enter the rolling history in the order of the query, the
    newest first: after the seeding the history holds the oldest of them at its end, so the
    [lastMultiplier] that the features start from is that of the oldest round. *)
Theorem seed_reverses_history (c : Config) (now : Z) (e : env) (s : Rounds) (s' : Rounds) (cap : nat)
    (l : list CrashRound) (oldest : CrashRound) :
  rounds e = Some s -> rolling e = Some (RollingHistoryBuffer.make cap) -> (0 < cap)%nat ->
  CrashRoundRepository.findRecent atof enum s (targetHistory c) = (Ok (l ++ [oldest]), s') ->
  (minHistory c <= S (length l))%nat ->
  exists e' b, seed c now e = Some (S (length l), e') /\ rolling e' = Some b /\
    RollingHistoryBuffer.buf b = trim_front cap (history_of now <$> l ++ [oldest]) /\
    RollingHistoryBuffer.lastMultiplier b = Some (cr_multiplier oldest).
Proof.
  intros Hs Hr Hcap Hf Hmin. unfold seed. rewrite Hs, Hf. cbv beta iota zeta.
  set (e1 := e <| rounds := Some s' |>). rewrite length_app, Nat.add_comm. simpl length.
  destruct (load_stored_rolling now cap (l ++ [oldest]) e1 (RollingHistoryBuffer.make cap) []) as (b & Hb & Hbuf); [done|done|done|].
  set (e2 := fold_left (load_stored now) (l ++ [oldest]) e1) in *. exists e2, b. split_and!; [|done|done|].
  - destruct (history e2); [|done]. by rewrite (proj2 (Nat.ltb_ge _ _)) by lia.
  - unfold RollingHistoryBuffer.lastMultiplier. rewrite Hbuf. simpl. rewrite fmap_app. simpl.
    rewrite trim_front_app_fits by (simpl; lia). by rewrite last_snoc.
Qed.
End S.
End ColdStartSeeder.

Definition demo_store : LeaseDb.t := {| LeaseDb.up := true; LeaseDb.leases := ∅ |}.
Definition older_round : CrashRound := demo_round <| cr_gameId := "76" |> <| cr_multiplier := of_Z 3 |>.
Definition demo_env : ColdStartSeeder.env := {|
  ColdStartSeeder.rounds := Some (CrashRoundRepository.make demo_store); ColdStartSeeder.history := None;
  ColdStartSeeder.rolling := Some (RollingHistoryBuffer.make 8); ColdStartSeeder.recent := RecentRoundCache.make 8;
  ColdStartSeeder.world := tt |}.

(** Two rounds are known, the newer first. *)
Lemma seed_reverses_history_witness :
  exists e' b, ColdStartSeeder.seed (fun _ => f0) (fun _ => None) (fun _ => "2.0000") (fun _ => [demo_round; older_round])
    (fun _ w => (Err (err NetworkError ""), w))
    {| ColdStartSeeder.minHistory := 2; ColdStartSeeder.targetHistory := 200; ColdStartSeeder.restPages := 5 |} 5 demo_env
    = Some (2%nat, e') /\ ColdStartSeeder.rolling e' = Some b /\ RollingHistoryBuffer.lastMultiplier b = Some (of_Z 3).
Proof.
  destruct (ColdStartSeeder.seed_reverses_history (W := unit) (fun _ => f0) (fun _ => None) (fun _ => "2.0000")
    (fun _ => [demo_round; older_round]) (fun _ w => (Err (err NetworkError ""), w))
    {| ColdStartSeeder.minHistory := 2; ColdStartSeeder.targetHistory := 200; ColdStartSeeder.restPages := 5 |} 5 demo_env
    (CrashRoundRepository.make demo_store) (CrashRoundRepository.make demo_store) 8 [demo_round] older_round
    eq_refl eq_refl ltac:(lia) eq_refl ltac:(simpl; lia)) as (e' & b & H1 & H2 & _ & H3).
  exists e', b. split; [exact H1|]. split; [exact H2|exact H3].
Defined.

(** * [LiveBoot] *)
Module LiveBoot.
Import ReadinessBarrier.

Section S.
(** The state of the components that the boot sequence drives. *)
Context {C : Type}.
Notation Barrier := (ReadinessBarrier.t C).

(* @src include/live/live_boot.hpp | struct BootResult { *)
Record BootResult := { br_ok : bool; br_finalStage : ReadinessStage; br_durationMs : Z; br_error : string }.

(** Each component may be missing; a supervisor and a poll worker come with their methods.
    [prewarmPrediction] may throw (the message). *)
(* @src include/live/live_boot.hpp | struct Deps { *)
Record Deps := {
  d_validateSchema : option (C -> Result unit * C);
  d_supervisor : option ((C -> Result unit * C) * (C -> C) * (C -> C));
  d_seeder : option (C -> Result unit * C);
  d_prewarmPrediction : option (C -> option string * C);
  d_pollWorker : option ((C -> C) * (C -> C)) }.

(** What the sequence consists of: moving the barrier, and named stages that may throw. *)
Inductive item := Advance (s : ReadinessStage) | Stage (name : string) (f : C -> option string * C).

(** [if (!r) throw std::runtime_error(r.error().message)] *)
Definition throws (f : C -> Result unit * C) (k : C -> C) (c : C) : option string * C :=
  match f c with (Ok _, c) => (None, k c) | (Err e, c) => (Some (message e), c) end.

Definition optional {A} (x : option A) (f : A -> item) : list item := match x with Some a => [f a] | None => [] end.

(* @src include/live/live_boot.hpp:51-81 LiveBoot::run *)
Definition early_plan (d : Deps) : list item :=
  Advance Booting ::
  optional (d_validateSchema d) (fun f => Stage "validate_schema" (throws f id)) ++
  optional (d_supervisor d) (fun s => Stage "acquire_lease" (throws s.1.1 s.1.2)) ++
  Advance MinimalStateReady ::
  optional (d_seeder d) (fun f => Stage "cold_start_seed" (throws f id)) ++
  Advance PredictionStateReady ::
  optional (d_prewarmPrediction d) (fun f => Stage "prewarm_prediction" f) ++
  optional (d_pollWorker d) (fun p => Stage "start_poll_worker" (fun c => (None, p.1 c))).

(* @src include/live/live_boot.hpp:82-83 LiveBoot::run *)
Definition plan (d : Deps) : list item := early_plan d ++ [Advance LiveN1Ready; Advance FullHydrationReady].

(** The events that other threads admit; those that find a live barrier go to their caller's
    handler and are no matter of the boot. *)
Definition arrive (evs : list CrashEvent) (b : Barrier) : Barrier := if isLiveReady b then b else fold_left hold evs b.

(** The sequence up to the first exception, of a stage or of the barrier's handler.  The clock
    [ns] is read before and after each stage, and the duration of a stage that throws is not
    recorded.  [evs] are the events admitted before each step, by its position. *)
(* @src include/live/live_boot.hpp | auto withBootStage( *)
Fixpoint execute (l : list item) (ns : nat -> Z) (evs : nat -> list CrashEvent) (b : Barrier) (c : C) (durations : list (string * Z))
    : option string * Barrier * C * list (string * Z) :=
  match l with
  | [] => (None, b, c, durations)
  | Advance s :: l =>
      match advanceTo (arrive (evs 0%nat) b) s c with
      | (inl e, (b, c)) => (Some e, b, c, durations)
      | (inr _, (b, c)) => execute l ns (fun i => evs (S i)) b c durations
      end
  | Stage name f :: l =>
      let b := arrive (evs 0%nat) b in
      match f c with
      | (Some e, c) => (Some e, b, c, durations)
      | (None, c) => execute l (fun i => ns (S (S i))) (fun i => evs (S i)) b c (durations ++ [(name, Z.quot (ns 1%nat - ns 0%nat) 1000000)])
      end
  end.

(* @src include/live/live_boot.hpp | BootResult run() *)
Definition run (d : Deps) (ns : nat -> Z) (evs : nat -> list CrashEvent) (t0 t1 : Z) (b : Barrier) (c : C)
    : BootResult * Barrier * C * list (string * Z) :=
  let '(e, b, c, durations) := execute (plan d) ns evs b c [] in
  ({| br_ok := match e with None => true | Some _ => false end; br_finalStage := stage b; br_durationMs := t1 - t0;
      br_error := default EmptyString e |}, b, c, durations).

(* @src include/live/live_boot.hpp | void shutdown() *)
Definition shutdown (d : Deps) (c : C) : C :=
  let c := match d_pollWorker d with Some p => p.2 c | None => c end in
  match d_supervisor d with Some s => s.2 c | None => c end.

(** The effect of the stages alone: what they throw, and how many steps of the sequence were made. *)
Fixpoint stages (l : list item) (c : C) : option string * C * nat :=
  match l with
  | [] => (None, c, 0%nat)
  | Advance _ :: l => let '(e, c, n) := stages l c in (e, c, S n)
  | Stage _ f :: l => match f c with (Some e, c) => (Some e, c, 1%nat) | (None, c) => let '(e, c, n) := stages l c in (e, c, S n) end
  end.

Definition is_early (i : item) : Prop := match i with Advance s => code s < code LiveN1Ready | Stage _ _ => True end.

(** What is held after the events of the first [n] steps. *)
Definition held_after (evs : nat -> list CrashEvent) (n : nat) (b : Barrier) : list CrashEvent :=
  held (fold_left hold (concat (evs <$> seq 0 n)) b).

Lemma hold_keeps (b : Barrier) ev : stage (hold b ev) = stage b /\ drain_handler (hold b ev) = drain_handler b.
Proof. unfold hold. by case_match. Qed.

Lemma holds_keep evs : forall b : Barrier, stage (fold_left hold evs b) = stage b /\ drain_handler (fold_left hold evs b) = drain_handler b.
Proof.
  induction evs as [|ev evs IH]; intros b; [done|]. cbn [fold_left]. destruct (IH (hold b ev)) as [-> ->]. apply hold_keeps.
Qed.

Lemma arrive_early evs (b : Barrier) : code (stage b) < code LiveN1Ready -> arrive evs b = fold_left hold evs b.
Proof. intros H. unfold arrive, isLiveReady. by rewrite (proj2 (Z.leb_gt _ _)). Qed.

(** Changing the stage does not change what is held. *)
Lemma hold_stage (b b' : Barrier) evs : held b = held b' -> hold_capacity b = hold_capacity b' ->
  held (fold_left hold evs b) = held (fold_left hold evs b').
Proof.
  revert b b'. induction evs as [|ev evs IH]; intros b b' Hh Hc; [done|]. cbn [fold_left]. apply IH.
  - unfold hold. rewrite Hh, Hc. case_match; simpl; by rewrite ?Hh.
  - unfold hold. rewrite Hh, Hc. by case_match.
Qed.

Lemma held_after_S evs n (b b' : Barrier) : held b' = held (fold_left hold (evs 0%nat) b) -> hold_capacity b' = hold_capacity b ->
  held_after (fun i => evs (S i)) n b' = held_after evs (S n) b.
Proof.
  intros Hh Hc. unfold held_after. cbn [seq]. rewrite fmap_cons. cbn [concat]. rewrite fold_left_app.
  rewrite <-(fmap_S_seq 0 n), <-list_fmap_compose. apply hold_stage; [done|]. rewrite Hc.
  generalize (evs 0%nat). clear. intros l. revert b. induction l as [|ev l IH]; intros b; [done|]. cbn [fold_left]. rewrite <-IH.
  unfold hold. by case_match.
Qed.

Lemma arrive_capacity evs (b : Barrier) : hold_capacity (arrive evs b) = hold_capacity b.
Proof.
  unfold arrive. case_match; [done|]. clear. revert b. induction evs as [|ev l IH]; intros b; [done|]. cbn [fold_left]. rewrite IH.
  unfold hold. by case_match.
Qed.

Definition hand (h : option (Handler (C := C))) (l : list CrashEvent) (c : C) : option string * C :=
  match h with Some h => hand_over h l c | None => (None, c) end.

Lemma finish_live evs (b : Barrier) (c : C) : stage b = LiveN1Ready -> held b = [] ->
  advanceTo (arrive evs b) FullHydrationReady c = (inr true, (b <| stage := FullHydrationReady |> <| held := [] |>, c)).
Proof.
  intros Hs Hh. unfold arrive, isLiveReady. rewrite Hs. cbn. unfold advanceTo, drainHeld, take_held. rewrite Hs. cbn. rewrite Hh.
  by destruct (drain_handler b).
Qed.

(** The early part of the sequence is its stages; then the barrier opens. *)
Lemma execute_early l : forall ns evs b c ds,
  Forall is_early l -> code (stage b) < code LiveN1Ready ->
  let '(e, b', c', _) := execute (l ++ [Advance LiveN1Ready; Advance FullHydrationReady]) ns evs b c ds in
  match stages l c with
  | (Some m, c1, n) => e = Some m /\ c' = c1 /\ code (stage b') < code LiveN1Ready /\ held b' = held_after evs n b
  | (None, c1, n) => held b' = [] /\ (e, c') = hand (drain_handler b) (held_after evs (S n) b) c1 /\
      stage b' = match e with None => FullHydrationReady | Some _ => LiveN1Ready end
  end.
Proof.
  induction l as [|[s|name f] l IH]; intros ns evs b c ds Hl Hb.
  - cbn [app execute stages]. rewrite arrive_early by done. set (b1 := fold_left hold (evs 0%nat) b).
    destruct (holds_keep (evs 0%nat) b) as [Hs Hd]. fold b1 in Hs, Hd. unfold advanceTo at 1. rewrite Hs, (proj2 (Z.ltb_lt _ _)) by exact Hb.
    rewrite Z.leb_refl. unfold drainHeld at 1, take_held. cbn [drain_handler held]. change (drain_handler (b1 <| stage := LiveN1Ready |>)) with (drain_handler b1).
    change (held (b1 <| stage := LiveN1Ready |>)) with (held b1). rewrite Hd.
    assert (held_after evs 1 b = held b1) as -> by (unfold held_after, b1; cbn; by rewrite app_nil_r).
    unfold hand. destruct (drain_handler b) as [h|].
    + destruct (hand_over h (held b1) c) as [[e|] c']; [done|]. by rewrite finish_live.
    + by rewrite finish_live.
  - apply Forall_cons in Hl as [Hi Hl]. simpl in Hi. cbn [app execute stages]. rewrite arrive_early by done.
    set (b1 := fold_left hold (evs 0%nat) b). destruct (holds_keep (evs 0%nat) b) as [Hs Hd]. fold b1 in Hs, Hd.
    assert (exists b2, advanceTo b1 s c = (inr (code (stage b) <? code s), (b2, c)) /\ held b2 = held b1 /\
      drain_handler b2 = drain_handler b /\ hold_capacity b2 = hold_capacity b1 /\ code (stage b2) < code LiveN1Ready)
      as (b2 & E & Hh2 & Hd2 & Hc2 & Hs2).
    { unfold advanceTo. rewrite Hs. destruct (Z.ltb_spec (code (stage b)) (code s)).
      - rewrite (proj2 (Z.leb_gt _ _)) by exact Hi. eexists. split; [done|]. by split_and!.
      - eexists. split; [done|]. by rewrite Hs, Hd. }
    rewrite E. specialize (IH ns (fun i => evs (S i)) b2 c ds Hl Hs2).
    assert (hold_capacity b1 = hold_capacity b) as Hc1 by (rewrite <-(arrive_capacity (evs 0%nat) b), arrive_early by done; done).
    assert (forall n, held_after (fun i => evs (S i)) n b2 = held_after evs (S n) b) as Hha.
    { intros n. apply held_after_S; [done|by rewrite Hc2]. }
    destruct (execute _ ns _ b2 c ds) as [[[e b'] c'] ds']. destruct (stages l c) as [[[m|] c1] n]; by rewrite ?Hha, ?Hd2 in IH.
  - apply Forall_cons in Hl as [Hi Hl]. cbn [app execute stages]. rewrite arrive_early by done.
    set (b1 := fold_left hold (evs 0%nat) b). destruct (holds_keep (evs 0%nat) b) as [Hs Hd]. fold b1 in Hs, Hd.
    assert (hold_capacity b1 = hold_capacity b) as Hc1 by (rewrite <-(arrive_capacity (evs 0%nat) b), arrive_early by done; done).
    assert (forall n, held_after (fun i => evs (S i)) n b1 = held_after evs (S n) b) as Hha by (intros n; by apply held_after_S).
    destruct (f c) as [[e|] c1].
    + split_and!; [done|done|by rewrite Hs|]. unfold held_after, b1. cbn. by rewrite app_nil_r.
    + specialize (IH (fun i => ns (S (S i))) (fun i => evs (S i)) b1 c1 (ds ++ [(name, Z.quot (ns 1%nat - ns 0%nat) 1000000)]) Hl ltac:(by rewrite Hs)).
      destruct (execute _ _ _ b1 c1 _) as [[[e b'] c'] ds']. destruct (stages l c1) as [[[m|] c2] n]; by rewrite ?Hha, ?Hd in IH.
Qed.

Lemma Forall_optional {A} (P : item -> Prop) (x : option A) f : (forall a, P (f a)) -> Forall P (optional x f).
Proof. intros H. destruct x; simpl; [|constructor]. by repeat constructor. Qed.

(** The stages of a boot in their order. *)
Definition boot_stages (d : Deps) : C -> option string * C * nat := stages (early_plan d).

End S.
End LiveBoot.

(** The seeding fails after the lease was acquired. *)
Definition demo_deps : LiveBoot.Deps := {|
  LiveBoot.d_validateSchema := Some (fun l => (Ok tt, l ++ ["schema"]));
  LiveBoot.d_supervisor := Some (fun l => (Ok tt, l ++ ["lease"]), fun l => l ++ ["renew"], fun l => l ++ ["release"]);
  LiveBoot.d_seeder := Some (fun l => (Err (err DatabaseError "no rounds"), l));
  LiveBoot.d_prewarmPrediction := None; LiveBoot.d_pollWorker := None |}.

