(* ===== verification/Orchestration.v ===== *)
(** Start and stop of components ([include/orchestration], [common/enums.hpp]): the registry of
    component states, the startup and shutdown managers that walk it, and the orchestrator
    that starts components in order and stops them in reverse.

    [std::sort] is a parameter: it returns a permutation of its input that is sorted for the
    comparison, in an unspecified order among equal elements. *)
From stdpp Require Import sorting countable.
From S2P Require Import Prelude Types.

Open Scope Z_scope.

(* @src include/common/enums.hpp | enum class ComponentId : | ComponentId *)
Inductive ComponentId :=
| CApplication | COrchestrator | CIngestion | CWebSocket | CSocketIo | CSigning | CHeartbeat | CEventDecoder
| CEventRouter | CPredictionInterface | CValidation | COutcomeMatcher | CPredictionRegistry | CFeedback
| COutbox | CTelegram | CPersistence | CWorkerPool | CTelemetry | CLogging | CSecurity.

#[export] Instance ComponentId_eq_dec : EqDecision ComponentId.
Proof. solve_decision. Defined.

(* @src include/common/enums.hpp | inline std::string_view toString(ComponentId | ComponentId::toString *)
Definition component_name (c : ComponentId) : string :=
  match c with
  | CApplication => "application" | COrchestrator => "orchestrator" | CIngestion => "ingestion"
  | CWebSocket => "websocket" | CSocketIo => "socketio" | CSigning => "signing" | CHeartbeat => "heartbeat"
  | CEventDecoder => "event_decoder" | CEventRouter => "event_router"
  | CPredictionInterface => "prediction_interface" | CValidation => "validation"
  | COutcomeMatcher => "outcome_matcher" | CPredictionRegistry => "prediction_registry"
  | CFeedback => "feedback" | COutbox => "outbox" | CTelegram => "telegram" | CPersistence => "persistence"
  | CWorkerPool => "worker_pool" | CTelemetry => "telemetry" | CLogging => "logging" | CSecurity => "security"
  end.

Definition all_components : list ComponentId :=
  [CApplication; COrchestrator; CIngestion; CWebSocket; CSocketIo; CSigning; CHeartbeat; CEventDecoder;
   CEventRouter; CPredictionInterface; CValidation; COutcomeMatcher; CPredictionRegistry; CFeedback;
   COutbox; CTelegram; CPersistence; CWorkerPool; CTelemetry; CLogging; CSecurity].

Definition component_of_name (s : string) : option ComponentId :=
  List.find (fun c => bool_decide (component_name c = s)) all_components.

(** The names of the components are distinct: each is found back by its name. *)
Lemma component_of_name_of c : component_of_name (component_name c) = Some c.
Proof. by destruct c. Qed.

#[export] Instance ComponentId_countable : Countable ComponentId :=
  inj_countable component_name component_of_name component_of_name_of.

(** A sorted list stays sorted without some of its elements. *)
Lemma StronglySorted_keep {A} (R : relation A) (P : A -> Prop) `{!forall x, Decision (P x)} l :
  StronglySorted R l -> StronglySorted R (base.filter P l).
Proof.
  induction 1 as [|x l Hl IH Hx]; [constructor|]. destruct (decide (P x)).
  - rewrite filter_cons_True by done. constructor; [done|]. apply Forall_forall. intros y [_ Hy]%list_elem_of_filter.
    by apply (proj1 (Forall_forall _ _) Hx).
  - by rewrite filter_cons_False.
Qed.

(** * [ComponentRegistry] *)

(* @src include/orchestration/component_registry.hpp | enum class ComponentState : | ComponentState *)
Inductive ComponentState := Unregistered | Registered | Starting | Running | Stopping | Stopped | Failed.

#[export] Instance ComponentState_eq_dec : EqDecision ComponentState.
Proof. solve_decision. Defined.

(* @src include/orchestration/component_registry.hpp | struct ComponentInfo { | ComponentInfo *)
Record ComponentInfo := {
  ci_id : ComponentId; ci_name : string; ci_state : ComponentState; ci_lastTransitionMs : Z; ci_lastError : string;
  ci_startOrder : Z }.
#[export] Instance eta_ComponentInfo : Eta ComponentInfo := fun r =>
  {| ci_id := ci_id r; ci_name := ci_name r; ci_state := ci_state r; ci_lastTransitionMs := ci_lastTransitionMs r;
     ci_lastError := ci_lastError r; ci_startOrder := ci_startOrder r |}.

Module ComponentRegistry.

(** [by_id_] *)
Notation t := (gmap ComponentId ComponentInfo).

(* @src include/orchestration/component_registry.hpp | void registerComponent( *)
Definition registerComponent (r : t) (id : ComponentId) (name : string) (order now : Z) : t :=
  <[id := {| ci_id := id; ci_name := name; ci_state := Registered; ci_lastTransitionMs := now; ci_lastError := "";
             ci_startOrder := order |}]> r.

(* @src include/orchestration/component_registry.hpp | bool setState( *)
Definition setState (r : t) (id : ComponentId) (s : ComponentState) (error : string) (now : Z) : bool * t :=
  match r !! id with
  | None => (false, r)
  | Some i =>
      let i := i <| ci_state := s |> <| ci_lastTransitionMs := now |> in
      (true, <[id := if str_empty error then i else i <| ci_lastError := error |>]> r)
  end.

(* @src include/orchestration/component_registry.hpp | std::optional<ComponentInfo> get( *)
Definition get (r : t) (id : ComponentId) : option ComponentInfo := r !! id.

(** The entries, in the order of the hash table. *)
(* @src include/orchestration/component_registry.hpp | std::vector<ComponentInfo> all() *)
Definition all (r : t) : list ComponentInfo := (map_to_list r).*2.

(* @src include/orchestration/component_registry.hpp | bool allRunning() *)
Definition allRunning (r : t) : bool :=
  negb (bool_decide (r = ∅)) && forallb (fun i => bool_decide (ci_state i = Running)) (all r).

(* @src include/orchestration/component_registry.hpp | std::size_t count() *)
Definition count (r : t) : nat := size r.

(** Each entry is stored under its own id. *)
Definition wf (r : t) : Prop := forall id i, r !! id = Some i -> ci_id i = id.

Lemma setState_wf r id s e now : wf r -> wf (setState r id s e now).2.
Proof.
  intros Hr. unfold setState. destruct (r !! id) as [i|] eqn:E; [|done]. simpl. intros id' i'.
  destruct (decide (id' = id)) as [->|Hne]; [|rewrite lookup_insert_ne by done; apply Hr].
  rewrite lookup_insert_eq. intros [= <-]. case_match; simpl; by apply Hr.
Qed.

Lemma setState_state r id s e now id' :
  ci_state <$> ((setState r id s e now).2 !! id') =
  if decide (id' = id) then (fun _ => s) <$> r !! id' else ci_state <$> (r !! id').
Proof.
  unfold setState. destruct (r !! id) as [i|] eqn:E; simpl.
  - case_decide; [subst; rewrite lookup_insert_eq, E; simpl; by case_match|by rewrite lookup_insert_ne].
  - case_decide; [by subst; rewrite E|done].
Qed.

Lemma setState_keys r id s e now id' : (setState r id s e now).2 !! id' = None <-> r !! id' = None.
Proof.
  rewrite <-!(fmap_None ci_state), setState_state. case_decide; [by rewrite !fmap_None|done].
Qed.

Lemma setState_twice r id s1 s2 e1 e2 now id' : is_Some (r !! id) ->
  ci_state <$> ((setState (setState r id s1 e1 now).2 id s2 e2 now).2 !! id') =
  if decide (id' = id) then Some s2 else ci_state <$> (r !! id').
Proof.
  intros Hs. rewrite setState_state. case_decide as E; [|rewrite setState_state; by rewrite decide_False].
  subst. destruct Hs as [x Hx]. unfold setState. rewrite Hx. simpl. by rewrite lookup_insert_eq.
Qed.

Lemma elem_of_all r i : wf r -> i ∈ all r <-> r !! ci_id i = Some i.
Proof.
  intros Hr. unfold all. rewrite list_elem_of_fmap. split.
  - intros ([id i'] & -> & Hin). apply elem_of_map_to_list in Hin. simpl. by rewrite (Hr id i' Hin).
  - intros H. exists (ci_id i, i). split; [done|]. by apply elem_of_map_to_list.
Qed.

Lemma all_ids_NoDup r : wf r -> NoDup (ci_id <$> all r).
Proof.
  intros Hr. unfold all. rewrite <-list_fmap_compose.
  assert ((ci_id ∘ snd) <$> map_to_list r = (map_to_list r).*1) as ->; [|apply NoDup_fst_map_to_list].
  apply list_fmap_ext. intros k [id i] H. simpl. apply Hr, elem_of_map_to_list. by eapply list_elem_of_lookup_2.
Qed.
End ComponentRegistry.

(** * The managers *)

Definition state_of (r : ComponentRegistry.t) (id : ComponentId) : option ComponentState := ci_state <$> r !! id.

Section Startup.
Context {C : Type}.
(** The hook acts on [C]. *)
Variable start_hook : option (ComponentId -> C -> Result unit * C).
Notation R := ComponentRegistry.t.

(* @src include/orchestration/startup_manager.hpp:26-38 StartupManager::startInOrder *)
Fixpoint start_list (l : list ComponentInfo) (r : R) (c : C) (now : Z) : Result unit * R * C :=
  match l with
  | [] => (Ok tt, r, c)
  | i :: l =>
      let r := (ComponentRegistry.setState r (ci_id i) Starting "" now).2 in
      match match start_hook with Some h => h (ci_id i) c | None => (Ok tt, c) end with
      | (Err e, c) => (Err e, (ComponentRegistry.setState r (ci_id i) Failed (message e) now).2, c)
      | (Ok _, c) => start_list l (ComponentRegistry.setState r (ci_id i) Running "" now).2 c now
      end
  end.

Lemma startup_list_spec l : forall r c now,
  ComponentRegistry.wf r -> NoDup (ci_id <$> l) -> Forall (fun i => is_Some (r !! ci_id i)) l ->
  let '(res, r', c') := start_list l r c now in
  ComponentRegistry.wf r' /\ (forall id, r' !! id = None <-> r !! id = None) /\
  (forall id, id ∉ ci_id <$> l -> state_of r' id = state_of r id) /\
  match res with
  | Ok _ => forall id, id ∈ ci_id <$> l -> state_of r' id = Some Running
  | Err e => exists pre i post, l = pre ++ i :: post /\ state_of r' (ci_id i) = Some Failed /\
      (forall id, id ∈ ci_id <$> pre -> state_of r' id = Some Running) /\
      (forall id, id ∈ ci_id <$> post -> state_of r' id = state_of r id)
  end.
Proof.
  induction l as [|i l IH]; intros r c now Hwf Hnd Hin; cbn [start_list].
  { split_and!; [done|done|done|]. by intros id ?%not_elem_of_nil. }
  rewrite fmap_cons in Hnd |- *. apply list.NoDup_cons in Hnd as [Hi Hnd]. apply list.Forall_cons in Hin as [Hsi Hin].
  set (r1 := (ComponentRegistry.setState r (ci_id i) Starting "" now).2).
  assert (ComponentRegistry.wf r1) as Hwf1 by by apply ComponentRegistry.setState_wf.
  assert (forall s e id, state_of (ComponentRegistry.setState r1 (ci_id i) s e now).2 id =
    if decide (id = ci_id i) then Some s else state_of r id) as Hst.
  { intros s e id. unfold state_of, r1. by apply ComponentRegistry.setState_twice. }
  assert (forall s e id, (ComponentRegistry.setState r1 (ci_id i) s e now).2 !! id = None <-> r !! id = None) as Hkeys.
  { intros. rewrite ComponentRegistry.setState_keys. unfold r1. by rewrite ComponentRegistry.setState_keys. }
  destruct (match start_hook with Some h => h (ci_id i) c | None => (Ok tt, c) end) as [[u|e] c1].
  - set (r2 := (ComponentRegistry.setState r1 (ci_id i) Running "" now).2).
    specialize (IH r2 c1 now). destruct (start_list l r2 c1 now) as [[res r'] c'].
    destruct IH as (Hwf' & Hk & Hout & Hres); [by apply ComponentRegistry.setState_wf|done| |].
    { eapply list.Forall_impl; [exact Hin|]. intros x Hx. simpl in Hx. rewrite <-not_eq_None_Some in *. unfold r2. by rewrite Hkeys. }
    split_and!.
    + done.
    + intros id. rewrite Hk. apply Hkeys.
    + intros id Hid. apply not_elem_of_cons in Hid as [Hne Hid]. rewrite Hout by done. unfold r2. by rewrite Hst, decide_False.
    + destruct res as [u'|e].
      * intros id [->|Hid]%elem_of_cons; [|by apply Hres]. rewrite Hout by done. unfold r2. by rewrite Hst, decide_True.
      * destruct Hres as (pre & j & post & -> & Hf & Hpre & Hpost). exists (i :: pre), j, post. split_and!; [done|done| |].
        -- intros id [->|Hid]%elem_of_cons; [|by apply Hpre]. rewrite Hout by done. unfold r2. by rewrite Hst, decide_True.
        -- intros id Hid. rewrite Hpost by done. unfold r2. rewrite Hst, decide_False; [done|]. intros ->. apply Hi.
           rewrite fmap_app, fmap_cons. set_solver.
  - split_and!; [by apply ComponentRegistry.setState_wf|intros id; apply Hkeys| |].
    + intros id Hid. apply not_elem_of_cons in Hid as [Hne Hid]. by rewrite Hst, decide_False.
    + exists [], i, l. split_and!; [done|by rewrite Hst, decide_True|by intros id ?%not_elem_of_nil|].
      intros id Hid. rewrite Hst, decide_False; [done|]. by intros ->.
Qed.
(** [std::sort] by ascending start order. *)
Variable sort_up : list ComponentInfo -> list ComponentInfo.
Hypothesis sort_up_perm : forall l, sort_up l ≡ₚ l.
Hypothesis sort_up_sorted : forall l, StronglySorted (fun a b => ci_startOrder a <= ci_startOrder b) (sort_up l).

(* @src include/orchestration/startup_manager.hpp | Result<void> startInOrder() | StartupManager::startInOrder *)
Definition startInOrder (r : R) (c : C) (now : Z) : Result unit * R * C :=
  start_list (sort_up (ComponentRegistry.all r)) r c now.

(** Remark: [startInOrder] starts every component or stops at the first whose hook fails: on
    success all are running; on failure that one is marked failed, every component of a
    smaller order is running and none of a greater order was touched. *)
Theorem startup_in_order (r : R) (c : C) (now : Z) :
  ComponentRegistry.wf r ->
  let '(res, r', _) := startInOrder r c now in
  match res with
  | Ok _ => forall id, is_Some (r !! id) -> state_of r' id = Some Running
  | Err e => exists i, r !! ci_id i = Some i /\ state_of r' (ci_id i) = Some Failed /\
      forall id j, r !! id = Some j ->
        (ci_startOrder j < ci_startOrder i -> state_of r' id = Some Running) /\
        (ci_startOrder i < ci_startOrder j -> state_of r' id = state_of r id)
  end.
Proof.
  intros Hwf. unfold startInOrder. set (l := sort_up (ComponentRegistry.all r)).
  assert (forall j, j ∈ l <-> r !! ci_id j = Some j) as Hl.
  { intros j. unfold l. rewrite sort_up_perm. by apply ComponentRegistry.elem_of_all. }
  pose proof (startup_list_spec l r c now Hwf) as H. destruct (start_list l r c now) as [[res r'] c'].
  destruct H as (_ & _ & _ & Hres).
  { unfold l. rewrite sort_up_perm. by apply ComponentRegistry.all_ids_NoDup. }
  { apply Forall_forall. intros j Hj. apply Hl in Hj. eauto. }
  destruct res as [u|e].
  - intros id [j Hj]. apply Hres. rewrite <-(Hwf id j Hj). apply list_elem_of_fmap_2, Hl. by rewrite (Hwf id j Hj).
  - destruct Hres as (pre & i & post & El & Hf & Hpre & Hpost). exists i. split; [apply Hl; rewrite El; set_solver|].
    split; [done|]. intros id j Hj. pose proof (Hwf id j Hj) as <-. assert (j ∈ l) as Hin by by apply Hl.
    pose proof (sort_up_sorted (ComponentRegistry.all r)) as Hs. fold l in Hs. rewrite El in Hs, Hin.
    apply elem_of_app in Hin as [Hin|[->|Hin]%elem_of_cons].
    + split; [intros _; by apply Hpre, list_elem_of_fmap_2|]. intros Hgt.
      pose proof (StronglySorted_app_1_elem_of _ pre (i :: post) j i Hs Hin ltac:(by left)) as Hle. simpl in Hle. lia.
    + split; lia.
    + split; [|intros _; by apply Hpost, list_elem_of_fmap_2]. intros Hlt.
      apply StronglySorted_app_1_r in Hs. apply StronglySorted_inv in Hs as [_ Hs].
      pose proof (proj1 (Forall_forall _ _) Hs j Hin) as Hle. simpl in Hle. lia.
Qed.

End Startup.

Section Shutdown.
Context {C : Type}.
(** The hook acts on [C]; what it throws is swallowed. *)
Variable stop_hook : option (ComponentId -> C -> C).
Notation R := ComponentRegistry.t.

(* @src include/orchestration/shutdown_manager.hpp:25-35 ShutdownManager::stopInReverseOrder *)
Fixpoint stop_list (l : list ComponentInfo) (r : R) (c : C) (now : Z) : R * C :=
  match l with
  | [] => (r, c)
  | i :: l =>
      if negb (bool_decide (ci_state i ∈ [Running; Failed])) then stop_list l r c now
      else
        let r := (ComponentRegistry.setState r (ci_id i) Stopping "" now).2 in
        let c := match stop_hook with Some h => h (ci_id i) c | None => c end in
        stop_list l (ComponentRegistry.setState r (ci_id i) Stopped "" now).2 c now
  end.

Definition must_stop (i : ComponentInfo) : Prop := ci_state i ∈ [Running; Failed].
#[local] Instance must_stop_dec i : Decision (must_stop i).
Proof. unfold must_stop. apply _. Defined.

Lemma stop_list_spec l : forall r c now,
  NoDup (ci_id <$> l) -> Forall (fun i => is_Some (r !! ci_id i)) l ->
  let '(r', c') := stop_list l r c now in
  c' = match stop_hook with Some h => fold_left (fun c i => h (ci_id i) c) (base.filter must_stop l) c | None => c end /\
  forall id, state_of r' id = if decide (id ∈ ci_id <$> base.filter must_stop l) then Some Stopped else state_of r id.
Proof.
  induction l as [|i l IH]; intros r c now Hnd Hin; cbn [stop_list].
  { split; [by destruct stop_hook|]. intros id. by rewrite decide_False by apply not_elem_of_nil. }
  rewrite fmap_cons in Hnd. apply list.NoDup_cons in Hnd as [Hi Hnd]. apply list.Forall_cons in Hin as [[x Hx] Hin].
  destruct (bool_decide (ci_state i ∈ [Running; Failed])) eqn:Em; cbn [negb].
  - apply bool_decide_eq_true in Em. rewrite (filter_cons_True must_stop) by exact Em.
    set (r2 := (ComponentRegistry.setState (ComponentRegistry.setState r (ci_id i) Stopping "" now).2 (ci_id i) Stopped "" now).2).
    set (c1 := match stop_hook with Some h => h (ci_id i) c | None => c end).
    specialize (IH r2 c1 now Hnd). destruct (stop_list l r2 c1 now) as [r' c']. destruct IH as [Hc Hs].
    { eapply list.Forall_impl; [exact Hin|]. intros y Hy. simpl in Hy. rewrite <-not_eq_None_Some in *. unfold r2.
      by rewrite !ComponentRegistry.setState_keys. }
    split; [rewrite Hc; unfold c1; by destruct stop_hook|]. intros id. rewrite Hs, fmap_cons.
    unfold state_of, r2. rewrite ComponentRegistry.setState_twice by eauto.
    destruct (decide (id = ci_id i)) as [->|Hne].
    + rewrite (decide_True (P := ci_id i ∈ _ :: _)) by (by left). rewrite decide_False.
      * done.
      * intros Hf. apply Hi. apply list_elem_of_fmap in Hf as (y & -> & Hy). apply list_elem_of_filter in Hy as [_ Hy].
        by apply list_elem_of_fmap_2.
    + destruct (decide (id ∈ ci_id <$> base.filter must_stop l)) as [Hf|Hf].
      * by rewrite decide_True by (by right).
      * by rewrite decide_False by (by intros [?|?]%elem_of_cons).
  - apply bool_decide_eq_false in Em. rewrite (filter_cons_False must_stop) by exact Em. by apply IH.
Qed.

(** [std::sort] by descending start order. *)
Variable sort_down : list ComponentInfo -> list ComponentInfo.
Hypothesis sort_down_perm : forall l, sort_down l ≡ₚ l.
Hypothesis sort_down_sorted : forall l, StronglySorted (fun a b => ci_startOrder b <= ci_startOrder a) (sort_down l).

(* @src include/orchestration/shutdown_manager.hpp | void stopInReverseOrder() | ShutdownManager::stopInReverseOrder *)
Definition stopInReverseOrder (r : R) (c : C) (now : Z) : R * C :=
  stop_list (sort_down (ComponentRegistry.all r)) r c now.

(** Remark: [stopInReverseOrder] calls the stop hook once for each component that is running or
    failed, greater start orders first, and leaves exactly these stopped. *)
Theorem shutdown_in_reverse (r : R) (c : C) (now : Z) :
  ComponentRegistry.wf r ->
  let '(r', c') := stopInReverseOrder r c now in
  exists l, l ≡ₚ base.filter must_stop (ComponentRegistry.all r) /\
    StronglySorted (fun a b => ci_startOrder b <= ci_startOrder a) l /\
    c' = match stop_hook with Some h => fold_left (fun c i => h (ci_id i) c) l c | None => c end /\
    forall id, state_of r' id = if decide (id ∈ ci_id <$> l) then Some Stopped else state_of r id.
Proof.
  intros Hwf. unfold stopInReverseOrder. set (l := sort_down (ComponentRegistry.all r)).
  pose proof (stop_list_spec l r c now) as H. destruct (stop_list l r c now) as [r' c'].
  destruct H as [Hc Hs].
  { unfold l. rewrite sort_down_perm. by apply ComponentRegistry.all_ids_NoDup. }
  { apply Forall_forall. intros j Hj. unfold l in Hj. rewrite sort_down_perm in Hj. apply ComponentRegistry.elem_of_all in Hj; eauto. }
  exists (base.filter must_stop l). split_and!; [|apply StronglySorted_keep, sort_down_sorted|done|done].
  unfold l. by rewrite sort_down_perm.
Qed.
End Shutdown.

(** * [Orchestrator] *)
Module Orchestrator.
Section S.
Context {C : Type}.

(** The functions of a component act on [C]; the effect of a stop function that throws is
    what it did before. *)
(* @src include/orchestration/orchestrator.hpp | struct Component { *)
Record Component := {
  co_id : ComponentId; co_name : string; co_start : option (C -> Result unit * C); co_stop : option (C -> C); co_order : Z }.

(* @src include/orchestration/orchestrator.hpp:79-82 Orchestrator *)
Record t := { components : list Component; started : list ComponentId; running : bool }.
#[export] Instance eta_t : Eta t := fun r => {| components := components r; started := started r; running := running r |}.

(* @src include/orchestration/orchestrator.hpp:33-33 Orchestrator *)
Definition make : t := {| components := []; started := []; running := false |}.

(* @src include/orchestration/orchestrator.hpp | void add(Component *)
Definition add (o : t) (c : Component) : t := o <| components ::= fun l => l ++ [c] |>.

Variable sort : list Component -> list Component.

Definition start_one (x : Component) (c : C) : Result unit * C :=
  match co_start x with Some f => f c | None => (Ok tt, c) end.
Definition stop_one (x : Component) (c : C) : C := match co_stop x with Some f => f c | None => c end.

(** Every component of the id, in the order of registration. *)
(* @src include/orchestration/orchestrator.hpp:64-69 Orchestrator::stopAll *)
Definition stop_id (l : list Component) (c : C) (id : ComponentId) : C :=
  fold_left (fun c x => if decide (co_id x = id) then stop_one x c else c) l c.

(* @src include/orchestration/orchestrator.hpp | void stopAll() *)
Definition stopAll (o : t) (c : C) : t * C :=
  (o <| started := [] |> <| running := false |>, fold_left (stop_id (components o)) (rev (started o)) c).

(* @src include/orchestration/orchestrator.hpp:43-55 Orchestrator::startAll *)
Fixpoint start_list (l : list Component) (o : t) (c : C) : Result unit * t * C :=
  match l with
  | [] => (Ok tt, o <| running := true |>, c)
  | x :: l =>
      match start_one x c with
      | (Err e, c) => let '(o, c) := stopAll o c in (Err e, o, c)
      | (Ok _, c) => start_list l (o <| started ::= fun s => s ++ [co_id x] |>) c
      end
  end.

(* @src include/orchestration/orchestrator.hpp | Result<void> startAll() *)
Definition startAll (o : t) (c : C) : Result unit * t * C := start_list (sort (components o)) o c.

(** The effects of starting a list of components, and of stopping it backwards. *)
Definition start_effects (l : list Component) (c : C) : C := fold_left (fun c x => (start_one x c).2) l c.
Definition stop_effects (l : list Component) (c : C) : C := fold_left (fun c x => stop_one x c) (rev l) c.

Lemma stop_id_unique l c x : NoDup (co_id <$> l) -> x ∈ l -> stop_id l c (co_id x) = stop_one x c.
Proof.
  unfold stop_id. revert c. induction l as [|y l IH]; intros c Hnd Hx; [by apply not_elem_of_nil in Hx|].
  rewrite fmap_cons in Hnd. apply list.NoDup_cons in Hnd as [Hy Hnd]. simpl.
  assert (forall c, co_id x ∉ co_id <$> l -> fold_left (fun c y => if decide (co_id y = co_id x) then stop_one y c else c) l c = c) as Hskip.
  { clear. induction l as [|z l IH]; intros c Hn; [done|]. rewrite fmap_cons in Hn. apply not_elem_of_cons in Hn as [Hz Hn]. simpl.
    rewrite decide_False by congruence. by apply IH. }
  apply elem_of_cons in Hx as [->|Hx].
  - rewrite decide_True by done. by apply Hskip.
  - rewrite decide_False; [by apply IH|]. intros E. apply Hy. rewrite E. by apply list_elem_of_fmap_2.
Qed.

Lemma stop_started o l c :
  NoDup (co_id <$> components o) -> l ⊆ components o -> started o = co_id <$> l -> (stopAll o c).2 = stop_effects l c.
Proof.
  intros Hnd Hl Hs. unfold stopAll, stop_effects. simpl. rewrite Hs.
  change (co_id <$> l) with (map co_id l). rewrite <-map_rev. revert c.
  assert (rev l ⊆ components o) as Hr by (intros x Hx; apply Hl; by apply list_elem_of_In, in_rev, list_elem_of_In).
  induction (rev l) as [|x r IH]; intros c; [done|]. simpl.
  rewrite stop_id_unique by (done || apply Hr; by left). apply IH. intros y Hy. apply Hr. by right.
Qed.

Lemma start_list_spec l : forall o c pre,
  NoDup (co_id <$> components o) -> pre ++ l ⊆ components o -> started o = co_id <$> pre ->
  let '(r, o', c') := start_list l o c in
  components o' = components o /\
  match r with
  | Ok _ => running o' = true /\ started o' = co_id <$> (pre ++ l) /\ c' = start_effects l c
  | Err e => running o' = false /\ started o' = [] /\
      exists l1 x l2 c1, l = l1 ++ x :: l2 /\ start_one x (start_effects l1 c) = (Err e, c1) /\ c' = stop_effects (pre ++ l1) c1
  end.
Proof.
  induction l as [|x l IH]; intros o c pre Hnd Hsub Hs; cbn [start_list].
  { by rewrite app_nil_r. }
  destruct (start_one x c) as [[u|e] c1] eqn:Ex.
  - set (o1 := o <| started ::= _ |>). specialize (IH o1 c1 (pre ++ [x]) Hnd).
    destruct (start_list l o1 c1) as [[r o'] c']. rewrite <-!(assoc (++)) in IH. destruct IH as [Hc H].
    { exact Hsub. } { unfold o1. simpl. by rewrite Hs, fmap_app. }
    split; [done|]. unfold start_effects in *. destruct r as [u'|e]; cbn [fold_left]; rewrite ?Ex.
    + by rewrite <-(assoc (++)) in H.
    + destruct H as (H1 & H2 & l1 & y & l2 & c2 & -> & Hy & Hc'). split_and!; [done|done|].
      exists (x :: l1), y, l2, c2. cbn [fold_left]. rewrite Ex. split_and!; [done|done|]. by rewrite <-(assoc (++)) in Hc'.
  - pose proof (stop_started o pre c1 Hnd ltac:(set_solver) Hs) as Hst. unfold stopAll in *. simpl in Hst. split; [done|].
    split_and!; [done|done|]. exists [], x, l, c1. by rewrite app_nil_r.
Qed.

Hypothesis sort_perm : forall l, sort l ≡ₚ l.
Hypothesis sort_sorted : forall l, StronglySorted (fun a b => co_order a <= co_order b) (sort l).

(** C30: with distinct component ids, [startAll] starts the components by ascending order and,
    when all have started, a later [stopAll] stops them in exactly the reverse order; when
    one fails, those started before it are stopped in reverse, nothing counts as started, and
    its error is returned. *)
Theorem orchestrator_start_stop (o : t) (c : C) :
  NoDup (co_id <$> components o) -> started o = [] ->
  exists l, l ≡ₚ components o /\ StronglySorted (fun a b => co_order a <= co_order b) l /\
  let '(r, o', c') := startAll o c in
  match r with
  | Ok _ => running o' = true /\ c' = start_effects l c /\ forall c2, (stopAll o' c2).2 = stop_effects l c2
  | Err e => running o' = false /\ started o' = [] /\
      exists pre x post c1, l = pre ++ x :: post /\ start_one x (start_effects pre c) = (Err e, c1) /\
        c' = stop_effects pre c1
  end.
Proof.
  intros Hnd Hs. exists (sort (components o)). split_and!; [done|done|]. unfold startAll.
  assert (sort (components o) ⊆ components o) as Hsub by (intros x; by rewrite sort_perm).
  pose proof (start_list_spec (sort (components o)) o c [] Hnd Hsub Hs) as H.
  destruct (start_list _ o c) as [[r o'] c']. destruct H as [Hc H]. destruct r as [u|e]; [|done].
  destruct H as (H1 & H2 & H3). split_and!; [done|done|]. intros c2. apply stop_started; [by rewrite Hc..|done].
Qed.
End S.
Arguments Component : clear implicits.
Arguments t : clear implicits.
End Orchestrator.

(** ** Witnesses *)

Definition order_le (a b : Orchestrator.Component (list string)) : Prop := Orchestrator.co_order a <= Orchestrator.co_order b.
#[local] Instance order_le_dec : RelDecision order_le.
Proof. intros a b. unfold order_le. apply _. Defined.
#[local] Instance order_le_trans : Transitive order_le.
Proof. intros a b c. unfold order_le. lia. Qed.
#[local] Instance order_le_total : Total order_le.
Proof. intros a b. unfold order_le. lia. Qed.

Definition demo_component (id : ComponentId) (order : Z) (ok : bool) : Orchestrator.Component (list string) := {|
  Orchestrator.co_id := id; Orchestrator.co_name := component_name id;
  Orchestrator.co_start := Some (fun l => (if ok then Ok tt else Err (err Timeout "slow"), l ++ ["+" +:+ component_name id]));
  Orchestrator.co_stop := Some (fun l => l ++ ["-" +:+ component_name id]); Orchestrator.co_order := order |}.

Definition demo_orchestrator : Orchestrator.t (list string) :=
  Orchestrator.add (Orchestrator.add (Orchestrator.add Orchestrator.make (demo_component CTelegram 3 false))
    (demo_component CPersistence 1 true)) (demo_component CIngestion 2 true).

Lemma orchestrator_start_stop_witness :
  exists pre c1, (Orchestrator.startAll (merge_sort order_le) demo_orchestrator []).2 = Orchestrator.stop_effects pre c1 /\
    (Orchestrator.startAll (merge_sort order_le) demo_orchestrator []).2 = ["+persistence"; "+ingestion"; "+telegram"; "-ingestion"; "-persistence"].
Proof.
  destruct (Orchestrator.orchestrator_start_stop (merge_sort order_le)
    (fun l => merge_sort_Permutation order_le l) (fun l => StronglySorted_merge_sort order_le l)
    demo_orchestrator [] ltac:(repeat constructor; set_solver) eq_refl) as (l & Hp & Hs & H).
  destruct (Orchestrator.startAll (merge_sort order_le) demo_orchestrator []) as [[r o'] c'] eqn:E. cbn [snd].
  assert (match r with Err _ => True | Ok _ => False end /\ c' = ["+persistence"; "+ingestion"; "+telegram"; "-ingestion"; "-persistence"]) as [Hr Hc'].
  { vm_compute in E. injection E as <- <- <-. split; [exact I|reflexivity]. }
  destruct r as [u|e]; [destruct Hr|]. destruct H as (_ & _ & pre & x & post & c1 & El & Hx & Hc).
  exists pre, c1. split; [congruence|exact Hc'].
Defined.

(** Registries of three components. *)
Definition info_up (a b : ComponentInfo) : Prop := ci_startOrder a <= ci_startOrder b.
Definition info_down (a b : ComponentInfo) : Prop := ci_startOrder b <= ci_startOrder a.
#[local] Instance info_up_dec : RelDecision info_up.
Proof. intros a b. unfold info_up. apply _. Defined.
#[local] Instance info_down_dec : RelDecision info_down.
Proof. intros a b. unfold info_down. apply _. Defined.
#[local] Instance info_up_trans : Transitive info_up.
Proof. intros a b c. unfold info_up. lia. Qed.
#[local] Instance info_down_trans : Transitive info_down.
Proof. intros a b c. unfold info_down. lia. Qed.
#[local] Instance info_up_total : Total info_up.
Proof. intros a b. unfold info_up. lia. Qed.
#[local] Instance info_down_total : Total info_down.
Proof. intros a b. unfold info_down. lia. Qed.

Definition demo_registry : gmap ComponentId ComponentInfo :=
  ComponentRegistry.registerComponent (ComponentRegistry.registerComponent
    (ComponentRegistry.registerComponent ∅ CTelegram "telegram" 3 0) CPersistence "persistence" 1 0) CIngestion "ingestion" 2 0.

Lemma demo_registry_wf : ComponentRegistry.wf demo_registry.
Proof.
  intros id i. unfold demo_registry, ComponentRegistry.registerComponent. rewrite !lookup_insert.
  repeat case_decide; [by intros [= <-]..|by rewrite lookup_empty].
Qed.

(** The second component fails: the first runs, the third is untouched. *)
Definition demo_hook (id : ComponentId) (l : list string) : Result unit * list string :=
  (if decide (id = CIngestion) then Err (err Timeout "slow") else Ok tt, l ++ [component_name id]).

Lemma startup_in_order_witness :
  let r' := (startInOrder (Some demo_hook) (merge_sort info_up) demo_registry [] 5).1.2 in
  state_of r' CPersistence = Some Running /\ state_of r' CTelegram = Some Registered.
Proof.
  pose proof (startup_in_order (Some demo_hook) (merge_sort info_up) (fun l => merge_sort_Permutation info_up l)
    (fun l => StronglySorted_merge_sort info_up l) demo_registry [] 5 demo_registry_wf) as H.
  destruct (startInOrder _ _ _ _ _) as [[res r'] c'] eqn:E. cbn [fst snd].
  assert (is_ok res = false) as Hr.
  { change res with (res, r', c').1.1. rewrite <-E. vm_compute. reflexivity. }
  destruct res as [u|e]; [discriminate Hr|]. destruct H as (i & Hi & Hf & H).
  assert (forall id, state_of r' id = Some Failed -> id = CIngestion) as Hid.
  { change r' with (Err e : Result unit, r', c').1.2. rewrite <-E. intros []; vm_compute; first [reflexivity | discriminate]. }
  rewrite (Hid _ Hf) in Hi. assert (ci_startOrder i = 2) as Ho by (vm_compute in Hi; by injection Hi as <-).
  split.
  - exact (proj1 (H CPersistence _ eq_refl) ltac:(rewrite Ho; reflexivity)).
  - rewrite (proj2 (H CTelegram _ eq_refl) ltac:(rewrite Ho; reflexivity)). reflexivity.
Defined.

Lemma shutdown_in_reverse_witness :
  let r := (ComponentRegistry.setState (ComponentRegistry.setState demo_registry CTelegram Running "" 1).2 CPersistence Failed "e" 1).2 in
  (stopInReverseOrder (Some (fun id l => l ++ [component_name id])) (merge_sort info_down) r [] 5).2 = ["telegram"; "persistence"].
Proof.
  intros r.
  assert (ComponentRegistry.wf r) as Hwf by apply ComponentRegistry.setState_wf, ComponentRegistry.setState_wf, demo_registry_wf.
  pose proof (shutdown_in_reverse (Some (fun id l => l ++ [component_name id])) (merge_sort info_down)
    (fun l => merge_sort_Permutation info_down l) (fun l => StronglySorted_merge_sort info_down l) r [] 5 Hwf) as H.
  destruct (stopInReverseOrder _ _ _ _ _) as [r' c'] eqn:E. destruct H as (l & Hp & Hs & Hc & _). cbn [snd].
  change c' with (r', c').2. rewrite <-E. vm_compute. reflexivity.
Defined.
