(* ===== verification/App.v ===== *)
(** The application's event cycle: the [N1Coordinator]
    ([include/prediction_interface/n1_coordinator.hpp]) and the response handler, the outcome
    handler, the delivery function and the drain loop that [Application] installs
    ([include/application/application.hpp]).  The prediction engine, the database and the
    Telegram transport are parameters, as in the components. *)
From S2P Require Import Prelude Float64 Types Queues Timing Windows Registry Feedback Validation Attempts.
From S2P Require Import Strategy Predict Outbox OutboxUse Delivery Router.

#[local] Existing Instance OutboxLifecycle.eta_t.
#[local] Existing Instance DurableHandoff.eta_t.

(** * [Metrics] *)
Module Metrics.
(* @src include/telemetry/metrics.hpp | enum Counter : *)
Inductive Counter :=
| EventsReceived | EventsDecoded | EventsRouted | EventsDropped | PredictionsSubmitted
| PredictionsActionable | OutcomesWin | OutcomesLoss | OutboxPublished | OutboxDelivered
| OutboxFailed | Reconnects.
#[export] Instance Counter_eq_dec : EqDecision Counter.
Proof. solve_decision. Defined.

(* @src include/telemetry/metrics.hpp:40-40 Metrics *)
Definition t := Counter -> Z.
Definition make : t := fun _ => 0.
(* @src include/telemetry/metrics.hpp | void inc( *)
Definition inc (c : Counter) (m : t) : t := fun c' => if decide (c = c') then bump (m c') else m c'.
(* @src include/telemetry/metrics.hpp | std::uint64_t get(Counter *)
Definition get (m : t) (c : Counter) : Z := m c.
(* @src include/telemetry/metrics.hpp | void reset() *)
Definition reset (_ : t) : t := make.
End Metrics.

(** * The application

    [Rest] holds what the handlers touch besides the client and the validator; the outbox is
    in [handoff] ([life] is the lease book over it).  [pipeline_attempts] is the coordinator inside
    the pipeline object, once there is one.  The latency tracker, the metric registry, funnel, forensics, statistics page and log are only written here and left out. *)
Module Application.
Section S.
Context {QO QI E W : Type} `{!BoundedFifo QO Outcome} `{!BoundedFifo QI OutboxItem}.
Variable observe : E -> double -> option Z -> E.
Variable is_cold : E -> bool.
Variable predict : E -> string -> double -> (PeResult + string) * E.
Variable executeParams : string -> list string -> W -> Result unit * W.
Variable execute : string -> W -> Result unit * W.
Variable fixed2 : double -> string.
Variable double_to_string : double -> string.

(* @src include/application/application.hpp:625-673 Application *)
Record Rest := {
  attempts : PredictionAttemptCoordinator.t;
  pipeline_attempts : option PredictionAttemptCoordinator.t;
  targets : TargetCoordinator.t;
  handoff : DurableHandoff.t QI;
  life : OutboxLifecycle.t QI;
  durable : option DurablePredictionTx.t;
  world : W;
  cooldown : LossCooldownTracker.t;
  violations : Z;
  feedback : ExactlyOnceFeedback.t;
  temporal : TemporalGuard.t;
  history : RollingHistoryBuffer.t;
  metrics : Metrics.t
}.
#[export] Instance eta_Rest : Eta Rest := fun r =>
  {| attempts := attempts r; pipeline_attempts := pipeline_attempts r; targets := targets r; handoff := handoff r; life := life r; durable := durable r;
     world := world r; cooldown := cooldown r; violations := violations r; feedback := feedback r;
     temporal := temporal r; history := history r; metrics := metrics r |}.

Notation Validator := (LiveValidator.t QO Rest).
Notation Client := (InProcessPredictionClient.t E).

(** ** The response handler *)

(** Durable publication first; the in-memory handoff when there is no database, and also
    when persisting failed. *)
(* @src include/application/application.hpp:308-340 Application::init *)
Definition publish_prediction (r : Rest) (pev : PredictionEvent) (sig : Signal) (clk : nat -> Z) : bool * Rest :=
  let hand r :=
    let '(pub, h) := DurableHandoff.publishPrediction (handoff r) sig (clk 4%nat) in
    let r := r <| handoff := h |> in
    (is_ok pub, if is_ok pub then r <| metrics ::= Metrics.inc Metrics.OutboxPublished |> else r) in
  match durable r with
  | None => hand r
  | Some d =>
      let '(dr, d, h, w) := DurablePredictionTx.persistPrediction executeParams execute double_to_string d
                              (handoff r) pev sig (clk 2%nat) (clk 3%nat) (world r) in
      let r := r <| durable := Some d |> <| handoff := h |> <| world := w |> in
      if dr_ok dr then (true, r <| metrics ::= Metrics.inc Metrics.OutboxPublished |>) else hand r
  end.

(** [clk] gives the successive clock readings of the handler. *)
(* @src include/application/application.hpp:287-343 Application::init *)
Definition on_response (clk : nat -> Z) (resp : PredictionResponse) (s : Client * (Validator * Rest))
    : Client * (Validator * Rest) :=
  let '(c, (v, r)) := s in
  let r := r <| metrics ::= Metrics.inc Metrics.PredictionsSubmitted |>
             <| attempts ::= fun a => snd (PredictionAttemptCoordinator.complete a resp (clk 0%nat)) |> in
  if negb (isActionable resp) then (c, (v, r))
  else
    let r := r <| metrics ::= Metrics.inc Metrics.PredictionsActionable |> in
    let pev := fromResponse resp (rs_targetRoundId resp) f0 (clk 0%nat) (clk 0%nat) in
    match LiveValidator.registerPrediction v pev with
    | (Err _, v) => (c, (v, r))
    | (Ok _, v) =>
        let tid := rs_targetRoundId resp in
        let r := r <| targets ::= fun t => TargetCoordinator.markPredicted
                       (snd (TargetCoordinator.claim t tid (pe_predictionId pev) (clk 1%nat))) tid |> in
        let '(published, r) := publish_prediction r pev (signalFromPrediction fixed2 pev (clk 1%nat)) clk in
        (c, (v, if published then r else r <| targets ::= fun t => snd (TargetCoordinator.release t tid) |>))
    end.

(** ** The outcome handler *)

(* @src include/application/application.hpp:364-386 Application::init *)
Definition publish_outcome (r : Rest) (o : Outcome) (sig : Signal) (clk : nat -> Z) : Rest :=
  let hand r :=
    let '(pub, h) := DurableHandoff.publishOutcome (handoff r) sig (clk 4%nat) in
    let r := r <| handoff := h |> in
    if is_ok pub then r <| metrics ::= Metrics.inc Metrics.OutboxPublished |> else r in
  match durable r with
  | None => hand r
  | Some d =>
      let '(dr, h, w) := DurablePredictionTx.persistOutcome executeParams double_to_string d (handoff r) o sig
                           (clk 3%nat) (world r) in
      let r := r <| handoff := h |> <| world := w |> in
      if dr_ok dr then r <| metrics ::= Metrics.inc Metrics.OutboxPublished |> else hand r
  end.

(** [ExactlyOnceFeedback]'s own insert goes to the same database. *)
Variable insert_feedback : list string -> bool.

(* @src include/application/application.hpp:347-386 Application::init *)
Definition on_outcome (clk : nat -> Z) (o : Outcome) (r : Rest) : Rest :=
  let r := r <| cooldown ::= fun c => LossCooldownTracker.noteOutcome c o (clk 0%nat) |>
             <| violations ::= fun n => snd (InvariantChecker.checkOutcome n o) |>
             <| metrics ::= fun m => if oc_isWin o then Metrics.inc Metrics.OutcomesWin m
                                     else if bool_decide (oc_result o = Loss) then Metrics.inc Metrics.OutcomesLoss m
                                     else m |>
             <| targets ::= fun t => TargetCoordinator.markResolved t (oc_roundId o) (clk 1%nat) |>
             <| feedback ::= fun f => snd (ExactlyOnceFeedback.apply insert_feedback double_to_string f o (clk 2%nat)) |> in
  publish_outcome r o (signalFromOutcome fixed2 o (clk 2%nat)) clk.

(** ** Round starts *)

(** The statement that dead-letters the durable rows of a round, and whether it succeeded. *)
Variable kill : string -> W -> bool * W.

(** The native socket's event handler; the diagnostics and the clock-skew monitors are left
    out. *)
(* @src include/application/application.hpp:151-173 Application::init *)
Definition on_socket_event (clk : nat -> Z) (ev : CrashEvent) (r : Rest) : Rest :=
  let r := r <| metrics ::= Metrics.inc Metrics.EventsReceived |>
             <| history ::= fun h => RollingHistoryBuffer.pushFromEvent h ev (clk 0%nat) |> in
  let r :=
    if bool_decide (kind ev = KStart) || bool_decide (kind ev = KPrepare) then
      let rid := if str_empty (gameId ev) then roundId ev else gameId ev in
      let at_ms := if 0 <? beganAtMs ev then beganAtMs ev else clk 1%nat in
      let r := r <| targets ::= fun t => TargetCoordinator.noteRoundStart t rid (clk 1%nat) |>
                 <| temporal ::= fun g => TemporalGuard.noteTargetStarted g rid at_ms (clk 1%nat) |> in
      match durable r with
      | Some _ => let '(_, g, w) := TemporalGuard.killStaleForTarget kill (temporal r) rid (clk 2%nat) (world r) in
                  r <| temporal := g |> <| world := w |>
      | None => r
      end
    else r in
  r <| violations ::= fun n => snd (InvariantChecker.checkEndEvent n ev) |>.

(** ** The N+1 coordinator *)

(* @src include/prediction_interface/n1_coordinator.hpp:111-111 N1Coordinator *)
Record N1 := { n1_attempts : Z; n1_actionable : Z; n1_skipped : Z; n1_registered : Z; n1_failures : Z }.
#[export] Instance eta_N1 : Eta N1 := fun r =>
  {| n1_attempts := n1_attempts r; n1_actionable := n1_actionable r; n1_skipped := n1_skipped r;
     n1_registered := n1_registered r; n1_failures := n1_failures r |}.
Definition n1_make : N1 := {| n1_attempts := 0; n1_actionable := 0; n1_skipped := 0; n1_registered := 0; n1_failures := 0 |}.

(** The adaptive edge the client consults: installed with the database only. *)
Definition edge_of (r : Rest) : option double := acie.edge <$> ExactlyOnceFeedback.edge (feedback r).

(** Registration and publication of an actionable response by the coordinator itself. *)
(* @src include/prediction_interface/n1_coordinator.hpp:58-66 N1Coordinator::onRoundEnd *)
Definition n1_register (clk : nat -> Z) (n : N1) (resp : PredictionResponse) (e : CrashEvent) (v : Validator) (r : Rest)
    : N1 * Validator * Rest :=
  let pev := fromResponse resp (gameId e) (crashPoint e) (clk 5%nat) (clk 5%nat) in
  match LiveValidator.registerPrediction v pev with
  | (Err _, v) => (n, v, r)
  | (Ok _, v) =>
      (n <| n1_registered ::= bump |>, v,
       r <| handoff ::= fun h => snd (DurableHandoff.publishPrediction h (signalFromPrediction fixed2 pev (clk 6%nat)) (clk 7%nat)) |>)
  end.

(* @src include/prediction_interface/n1_coordinator.hpp | Result<PredictionResponse> onRoundEnd( *)
Definition n1_onRoundEnd (clk : nat -> Z) (n : N1) (e : CrashEvent) (s : Client * (Validator * Rest))
    : Result PredictionResponse * N1 * (Client * (Validator * Rest)) :=
  if negb (bool_decide (kind e = KEnd)) || negb (valid e) then
    (Err (err InvalidArgument "N1 requires valid End event"), n, s)
  else
    let '(c, (v, r)) := s in
    let '(res, (c, (v, r))) :=
      InProcessPredictionClient.predictNextAfterEnd observe is_cold predict (on_response (fun i => clk (8 + i)%nat))
        c (edge_of r) e (clk 0%nat) (clk 1%nat) (clk 2%nat) (clk 3%nat) (clk 4%nat) 0 0 (v, r) in
    match res with
    | Err er => (Err er, n <| n1_failures ::= bump |>, (c, (v, r)))
    | Ok resp =>
        let n := n <| n1_attempts ::= bump |> in
        let '(n, v, r) :=
          if isActionable resp then
            let '(n, v, r) := n1_register clk n resp e v r in (n <| n1_actionable ::= bump |>, v, r)
          else (n <| n1_skipped ::= bump |>, v, r) in
        let r := r <| metrics ::= Metrics.inc Metrics.PredictionsSubmitted |> in
        let r := if isActionable resp then r <| metrics ::= Metrics.inc Metrics.PredictionsActionable |> else r in
        (Ok resp, n, (c, (v, r)))
    end.

(** ** The drain loop *)

(** One end event: history, validation of round N, prediction of round N+1. *)
(* @src include/application/application.hpp:514-519 Application::drainQueues *)
Definition process_end (clk : nat -> Z) (n : N1) (e : CrashEvent) (s : Client * (Validator * Rest))
    : N1 * (Client * (Validator * Rest)) :=
  let '(c, (v, r)) := s in
  let r := r <| history ::= fun h => RollingHistoryBuffer.pushFromEvent h e (clk 0%nat) |> in
  let '(_, v, r) := LiveValidator.onGameEnd (on_outcome clk) (fun _ _ vr => vr) v e (fun i => clk (20 + i)%nat) 0 0 0 0 r in
  let '(_, n, s) := n1_onRoundEnd clk n e (c, (v, r)) in (n, s).

(* @src include/application/application.hpp:514-519 Application::drainQueues *)
Fixpoint drain_ends {QE} `{!BoundedFifo QE CrashEvent} (fuel : nat) (clk : nat -> Z) (router : EventRouter.t QE)
    (n : N1) (s : Client * (Validator * Rest)) : EventRouter.t QE * N1 * (Client * (Validator * Rest)) :=
  match fuel with
  | O => (router, n, s)
  | S fuel =>
      match EventRouter.popValidation router with
      | (None, router) => (router, n, s)
      | (Some e, router) =>
          let '(n, s) := process_end clk n e s in drain_ends fuel (fun i => clk (100 + i)%nat) router n s
      end
  end.

(** The prediction queue is emptied; the coordinator has handled these events already. *)
(* @src include/application/application.hpp:522-528 Application::drainQueues *)
Fixpoint discard_predictions {QE} `{!BoundedFifo QE CrashEvent} (fuel : nat) (router : EventRouter.t QE) : EventRouter.t QE :=
  match fuel with
  | O => router
  | S fuel => match EventRouter.popPrediction router with
              | (None, router) => router
              | (Some _, router) => discard_predictions fuel router
              end
  end.

(** Timeouts, stale predictions and expired leases. *)
(* @src include/application/application.hpp:530-535 Application::drainQueues *)
Definition sweep (clk : nat -> Z) (s : Client * (Validator * Rest)) : Client * (Validator * Rest) :=
  let '(c, (v, r)) := s in
  let r := r <| pipeline_attempts ::= fmap (fun a => snd (PredictionAttemptCoordinator.expireTimeouts a (clk 3%nat))) |>
             <| attempts ::= fun a => snd (PredictionAttemptCoordinator.expireTimeouts a (clk 0%nat)) |> in
  let '(_, v) := LiveValidator.expireStale v 300000 (clk 1%nat) in
  let '(_, l) := OutboxLifecycle.recoverExpiredLeases ((life r) <| OutboxLifecycle.outbox := DurableHandoff.outbox (handoff r) |>)
                   (clk 2%nat) in
  (c, (v, r <| life := l |> <| handoff ::= fun h => h <| DurableHandoff.outbox := OutboxLifecycle.outbox l |> |>)).

(** The loops run until their queue is empty: as many times as it has elements. *)
(* @src include/application/application.hpp | void drainQueues() *)
Definition drainQueues {QE} `{!BoundedFifo QE CrashEvent} (clk : nat -> Z) (router : EventRouter.t QE) (n : N1)
    (s : Client * (Validator * Rest)) : EventRouter.t QE * N1 * (Client * (Validator * Rest)) :=
  let '(router, n, s) := drain_ends (S (bf_size (EventRouter.to_validation router))) clk router n s in
  let router := discard_predictions (S (bf_size (EventRouter.to_prediction router))) router in
  (router, n, sweep clk s).

(** ** The delivery function of the outbox worker *)

(** [send] is the Telegram client; nothing is sent without authorisation. *)
Variable send : Signal -> W -> bool * W.

(* @src include/application/application.hpp:391-405 Application::init *)
Definition deliver (g : TemporalGuard.t) (item : OutboxItem) (now : Z) (w : W) : option bool * W :=
  let auth := TemporalGuard.authorizeSend g (sg_roundId (oi_signal item)) (sg_createdAtMs (oi_signal item)) now in
  if negb (TemporalGuard.allowed auth) then (Some false, w)
  else let '(ok, w) := send (oi_signal item) w in (Some ok, w).

(** ** Correctness of the cycle *)

Lemma on_response_client clk resp c w : fst (on_response clk resp (c, w)) = c.
Proof.
  destruct w as [v r]. unfold on_response. case_match; [done|].
  destruct (LiveValidator.registerPrediction v _) as [[u|er] v1]; [|done].
  by destruct (publish_prediction _ _ _ _) as [b r1].
Qed.

(** A fresh prediction in a registry with room is filed and nothing is pruned; filing it again
    is refused. *)
Lemma register_fresh (reg : Registry) (ev : PredictionEvent) :
  PredictionRegistry.consistent reg -> pe_targetRoundId ev <> EmptyString ->
  pe_predictionId ev ∉ PredictionRegistry.ids reg ->
  (PredictionRegistry.size_of reg < PredictionRegistry.max reg)%nat ->
  let '(res, reg') := PredictionRegistry.registerPrediction reg ev in
  res = Ok tt /\
  PredictionRegistry.all_events (PredictionRegistry.by_round reg') ≡ₚ
    PredictionRegistry.all_events (PredictionRegistry.by_round reg) ++ [ev] /\
  forall ev', pe_targetRoundId ev' = pe_targetRoundId ev -> pe_predictionId ev' = pe_predictionId ev ->
    exists er, fst (PredictionRegistry.registerPrediction reg' ev') = Err er /\
      PredictionRegistry.by_round (snd (PredictionRegistry.registerPrediction reg' ev')) = PredictionRegistry.by_round reg'.
Proof.
  intros Hc Hne Hnew Hroom.
  destruct (PredictionRegistry.register_room reg ev Hc Hne Hnew Hroom) as (reg' & Ereg & Hl & Hp).
  rewrite Ereg. split_and!; [done|done|]. intros ev' Ht Hid.
  unfold PredictionRegistry.registerPrediction. rewrite Ht. apply str_empty_false in Hne as ->. rewrite Hl.
  rewrite (proj2 (existsb_exists _ _)); [by eexists|].
  exists ev. split; [|by apply bool_decide_eq_true_2]. simpl.
  apply list_elem_of_In, elem_of_app. right. by left.
Qed.

Lemma nextRoundId_nonempty s : nextRoundId s <> EmptyString.
Proof.
  assert (s +:+ ".next" <> EmptyString) by by destruct s.
  unfold nextRoundId. destruct (stoull s) as [[x []]|]; [apply to_string_nonempty|done|done].
Qed.

(** [r'] is [r] after one publication: with PostgreSQL one transaction, and one publication in the
    memory outbox, whose time tells whether the transaction was committed before it or failed;
    without, the memory outbox alone, which is tried again when another database refused first. *)
Definition publishes_once (clk : nat -> Z) (pev : PredictionEvent) (sig : Signal) (r r' : Rest) : Prop :=
  match DurablePredictionTx.db <$> durable r with
  | None => world r' = world r /\ handoff r' = snd (DurableHandoff.publishPrediction (handoff r) sig (clk 4%nat))
  | Some DurablePredictionTx.Pg =>
      let '(res, w) := DurablePredictionTx.in_transaction execute
        (DurablePredictionTx.body executeParams double_to_string pev sig (clk 2%nat) (clk 3%nat)) (world r) in
      world r' = w /\
      handoff r' = snd (DurableHandoff.publishPrediction (handoff r) sig (clk (if is_ok res then 3 else 4)%nat))
  | Some _ =>
      let '(pub, h) := DurableHandoff.publishPrediction (handoff r) sig (clk 3%nat) in
      world r' = world r /\
      handoff r' = if is_ok pub then h else snd (DurableHandoff.publishPrediction h sig (clk 4%nat))
  end.

Lemma publish_prediction_once (clk : nat -> Z) (r0 r : Rest) (pev : PredictionEvent) (sig : Signal) :
  durable r = durable r0 -> handoff r = handoff r0 -> world r = world r0 ->
  publishes_once clk pev sig r0 (snd (publish_prediction r pev sig clk)).
Proof.
  intros Hd Hh Hw. unfold publishes_once, publish_prediction. rewrite Hd. destruct (durable r0) as [d|]; cbn [fmap option_fmap option_map].
  - unfold DurablePredictionTx.persistPrediction. rewrite Hh, Hw.
    destruct (DurablePredictionTx.db d);
      repeat (match goal with
      | |- context [DurablePredictionTx.in_transaction ?x ?y ?z] => destruct (DurablePredictionTx.in_transaction x y z) as [[?|?] ?]
      | |- context [DurableHandoff.publishPrediction ?h ?g ?n] => destruct (DurableHandoff.publishPrediction h g n) as [[?|?] ?] eqn:?
      end; cbn -[DurableHandoff.publishPrediction]); try done.
  - rewrite Hh. by destruct (DurableHandoff.publishPrediction (handoff r0) sig (clk 4%nat)) as [[?|?] ?].
Qed.

(** What the handler does with an actionable response for a fresh prediction. *)
Lemma on_response_fresh clk resp c v r pev :
  isActionable resp = true ->
  pev = fromResponse resp (rs_targetRoundId resp) f0 (clk 0%nat) (clk 0%nat) ->
  rs_targetRoundId resp <> EmptyString ->
  PredictionRegistry.consistent (LiveValidator.registry v) ->
  rs_predictionId resp ∉ PredictionRegistry.ids (LiveValidator.registry v) ->
  (PredictionRegistry.size_of (LiveValidator.registry v) < PredictionRegistry.max (LiveValidator.registry v))%nat ->
  let '(_, (v', r')) := on_response clk resp (c, (v, r)) in
  PredictionRegistry.all_events (PredictionRegistry.by_round (LiveValidator.registry v')) ≡ₚ
    PredictionRegistry.all_events (PredictionRegistry.by_round (LiveValidator.registry v)) ++ [pev] /\
  publishes_once clk pev (signalFromPrediction fixed2 pev (clk 1%nat)) r r' /\
  forall ev', pe_targetRoundId ev' = rs_targetRoundId resp -> pe_predictionId ev' = rs_predictionId resp ->
    exists er v2, LiveValidator.registerPrediction v' ev' = (Err er, v2) /\
      PredictionRegistry.by_round (LiveValidator.registry v2) = PredictionRegistry.by_round (LiveValidator.registry v').
Proof.
  intros Ha -> Hne Hc Hnew Hroom. unfold on_response. rewrite Ha. cbn [negb].
  unfold LiveValidator.registerPrediction at 1.
  pose proof (register_fresh _ (fromResponse resp (rs_targetRoundId resp) f0 (clk 0%nat) (clk 0%nat)) Hc Hne Hnew Hroom) as Hreg.
  destruct (PredictionRegistry.registerPrediction _ _) as [res reg']. destruct Hreg as (-> & Hall & Hdup).
  assert (forall (v1 : Validator) ev', LiveValidator.registry v1 = reg' ->
    pe_targetRoundId ev' = rs_targetRoundId resp -> pe_predictionId ev' = rs_predictionId resp ->
    exists er (v2 : Validator), LiveValidator.registerPrediction v1 ev' = (Err er, v2) /\
      PredictionRegistry.by_round (LiveValidator.registry v2) = PredictionRegistry.by_round (LiveValidator.registry v1)) as Hdup'.
  { intros v1 ev' <- Ht Hid. destruct (Hdup ev' Ht Hid) as (er & H1 & H2). unfold LiveValidator.registerPrediction.
    destruct (PredictionRegistry.registerPrediction _ ev') as [r2 reg2]. simpl in *. subst r2. eauto. }
  match goal with |- context [publish_prediction ?x ?p ?s clk] => pose proof (publish_prediction_once clk r x p s eq_refl eq_refl eq_refl) as Hp;
    destruct (publish_prediction x p s clk) as [published r1] end.
  split; [done|]. split; [|intros; by apply Hdup']. by destruct published.
Qed.

(** C1: at the end of round N the application produces one response for round N+1.  If it is
    actionable, its prediction is new and the registry has room for it, the prediction is
    registered for round N+1 exactly once and published exactly once, although both the response
    handler and the coordinator try: the second registration is refused and publishes nothing.
    Published once means (see [publishes_once]) without a database: once in the memory outbox;
    with PostgreSQL: one transaction with the row of the outbox table, and once in the memory
    outbox, whether the transaction was committed or not.  If the response is not actionable,
    nothing is registered, claimed or published. *)
Theorem n1_publishes_once (clk : nat -> Z) (n : N1) (e : CrashEvent) (c : Client) (v : Validator) (r : Rest) :
  kind e = KEnd -> valid e = true ->
  let '(res, n', (_, (v', r'))) := n1_onRoundEnd clk n e (c, (v, r)) in
  exists resp, res = Ok resp /\ rs_targetRoundId resp = nextRoundId (round_of e) /\
    if isActionable resp then
      PredictionRegistry.consistent (LiveValidator.registry v) ->
      rs_predictionId resp ∉ PredictionRegistry.ids (LiveValidator.registry v) ->
      (PredictionRegistry.size_of (LiveValidator.registry v) < PredictionRegistry.max (LiveValidator.registry v))%nat ->
      let pev := fromResponse resp (rs_targetRoundId resp) f0 (clk 8%nat) (clk 8%nat) in
      PredictionRegistry.all_events (PredictionRegistry.by_round (LiveValidator.registry v')) ≡ₚ
        PredictionRegistry.all_events (PredictionRegistry.by_round (LiveValidator.registry v)) ++ [pev] /\
      publishes_once (fun i => clk (8 + i)%nat) pev (signalFromPrediction fixed2 pev (clk 9%nat)) r r' /\
      n1_registered n' = n1_registered n
    else v' = v /\ handoff r' = handoff r /\ world r' = world r /\ targets r' = targets r /\ n1_registered n' = n1_registered n.
Proof.
  intros Hk Hv. unfold n1_onRoundEnd. rewrite Hv, bool_decide_eq_true_2 by done. cbn [negb orb].
  set (clk' := fun i => clk (8 + i)%nat).
  pose proof (InProcessPredictionClient.predict_next_spec observe is_cold predict (on_response clk') c (edge_of r) e
    (clk 0%nat) (clk 1%nat) (clk 2%nat) (clk 3%nat) (clk 4%nat) 0 0 (v, r)) as H.
  destruct (InProcessPredictionClient.predictNextAfterEnd _ _ _ _ _ _ _ _ _ _ _ _ _ _ _) as [res [c' [v1 r1]]].
  destruct H as (resp & c0 & -> & Ht & Hw & _); [apply on_response_client|].
  change (InProcessPredictionClient.round_of_end e) with (round_of e) in Ht.
  destruct (isActionable resp) eqn:Ha.
  - assert (rs_targetRoundId resp <> EmptyString) as Hne by (rewrite Ht; apply nextRoundId_nonempty).
    pose proof (on_response_fresh clk' resp c0 v r _ Ha eq_refl Hne) as Hr.
    destruct (on_response clk' resp (c0, (v, r))) as [c2 [v1' r1']]. simpl in Hw. injection Hw as <- <-.
    unfold n1_register.
    destruct (LiveValidator.registerPrediction v1 _) as [reg2 v2] eqn:E2.
    destruct reg2 as [u|er]; cbn; exists resp; (split; [done|]); (split; [done|]); rewrite Ha; intros Hc Hnew Hroom;
      destruct (Hr Hc Hnew Hroom) as (Hall & Hh & Hdup);
      edestruct Hdup as (er' & v2' & H1 & H2); [| |rewrite E2 in H1; simplify_eq| | |rewrite E2 in H1; simplify_eq]; try done.
    split_and!; [by rewrite H2|done|done].
  - exists resp. split; [done|]. split; [done|]. rewrite Ha.
    assert ((v1, r1) = snd (on_response clk' resp (c0, (v, r)))) as Hw' by done.
    unfold on_response in Hw'. rewrite Ha in Hw'. simpl in Hw'. injection Hw' as -> ->. done.
Qed.

(** ** The drain loop *)

Lemma on_response_window clk resp c v r :
  LiveValidator.window (fst (snd (on_response clk resp (c, (v, r))))) = LiveValidator.window v.
Proof.
  unfold on_response. case_match; [done|]. unfold LiveValidator.registerPrediction.
  destruct (PredictionRegistry.registerPrediction _ _) as [[u|er] reg]; [|done].
  by destruct (publish_prediction _ _ _ _) as [b r1].
Qed.

Lemma n1_register_window clk n resp e v r :
  let '(n', v', _) := n1_register clk n resp e v r in
  LiveValidator.window v' = LiveValidator.window v /\ n1_attempts n' = n1_attempts n.
Proof.
  unfold n1_register, LiveValidator.registerPrediction.
  by destruct (PredictionRegistry.registerPrediction _ _) as [[u|er] reg].
Qed.

(** The coordinator counts each end, observes its round and keeps the validator's memory. *)
Lemma n1_onRoundEnd_counts clk n e c v r :
  kind e = KEnd -> valid e = true ->
  let '(_, n', (c', (v', _))) := n1_onRoundEnd clk n e (c, (v, r)) in
  n1_attempts n' = bump (n1_attempts n) /\
  InProcessPredictionClient.observed c' =
    InProcessPredictionClient.observed (InProcessPredictionClient.observeEnd observe c e (clk 0%nat)) /\
  LiveValidator.window v' = LiveValidator.window v.
Proof.
  intros Hk Hv. unfold n1_onRoundEnd. rewrite Hv, bool_decide_eq_true_2 by done. cbn [negb orb].
  set (clk' := fun i => clk (8 + i)%nat).
  pose proof (InProcessPredictionClient.predict_next_spec observe is_cold predict (on_response clk') c (edge_of r) e
    (clk 0%nat) (clk 1%nat) (clk 2%nat) (clk 3%nat) (clk 4%nat) 0 0 (v, r)) as H.
  destruct (InProcessPredictionClient.predictNextAfterEnd _ _ _ _ _ _ _ _ _ _ _ _ _ _ _) as [res [c' [v1 r1]]].
  destruct H as (resp & c0 & -> & _ & Hw & Ho); [apply on_response_client|].
  assert (LiveValidator.window v1 = LiveValidator.window v) as Hw1.
  { rewrite <-(on_response_window clk' resp c0 v r). by rewrite <-Hw. }
  destruct (isActionable resp).
  - pose proof (n1_register_window clk (n <| n1_attempts ::= bump |>) resp e v1 r1) as Hn.
    destruct (n1_register _ _ _ _ _ _) as [[n2 v2] r2]. destruct Hn as [Hn1 Hn2]. simpl.
    split_and!; [done|done|by rewrite Hn1].
  - by split_and!.
Qed.

(** An end event as the router forwards it. *)
Definition proper_end (e : CrashEvent) : Prop :=
  kind e = KEnd /\ valid e = true /\ round_of e <> EmptyString.

(** The crash point (or last multiplier) the engine can observe. *)
Definition observable (e : CrashEvent) : bool :=
  let cp := InProcessPredictionClient.crash_of e in fgt cp f0 && is_finite cp.

(** The validator's memory after the ends [l]. *)
Fixpoint settle_all (h : list string) (l : list CrashEvent) : list string :=
  match l with
  | [] => h
  | e :: l => settle_all (if bool_decide (round_of e ∈ trim_front LiveValidator.RESOLVED_LIMIT h) then h
                          else h ++ [round_of e]) l
  end.

Lemma process_end_spec clk n e c v r h :
  proper_end e -> LiveValidator.remembers v h ->
  let '(n', (c', (v', _))) := process_end clk n e (c, (v, r)) in
  n1_attempts n' = bump (n1_attempts n) /\
  InProcessPredictionClient.observed c' =
    (if observable e then bump (InProcessPredictionClient.observed c) else InProcessPredictionClient.observed c) /\
  LiveValidator.remembers v' (settle_all h [e]).
Proof.
  intros (Hk & Hv & Hne) Hr. unfold process_end.
  set (r1 := r <| history ::= _ |>).
  pose proof (LiveValidator.game_end_memory (on_outcome clk) (fun _ _ vr => vr) v h e
    (fun i => clk (20 + i)%nat) 0 0 0 0 r1 (fun _ _ _ => eq_refl) Hr Hk Hv Hne) as Hm.
  destruct (LiveValidator.onGameEnd _ _ _ _ _ _ _ _ _ _) as [[res v1] r2]. destruct Hm as [Hm _]. simpl in Hm.
  pose proof (n1_onRoundEnd_counts clk n e c v1 r2 Hk Hv) as Hn.
  destruct (n1_onRoundEnd _ _ _ _) as [[res' n'] [c' [v' r']]]. destruct Hn as (Hn & Ho & Hw).
  split_and!; [done| |by eapply LiveValidator.remembers_window].
  rewrite Ho. unfold InProcessPredictionClient.observeEnd, observable. rewrite Hv, bool_decide_eq_true_2 by done.
  simpl. destruct (fgt _ _); [|done]. by destruct (is_finite _).
Qed.

Section Drain.
Context {QE : Type} `{!BoundedFifo QE CrashEvent}.

Lemma drain_ends_spec fuel : forall clk (router : EventRouter.t QE) n c v r h lp lv,
  EventRouter.holds router lp lv -> (length lv < fuel)%nat -> Forall proper_end lv -> LiveValidator.remembers v h ->
  let '(router', n', (c', (v', _))) := drain_ends fuel clk router n (c, (v, r)) in
  EventRouter.holds router' lp [] /\
  n1_attempts n' = Nat.iter (length lv) bump (n1_attempts n) /\
  InProcessPredictionClient.observed c' =
    Nat.iter (length (List.filter observable lv)) bump (InProcessPredictionClient.observed c) /\
  LiveValidator.remembers v' (settle_all h lv).
Proof.
  induction fuel as [|fuel IH]; intros clk router n c v r h lp lv (Hp & Hv & Hw) Hf Hl Hr; [lia|].
  cbn [drain_ends]. unfold EventRouter.popValidation. pose proof (bf_pop_spec _ _ Hv) as Hpop.
  destruct (bf_pop _) as [[e q]|]; [|by subst lv].
  destruct Hpop as (l' & -> & Hq & _). apply Forall_cons in Hl as [He Hl].
  pose proof (process_end_spec clk n e c v r h He Hr) as Hs.
  destruct (process_end clk n e (c, (v, r))) as [n1 [c1 [v1 r1]]]. destruct Hs as (Hn & Ho & Hr1).
  set (router1 := router <| EventRouter.to_validation := q |>).
  specialize (IH (fun i => clk (100 + i)%nat) router1 n1 c1 v1 r1 _ lp l'
    ltac:(by split_and!) ltac:(simpl in Hf; lia) Hl Hr1).
  destruct (drain_ends _ _ _ _ _) as [[router' n'] [c' [v' r']]]. destruct IH as (Hh & Hn' & Ho' & Hr').
  split_and!; try done.
  - rewrite Hn', Hn. cbn [length]. by rewrite Nat.iter_succ_r.
  - rewrite Ho', Ho. simpl. destruct (observable e); [|done]. cbn [length]. by rewrite Nat.iter_succ_r.
Qed.

Lemma discard_predictions_spec fuel : forall (router : EventRouter.t QE) lp lv,
  EventRouter.holds router lp lv -> (length lp < fuel)%nat ->
  EventRouter.holds (discard_predictions fuel router) [] lv.
Proof.
  induction fuel as [|fuel IH]; intros router lp lv (Hp & Hv & Hw) Hf; [lia|].
  cbn [discard_predictions]. unfold EventRouter.popPrediction. pose proof (bf_pop_spec _ _ Hp) as Hpop.
  destruct (bf_pop _) as [[e q]|]; [|by subst lp].
  destruct Hpop as (l' & -> & Hq & _). apply IH with l'; [by split_and!|simpl in Hf; lia].
Qed.

(** C2: one pass of the drain loop empties both router queues.  Every end event that waited is
    given to the coordinator exactly once (its attempts counter), its round is observed by
    the engine when its multiplier is positive and finite, repeated ends included, and the
    validator's memory of settled rounds grows by exactly the rounds it did not remember. *)
Theorem drain_handles_every_end (clk : nat -> Z) (router : EventRouter.t QE) (n : N1) (c : Client) (v : Validator)
    (r : Rest) (h : list string) (lp lv : list CrashEvent) :
  EventRouter.holds router lp lv -> Forall proper_end lv -> LiveValidator.remembers v h ->
  let '(router', n', (c', (v', _))) := drainQueues clk router n (c, (v, r)) in
  EventRouter.holds router' [] [] /\
  n1_attempts n' = Nat.iter (length lv) bump (n1_attempts n) /\
  InProcessPredictionClient.observed c' =
    Nat.iter (length (List.filter observable lv)) bump (InProcessPredictionClient.observed c) /\
  LiveValidator.remembers v' (settle_all h lv).
Proof.
  intros Hh Hl Hr. unfold drainQueues. pose proof Hh as (_ & Hv & _). rewrite (bf_size_spec _ _ Hv).
  pose proof (drain_ends_spec (S (length lv)) clk router n c v r h lp lv Hh ltac:(lia) Hl Hr) as H.
  destruct (drain_ends _ _ _ _ _) as [[router1 n1] [c1 [v1 r1]]]. destruct H as (Hh1 & Hn & Ho & Hr1).
  pose proof Hh1 as (Hp & _ & _). rewrite (bf_size_spec _ _ Hp).
  pose proof (discard_predictions_spec (S (length lp)) router1 lp [] Hh1 ltac:(lia)) as Hd.
  unfold sweep, LiveValidator.expireStale.
  destruct (PredictionRegistry.expireStale _ _ _) as [k reg].
  destruct (OutboxLifecycle.recoverExpiredLeases _ _) as [k' lf].
  split_and!; done.
Qed.
End Drain.

(** A signal of one of the rounds whose start is in [h]. *)
Definition of_started (h : list (string * Z * Z)) (sig : Signal) : Prop :=
  sg_roundId sig <> EmptyString /\ exists p, p ∈ h /\ p.1.1 = sg_roundId sig.

Lemma deliver_refuses (h : list (string * Z * Z)) (item : OutboxItem) (now : Z) (w : W) :
  of_started h (oi_signal item) -> (forall p, p ∈ h -> (if 0 <? p.1.2 then p.1.2 else p.2) <= now) ->
  deliver (TemporalGuard.note_all TemporalGuard.make h) item now w = (Some false, w).
Proof.
  intros [Hne Hex] Hpast. unfold deliver.
  destruct (TemporalGuard.note_all_started TemporalGuard.make h _ Hne Hex) as (p & Hp & Hr & Hs).
  specialize (Hpast p Hp). unfold TemporalGuard.authorizeSend. rewrite Hs.
  destruct (_ && _); [done|]. destruct (TemporalGuard.note_all_limits TemporalGuard.make h) as [_ ->].
  rewrite Z.add_0_r, (proj2 (Z.leb_le _ _)) by done. done.
Qed.

(** The worker's sink, with the clock it reads for each item: the outside world is the number
    of readings and what [send] acts on. *)
Definition sink (g : TemporalGuard.t) (clk : nat -> Z) (item : OutboxItem) (kw : nat * W) : option bool * (nat * W) :=
  let '(answer, w) := deliver g item (clk (fst kw)) (snd kw) in (answer, (S (fst kw), w)).

(** C26: once the start of a round has been noted, no signal of the round reaches the Telegram
    client any more: however long the outbox worker runs on signals of started rounds, it
    sends nothing and records nothing as delivered, and every item it completes is a dead
    letter.  Outcome signals carry the id of a round that has already been played, so they
    are among them. *)
Theorem started_rounds_dead_letter (h : list (string * Z * Z)) (clk : nat -> Z) (n : nat)
    (clock : nat -> Z * Z) (s : OutboxWorker.t QI (nat * W)) (l : list OutboxItem) :
  bf_repr (OutboxWorker.queue_of s) l -> Forall (fun x => of_started h (oi_signal x)) l ->
  (forall p k, p ∈ h -> (if 0 <? p.1.2 then p.1.2 else p.2) <= clk k) ->
  let '(completed, s') :=
    OutboxWorker.run (sink (TemporalGuard.note_all TemporalGuard.make h) clk) n clock s in
  snd (OutboxWorker.world s') = snd (OutboxWorker.world s) /\
  Forall (fun x => oi_state x = ODeadLetter) completed /\
  Outbox.delivered_keys (OutboxWorker.outbox s') = Outbox.delivered_keys (OutboxWorker.outbox s).
Proof.
  intros Hq Hl Hpast.
  pose proof (OutboxWorker.run_refused (sink (TemporalGuard.note_all TemporalGuard.make h) clk) (of_started h)
    (fun kw => snd kw = snd (OutboxWorker.world s))) as H.
  specialize (H ltac:(intros item [k w] Hi <-; exists (S k, w); unfold sink; simpl;
    rewrite deliver_refuses by (done || (intros; by apply Hpast)); done) n clock s l Hq Hl eq_refl).
  destruct (OutboxWorker.run _ n clock s) as [completed s']. naive_solver.
Qed.
End S.
End Application.

(** * A concrete application *)

Definition demo_rest : Application.Rest (QI := BoundedQueue.t OutboxItem) (W := unit) := {|
  Application.attempts := PredictionAttemptCoordinator.make 50;
  Application.pipeline_attempts := Some (PredictionAttemptCoordinator.make 50);
  Application.targets := TargetCoordinator.make;
  Application.handoff := demo_handoff;
  Application.life := OutboxLifecycle.make (Outbox.make (BoundedQueue.make 4)) 30000;
  Application.durable := None;
  Application.world := tt;
  Application.cooldown := LossCooldownTracker.make 3 60000;
  Application.violations := 0;
  Application.feedback := ExactlyOnceFeedback.make false None;
  Application.temporal := TemporalGuard.make;
  Application.history := RollingHistoryBuffer.make 200;
  Application.metrics := Metrics.make |}.

Definition demo_live : LiveValidator.t (BoundedQueue.t Outcome) (Application.Rest (QI := BoundedQueue.t OutboxItem) (W := unit)) :=
  LiveValidator.make (PredictionRegistry.make 10) (FeedbackDispatcher.make (BoundedQueue.make 8)) None.

Definition no_db (_ : string) (_ : list string) (w : unit) : Result unit * unit := (Err (err DatabaseError "absent"), w).

(** The client answers entries: its warm-up needs no sample. *)
Definition eager_client : InProcessPredictionClient.t nat :=
  InProcessPredictionClient.make
    {| InProcessPredictionClient.minConfidence := flit 55 100; InProcessPredictionClient.defaultTarget := flit 130 100;
       InProcessPredictionClient.qualityEdge := flit 2 100; InProcessPredictionClient.reducedEdge := flit 5 1000;
       InProcessPredictionClient.warmMinSamples := 0; InProcessPredictionClient.autoObserveOnSubmit := true;
       InProcessPredictionClient.strategyMode := acie.Quality |} 5%nat None.

#[local] Notation demo_round_end s :=
  (Application.n1_onRoundEnd (QO := BoundedQueue.t Outcome) (QI := BoundedQueue.t OutboxItem) demo_observe demo_cold demo_predict no_db (fun _ w => (Ok tt, w)) (fun _ => "1.30")
    (fun _ => "1.3") (fun i => 100 + Z.of_nat i) Application.n1_make (Predict.demo_end "7") s) (only parsing).

Definition queued (r : Application.Rest (QI := BoundedQueue.t OutboxItem) (W := unit)) : nat :=
  bf_size (OutboxQueue.q (Outbox.queue (DurableHandoff.outbox (Application.handoff r)))).

Lemma n1_publishes_once_witness :
  let '(res, n', (_, (v', r'))) := demo_round_end (eager_client, (demo_live, demo_rest)) in
  PredictionRegistry.size_of (LiveValidator.registry v') = 1%nat /\ Application.n1_registered n' = 0 /\
  queued r' = 1%nat.
Proof.
  assert (match fst (fst (demo_round_end (eager_client, (demo_live, demo_rest)))) with
          | Ok resp => isActionable resp | Err _ => false end = true) as Ha by (vm_compute; reflexivity).
  assert (queued (snd (snd (snd (demo_round_end (eager_client, (demo_live, demo_rest)))))) = 1%nat) as Hq
    by (vm_compute; reflexivity).
  pose proof (Application.n1_publishes_once demo_observe demo_cold demo_predict no_db (fun _ w => (Ok tt, w))
    (fun _ => "1.30") (fun _ => "1.3") (fun i => 100 + Z.of_nat i) Application.n1_make (Predict.demo_end "7")
    eager_client demo_live demo_rest eq_refl eq_refl) as H.
  destruct (demo_round_end (eager_client, (demo_live, demo_rest))) as [[res n'] [c' [v' r']]].
  destruct H as (resp & -> & _ & H). cbn [fst snd] in Ha, Hq. rewrite Ha in H. destruct H as (Hall & _ & Hn).
  - apply PredictionRegistry.make_consistent.
  - vm_compute. apply not_elem_of_nil.
  - vm_compute. lia.
  - split; [|split; [exact Hn|exact Hq]]. unfold PredictionRegistry.size_of. apply Permutation_length in Hall.
    rewrite length_app in Hall. etransitivity; [exact Hall|]. by vm_compute.
Defined.

(** The outcome signal of round "r", published after the round started: five attempts, a
    dead letter, and nothing sent. *)
Lemma started_rounds_dead_letter_witness :
  let sig := signalFromOutcome (fun _ => "2") (sample_outcome "p" Win 1) 150 in
  let s := {| OutboxWorker.outbox := snd (Outbox.publish (app_outbox 2) sig 150);
              OutboxWorker.world := (O, O); OutboxWorker.processed := 0 |} in
  let '(completed, s') := OutboxWorker.run (Application.sink (fun _ w => (true, S w))
    (TemporalGuard.note_all TemporalGuard.make [("r", 100, 100)]) (fun _ => 151)) 5 (fun _ => (151, 151)) s in
  snd (OutboxWorker.world s') = O /\ Forall (fun x => oi_state x = ODeadLetter) completed /\ length completed = 1%nat.
Proof.
  intros sig s.
  assert (length (fst (OutboxWorker.run (Application.sink (fun _ w => (true, S w))
    (TemporalGuard.note_all TemporalGuard.make [("r", 100, 100)]) (fun _ => 151)) 5 (fun _ => (151, 151)) s)) = 1%nat)
    as Hn by (vm_compute; reflexivity).
  pose proof (Application.started_rounds_dead_letter (fun _ w => (true, S w)) [("r", 100, 100)] (fun _ => 151) 5
    (fun _ => (151, 151)) s [(Outbox.new_item sig 150) <| oi_id := 1 |>]) as H.
  destruct (OutboxWorker.run _ 5 _ s) as [completed s']. destruct H as (Hw & Hd & _); cbn [fst] in Hn.
  - apply (BoundedQueue.bounded_insert_repr (BoundedQueue.make 2) []);
      [apply BoundedQueue.bounded_make_repr|simpl; lia].
  - constructor; [|constructor]. split; [discriminate|]. exists ("r", 100, 100). split; [by left|reflexivity].
  - intros p k Hp. apply list_elem_of_singleton in Hp as ->. vm_compute. discriminate.
  - split; [exact Hw|]. split; [exact Hd|exact Hn].
Defined.

(** Remark: a repeated end event is a duplicate for the validator but not for the coordinator: it
    feeds the engine the same round again and produces another response. *)
Lemma duplicate_end_observed_again :
  let step := Application.process_end demo_observe demo_cold demo_predict no_db (fun _ w => (Ok tt, w))
    (fun _ => "1.30") (fun _ => "1.3") (fun _ => false) (fun i => 100 + Z.of_nat i) in
  let '(n1, s1) := step Application.n1_make (Predict.demo_end "7") (eager_client, (demo_live, demo_rest)) in
  let '(n2, (c2, (v2, r2))) := step n1 (Predict.demo_end "7") s1 in
  LiveValidator.duplicate_ends v2 = 1 /\ InProcessPredictionClient.observed c2 = 2 /\ Application.n1_attempts n2 = 2.
Proof. vm_compute. repeat split. Qed.

(** Two different ends and a repeated one wait: the coordinator handles all three, the
    validator settles two rounds. *)
Definition demo_ends : list CrashEvent := [Predict.demo_end "7"; Predict.demo_end "8"; Predict.demo_end "7"].

Definition demo_backlog : BoundedQueue.t CrashEvent := fold_left BoundedQueue.insert_item demo_ends (BoundedQueue.make 4).

Lemma drain_handles_every_end_witness :
  let '(_, n', (c', (v', _))) :=
    Application.drainQueues demo_observe demo_cold demo_predict no_db (fun _ w => (Ok tt, w)) (fun _ => "1.30")
      (fun _ => "1.3") (fun _ => false) (fun i => 100 + Z.of_nat i) (EventRouter.make (fun _ => demo_backlog) 4 None)
      Application.n1_make (eager_client, (demo_live, demo_rest)) in
  Application.n1_attempts n' = 3 /\ InProcessPredictionClient.observed c' = 3 /\
  LiveValidator.remembers v' ["7"; "8"].
Proof.
  pose proof (Application.drain_handles_every_end demo_observe demo_cold demo_predict no_db (fun _ w => (Ok tt, w))
    (fun _ => "1.30") (fun _ => "1.3") (fun _ => false) (fun i => 100 + Z.of_nat i)
    (EventRouter.make (fun _ => demo_backlog) 4 None) Application.n1_make eager_client demo_live demo_rest
    [] demo_ends demo_ends) as H.
  destruct (Application.drainQueues _ _ _ _ _ _ _ _ _ _ _ _) as [[router' n'] [c' [v' r']]].
  destruct H as (_ & Hn & Ho & Hr).
  - assert (BoundedQueue.repr demo_backlog demo_ends) as Hq.
    { unfold demo_backlog. cbn [fold_left demo_ends].
      pose proof (BoundedQueue.bounded_make_repr (A := CrashEvent) 4) as H0.
      apply (BoundedQueue.bounded_insert_repr _ _ (Predict.demo_end "7")) in H0; [|simpl; lia].
      apply (BoundedQueue.bounded_insert_repr _ _ (Predict.demo_end "8")) in H0; [|simpl; lia].
      apply (BoundedQueue.bounded_insert_repr _ _ (Predict.demo_end "7")) in H0; [|simpl; lia].
      exact H0. }
    split; [exact Hq|]. split; [exact Hq|]. split; [apply NoDup_nil_2|reflexivity].
  - repeat constructor; discriminate.
  - apply LiveValidator.remembers_make.
  - split; [rewrite Hn; vm_compute; reflexivity|]. split; [rewrite Ho; vm_compute; reflexivity|].
    assert (Application.settle_all [] demo_ends = ["7"; "8"]) as E by (vm_compute; reflexivity).
    rewrite E in Hr. exact Hr.
Defined.
