(* ===== verification/Pipeline.v ===== *)
(** [PipelineLoop] ([include/application/pipeline_loop.hpp]): one frame through decoding,
    normalisation, duplicate filter, round state, statistics and routing, and the drain that
    follows.  It is the composition used without the application's coordinator, over the stub
    [PredictionClient]; the latency tracker, the unused clock offset and the hook for
    validated events are left out. *)
From S2P Require Import Prelude Float64 Types Queues Timing Windows Wire Decoder Realtime Ingest Stats Router.
From S2P Require Import Registry Feedback Validation Attempts Ipc Outbox OutboxUse Delivery App.

#[local] Existing Instances OutboxLifecycle.eta_t LiveValidator.eta_t RealtimePipeline.eta_t EventRouter.eta_t DuplicateFilter.eta_t.

(** [nowMs] is read twice when there is no correlation id: once for the request. *)
(* @src include/prediction_interface/prediction_request.hpp | inline PredictionRequest makePredictionRequest( *)
Definition makePredictionRequest (ev : CrashEvent) (correlationId : string) (now ns : Z) : PredictionRequest :=
  let target := round_of ev in
  {| rq_targetRoundId := target; rq_gameId := gameId ev; rq_requestTimeMs := now; rq_requestNs := ns;
     rq_sequence := sequence ev;
     rq_currentMult := if fgt (currentMult ev) f0 then currentMult ev else crashPoint ev;
     rq_correlationId := if str_empty correlationId then target +:+ "-" +:+ to_string now else correlationId |}.

Module PipelineLoop.
Section S.
Context {QE QO QI X : Type} `{!BoundedFifo QE CrashEvent} `{!BoundedFifo QO Outcome} `{!BoundedFifo QI OutboxItem}.
Variable exp : double -> double.
Variable fixed2 : double -> string.

(** What the handlers change besides the validator and the attempts: the outbox, the metrics
    and what the owner of the pipeline keeps ([extra]). *)
(* @src include/application/pipeline_loop.hpp | OutboxLifecycle& outbox_; >> LatencyTracker* tracker_; *)
Record Rest := { outbox : OutboxLifecycle.t QI; metrics : Metrics.t; extra : X }.
#[export] Instance eta_Rest : Eta Rest := fun r => {| outbox := outbox r; metrics := metrics r; extra := extra r |}.

Notation Validator := (LiveValidator.t QO Rest).

(* @src include/application/pipeline_loop.hpp | EventDecoder& decoder_; >> bool ownsHandlers_ *)
Record t := {
  decoder : EventDecoder.t;
  router : EventRouter.t QE;
  client : PredictionClient.t;
  attempts : PredictionAttemptCoordinator.t;
  validator : Validator;
  rest : Rest;
  realtime : RealtimePipeline.t unit;
  rounds : RoundState.t;
  dupes : DuplicateFilter.t;
  stats : CrashStatsAccumulator.t;
  ownsHandlers : bool
}.
#[export] Instance eta_t : Eta t := fun r =>
  {| decoder := decoder r; router := router r; client := client r; attempts := attempts r; validator := validator r;
     rest := rest r; realtime := realtime r; rounds := rounds r; dupes := dupes r; stats := stats r;
     ownsHandlers := ownsHandlers r |}.

(** The parts given by reference, and those the constructor makes: timeout, window and limits
    are the defaults of their constructors. *)
(* @src include/application/pipeline_loop.hpp | PipelineLoop(EventDecoder& decoder, *)
Definition make (d : EventDecoder.t) (q : EventRouter.t QE) (c : PredictionClient.t) (v : Validator)
    (o : OutboxLifecycle.t QI) (x : X) (installHandlers : bool) : t := {|
  decoder := d; router := q; client := c; attempts := PredictionAttemptCoordinator.make 50;
  validator := v; rest := {| outbox := o; metrics := Metrics.make; extra := x |};
  realtime := RealtimePipeline.make tt; rounds := RoundState.make; dupes := DuplicateFilter.make 8192;
  stats := CrashStatsAccumulator.make; ownsHandlers := installHandlers |}.

Definition count (c : Metrics.Counter) (r : Rest) : Rest := r <| metrics ::= Metrics.inc c |>.

(** A refused publication is counted all the same. *)
Definition publish (sig : Signal) (now : Z) (r : Rest) : Rest :=
  count Metrics.OutboxPublished (r <| outbox ::= fun o => snd (OutboxLifecycle.publishSignal o sig now) |>).

(** ** The handlers *)

(* @src include/application/pipeline_loop.hpp | void onPredictionResponse( *)
Definition onPredictionResponse (now : Z) (resp : PredictionResponse)
    (s : PredictionClient.t * (PredictionAttemptCoordinator.t * (Validator * Rest)))
    : PredictionClient.t * (PredictionAttemptCoordinator.t * (Validator * Rest)) :=
  let '(c, (a, (v, r))) := s in
  let a := snd (PredictionAttemptCoordinator.complete a resp now) in
  if negb (isActionable resp) then (c, (a, (v, r)))
  else
    let r := count Metrics.PredictionsActionable r in
    let pev := fromResponse resp (rs_targetRoundId resp) f0 now now in
    match LiveValidator.registerPrediction v pev with
    | (Err _, v) => (c, (a, (v, r)))
    | (Ok _, v) => (c, (a, (v, publish (signalFromPrediction fixed2 pev now) now r)))
    end.

(* @src include/application/pipeline_loop.hpp | void onOutcome( *)
Definition onOutcome (now : Z) (o : Outcome) (r : Rest) : Rest :=
  let r := if oc_isWin o then count Metrics.OutcomesWin r
           else if decide (oc_result o = Loss) then count Metrics.OutcomesLoss r else r in
  publish (signalFromOutcome fixed2 o now) now r.

(** The outcome handler in force: the owner may have replaced the pipeline's own by one that
    calls it between two actions of its own. *)
Variable before after : Z -> Outcome -> X -> X.

Definition outcome_handler (now : Z) (o : Outcome) (r : Rest) : Rest :=
  (onOutcome now o (r <| extra ::= before now o |>)) <| extra ::= after now o |>.

(** ** Draining *)

(** The client's [submit] as the coordinator of attempts calls it: the handler runs inside. *)
Definition submit_within (now : Z) (req : PredictionRequest)
    (s : PredictionAttemptCoordinator.t * (PredictionClient.t * (Validator * Rest)))
    : Result unit * (PredictionAttemptCoordinator.t * (PredictionClient.t * (Validator * Rest))) :=
  let '(a, (c, vr)) := s in
  let '(res, (c, (a, vr))) := PredictionClient.submit (onPredictionResponse now) c req now now (a, vr) in
  (res, (a, (c, vr))).

(** One end event: an attempt is begun, which submits the request, and then the request is
    submitted again. *)
(* @src include/application/pipeline_loop.hpp:131-134 PipelineLoop::drain *)
Definition predict_end (now : Z) (ev : CrashEvent) (s : t) : t :=
  let req := makePredictionRequest ev EmptyString now now in
  let '(_, (a, (c, vr))) :=
    PredictionAttemptCoordinator.begin (submit_within now) (attempts s) req now now now (client s, (validator s, rest s)) in
  let '(_, (a, (c, (v, r)))) := submit_within now req (a, (c, vr)) in
  s <| attempts := a |> <| client := c |> <| validator := v |> <| rest := count Metrics.PredictionsSubmitted r |>.

(** [while (auto ev = router_.popPrediction())]. *)
(* @src include/application/pipeline_loop.hpp:128-135 PipelineLoop::drain *)
Fixpoint drain_predictions (fuel : nat) (now : Z) (s : t) : t :=
  match fuel with
  | O => s
  | S fuel =>
      match EventRouter.popPrediction (router s) with
      | (None, q) => s <| router := q |>
      | (Some ev, q) =>
          let s := s <| router := q |> in
          drain_predictions fuel now (if decide (kind ev = KEnd) then predict_end now ev s else s)
      end
  end.

(* @src include/application/pipeline_loop.hpp:137-137 PipelineLoop::drain *)
Definition validate_end (now : Z) (ev : CrashEvent) (s : t) : t :=
  let '(_, v, r) := LiveValidator.onGameEnd (outcome_handler now) (fun _ _ vr => vr) (validator s) ev (fun _ => now)
                      now now now now (rest s) in
  s <| validator := v |> <| rest := r |>.

(* @src include/application/pipeline_loop.hpp:136-139 PipelineLoop::drain *)
Fixpoint drain_validations (fuel : nat) (now : Z) (s : t) : t :=
  match fuel with
  | O => s
  | S fuel =>
      match EventRouter.popValidation (router s) with
      | (None, q) => s <| router := q |>
      | (Some ev, q) => drain_validations fuel now (validate_end now ev (s <| router := q |>))
      end
  end.

(** Timeouts, stale predictions, expired leases. *)
(* @src include/application/pipeline_loop.hpp:141-143 PipelineLoop::drain *)
Definition sweep (now : Z) (s : t) : t :=
  s <| attempts ::= fun a => snd (PredictionAttemptCoordinator.expireTimeouts a now) |>
    <| validator ::= fun v => snd (LiveValidator.expireStale v 300000 now) |>
    <| rest ::= fun r => r <| outbox ::= fun o => snd (OutboxLifecycle.recoverExpiredLeases o now) |> |>.

(** The readings of the clock of one drain are taken equal; a loop runs as often as its queue
    has elements. *)
(* @src include/application/pipeline_loop.hpp | void drain() *)
Definition drain (now : Z) (s : t) : t :=
  let s := if ownsHandlers s then
             let s := drain_predictions (S (bf_size (EventRouter.to_prediction (router s)))) now s in
             drain_validations (S (bf_size (EventRouter.to_validation (router s)))) now s
           else s in
  sweep now s.

(** ** A frame *)

(** The readings of the clocks in one call. *)
Record times := { t_decode : EventDecoder.readings; t_observe : RealtimePipeline.readings; t_now : Z; t_route0 : Z; t_route1 : Z }.

Definition tally (c : Metrics.Counter) (s : t) : t := s <| rest ::= count c |>.

(** After decoding and observing: duplicate filter, round state, statistics, routing, drain. *)
(* @src include/application/pipeline_loop.hpp:95-113 PipelineLoop::onFrame *)
Definition intake (tm : times) (ev : CrashEvent) (s : t) : t :=
  let '(fresh, f) := DuplicateFilter.accept (dupes s) ev in
  let s := s <| dupes := f |> in
  if negb fresh then tally Metrics.EventsDropped s
  else
    let s := s <| rounds ::= fun r => snd (RoundState.apply r ev (t_now tm)) |> in
    let s := if bool_decide (kind ev = KEnd) && fgt (crashPoint ev) f0
             then s <| stats ::= fun a => CrashStatsAccumulator.addRound a (crashPoint ev) |> else s in
    let '(ok, q) := EventRouter.route (router s) ev (t_route0 tm) (t_route1 tm) in
    let s := tally (if ok then Metrics.EventsRouted else Metrics.EventsDropped) (s <| router := q |>) in
    drain (t_now tm) s.

(** [None]: the decoder would read outside the frame, which [decodeBinary_total] excludes. *)
(* @src include/application/pipeline_loop.hpp | Result<void> onFrame( *)
Definition onFrame (tm : times) (data : list Z) (s : t) : option (Result unit * t) :=
  let s := tally Metrics.EventsReceived s in
  '(res, d) ← EventDecoder.decodeBinary exp (decoder s) data NativeSocket (t_decode tm);
  let s := s <| decoder := d |> in
  match res with
  | Err e => Some (void_of_error e, tally Metrics.EventsDropped s)
  | Ok ev =>
      let s := tally Metrics.EventsDecoded s in
      let '(accepted, p) := RealtimePipeline.observe exp (Some (fun _ u => u)) (realtime s) ev (t_observe tm) in
      let s := s <| realtime := p |> in
      match accepted with
      | None =>
          if bool_decide (kind ev = KHeartbeat) || bool_decide (kind ev = KConnect) then Some (Ok tt, s)
          else if negb (valid ev) then Some (Ok tt, s)
          else Some (Ok tt, intake tm ev s)
      | Some _ => Some (Ok tt, intake tm ev s)
      end
  end.
(** ** What a drain does *)

Lemma predict_end_router now ev s q : predict_end now ev (s <| router := q |>) = (predict_end now ev s) <| router := q |>.
Proof.
  unfold predict_end. cbn [client attempts validator rest set_field].
  match goal with |- context [PredictionAttemptCoordinator.begin ?f ?a ?r ?x ?y ?z ?c] =>
    change (PredictionAttemptCoordinator.begin f _ r x y z _) with (PredictionAttemptCoordinator.begin f (attempts s) r x y z (client s, (validator s, rest s)));
    destruct (PredictionAttemptCoordinator.begin f (attempts s) r x y z (client s, (validator s, rest s))) as [res [a1 [c1 vr]]] end.
  match goal with |- context [submit_within ?x ?y ?z] => by destruct (submit_within x y z) as [res2 [a2 [c2 [v2 r2]]]] end.
Qed.

Lemma validate_end_router now ev s q : validate_end now ev (s <| router := q |>) = (validate_end now ev s) <| router := q |>.
Proof.
  unfold validate_end. cbn [validator rest set_field]. change (rest (set_field _ s)) with (rest s). change (validator (set_field _ s)) with (validator s).
  match goal with |- context [LiveValidator.onGameEnd ?a ?b ?c ?d ?e ?f ?g ?h ?i ?j] =>
    by destruct (LiveValidator.onGameEnd a b c d e f g h i j) as [[res v] r] end.
Qed.

Definition predict_if_end (now : Z) (s : t) (ev : CrashEvent) : t :=
  if decide (kind ev = KEnd) then predict_end now ev s else s.

(** Setting the router commutes with folding a step that ignores it. *)
Lemma fold_router (f : t -> CrashEvent -> t) (Hf : forall s e q, f (s <| router := q |>) e = (f s e) <| router := q |>) l :
  forall s q, fold_left f l (s <| router := q |>) = (fold_left f l s) <| router := q |>.
Proof. induction l as [|e l IH]; intros s q; [done|]. simpl. by rewrite Hf, IH. Qed.

Lemma predict_if_end_router now s ev q : predict_if_end now (s <| router := q |>) ev = (predict_if_end now s ev) <| router := q |>.
Proof. unfold predict_if_end. case_decide; [apply predict_end_router|done]. Qed.

Lemma drain_predictions_spec fuel now lp lv : forall s,
  EventRouter.holds (router s) lp lv -> (length lp < fuel)%nat ->
  exists q, drain_predictions fuel now s = (fold_left (predict_if_end now) lp s) <| router := q |> /\
    EventRouter.holds q [] lv /\ EventRouter.seen q = EventRouter.seen (router s).
Proof.
  revert fuel. induction lp as [|ev lp IH]; intros [|fuel] s (Hp & Hv & Hw) Hf; simpl in Hf; try lia.
  - cbn [drain_predictions fold_left]. unfold EventRouter.popPrediction. pose proof (bf_pop_spec _ _ Hp) as H.
    destruct (bf_pop _) as [[e q']|]; [by destruct H as (? & ? & _)|]. exists (router s). by split_and!.
  - cbn [drain_predictions fold_left]. unfold EventRouter.popPrediction. pose proof (bf_pop_spec _ _ Hp) as H.
    destruct (bf_pop _) as [[e q']|]; [|done]. destruct H as (lp' & [= <- <-] & Hp' & _).
    set (q1 := (router s) <| EventRouter.to_prediction := q' |>).
    destruct (IH fuel (predict_if_end now (s <| router := q1 |>) ev)) as (q & E & Hh & Hs).
    { rewrite predict_if_end_router. by split_and!. } { lia. }
    exists q. unfold predict_if_end in E at 1. rewrite E. split_and!; [|done|].
    + rewrite predict_if_end_router, fold_router by (intros; apply predict_if_end_router). done.
    + rewrite Hs, predict_if_end_router. done.
Qed.

Lemma drain_validations_spec fuel now lp lv : forall s,
  EventRouter.holds (router s) lp lv -> (length lv < fuel)%nat ->
  exists q, drain_validations fuel now s = (fold_left (fun s e => validate_end now e s) lv s) <| router := q |> /\
    EventRouter.holds q lp [] /\ EventRouter.seen q = EventRouter.seen (router s).
Proof.
  revert fuel. induction lv as [|ev lv IH]; intros [|fuel] s (Hp & Hv & Hw) Hf; simpl in Hf; try lia.
  - cbn [drain_validations fold_left]. unfold EventRouter.popValidation. pose proof (bf_pop_spec _ _ Hv) as H.
    destruct (bf_pop _) as [[e q']|]; [by destruct H as (? & ? & _)|]. exists (router s). by split_and!.
  - cbn [drain_validations fold_left]. unfold EventRouter.popValidation. pose proof (bf_pop_spec _ _ Hv) as H.
    destruct (bf_pop _) as [[e q']|]; [|done]. destruct H as (lv' & [= <- <-] & Hv' & _).
    set (q1 := (router s) <| EventRouter.to_validation := q' |>).
    destruct (IH fuel (validate_end now ev (s <| router := q1 |>))) as (q & E & Hh & Hs).
    { rewrite validate_end_router. by split_and!. } { lia. }
    exists q. rewrite E. split_and!; [|done|].
    + rewrite validate_end_router, fold_router by (intros; apply validate_end_router). done.
    + rewrite Hs, validate_end_router. done.
Qed.

(** A drain that owns the handlers empties both queues: first it predicts for the waiting ends,
    then it validates them. *)
Lemma pipeline_drain_spec now lp lv s :
  ownsHandlers s = true -> EventRouter.holds (router s) lp lv ->
  exists q, drain now s =
      sweep now ((fold_left (fun s e => validate_end now e s) lv (fold_left (predict_if_end now) lp s)) <| router := q |>) /\
    EventRouter.holds q [] [] /\ EventRouter.seen q = EventRouter.seen (router s).
Proof.
  intros Ho Hh. unfold drain. rewrite Ho.
  destruct (drain_predictions_spec (S (bf_size (EventRouter.to_prediction (router s)))) now lp lv s Hh) as (q & -> & Hq & Es).
  { destruct Hh as (Hp & _). rewrite (bf_size_spec _ _ Hp). lia. }
  set (s1 := (fold_left (predict_if_end now) lp s) <| router := q |>).
  destruct (drain_validations_spec (S (bf_size (EventRouter.to_validation (router s1)))) now [] lv s1 Hq) as (q2 & -> & Hq2 & Es2).
  { destruct Hq as (_ & Hv & _). unfold s1. cbn. rewrite (bf_size_spec _ _ Hv). lia. }
  exists q2. split_and!; [|done|by rewrite Es2].
  unfold s1. rewrite fold_router by (intros; apply validate_end_router). done.
Qed.

(** ** The stub's answer *)

Definition stub_answer (now : Z) (req : PredictionRequest) : PredictionResponse :=
  PredictionClient.skip_response "stub-" "stub" req now now.

Lemma stub_not_actionable now req : isActionable (stub_answer now req) = false.
Proof. unfold isActionable, stub_answer. cbn. by rewrite bool_decide_false by done. Qed.

Lemma submit_within_stub now req a c v r :
  submit_within now req (a, (c, (v, r))) =
    (Ok tt, (snd (PredictionAttemptCoordinator.complete a (stub_answer now req) now),
             (c <| PredictionClient.pending ::= insert (rq_correlationId req) (stub_answer now req) |>
                <| PredictionClient.submitted ::= bump |>, (v, r)))).
Proof.
  unfold submit_within, PredictionClient.submit, onPredictionResponse. cbv zeta. fold (stub_answer now req).
  by rewrite stub_not_actionable.
Qed.

Lemma request_id_nonempty ev now ns : str_empty (rq_correlationId (makePredictionRequest ev EmptyString now ns)) = false.
Proof.
  apply str_empty_false. unfold makePredictionRequest. cbn. destruct (round_of ev); [by rewrite app_empty_str|done].
Qed.

(** The parts of the pipeline that predicting leaves alone. *)
Definition kept (s' s : t) : Prop :=
  realtime s' = realtime s /\ rounds s' = rounds s /\ dupes s' = dupes s /\ stats s' = stats s /\ decoder s' = decoder s.

(** The stub skips, so nothing is registered or published; yet it is asked twice. *)
Lemma predict_end_stub now ev s :
  let req := makePredictionRequest ev EmptyString now now in
  let s' := predict_end now ev s in
  PredictionClient.pending (client s') = <[rq_correlationId req := stub_answer now req]> (PredictionClient.pending (client s)) /\
  PredictionClient.submitted (client s') = bump (bump (PredictionClient.submitted (client s))) /\
  PredictionAttemptCoordinator.completed (attempts s') = bump (PredictionAttemptCoordinator.completed (attempts s)) /\
  PredictionAttemptCoordinator.started (attempts s') = bump (PredictionAttemptCoordinator.started (attempts s)) /\
  validator s' = validator s /\ rest s' = count Metrics.PredictionsSubmitted (rest s) /\ kept s' s.
Proof.
  cbv zeta. set (req := makePredictionRequest ev EmptyString now now).
  pose proof (request_id_nonempty ev now now) as Hid. fold req in Hid.
  unfold predict_end. fold req. unfold PredictionAttemptCoordinator.begin.
  destruct (PredictionAttemptCoordinator.open_then_complete (attempts s) req now now now (stub_answer now req) Hid eq_refl)
    as (Ea & Es & Ec & Hagain).
  destruct (PredictionAttemptCoordinator.open_attempt (attempts s) req now now) as [aid a1]. cbn [fst snd] in *. subst aid.
  assert (req <| rq_correlationId := rq_correlationId req |> = req) as -> by done.
  rewrite submit_within_stub. cbv beta iota. rewrite submit_within_stub. unfold kept.
  set (a2 := (PredictionAttemptCoordinator.complete a1 (stub_answer now req) now).2) in *.
  rewrite Hagain by done. cbn. rewrite insert_insert_eq. by split_and!; f_equal.
Qed.

(** ** A frame from end to end *)

(** The pipeline after decoding and observing a frame; the verdict of the observation decides
    nothing for a valid event. *)
Definition received (tm : times) (ev : CrashEvent) (d : EventDecoder.t) (s : t) : t :=
  (tally Metrics.EventsDecoded ((tally Metrics.EventsReceived s) <| decoder := d |>))
    <| realtime := (RealtimePipeline.observe exp (Some (fun _ u => u)) (realtime s) ev (t_observe tm)).2 |>.

Lemma onFrame_valid tm data s ev d :
  EventDecoder.decodeBinary exp (decoder s) data NativeSocket (t_decode tm) = Some (Ok ev, d) ->
  valid ev = true -> kind ev <> KHeartbeat -> kind ev <> KConnect ->
  onFrame tm data s = Some (Ok tt, intake tm ev (received tm ev d s)).
Proof.
  intros Hd Hv Hh Hc. unfold onFrame, received. change (decoder (tally Metrics.EventsReceived s)) with (decoder s).
  rewrite Hd. cbn [mbind option_bind].
  change (realtime (tally Metrics.EventsDecoded _)) with (realtime s).
  destruct (RealtimePipeline.observe exp (Some (fun _ u => u)) (realtime s) ev (t_observe tm)) as [[acc|] p]; [done|].
  by rewrite (bool_decide_false _ Hh), (bool_decide_false _ Hc), Hv.
Qed.

(** A key the duplicate filter holds: only counters move. *)
Lemma intake_known tm ev s h :
  valid ev = true -> SeenWindow.holds (DuplicateFilter.window (dupes s)) h ->
  DuplicateFilter.makeKey ev ∈ trim_front (SeenWindow.max (DuplicateFilter.window (dupes s))) h ->
  intake tm ev s = tally Metrics.EventsDropped (s <| dupes ::= fun f => f <| DuplicateFilter.duplicates ::= bump |> |>).
Proof.
  intros Hv Hw Hin. unfold intake, DuplicateFilter.accept, DuplicateFilter.acceptKey. rewrite Hv.
  pose proof (SeenWindow.add_spec _ h (DuplicateFilter.makeKey ev) Hw) as H.
  destruct (SeenWindow.add _ _) as [w|]; [by destruct H as (? & _)|]. done.
Qed.

(** A fresh end event with room in both queues is predicted for and validated, in this order,
    and the queues are left empty. *)
Definition noted (tm : times) (ev : CrashEvent) (s : t) : t :=
  let s := s <| rounds ::= fun r => snd (RoundState.apply r ev (t_now tm)) |> in
  if fgt (crashPoint ev) f0 then s <| stats ::= fun a => CrashStatsAccumulator.addRound a (crashPoint ev) |> else s.

Lemma intake_end tm ev s h :
  kind ev = KEnd -> valid ev = true -> gameId ev <> EmptyString -> ownsHandlers s = true ->
  SeenWindow.holds (DuplicateFilter.window (dupes s)) h ->
  DuplicateFilter.makeKey ev ∉ trim_front (SeenWindow.max (DuplicateFilter.window (dupes s))) h ->
  EventRouter.holds (router s) [] [] ->
  (0 < bf_limit (EventRouter.to_prediction (router s)))%nat -> (0 < bf_limit (EventRouter.to_validation (router s)))%nat ->
  EventRouter.route_key ev ∉ LruWindow.order (EventRouter.seen (router s)) ->
  let ev' := ev <| routedAtNs := t_route0 tm |> in
  let s1 := tally Metrics.EventsRouted (noted tm ev s) in
  exists q f, intake tm ev s =
      sweep (t_now tm) ((validate_end (t_now tm) ev' (predict_end (t_now tm) ev' (s1 <| dupes := f |>))) <| router := q |>) /\
    EventRouter.holds q [] [] /\
    EventRouter.route_key ev ∈ LruWindow.order (EventRouter.seen q) /\
    SeenWindow.max (DuplicateFilter.window f) = SeenWindow.max (DuplicateFilter.window (dupes s)) /\
    SeenWindow.holds (DuplicateFilter.window f) (h ++ [DuplicateFilter.makeKey ev]).
Proof.
  intros Hk Hv Hg Ho Hw Hnew Hr Hlp Hlv Hkey ev' s1. unfold intake, DuplicateFilter.accept, DuplicateFilter.acceptKey. rewrite Hv.
  pose proof (SeenWindow.add_spec _ h (DuplicateFilter.makeKey ev) Hw) as H.
  destruct (SeenWindow.add _ _) as [w|]; [|done]. destruct H as (_ & Hw' & Hmax). cbn [negb].
  set (f := (dupes s) <| DuplicateFilter.window := w |> <| DuplicateFilter.accepted ::= bump |>).
  rewrite bool_decide_true by done. cbn [andb].
  set (s2 := s <| dupes := f |> <| rounds ::= _ |>).
  match goal with |- context [if fgt ?c f0 then ?a else ?b] => assert ((if fgt c f0 then a else b) = (noted tm ev s) <| dupes := f |>) as -> end.
  { unfold noted, s2. by destruct (fgt _ _). }
  assert (router ((noted tm ev s) <| dupes := f |>) = router s) as -> by (unfold noted; by destruct (fgt _ _)).
  assert (ownsHandlers (noted tm ev s) = true) as Ho' by (unfold noted; by destruct (fgt _ _)).
  pose proof (EventRouter.route_outcome (router s) [] [] ev (t_route0 tm) (t_route1 tm) Hr) as Hroute. cbv zeta in Hroute.
  rewrite Hv, (proj2 (str_empty_false (gameId ev)) Hg), (bool_decide_false _ Hkey), (bool_decide_true _ Hk), !bool_decide_true in Hroute by (simpl; lia).
  cbn [negb andb orb app] in Hroute. destruct (EventRouter.route (router s) ev (t_route0 tm) (t_route1 tm)) as [ok q].
  destruct Hroute as (Hq & -> & Hseen).
  set (s3 := tally Metrics.EventsRouted ((noted tm ev s) <| dupes := f |> <| router := q |>)).
  assert (EventRouter.holds (router s3) [ev'] [ev']) as Hs3 by (assert (router s3 = q) as -> by reflexivity; exact Hq).
  destruct (pipeline_drain_spec (t_now tm) [ev'] [ev'] s3 Ho' Hs3) as (q2 & -> & Hq2 & Hs2).
  exists q2, f. split_and!; [|done|rewrite Hs2; change (router s3) with q; rewrite Hseen; apply elem_of_trim_front_last; unfold EventRouter.LRU_LIMIT; lia|done|done]. cbn [fold_left]. unfold predict_if_end at 1. rewrite decide_True by done.
  assert (s3 = (s1 <| dupes := f |>) <| router := q |>) as -> by reflexivity.
  rewrite predict_end_router, validate_end_router. reflexivity.
Qed.

(** Validation and the sweep, after the router was drained to [q]. *)
Lemma settle_spec now ev s q :
  let s1 := sweep now ((validate_end now ev s) <| router := q |>) in
  let '(_, v, r) := LiveValidator.onGameEnd (outcome_handler now) (fun _ _ vr => vr) (validator s) ev (fun _ => now)
                      now now now now (rest s) in
  validator s1 = snd (LiveValidator.expireStale v 300000 now) /\
  outbox (rest s1) = snd (OutboxLifecycle.recoverExpiredLeases (outbox r) now) /\ extra (rest s1) = extra r /\
  client s1 = client s /\ router s1 = q /\ kept s1 s.
Proof.
  cbv zeta. unfold sweep, validate_end, kept.
  match goal with |- context [LiveValidator.onGameEnd ?a ?b ?c ?d ?e ?f ?g ?h ?i ?j] =>
    destruct (LiveValidator.onGameEnd a b c d e f g h i j) as [[res v] r] end.
  by split_and!.
Qed.

(** The pipeline is ready for the round [gid]: its queues are drained and have room, and neither
    the duplicate filter nor the router remembers the end of that round. *)
Definition ready_for (gid m : Z) (hash : string) (tm : times) (s : t) : Prop :=
  let ev := EventDecoder.end_event "ed" gid m hash NativeSocket (t_decode tm) in
  ownsHandlers s = true /\ EventRouter.holds (router s) [] [] /\
  (0 < bf_limit (EventRouter.to_prediction (router s)))%nat /\ (0 < bf_limit (EventRouter.to_validation (router s)))%nat /\
  EventRouter.route_key ev ∉ LruWindow.order (EventRouter.seen (router s)) /\
  (0 < SeenWindow.max (DuplicateFilter.window (dupes s)))%nat /\
  exists h, SeenWindow.holds (DuplicateFilter.window (dupes s)) h /\
            DuplicateFilter.makeKey ev ∉ trim_front (SeenWindow.max (DuplicateFilter.window (dupes s))) h.

(** What the components downstream of the duplicate filter hold. *)
Definition downstream (s : t) := (router s, client s, attempts s, validator s, rounds s, stats s, outbox (rest s), extra (rest s)).

Lemma end_event_key gid m hash r r' :
  DuplicateFilter.makeKey (EventDecoder.end_event "ed" gid m hash NativeSocket r) =
  DuplicateFilter.makeKey (EventDecoder.end_event "ed" gid m hash NativeSocket r').
Proof. reflexivity. Qed.

Lemma decode_end space hash gid mult :
  let m := fllround (fmul mult (of_Z 100)) in
  short space -> 0 <= gid < 2 ^ 56 -> 0 <= m < 2 ^ 56 -> Z.of_nat (String.length hash) < 2 ^ 56 ->
  forall d r, EventDecoder.decodeBinary exp d (encodeEvent space "ed" (encodeEndPayload gid mult hash)) NativeSocket r =
    Some (Ok (EventDecoder.end_event "ed" gid m hash NativeSocket r), EventDecoder.count_decoded d r).
Proof.
  intros m Hn Hg Hm Hh d r. assert (short "ed") as Hed by (unfold short; simpl; lia).
  rewrite EventDecoder.decode_event_frame by done. by apply EventDecoder.decode_end_packet.
Qed.

(** After the frame of a finished round the queues are drained and the router remembers it. *)
Lemma onFrame_end_drains (tm : times) (space hash : string) (gid : Z) (mult : double) (s : t) :
  let m := fllround (fmul mult (of_Z 100)) in
  let ev := EventDecoder.end_event "ed" gid m hash NativeSocket (t_decode tm) in
  short space -> 0 <= gid < 2 ^ 56 -> 0 <= m < 2 ^ 56 -> Z.of_nat (String.length hash) < 2 ^ 56 ->
  ready_for gid m hash tm s ->
  exists s1, onFrame tm (encodeEvent space "ed" (encodeEndPayload gid mult hash)) s = Some (Ok tt, s1) /\
    EventRouter.holds (router s1) [] [] /\ EventRouter.route_key ev ∈ LruWindow.order (EventRouter.seen (router s1)).
Proof.
  intros m ev Hn Hg Hm Hh (Ho & Hr & Hlp & Hlv & Hkey & Hmax & h & Hw & Hnew).
  set (s0 := received tm ev (EventDecoder.count_decoded (decoder s) (t_decode tm)) s).
  destruct (intake_end tm ev s0 h) as (q & f & Ein & Hq & Hseen & _); try done.
  { change (gameId ev) with (to_string gid). apply to_string_nonempty. }
  eexists. split; [rewrite (onFrame_valid tm _ s ev _ (decode_end space hash gid mult Hn Hg Hm Hh _ _)) by done; fold s0; by rewrite Ein|].
  match goal with |- context [sweep ?n ((validate_end ?n ?e ?x) <| router := q |>)] => pose proof (settle_spec n e x q) as Hset end.
  cbv zeta in Hset. match type of Hset with context [LiveValidator.onGameEnd ?a ?b ?c ?d ?e ?f ?g ?h ?i ?j] => destruct (LiveValidator.onGameEnd a b c d e f g h i j) as [[res v] r] end.
  destruct Hset as (_ & _ & _ & _ & -> & _). done.
Qed.

(** C3: one frame of a finished round, from bytes to the outbox.  It is decoded, passes the
    filters and is routed; the drain settles the round once, through the outcome handler in
    force, and leaves both queues empty; the statistics count its crash point and the round is
    sealed.  The prediction client is asked twice for the one prediction that is counted, and
    since it is the stub, nothing is registered.  The same frame again, at any later time,
    changes nothing downstream of the duplicate filter. *)
Theorem pipeline_end_once (tm tm2 : times) (space hash : string) (gid : Z) (mult : double) (s : t) :
  let m := fllround (fmul mult (of_Z 100)) in
  let data := encodeEvent space "ed" (encodeEndPayload gid mult hash) in
  let ev := EventDecoder.end_event "ed" gid m hash NativeSocket (t_decode tm) in
  let now := t_now tm in
  short space -> 0 <= gid < 2 ^ 56 -> 0 <= m < 2 ^ 56 -> Z.of_nat (String.length hash) < 2 ^ 56 ->
  ready_for gid m hash tm s ->
  exists s1 s2 r0, onFrame tm data s = Some (Ok tt, s1) /\
    r0 = count Metrics.PredictionsSubmitted (count Metrics.EventsRouted (count Metrics.EventsDecoded (count Metrics.EventsReceived (rest s)))) /\
    let '(_, v, r) := LiveValidator.onGameEnd (outcome_handler now) (fun _ _ vr => vr) (validator s)
                        (ev <| routedAtNs := t_route0 tm |>) (fun _ => now) now now now now r0 in
    validator s1 = snd (LiveValidator.expireStale v 300000 now) /\
    outbox (rest s1) = snd (OutboxLifecycle.recoverExpiredLeases (outbox r) now) /\ extra (rest s1) = extra r /\
    PredictionClient.submitted (client s1) = bump (bump (PredictionClient.submitted (client s))) /\
    stats s1 = (if fgt (crashPoint ev) f0 then CrashStatsAccumulator.addRound (stats s) (crashPoint ev) else stats s) /\
    rounds s1 = snd (RoundState.apply (rounds s) ev now) /\
    EventRouter.holds (router s1) [] [] /\
    onFrame tm2 data s1 = Some (Ok tt, s2) /\ downstream s2 = downstream s1.
Proof.
  intros m data ev now Hn Hg Hm Hh (Ho & Hr & Hlp & Hlv & Hkey & Hmax & h & Hw & Hnew).
  pose proof (decode_end space hash gid mult Hn Hg Hm Hh) as Hdec. cbv zeta in Hdec. fold m in Hdec.
  set (s0 := received tm ev (EventDecoder.count_decoded (decoder s) (t_decode tm)) s).
  destruct (intake_end tm ev s0 h) as (q & f & Ein & Hq & _ & Hfm & Hfw); try done.
  { change (gameId ev) with (to_string gid). apply to_string_nonempty. }
  pose proof (predict_end_stub now (ev <| routedAtNs := t_route0 tm |>)
    ((tally Metrics.EventsRouted (noted tm ev s0)) <| dupes := f |>)) as Hstub. cbv zeta in Hstub.
  set (s3 := predict_end now _ _) in Hstub. destruct Hstub as (_ & Hsub & _ & _ & Hv & Hrest & Hkept).
  assert (rest s3 = count Metrics.PredictionsSubmitted (count Metrics.EventsRouted (rest s0)) /\ validator s3 = validator s /\
    PredictionClient.submitted (client s3) = bump (bump (PredictionClient.submitted (client s))) /\
    rounds s3 = snd (RoundState.apply (rounds s) ev now) /\ dupes s3 = f /\
    decoder s3 = EventDecoder.count_decoded (decoder s) (t_decode tm) /\
    stats s3 = (if fgt (crashPoint ev) f0 then CrashStatsAccumulator.addRound (stats s) (crashPoint ev) else stats s))
    as (Hrest3 & Hv3 & Hsub3 & Hrn3 & Hdu3 & Hde3 & Hst3).
  { destruct Hkept as (_ & Hrn & Hdu & Hst & Hde). rewrite Hrest, Hv, Hsub, Hrn, Hdu, Hde, Hst. unfold noted.
    destruct (fgt (crashPoint ev) f0); by split_and!. }
  pose proof (settle_spec now (ev <| routedAtNs := t_route0 tm |>) s3 q) as Hset. cbv zeta in Hset.
  set (s1 := sweep now _) in Hset. change (intake tm ev s0 = s1) in Ein.
  exists s1. rewrite Hv3, Hrest3 in Hset.
  set (ev2 := EventDecoder.end_event "ed" gid m hash NativeSocket (t_decode tm2)).
  match type of Hset with context [LiveValidator.onGameEnd ?a ?b ?c ?d ?e ?f ?g ?h ?i ?j] => set (og := LiveValidator.onGameEnd a b c d e f g h i j) in Hset end.
  exists (tally Metrics.EventsDropped ((received tm2 ev2 (EventDecoder.count_decoded (decoder s1) (t_decode tm2)) s1)
           <| dupes ::= fun f => f <| DuplicateFilter.duplicates ::= bump |> |>)).
  eexists. split; [|split; [reflexivity|]].
  { rewrite (onFrame_valid tm data s ev _ (Hdec _ _)) by done. fold s0. by rewrite Ein. }
  change (count _ (count _ (count _ (count _ (rest s))))) with (count Metrics.PredictionsSubmitted (count Metrics.EventsRouted (rest s0))).
  fold og. destruct og as [[res v] r]. destruct Hset as (E1 & E2 & E3 & E4 & E5 & Hk1). destruct Hk1 as (_ & K1 & K2 & K3 & K4).
  split_and!; [done|done|done|by rewrite E4|by rewrite K3|by rewrite K1|by rewrite E5| |done].
  rewrite (onFrame_valid tm2 data s1 ev2 _ (Hdec _ _)) by done. do 2 f_equal.
  apply (intake_known tm2 ev2 _ (h ++ [DuplicateFilter.makeKey ev])); [done| |].
  - change (dupes (received tm2 ev2 _ s1)) with (dupes s1). by rewrite K2, Hdu3.
  - change (dupes (received tm2 ev2 _ s1)) with (dupes s1). rewrite K2, Hdu3, Hfm. apply elem_of_trim_front_last. exact Hmax.
Qed.

End S.
End PipelineLoop.

(** A pipeline that owns its handlers, with empty queues of two. *)
Definition demo_pipeline : PipelineLoop.t (QE := BoundedQueue.t CrashEvent) (QO := BoundedQueue.t Outcome)
    (QI := BoundedQueue.t OutboxItem) (X := unit) :=
  PipelineLoop.make (EventDecoder.make None) (EventRouter.make BoundedQueue.make 2 None)
    (PredictionClient.make PredictionClient.default_contract None)
    (LiveValidator.make (PredictionRegistry.make 10) (FeedbackDispatcher.make (BoundedQueue.make 8)) None)
    (OutboxLifecycle.make (app_outbox 4) 1000) tt true.

Definition demo_times : PipelineLoop.times := {|
  PipelineLoop.t_decode := zero_readings;
  PipelineLoop.t_observe := {| RealtimePipeline.ro_norm := 5; RealtimePipeline.ro_accept := 6; RealtimePipeline.ro_lag := 7; RealtimePipeline.ro_us := 1 |};
  PipelineLoop.t_now := 10; PipelineLoop.t_route0 := 1; PipelineLoop.t_route1 := 2 |}.

Lemma demo_pipeline_ready : PipelineLoop.ready_for 77 234 "h" demo_times demo_pipeline.
Proof.
  unfold PipelineLoop.ready_for. split; [done|]. split.
  { unfold EventRouter.holds. split_and!; [apply BoundedQueue.bounded_make_repr..|]. split; [apply NoDup_nil_2|done]. }
  split; [cbn; lia|]. split; [cbn; lia|]. split; [apply not_elem_of_nil|]. split; [cbn; lia|].
  exists []. split; [apply SeenWindow.make_holds|]. unfold trim_front. cbn. apply not_elem_of_nil.
Qed.

Lemma pipeline_end_once_witness :
  exists s1 s2, PipelineLoop.onFrame id (fun _ => "2.34") (fun _ _ x => x) (fun _ _ x => x) demo_times
      (encodeEvent "/g/cm" "ed" (encodeEndPayload 77 (flit 234 100) "h")) demo_pipeline = Some (Ok tt, s1) /\
    PredictionClient.submitted (PipelineLoop.client s1) = 2 /\
    PipelineLoop.onFrame id (fun _ => "2.34") (fun _ _ x => x) (fun _ _ x => x) demo_times
      (encodeEvent "/g/cm" "ed" (encodeEndPayload 77 (flit 234 100) "h")) s1 = Some (Ok tt, s2).
Proof.
  assert (fllround (fmul (flit 234 100) (of_Z 100)) = 234) as Em by (vm_compute; reflexivity).
  destruct (PipelineLoop.pipeline_end_once id (fun _ => "2.34") (fun _ _ x => x) (fun _ _ x => x) demo_times demo_times
    "/g/cm" "h" 77 (flit 234 100) demo_pipeline) as (s1 & s2 & r0 & E1 & _ & H).
  - unfold short; simpl; lia.
  - lia.
  - rewrite Em. lia.
  - simpl. lia.
  - rewrite Em. exact demo_pipeline_ready.
  - exists s1, s2. split; [exact E1|].
    destruct (LiveValidator.onGameEnd _ _ _ _ _ _ _ _ _ _) as [[res v] r]. destruct H as (_ & _ & _ & Hs & _ & _ & _ & E2 & _).
    split; [exact Hs|exact E2].
Defined.
