(* ===== verification/Engine.v ===== *)
(** [EventEngine] ([include/application/event_engine.hpp]): the pipeline with handlers of its
    own, and the native socket that gets every frame a second time.

    Decoder, router, diagnostics, invariant counter and database are shared by reference: they
    are handed to the part that runs and taken back after it.  The readings of the clock within
    one handler are taken equal. *)
From S2P Require Import Prelude Float64 Types Queues Timing Windows Wire Decoder Realtime Ingest Stats Router Signing.
From S2P Require Import Socket NativeSocket Registry Feedback Sql Database Validation Attempts Strategy Ipc Repos Outbox OutboxUse Telegram.
From S2P Require Import Feed Scenarios App Pipeline Dispatch.

Open Scope Z_scope.

#[local] Existing Instances PipelineLoop.eta_t PipelineLoop.eta_Rest NativeBcGameSocket.eta_rest LiveValidator.eta_t.
#[local] Existing Instances CrashRoundRepository.eta_t OutcomeRepository.eta_t.

Module EventEngine.

(* @src include/application/event_engine.hpp | struct EventEngineConfig { *)
Record EventEngineConfig := {
  queueCapacity : nat; outboxCapacity : nat; enableTelegram : bool; enablePersistence : bool;
  predictionTimeoutMs : Z; stuckMaxAgeMs : Z }.

Section S.
Context {QE QO QI QP D N : Type} `{!BoundedFifo QE CrashEvent} `{!BoundedFifo QO Outcome} `{!BoundedFifo QI OutboxItem}.
Context `{!BoundedFifo QP BatchWriter.PersistItem} `{!Database D} `{!WebSocket N}.
Variable exp log : double -> double.
Variable fixed2 fixed4 fixed6 : double -> string.
Variable connection : WebSocketConfig -> N.
Variable connect : string -> D.
Variable make_event_queue : nat -> QE.
Variable make_outcome_queue : nat -> QO.
Variable make_outbox_queue : nat -> QI.
Variable make_persist_queue : nat -> QP.
(** What the secret provider answers. *)
Variable secret : string -> option string.

(** What the handlers of the engine change. [frames_rx] and [reconnects] are what the socket
    answers while it runs its event handler. *)
(* @src include/application/event_engine.hpp | LossCooldownTracker cooldown_; >> SocketDiagnostics diagnostics_; | EventEngine *)
Record Shared := {
  cooldown : LossCooldownTracker.t; violations : Z; diagnostics : SocketDiagnostics.t; db : option D;
  round_repo : option (CrashRoundRepository.t D); outcome_repo : option (OutcomeRepository.t D);
  frames_rx : Z; reconnects : Z }.
#[export] Instance eta_Shared : Eta Shared := fun r =>
  {| cooldown := cooldown r; violations := violations r; diagnostics := diagnostics r; db := db r;
     round_repo := round_repo r; outcome_repo := outcome_repo r; frames_rx := frames_rx r; reconnects := reconnects r |}.

Notation Pipeline := (PipelineLoop.t (QE := QE) (QO := QO) (QI := QI) (X := Shared)).
Notation Native := (NativeBcGameSocket.t (D := N) (Q := QE) (A := Shared)).

(* @src include/application/event_engine.hpp | SecretProvider& secrets_; >> std::atomic<bool> running_ | EventEngine *)
Record t := {
  cfg : EventEngineConfig; pipeline : Pipeline; stuck : StuckRecovery.t; native : option Native;
  telegram : option TelegramDispatcher.t; pred_repo : option (PredictionRepository.t D);
  batch : option (BatchWriter.t D QP); running : bool }.
#[export] Instance eta_t : Eta t := fun r =>
  {| cfg := cfg r; pipeline := pipeline r; stuck := stuck r; native := native r; telegram := telegram r;
     pred_repo := pred_repo r; batch := batch r; running := running r |}.

Definition shared (s : t) : Shared := PipelineLoop.extra (PipelineLoop.rest (pipeline s)).
Definition on_shared (f : Shared -> Shared) (s : t) : t :=
  s <| pipeline ::= fun p => p <| PipelineLoop.rest ::= fun r => r <| PipelineLoop.extra ::= f |> |> |>.

(** ** The handlers *)

(** Storing through a repository that holds the engine's database. *)
(* @src include/application/event_engine.hpp:91-91 EventEngine::EventEngine *)
Definition store_outcome (o : Outcome) (x : Shared) : Shared :=
  match outcome_repo x, db x with
  | Some repo, Some d =>
      let repo := (OutcomeRepository.upsert fixed4 (repo <| OutcomeRepository.db := d |>) o).2 in
      x <| outcome_repo := Some repo |> <| db := Some (OutcomeRepository.db repo) |>
  | _, _ => x
  end.

(* @src include/application/event_engine.hpp:121-123 EventEngine::start *)
Definition store_round (ev : CrashEvent) (x : Shared) : Shared :=
  match round_repo x, db x with
  | Some repo, Some d =>
      let repo := (CrashRoundRepository.upsertFromEvent fixed4 (repo <| CrashRoundRepository.db := d |>) ev).2 in
      x <| round_repo := Some repo |> <| db := Some (CrashRoundRepository.db repo) |>
  | _, _ => x
  end.

(** The outcome handler: these two around the pipeline's own. *)
(* @src include/application/event_engine.hpp:88-89 EventEngine::EventEngine *)
Definition before_outcome (now : Z) (o : Outcome) (x : Shared) : Shared :=
  x <| cooldown ::= fun c => LossCooldownTracker.noteOutcome c o now |>
    <| violations ::= fun n => (InvariantChecker.checkOutcome n o).2 |>.
(* @src include/application/event_engine.hpp:91-91 EventEngine::EventEngine *)
Definition after_outcome (now : Z) (o : Outcome) (x : Shared) : Shared := store_outcome o x.

(* @src include/application/event_engine.hpp:118-124 EventEngine::start *)
Definition on_native_event (now : Z) (ev : CrashEvent) (x : Shared) : Shared :=
  let x := x <| diagnostics ::= SocketDiagnostics.note "event" (rawEventName ev) (frames_rx x) (reconnects x) now |>
             <| violations ::= fun n => (InvariantChecker.checkEndEvent n ev).2 |> in
  if bool_decide (kind ev = KEnd) then store_round ev x else x.

(** ** Construction, start and stop *)

(** The default limits of the validator's parts; the latency tracker is left out. *)
(* @src include/application/event_engine.hpp | explicit EventEngine( *)
Definition make (c : EventEngineConfig) : t := {|
  cfg := c;
  pipeline := PipelineLoop.make (EventDecoder.make None) (EventRouter.make make_event_queue (queueCapacity c) None)
    (PredictionClient.make PredictionClient.default_contract None)
    (LiveValidator.make (PredictionRegistry.make (Z.to_nat 10000)) (FeedbackDispatcher.make (make_outcome_queue (Z.to_nat 2048))) None)
    (OutboxLifecycle.make (Outbox.make (make_outbox_queue (outboxCapacity c))) OUTBOX_CLAIM_TIMEOUT_MS)
    {| cooldown := LossCooldownTracker.make 3 60000; violations := 0; diagnostics := SocketDiagnostics.make 200; db := None;
       round_repo := None; outcome_repo := None; frames_rx := 0; reconnects := 0 |} true;
  stuck := {| StuckRecovery.max_age_ms := stuckMaxAgeMs c; StuckRecovery.recovered := 0 |};
  native := None; telegram := None; pred_repo := None; batch := None; running := false |}.

(** What the native socket shares with the engine, before and after it runs. *)
Definition lend (s : t) (x : Native) : Native :=
  (x.1, x.2 <| NativeBcGameSocket.decoder := PipelineLoop.decoder (pipeline s) |>
            <| NativeBcGameSocket.router := PipelineLoop.router (pipeline s) |>
            <| NativeBcGameSocket.app := (shared s) <| frames_rx := bump (NativeBcGameSocket.frames_rx x.2) |>
                                                    <| reconnects := NativeBcGameSocket.reconnects x.2 |> |>).
Definition take_back (x : Native) (s : t) : t :=
  s <| native := Some x |>
    <| pipeline ::= fun p => p <| PipelineLoop.decoder := NativeBcGameSocket.decoder x.2 |>
                               <| PipelineLoop.router := NativeBcGameSocket.router x.2 |>
                               <| PipelineLoop.rest ::= fun r => r <| PipelineLoop.extra := NativeBcGameSocket.app x.2 |> |> |>.

(* @src include/application/event_engine.hpp:96-105 EventEngine::start *)
Definition start_telegram (s : t) : t :=
  if enableTelegram (cfg s) then
    match secret "TELEGRAM_BOT_TOKEN", secret "TELEGRAM_CHAT_ID" with
    | Some tok, Some chat =>
        s <| telegram := Some (TelegramDispatcher.make
               {| TelegramClient.botToken := tok; TelegramClient.chatId := chat; TelegramClient.extraChatIds := [] |} []) |>
    | _, _ => s
    end
  else s.

(** Whether the connection was made is not looked at. *)
(* @src include/application/event_engine.hpp:106-116 EventEngine::start *)
Definition start_persistence (s : t) : t :=
  if enablePersistence (cfg s) then
    let d := (db_connect (connect (default EmptyString (secret "DATABASE_URL")))).2 in
    on_shared (fun x => x <| db := Some d |> <| round_repo := Some (CrashRoundRepository.make d) |>
                          <| outcome_repo := Some (OutcomeRepository.make d) |>)
      (s <| pred_repo := Some (PredictionRepository.make d) |>
         <| batch := Some (BatchWriter.make (Some d) 32 (make_persist_queue (Z.to_nat 2048))) |>)
  else s.

(** The result of the socket's start is only logged. *)
(* @src include/application/event_engine.hpp | Result<void> start() { *)
Definition start (sig1 sig2 : option SocketSignature) (now : Z) (s : t) : option (Result unit * t) :=
  let s := start_persistence (start_telegram s) in
  let x := NativeBcGameSocket.make NativeBcGameSocket.default_config (PipelineLoop.decoder (pipeline s))
             (PipelineLoop.router (pipeline s)) (shared s) in
  '(_, x) ← NativeBcGameSocket.start connection [] sig1 sig2 now x;
  Some (Ok tt, (take_back x s) <| running := true |>).

(* @src include/application/event_engine.hpp | void stop() { *)
Definition stop (close : QP -> QP) (s : t) : t :=
  let s := s <| running := false |> in
  let s := match native s with Some x => take_back (NativeBcGameSocket.stop [] (lend s x)) s | None => s end in
  s <| batch ::= fmap (BatchWriter.stop fixed4 fixed6 close) |>.

(** ** Frames *)

(* @src include/application/event_engine.hpp:150-151 EventEngine::processFrame *)
Definition inject (tn : NativeBcGameSocket.times) (data : list Z) (s : t) : option t :=
  match native s with
  | None => Some s
  | Some x =>
      x ← NativeBcGameSocket.onRawFrame exp [on_native_event (NativeBcGameSocket.t_now tn)] [] tn data (lend s x);
      Some (take_back x s)
  end.

(** [None]: a read outside the frame, or a call through a client that is gone. *)
(* @src include/application/event_engine.hpp | Result<void> processFrame( *)
Definition processFrame (tm : PipelineLoop.times) (tn : NativeBcGameSocket.times) (data : list Z) (s : t)
    : option (Result unit * t) :=
  if negb (running s) then Some (Err (err EShutdown "engine stopped"), s)
  else
    let s := on_shared (fun x => x <| diagnostics ::= SocketDiagnostics.noteFrame (Z.of_nat (length data)) |>) s in
    cls ← classifyFrame data;
    if bool_decide (cls = FcMalformed) || bool_decide (cls = FcTruncated) then
      Some (Err (err ParseError "malformed"),
            on_shared (fun x => x <| diagnostics ::= SocketDiagnostics.noteError "malformed frame" (PipelineLoop.t_now tm) |>) s)
    else
      '(r, p) ← PipelineLoop.onFrame exp fixed2 before_outcome after_outcome tm data (pipeline s);
      s ← inject tn data (s <| pipeline := p |>);
      Some (r, s).

(* @src include/application/event_engine.hpp:158-161 EventEngine::processSyntheticRound *)
Fixpoint process_frames (tm : nat -> PipelineLoop.times) (tn : nat -> NativeBcGameSocket.times) (frames : list (list Z)) (s : t)
    : option (Result unit * t) :=
  match frames with
  | [] => Some (Ok tt, s)
  | f :: frames =>
      '(r, s) ← processFrame (tm 0%nat) (tn 0%nat) f s;
      match r with
      | Err e => if decide (code e = ParseError) then process_frames (fun i => tm (S i)) (fun i => tn (S i)) frames s
                 else Some (Err e, s)
      | Ok _ => process_frames (fun i => tm (S i)) (fun i => tn (S i)) frames s
      end
  end.

(* @src include/application/event_engine.hpp | Result<void> processSyntheticRound( *)
Definition processSyntheticRound (tm : nat -> PipelineLoop.times) (tn : nat -> NativeBcGameSocket.times) (gameId : Z)
    (finalMult : double) (now : Z) (s : t) : option (Result unit * t) :=
  '(r, s) ← process_frames tm tn (syntheticRoundFrames log gameId finalMult 8) s;
  match r with
  | Err e => Some (Err e, s)
  | Ok _ =>
      let p := PipelineLoop.drain fixed2 before_outcome after_outcome now (pipeline s) in
      let '(_, st, reg) := StuckRecovery.scan (stuck s) (LiveValidator.registry (PipelineLoop.validator p)) now in
      Some (Ok tt, s <| stuck := st |> <| pipeline := p <| PipelineLoop.validator ::= fun v => v <| LiveValidator.registry := reg |> |> |>)
  end.

(** ** Scenarios offline

    The errors counted over the steps of at most [max] scenarios; parse errors and duplicates do
    not count. *)
(* @src src/application/engine_scenarios.cpp:23-29 runScenarioBatch *)
Fixpoint run_steps (tm : nat -> PipelineLoop.times) (tn : nat -> NativeBcGameSocket.times) (steps : list ScenarioStep) (s : t)
    : option (Z * t) :=
  match steps with
  | [] => Some (0, s)
  | st :: steps =>
      '(r, s) ← processFrame (tm 0%nat) (tn 0%nat) (st_frame st) s;
      '(n, s) ← run_steps (fun i => tm (S i)) (fun i => tn (S i)) steps s;
      let counts := match r with Ok _ => false | Err e => bool_decide (code e ∉ [ParseError; EDuplicate]) end in
      Some (if counts then n + 1 else n, s)
  end.

(* @src src/application/engine_scenarios.cpp:19-32 runScenarioBatch *)
Fixpoint run_scenarios (max : nat) (tm : nat -> nat -> PipelineLoop.times) (tn : nat -> nat -> NativeBcGameSocket.times)
    (all : list Scenario) (s : t) : option (Z * t) :=
  match max, all with
  | S max, sc :: all =>
      '(n, s) ← run_steps (tm 0%nat) (tn 0%nat) (sc_steps sc) s;
      let s := s <| pipeline ::= PipelineLoop.drain fixed2 before_outcome after_outcome (PipelineLoop.t_now (tm 0%nat 0%nat)) |> in
      '(m, s) ← run_scenarios max (fun i => tm (S i)) (fun i => tn (S i)) all s;
      Some (n + m, s)
  | _, _ => Some (0, s)
  end.

(** The exit code, for an engine made with the defaults. *)
(* @src src/application/engine_scenarios.cpp | int runScenarioBatch( *)
Definition runScenarioBatch (close : QP -> QP) (max : nat) (tm : nat -> nat -> PipelineLoop.times)
    (tn : nat -> nat -> NativeBcGameSocket.times) (now : Z) (all : list Scenario) : option (Z * t) :=
  let s := make {| queueCapacity := Z.to_nat 4096; outboxCapacity := Z.to_nat 2048; enableTelegram := false;
                   enablePersistence := false; predictionTimeoutMs := 50; stuckMaxAgeMs := 180000 |} in
  '(started, s) ← start None None now s;
  if negb (is_ok started) then Some (1, s)
  else
    '(errors, s) ← run_scenarios max tm tn all s;
    Some (if 0 <? errors then 1 else 0, stop close s).

(** ** A finished round *)

Lemma pipeline_take_back x s :
  PipelineLoop.router (pipeline (take_back x s)) = NativeBcGameSocket.router x.2 /\
  shared (take_back x s) = NativeBcGameSocket.app x.2 /\ native (take_back x s) = Some x /\ running (take_back x s) = running s.
Proof. done. Qed.

(** The parts that only the pipeline touches. *)
Definition settled (p : Pipeline) :=
  (PipelineLoop.client p, PipelineLoop.attempts p, PipelineLoop.validator p, PipelineLoop.rounds p, PipelineLoop.stats p,
   PipelineLoop.dupes p, PipelineLoop.realtime p, PipelineLoop.outbox (PipelineLoop.rest p), PipelineLoop.metrics (PipelineLoop.rest p)).

(** The second passage of an end frame, on a live stream whose router remembers the round. *)
Lemma inject_known tn hash gid mult s sio r :
  let m := fllround (fmul mult (of_Z 100)) in
  let ev := EventDecoder.end_event "ed" gid m hash NativeSocket (NativeBcGameSocket.t_decode tn) in
  0 <= gid < 2 ^ 56 -> 0 <= m < 2 ^ 56 -> Z.of_nat (String.length hash) < 2 ^ 56 ->
  native s = Some (sio, r) ->
  NativeBcGameSocket.status r ∈ [NativeBcGameSocket.SocketOpen; NativeBcGameSocket.Degraded; NativeBcGameSocket.Connected] ->
  EventRouter.holds (PipelineLoop.router (pipeline s)) [] [] ->
  EventRouter.route_key ev ∈ LruWindow.order (EventRouter.seen (PipelineLoop.router (pipeline s))) ->
  exists s', inject tn (encodeEvent "/g/cm" "ed" (encodeEndPayload gid mult hash)) s = Some s' /\
    settled (pipeline s') = settled (pipeline s) /\ EventRouter.holds (PipelineLoop.router (pipeline s')) [] [] /\
    shared s' = on_native_event (NativeBcGameSocket.t_now tn) ev
      ((shared s) <| frames_rx := bump (NativeBcGameSocket.frames_rx r) |> <| reconnects := NativeBcGameSocket.reconnects r |>) /\
    running s' = running s.
Proof.
  intros m ev Hg Hm Hh Hnat Hst Hr Hkey. unfold inject. rewrite Hnat.
  destruct (NativeBcGameSocket.native_end_event exp [on_native_event (NativeBcGameSocket.t_now tn)] [] tn sio (lend s (sio, r)).2
              gid mult hash Hg Hm Hh Hst) as (r' & E & _ & _ & _ & Er & _ & _ & Ea).
  change (lend s (sio, r)) with (sio, (lend s (sio, r)).2). change (NativeBcGameSocket.nsp NativeBcGameSocket.default_config) with "/g/cm" in E. rewrite E.
  eexists. split; [done|]. split; [done|]. split; [|split; [|done]].
  - change (EventRouter.holds (NativeBcGameSocket.router r') [] []). rewrite Er.
    change (NativeBcGameSocket.router (lend s (sio, r)).2) with (PipelineLoop.router (pipeline s)).
    pose proof (EventRouter.route_outcome _ [] [] ev (NativeBcGameSocket.t_route0 tn) (NativeBcGameSocket.t_route1 tn) Hr) as Ho.
    cbv zeta in Ho. fold m ev. destruct (EventRouter.route _ ev _ _) as [ok q].
    rewrite (bool_decide_true _ Hkey) in Ho. change (valid ev) with true in Ho.
    rewrite (proj2 (str_empty_false (gameId ev))) in Ho by apply to_string_nonempty. by destruct Ho as [Ho _].
  - change (NativeBcGameSocket.app r' = on_native_event (NativeBcGameSocket.t_now tn) ev (NativeBcGameSocket.app (lend s (sio, r)).2)).
    rewrite Ea. cbn [fold_left]. fold m ev. reflexivity.
Qed.

(** C4: One frame of a finished round given to a running engine.  The frame passes the pipeline,
    which settles the round, and then the native socket, which decodes and routes the same frame
    again; the router they share remembers the round, so the second passage queues nothing and
    leaves everything the pipeline settled as it is - predictions, outcomes, statistics, outbox -
    and only notes the event, checks its invariant and stores the round's row, once. *)
Theorem engine_settles_once (tm : PipelineLoop.times) (tn : NativeBcGameSocket.times) (hash : string) (gid : Z) (mult : double)
    (s : t) (sio : SocketIoClient.t) (r : NativeBcGameSocket.rest) :
  let m := fllround (fmul mult (of_Z 100)) in
  let data := encodeEvent "/g/cm" "ed" (encodeEndPayload gid mult hash) in
  let ev := EventDecoder.end_event "ed" gid m hash NativeSocket (NativeBcGameSocket.t_decode tn) in
  0 <= gid < 2 ^ 56 -> 0 <= m < 2 ^ 56 -> Z.of_nat (String.length hash) < 2 ^ 56 ->
  running s = true -> native s = Some (sio, r) ->
  NativeBcGameSocket.status r ∈ [NativeBcGameSocket.SocketOpen; NativeBcGameSocket.Degraded; NativeBcGameSocket.Connected] ->
  PipelineLoop.ready_for gid m hash tm (pipeline s) ->
  exists p s',
    PipelineLoop.onFrame exp fixed2 before_outcome after_outcome tm data
      (pipeline (on_shared (fun x => x <| diagnostics ::= SocketDiagnostics.noteFrame (Z.of_nat (length data)) |>) s)) = Some (Ok tt, p) /\
    processFrame tm tn data s = Some (Ok tt, s') /\
    settled (pipeline s') = settled p /\ EventRouter.holds (PipelineLoop.router (pipeline s')) [] [] /\
    shared s' = on_native_event (NativeBcGameSocket.t_now tn) ev
      ((PipelineLoop.extra (PipelineLoop.rest p)) <| frames_rx := bump (NativeBcGameSocket.frames_rx r) |>
                                                  <| reconnects := NativeBcGameSocket.reconnects r |>).
Proof.
  intros m data ev Hg Hm Hh Hrun Hnat Hst Hready.
  set (s0 := on_shared (fun x => x <| diagnostics ::= SocketDiagnostics.noteFrame (Z.of_nat (length data)) |>) s).
  destruct (PipelineLoop.onFrame_end_drains exp fixed2 before_outcome after_outcome tm "/g/cm" hash gid mult (pipeline s0)
              ltac:(unfold short; simpl; lia) Hg Hm Hh Hready) as (p & Ep & Hp & Hkey).
  set (s1 := s0 <| pipeline := p |>).
  assert (EventRouter.holds (PipelineLoop.router (pipeline s1)) [] []) as Hp1 by exact Hp.
  assert (EventRouter.route_key ev ∈ LruWindow.order (EventRouter.seen (PipelineLoop.router (pipeline s1)))) as Hkey1 by exact Hkey.
  destruct (inject_known tn hash gid mult s1 sio r Hg Hm Hh Hnat Hst Hp1 Hkey1) as (s' & Ei & Hs & Hq & Hx & _).
  exists p, s'. split; [exact Ep|]. split; [|split; [exact Hs|split; [exact Hq|exact Hx]]].
  unfold processFrame. rewrite Hrun. cbn [negb]. fold s0.
  assert (classifyFrame data = Some FcBinaryPacket) as -> by (apply classify_event_frame; try done; unfold short; simpl; lia).
  cbn [mbind option_bind]. rewrite !bool_decide_false by done. cbn [orb]. fold data in Ep. rewrite Ep. cbn [mbind option_bind].
  fold s1. fold data in Ei. by rewrite Ei.
Qed.
End S.
End EventEngine.

#[local] Existing Instances EventEngine.eta_t EventEngine.eta_Shared.

(** An engine without a network, started by hand on a live stream. *)
#[local] Instance silent : WebSocket WebSocketConfig.
Proof.
  refine {| ws_config c := c; ws_connected _ := false; ws_update_metrics _ c := c;
            ws_connect _ c := (Err (err ConnectionFailed "refused"), c); ws_close c := (false, c);
            ws_send _ _ c := (Err (err ConnectionFailed "not connected"), c); ws_poll c := ([], c) |}; done.
Defined.

Definition demo_engine_fresh : EventEngine.t (QE := BoundedQueue.t CrashEvent) (QO := BoundedQueue.t Outcome)
    (QI := BoundedQueue.t OutboxItem) (QP := BoundedQueue.t BatchWriter.PersistItem) (D := BaseDatabase.t) (N := WebSocketConfig) :=
  EventEngine.make BoundedQueue.make BoundedQueue.make BoundedQueue.make
    {| EventEngine.queueCapacity := 2; EventEngine.outboxCapacity := 2; EventEngine.enableTelegram := false;
       EventEngine.enablePersistence := false; EventEngine.predictionTimeoutMs := 50; EventEngine.stuckMaxAgeMs := 180000 |}.

Definition demo_native : NativeBcGameSocket.rest (D := WebSocketConfig) (Q := BoundedQueue.t CrashEvent)
    (A := EventEngine.Shared (D := BaseDatabase.t)) :=
  (NativeBcGameSocket.make NativeBcGameSocket.default_config (EventDecoder.make None) (EventRouter.make BoundedQueue.make 2 None)
     (EventEngine.shared demo_engine_fresh)).2 <| NativeBcGameSocket.status := NativeBcGameSocket.SocketOpen |>.

Definition demo_engine := demo_engine_fresh <| EventEngine.running := true |>
  <| EventEngine.native := Some (SocketIoClient.make, demo_native) |>.

Definition demo_native_times : NativeBcGameSocket.times :=
  {| NativeBcGameSocket.t_now := 5; NativeBcGameSocket.t_decode := zero_readings; NativeBcGameSocket.t_route0 := 0; NativeBcGameSocket.t_route1 := 1 |}.

Lemma engine_settles_once_witness :
  exists s', EventEngine.processFrame id (fun _ => "2.34") (fun _ => "2.3400") demo_times demo_native_times
      (encodeEvent "/g/cm" "ed" (encodeEndPayload 77 (flit 234 100) "h")) demo_engine = Some (Ok tt, s') /\
    EventRouter.holds (PipelineLoop.router (EventEngine.pipeline s')) [] [].
Proof.
  assert (fllround (fmul (flit 234 100) (of_Z 100)) = 234) as Em by (vm_compute; reflexivity).
  destruct (EventEngine.engine_settles_once id (fun _ => "2.34") (fun _ => "2.3400") demo_times demo_native_times "h" 77 (flit 234 100)
    demo_engine SocketIoClient.make demo_native) as (p & s' & _ & E & _ & Hq & _).
  - lia.
  - rewrite Em. lia.
  - simpl. lia.
  - reflexivity.
  - reflexivity.
  - change (NativeBcGameSocket.status demo_native) with NativeBcGameSocket.SocketOpen. by left.
  - rewrite Em. unfold PipelineLoop.ready_for. split; [reflexivity|]. split.
    { unfold EventRouter.holds. split_and!; [apply BoundedQueue.bounded_make_repr..|]. split; [apply NoDup_nil_2|done]. }
    split; [cbn; lia|]. split; [cbn; lia|]. split; [apply not_elem_of_nil|]. split; [cbn; lia|].
    exists []. split; [apply SeenWindow.make_holds|]. unfold trim_front. cbn. apply not_elem_of_nil.
  - exists s'. split; [exact E|exact Hq].
Defined.
