(* ===== verification/Telemetry.v ===== *)
(** Telemetry and logging ([include/telemetry], [include/observability], [include/logging]):
    metric registry, event counters, lag monitor, funnel, lifecycle metrics, timers, health and
    readiness reports, and the two loggers.

    The registry creates a counter under a double-checked lock, which is modelled step by step:
    the theorem is that no increment is lost whatever the interleaving. *)
From Stdlib Require Import Ascii.
From S2P Require Import Prelude Float64 Types Text Queues Pool Outbox Ipc NativeSocket Orchestration Feed App.

Open Scope string_scope.
Open Scope list_scope.
Open Scope Z_scope.

(** * [MetricRegistry] *)
Module MetricRegistry.

(* @src include/telemetry/metric_registry.hpp | struct Hist { *)
Record Hist := { values : list double; h_sum : double; h_max : double; h_count : Z }.
Definition no_hist : Hist := {| values := []; h_sum := f0; h_max := f0; h_count := 0 |}.

(* @src include/telemetry/metric_registry.hpp | mutable std::shared_mutex counter_mu_; >> histograms_; | MetricRegistry *)
Record t := { counters : gmap string Z; gauges : gmap string double; histograms : gmap string Hist }.
#[export] Instance eta_t : Eta t := fun r => {| counters := counters r; gauges := gauges r; histograms := histograms r |}.

Definition empty : t := {| counters := ∅; gauges := ∅; histograms := ∅ |}.

(** [ensureCounter], when no other thread runs: the counter is there afterwards. *)
(* @src include/telemetry/metric_registry.hpp | AtomicCounter* ensureCounter( *)
Definition ensureCounter (s : t) (name : string) : t :=
  match counters s !! name with
  | Some _ => s
  | None => s <| counters ::= <[name := 0]> |>
  end.

(* @src include/telemetry/metric_registry.hpp | void counterInc( *)
Definition counterInc (s : t) (name : string) (n : Z) : t :=
  (ensureCounter s name) <| counters ::= alter (fun v => u64 (v + n)) name |>.

(* @src include/telemetry/metric_registry.hpp | std::uint64_t counterGet( *)
Definition counterGet (s : t) (name : string) : Z := default 0 (counters s !! name).

(* @src include/telemetry/metric_registry.hpp | void gaugeSet( *)
Definition gaugeSet (s : t) (name : string) (v : double) : t := s <| gauges ::= <[name := v]> |>.
(* @src include/telemetry/metric_registry.hpp | double gaugeGet( *)
Definition gaugeGet (s : t) (name : string) : double := default f0 (gauges s !! name).

(* @src include/telemetry/metric_registry.hpp:58-63 MetricRegistry::histogramObserve *)
Definition observe (h : Hist) (value : double) : Hist := {|
  values := push_erase 512 (values h) value; h_sum := fadd (h_sum h) value;
  h_max := if fgt value (h_max h) then value else h_max h; h_count := bump (h_count h) |}.

(* @src include/telemetry/metric_registry.hpp | void histogramObserve( *)
Definition histogramObserve (s : t) (name : string) (value : double) : t :=
  s <| histograms ::= fun m => <[name := observe (default no_hist (m !! name)) value]> m |>.

(* @src include/telemetry/metric_registry.hpp | struct HistStats { *)
Record HistStats := { count : Z; sum : double; max : double; avg : double }.

(* @src include/telemetry/metric_registry.hpp | HistStats histogramStats( *)
Definition histogramStats (s : t) (name : string) : HistStats :=
  match histograms s !! name with
  | None => {| count := 0; sum := f0; max := f0; avg := f0 |}
  | Some h => {| count := h_count h; sum := h_sum h; max := h_max h;
                 avg := if h_count h =? 0 then f0 else fdiv (h_sum h) (of_Z (h_count h)) |}
  end.

(** In the order of the map, which the source leaves open. *)
(* @src include/telemetry/metric_registry.hpp | std::vector<std::string> counterNames() const { *)
Definition counterNames (s : t) : list string := (map_to_list (counters s)).*1.

(* @src include/telemetry/metric_registry.hpp | void reset() { *)
Definition reset (_ : t) : t := empty.

Lemma counterGet_inc s name n other :
  counterGet (counterInc s name n) other = if decide (other = name) then u64 (counterGet s name + n) else counterGet s other.
Proof.
  unfold counterGet, counterInc, ensureCounter. case_decide as Ho.
  - subst other. destruct (counters s !! name) eqn:E; cbn; rewrite lookup_alter_eq; [by rewrite E|by rewrite lookup_insert_eq].
  - destruct (counters s !! name) eqn:E; cbn; rewrite lookup_alter_ne by done; [done|by rewrite lookup_insert_ne by done].
Qed.

(** ** Increments by many threads

    The steps of one [counterInc]: the look-up under the shared lock, the second look-up and the
    insertion under the exclusive lock, the addition through the pointer that was found. *)
Inductive pc := Lookup | Create | Add | Done.
#[export] Instance pc_eq_dec : EqDecision pc.
Proof. solve_decision. Defined.
Record thread := { th_name : string; th_n : Z; th_pc : pc }.
#[export] Instance eta_thread : Eta thread := fun r => {| th_name := th_name r; th_n := th_n r; th_pc := th_pc r |}.

Record sys := { reg : t; threads : list thread }.

(** One step of a thread; [None] when it adds through the pointer to a counter that is gone. *)
(* @src include/telemetry/metric_registry.hpp:102-116 MetricRegistry::ensureCounter *)
Definition advance (s : t) (th : thread) : option (t * thread) :=
  match th_pc th with
  | Lookup =>
      Some (s, th <| th_pc := match counters s !! th_name th with Some _ => Add | None => Create end |>)
  | Create => Some (ensureCounter s (th_name th), th <| th_pc := Add |>)
  | Add =>
      match counters s !! th_name th with
      | None => None
      | Some v => Some (s <| counters ::= <[th_name th := u64 (v + th_n th)]> |>, th <| th_pc := Done |>)
      end
  | Done => Some (s, th)
  end.

Definition step (x : sys) (i : nat) : option sys :=
  match threads x !! i with
  | None => Some x
  | Some th => '(s, th) ← advance (reg x) th; Some {| reg := s; threads := <[i := th]> (threads x) |}
  end.

Definition run (x : sys) (schedule : list nat) : option sys := foldl (fun x i => x ≫= fun x => step x i) (Some x) schedule.

Definition spawn (l : list (string * Z)) : list thread := (fun p => {| th_name := p.1; th_n := p.2; th_pc := Lookup |}) <$> l.

(** What a finished thread, and all of them, have added to [name]. *)
Definition contribution (name : string) (th : thread) : Z :=
  match th_pc th with Done => if decide (th_name th = name) then th_n th else 0 | _ => 0 end.
Definition added (name : string) (l : list thread) : Z := fold_right (fun th z => z + contribution name th) 0 l.

Lemma contribution_done name th :
  th_pc th = Done -> contribution name th = if decide (th_name th = name) then th_n th else 0.
Proof. unfold contribution. by intros ->. Qed.

Lemma contribution_other name th : th_pc th <> Done -> contribution name th = 0.
Proof. unfold contribution. by destruct (th_pc th). Qed.

Lemma added_cons name th l : added name (th :: l) = added name l + contribution name th.
Proof. done. Qed.

Lemma added_insert name l i th th' :
  l !! i = Some th -> added name (<[i := th']> l) = added name l - contribution name th + contribution name th'.
Proof.
  revert i. induction l as [|a l IH]; intros [|i]; intros H; try done.
  - injection H as ->. change (<[0%nat := th']> (th :: l)) with (th' :: l). rewrite !added_cons. lia.
  - change (<[S i := th']> (a :: l)) with (a :: <[i := th']> l). rewrite !added_cons, (IH i H). lia.
Qed.

(** The invariant: the counters have what the finished threads added, and a thread that is about
    to add has its counter. *)
Definition inv (s0 : t) (x : sys) : Prop :=
  (forall name, counterGet (reg x) name = u64 (counterGet s0 name + added name (threads x))) /\
  (forall th, th ∈ threads x -> th_pc th = Add -> is_Some (counters (reg x) !! th_name th)).

Lemma counterGet_insert s name v other :
  counterGet (s <| counters ::= <[name := v]> |>) other = if decide (other = name) then v else counterGet s other.
Proof.
  unfold counterGet. cbn. case_decide; [subst; by rewrite lookup_insert_eq|by rewrite lookup_insert_ne by done].
Qed.

Lemma counterGet_ensure s name other : counterGet (ensureCounter s name) other = counterGet s other.
Proof.
  unfold ensureCounter. destruct (counters s !! name) eqn:E; [done|]. rewrite counterGet_insert.
  case_decide; [|done]. subst. unfold counterGet. by rewrite E.
Qed.

Lemma ensure_present s name other : is_Some (counters s !! other) \/ other = name -> is_Some (counters (ensureCounter s name) !! other).
Proof.
  unfold ensureCounter. destruct (counters s !! name) eqn:E; intros [H|H]; subst; eauto; cbn.
  - destruct (decide (other = name)); subst; [by rewrite lookup_insert_eq|by rewrite lookup_insert_ne by done].
  - by rewrite lookup_insert_eq.
Qed.

Definition rank (p : pc) : nat := match p with Lookup => 3 | Create => 2 | Add => 1 | Done => 0 end.

(** What one step of a thread does to the registry and to the thread, when the thread's counter
    is there as the invariant says. *)
Lemma advance_spec s th :
  (th_pc th = Add -> is_Some (counters s !! th_name th)) ->
  exists s' th', advance s th = Some (s', th') /\ th_name th' = th_name th /\ th_n th' = th_n th /\
    (rank (th_pc th') <= pred (rank (th_pc th)))%nat /\
    (th_pc th' = Add -> is_Some (counters s' !! th_name th)) /\
    (forall other, is_Some (counters s !! other) -> is_Some (counters s' !! other)) /\
    (forall name, counterGet s' name =
       if decide (th_pc th = Add /\ th_name th = name) then u64 (counterGet s name + th_n th) else counterGet s name) /\
    (th_pc th' = Done <-> th_pc th = Add \/ th_pc th = Done).
Proof.
  intros Hadd. unfold advance. destruct th as [name n []]; cbn in *.
  - destruct (counters s !! name) eqn:E; eexists _, _; (split; [reflexivity|]); cbn; rewrite ?E;
      split_and!; try done; try lia; try naive_solver; intros; rewrite decide_False by naive_solver; done.
  - eexists _, _. split; [reflexivity|]. cbn. split_and!; try done; try lia; try naive_solver.
    + intros _. apply ensure_present. by right.
    + intros. apply ensure_present. by left.
    + intros. rewrite decide_False by naive_solver. apply counterGet_ensure.
  - destruct (Hadd eq_refl) as [v Hv]. rewrite Hv. eexists _, _. split; [reflexivity|]. cbn.
    split_and!; try done; try lia; try naive_solver.
    + intros other Ho. destruct (decide (other = name)); subst; [by rewrite lookup_insert_eq|by rewrite lookup_insert_ne by done].
    + intros other. rewrite (counterGet_insert s name). unfold counterGet at 2.
      destruct (decide (other = name)) as [->|Hne]; [rewrite decide_True by done; by rewrite Hv|by rewrite decide_False by naive_solver].
  - eexists _, _. split; [reflexivity|]. cbn. split_and!; try done; try lia; try naive_solver.
Qed.

Lemma step_inv s0 x i :
  inv s0 x -> exists x', step x i = Some x' /\ inv s0 x' /\ length (threads x') = length (threads x) /\
    forall j th', threads x' !! j = Some th' -> exists th, threads x !! j = Some th /\ th_name th' = th_name th /\ th_n th' = th_n th /\
      (rank (th_pc th') <= rank (th_pc th) - (if decide (j = i) then 1 else 0))%nat.
Proof.
  intros [Hc Ha]. unfold step. destruct (threads x !! i) as [th|] eqn:Hi; cycle 1.
  { exists x. split_and!; try done. intros j th' Hj. exists th'. split_and!; try done. case_decide; [congruence|lia]. }
  destruct (advance_spec (reg x) th) as (s' & th' & -> & Hn & Hm & Hr & Hadd & Hmono & Hget & Hdone).
  { apply Ha. by eapply list_elem_of_lookup_2. }
  cbn [option_bind mbind]. eexists. split; [reflexivity|]. cbn [reg threads]. split; [split|split].
  - cbn [reg threads]. intros name. rewrite Hget, (added_insert name _ _ _ _ Hi). rewrite Hc.
    destruct (decide (th_pc th = Add)) as [Hp|Hp].
    + rewrite (contribution_other name th) by congruence.
      rewrite (contribution_done name th') by (apply Hdone; auto). rewrite Hn, Hm.
      destruct (decide (th_name th = name)) as [He|He];
        [rewrite decide_True by done; rewrite u64_add_l|rewrite decide_False by (intros [_ ?]; done)]; f_equal; lia.
    + rewrite decide_False by (intros [? _]; done). f_equal. enough (contribution name th' = contribution name th) by lia.
      destruct (decide (th_pc th = Done)) as [Hd|Hd].
      * rewrite !contribution_done by (first [done|apply Hdone; auto]). by rewrite Hn, Hm.
      * rewrite !contribution_other by (first [done|intros H%Hdone; destruct H; done]). done.
  - cbn [reg threads]. intros u Hu Hp. apply list_elem_of_lookup in Hu as [j Hj]. destruct (decide (i = j)) as [->|Hne].
    + rewrite list_lookup_insert_eq in Hj by (by eapply lookup_lt_Some). injection Hj as <-. rewrite Hn. by apply Hadd.
    + rewrite list_lookup_insert_ne in Hj by done. apply Hmono, Ha; [by eapply list_elem_of_lookup_2|done].
  - by rewrite length_insert.
  - intros j u Hj. destruct (decide (j = i)) as [->|Hne].
    + rewrite list_lookup_insert_eq in Hj by (by eapply lookup_lt_Some). injection Hj as <-. exists th. split_and!; try done. lia.
    + rewrite list_lookup_insert_ne in Hj by done. exists u. split_and!; try done. lia.
Qed.

Lemma run_inv s0 x0 schedule :
  inv s0 x0 -> exists x, run x0 schedule = Some x /\ inv s0 x /\ length (threads x) = length (threads x0) /\
    forall j th', threads x !! j = Some th' -> exists th, threads x0 !! j = Some th /\ th_name th' = th_name th /\ th_n th' = th_n th /\
      (rank (th_pc th') <= rank (th_pc th) - count_occ Nat.eq_dec schedule j)%nat.
Proof.
  intros H0. induction schedule as [|i l IH] using rev_ind.
  { exists x0. split_and!; try done. intros j th Hj. exists th. split_and!; try done. cbn. lia. }
  destruct IH as (x & Hr & Hi & Hl & Ht). unfold run in *. rewrite foldl_snoc, Hr. cbn.
  destruct (step_inv s0 x i Hi) as (x' & -> & Hi' & Hl' & Ht'). exists x'. split_and!; [done|done|congruence|].
  intros j th' Hj. destruct (Ht' j th' Hj) as (th & Hx & Hn & Hm & Hk). destruct (Ht j th Hx) as (th0 & H1 & H2 & H3 & H4).
  exists th0. split_and!; [done|congruence|congruence|]. rewrite count_occ_app. cbn.
  destruct (Nat.eq_dec i j), (decide (j = i)); try congruence; lia.
Qed.

Lemma added_spawn name l : added name (spawn l) = 0.
Proof.
  induction l as [|p l IH]; [done|]. change (spawn (p :: l)) with ({| th_name := p.1; th_n := p.2; th_pc := Lookup |} :: spawn l).
  by rewrite added_cons, IH.
Qed.

(** The amount that a list of increments adds to [name]. *)
Definition requested (name : string) (l : list (string * Z)) : Z :=
  fold_right (fun p z => z + if decide (p.1 = name) then p.2 else 0) 0 l.

Lemma added_done name ths : forall l, length ths = length l ->
  (forall j th, ths !! j = Some th -> th_pc th = Done /\ exists p, l !! j = Some p /\ th_name th = p.1 /\ th_n th = p.2) ->
  added name ths = requested name l.
Proof.
  induction ths as [|th ths IH]; intros [|p l] Hl H; try done.
  rewrite added_cons. cbn [requested fold_right]. fold (requested name l).
  destruct (H 0%nat th eq_refl) as (Hd & p' & [= <-] & Hn & Hm). unfold contribution. rewrite Hd, Hn, Hm.
  f_equal. apply IH; [by injection Hl|]. intros j u Hj. exact (H (S j) u Hj).
Qed.

(** Remark: concurrent increments are never lost: whatever the interleaving of the look-ups, the
    insertions of new counters and the additions of any number of threads, no thread adds through
    a pointer to a counter that is gone, and as soon as every thread has had three turns all have
    finished and every counter, new or old, has grown by the sum of the increments of its name,
    modulo 64 bits. *)
Theorem increments_never_lost (s0 : t) (l : list (string * Z)) (schedule : list nat) :
  (forall name, 0 <= counterGet s0 name < 2 ^ 64) ->
  (forall j, (j < length l)%nat -> (3 <= count_occ Nat.eq_dec schedule j)%nat) ->
  exists x, run {| reg := s0; threads := spawn l |} schedule = Some x /\
    Forall (fun th => th_pc th = Done) (threads x) /\
    forall name, counterGet (reg x) name = u64 (counterGet s0 name + requested name l).
Proof.
  intros Hr Hs. destruct (run_inv s0 {| reg := s0; threads := spawn l |} schedule) as (x & Hx & [Hc _] & Hl & Ht).
  { split; cbn [reg threads].
    - intros name. rewrite added_spawn, Z.add_0_r. by rewrite u64_small.
    - intros th Hin. unfold spawn in Hin. apply list_elem_of_fmap in Hin as (p & -> & _). done. }
  cbn in Hl, Ht. unfold spawn in Hl. rewrite length_fmap in Hl.
  assert (forall j th, threads x !! j = Some th -> th_pc th = Done /\ exists p, l !! j = Some p /\ th_name th = p.1 /\ th_n th = p.2) as Hd.
  { intros j th Hj. destruct (Ht j th Hj) as (th0 & H0 & H1 & H2 & H3).
    unfold spawn in H0. apply list_lookup_fmap_Some in H0 as (p & -> & Hp). cbn in *.
    specialize (Hs j). apply lookup_lt_Some in Hj. destruct (th_pc th); cbn in H3; [lia|lia|lia|]. eauto. }
  exists x. split_and!; [done| |].
  - apply Forall_lookup. intros j th Hj. by destruct (Hd j th Hj).
  - intros name. rewrite Hc. do 2 f_equal. by apply added_done.
Qed.

(** Remark: [reset] between the look-up and the addition of another thread frees the counter
    that the thread is about to add to. *)
Example reset_dangles :
  let s := counterInc empty "frames_rx" 1 in
  let th := {| th_name := "frames_rx"; th_n := 1; th_pc := Lookup |} in
  exists th', advance s th = Some (s, th') /\ advance (reset s) th' = None.
Proof. eexists. split; vm_compute; reflexivity. Qed.
End MetricRegistry.

Lemma increments_never_lost_witness :
  exists x, MetricRegistry.run {| MetricRegistry.reg := MetricRegistry.empty;
      MetricRegistry.threads := MetricRegistry.spawn [("a", 1); ("a", 2); ("b", 5)] |} [0; 1; 0; 1; 2; 0; 1; 2; 2]%nat = Some x /\
    MetricRegistry.counterGet (MetricRegistry.reg x) "a" = 3.
Proof.
  destruct (MetricRegistry.increments_never_lost MetricRegistry.empty [("a", 1); ("a", 2); ("b", 5)] [0; 1; 0; 1; 2; 0; 1; 2; 2]%nat)
    as (x & Hx & _ & Hc).
  - intros name. change (MetricRegistry.counterGet MetricRegistry.empty name) with 0. lia.
  - intros j Hj. cbn [length] in Hj. destruct j as [|[|[|j]]]; [cbn; lia..|lia].
  - exists x. split; [exact Hx|]. rewrite Hc. vm_compute. reflexivity.
Defined.

(** * [EventLoopLagMonitor] *)
Module LagMonitor.

(* @src include/telemetry/event_loop_lag.hpp | std::int64_t expected_us_; >> samples_; | EventLoopLagMonitor *)
Record t := {
  expected_us : Z; last : option Z; ticks : Z; last_lag_us : Z; max_lag_us : Z; samples : list Z }.
#[export] Instance eta_t : Eta t := fun r =>
  {| expected_us := expected_us r; last := last r; ticks := ticks r; last_lag_us := last_lag_us r; max_lag_us := max_lag_us r;
     samples := samples r |}.

(* @src include/telemetry/event_loop_lag.hpp | explicit EventLoopLagMonitor( >> : expected_us_ | EventLoopLagMonitor *)
Definition make (expected : Z) : t :=
  {| expected_us := expected; last := None; ticks := 0; last_lag_us := 0; max_lag_us := 0; samples := [] |}.

(* @src include/telemetry/event_loop_lag.hpp:23-24 EventLoopLagMonitor::tick *)
Definition lag_of (expected prev now : Z) : Z :=
  let actual := elapsedUs prev now in if expected <? actual then actual - expected else 0.

(* @src include/telemetry/event_loop_lag.hpp | void tick() *)
Definition tick (s : t) (now : Z) : t :=
  let s := match last s with
    | None => s
    | Some prev =>
        let lag := lag_of (expected_us s) prev now in
        let s := s <| samples ::= fun l => push_erase 256 l lag |> <| last_lag_us := lag |> in
        if max_lag_us s <? lag then s <| max_lag_us := lag |> else s
    end in
  s <| last := Some now |> <| ticks ::= bump |>.

(* @src include/telemetry/event_loop_lag.hpp | double avgLagUs() const *)
Definition avgLagUs (s : t) : double :=
  match samples s with
  | [] => f0
  | l => fdiv (fold_left (fun a v => fadd a (of_Z v)) l f0) (of_Z (Z.of_nat (length l)))
  end.

(** The lags of a sequence of ticks. *)
Fixpoint lags (expected : Z) (prev : Z) (l : list Z) : list Z :=
  match l with
  | [] => []
  | now :: l => lag_of expected prev now :: lags expected now l
  end.

Definition lags_of (expected : Z) (l : list Z) : list Z :=
  match l with [] => [] | t0 :: l => lags expected t0 l end.

Lemma lags_snoc expected prev l now : lags expected prev (l ++ [now]) = lags expected prev l ++ [lag_of expected (default prev (list.last l)) now].
Proof.
  revert prev. induction l as [|x l IH]; intros prev; [done|]. change ((x :: l) ++ [now]) with (x :: (l ++ [now])).
  cbn [lags]. rewrite IH. change ((lag_of expected prev x :: lags expected x l) ++ ?k) with (lag_of expected prev x :: (lags expected x l ++ k)).
  do 3 f_equal. destruct l as [|y l]; [done|]. rewrite !last_cons. by destruct (list.last l).
Qed.

Definition watches (expected : Z) (l : list Z) (s : t) : Prop :=
  let ls := lags_of expected l in
  samples s = trim_front 256 ls /\ last_lag_us s = default 0 (list.last ls) /\ max_lag_us s = fold_left Z.max ls 0 /\
  Forall (fun x => 0 <= x) ls /\ ticks s = u64 (Z.of_nat (length l)) /\ last s = list.last l /\ expected_us s = expected.

Lemma tick_watches expected l s now : watches expected l s -> watches expected (l ++ [now]) (tick s now).
Proof.
  intros (H1 & H2 & H3 & H4 & H5 & H6 & H7). unfold watches. rewrite length_app, Nat2Z.inj_add, last_snoc.
  assert (bump (ticks s) = u64 (Z.of_nat (length l) + Z.of_nat (length [now]))) as Ht.
  { rewrite H5. apply bump_u64. }
  unfold tick. destruct (last s) as [prev|] eqn:Hp; cycle 1.
  { assert (l = []) as -> by (by apply last_None). cbn in *. by split_and!. }
  destruct l as [|t0 l0]; [done|]. change ((t0 :: l0) ++ [now]) with (t0 :: (l0 ++ [now])). cbn [lags_of] in *. rewrite lags_snoc.
  assert (default t0 (list.last l0) = prev) as -> by (rewrite last_cons in H6; destruct (list.last l0); by injection H6 as ->).
  rewrite fold_left_app, last_snoc, H7. cbn [fold_left default]. set (lag := lag_of expected prev now).
  assert (0 <= lag) as Hn by (unfold lag, lag_of; destruct (Z.ltb_spec expected (elapsedUs prev now)); lia).
  rewrite <- push_erase_trim, <- H1, <- H3. cbn. destruct (Z.ltb_spec (max_lag_us s) lag); cbn;
    (split_and!; [done|done|lia|by apply Forall_app; split; [|apply Forall_singleton]|done|done|done]).
Qed.

(** Remark: with the lag of a tick being what exceeds the expected interval since the tick
    before, the monitor keeps the last 256 lags, the last one and the largest, none negative. *)
Theorem monitor_reference (expected : Z) (l : list Z) : watches expected l (fold_left tick l (make expected)).
Proof.
  induction l as [|now l IH] using rev_ind; [by split_and!|]. rewrite fold_left_app. by apply tick_watches.
Qed.
End LagMonitor.

(** * [FunnelMetrics] *)
Module Funnel.

(* @src include/observability/funnel_metrics.hpp | std::atomic<std::uint64_t> frames_{0} | FunnelMetrics *)
Record t := {
  frames : Z; decoded : Z; routed : Z; predicted : Z; actionable : Z; validated : Z; published : Z; delivered : Z }.
#[export] Instance eta_t : Eta t := fun r =>
  {| frames := frames r; decoded := decoded r; routed := routed r; predicted := predicted r; actionable := actionable r;
     validated := validated r; published := published r; delivered := delivered r |}.
Definition empty : t :=
  {| frames := 0; decoded := 0; routed := 0; predicted := 0; actionable := 0; validated := 0; published := 0; delivered := 0 |}.

Inductive note := Frame | Decoded | Routed | Predicted | Actionable | Validated | Published | Delivered.

(* @src include/observability/funnel_metrics.hpp:7-14 FunnelMetrics::noteFrame *)
Definition take_note (s : t) (n : note) : t :=
  match n with
  | Frame => s <| frames ::= bump |> | Decoded => s <| decoded ::= bump |> | Routed => s <| routed ::= bump |>
  | Predicted => s <| predicted ::= bump |> | Actionable => s <| actionable ::= bump |>
  | Validated => s <| validated ::= bump |> | Published => s <| published ::= bump |> | Delivered => s <| delivered ::= bump |>
  end.

(* @src include/observability/funnel_metrics.hpp | std::string report() const *)
Definition report (s : t) : string :=
  "frames=" +:+ to_string (frames s) +:+ " decoded=" +:+ to_string (decoded s) +:+ " routed=" +:+ to_string (routed s) +:+
  " predicted=" +:+ to_string (predicted s) +:+ " actionable=" +:+ to_string (actionable s) +:+
  " validated=" +:+ to_string (validated s) +:+ " published=" +:+ to_string (published s) +:+
  " delivered=" +:+ to_string (delivered s).

(* @src include/observability/funnel_metrics.hpp | double dropRate() const *)
Definition dropRate (s : t) : double := if frames s =? 0 then f0 else fsub f1 (fdiv (of_Z (decoded s)) (of_Z (frames s))).

(** Remark: a frame that carries several events makes the drop rate negative. *)
Example negative_drop_rate : dropRate (fold_left take_note [Frame; Decoded; Decoded] empty) = of_Z (-1).
Proof. vm_compute. reflexivity. Qed.
End Funnel.

(** * [LatencyTimer] *)
Module LatencyTimer.

(* @src include/observability/latency_timer.hpp | std::int64_t start_ns_ = 0; >> marks_; | LatencyTimer *)
Record t := { start_ns : Z; marks : gmap string Z }.
Definition idle : t := {| start_ns := 0; marks := ∅ |}.

(* @src include/observability/latency_timer.hpp | void start() *)
Definition start (_ : t) (now : Z) : t := {| start_ns := now; marks := ∅ |}.
(* @src include/observability/latency_timer.hpp | void mark( *)
Definition mark (s : t) (name : string) (now : Z) : t := {| start_ns := start_ns s; marks := <[name := now]> (marks s) |}.
(* @src include/observability/latency_timer.hpp | std::int64_t sinceStartUs() const *)
Definition sinceStartUs (s : t) (now : Z) : Z := Z.quot (now - start_ns s) 1000.
(* @src include/observability/latency_timer.hpp | std::int64_t sinceMarkUs( *)
Definition sinceMarkUs (s : t) (name : string) (now : Z) : Z := Z.quot (now - default (start_ns s) (marks s !! name)) 1000.

(** Remark: the time since a mark is counted from its last setting, from the start for a mark
    that was not set since, and starting again forgets the marks. *)
Theorem since_mark (s : t) (name other : string) (now t0 t1 : Z) :
  sinceMarkUs (mark s name t0) name now = Z.quot (now - t0) 1000 /\
  (other <> name -> sinceMarkUs (mark s name t0) other now = sinceMarkUs s other now) /\
  sinceMarkUs (start (mark s name t0) t1) name now = sinceStartUs (start s t1) now.
Proof.
  unfold sinceMarkUs, mark, start, sinceStartUs. cbn. split_and!; [by rewrite lookup_insert_eq| |done].
  intros. by rewrite lookup_insert_ne by done.
Qed.
End LatencyTimer.

(** * [LifecycleMetrics] of [include/observability] *)
Module Lifecycle.
Import MetricRegistry.

Inductive note :=
| FrameRx | Decoded | Routed | PredictionSubmitted | PredictionSkip | PredictionEnter | GameEnd | OutcomeWin | OutcomeLoss
| OutboxPublished | OutboxDelivered | TelegramSent | Reconnect | BootComplete.

(* @src include/observability/lifecycle_metrics.hpp:14-27 LifecycleMetrics *)
Definition key (n : note) : string :=
  match n with
  | FrameRx => "lc_frame_rx" | Decoded => "lc_decoded" | Routed => "lc_routed" | PredictionSubmitted => "lc_pred_submitted"
  | PredictionSkip => "lc_pred_skip" | PredictionEnter => "lc_pred_enter" | GameEnd => "lc_game_end"
  | OutcomeWin => "lc_outcome_win" | OutcomeLoss => "lc_outcome_loss" | OutboxPublished => "lc_outbox_pub"
  | OutboxDelivered => "lc_outbox_delivered" | TelegramSent => "lc_telegram_sent" | Reconnect => "lc_reconnect"
  | BootComplete => "lc_boot_complete"
  end.

(** [registry]: the registry given to the constructor, if any. *)
(* @src include/observability/lifecycle_metrics.hpp | MetricRegistry* reg_ = nullptr; >> last_lead_ms_{0}; | LifecycleMetrics *)
Record t := { registry : option MetricRegistry.t; local_counters : gmap string Z; last_lead_ms : double }.
#[export] Instance eta_lifecycle : Eta t := fun r =>
  {| registry := registry r; local_counters := local_counters r; last_lead_ms := last_lead_ms r |}.

(* @src include/observability/lifecycle_metrics.hpp | explicit LifecycleMetrics( *)
Definition make (reg : option MetricRegistry.t) : t := {| registry := reg; local_counters := ∅; last_lead_ms := f0 |}.

(* @src include/observability/lifecycle_metrics.hpp | void inc(const char* *)
Definition inc (s : t) (name : string) (n : Z) : t :=
  match registry s with
  | Some r => s <| registry := Some (counterInc r name n) |>
  | None => s <| local_counters ::= fun m => <[name := u64 (default 0 (m !! name) + n)]> m |>
  end.

(* @src include/observability/lifecycle_metrics.hpp | void hist(const char* *)
Definition hist (s : t) (name : string) (v : double) : t :=
  match registry s with
  | Some r => s <| registry := Some (histogramObserve r name v) |>
  | None => s
  end.

Definition take_note (s : t) (n : note) : t := inc s (key n) 1.

(* @src include/observability/lifecycle_metrics.hpp | void observeParseUs( *)
Definition observeParseUs (s : t) (us : Z) : t := hist s "lc_parse_us" (of_Z us).
(* @src include/observability/lifecycle_metrics.hpp | void observeE2eUs( *)
Definition observeE2eUs (s : t) (us : Z) : t := hist s "lc_e2e_us" (of_Z us).

(* @src include/observability/lifecycle_metrics.hpp | void recordLeadTimes( *)
Definition recordLeadTimes (s : t) (predGen nextStart : Z) : t :=
  if (predGen <=? 0) || (nextStart <=? 0) then s
  else
    let lead := of_Z (nextStart - predGen) in
    (hist s "lc_prediction_lead_ms" lead) <| last_lead_ms := lead |>.

(* @src include/observability/lifecycle_metrics.hpp | struct Snapshot { | LifecycleMetrics::Snapshot *)
Record Snapshot := { sn_counters : gmap string Z; sn_lastLeadMs : double }.

(* @src include/observability/lifecycle_metrics.hpp | Snapshot getLifecycleMetricsSnapshot() const { *)
Definition getSnapshot (s : t) : Snapshot := {|
  sn_counters :=
    match registry s with
    | Some r =>
        fold_left (fun m name => if String.prefix "lc_" name then <[name := counterGet r name]> m else m) (counterNames r) ∅
    | None => local_counters s
    end;
  sn_lastLeadMs := last_lead_ms s |}.

Lemma snapshot_fold (r : MetricRegistry.t) (names : list string) (m : gmap string Z) name :
  fold_left (fun m name => if String.prefix "lc_" name then <[name := counterGet r name]> m else m) names m !! name =
    if decide (name ∈ names /\ String.prefix "lc_" name = true) then Some (counterGet r name) else m !! name.
Proof.
  revert m. induction names as [|x l IH]; intros m; cbn [fold_left].
  { rewrite decide_False; [done|]. by intros [?%not_elem_of_nil _]. }
  rewrite IH. destruct (decide (name ∈ l /\ _)) as [[H1 H2]|Hn].
  { rewrite decide_True; [done|]. split; [by right|done]. }
  destruct (String.prefix "lc_" x) eqn:Hx.
  - destruct (decide (name = x)) as [->|Hne].
    + rewrite lookup_insert_eq, decide_True by (split; [by left|done]). done.
    + rewrite lookup_insert_ne by done. rewrite decide_False; [done|]. intros [[?|?]%elem_of_cons ?]; naive_solver.
  - rewrite decide_False; [done|]. intros [[->|?]%elem_of_cons ?]; [congruence|naive_solver].
Qed.

(** The counters of both kinds after the same notes. *)
Lemma notes_counters l : exists r,
  fold_left take_note l (make (Some MetricRegistry.empty)) = make (Some r) /\
  fold_left take_note l (make None) = {| registry := None; local_counters := counters r; last_lead_ms := f0 |} /\
  map_Forall (fun name _ => String.prefix "lc_" name = true) (counters r).
Proof.
  induction l as [|n l (r & H1 & H2 & H3)] using rev_ind; [exists MetricRegistry.empty; split_and!; done|].
  rewrite !fold_left_app. cbn [fold_left]. rewrite H1, H2. exists (counterInc r (key n) 1). split_and!; [done| |].
  - change ({| registry := None; local_counters := <[key n := u64 (default 0 (counters r !! key n) + 1)]> (counters r); last_lead_ms := f0 |} =
      {| registry := None; local_counters := counters (counterInc r (key n) 1); last_lead_ms := f0 |}).
    f_equal. unfold counterInc, ensureCounter.
    destruct (counters r !! key n) as [v|] eqn:E; cbn.
    + apply map_eq. intros k. destruct (decide (k = key n)) as [->|Hk].
      * by rewrite lookup_insert_eq, lookup_alter_eq, E.
      * by rewrite lookup_insert_ne, lookup_alter_ne by done.
    + by rewrite alter_insert_eq.
  - assert (String.prefix "lc_" (key n) = true) as Hk by (by destruct n).
    intros name v Hv. unfold counterInc, ensureCounter in Hv.
    destruct (decide (name = key n)) as [->|Hne]; [done|].
    destruct (counters r !! key n); cbn in Hv; rewrite lookup_alter_ne in Hv by done; [by apply (H3 name v)|].
    rewrite lookup_insert_ne in Hv by done. by apply (H3 name v).
Qed.

(** Remark: the metrics report the same whether they count into a registry of their own or
    locally. *)
Theorem modes_agree (l : list note) :
  getSnapshot (fold_left take_note l (make (Some MetricRegistry.empty))) = getSnapshot (fold_left take_note l (make None)).
Proof.
  destruct (notes_counters l) as (r & -> & -> & Hp). unfold getSnapshot. cbn [registry make local_counters last_lead_ms]. f_equal.
  apply map_eq. intros name. rewrite snapshot_fold, lookup_empty. unfold counterNames, counterGet.
  destruct (counters r !! name) as [v|] eqn:E.
  - rewrite decide_True; [done|]. split; [|by apply (Hp name v)].
    apply list_elem_of_fmap. exists (name, v). split; [done|by apply elem_of_map_to_list].
  - rewrite decide_False; [done|]. intros [H _]. apply list_elem_of_fmap in H as ([k v] & -> & Hin%elem_of_map_to_list).
    cbn in E. congruence.
Qed.
End Lifecycle.

(** * [JsonLogger] *)
Module JsonLogger.

(* @src include/logging/json_logger.hpp | enum class JsonLogLevel *)
Inductive JsonLogLevel := Trace | Debug | Info | Warn | Error.

(** [static_cast<int>(level)] *)
Definition level_code (l : JsonLogLevel) : Z := match l with Trace => 0 | Debug => 1 | Info => 2 | Warn => 3 | Error => 4 end.

(* @src include/logging/json_logger.hpp | inline const char* toString(JsonLogLevel | JsonLogLevel::toString *)
Definition level_name (l : JsonLogLevel) : string :=
  match l with Trace => "trace" | Debug => "debug" | Info => "info" | Warn => "warn" | Error => "error" end.

(** [fields]: in the order in which the map is iterated. *)
(* @src include/logging/json_logger.hpp | struct JsonLogEvent { *)
Record JsonLogEvent := {
  level : JsonLogLevel; component : string; message : string; correlationId : string; fields : list (string * string); tsMs : Z }.

(** [lines]: what was written to the standard error stream. *)
(* @src include/logging/json_logger.hpp | std::size_t ring_cap_; >> written_{0}; | JsonLogger *)
Record t := {
  ring_cap : nat; comp : string; min_level : Z; queue : list JsonLogEvent; running : bool; dropped : Z; written : Z;
  lines : list string }.
#[export] Instance eta_t : Eta t := fun r =>
  {| ring_cap := ring_cap r; comp := comp r; min_level := min_level r; queue := queue r; running := running r;
     dropped := dropped r; written := written r; lines := lines r |}.

(* @src include/logging/json_logger.hpp | explicit JsonLogger( *)
Definition make (ringCap : nat) : t := {|
  ring_cap := ringCap; comp := EmptyString; min_level := level_code Info; queue := []; running := true; dropped := 0;
  written := 0; lines := [] |}.

(* @src include/logging/json_logger.hpp | void setLevel( *)
Definition setLevel (s : t) (l : JsonLogLevel) : t := s <| min_level := level_code l |>.
(* @src include/logging/json_logger.hpp | void setComponent( *)
Definition setComponent (s : t) (c : string) : t := s <| comp := c |>.

(** A front element is dropped from a full ring; with a capacity of zero the ring is full when
    it is empty, and [pop_front] on it is undefined. *)
(* @src include/logging/json_logger.hpp | void log(JsonLogLevel *)
Definition log (s : t) (l : JsonLogLevel) (msg : string) (fs : list (string * string)) (cid : string) (now : Z) : option t :=
  if level_code l <? min_level s then Some s
  else
    let ev := {| level := l; component := comp s; message := msg; correlationId := cid; fields := fs; tsMs := now |} in
    if (ring_cap s <=? length (queue s))%nat then
      match queue s with
      | [] => None
      | _ :: q => Some (s <| queue := q ++ [ev] |> <| dropped ::= bump |>)
      end
    else Some (s <| queue ::= fun q => q ++ [ev] |>).

(* @src include/logging/json_logger.hpp | void info(std::string *)
Definition info (s : t) (msg : string) (fs : list (string * string)) (now : Z) : option t := log s Info msg fs EmptyString now.
(* @src include/logging/json_logger.hpp | void error(std::string *)
Definition error (s : t) (msg : string) (fs : list (string * string)) (now : Z) : option t := log s Error msg fs EmptyString now.

Definition newline : ascii := ascii_of_nat 10.
Definition backslash : ascii := ascii_of_nat 92.

(* @src include/logging/json_logger.hpp | static std::string escape( *)
Fixpoint escape (s : string) : string :=
  match s with
  | EmptyString => EmptyString
  | String c s =>
      (if decide (c = dq) then String backslash (String dq EmptyString)
       else if decide (c = backslash) then String backslash (String backslash EmptyString)
       else if decide (c = newline) then String backslash "n"
       else String c EmptyString) +:+ escape s
  end.

Definition quoted (s : string) : string := String dq (escape s +:+ String dq EmptyString).

(* @src include/logging/json_logger.hpp:80-84 JsonLogger::writeLine *)
Definition line (ev : JsonLogEvent) : string :=
  json "{'ts':" +:+ to_string (tsMs ev) +:+ json ",'level':'" +:+ level_name (level ev) +:+ json "','component':" +:+
  quoted (component ev) +:+ json ",'msg':" +:+ quoted (message ev) +:+
  (if str_empty (correlationId ev) then EmptyString else json ",'correlationId':" +:+ quoted (correlationId ev)) +:+
  fold_right (fun p o => "," +:+ quoted p.1 +:+ ":" +:+ quoted p.2 +:+ o) EmptyString (fields ev) +:+
  "}" +:+ String newline EmptyString.

(* @src include/logging/json_logger.hpp | void writeLine( *)
Definition writeLine (s : t) (ev : JsonLogEvent) : t := s <| lines ::= fun l => l ++ [line ev] |> <| written ::= bump |>.

(** One turn of the writer. *)
(* @src include/logging/json_logger.hpp:69-75 JsonLogger::sinkLoop *)
Definition turn (s : t) : t :=
  if negb (running s) then s
  else match queue s with [] => s | ev :: q => writeLine (s <| queue := q |>) ev end.

(** The destructor: the writer does not empty the queue. *)
(* @src include/logging/json_logger.hpp | ~JsonLogger() { *)
Definition stop (s : t) : t := s <| running := false |>.

(** ** The lines *)

Fixpoint newlines (s : string) : nat :=
  match s with EmptyString => 0 | String c s => ((if decide (c = newline) then 1 else 0) + newlines s)%nat end.

Lemma newlines_app a b : newlines (a +:+ b) = (newlines a + newlines b)%nat.
Proof. induction a as [|c a IH]; [done|]. rewrite app_cons_str. cbn [newlines]. rewrite IH. lia. Qed.

Lemma newlines_escape s : newlines (escape s) = 0%nat.
Proof.
  induction s as [|c s IH]; [done|]. cbn [escape]. rewrite newlines_app, IH.
  destruct (decide (c = dq)); [done|]. destruct (decide (c = backslash)); [done|].
  destruct (decide (c = newline)) as [|Hc]; [done|]. cbn [newlines]. by rewrite decide_False.
Qed.

Lemma newlines_quoted s : newlines (quoted s) = 0%nat.
Proof. unfold quoted. cbn [newlines]. rewrite newlines_app, newlines_escape. done. Qed.

Lemma newlines_digit x : (x < 10)%N -> pretty_N_char x <> newline.
Proof. unfold pretty_N_char. intros H. repeat case_match; done. Qed.

Lemma newlines_pretty_N_go x : forall s, newlines (pretty_N_go x s) = newlines s.
Proof.
  induction (N.lt_wf_0 x) as [x _ IH]; intros s.
  destruct (decide (x = 0)%N) as [->|Hx]; [by rewrite pretty_N_go_0|].
  rewrite pretty_N_go_step by lia. rewrite IH by (apply N.div_lt; lia). cbn [newlines].
  by rewrite decide_False by (apply newlines_digit, N.mod_lt; done).
Qed.

Lemma newlines_to_string z : newlines (to_string z) = 0%nat.
Proof.
  assert (forall n : N, newlines (pretty n) = 0%nat) as H.
  { intros n. unfold pretty, pretty_N. case_decide; [done|]. by rewrite newlines_pretty_N_go. }
  destruct z as [|p|p]; [done|apply (H (N.pos p))|]. exact (H (N.pos p)).
Qed.

(** Remark: whatever the messages, components, correlation ids and fields contain, an event is
    exactly one line of the log: its only line break is its last character. *)
Theorem one_line (ev : JsonLogEvent) : exists s, line ev = s +:+ String newline EmptyString /\ newlines s = 0%nat.
Proof.
  unfold line. rewrite <- !app_assoc_str. eexists. split; [reflexivity|].
  repeat rewrite newlines_app. rewrite newlines_to_string, !newlines_quoted.
  assert (forall l : list (string * string), newlines (fold_right (fun p o => "," +:+ quoted p.1 +:+ ":" +:+ quoted p.2 +:+ o) EmptyString l) = 0%nat) as ->.
  { induction l as [|p l IH]; [done|]. cbn [fold_right]. by rewrite !newlines_app, !newlines_quoted, IH. }
  destruct (level ev), (str_empty (correlationId ev)); cbn; rewrite ?newlines_app, ?newlines_quoted; done.
Qed.

(** Remark: the other control characters are copied: a carriage return in a message stays. *)
Example carriage_return_copied : escape (String (ascii_of_nat 13) EmptyString) = String (ascii_of_nat 13) EmptyString.
Proof. reflexivity. Qed.

(** ** The ring *)

Inductive op := Log (l : JsonLogLevel) (msg : string) (now : Z) | Turn.

Definition apply (s : t) (o : op) : option t :=
  match o with Log l msg now => log s l msg [] EmptyString now | Turn => Some (turn s) end.

Definition run (s : t) (ops : list op) : option t := foldl (fun s o => s ≫= fun s => apply s o) (Some s) ops.

Definition accepted (min : Z) (ops : list op) : Z :=
  Z.of_nat (length (List.filter (fun o => match o with Log l _ _ => min <=? level_code l | Turn => false end) ops)).

Lemma accepted_snoc min ops o :
  accepted min (ops ++ [o]) = accepted min ops + match o with Log l _ _ => if min <=? level_code l then 1 else 0 | Turn => 0 end.
Proof.
  unfold accepted. rewrite List.filter_app, length_app. destruct o as [l ? ?|]; cbn; [destruct (min <=? level_code l); cbn [length]|]; lia.
Qed.

(** Remark: the logger never fails when its capacity is positive; no event is lost without being
    counted: those at or above the level were written, dropped, or are in the ring, which never
    exceeds its capacity (the counters modulo 64 bits), and the lines written are counted. *)
Theorem logger_conservation (cap : nat) (ops : list op) :
  (0 < cap)%nat -> exists s, run (make cap) ops = Some s /\ (length (queue s) <= cap)%nat /\
    u64 (written s + dropped s + Z.of_nat (length (queue s))) = u64 (accepted (level_code Info) ops) /\
    written s = u64 (Z.of_nat (length (lines s))).
Proof.
  intros Hc. enough (exists s, run (make cap) ops = Some s /\ (length (queue s) <= cap)%nat /\
    u64 (written s + dropped s + Z.of_nat (length (queue s))) = u64 (accepted (level_code Info) ops) /\
    written s = u64 (Z.of_nat (length (lines s))) /\ ring_cap s = cap /\ running s = true /\ min_level s = level_code Info) by naive_solver.
  induction ops as [|o ops (s & Hr & Hl & Hs & Hw & Hcap & Hrun & Hmin)] using rev_ind.
  { exists (make cap). split_and!; try done. cbn. lia. }
  unfold run in *. rewrite foldl_snoc, Hr, accepted_snoc. cbn [option_bind mbind].
  assert (forall z, u64 (z + 1) = u64 (u64 z + 1)) as Hu by (intros; by rewrite u64_add_l).
  destruct o as [l msg now|]; cbn [apply].
  - unfold log. rewrite Hmin. destruct (Z.ltb_spec (level_code l) (level_code Info)), (Z.leb_spec (level_code Info) (level_code l)); try lia.
    { exists s. rewrite Z.add_0_r. done. }
    rewrite Hcap. rewrite (Hu (accepted _ _)), <- Hs, <- Hu. destruct (Nat.leb_spec cap (length (queue s))) as [Hge|Hlt].
    + destruct (queue s) as [|e q] eqn:Eq; [cbn in *; lia|]. eexists. split; [reflexivity|]. cbn -[u64]. rewrite length_app. cbn in *.
      split_and!; try done; try lia. rewrite (Z.add_comm (written s)), <- Z.add_assoc, u64_bump_l. f_equal. lia.
    + eexists. split; [reflexivity|]. cbn -[u64]. rewrite length_app. cbn. split_and!; try done; try lia. f_equal. lia.
  - rewrite Z.add_0_r. unfold turn. rewrite Hrun. cbn [negb]. destruct (queue s) as [|e q] eqn:Eq.
    { exists s. rewrite Eq. done. }
    eexists. split; [reflexivity|]. cbn -[u64 level_code]. cbn [length] in *. split_and!; try done; try lia.
    + rewrite <- Hs, <- Z.add_assoc, u64_bump_l. f_equal. lia.
    + rewrite Hw, length_app, Nat2Z.inj_add. apply bump_u64.
Qed.

(** Remark: an event that is queued when the logger stops is never written. *)
Example stop_loses_queue :
  exists s, info (make 4) "bye" [] 1 = Some s /\ turn (stop s) = stop s /\ length (queue (stop s)) = 1%nat.
Proof. eexists. split; [reflexivity|]. split; reflexivity. Qed.

(** ** The loggers by component *)

(* @src include/logging/json_logger.hpp | inline JsonLogger& getLogger( *)
Definition getLogger (loggers : gmap string t) (component : string) : t * gmap string t :=
  match loggers !! component with
  | Some s => (s, loggers)
  | None => let s := setComponent (make (Z.to_nat 4096)) component in (s, <[component := s]> loggers)
  end.
End JsonLogger.

Lemma logger_conservation_witness :
  exists s, JsonLogger.run (JsonLogger.make 1) [JsonLogger.Log JsonLogger.Info "a" 1; JsonLogger.Log JsonLogger.Warn "b" 2] = Some s /\
    (length (JsonLogger.queue s) <= 1)%nat.
Proof.
  destruct (JsonLogger.logger_conservation 1 [JsonLogger.Log JsonLogger.Info "a" 1; JsonLogger.Log JsonLogger.Warn "b" 2])
    as (s & H & Hl & _); [lia|]. exists s. split; [exact H|exact Hl].
Defined.

(** * [LogFields] *)
Module LogFields.
Section S.
(** [std::to_string] of a double. *)
Variable double_to_string : double -> string.

Inductive Value := VText (s : string) | VInt (z : Z) | VDouble (x : double) | VBool (b : bool).

(* @src include/logging/log_fields.hpp | std::vector<std::pair<std::string, std::string>> fields_; *)
Definition t : Type := list (string * string).

(* @src include/logging/log_fields.hpp | LogFields& add(std::string key, std::string value) { >> fields_.emplace_back(std::move(key), value ? "true" : "false"); | LogFields::add *)
Definition add (f : t) (key : string) (v : Value) : t :=
  f ++ [(key, match v with VText s => s | VInt z => to_string z | VDouble x => double_to_string x | VBool b => if b then "true" else "false" end)].

Definition join (sep : string) (l : list string) : string := String.concat sep l.

(* @src include/logging/log_fields.hpp | std::string toString() const { *)
Definition toString (f : t) : string := join " " ((fun kv => kv.1 +:+ "=" +:+ kv.2) <$> f).

(* @src include/logging/log_fields.hpp | std::string toJsonLike() const { *)
Definition toJsonLike (f : t) : string := "{" +:+ join "," ((fun kv => json "'" +:+ kv.1 +:+ json "':'" +:+ kv.2 +:+ json "'") <$> f) +:+ "}".
End S.

(** Remark: Values are not escaped: a quote in one ends its string, and what follows reads as a field of
    its own. *)
Theorem fields_are_not_escaped (p : double -> string) :
  toJsonLike (add p [] "user" (VText (json "x','admin':'true"))) =
  toJsonLike (add p (add p [] "user" (VText "x")) "admin" (VBool true)).
Proof. reflexivity. Qed.
End LogFields.

(** * [Logger] and [StructuredLogger] *)
Module Logger.

(* @src include/common/enums.hpp | enum class LogLevel : *)
Inductive LogLevel := Trace | Debug | Info | Warn | Error | Fatal.
Definition code (l : LogLevel) : Z := match l with Trace => 0 | Debug => 1 | Info => 2 | Warn => 3 | Error => 4 | Fatal => 5 end.
(* @src include/common/enums.hpp | inline std::string_view toString(LogLevel | LogLevel::toString *)
Definition name (l : LogLevel) : string :=
  match l with
  | Trace => "TRACE" | Debug => "DEBUG" | Info => "INFO" | Warn => "WARN" | Error => "ERROR" | Fatal => "FATAL"
  end.

(** [%.*s] stops at a character zero. *)
Fixpoint until_nul (s : string) : string :=
  match s with
  | EmptyString => EmptyString
  | String c s => if decide (c = ascii_of_nat 0) then EmptyString else String c (until_nul s)
  end.

(** What a call prints, if anything. *)
(* @src include/logging/logger.hpp | void log(LogLevel *)
Definition log (threshold lvl : LogLevel) (comp : ComponentId) (msg : string) (now : Z) : option string :=
  if code lvl <? code threshold then None
  else Some (to_string now +:+ " [" +:+ name lvl +:+ "] [" +:+ component_name comp +:+ "] " +:+ until_nul msg +:+
             String (ascii_of_nat 10) EmptyString).

(** The arguments, as they print, one after the other. *)
(* @src include/logging/structured_logger.hpp | void log(LogLevel *)
Definition structured (threshold lvl : LogLevel) (comp : ComponentId) (args : list string) (now : Z) : option string :=
  log threshold lvl comp (fold_right String.append EmptyString args) now.

(** Remark: a threshold that lets a level through lets every higher one through. *)
Theorem threshold_monotone (th l l' : LogLevel) comp msg now :
  code l <= code l' -> is_Some (log th l comp msg now) -> is_Some (log th l' comp msg now).
Proof.
  unfold log. intros H. destruct (Z.ltb_spec (code l) (code th)); [by intros []|].
  destruct (Z.ltb_spec (code l') (code th)); [lia|eauto].
Qed.
End Logger.

Lemma threshold_monotone_witness : is_Some (Logger.log Logger.Info Logger.Error CFeedback "x" 1).
Proof. apply (Logger.threshold_monotone Logger.Info Logger.Warn); [cbn; lia|]. eexists. reflexivity. Defined.

(** * Health and readiness *)
Module Health.
Section S.
Context {D : Type} {Q : Type} {A : Type} {OQ : Type} `{!BoundedFifo OQ OutboxItem} {T : Type}.
Notation Socket := (NativeBcGameSocket.t (D := D) (Q := Q) (A := A)).
Notation Workers := (WorkerPool.t T).
Notation Box := (Outbox.t OQ).

(* @src include/common/types.hpp | struct QueueHealth { *)
Record QueueHealth := { qh_size : Z; qh_capacity : Z; qh_drops : Z; qh_pushes : Z; qh_pops : Z }.
Definition no_queue : QueueHealth := {| qh_size := 0; qh_capacity := 0; qh_drops := 0; qh_pushes := 0; qh_pops := 0 |}.
(* @src include/common/types.hpp | struct WorkerHealth { *)
Record WorkerHealth := { wh_name : string; wh_running : bool; wh_lastTickMs : Z; wh_tasksProcessed : Z; wh_lastError : string }.
(* @src include/telemetry/health.hpp | struct SystemHealth { *)
Record SystemHealth := {
  healthy : bool; connection : NativeBcGameSocket.ConnectionHealth; predictionQueue : QueueHealth; validationQueue : QueueHealth;
  outboxQueue : QueueHealth; workers : list WorkerHealth; summary : string }.

Definition no_connection : NativeBcGameSocket.ConnectionHealth := {|
  NativeBcGameSocket.ch_connected := false; NativeBcGameSocket.ch_lastMessageMs := 0; NativeBcGameSocket.ch_lastPongMs := 0;
  NativeBcGameSocket.ch_reconnects := 0; NativeBcGameSocket.ch_lastError := EmptyString |}.

(* @src include/delivery/outbox/outbox.hpp | std::size_t pendingSize() const *)
Definition pendingSize (o : Box) : nat := bf_size (OutboxQueue.q (Outbox.queue o)).

(** The workers are reported by their number alone, all as running. *)
(* @src include/telemetry/health_aggregator.hpp:33-40 HealthAggregator::collect *)
Definition worker_entries (n : nat) : list WorkerHealth :=
  (fun i => {| wh_name := "worker-" +:+ to_string (Z.of_nat i); wh_running := true; wh_lastTickMs := 0; wh_tasksProcessed := 0;
               wh_lastError := EmptyString |}) <$> seq 0 n.

(* @src include/telemetry/health_aggregator.hpp:43-49 HealthAggregator::collect *)
Definition outbox_health (o : Box) : QueueHealth := {|
  qh_size := Z.of_nat (pendingSize o); qh_capacity := 0; qh_pushes := Outbox.published o; qh_pops := Outbox.delivered o;
  qh_drops := u64 (Outbox.failed o + Outbox.dead_letters o) |}.

(* @src include/telemetry/health_aggregator.hpp | SystemHealth collect( *)
Definition collect (socket : option Socket) (pool : option Workers) (outbox : option Box)
    (registry : option ComponentRegistry.t) (metrics : option Metrics.t) : SystemHealth :=
  let conn := match socket with Some x => NativeBcGameSocket.health x | None => no_connection end in
  let ok := match socket with Some _ => NativeBcGameSocket.ch_connected conn | None => true end in
  {| healthy := ok; connection := conn;
     predictionQueue :=
       match pool with
       | Some p => let '(size, cap, pushes, pops) := WorkerPool.queue_health p in
                   {| qh_size := Z.of_nat size; qh_capacity := Z.of_nat cap; qh_drops := 0; qh_pushes := pushes; qh_pops := pops |}
       | None => no_queue
       end;
     validationQueue := no_queue;
     outboxQueue := match outbox with Some o => outbox_health o | None => no_queue end;
     workers := match pool with Some p => worker_entries (length (WorkerPool.queues p)) | None => [] end;
     summary :=
       (if ok then "healthy" else "degraded") +:+
       match socket with
       | Some _ => " socket=" +:+ (if NativeBcGameSocket.ch_connected conn then "up" else "down") +:+
                   " reconnects=" +:+ to_string (NativeBcGameSocket.ch_reconnects conn)
       | None => EmptyString
       end +:+
       match outbox with Some o => " outbox_pending=" +:+ to_string (Z.of_nat (pendingSize o)) | None => EmptyString end +:+
       match metrics with
       | Some m => " events=" +:+ to_string (Metrics.get m Metrics.EventsReceived) +:+
                   " wins=" +:+ to_string (Metrics.get m Metrics.OutcomesWin) +:+
                   " losses=" +:+ to_string (Metrics.get m Metrics.OutcomesLoss)
       | None => EmptyString
       end +:+
       match registry with Some r => " components=" +:+ to_string (Z.of_nat (ComponentRegistry.count r)) | None => EmptyString end |}.

(** Remark: the system is healthy exactly when it has no socket or the socket is up: the queues,
    the outbox, the workers and the components never make it unhealthy. *)
Theorem collect_healthy socket pool outbox registry metrics :
  healthy (collect socket pool outbox registry metrics) = true <->
  forall x, socket = Some x ->
    NativeBcGameSocket.status x.2 = NativeBcGameSocket.Connected \/ NativeBcGameSocket.status x.2 = NativeBcGameSocket.Degraded.
Proof.
  unfold collect. cbn [healthy]. destruct socket as [x|]; [|naive_solver]. cbn. unfold NativeBcGameSocket.healthy.
  rewrite bool_decide_eq_true, !elem_of_cons, elem_of_nil. naive_solver.
Qed.

(** ** [ReadinessChecker] *)

(* @src include/telemetry/readiness.hpp | struct ReadinessReport { *)
Record ReadinessReport := { ready : bool; live : bool; reason : string; checks : list string }.
#[export] Instance eta_ReadinessReport : Eta ReadinessReport := fun r =>
  {| ready := ready r; live := live r; reason := reason r; checks := checks r |}.

(* @src include/telemetry/readiness.hpp:30-37 ReadinessChecker::check *)
Definition check_socket (socket : option Socket) (r : ReadinessReport) : ReadinessReport :=
  match socket with
  | Some x =>
      let r := r <| checks ::= fun l => l ++ ["socket=" +:+ SocketDiagnostics.status_name (NativeBcGameSocket.status x.2)] |> in
      if NativeBcGameSocket.healthy x then r
      else r <| ready := false |> <| live := false |> <| reason := "socket not connected" |>
  | None => r <| checks ::= fun l => l ++ ["socket=absent"] |>
  end.

(* @src include/telemetry/readiness.hpp:39-45 ReadinessChecker::check *)
Definition check_registry (registry : option ComponentRegistry.t) (r : ReadinessReport) : ReadinessReport :=
  match registry with
  | Some g =>
      let r := r <| checks ::= fun l => l ++ ["components=" +:+ to_string (Z.of_nat (ComponentRegistry.count g))] |> in
      if (ComponentRegistry.count g =? 0)%nat then r <| ready := false |> <| reason := "no components registered" |> else r
  | None => r
  end.

(* @src include/telemetry/readiness.hpp:47-54 ReadinessChecker::check *)
Definition check_outbox (outbox : option Box) (r : ReadinessReport) : ReadinessReport :=
  match outbox with
  | Some o =>
      let r := r <| checks ::= fun l => l ++ ["outbox_pending=" +:+ to_string (Z.of_nat (pendingSize o))] |> in
      if 10000 <? Z.of_nat (pendingSize o) then
        let r := r <| live := false |> in if str_empty (reason r) then r <| reason := "outbox backlog high" |> else r
      else r
  | None => r
  end.

(* @src include/telemetry/readiness.hpp | ReadinessReport check( *)
Definition check (socket : option Socket) (registry : option ComponentRegistry.t) (outbox : option Box) : ReadinessReport :=
  let r := check_outbox outbox (check_registry registry (check_socket socket
    {| ready := true; live := true; reason := EmptyString; checks := [] |})) in
  if str_empty (reason r) then r <| reason := if ready r then "ok" else "not ready" |> else r.

Definition socket_up (socket : option Socket) : bool := match socket with Some x => NativeBcGameSocket.healthy x | None => true end.
Definition has_components (registry : option ComponentRegistry.t) : bool :=
  match registry with Some g => negb (ComponentRegistry.count g =? 0)%nat | None => true end.
Definition backlog (outbox : option Box) : bool :=
  match outbox with Some o => 10000 <? Z.of_nat (pendingSize o) | None => false end.

(** Remark: the system is ready when the socket, where there is one, is up and some component
    is registered; it is live when the socket is up and the outbox is not overfull; a report that
    is neither says why, the registry before the socket before the backlog, and one that is both
    says ok. *)
Theorem check_spec socket registry outbox :
  let r := check socket registry outbox in
  ready r = socket_up socket && has_components registry /\
  live r = socket_up socket && negb (backlog outbox) /\
  reason r = (if negb (has_components registry) then "no components registered"
              else if negb (socket_up socket) then "socket not connected"
              else if backlog outbox then "outbox backlog high" else "ok").
Proof.
  cbv zeta. unfold check, check_socket, check_registry, check_outbox, socket_up, has_components, backlog.
  destruct socket as [x|], registry as [g|], outbox as [o|];
    repeat (match goal with |- context [if ?b then _ else _] => destruct b eqn:? end; cbn in *); rewrite ?andb_false_r; try done.
Qed.
End S.
End Health.
