(* ===== verification/Startup.v ===== *)
(** The life of the application: [init], [start], the loop, [stop] and [run] of [Application]
    ([include/application/application.hpp]), and the delivery function it gives to the
    notification worker.

    The event cycle, the component registry, the boot sequence and the configuration are those of
    their own files; what the other components do when they are connected, seeded, acquired,
    started or stopped is a parameter on the world, and whether each is running is kept beside
    it.  Log lines are left out. *)
From S2P Require Import Prelude Float64 Types Text Queues Registry Feedback Validation Router Attempts Strategy Predict Outbox OutboxUse Delivery Telegram Dispatch Database Repos Config Readiness Orchestration Live App Telemetry Pool NativeSocket.

Open Scope string_scope.
Open Scope list_scope.
Open Scope Z_scope.

#[local] Existing Instance Application.eta_Rest.
#[local] Existing Instance TemporalGuard.eta_t.
#[local] Existing Instance ExactlyOnceFeedback.eta_t.
#[local] Existing Instance InProcessPredictionClient.eta_t.
#[local] Existing Instance acie.eta_AdaptiveEdge.
#[local] Existing Instances OutboxLifecycle.eta_t DurableHandoff.eta_t.

(** * What the notification worker delivers *)
Module RowDelivery.
Section S.
Context {W : Type}.
Variable begin_ : gmap string DeliveryForensics.DeliveryTrace -> string.
(** [TelegramClient::sendMessageWithRetry], when there is a client. *)
Variable telegram : option (string -> W -> Result unit * W).

Definition newline : string := String (Ascii.ascii_of_nat 10) EmptyString.

(** The round a row is for: what follows ["round="] in the payload up to the end of the line, or
    the key of the row. *)
(* @src include/application/application.hpp:412-417 Application::init *)
Definition round_of_row (row : OutboxRow) : string :=
  match Text.find "round=" (or_payload row) 0 with
  | None => or_dedupeKey row
  | Some pos =>
      let n := match Text.find newline (or_payload row) pos with
               | None => String.length (or_payload row)
               | Some e => (e - pos - 6)%nat
               end in
      String.substring (pos + 6) n (or_payload row)
  end.

(* @src include/application/application.hpp:410-432 Application::init *)
Definition deliver (g : TemporalGuard.t) (row : OutboxRow) (now : Z) (f : DeliveryForensics.t) (w : W)
    : Result unit * DeliveryForensics.t * W :=
  let auth := TemporalGuard.authorizeSend g (round_of_row row) (or_createdAtMs row) now in
  let note stage e := DeliveryForensics.note begin_ f (or_id row) stage (or_id row) e now in
  if negb (TemporalGuard.allowed auth) then (Err (err Timeout auth.2), note DeliveryForensics.SFailed auth.2, w)
  else
    match telegram with
    | None => (Err (err ConfigError "no telegram"), f, w)
    | Some send =>
        match send (or_payload row) w with
        | (Err e, w) => (Err (err (code e) (message e)), note DeliveryForensics.SFailed (message e), w)
        | (Ok _, w) => (Ok tt, note DeliveryForensics.Delivered "", w)
        end
    end.

Lemma find_newline rid text : ~ (Ascii.ascii_of_nat 10 ∈ String.list_ascii_of_string rid) ->
  String.index 0 newline (rid +:+ newline +:+ text) = Some (String.length rid).
Proof.
  induction rid as [|c rid IH]; intros H.
  - by destruct text.
  - change (String c rid +:+ newline +:+ text) with (String c (rid +:+ newline +:+ text)). cbn [String.list_ascii_of_string] in H.
    cbn [String.index]. rewrite IH by set_solver.
    assert (String.prefix newline (String c (rid +:+ newline +:+ text)) = false) as ->; [|done].
    unfold newline at 1. cbn [String.prefix]. destruct (Ascii.ascii_dec _ c) as [<-|Hc]; [set_solver|done].
Qed.

(** The round of the payload of a durable prediction. *)
Lemma round_of_prediction rid text row :
  ~ (Ascii.ascii_of_nat 10 ∈ String.list_ascii_of_string rid) ->
  or_payload row = "round=" +:+ rid +:+ newline +:+ text -> round_of_row row = rid.
Proof.
  intros H Hp. unfold round_of_row. rewrite Hp. unfold Text.find.
  assert (forall x, String.index 0 "round=" ("round=" +:+ x) = Some 0%nat) as -> by (by intros []).
  assert (String.index 0 newline ("round=" +:+ (rid +:+ newline +:+ text)) = Some (6 + String.length rid)%nat) as ->.
  { change ("round=" +:+ (rid +:+ newline +:+ text)) with (("round=" +:+ rid) +:+ newline +:+ text).
    rewrite find_newline; [done|]. cbn. intros Hin. repeat (apply elem_of_cons in Hin as [Hin|Hin]; [done|]). done. }
  replace (6 + String.length rid - 0 - 6)%nat with (String.length rid) by lia.
  exact (Text.substring_app "round=" rid (newline +:+ text)).
Qed.

(** Remark: once the target round of a durable prediction has started, its row is not sent any more:
    the delivery fails and nothing reaches Telegram. *)
Theorem started_row_refused (g : TemporalGuard.t) (row : OutboxRow) (rid text : string) (at_ms now : Z) f w :
  or_payload row = "round=" +:+ rid +:+ newline +:+ text ->
  ~ (Ascii.ascii_of_nat 10 ∈ String.list_ascii_of_string rid) ->
  TemporalGuard.started g !! rid = Some at_ms -> at_ms + TemporalGuard.postStartGraceMs g <= now ->
  let '(r, _, w') := deliver g row now f w in is_ok r = false /\ w' = w.
Proof.
  intros Hp Hn Hs Hle. unfold deliver, TemporalGuard.authorizeSend. rewrite (round_of_prediction rid text) by done.
  destruct (_ && _); [done|]. rewrite Hs, (proj2 (Z.leb_le _ _)) by done. done.
Qed.
End S.
End RowDelivery.

(** Remark: a round whose id contains a line feed is cut at it, so its start is not recognised. *)
Lemma row_round_cut :
  RowDelivery.round_of_row {| or_id := "1"; or_dedupeKey := "p:pred"; or_payload := "round=7" +:+ RowDelivery.newline +:+ "8" +:+ RowDelivery.newline +:+ "text";
    or_status := ""; or_lastError := ""; or_attempts := 0; or_createdAtMs := 0; or_availableAtMs := 0 |} = "7".
Proof. vm_compute. reflexivity. Qed.

(** What the application starts and stops. *)
Inductive Service := Workers | Stats | Renewal | Poll | OutboxSender | Notification | Batch | Socket.
#[export] Instance Service_eq_dec : EqDecision Service.
Proof. solve_decision. Defined.

Module Startup.
Section S.
Context {QE QO QI E W : Type} `{!BoundedFifo QE CrashEvent} `{!BoundedFifo QO Outcome} `{!BoundedFifo QI OutboxItem}.
Variable observe : E -> double -> option Z -> E.
Variable is_cold : E -> bool.
Variable predict : E -> string -> double -> (PeResult + string) * E.
Variable executeParams : string -> list string -> W -> Result unit * W.
Variable execute : string -> W -> Result unit * W.
Variable fixed2 : double -> string.
Variable double_to_string : double -> string.
Variable insert_feedback : list string -> bool.
(** [Database::connect] and [MigrationRunner::applyAll]. *)
Variable connect : W -> Result unit * W.
Variable migrate : W -> Result unit * W.
(** What [ColdStartSeeder] takes: number conversions, the order of the rounds and HTTP. *)
Context {D : Type} `{!Database D}.
Variable atof : string -> double.
Variable strtod : string -> option double.
Variable fixed4 : double -> string.
Variable enum : gmap string CrashRound -> list CrashRound.
Variable http : TelegramClient.HttpRequest -> W -> Result TelegramClient.HttpResponse * W.
(** [LiveSupervisor::acquire] and [release], and [NativeBcGameSocket::start]. *)
Variable acquire : W -> Result unit * W.
Variable release : W -> W.
Variable socket_start : W -> Result unit * W.
(** Starting and stopping the other services. *)
Variable launch halt : Service -> W -> W.
(** One pass of the notification worker, and [RetentionManager::pruneDatabase]. *)
Variable tickOnce prune : W -> W.
(** Whether the thread of the statistics server comes out of its [accept] once the server is to
    stop: a client connects then, or the thread has ended before.  [StatisticsServer::stop] waits
    for the thread, and stopping the context does not interrupt a synchronous [accept]. *)
Variable accept_returns : W -> bool.

Notation Rest := (Application.Rest (QI := QI) (W := W)).
Notation Validator := (LiveValidator.t QO Rest).
Notation Client := (InProcessPredictionClient.t E).

(** [on]: which services run; [has_db]: the database and what is made with it (batch writer,
    retention, outbox repository, durable transactions).  The coordinator [n1] is there from [init]
    on; the cycle is not run before. *)
(* @src include/application/application.hpp:625-676 Application *)
Record t := {
  cfg : ApplicationConfig; secure : option SecureConfig; log_level : Logger.LogLevel; components : ComponentRegistry.t;
  router : EventRouter.t QE; n1 : Application.N1; client : Client; validator : Validator; rest : Rest;
  recent : RecentRoundCache.t; has_socket : bool; has_poll : bool; has_db : bool; has_supervisor : bool; has_boot : bool; has_telegram : bool;
  has_notification : bool; on : Service -> bool; running : bool }.
#[export] Instance eta_t : Eta t := fun r =>
  {| cfg := cfg r; secure := secure r; log_level := log_level r; components := components r; router := router r; n1 := n1 r;
     client := client r; validator := validator r; rest := rest r; recent := recent r; has_socket := has_socket r; has_poll := has_poll r;
     has_db := has_db r; has_supervisor := has_supervisor r; has_boot := has_boot r; has_telegram := has_telegram r;
     has_notification := has_notification r; on := on r; running := running r |}.

Definition with_world (f : W -> W) (s : t) : t := s <| rest ::= fun r => r <| Application.world ::= f |> |>.
Definition history (s : t) : RollingHistoryBuffer.t := Application.history (rest s).

Definition set_on (x : Service) (b : bool) (s : t) : t := s <| on ::= fun o y => if decide (y = x) then b else o y |>.
(** A service is started or stopped: the running flag of each guards against a second time.
    Stopping the statistics server can block, see [stop_services]. *)
Definition turn_on (x : Service) (s : t) : t := if on s x then s else set_on x true (with_world (launch x) s).
Definition turn_off (x : Service) (s : t) : t := if on s x then set_on x false (with_world (halt x) s) else s.

(** ** [init] *)

(* @src include/application/application.hpp | static void applyLogLevel( *)
Definition applyLogLevel (level : string) (l : Logger.LogLevel) : Logger.LogLevel :=
  if bool_decide (level = "debug") then Logger.Debug
  else if bool_decide (level = "trace") then Logger.Trace
  else if bool_decide (level = "warn") then Logger.Warn
  else if bool_decide (level = "error") then Logger.Error
  else l.

(** The adaptive edge keeps the value it was constructed with. *)
(* @src include/application/application.hpp:139-139 Application::init *)
Definition configured_edge (c : ApplicationConfig) : acie.AdaptiveEdge :=
  let d := acie.default_edge_config in
  (acie.make_edge d) <| acie.cfg := {|
    acie.initialEdge := qualityEdge c; acie.minEdge := acie.minEdge d; acie.maxEdge := acie.maxEdge d;
    acie.winDelta := acie.winDelta d; acie.lossDelta := acie.lossDelta d;
    acie.decayTowardInitial := acie.decayTowardInitial d; acie.minOutcomesBeforeAdapt := acie.minOutcomesBeforeAdapt d |} |>.

(* @src include/application/application.hpp:129-140 Application::init *)
Definition apply_config (s : t) : t :=
  let o := InProcessPredictionClient.opt (client s) in
  let o := {| InProcessPredictionClient.minConfidence := minConfidence (cfg s); InProcessPredictionClient.defaultTarget := flit 130 100;
              InProcessPredictionClient.qualityEdge := qualityEdge (cfg s); InProcessPredictionClient.reducedEdge := reducedEdge (cfg s);
              InProcessPredictionClient.warmMinSamples := InProcessPredictionClient.warmMinSamples o;
              InProcessPredictionClient.autoObserveOnSubmit := InProcessPredictionClient.autoObserveOnSubmit o;
              InProcessPredictionClient.strategyMode := InProcessPredictionClient.strategyMode o |} in
  s <| log_level ::= applyLogLevel (logLevel (cfg s)) |>
    <| client ::= fun c => c <| InProcessPredictionClient.opt := o |> |>
    <| rest ::= fun r => r <| Application.temporal ::= fun g => g <| TemporalGuard.deliveryDeadlineMs := deliveryDeadlineMs (cfg s) |> |> |>.

Definition register (id : ComponentId) (name : string) (order now : Z) (s : t) : t :=
  s <| components ::= fun r => ComponentRegistry.registerComponent r id name order now |>.
Definition set_state (id : ComponentId) (x : ComponentState) (now : Z) (s : t) : t :=
  s <| components ::= fun r => snd (ComponentRegistry.setState r id x "" now) |>.

(* @src include/application/application.hpp:142-146 Application::init *)
Definition register_all (now : Z) (s : t) : t :=
  register COutbox "outbox" 4 now (register CValidation "validation" 3 now (register CPredictionInterface "prediction" 2 now
    (register CIngestion "ingestion" 1 now (register CApplication "application" 0 now s)))).

(** The synthetic end event of a seeded crash point. *)
(* @src include/prediction_interface/n1_coordinator.hpp:87-92 N1Coordinator::seedHistory *)
Definition seed_event (cp : double) : CrashEvent :=
  default_event <| kind := KEnd |> <| valid := true |> <| crashPoint := cp |> <| gameId := "seed" |> <| roundId := "seed" |>.

(* @src include/prediction_interface/n1_coordinator.hpp | void seedHistory( *)
Definition seedHistory (now : Z) (cps : list double) (c : Client) : Client :=
  fold_left (fun c cp => if fgt cp f0 && is_finite cp then InProcessPredictionClient.observeEnd observe c (seed_event cp) now else c) cps c.

(* @src include/application/application.hpp:192-195 Application::init *)
Definition recent_points (n : nat) (b : RollingHistoryBuffer.t) : list double :=
  List.filter (fun m => fgt m f0) (RollingHistoryBuffer.hr_multiplier <$> RollingHistoryBuffer.last_n b n).

Definition seed_n1 (now : Z) (s : t) : t := s <| client ::= seedHistory now (recent_points 256 (history s)) |>.

(** Persistence: nothing, or everything that needs the database. *)
(* @src include/application/application.hpp:217-244 Application::init *)
Definition init_persistence (sc : SecureConfig) (now : Z) (s : t) : Result unit * t :=
  if negb (enablePersistence (cfg s)) then (Ok tt, s)
  else if negb (db_valid (sc_database sc)) then (Err (err ConfigError "enablePersistence requires valid database config"), s)
  else
    let '(cr, w) := connect (Application.world (rest s)) in
    let s := with_world (fun _ => w) s in
    match cr with
    | Err e => (Err (err (code e) ("persistence connect failed: " +:+ message e)), s)
    | Ok _ =>
        let '(mr, w) := migrate (Application.world (rest s)) in
        let s := with_world (fun _ => w) s in
        match mr with
        | Err e => (Err (err (code e) ("migration failed: " +:+ message e)), s)
        | Ok _ =>
            (Ok tt,
             register CPersistence "persistence" 6 now s <| has_db := true |>
               <| rest ::= fun r => r <| Application.durable := Some {| DurablePredictionTx.db := DurablePredictionTx.Pg;
                                                                         DurablePredictionTx.durable_ok := 0 |} |>
                    <| Application.feedback ::= fun f => f <| ExactlyOnceFeedback.has_db := true |>
                                                           <| ExactlyOnceFeedback.edge := Some (configured_edge (cfg s)) |> |> |>)
        end
    end.

(** ** The boot sequence *)

Definition acquire_lease (s : t) : Result unit * t :=
  let '(r, w) := acquire (Application.world (rest s)) in (r, with_world (fun _ => w) s).

(** The seeder is made with neither the round repository nor the history client. *)
(* @src include/application/application.hpp | cold_seeder_ = std::make_unique *)
Definition seeder (s : t) : ColdStartSeeder.env (D := D) (W := W) := {|
  ColdStartSeeder.rounds := None; ColdStartSeeder.history := None; ColdStartSeeder.rolling := Some (history s);
  ColdStartSeeder.recent := recent s; ColdStartSeeder.world := Application.world (rest s) |}.

Definition reseed (now : Z) (s : t) : t :=
  match ColdStartSeeder.seed atof strtod fixed4 enum http ColdStartSeeder.default_config now (seeder s) with
  | Some (_, e) =>
      s <| rest ::= fun r => (match ColdStartSeeder.rolling e with Some h => r <| Application.history := h |> | None => r end)
             <| Application.world := ColdStartSeeder.world e |> |>
        <| recent := ColdStartSeeder.recent e |>
  | None => s
  end.

(* @src include/application/application.hpp:270-275 Application::init *)
Definition prewarm (s : t) : t :=
  s <| client ::= fun c => c <| InProcessPredictionClient.engine ::= fun g =>
         fold_left (fun g m => observe g m None) (recent_points 64 (history s)) g |> |>.

(* @src include/application/application.hpp:266-275 Application::init *)
Definition boot_deps (now : Z) (s : t) : LiveBoot.Deps (C := t) := {|
  LiveBoot.d_validateSchema := None;
  LiveBoot.d_supervisor := Some (acquire_lease, turn_on Renewal, fun s => with_world release (turn_off Renewal s));
  LiveBoot.d_seeder := Some (fun s => (Ok tt, reseed now s));
  LiveBoot.d_prewarmPrediction := Some (fun s => (None, prewarm s));
  LiveBoot.d_pollWorker := if has_poll s then Some (turn_on Poll, turn_off Poll) else None |}.

(** A boot that fails is logged and nothing else.  The barrier is the boot's own, to which nothing
    in the application admits events. *)
(* @src include/application/application.hpp:265-283 Application::init *)
Definition boot (clk : nat -> Z) (s : t) : t :=
  let '(_, _, s, _) := LiveBoot.run (boot_deps (clk 0%nat) s) clk (fun _ => []) (clk 0%nat) (clk 1%nat) (ReadinessBarrier.make (Z.to_nat 4096)) (s <| has_boot := true |>) in s.

(* @src include/application/application.hpp:387-435 Application::init *)
Definition init_telegram (sc : SecureConfig) (now : Z) (s : t) : t :=
  if enableTelegram (cfg s) && TelegramClient.creds_valid (sc_telegram sc) then
    register CTelegram "telegram" 5 now s <| has_telegram := true |> <| has_notification := has_db s |>
  else s.

(* @src include/application/application.hpp:127-214 Application::init *)
Definition prepare (sc : SecureConfig) (now : Z) (s : t) : t :=
  let s := register_all now (apply_config (s <| secure := Some sc |>)) in
  let s := s <| rest ::= fun r => r <| Application.pipeline_attempts := Some (PredictionAttemptCoordinator.make 50) |> |> in
  let s := seed_n1 now (s <| has_socket := true |> <| n1 := Application.n1_make |>) in
  s <| has_poll := enablePollWorker (cfg s) |>.

(* @src include/application/application.hpp:247-262 Application::init *)
Definition cold_start (now : Z) (s : t) : t := seed_n1 now (reseed now (s <| has_supervisor := true |>)).

(** [sc] is what [loadSecureConfig] gives. *)
(* @src include/application/application.hpp | Result<void> init() { *)
Definition init (sc : Result SecureConfig) (clk : nat -> Z) (s : t) : Result unit * t :=
  match sc with
  | Err e => (Err e, s)
  | Ok sc =>
      let now := clk 0%nat in
      match init_persistence sc now (prepare sc now s) with
      | (Err e, s) => (Err e, s)
      | (Ok _, s) => (Ok tt, set_state CApplication Running now (init_telegram sc now (boot clk (cold_start now s))))
      end
  end.

(** ** [start], the loop, [stop] and [run] *)

Definition when (b : bool) (f : t -> t) (s : t) : t := if b then f s else s.

(* @src include/application/application.hpp:463-467 Application::start *)
Definition start_socket (now : Z) (s : t) : t :=
  let '(r, w) := socket_start (Application.world (rest s)) in
  let s := with_world (fun _ => w) s in
  match r with
  | Err _ => s
  | Ok _ => set_state CIngestion Running now (set_on Socket true s)
  end.

(* @src include/application/application.hpp:447-451 Application::start *)
Definition start_supervisor (s : t) : t :=
  match acquire_lease s with (Err _, s) => s | (Ok _, s) => turn_on Renewal s end.

(** The objects [h] that exist do not change here. *)
(* @src include/application/application.hpp | void start() { *)
Definition start (now : Z) (h : t) : t :=
  let s := turn_on Stats (turn_on Workers h) in
  let s := when (has_supervisor h) start_supervisor s in
  let s := when (has_poll h && enablePollWorker (cfg h)) (turn_on Poll) s in
  let s := when (has_telegram h) (turn_on OutboxSender) s in
  let s := when (has_notification h) (turn_on Notification) s in
  let s := when (has_db h) (turn_on Batch) s in
  let s := when (has_socket h && enableNativeSocket (cfg h)) (start_socket now) s in
  s <| running := true |>.

(** One pass over the queues. *)
(* @src include/application/application.hpp | void drainQueues() *)
Definition drain (clk : nat -> Z) (s : t) : t :=
  let '(q, n, (c, (v, r))) := Application.drainQueues observe is_cold predict executeParams execute fixed2 double_to_string
                                insert_feedback clk (router s) (n1 s) (client s, (validator s, rest s)) in
  s <| router := q |> <| n1 := n |> <| client := c |> <| validator := v |> <| rest := r |>.

(** [n] passes of the drain; [arrive] is what the sources, which still run, route before each. *)
(* @src include/application/application.hpp:475-478 Application::stop *)
Fixpoint drain_passes (n : nat) (arrive : nat -> EventRouter.t QE -> EventRouter.t QE) (clk : nat -> Z) (s : t) : t :=
  match n with
  | O => s
  | S n =>
      let s := drain clk (s <| router ::= arrive 0%nat |>) in
      let s := when (has_notification s) (with_world tickOnce) s in
      drain_passes n (fun i => arrive (S i)) (fun i => clk (1000 + i)%nat) s
  end.

(** What is stopped before the statistics server. *)
(* @src include/application/application.hpp:479-480 Application::stop *)
Definition stop_first (now : Z) (h : t) : t :=
  when (has_notification h) (turn_off Notification) (when (has_boot h) (LiveBoot.shutdown (boot_deps now h)) h).

(** The services in the order in which they are stopped; false when the stop of the statistics
    server never returns. *)
(* @src include/application/application.hpp:479-490 Application::stop *)
Definition stop_services (now : Z) (h : t) : bool * t :=
  let s := stop_first now h in
  if on s Stats && negb (accept_returns (Application.world (rest s))) then (false, s)
  else
    let s := turn_off Stats s in
    let s := when (has_poll h) (turn_off Poll) s in
    let s := when (has_socket h) (turn_off Socket) s in
    let s := when (has_telegram h) (turn_off OutboxSender) s in
    let s := when (has_db h) (turn_off Batch) s in
    let s := when (has_supervisor h) (fun s => with_world release (turn_off Renewal s)) s in
    (true, turn_off Workers s).

(** What arrives after the last pass stays in the queues. *)
(* @src include/application/application.hpp | void stop() { *)
Definition stop (arrive : nat -> EventRouter.t QE -> EventRouter.t QE) (clk : nat -> Z) (s : t) : bool * t :=
  let '(returned, s) := stop_services (clk 0%nat) (drain_passes 20 arrive clk (s <| running := false |>)) in
  let s := s <| router ::= arrive 20%nat |> in
  (returned, if returned then set_state CApplication Stopped (clk 1%nat) s else s).

(** One turn of the main loop. *)
(* @src include/application/application.hpp:599-604 Application::run *)
Definition turn (clk : nat -> Z) (s : t) : t :=
  let s := drain clk s in
  let s := s <| validator ::= fun v => snd (LiveValidator.expireStale v 300000 (clk 900%nat)) |> in
  let s := s <| rest ::= fun r =>
    let r := r <| Application.targets ::= fun g => snd (TargetCoordinator.expireOlderThan g (stuckMaxAgeMs (cfg s)) (clk 901%nat)) |> in
    let '(_, l) := OutboxLifecycle.recoverExpiredLeases
      ((Application.life r) <| OutboxLifecycle.outbox := DurableHandoff.outbox (Application.handoff r) |>) (clk 902%nat) in
    r <| Application.life := l |> <| Application.handoff ::= fun h => h <| DurableHandoff.outbox := OutboxLifecycle.outbox l |> |> |> in
  when (has_db s) (with_world prune) s.

(** How a run ends: with an exit code, or never. *)
Inductive ending := Exit (code : Z) | Hangs.

(** The turns of the loop until a shutdown is requested, each with what is routed before it. *)
(* @src include/application/application.hpp:597-616 Application::run *)
Definition serve (clk : nat -> Z) (turns : list ((EventRouter.t QE -> EventRouter.t QE) * (nat -> Z))) (s : t) : t :=
  fold_left (fun s x => turn (snd x) (s <| router ::= fst x |>)) turns (start (clk 2%nat) s).

(* @src include/application/application.hpp | int run() { *)
Definition run (sc : Result SecureConfig) (clk : nat -> Z) (turns : list ((EventRouter.t QE -> EventRouter.t QE) * (nat -> Z)))
    (arrive : nat -> EventRouter.t QE -> EventRouter.t QE) (s : t) : ending * t :=
  match init sc clk s with
  | (Err _, s) => (Exit 1, s)
  | (Ok _, s) =>
      let '(returned, s) := stop arrive clk (serve clk turns s) in
      (if returned then Exit 0 else Hangs, s)
  end.

(** ** What is present and what runs *)

(** Everything but the services and the data of the cycle. *)
Definition shape (s : t) : ApplicationConfig * option SecureConfig * list bool :=
  (cfg s, secure s, [has_socket s; has_poll s; has_db s; has_supervisor s; has_boot s; has_telegram s; has_notification s]).

(** A service that runs was made. *)
Definition owned (s : t) : Prop := forall x, on s x = true ->
  match x with
  | Poll => has_poll s | OutboxSender => has_telegram s | Notification => has_notification s | Batch => has_db s
  | Socket => has_socket s | Renewal => has_supervisor s | Workers | Stats => true
  end = true.

Lemma on_set_on x b s y : on (set_on x b s) y = if decide (y = x) then b else on s y.
Proof. done. Qed.

Lemma on_turn_on x s y : on (turn_on x s) y = if decide (y = x) then true else on s y.
Proof.
  unfold turn_on. destruct (on s x) eqn:Eo; [|done]. case_decide; [by subst|done].
Qed.

Lemma on_turn_off x s y : on (turn_off x s) y = if decide (y = x) then false else on s y.
Proof.
  unfold turn_off. destruct (on s x) eqn:Eo; [done|]. case_decide; [by subst|done].
Qed.

Lemma on_with_world f s : on (with_world f s) = on s.
Proof. done. Qed.

Lemma on_when b f s y : on (when b f s) y = if b then on (f s) y else on s y.
Proof. by destruct b. Qed.

Lemma drain_flags clk s : shape (drain clk s) = shape s /\ on (drain clk s) = on s /\ components (drain clk s) = components s.
Proof. unfold drain. by destruct (Application.drainQueues _ _ _ _ _ _ _ _ _ _ _ _) as [[q n] [c [v r]]]. Qed.

Lemma drain_passes_flags n : forall arrive clk s,
  shape (drain_passes n arrive clk s) = shape s /\ on (drain_passes n arrive clk s) = on s /\
  components (drain_passes n arrive clk s) = components s.
Proof.
  induction n as [|n IH]; intros arrive clk s; [done|]. cbn [drain_passes].
  destruct (IH (fun i => arrive (S i)) (fun i => clk (1000 + i)%nat)
    (when (has_notification (drain clk (s <| router ::= arrive 0%nat |>))) (with_world tickOnce) (drain clk (s <| router ::= arrive 0%nat |>))))
    as (-> & -> & ->).
  destruct (drain_flags clk (s <| router ::= arrive 0%nat |>)) as (Hs & Ho & Hc).
  unfold when. by destruct (has_notification _).
Qed.

Lemma start_supervisor_on s y : on (start_supervisor s) y = true -> y = Renewal \/ on s y = true.
Proof.
  unfold start_supervisor, acquire_lease. destruct (acquire _) as [[u|e] w]; [|by right].
  rewrite on_turn_on. case_decide; [by left|by right].
Qed.

Lemma start_on now h x : on (start now h) x = true ->
  on h x = true \/ match x with
  | Workers | Stats => True | Renewal => has_supervisor h = true | Poll => has_poll h = true
  | OutboxSender => has_telegram h = true | Notification => has_notification h = true | Batch => has_db h = true
  | Socket => has_socket h = true
  end.
Proof.
  unfold start. set (s := turn_on Stats (turn_on Workers h)).
  assert (on s x = true -> on h x = true \/ x = Workers \/ x = Stats) as H0.
  { unfold s. rewrite !on_turn_on. repeat case_decide; auto. }
  set (s1 := when (has_supervisor h) start_supervisor s).
  assert (on s1 x = true -> on s x = true \/ (x = Renewal /\ has_supervisor h = true)) as H1.
  { unfold s1. rewrite on_when. destruct (has_supervisor h); [|by left]. intros [->|?]%start_supervisor_on; auto. }
  set (s2 := when (has_poll h && _) _ s1). set (s3 := when (has_telegram h) _ s2). set (s4 := when (has_notification h) _ s3).
  set (s5 := when (has_db h) _ s4).
  assert (on s5 x = true -> on s1 x = true \/ (x = Poll /\ has_poll h = true) \/ (x = OutboxSender /\ has_telegram h = true) \/
    (x = Notification /\ has_notification h = true) \/ (x = Batch /\ has_db h = true)) as H5.
  { unfold s5, s4, s3, s2. repeat first [rewrite on_when|rewrite on_turn_on].
    destruct (has_poll h), (enablePollWorker (cfg h)), (has_telegram h), (has_notification h), (has_db h); cbn; repeat case_decide; auto 8. }
  assert (on (when (has_socket h && enableNativeSocket (cfg h)) (start_socket now) s5) x = true ->
    on s5 x = true \/ (x = Socket /\ has_socket h = true)) as H6.
  { rewrite on_when. destruct (has_socket h); [|by left]. destruct (enableNativeSocket (cfg h)); [|by left]. cbn.
    unfold start_socket. destruct (socket_start _) as [[u|e] w]; cbn; [|by left]. case_decide; [by right|by left]. }
  intros [H%H5|[-> ?]]%H6; [|by right].
  destruct H as [[H%H0|[-> ?]]%H1|[[-> ?]|[[-> ?]|[[-> ?]|[-> ?]]]]]; auto. destruct H as [?|[->| ->]]; auto.
Qed.

Lemma shutdown_on now h s y : on (LiveBoot.shutdown (boot_deps now h) s) y =
  if decide (y = Renewal) then false else if has_poll h then if decide (y = Poll) then false else on s y else on s y.
Proof.
  unfold LiveBoot.shutdown, boot_deps. cbn. destruct (has_poll h); cbn;
    change (on (with_world release ?s)) with (on s); rewrite !on_turn_off; done.
Qed.

Lemma stop_first_on now h x : on (stop_first now h) x =
  if decide (x = Notification) then if has_notification h then false else on h x
  else if has_boot h then if decide (x = Renewal) then false else if decide (x = Poll) then if has_poll h then false else on h x else on h x
  else on h x.
Proof.
  unfold stop_first. rewrite on_when, on_turn_off, on_when, shutdown_on.
  destruct x, (has_notification h), (has_boot h), (has_poll h); repeat case_decide; done.
Qed.

Lemma stop_services_on now h x : owned h -> fst (stop_services now h) = true -> on (snd (stop_services now h)) x = false.
Proof.
  intros Ho. unfold stop_services. specialize (Ho x). destruct (_ && _); [done|]. intros _. cbn [snd].
  repeat first [rewrite on_when|rewrite on_turn_off|rewrite stop_first_on|progress (change (on (with_world ?f ?s)) with (on s))].
  destruct (on h x); [specialize (Ho eq_refl)|clear Ho]; destruct x; try rewrite Ho; repeat case_decide; try done;
    by destruct (has_supervisor h), (has_db h), (has_telegram h), (has_socket h), (has_poll h), (has_notification h), (has_boot h).
Qed.

(** ** What [init] makes *)

(** The seeder loads nothing. *)
Lemma reseed_id now s : reseed now s = s.
Proof. unfold reseed. by destruct s as [? ? ? ? ? ? ? ? []]. Qed.

(** The stages of the boot in a row: the lease is the only one that can fail. *)
Lemma boot_effect clk s :
  boot clk s =
    match acquire_lease (s <| has_boot := true |>) with
    | (Err _, s1) => s1
    | (Ok _, s1) => when (has_poll s) (turn_on Poll) (prewarm (reseed (clk 0%nat) (turn_on Renewal s1)))
    end.
Proof.
  unfold boot, LiveBoot.run. set (s1 := s <| has_boot := true |>). set (d := boot_deps (clk 0%nat) s).
  assert (Forall LiveBoot.is_early (LiveBoot.early_plan d)) as He.
  { unfold LiveBoot.early_plan. repeat first [apply Forall_cons; split; [done|] | apply Forall_app; split | by apply LiveBoot.Forall_optional]. }
  pose proof (LiveBoot.execute_early (LiveBoot.early_plan d) clk (fun _ => []) (ReadinessBarrier.make (Z.to_nat 4096)) s1 [] He eq_refl) as H.
  unfold LiveBoot.plan. destruct (LiveBoot.execute _ clk _ _ s1 []) as [[[e b'] c'] ds].
  assert (fst (LiveBoot.stages (LiveBoot.early_plan d) s1) =
    match acquire_lease s1 with
    | (Err e, s1) => (Some (message e), s1)
    | (Ok _, s1) => (None, when (has_poll s) (turn_on Poll) (prewarm (reseed (clk 0%nat) (turn_on Renewal s1))))
    end) as Hs.
  { unfold LiveBoot.early_plan, d, boot_deps. cbn. unfold LiveBoot.throws. destruct (acquire_lease s1) as [[u|er] s2]; [|done].
    cbn. by destruct (has_poll s). }
  destruct (LiveBoot.stages _ s1) as [[o c1] n]. cbn [fst] in Hs. destruct (acquire_lease s1) as [[u|er] s2]; simplify_eq.
  - by destruct H as (_ & [= _ ->] & _).
  - by destruct H as (_ & -> & _).
Qed.

(** What a state knows about its services and the objects made. *)
Definition made (s : t) : (Service -> bool) * list bool := (on s, [has_socket s; has_poll s; has_db s; has_supervisor s; has_telegram s; has_notification s]).

Lemma register_all_application now s : is_Some (components (register_all now s) !! CApplication).
Proof.
  unfold register_all, register, ComponentRegistry.registerComponent. cbn.
  rewrite !lookup_insert_ne by done. rewrite lookup_insert_eq. eauto.
Qed.

Lemma prepare_spec sc now s :
  on (prepare sc now s) = on s /\ cfg (prepare sc now s) = cfg s /\ secure (prepare sc now s) = Some sc /\
  has_socket (prepare sc now s) = true /\ has_poll (prepare sc now s) = enablePollWorker (cfg s) /\
  has_db (prepare sc now s) = has_db s /\ has_boot (prepare sc now s) = has_boot s /\
  has_supervisor (prepare sc now s) = has_supervisor s /\ has_telegram (prepare sc now s) = has_telegram s /\
  has_notification (prepare sc now s) = has_notification s /\ is_Some (components (prepare sc now s) !! CApplication).
Proof.
  split_and!; [reflexivity..|]. unfold prepare.
  pose proof (register_all_application now (apply_config (s <| secure := Some sc |>))) as H.
  generalize dependent (register_all now (apply_config (s <| secure := Some sc |>))). intros s0 H. exact H.
Qed.

Lemma init_persistence_spec sc now s :
  let '(r, s') := init_persistence sc now s in
  made s' = (on s, [has_socket s; has_poll s; is_ok r && enablePersistence (cfg s) || has_db s; has_supervisor s;
                    has_telegram s; has_notification s]) /\
  cfg s' = cfg s /\ secure s' = secure s /\ has_boot s' = has_boot s /\
  (is_Some (components s !! CApplication) -> is_Some (components s' !! CApplication)) /\
  (r = Ok tt -> enablePersistence (cfg s) = true -> db_valid (sc_database sc) = true /\
     ExactlyOnceFeedback.edge (Application.feedback (rest s')) = Some (configured_edge (cfg s))).
Proof.
  unfold init_persistence. destruct (enablePersistence (cfg s)) eqn:Ep; cbn [negb]; cycle 1.
  { by split_and!. }
  destruct (db_valid (sc_database sc)) eqn:Hd; cbn [negb]; cycle 1.
  { by split_and!. }
  destruct (connect _) as [[u|e] w]; cycle 1.
  { by split_and!. }
  destruct (migrate _) as [[u'|e] w']; cycle 1.
  { by split_and!. }
  split_and!; try done. intros [i Hi].
  unfold register, ComponentRegistry.registerComponent. cbn. rewrite lookup_insert_ne by done. rewrite Hi. eauto.
Qed.

(** The services a boot may start. *)
Lemma boot_made clk s :
  made (boot clk s) = (on (boot clk s), snd (made s)) /\ cfg (boot clk s) = cfg s /\ secure (boot clk s) = secure s /\
  components (boot clk s) = components s /\ has_boot (boot clk s) = true /\
  Application.feedback (rest (boot clk s)) = Application.feedback (rest s) /\
  forall x, on (boot clk s) x = true -> on s x = true \/ x = Renewal \/ (x = Poll /\ has_poll s = true).
Proof.
  rewrite boot_effect. unfold acquire_lease. destruct (acquire _) as [[u|e] w]; [|by split_and!; try done; auto].
  set (s1 := with_world (fun _ => w) (s <| has_boot := true |>)).
  set (s2 := prewarm (reseed (clk 0%nat) (turn_on Renewal s1))).
  assert (made s2 = (on s2, snd (made s)) /\ cfg s2 = cfg s /\ secure s2 = secure s /\ components s2 = components s /\
    has_boot s2 = true /\ Application.feedback (rest s2) = Application.feedback (rest s) /\
    (forall x, on s2 x = true -> on s x = true \/ x = Renewal) /\ has_poll s2 = has_poll s) as (H1 & H2 & H3 & H4 & H5 & H6 & H7 & H8).
  { unfold s2, prewarm, turn_on. rewrite reseed_id; destruct (on s1 Renewal); split_and!; try done; auto;
      intros x; cbn; case_decide; auto. }
  unfold when. destruct (has_poll s) eqn:Hp; [|split_and!; try done; intros x Hx%H7; naive_solver].
  unfold turn_on. destruct (on s2 Poll) eqn:Ho; [split_and!; try done; intros x Hx%H7; naive_solver|].
  split_and!; try done; [exact (f_equal (pair _) (f_equal snd H1))|]. intros x. cbn. case_decide; [naive_solver|]. intros Hx%H7. naive_solver.
Qed.

Lemma cold_start_made now s :
  made (cold_start now s) = (on s, [has_socket s; has_poll s; has_db s; true; has_telegram s; has_notification s]) /\
  cfg (cold_start now s) = cfg s /\ secure (cold_start now s) = secure s /\ components (cold_start now s) = components s /\
  Application.feedback (rest (cold_start now s)) = Application.feedback (rest s).
Proof. unfold cold_start. rewrite reseed_id. unfold seed_n1. by split_and!. Qed.

Lemma init_telegram_made c now s :
  let ok := enableTelegram (cfg s) && TelegramClient.creds_valid (sc_telegram c) in
  made (init_telegram c now s) = (on s, [has_socket s; has_poll s; has_db s; has_supervisor s; ok || has_telegram s;
                                         if ok then has_db s else has_notification s]) /\
  cfg (init_telegram c now s) = cfg s /\ secure (init_telegram c now s) = secure s /\
  Application.feedback (rest (init_telegram c now s)) = Application.feedback (rest s) /\
  (is_Some (components s !! CApplication) -> is_Some (components (init_telegram c now s) !! CApplication)).
Proof.
  cbv zeta. unfold init_telegram. destruct (_ && _); [|by split_and!]. split_and!; try done.
  intros [i Hi]. unfold register, ComponentRegistry.registerComponent. cbn. rewrite lookup_insert_ne by done. rewrite Hi. eauto.
Qed.

(** Nothing was made before [init]. *)
Definition blank (s : t) : Prop :=
  (forall x, on s x = false) /\ has_db s = false /\ has_boot s = false /\ has_supervisor s = false /\ has_telegram s = false /\
  has_notification s = false.

(** The facts of [init_spec] below. *)
Lemma init_facts (sc : Result SecureConfig) (clk : nat -> Z) (s : t) :
  blank s ->
  let '(r, s') := init sc clk s in
  match r with
  | Err e =>
      (forall x, on s' x = false) /\ has_boot s' = false /\
      (sc = Err e \/ enablePersistence (cfg s) = true)
  | Ok _ => exists c, sc = Ok c /\ cfg s' = cfg s /\ secure s' = Some c /\ owned s' /\
      (forall x, on s' x = true -> x = Renewal \/ (x = Poll /\ enablePollWorker (cfg s) = true)) /\
      has_poll s' = enablePollWorker (cfg s) /\ has_db s' = enablePersistence (cfg s) /\
      (enablePersistence (cfg s) = true -> db_valid (sc_database c) = true) /\
      has_telegram s' = enableTelegram (cfg s) && TelegramClient.creds_valid (sc_telegram c) /\
      has_notification s' = has_telegram s' && has_db s' /\
      ci_state <$> components s' !! CApplication = Some Running
  end.
Proof.
  intros (Hon & Hdb & Hb & Hsup & Htg & Hnt). unfold init. destruct sc as [c|e]; [|by split_and!; auto].
  destruct (prepare_spec c (clk 0%nat) s) as (P1 & P2 & P3 & P4 & P5 & P6 & P7 & P8 & P9 & P10 & P11).
  generalize dependent (prepare c (clk 0%nat) s). intros s0 P1 P2 P3 P4 P5 P6 P7 P8 P9 P10 P11.
  pose proof (init_persistence_spec c (clk 0%nat) s0) as H.
  destruct (init_persistence c (clk 0%nat) s0) as [[u|e] s1] eqn:Ei.
  - destruct H as (Hm & Hc & Hs & Hbt & Hcomp & Hok). rewrite P1, P2, P3, P4, P5, P6, P7, P8, P9, P10, Hdb, Hsup, Htg, Hnt, orb_false_r in *.
    cbn [is_ok andb] in Hm.
    destruct (cold_start_made (clk 0%nat) s1) as (C1 & C2 & C3 & C4 & C5). set (s2 := cold_start (clk 0%nat) s1) in *. clearbody s2.
    destruct (boot_made clk s2) as (B1 & B2 & B3 & B4 & B5 & B6 & B7). set (s3 := boot clk s2) in *. clearbody s3.
    destruct (init_telegram_made c (clk 0%nat) s3) as (T1 & T2 & T3 & T4 & T5). set (s4 := init_telegram c (clk 0%nat) s3) in *. clearbody s4.
    unfold made in *. cbn [snd] in *. injection Hm as Ho1 M1 M2 M3 M4 M5 M6. injection C1 as Ho2 C11 C12 C13 C14 C15 C16.
    injection B1 as B11 B12 B13 B14 B15 B16. injection T1 as Ho4 T11 T12 T13 T14 T15 T16.
    assert (cfg s3 = cfg s) as Hcfg by congruence.
    assert (has_poll s4 = enablePollWorker (cfg s)) as Fp by congruence.
    assert (has_db s4 = enablePersistence (cfg s)) as Fd by congruence.
    assert (has_telegram s4 = enableTelegram (cfg s) && TelegramClient.creds_valid (sc_telegram c)) as Ft.
    { rewrite T15, Hcfg. replace (has_telegram s3) with false by congruence. by rewrite orb_false_r. }
    assert (has_notification s4 = has_telegram s4 && has_db s4) as Fn.
    { rewrite Ft, T16, Hcfg, T13. replace (has_notification s3) with false by congruence. by destruct (_ && _). }
    assert (forall x, on s4 x = true -> x = Renewal \/ (x = Poll /\ enablePollWorker (cfg s) = true)) as Fo.
    { intros x. rewrite Ho4. intros [H|[->|[-> H]]]%B7; [|by left|].
      - rewrite Ho2, Ho1, Hon in H. done.
      - right. split; [done|congruence]. }
    destruct (T5 ltac:(rewrite B4, C4; by apply Hcomp)) as [i Hi].
    exists c. unfold set_state, ComponentRegistry.setState. cbn. rewrite Hi. cbn.
    split_and!; try done; try congruence.
    + intros x Hx. destruct (Fo x Hx) as [->|[-> Hp]]; [change (has_supervisor s4 = true); congruence|change (has_poll s4 = true); by rewrite Fp].
    + intros Hp. by destruct (Hok ltac:(by destruct u) Hp).
    + by rewrite lookup_insert_eq.
  - destruct H as (Hm & Hc & Hs & Hbt & _). pose proof (eq_trans (f_equal fst Hm) P1) as Ho1. cbn in Ho1. rewrite P7 in Hbt.
    split_and!; [intros x; by rewrite Ho1|congruence|]. right. unfold init_persistence in Ei. rewrite P2 in Ei.
    by destruct (enablePersistence (cfg s)).
Qed.

(** Remark: [init] fails only when the secrets cannot be loaded or when persistence is enabled (and
    the database is not configured, does not connect or does not migrate); then no service runs
    and no boot was tried.  When it succeeds the application component is running, the poll
    worker, the database, Telegram and the notification worker exist exactly as the configuration
    and the credentials say, and of the services only those that the boot starts are running. *)
Theorem init_spec (sc : Result SecureConfig) (clk : nat -> Z) (s : t) :
  blank s ->
  let '(r, s') := init sc clk s in
  match r with
  | Err e =>
      (forall x, on s' x = false) /\ has_boot s' = false /\
      (sc = Err e \/ enablePersistence (cfg s) = true)
  | Ok _ => exists c, sc = Ok c /\ cfg s' = cfg s /\ secure s' = Some c /\ owned s' /\
      (forall x, on s' x = true -> x = Renewal \/ (x = Poll /\ enablePollWorker (cfg s) = true)) /\
      has_poll s' = enablePollWorker (cfg s) /\ has_db s' = enablePersistence (cfg s) /\
      (enablePersistence (cfg s) = true -> db_valid (sc_database c) = true) /\
      has_telegram s' = enableTelegram (cfg s) && TelegramClient.creds_valid (sc_telegram c) /\
      has_notification s' = has_telegram s' && has_db s' /\
      ci_state <$> components s' !! CApplication = Some Running
  end.
Proof. apply init_facts. Qed.

Lemma init_owned sc clk s : blank s ->
  match init sc clk s with (Ok _, s') => owned s' | (Err _, s') => forall x, on s' x = false end.
Proof.
  intros Hb. pose proof (init_facts sc clk s Hb) as H. destruct (init sc clk s) as [[u|e] s1]; [|by destruct H].
  by destruct H as (c & _ & _ & _ & Ho & _).
Qed.

(** ** The whole life *)

(** Remark: with persistence the client reads its edge from the adaptive edge, which keeps the
    value it was constructed with: whatever quality edge is configured, the first decisions use
    0.02. *)
Theorem configured_edge_unused (sc : Result SecureConfig) (clk : nat -> Z) (s : t) :
  enablePersistence (cfg s) = true ->
  let '(r, s') := init sc clk s in r = Ok tt -> Application.edge_of (rest s') = Some (flit 2 100).
Proof.
  intros Ep. unfold init. destruct sc as [c|e]; [|done]. destruct (prepare_spec c (clk 0%nat) s) as (_ & P2 & _).
  generalize dependent (prepare c (clk 0%nat) s). intros s0 P2. pose proof (init_persistence_spec c (clk 0%nat) s0) as H.
  destruct (init_persistence c (clk 0%nat) s0) as [[[]|e] s1]; [|done]. destruct H as (_ & _ & _ & _ & _ & Hok).
  destruct (Hok eq_refl ltac:(congruence)) as [_ He]. intros _.
  destruct (cold_start_made (clk 0%nat) s1) as (_ & _ & _ & _ & C5). destruct (boot_made clk (cold_start (clk 0%nat) s1)) as (_ & _ & _ & _ & _ & B6 & _).
  destruct (init_telegram_made c (clk 0%nat) (boot clk (cold_start (clk 0%nat) s1))) as (_ & _ & _ & T4 & _).
  rewrite <- C5, <- B6, <- T4 in He. generalize dependent (init_telegram c (clk 0%nat) (boot clk (cold_start (clk 0%nat) s1))). intros s4 He _.
  unfold Application.edge_of. change (rest (set_state CApplication Running (clk 0%nat) s4)) with (rest s4). by rewrite He.
Qed.

(** The engine and the history, which [init] means to warm. *)
Definition warmth (s : t) : E * list RollingHistoryBuffer.HistoryRound :=
  (InProcessPredictionClient.engine (client s), RollingHistoryBuffer.buf (history s)).

Lemma seed_n1_warmth now s : RollingHistoryBuffer.buf (history s) = [] -> warmth (seed_n1 now s) = warmth s.
Proof.
  intros H. unfold seed_n1, recent_points, RollingHistoryBuffer.last_n. rewrite H. done.
Qed.

Lemma prewarm_warmth s : RollingHistoryBuffer.buf (history s) = [] -> warmth (prewarm s) = warmth s.
Proof.
  intros H. unfold prewarm, recent_points, RollingHistoryBuffer.last_n. rewrite H. done.
Qed.

Lemma turn_on_warmth x s : warmth (turn_on x s) = warmth s.
Proof. unfold turn_on. by destruct (on s x). Qed.

Lemma boot_warmth clk s : RollingHistoryBuffer.buf (history s) = [] -> warmth (boot clk s) = warmth s.
Proof.
  intros H. rewrite boot_effect. unfold acquire_lease. destruct (acquire _) as [[u|e] w]; [|done]. rewrite reseed_id.
  set (s1 := with_world _ _). assert (warmth s1 = warmth s) as H1 by done. clearbody s1.
  assert (warmth (prewarm (turn_on Renewal s1)) = warmth s) as H2.
  { rewrite prewarm_warmth; [by rewrite turn_on_warmth|].
    change (snd (warmth (turn_on Renewal s1)) = []). by rewrite turn_on_warmth, H1. }
  unfold when. destruct (has_poll s); [by rewrite turn_on_warmth|done].
Qed.

Lemma has_poll_warmth b s : warmth (s <| has_poll := b |>) = warmth s.
Proof. done. Qed.

Lemma has_socket_warmth b n s : warmth (s <| has_socket := b |> <| n1 := n |>) = warmth s.
Proof. done. Qed.

Lemma register_all_warmth now s : warmth (register_all now s) = warmth s.
Proof. done. Qed.

Lemma apply_config_warmth s : warmth (apply_config s) = warmth s.
Proof. done. Qed.

Lemma with_attempts_warmth o s : warmth (s <| rest ::= fun r => r <| Application.pipeline_attempts := o |> |>) = warmth s.
Proof. done. Qed.

Lemma prepare_warmth c now s : RollingHistoryBuffer.buf (history s) = [] -> warmth (prepare c now s) = warmth s.
Proof.
  intros H. unfold prepare. cbv zeta. rewrite has_poll_warmth.
  assert (warmth (register_all now (apply_config (s <| secure := Some c |>))) = warmth s) as H1
    by (by rewrite register_all_warmth, apply_config_warmth).
  generalize dependent (register_all now (apply_config (s <| secure := Some c |>))). intros s0 H1.
  rewrite <- (with_attempts_warmth (Some (PredictionAttemptCoordinator.make 50))) in H1.
  generalize dependent (s0 <| rest ::= fun r => r <| Application.pipeline_attempts := Some (PredictionAttemptCoordinator.make 50) |> |>).
  intros s1 H1. rewrite <- (has_socket_warmth true Application.n1_make) in H1. rewrite seed_n1_warmth; [done|].
  generalize dependent (s1 <| has_socket := true |> <| n1 := Application.n1_make |>). intros s2 H2.
  change (snd (warmth s2) = []). by rewrite H2.
Qed.

(** Remark: no round enters the engine before the first live one.  The seeder that [init] makes has
    neither the round repository nor the history client, so the seeding, the coordinator's
    [seedHistory] and the pre-warming of the boot have nothing to work on, whatever the database
    holds. *)
Theorem init_starts_cold (sc : Result SecureConfig) (clk : nat -> Z) (s : t) :
  RollingHistoryBuffer.buf (history s) = [] -> warmth (snd (init sc clk s)) = warmth s.
Proof.
  intros H. unfold init. destruct sc as [c|e]; [|done].
  pose proof (prepare_warmth c (clk 0%nat) s H) as H0.
  generalize dependent (prepare c (clk 0%nat) s). intros s0 H0.
  assert (warmth (snd (init_persistence c (clk 0%nat) s0)) = warmth s) as H1.
  { unfold init_persistence. destruct (negb _); [done|]. destruct (negb _); [done|]. destruct (connect _) as [[u|e] w]; [|done].
    by destruct (migrate _) as [[u'|e] w']. }
  destruct (init_persistence c (clk 0%nat) s0) as [[u|e] s1]; [|done]. cbn [snd] in *.
  assert (warmth (cold_start (clk 0%nat) s1) = warmth s) as H2.
  { unfold cold_start. rewrite reseed_id, seed_n1_warmth; [done|]. change (snd (warmth s1) = []). by rewrite H1. }
  generalize dependent (cold_start (clk 0%nat) s1). intros s2 H2. pose proof (boot_warmth clk s2) as H3.
  rewrite H2 in H3. specialize (H3 ltac:(change (snd (warmth s2) = []); by rewrite H2)).
  generalize dependent (boot clk s2). intros s3 H3. unfold init_telegram. by destruct (_ && _).
Qed.

Lemma start_shape now h : shape (start now h) = shape h.
Proof.
  assert (forall x s, shape (turn_on x s) = shape s) as Ht by (intros; unfold turn_on; by destruct (on _ _)).
  assert (forall b f s, shape (f s) = shape s -> shape (when b f s) = shape s) as Hw by (by intros []).
  assert (forall s, shape (start_supervisor s) = shape s) as Hs.
  { intros s. unfold start_supervisor, acquire_lease. destruct (acquire _) as [[u|e] w]; [|done]. by rewrite Ht. }
  assert (forall s, shape (start_socket now s) = shape s) as Hk.
  { intros s. unfold start_socket. by destruct (socket_start _) as [[u|e] w]. }
  unfold start. set (s5 := when (has_db h) _ _). transitivity (shape s5).
  { change (shape (when (has_socket h && enableNativeSocket (cfg h)) (start_socket now) s5) = shape s5). apply Hw, Hk. }
  unfold s5. by rewrite !Hw by (first [apply Ht|apply Hs]); rewrite ?Ht.
Qed.

Lemma owned_shape s s' : shape s' = shape s -> (forall x, on s' x = true -> on s x = true) -> owned s -> owned s'.
Proof.
  intros Hs Ho H x Hx. specialize (H x (Ho x Hx)). unfold shape in Hs. injection Hs as E1 E2 E3 E4 E5 E6 E7 E8 E9.
  destruct x; cbn in H |- *; congruence.
Qed.

Lemma owned_start now h : owned h -> owned (start now h).
Proof.
  intros H x Hx. pose proof (start_shape now h) as Hs. unfold shape in Hs. injection Hs as E1 E2 E3 E4 E5 E6 E7 E8 E9.
  apply start_on in Hx as [Hx|Hx]; [specialize (H x Hx)|]; destruct x; cbn in H |- *; congruence.
Qed.

Lemma turn_flags clk s : shape (turn clk s) = shape s /\ on (turn clk s) = on s.
Proof.
  unfold turn. destruct (drain_flags clk s) as (Hs & Ho & _). set (s1 := drain clk s) in *. clearbody s1.
  cbv zeta. rewrite <- Hs, <- Ho. unfold when. by destruct (has_db _).
Qed.

Lemma turns_owned turns : forall s, owned s ->
  owned (fold_left (fun s (x : (EventRouter.t QE -> EventRouter.t QE) * (nat -> Z)) => turn (snd x) (s <| router ::= fst x |>)) turns s).
Proof.
  induction turns as [|[f clk] turns IH]; intros s H; [done|]. cbn [fold_left fst snd]. apply IH.
  destruct (turn_flags clk (s <| router ::= f |>)) as [Hs Ho]. apply (owned_shape s); [done|by rewrite Ho|done].
Qed.

Lemma on_set_state id x now s : on (set_state id x now s) = on s.
Proof. done. Qed.

Lemma on_router f s : on (s <| router ::= f |>) = on s.
Proof. done. Qed.

Lemma turns_on turns : forall s, let s' :=
    fold_left (fun s (x : (EventRouter.t QE -> EventRouter.t QE) * (nat -> Z)) => turn (snd x) (s <| router ::= fst x |>)) turns s in
  on s' = on s /\ shape s' = shape s.
Proof.
  induction turns as [|[f clk] turns IH]; intros s; [done|]. cbn [fold_left fst snd].
  destruct (turn_flags clk (s <| router ::= f |>)) as [Hs Ho]. destruct (IH (turn clk (s <| router ::= f |>))) as [-> ->]. by rewrite Ho, Hs.
Qed.

(** The statistics server is always started. *)
Lemma start_stats now h : on (start now h) Stats = true.
Proof.
  assert (forall x s, on s Stats = true -> on (turn_on x s) Stats = true) as Ht by (intros x s H; rewrite on_turn_on; by case_decide).
  assert (forall b f s, (forall s, on s Stats = true -> on (f s) Stats = true) -> on s Stats = true -> on (when b f s) Stats = true) as Hw
    by (intros [] f s Hf H; [by apply Hf|done]).
  unfold start. change (on (?x <| running := true |>) Stats) with (on x Stats).
  apply Hw; [|repeat (apply Hw; [by intros; apply Ht|])].
  - intros s H. unfold start_socket. destruct (socket_start _) as [[u|e] w]; [|done]. rewrite on_set_state.
    rewrite on_set_on. by case_decide.
  - apply Hw; [|rewrite on_turn_on; by case_decide]. intros s H. unfold start_supervisor, acquire_lease.
    destruct (acquire _) as [[u|e] w]; [|done]. by apply Ht.
Qed.

(** What a run is before its last stop, with the services before the statistics server stopped. *)
Notation before_stats clk arrive s := (stop_first (clk 0%nat) (drain_passes 20 arrive clk (s <| running := false |>))) (only parsing).

(** The services that are stopped before the statistics server. *)
Definition stops_first (s : t) (x : Service) : bool :=
  match x with Notification => true | Poll | Renewal => has_boot s | _ => false end.

Lemma before_stats_on clk arrive s x : owned s -> on (before_stats clk arrive s) x = on s x && negb (stops_first s x).
Proof.
  intros Ho. rewrite stop_first_on.
  destruct (drain_passes_flags 20 arrive clk (s <| running := false |>)) as (Hs & Hon & _). revert Hs Hon.
  generalize (drain_passes 20 arrive clk (s <| running := false |>)). intros s2 Hs Hon. rewrite Hon.
  change (on (s <| running := false |>)) with (on s). change (shape (s <| running := false |>)) with (shape s) in Hs.
  unfold shape in Hs. injection Hs as E1 E2 E3 E4 E5 E6 E7 E8 E9. rewrite E4, E7, E9.
  specialize (Ho x). revert Ho. unfold stops_first.
  destruct (on s x), x, (has_notification s), (has_boot s), (has_poll s); cbn; intros Ho; repeat case_decide; try done; by specialize (Ho eq_refl).
Qed.

Lemma stop_services_spec now h : owned h -> on (stop_first now h) Stats = true ->
  fst (stop_services now h) = accept_returns (Application.world (rest (stop_first now h))) /\
  forall x, on (snd (stop_services now h)) x = if fst (stop_services now h) then false else on (stop_first now h) x.
Proof.
  intros Ho Hst. pose proof (fun x => stop_services_on now h x Ho) as Hoff. unfold stop_services in *. rewrite Hst in *.
  destruct (accept_returns _); cbn [negb andb fst snd] in *; (split; [done|]); [|done]. intros x. by apply Hoff.
Qed.

Lemma stop_eq arrive clk s : stop arrive clk s =
  let '(returned, s) := stop_services (clk 0%nat) (drain_passes 20 arrive clk (s <| running := false |>)) in
  let s := s <| router ::= arrive 20%nat |> in
  (returned, if returned then set_state CApplication Stopped (clk 1%nat) s else s).
Proof. reflexivity. Qed.

(** After the passes of the drain. *)
Lemma stop_rest arrive clk s h : owned h -> on (stop_first (clk 0%nat) h) Stats = true ->
  (forall x, on (stop_first (clk 0%nat) h) x = on s x && negb (stops_first s x)) ->
  let '(returned, s') :=
    (let '(returned, s) := stop_services (clk 0%nat) h in
     let s := s <| router ::= arrive 20%nat |> in
     (returned, if returned then set_state CApplication Stopped (clk 1%nat) s else s)) in
  returned = accept_returns (Application.world (rest (stop_first (clk 0%nat) h))) /\
  forall x, on s' x = if returned then false else on s x && negb (stops_first s x).
Proof.
  intros Ho Hst Hb. destruct (stop_services_spec (clk 0%nat) h Ho Hst) as [<- Hx].
  destruct (stop_services (clk 0%nat) h) as [[] s2]; cbn [fst snd] in *; (split; [done|]); intros x.
  - rewrite on_set_state, on_router. apply Hx.
  - rewrite on_router, Hx. apply Hb.
Qed.

(** [stop] takes every service down, if it returns. *)
Lemma stop_spec arrive clk s : owned s -> on s Stats = true ->
  let '(returned, s') := stop arrive clk s in
  returned = accept_returns (Application.world (rest (before_stats clk arrive s))) /\
  forall x, on s' x = if returned then false else on s x && negb (stops_first s x).
Proof.
  intros H Hst. pose proof (fun x => before_stats_on clk arrive s x H) as Hb. rewrite stop_eq. apply stop_rest.
  - destruct (drain_passes_flags 20 arrive clk (s <| running := false |>)) as (Hs & Hon & _).
    apply (owned_shape s); [exact Hs|by rewrite Hon|exact H].
  - exact (eq_trans (Hb Stats) (f_equal (fun b => b && true) Hst)).
  - exact Hb.
Qed.

End S.
End Startup.

(** * A concrete application *)

Definition demo_secure : SecureConfig := {|
  sc_telegram := {| TelegramClient.botToken := "t"; TelegramClient.chatId := "1"; TelegramClient.extraChatIds := [] |};
  sc_database := {| connectionString := "db" |}; sc_bcgame := {| signKey := ""; userAgent := "" |};
  sc_logLevel := "info"; sc_production := false |}.

Definition demo_config : ApplicationConfig :=
  toApplicationConfig {["persistence" := {["enabled" := "true"]}]}.

Definition demo_app : Startup.t (QE := BoundedQueue.t CrashEvent) (QO := BoundedQueue.t Outcome) (QI := BoundedQueue.t OutboxItem)
    (E := nat) (W := unit) := {|
  Startup.cfg := demo_config; Startup.secure := None; Startup.log_level := Logger.Info; Startup.components := ∅;
  Startup.router := EventRouter.make (fun _ => demo_backlog) 4 None; Startup.n1 := Application.n1_make; Startup.client := eager_client;
  Startup.validator := demo_live; Startup.rest := demo_rest; Startup.recent := RecentRoundCache.make 8; Startup.has_socket := false;
  Startup.has_poll := false; Startup.has_db := false; Startup.has_supervisor := false; Startup.has_boot := false;
  Startup.has_telegram := false; Startup.has_notification := false; Startup.on := fun _ => false; Startup.running := false |}.

#[local] Notation demo_init :=
  (Startup.init demo_observe (fun w => (Ok tt, w)) (fun w => (Ok tt, w)) (D := LeaseDb.t) (fun _ => f0) (fun _ => None) (fun _ => "2.0000")
    (fun _ => []) (fun _ w => (Err (err NetworkError ""), w)) (fun w => (Ok tt, w)) id (fun _ w => w) (fun _ w => w)
    (Ok demo_secure) (fun i => 100 + Z.of_nat i)) (only parsing).

(** Everything is configured and the database is there. *)
Lemma init_spec_witness :
  Startup.has_notification (snd (demo_init demo_app)) = true /\ Startup.has_poll (snd (demo_init demo_app)) = true /\
  Startup.on (snd (demo_init demo_app)) Batch = false.
Proof.
  assert (fst (demo_init demo_app) = Ok tt) as Hr by (vm_compute; reflexivity).
  pose proof (Startup.init_spec demo_observe (fun w => (Ok tt, w)) (fun w => (Ok tt, w)) (D := LeaseDb.t) (fun _ => f0) (fun _ => None)
    (fun _ => "2.0000") (fun _ => []) (fun _ w => (Err (err NetworkError ""), w)) (fun w => (Ok tt, w)) id (fun w => (Ok tt, w)) (fun _ w => w) (fun _ w => w) id id (fun _ => true)
    (Ok demo_secure) (fun i => 100 + Z.of_nat i) demo_app) as H.
  destruct (demo_init demo_app) as [r s']. cbn [fst snd] in *. subst r.
  destruct H as (c & Hc & _ & _ & _ & Hon & Hp & Hd & _ & Ht & Hn & _); [by split_and!|]. injection Hc as <-.
  split_and!; [by rewrite Hn, Ht, Hd|by rewrite Hp|].
  destruct (Startup.on s' Batch) eqn:Eb; [|done]. by destruct (Hon Batch Eb) as [?|[? _]].
Defined.

#[local] Notation demo_run returns turns :=
  (Startup.run demo_observe demo_cold demo_predict no_db (fun _ w => (Ok tt, w)) (fun _ => "1.30") (fun _ => "1.3") (fun _ => false)
    (fun w => (Ok tt, w)) (fun w => (Ok tt, w)) (D := LeaseDb.t) (fun _ => f0) (fun _ => None) (fun _ => "2.0000")
    (fun _ => []) (fun _ w => (Err (err NetworkError ""), w)) (fun w => (Ok tt, w)) id (fun w => (Ok tt, w)) (fun _ w => w)
    (fun _ w => w) id id (fun _ => returns) (Ok demo_secure) (fun i => 100 + Z.of_nat i) turns (fun _ => id) demo_app) (only parsing).


(** * Health *)
Module AppHealth.
Section S.
Context {QE QO QI E W D Q A T : Type} `{!BoundedFifo QI OutboxItem}.
(** The default notation of a double in a stream. *)
Variable print : double -> string.

Notation App := (Startup.t (QE := QE) (QO := QO) (QI := QI) (E := E) (W := W)).

Definition running_text (s : App) (x : Service) : string := if Startup.on s x then "running" else "stopped".

(** The text of an object that exists. *)
Definition shown (present : bool) (text : string) : string := if present then text else "".

(** What the application adds to the summary; [authority] is the answer of the supervisor, [edge] the
    current adaptive edge; the statistics server is made by [start] ([served]). *)
(* @src include/application/application.hpp:541-557 Application::health *)
Definition extra (s : App) (served authority : bool) (f : DeliveryForensics.t) (edge : double) (funnel : Funnel.t) (skew : ClockSkewMonitor.t) : string :=
  let fb := Application.feedback (Startup.rest s) in
  " db=" +:+ (if Startup.has_db s then "connected" else "absent") +:+
  shown (Startup.has_poll s) (" poll=" +:+ running_text s Poll) +:+
  shown (Startup.has_telegram s) (" outbox_worker=" +:+ running_text s OutboxSender) +:+
  shown (Startup.has_notification s) (" notification_worker=" +:+ running_text s Notification) +:+
  shown (Startup.has_db s) " batch_writer=present" +:+
  shown served (" stats_server=" +:+ running_text s Stats) +:+
  shown (Startup.has_supervisor s) (" supervisor=" +:+ (if authority then "authority" else "no_authority")) +:+
  shown (Startup.has_boot s) " live_boot=present" +:+
  shown (Startup.has_telegram s) " telegram=present" +:+
  " feedback_applied=" +:+ to_string (ExactlyOnceFeedback.applied fb) +:+
  " feedback_dup=" +:+ to_string (ExactlyOnceFeedback.duplicates fb) +:+
  " forensics=" +:+ to_string (DeliveryForensics.events f) +:+
  " adaptive_edge=" +:+ print edge +:+ " " +:+ Funnel.report funnel +:+
  " mean_skew_ms=" +:+ print (ClockSkewMonitor.mean skew).

(** The health of an initialised application. *)
(* @src include/application/application.hpp | SystemHealth health() const { *)
Definition health (socket : NativeBcGameSocket.t (D := D) (Q := Q) (A := A)) (pool : WorkerPool.t T) (s : App) (served authority : bool)
    (f : DeliveryForensics.t) (edge : double) (funnel : Funnel.t) (skew : ClockSkewMonitor.t) : Health.SystemHealth :=
  let r := Startup.rest s in
  let h := Health.collect (if Startup.has_socket s then Some socket else None) (Some pool)
             (Some (DurableHandoff.outbox (Application.handoff r))) (Some (Startup.components s)) (Some (Application.metrics r)) in
  let skewed := ClockSkewMonitor.isSkewed skew (of_Z 2000) in
  {| Health.healthy := Health.healthy h && negb skewed; Health.connection := Health.connection h;
     Health.predictionQueue := Health.predictionQueue h; Health.validationQueue := Health.validationQueue h;
     Health.outboxQueue := Health.outboxQueue h; Health.workers := Health.workers h;
     Health.summary := Health.summary h +:+ extra s served authority f edge funnel skew +:+ shown skewed " SKEWED" |}.

(** Remark: Only the socket and the clock make the application unhealthy: without a database, without
    authority, with every service stopped and a full outbox it reports to be healthy. *)
Theorem health_ignores_services socket pool (s : App) served authority f edge funnel skew :
  Health.healthy (health socket pool s served authority f edge funnel skew) = true <->
  (Startup.has_socket s = true -> NativeBcGameSocket.healthy socket = true) /\ ClockSkewMonitor.isSkewed skew (of_Z 2000) = false.
Proof.
  cbn [health Health.healthy]. rewrite andb_true_iff, negb_true_iff. unfold Health.collect. cbn [Health.healthy].
  destruct (Startup.has_socket s); cbn; naive_solver.
Qed.
End S.
End AppHealth.

(** * The configuration file of the application *)

(** A file that cannot be read leaves the configuration as it is. *)
(* @src include/application/application.hpp | Result<void> loadConfigFile( *)
Definition loadConfigFile (read : string -> option string) (path : string) (cfg : ApplicationConfig) : Result unit * ApplicationConfig :=
  match TomlConfig.loadFile read path with
  | Err e => (Err e, cfg)
  | Ok toml => (Ok tt, toApplicationConfig toml)
  end.
